(* ===== verification/_CoqProject ===== *)
-Q . S2P
Prelude.v
PyStr.v
PyNum.v
PyVal.v
DateParse.v
Formatters.v
ProductEap.v
ProductFuse.v
Fingerprints.v
Merge.v
MergePasses.v
MergeProps.v
Json.v
Base64.v
NetworkUtils.v
Processing.v
Processors.v
ProcessingProps.v
ScanModel.v
ScanFlow.v
TaskStats.v
NetworkConnect.v
InspectCallback.v
ApiCommon.v
Users.v
SecureTokens.v
Lightspeed.v
Sources.v
SourceProps.v
Credentials.v
CredentialApi.v
HashicorpVault.v
Scans.v
RawFacts.v
NetworkInspect.v
RemoteTask.v
HttpSession.v
Rhacs.v
AnsibleController.v
Vcenter.v
Satellite.v
OpenShift.v
ScanDeletion.v
JobApi.v
Csv.v
Reports.v
Deployments.v
Aggregate.v
FingerprintTask.v
ReportFiles.v
Insights.v
Publish.v
ReportViews.v
Normalizer.v
