(* ===== verification/Prelude.v ===== *)
(** * quipucords: a model of the scan server, and its theorems

    quipucords (Discovery) inspects hosts and management servers, turns the raw
    facts it collects into one fingerprint per system, and merges the fingerprints
    of all sources into a deployments report.  This library models the Python code
    under [src/quipucords/] that carries this logic and proves what makes it
    correct.  File names below without a directory are files of this library;
    those with a slash are relative to [src/quipucords/].

    ** The program and its model

    A user starts a scan job.  The manager hands it to Celery; the job creates a
    task for each source and a last one for the fingerprint.  A network task first
    connects to the hosts, then runs Ansible, collects the facts from its events
    and processes them one by one.  The fingerprint task reads the raw facts of all
    sources, makes a fingerprint of each, removes duplicates and merges them.
    Credentials and sources, which a scan uses, come from the REST API; it also
    gives the reports on the raw facts (details), on the fingerprints
    (deployments), their totals (aggregate) and the tarball for Insights, which a
    user who is logged in to Lightspeed can publish.

    - Base.  This file: exceptions as values ([Res]), loops that may raise
      ([foldM], [filterM], [anyM]), sets as lists ([dedup]), automation and the
      hint databases.  [PyStr.v]: [str] on UTF-8 bytes.  [PyNum.v]: [int] and
      [float] (IEEE 754, correctly rounded), parsing and printing.  [PyVal.v]: the
      values [pyval] that facts and fingerprints are made of, dicts in insertion
      order, truth, equality, indexing and the exceptions of the wrong type,
      [utils/deepget.py], [utils/default_getter.py] and the conversions of
      [api/common/util.py].  [DateParse.v]: [datetime.strptime].  [Json.v]:
      [json.loads].  [Base64.v]: the decoders of [base64] and UTF-8, with an encoder
      as their reference.
    - Scan jobs.  [ScanModel.v]: the tables, and the state machines of
      [api/scantask/model.py] (Module [Task]) and [api/scanjob/model.py] (Module
      [Job]).  [ScanFlow.v]: [scanner/runner.py], [scanner/job.py],
      [scanner/tasks.py], [scanner/manager.py].  What a task runner does is behind
      the interface [TaskRunner], the laws that every runner keeps when the row of
      its task was just saved: it leaves jobs and tasks to its caller, and only when
      it raises may its own task be failed already.  The theorems on the life of a
      job hold for all its instances, of which there is one for each type of source;
      [TaskStats.v] is what most of them share.  [RawFacts.v]: the tables of inspection
      groups, results and raw facts, lists in the order of the keys, with what
      reads and writes them: uploads ([ingest_sources]), the facts of a task or a
      report ([get_facts], [raw_facts]), the merge of reports and the clean-up of
      results without an identity ([api/inspectresult/model.py],
      [api/report/], [api/merge_report/], [api/scanjob/model.py],
      [api/scantask/model.py]).
    - Network scans.  [NetworkUtils.v]: addresses and Ansible inventories
      ([scanner/network/utils.py]).  [NetworkConnect.v]: the connection phase
      ([scanner/network/inspect.py], [connect_callback.py]), on top of the task of
      [ScanModel.v].  [InspectCallback.v]: facts out of events
      ([inspect_callback.py]).  [NetworkInspect.v]: the inspection phase, its runs
      of Ansible one after the other, and [execute_task], both phases in sequence;
      it is the instance of [TaskRunner] for network scans.  [Processing.v]: the processing framework
      ([processing/process.py], [util.py] and [_post_process_facts]).
      [Processors.v]: the 77 processors and their registry.  [ProcessingProps.v]:
      their theorems.
    - Scans of servers.  [RemoteTask.v]: the state of a runner, a monad for its
      methods, which change the state even when they raise, the operations on
      results and statistics that the runners repeat, and rules to reason about
      them.  [HttpSession.v]: [compat/requests.py].  Then a Module for each type of
      source, with the functions of its directory under [scanner/]: [Rhacs.v],
      [AnsibleController.v], [Vcenter.v], [Satellite.v] and [OpenShift.v].
    - Fingerprints.  [Formatters.v]: [fingerprinter/formatters.py],
      [fingerprinter/utils.py].  [ProductEap.v], [ProductFuse.v]: the detection of
      JBoss products.  [Fingerprints.v]: from a raw fact to a fingerprint, the
      first half of [fingerprinter/runner.py], and the shape [wf_fp] of a
      fingerprint.  [Merge.v]: the second half, from [_process_sources] to
      [_merge_fingerprint], and the contract [merged_from] of a merge.
      [MergePasses.v]: what each pass guarantees.  [MergeProps.v]: the pipeline.
      [Normalizer.v]: [scanner/normalizer.py] (Module [Framework]) and
      [scanner/network/normalizer.py] (Module [Network]).  [FingerprintTask.v]:
      the task that runs them: its facts, the fields of the fingerprint serializer,
      the rows it writes and the files of the report it renews.
    - The REST API.  [ApiCommon.v]: unique names, identifiers and bulk deletion
      ([api/common/util.py], [credential_bulk_delete_ids]).  [Sources.v]: the
      source model, its field hooks, validation, creation, update and deletion in
      both API versions ([api/source/]); [SourceProps.v]: their theorems.
      [Credentials.v]: the credential serializers and their encryption
      ([api/credential/]); [CredentialApi.v]: the V1 API, what the answers of both
      show, key files and single deletion.  [Scans.v]: scans, their options and their validation
      ([api/scan/model.py], [api/scan/serializer.py]).  [ScanDeletion.v]: deletion
      of scans with the jobs and results they own, and the revocation of their
      tasks ([api/scan/view.py], [api/signal/], [scanner/manager.py]).  [JobApi.v]:
      cancelling a job, its connection results and its counts through the V1 API
      ([api/scanjob/view_v1.py], [serializer_v1.py], [queryset.py]).
    - Accounts and publishing.  [Users.v]: the single user of the server, expiring
      tokens and feature flags ([quipucords/user.py], [quipucords/featureflag.py],
      [api/user/]).  [SecureTokens.v]: the table of secrets
      ([api/secure_token/model.py]), where an object in memory may be older than its
      row.  [Lightspeed.v]: login, logout and status of a user, and the task that
      polls the SSO server ([api/auth/lightspeed/], [api/auth/utils.py]); requests,
      tasks and polls are the steps of one transition system.  [HashicorpVault.v]:
      the definition of the vault and the secrets read from it
      ([api/auth/hashicorp_vault/]).  [Publish.v]: when a report can be published,
      the requests and the task that uploads it, again a transition system
      ([api/publish/], [api/common/lightspeed.py], [api/insights_report/payload.py]).
    - Reports.  [Csv.v]: the [csv] module's writer and a reader.  [Reports.v]:
      validation and CSV of details reports ([api/details_report/util.py],
      [api/common/common_report.py]).  [Deployments.v]: the CSV of deployments
      reports and its file cache ([api/deployments_report/]); [ReportFiles.v]: the
      cached files, the tasks and the command that write them again, the view that
      reads them and their deletion.  [Aggregate.v]:
      [api/aggregate_report/model.py], [utils/datetime.py].  [Insights.v]: the
      Insights report ([api/common/entities.py],
      [api/insights_report/serializers.py]).  [ReportViews.v]: the views of a report
      and the files of its archive ([api/report/view.py], [view_v1.py],
      [reports_gzip_renderer.py]).

    A Python function has the same name here.  A method that mutates an object
    takes it and returns it; a table is a [gmap] from primary keys to rows, and an
    object in memory is a value apart from its row, so that stale objects can be
    told from the database (Theorems [stale_save_revives], [failed_start_no_effect]).
    The exceptions of the code are the [Err] of [Res], and where an exception
    leaves the state changed the state is returned beside the result.

    ** What the theorems show

    - The merge.  [_merge_fingerprint] refines its specification
      ([merge_fingerprint_refines]); the passes never raise on well-formed
      fingerprints, keep every source and leave no duplicate identifier
      ([remove_duplicates_spec], [matching_lossless], [deduplication_safe],
      [merged_entitlements_distinct]); the creation date is that of the surest raw
      date ([creation_date_spec]); a raw fact of any source gives a well-formed
      fingerprint ([fingerprint_well_formed]).  Four theorems show where the code
      loses or doubles a system or fails ([reverse_tuple_ignored],
      [shared_mac_loses_system], [partial_match_duplicates],
      [unknown_source_type_raises]).
    - Jobs.  The status methods follow the documented transitions and final states
      are final ([job_transitions], [terminal_status_final]); a cancel request ends a
      job with its unfinished tasks and nothing else ([cancel_spec]); queueing creates the
      right tasks ([queue_creates_tasks]); cancelling, pausing, restarting and
      deleting results touch what they should and nothing else; every started scan
      ends ([scan_ends], [finalize_outcome], [run_task_runner_outcome]).  The
      fingerprint task stores the fingerprints that the serializer and the database
      accept, caches those stored in full, and completes the report or fails with
      the job's message ([fingerprint_task_spec]).
    - Raw facts.  What an upload stores is what the report reads back
      ([ingest_roundtrip]), a source without facts fails ([empty_source_fails]);
      merged reports keep every result ([merge_reports_spec]); the clean-up removes
      the results without an identity and no other ([cleanup_facts_spec]).
    - Network scans.  Every host is accounted for ([connect_accounts_hosts]), the
      inventory loses none ([construct_inventory_groups]), the inspection phase
      gives a result to each connected host, reached or not ([inspect_covers_hosts],
      [inspect_scan_spec]), the network runner keeps the laws of [TaskRunner]
      whatever Ansible does ([network_runner_contract]), results say what the
      events said ([inspect_results_spec]), the facts stored are the processed ones
      ([post_process_facts_spec]) and [process] raises in one case only
      ([process_raises]); the parsers of [yum], [ip], installed products and the
      system purpose are characterised, and the IPv4 test exactly ([ipv4_iff]).
      [first_credential_decides] shows that a credential without success ends the
      phase.
    - Scans of servers.  For each type of source a theorem describes the whole
      inspection, the rows it stores and the statistics it leaves
      ([satellite_inspection_spec], [openshift_inspection_spec],
      [vcenter_inspection_spec], [ansible_inspection_spec],
      [rhacs_inspection_spec]), and an instance of [TaskRunner] links it to the life
      of a job.  Listings lose nothing, in whatever order their pages come
      ([paginated_complete]); the climb to a datacenter ends
      ([cluster_datacenter_spec]); the addresses of a host, the workloads of a
      cluster and quantities of memory are what they should be
      ([host_addresses_spec], [workloads_first_pods], [memory_quantities]).  Where
      the code fails: an inspection without facts that counts as completed, a
      counter that counts twice, a warning that ends the scan
      ([unreadable_subscriptions_fail]), version 1 of the Satellite API
      ([v1_details_without_organization], [v1_counts_first_organization]).
    - Product detection and formatters: provenance and decision rules
      ([eap_detection], [version_aware_dedup_spec], [fuse_provenance],
      [ws_decision]), exceptions let through ([int_or_none_error], [deepget_safe]).
    - Normalizers.  For a class whose dependencies come first [normalize] computes
      each fact from its dependencies, and raises only when a function claims a raw
      fact it may not read ([normalize_spec]); the network normalizer never does and
      agrees with the fingerprinter ([network_normalizer_agrees]).
    - Sources, credentials and scans.  Any sequence of requests keeps every source
      well formed ([sources_invariant]); creation, update and the address test are
      characterised ([create_source_spec], [update_source_spec],
      [validate_addresses_spec]); a credential has at most one way to authenticate
      ([credential_auth_exclusive], [v1_rows_invariant]) and no answer tells a
      secret ([responses_hide_secrets]); secrets are encrypted once and decrypt to what
      was given ([encrypt_fields_roundtrip]); bulk deletion deletes what nothing
      uses ([bulk_delete_spec]).  Any sequence of requests keeps every scan well
      formed ([scans_invariant], [update_scan_spec]), its options survive the round
      trip through the database ([scan_options_roundtrip]), and deleting it removes
      its jobs, their tasks and results, and only these ([destroy_scan_spec]).
    - Reports.  Both CSV files can be read back ([details_csv_roundtrip],
      [deployments_csv_spec]); validation sorts the sources
      ([validation_sorts_sources]); the aggregate is a sum over the fingerprints
      ([aggregate_counts], [average_date_mean]) and is cached, for better or worse
      ([aggregate_report_stored]); after the command that renews the cached files
      none is missing and every completed report is served
      ([regenerate_missing_files], [completed_reports_served]); the archive holds every
      report, each with its digest ([archive_complete]); the Insights payload holds
      every host once ([slices_cover_hosts], [payload_files], [host_representation_spec],
      [provider_id_stable]).

    - Accounts and publishing.  The command for the account leaves one user whose
      password is known to who asked for it ([create_or_update_user_spec]).  Waiting
      for an authorisation ends, whatever the server does and others do meanwhile
      ([wait_for_authorization_ends]), and tokens stay consistent
      ([tokens_invariant], [jwt_roundtrip]), but a late poll writes old values back
      ([late_failure_overwrites]).  There is one vault definition at most and a client
      can be made of it ([vault_requests]); what reading a secret gives or
      raises is told for each answer of the vault ([read_vault_secret_spec]), among
      them a time-out that is not caught ([read_timeout_escapes]).  A report has one pending publish request at most
      ([publish_lifecycle]); its task stores the outcome with the code of its cause
      ([publish_outcome], [can_publish_iff]).

    ** Fuel and bounds

    Recursion is structural except in [json_loads] and its string scanner (fuel is
    twice the length of the text plus one; [json_loads_fuel] shows it never runs
    out), in [system_purpose_loop] ([system_purpose_spec]) and in [chunks]
    ([chunks_spec]), in [range_go] (one step for each element, [range_length]),
    in [deep_sort] (the depth of the value) and in [find_month], which looks at
    the eleven other months at most.  [shortest] in [PyNum.v], which prints floats, tries 17
    digits at most, enough for a binary64 value.  [climb] takes as many steps as there
    are folders, enough unless they form a cycle ([cluster_datacenter_spec],
    [cyclic_folders]).  The pages of a listing of a Satellite or vCenter are bounded by
    a parameter, since a server may never end one; the theorems ask for as much as
    the listing has pages.  [polls] needs as many steps as polls fit in the life
    of a device code, its length divided by the interval plus one, and no fewer
    ([wait_for_authorization_ends], [four_polls_are_not_enough]).

    ** External code

    Parameters of the definitions that use them: the identifiers of
    [uuid.uuid4], the clock, the environment, users and files of the server, the work of task runners, the outcome of a run of
    Ansible (its events and final status), the vault, the expansion of host
    patterns, the fact names set by the playbooks, and settings; the digest of
    provider identifiers, the environment variables, the test of host names
    ([FQDN]) and the encryption; the key files of uploads, the validation of a
    fingerprint's fields and the database's acceptance of a row, the
    identifiers and the revocation of Celery tasks.  The fields of a serializer are
    parsed by the framework: its documented rules are the hypotheses [parsed],
    [FieldRules] and [FieldRulesV1], and instances are proved for the last two.  A server is a function
    from the number of the request and the request to its answer or exception, so
    that it may change its mind; with it come the classes of the exceptions of
    [requests] and of the Kubernetes client, the access to the objects of that
    client, the conversions of pydantic, the secrets of HashiCorp Vault (for the
    runners; [HashicorpVault.v] reads them, with the library [hvac] external) and the
    order in which threads complete.  Password hashing and validators, random keys and
    the making of tar files are parameters too.  The inventory of pyVmomi is its documented tree of
    objects and properties.  An exception in an
    event handler is taken to end the run of Ansible, as its documentation
    has it.  Celery executes one task at a time; the tasks of a group may come in
    any order.

    ** Limits

    Text is bytes: operations that classify characters are Python's on ASCII.
    Sets are lists without repetition, in the order of first insertion; results
    about them speak of membership.  Dict keys are strings.  Log lines are left
    out, except where evaluating them raises.  The nesting limit of the interpreter
    is not modelled.  The Celery tasks of the hosts of a Satellite run in the order of
    the hosts, and a listing is read to its end before they start, where the code
    reads it as it prepares them.

    Inspection results are rows of [ScanModel.v] where jobs and tasks count and
    delete them, and rows with their facts in [RawFacts.v]: two views of one table.

    A request to publish a report, and one that defines the vault, is one step: what
    two of them at the same time can do is shown by examples.

    Not modelled: lists, pages, filters and renderers of the REST API beyond the
    functions named above, so of [api/scanjob/view.py] the lists, of
    [api/scanjob/view_v1.py] the inspection results, and the CSV and tar renderers,
    which call modelled functions; settings and migrations, which are configuration or
    generated; how the clients of remote services are configured (adapters and
    retries, tokens, the queries given to pyVmomi). *)
From stdpp Require Import base gmap sets list strings sorting.
From Stdlib Require Import SpecFloat.

(** ** Python exceptions and the error monad

    Every fallible operation of the code returns [Res A]: a value, or the
    exception that the Python expression raises. *)

Inductive exn : Type :=
| TypeError
| ValueError
| KeyError (key : string)
| IndexError
| AttributeError (attr : string)
| OverflowError
| ZeroDivisionError
| RecursionError
| NotImplementedError
| AssertionError (msg : string)
| ScanFailureError (msg : string)
| ValidationError (detail : list (string * list string))
| ParseError
| DoesNotExist
| UnboundLocalError (name : string)
| HTTPError (status : Z)
| OCPError (status : option Z) (reason message : option string)
| LightspeedAuthError (message : string)
| HashiCorpVaultAuthError (message : string)
| PublishError (message error_code : string)
| OtherException (name : string)
| Unsupported.

Inductive Res (A : Type) : Type :=
| Ok (a : A)
| Err (e : exn).
Arguments Ok {A} _.
Arguments Err {A} _.

Declare Scope py_scope.
Delimit Scope py_scope with py.

#[export] Instance res_ret : MRet Res := fun A a => Ok a.
#[export] Instance res_bind : MBind Res := fun A B f m =>
  match m with Ok a => f a | Err e => Err e end.
#[export] Instance res_fmap : FMap Res := fun A B f m =>
  match m with Ok a => Ok (f a) | Err e => Err e end.

Definition is_Ok {A} (m : Res A) : Prop := exists a, m = Ok a.
Definition is_ok {A} (m : Res A) : bool := match m with Ok _ => true | Err _ => false end.

(** [try m except <caught>: h], the handler running on the exceptions that
    [caught] selects. *)
Definition try_except {A} (m : Res A) (caught : exn -> bool) (h : exn -> Res A) : Res A :=
  match m with
  | Ok a => Ok a
  | Err e => if caught e then h e else Err e
  end.

Definition is_value_error (e : exn) : bool :=
  match e with ValueError => true | _ => false end.
Definition is_type_error (e : exn) : bool :=
  match e with TypeError => true | _ => false end.
Definition any_exn (e : exn) : bool := true.

Definition from_option {A} (e : exn) (o : option A) : Res A :=
  match o with Some a => Ok a | None => Err e end.

(** A loop that threads a state and stops at the first exception. *)
Fixpoint foldM {A B} (f : A -> B -> Res A) (a : A) (l : list B) : Res A :=
  match l with
  | [] => Ok a
  | b :: l => a' ← f a b; foldM f a' l
  end.

(** A comprehension [[x for x in l if p x]] whose test may raise. *)
Fixpoint filterM {A} (p : A -> Res bool) (l : list A) : Res (list A) :=
  match l with
  | [] => Ok []
  | x :: l => b ← p x; r ← filterM p l; Ok (if (b : bool) then x :: r else r)
  end.

(** [any(p x for x in l)], left to right, stopping at the first true. *)
Fixpoint anyM {A} (p : A -> Res bool) (l : list A) : Res bool :=
  match l with
  | [] => Ok false
  | x :: l => b ← p x; if (b : bool) then Ok true else anyM p l
  end.

(** The first occurrence of each element, in order: the list form of a Python
    [set] built from the list.  Python leaves the iteration order of a set
    unspecified, so the results about it only speak of membership. *)
Fixpoint dedup {A} `{EqDecision A} (l : list A) : list A :=
  match l with
  | [] => []
  | x :: l => x :: filter (fun y => y <> x) (dedup l)
  end.

(** ** Lemmas on the error monad *)

Lemma bind_Ok {A B} (m : Res A) (f : A -> Res B) b :
  m ≫= f = Ok b <-> exists a, m = Ok a /\ f a = Ok b.
Proof. destruct m; cbn; naive_solver. Qed.

Lemma fmap_Ok {A B} (m : Res A) (f : A -> B) b :
  f <$> m = Ok b <-> exists a, m = Ok a /\ f a = b.
Proof. destruct m; cbn; naive_solver. Qed.

Lemma bind_assoc {A B C} (m : Res A) (f : A -> Res B) (g : B -> Res C) :
  (m ≫= f) ≫= g = m ≫= (fun a => f a ≫= g).
Proof. by destruct m. Qed.

Lemma is_Ok_Ok {A} (a : A) : is_Ok (Ok a).
Proof. by exists a. Qed.

Lemma is_Ok_bind {A B} (m : Res A) (f : A -> Res B) :
  is_Ok m -> (forall a, m = Ok a -> is_Ok (f a)) -> is_Ok (m ≫= f).
Proof. intros [a ->] H. by apply H. Qed.

Lemma try_except_Ok {A} (m : Res A) c h a : m = Ok a -> try_except m c h = Ok a.
Proof. by intros ->. Qed.

Lemma try_except_any {A} (m : Res A) h :
  (forall e, is_Ok (h e)) -> is_Ok (try_except m any_exn h).
Proof. intros H. destruct m; cbn; [by eexists | apply H]. Qed.

Lemma mapM_Ok {A B} (f : A -> Res B) l r :
  mapM f l = Ok r <-> Forall2 (fun a b => f a = Ok b) l r.
Proof.
  revert r. induction l as [|x l IH]; intros r; cbn.
  - split; [intros [= <-]; constructor | by intros ->%Forall2_nil_inv_l].
  - rewrite bind_Ok. setoid_rewrite bind_Ok. setoid_rewrite IH. split.
    + intros (b & Hb & bs & Hbs & [= <-]). by constructor.
    + intros (b & bs & Hb & Hbs & ->)%Forall2_cons_inv_l. eauto 6.
Qed.

Lemma foldM_app {A B} (f : A -> B -> Res A) a l1 l2 :
  foldM f a (l1 ++ l2) = (a' ← foldM f a l1; foldM f a' l2).
Proof.
  revert a. induction l1 as [|x l1 IH]; intros a; cbn; [done|].
  destruct (f a x); cbn; [apply IH | done].
Qed.

(** An invariant of the loop body is an invariant of the loop. *)
Lemma foldM_inv {A B} (P : A -> Prop) (f : A -> B -> Res A) l :
  (forall a b a', b ∈ l -> P a -> f a b = Ok a' -> P a') ->
  forall a a', P a -> foldM f a l = Ok a' -> P a'.
Proof.
  induction l as [|x l IH]; intros Hf a a' HP; cbn; [by intros [= <-]|].
  intros (a1 & H1 & H2)%bind_Ok. eapply IH; [| |exact H2].
  - intros. eapply Hf; [by right|..]; eauto.
  - eapply Hf; [by left|..]; eauto.
Qed.

(** A loop whose body never raises from a state satisfying [P] never raises. *)
Lemma foldM_total {A B} (P : A -> Prop) (f : A -> B -> Res A) l :
  (forall a b, b ∈ l -> P a -> exists a', f a b = Ok a' /\ P a') ->
  forall a, P a -> exists a', foldM f a l = Ok a' /\ P a'.
Proof.
  induction l as [|x l IH]; intros Hf a HP; cbn; [eauto|].
  destruct (Hf a x) as (a1 & -> & HP1); [by left | done |]. cbn.
  apply IH; [|done]. intros; apply Hf; [by right | done].
Qed.

Lemma filterM_pure {A} (p : A -> bool) (l : list A) :
  filterM (fun x => Ok (p x)) l = Ok (List.filter p l).
Proof. induction l as [|x l IH]; cbn; [done|]. rewrite IH. by destruct (p x). Qed.

Lemma filterM_Ok {A} (p : A -> Res bool) (q : A -> bool) l :
  (forall x, x ∈ l -> p x = Ok (q x)) -> filterM p l = Ok (List.filter q l).
Proof.
  induction l as [|x l IH]; intros H; cbn; [done|].
  rewrite H by left. cbn. rewrite IH by (intros; apply H; by right). cbn. by destruct (q x).
Qed.

Lemma elem_of_List_filter {A} (p : A -> bool) (l : list A) x :
  x ∈ List.filter p l <-> x ∈ l /\ p x = true.
Proof. rewrite !list_elem_of_In. apply filter_In. Qed.

Lemma List_filter_none {A} (p : A -> bool) l : (forall x, x ∈ l -> p x = false) -> List.filter p l = [].
Proof.
  induction l as [|x l IH]; intros H; [done|]. cbn. rewrite H by left. apply IH. intros y Hy. apply H. by right.
Qed.

Lemma List_filter_all {A} (p : A -> bool) l : (forall x, x ∈ l -> p x = true) -> List.filter p l = l.
Proof.
  induction l as [|x l IH]; intros H; [done|]. cbn. rewrite H by left. f_equal. apply IH. intros y Hy. apply H. by right.
Qed.

Lemma anyM_pure {A} (p : A -> bool) (l : list A) :
  anyM (fun x => Ok (p x)) l = Ok (existsb p l).
Proof. induction l as [|x l IH]; cbn; [done|]. by destruct (p x). Qed.

Lemma foldl_pointwise {A B} (f g : A -> B -> A) l a :
  (forall a b, f a b = g a b) -> foldl f a l = foldl g a l.
Proof. intros H. revert a. induction l as [|b l IH]; intros a; cbn; [done|]. by rewrite H, IH. Qed.

Lemma foldl_keeps {A B C} (p : A -> C) (f : A -> B -> A) l a :
  (forall a b, p (f a b) = p a) -> p (foldl f a l) = p a.
Proof. intros Hf. revert a. induction l as [|b l IH]; intros a; cbn; [done|]. by rewrite IH, Hf. Qed.

(** ** Sets as deduplicated lists *)

Lemma elem_of_dedup {A} `{EqDecision A} (l : list A) x : x ∈ dedup l <-> x ∈ l.
Proof.
  induction l as [|y l IH]; cbn; [done|].
  rewrite !elem_of_cons, list_elem_of_filter, IH.
  destruct (decide (x = y)); naive_solver.
Qed.

Lemma NoDup_dedup {A} `{EqDecision A} (l : list A) : NoDup (dedup l).
Proof.
  induction l as [|y l IH]; cbn; constructor.
  - rewrite list_elem_of_filter. naive_solver.
  - by apply NoDup_filter.
Qed.

Lemma dedup_nil {A} `{EqDecision A} (l : list A) : dedup l = [] <-> l = [].
Proof. by destruct l. Qed.

Lemma dedup_id {A} `{EqDecision A} (l : list A) : NoDup l -> dedup l = l.
Proof.
  induction 1 as [|x l Hx Hl IH]; cbn; [done|]. rewrite IH. f_equal.
  clear -Hx. induction l as [|y l IH]; [done|].
  rewrite filter_cons_True; [|set_solver]. f_equal. apply IH. set_solver.
Qed.

(** ** Automation *)

Create HintDb py.
Create Rewrite HintDb res.
Create Rewrite HintDb pystr.
Create Rewrite HintDb pydict.
#[export] Hint Resolve is_Ok_Ok is_Ok_bind try_except_any : py.
#[export] Hint Rewrite @bind_Ok @fmap_Ok : res.

(** Turns every [m ≫= f = Ok b] of the context into its two halves. *)
Ltac res_inv :=
  repeat match goal with
  | H : mbind _ _ = Ok _ |- _ => apply bind_Ok in H as (? & ? & ?)
  | H : fmap _ _ = Ok _ |- _ => apply fmap_Ok in H as (? & ? & ?)
  | H : mret _ = Ok _ |- _ => injection H as H
  | H : Ok _ = Ok _ |- _ => injection H as H
  | H : Err _ = Ok _ |- _ => discriminate H
  | H : Ok _ = Err _ |- _ => discriminate H
  end; subst.

(** Case analysis on the scrutinee of a [match] or [if] of the goal. *)
Ltac case_goal :=
  match goal with
  | |- context [match ?x with _ => _ end] => destruct x eqn:?
  end.

(** A decidable goal without variables, by computation. *)
Ltac by_compute := apply (bool_decide_unpack _); vm_compute; exact I.
