(* ===== verification/PyStr.v ===== *)
(** Python's [str] on byte strings.

    A Python string is modelled by its UTF-8 bytes.  Concatenation, equality,
    [in], [startswith], [split(sep)], [partition], [replace] and the ordering
    agree with Python on all text, because UTF-8 is self-synchronising and
    orders like the code points.  The operations that depend on character
    classes or count characters ([lower], [strip], [split()], [splitlines],
    [len]) are Python's on ASCII text and leave non-ASCII bytes alone. *)
From stdpp Require Import base list strings sorting.
From Stdlib Require Import Ascii ZArith Lia.
From S2P Require Import Prelude.

Open Scope string_scope.
#[global] Arguments String.append !s1 s2 / : simpl nomatch.

(** ** Characters *)

Definition code (c : ascii) : N := N_of_ascii c.

(** [str.isspace] on ASCII: tab to carriage return, the four separators, space. *)
Definition is_space (c : ascii) : bool :=
  let n := code c in
  ((9 <=? n)%N && (n <=? 13)%N) || ((28 <=? n)%N && (n <=? 32)%N).

Definition is_digit (c : ascii) : bool :=
  ((48 <=? code c)%N && (code c <=? 57)%N).

Definition is_hex_lower (c : ascii) : bool :=
  is_digit c || ((97 <=? code c)%N && (code c <=? 102)%N).

Definition is_upper (c : ascii) : bool :=
  ((65 <=? code c)%N && (code c <=? 90)%N).

Definition lower_char (c : ascii) : ascii :=
  if is_upper c then ascii_of_N (code c + 32) else c.

(** The line boundaries of [str.splitlines] other than the pair CR LF. *)
Definition is_linebreak (c : ascii) : bool :=
  let n := code c in
  ((10 <=? n)%N && (n <=? 13)%N) || ((28 <=? n)%N && (n <=? 30)%N).

Definition chr (n : N) : string := String (ascii_of_N n) "".
Definition newline : string := chr 10.

(** ** Case, length, stripping *)

Fixpoint str_lower (s : string) : string :=
  match s with
  | "" => ""
  | String c s => String (lower_char c) (str_lower s)
  end.

Definition str_len (s : string) : Z := Z.of_nat (String.length s).

Fixpoint lstrip_by (p : ascii -> bool) (s : string) : string :=
  match s with
  | "" => ""
  | String c s' => if p c then lstrip_by p s' else s
  end.

Fixpoint rstrip_by (p : ascii -> bool) (s : string) : string :=
  match s with
  | "" => ""
  | String c s' =>
      match rstrip_by p s' with
      | "" => if p c then "" else String c ""
      | t => String c t
      end
  end.

Definition str_lstrip : string -> string := lstrip_by is_space.
Definition str_rstrip : string -> string := rstrip_by is_space.
Definition str_strip (s : string) : string := str_rstrip (str_lstrip s).

(** [s.strip(chars)] *)
Fixpoint char_in (c : ascii) (cs : string) : bool :=
  match cs with
  | "" => false
  | String d cs => bool_decide (c = d) || char_in c cs
  end.
Definition str_strip_chars (cs s : string) : string :=
  rstrip_by (fun c => char_in c cs) (lstrip_by (fun c => char_in c cs) s).

(** ** Searching *)

Definition str_startswith (p s : string) : bool := String.prefix p s.

Fixpoint str_drop (n : nat) (s : string) : string :=
  match n, s with
  | S n, String _ s => str_drop n s
  | _, _ => s
  end.

Fixpoint str_take (n : nat) (s : string) : string :=
  match n, s with
  | S n, String c s => String c (str_take n s)
  | _, _ => ""
  end.

Definition str_endswith (p s : string) : bool :=
  (String.length p <=? String.length s)%nat &&
  bool_decide (str_drop (String.length s - String.length p) s = p).

(** [sub in s] *)
Fixpoint str_contains (sub s : string) : bool :=
  String.prefix sub s ||
  match s with
  | "" => false
  | String _ s => str_contains sub s
  end.

(** [s.removesuffix(p)] *)
Definition str_removesuffix (p s : string) : string :=
  if str_endswith p s && negb (bool_decide (p = ""))
  then str_take (String.length s - String.length p) s else s.

(** ** Splitting and joining *)

Definition cons_head (c : ascii) (l : list string) : list string :=
  match l with
  | [] => [String c ""]
  | h :: t => String c h :: t
  end.

(** [s.split(sep)] for a non-empty [sep]; [skip] counts the characters of a
    separator that was recognised and is being consumed. *)
Fixpoint split_go (sep : string) (skip : nat) (s : string) : list string :=
  match s with
  | "" => [""]
  | String c s' =>
      match skip with
      | S k => split_go sep k s'
      | O => if String.prefix sep s
             then "" :: split_go sep (String.length sep - 1) s'
             else cons_head c (split_go sep 0 s')
      end
  end.
Definition str_split (sep s : string) : list string := split_go sep 0 s.

(** The text before the first [sep] and the text after it. *)
Fixpoint split_once (sep s : string) : option (string * string) :=
  if String.prefix sep s then Some ("", str_drop (String.length sep) s) else
  match s with
  | "" => None
  | String c s' =>
      match split_once sep s' with
      | Some (a, b) => Some (String c a, b)
      | None => None
      end
  end.

(** [s.split(sep, 1)] *)
Definition str_split1 (sep s : string) : list string :=
  match split_once sep s with
  | Some (a, b) => [a; b]
  | None => [s]
  end.

(** [s.partition(sep)] *)
Definition str_partition (sep s : string) : string * string * string :=
  match split_once sep s with
  | Some (a, b) => (a, sep, b)
  | None => (s, "", "")
  end.

(** The text before the last [sep] and the text after it. *)
Fixpoint split_last (sep s : string) : option (string * string) :=
  match s with
  | "" => if String.prefix sep "" then Some ("", "") else None
  | String c s' =>
      match split_last sep s' with
      | Some (a, b) => Some (String c a, b)
      | None => if String.prefix sep s
                then Some ("", str_drop (String.length sep) s) else None
      end
  end.

(** [s.rpartition(sep)] *)
Definition str_rpartition (sep s : string) : string * string * string :=
  match split_last sep s with
  | Some (a, b) => (a, sep, b)
  | None => ("", "", s)
  end.

(** [s.split()]: maximal runs of non-blank characters. *)
Fixpoint words_go (cur : string) (s : string) : list string :=
  match s with
  | "" => if bool_decide (cur = "") then [] else [cur]
  | String c s' =>
      if is_space c
      then if bool_decide (cur = "") then words_go "" s' else cur :: words_go "" s'
      else words_go (cur +:+ String c "") s'
  end.
Definition str_words (s : string) : list string := words_go "" s.

(** [s.splitlines()]; a final line break does not open a last empty line. *)
Fixpoint lines_go (cur : string) (after_cr : bool) (s : string) : list string :=
  match s with
  | "" => if bool_decide (cur = "") then [] else [cur]
  | String c s' =>
      if after_cr && (code c =? 10)%N then lines_go cur false s'
      else if is_linebreak c then cur :: lines_go "" (code c =? 13)%N s'
      else lines_go (cur +:+ String c "") false s'
  end.
Definition str_splitlines (s : string) : list string := lines_go "" false s.

(** [sep.join(l)] *)
Fixpoint str_join (sep : string) (l : list string) : string :=
  match l with
  | [] => ""
  | [x] => x
  | x :: l => x +:+ sep +:+ str_join sep l
  end.

(** [s.replace(old, new)] for a non-empty [old] *)
Definition str_replace (old new s : string) : string :=
  str_join new (str_split old s).

(** [s.replace(old, new, 1)] *)
Definition str_replace1 (old new s : string) : string :=
  match split_once old s with
  | Some (a, b) => a +:+ new +:+ b
  | None => s
  end.

Fixpoint str_forall (p : ascii -> bool) (s : string) : bool :=
  match s with
  | "" => true
  | String c s => p c && str_forall p s
  end.

Fixpoint str_map (f : ascii -> ascii) (s : string) : string :=
  match s with "" => "" | String c s => String (f c) (str_map f s) end.

Definition subst_char (c d x : ascii) : ascii := if bool_decide (x = c) then d else x.

(** ** Ordering: [s <= t], and [sorted] *)

Fixpoint str_leb (s t : string) : bool :=
  match s, t with
  | "", _ => true
  | String _ _, "" => false
  | String c s, String d t =>
      if (code c <? code d)%N then true
      else if (code d <? code c)%N then false
      else str_leb s t
  end.

Definition str_le (s t : string) : Prop := str_leb s t = true.
#[export] Instance str_le_dec s t : Decision (str_le s t).
Proof. unfold str_le. apply _. Defined.

Definition str_sorted (l : list string) : list string := merge_sort str_le l.

(** ** Concatenation *)

Lemma append_nil_r s : s +:+ "" = s.
Proof. induction s as [|c s IH]; cbn; [done|]. by rewrite IH. Qed.

Lemma append_assoc s t u : (s +:+ t) +:+ u = s +:+ t +:+ u.
Proof. induction s as [|c s IH]; cbn; [done|]. by rewrite IH. Qed.

(** ** Prefixes *)

Lemma prefix_nil s : String.prefix "" s = true.
Proof. by destruct s. Qed.

Lemma prefix_app p s : String.prefix p s = true <-> exists t, s = p +:+ t.
Proof.
  revert s. induction p as [|c p IH]; intros s.
  - rewrite prefix_nil. split; [by exists s | done].
  - destruct s as [|d s]; cbn; [split; [done | by intros (t & ?)]|].
    destruct (ascii_dec c d) as [->|Hne].
    + rewrite IH. split; intros (t & H); exists t; [by rewrite H | by injection H].
    + split; [done | intros (t & H); by injection H].
Qed.

Lemma prefix_refl s : String.prefix s s = true.
Proof. apply prefix_app. exists "". by rewrite append_nil_r. Qed.

Lemma drop_append p t : str_drop (String.length p) (p +:+ t) = t.
Proof. induction p as [|c p IH]; cbn; [by destruct t | done]. Qed.

Lemma drop_suffix n s : exists t, s = t +:+ str_drop n s.
Proof.
  revert s. induction n as [|n IH]; intros s; [exists ""; by destruct s|]. destruct s as [|c s]; [by exists ""|].
  destruct (IH s) as (t & Hs). exists (String c t). cbn. by rewrite <- Hs.
Qed.

Lemma length_append s t : String.length (s +:+ t) = (String.length s + String.length t)%nat.
Proof. induction s as [|c s IH]; cbn; [done | by rewrite IH]. Qed.

Lemma endswith_app p s : str_endswith p s = true <-> exists t, s = t +:+ p.
Proof.
  unfold str_endswith. rewrite andb_true_iff, bool_decide_eq_true. split.
  - intros [_ H]. destruct (drop_suffix (String.length s - String.length p) s) as (t & Hs). exists t. by rewrite H in Hs.
  - intros (t & ->). rewrite length_append. split; [apply Nat.leb_le; lia|].
    replace (String.length t + String.length p - String.length p)%nat with (String.length t) by lia. apply drop_append.
Qed.

Lemma contains_spec sub s :
  str_contains sub s = true <-> exists a b, s = a +:+ sub +:+ b.
Proof.
  induction s as [|c s IH]; cbn [str_contains]; rewrite orb_true_iff, prefix_app.
  - split.
    + intros [(t & Ht)|?]; [by exists "", t | done].
    + intros (a & b & H). destruct a; [left; by exists b | done].
  - rewrite IH. split.
    + intros [(t & Ht)|(a & b & Ht)]; [by exists "", t | exists (String c a), b; by rewrite Ht].
    + intros (a & b & H). destruct a as [|d a]; [left; by exists b|].
      right. injection H as -> ->. eauto.
Qed.

(** ** Splitting *)

Lemma split_go_ne sep k s : split_go sep k s <> [].
Proof.
  revert k. induction s as [|c s IH]; intros [|k]; cbn [split_go]; try done.
  case_match; [done|]. by destruct (split_go sep 0 s) eqn:?.
Qed.

Lemma join_cons sep x l : l <> [] -> str_join sep (x :: l) = x +:+ sep +:+ str_join sep l.
Proof. by destruct l. Qed.

Lemma join_cons_head sep c l :
  l <> [] -> str_join sep (cons_head c l) = String c (str_join sep l).
Proof. destruct l as [|h [|h2 l]]; done. Qed.

Lemma join_split_go sep k s :
  sep <> "" -> str_join sep (split_go sep k s) = str_drop k s.
Proof.
  intros Hsep. revert k. induction s as [|c s IH]; intros k; [by destruct k|].
  destruct k as [|k]; cbn [split_go str_drop]; [|apply IH].
  destruct (String.prefix sep (String c s)) eqn:Hp.
  - rewrite join_cons, IH by apply split_go_ne.
    apply prefix_app in Hp as [t Ht]. destruct sep as [|d sep]; [done|].
    cbn in Ht |- *. injection Ht as <- ->.
    by rewrite Nat.sub_0_r, drop_append.
  - rewrite join_cons_head by apply split_go_ne. by rewrite IH.
Qed.

Lemma join_split sep s : sep <> "" -> str_join sep (str_split sep s) = s.
Proof. intros. unfold str_split. by rewrite join_split_go. Qed.

(** A text in which [sep] does not occur is its own only piece. *)
Lemma split_no_sep sep s : str_contains sep s = false -> str_split sep s = [s].
Proof.
  unfold str_split. induction s as [|c s IH]; [done|].
  cbn [str_contains split_go]. intros [Hp Hc]%orb_false_iff. rewrite Hp, (IH Hc). done.
Qed.

Lemma split_once_spec sep s a b :
  split_once sep s = Some (a, b) -> s = a +:+ sep +:+ b.
Proof.
  revert a b. induction s as [|c s IH]; intros a b; cbn [split_once];
    destruct (String.prefix sep _) eqn:Hp; intros H1; simplify_eq.
  - by destruct sep.
  - apply prefix_app in Hp as [t ->]. by rewrite drop_append.
  - destruct (split_once sep s) as [[a' b']|]; simplify_eq. cbn. f_equal. by apply IH.
Qed.

Lemma split_once_None sep s : split_once sep s = None <-> str_contains sep s = false.
Proof.
  induction s as [|c s IH]; cbn [split_once str_contains];
    destruct (String.prefix sep _); cbn; try done.
  rewrite <- IH. destruct (split_once sep s) as [[? ?]|]; naive_solver.
Qed.

(** ** Case and stripping *)

Lemma lower_char_idem c : lower_char (lower_char c) = lower_char c.
Proof. destruct c as [[] [] [] [] [] [] [] []]; reflexivity. Qed.

Lemma lower_idem s : str_lower (str_lower s) = str_lower s.
Proof. induction s as [|c s IH]; cbn; [done|]. by rewrite lower_char_idem, IH. Qed.

Lemma lower_app s t : str_lower (s +:+ t) = str_lower s +:+ str_lower t.
Proof. induction s as [|c s IH]; cbn; [done|]. by rewrite IH. Qed.

Lemma rstrip_by_idem p s : rstrip_by p (rstrip_by p s) = rstrip_by p s.
Proof.
  induction s as [|c s IH]; cbn; [done|].
  destruct (rstrip_by p s) as [|d t] eqn:E.
  - destruct (p c) eqn:Hc; cbn; [done | by rewrite Hc].
  - change (rstrip_by p (String c (String d t)))
      with (match rstrip_by p (String d t) with
            | "" => if p c then "" else String c ""
            | t => String c t end).
    by rewrite IH.
Qed.

Lemma lstrip_rstrip_fix p s :
  lstrip_by p s = s -> lstrip_by p (rstrip_by p s) = rstrip_by p s.
Proof.
  destruct s as [|c s]; [done|]. cbn. destruct (p c) eqn:Hc; intros H.
  - exfalso. assert (forall u, String.length (lstrip_by p u) <= String.length u)%nat as Hlen.
    { induction u as [|d u IH]; cbn; [lia|]. case_match; cbn; lia. }
    specialize (Hlen s). rewrite H in Hlen. cbn in Hlen. lia.
  - destruct (rstrip_by p s); cbn; by rewrite Hc.
Qed.

Lemma lstrip_by_idem p s : lstrip_by p (lstrip_by p s) = lstrip_by p s.
Proof. induction s as [|c s IH]; cbn; [done|]. destruct (p c) eqn:Hc; [done|]. cbn. by rewrite Hc. Qed.

Lemma strip_idem s : str_strip (str_strip s) = str_strip s.
Proof.
  unfold str_strip, str_rstrip, str_lstrip.
  rewrite lstrip_rstrip_fix; [apply rstrip_by_idem | apply lstrip_by_idem].
Qed.

(** ** The order of strings *)

Lemma str_leb_refl s : str_leb s s = true.
Proof. induction s as [|c s IH]; cbn; [done|]. by rewrite N.ltb_irrefl. Qed.

Lemma code_inj c d : code c = code d -> c = d.
Proof. intros H. rewrite <- (ascii_N_embedding c), <- (ascii_N_embedding d). by f_equal. Qed.

Ltac code_cases :=
  repeat match goal with
  | H : context [(?x <? ?y)%N] |- _ => destruct (N.ltb_spec x y)
  | |- context [(?x <? ?y)%N] => destruct (N.ltb_spec x y)
  end; try done; try lia.

#[export] Instance str_le_reflexive : Reflexive str_le.
Proof. intros s. apply str_leb_refl. Qed.

#[export] Instance str_le_transitive : Transitive str_le.
Proof.
  unfold str_le. intros x. induction x as [|c x IH]; intros y z H1 H2; [by destruct z|].
  destruct y as [|d y]; [done|]. destruct z as [|e z]; [done|]. cbn in *.
  code_cases. eauto.
Qed.

#[export] Instance str_le_antisymm : AntiSymm (=) str_le.
Proof.
  unfold str_le. intros x. induction x as [|c x IH]; intros [|d y] H1 H2; try done.
  cbn in *. code_cases. f_equal; [apply code_inj; lia | auto].
Qed.

#[export] Instance str_le_total : Total str_le.
Proof.
  unfold str_le. intros x. induction x as [|c x IH]; intros [|d y]; cbn; auto.
  code_cases; auto.
Qed.

Lemma str_le_prefix s t : String.prefix s t = true -> str_le s t.
Proof.
  intros (u & ->)%prefix_app. unfold str_le.
  induction s as [|c s IH]; cbn; [done|]. by rewrite N.ltb_irrefl.
Qed.

(** The extensions of a string are contiguous in the order: whatever lies
    between a string and one of its extensions is an extension too. *)
Lemma prefix_convex s t u :
  String.prefix s u = true -> str_le s t -> str_le t u -> String.prefix s t = true.
Proof.
  unfold str_le. revert t u. induction s as [|c s IH]; intros t u Hp H1 H2; [apply prefix_nil|].
  destruct u as [|e u]; [done|]. destruct t as [|d t]; [done|].
  cbn in *. destruct (ascii_dec c e) as [->|]; [|done].
  code_cases. assert (e = d) as -> by (apply code_inj; lia).
  destruct (ascii_dec d d); [|done]. eauto.
Qed.

Lemma sorted_perm l : str_sorted l ≡ₚ l.
Proof. apply merge_sort_Permutation. Qed.

Lemma sorted_StronglySorted l : StronglySorted str_le (str_sorted l).
Proof. apply StronglySorted_merge_sort; apply _. Qed.

Lemma str_sorted_perm l1 l2 : l1 ≡ₚ l2 -> str_sorted l1 = str_sorted l2.
Proof.
  intros H. apply (StronglySorted_unique str_le); [apply sorted_StronglySorted..|].
  by rewrite !sorted_perm.
Qed.

(** ** Replacing a character *)

Lemma replace_char c d s :
  str_replace (String c "") (String d "") s = str_map (subst_char c d) s.
Proof.
  unfold str_replace, str_split. induction s as [|x s IH]; [done|].
  cbn [split_go str_map]. rewrite <- IH. unfold subst_char.
  cbn [String.prefix String.length Nat.sub].
  destruct (ascii_dec c x) as [->|Hne].
  - rewrite prefix_nil, bool_decide_true by done.
    by rewrite join_cons by apply split_go_ne.
  - rewrite bool_decide_false by done. apply join_cons_head, split_go_ne.
Qed.

Lemma str_forall_map p f s : str_forall p (str_map f s) = str_forall (fun c => p (f c)) s.
Proof. induction s as [|c s IH]; cbn; [done|]. by rewrite IH. Qed.

Lemma str_forall_true p s : (forall c, p c = true) -> str_forall p s = true.
Proof. intros H. induction s as [|c s IH]; cbn; [done|]. by rewrite H, IH. Qed.

Lemma str_forall_app p s t : str_forall p (s +:+ t) = str_forall p s && str_forall p t.
Proof. induction s as [|c s IH]; cbn; [done|]. by rewrite IH, andb_assoc. Qed.

Lemma str_map_app f s t : str_map f (s +:+ t) = str_map f s +:+ str_map f t.
Proof. induction s as [|c s IH]; cbn; [done|]. by rewrite IH. Qed.

Lemma str_map_id (f g : ascii -> ascii) s :
  str_forall (fun c => bool_decide (g (f c) = c)) s = true -> str_map g (str_map f s) = s.
Proof.
  induction s as [|c s IH]; [done|]. cbn. intros [Hc Hs]%andb_prop. apply bool_decide_eq_true in Hc.
  by rewrite Hc, IH.
Qed.

Lemma split_no_char c a r :
  str_forall (fun d => negb (bool_decide (d = c))) a = true ->
  str_split (String c "") (a +:+ String c r) = a :: str_split (String c "") r.
Proof.
  unfold str_split. induction a as [|d a IH]; cbn [str_forall String.append split_go].
  - assert (String.prefix (String c "") (String c r) = true) as -> by (apply prefix_app; by exists r). done.
  - intros [Hd Ha]%andb_true_iff. apply negb_true_iff, bool_decide_eq_false in Hd.
    destruct (String.prefix (String c "") (String d (a +:+ String c r))) eqn:E.
    + apply prefix_app in E as [t Ht]. cbn in Ht. by injection Ht.
    + by rewrite IH.
Qed.

Lemma contains_char c s :
  str_forall (fun d => negb (bool_decide (d = c))) s = true -> str_contains (String c "") s = false.
Proof.
  induction s as [|d s IH]; [done|]. cbn [str_forall str_contains].
  intros [Hd Hs]%andb_true_iff. rewrite IH, orb_false_r by done.
  apply negb_true_iff, bool_decide_eq_false in Hd.
  destruct (String.prefix _ _) eqn:E; [|done]. apply prefix_app in E as [t Ht]. cbn in Ht. by injection Ht.
Qed.

#[export] Hint Rewrite prefix_nil prefix_refl drop_append lower_idem strip_idem : pystr.
