(* ===== verification/PyNum.v ===== *)
(** Python's [int] and [float]: parsing, printing and conversions.

    Integers are [Z] (Python's are unbounded).  Floats are IEEE 754 binary64
    values as [spec_float] of the Standard Library, with round to nearest,
    ties to even; every operation below computes. *)
From stdpp Require Import base list strings pretty.
From Stdlib Require Import Ascii ZArith Lia SpecFloat.
From S2P Require Import Prelude PyStr.

Open Scope string_scope.
Open Scope Z_scope.

Definition prec64 : Z := 53.
Definition emax64 : Z := 1024.

(** ** Decimal digits *)

Definition digit_val (c : ascii) : Z := Z.of_N (code c) - 48.

(** A [digitpart]: digits with single underscores between them.  Returns the
    value, the number of digits and the rest of the text. *)
Fixpoint take_digits (s : string) (acc n : Z) : Z * Z * string :=
  match s with
  | String c s' =>
      if is_digit c then take_digits s' (10 * acc + digit_val c) (n + 1)
      else if bool_decide (c = "_"%char) && (0 <? n) then
        match s' with
        | String d s'' =>
            if is_digit d then take_digits s'' (10 * acc + digit_val d) (n + 1)
            else (acc, n, s)
        | "" => (acc, n, s)
        end
      else (acc, n, s)
  | "" => (acc, n, s)
  end.

Definition take_sign (s : string) : bool * string :=
  match s with
  | String c s' =>
      if bool_decide (c = "-"%char) then (true, s')
      else if bool_decide (c = "+"%char) then (false, s')
      else (false, s)
  | "" => (false, s)
  end.

Definition signed (neg : bool) (z : Z) : Z := if neg then - z else z.

(** CPython refuses to convert longer digit strings. *)
Definition int_max_str_digits : Z := 4300.

(** [int(s)] on a string; [None] is [ValueError]. *)
Definition int_of_str (s : string) : option Z :=
  let '(neg, rest) := take_sign (str_strip s) in
  let '(v, n, tail) := take_digits rest 0 0 in
  if bool_decide (tail = "") && (0 <? n) && (n <=? int_max_str_digits)
  then Some (signed neg v) else None.

(** ** Floats *)

Definition float_of_int (z : Z) : spec_float := binary_normalize prec64 emax64 z 0 false.

(** The float nearest to [m * 10 ^ e10], [m > 0].  When [e10 < 0] the quotient
    is computed with at least 65 significant bits and a sticky bit, so that
    [binary_normalize] rounds it once and correctly. *)
Definition float_of_decimal (neg : bool) (m e10 : Z) : spec_float :=
  if (m =? 0) then S754_zero neg
  else if (310 <? e10) then S754_infinity neg
  else if (e10 <? - (400 + Z.log2 m)) then S754_zero neg
  else if (0 <=? e10) then
    binary_normalize prec64 emax64 (signed neg (m * 10 ^ e10)) 0 neg
  else
    let d := 10 ^ (- e10) in
    let s := Z.max 0 (Z.log2 d + 66 - Z.log2 m) in
    let q := Z.shiftl m s / d in
    let r := Z.shiftl m s mod d in
    binary_normalize prec64 emax64
      (signed neg (2 * q + (if (r =? 0) then 0 else 1))) (- s - 1) neg.

(** The exponent part [[eE] [+-]? digitpart] *)
Definition take_exponent (s : string) : option (Z * string) :=
  match s with
  | String c s' =>
      if bool_decide (lower_char c = "e"%char) then
        let '(neg, rest) := take_sign s' in
        let '(v, n, tail) := take_digits rest 0 0 in
        if (0 <? n) then Some (signed neg v, tail) else None
      else Some (0, s)
  | "" => Some (0, s)
  end.

(** [float(s)] on a string; [None] is [ValueError]. *)
Definition float_of_str (s : string) : option spec_float :=
  let '(neg, rest) := take_sign (str_strip s) in
  let low := str_lower rest in
  if bool_decide (low = "inf") || bool_decide (low = "infinity") then Some (S754_infinity neg)
  else if bool_decide (low = "nan") then Some S754_nan
  else
    let '(ip, ni, rest1) := take_digits rest 0 0 in
    let '(m, nf, rest2) :=
      match rest1 with
      | String "." r =>
          let '(fp, nf, r') := take_digits r 0 0 in (ip * 10 ^ nf + fp, nf, r')
      | _ => (ip, 0, rest1)
      end in
    if (ni + nf =? 0) then None else
    match take_exponent rest2 with
    | Some (e, "") => Some (float_of_decimal neg m (e - nf))
    | _ => None
    end.

(** [int(f)]: truncation; infinities overflow and NaN is a [ValueError]. *)
Definition int_of_float (f : spec_float) : Res Z :=
  match f with
  | S754_zero _ => Ok 0
  | S754_infinity _ => Err OverflowError
  | S754_nan => Err ValueError
  | S754_finite neg m e =>
      Ok (signed neg (if (0 <=? e) then Zpos m * 2 ^ e else Zpos m / 2 ^ (- e)))
  end.

(** [float(z)] on an integer. *)
Definition float_of_Z (z : Z) : Res spec_float :=
  match float_of_int z with
  | S754_infinity _ => Err OverflowError
  | f => Ok f
  end.

Definition float_mul : spec_float -> spec_float -> spec_float := SFmul prec64 emax64.
Definition float_div : spec_float -> spec_float -> spec_float := SFdiv prec64 emax64.

Definition float_truthy (f : spec_float) : bool :=
  match f with S754_zero _ => false | _ => true end.

(** [f == z], compared exactly. *)
Definition float_eq_int (f : spec_float) (z : Z) : bool :=
  match f with
  | S754_zero _ => (z =? 0)
  | S754_finite neg m e =>
      if (0 <=? e) then (signed neg (Zpos m * 2 ^ e) =? z)
      else (signed neg (Zpos m) =? z * 2 ^ (- e))
  | _ => false
  end.

(** ** Printing: [str] of integers and floats *)

Definition int_repr (z : Z) : string := pretty z.

Fixpoint zeros (n : nat) : string := match n with O => "" | S n => String "0" (zeros n) end.

(** [v = num / den] rounded half to even. *)
Definition round_half_even (num den : Z) : Z :=
  let q := num / den in
  let r := num mod den in
  if (2 * r <? den) then q
  else if (den <? 2 * r) then q + 1
  else if Z.even q then q else q + 1.

(** The decimal point position [k], [10^(k-1) <= num/den < 10^k]. *)
Definition decimal_point (num den : Z) : Z :=
  let est := (Z.log2 num - Z.log2 den) * 1233 / 4096 in
  let ge k := if (0 <=? k) then (10 ^ k * den <=? num) else (den <=? num * 10 ^ (- k)) in
  if ge (est + 2) then est + 3
  else if ge (est + 1) then est + 2
  else if ge est then est + 1
  else if ge (est - 1) then est
  else est - 1.

(** The shortest decimal [(digits, point)] that reads back as the float. *)
Fixpoint shortest (fuel : nat) (n : Z) (m : positive) (e num den k : Z) : Z * Z :=
  let D := if (0 <=? n - k) then round_half_even (num * 10 ^ (n - k)) den
           else round_half_even num (den * 10 ^ (k - n)) in
  match fuel with
  | O => (D, n)
  | S fuel =>
      if SFeqb (float_of_decimal false D (k - n)) (S754_finite false m e)
      then (D, n) else shortest fuel (n + 1) m e num den k
  end.

Definition strip_zeros (s : string) : string := rstrip_by (fun c => bool_decide (c = "0"%char)) s.

Definition format_digits (ds : string) (pt : Z) : string :=
  let n := str_len ds in
  if (-4 <=? pt - 1) && (pt - 1 <? 16) then
    if (pt <=? 0) then "0." +:+ zeros (Z.to_nat (- pt)) +:+ ds
    else if (n <=? pt) then ds +:+ zeros (Z.to_nat (pt - n)) +:+ ".0"
    else str_take (Z.to_nat pt) ds +:+ "." +:+ str_drop (Z.to_nat pt) ds
  else
    let x := pt - 1 in
    let ex := int_repr (Z.abs x) in
    str_take 1 ds +:+ (if (1 <? n) then "." +:+ str_drop 1 ds else "")
      +:+ "e" +:+ (if (x <? 0) then "-" else "+")
      +:+ (if (Z.abs x <? 10) then "0" else "") +:+ ex.

(** [repr(f)]; 17 significant digits identify every binary64 value. *)
Definition float_repr (f : spec_float) : string :=
  match f with
  | S754_zero neg => if neg then "-0.0" else "0.0"
  | S754_infinity neg => if neg then "-inf" else "inf"
  | S754_nan => "nan"
  | S754_finite neg m e =>
      let '(num, den) := if (0 <=? e) then (Zpos m * 2 ^ e, 1) else (Zpos m, 2 ^ (- e)) in
      let k := decimal_point num den in
      let '(D, n) := shortest 17 1 m e num den k in
      let ds := int_repr D in
      let pt := k + (str_len ds - n) in
      (if neg then "-" else "") +:+ format_digits (strip_zeros ds) pt
  end.

(** ** Reading back a string of digits *)

Fixpoint digits_value (s : string) (acc : Z) : Z :=
  match s with
  | "" => acc
  | String c s => digits_value s (10 * acc + digit_val c)
  end.

#[export] Instance int_repr_inj : Inj (=) (=) int_repr.
Proof. unfold int_repr. apply _. Qed.

Lemma digit_not_space c : is_digit c = true -> is_space c = false.
Proof. destruct c as [[] [] [] [] [] [] [] []]; vm_compute; congruence. Qed.

Lemma digit_not_sign c s : is_digit c = true -> take_sign (String c s) = (false, String c s).
Proof. destruct c as [[] [] [] [] [] [] [] []]; vm_compute; congruence. Qed.

Lemma rstrip_by_none p s :
  str_forall (fun c => negb (p c)) s = true -> rstrip_by p s = s.
Proof.
  induction s as [|c s IH]; cbn; [done|]. intros [Hc Hs]%andb_true_iff.
  rewrite (IH Hs). destruct s; [|done]. by destruct (p c).
Qed.

Lemma str_forall_impl p q s :
  (forall c, p c = true -> q c = true) -> str_forall p s = true -> str_forall q s = true.
Proof.
  intros H. induction s as [|c s IH]; cbn; [done|].
  rewrite !andb_true_iff. naive_solver.
Qed.

Lemma strip_digits s : str_forall is_digit s = true -> str_strip s = s.
Proof.
  intros Hs. unfold str_strip, str_rstrip, str_lstrip.
  assert (lstrip_by is_space s = s) as ->.
  { destruct s as [|c s]; [done|]. cbn in *. apply andb_true_iff in Hs as [Hc _].
    by rewrite digit_not_space. }
  apply rstrip_by_none. eapply str_forall_impl; [|exact Hs].
  intros c Hc. by rewrite digit_not_space.
Qed.

Lemma take_digits_all s acc n :
  str_forall is_digit s = true -> take_digits s acc n = (digits_value s acc, n + str_len s, "").
Proof.
  revert acc n. induction s as [|c s IH]; intros acc n; cbn.
  - by rewrite Z.add_0_r.
  - intros [-> Hs]%andb_true_iff. rewrite IH by done. unfold str_len. do 2 f_equal. cbn [String.length]. lia.
Qed.

Lemma int_of_digits s :
  s <> "" -> str_forall is_digit s = true -> str_len s <= int_max_str_digits ->
  int_of_str s = Some (digits_value s 0).
Proof.
  intros Hne Hs Hlen. unfold int_of_str. rewrite strip_digits by done.
  destruct s as [|c s]; [done|]. pose proof Hs as Hs'. cbn in Hs'. apply andb_true_iff in Hs' as [Hc _].
  rewrite digit_not_sign by done. rewrite take_digits_all by done.
  rewrite bool_decide_true by done. unfold str_len in *. cbn -[int_max_str_digits Z.of_nat] in *.
  rewrite (proj2 (Z.ltb_lt _ _)) by lia. by rewrite (proj2 (Z.leb_le _ _)) by lia.
Qed.
