(* ===== verification/PyVal.v ===== *)
(** Python values: the JSON-like data that raw facts, fingerprints and Ansible
    results are made of, with the operations the code applies to them.

    Models [utils/deepget.py], [utils/default_getter.py] and the conversions of
    [api/common/util.py].  A [dict] is an association list with string keys in
    insertion order.  Values are immutable here; the places where the code
    mutates a dict in place work on a private deep copy (see [Merge.v]). *)
From stdpp Require Import base sets list strings sorting.
From Stdlib Require Import Ascii ZArith Lia SpecFloat.
From S2P Require Import Prelude PyStr PyNum.

Open Scope string_scope.
Open Scope Z_scope.

Record date := mkdate { year : Z; month : Z; day : Z }.

#[export] Instance date_eq_dec : EqDecision date.
Proof. solve_decision. Defined.

(** [VResult] is the dataclass [ProcessedResult] of
    [scanner/network/processing/process.py]; [VDateTime] a [datetime] as its
    date and its second of the day. *)
Inductive pyval : Type :=
| VNone
| VBool (b : bool)
| VInt (z : Z)
| VFloat (f : spec_float)
| VStr (s : string)
| VList (l : list pyval)
| VDict (d : list (string * pyval))
| VDate (d : date)
| VDateTime (d : date) (seconds : Z)
| VResult (return_code error_msg value : pyval).

Abbreviation pydict := (list (string * pyval)).

(** ** Dicts with string keys *)

Section dict.
Context {A : Type}.
Implicit Types (d : list (string * A)) (k : string).

Fixpoint dget k d : option A :=
  match d with
  | [] => None
  | (k', v) :: d => if bool_decide (k = k') then Some v else dget k d
  end.

(** [d[k] = v]: in place when the key exists, at the end otherwise. *)
Fixpoint dset k (v : A) d : list (string * A) :=
  match d with
  | [] => [(k, v)]
  | (k', v') :: d => if bool_decide (k = k') then (k', v) :: d else (k', v') :: dset k v d
  end.

Fixpoint dpop k d : list (string * A) :=
  match d with
  | [] => []
  | (k', v) :: d => if bool_decide (k = k') then dpop k d else (k', v) :: dpop k d
  end.

Definition dkeys d : list string := d.*1.
Definition dvalues d : list A := d.*2.
Definition dmem k d : bool := match dget k d with Some _ => true | None => false end.

(** [d[k]] *)
Definition dget_exn k d : Res A := from_option (KeyError k) (dget k d).

(** [d1.update(d2)] *)
Definition dupdate d1 d2 : list (string * A) := foldl (fun d '(k, v) => dset k v d) d1 d2.
End dict.

(** ** Truth, type tests, equality *)

Definition truthy (v : pyval) : bool :=
  match v with
  | VNone => false
  | VBool b => b
  | VInt z => negb (z =? 0)
  | VFloat f => float_truthy f
  | VStr s => negb (bool_decide (s = ""))
  | VList l => match l with [] => false | _ => true end
  | VDict d => match d with [] => false | _ => true end
  | VDate _ | VDateTime _ _ | VResult _ _ _ => true
  end.

Definition is_none (v : pyval) : bool := match v with VNone => true | _ => false end.
Definition is_str (v : pyval) : bool := match v with VStr _ => true | _ => false end.
Definition is_list (v : pyval) : bool := match v with VList _ => true | _ => false end.
Definition is_dict (v : pyval) : bool := match v with VDict _ => true | _ => false end.
Definition is_bool (v : pyval) : bool := match v with VBool _ => true | _ => false end.
(** [isinstance(v, int)]; [bool] is a subclass of [int]. *)
Definition is_int_inst (v : pyval) : bool :=
  match v with VInt _ | VBool _ => true | _ => false end.

(** [x or y] *)
Definition py_or (x y : pyval) : pyval := if truthy x then x else y.

Definition b2z (b : bool) : Z := if b then 1 else 0.

(** Numbers compare across [bool], [int] and [float]. *)
Definition num_eq (v w : pyval) : option bool :=
  match v, w with
  | VBool a, VBool b => Some (Bool.eqb a b)
  | VBool a, VInt z | VInt z, VBool a => Some (b2z a =? z)
  | VInt a, VInt b => Some (a =? b)
  | VFloat f, VFloat g => Some (SFeqb f g)
  | VFloat f, VInt z | VInt z, VFloat f => Some (float_eq_int f z)
  | VFloat f, VBool b | VBool b, VFloat f => Some (float_eq_int f (b2z b))
  | _, _ => None
  end.

Definition list_eqb (eqb : pyval -> pyval -> bool) : list pyval -> list pyval -> bool :=
  fix go l1 l2 :=
    match l1, l2 with
    | [], [] => true
    | x :: l1, y :: l2 => eqb x y && go l1 l2
    | _, _ => false
    end.

Definition dict_subb (eqb : pyval -> pyval -> bool) (d2 : pydict) : pydict -> bool :=
  fix go d1 :=
    match d1 with
    | [] => true
    | (k, x) :: d1 => match dget k d2 with Some y => eqb x y && go d1 | None => false end
    end.

(** [v == w] *)
Fixpoint py_eq (v w : pyval) {struct v} : bool :=
  match num_eq v w with
  | Some b => b
  | None =>
      match v, w with
      | VNone, VNone => true
      | VStr s, VStr t => bool_decide (s = t)
      | VList l1, VList l2 => list_eqb py_eq l1 l2
      | VDict d1, VDict d2 =>
          (length d1 =? length d2)%nat && dict_subb py_eq d2 d1
      | VDate d1, VDate d2 => bool_decide (d1 = d2)
      | VDateTime d1 s1, VDateTime d2 s2 => bool_decide (d1 = d2) && (s1 =? s2)
      | VResult r1 m1 v1, VResult r2 m2 v2 => py_eq r1 r2 && py_eq m1 m2 && py_eq v1 v2
      | _, _ => false
      end
  end.

Definition py_in (v : pyval) (l : list pyval) : bool := existsb (py_eq v) l.

(** Unhashable values cannot be dict keys or set elements. *)
Definition hashable (v : pyval) : bool :=
  match v with VList _ | VDict _ | VResult _ _ _ => false | _ => true end.

(** [s.add(x)] *)
Definition vset_add (x : pyval) (s : list pyval) : Res (list pyval) :=
  if negb (hashable x) then Err TypeError
  else Ok (if py_in x s then s else (s ++ [x])%list).

(** ** [sorted] *)

Definition texts (l : list pyval) : option (list string) :=
  mapM (fun v => match v with VStr s => Some s | _ => None end) l.

Definition int_value (v : pyval) : Z := match v with VInt z => z | VBool b => b2z b | _ => 0 end.
Definition int_le (v w : pyval) : Prop := int_value v <= int_value w.
#[export] Instance int_le_dec v w : Decision (int_le v w).
Proof. unfold int_le. apply _. Defined.

(** [sorted(l)] on texts or integers, which is what the facts hold; with two
    elements or more that do not compare it raises. *)
Definition py_sorted (l : list pyval) : Res (list pyval) :=
  match l with
  | [] | [_] => Ok l
  | _ => match texts l with
         | Some ss => Ok (VStr <$> str_sorted ss)
         | None => if forallb is_int_inst l then Ok (merge_sort int_le l) else Err TypeError
         end
  end.

(** ** Typed access, with the exception Python raises on the wrong type *)

(** The receiver of a [str] method. *)
Definition as_str (meth : string) (v : pyval) : Res string :=
  match v with VStr s => Ok s | _ => Err (AttributeError meth) end.

(** The receiver of a [dict] method such as [get] or [values]. *)
Definition as_dict (meth : string) (v : pyval) : Res pydict :=
  match v with VDict d => Ok d | _ => Err (AttributeError meth) end.

(** [for x in v]: lists give their elements, dicts their keys, strings their
    characters. *)
Definition py_iter (v : pyval) : Res (list pyval) :=
  match v with
  | VList l => Ok l
  | VDict d => Ok (VStr <$> dkeys d)
  | VStr s => Ok ((fun c => VStr (String c "")) <$> String.list_ascii_of_string s)
  | _ => Err TypeError
  end.

(** [v.get(k)] and [v.get(k, dflt)] *)
Definition vget_default (v : pyval) (k : string) (dflt : pyval) : Res pyval :=
  d ← as_dict "get" v; Ok (default dflt (dget k d)).
Definition vget (v : pyval) (k : string) : Res pyval := vget_default v k VNone.

Definition dget_none (k : string) (d : pydict) : pyval := default VNone (dget k d).

(** A Python list index, negative indices counting from the end. *)
Definition list_index (l : list pyval) (i : Z) : Res pyval :=
  let n := Z.of_nat (length l) in
  let j := if (i <? 0) then i + n else i in
  if (0 <=? j) && (j <? n) then from_option IndexError (l !! Z.to_nat j) else Err IndexError.

Definition str_index (s : string) (i : Z) : Res pyval :=
  let n := str_len s in
  let j := if (i <? 0) then i + n else i in
  if (0 <=? j) && (j <? n)
  then Ok (VStr (str_take 1 (str_drop (Z.to_nat j) s))) else Err IndexError.

(** [v[k]] for a string key [k]. *)
Definition getitem (v : pyval) (k : string) : Res pyval :=
  match v with VDict d => dget_exn k d | _ => Err TypeError end.

(** [v[i]] for an integer [i]. *)
Definition getitem_int (v : pyval) (i : Z) : Res pyval :=
  match v with
  | VList l => list_index l i
  | VStr s => str_index s i
  | VDict _ => Err (KeyError (int_repr i))
  | _ => Err TypeError
  end.

(** ** [utils/deepget.py] *)

(** The recursive call of [_get_item] with an integer key: on a value that is
    not subscriptable it fails with [TypeError] again, [int(key)] succeeds
    again, and the recursion never ends. *)
Definition _get_item_int (data : pyval) (key : Z) : Res pyval :=
  match getitem_int data key with
  | Ok v => Ok v
  | Err TypeError => Err RecursionError
  | Err IndexError | Err (KeyError _) => Ok VNone
  | Err e => Err e
  end.

Definition _get_item (data : pyval) (key : string) : Res pyval :=
  match getitem data key with
  | Ok v => Ok v
  | Err TypeError =>
      match int_of_str key with
      | None => Ok VNone
      | Some i => _get_item_int data i
      end
  | Err IndexError | Err (KeyError _) => Ok VNone
  | Err e => Err e
  end.

(** [getattr(item, "__getitem__", None) and not isinstance(item, str)] *)
Definition has_getitem (v : pyval) : bool :=
  match v with VList _ | VDict _ => true | _ => false end.

Fixpoint _get_nested_item (data : pyval) (keys : list string) : Res pyval :=
  match keys with
  | [] => Err ValueError
  | [current_key] => _get_item data current_key
  | current_key :: next_keys =>
      item ← _get_item data current_key;
      if has_getitem item then _get_nested_item item next_keys else Ok VNone
  end.

Definition deepget (data : pyval) (path : string) : Res pyval :=
  _get_nested_item data (str_split "__" path).

(** ** [utils/default_getter.py] *)

Definition default_getter (data : pydict) (key : string) (default_value : pyval) : pyval :=
  let val := default default_value (dget key data) in
  if is_none val then default_value else val.

(** ** Conversions of [api/common/util.py] *)

Definition is_int (value : pyval) : bool :=
  if is_int_inst value then true
  else if is_bool value then false
  else match value with
       | VStr s => match int_of_str s with Some _ => true | None => false end
       | _ => false
       end.

Definition convert_to_int (value : pyval) : option Z :=
  if negb (is_int value) then None
  else match value with
       | VInt z => Some z
       | VBool b => Some (b2z b)
       | VStr s => int_of_str s
       | _ => None
       end.

Definition is_boolean (value : pyval) : bool :=
  if is_bool value then true
  else match value with
       | VStr s => bool_decide (str_lower s ∈ ["true"; "false"])
       | _ => false
       end.

Definition convert_to_boolean (value : pyval) : bool :=
  match value with
  | VBool b => b
  | _ => if is_boolean value
         then match value with VStr s => bool_decide (str_lower s = "true") | _ => false end
         else false
  end.

Definition convert_to_bool_or_none (value : pyval) : pyval :=
  match value with
  | VBool b => VBool b
  | _ => if is_boolean value
         then match value with VStr s => VBool (bool_decide (str_lower s = "true")) | _ => VNone end
         else VNone
  end.

(** ** [repr] and [str] *)

Definition hex_digit (n : N) : ascii :=
  ascii_of_N (if (n <? 10)%N then n + 48 else n + 87)%N.

Fixpoint escape_str (quote : ascii) (s : string) : string :=
  match s with
  | "" => ""
  | String c s =>
      let n := code c in
      (if bool_decide (c = quote) || bool_decide (c = "\"%char) then String "\" (String c "")
       else if (n =? 10)%N then "\n" else if (n =? 13)%N then "\r"
       else if (n =? 9)%N then "\t"
       else if (n <? 32)%N || (n =? 127)%N then
         "\x" +:+ String (hex_digit (n / 16)) (String (hex_digit (n mod 16)) "")
       else String c "") +:+ escape_str quote s
  end.

Definition single_quote : ascii := ascii_of_N 39.
Definition double_quote : ascii := ascii_of_N 34.

Definition str_repr (s : string) : string :=
  let q := if char_in single_quote s && negb (char_in double_quote s)
           then double_quote else single_quote in
  String q (escape_str q s +:+ String q "").

Definition digit_char (z : Z) : ascii := ascii_of_N (48 + Z.to_N z).
(** [%02d] and [%04d] of numbers with at most two and four digits. *)
Definition pad2 (z : Z) : string := String (digit_char (z / 10)) (String (digit_char (z mod 10)) "").
Definition pad4 (z : Z) : string := pad2 (z / 100) +:+ pad2 (z mod 100).
Definition date_iso (d : date) : string :=
  pad4 (year d) +:+ "-" +:+ pad2 (month d) +:+ "-" +:+ pad2 (day d).

Fixpoint py_repr (v : pyval) : string :=
  match v with
  | VNone => "None"
  | VBool b => if b then "True" else "False"
  | VInt z => int_repr z
  | VFloat f => float_repr f
  | VStr s => str_repr s
  | VList l => "[" +:+ str_join ", " (py_repr <$> l) +:+ "]"
  | VDict d => "{" +:+ str_join ", " ((fun '(k, x) => str_repr k +:+ ": " +:+ py_repr x) <$> d) +:+ "}"
  | VDate d => "datetime.date(" +:+ int_repr (year d) +:+ ", " +:+ int_repr (month d)
                 +:+ ", " +:+ int_repr (day d) +:+ ")"
  | VDateTime d s =>
      "datetime.datetime(" +:+ int_repr (year d) +:+ ", " +:+ int_repr (month d)
        +:+ ", " +:+ int_repr (day d) +:+ ", " +:+ int_repr (s / 3600)
        +:+ ", " +:+ int_repr (s / 60 mod 60)
        +:+ (if (s mod 60 =? 0) then "" else ", " +:+ int_repr (s mod 60)) +:+ ")"
  | VResult r m x =>
      "ProcessedResult(return_code=" +:+ py_repr r +:+ ", error_msg=" +:+ py_repr m
        +:+ ", value=" +:+ py_repr x +:+ ")"
  end.

Definition py_str (v : pyval) : string :=
  match v with
  | VStr s => s
  | VDate d => date_iso d
  | VDateTime d s =>
      date_iso d +:+ " " +:+ pad2 (s / 3600) +:+ ":" +:+ pad2 (s / 60 mod 60)
        +:+ ":" +:+ pad2 (s mod 60)
  | _ => py_repr v
  end.

(** ** Lemmas on dicts *)

Section dict_lemmas.
Context {A : Type}.
Implicit Types (d : list (string * A)) (k : string) (v : A).

Lemma dget_dset k k' v d : dget k (dset k' v d) = if decide (k = k') then Some v else dget k d.
Proof.
  induction d as [|[k0 v0] d IH]; cbn.
  - repeat case_bool_decide; repeat case_decide; congruence.
  - destruct (decide (k' = k0)) as [->|Hne].
    + rewrite bool_decide_true by done. cbn. by repeat case_bool_decide; repeat case_decide.
    + rewrite (bool_decide_false (k' = k0)) by done. cbn. rewrite IH.
      repeat case_bool_decide; repeat case_decide; congruence.
Qed.

Lemma dget_dset_eq k v d : dget k (dset k v d) = Some v.
Proof. rewrite dget_dset. by case_decide. Qed.

Lemma dget_dset_ne k k' v d : k <> k' -> dget k (dset k' v d) = dget k d.
Proof. rewrite dget_dset. by case_decide. Qed.

Lemma dget_dpop k k' d : dget k (dpop k' d) = if decide (k = k') then None else dget k d.
Proof.
  induction d as [|[k0 v0] d IH]; cbn; [by case_decide|].
  destruct (decide (k' = k0)) as [->|Hne].
  - rewrite bool_decide_true by done. rewrite IH.
    repeat case_bool_decide; repeat case_decide; congruence.
  - rewrite (bool_decide_false (k' = k0)) by done. cbn. rewrite IH.
    repeat case_bool_decide; repeat case_decide; congruence.
Qed.

Lemma dget_elem k v d : dget k d = Some v -> (k, v) ∈ d.
Proof.
  induction d as [|[k0 v0] d IH]; cbn; [done|].
  case_bool_decide; [intros [= ->]; subst; left | right; auto].
Qed.

Lemma dget_keys k d : is_Some (dget k d) <-> k ∈ dkeys d.
Proof.
  unfold dkeys. induction d as [|[k0 v0] d IH]; cbn.
  - split; [by intros [? ?] | set_solver].
  - case_bool_decide; [subst|]; [split; [left | by eexists]|].
    rewrite IH. set_solver.
Qed.

Lemma dmem_true k d : dmem k d = true <-> k ∈ dkeys d.
Proof. unfold dmem. rewrite <- dget_keys. destruct (dget k d); split; naive_solver. Qed.

Lemma dkeys_dset_in k v d : k ∈ dkeys d -> dkeys (dset k v d) = dkeys d.
Proof.
  unfold dkeys. induction d as [|[k0 v0] d IH]; cbn; [set_solver|].
  case_bool_decide; cbn; [done|]. intros. f_equal. apply IH. set_solver.
Qed.

Lemma dkeys_dset_notin k v d : k ∉ dkeys d -> dkeys (dset k v d) = (dkeys d ++ [k])%list.
Proof.
  unfold dkeys. induction d as [|[k0 v0] d IH]; cbn; [done|].
  intros Hk. rewrite bool_decide_false by set_solver. cbn. f_equal. apply IH. set_solver.
Qed.

Lemma dkeys_dset k v d :
  dkeys (dset k v d) = if decide (k ∈ dkeys d) then dkeys d else (dkeys d ++ [k])%list.
Proof. case_decide; [by apply dkeys_dset_in | by apply dkeys_dset_notin]. Qed.

Lemma elem_of_dkeys_dset k k' v d : k ∈ dkeys (dset k' v d) <-> k = k' \/ k ∈ dkeys d.
Proof. rewrite dkeys_dset. case_decide; set_solver. Qed.

Lemma NoDup_dkeys_dset k v d : NoDup (dkeys d) -> NoDup (dkeys (dset k v d)).
Proof.
  intros H. rewrite dkeys_dset. case_decide; [done|].
  apply NoDup_app. split; [done|]. split; [set_solver | apply NoDup_singleton].
Qed.

Lemma dget_NoDup k v d : NoDup (dkeys d) -> (k, v) ∈ d -> dget k d = Some v.
Proof.
  unfold dkeys. induction d as [|[k0 v0] d IH]; cbn; [set_solver|].
  intros [Hk Hd]%NoDup_cons [[= -> ->]|Hin]%elem_of_cons; [by rewrite bool_decide_true|].
  rewrite bool_decide_false; [by apply IH|].
  intros ->. apply Hk. apply list_elem_of_fmap. by exists (k0, v).
Qed.

Lemma dget_exn_Ok k d v : dget_exn k d = Ok v <-> dget k d = Some v.
Proof. unfold dget_exn. destruct (dget k d); cbn; naive_solver. Qed.
End dict_lemmas.

Lemma vget_VDict (d : pydict) k : vget (VDict d) k = Ok (dget_none k d).
Proof. done. Qed.

Lemma dget_none_dset k k' v (d : pydict) :
  dget_none k (dset k' v d) = if decide (k = k') then v else dget_none k d.
Proof. unfold dget_none. rewrite dget_dset. by case_decide. Qed.

Lemma dkeys_dpop {A} k k' (d : list (string * A)) : k ∈ dkeys (dpop k' d) <-> k <> k' /\ k ∈ dkeys d.
Proof. rewrite <- !dget_keys, dget_dpop. case_decide; [|naive_solver]. split; [by intros [? ?] | naive_solver]. Qed.

Lemma dget_dupdate {A} k (d2 d1 : list (string * A)) :
  NoDup (dkeys d2) ->
  dget k (dupdate d1 d2) = match dget k d2 with Some v => Some v | None => dget k d1 end.
Proof.
  unfold dupdate. revert d1. induction d2 as [|[k' v'] d2 IH]; intros d1 H; [done|].
  apply NoDup_cons in H as [Hn H]. cbn [foldl dget]. rewrite IH by done. rewrite dget_dset.
  case_bool_decide as E; [subst|].
  - rewrite decide_True by done. destruct (dget k' d2) eqn:Ek; [|done].
    destruct Hn. apply dget_keys. by eexists.
  - by rewrite decide_False.
Qed.

Lemma NoDup_dkeys_dpop {A} k (d : list (string * A)) : NoDup (dkeys d) -> NoDup (dkeys (dpop k d)).
Proof.
  unfold dkeys. induction d as [|[k0 v0] d IH]; cbn; [done|]. intros [Hn Hd]%NoDup_cons.
  case_bool_decide; [auto|]. cbn. apply NoDup_cons. split; [|auto].
  intros Hin. apply Hn. by apply (dkeys_dpop k0 k d) in Hin as [_ Hin].
Qed.

Lemma dget_none_dpop k k' (d : pydict) :
  dget_none k (dpop k' d) = if decide (k = k') then VNone else dget_none k d.
Proof. unfold dget_none. rewrite dget_dpop. by case_decide. Qed.

Lemma dget_none_absent k (d : pydict) : k ∉ dkeys d -> dget_none k d = VNone.
Proof.
  unfold dget_none. intros Hk. destruct (dget k d) eqn:E; [|done]. destruct Hk.
  apply dget_keys. by eexists.
Qed.

#[export] Hint Rewrite @dget_dset_eq @dget_dset @dget_dpop : pydict.

Lemma texts_fmap ss : texts (VStr <$> ss) = Some ss.
Proof. unfold texts. induction ss as [|s ss IH]; [done|]. cbn. by rewrite IH. Qed.

Lemma py_sorted_texts ss : py_sorted (VStr <$> ss) = Ok (VStr <$> str_sorted ss).
Proof.
  destruct ss as [|a [|b ss]]; [done | done |]. unfold py_sorted.
  cbn [fmap list_fmap]. change (VStr a :: VStr b :: (VStr <$> ss)) with (VStr <$> a :: b :: ss).
  by rewrite texts_fmap.
Qed.

Lemma py_eq_str a b : py_eq (VStr a) (VStr b) = bool_decide (a = b).
Proof. done. Qed.

(** ** Lemmas on [deepget] *)

Definition container (v : pyval) : Prop := has_getitem v = true.

(** On a dict or a list the lookup of one path component never raises. *)
Lemma get_item_total data key : container data -> is_Ok (_get_item data key).
Proof.
  unfold _get_item, _get_item_int, getitem. destruct data; try done; intros _.
  - destruct (int_of_str key) as [i|]; [|by eexists]. unfold getitem_int, list_index.
    match goal with |- context [if ?b then _ else _] => destruct b eqn:Hr; [|by eexists] end.
    apply andb_true_iff in Hr as [H1%Z.leb_le H2%Z.ltb_lt].
    match goal with |- context [l !! ?i] => destruct (lookup_lt_is_Some_2 l i) as [x ->]; [lia|] end.
    by eexists.
  - unfold dget_exn. destruct (dget key d); by eexists.
Qed.

Lemma deepget_nested_total data keys :
  container data -> keys <> [] -> is_Ok (_get_nested_item data keys).
Proof.
  revert data. induction keys as [|k keys IH]; intros data Hd Hk; [done|].
  destruct keys as [|k2 keys]; [by apply get_item_total|].
  change (is_Ok (item ← _get_item data k;
    if has_getitem item then _get_nested_item item (k2 :: keys) else Ok VNone)).
  destruct (get_item_total data k Hd) as [item ->]. cbn.
  destruct (has_getitem item) eqn:Hi; [by apply IH | by eexists].
Qed.

Lemma deepget_total data path : container data -> is_Ok (deepget data path).
Proof. intros H. apply deepget_nested_total; [done | apply split_go_ne]. Qed.

(** One level of nesting: a path is looked up component by component. *)
Lemma deepget_nested_cons data k keys :
  keys <> [] ->
  _get_nested_item data (k :: keys) =
    (item ← _get_item data k;
     if has_getitem item then _get_nested_item item keys else Ok VNone).
Proof. by destruct keys. Qed.

Lemma get_item_dict (d : pydict) k : _get_item (VDict d) k = Ok (dget_none k d).
Proof. unfold _get_item, getitem, dget_exn, dget_none. by destruct (dget k d). Qed.

(** A key without the separator is a plain lookup. *)
Lemma deepget_plain (d : pydict) k :
  str_contains "__" k = false -> deepget (VDict d) k = Ok (dget_none k d).
Proof. intros H. unfold deepget. rewrite split_no_sep by done. apply get_item_dict. Qed.

(** ** Lemmas on conversions *)

Lemma is_int_convert value : is_int value = true <-> is_Some (convert_to_int value).
Proof.
  unfold convert_to_int. destruct (is_int value) eqn:H; cbn; [|split; [done | by intros [? ?]]].
  split; [intros _ | done]. destruct value; cbn in *; try done; try by eexists.
  destruct (int_of_str s); [by eexists | done].
Qed.

Lemma convert_to_boolean_none value :
  convert_to_boolean value = match convert_to_bool_or_none value with VBool b => b | _ => false end.
Proof. destruct value; try done. cbn. by case_match. Qed.

(** The path of the docstring's second example steps into a string. *)
Example deepget_doc_example :
  deepget (VDict [("foo", VDict [("bar", VStr "bla"); ("some_list", VList [VStr "foo"; VStr "bar"])])])
    "foo__bar__some_list__0" = Ok VNone.
Proof. reflexivity. Qed.

(** ** Properties *)

(** Reading a path of a dict or a list never raises, whatever the path: a
    missing step gives [None].  On a dict it is the plain lookup when the path
    has one component, and otherwise the first component is read and, if it is
    a dict or a list, the rest of the path inside it. *)
Theorem deepget_safe data path :
  container data ->
  is_Ok (deepget data path) /\
  forall k rest, str_split "__" path = k :: rest -> rest <> [] ->
    deepget data path = (item ← _get_item data k;
                         if has_getitem item then _get_nested_item item rest else Ok VNone).
Proof.
  intros Hc. split; [by apply deepget_total|]. intros k rest Hs Hr. unfold deepget. rewrite Hs.
  by apply deepget_nested_cons.
Qed.

Lemma deepget_safe_witness :
  deepget (VDict [("foo", VDict [("bar", VList [VInt 7])])]) "foo__bar__0" = Ok (VInt 7) /\
  is_Ok (deepget (VDict [("foo", VDict [("bar", VList [VInt 7])])]) "foo__bar__0").
Proof.
  split; [vm_compute; reflexivity|].
  apply (deepget_safe (VDict [("foo", VDict [("bar", VList [VInt 7])])]) "foo__bar__0"). reflexivity.
Defined.
