(* ===== verification/DateParse.v ===== *)
(** [datetime.strptime] for the directives the fingerprinter uses
    ([%Y %m %d %H %M %S %z], literals and blanks), as CPython implements it: the
    format becomes a regular expression, the first match in backtracking order
    is taken, and the whole text must be consumed. *)
From stdpp Require Import base list strings.
From Stdlib Require Import Ascii ZArith Lia.
From S2P Require Import Prelude PyStr PyNum PyVal.

Open Scope string_scope.
Open Scope Z_scope.

(** ** Patterns *)

Inductive field := FYear | FMonth | FDay | FHour | FMinute | FSecond | FZone.

#[export] Instance field_eq_dec : EqDecision field.
Proof. solve_decision. Defined.

Inductive item :=
| Lit (c : ascii)
| Blanks
| Field (f : field).

Definition cclass := ascii -> bool.
Definition is_char (c : ascii) : cclass := fun d => bool_decide (d = c).
Definition range (a b : N) : cclass := fun c => ((a <=? code c)%N && (code c <=? b)%N).
Definition d09 : cclass := is_digit.
Definition d19 : cclass := range 49 57.
Definition d05 : cclass := range 48 53.
Definition d01 : cclass := range 48 49.

(** The offset after its sign, hours and minutes, longest alternative first. *)
Definition zone_tails : list (list cclass) :=
  let frac n := is_char "." :: replicate n d09 in
  let secs := fun colon : list cclass => (colon ++ [d05; d09])%list in
  let with_secs := fun colon : list cclass =>
    (((fun n => (secs colon ++ frac n)%list) <$> [6; 5; 4; 3; 2; 1]%nat) ++ [secs colon])%list in
  (with_secs [is_char ":"] ++ with_secs [] ++ [[]])%list.

Definition zone_alts : list (list cclass) :=
  let sign : cclass := fun c => is_char "+" c || is_char "-" c in
  let pre := fun colon : list cclass => ([sign; d09; d09] ++ colon ++ [d05; d09])%list in
  (((fun t => (pre [is_char ":"] ++ t)%list) <$> zone_tails)
    ++ ((fun t => (pre [] ++ t)%list) <$> zone_tails) ++ [[is_char "Z"]])%list.

(** The alternatives of each directive, in the order of CPython's regex. *)
Definition alternatives (f : field) : list (list cclass) :=
  match f with
  | FYear => [[d09; d09; d09; d09]]
  | FMonth => [[is_char "1"; range 48 50]; [is_char "0"; d19]; [d19]]
  | FDay => [[is_char "3"; d01]; [range 49 50; d09]; [is_char "0"; d19]; [d19]; [is_char " "; d19]]
  | FHour => [[is_char "2"; range 48 51]; [d01; d09]; [d09]]
  | FMinute => [[d05; d09]; [d09]]
  | FSecond => [[is_char "6"; d01]; [d05; d09]; [d09]]
  | FZone => zone_alts
  end.

Definition directive (c : ascii) : option field :=
  match c with
  | "Y" => Some FYear | "m" => Some FMonth | "d" => Some FDay
  | "H" => Some FHour | "M" => Some FMinute | "S" => Some FSecond
  | "z" => Some FZone | _ => None
  end%char.

(** [None] for a directive outside the ones above. *)
Fixpoint parse_format (s : string) : option (list item) :=
  match s with
  | "" => Some []
  | String "%" (String c s') =>
      f ← directive c; r ← parse_format s'; Some (Field f :: r)
  | String c s' =>
      r ← parse_format s';
      Some (if is_space c
            then match r with Blanks :: _ => r | _ => Blanks :: r end
            else Lit c :: r)
  end.

(** ** Matching *)

Fixpoint match_alt (alt : list cclass) (s : string) : option (string * string) :=
  match alt, s with
  | [], _ => Some ("", s)
  | p :: alt, String c s =>
      if p c then '(t, rest) ← match_alt alt s; Some (String c t, rest) else None
  | _ :: _, "" => None
  end.

Fixpoint first_some {A B} (f : A -> option B) (l : list A) : option B :=
  match l with
  | [] => None
  | x :: l => match f x with Some b => Some b | None => first_some f l end
  end.

Fixpoint blank_run (s : string) : nat :=
  match s with
  | String c s => if is_space c then S (blank_run s) else O
  | "" => O
  end.

Abbreviation fields := (list (field * string)).

(** The first match of the items in backtracking order: the fields and the
    text that is left. *)
Fixpoint match_items (its : list item) (s : string) (acc : fields) : option (fields * string) :=
  match its with
  | [] => Some (acc, s)
  | Lit c :: its =>
      match s with
      | String d s' =>
          if bool_decide (lower_char c = lower_char d) then match_items its s' acc else None
      | "" => None
      end
  | Blanks :: its =>
      first_some (fun n => match_items its (str_drop n s) acc) (reverse (seq 1 (blank_run s)))
  | Field f :: its =>
      first_some (fun alt =>
        '(t, rest) ← match_alt alt s; match_items its rest ((f, t) :: acc)) (alternatives f)
  end.

(** ** From fields to a date and time *)

Fixpoint get_field (f : field) (fs : fields) : option string :=
  match fs with
  | [] => None
  | (g, t) :: fs => if bool_decide (f = g) then Some t else get_field f fs
  end.

Definition field_int (f : field) (dflt : Z) (fs : fields) : Z :=
  match get_field f fs with
  | Some t => default dflt (int_of_str t)
  | None => dflt
  end.

Definition is_leap (y : Z) : bool :=
  (y mod 4 =? 0) && (negb (y mod 100 =? 0) || (y mod 400 =? 0)).

Definition days_in_month (y m : Z) : Z :=
  if (m =? 2) then if is_leap y then 29 else 28
  else if (m =? 4) || (m =? 6) || (m =? 9) || (m =? 11) then 30 else 31.

Definition valid_date (d : date) : bool :=
  (1 <=? year d) && (year d <=? 9999) && (1 <=? month d) && (month d <=? 12)
  && (1 <=? day d) && (day d <=? days_in_month (year d) (month d)).

(** The colon rules and the range of a UTC offset. *)
Definition valid_zone (t : string) : bool :=
  if bool_decide (t = "Z") then true else
  let colon1 := bool_decide (str_take 1 (str_drop 3 t) = ":") in
  let z := if colon1 then str_take 3 t +:+ str_drop 4 t else t in
  let consistent :=
    if (5 <? str_len z) then
      if colon1 then bool_decide (str_take 1 (str_drop 5 z) = ":")
      else negb (bool_decide (str_take 1 (str_drop 5 z) = ":"))
    else true in
  consistent && (default 24 (int_of_str (str_take 2 (str_drop 1 z))) <? 24).

(** [datetime.strptime(s, fmt)] as the date and the second of the day. *)
Definition strptime (s fmt : string) : Res (date * Z) :=
  its ← from_option Unsupported (parse_format fmt);
  match match_items its s [] with
  | Some (fs, "") =>
      let d := mkdate (field_int FYear 1900 fs) (field_int FMonth 1 fs) (field_int FDay 1 fs) in
      let sec := field_int FSecond 0 fs in
      if valid_date d && (sec <=? 59)
         && match get_field FZone fs with Some t => valid_zone t | None => true end
      then Ok (d, 3600 * field_int FHour 0 fs + 60 * field_int FMinute 0 fs + sec)
      else Err ValueError
  | _ => Err ValueError
  end.

(** ** Reading back ISO dates *)

Lemma digit_char_cases n : 0 <= n <= 9 -> is_digit (digit_char n) = true /\ digit_val (digit_char n) = n.
Proof.
  intros H. assert (Forall (fun m => is_digit (digit_char m) = true /\ digit_val (digit_char m) = m) (seqZ 0 10))
    as HF by (vm_compute; repeat constructor).
  rewrite Forall_forall in HF. apply HF, elem_of_seqZ. lia.
Qed.

Lemma pad4_digits y :
  0 <= y <= 9999 ->
  exists a b c d, pad4 y = String a (String b (String c (String d ""))) /\
    str_forall is_digit (pad4 y) = true /\ int_of_str (pad4 y) = Some y.
Proof.
  intros Hy. unfold pad4, pad2. cbn [String.append]. do 4 eexists. split; [done|].
  assert (forall s, str_forall is_digit s = true -> str_len s = 4 -> digits_value s 0 = y ->
    int_of_str s = Some y) as Hint.
  { intros s H1 H2 <-. apply int_of_digits; [by intros ->| done | rewrite H2; unfold int_max_str_digits; lia]. }
  assert (0 <= y / 100 / 10 <= 9 /\ 0 <= (y / 100) mod 10 <= 9 /\
          0 <= y mod 100 / 10 <= 9 /\ 0 <= (y mod 100) mod 10 <= 9) as (H1 & H2 & H3 & H4)
    by (Z.to_euclidean_division_equations; lia).
  apply digit_char_cases in H1 as [D1 V1], H2 as [D2 V2], H3 as [D3 V3], H4 as [D4 V4].
  assert (str_forall is_digit (String (digit_char (y / 100 / 10)) (String (digit_char ((y / 100) mod 10))
    (String (digit_char (y mod 100 / 10)) (String (digit_char ((y mod 100) mod 10)) "")))) = true) as Hall
    by (cbn [str_forall]; by rewrite D1, D2, D3, D4).
  split; [exact Hall|]. apply Hint; [exact Hall | done |].
  cbn [digits_value]. rewrite V1, V2, V3, V4. Z.to_euclidean_division_equations; lia.
Qed.

Lemma valid_date_bounds d :
  valid_date d = true -> 1 <= year d <= 9999 /\ 1 <= month d <= 12 /\ 1 <= day d <= 31.
Proof.
  unfold valid_date. rewrite !andb_true_iff, !Z.leb_le. intros H. destruct_and! H.
  assert (days_in_month (year d) (month d) <= 31); [|lia].
  unfold days_in_month. repeat case_match; lia.
Qed.

(** The directive [%m] reads the two digits of a month, [%d] those of a day. *)
Lemma read_month m its rest acc r :
  1 <= m <= 12 -> match_items its rest ((FMonth, pad2 m) :: acc) = Some r ->
  match_items (Field FMonth :: Lit "-" :: its) (pad2 m +:+ String "-" rest) acc = Some r.
Proof.
  intros H E. assert (m ∈ [1;2;3;4;5;6;7;8;9;10;11;12]) as Hm by (rewrite !elem_of_cons; lia).
  cbn [match_items alternatives first_some].
  rewrite !elem_of_cons, elem_of_nil in Hm.
  destruct_or! Hm; subst;
    repeat match goal with
    | |- context [match_alt ?a ?s] =>
        let r := eval vm_compute in (match_alt a s) in change (match_alt a s) with r
    end; cbn [mbind option_bind]; rewrite bool_decide_true by done;
    match type of E with context [pad2 ?k] =>
      let p := eval vm_compute in (pad2 k) in change (pad2 k) with p in E end;
    by rewrite E.
Qed.

Lemma read_day n acc :
  1 <= n <= 31 -> match_items [Field FDay] (pad2 n) acc = Some ((FDay, pad2 n) :: acc, "").
Proof.
  intros H.
  assert (Z.to_nat n ∈ seq 1 31) as Hn by (apply elem_of_seq; lia).
  assert (n = Z.of_nat (Z.to_nat n)) as E by lia. rewrite E. clear E H. revert Hn.
  generalize (Z.to_nat n). intros k Hk. cbn [seq] in Hk. rewrite !elem_of_cons, elem_of_nil in Hk.
  destruct_or! Hk; subst; reflexivity.
Qed.

Lemma pad2_int n : 0 <= n <= 99 -> int_of_str (pad2 n) = Some n.
Proof.
  intros H. unfold pad2.
  assert (0 <= n / 10 <= 9 /\ 0 <= n mod 10 <= 9) as [H1 H2]
    by (Z.to_euclidean_division_equations; lia).
  apply digit_char_cases in H1 as [D1 V1], H2 as [D2 V2].
  rewrite int_of_digits; [| done | cbn; by rewrite D1, D2 | unfold str_len, int_max_str_digits; cbn [String.length]; lia].
  cbn [digits_value]. rewrite V1, V2. f_equal. Z.to_euclidean_division_equations; lia.
Qed.

Lemma read_year y its rest acc r :
  0 <= y <= 9999 -> match_items its rest ((FYear, pad4 y) :: acc) = Some r ->
  match_items (Field FYear :: Lit "-" :: its) (pad4 y +:+ String "-" rest) acc = Some r.
Proof.
  intros Hy E. destruct (pad4_digits y Hy) as (a & b & c & e & Hp & Hall & _).
  rewrite Hp in Hall, E |- *. cbn [str_forall] in Hall. rewrite !andb_true_iff in Hall.
  destruct Hall as (Ha & Hb & Hc & He & _).
  cbn [match_items alternatives first_some match_alt String.append].
  unfold d09. rewrite Ha, Hb, Hc, He. cbn [mbind option_bind].
  rewrite bool_decide_true by done. by rewrite E.
Qed.

(** Every valid date is read back from its ISO form. *)
Lemma strptime_iso d :
  valid_date d = true -> strptime (date_iso d) "%Y-%m-%d" = Ok (d, 0).
Proof.
  intros Hd. destruct (valid_date_bounds d Hd) as (Hy & Hm & Hday).
  destruct (pad4_digits (year d)) as (a & b & c & e & _ & _ & Hint); [lia|].
  assert (match_items [Field FYear; Lit "-"; Field FMonth; Lit "-"; Field FDay] (date_iso d) []
    = Some ([(FDay, pad2 (day d)); (FMonth, pad2 (month d)); (FYear, pad4 (year d))], "")) as HM
    by (apply read_year; [lia|]; apply read_month; [lia|]; by apply read_day).
  unfold strptime. change (parse_format "%Y-%m-%d")
    with (Some [Field FYear; Lit "-"; Field FMonth; Lit "-"; Field FDay]).
  cbn [from_option mbind res_bind]. rewrite HM. unfold field_int. cbn [get_field].
  rewrite (bool_decide_false (FYear = FDay)), (bool_decide_false (FYear = FMonth)),
    (bool_decide_false (FMonth = FDay)), !bool_decide_true by done.
  rewrite Hint, !pad2_int by lia. cbn [default]. destruct d as [y m n]. cbn [year month day] in *.
  unfold id. rewrite Hd. by rewrite !bool_decide_false by done.
Qed.

(** ** Properties *)

(** The ISO form of a valid date is read back by [strptime] as that date,
    at midnight. *)
Theorem iso_round_trip d :
  valid_date d = true -> strptime (date_iso d) "%Y-%m-%d" = Ok (d, 0).
Proof. apply strptime_iso. Qed.

Lemma iso_round_trip_witness :
  strptime (date_iso (mkdate 2024 2 29)) "%Y-%m-%d" = Ok (mkdate 2024 2 29, 0).
Proof. apply (iso_round_trip (mkdate 2024 2 29)). reflexivity. Defined.
