(* ===== verification/Formatters.v ===== *)
(** The fingerprint formatters.

    Models [fingerprinter/formatters.py], [fingerprinter/utils.py] and
    [scanner/openshift/formatters.py]: the pure functions that normalise one raw
    fact, including the exceptions they let through. *)
From stdpp Require Import base sets list strings sorting.
From Stdlib Require Import Ascii ZArith Lia SpecFloat.
From S2P Require Import Prelude PyStr PyNum PyVal.

Open Scope string_scope.
Open Scope Z_scope.

(** ** The constructors [int] and [float] on values *)

Definition py_float (v : pyval) : Res spec_float :=
  match v with
  | VBool b => float_of_Z (b2z b)
  | VInt z => float_of_Z z
  | VFloat f => Ok f
  | VStr s => from_option ValueError (float_of_str s)
  | _ => Err TypeError
  end.

Definition py_int (v : pyval) : Res Z :=
  match v with
  | VBool b => Ok (b2z b)
  | VInt z => Ok z
  | VFloat f => int_of_float f
  | VStr s => from_option ValueError (int_of_str s)
  | _ => Err TypeError
  end.

(** [x in v] for a string [x] *)
Definition str_in (x : string) (v : pyval) : Res bool :=
  match v with
  | VStr s => Ok (str_contains x s)
  | VList l => Ok (py_in (VStr x) l)
  | VDict d => Ok (dmem x d)
  | _ => Err TypeError
  end.

Definition value_or_type_error (e : exn) : bool := is_value_error e || is_type_error e.

(** ** [fingerprinter/formatters.py] *)

Definition format_mac_addresses (mac_addresses : pyval) : Res pyval :=
  match mac_addresses with
  | VList l => VList <$> mapM (fun x => VStr <$> (str_lower <$> as_str "lower" x)) l
  | v => Ok v
  end.

Definition is_redhat_from_vm_os (vcenter_os_release : pyval) : Res pyval :=
  if negb (py_eq vcenter_os_release (VStr "")) && negb (is_none vcenter_os_release) then
    VBool <$> anyM (fun rhel_release =>
      s ← as_str "lower" vcenter_os_release;
      Ok (str_contains rhel_release (str_lower s)))
      ["red hat enterprise linux"; "rhel"]
  else Ok (VBool false).

Definition gigabyte : Z := 1024 ^ 3.

(** [gigabytes * (1024**3)]; repeating a non-empty string or list a billion
    times is outside the model. *)
Definition gigabytes_to_bytes (gigabytes : pyval) : Res pyval :=
  match gigabytes with
  | VNone => Ok VNone
  | VBool b => Ok (VInt (b2z b * gigabyte))
  | VInt z => Ok (VInt (z * gigabyte))
  | VFloat f => Ok (VFloat (float_mul f (float_of_int gigabyte)))
  | VStr "" => Ok (VStr "")
  | VList [] => Ok (VList [])
  | VStr _ | VList _ => Err Unsupported
  | _ => Err TypeError
  end.

Definition convert_architecture (architecture : pyval) : Res pyval :=
  if negb (hashable architecture) then Err TypeError
  else if py_eq architecture (VStr "amd64") then Ok (VStr "x86_64") else Ok architecture.

Definition str_or_none (value : pyval) : pyval :=
  match value with
  | VNone => VNone
  | VStr s => if bool_decide (str_strip s = "") then VNone else VStr (str_strip s)
  | v => VStr (str_strip (py_str v))
  end.

Definition float_or_none (value : pyval) : Res pyval :=
  match py_float value with
  | Ok f => Ok (VFloat f)
  | Err e => if value_or_type_error e then Ok VNone else Err e
  end.

Definition int_or_none (value : pyval) : Res pyval :=
  match py_int value with
  | Ok z => Ok (VInt z)
  | Err TypeError => Ok VNone
  | Err ValueError =>
      match (f ← float_or_none value; py_int f) with
      | Ok z => Ok (VInt z)
      | Err e => if value_or_type_error e then Ok VNone else Err e
      end
  | Err e => Err e
  end.

Definition list_or_none (value : pyval) : pyval :=
  if is_list value then value else VNone.

Definition dict_or_none (value : pyval) : pyval :=
  if is_dict value then value else VNone.

Definition list_of_dicts (value : pyval) : pyval :=
  match value with
  | VList l => if forallb is_dict l then value else VList []
  | _ => VList []
  end.

Definition date_or_none (value : pyval) : pyval :=
  match value with
  | VDateTime d _ => VDate d
  | VDate d => VDate d
  | _ => VNone
  end.

(** ** [scanner/openshift/formatters.py] *)

Definition extract_ip_addresses (addresses : pyval) : Res pyval :=
  elements ← py_iter addresses;
  ips ← foldM (fun ip_addresses element =>
    ty ← vget element "type";
    s ← as_str "lower" ty;
    if str_contains "ip" (str_lower s)
    then addr ← vget element "address"; Ok (ip_addresses ++ [addr])%list
    else Ok ip_addresses) [] elements;
  Ok (VList ips).

Definition infer_node_role (labels : pyval) : Res pyval :=
  d ← as_dict "keys" labels;
  let node_roles := List.filter
    (fun role => dmem ("node-role.kubernetes.io/" +:+ role) d)
    ["worker"; "master"; "control-plane"] in
  Ok (VStr (str_join "/" node_roles)).

(** ** [fingerprinter/utils.py] *)

Definition product_entitlement_found (entitlements : pyval) (product_name : string) : Res bool :=
  if negb (truthy entitlements) then Ok false else
  l ← py_iter entitlements;
  anyM (fun entitlement =>
    name ← vget_default entitlement "name" (VStr "");
    if is_none name then Ok false else str_in product_name name) l.

Definition strip_prefix (s prefix : string) : string :=
  if str_startswith prefix s then str_drop (String.length prefix) s else s.

(** [s[: -len(suffix)]] is the empty string when [suffix] is empty. *)
Definition strip_suffix (s suffix : string) : string :=
  if str_endswith suffix s
  then if bool_decide (suffix = "") then ""
       else str_take (String.length s - String.length suffix) s
  else s.

Definition generate_raw_fact_members (raw_facts_dict : pydict) : pyval :=
  let ordered := merge_sort (fun x y : string * pyval => str_le x.1 y.1) raw_facts_dict in
  let raw_fact_list := (List.filter (fun kv => truthy kv.2) ordered).*1 in
  match raw_fact_list with
  | [] => VNone
  | _ => VStr (str_join "/" raw_fact_list)
  end.

(** ** Lemmas *)

Lemma str_or_none_str s t : str_or_none (VStr s) = VStr t -> t = str_strip s /\ t <> "".
Proof. cbn. case_bool_decide; intros [= <-]; done. Qed.

Lemma str_or_none_idem s : str_or_none (str_or_none (VStr s)) = str_or_none (VStr s).
Proof.
  cbn. case_bool_decide as H; [done|]. cbn. rewrite strip_idem. by rewrite bool_decide_false.
Qed.

(** The value denotes an infinity, as a float or as a numeral. *)
Definition infinite (v : pyval) : Prop :=
  exists neg, v = VFloat (S754_infinity neg) \/
    exists s, v = VStr s /\ int_of_str s = None /\ float_of_str s = Some (S754_infinity neg).

Lemma int_of_float_Err f e : int_of_float f = Err e -> value_or_type_error e = false ->
  exists neg, f = S754_infinity neg /\ e = OverflowError.
Proof. destruct f; cbn; naive_solver. Qed.

Lemma py_int_Err v e : py_int v = Err e -> value_or_type_error e = false ->
  exists neg, v = VFloat (S754_infinity neg) /\ e = OverflowError.
Proof.
  destruct v; cbn; try naive_solver.
  - intros H1 H2. destruct (int_of_float_Err _ _ H1 H2) as (neg & -> & ->). eauto.
  - destruct (int_of_str s); cbn; naive_solver.
Qed.

(** A value on which [int] raises [ValueError] is a string or NaN. *)
Lemma py_int_ValueError v : py_int v = Err ValueError ->
  v = VFloat S754_nan \/ exists s, v = VStr s /\ int_of_str s = None.
Proof.
  destruct v; cbn; try done.
  - destruct f; cbn; try done; auto.
  - destruct (int_of_str s) eqn:E; [done|]. eauto.
Qed.

Lemma float_or_none_str s :
  float_or_none (VStr s) = Ok (match float_of_str s with Some f => VFloat f | None => VNone end).
Proof. unfold float_or_none. cbn. by destruct (float_of_str s). Qed.

Lemma int_or_none_raises v e : int_or_none v = Err e -> e = OverflowError /\ infinite v.
Proof.
  unfold int_or_none. destruct (py_int v) as [z|e1] eqn:E1; [done|].
  destruct (value_or_type_error e1) eqn:Hc.
  - destruct e1; cbn in Hc; try done.
    destruct (py_int_ValueError v E1) as [->|(s & -> & Hs)]; [done|].
    rewrite float_or_none_str. cbn. destruct (float_of_str s) as [f|] eqn:Hf; [|done].
    cbn. destruct (int_of_float f) as [z|e2] eqn:E2; [done|].
    destruct (value_or_type_error e2) eqn:Hc2; [done|]. intros [= <-].
    destruct (int_of_float_Err f e2 E2 Hc2) as (neg & -> & ->). split; [done|]. exists neg. eauto.
  - destruct (py_int_Err v e1 E1 Hc) as (neg & -> & ->). intros [= <-].
    split; [done|]. exists neg. by left.
Qed.

Lemma int_or_none_infinite v : infinite v -> int_or_none v = Err OverflowError.
Proof.
  intros (neg & [->|(s & -> & Hi & Hf)]); [done|].
  unfold int_or_none. cbn. rewrite Hi. cbn. rewrite float_or_none_str, Hf. done.
Qed.

(** No contributing fact is listed exactly when none is truthy. *)
Lemma raw_members_none d :
  generate_raw_fact_members d = VNone <-> Forall (fun kv => truthy kv.2 = false) d.
Proof.
  unfold generate_raw_fact_members.
  set (R := fun x y : string * pyval => str_le x.1 y.1).
  assert (Forall (fun kv => truthy kv.2 = false) d <->
          Forall (fun kv => truthy kv.2 = false) (merge_sort R d)) as ->
    by (by rewrite (merge_sort_Permutation R d)).
  generalize (merge_sort R d). intros l.
  induction l as [|[k v] l IH]; cbn; [done|].
  destruct (truthy v) eqn:E; cbn.
  - split; [by destruct (_ <$> _) | inversion_clear 1; cbn in *; congruence].
  - rewrite IH. split; [by constructor | by inversion_clear 1].
Qed.

(** ** Properties *)

(** Converting a raw value to an integer raises in exactly one case: the
    value is an infinite float or a numeral that denotes one, and the exception
    is [OverflowError]. *)
Theorem int_or_none_error v e :
  int_or_none v = Err e <-> e = OverflowError /\ infinite v.
Proof.
  split; [apply int_or_none_raises|]. intros [-> H]. by apply int_or_none_infinite.
Qed.
