(* ===== verification/ProductEap.v ===== *)
(** Detection of JBoss EAP.

    Models [fingerprinter/jboss_eap.py]: the table of facts, the functions that
    turn a fact into a presence or a set of versions, the loop that keeps the
    surest presence, and the version-aware deduplication.  [presence] is the
    [Product] enumeration of [api/deployments_report/model.py]. *)
From stdpp Require Import base sets list strings sorting.
From Stdlib Require Import Ascii ZArith Lia.
From S2P Require Import Prelude PyStr PyNum PyVal Formatters.

Open Scope string_scope.
Open Scope Z_scope.

Inductive presence := PRESENT | ABSENT | POTENTIAL | UNKNOWN.

#[export] Instance presence_eq_dec : EqDecision presence.
Proof. solve_decision. Defined.

Definition presence_str (p : presence) : string :=
  match p with
  | PRESENT => "present" | ABSENT => "absent"
  | POTENTIAL => "potential" | UNKNOWN => "unknown"
  end.

(** The provenance that every detector copies from the source. *)
Definition source_metadata (source : pydict) : Res pydict :=
  server_id ← dget_exn "server_id" source;
  source_name ← dget_exn "source_name" source;
  source_type ← dget_exn "source_type" source;
  Ok [("server_id", server_id); ("source_name", source_name); ("source_type", source_type)].

Module Eap.

Definition PRODUCT : string := "JBoss EAP".

Definition EAP_CLASSIFICATIONS : list (string * string) :=
  [("JBoss_4_0_0", "JBossAS-4"); ("JBoss_4_0_1_SP1", "JBossAS-4");
   ("JBoss_4_0_2", "JBossAS-4"); ("JBoss_4_0_3_SP1", "JBossAS-4");
   ("JBoss_4_0_4_GA", "JBossAS-4"); ("Branch_4_0", "JBossAS-4");
   ("JBoss_4_2_0_GA", "JBossAS-4"); ("JBoss_4_2_1_GA", "JBossAS-4");
   ("JBoss_4_2_2_GA", "JBossAS-4"); ("JBoss_4_2_3_GA", "JBossAS-4");
   ("JBoss_5_0_0_GA", "JBossAS-5"); ("JBoss_5_0_1_GA", "JBossAS-5");
   ("JBoss_5_1_0_GA", "JBossAS-5"); ("JBoss_6.0.0.Final", "JBossAS-6");
   ("JBoss_6.1.0.Final", "JBossAS-6"); ("1.0.1.GA", "JBossAS-7");
   ("1.0.2.GA", "JBossAS-7"); ("1.1.1.GA", "JBossAS-7");
   ("1.2.0.CR1", "JBossAS-7"); ("1.2.0.Final", "WildFly-8");
   ("1.2.2.Final", "WildFly-8"); ("1.2.4.Final", "WildFly-8");
   ("1.3.0.Beta3", "WildFly-8"); ("1.3.0.Final", "WildFly-8");
   ("1.3.3.Final", "WildFly-8"); ("1.3.4.Final", "WildFly-9");
   ("1.4.2.Final", "WildFly-9"); ("1.4.3.Final", "WildFly-9");
   ("1.4.4.Final", "WildFly-10"); ("1.5.0.Final", "WildFly-10");
   ("1.5.1.Final", "WildFly-10"); ("1.5.2.Final", "WildFly-10");
   ("1.6.0.Final", "WildFly-11"); ("1.6.1.Final", "WildFly-11");
   ("1.7.0.Final", "WildFly-12"); ("JBPAPP_4_2_0_GA", "4.2");
   ("JBPAPP_4_2_0_GA_C", "4.2"); ("JBPAPP_4_3_0_GA", "4.3");
   ("JBPAPP_4_3_0_GA_C", "4.3"); ("JBPAPP_5_0_0_GA", "5.0.0");
   ("JBPAPP_5_0_1", "5.0.1"); ("JBPAPP_5_1_0", "5.1.0");
   ("JBPAPP_5_1_1", "5.1.1"); ("JBPAPP_5_1_2", "5.1.2");
   ("JBPAPP_5_2_0", "5.2.0"); ("1.1.2.GA-redhat-1", "6.0.0");
   ("1.1.3.GA-redhat-1", "6.0.1"); ("1.2.0.Final-redhat-1", "6.1.0");
   ("1.2.2.Final-redhat-1", "6.1.1"); ("1.3.0.Final-redhat-2", "6.2.0");
   ("1.3.3.Final-redhat-1", "6.3.0"); ("1.3.4.Final-redhat-1", "6.3");
   ("1.3.5.Final-redhat-1", "6.3"); ("1.3.6.Final-redhat-1", "6.4.0");
   ("1.3.7.Final-redhat-1", "6.4"); ("1.4.4.Final-redhat-1", "7.0");
   ("1.5.1.Final-redhat-1", "7.0.0"); ("1.5.4.Final-redhat-1", "7.0");
   ("1.6.0.Final-redhat-1", "7.1.0"); ("1.8.6.Final-redhat-00001", "7.2.0");
   ("1.9.1.Final-redhat-00001", "7.3.0")].

(** A lookup in the table by a value that need not be a string. *)
Definition classification (v : pyval) : Res (option string) :=
  if negb (hashable v) then Err TypeError
  else Ok (match v with VStr s => dget s EAP_CLASSIFICATIONS | _ => None end).

(** ["Unknown-Release: " + version] *)
Definition unknown_release (version : pyval) : Res string :=
  match version with
  | VStr s => Ok ("Unknown-Release: " +:+ s)
  | _ => Err TypeError
  end.

Definition set_add (x : string) (s : list string) : list string :=
  if bool_decide (x ∈ s) then s else (s ++ [x])%list.

Definition classify_jar_versions (jar_versions : pyval) : Res (list string) :=
  if negb (truthy jar_versions) then Ok [] else
  l ← py_iter jar_versions;
  foldM (fun versions version_data =>
    version ← vget version_data "version";
    unknown ← unknown_release version;
    c ← classification version;
    Ok (set_add (default unknown c) versions)) [] l.

Definition versions_eap_presence (jar_versions : pyval) : Res presence :=
  if negb (truthy jar_versions) then Ok UNKNOWN else
  d ← as_dict "values" jar_versions;
  b ← anyM (fun version => c ← classification version;
                           Ok (str_startswith "EAP" (default "" c))) (dvalues d);
  Ok (if (b : bool) then PRESENT else UNKNOWN).

Definition classify_versions (versions : pyval) : Res (list string) :=
  d ← as_dict "values" versions;
  foldM (fun classes version =>
    c ← classification version;
    match c with
    | Some cl => Ok (set_add cl classes)
    | None => u ← unknown_release version; Ok (set_add u classes)
    end) [] (dvalues d).

Definition find_eap_entitlement (entitlements : pyval) : Res presence :=
  if negb (truthy entitlements) then Ok ABSENT else
  b ← product_entitlement_found entitlements PRODUCT;
  Ok (if (b : bool) then POTENTIAL else UNKNOWN).

Definition any_value_true (obj : pyval) : Res presence :=
  d ← as_dict "values" obj;
  Ok (if existsb truthy (dvalues d) then PRESENT else ABSENT).

Definition process_version_txt (version_dict : pyval) : Res (list string) :=
  d ← as_dict "items" version_dict;
  foldM (fun versions version =>
    if truthy version then s ← as_str "strip" version; Ok (set_add (str_strip s) versions)
    else Ok versions) [] (dvalues d).

Definition IMPLEMENTATION_VERSION : string := "Implementation-Version:".

Definition verify_classification (classification : string) : bool :=
  negb (str_contains "wildfly" (str_lower classification)
        || str_contains "jbossas" (str_lower classification)).

(** The classification of the version that follows [sep] on a line. *)
Definition classify_after (sep line : string) : option string :=
  let '(_, _, ver) := str_partition sep line in
  dget (str_strip ver) EAP_CLASSIFICATIONS.

(** The classifications found on the lines of one manifest, in order. *)
Definition manifest_classifications (manifest : pyval) : list string :=
  match manifest with
  | VStr m =>
      omap (fun line =>
        if str_contains IMPLEMENTATION_VERSION line
        then classify_after IMPLEMENTATION_VERSION line else None) (str_splitlines m)
  | _ => []
  end.

Definition is_eap_manifest_version (manifest_dict : pyval) : Res presence :=
  d ← as_dict "items" manifest_dict;
  Ok (if existsb verify_classification (mjoin (manifest_classifications <$> dvalues d))
      then PRESENT else ABSENT).

Definition get_eap_manifest_version (manifest_dict : pyval) : Res (list string) :=
  d ← as_dict "items" manifest_dict;
  Ok (foldl (fun s x => set_add x s) [] (mjoin (manifest_classifications <$> dvalues d))).

Definition jar_classification (version : pyval) : option string :=
  match version with
  | VStr v => classify_after "version" v
  | _ => None
  end.

Definition is_eap_jar_version (version_dict : pyval) : Res presence :=
  d ← as_dict "items" version_dict;
  Ok (if existsb verify_classification (omap jar_classification (dvalues d))
      then PRESENT else ABSENT).

Definition get_eap_jar_version (version_dict : pyval) : Res (list string) :=
  d ← as_dict "items" version_dict;
  Ok (foldl (fun s x => set_add x s) [] (omap jar_classification (dvalues d))).

(** An entry of [FACTS]: the fact, its presence (a literal or a function) and
    its versions. *)
Record fact_entry := mkfact {
  fact_name : string;
  fact_presence : pyval -> Res presence;
  fact_version : option (pyval -> Res (list string)) }.

(** [call_or_value] on a literal *)
Definition literal (p : presence) (_ : pyval) : Res presence := Ok p.

Definition FACTS : list fact_entry :=
  [mkfact "jboss_eap_running_paths" (literal POTENTIAL) None;
   mkfact "jboss_eap_id_jboss" (literal POTENTIAL) None;
   mkfact "jboss_eap_common_files" (literal POTENTIAL) None;
   mkfact "jboss_processes" (literal POTENTIAL) None;
   mkfact "jboss_eap_packages" (literal PRESENT) None;
   mkfact "jboss_eap_locate_jboss_modules_jar" (literal POTENTIAL) None;
   mkfact "jboss_eap_systemctl_unit_files" (literal POTENTIAL) None;
   mkfact "jboss_eap_chkconfig" (literal POTENTIAL) None;
   mkfact "eap_home_ls" any_value_true None;
   mkfact "jboss_eap_jar_ver" (literal PRESENT) (Some classify_jar_versions);
   mkfact "jboss_eap_run_jar_ver" (literal PRESENT) (Some classify_jar_versions);
   mkfact "eap_home_version_txt" any_value_true (Some process_version_txt);
   mkfact "eap_home_readme_txt" (literal ABSENT) None;
   mkfact "eap_home_jboss_modules_manifest" is_eap_manifest_version
     (Some get_eap_manifest_version);
   mkfact "eap_home_jboss_modules_version" is_eap_jar_version (Some get_eap_jar_version);
   mkfact "eap5_home_version_txt" any_value_true None;
   mkfact "eap5_home_readme_html" any_value_true None;
   mkfact "eap5_home_run_jar_manifest" versions_eap_presence (Some classify_versions);
   mkfact "subman_consumed" find_eap_entitlement None;
   mkfact "entitlements" find_eap_entitlement None].

(** [PRESENCE_ORDER.index] *)
Definition presence_index (p : presence) : Z :=
  match p with UNKNOWN => 0 | ABSENT => 1 | POTENTIAL => 2 | PRESENT => 3 end.

Definition presence_ge (value_a value_b : presence) : bool :=
  (presence_index value_b <=? presence_index value_a).

(** [bisect.bisect_right]: the number of elements not greater than [x]. *)
Fixpoint bisect_right (l : list string) (x : string) : nat :=
  match l with
  | [] => O
  | y :: l => if str_leb y x then S (bisect_right l x) else O
  end.

Definition version_aware_dedup (versions : list string) : list string :=
  let in_order := str_sorted versions in
  foldl (fun deduped version =>
    match in_order !! bisect_right in_order version with
    | Some next => if str_startswith version next then deduped else set_add version deduped
    | None => set_add version deduped
    end) [] in_order.

(** The state of the loop of [detect_jboss_eap]. *)
Record detection := mkdet {
  det_presence : presence; det_versions : list string; det_raw_facts : list string }.

Definition set_update (s t : list string) : list string := foldl (fun s x => set_add x s) s t.

Definition detect_step (facts : pydict) (st : detection) (fd : fact_entry) : Res detection :=
  let fact := fact_name fd in
  let fact_value := dget_none fact facts in
  if negb (truthy fact_value) then Ok st else
  new_presence ← fact_presence fd fact_value;
  let '(presence, raw_facts) :=
    if negb (presence_ge (det_presence st) new_presence) then (new_presence, [fact])
    else if bool_decide (det_presence st = new_presence)
            && negb (bool_decide (det_presence st = UNKNOWN))
         then (det_presence st, (det_raw_facts st ++ [fact])%list)
         else (det_presence st, det_raw_facts st) in
  versions ← match fact_version fd with
             | Some f => new_versions ← f fact_value;
                         Ok (set_update (det_versions st) new_versions)
             | None => Ok (det_versions st)
             end;
  Ok (mkdet presence versions raw_facts).

Definition is_eap_version (version : string) : bool :=
  negb (str_startswith "wildfly" (str_lower version))
  && negb (str_startswith "jbossas" (str_lower version)).

Definition detect_jboss_eap (source facts : pydict) : Res pydict :=
  metadata ← source_metadata source;
  st ← foldM (detect_step facts) (mkdet ABSENT [] []) FACTS;
  let versions := List.filter is_eap_version (det_versions st) in
  let presence :=
    match det_versions st, versions with
    | _ :: _, [] => ABSENT
    | _, _ => det_presence st
    end in
  let version_item :=
    match det_versions st with
    | [] => []
    | _ => [("version", VList (VStr <$> version_aware_dedup versions))]
    end in
  let raw_fact_key :=
    match det_raw_facts st with [] => VNone | l => VStr (str_join "/" l) end in
  Ok ([("name", VStr PRODUCT); ("presence", VStr (presence_str presence))]
      ++ version_item
      ++ [("metadata", VDict (metadata ++ [("raw_fact_key", raw_fact_key)]))])%list.

(** ** Sets of versions *)

Lemma elem_of_set_add x y s : x ∈ set_add y s <-> x = y \/ x ∈ s.
Proof. unfold set_add. case_bool_decide; set_solver. Qed.

Lemma NoDup_set_add y s : NoDup s -> NoDup (set_add y s).
Proof.
  intros H. unfold set_add. case_bool_decide; [done|].
  apply NoDup_app. split; [done|]. split; [set_solver | apply NoDup_singleton].
Qed.

Lemma elem_of_set_update x s t : x ∈ set_update s t <-> x ∈ s \/ x ∈ t.
Proof.
  unfold set_update. revert s. induction t as [|y t IH]; intros s; cbn; [set_solver|].
  rewrite IH, elem_of_set_add. set_solver.
Qed.

(** ** Version-aware deduplication *)

(** The index splits a sorted list into what is and what is not below [x]. *)
Lemma bisect_split l x :
  StronglySorted str_le l ->
  (forall y, y ∈ take (bisect_right l x) l -> str_le y x) /\
  (forall y, y ∈ drop (bisect_right l x) l -> ~ str_le y x).
Proof.
  induction 1 as [|y l Hs IH Hall]; cbn; [split; set_solver|].
  destruct (str_leb y x) eqn:E; cbn.
  - destruct IH as [IH1 IH2]. split; [|done]. intros z [->|]%elem_of_cons; auto.
  - split; [set_solver|]. intros z [->|Hz]%elem_of_cons; [by unfold str_le; rewrite E|].
    rewrite Forall_forall in Hall. intros Hzx. apply Hall in Hz.
    assert (str_le y x) by (by etrans). unfold str_le in *. congruence.
Qed.

(** The version is the prefix of another one of the list. *)
Definition refined (versions : list string) (v : string) : Prop :=
  exists w, w ∈ versions /\ w <> v /\ String.prefix v w = true.

Definition next_refines (l : list string) (v : string) : bool :=
  match l !! bisect_right l v with
  | Some next => str_startswith v next
  | None => false
  end.

(** Looking one place to the right is enough. *)
Lemma next_refines_spec l v :
  StronglySorted str_le l -> next_refines l v = true <-> refined l v.
Proof.
  intros Hs. destruct (bisect_split l v Hs) as [Hle Hgt]. unfold next_refines, refined.
  set (i := bisect_right l v) in *. split.
  - destruct (l !! i) as [n|] eqn:E; [|done]. intros Hp. exists n.
    assert (n ∈ drop i l) as Hn.
    { apply list_elem_of_lookup. exists 0%nat. by rewrite lookup_drop, Nat.add_0_r. }
    split; [by apply list_elem_of_lookup_2 in E|]. split; [|done].
    intros ->. by apply (Hgt v Hn).
  - intros (w & Hw & Hne & Hp). pose proof (str_le_prefix _ _ Hp) as Hvw.
    rewrite <- (take_drop i l) in Hw. apply elem_of_app in Hw as [Hw|Hw].
    { destruct Hne. by apply (anti_symm str_le); [apply Hle|]. }
    destruct (drop i l) as [|n r] eqn:E; [set_solver|].
    assert (l !! i = Some n) as ->.
    { rewrite <- (Nat.add_0_r i), <- lookup_drop. by rewrite E. }
    apply (prefix_convex v n w); [done| |].
    + destruct (total str_le v n) as [?|Hnv]; [done|]. exfalso. eapply Hgt; [|exact Hnv]. left.
    + rewrite <- (take_drop i l), E in Hs.
      apply StronglySorted_app in Hs as (_ & _ & Hs). inversion_clear Hs as [|? ? _ Hall].
      apply elem_of_cons in Hw as [->|Hw]; [done|]. rewrite Forall_forall in Hall. auto.
Qed.

Lemma dedup_fold_spec l (keep : string -> bool) acc x :
  x ∈ foldl (fun s v => if keep v then set_add v s else s) acc l <->
  x ∈ acc \/ (x ∈ l /\ keep x = true).
Proof.
  revert acc. induction l as [|v l IH]; intros acc; cbn; [set_solver|].
  rewrite IH. destruct (keep v) eqn:E.
  - rewrite elem_of_set_add, elem_of_cons. naive_solver.
  - rewrite elem_of_cons. split; [naive_solver|].
    intros [?|[[->|?] ?]]; [naive_solver | congruence | naive_solver].
Qed.

Lemma version_aware_dedup_fold versions :
  version_aware_dedup versions =
  foldl (fun s v => if negb (next_refines (str_sorted versions) v) then set_add v s else s)
    [] (str_sorted versions).
Proof.
  unfold version_aware_dedup. apply foldl_pointwise. intros acc v.
  unfold next_refines. case_match; [|done]. by destruct (str_startswith _ _).
Qed.

Lemma elem_of_version_aware_dedup versions v :
  v ∈ version_aware_dedup versions <-> v ∈ versions /\ ~ refined versions v.
Proof.
  rewrite version_aware_dedup_fold, dedup_fold_spec.
  rewrite negb_true_iff, <- not_true_iff_false, next_refines_spec by apply sorted_StronglySorted.
  assert (refined (str_sorted versions) v <-> refined versions v) as ->
    by (unfold refined; by setoid_rewrite (sorted_perm versions)).
  rewrite (sorted_perm versions). set_solver.
Qed.

Lemma NoDup_version_aware_dedup versions : NoDup (version_aware_dedup versions).
Proof.
  rewrite version_aware_dedup_fold. assert (NoDup (@nil string)) as H by constructor.
  revert H. generalize (@nil string). generalize (str_sorted versions) at 2 as l.
  induction l as [|v l IH]; intros acc H; cbn; [done|].
  apply IH. case_match; [by apply NoDup_set_add | done].
Qed.

(** ** The presence loop *)

(** What one entry contributes: nothing when the fact is falsy. *)
Definition contribution (facts : pydict) (fd : fact_entry) : Res (list (string * presence)) :=
  let v := dget_none (fact_name fd) facts in
  if negb (truthy v) then Ok [] else p ← fact_presence fd v; Ok [(fact_name fd, p)].

(** The contributions of the whole table, in its order. *)
Fixpoint evidence (facts : pydict) (l : list fact_entry) : Res (list (string * presence)) :=
  match l with
  | [] => Ok []
  | fd :: l => a ← contribution facts fd; b ← evidence facts l; Ok (a ++ b)%list
  end.

Definition surest (p q : presence) : presence := if presence_ge p q then p else q.

(** The presence the evidence supports, and the facts that support exactly it. *)
Definition verdict (ev : list (string * presence)) : presence :=
  foldl surest ABSENT (ev.*2).
Definition supporters (ev : list (string * presence)) (p : presence) : list string :=
  (List.filter (fun e => bool_decide (e.2 = p)) ev).*1.

Lemma presence_index_inj p q : presence_index p = presence_index q -> p = q.
Proof. by destruct p, q. Qed.

Lemma verdict_snoc ev e : verdict (ev ++ [e])%list = surest (verdict ev) e.2.
Proof. unfold verdict. by rewrite fmap_app, foldl_app. Qed.

Lemma verdict_ge ev : 1 <= presence_index (verdict ev) /\
  Forall (fun e => presence_index e.2 <= presence_index (verdict ev)) ev.
Proof.
  induction ev as [|e ev [IH1 IH2]] using rev_ind; [by split; [|constructor]|].
  rewrite verdict_snoc. unfold surest, presence_ge. destruct (Z.leb_spec (presence_index e.2) (presence_index (verdict ev))).
  - split; [done|]. apply Forall_app. split; [done|]. by constructor.
  - split; [lia|]. apply Forall_app. split; [|by constructor].
    eapply Forall_impl; [exact IH2|]. cbn. lia.
Qed.

Lemma supporters_snoc ev e p :
  supporters (ev ++ [e])%list p =
  (supporters ev p ++ (if bool_decide (e.2 = p) then [e.1] else []))%list.
Proof.
  unfold supporters. rewrite List.filter_app, fmap_app. cbn. by case_bool_decide.
Qed.

Lemma supporters_none ev p :
  Forall (fun e => presence_index e.2 < presence_index p) ev -> supporters ev p = [].
Proof.
  induction 1 as [|e ev He _ IH]; cbn; [done|].
  rewrite bool_decide_false; [exact IH|]. intros <-. lia.
Qed.

(** The invariant of the loop: it holds the verdict of the evidence so far. *)
Definition loop_inv (ev : list (string * presence)) (st : detection) : Prop :=
  det_presence st = verdict ev /\ det_raw_facts st = supporters ev (verdict ev).

Lemma detect_step_inv facts ev st fd st' :
  loop_inv ev st -> detect_step facts st fd = Ok st' ->
  exists c, contribution facts fd = Ok c /\ loop_inv (ev ++ c)%list st'.
Proof.
  intros [HP HR]. unfold detect_step, contribution. destruct (truthy _); cbn; cycle 1.
  { intros [= <-]. exists []. rewrite app_nil_r. done. }
  intros (p & -> & H)%bind_Ok. eexists. split; [done|]. revert H.
  set (e := (fact_name fd, p)). destruct (verdict_ge ev) as [Hv Hall].
  intros H. enough (exists vs, st' = mkdet (verdict (ev ++ [e])%list) vs
      (supporters (ev ++ [e])%list (verdict (ev ++ [e])%list))) as (vs & ->) by done.
  rewrite supporters_snoc, verdict_snoc. cbn [fst snd e]. unfold surest.
  rewrite HP, HR in H. destruct (presence_ge (verdict ev) p) eqn:Hge; cbn [negb] in H.
  - destruct (decide (verdict ev = p)) as [Hp|Hp].
    + rewrite (bool_decide_true (p = verdict ev)) by done.
      rewrite (bool_decide_true (verdict ev = p)) in H by done.
      rewrite bool_decide_false in H by (intros Hu; rewrite Hu in Hv; cbn in Hv; lia).
      cbn in H. apply bind_Ok in H as (vs & _ & [= <-]). eauto.
    + rewrite (bool_decide_false (p = verdict ev)) by congruence. rewrite app_nil_r.
      rewrite (bool_decide_false (verdict ev = p)) in H by done.
      cbn in H. apply bind_Ok in H as (vs & _ & [= <-]). eauto.
  - rewrite bool_decide_true by done.
    rewrite supporters_none; [apply bind_Ok in H as (vs & _ & [= <-]); eauto|].
    eapply Forall_impl; [exact Hall|]. cbn. unfold presence_ge in Hge.
    apply Z.leb_gt in Hge. lia.
Qed.

Lemma detect_loop_inv facts l ev st st' :
  loop_inv ev st -> foldM (detect_step facts) st l = Ok st' ->
  exists c, evidence facts l = Ok c /\ loop_inv (ev ++ c)%list st'.
Proof.
  revert ev st. induction l as [|fd l IH]; intros ev st Hinv; cbn.
  { intros [= <-]. exists []. by rewrite app_nil_r. }
  intros (st1 & H1 & H2)%bind_Ok.
  destruct (detect_step_inv _ _ _ _ _ Hinv H1) as (c & -> & Hinv1).
  destruct (IH _ _ Hinv1 H2) as (c2 & -> & Hinv2).
  exists (c ++ c2)%list. split; [done|]. by rewrite app_assoc.
Qed.

Lemma detect_loop_verdict facts st :
  foldM (detect_step facts) (mkdet ABSENT [] []) FACTS = Ok st ->
  exists ev, evidence facts FACTS = Ok ev /\
    det_presence st = verdict ev /\ det_raw_facts st = supporters ev (verdict ev).
Proof.
  intros H. destruct (detect_loop_inv facts FACTS [] (mkdet ABSENT [] []) st) as (c & ? & ? & ?);
    [done | done | eauto].
Qed.

(** ** No classification starts with EAP *)

Lemma classifications_not_eap k c :
  dget k EAP_CLASSIFICATIONS = Some c -> str_startswith "EAP" c = false.
Proof.
  intros H%dget_elem.
  assert (forallb (fun kc => negb (str_startswith "EAP" kc.2)) EAP_CLASSIFICATIONS = true) as Hall
    by reflexivity.
  rewrite forallb_forall in Hall. apply list_elem_of_In, Hall in H. by apply negb_true_iff in H.
Qed.

Lemma classification_not_eap v c :
  classification v = Ok c -> str_startswith "EAP" (default "" c) = false.
Proof.
  unfold classification. destruct (negb _); [done|]. intros H. apply (f_equal (fun r => match r with Ok x => x | Err _ => None end)) in H.
  subst c. destruct v; try done. destruct (dget s EAP_CLASSIFICATIONS) eqn:E; [|done].
  by apply (classifications_not_eap s).
Qed.

(** The test on the classification of [run.jar] manifests cannot succeed. *)
Lemma manifest_presence_unknown jar_versions p :
  versions_eap_presence jar_versions = Ok p -> p = UNKNOWN.
Proof.
  unfold versions_eap_presence. destruct (negb _); [by intros [= <-]|].
  intros (d & _ & H)%bind_Ok. apply bind_Ok in H as (b & Hb & [= <-]).
  assert (b = false) as ->; [|done]. revert Hb.
  induction (dvalues d) as [|v l IH]; [by intros [= <-]|].
  cbn [anyM]. intros (b1 & H1 & H2)%bind_Ok. apply bind_Ok in H1 as (c & Hc & H1). injection H1 as <-.
  by rewrite (classification_not_eap v c Hc) in H2; auto.
Qed.

(** The presence that the versions found allow. *)
Lemma final_presence versions p :
  match versions, List.filter is_eap_version versions with _ :: _, [] => ABSENT | _, _ => p end =
  if negb (bool_decide (versions = [])) && negb (existsb is_eap_version versions) then ABSENT else p.
Proof.
  destruct versions as [|v vs]; [done|]. rewrite bool_decide_eq_false_2 by done. cbn [negb andb].
  assert (existsb is_eap_version (v :: vs) = match List.filter is_eap_version (v :: vs) with [] => false | _ => true end)
    as ->; [|by destruct (List.filter is_eap_version (v :: vs))].
  induction (v :: vs) as [|x l IH]; [done|]. cbn [existsb List.filter]. by destruct (is_eap_version x).
Qed.

(** ** Properties *)

(** A detection reports the surest presence among the facts that hold, in
    the order unknown, absent, potential, present, starting from absent; the raw
    facts it names are exactly those that gave that presence; and when versions
    were found but none is an EAP version, the product is absent. *)
Theorem eap_detection source facts p :
  detect_jboss_eap source facts = Ok p ->
  exists ev versions md, evidence facts FACTS = Ok ev /\
    dget "presence" p = Some (VStr (presence_str
      (if negb (bool_decide (versions = [])) && negb (existsb is_eap_version versions)
       then ABSENT else verdict ev))) /\
    dget "metadata" p = Some (VDict md) /\
    dget "raw_fact_key" md = Some (match supporters ev (verdict ev) with
                                   | [] => VNone
                                   | l => VStr (str_join "/" l)
                                   end).
Proof.
  unfold detect_jboss_eap. intros (md & Hmd & H)%bind_Ok. apply bind_Ok in H as (st & Hst & H).
  destruct (detect_loop_verdict _ _ Hst) as (ev & Hev & HP & HR). injection H as <-.
  assert (dget "raw_fact_key" md = None) as Hnone by (unfold source_metadata in Hmd; by res_inv).
  eexists ev, (det_versions st), _. split; [done|]. split; [|split].
  - rewrite <- final_presence, <- HP. by destruct (det_versions st).
  - cbn. destruct (det_versions st); done.
  - rewrite <- HR. clear -Hnone.
    assert (forall v, dget "raw_fact_key" (md ++ [("raw_fact_key", v)])%list = Some v) as H.
    { intros v. induction md as [|[k w] md IH]; [done|]. cbn in *. case_bool_decide; [done | by apply IH]. }
    apply H.
Qed.

(** A host with EAP packages and running processes. *)
Definition eap_source : pydict :=
  [("server_id", VStr "s"); ("source_name", VStr "n"); ("source_type", VStr "network")].
Definition eap_facts : pydict :=
  [("jboss_processes", VList [VStr "java"]); ("jboss_eap_packages", VList [VStr "eap7"])].

Lemma eap_detection_witness :
  exists p ev versions md, detect_jboss_eap eap_source eap_facts = Ok p /\
    evidence eap_facts FACTS = Ok ev /\
    dget "presence" p = Some (VStr (presence_str
      (if negb (bool_decide (versions = [])) && negb (existsb is_eap_version versions)
       then ABSENT else verdict ev))) /\
    dget "metadata" p = Some (VDict md) /\
    dget "raw_fact_key" md = Some (match supporters ev (verdict ev) with
                                   | [] => VNone
                                   | l => VStr (str_join "/" l)
                                   end).
Proof.
  eexists. assert (detect_jboss_eap eap_source eap_facts = Ok _) as H by (vm_compute; reflexivity).
  destruct (eap_detection _ _ _ H) as (ev & vs & md & Hrest).
  exists ev, vs, md. split; [exact H | exact Hrest].
Defined.

(** De-duplicating versions keeps a version exactly when no other version
    of the list refines it (has it as a prefix), and keeps it once: looking at
    the next version in sorted order is enough. *)
Theorem version_aware_dedup_spec versions v :
  (v ∈ version_aware_dedup versions <-> v ∈ versions /\ ~ refined versions v) /\
  NoDup (version_aware_dedup versions).
Proof. split; [apply elem_of_version_aware_dedup | apply NoDup_version_aware_dedup]. Qed.

End Eap.
