(* ===== verification/ProductFuse.v ===== *)
(** Detection of JBoss Fuse and JBoss Web Server.

    Models [fingerprinter/jboss_fuse.py] (Module [Fuse]) and
    [fingerprinter/jboss_web_server.py] (Module [Jws]). *)
From stdpp Require Import base sets list strings sorting.
From Stdlib Require Import Ascii ZArith Lia.
From S2P Require Import Prelude PyStr PyNum PyVal Formatters ProductEap.

Open Scope string_scope.
Open Scope Z_scope.

(** The elements of [set(l)], as the first occurrence of each value. *)
Fixpoint py_set (l : list pyval) : list pyval :=
  match l with
  | [] => []
  | x :: l => x :: List.filter (fun y => negb (py_eq y x)) (py_set l)
  end.
Definition py_set_of (l : list pyval) : Res (list pyval) :=
  if forallb hashable l then Ok (py_set l) else Err TypeError.

(** The operand of a list concatenation. *)
Definition list_operand (v : pyval) : Res (list pyval) :=
  match v with VList l => Ok l | _ => Err TypeError end.

(** [v and any(v.values())] *)
Definition and_any_value (v : pyval) : Res pyval :=
  if truthy v then d ← as_dict "values" v; Ok (VBool (existsb truthy (dvalues d))) else Ok v.

Module Fuse.

Definition PRODUCT : string := "JBoss Fuse".

Definition FUSE_CLASSIFICATIONS : list (string * string) :=
  [("redhat-630187", "Fuse-6.3.0"); ("redhat-621084", "Fuse-6.2.1");
   ("redhat-620133", "Fuse-6.2.0"); ("redhat-611412", "Fuse-6.1.1");
   ("redhat-610379", "Fuse-6.1.0"); ("redhat-60024", "Fuse-6.0.0")].

Definition get_version (eap_version : pyval) : Res (list pyval) :=
  dictionaries ← py_iter eap_version;
  new_versions ← mapM (fun dictionary => getitem dictionary "version") dictionaries;
  items ← mapM py_iter new_versions;
  Ok (mjoin items).

Definition classify (version_data : pyval) : Res pyval :=
  match version_data with
  | VStr s => Ok (VStr (default ("Unknown-Release: " +:+ s) (dget s FUSE_CLASSIFICATIONS)))
  | _ => Err TypeError
  end.

(** The three kinds of versions of one component: from the playbook, from the
    EAP homes, and from the extended search. *)
Record versions3 := mkv3 { v_fuse : list pyval; v_eap : list pyval; v_ext : list pyval }.

Definition component_versions (facts : pydict) (fuse eap ext : string) : Res versions3 :=
  let f := default_getter facts fuse (VList []) in
  e ← get_version (default_getter facts eap (VList []));
  let x := default_getter facts ext (VList []) in
  f' ← list_operand f;
  x' ← list_operand x;
  Ok (mkv3 f' e x').

Definition v3_list (v : versions3) : list pyval := (v_fuse v ++ v_eap v ++ v_ext v)%list.

Definition nonempty {A} (l : list A) : bool := match l with [] => false | _ => true end.

Definition detect_jboss_fuse (source facts : pydict) : Res pydict :=
  let eap_home_bin := dget_none "eap_home_bin" facts in
  let karaf_home_bin_fuse := dget_none "karaf_home_bin_fuse" facts in
  let systemctl_files := dget_none "jboss_fuse_systemctl_unit_files" facts in
  let chkconfig := dget_none "jboss_fuse_chkconfig" facts in
  let subman_consumed := default_getter facts "subman_consumed" (VList []) in
  let entitlements := default_getter facts "entitlements" (VList []) in
  activemq ← component_versions facts "fuse_activemq_version"
               "jboss_fuse_on_eap_activemq_ver" "jboss_activemq_ver";
  camel ← component_versions facts "fuse_camel_version"
            "jboss_fuse_on_eap_camel_ver" "jboss_camel_ver";
  cxf ← component_versions facts "fuse_cxf_version"
          "jboss_fuse_on_eap_cxf_ver" "jboss_cxf_ver";
  metadata ← source_metadata source;
  is_fuse_on_eap ← and_any_value eap_home_bin;
  is_fuse_on_karaf ← and_any_value karaf_home_bin_fuse;
  fuse_versions ←
    (if (nonempty (v3_list activemq) && nonempty (v3_list camel) && nonempty (v3_list cxf))
        || truthy is_fuse_on_eap || truthy is_fuse_on_karaf
     then py_set_of (v3_list activemq ++ v3_list camel ++ v3_list cxf)%list
     else Ok []);
  outcome ←
    (if truthy is_fuse_on_eap || truthy is_fuse_on_karaf || nonempty fuse_versions then
       versions ← mapM classify fuse_versions;
       let raw_facts := generate_raw_fact_members
         [("eap_home_bin", is_fuse_on_eap);
          ("karaf_home_bin_fuse", is_fuse_on_karaf);
          ("jboss_activemq_ver", VList (v_ext activemq));
          ("jboss_camel_ver", VList (v_ext camel));
          ("jboss_cxf_ver", VList (v_ext cxf));
          ("fuse_activemq_version", VList (v_fuse activemq));
          ("fuse_camel_version", VList (v_fuse camel));
          ("fuse_cxf_version", VList (v_fuse cxf));
          ("jboss_fuse_on_eap_activemq_ver", VList (v_eap activemq));
          ("jboss_fuse_on_eap_camel_ver", VList (v_eap camel));
          ("jboss_fuse_on_eap_cxf_ver", VList (v_eap cxf))] in
       Ok (PRESENT, (if nonempty versions then [("version", VList versions)] else []), raw_facts)
     else if truthy systemctl_files || truthy chkconfig then
       Ok (POTENTIAL, [], generate_raw_fact_members
             [("jboss_fuse_systemctl_unit_files", systemctl_files);
              ("jboss_fuse_chkconfig", chkconfig)])
     else
       in_subman ← product_entitlement_found subman_consumed PRODUCT;
       if (in_subman : bool) then Ok (POTENTIAL, [], VStr "subman_consumed") else
       in_ent ← product_entitlement_found entitlements PRODUCT;
       if (in_ent : bool) then Ok (POTENTIAL, [], VStr "entitlements")
       else Ok (ABSENT, [], VNone));
  let '(presence, version_item, raw_facts) := outcome in
  Ok ([("name", VStr PRODUCT); ("presence", VStr (presence_str presence))]
      ++ version_item
      ++ [("metadata", VDict (metadata ++ [("raw_fact_key", raw_facts)]))])%list.

(** ** Provenance *)

Lemma py_set_nil l : py_set l = [] <-> l = [].
Proof. by destruct l. Qed.

Lemma nonempty_app {A} (l1 l2 : list A) : nonempty (l1 ++ l2)%list = nonempty l1 || nonempty l2.
Proof. by destruct l1. Qed.

Lemma truthy_VList l : truthy (VList l) = nonempty l.
Proof. by destruct l. Qed.

Lemma outcome_provenance facts source p :
  detect_jboss_fuse source facts = Ok p ->
  exists pr rf md,
    dget "presence" p = Some (VStr (presence_str pr)) /\
    dget "metadata" p = Some (VDict md) /\ dget "raw_fact_key" md = Some rf /\
    (pr = ABSENT <-> rf = VNone) /\
    (pr = ABSENT \/ pr = POTENTIAL -> dget "version" p = None).
Proof.
  unfold detect_jboss_fuse. intros H. res_inv.
  match goal with o : (presence * _ * pyval)%type |- _ => destruct o as [[pr vi] rf] end.
  res_inv. unfold source_metadata in *. res_inv.
  match goal with |- context [("metadata", VDict ?m)] => exists pr, rf, m end. cbn.
  match goal with H : (if ?c then _ else _) = Ok (pr, vi, rf) |- _ =>
    rename H into Hout; destruct c eqn:Hc end.
  - apply bind_Ok in Hout as (vs & _ & [= <- <- <-]).
    split; [done|]. split; [by destruct (nonempty vs)|]. split; [done|]. split; [|by intros [?|?]].
    rewrite raw_members_none. split; [done|]. intros Hall. exfalso.
    rewrite !Forall_cons in Hall. cbn [fst snd] in Hall. rewrite !truthy_VList in Hall.
    destruct Hall as (E1 & E2 & E3 & E4 & E5 & E6 & E7 & E8 & E9 & E10 & E11 & _).
    rewrite E1, E2 in Hc. cbn in Hc.
    match goal with H : (if ?c then py_set_of _ else _) = Ok _ |- _ => destruct c end; [|res_inv; done].
    unfold py_set_of in *. case_match; [|done]. res_inv.
    match type of Hc with nonempty (py_set ?l) = true => assert (nonempty l = true) as Hl by (by destruct l) end.
    unfold v3_list in Hl. rewrite !nonempty_app in Hl.
    rewrite E3, E4, E5, E6, E7, E8, E9, E10, E11 in Hl. done.
  - match goal with H : (if ?c then _ else _) = Ok (pr, vi, rf) |- _ => destruct c eqn:Hc2 end.
    + injection Hout as <- <- <-. do 3 (split; [reflexivity|]).
      split; [split; [done|] | done]. intros Hn. apply raw_members_none in Hn. rewrite !Forall_cons in Hn. cbn [fst snd] in Hn.
      destruct Hn as (E1 & E2 & _). by rewrite E1, E2 in Hc2.
    + apply bind_Ok in Hout as ([] & _ & Hout);
        [injection Hout as <- <- <-; by do 3 (split; [reflexivity|])|].
      apply bind_Ok in Hout as ([] & _ & Hout);
        injection Hout as <- <- <-; by do 3 (split; [reflexivity|]).
Qed.

(** ** Properties *)

(** A JBoss Fuse report names a raw fact exactly when the product is not
    reported absent, and it only carries versions when the product is present. *)
Theorem fuse_provenance source facts p :
  detect_jboss_fuse source facts = Ok p ->
  exists pr rf md,
    dget "presence" p = Some (VStr (presence_str pr)) /\
    dget "metadata" p = Some (VDict md) /\ dget "raw_fact_key" md = Some rf /\
    (pr = ABSENT <-> rf = VNone) /\
    (pr = ABSENT \/ pr = POTENTIAL -> dget "version" p = None).
Proof. apply outcome_provenance. Qed.

Definition fuse_source : pydict :=
  [("server_id", VStr "s"); ("source_name", VStr "n"); ("source_type", VStr "network")].
Definition fuse_facts : pydict :=
  [("jboss_activemq_ver", VList [VStr "redhat-630187"])].

Lemma fuse_provenance_witness :
  exists p pr rf md, detect_jboss_fuse fuse_source fuse_facts = Ok p /\
    dget "presence" p = Some (VStr (presence_str pr)) /\
    dget "metadata" p = Some (VDict md) /\ dget "raw_fact_key" md = Some rf /\
    (pr = ABSENT <-> rf = VNone) /\
    (pr = ABSENT \/ pr = POTENTIAL -> dget "version" p = None).
Proof.
  eexists. assert (detect_jboss_fuse fuse_source fuse_facts = Ok _) as H by (vm_compute; reflexivity).
  destruct (fuse_provenance _ _ _ H) as (pr & rf & md & Hrest).
  exists pr, rf, md. split; [exact H | exact Hrest].
Defined.

End Fuse.

Module Jws.

Definition PRODUCT : string := "JBoss Web Server".

Definition JWS_CLASSIFICATIONS : list (string * string) :=
  [("Apache/2.2.10 (Unix)Apache Tomcat/5.5.23", "EWS 1.0.0");
   ("Apache/2.2.14 (Unix)Apache Tomcat/5.5.28", "EWS 1.0.1");
   ("Apache/2.2.17 (Unix)Apache Tomcat/5.5.33", "EWS 1.0.2");
   ("Apache/2.2.22 (Unix)Apache Tomcat/6.0.35", "EWS 2.0.0");
   ("Apache/2.2.22 (Unix)Apache Tomcat/6.0.37", "EWS 2.0.1");
   ("Apache/2.2.26 (Unix)Apache Tomcat/6.0.41", "EWS 2.1.x")].

Definition version_banner : string := "Red Hat JBoss Web Server - Version ".

Definition is_version_char (c : ascii) : bool := is_digit c || bool_decide (c = "."%char).

Definition nonempty_of (p : ascii -> bool) (s : string) : bool :=
  negb (bool_decide (s = "")) && str_forall p s.

(** The texts around the first blank that follows [banner]. *)
Definition after_banner (s : string) : option (string * string) :=
  if str_startswith version_banner s
  then split_once " " (str_drop (String.length version_banner) s) else None.

(** [JWS_GA_PATTERN.fullmatch]: the found version. *)
Definition match_ga (s : string) : option string :=
  '(v, rest) ← after_banner s;
  if nonempty_of is_version_char v && bool_decide (rest = "GA") then Some v else None.

(** [JWS_PATCH_PATTERN.fullmatch]: the major version and the patch. *)
Definition match_patch (s : string) : option (string * string) :=
  '(v, rest) ← after_banner s;
  if nonempty_of is_version_char v && str_startswith "SP" rest
     && nonempty_of is_digit (str_drop 2 rest)
  then Some (v, str_drop 2 rest) else None.

(** [JWS_UNIT_NAME_PATTERN.fullmatch]: the major version. *)
Definition match_unit (s : string) : option string :=
  if str_startswith "jws" s && nonempty_of is_digit (str_drop 3 s)
  then Some (str_drop 3 s) else None.

Definition classify_version (version : pyval) : Res (option string) :=
  if negb (hashable version) then Err TypeError else
  s ← as_str "startswith" version;
  Ok (match dget s JWS_CLASSIFICATIONS with
      | Some std => Some std
      | None =>
          if str_startswith "JWS_3" s then Some (str_replace1 "_" " " s) else
          match match_ga s with
          | Some v => Some ("JWS " +:+ v)
          | None =>
              match match_patch s with
              | Some (major, patch) => Some ("JWS " +:+ major +:+ "." +:+ patch)
              | None =>
                  match match_unit s with
                  | Some major => Some ("JWS " +:+ major +:+ ".x.x")
                  | None => None
                  end
              end
          end
      end).

Definition get_version (raw_versions : pyval) : Res (list string) :=
  if is_none raw_versions then Ok [] else
  l ← py_iter raw_versions;
  foldM (fun versions version =>
    c ← classify_version version;
    Ok (match c with Some std => (versions ++ [std])%list | None => versions end)) [] l.

(** The state of the sequence of tests: the presence and the contributing facts. *)
Abbreviation evidence := (presence * pydict)%type.

Definition test_fact (cond : bool) (p : presence) (key : string) (v : pyval) (st : evidence) : evidence :=
  if cond then (p, dset key v st.2) else st.

(** The loop over the versions breaks in its first round. *)
Definition version_presence (version : list string) (p : presence) : presence :=
  match version with
  | [] => p
  | ver :: _ => if negb (str_contains "EWS" ver) then PRESENT else POTENTIAL
  end.

Definition detect_jboss_ws (source facts : pydict) : Res pydict :=
  metadata ← source_metadata source;
  let subman_consumed := default (VList []) (dget "subman_consumed" facts) in
  let installed_with_rpm := dget_none "jws_installed_with_rpm" facts in
  let has_eula_file := dget_none "jws_has_eula_txt_file" facts in
  let jws_has_cert := dget_none "jws_has_cert" facts in
  version ← get_version (dget_none "jws_version" facts);
  in_subman ← product_entitlement_found subman_consumed PRODUCT;
  let st := (ABSENT, []) : evidence in
  let st := test_fact in_subman POTENTIAL "subman_consumed" subman_consumed st in
  let st := test_fact (truthy has_eula_file) POTENTIAL "jws_has_eula_txt_file" has_eula_file st in
  let st := match version with
            | [] => st
            | _ => (version_presence version st.1,
                    dset "jws_version" (dget_none "jws_version" facts) st.2)
            end in
  let st := test_fact (truthy installed_with_rpm) PRESENT
              "jws_installed_with_rpm" installed_with_rpm st in
  let st := test_fact (truthy jws_has_cert) PRESENT "jws_has_cert" jws_has_cert st in
  let raw_facts := generate_raw_fact_members st.2 in
  Ok [("name", VStr PRODUCT); ("presence", VStr (presence_str st.1));
      ("version", VList (VStr <$> version));
      ("metadata", VDict (metadata ++ [("raw_fact_key", raw_facts)])%list)].

(** ** Provenance *)

(** Invariant of the sequence of tests: a product is absent exactly when no
    fact was recorded, and every recorded fact is truthy. *)
Definition ev_ok (st : evidence) : Prop :=
  (st.1 = ABSENT <-> st.2 = []) /\ Forall (fun kv => truthy kv.2 = true) st.2.

Lemma dset_ne k (v : pyval) d : dset k v d <> [].
Proof. destruct d as [|[k' v'] d]; cbn; [done|]. by case_bool_decide. Qed.

Lemma Forall_dset (P : string * pyval -> Prop) k v d :
  (forall k', P (k', v)) -> Forall P d -> Forall P (dset k v d).
Proof.
  intros Hv. induction 1 as [|[k' v'] d H1 H2 IH]; cbn; [by constructor|].
  case_bool_decide; by constructor.
Qed.

Lemma ev_ok_set p k v st : p <> ABSENT -> truthy v = true -> ev_ok st -> ev_ok (p, dset k v st.2).
Proof.
  intros Hp Hv [_ H]. split; cbn; [split; [done | intros E; by apply dset_ne in E]|].
  by apply Forall_dset.
Qed.

Lemma ev_ok_test c p k v st :
  p <> ABSENT -> (c = true -> truthy v = true) -> ev_ok st -> ev_ok (test_fact c p k v st).
Proof. intros Hp Hv Hst. unfold test_fact. destruct c; [apply ev_ok_set; auto | done]. Qed.

Lemma entitlement_found_truthy v n : product_entitlement_found v n = Ok true -> truthy v = true.
Proof. unfold product_entitlement_found. by destruct (truthy v). Qed.

Lemma get_version_truthy v vs : get_version v = Ok vs -> vs <> [] -> truthy v = true.
Proof.
  unfold get_version. destruct v; cbn; try (intros; res_inv; done); intros H Hne.
  - destruct s; [by injection H as <- | by rewrite bool_decide_false].
  - destruct l; [by injection H as <- | done].
  - destruct d; [by injection H as <- | done].
Qed.

Lemma version_presence_ne version p : version <> [] -> version_presence version p <> ABSENT.
Proof. destruct version; [done|]. cbn. by case_match. Qed.

Lemma ws_provenance source facts p :
  detect_jboss_ws source facts = Ok p ->
  exists pr rf md,
    dget "presence" p = Some (VStr (presence_str pr)) /\
    dget "metadata" p = Some (VDict md) /\ dget "raw_fact_key" md = Some rf /\
    (pr = ABSENT <-> rf = VNone).
Proof.
  unfold detect_jboss_ws. intros H.
  apply bind_Ok in H as (md & Hmd & H). apply bind_Ok in H as (version & Hver & H).
  apply bind_Ok in H as (in_subman & Hsub & H).
  injection H as <-. set (st0 := (ABSENT, []) : evidence).
  match goal with |- context [presence_str (fst ?s)] => set (st := s) end.
  assert (ev_ok st) as [Hiff Htr].
  { unfold st. repeat (apply ev_ok_test; [done | done |]).
    assert (ev_ok st0) as H0 by (split; [done | constructor]).
    assert (ev_ok (test_fact (truthy (dget_none "jws_has_eula_txt_file" facts)) POTENTIAL
      "jws_has_eula_txt_file" (dget_none "jws_has_eula_txt_file" facts)
      (test_fact in_subman POTENTIAL "subman_consumed"
         (default (VList []) (dget "subman_consumed" facts)) st0))) as H1.
    { apply ev_ok_test; [done | done |]. apply ev_ok_test; [done | | done].
      intros ->. by eapply entitlement_found_truthy. }
    destruct version as [|v0 vs]; [exact H1|]. apply ev_ok_set; [by apply version_presence_ne | | exact H1].
    by eapply get_version_truthy. }
  unfold source_metadata in Hmd. res_inv.
  exists st.1, (generate_raw_fact_members st.2). eexists. do 3 (split; [reflexivity|]). split.
  - intros E. apply Hiff in E. by rewrite E.
  - rewrite raw_members_none. intros Hf. apply Hiff.
    destruct (st.2) as [|kv l]; [done|]. inversion_clear Hf. inversion_clear Htr. congruence.
Qed.

(** The presence that each group of facts supports, the last group first. *)
Definition ws_presence (rpm cert : bool) (version : list string) (eula entitled : bool) : presence :=
  if rpm || cert then PRESENT else
  match version with
  | ver :: _ => if negb (str_contains "EWS" ver) then PRESENT else POTENTIAL
  | [] => if eula || entitled then POTENTIAL else ABSENT
  end.

Lemma ws_decided source facts p :
  detect_jboss_ws source facts = Ok p ->
  exists version entitled,
    get_version (dget_none "jws_version" facts) = Ok version /\
    product_entitlement_found (default (VList []) (dget "subman_consumed" facts)) PRODUCT = Ok entitled /\
    dget "presence" p = Some (VStr (presence_str
      (ws_presence (truthy (dget_none "jws_installed_with_rpm" facts))
         (truthy (dget_none "jws_has_cert" facts)) version
         (truthy (dget_none "jws_has_eula_txt_file" facts)) entitled))) /\
    dget "version" p = Some (VList (VStr <$> version)).
Proof.
  unfold detect_jboss_ws. intros H.
  apply bind_Ok in H as (md & _ & H). apply bind_Ok in H as (version & Hver & H).
  apply bind_Ok in H as (entitled & Hsub & H). injection H as <-.
  exists version, entitled. split; [done|]. split; [done|]. split; [|done].
  unfold ws_presence, test_fact.
  destruct (truthy (dget_none "jws_installed_with_rpm" facts)), (truthy (dget_none "jws_has_cert" facts)),
    version, (truthy (dget_none "jws_has_eula_txt_file" facts)), entitled; reflexivity.
Qed.

(** ** Properties *)

(** JBoss Web Server is present when it was installed with rpm or has a
    certificate; otherwise the first recognised version decides between present
    and potential; otherwise a EULA file or an entitlement make it potential;
    otherwise it is absent.  A raw fact is named exactly when it is not absent. *)
Theorem ws_decision source facts p :
  detect_jboss_ws source facts = Ok p ->
  (exists version entitled,
    get_version (dget_none "jws_version" facts) = Ok version /\
    product_entitlement_found (default (VList []) (dget "subman_consumed" facts)) PRODUCT = Ok entitled /\
    dget "presence" p = Some (VStr (presence_str
      (ws_presence (truthy (dget_none "jws_installed_with_rpm" facts))
         (truthy (dget_none "jws_has_cert" facts)) version
         (truthy (dget_none "jws_has_eula_txt_file" facts)) entitled))) /\
    dget "version" p = Some (VList (VStr <$> version))) /\
  (exists pr rf md,
    dget "presence" p = Some (VStr (presence_str pr)) /\
    dget "metadata" p = Some (VDict md) /\ dget "raw_fact_key" md = Some rf /\
    (pr = ABSENT <-> rf = VNone)).
Proof. intros H. split; [by eapply ws_decided | by eapply ws_provenance]. Qed.

Definition ws_source : pydict :=
  [("server_id", VStr "s"); ("source_name", VStr "n"); ("source_type", VStr "network")].
Definition ws_facts : pydict :=
  [("jws_version", VList [VStr "JWS_3.0.1"]); ("jws_has_eula_txt_file", VBool true)].

Lemma ws_decision_witness :
  exists p, detect_jboss_ws ws_source ws_facts = Ok p /\
  (exists version entitled,
    get_version (dget_none "jws_version" ws_facts) = Ok version /\
    product_entitlement_found (default (VList []) (dget "subman_consumed" ws_facts)) PRODUCT = Ok entitled /\
    dget "presence" p = Some (VStr (presence_str
      (ws_presence (truthy (dget_none "jws_installed_with_rpm" ws_facts))
         (truthy (dget_none "jws_has_cert" ws_facts)) version
         (truthy (dget_none "jws_has_eula_txt_file" ws_facts)) entitled))) /\
    dget "version" p = Some (VList (VStr <$> version))) /\
  (exists pr rf md,
    dget "presence" p = Some (VStr (presence_str pr)) /\
    dget "metadata" p = Some (VDict md) /\ dget "raw_fact_key" md = Some rf /\
    (pr = ABSENT <-> rf = VNone)).
Proof.
  eexists. assert (detect_jboss_ws ws_source ws_facts = Ok _) as H by (vm_compute; reflexivity).
  split; [exact H | exact (ws_decision _ _ _ H)].
Defined.

End Jws.
