(* ===== verification/Fingerprints.v ===== *)
(** From raw facts to fingerprints.

    Models the first half of [fingerprinter/runner.py]: [_add_fact_to_fingerprint]
    and its relatives, one [_process_<type>_fact] per kind of source, and
    [_process_source].  A fingerprint is the Python dict itself; the methods
    that fill it in place are functions from dict to dict.  Logging is not
    modelled, except where building the message can raise. *)
From stdpp Require Import base sets list strings.
From Stdlib Require Import Ascii ZArith Lia.
From S2P Require Import Prelude PyStr PyNum PyVal DateParse Formatters ProductEap ProductFuse.

Open Scope string_scope.
Open Scope Z_scope.

(** ** Constants of [fingerprinter/constants.py], [constants.py] and the models *)

Definition META_DATA_KEY : string := "metadata".
Definition ENTITLEMENTS_KEY : string := "entitlements".
Definition PRODUCTS_KEY : string := "products".
Definition NAME_KEY : string := "name".
Definition PRESENCE_KEY : string := "presence".
Definition SOURCES_KEY : string := "sources".

Definition VIRTUALIZED : pyval := VStr "virtualized".
Definition BARE_METAL : pyval := VStr "bare_metal".
Definition UNKNOWN_INFRA : pyval := VStr "unknown".
Definition HYPERVISOR : pyval := VStr "hypervisor".

(** ** Helpers *)

(** The nested assignment [d[k1][k2] = v]. *)
Definition set_nested (d : pydict) (k1 k2 : string) (v : pyval) : Res pydict :=
  inner ← dget_exn k1 d;
  match inner with
  | VDict m => Ok (dset k1 (VDict (dset k2 v m)) d)
  | _ => Err TypeError
  end.

Definition fingerprint_network_infrastructure_type (fact : pydict) : Res (string * pyval) :=
  virt_what ← deepget (VDict fact) "virt_what__value";
  hostnamectl_chassis ← deepget (VDict fact) "hostnamectl__value__chassis";
  Ok (if truthy virt_what then ("virt_what", VIRTUALIZED)
      else if truthy (default (VBool false) (dget "subman_virt_is_guest" fact))
      then ("subman_virt_is_guest", VIRTUALIZED)
      else if py_in hostnamectl_chassis [VStr "vm"; VStr "container"]
      then ("hostnamectl", VIRTUALIZED)
      else if truthy hostnamectl_chassis then ("hostnamectl", BARE_METAL)
      else ("virt_what", UNKNOWN_INFRA)).

(** [FingerprintTaskRunner.format_certs]: any exception empties the list. *)
Definition format_certs (redhat_certs : pyval) : list pyval :=
  match (l ← py_iter redhat_certs;
         mapM (fun cert => s ← as_str "strip" cert;
                           z ← from_option ValueError (int_of_str (str_strip_chars ".pem" s));
                           Ok (VInt z)) (List.filter truthy l)) with
  | Ok l => l
  | Err _ => []
  end.

(** [fact_value] and [fact_formatter] are [None] when not provided. *)
Definition _add_fact_to_fingerprint (source : pydict) (raw_fact_key : string) (raw_fact : pydict)
    (fingerprint_key : string) (fingerprint : pydict)
    (fact_value : option pyval) (fact_formatter : option (pyval -> Res pyval)) : Res pydict :=
  match fact_value, fact_formatter with
  | None, None => Err (AssertionError "either fact_value or fact_formatter MUST be provided.")
  | Some _, Some _ => Err (AssertionError "fact_value and fact_formatter can't be used together.")
  | _, _ =>
      raw_fact_value ← deepget (VDict raw_fact) raw_fact_key;
      actual_fact_value ← match fact_value, fact_formatter with
                          | Some v, _ => Ok v
                          | None, Some f => f raw_fact_value
                          | None, None => Ok raw_fact_value
                          end;
      server_id ← dget_exn "server_id" source;
      source_name ← dget_exn "source_name" source;
      source_type ← dget_exn "source_type" source;
      set_nested (dset fingerprint_key actual_fact_value fingerprint) META_DATA_KEY fingerprint_key
        (VDict [("server_id", server_id); ("source_name", source_name);
                ("source_type", source_type); ("raw_fact_key", VStr raw_fact_key);
                ("has_sudo", default (VBool false) (dget "user_has_sudo" raw_fact))])
  end.

(** One line of a table of facts: the raw fact, the fingerprint key, and either
    a formatter or a computed value. *)
Inductive fact_source :=
| By (formatter : pyval -> Res pyval)
| Value (v : pyval).

Definition fact_line : Type := string * string * fact_source.

Definition add_line (source raw_fact : pydict) (fingerprint : pydict) (l : fact_line) : Res pydict :=
  let '(raw_fact_key, fingerprint_key, fs) := l in
  match fs with
  | By f => _add_fact_to_fingerprint source raw_fact_key raw_fact fingerprint_key fingerprint None (Some f)
  | Value v => _add_fact_to_fingerprint source raw_fact_key raw_fact fingerprint_key fingerprint (Some v) None
  end.

(** A formatter that cannot raise. *)
Definition pure (f : pyval -> pyval) : fact_source := By (fun v => Ok (f v)).
Definition fmt_str : fact_source := pure str_or_none.
Definition fmt_int : fact_source := By int_or_none.
Definition fmt_float : fact_source := By float_or_none.
Definition fmt_bool : fact_source := pure convert_to_bool_or_none.
Definition fmt_list : fact_source := pure list_or_none.
Definition fmt_mac : fact_source := By format_mac_addresses.

Definition _add_products_to_fingerprint (source raw_fact fingerprint : pydict) : Res pydict :=
  eap ← Eap.detect_jboss_eap source raw_fact;
  fuse ← Fuse.detect_jboss_fuse source raw_fact;
  jws ← Jws.detect_jboss_ws source raw_fact;
  Ok (dset PRODUCTS_KEY (VList [VDict eap; VDict fuse; VDict jws]) fingerprint).

(** The cleaned entitlement, or [None] when it has neither name nor id. *)
Definition clean_entitlement (source : pydict) (raw_fact_key : string) (entitlement : pyval) :
    Res (option pydict) :=
  name ← vget entitlement "name";
  eid ← vget entitlement "entitlement_id";
  let f_ent := ((if truthy name then [("name", name)] else [])
                ++ (if truthy eid then [("entitlement_id", eid)] else []))%list in
  if truthy name || truthy eid then
    md ← source_metadata source;
    Ok (Some (f_ent ++ [(META_DATA_KEY, VDict (md ++ [("raw_fact_key", VStr raw_fact_key)]))])%list)
  else Ok None.

Definition _add_entitlements_to_fingerprint (source : pydict) (raw_fact_key : string)
    (raw_fact fingerprint : pydict) : Res pydict :=
  match dget_none raw_fact_key raw_fact with
  | VList l =>
      ents ← mapM (clean_entitlement source raw_fact_key) l;
      Ok (dset ENTITLEMENTS_KEY (VList (VDict <$> omap id ents)) fingerprint)
  | _ => Ok (dset ENTITLEMENTS_KEY (VList []) fingerprint)
  end.

(** The first pattern that fits gives the date. *)
Fixpoint try_patterns (s : string) (patterns : list string) : Res (option date) :=
  match patterns with
  | [] => Ok None
  | p :: ps =>
      match strptime s p with
      | Ok (d, _) => Ok (Some d)
      | Err ValueError => try_patterns s ps
      | Err e => Err e
      end
  end.

(** [source] is only used to report a failure. *)
Definition _multi_format_dateparse (source : pyval) (date_value : pyval) (patterns : list string) :
    Res pyval :=
  if truthy date_value then
    s ← as_str "endswith" date_value;
    let raw_date_value := strip_suffix s " UTC" in
    o ← try_patterns raw_date_value patterns;
    match o with
    | Some d => Ok (VDate d)
    | None => _ ← getitem source "source_type"; _ ← getitem source "source_name"; Ok VNone
    end
  else Ok VNone.

(** ** Network facts *)

(** The first key if it holds something, the second one otherwise. *)
Definition key_if_present (fact : pydict) (k1 k2 : string) : Res string :=
  v ← deepget (VDict fact) k1; Ok (if is_none v then k2 else k1).

Definition network_lines (ip_key : string) : list fact_line :=
  [("uname_hostname", "name", fmt_str);
   ("uname_processor", "architecture", fmt_str);
   ("redhat_packages_gpg_num_rh_packages", "redhat_package_count", fmt_int);
   ("redhat_packages_certs", "redhat_certs", fmt_str);
   ("redhat_packages_gpg_is_redhat", "is_redhat", fmt_bool);
   ("etc_machine_id", "etc_machine_id", fmt_str);
   ("etc_release_name", "os_name", fmt_str);
   ("etc_release_version", "os_version", fmt_str);
   ("etc_release_release", "os_release", fmt_str);
   ("installed_products", "installed_products", pure list_of_dicts);
   (ip_key, "ip_addresses", fmt_list);
   ("cpu_count", "cpu_count", fmt_int);
   ("dmi_system_uuid", "bios_uuid", fmt_str);
   ("subscription_manager_id", "subscription_manager_id", fmt_str);
   ("cpu_socket_count", "cpu_socket_count", fmt_int);
   ("cpu_core_count", "cpu_core_count", fmt_float);
   ("cpu_core_per_socket", "cpu_core_per_socket", fmt_int);
   ("cpu_hyperthreading", "cpu_hyperthreading", fmt_bool);
   ("date_machine_id", "date_machine_id", fmt_str);
   ("date_anaconda_log", "date_anaconda_log", fmt_str);
   ("date_filesystem_create", "date_filesystem_create", fmt_str);
   ("insights_client_id", "insights_client_id", fmt_str);
   ("cloud_provider", "cloud_provider", fmt_str);
   ("system_user_count", "system_user_count", fmt_int);
   ("system_purpose_json", "system_purpose", pure dict_or_none);
   ("system_purpose_json__role", "system_role", fmt_str);
   ("system_purpose_json__addons", "system_addons", fmt_str);
   ("system_purpose_json__service_level_agreement", "system_service_level_agreement", fmt_str);
   ("system_purpose_json__usage", "system_usage_type", fmt_str);
   ("virt_type", "virtualized_type", fmt_str);
   ("system_memory_bytes", "system_memory_bytes", fmt_int)].

(** The date of the last check-in, when the raw fact is truthy. *)
Definition checkin_date (source fact : pydict) (key : string) (patterns : list string) : Res pyval :=
  let v := dget_none key fact in
  if truthy v then _multi_format_dateparse (VDict source) v patterns else Ok VNone.

Definition _process_network_fact (source fact : pydict) : Res pydict :=
  ip_key ← key_if_present fact "ifconfig_ip_addresses" "ip_address_show_ipv4";
  fp ← foldM (add_line source fact) [(META_DATA_KEY, VDict [])] (network_lines ip_key);
  mac_key ← key_if_present fact "ifconfig_mac_addresses" "ip_address_show_mac";
  fp ← add_line source fact fp (mac_key, "mac_addresses", fmt_mac);
  last_checkin ← checkin_date source fact "connection_timestamp" ["%Y%m%d%H%M%S"];
  fp ← add_line source fact fp ("connection_timestamp", "system_last_checkin_date", Value last_checkin);
  infra ← fingerprint_network_infrastructure_type fact;
  fp ← add_line source fact fp (infra.1, "infrastructure_type", Value infra.2);
  fp ← _add_entitlements_to_fingerprint source "subman_consumed" fact fp;
  _add_products_to_fingerprint source fact fp.

(** ** VCenter facts *)

Definition vcenter_lines (name_key : string) (last_checkin : pyval) : list fact_line :=
  [(name_key, "name", fmt_str);
   ("vm.os", "os_release", fmt_str);
   ("vm.os", "is_redhat", By is_redhat_from_vm_os);
   ("vcenter_source", "infrastructure_type", Value VIRTUALIZED);
   ("vm.mac_addresses", "mac_addresses", fmt_mac);
   ("vm.ip_addresses", "ip_addresses", fmt_list);
   ("vm.cpu_count", "cpu_count", fmt_int);
   ("uname_processor", "architecture", fmt_str);
   ("vm.state", "vm_state", fmt_str);
   ("vm.uuid", "vm_uuid", fmt_str);
   ("vm.last_check_in", "system_last_checkin_date", Value last_checkin);
   ("vm.dns_name", "vm_dns_name", fmt_str);
   ("vm.host.name", "virtual_host_name", fmt_str);
   ("vm.host.uuid", "virtual_host_uuid", fmt_str);
   ("vm.host.cpu_count", "vm_host_socket_count", fmt_int);
   ("vm.host.cpu_cores", "vm_host_core_count", fmt_int);
   ("vm.datacenter", "vm_datacenter", fmt_str);
   ("vm.cluster", "vm_cluster", fmt_str);
   ("vm.memory_size", "system_memory_bytes", By gigabytes_to_bytes)].

Definition _process_vcenter_fact (source fact : pydict) : Res pydict :=
  let name_key := if truthy (dget_none "vm.dns_name" fact) then "vm.dns_name" else "vm.name" in
  last_checkin ← checkin_date source fact "vm.last_check_in" ["%Y-%m-%d %H:%M:%S"];
  fp ← foldM (add_line source fact) [(META_DATA_KEY, VDict [])] (vcenter_lines name_key last_checkin);
  Ok (dset PRODUCTS_KEY (VList []) (dset ENTITLEMENTS_KEY (VList []) fp)).

(** ** Satellite facts *)

Definition rhel_versions : list (string * string) :=
  [("4Server", "Red Hat Enterprise Linux 4 Server");
   ("5Server", "Red Hat Enterprise Linux 5 Server");
   ("6Server", "Red Hat Enterprise Linux 6 Server");
   ("7Server", "Red Hat Enterprise Linux 7 Server");
   ("8Server", "Red Hat Enterprise Linux 8 Server")].

(** The lines that depend on the operating system's name. *)
Definition satellite_os_lines (fact : pydict) : Res (list fact_line) :=
  let os_name := default_getter fact "os_name" (VStr "") in
  if negb (truthy os_name) then
    let os_release := default (VStr "") (dget "os_release" fact) in
    if negb (hashable os_release) then Err TypeError else
    Ok (match (match os_release with VStr s => dget s rhel_versions | _ => None end) with
        | Some v => [("os_release", "is_redhat", Value (VBool true));
                     ("os_release", "os_release", Value (VStr v))]
        | None => [("os_release", "is_redhat", Value (VBool false));
                   ("os_release", "os_release", fmt_str)]
        end)
  else
    s ← as_str "lower" os_name;
    let is_redhat := bool_decide (str_replace " " "" (str_lower s)
                                    ∈ ["rhel"; "redhat"; "redhatenterpriselinux"]) in
    Ok [("os_name", "is_redhat", Value (VBool is_redhat)); ("os_release", "os_release", fmt_str)].

Definition satellite_infrastructure (fact : pydict) : Res (string * pyval) :=
  let is_virtualized := default_getter fact "is_virtualized" (VStr "") in
  name ← as_str "startswith" (default_getter fact "hostname" (VStr ""));
  let infrastructure_type :=
    if truthy is_virtualized then VIRTUALIZED
    else match is_virtualized with VBool false => BARE_METAL | _ => UNKNOWN_INFRA end in
  Ok (if str_startswith "virt-who-" name
         && existsb (fun suffix => str_endswith suffix name)
              ["-1"; "-2"; "-3"; "-4"; "-5"; "-6"; "-7"; "-8"; "-9"]
      then ("hostname", HYPERVISOR) else ("is_virtualized", infrastructure_type)).

Definition satellite_lines1 : list fact_line :=
  [("hostname", "name", fmt_str); ("os_name", "os_name", fmt_str)].

Definition satellite_lines2 : list fact_line :=
  [("os_version", "os_version", fmt_str);
   ("mac_addresses", "mac_addresses", fmt_mac);
   ("ip_addresses", "ip_addresses", fmt_list);
   ("cores", "cpu_count", fmt_int);
   ("architecture", "architecture", fmt_str);
   ("uuid", "subscription_manager_id", fmt_str);
   ("virt_type", "virtualized_type", fmt_str);
   ("virtual_host_name", "virtual_host_name", fmt_str);
   ("virtual_host_uuid", "virtual_host_uuid", fmt_str)].

Definition satellite_lines3 (infra : string * pyval) (reg_time last_checkin : pyval) : list fact_line :=
  [(infra.1, "infrastructure_type", Value infra.2);
   ("cores", "cpu_core_count", fmt_float);
   ("num_sockets", "cpu_socket_count", fmt_int);
   ("registration_time", "registration_time", Value reg_time);
   ("last_checkin_time", "system_last_checkin_date", Value last_checkin)].

Definition _process_satellite_fact (source fact : pydict) : Res pydict :=
  fp ← foldM (add_line source fact) [(META_DATA_KEY, VDict [])] satellite_lines1;
  os_lines ← satellite_os_lines fact;
  fp ← foldM (add_line source fact) fp os_lines;
  fp ← foldM (add_line source fact) fp satellite_lines2;
  infra ← satellite_infrastructure fact;
  let reg := dget_none "registration_time" fact in
  reg_time ← (if truthy reg
              then s ← as_str "endswith" reg; Ok (VStr (strip_suffix s " UTC")) else Ok reg);
  let last := dget_none "last_checkin_time" fact in
  last_checkin ← (if truthy last
                  then _multi_format_dateparse (VDict source) last
                         ["%Y-%m-%d %H:%M:%S"; "%Y-%m-%d %H:%M:%S %z"]
                  else Ok last);
  fp ← foldM (add_line source fact) fp (satellite_lines3 infra reg_time last_checkin);
  fp ← _add_entitlements_to_fingerprint source "entitlements" fact fp;
  _add_products_to_fingerprint source fact fp.

(** ** OpenShift, Ansible and RHACS facts *)

Definition bare_fingerprint : pydict :=
  [(META_DATA_KEY, VDict []); (ENTITLEMENTS_KEY, VList []); (PRODUCTS_KEY, VList [])].

Definition openshift_lines : list fact_line :=
  [("node__name", "name", fmt_str);
   ("node__capacity__cpu", "cpu_count", fmt_int);
   ("node__architecture", "architecture", By convert_architecture);
   ("node__machine_id", "etc_machine_id", fmt_str);
   ("node__addresses", "ip_addresses", By extract_ip_addresses);
   ("node__creation_timestamp", "system_creation_date", pure date_or_none);
   ("node__cluster_uuid", "vm_cluster", fmt_str);
   ("node__labels", "system_role", By infer_node_role)].

Definition _process_openshift_fact (source fact : pydict) : Res pydict :=
  foldM (add_line source fact) bare_fingerprint openshift_lines.

Definition _process_ansible_fact (source fact : pydict) : Res pydict :=
  foldM (add_line source fact) bare_fingerprint
    [("instance_details__system_name", "name", fmt_str);
     ("instance_details__version", "os_version", fmt_str)].

Definition _process_rhacs_fact (source fact : pydict) : Res pydict :=
  foldM (add_line source fact) bare_fingerprint
    [("N/A", "name", Value (VStr "collected-from-rhacs"))].

(** ** Dispatch *)

(** [getattr(self, f"_process_{data_source}_fact")] *)
Definition process_facts_for_datasource (data_source : pyval) (source fact : pydict) : Res pydict :=
  match data_source with
  | VStr "network" => _process_network_fact source fact
  | VStr "vcenter" => _process_vcenter_fact source fact
  | VStr "satellite" => _process_satellite_fact source fact
  | VStr "openshift" => _process_openshift_fact source fact
  | VStr "ansible" => _process_ansible_fact source fact
  | VStr "rhacs" => _process_rhacs_fact source fact
  | _ => Err NotImplementedError
  end.

Definition is_not_implemented (e : exn) : bool :=
  match e with NotImplementedError => true | _ => false end.

(** The [sources] dict of a fingerprint made from one source. *)
Definition sources_of (source : pydict) : pyval :=
  let server_id := dget_none "server_id" source in
  let source_name := dget_none "source_name" source in
  VDict [(py_str server_id +:+ "+" +:+ py_str source_name,
          VDict [("server_id", server_id); ("source_type", dget_none "source_type" source);
                 ("source_name", source_name)])].

(** One round of the loop of [_process_source]: [None] when the fact gives no
    fingerprint. *)
Definition process_one_fact (source : pydict) (fact : pyval) : Res (option pydict) :=
  let source_type := dget_none "source_type" source in
  d ← as_dict "get" fact;
  if truthy (dget_none "cluster" d) && py_eq source_type (VStr "openshift") then Ok None else
  o ← try_except (Some <$> process_facts_for_datasource source_type source d)
        is_not_implemented (fun _ => Ok None);
  Ok (option_map (dset SOURCES_KEY (sources_of source)) o).

Definition _process_source (source : pydict) : Res (list pydict) :=
  facts ← dget_exn "facts" source;
  l ← py_iter facts;
  fps ← mapM (process_one_fact source) l;
  Ok (omap id fps).

(** ** Well-formed fingerprints

    The shape that the merge relies on: a metadata entry for every fact, lists
    of dicts for entitlements and products, a dict of sources, and
    identification values that can be dict keys. *)

Definition FINGERPRINT_GLOBAL_ID_KEY : string := "FINGERPRINT_GLOBAL_ID".

Definition structural_keys : list string :=
  [META_DATA_KEY; ENTITLEMENTS_KEY; PRODUCTS_KEY; SOURCES_KEY; FINGERPRINT_GLOBAL_ID_KEY].

Definition id_keys : list string :=
  ["subscription_manager_id"; "bios_uuid"; "vm_uuid"; "mac_addresses"; FINGERPRINT_GLOBAL_ID_KEY].

(** A value the index can be built on: a key, or a list of keys. *)
Definition index_ok (v : pyval) : bool :=
  match v with VList l => forallb hashable l | _ => hashable v end.

(** Identifiers are strings or missing; MAC addresses can be a list. *)
Definition id_ok (k : string) (v : pyval) : bool :=
  if bool_decide (k = "mac_addresses") then index_ok v else is_none v || is_str v.

Definition meta_ok (fp : pydict) : Prop :=
  exists m, dget META_DATA_KEY fp = Some (VDict m) /\
    (forall k v, dget k m = Some v -> is_dict v = true /\ ~ (k ∈ structural_keys)) /\
    (forall k, k ∈ dkeys fp -> k ∈ structural_keys \/ k ∈ dkeys m).

Definition ids_ok (fp : pydict) : Prop :=
  forall k, k ∈ id_keys -> id_ok k (dget_none k fp) = true.

Definition has_name (d : pydict) : Prop := exists s, dget NAME_KEY d = Some (VStr s).

Definition product_dicts (fp : pydict) (ds : list pydict) : Prop :=
  dget PRODUCTS_KEY fp = Some (VList (VDict <$> ds)) /\ Forall has_name ds.

Record wf_fp (fp : pydict) : Prop := {
  wf_meta : meta_ok fp;
  wf_ents : exists ds : list pydict, dget ENTITLEMENTS_KEY fp = Some (VList (VDict <$> ds));
  wf_prods : exists ds, product_dicts fp ds;
  wf_srcs : exists d, dget SOURCES_KEY fp = Some (VDict d);
  wf_ids : ids_ok fp }.

(** A line of a table writes a fact, and an indexable one on an
    identification key. *)
Definition line_ok (fact : pydict) (l : fact_line) : Prop :=
  let '(raw, key, fs) := l in
  (key ∉ structural_keys) /\
  (key ∈ id_keys ->
   match fs with
   | By f => forall r v, deepget (VDict fact) raw = Ok r -> f r = Ok v -> id_ok key v = true
   | Value v => id_ok key v = true
   end).

Lemma set_nested_spec d k1 k2 v d' :
  set_nested d k1 k2 v = Ok d' <->
  exists m, dget k1 d = Some (VDict m) /\ d' = dset k1 (VDict (dset k2 v m)) d.
Proof.
  unfold set_nested. rewrite bind_Ok. setoid_rewrite dget_exn_Ok. split.
  - intros (x & Hx & H). destruct x; try done. injection H as <-. eauto.
  - intros (m & Hm & ->). eauto.
Qed.

(** What one line does to the fingerprint. *)
Lemma add_line_spec source fact fp l fp' :
  add_line source fact fp l = Ok fp' ->
  exists v md m, dget META_DATA_KEY (dset l.1.2 v fp) = Some (VDict m) /\
    fp' = dset META_DATA_KEY (VDict (dset l.1.2 (VDict md) m)) (dset l.1.2 v fp) /\
    (line_ok fact l -> l.1.2 ∈ id_keys -> id_ok l.1.2 v = true).
Proof.
  destruct l as [[raw key] fs]. cbn. unfold _add_fact_to_fingerprint.
  destruct fs as [f|w]; intros H; res_inv;
    match goal with H : set_nested _ _ _ _ = Ok _ |- _ => apply set_nested_spec in H as (m & Hm & ->) end;
    do 3 eexists; (split; [exact Hm|]); (split; [done|]); intros [_ Hl] Hk; specialize (Hl Hk); eauto.
Qed.

Lemma structural_ne k k' : k ∉ structural_keys -> k' ∈ structural_keys -> k' <> k.
Proof. by intros H1 H2 ->. Qed.

Lemma add_line_meta source fact fp l fp' :
  line_ok fact l -> meta_ok fp -> add_line source fact fp l = Ok fp' -> meta_ok fp'.
Proof.
  intros Hl (m0 & Hm0 & Hd & Hcov) H. destruct (add_line_spec _ _ _ _ _ H) as (v & md & m & Hm & -> & _).
  destruct l as [[raw key] fs]. destruct Hl as [Hk _]. cbn in *.
  rewrite dget_dset_ne, Hm0 in Hm by (eapply structural_ne; [done | left]). injection Hm as <-.
  exists (dset key (VDict md) m0). split; [apply dget_dset_eq|]. split.
  - intros k w. rewrite dget_dset. case_decide; [intros [= <-]; by subst | apply Hd].
  - intros k. rewrite !elem_of_dkeys_dset. intros [->|[->|Hin]]; [left; left | by right; left |].
    destruct (Hcov k Hin); [by left | right; by right].
Qed.

Lemma add_line_ids source fact fp l fp' :
  line_ok fact l -> ids_ok fp -> add_line source fact fp l = Ok fp' -> ids_ok fp'.
Proof.
  intros Hl Hids H. destruct (add_line_spec _ _ _ _ _ H) as (v & md & m & _ & -> & Hv).
  intros k Hk. rewrite !dget_none_dset. case_decide as E1; [exfalso; subst; set_solver|].
  case_decide; [subst; auto | auto].
Qed.

(** The other keys are untouched. *)
Lemma add_line_other source fact fp l fp' k :
  add_line source fact fp l = Ok fp' -> k <> META_DATA_KEY -> k <> l.1.2 -> dget k fp' = dget k fp.
Proof.
  intros H H1 H2. destruct (add_line_spec _ _ _ _ _ H) as (v & md & m & _ & -> & _).
  by rewrite !dget_dset_ne.
Qed.

Definition partial_ok (fp : pydict) : Prop := meta_ok fp /\ ids_ok fp.

(** A fingerprint under construction has no global identifier yet. *)
Definition fresh_fp (fp : pydict) : Prop := partial_ok fp /\ dget FINGERPRINT_GLOBAL_ID_KEY fp = None.

Lemma add_line_partial source fact fp l fp' :
  line_ok fact l -> fresh_fp fp -> add_line source fact fp l = Ok fp' -> fresh_fp fp'.
Proof.
  intros Hl [[H1 H2] Hg] H. split; [split; [eapply add_line_meta | eapply add_line_ids]; eauto|].
  rewrite <- Hg. eapply add_line_other; [exact H | done |].
  destruct l as [[? ?] ?], Hl as [Hn _]. cbn. intros <-. apply Hn. by_compute.
Qed.

Lemma add_lines_partial source fact ls fp fp' :
  Forall (line_ok fact) ls -> fresh_fp fp ->
  foldM (add_line source fact) fp ls = Ok fp' -> fresh_fp fp'.
Proof.
  intros Hls. apply foldM_inv. intros a b a' Hb. rewrite Forall_forall in Hls.
  by apply add_line_partial, Hls.
Qed.

Lemma dset_structural_partial k v fp :
  k ∈ [ENTITLEMENTS_KEY; PRODUCTS_KEY; SOURCES_KEY] -> fresh_fp fp -> fresh_fp (dset k v fp).
Proof.
  intros Hk [[(m & Hm & Hd & Hcov) Hids] Hg].
  split; [split|by rewrite dget_dset_ne by (intros <-; set_solver)].
  - exists m. rewrite dget_dset_ne by (intros <-; set_solver). split; [done|]. split; [done|].
    intros k'. rewrite elem_of_dkeys_dset. intros [->|Hin]; [left|by apply Hcov].
    unfold structural_keys. set_solver.
  - intros k' Hk'. rewrite dget_none_dset. case_decide; [subst; set_solver|]. by apply Hids.
Qed.

Lemma str_or_none_id k v : id_ok k (str_or_none v) = true.
Proof. unfold id_ok. destruct v; cbn; repeat case_bool_decide; done. Qed.

Lemma format_mac_index v w :
  (is_list v = true \/ hashable v = true) -> format_mac_addresses v = Ok w ->
  id_ok "mac_addresses" w = true.
Proof.
  unfold id_ok. rewrite bool_decide_eq_true_2 by done. intros Hv. destruct v; cbn; try (by intros [= <-]); try (by destruct Hv).
  intros (l' & Hl & <-)%fmap_Ok. cbn. apply mapM_Ok in Hl. clear Hv.
  induction Hl as [|x y l1 l2 Hxy _ IH]; [done|]. cbn. rewrite IH, andb_true_r.
  by apply fmap_Ok in Hxy as (s & _ & <-).
Qed.

(** The raw MAC addresses are a list or can be a key themselves. *)
Definition raw_macs_ok (fact : pydict) : Prop :=
  forall k v, k ∈ ["ifconfig_mac_addresses"; "ip_address_show_mac"; "vm.mac_addresses"; "mac_addresses"] ->
    deepget (VDict fact) k = Ok v -> is_list v = true \/ hashable v = true.

Ltac line_tac :=
  split; [by_compute|];
  first [ intros Hk; exfalso; revert Hk; by_compute
        | intros _ ? ? _ [= <-]; apply str_or_none_id
        | intros _ ? ? ? ?; eapply format_mac_index; [|eassumption];
          match goal with H : raw_macs_ok _ |- _ => eapply H; [|eassumption]; by_compute end ].

Ltac lines_tac := repeat (apply Forall_cons; split; [line_tac|]); apply Forall_nil; exact I.

Lemma network_lines_ok fact ip_key : Forall (line_ok fact) (network_lines ip_key).
Proof. unfold network_lines. lines_tac. Qed.

Lemma vcenter_lines_ok fact name_key d :
  raw_macs_ok fact -> Forall (line_ok fact) (vcenter_lines name_key d).
Proof. intros Hmac. unfold vcenter_lines. lines_tac. Qed.

Lemma satellite_lines_ok fact infra reg last :
  raw_macs_ok fact ->
  Forall (line_ok fact) satellite_lines1 /\ Forall (line_ok fact) satellite_lines2 /\
  Forall (line_ok fact) (satellite_lines3 infra reg last).
Proof. intros Hmac. split; [|split]; [unfold satellite_lines1|unfold satellite_lines2|unfold satellite_lines3]; lines_tac. Qed.

Lemma satellite_os_lines_ok fact ls :
  satellite_os_lines fact = Ok ls -> Forall (line_ok fact) ls.
Proof.
  unfold satellite_os_lines. intros H.
  destruct (negb (truthy _)) in H; [destruct (negb (hashable _)) in H; [done|]|]; res_inv;
    [case_match|]; lines_tac.
Qed.

Lemma openshift_lines_ok fact : Forall (line_ok fact) openshift_lines.
Proof. unfold openshift_lines. lines_tac. Qed.

(** ** Every fingerprint produced is well formed *)

Definition product_names : list string := [Eap.PRODUCT; Fuse.PRODUCT; Jws.PRODUCT].

(** The products of a fingerprint: none, or the three detected ones. *)
Definition products_of (fp : pydict) (names : list string) : Prop :=
  exists ds, product_dicts fp ds /\ Forall2 (fun d n => dget NAME_KEY d = Some (VStr n)) ds names.

Lemma detected_names source fact e f j :
  Eap.detect_jboss_eap source fact = Ok e -> Fuse.detect_jboss_fuse source fact = Ok f ->
  Jws.detect_jboss_ws source fact = Ok j ->
  Forall2 (fun d n => dget NAME_KEY d = Some (VStr n)) [e; f; j] product_names.
Proof.
  intros He Hf Hj. repeat constructor.
  - unfold Eap.detect_jboss_eap in He. by res_inv.
  - unfold Fuse.detect_jboss_fuse in Hf. res_inv.
    by match goal with o : (presence * _ * pyval)%type |- _ => destruct o as [[? ?] ?] end; res_inv.
  - unfold Jws.detect_jboss_ws in Hj. by res_inv.
Qed.

Lemma names_have_name ds names :
  Forall2 (fun d n => dget NAME_KEY d = Some (VStr n)) ds names -> Forall has_name ds.
Proof. induction 1; constructor; [by eexists | done]. Qed.

Lemma add_entitlements_spec source k fact fp fp' :
  _add_entitlements_to_fingerprint source k fact fp = Ok fp' ->
  exists ds : list pydict, fp' = dset ENTITLEMENTS_KEY (VList (VDict <$> ds)) fp.
Proof.
  unfold _add_entitlements_to_fingerprint.
  destruct (dget_none k fact); intros H; res_inv; try (by exists []). eauto.
Qed.

(** What is left after the facts: entitlements, then products. *)
Lemma finish_detected source k fact fp fp' :
  fresh_fp fp ->
  (fp1 ← _add_entitlements_to_fingerprint source k fact fp;
   _add_products_to_fingerprint source fact fp1) = Ok fp' ->
  fresh_fp fp' /\ (exists ds : list pydict, dget ENTITLEMENTS_KEY fp' = Some (VList (VDict <$> ds))) /\
  products_of fp' product_names.
Proof.
  intros Hp (fp1 & H1 & H2)%bind_Ok. apply add_entitlements_spec in H1 as (ds & ->).
  unfold _add_products_to_fingerprint in H2. res_inv.
  split; [by do 2 (apply dset_structural_partial; [by_compute|])|]. split.
  - exists ds. rewrite dget_dset_ne by done. apply dget_dset_eq.
  - match goal with
    | He : Eap.detect_jboss_eap _ _ = Ok ?e, Hf : Fuse.detect_jboss_fuse _ _ = Ok ?f,
      Hj : Jws.detect_jboss_ws _ _ = Ok ?j |- _ =>
        exists [e; f; j]; pose proof (detected_names _ _ _ _ _ He Hf Hj)
    end.
    split; [split; [by rewrite dget_dset_eq | by eapply names_have_name] | done].
Qed.

Lemma meta_base_partial : fresh_fp [(META_DATA_KEY, VDict [])] /\ fresh_fp bare_fingerprint.
Proof.
  split; (split; [|done]);
    (split; [exists []; split; [done|]; split; [done|]; intros k Hk; left; cbn in Hk; set_solver|]);
    intros k Hk; unfold id_keys in Hk;
    repeat (apply elem_of_cons in Hk as [->|Hk]; [done|]); by apply elem_of_nil in Hk.
Qed.

(** A source-less fingerprint of one of the six kinds. *)
Record built (ns : list string) (fp : pydict) : Prop := {
  built_partial : fresh_fp fp;
  built_ents : exists ds : list pydict, dget ENTITLEMENTS_KEY fp = Some (VList (VDict <$> ds));
  built_prods : products_of fp ns }.

Lemma add_lines_structural source fact ls fp fp' k :
  Forall (line_ok fact) ls -> k ∈ structural_keys -> k <> META_DATA_KEY ->
  foldM (add_line source fact) fp ls = Ok fp' -> dget k fp' = dget k fp.
Proof.
  intros Hls Hk Hne. revert fp. induction Hls as [|l ls Hl _ IH]; intros fp; cbn; [by intros [= <-]|].
  intros (fp1 & H1 & H2)%bind_Ok. rewrite (IH _ H2).
  eapply add_line_other; [done | done |]. destruct l as [[? ?] ?], Hl as [Hn _]. cbn. by intros ->.
Qed.

Lemma built_bare source fact ls fp :
  Forall (line_ok fact) ls -> foldM (add_line source fact) bare_fingerprint ls = Ok fp -> built [] fp.
Proof.
  intros Hls H. split.
  - eapply add_lines_partial; [done | apply (proj2 meta_base_partial) | done].
  - exists []. by erewrite (add_lines_structural _ _ _ _ _ ENTITLEMENTS_KEY) by (done || by_compute).
  - exists []. split; [split; [|constructor] | constructor].
    by erewrite (add_lines_structural _ _ _ _ _ PRODUCTS_KEY) by (done || by_compute).
Qed.

Lemma key_if_present_cases fact k1 k2 k :
  key_if_present fact k1 k2 = Ok k -> k = k1 \/ k = k2.
Proof. unfold key_if_present. intros H. res_inv. destruct (is_none _); auto. Qed.

Lemma built_network source fact fp :
  raw_macs_ok fact -> _process_network_fact source fact = Ok fp -> built product_names fp.
Proof.
  intros Hmac H. unfold _process_network_fact in H.
  apply bind_Ok in H as (ipk & _ & H). apply bind_Ok in H as (fp1 & H1 & H).
  apply bind_Ok in H as (mk & Hmk & H). apply bind_Ok in H as (fp2 & H2 & H).
  apply bind_Ok in H as (lc & _ & H). apply bind_Ok in H as (fp3 & H3 & H).
  apply bind_Ok in H as (inf & _ & H). apply bind_Ok in H as (fp4 & H4 & H).
  assert (fresh_fp fp1) as P1
    by (eapply add_lines_partial; [apply network_lines_ok | apply (proj1 meta_base_partial) | exact H1]).
  assert (fresh_fp fp2) as P2.
  { refine (add_line_partial _ _ _ _ _ _ P1 H2).
    destruct (key_if_present_cases _ _ _ _ Hmk) as [->| ->]; line_tac. }
  assert (fresh_fp fp3) as P3 by (refine (add_line_partial _ _ _ _ _ _ P2 H3); line_tac).
  assert (fresh_fp fp4) as P4 by (refine (add_line_partial _ _ _ _ _ _ P3 H4); line_tac).
  destruct (finish_detected _ _ _ _ _ P4 H) as (? & ? & ?). constructor; auto.
Qed.

Lemma built_vcenter source fact fp :
  raw_macs_ok fact -> _process_vcenter_fact source fact = Ok fp -> built [] fp.
Proof.
  intros Hmac H. unfold _process_vcenter_fact in H.
  apply bind_Ok in H as (lc & _ & H). apply bind_Ok in H as (fp1 & H1 & H). injection H as <-.
  assert (fresh_fp fp1) as P1
    by (eapply add_lines_partial; [by apply vcenter_lines_ok | apply (proj1 meta_base_partial) | exact H1]).
  split.
  - by do 2 (apply dset_structural_partial; [by_compute|]).
  - exists []. rewrite dget_dset_ne by done. apply dget_dset_eq.
  - exists []. split; [split; [apply dget_dset_eq | constructor] | constructor].
Qed.

Lemma built_satellite source fact fp :
  raw_macs_ok fact -> _process_satellite_fact source fact = Ok fp -> built product_names fp.
Proof.
  intros Hmac H. unfold _process_satellite_fact in H.
  apply bind_Ok in H as (fp1 & H1 & H). apply bind_Ok in H as (ols & Hols & H).
  apply bind_Ok in H as (fp2 & H2 & H). apply bind_Ok in H as (fp3 & H3 & H).
  apply bind_Ok in H as (inf & _ & H). apply bind_Ok in H as (rt & _ & H).
  apply bind_Ok in H as (lc & _ & H). apply bind_Ok in H as (fp4 & H4 & H).
  destruct (satellite_lines_ok fact inf rt lc Hmac) as (L1 & L2 & L3).
  assert (fresh_fp fp4) as P4.
  { eapply add_lines_partial; [exact L3| |exact H4].
    eapply add_lines_partial; [exact L2| |exact H3].
    eapply add_lines_partial; [eapply satellite_os_lines_ok; exact Hols| |exact H2].
    eapply add_lines_partial; [exact L1 | apply (proj1 meta_base_partial) | exact H1]. }
  destruct (finish_detected _ _ _ _ _ P4 H) as (? & ? & ?). constructor; auto.
Qed.

(** Products are only looked for on network and satellite systems. *)
Definition type_products (ty : pyval) : list string :=
  match ty with VStr "network" | VStr "satellite" => product_names | _ => [] end.

Lemma built_any ty source fact fp :
  raw_macs_ok fact -> process_facts_for_datasource ty source fact = Ok fp ->
  built (type_products ty) fp.
Proof.
  intros Hmac. unfold process_facts_for_datasource. intros H.
  repeat case_match; try done;
    first [ by eapply built_network | by eapply built_satellite | by eapply built_vcenter
          | by eapply built_bare; [apply openshift_lines_ok|]
          | eapply built_bare; [|exact H]; lines_tac ].
Qed.

Lemma products_of_dset k v fp ns :
  k <> PRODUCTS_KEY -> products_of fp ns -> products_of (dset k v fp) ns.
Proof.
  intros Hk (ds & [Hd Hn] & HF). exists ds. split; [split|]; [|done..].
  by rewrite dget_dset_ne.
Qed.

Lemma built_wf ns fp d : built ns fp -> wf_fp (dset SOURCES_KEY (VDict d) fp).
Proof.
  intros [Hp (es & He) Hps].
  destruct (dset_structural_partial SOURCES_KEY (VDict d) fp) as [[Hm Hi] _]; [by_compute | done |].
  constructor; [done | | | | done].
  - exists es. by rewrite dget_dset_ne.
  - apply (products_of_dset SOURCES_KEY (VDict d)) in Hps as (ds & ? & _); [by exists ds | done].
  - eexists. apply dget_dset_eq.
Qed.

(** One round of [_process_source]: a fingerprint that the merge accepts. *)
Lemma process_one_fact_wf source fact fp :
  raw_macs_ok fact -> process_one_fact source (VDict fact) = Ok (Some fp) ->
  wf_fp fp /\ products_of fp (type_products (dget_none "source_type" source)) /\
  dget FINGERPRINT_GLOBAL_ID_KEY fp = None.
Proof.
  intros Hmac. unfold process_one_fact. cbn [as_dict mbind res_bind].
  case_match; [done|]. intros (o & Ho & Hfp)%bind_Ok.
  destruct o as [fp0|]; [|done]. injection Hfp as <-.
  assert (built (type_products (dget_none "source_type" source)) fp0) as Hb.
  { apply (built_any _ source fact); [done|].
    unfold try_except in Ho.
    destruct (process_facts_for_datasource _ _ _) as [x|e]; cbn in Ho; [by injection Ho as ->|].
    by destruct (is_not_implemented e). }
  split; [by eapply built_wf|]. split; [by apply products_of_dset, Hb|].
  rewrite dget_dset_ne by done. apply (built_partial _ _ Hb).
Qed.

(** ** Properties *)

(** [C39] A fingerprint made from a raw fact is well formed: every fact has its
    metadata, entitlements and products are lists of dicts, the identifiers are
    strings or missing and MAC addresses can be indexed; it has the three JBoss
    products on network and satellite systems and none elsewhere, and no global
    identifier yet. *)
Theorem fingerprint_well_formed source fact fp :
  raw_macs_ok fact -> process_one_fact source (VDict fact) = Ok (Some fp) ->
  wf_fp fp /\ products_of fp (type_products (dget_none "source_type" source)) /\
  dget FINGERPRINT_GLOBAL_ID_KEY fp = None.
Proof. apply process_one_fact_wf. Qed.

Definition sample_source : pydict :=
  [("server_id", VStr "server"); ("source_name", VStr "net"); ("source_type", VStr "network")].
Definition sample_fact : pydict :=
  [("uname_hostname", VStr "host.example.com"); ("subscription_manager_id", VStr "sub-1");
   ("ifconfig_mac_addresses", VList [VStr "00:50:56:A3:A2:E8"]); ("user_has_sudo", VBool true);
   ("cpu_count", VStr "4"); ("date_machine_id", VStr "2021-03-02")].

Lemma sample_macs_ok : raw_macs_ok sample_fact.
Proof.
  intros k v Hk. rewrite !elem_of_cons, elem_of_nil in Hk.
  destruct Hk as [->|[->|[->|[->|[]]]]]; vm_compute; intros [= <-]; auto.
Qed.

Lemma fingerprint_well_formed_witness :
  exists fp, process_one_fact sample_source (VDict sample_fact) = Ok (Some fp) /\
    wf_fp fp /\ products_of fp (type_products (dget_none "source_type" sample_source)) /\
    dget FINGERPRINT_GLOBAL_ID_KEY fp = None.
Proof.
  eexists. assert (process_one_fact sample_source (VDict sample_fact) = Ok (Some _)) as H
    by (vm_compute; reflexivity).
  split; [exact H | exact (fingerprint_well_formed _ _ _ sample_macs_ok H)].
Defined.
