(* ===== verification/Merge.v ===== *)
(** De-duplication and merge of fingerprints: [FingerprintTaskRunner] of
    [fingerprinter/runner.py] from [_process_sources] to [_merge_fingerprint].

    Every function of this part works on deep copies of its arguments, and the
    fingerprints that come in do not share structure, so fingerprints are plain
    values here.  Fresh identifiers ([uuid.uuid4]) are a parameter. *)
From stdpp Require Import base sets list strings.
From Stdlib Require Import Ascii ZArith Lia.
From S2P Require Import Prelude PyStr PyNum PyVal DateParse Formatters.
From S2P Require Import ProductEap ProductFuse Fingerprints.

Open Scope string_scope.

(** ** Dicts keyed by arbitrary hashable values *)

Section value_keys.
Context {A : Type}.
Implicit Types (k : pyval) (d : list (pyval * A)).

Fixpoint kget k d : option A :=
  match d with
  | [] => None
  | (k', a) :: d => if py_eq k' k then Some a else kget k d
  end.

Fixpoint kset k (a : A) d : list (pyval * A) :=
  match d with
  | [] => [(k, a)]
  | (k', a') :: d => if py_eq k' k then (k', a) :: d else (k', a') :: kset k a d
  end.

(** [d.pop(k, None)] *)
Fixpoint kpop k d : option A * list (pyval * A) :=
  match d with
  | [] => (None, [])
  | (k', a) :: d => if py_eq k' k then (Some a, d) else let r := kpop k d in (r.1, (k', a) :: r.2)
  end.
End value_keys.

(** Using a key: unhashable ones raise. *)
Definition as_key (v : pyval) : Res pyval := if hashable v then Ok v else Err TypeError.

(** A fingerprint read with [.get] and then tested: [None] and the empty dict
    are both false. *)
Definition truthy_fp (o : option pydict) : option pydict :=
  match o with Some (kv :: d) => Some (kv :: d) | _ => None end.

(** ** Constants *)

Definition NETWORK_IDENTIFICATION_KEYS : list string := ["subscription_manager_id"; "bios_uuid"].
Definition VCENTER_IDENTIFICATION_KEYS : list string := ["vm_uuid"].
Definition SATELLITE_IDENTIFICATION_KEYS : list string := ["subscription_manager_id"].
Definition NETWORK_SATELLITE_MERGE_KEYS : list (string * string) :=
  [("subscription_manager_id", "subscription_manager_id"); ("mac_addresses", "mac_addresses")].
Definition NETWORK_VCENTER_MERGE_KEYS : list (string * string) :=
  [("bios_uuid", "vm_uuid"); ("mac_addresses", "mac_addresses")].

Definition RAW_DATE_KEYS : list (string * list string) :=
  [("date_filesystem_create", ["%Y-%m-%d"]);
   ("date_anaconda_log", ["%Y-%m-%d"]);
   ("registration_time", ["%Y-%m-%d %H:%M:%S"; "%Y-%m-%d %H:%M:%S %z"]);
   ("date_machine_id", ["%Y-%m-%d"]);
   ("creation_timestamp", ["%Y-%m-%dT%H:%M:%S%z"])].

(** The argument [reverse_priority_keys]: absent, a [set] or a [tuple]. *)
Inductive key_collection : Type :=
| KNone
| KSet (keys : list string)
| KTuple (keys : list string).

(** ** [_merge_fingerprint] *)

Definition non_fact_keys : list string := [ENTITLEMENTS_KEY; META_DATA_KEY; PRODUCTS_KEY].

(** [fp.get(META_DATA_KEY, {}).get(key, {}).get("has_sudo", False)] *)
Definition has_sudo (fp : pydict) (key : string) : Res bool :=
  m ← vget_default (VDict fp) META_DATA_KEY (VDict []);
  entry ← vget_default m key (VDict []);
  b ← vget_default entry "has_sudo" (VBool false);
  Ok (truthy b).

(** Whether the merged value replaces the one of a key that both have. *)
Definition overrides (priority to_merge : pydict) (key : string) : Res bool :=
  p ← dget_exn key priority;
  t ← dget_exn key to_merge;
  if is_none p && negb (is_none t) then Ok true else
  priority_sudo ← has_sudo priority key;
  to_merge_sudo ← has_sudo to_merge key;
  Ok (negb priority_sudo && to_merge_sudo).

(** The keys taken from [to_merge].  Python iterates over a set here, in an
    unspecified order; the results below do not depend on it. *)
Definition keys_to_add (priority to_merge : pydict) (reverse : key_collection) : Res (list string) :=
  let new_keys := filter (fun k => k ∉ dkeys priority) (dkeys to_merge) in
  let reversed := match reverse with KSet ks => ks | KNone | KTuple _ => [] end in
  let common := filter (fun k => k ∉ non_fact_keys)
                  (filter (fun k => k ∈ dkeys to_merge) (dkeys priority)) in
  replaced ← filterM (overrides priority to_merge) common;
  Ok (dedup (new_keys ++ reversed ++ replaced)%list).

Definition merge_fact (to_merge priority : pydict) (key : string) : Res pydict :=
  meta ← dget_exn META_DATA_KEY to_merge;
  entry ← getitem meta key;
  priority ← set_nested priority META_DATA_KEY key entry;
  Ok (dset key (dget_none key to_merge) priority).

Definition merge_sources (priority to_merge : pydict) : Res pydict :=
  ps ← (v ← dget_exn SOURCES_KEY priority; as_dict "keys" v);
  ts ← (v ← dget_exn SOURCES_KEY to_merge; as_dict "keys" v);
  Ok (dset SOURCES_KEY
        (VDict (foldl (fun d '(k, v) => if dmem k d then d else dset k v d) ps ts)) priority).

(** [f"{entitlement.get('name', '_')}:{entitlement.get('entitlement_id', '_')}"] *)
Definition entitlement_id (e : pyval) : Res string :=
  n ← vget_default e "name" (VStr "_");
  i ← vget_default e "entitlement_id" (VStr "_");
  Ok (py_str n +:+ ":" +:+ py_str i).

(** The loop that removes duplicate entitlements: the dict of those seen and
    the list built. *)
Definition unique_entitlement (st : pydict * list pyval) (e : pyval) :
    Res (pydict * list pyval) :=
  let '(seen, l) := st in
  i ← entitlement_id e;
  Ok (if is_none (dget_none i seen) then (dset i e seen, (l ++ [e])%list) else (seen, l)).

(** [a + b] on lists *)
Definition list_concat (a b : pyval) : Res (list pyval) :=
  match a, b with VList x, VList y => Ok (x ++ y)%list | _, _ => Err TypeError end.

Definition merge_entitlements (priority to_merge : pydict) : Res pydict :=
  if negb (truthy (dget_none ENTITLEMENTS_KEY to_merge)) then Ok priority else
  combined ← list_concat (default (VList []) (dget ENTITLEMENTS_KEY priority))
                         (default (VList []) (dget ENTITLEMENTS_KEY to_merge));
  st ← foldM unique_entitlement ([], []) combined;
  Ok (dset ENTITLEMENTS_KEY (VList st.2) priority).

(** [priority_prod_dict[prod[NAME_KEY]] = prod] *)
Definition product_key (prod : pyval) : Res pyval := n ← getitem prod NAME_KEY; as_key n.

Definition index_product (d : list (pyval * pyval)) (prod : pyval) : Res (list (pyval * pyval)) :=
  n ← product_key prod; Ok (kset n prod d).

(** One product of [to_merge]; [merge_prod.get] raises when the priority
    fingerprint has no product of that name. *)
Definition merge_product (d : list (pyval * pyval)) (prod : pyval) : Res (list (pyval * pyval)) :=
  n ← product_key prod;
  let merge_prod := default VNone (kget n d) in
  presence ← vget merge_prod PRESENCE_KEY;
  if negb (truthy merge_prod) || negb (py_eq presence (VStr "absent"))
  then Ok (if is_none merge_prod then kset n prod d else d)
  else
    p ← vget prod PRESENCE_KEY;
    Ok (if negb (py_eq p (VStr "absent")) then kset n prod d else d).

Definition merge_products (priority to_merge : pydict) : Res pydict :=
  let ts := dget_none PRODUCTS_KEY to_merge in
  if negb (truthy ts) then Ok priority else
  match dget PRODUCTS_KEY priority with
  | None => Ok (dset PRODUCTS_KEY ts priority)
  | Some ps =>
      pl ← py_iter ps;
      d ← foldM index_product [] pl;
      tl ← py_iter ts;
      d ← foldM merge_product d tl;
      Ok (dset PRODUCTS_KEY (VList d.*2) priority)
  end.

Definition _merge_fingerprint (priority to_merge : pydict) (reverse : key_collection) : Res pydict :=
  ks ← keys_to_add priority to_merge reverse;
  p ← foldM (merge_fact to_merge) priority ks;
  p ← merge_sources p to_merge;
  p ← merge_entitlements p to_merge;
  merge_products p to_merge.

(** ** [_remove_duplicate_fingerprints] *)

(** One fingerprint of the inner loop: [unique_dict] and [no_global_id_list]. *)
Definition unique_step (id_key : string) (st : list (pyval * pydict) * list pydict) (fp : pydict) :
    Res (list (pyval * pydict) * list pydict) :=
  let '(unique_dict, no_global_id) := st in
  let v := dget_none id_key fp in
  if truthy v then
    k ← as_key v;
    match truthy_fp (kget k unique_dict) with
    | Some existing =>
        m ← _merge_fingerprint existing fp KNone;
        Ok (kset k m unique_dict, no_global_id)
    | None => Ok (kset k fp unique_dict, no_global_id)
    end
  else Ok (unique_dict, (no_global_id ++ [fp])%list).

Definition dedup_by (remove_key : bool) (fps : list pydict) (id_key : string) : Res (list pydict) :=
  st ← foldM (unique_step id_key) ([], []) fps;
  let r := (st.2 ++ st.1.*2)%list in
  Ok (if remove_key then dpop id_key <$> r else r).

Definition _remove_duplicate_fingerprints (id_key_list : list string) (fps : list pydict)
    (remove_key : bool) : Res (list pydict) :=
  match fps with
  | [] => Ok []
  | _ => foldM (dedup_by remove_key) fps id_key_list
  end.

(** ** Indexing, and merging on equal keys *)

Section fresh.
(** The values that [str(uuid.uuid4())] returns, in the order of the calls. *)
Context (uuid : nat -> string).

Definition index_under (value : pydict) (d : list (pyval * pydict)) (key : pyval) :
    Res (list (pyval * pydict)) :=
  k ← as_key key;
  Ok (match kget k d with None => kset k value d | Some _ => d end).

(** The state: the next fresh identifier, [result_by_key] and
    [key_not_found_list]. *)
Definition index_step (id_key : string) (st : nat * list (pyval * pydict) * list pydict) (fp : pydict) :
    Res (nat * list (pyval * pydict) * list pydict) :=
  let '(n, by_key, not_found) := st in
  let fp := dset FINGERPRINT_GLOBAL_ID_KEY (VStr (uuid n)) fp in
  let v := dget_none id_key fp in
  if truthy v then
    by_key' ← match v with
              | VList l => foldM (index_under fp) by_key l
              | _ => index_under fp by_key v
              end;
    Ok (S n, by_key', not_found)
  else Ok (S n, by_key, (not_found ++ [fp])%list).

Definition _create_index_for_fingerprints (n : nat) (id_key : string) (fps : list pydict) :
    Res (nat * list (pyval * pydict) * list pydict) :=
  foldM (index_step id_key) (n, [], []) fps.

(** One candidate: the bases left, the merged ones, and the candidates that
    matched none. *)
Definition match_step (reverse : key_collection)
    (st : list (pyval * pydict) * list pydict * list pydict) (kv : pyval * pydict) :
    Res (list (pyval * pydict) * list pydict * list pydict) :=
  let '(base_dict, matched, unmatched) := st in
  let '(o, base_dict) := kpop kv.1 base_dict in
  match truthy_fp o with
  | Some base =>
      m ← _merge_fingerprint base kv.2 reverse;
      Ok (base_dict, (matched ++ [m])%list, unmatched)
  | None => Ok (base_dict, matched, (unmatched ++ [kv.2])%list)
  end.

(** The result: next identifier, number merged, bases, candidates left. *)
Definition _merge_matching_fingerprints (n : nat) (base_key : string) (base_list : list pydict)
    (candidate_key : string) (candidate_list : list pydict) (reverse : key_collection) :
    Res (nat * nat * list pydict * list pydict) :=
  b ← _create_index_for_fingerprints n base_key base_list;
  let '(n, base_dict, base_no_key) := b in
  c ← _create_index_for_fingerprints n candidate_key candidate_list;
  let '(n, candidate_dict, candidate_no_key) := c in
  m ← foldM (match_step reverse) (base_dict, [], []) candidate_dict;
  let '(base_dict, matched, unmatched) := m in
  bases ← _remove_duplicate_fingerprints [FINGERPRINT_GLOBAL_ID_KEY]
            (base_no_key ++ matched ++ base_dict.*2)%list true;
  left ← _remove_duplicate_fingerprints [FINGERPRINT_GLOBAL_ID_KEY]
           (candidate_no_key ++ unmatched)%list true;
  Ok (n, length matched, bases, left).

Definition merge_keys_step (reverse : key_collection) (st : nat * nat * list pydict * list pydict)
    (keys : string * string) : Res (nat * nat * list pydict * list pydict) :=
  let '(n, number_merged, result, to_merge) := st in
  r ← _merge_matching_fingerprints n keys.1 result keys.2 to_merge reverse;
  let '(n, merged, result, to_merge) := r in
  Ok (n, (number_merged + merged)%nat, result, to_merge).

Definition _merge_fingerprints_from_source_types (n : nat) (merge_keys : list (string * string))
    (base_list merge_list : list pydict) (reverse : key_collection) :
    Res (nat * nat * list pydict) :=
  match merge_list, base_list with
  | [], _ => Ok (n, 0%nat, base_list)
  | _, [] => Ok (n, 0%nat, merge_list)
  | _, _ =>
      r ← foldM (merge_keys_step reverse) (n, 0%nat, base_list, merge_list) merge_keys;
      let '(n, merged, result, to_merge) := r in
      Ok (n, merged, (result ++ to_merge)%list)
  end.

(** ** After the merge *)

Definition sys_creation_key : string := "system_creation_date".

(** One raw date: the fingerprint, and the date and metadata kept so far. *)
Definition date_step (st : pydict * pyval * pyval) (dk : string * list string) :
    Res (pydict * pyval * pyval) :=
  let '(fp, created, metadata) := st in
  let date_value := dget_none dk.1 fp in
  let fp := dpop dk.1 fp in
  meta ← (v ← dget_exn META_DATA_KEY fp; as_dict "pop" v);
  let date_metadata := dget_none dk.1 meta in
  let fp := dset META_DATA_KEY (VDict (dpop dk.1 meta)) fp in
  if is_none date_value then Ok (fp, created, metadata) else
  created ← _multi_format_dateparse date_metadata date_value dk.2;
  Ok (fp, created, date_metadata).

Definition _compute_system_creation_time (fingerprint : pydict) : Res pydict :=
  st ← foldM date_step (fingerprint, VNone, VDict []) RAW_DATE_KEYS;
  let '(fp, created, metadata) := st in
  if negb (truthy metadata) then Ok fp else
  let fp := dset sys_creation_key created fp in
  if negb (is_none created) then set_nested fp META_DATA_KEY sys_creation_key metadata else
  md ← match metadata with VDict m => Ok m | _ => Err TypeError end;
  set_nested fp META_DATA_KEY sys_creation_key
    (VDict (dset "raw_fact_key" (VStr (str_join "/" RAW_DATE_KEYS.*1)) md)).

Definition post_process_one (fp : pydict) : Res pydict :=
  srcs ← (v ← dget_exn SOURCES_KEY fp; as_dict "values" v);
  _compute_system_creation_time (dset SOURCES_KEY (VList (dvalues srcs)) fp).

Definition _post_process_merged_fingerprints (fps : list pydict) : Res (list pydict) :=
  mapM post_process_one fps.

(** ** [_process_sources] *)

Definition DataSources : list string :=
  ["network"; "vcenter"; "satellite"; "openshift"; "ansible"; "rhacs"].

(** [fingerprint_map[source_type].extend(source_fingerprints)] *)
Definition extend_map (m : list (string * list pydict)) (source_type : pyval) (fps : list pydict) :
    Res (list (string * list pydict)) :=
  k ← as_key source_type;
  match k with
  | VStr s => l ← dget_exn s m; Ok (dset s (l ++ fps)%list m)
  | _ => Err (KeyError (py_repr k))
  end.

Definition collect_step (m : list (string * list pydict)) (source : pydict) :
    Res (list (string * list pydict)) :=
  fps ← _process_source source;
  extend_map m (dget_none "source_type" source) fps.

Definition collect_sources (sources : list pydict) : Res (list (string * list pydict)) :=
  foldM collect_step ((fun t => (t, [])) <$> DataSources) sources.

Definition fps_of (t : string) (m : list (string * list pydict)) : list pydict :=
  default [] (dget t m).

(** The passes over the collected fingerprints, without the post-processing. *)
Definition combine (m : list (string * list pydict)) : Res (list pydict) :=
  net ← _remove_duplicate_fingerprints NETWORK_IDENTIFICATION_KEYS (fps_of "network" m) false;
  sat ← _remove_duplicate_fingerprints SATELLITE_IDENTIFICATION_KEYS (fps_of "satellite" m) false;
  vc ← _remove_duplicate_fingerprints VCENTER_IDENTIFICATION_KEYS (fps_of "vcenter" m) false;
  r1 ← _merge_fingerprints_from_source_types 0 NETWORK_SATELLITE_MERGE_KEYS net sat KNone;
  let '(n, _, combined) := r1 in
  r2 ← _merge_fingerprints_from_source_types n NETWORK_VCENTER_MERGE_KEYS combined vc
         (KTuple ["cpu_count"; "infrastructure_type"]);
  let '(_, _, combined) := r2 in
  Ok (combined ++ fps_of "openshift" m ++ fps_of "ansible" m ++ fps_of "rhacs" m)%list.

Definition _process_sources (sources : list pydict) : Res (list pydict) :=
  m ← collect_sources sources;
  fps ← combine m;
  _post_process_merged_fingerprints fps.
End fresh.

(** ** Lemmas: dicts keyed by values *)

Lemma kget_Some {A} k (d : list (pyval * A)) a b :
  kget k d = Some a -> exists l1 k' l2,
    d = (l1 ++ (k', a) :: l2)%list /\ kset k b d = (l1 ++ (k', b) :: l2)%list /\
    kpop k d = (Some a, (l1 ++ l2)%list) /\ py_eq k' k = true.
Proof.
  induction d as [|[k' a'] d IH]; cbn; [done|]. destruct (py_eq k' k) eqn:E.
  - intros [= ->]. by exists [], k', d.
  - intros (l1 & k1 & l2 & -> & -> & -> & ?)%IH. by exists ((k', a') :: l1), k1, l2.
Qed.

Lemma kget_None {A} k (d : list (pyval * A)) b :
  kget k d = None -> kset k b d = (d ++ [(k, b)])%list /\ kpop k d = (None, d) /\
    Forall (fun k' => py_eq k' k = false) d.*1.
Proof.
  induction d as [|[k' a'] d IH]; cbn; [by repeat constructor|]. destruct (py_eq k' k) eqn:E; [done|].
  intros (-> & -> & ?)%IH. by repeat constructor.
Qed.

(** ** Lemmas: the facts of a merge *)

Lemma dkeys_dmem {A} k (d : list (string * A)) : k ∈ dkeys d <-> dmem k d = true.
Proof. unfold dmem. rewrite <- dget_keys. destruct (dget k d); split; eauto; [by intros [? ?] | done]. Qed.

Lemma dget_meta_entry fp m k :
  meta_ok fp -> dget META_DATA_KEY fp = Some (VDict m) -> k ∈ dkeys fp -> k ∉ structural_keys ->
  k ∈ dkeys m.
Proof. intros (m' & Hm & _ & Hc) H Hk Hs. rewrite H in Hm. injection Hm as ->. destruct (Hc k Hk); done. Qed.

(** [has_sudo] of the metadata, as a total function. *)
Definition sudo (fp : pydict) (key : string) : bool :=
  match has_sudo fp key with Ok b => b | Err _ => false end.

Lemma has_sudo_total fp key : meta_ok fp -> has_sudo fp key = Ok (sudo fp key).
Proof.
  intros (m & Hm & Hd & _). unfold sudo, has_sudo, vget_default. cbn. rewrite Hm. cbn.
  destruct (dget key m) as [v|] eqn:E; cbn; [|done]. destruct (Hd _ _ E) as [Hv _]. by destruct v.
Qed.

(** Which fingerprint a key of the merge is read from. *)
Definition takes_over (priority to_merge : pydict) (k : string) : bool :=
  match dget k priority, dget k to_merge with
  | _, None => false
  | None, Some _ => true
  | Some p, Some t =>
      negb (bool_decide (k ∈ non_fact_keys)) &&
      ((is_none p && negb (is_none t)) || (negb (sudo priority k) && sudo to_merge k))
  end.

Lemma overrides_total priority to_merge k :
  meta_ok priority -> meta_ok to_merge -> k ∈ dkeys priority -> k ∈ dkeys to_merge ->
  k ∉ non_fact_keys -> overrides priority to_merge k = Ok (takes_over priority to_merge k).
Proof.
  intros Hp Ht (p & Hkp)%dget_keys (t & Hkt)%dget_keys Hn. unfold overrides, takes_over, dget_exn.
  rewrite Hkp, Hkt. cbn [mbind res_bind from_option].
  rewrite (has_sudo_total priority), (has_sudo_total to_merge) by done. cbn [mbind res_bind].
  rewrite bool_decide_eq_false_2 by done. by destruct (is_none p && negb (is_none t)).
Qed.

Lemma keys_to_add_spec priority to_merge reverse :
  meta_ok priority -> meta_ok to_merge -> (forall ks, reverse <> KSet ks) ->
  exists ks, keys_to_add priority to_merge reverse = Ok ks /\ NoDup ks /\
    forall k, k ∈ ks <-> takes_over priority to_merge k = true.
Proof.
  intros Hp Ht Hr. unfold keys_to_add.
  rewrite (filterM_Ok _ (takes_over priority to_merge)).
  2:{ intros k. rewrite !list_elem_of_filter. intros (? & ? & ?). by apply overrides_total. }
  cbn. eexists. split; [done|]. split; [apply NoDup_dedup|]. intros k.
  rewrite elem_of_dedup, !elem_of_app, elem_of_List_filter, !list_elem_of_filter.
  assert (k ∈ match reverse with KSet ks => ks | _ => [] end <-> False) as ->.
  { destruct reverse as [|ks|ks]; [|by destruct (Hr ks)|]; set_solver. }
  rewrite <- !dget_keys. unfold takes_over.
  destruct (dget k priority) as [p|] eqn:Ep, (dget k to_merge) as [t|] eqn:Et; cbn;
    repeat case_bool_decide; cbn; rewrite ?is_Some_alt; naive_solver.
Qed.

Lemma merge_fact_eq t tm p pm k v :
  dget META_DATA_KEY t = Some (VDict tm) -> dget META_DATA_KEY p = Some (VDict pm) ->
  dget k tm = Some v ->
  merge_fact t p k = Ok (dset k (dget_none k t) (dset META_DATA_KEY (VDict (dset k v pm)) p)).
Proof.
  intros Ht Hp Hk. unfold merge_fact, set_nested, getitem, dget_exn.
  rewrite Ht. cbn. rewrite Hk. cbn. by rewrite Hp.
Qed.

(** The loop over the keys taken from the merged fingerprint. *)
Lemma merge_facts_spec t tm ks p pm :
  dget META_DATA_KEY t = Some (VDict tm) -> dget META_DATA_KEY p = Some (VDict pm) ->
  (forall k, k ∈ ks -> k ∈ dkeys tm) -> META_DATA_KEY ∉ ks ->
  exists p' pm', foldM (merge_fact t) p ks = Ok p' /\
    dget META_DATA_KEY p' = Some (VDict pm') /\
    (forall k, k <> META_DATA_KEY ->
       dget k p' = if decide (k ∈ ks) then Some (dget_none k t) else dget k p) /\
    (forall k, dget k pm' = if decide (k ∈ ks) then dget k tm else dget k pm).
Proof.
  intros Ht. revert p pm. induction ks as [|k ks IH]; intros p pm Hp Hin Hn; cbn.
  { exists p, pm. repeat split; auto. }
  destruct (proj2 (dget_keys k tm)) as [v Hv]; [apply Hin; left|].
  rewrite (merge_fact_eq _ _ _ _ _ _ Ht Hp Hv). cbn.
  edestruct (IH (dset k (dget_none k t) (dset META_DATA_KEY (VDict (dset k v pm)) p)) (dset k v pm))
    as (p' & pm' & -> & Hm' & H1 & H2).
  - rewrite dget_dset_ne by set_solver. apply dget_dset_eq.
  - intros. apply Hin. by right.
  - set_solver.
  - exists p', pm'. split; [done|]. split; [done|]. split.
    + intros k' Hk'. rewrite H1 by done. rewrite dget_dset, dget_dset_ne by done.
      repeat case_decide; subst; set_solver.
    + intros k'. rewrite H2, dget_dset. repeat case_decide; subst; try done; set_solver.
Qed.

(** ** Lemmas: sources, entitlements *)

(** [s] is one of the sources a fingerprint comes from. *)
Definition has_source (s : string) (fp : pydict) : Prop :=
  exists d, dget SOURCES_KEY fp = Some (VDict d) /\ s ∈ dkeys d.

Lemma add_sources_spec (ts ps : pydict) s :
  let r := foldl (fun d '(k, v) => if dmem k d then d else dset k v d) ps ts in
  (s ∈ dkeys r <-> s ∈ dkeys ps \/ s ∈ dkeys ts) /\ (s ∈ dkeys ps -> dget s r = dget s ps).
Proof.
  cbn. revert ps. induction ts as [|[k v] ts IH]; intros ps; cbn; [set_solver|].
  destruct (IH (if dmem k ps then ps else dset k v ps)) as [H1 H2]. rewrite H1.
  destruct (dmem k ps) eqn:E.
  - apply dkeys_dmem in E. split; [set_solver|]. done.
  - rewrite elem_of_dkeys_dset in *. split; [set_solver|]. intros Hs. rewrite H2 by auto.
    rewrite dget_dset_ne; [done|]. intros ->. apply dkeys_dmem in Hs. congruence.
Qed.

Lemma merge_sources_spec p t pd td :
  dget SOURCES_KEY p = Some (VDict pd) -> dget SOURCES_KEY t = Some (VDict td) ->
  exists d, merge_sources p t = Ok (dset SOURCES_KEY (VDict d) p) /\
    forall s, (s ∈ dkeys d <-> s ∈ dkeys pd \/ s ∈ dkeys td) /\ (s ∈ dkeys pd -> dget s d = dget s pd).
Proof.
  intros Hp Ht. unfold merge_sources, dget_exn. rewrite Hp, Ht. cbn. eexists. split; [done|].
  apply add_sources_spec.
Qed.

(** The identity of an entitlement that is a dict. *)
Definition ent_id (e : pydict) : string :=
  py_str (default (VStr "_") (dget "name" e)) +:+ ":" +:+
  py_str (default (VStr "_") (dget "entitlement_id" e)).

(** The first entitlement of each identity, in order. *)
Fixpoint first_of_each (seen : list string) (l : list pydict) : list pydict :=
  match l with
  | [] => []
  | e :: l =>
      if decide (ent_id e ∈ seen) then first_of_each seen l
      else e :: first_of_each (ent_id e :: seen) l
  end.

Lemma first_of_each_ids seen l :
  NoDup (ent_id <$> first_of_each seen l) /\
  forall i, i ∈ ent_id <$> first_of_each seen l <-> ~ (i ∈ seen) /\ i ∈ ent_id <$> l.
Proof.
  revert seen. induction l as [|e l IH]; intros seen; cbn; [split; [constructor | set_solver]|].
  case_decide as E.
  - destruct (IH seen) as [H1 H2]. split; [done|]. intros i. rewrite H2. set_solver.
  - destruct (IH (ent_id e :: seen)) as [H1 H2]. cbn. split.
    + constructor; [|done]. rewrite H2. set_solver.
    + intros i. rewrite elem_of_cons, H2. destruct (decide (i = ent_id e)); set_solver.
Qed.

Lemma first_of_each_seen s1 s2 l :
  (forall i, i ∈ s1 <-> i ∈ s2) -> first_of_each s1 l = first_of_each s2 l.
Proof.
  revert s1 s2. induction l as [|e l IH]; intros s1 s2 H; cbn; [done|].
  do 2 case_decide; [by apply IH | naive_solver | naive_solver |].
  f_equal. apply IH. set_solver.
Qed.

Lemma entitlement_id_dict e : entitlement_id (VDict e) = Ok (ent_id e).
Proof. done. Qed.

Lemma unique_entitlements_spec (l : list pydict) (seen : pydict) acc :
  (forall k v, dget k seen = Some v -> v <> VNone) ->
  exists seen', foldM unique_entitlement (seen, acc) (VDict <$> l) =
    Ok (seen', (acc ++ (VDict <$> first_of_each (dkeys seen) l))%list).
Proof.
  revert seen acc. induction l as [|e l IH]; intros seen acc Hs.
  { exists seen. cbn. by rewrite app_nil_r. }
  cbn [fmap list_fmap foldM unique_entitlement first_of_each]. rewrite entitlement_id_dict.
  cbn [mbind res_bind]. unfold dget_none.
  destruct (dget (ent_id e) seen) as [v|] eqn:E; cbn [default id].
  - assert (v <> VNone) by eauto. rewrite decide_True by (apply dget_keys; eauto).
    replace (is_none v) with false by (by destruct v). by apply IH.
  - rewrite decide_False by (rewrite <- dget_keys, E; by intros [? ?]). cbn [is_none].
    destruct (IH (dset (ent_id e) (VDict e) seen) (acc ++ [VDict e])%list) as (s' & ->).
    { intros k v. rewrite dget_dset. case_decide; [by intros [= <-] | apply Hs]. }
    exists s'. rewrite <- app_assoc. cbn. do 5 f_equal.
    apply first_of_each_seen. intros i. rewrite elem_of_dkeys_dset. set_solver.
Qed.

(** The entitlements of a merge: those of both, the first of each identity. *)
Definition combined_entitlements (ps ts : list pydict) : list pydict :=
  match ts with [] => ps | _ => first_of_each [] (ps ++ ts)%list end.

Lemma merge_entitlements_spec p t ps ts :
  dget ENTITLEMENTS_KEY p = Some (VList (VDict <$> ps)) ->
  dget ENTITLEMENTS_KEY t = Some (VList (VDict <$> ts)) ->
  exists p', merge_entitlements p t = Ok p' /\
    dget ENTITLEMENTS_KEY p' = Some (VList (VDict <$> combined_entitlements ps ts)) /\
    forall k, k <> ENTITLEMENTS_KEY -> dget k p' = dget k p.
Proof.
  intros Hp Ht. unfold merge_entitlements, dget_none. rewrite Hp, Ht.
  destruct ts as [|t0 ts]; [by exists p|]. cbn [default id truthy fmap list_fmap negb list_concat mbind res_bind].
  destruct (unique_entitlements_spec (ps ++ t0 :: ts)%list [] []) as (s' & Hs); [done|].
  rewrite fmap_app in Hs. cbn [fmap list_fmap] in Hs. rewrite Hs. cbn [mbind res_bind snd app].
  eexists. split; [done|]. split; [apply dget_dset_eq | intros; by apply dget_dset_ne].
Qed.

(** ** Lemmas: products *)

(** The dict of products during the merge: one dict per name, in order. *)
Definition named (kv : pyval * pyval) (n : string) : Prop :=
  exists d, kv = (VStr n, VDict d) /\ dget NAME_KEY d = Some (VStr n).

Lemma product_key_named d n : dget NAME_KEY d = Some (VStr n) -> product_key (VDict d) = Ok (VStr n).
Proof. intros H. unfold product_key, getitem, dget_exn. by rewrite H. Qed.

Lemma kget_named_None d ns n : Forall2 named d ns -> n ∉ ns -> kget (VStr n) d = None.
Proof.
  induction 1 as [|kv n' d ns (p & -> & _) _ IH]; intros Hn; [done|]. cbn -[py_eq].
  rewrite py_eq_str, bool_decide_eq_false_2 by set_solver. apply IH. set_solver.
Qed.

Lemma index_products_spec ds ns acc pre :
  Forall2 named acc pre -> Forall2 (fun d n => dget NAME_KEY d = Some (VStr n)) ds ns ->
  NoDup (pre ++ ns)%list ->
  foldM index_product acc (VDict <$> ds) = Ok (acc ++ zip (VStr <$> ns) (VDict <$> ds))%list.
Proof.
  intros Hacc H. revert acc pre Hacc. induction H as [|d n ds ns Hd _ IH]; intros acc pre Hacc Hnd.
  { cbn. by rewrite app_nil_r. }
  cbn [fmap list_fmap zip zip_with foldM].
  assert (index_product acc (VDict d) = Ok (kset (VStr n) (VDict d) acc)) as ->
    by (unfold index_product; by rewrite (product_key_named _ _ Hd)).
  cbn [mbind res_bind].
  rewrite (proj1 (kget_None _ _ (VDict d) (kget_named_None _ _ n Hacc ltac:(apply NoDup_app in Hnd; set_solver)))).
  rewrite (IH _ (pre ++ [n])%list); [by rewrite <- app_assoc | | by rewrite <- app_assoc].
  apply Forall2_app; [done|]. constructor; [by exists d | constructor].
Qed.

(** The product kept of two with the same name. *)
Definition pick_product (p t : pydict) : pydict :=
  if py_eq (dget_none PRESENCE_KEY p) (VStr "absent") &&
     negb (py_eq (dget_none PRESENCE_KEY t) (VStr "absent")) then t else p.

Lemma merge_product_spec pre npre p t n rest :
  Forall2 named pre npre -> n ∉ npre ->
  dget NAME_KEY p = Some (VStr n) -> dget NAME_KEY t = Some (VStr n) ->
  merge_product (pre ++ (VStr n, VDict p) :: rest)%list (VDict t) =
  Ok (pre ++ (VStr n, VDict (pick_product p t)) :: rest)%list.
Proof.
  intros Hpre Hn Hp Ht. unfold merge_product. rewrite (product_key_named _ _ Ht). cbn [mbind res_bind].
  assert (forall x, kset (VStr n) x (pre ++ (VStr n, VDict p) :: rest)%list = (pre ++ (VStr n, x) :: rest)%list
    /\ kget (VStr n) (pre ++ (VStr n, VDict p) :: rest)%list = Some (VDict p)) as Hk.
  { intros x. induction Hpre as [|kv n' pre npre (q & -> & _) _ IH]; cbn -[py_eq].
    - by rewrite py_eq_str, bool_decide_eq_true_2.
    - rewrite py_eq_str, bool_decide_eq_false_2 by set_solver.
      destruct IH as [-> ->]; [set_solver | done]. }
  destruct (Hk (VDict t)) as [Hs ->]. cbn [default id vget vget_default as_dict mbind res_bind].
  unfold vget, vget_default. cbn [as_dict mbind res_bind]. unfold pick_product, dget_none.
  assert (truthy (VDict p) = true) as -> by (by destruct p). cbn [negb orb is_none].
  destruct (py_eq (default VNone (dget PRESENCE_KEY p)) (VStr "absent")); [|done].
  cbn [negb andb mbind res_bind]. rewrite Hs. by destruct (py_eq (default VNone (dget PRESENCE_KEY t)) _).
Qed.

Lemma merge_products_loop ps ts ns pre npre :
  Forall2 named pre npre -> NoDup (npre ++ ns)%list ->
  Forall2 (fun d n => dget NAME_KEY d = Some (VStr n)) ps ns ->
  Forall2 (fun d n => dget NAME_KEY d = Some (VStr n)) ts ns ->
  foldM merge_product (pre ++ zip (VStr <$> ns) (VDict <$> ps))%list (VDict <$> ts) =
  Ok (pre ++ zip (VStr <$> ns) (VDict <$> zip_with pick_product ps ts))%list.
Proof.
  intros Hpre Hnd Hps. revert ts pre npre Hpre Hnd.
  induction Hps as [|p n ps ns Hp _ IH]; intros ts pre npre Hpre Hnd Hts.
  { apply Forall2_nil_inv_r in Hts as ->. done. }
  apply Forall2_cons_inv_r in Hts as (t & ts' & Ht & Hts & ->).
  cbn [fmap list_fmap zip zip_with foldM].
  rewrite (merge_product_spec pre npre p t n) by (done || (apply NoDup_app in Hnd; set_solver)).
  cbn [mbind res_bind].
  assert (named (VStr n, VDict (pick_product p t)) n) as Hnm.
  { unfold pick_product. destruct (_ && _); eexists; split; done. }
  rewrite cons_middle, (assoc_L (++)%list).
  rewrite (IH ts' _ (npre ++ [n])%list); [by rewrite <- app_assoc | | by rewrite <- app_assoc | done].
  apply Forall2_app; [done | by repeat constructor].
Qed.

Lemma pick_named ps ts ns :
  Forall2 (fun d n => dget NAME_KEY d = Some (VStr n)) ps ns ->
  Forall2 (fun d n => dget NAME_KEY d = Some (VStr n)) ts ns ->
  Forall2 (fun d n => dget NAME_KEY d = Some (VStr n)) (zip_with pick_product ps ts) ns.
Proof.
  intros H. revert ts. induction H as [|p n ps ns Hp _ IH]; intros ts Ht.
  { apply Forall2_nil_inv_r in Ht as ->. constructor. }
  apply Forall2_cons_inv_r in Ht as (t & ts' & Ht & Hts & ->). cbn. constructor; [|by apply IH].
  unfold pick_product. by destruct (_ && _).
Qed.

(** The products of a merge when the merged fingerprint has none, or the same
    ones by name. *)
Definition combined_products (ps ts : list pydict) : list pydict :=
  match ts with [] => ps | _ => zip_with pick_product ps ts end.

Lemma merge_products_spec p t ps ts ns ns' :
  dget PRODUCTS_KEY p = Some (VList (VDict <$> ps)) ->
  dget PRODUCTS_KEY t = Some (VList (VDict <$> ts)) ->
  Forall2 (fun d n => dget NAME_KEY d = Some (VStr n)) ps ns ->
  Forall2 (fun d n => dget NAME_KEY d = Some (VStr n)) ts ns' ->
  NoDup ns -> ns' = [] \/ ns' = ns ->
  exists p', merge_products p t = Ok p' /\
    dget PRODUCTS_KEY p' = Some (VList (VDict <$> combined_products ps ts)) /\
    Forall2 (fun d n => dget NAME_KEY d = Some (VStr n)) (combined_products ps ts) ns /\
    forall k, k <> PRODUCTS_KEY -> dget k p' = dget k p.
Proof.
  intros Hp Ht Hps Hts Hnd Hns. unfold merge_products, dget_none. rewrite Hp, Ht.
  destruct (decide (ts = [])) as [->|Hne]; [by exists p|].
  assert (truthy (VList (VDict <$> ts)) = true /\
          combined_products ps ts = zip_with pick_product ps ts) as [Htr Hc] by (by destruct ts).
  rewrite Hc. destruct Hns as [->| ->]; [by apply Forall2_nil_inv_r in Hts|].
  cbn [default id]. rewrite Htr. cbn [negb py_iter mbind res_bind].
  rewrite (index_products_spec ps ns [] []) by (done || constructor). cbn [mbind res_bind app].
  assert (Hl := merge_products_loop ps ts ns [] [] (proj2 (Forall2_nil _) I) Hnd Hps Hts).
  cbn [app] in Hl. rewrite Hl. cbn [mbind res_bind].
  eexists. split; [done|].
  assert (Hpk := pick_named _ _ _ Hps Hts).
  split; [|split; [done | intros; by apply dget_dset_ne]].
  rewrite dget_dset_eq. do 2 f_equal. rewrite snd_zip; [done|].
  rewrite !length_fmap. by rewrite (Forall2_length _ _ _ Hpk).
Qed.

(** ** The merge as a whole *)

(** Identifiers are absent, or all present and not empty. *)
Definition gid_ok (b : bool) (fp : pydict) : Prop :=
  if b then exists s, dget FINGERPRINT_GLOBAL_ID_KEY fp = Some (VStr s)
  else dget FINGERPRINT_GLOBAL_ID_KEY fp = None.

(** The fingerprints of one pass: well formed, with the products [ns]. *)
Record good (b : bool) (ns : list string) (fp : pydict) : Prop := {
  good_wf : wf_fp fp;
  good_prods : products_of fp ns;
  good_gid : gid_ok b fp }.

(** What a merge promises, independently of how it is computed. *)
Record merged_from (p t m : pydict) : Prop := {
  mf_fact : forall k, k ∉ [META_DATA_KEY; SOURCES_KEY; ENTITLEMENTS_KEY; PRODUCTS_KEY] ->
    dget k m = if takes_over p t k then dget k t else dget k p;
  mf_meta : forall pm tm, dget META_DATA_KEY p = Some (VDict pm) -> dget META_DATA_KEY t = Some (VDict tm) ->
    exists mm, dget META_DATA_KEY m = Some (VDict mm) /\
      forall k, dget k mm = if takes_over p t k then dget k tm else dget k pm;
  mf_srcs : forall s, has_source s m <-> has_source s p \/ has_source s t;
  mf_ents : forall ps ts, dget ENTITLEMENTS_KEY p = Some (VList (VDict <$> ps)) ->
    dget ENTITLEMENTS_KEY t = Some (VList (VDict <$> ts)) ->
    dget ENTITLEMENTS_KEY m = Some (VList (VDict <$> combined_entitlements ps ts));
  mf_prods : forall ps ts, dget PRODUCTS_KEY p = Some (VList (VDict <$> ps)) ->
    dget PRODUCTS_KEY t = Some (VList (VDict <$> ts)) ->
    dget PRODUCTS_KEY m = Some (VList (VDict <$> combined_products ps ts)) }.

Lemma sudo_structural fp k : meta_ok fp -> k ∈ structural_keys -> sudo fp k = false.
Proof.
  intros (m & Hm & Hd & _) Hk. unfold sudo, has_sudo, vget_default. cbn. rewrite Hm. cbn.
  destruct (dget k m) as [v|] eqn:E; [|done]. by destruct (Hd _ _ E).
Qed.

Lemma takes_over_structural b ns ns' p t k :
  good b ns p -> good b ns' t -> k ∈ structural_keys -> takes_over p t k = false.
Proof.
  intros [Wp Pp Gp] [Wt Pt Gt] Hk. unfold takes_over.
  rewrite !(sudo_structural _ k) by (done || apply wf_meta; done).
  destruct Wp as [(? & Hm & _) (? & He) (? & [Hp _]) (? & Hs) _].
  unfold structural_keys in Hk. rewrite !elem_of_cons in Hk.
  destruct Hk as [->|[->|[->|[->|[->|[]%elem_of_nil]]]]]; rewrite ?Hm, ?He, ?Hp, ?Hs;
    try (by destruct (dget _ t) as [[]|]).
  unfold gid_ok in *. destruct b; [destruct Gp as [? ->], Gt as [? ->] | rewrite Gp, Gt]; done.
Qed.

Lemma takes_over_meta p t tm k :
  meta_ok t -> dget META_DATA_KEY t = Some (VDict tm) -> k ∉ structural_keys ->
  takes_over p t k = true -> k ∈ dkeys tm.
Proof.
  intros Ht Hm Hk H. eapply dget_meta_entry; eauto. apply dget_keys.
  unfold takes_over in H. destruct (dget k t); [by eexists|]. by destruct (dget k p).
Qed.

(** The state after the loop over the facts. *)
Lemma merge_facts_good b ns ns' p t reverse pm tm :
  good b ns p -> good b ns' t -> (forall ks, reverse <> KSet ks) ->
  dget META_DATA_KEY p = Some (VDict pm) -> dget META_DATA_KEY t = Some (VDict tm) ->
  exists ks p1 mm, keys_to_add p t reverse = Ok ks /\ foldM (merge_fact t) p ks = Ok p1 /\
    dget META_DATA_KEY p1 = Some (VDict mm) /\
    (forall k, dget k mm = if takes_over p t k then dget k tm else dget k pm) /\
    forall k, k <> META_DATA_KEY -> dget k p1 = if takes_over p t k then dget k t else dget k p.
Proof.
  intros Gp Gt Hr Hpm Htm.
  pose proof (wf_meta _ (good_wf _ _ _ Gp)) as Mp. pose proof (wf_meta _ (good_wf _ _ _ Gt)) as Mt.
  destruct (keys_to_add_spec p t reverse) as (ks & Hks & _ & Hin); [done..|].
  assert (forall k, k ∈ ks -> ~ (k ∈ structural_keys)) as Hst.
  { intros k Hk Hs. apply Hin in Hk. by rewrite (takes_over_structural _ _ _ _ _ _ Gp Gt Hs) in Hk. }
  destruct (merge_facts_spec t tm ks p pm) as (p1 & mm & H1 & Hmm & Hf & Hd); [done..| | |].
  { intros k Hk. eapply takes_over_meta; [done | done | by apply Hst | by apply Hin]. }
  { intros Hk. apply (Hst _ Hk). left. }
  exists ks, p1, mm. do 3 (split; [done|]). split.
  - intros k. rewrite Hd. case_decide as E; rewrite Hin in E; [by rewrite E|].
    by apply not_true_is_false in E as ->.
  - intros k Hk. rewrite Hf by done. case_decide as E; rewrite Hin in E.
    + rewrite E. unfold takes_over in E. unfold dget_none. destruct (dget k t); [done|].
      by destruct (dget k p).
    + by apply not_true_is_false in E as ->.
Qed.

(** A fingerprint with the facts and metadata of a merge, and its own
    structural entries, is well formed. *)
Lemma merged_wf p t m pm tm mm :
  wf_fp p -> wf_fp t ->
  dget META_DATA_KEY p = Some (VDict pm) -> dget META_DATA_KEY t = Some (VDict tm) ->
  dget META_DATA_KEY m = Some (VDict mm) ->
  (forall k, dget k mm = if takes_over p t k then dget k tm else dget k pm) ->
  (forall k, k ∉ [META_DATA_KEY; SOURCES_KEY; ENTITLEMENTS_KEY; PRODUCTS_KEY] ->
     dget k m = if takes_over p t k then dget k t else dget k p) ->
  partial_ok m.
Proof.
  intros [Mp _ _ _ Ip] [Mt _ _ _ It] Hpm Htm Hmm Hd Hf. split.
  - exists mm. split; [done|]. split.
    + intros k v. rewrite Hd. destruct Mp as (? & E & H & _), Mt as (? & E' & H' & _).
      rewrite E in Hpm. rewrite E' in Htm. simplify_eq. destruct (takes_over p t k); auto.
    + intros k Hk. destruct (decide (k ∈ structural_keys)) as [|Hs]; [by left|right].
      apply dget_keys. apply dget_keys in Hk. rewrite Hf in Hk by (unfold structural_keys in Hs; set_solver).
      rewrite Hd. destruct (takes_over p t k); apply dget_keys;
        [apply (dget_meta_entry t) | apply (dget_meta_entry p)]; auto; by apply dget_keys.
  - intros k Hk. unfold dget_none. rewrite Hf.
    + destruct (takes_over p t k); [by apply It | by apply Ip].
    + unfold id_keys in Hk. revert k Hk. apply Forall_forall. by_compute.
Qed.

(** The merge runs, and its entries one by one. *)
Lemma merge_run b ns ns' p t reverse pm tm ps ts pe te pp tp :
  good b ns p -> good b ns' t -> NoDup ns -> ns' = [] \/ ns' = ns ->
  (forall ks, reverse <> KSet ks) ->
  dget META_DATA_KEY p = Some (VDict pm) -> dget META_DATA_KEY t = Some (VDict tm) ->
  dget SOURCES_KEY p = Some (VDict ps) -> dget SOURCES_KEY t = Some (VDict ts) ->
  dget ENTITLEMENTS_KEY p = Some (VList (VDict <$> pe)) ->
  dget ENTITLEMENTS_KEY t = Some (VList (VDict <$> te)) ->
  dget PRODUCTS_KEY p = Some (VList (VDict <$> pp)) ->
  dget PRODUCTS_KEY t = Some (VList (VDict <$> tp)) ->
  Forall2 (fun d n => dget NAME_KEY d = Some (VStr n)) pp ns ->
  Forall2 (fun d n => dget NAME_KEY d = Some (VStr n)) tp ns' ->
  exists m mm ms, _merge_fingerprint p t reverse = Ok m /\
    dget META_DATA_KEY m = Some (VDict mm) /\
    (forall k, dget k mm = if takes_over p t k then dget k tm else dget k pm) /\
    (forall k, k ∉ [META_DATA_KEY; SOURCES_KEY; ENTITLEMENTS_KEY; PRODUCTS_KEY] ->
       dget k m = if takes_over p t k then dget k t else dget k p) /\
    dget SOURCES_KEY m = Some (VDict ms) /\
    (forall s, s ∈ dkeys ms <-> s ∈ dkeys ps \/ s ∈ dkeys ts) /\
    dget ENTITLEMENTS_KEY m = Some (VList (VDict <$> combined_entitlements pe te)) /\
    dget PRODUCTS_KEY m = Some (VList (VDict <$> combined_products pp tp)) /\
    Forall2 (fun d n => dget NAME_KEY d = Some (VStr n)) (combined_products pp tp) ns.
Proof.
  intros Gp Gt Hnd Hns Hr Hpm Htm Hps Hts Hpe Hte Hpp Htp Npp Ntp.
  destruct (merge_facts_good _ _ _ p t reverse pm tm Gp Gt Hr Hpm Htm)
    as (ks & p1 & mm & Hks & H1 & Hmm & Hd & Hf).
  assert (forall k, k ∈ structural_keys -> k <> META_DATA_KEY -> dget k p1 = dget k p) as Hs1.
  { intros k Hk Hne. rewrite Hf by done. by rewrite (takes_over_structural _ _ _ _ _ _ Gp Gt Hk). }
  destruct (merge_sources_spec p1 t ps ts) as (sd & H2 & Hsd);
    [rewrite Hs1; [done | by_compute | done] | done |].
  destruct (merge_entitlements_spec (dset SOURCES_KEY (VDict sd) p1) t pe te) as (p3 & H3 & He3 & Hf3);
    [rewrite dget_dset_ne, Hs1; [done | by_compute | done | done] | done |].
  destruct (merge_products_spec p3 t pp tp ns ns') as (m & H4 & Hp4 & Hn4 & Hf4); try done.
  { rewrite Hf3, dget_dset_ne, Hs1; [done | by_compute | done..]. }
  assert (forall k, k ∉ [SOURCES_KEY; ENTITLEMENTS_KEY; PRODUCTS_KEY] -> dget k m = dget k p1) as Hm1.
  { intros k Hk. rewrite Hf4, Hf3, dget_dset_ne by (intros ->; set_solver). done. }
  exists m, mm, sd. split.
  { unfold _merge_fingerprint. rewrite Hks. cbn [mbind res_bind]. rewrite H1. cbn [mbind res_bind].
    rewrite H2. cbn [mbind res_bind]. rewrite H3. exact H4. }
  split; [rewrite Hm1; [done | by_compute]|]. split; [done|].
  split; [intros k Hk; rewrite Hm1, Hf by set_solver; done|].
  split; [rewrite Hf4, Hf3 by done; apply dget_dset_eq|].
  split; [intros s; apply Hsd|]. split; [by rewrite Hf4 | done].
Qed.

#[export] Instance VDict_inj : Inj (=) (=) VDict.
Proof. by intros ? ? [= ->]. Qed.

(** Merging two fingerprints of a pass never raises, gives a fingerprint of
    the pass, and keeps the promise of [merged_from]. *)
Lemma merge_spec b ns ns' p t reverse :
  good b ns p -> good b ns' t -> NoDup ns -> ns' = [] \/ ns' = ns ->
  (forall ks, reverse <> KSet ks) ->
  exists m, _merge_fingerprint p t reverse = Ok m /\ good b ns m /\ merged_from p t m.
Proof.
  intros Gp Gt Hnd Hns Hr.
  pose proof Gp as [[(pm & Hpm & _) (pe & Hpe) _ (ps & Hps) _] (pp & [Hpp _] & Npp) Ip].
  pose proof Gt as [[(tm & Htm & _) (te & Hte) _ (ts & Hts) _] (tp & [Htp _] & Ntp) It].
  destruct (merge_run b ns ns' p t reverse pm tm ps ts pe te pp tp)
    as (m & mm & ms & H & Hmm & Hd & Hf & Hms & Hss & Hme & Hmp & Nm); [done..|].
  destruct (merged_wf p t m pm tm mm) as [Mm Im]; try done; [apply Gp | apply Gt |].
  exists m. split; [done|].
  assert (product_dicts m (combined_products pp tp)) as Pm by (split; [done | by eapply names_have_name]).
  split.
  - split; [constructor; eauto | by exists (combined_products pp tp) |].
    unfold gid_ok in *. by rewrite Hf, (takes_over_structural _ _ _ _ _ _ Gp Gt) by by_compute.
  - constructor; [done | ..]; intros; simplify_eq.
    + by exists mm.
    + unfold has_source. rewrite Hms, Hps, Hts. specialize (Hss s). naive_solver.
    + done.
    + done.
Qed.
