(* ===== verification/MergePasses.v ===== *)
(** The passes of the fingerprint merge: de-duplication by identifier, indexing,
    matching, and the pipeline of [_process_sources].  The definitions are in
    [Merge.v]; here is what they guarantee for well-formed fingerprints. *)
From stdpp Require Import base sets list strings.
From Stdlib Require Import Ascii ZArith Lia.
From S2P Require Import Prelude PyStr PyNum PyVal DateParse Formatters.
From S2P Require Import ProductEap ProductFuse Fingerprints Merge.

Open Scope string_scope.

(** ** The de-duplication passes *)

(** The identification value of a fingerprint: missing, or a string. *)
Definition str_id (id_key : string) (fp : pydict) : Prop :=
  dget_none id_key fp = VNone \/ exists s, dget_none id_key fp = VStr s.

Definition sources_in (s : string) (fps : list pydict) : Prop := Exists (has_source s) fps.

(** What [unique_step] maintains: the fingerprints with an identifier indexed
    by it, the others in the list. *)
Record unique_inv (b : bool) (ns : list string) (id_key : string)
    (st : list (pyval * pydict) * list pydict) : Prop := {
  ui_nodup : NoDup st.1.*1;
  ui_keyed : Forall (fun kv => good b ns kv.2 /\ dget_none id_key kv.2 = kv.1 /\
                               exists s, kv.1 = VStr s /\ s <> "") st.1;
  ui_other : Forall (fun fp => good b ns fp /\ truthy (dget_none id_key fp) = false) st.2 }.

(** What a step adds: the sources and the identifier of its fingerprint. *)
Record unique_gain (id_key : string) (fp : pydict) (st st' : list (pyval * pydict) * list pydict) : Prop := {
  ug_sources : forall s, sources_in s (st'.2 ++ st'.1.*2)%list <->
                         sources_in s (st.2 ++ st.1.*2)%list \/ has_source s fp;
  ug_ids : forall v, v ∈ st'.1.*1 <-> v ∈ st.1.*1 \/ (truthy v = true /\ v = dget_none id_key fp);
  ug_size : (length st'.2 + length st'.1 <= S (length st.2 + length st.1))%nat }.

Lemma merged_id b ns ns' p t m id_key v :
  good b ns p -> good b ns' t -> merged_from p t m -> id_key ∈ id_keys -> v <> VNone ->
  dget_none id_key p = v -> dget_none id_key t = v -> dget_none id_key m = v.
Proof.
  intros Gp Gt M Hk Hv Hp Ht. unfold dget_none in *. rewrite (mf_fact _ _ _ M).
  - by destruct (takes_over p t id_key).
  - revert id_key Hk Hp Ht. intros k Hk _ _. revert k Hk. apply Forall_forall. by_compute.
Qed.

Lemma py_eq_str_r k s : py_eq k (VStr s) = true <-> k = VStr s.
Proof.
  split; [|intros ->; rewrite py_eq_str; by apply bool_decide_eq_true_2].
  destruct k; try done. rewrite py_eq_str. by intros ->%bool_decide_eq_true.
Qed.

Lemma good_truthy b ns fp : good b ns fp -> truthy_fp (Some fp) = Some fp.
Proof. intros [[(m & Hm & _) _ _ _ _] _ _]. by destruct fp. Qed.

Lemma sources_in_app s l1 l2 : sources_in s (l1 ++ l2)%list <-> sources_in s l1 \/ sources_in s l2.
Proof. apply Exists_app. Qed.

Lemma sources_in_cons s fp l : sources_in s (fp :: l) <-> has_source s fp \/ sources_in s l.
Proof. apply Exists_cons. Qed.

Lemma sources_in_nil s : sources_in s [] <-> False.
Proof. apply Exists_nil. Qed.

#[export] Hint Rewrite sources_in_app sources_in_cons sources_in_nil : pydict.

(** Replacing the fingerprint of an identifier already there. *)
Lemma unique_replace b ns id_key l1 l2 no s e fp m :
  unique_inv b ns id_key ((l1 ++ (VStr s, e) :: l2)%list, no) -> good b ns m ->
  (forall x, has_source x m <-> has_source x e \/ has_source x fp) ->
  dget_none id_key m = VStr s -> dget_none id_key fp = VStr s ->
  unique_inv b ns id_key ((l1 ++ (VStr s, m) :: l2)%list, no) /\
  unique_gain id_key fp ((l1 ++ (VStr s, e) :: l2)%list, no) ((l1 ++ (VStr s, m) :: l2)%list, no).
Proof.
  intros [I1 I2 I3] Gm Hsrc Hm Hfp. cbn [fst snd] in *.
  apply Forall_app in I2 as [I2a (I2b & I2c)%Forall_cons]. rewrite fmap_app in I1. split.
  - split; cbn [fst snd]; [by rewrite fmap_app | | done].
    apply Forall_app. split; [done|]. apply Forall_cons. split; [|done]. cbn in *. naive_solver.
  - split; cbn [fst snd].
    + intros x. rewrite !fmap_app. cbn. autorewrite with pydict. rewrite Hsrc. tauto.
    + intros v. rewrite !fmap_app. cbn. rewrite Hfp. set_solver.
    + rewrite !length_app. cbn. lia.
Qed.

Lemma unique_insert b ns id_key d no s fp :
  unique_inv b ns id_key (d, no) -> good b ns fp -> VStr s ∉ d.*1 -> s <> "" ->
  dget_none id_key fp = VStr s ->
  unique_inv b ns id_key ((d ++ [(VStr s, fp)])%list, no) /\
  unique_gain id_key fp (d, no) ((d ++ [(VStr s, fp)])%list, no).
Proof.
  intros [I1 I2 I3] G Hn Hs Hfp. cbn [fst snd] in *. split.
  - split; cbn [fst snd]; [| |done].
    + rewrite fmap_app. apply NoDup_app. split; [done|]. split; [set_solver | apply NoDup_singleton].
    + rewrite Forall_app, Forall_singleton. cbn. naive_solver.
  - split; cbn [fst snd].
    + intros x. rewrite !fmap_app. cbn. autorewrite with pydict. tauto.
    + intros v. rewrite !fmap_app. cbn. rewrite Hfp, elem_of_app, list_elem_of_singleton.
      split; [|naive_solver]. intros [?| ->]; [by left | right]. split; [|done]. cbn.
      by rewrite bool_decide_eq_false_2.
    + rewrite !length_app. cbn. lia.
Qed.

Lemma unique_other b ns id_key d no fp :
  unique_inv b ns id_key (d, no) -> good b ns fp -> truthy (dget_none id_key fp) = false ->
  unique_inv b ns id_key (d, (no ++ [fp])%list) /\
  unique_gain id_key fp (d, no) (d, (no ++ [fp])%list).
Proof.
  intros [I1 I2 I3] G T. cbn [fst snd] in *. split.
  - split; cbn [fst snd]; [done | done |]. by rewrite Forall_app, Forall_singleton.
  - split; cbn [fst snd].
    + intros x. autorewrite with pydict. tauto.
    + intros v. split; [by left|]. intros [?|[? ->]]; [done | congruence].
    + rewrite !length_app. cbn. lia.
Qed.

Lemma unique_step_spec b ns id_key st fp :
  NoDup ns -> id_key ∈ id_keys -> unique_inv b ns id_key st -> good b ns fp -> str_id id_key fp ->
  exists st', unique_step id_key st fp = Ok st' /\ unique_inv b ns id_key st' /\
    unique_gain id_key fp st st'.
Proof.
  intros Hnd Hid I G Hs. destruct st as [d no]. unfold unique_step.
  destruct (truthy (dget_none id_key fp)) eqn:T.
  2:{ eexists. split; [done|]. by apply unique_other. }
  destruct Hs as [Hs|[s Hs]]; [by rewrite Hs in T|]. rewrite Hs in T |- *.
  cbn in T. apply negb_true_iff, bool_decide_eq_false in T.
  cbn [as_key hashable mbind res_bind].
  destruct (kget (VStr s) d) as [e|] eqn:E.
  - pose proof (ui_keyed _ _ _ _ I) as HI. cbn [fst] in HI.
    destruct (kget_Some _ _ _ e E) as (l1 & k & l2 & Hd & _ & _ & ->%py_eq_str_r).
    rewrite Hd in HI. apply Forall_app in HI as [_ ((Ge & He & _) & _)%Forall_cons].
    cbn [fst snd] in Ge, He. rewrite (good_truthy _ _ _ Ge).
    destruct (merge_spec b ns ns e fp KNone) as (m & -> & Gm & M); try (done || by right).
    cbn [mbind res_bind]. eexists. split; [done|].
    destruct (kget_Some _ _ _ m E) as (l1' & k & l2' & -> & -> & _ & ->%py_eq_str_r).
    apply unique_replace; [done | done | apply M | by apply (merged_id b ns ns e fp) | done].
  - destruct (kget_None _ _ fp E) as (-> & _ & Hf). eexists. split; [done|]. apply unique_insert; try done.
    intros Hin. rewrite Forall_forall in Hf. specialize (Hf _ Hin).
    by rewrite (proj2 (py_eq_str_r _ _) eq_refl) in Hf.
Qed.

(** The result of one pass over the fingerprints. *)
Record dedup_spec (b : bool) (ns : list string) (id_key : string) (fps r : list pydict) : Prop := {
  ds_good : Forall (good b ns) r;
  ds_unique : NoDup (filter (fun v => truthy v = true) (dget_none id_key <$> r));
  ds_ids : forall v, truthy v = true -> v ∈ dget_none id_key <$> r <-> v ∈ dget_none id_key <$> fps;
  ds_sources : forall s, sources_in s r <-> sources_in s fps;
  ds_size : (length r <= length fps)%nat }.

Lemma unique_fold_spec b ns id_key fps st :
  NoDup ns -> id_key ∈ id_keys -> unique_inv b ns id_key st ->
  Forall (fun fp => good b ns fp /\ str_id id_key fp) fps ->
  exists st', foldM (unique_step id_key) st fps = Ok st' /\ unique_inv b ns id_key st' /\
    (forall s, sources_in s (st'.2 ++ st'.1.*2)%list <->
               sources_in s (st.2 ++ st.1.*2)%list \/ sources_in s fps) /\
    (forall v, v ∈ st'.1.*1 <-> v ∈ st.1.*1 \/ (truthy v = true /\ v ∈ dget_none id_key <$> fps)) /\
    (length st'.2 + length st'.1 <= length fps + (length st.2 + length st.1))%nat.
Proof.
  intros Hnd Hid. revert st. induction fps as [|fp fps IH]; intros st I Hfps.
  { exists st. cbn. split; [done|]. split; [done|]. split; [|split; [|lia]].
    - intros s. autorewrite with pydict. tauto.
    - set_solver. }
  apply Forall_cons in Hfps as [[G Hs] Hfps].
  destruct (unique_step_spec b ns id_key st fp) as (st1 & H1 & I1 & [S1 V1 L1]); try done.
  destruct (IH st1 I1 Hfps) as (st' & H2 & I2 & S2 & V2 & L2).
  exists st'. cbn [foldM]. rewrite H1. split; [exact H2|]. split; [done|]. split; [|split].
  - intros s. rewrite S2, S1. autorewrite with pydict. tauto.
  - intros v. rewrite V2, V1. cbn. rewrite elem_of_cons. naive_solver.
  - cbn. lia.
Qed.

Lemma good_str_id b ns k fp : good b ns fp -> k ∈ id_keys -> k <> "mac_addresses" -> str_id k fp.
Proof.
  intros [W _ _] Hk Hn. pose proof (wf_ids _ W k Hk) as H. unfold id_ok in H.
  rewrite bool_decide_eq_false_2 in H by done. unfold str_id.
  destruct (dget_none k fp); try done; [by left | right; by eexists].
Qed.

Lemma good_str_ids b ns k fps :
  Forall (good b ns) fps -> k ∈ id_keys -> k <> "mac_addresses" ->
  Forall (fun fp => good b ns fp /\ str_id k fp) fps.
Proof. intros H Hk Hn. eapply Forall_impl; [exact H|]. intros fp G. eauto using good_str_id. Qed.

Lemma keyed_values b ns id_key d :
  Forall (fun kv => good b ns kv.2 /\ dget_none id_key kv.2 = kv.1 /\
                    exists s, kv.1 = VStr s /\ s <> "") d ->
  dget_none id_key <$> d.*2 = d.*1 /\ Forall (fun v => truthy v = true) d.*1 /\ Forall (good b ns) d.*2.
Proof.
  induction 1 as [|[k v] d (G & Hk & (s & Hs & Hne)) _ (IH1 & IH2 & IH3)]; cbn in *; [by repeat split|].
  rewrite Hk, IH1. split; [done|]. split; constructor; [|done | done | done].
  rewrite Hs. cbn. by rewrite bool_decide_eq_false_2.
Qed.

Lemma filter_none {A} (P : A -> Prop) `{forall x, Decision (P x)} l : Forall (fun x => ~ P x) l -> filter P l = [].
Proof. induction 1; [done|]. by rewrite filter_cons_False. Qed.

Lemma filter_all {A} (P : A -> Prop) `{forall x, Decision (P x)} l : Forall P l -> filter P l = l.
Proof. induction 1; [done|]. rewrite filter_cons_True by done. by f_equal. Qed.

Lemma unique_inv_ids b ns id_key st :
  unique_inv b ns id_key st ->
  filter (fun v => truthy v = true) (dget_none id_key <$> (st.2 ++ st.1.*2)%list) = st.1.*1 /\
  Forall (good b ns) (st.2 ++ st.1.*2)%list.
Proof.
  intros [_ (H1 & H2 & H3)%keyed_values I3]. rewrite fmap_app, H1, filter_app, (filter_all _ st.1.*1) by done.
  rewrite filter_none; [split; [done|]; apply Forall_app; split; [|done]|].
  - eapply Forall_impl; [exact I3|]. by intros ? [? _].
  - apply Forall_fmap. eapply Forall_impl; [exact I3|]. intros fp [_ Hf]. cbn. congruence.
Qed.

Lemma dedup_by_spec b ns id_key fps :
  NoDup ns -> id_key ∈ id_keys -> id_key <> "mac_addresses" -> Forall (good b ns) fps ->
  exists r, dedup_by false fps id_key = Ok r /\ dedup_spec b ns id_key fps r.
Proof.
  intros Hnd Hid Hmac Hg.
  destruct (unique_fold_spec b ns id_key fps ([], [])) as (st & H & I & S1 & V & L);
    [done | done | by repeat constructor | by apply good_str_ids |].
  unfold dedup_by. rewrite H. eexists. split; [done|].
  destruct (unique_inv_ids _ _ _ _ I) as [Hids Hgood].
  split; [done | | | |].
  - rewrite Hids. apply (ui_nodup _ _ _ _ I).
  - intros v Hv. assert (v ∈ dget_none id_key <$> (st.2 ++ st.1.*2)%list <-> v ∈ st.1.*1) as ->.
    { rewrite <- Hids, list_elem_of_filter. tauto. }
    rewrite V. cbn. set_solver.
  - intros s. rewrite S1. cbn. autorewrite with pydict. tauto.
  - cbn in L. rewrite length_app, length_fmap. lia.
Qed.

(** Dropping the identifier afterwards. *)
Lemma good_dpop ns fp : good true ns fp -> good false ns (dpop FINGERPRINT_GLOBAL_ID_KEY fp).
Proof.
  intros [[(m & Hm & Hd & Hc) (es & He) (ps & [Hp Hn]) (ss & Hs) Hi] (ds & [Hds _] & Hns) _].
  assert (product_dicts (dpop FINGERPRINT_GLOBAL_ID_KEY fp) ps) as Pd
    by (split; [by rewrite dget_dpop|done]).
  split; [constructor | | unfold gid_ok; rewrite dget_dpop; by case_decide].
  - exists m. rewrite dget_dpop. split; [done|]. split; [done|].
    intros k. rewrite dkeys_dpop. intros [_ ?]. auto.
  - exists es. by rewrite dget_dpop.
  - by exists ps.
  - exists ss. by rewrite dget_dpop.
  - intros k Hk. unfold dget_none. rewrite dget_dpop. case_decide; [by subst | by apply Hi].
  - exists ds. split; [split; [by rewrite dget_dpop | by eapply names_have_name] | done].
Qed.

Lemma has_source_dpop s fp : has_source s (dpop FINGERPRINT_GLOBAL_ID_KEY fp) <-> has_source s fp.
Proof. unfold has_source. by rewrite dget_dpop. Qed.

Lemma sources_in_dpop s fps :
  sources_in s (dpop FINGERPRINT_GLOBAL_ID_KEY <$> fps) <-> sources_in s fps.
Proof.
  induction fps as [|fp fps IH]; cbn; [done|]. autorewrite with pydict.
  by rewrite IH, has_source_dpop.
Qed.

(** Removing the duplicates that indexing by MAC address made. *)
Lemma remove_by_gid ns fps :
  NoDup ns -> Forall (good true ns) fps ->
  exists r, _remove_duplicate_fingerprints [FINGERPRINT_GLOBAL_ID_KEY] fps true = Ok r /\
    Forall (good false ns) r /\ (forall s, sources_in s r <-> sources_in s fps) /\
    (length r <= length fps)%nat.
Proof.
  intros Hnd Hg. destruct fps as [|fp fps]; [by exists []|].
  destruct (dedup_by_spec true ns FINGERPRINT_GLOBAL_ID_KEY (fp :: fps)) as (r & H & D);
    [done | by_compute | done | done |].
  exists (dpop FINGERPRINT_GLOBAL_ID_KEY <$> r). unfold _remove_duplicate_fingerprints. cbn [foldM].
  unfold dedup_by in *. apply bind_Ok in H as (st & Hst & [= <-]). rewrite Hst. cbn [mbind res_bind].
  split; [done|]. split; [|split].
  - apply Forall_fmap. eapply Forall_impl; [apply D|]. intros ? G. by apply good_dpop.
  - intros s. rewrite sources_in_dpop. apply D.
  - rewrite length_fmap. apply D.
Qed.

(** Removing duplicates by a list of identification keys. *)
Lemma remove_by_keys ns keys fps :
  NoDup ns -> (forall k, k ∈ keys -> k ∈ id_keys /\ k <> "mac_addresses") ->
  Forall (good false ns) fps ->
  exists r, _remove_duplicate_fingerprints keys fps false = Ok r /\
    Forall (good false ns) r /\ (forall s, sources_in s r <-> sources_in s fps) /\
    (length r <= length fps)%nat.
Proof.
  intros Hnd Hk Hg.
  assert (exists r, foldM (dedup_by false) fps keys = Ok r /\
    Forall (good false ns) r /\ (forall s, sources_in s r <-> sources_in s fps) /\
    (length r <= length fps)%nat) as Hr; [|by destruct fps; [exists []|]].
  revert fps Hg. induction keys as [|k keys IH]; intros fps Hg; [by exists fps|].
  destruct (dedup_by_spec false ns k fps) as (r1 & H1 & D1); [done | apply Hk; left.. | done |].
  destruct (IH) with (fps := r1) as (r & H & G & Hs & L); [intros; apply Hk; by right | apply D1 |].
  exists r. cbn [foldM]. rewrite H1. split; [exact H|]. split; [done|]. split.
  - intros s. rewrite Hs. apply D1.
  - pose proof (ds_size _ _ _ _ _ D1). lia.
Qed.

(** ** Indexing and matching *)

Lemma good_gid_set ns fp u : good false ns fp -> good true ns (dset FINGERPRINT_GLOBAL_ID_KEY (VStr u) fp).
Proof.
  intros [[(m & Hm & Hd & Hc) (es & He) (ps & [Hp Hn]) (ss & Hs) Hi] Hps _].
  split; [constructor | | unfold gid_ok; rewrite dget_dset_eq; by eexists].
  - exists m. rewrite dget_dset_ne by done. split; [done|]. split; [done|].
    intros k. rewrite elem_of_dkeys_dset. intros [->|?]; [left; by_compute | auto].
  - exists es. by rewrite dget_dset_ne.
  - exists ps. split; [by rewrite dget_dset_ne | done].
  - exists ss. by rewrite dget_dset_ne.
  - intros k Hk. rewrite dget_none_dset. case_decide; [by subst | by apply Hi].
  - by apply products_of_dset.
Qed.

Lemma has_source_gid s fp v : has_source s (dset FINGERPRINT_GLOBAL_ID_KEY v fp) <-> has_source s fp.
Proof. unfold has_source. by rewrite dget_dset_ne. Qed.

(** The keys a fingerprint is indexed under. *)
Definition keys_of_value (v : pyval) : list pyval :=
  match v with VList l => l | _ => if truthy v then [v] else [] end.

Definition index_keys (id_key : string) (fp : pydict) : list pyval :=
  keys_of_value (dget_none id_key fp).

Lemma index_keys_gid id_key fp v :
  id_key <> FINGERPRINT_GLOBAL_ID_KEY ->
  dget_none id_key (dset FINGERPRINT_GLOBAL_ID_KEY v fp) = dget_none id_key fp.
Proof. intros. rewrite dget_none_dset. by case_decide. Qed.

Lemma index_ok_keys v k :
  index_ok v = true -> k ∈ keys_of_value v -> hashable k = true.
Proof.
  assert (forall b w, k ∈ (if b : bool then [w] else []) -> k = w) as Hs.
  { intros [] w; [by intros ->%list_elem_of_singleton | by intros ?%elem_of_nil]. }
  destruct v; try (intros Hv Hk; apply Hs in Hk as ->; exact Hv).
  cbn. rewrite forallb_forall. intros H Hk. by apply H, list_elem_of_In.
Qed.

Lemma good_index_ok b ns id_key fp :
  good b ns fp -> id_key ∈ id_keys -> index_ok (dget_none id_key fp) = true.
Proof.
  intros [W _ _] Hid. pose proof (wf_ids _ W id_key Hid) as H. unfold id_ok in H.
  case_bool_decide; [done|]. by destruct (dget_none id_key fp).
Qed.

Lemma good_keys_hashable b ns id_key fp k :
  good b ns fp -> id_key ∈ id_keys -> k ∈ index_keys id_key fp -> hashable k = true.
Proof. intros G Hid. apply index_ok_keys. by eapply good_index_ok. Qed.

Lemma index_under_eq fp d k :
  hashable k = true ->
  index_under fp d k = Ok (match kget k d with None => (d ++ [(k, fp)])%list | Some _ => d end).
Proof.
  intros H. unfold index_under, as_key. rewrite H. cbn [mbind res_bind].
  destruct (kget k d) eqn:E; [done|]. by rewrite (proj1 (kget_None _ _ fp E)).
Qed.

(** What indexing one fingerprint adds to the index: entries for itself, under
    its keys that are not taken. *)
Lemma index_under_fold fp ks d :
  (forall k, k ∈ ks -> hashable k = true) ->
  exists new, foldM (index_under fp) d ks = Ok (d ++ new)%list /\
    Forall (fun kv => kv.1 ∈ ks /\ kv.2 = fp) new /\
    (forall k, head ks = Some k -> kget k d = None -> new <> []).
Proof.
  revert d. induction ks as [|k ks IH]; intros d Hh.
  { exists []. cbn. by rewrite app_nil_r. }
  cbn [foldM]. rewrite index_under_eq by (apply Hh; left). cbn [mbind res_bind].
  destruct (IH (match kget k d with None => (d ++ [(k, fp)])%list | Some _ => d end))
    as (new & -> & Hn & _); [intros; apply Hh; by right|].
  destruct (kget k d) eqn:E.
  - exists new. split; [done|]. split.
    + eapply Forall_impl; [exact Hn|]. intros kv [? ?]. split; [by right | done].
    + intros k' [= <-]. congruence.
  - exists ((k, fp) :: new). split; [by rewrite <- app_assoc|]. split; [|done].
    constructor; [split; [left | done]|].
    eapply Forall_impl; [exact Hn|]. intros kv [? ?]. split; [by right | done].
Qed.

(** The index keeps good fingerprints, and only sources that came in. *)
Record index_inv (ns : list string) (st : nat * list (pyval * pydict) * list pydict) : Prop := {
  ii_keyed : Forall (good true ns) st.1.2.*2;
  ii_other : Forall (good true ns) st.2 }.

Definition index_sources (s : string) (st : nat * list (pyval * pydict) * list pydict) : Prop :=
  sources_in s (st.2 ++ st.1.2.*2)%list.

(** No two fingerprints share a key. *)
Definition disjoint_keys (id_key : string) (fps : list pydict) : Prop :=
  ForallOrdPairs (fun a b => forall k k', k ∈ index_keys id_key a -> k' ∈ index_keys id_key b ->
                                          py_eq k k' = false) fps.

Section indexing.
Context (uuid : nat -> string) (ns : list string) (id_key : string).
Hypothesis id_key_ok : id_key ∈ id_keys /\ id_key <> FINGERPRINT_GLOBAL_ID_KEY.

Lemma index_value_keys (fp : pydict) d v :
  truthy v = true ->
  match v with VList l => foldM (index_under fp) d l | _ => index_under fp d v end =
  foldM (index_under fp) d (keys_of_value v) /\ keys_of_value v <> [].
Proof.
  intros Hv. unfold keys_of_value.
  destruct v; rewrite ?Hv; (split; [|by destruct l || done]); cbn [foldM];
    try (by destruct (index_under fp d _)); done.
Qed.

(** One step: the new entries are the fingerprint itself with an identifier. *)
Lemma index_step_spec n d nf fp :
  good false ns fp ->
  let fp' := dset FINGERPRINT_GLOBAL_ID_KEY (VStr (uuid n)) fp in
  exists new other, index_step uuid id_key (n, d, nf) fp = Ok (S n, (d ++ new)%list, (nf ++ other)%list) /\
    Forall (fun kv => kv.1 ∈ index_keys id_key fp /\ kv.2 = fp') new /\ Forall (fun x => x = fp') other /\
    ((forall k, k ∈ index_keys id_key fp -> kget k d = None) -> new <> [] \/ other <> []).
Proof.
  intros G fp'. destruct id_key_ok as [Hid Hne].
  unfold index_step. fold fp'. rewrite (index_keys_gid id_key fp _ Hne : dget_none id_key fp' = _).
  destruct (truthy (dget_none id_key fp)) eqn:T.
  - destruct (index_value_keys fp' d _ T) as [-> Hks].
    destruct (index_under_fold fp' (keys_of_value (dget_none id_key fp)) d) as (new & -> & Hn & Hh).
    { intros k Hk. by eapply good_keys_hashable. }
    exists new, []. cbn [mbind res_bind]. rewrite app_nil_r. split; [done|]. split; [done|]. split; [done|].
    intros Hfree. left. destruct (keys_of_value (dget_none id_key fp)) as [|k ks] eqn:E; [done|].
    apply (Hh k); [done|]. apply Hfree. unfold index_keys. rewrite E. left.
  - exists [], [fp']. rewrite app_nil_r. split; [done|]. split; [done|]. split; [by constructor|]. by right.
Qed.

Lemma kget_app_None {A} k (d new : list (pyval * A)) :
  kget k d = None -> Forall (fun kv => py_eq kv.1 k = false) new -> kget k (d ++ new)%list = None.
Proof.
  intros Hd Hn. induction d as [|[k' a] d IH]; cbn in *.
  - induction Hn as [|[k' a] new Hk _ IH]; cbn in *; [done|]. by rewrite Hk.
  - destruct (py_eq k' k); [done|]. by apply IH.
Qed.

Lemma sources_in_const s (fp : pydict) l : Forall (fun x => x = fp) l -> l <> [] ->
  sources_in s l <-> has_source s fp.
Proof.
  intros H Hne. destruct H as [|x l -> Hl]; [done|]. autorewrite with pydict. split; [|by left].
  intros [?|Hs]; [done|]. unfold sources_in in Hs. apply Exists_exists in Hs as (y & Hy & Hs).
  rewrite Forall_forall in Hl. by rewrite <- (Hl y Hy).
Qed.

(** The sources after one step. *)
Lemma index_step_sources s d nf (fp : pydict) fp' (new : list (pyval * pydict)) other :
  Forall (fun kv => kv.1 ∈ index_keys id_key fp /\ kv.2 = fp') new -> Forall (fun x => x = fp') other ->
  (has_source s fp' <-> has_source s fp) ->
  (sources_in s ((nf ++ other) ++ (d ++ new).*2)%list ->
     sources_in s (nf ++ d.*2)%list \/ has_source s fp) /\
  (new <> [] \/ other <> [] -> sources_in s (nf ++ d.*2)%list \/ has_source s fp ->
     sources_in s ((nf ++ other) ++ (d ++ new).*2)%list).
Proof.
  intros Hn Ho Hs. rewrite fmap_app. autorewrite with pydict. rewrite <- Hs.
  assert (Forall (fun x => x = fp') new.*2) as Hn2.
  { apply Forall_fmap. eapply Forall_impl; [exact Hn|]. by intros ? [_ ?]. }
  assert (forall l, Forall (fun x => x = fp') l -> sources_in s l -> has_source s fp') as H1.
  { intros l Hl. destruct l; [by rewrite sources_in_nil|]. by rewrite sources_in_const. }
  split; [pose proof (H1 _ Hn2); pose proof (H1 _ Ho); tauto|].
  intros [Hne|Hne].
  - assert (sources_in s new.*2 <-> has_source s fp') by (apply sources_in_const; [done | by destruct new]).
    tauto.
  - assert (sources_in s other <-> has_source s fp') by (by apply sources_in_const). tauto.
Qed.

Lemma index_fold_spec fps n d nf :
  Forall (good false ns) fps -> index_inv ns (n, d, nf) ->
  exists st, foldM (index_step uuid id_key) (n, d, nf) fps = Ok st /\ index_inv ns st /\
    (forall s, index_sources s st -> index_sources s (n, d, nf) \/ sources_in s fps) /\
    (disjoint_keys id_key fps ->
     (forall fp k, fp ∈ fps -> k ∈ index_keys id_key fp -> kget k d = None) ->
     forall s, index_sources s (n, d, nf) \/ sources_in s fps -> index_sources s st).
Proof.
  revert n d nf. induction fps as [|fp fps IH]; intros n d nf Hg [I1 I2].
  { eexists. split; [done|]. split; [done|]. split; [by left|].
    intros _ _ s [?|?%sources_in_nil]; done. }
  apply Forall_cons in Hg as [G Hg].
  destruct (index_step_spec n d nf fp G) as (new & other & H1 & Hn & Ho & Hfree).
  set (fp' := dset FINGERPRINT_GLOBAL_ID_KEY (VStr (uuid n)) fp) in *.
  assert (G' : good true ns fp') by (by apply good_gid_set).
  assert (Hss := fun s => index_step_sources s d nf fp fp' new other Hn Ho (has_source_gid s fp _)).
  cbn [fst snd] in I1, I2.
  destruct (IH (S n) (d ++ new)%list (nf ++ other)%list) as (st & H2 & I & S1 & S2); [done | |].
  { split; cbn [fst snd].
    - rewrite fmap_app. apply Forall_app. split; [done|]. apply Forall_fmap.
      eapply Forall_impl; [exact Hn|]. intros kv [_ E]. cbn. by rewrite E.
    - apply Forall_app. split; [done|]. eapply Forall_impl; [exact Ho|]. by intros ? ->. }
  exists st. cbn [foldM]. rewrite H1. split; [exact H2|]. split; [done|]. split.
  - intros s Hs. autorewrite with pydict. destruct (S1 s Hs) as [Hs'|?]; [|tauto].
    apply (proj1 (Hss s)) in Hs'. unfold index_sources. cbn [fst snd]. tauto.
  - intros Hdis Hnone s Hs. inversion Hdis as [|? ? Hd1 Hd2]; subst. apply S2; [done | |].
    + intros fq k Hq Hk. apply kget_app_None; [apply (Hnone fq); [by right | done]|].
      eapply Forall_impl; [exact Hn|]. intros kv [Hkv _]. rewrite Forall_forall in Hd1. by eapply Hd1.
    + assert (new <> [] \/ other <> []) as Hne by (apply Hfree; intros k Hk; eapply Hnone; [left | done]).
      pose proof (proj2 (Hss s) Hne) as Hs2. autorewrite with pydict in Hs.
      unfold index_sources in *. cbn [fst snd] in *. tauto.
Qed.
End indexing.

Section matching.
Context (uuid : nat -> string) (ns ns' : list string) (reverse : key_collection).
Hypothesis ns_nodup : NoDup ns.
Hypothesis ns_cases : ns' = [] \/ ns' = ns.
Hypothesis reverse_ok : forall ks, reverse <> KSet ks.

Definition match_good (st : list (pyval * pydict) * list pydict * list pydict) : Prop :=
  Forall (good true ns) st.1.1.*2 /\ Forall (good true ns) st.1.2 /\ Forall (good true ns') st.2.

Definition match_sources (s : string) (st : list (pyval * pydict) * list pydict * list pydict) : Prop :=
  sources_in s (st.1.1.*2 ++ st.1.2 ++ st.2)%list.

(** One candidate is merged into a base or kept aside; nothing is lost. *)
Lemma match_step_spec st kv :
  match_good st -> good true ns' kv.2 ->
  exists st', match_step reverse st kv = Ok st' /\ match_good st' /\
    (forall s, match_sources s st' <-> match_sources s st \/ has_source s kv.2).
Proof.
  destruct st as [[bd ma] un]. intros (Gb & Gm & Gu) Gk. unfold match_step. cbn [fst snd] in *.
  destruct (kget kv.1 bd) as [b|] eqn:E.
  - destruct (kget_Some _ _ _ b E) as (l1 & k & l2 & -> & _ & -> & _).
    rewrite fmap_app in Gb. apply Forall_app in Gb as [Gb1 (Gb2 & Gb3)%Forall_cons]. cbn [fst snd] in Gb2.
    rewrite (good_truthy _ _ _ Gb2).
    destruct (merge_spec true ns ns' b kv.2 reverse) as (m & -> & G & M); try done.
    cbn [mbind res_bind]. eexists. split; [done|]. split; [split; [|split]|]; cbn [fst snd].
    + rewrite fmap_app. by apply Forall_app.
    + by rewrite Forall_app, Forall_singleton.
    + done.
    + intros s. unfold match_sources. cbn [fst snd]. rewrite !fmap_app. cbn [fmap list_fmap snd].
      autorewrite with pydict. rewrite (mf_srcs _ _ _ M). tauto.
  - destruct (kget_None _ _ [] E) as (_ & -> & _). cbn [truthy_fp].
    eexists. split; [done|]. split; [split; [done|split; [done|]]|]; cbn [fst snd].
    + by rewrite Forall_app, Forall_singleton.
    + intros s. unfold match_sources. cbn [fst snd]. autorewrite with pydict. tauto.
Qed.

Lemma match_fold_spec cands st :
  match_good st -> Forall (good true ns') cands.*2 ->
  exists st', foldM (match_step reverse) st cands = Ok st' /\ match_good st' /\
    (forall s, match_sources s st' <-> match_sources s st \/ sources_in s cands.*2).
Proof.
  revert st. induction cands as [|kv cands IH]; intros st Hst Hc.
  { exists st. split; [done|]. split; [done|]. intros s. cbn. autorewrite with pydict. tauto. }
  cbn in Hc. apply Forall_cons in Hc as [Gk Hc].
  destruct (match_step_spec st kv Hst Gk) as (st1 & H1 & G1 & S1).
  destruct (IH st1 G1 Hc) as (st' & H2 & G2 & S2).
  exists st'. cbn [foldM]. rewrite H1. split; [exact H2|]. split; [done|].
  intros s. rewrite S2, S1. cbn [fmap list_fmap]. autorewrite with pydict. tauto.
Qed.

Definition index_key_ok (k : string) : Prop := k ∈ id_keys /\ k <> FINGERPRINT_GLOBAL_ID_KEY.

(** Merging on one pair of keys. *)
Lemma merge_matching_spec n bk bases ck cands :
  index_key_ok bk -> index_key_ok ck ->
  Forall (good false ns) bases -> Forall (good false ns') cands ->
  exists n' merged bases' cands',
    _merge_matching_fingerprints uuid n bk bases ck cands reverse = Ok (n', merged, bases', cands') /\
    Forall (good false ns) bases' /\ Forall (good false ns') cands' /\
    (forall s, sources_in s (bases' ++ cands')%list -> sources_in s (bases ++ cands)%list) /\
    (disjoint_keys bk bases -> disjoint_keys ck cands ->
     forall s, sources_in s (bases ++ cands)%list -> sources_in s (bases' ++ cands')%list).
Proof.
  intros Hbk Hck Hb Hc. unfold _merge_matching_fingerprints, _create_index_for_fingerprints.
  destruct (index_fold_spec uuid ns bk Hbk bases n [] []) as (st1 & -> & I1 & S1 & T1);
    [done | by split; constructor |].
  destruct st1 as [[n1 bd] bno]. cbn [mbind res_bind].
  destruct (index_fold_spec uuid ns' ck Hck cands n1 [] []) as (st2 & -> & I2 & S2 & T2);
    [done | by split; constructor |].
  destruct st2 as [[n2 cd] cno]. cbn [mbind res_bind].
  destruct I1 as [Ib Ibn], I2 as [Ic Icn]. cbn [fst snd] in *.
  destruct (match_fold_spec cd (bd, [], [])) as (st3 & -> & (Gb & Gm & Gu) & S3);
    [by repeat constructor | done |].
  destruct st3 as [[bd' ma] un]. cbn [mbind res_bind fst snd] in *.
  assert (NoDup ns') as Hnd' by (destruct ns_cases as [->| ->]; [constructor | done]).
  destruct (remove_by_gid ns (bno ++ ma ++ bd'.*2)%list) as (r1 & -> & G1 & R1 & _);
    [done | by rewrite !Forall_app |].
  destruct (remove_by_gid ns' (cno ++ un)%list) as (r2 & -> & G2 & R2 & _);
    [done | by rewrite Forall_app |].
  cbn [mbind res_bind]. do 4 eexists. split; [done|]. split; [done|]. split; [done|].
  unfold match_sources, index_sources in *. cbn [fst snd fmap list_fmap] in *. split.
  - intros s. specialize (S1 s). specialize (S2 s). specialize (S3 s).
    rewrite !sources_in_app, R1, R2. autorewrite with pydict in S1, S2, S3 |- *.
    clear -S1 S2 S3.
    intros [[?|[?|?]]|[?|?]]; destruct S3 as [S3 _]; naive_solver.
  - intros Db Dc s. specialize (T1 Db ltac:(done) s). specialize (T2 Dc ltac:(done) s).
    specialize (S3 s). rewrite !sources_in_app, R1, R2. autorewrite with pydict in T1, T2, S3 |- *.
    clear -T1 T2 S3. destruct S3 as [_ S3].
    intros [H|H]; [destruct T1 as [?|?] | destruct T2 as [?|?]]; naive_solver.
Qed.

(** All the pairs of keys, and the candidates that matched nothing added: no
    exception, well-formed results, no source made up. *)
Lemma merge_types_spec n keys bases cands :
  Forall (fun k => index_key_ok k.1 /\ index_key_ok k.2) keys ->
  Forall (good false ns) bases -> Forall (good false ns') cands ->
  exists n' merged r,
    _merge_fingerprints_from_source_types uuid n keys bases cands reverse = Ok (n', merged, r) /\
    Forall (fun fp => good false ns fp \/ good false ns' fp) r /\
    (forall s, sources_in s r -> sources_in s (bases ++ cands)%list).
Proof.
  intros Hk Hb Hc.
  assert (forall l, Forall (good false ns) l -> Forall (fun fp => good false ns fp \/ good false ns' fp) l) as HL
    by (intros l Hl; eapply Forall_impl; [exact Hl | by left]).
  assert (forall l, Forall (good false ns') l -> Forall (fun fp => good false ns fp \/ good false ns' fp) l) as HR
    by (intros l Hl; eapply Forall_impl; [exact Hl | by right]).
  unfold _merge_fingerprints_from_source_types.
  assert (forall m, exists n' merged bases' cands',
    foldM (merge_keys_step uuid reverse) (n, m, bases, cands) keys = Ok (n', merged, bases', cands') /\
    Forall (good false ns) bases' /\ Forall (good false ns') cands' /\
    (forall s, sources_in s (bases' ++ cands')%list -> sources_in s (bases ++ cands)%list)) as Hfold.
  { clear HL HR. revert n bases cands Hb Hc.
    induction Hk as [|[bk ck] keys [K1 K2] _ IH]; intros n bases cands Hb Hc m; [by eauto 8|].
    destruct (merge_matching_spec n bk bases ck cands K1 K2 Hb Hc)
      as (n1 & m1 & b1 & c1 & H1 & Gb & Gc & S1 & _).
    destruct (IH n1 b1 c1 Gb Gc (m + m1)%nat) as (n' & m' & b' & c' & H2 & Gb' & Gc' & S2).
    exists n', m', b', c'. cbn [foldM]. unfold merge_keys_step at 2. cbn [fst snd]. rewrite H1.
    cbn [mbind res_bind]. eauto 8. }
  destruct cands as [|c0 cands]; [|destruct bases as [|b0 bases]].
  - exists n, 0%nat, bases. rewrite app_nil_r. auto.
  - exists n, 0%nat, (c0 :: cands). auto.
  - destruct (Hfold 0%nat) as (n' & m' & b' & c' & -> & Gb & Gc & S1). cbn [mbind res_bind].
    exists n', m', (b' ++ c')%list. split; [done|]. split; [apply Forall_app; auto | done].
Qed.
End matching.

(** ** The pipeline *)

(** The collected fingerprints of every source type, as [_process_source]
    makes them. *)
Definition map_good (m : list (string * list pydict)) : Prop :=
  dkeys m = DataSources /\ forall t, Forall (good false (type_products (VStr t))) (fps_of t m).

Lemma product_names_nodup : NoDup product_names.
Proof. by_compute. Qed.

Definition all_fps (m : list (string * list pydict)) : list pydict :=
  (fps_of "network" m ++ fps_of "satellite" m ++ fps_of "vcenter" m ++
   fps_of "openshift" m ++ fps_of "ansible" m ++ fps_of "rhacs" m)%list.

Ltac keys_tac := apply Forall_forall; by_compute.

Lemma network_keys_ok :
  (forall k, k ∈ NETWORK_IDENTIFICATION_KEYS -> k ∈ id_keys /\ k <> "mac_addresses") /\
  (forall k, k ∈ SATELLITE_IDENTIFICATION_KEYS -> k ∈ id_keys /\ k <> "mac_addresses") /\
  (forall k, k ∈ VCENTER_IDENTIFICATION_KEYS -> k ∈ id_keys /\ k <> "mac_addresses").
Proof. split; [|split]; keys_tac. Qed.

Lemma merge_keys_ok :
  Forall (fun k => index_key_ok k.1 /\ index_key_ok k.2) NETWORK_SATELLITE_MERGE_KEYS /\
  Forall (fun k => index_key_ok k.1 /\ index_key_ok k.2) NETWORK_VCENTER_MERGE_KEYS.
Proof. unfold index_key_ok. split; by_compute. Qed.

(** De-duplication and merge of collected fingerprints never raise; the
    results are well formed, and their sources are sources that came in. *)
Lemma combine_spec uuid m :
  map_good m ->
  exists r, combine uuid m = Ok r /\ Forall wf_fp r /\
    (forall s, sources_in s r -> sources_in s (all_fps m)).
Proof.
  intros [_ Hm]. destruct network_keys_ok as (KN & KS & KV), merge_keys_ok as [MS MV].
  assert (ND := product_names_nodup).
  destruct (remove_by_keys product_names _ (fps_of "network" m) ND KN (Hm "network"))
    as (net & Hnet & Gnet & Snet & _).
  destruct (remove_by_keys product_names _ (fps_of "satellite" m) ND KS (Hm "satellite"))
    as (sat & Hsat & Gsat & Ssat & _).
  destruct (remove_by_keys [] _ (fps_of "vcenter" m) (NoDup_nil_2) KV (Hm "vcenter"))
    as (vc & Hvc & Gvc & Svc & _).
  destruct (merge_types_spec uuid product_names product_names KNone ND (or_intror eq_refl)
              ltac:(done) 0 _ net sat MS Gnet Gsat) as (n1 & c1 & r1 & H1 & G1 & S1).
  assert (Forall (good false product_names) r1) as G1'
    by (eapply Forall_impl; [exact G1|]; intros ? [?|?]; done).
  destruct (merge_types_spec uuid product_names [] (KTuple ["cpu_count"; "infrastructure_type"]) ND
              (or_introl eq_refl) ltac:(done) n1 _ r1 vc MV G1' Gvc) as (n2 & c2 & r2 & H2 & G2 & S2).
  assert (forall t l, Forall (good false t) l -> Forall wf_fp l) as Hw
    by (intros t l Hl; eapply Forall_impl; [exact Hl | intros ? G; apply G]).
  exists (r2 ++ fps_of "openshift" m ++ fps_of "ansible" m ++ fps_of "rhacs" m)%list.
  split; [|split].
  - unfold combine. rewrite Hnet. cbn [mbind res_bind]. rewrite Hsat. cbn [mbind res_bind].
    rewrite Hvc. cbn [mbind res_bind]. rewrite H1. cbn [mbind res_bind]. by rewrite H2.
  - rewrite !Forall_app. split; [|split; [|split]]; [|by eapply Hw..].
    eapply Forall_impl; [exact G2|]. intros ? [G|G]; apply G.
  - intros s. specialize (Snet s). specialize (Ssat s). specialize (Svc s).
    specialize (S1 s). specialize (S2 s). unfold all_fps.
    autorewrite with pydict in S1, S2 |- *. clear - Snet Ssat Svc S1 S2. naive_solver.
Qed.

(** A source of a known type: its facts are dicts, whose MAC addresses are a list or
    can be a key themselves. *)
Definition source_shaped (source : pydict) : Prop :=
  exists t l, dget_none "source_type" source = VStr t /\ t ∈ DataSources /\
    dget "facts" source = Some (VList (VDict <$> l)) /\ Forall raw_macs_ok l.

(** A source of a known type whose facts could be processed. *)
Definition source_ready (source : pydict) : Prop :=
  exists t l fps, dget_none "source_type" source = VStr t /\ t ∈ DataSources /\
    dget "facts" source = Some (VList (VDict <$> l)) /\ Forall raw_macs_ok l /\
    mapM (process_one_fact source) (VDict <$> l) = Ok fps.

Definition facts_of (source : pydict) : list pyval :=
  match dget "facts" source with Some (VList l) => l | _ => [] end.

(** What each fact of a source gives: a fingerprint, none, or an exception. *)
Definition outcomes (source : pydict) : Res (list (option pydict)) :=
  mapM (process_one_fact source) (facts_of source).

Definition made (fpss : list (list (option pydict))) : list pydict := omap id (concat fpss).

Definition fact_outcomes (sources : list pydict) : Res (list (list (option pydict))) := mapM outcomes sources.

Lemma process_source_good source t l fps :
  dget_none "source_type" source = VStr t -> dget "facts" source = Some (VList (VDict <$> l)) ->
  Forall raw_macs_ok l -> mapM (process_one_fact source) (VDict <$> l) = Ok fps ->
  _process_source source = Ok (omap id fps) /\ Forall (good false (type_products (VStr t))) (omap id fps).
Proof.
  intros Ht Hl Hmac Hfps. unfold _process_source, dget_exn. rewrite Hl. cbn [from_option mbind res_bind py_iter].
  rewrite Hfps. split; [done|]. apply mapM_Ok in Hfps. clear Hl.
  revert fps Hfps. induction Hmac as [|f l Hf _ IH]; intros fps Hfps.
  { apply Forall2_nil_inv_l in Hfps as ->. constructor. }
  apply Forall2_cons_inv_l in Hfps as (o & os & Ho & Hos & ->). cbn.
  destruct o as [fp|]; cbn; [|by apply IH]. constructor; [|by apply IH].
  destruct (process_one_fact_wf _ _ _ Hf Ho) as (W & P & Gn). rewrite Ht in P. by split.
Qed.

Lemma fps_of_dset t t' fps m :
  fps_of t (dset t' fps m) = if decide (t = t') then fps else fps_of t m.
Proof. unfold fps_of. rewrite dget_dset. by case_decide. Qed.

(** Collecting a source fails as its first fact that fails, and gathers the
    fingerprints of its facts otherwise. *)
Lemma collect_step_spec m source :
  map_good m -> source_shaped source ->
  match outcomes source with
  | Err e => collect_step m source = Err e
  | Ok fps => exists m', collect_step m source = Ok m' /\ map_good m' /\
      forall t fp, fp ∈ fps_of t m' -> fp ∈ fps_of t m \/ fp ∈ omap id fps
  end.
Proof.
  intros [Hk Hg] (t & l & Ht & Hin & Hl & Hmac). unfold outcomes, facts_of. rewrite Hl.
  destruct (mapM (process_one_fact source) (VDict <$> l)) as [fps|e] eqn:Hfps.
  2:{ unfold collect_step, _process_source, dget_exn. rewrite Hl. cbn [from_option mbind res_bind py_iter].
      by rewrite Hfps. }
  destruct (process_source_good source t l fps) as [H G]; try done.
  unfold collect_step. rewrite H. cbn [mbind res_bind]. rewrite Ht.
  unfold extend_map, as_key, dget_exn. cbn [hashable mbind res_bind].
  rewrite <- Hk in Hin. apply dget_keys in Hin as [old Hold]. rewrite Hold. cbn [from_option mbind res_bind].
  eexists. split; [done|]. split; [split|].
  - rewrite dkeys_dset, decide_True; [done|]. apply dget_keys. by eexists.
  - intros t'. rewrite fps_of_dset. case_decide; [|done]. subst. apply Forall_app. split; [|done].
    specialize (Hg t). unfold fps_of in Hg. by rewrite Hold in Hg.
  - intros t' fp. rewrite fps_of_dset. case_decide; [subst | by left]. rewrite elem_of_app.
    unfold fps_of. by rewrite Hold.
Qed.

Lemma collected_spec sources m :
  map_good m -> Forall source_shaped sources ->
  match fact_outcomes sources with
  | Err e => foldM collect_step m sources = Err e
  | Ok fpss => exists m', foldM collect_step m sources = Ok m' /\ map_good m' /\
      forall t fp, fp ∈ fps_of t m' -> fp ∈ fps_of t m \/ fp ∈ made fpss
  end.
Proof.
  intros G Hs. unfold fact_outcomes. revert m G. induction Hs as [|source sources Hs _ IH]; intros m G.
  { exists m. split; [done|]. split; [done|]. by left. }
  pose proof (collect_step_spec m source G Hs) as H. cbn [mapM foldM].
  destruct (outcomes source) as [fps|e]; [|by rewrite H].
  destruct H as (m1 & -> & G1 & E1). cbn [mbind res_bind]. specialize (IH m1 G1).
  destruct (mapM outcomes sources) as [fpss|e]; [|done]. cbn [mbind res_bind].
  destruct IH as (m2 & -> & G2 & E2). exists m2. split; [done|]. split; [done|].
  intros t fp [[H|H]%E1|H]%E2; unfold made; cbn; rewrite ?omap_app, ?elem_of_app; auto.
Qed.

Lemma no_fps t : fps_of t ((fun t => (t, [])) <$> DataSources) = [].
Proof. unfold fps_of. cbn. by repeat case_bool_decide. Qed.

Lemma source_ready_shaped sources : Forall source_ready sources ->
  Forall source_shaped sources /\ exists fpss, fact_outcomes sources = Ok fpss.
Proof.
  induction 1 as [|source sources (t & l & fps & Ht & Hin & Hl & Hmac & Hfps) _ (IH & fpss & E)].
  - split; [constructor | by exists []].
  - split; [constructor; [by exists t, l | done]|]. exists (fps :: fpss).
    unfold fact_outcomes in *. cbn [mapM].
    assert (outcomes source = Ok fps) as -> by (unfold outcomes, facts_of; by rewrite Hl).
    cbn [mbind res_bind]. by rewrite E.
Qed.

Lemma map_good_empty : map_good ((fun t => (t, [])) <$> DataSources).
Proof. split; [done|]. intros t. rewrite no_fps. constructor. Qed.

Lemma collect_sources_good sources :
  Forall source_ready sources -> exists m, collect_sources sources = Ok m /\ map_good m.
Proof.
  intros [Hs [fpss E]]%source_ready_shaped. pose proof (collected_spec sources _ map_good_empty Hs) as H.
  rewrite E in H. destruct H as (m & H & G & _). by exists m.
Qed.

(** ** The creation date *)

(** The last raw date of the list that the fingerprint has: the most accurate
    one. *)
Fixpoint last_date (fp : pydict) (dks : list (string * list string)) : option (string * list string) :=
  match dks with
  | [] => None
  | dk :: dks =>
      match last_date fp dks with
      | Some x => Some x
      | None => if is_none (dget_none dk.1 fp) then None else Some dk
      end
  end.

(** A raw date is missing, or a string with its metadata. *)
Definition date_ready (fp m : pydict) (dk : string * list string) : Prop :=
  dget_none dk.1 fp = VNone \/
  exists s e, dget dk.1 fp = Some (VStr s) /\ dget dk.1 m = Some (VDict e) /\ e <> [] /\
    is_Some (dget "source_type" e) /\ is_Some (dget "source_name" e) /\
    Forall (fun p => is_Some (parse_format p)) dk.2.

Lemma try_patterns_total s ps :
  Forall (fun p => is_Some (parse_format p)) ps -> is_Ok (try_patterns s ps).
Proof.
  induction 1 as [|p ps [f Hf] _ IH]; cbn; [by eexists|]. unfold strptime. rewrite Hf.
  cbn [from_option mbind res_bind]. repeat case_match; try done; by eexists.
Qed.

Lemma dateparse_total e s ps :
  is_Some (dget "source_type" e) -> is_Some (dget "source_name" e) ->
  Forall (fun p => is_Some (parse_format p)) ps ->
  exists v, _multi_format_dateparse (VDict e) (VStr s) ps = Ok v.
Proof.
  intros [a Ha] [b Hb] Hps. unfold _multi_format_dateparse. destruct (truthy (VStr s)); [|by eexists].
  cbn [as_str mbind res_bind]. destruct (try_patterns_total (strip_suffix s " UTC") ps Hps) as [o ->].
  cbn [mbind res_bind]. destruct o; [by eexists|]. cbn. unfold dget_exn. rewrite Ha, Hb. by eexists.
Qed.

Lemma date_step_ready fp m created md dk :
  dget META_DATA_KEY fp = Some (VDict m) -> dk.1 <> META_DATA_KEY -> date_ready fp m dk ->
  exists c d,
    date_step (fp, created, md) dk =
      Ok (dset META_DATA_KEY (VDict (dpop dk.1 m)) (dpop dk.1 fp), c, d) /\
    if is_none (dget_none dk.1 fp) then c = created /\ d = md
    else d = dget_none dk.1 m /\ _multi_format_dateparse d (dget_none dk.1 fp) dk.2 = Ok c.
Proof.
  intros Hm Hne Hr. unfold date_step, dget_exn. rewrite dget_dpop, decide_False by done.
  rewrite Hm. cbn [from_option mbind res_bind as_dict].
  destruct Hr as [->|(s & e & Hs & He & _ & H1 & H2 & H3)]; [by exists created, md|].
  unfold dget_none. rewrite Hs, He. cbn [default id is_none].
  destruct (dateparse_total e s dk.2 H1 H2 H3) as [v Hv]. rewrite Hv. eauto.
Qed.

Lemma date_ready_step fp m k dk :
  dk.1 <> k -> dk.1 <> META_DATA_KEY -> date_ready fp m dk ->
  date_ready (dset META_DATA_KEY (VDict (dpop k m)) (dpop k fp)) (dpop k m) dk /\
  dget_none dk.1 (dset META_DATA_KEY (VDict (dpop k m)) (dpop k fp)) = dget_none dk.1 fp.
Proof.
  intros H1 H2 H. assert (forall d : pydict, dget dk.1 (dpop k d) = dget dk.1 d) as Hp
    by (intros d; rewrite dget_dpop; by case_decide).
  unfold date_ready, dget_none in *. by rewrite dget_dset_ne, !Hp.
Qed.

Lemma last_date_ext fp fp' dks :
  (forall dk, dk ∈ dks -> dget_none dk.1 fp' = dget_none dk.1 fp) -> last_date fp' dks = last_date fp dks.
Proof.
  induction dks as [|dk dks IH]; intros H; cbn; [done|].
  rewrite IH by (intros; apply H; by right). by rewrite H by left.
Qed.

Lemma last_date_in fp dks dk : last_date fp dks = Some dk -> dk ∈ dks.
Proof.
  induction dks as [|dk' dks IH]; cbn; [done|]. destruct (last_date fp dks).
  - intros [= ->]. right. auto.
  - destruct (is_none _); [done|]. intros [= ->]. left.
Qed.

Lemma last_date_some fp dks dk : last_date fp dks = Some dk -> is_none (dget_none dk.1 fp) = false.
Proof.
  induction dks as [|dk' dks IH]; cbn; [done|]. destruct (last_date fp dks); [by intros [= ->]; auto|].
  destruct (is_none (dget_none dk'.1 fp)) eqn:E; [done|]. by intros [= <-].
Qed.

(** The loop over the raw dates removes them all and ends with the date and
    the metadata of the last one present. *)
Lemma dates_fold dks fp m created md :
  dget META_DATA_KEY fp = Some (VDict m) -> META_DATA_KEY ∉ dks.*1 -> NoDup dks.*1 ->
  Forall (date_ready fp m) dks ->
  exists fp' m' created' md', foldM date_step (fp, created, md) dks = Ok (fp', created', md') /\
    dget META_DATA_KEY fp' = Some (VDict m') /\
    (forall k, k <> META_DATA_KEY -> dget k fp' = if decide (k ∈ dks.*1) then None else dget k fp) /\
    match last_date fp dks with
    | None => created' = created /\ md' = md
    | Some dk => md' = dget_none dk.1 m /\
                 _multi_format_dateparse md' (dget_none dk.1 fp) dk.2 = Ok created'
    end.
Proof.
  revert fp m created md. induction dks as [|dk dks IH]; intros fp m created md Hm Hn Hnd Hr.
  { exists fp, m, created, md. repeat split; auto. }
  cbn in Hn, Hnd. apply NoDup_cons in Hnd as [Hdk Hnd]. apply Forall_cons in Hr as [Hr1 Hr].
  assert (dk.1 <> META_DATA_KEY) as Hne by set_solver.
  destruct (date_step_ready fp m created md dk) as (c1 & d1 & H1 & Hstep); [done..|].
  set (fp1 := dset META_DATA_KEY (VDict (dpop dk.1 m)) (dpop dk.1 fp)) in *.
  assert (forall dk', dk' ∈ dks -> date_ready fp1 (dpop dk.1 m) dk' /\
            dget_none dk'.1 fp1 = dget_none dk'.1 fp /\ dget_none dk'.1 (dpop dk.1 m) = dget_none dk'.1 m) as Hrest.
  { intros dk' Hin. assert (dk'.1 ∈ dks.*1) by (by apply list_elem_of_fmap_2).
    rewrite Forall_forall in Hr.
    destruct (date_ready_step fp m dk.1 dk') as [Ha Hb]; [set_solver | set_solver | by apply Hr |].
    split; [done|]. split; [done|]. unfold dget_none. rewrite dget_dpop, decide_False; [done | set_solver]. }
  destruct (IH fp1 (dpop dk.1 m) c1 d1) as (fp' & m' & c' & md' & H2 & Hm' & Hk & Hl);
    [apply dget_dset_eq | set_solver | done | apply Forall_forall; intros; by apply Hrest |].
  exists fp', m', c', md'. cbn [foldM]. rewrite H1. split; [exact H2|]. split; [done|]. split.
  - intros k Hkm. rewrite Hk by done. unfold fp1. rewrite dget_dset_ne, dget_dpop by done.
    cbn. repeat case_decide; set_solver.
  - cbn. rewrite (last_date_ext fp fp1) in Hl by (intros; by apply Hrest).
    destruct (last_date fp dks) as [dk'|] eqn:E.
    + apply last_date_in in E. destruct (Hrest dk' E) as (_ & E1 & E2). by rewrite E1, E2 in Hl.
    + destruct Hl as [-> ->]. by destruct (is_none (dget_none dk.1 fp)).
Qed.

(** ** Sample fingerprints *)

Definition sample_of (source fact : pydict) : pydict :=
  match process_one_fact source (VDict fact) with Ok (Some fp) => fp | _ => [] end.

Lemma sample_good source fact :
  raw_macs_ok fact -> is_ok (process_one_fact source (VDict fact)) = true ->
  truthy (VDict (sample_of source fact)) = true ->
  good false (type_products (dget_none "source_type" source)) (sample_of source fact).
Proof.
  intros Hm Ho Ht. unfold sample_of in *.
  destruct (process_one_fact source (VDict fact)) as [[fp|]|e] eqn:E; try done.
  destruct (process_one_fact_wf _ _ _ Hm E) as (W & P & G). by split.
Qed.

Definition sample_source2 : pydict :=
  [("server_id", VStr "server"); ("source_name", VStr "net2"); ("source_type", VStr "network")].
Definition sample_fact2 : pydict :=
  [("uname_hostname", VStr "other.example.com"); ("subscription_manager_id", VStr "sub-1");
   ("ifconfig_mac_addresses", VList [VStr "00:50:56:A3:A2:E8"]); ("user_has_sudo", VBool true);
   ("subman_consumed", VList [VDict [("name", VStr "RHEL"); ("entitlement_id", VStr "69")]]);
   ("cpu_count", VStr "8")].

Lemma sample_macs_ok2 : raw_macs_ok sample_fact2.
Proof.
  intros k v Hk. rewrite !elem_of_cons, elem_of_nil in Hk.
  destruct Hk as [->|[->|[->|[->|[]]]]]; vm_compute; intros [= <-]; auto.
Qed.

Definition sample1 : pydict := Eval vm_compute in sample_of sample_source sample_fact.
Definition sample2 : pydict := Eval vm_compute in sample_of sample_source2 sample_fact2.

Lemma samples_good : good false product_names sample1 /\ good false product_names sample2.
Proof.
  split.
  - replace sample1 with (sample_of sample_source sample_fact) by (vm_compute; reflexivity).
    apply (sample_good sample_source sample_fact); [apply sample_macs_ok | vm_compute; reflexivity..].
  - replace sample2 with (sample_of sample_source2 sample_fact2) by (vm_compute; reflexivity).
    apply (sample_good sample_source2 sample_fact2); [apply sample_macs_ok2 | vm_compute; reflexivity..].
Qed.

(** ** Properties *)

(** [C1] Merging two fingerprints of a pass never raises and keeps its
    specification: each fact and its metadata come from the merged fingerprint
    exactly when the priority one has no value for it (no key, or [None]) or
    was collected without sudo and the other with it; no source is lost or made
    up; entitlements are those of both, the first of each identity; a product
    is replaced when it was absent and the other is not; and the result is a
    well-formed fingerprint again. *)
Theorem merge_fingerprint_refines b ns ns' p t reverse :
  good b ns p -> good b ns' t -> NoDup ns -> ns' = [] \/ ns' = ns ->
  (forall ks, reverse <> KSet ks) ->
  exists m, _merge_fingerprint p t reverse = Ok m /\ good b ns m /\ merged_from p t m.
Proof. apply merge_spec. Qed.

Lemma merge_fingerprint_refines_witness :
  exists m, _merge_fingerprint sample1 sample2 KNone = Ok m /\ good false product_names m /\
    merged_from sample1 sample2 m /\ dget "cpu_count" m = Some (VInt 4).
Proof.
  destruct (merge_fingerprint_refines false product_names product_names sample1 sample2 KNone)
    as (m & H & G & M); [apply samples_good | apply samples_good | apply product_names_nodup
                        | right; reflexivity | discriminate |].
  exists m. split; [exact H|]. split; [exact G|]. split; [exact M|].
  rewrite (mf_fact _ _ _ M) by by_compute. vm_compute. reflexivity.
Defined.

(** After a merge with a fingerprint that has entitlements, no two
    entitlements have the same name and id, and every entitlement of either
    fingerprint is represented. *)
Theorem merged_entitlements_distinct b ns ns' p t reverse ps ts :
  good b ns p -> good b ns' t -> NoDup ns -> ns' = [] \/ ns' = ns ->
  (forall ks, reverse <> KSet ks) ->
  dget ENTITLEMENTS_KEY p = Some (VList (VDict <$> ps)) ->
  dget ENTITLEMENTS_KEY t = Some (VList (VDict <$> ts)) -> ts <> [] ->
  exists m es, _merge_fingerprint p t reverse = Ok m /\
    dget ENTITLEMENTS_KEY m = Some (VList (VDict <$> es)) /\ NoDup (ent_id <$> es) /\
    forall i, i ∈ ent_id <$> es <-> i ∈ ent_id <$> ps \/ i ∈ ent_id <$> ts.
Proof.
  intros Gp Gt Hnd Hns Hr Hp Ht Hne.
  destruct (merge_spec b ns ns' p t reverse) as (m & H & _ & M); try done.
  exists m, (combined_entitlements ps ts). split; [done|].
  split; [by apply (mf_ents _ _ _ M)|].
  assert (combined_entitlements ps ts = first_of_each [] (ps ++ ts)%list) as -> by (by destruct ts).
  destruct (first_of_each_ids [] (ps ++ ts)%list) as [H1 H2]. split; [done|].
  intros i. rewrite H2, fmap_app, elem_of_app. set_solver.
Qed.

Lemma merged_entitlements_distinct_witness :
  exists m es, _merge_fingerprint sample1 sample2 KNone = Ok m /\
    dget ENTITLEMENTS_KEY m = Some (VList (VDict <$> es)) /\ NoDup (ent_id <$> es).
Proof.
  destruct (merged_entitlements_distinct false product_names product_names sample1 sample2 KNone []
    [[("name", VStr "RHEL"); ("entitlement_id", VStr "69");
      ("metadata", VDict [("server_id", VStr "server"); ("source_name", VStr "net2");
                          ("source_type", VStr "network"); ("raw_fact_key", VStr "subman_consumed")])]])
    as (m & es & H1 & H2 & H3 & _);
    [apply samples_good | apply samples_good | apply product_names_nodup | right; reflexivity
    | discriminate | vm_compute; reflexivity | vm_compute; reflexivity | discriminate |].
  exists m, es. split; [exact H1 | split; [exact H2 | exact H3]].
Defined.

(** Removing the duplicates of one identification key never raises; in
    the result no two fingerprints have the same (non-empty) identifier, the
    identifiers and the sources are those that came in, and there are at most
    as many fingerprints. *)
Theorem remove_duplicates_spec ns id_key fps :
  NoDup ns -> id_key ∈ id_keys -> id_key <> "mac_addresses" -> Forall (good false ns) fps ->
  exists r, _remove_duplicate_fingerprints [id_key] fps false = Ok r /\
    dedup_spec false ns id_key fps r.
Proof.
  intros Hnd Hk Hm Hg. destruct (dedup_by_spec false ns id_key fps) as (r & H & D); try done.
  exists r. split; [|done]. unfold _remove_duplicate_fingerprints.
  destruct fps as [|fp fps]; [by injection H as <-|]. cbn [foldM]. by rewrite H.
Qed.

Lemma remove_duplicates_spec_witness :
  exists r, _remove_duplicate_fingerprints ["subscription_manager_id"] [sample1; sample2] false = Ok r /\
    dedup_spec false product_names "subscription_manager_id" [sample1; sample2] r /\ length r = 1%nat.
Proof.
  destruct (remove_duplicates_spec product_names "subscription_manager_id" [sample1; sample2])
    as (r & H & D); [apply product_names_nodup | by_compute | discriminate
      | apply Forall_cons; split; [apply samples_good | apply Forall_cons; split; [apply samples_good | apply Forall_nil; exact I]] |].
  exists r. split; [exact H|]. split; [exact D|].
  assert (length <$> _remove_duplicate_fingerprints ["subscription_manager_id"] [sample1; sample2] false = Ok 1%nat)
    as H1 by (vm_compute; reflexivity).
  rewrite H in H1. injection H1 as H1. exact H1.
Defined.
