(* ===== verification/MergeProps.v ===== *)
(** Properties of the fingerprint pipeline as a whole, and concrete runs of it. *)
From stdpp Require Import base sets list strings.
From Stdlib Require Import Ascii ZArith Lia.
From S2P Require Import Prelude PyStr PyNum PyVal DateParse Formatters.
From S2P Require Import ProductEap ProductFuse Fingerprints Merge MergePasses.

Open Scope string_scope.

(** A source of [uuid]s for the concrete runs. *)
Definition sample_uuid (n : nat) : string := "uuid-" +:+ int_repr (Z.of_nat n).

Definition report_source (name ty : string) (facts : list pydict) : pydict :=
  [("server_id", VStr "server"); ("source_name", VStr name); ("source_type", VStr ty);
   ("facts", VList (VDict <$> facts))].

Definition sample_report : list pydict :=
  [report_source "net" "network" [sample_fact; sample_fact2];
   report_source "sat" "satellite" [[("hostname", VStr "sat.example.com"); ("uuid", VStr "sub-1")]];
   report_source "vc" "vcenter" [[("vm.name", VStr "vm"); ("vm.mac_addresses", VList [VStr "00:50:56:a3:a2:e8"])]]].

Ltac macs_tac :=
  let k := fresh in let v := fresh in let H := fresh in
  intros k v H; rewrite !elem_of_cons, elem_of_nil in H;
  destruct H as [->|[->|[->|[->|[]]]]]; vm_compute; intros [= <-]; auto.

Lemma report_source_ready name ty facts fps :
  ty ∈ DataSources -> Forall raw_macs_ok facts ->
  mapM (process_one_fact (report_source name ty facts)) (VDict <$> facts) = Ok fps ->
  source_ready (report_source name ty facts).
Proof. intros Ht Hm Hf. exists ty, facts, fps. done. Qed.

Lemma sample_report_ready : Forall source_ready sample_report.
Proof.
  repeat (apply Forall_cons; split); [..|by apply Forall_nil];
    (eapply report_source_ready; [by_compute | | vm_compute; reflexivity]).
  - repeat (apply Forall_cons; split); [macs_tac | macs_tac | by apply Forall_nil].
  - repeat (apply Forall_cons; split); [macs_tac | by apply Forall_nil].
  - repeat (apply Forall_cons; split); [macs_tac | by apply Forall_nil].
Qed.

(** ** Properties *)

(** [C2] For a report of known source types whose facts are dicts (with MAC
    addresses that are a list or can be a key), the only exceptions that
    collecting, de-duplicating and merging can raise are those of turning a single
    fact into a fingerprint: the first of them is raised, and when there is none the
    pipeline returns, every fingerprint of its result is well formed, and each
    source of the result is one that a fact's fingerprint has. *)
Theorem deduplication_safe uuid sources :
  Forall source_shaped sources ->
  match fact_outcomes sources with
  | Err e => collect_sources sources = Err e
  | Ok fpss => exists m r, collect_sources sources = Ok m /\ combine uuid m = Ok r /\
      Forall wf_fp r /\ (forall s, sources_in s r -> sources_in s (made fpss))
  end.
Proof.
  intros Hs. pose proof (collected_spec sources _ map_good_empty Hs) as H.
  unfold collect_sources. destruct (fact_outcomes sources) as [fpss|e]; [|done].
  destruct H as (m & Hm & G & E). destruct (combine_spec uuid m G) as (r & H & W & S).
  exists m, r. split; [done|]. split; [done|]. split; [done|]. intros s (fp & Hfp & Hs')%S%Exists_exists.
  apply Exists_exists. exists fp. split; [|done]. unfold all_fps in Hfp.
  assert (exists t, fp ∈ fps_of t m) as [t Ht] by (rewrite !elem_of_app in Hfp; naive_solver).
  apply E in Ht as [Ht|Ht]; [rewrite no_fps in Ht; by apply elem_of_nil in Ht | done].
Qed.

Lemma deduplication_safe_witness :
  exists m r, collect_sources sample_report = Ok m /\ combine sample_uuid m = Ok r /\ Forall wf_fp r.
Proof.
  destruct (source_ready_shaped _ sample_report_ready) as [Hs [fpss E]].
  pose proof (deduplication_safe sample_uuid sample_report Hs) as H. rewrite E in H.
  destruct H as (m & r & H1 & H2 & H3 & _). exists m, r. split; [exact H1 | split; [exact H2 | exact H3]].
Defined.

(** Merging two lists on equal keys loses nothing when no two fingerprints
    of a list share a key: every source of a base or of a candidate is a source
    of some fingerprint of the two result lists, and none is made up. *)
Theorem matching_lossless uuid ns ns' reverse n bk bases ck cands :
  NoDup ns -> ns' = [] \/ ns' = ns -> (forall ks, reverse <> KSet ks) ->
  index_key_ok bk -> index_key_ok ck ->
  Forall (good false ns) bases -> Forall (good false ns') cands ->
  disjoint_keys bk bases -> disjoint_keys ck cands ->
  exists n' merged bases' cands',
    _merge_matching_fingerprints uuid n bk bases ck cands reverse = Ok (n', merged, bases', cands') /\
    forall s, sources_in s (bases' ++ cands')%list <-> sources_in s (bases ++ cands)%list.
Proof.
  intros Hnd Hns Hr Hbk Hck Hb Hc Db Dc.
  destruct (merge_matching_spec uuid ns ns' reverse Hnd Hns Hr n bk bases ck cands Hbk Hck Hb Hc)
    as (n' & merged & b' & c' & H & _ & _ & S1 & S2).
  exists n', merged, b', c'. split; [done|]. intros s. split; auto.
Qed.

Lemma matching_lossless_witness :
  exists n' merged bases' cands',
    _merge_matching_fingerprints sample_uuid 0 "subscription_manager_id" [sample1]
      "subscription_manager_id" [sample2] KNone = Ok (n', merged, bases', cands') /\
    forall s, sources_in s (bases' ++ cands')%list <-> sources_in s ([sample1] ++ [sample2])%list.
Proof.
  apply (matching_lossless sample_uuid product_names product_names KNone 0 "subscription_manager_id"
           [sample1] "subscription_manager_id" [sample2]).
  - apply product_names_nodup.
  - right; reflexivity.
  - discriminate.
  - split; [by_compute | discriminate].
  - split; [by_compute | discriminate].
  - apply Forall_cons; split; [apply samples_good | apply Forall_nil; exact I].
  - apply Forall_cons; split; [apply samples_good | apply Forall_nil; exact I].
  - constructor; [constructor | constructor].
  - constructor; [constructor | constructor].
Defined.

(** A fingerprint after the merge, ready for the computation of its creation
    date. *)
Definition dates_ready (fp m : pydict) : Prop :=
  dget META_DATA_KEY fp = Some (VDict m) /\ Forall (date_ready fp m) RAW_DATE_KEYS.

(** The creation date of a system is the parsed value of the most accurate
    raw date that the fingerprint has (the last of the list), even when that
    value cannot be parsed; without any raw date the field is left as it was.
    The raw dates are removed from the fingerprint, and nothing else changes. *)
Theorem creation_date_spec fp m :
  dates_ready fp m ->
  exists r, _compute_system_creation_time fp = Ok r /\
    (forall k, k <> META_DATA_KEY -> k <> sys_creation_key ->
       dget k r = if decide (k ∈ RAW_DATE_KEYS.*1) then None else dget k fp) /\
    match last_date fp RAW_DATE_KEYS with
    | None => dget sys_creation_key r = dget sys_creation_key fp
    | Some dk => exists v, _multi_format_dateparse (dget_none dk.1 m) (dget_none dk.1 fp) dk.2 = Ok v /\
                           dget sys_creation_key r = Some v
    end.
Proof.
  intros [Hm Hr].
  destruct (dates_fold RAW_DATE_KEYS fp m VNone (VDict [])) as (fp' & m' & c & md & H & Hm' & Hk & Hl);
    [done | by_compute | by_compute | done |].
  unfold _compute_system_creation_time. rewrite H. cbn [mbind res_bind].
  destruct (last_date fp RAW_DATE_KEYS) as [dk|] eqn:E.
  2:{ destruct Hl as [-> ->]. exists fp'. split; [done|]. split; [auto|]. by rewrite Hk. }
  destruct Hl as [-> Hp].
  assert (exists e, dget_none dk.1 m = VDict e /\ truthy (VDict e) = true) as (e & He & Ht).
  { rewrite Forall_forall in Hr. destruct (Hr dk (last_date_in _ _ _ E)) as [Hn|(s & e & _ & He & Hne & _)].
    - apply last_date_some in E. by rewrite Hn in E.
    - exists e. unfold dget_none. rewrite He. split; [done|]. by destruct e. }
  rewrite He in Hp |- *. rewrite Ht. cbn [negb].
  unfold set_nested, dget_exn. rewrite dget_dset_ne, Hm' by done. cbn [from_option mbind res_bind].
  destruct (negb (is_none c)); eexists; (split; [done|]); split;
    try (intros k H1 H2; by rewrite !dget_dset_ne, Hk by done);
    exists c; (split; [done|]); by rewrite dget_dset_ne, dget_dset_eq by done.
Qed.

Definition sample1_meta : pydict :=
  Eval vm_compute in match dget META_DATA_KEY sample1 with Some (VDict m) => m | _ => [] end.

Lemma sample_dates_ready : dates_ready sample1 sample1_meta.
Proof.
  split; [vm_compute; reflexivity|]. unfold RAW_DATE_KEYS.
  repeat (apply Forall_cons; split); [..|by apply Forall_nil]; try (left; vm_compute; reflexivity).
  right. exists "2021-03-02". eexists. split; [vm_compute; reflexivity|]. split; [vm_compute; reflexivity|].
  split; [discriminate|]. split; [by eexists|]. split; [by eexists|].
  apply Forall_cons; split; [by eexists | by apply Forall_nil].
Qed.

Lemma creation_date_spec_witness :
  exists r, _compute_system_creation_time sample1 = Ok r /\
    exists v, _multi_format_dateparse (dget_none "date_machine_id" sample1_meta) (VStr "2021-03-02") ["%Y-%m-%d"]
                = Ok v /\ dget sys_creation_key r = Some v.
Proof.
  destruct (creation_date_spec sample1 sample1_meta) as (r & H & _ & Hd); [exact sample_dates_ready|].
  exists r. split; [exact H|].
  assert (last_date sample1 RAW_DATE_KEYS = Some ("date_machine_id", ["%Y-%m-%d"])) as E
    by (vm_compute; reflexivity).
  rewrite E in Hd. assert (dget_none "date_machine_id" sample1 = VStr "2021-03-02") as E2
    by (vm_compute; reflexivity).
  cbn [fst snd] in Hd. rewrite E2 in Hd. exact Hd.
Defined.

(** ** Concrete runs that show limits of the merge *)

(** The keys that should reverse the priority are passed as a tuple, which is
    ignored; as a set they would take the value of the merged fingerprint. *)
Theorem reverse_tuple_ignored :
  (forall p t ks, _merge_fingerprint p t (KTuple ks) = _merge_fingerprint p t KNone) /\
  exists m m', _merge_fingerprint sample1 sample2 (KSet ["cpu_count"; "infrastructure_type"]) = Ok m /\
    _merge_fingerprint sample1 sample2 (KTuple ["cpu_count"; "infrastructure_type"]) = Ok m' /\
    dget "cpu_count" m = Some (VInt 8) /\ dget "cpu_count" m' = Some (VInt 4).
Proof.
  split; [reflexivity|]. do 2 eexists. split; [vm_compute; reflexivity|]. split; [vm_compute; reflexivity|].
  split; vm_compute; reflexivity.
Qed.

(** The values of a key in a list of fingerprints. *)
Definition names_of (k : string) (fps : list pydict) : list pyval := dget_none k <$> fps.

(** Two network systems with the same MAC address and no other identifier:
    one of them disappears as soon as a satellite system is in the report. *)
Definition mac_fact (name mac : string) : pydict :=
  [("uname_hostname", VStr name); ("ifconfig_mac_addresses", VList [VStr mac])].

Definition shared_mac_report : list pydict :=
  [report_source "net" "network" [mac_fact "a" "00:00:00:00:00:01"; mac_fact "b" "00:00:00:00:00:01"];
   report_source "sat" "satellite" [[("hostname", VStr "c")]]].

Lemma index_under_taken fp d keys :
  Forall (fun k => hashable k = true /\ is_Some (kget k d)) keys -> foldM (index_under fp) d keys = Ok d.
Proof.
  induction 1 as [|k keys [Hh [x Hx]] _ IH]; [done|]. cbn [foldM].
  assert (index_under fp d k = Ok d) as ->; [|done].
  unfold index_under, as_key. rewrite Hh. cbn [mbind res_bind]. by rewrite Hx.
Qed.

(** A fingerprint all of whose MAC addresses are already in the index is
    neither indexed nor put with those without a key; so of two network systems
    with the same MAC address and no other identifier, one disappears when a
    satellite system is in the report. *)
Theorem shared_mac_loses_system :
  (forall uuid n by_key not_found fp keys,
     dget "mac_addresses" fp = Some (VList keys) -> keys <> [] ->
     Forall (fun k => hashable k = true /\ is_Some (kget k by_key)) keys ->
     index_step uuid "mac_addresses" (n, by_key, not_found) fp = Ok (S n, by_key, not_found)) /\
  names_of "name" <$> (m ← collect_sources shared_mac_report; combine sample_uuid m) =
  Ok [VStr "a"; VStr "c"].
Proof.
  split; [|vm_compute; reflexivity]. intros uuid n by_key not_found fp keys Hk Hne Hall.
  unfold index_step, dget_none. rewrite dget_dset_ne, Hk by done. cbn [default id].
  destruct keys as [|k keys]; [done|]. cbn [truthy].
  by rewrite index_under_taken.
Qed.

(** A candidate with two MAC addresses, one of which matches: it is merged into
    the base and kept as a system of its own as well. *)
Definition partial_match_report : list pydict :=
  [report_source "net" "network" [mac_fact "a" "00:00:00:00:00:01"];
   report_source "vc" "vcenter"
     [[("vm.name", VStr "vm"); ("vm.uuid", VStr "u");
       ("vm.mac_addresses", VList [VStr "00:00:00:00:00:01"; VStr "00:00:00:00:00:02"])]]].

(** A candidate indexed under two keys of which the bases have the first
    only is merged and kept among the unmatched as well; so a vcenter system one
    of whose two MAC addresses matches a network system is in the report twice. *)
Theorem partial_match_duplicates :
  (forall reverse bases matched unmatched k1 k2 b c,
     b <> [] -> kget k1 bases = Some b -> kget k2 (kpop k1 bases).2 = None ->
     forall m, _merge_fingerprint b c reverse = Ok m ->
     foldM (match_step reverse) (bases, matched, unmatched) [(k1, c); (k2, c)] =
     Ok ((kpop k1 bases).2, (matched ++ [m])%list, (unmatched ++ [c])%list)) /\
  names_of "vm_uuid" <$> (m ← collect_sources partial_match_report; combine sample_uuid m) =
  Ok [VStr "u"; VStr "u"].
Proof.
  split; [|vm_compute; reflexivity]. intros reverse bases matched unmatched k1 k2 b c Hb H1 H2 m Hm.
  destruct (kget_Some k1 bases b b H1) as (l1 & k' & l2 & _ & _ & Hp & _). rewrite Hp in *. cbn [snd] in *.
  cbn [foldM]. assert (match_step reverse (bases, matched, unmatched) (k1, c) =
    Ok ((l1 ++ l2)%list, (matched ++ [m])%list, unmatched)) as ->.
  { unfold match_step. cbn [fst snd]. rewrite Hp. destruct b as [|kv b]; [done|]. cbn [truthy_fp].
    by rewrite Hm. }
  cbn [mbind res_bind]. unfold match_step. cbn [fst snd]. by destruct (kget_None k2 _ b H2) as (_ & -> & _).
Qed.

(** A product name that the priority fingerprint lacks makes the merge raise,
    although a branch for that case exists. *)
Theorem missing_product_raises :
  _merge_fingerprint (dset PRODUCTS_KEY (VList []) sample1) sample2 KNone = Err (AttributeError "get").
Proof. vm_compute. reflexivity. Qed.

Lemma unknown_data_source t source fact :
  t ∉ DataSources -> process_facts_for_datasource (VStr t) source fact = Err NotImplementedError.
Proof.
  intros Hn. unfold process_facts_for_datasource.
  repeat match goal with |- context [match ?x with _ => _ end] => destruct x; try reflexivity end;
    destruct Hn; by_compute.
Qed.

Lemma unknown_source_type source t l :
  dget "source_type" source = Some (VStr t) -> t ∉ DataSources ->
  dget "facts" source = Some (VList (VDict <$> l)) -> _process_source source = Ok [].
Proof.
  intros Ht Hn Hl. unfold _process_source, dget_exn. rewrite Hl. clear Hl. cbn [from_option mbind res_bind py_iter].
  assert (mapM (process_one_fact source) (VDict <$> l) = Ok (const None <$> l)) as ->.
  2:{ clear. cbn. f_equal. induction l as [|f l IH]; [done | exact IH]. }
  induction l as [|f l IH]; [done|]. cbn [fmap list_fmap mapM].
  assert (process_one_fact source (VDict f) = Ok None) as ->; [|cbn [mbind res_bind]; by rewrite IH].
  unfold process_one_fact. cbn [as_dict mbind res_bind]. unfold dget_none. rewrite Ht. cbn [default id].
  rewrite py_eq_str, bool_decide_eq_false_2, andb_false_r by set_solver.
  by rewrite unknown_data_source.
Qed.

(** A source of unknown type among others: each of its facts is skipped with
    a log message, and then the whole report fails with a [KeyError]. *)
Theorem unknown_source_type_raises uuid before source after t l :
  Forall source_ready before ->
  dget "source_type" source = Some (VStr t) -> t ∉ DataSources ->
  dget "facts" source = Some (VList (VDict <$> l)) ->
  _process_sources uuid (before ++ source :: after) = Err (KeyError t).
Proof.
  intros Hb Ht Hn Hl. destruct (collect_sources_good before Hb) as (m & Hm & Hk & _).
  unfold _process_sources, collect_sources in *. rewrite foldM_app, Hm. cbn [mbind res_bind foldM].
  assert (collect_step m source = Err (KeyError t)) as ->; [|done].
  unfold collect_step. rewrite (unknown_source_type source t l Ht Hn Hl). cbn [mbind res_bind].
  unfold dget_none. rewrite Ht. cbn [default id]. unfold extend_map, as_key, dget_exn. cbn [hashable mbind res_bind].
  rewrite <- Hk in Hn. destruct (dget t m) eqn:E; [|done].
  destruct Hn. apply dget_keys. by eexists.
Qed.

Lemma unknown_source_type_raises_witness :
  _process_sources sample_uuid (sample_report ++ [report_source "x" "unknown" [sample_fact]]) =
  Err (KeyError "unknown").
Proof.
  apply (unknown_source_type_raises sample_uuid sample_report _ [] "unknown" [sample_fact]).
  - exact sample_report_ready.
  - reflexivity.
  - by_compute.
  - reflexivity.
Defined.
