(* ===== verification/Json.v ===== *)
(** [json.loads] on text, as CPython's scanner implements it.

    Non-ASCII characters are their UTF-8 bytes, as everywhere in the model; a
    lone surrogate escape gives the three bytes of its code point.  The limit of
    the interpreter on nesting is not modelled.  [JSONDecodeError] is a subclass
    of [ValueError]; an integer with too many digits is a plain [ValueError]. *)
From stdpp Require Import base list strings.
From Stdlib Require Import Ascii ZArith Lia SpecFloat.
From S2P Require Import Prelude PyStr PyNum PyVal.

Open Scope string_scope.
Open Scope Z_scope.

Definition JSONDecodeError : exn := OtherException "JSONDecodeError".
Definition is_json_error (e : exn) : bool :=
  match e with OtherException n => bool_decide (n = "JSONDecodeError") | _ => false end.

(** The recursion is bounded by [fuel]; [json_loads_fuel] shows that this error
    never shows. *)
Definition OutOfFuel : exn := Unsupported.

Definition json_space (c : ascii) : bool :=
  let n := code c in (n =? 32)%N || (n =? 9)%N || (n =? 10)%N || (n =? 13)%N.
Definition skip_space : string -> string := lstrip_by json_space.

(** ** Strings *)

Definition hex_val (c : ascii) : option Z :=
  let n := Z.of_N (code c) in
  if is_digit c then Some (n - 48)
  else if (97 <=? n) && (n <=? 102) then Some (n - 87)
  else if (65 <=? n) && (n <=? 70) then Some (n - 55) else None.

Fixpoint hex_number (n : nat) (acc : Z) (s : string) : option (Z * string) :=
  match n, s with
  | O, _ => Some (acc, s)
  | S n, String c s => match hex_val c with Some v => hex_number n (16 * acc + v) s | None => None end
  | _, "" => None
  end.

Definition byte (z : Z) : string := String (ascii_of_N (Z.to_N z)) "".

(** The UTF-8 bytes of a code point. *)
Definition utf8 (z : Z) : string :=
  if z <? 128 then byte z
  else if z <? 2048 then byte (192 + z / 64) +:+ byte (128 + z mod 64)
  else if z <? 65536 then byte (224 + z / 4096) +:+ byte (128 + z / 64 mod 64) +:+ byte (128 + z mod 64)
  else byte (240 + z / 262144) +:+ byte (128 + z / 4096 mod 64)
       +:+ byte (128 + z / 64 mod 64) +:+ byte (128 + z mod 64).

(** After [\u]: a surrogate pair is one code point. *)
Definition unicode_escape (s : string) : option (Z * string) :=
  match hex_number 4 0 s with
  | None => None
  | Some (hi, rest) =>
      if (55296 <=? hi) && (hi <=? 56319) && str_startswith "\u" rest then
        match hex_number 4 0 (str_drop 2 rest) with
        | None => None
        | Some (lo, rest') =>
            if (56320 <=? lo) && (lo <=? 57343)
            then Some (65536 + (hi - 55296) * 1024 + (lo - 56320), rest')
            else Some (hi, rest)
        end
      else Some (hi, rest)
  end.

Definition simple_escape (c : ascii) : option ascii :=
  match N_of_ascii c with
  | 34%N => Some c | 92%N => Some c | 47%N => Some c
  | 98%N => Some (ascii_of_N 8) | 102%N => Some (ascii_of_N 12) | 110%N => Some (ascii_of_N 10)
  | 114%N => Some (ascii_of_N 13) | 116%N => Some (ascii_of_N 9)
  | _ => None
  end.

(** The text of a string literal after its opening quote, and what follows. *)
Fixpoint json_string (fuel : nat) (acc s : string) : Res (string * string) :=
  match fuel, s with
  | _, "" => Err JSONDecodeError
  | O, _ => Err OutOfFuel
  | S fuel, String c s =>
      if (code c =? 34)%N then Ok (acc, s)
      else if (code c <? 32)%N then Err JSONDecodeError
      else if (code c =? 92)%N then
        match s with
        | "" => Err JSONDecodeError
        | String e s =>
            if (code e =? 117)%N then
              match unicode_escape s with
              | Some (z, s) => json_string fuel (acc +:+ utf8 z) s
              | None => Err JSONDecodeError
              end
            else match simple_escape e with
                 | Some x => json_string fuel (acc +:+ String x "") s
                 | None => Err JSONDecodeError
                 end
        end
      else json_string fuel (acc +:+ String c "") s
  end.

(** ** Numbers *)

(** The longest run of digits, and the rest. *)
Fixpoint digit_run (s : string) : string * string :=
  match s with
  | String c s' => if is_digit c then let r := digit_run s' in (String c r.1, r.2) else ("", s)
  | "" => ("", "")
  end.

(** [0|[1-9]\d*] *)
Definition int_part (s : string) : string * string :=
  match s with String "0" s' => ("0", s') | _ => digit_run s end.

(** [(\.\d+)?] *)
Definition frac_part (s : string) : string * string :=
  match s with
  | String "." s' => let r := digit_run s' in
                     if bool_decide (r.1 = "") then ("", s) else ("." +:+ r.1, r.2)
  | _ => ("", s)
  end.

(** [([eE][-+]?\d+)?] *)
Definition exp_part (s : string) : string * string :=
  match s with
  | String e s' =>
      if bool_decide (lower_char e = "e"%char) then
        let '(sign, t) := match s' with
                          | String "-" t => ("-", t)
                          | String "+" t => ("+", t)
                          | _ => ("", s')
                          end in
        let r := digit_run t in
        if bool_decide (r.1 = "") then ("", s) else (String e sign +:+ r.1, r.2)
      else ("", s)
  | "" => ("", "")
  end.

Definition json_number (s : string) : Res (pyval * string) :=
  let '(sign, s) := match s with String "-" t => ("-", t) | _ => ("", s) end in
  let '(i, s) := int_part s in
  if bool_decide (i = "") then Err JSONDecodeError else
  let '(f, s) := frac_part s in
  let '(e, s) := exp_part s in
  if bool_decide (f = "" /\ e = "") then
    z ← from_option ValueError (int_of_str (sign +:+ i)); Ok (VInt z, s)
  else
    x ← from_option ValueError (float_of_str (sign +:+ i +:+ f +:+ e)); Ok (VFloat x, s).

(** The words of the grammar, [-Infinity] before numbers. *)
Definition json_words : list (string * pyval) :=
  [("null", VNone); ("true", VBool true); ("false", VBool false); ("NaN", VFloat S754_nan);
   ("Infinity", VFloat (S754_infinity false)); ("-Infinity", VFloat (S754_infinity true))].

Fixpoint json_word (words : list (string * pyval)) (s : string) : option (pyval * string) :=
  match words with
  | [] => None
  | (w, v) :: words =>
      if str_startswith w s then Some (v, str_drop (String.length w) s) else json_word words s
  end.

(** ** Values *)

Fixpoint json_value (fuel : nat) (s : string) {struct fuel} : Res (pyval * string) :=
  match fuel with
  | O => Err OutOfFuel
  | S fuel =>
      match s with
      | "" => Err JSONDecodeError
      | String c t =>
          if (code c =? 34)%N then r ← json_string (String.length t) "" t; Ok (VStr r.1, r.2)
          else if (code c =? 123)%N then
            match skip_space t with
            | String "}" u => Ok (VDict [], u)
            | u => json_members fuel [] u
            end
          else if (code c =? 91)%N then
            match skip_space t with
            | String "]" u => Ok (VList [], u)
            | u => json_elements fuel [] u
            end
          else match json_word json_words s with
               | Some r => Ok r
               | None => json_number s
               end
      end
  end
with json_elements (fuel : nat) (acc : list pyval) (s : string) {struct fuel} : Res (pyval * string) :=
  match fuel with
  | O => Err OutOfFuel
  | S fuel =>
      r ← json_value fuel s;
      let acc := (acc ++ [r.1])%list in
      match skip_space r.2 with
      | String "]" u => Ok (VList acc, u)
      | String "," u => json_elements fuel acc (skip_space u)
      | _ => Err JSONDecodeError
      end
  end
with json_members (fuel : nat) (acc : pydict) (s : string) {struct fuel} : Res (pyval * string) :=
  match fuel with
  | O => Err OutOfFuel
  | S fuel =>
      match s with
      | String q t =>
          if negb (code q =? 34)%N then Err JSONDecodeError else
          k ← json_string (String.length t) "" t;
          match skip_space k.2 with
          | String ":" u =>
              r ← json_value fuel (skip_space u);
              let acc := dset k.1 r.1 acc in
              match skip_space r.2 with
              | String "}" w => Ok (VDict acc, w)
              | String "," w => json_members fuel acc (skip_space w)
              | _ => Err JSONDecodeError
              end
          | _ => Err JSONDecodeError
          end
      | "" => Err JSONDecodeError
      end
  end.

(** The byte order mark, three bytes in UTF-8. *)
Definition bom : string := byte 239 +:+ byte 187 +:+ byte 191.

(** [json.loads(s)] *)
Definition json_loads (s : string) : Res pyval :=
  if str_startswith bom s then Err JSONDecodeError else
  r ← json_value (2 * String.length s + 1) (skip_space s);
  if bool_decide (skip_space r.2 = "") then Ok r.1 else Err JSONDecodeError.

(** ** The fuel is enough *)

(** A scanner that consumes text, or fails for a reason other than fuel. *)
Definition consumes {A} (r : Res (A * string)) (s : string) : Prop :=
  match r with Ok p => (String.length p.2 < String.length s)%nat | Err e => e <> OutOfFuel end.

Lemma skip_space_length s : (String.length (skip_space s) <= String.length s)%nat.
Proof. unfold skip_space. induction s as [|c s IH]; cbn; [lia|]. destruct (json_space c); cbn; lia. Qed.

Lemma drop_length n s : String.length (str_drop n s) = (String.length s - n)%nat.
Proof. revert s. induction n as [|n IH]; intros [|c s]; cbn; auto. Qed.

Lemma prefix_length p s : String.prefix p s = true -> (String.length p <= String.length s)%nat.
Proof. intros (t & ->)%prefix_app. rewrite length_append. lia. Qed.

Lemma hex_number_length n acc s z r :
  hex_number n acc s = Some (z, r) -> (String.length r <= String.length s)%nat.
Proof.
  revert acc s. induction n as [|n IH]; intros acc s; cbn; [by intros [= _ ->]|].
  destruct s as [|c s]; [done|]. destruct (hex_val c); [|done]. intros ?%IH. cbn. lia.
Qed.

Lemma unicode_escape_length s z r :
  unicode_escape s = Some (z, r) -> (String.length r <= String.length s)%nat.
Proof.
  unfold unicode_escape. destruct (hex_number 4 0 s) as [[hi rest]|] eqn:E; [|done].
  apply hex_number_length in E.
  destruct (_ && _); [|by intros [= _ ->]].
  destruct (hex_number 4 0 (str_drop 2 rest)) as [[lo rest']|] eqn:E'; [|done].
  apply hex_number_length in E'. rewrite drop_length in E'.
  destruct (_ && _); intros [= _ ->]; lia.
Qed.

Lemma json_string_consumes fuel acc s :
  (String.length s <= fuel)%nat -> consumes (json_string fuel acc s) s.
Proof.
  revert acc s. induction fuel as [|fuel IH]; intros acc s H; destruct s as [|c s]; cbn in *; try done; [lia|].
  assert (forall acc t, (String.length t <= String.length s)%nat -> consumes (json_string fuel acc t) (String c s))
    as Hrec.
  { intros acc' t Ht. specialize (IH acc' t ltac:(lia)). unfold consumes in *.
    destruct (json_string fuel acc' t); cbn; [lia | done]. }
  destruct (code c =? 34)%N; [cbn; lia|].
  destruct (code c <? 32)%N; [done|]. destruct (code c =? 92)%N; [|by apply Hrec].
  destruct s as [|e s]; [done|]. cbn [String.length] in *. destruct (code e =? 117)%N.
  - destruct (unicode_escape s) as [[z t]|] eqn:E; [|done]. apply unicode_escape_length in E.
    apply Hrec. lia.
  - destruct (simple_escape e); [|done]. apply Hrec. lia.
Qed.

Lemma digit_run_length s : (String.length (digit_run s).1 + String.length (digit_run s).2 = String.length s)%nat.
Proof. induction s as [|c s IH]; cbn; [done|]. destruct (is_digit c); cbn; lia. Qed.

Lemma frac_part_length s : (String.length (frac_part s).2 <= String.length s)%nat.
Proof.
  unfold frac_part. repeat case_goal; cbn; try lia; subst;
    match goal with |- context [digit_run ?t] => pose proof (digit_run_length t) end; lia.
Qed.

Lemma exp_part_length s : (String.length (exp_part s).2 <= String.length s)%nat.
Proof.
  unfold exp_part. destruct s as [|e s]; [done|]. destruct (bool_decide _); [|cbn; lia].
  match goal with |- context [let '(_, _) := ?m in _] => destruct m as [sign t] eqn:E end.
  assert (String.length t <= String.length s)%nat as Ht.
  { revert E. repeat case_goal; intros [= <- <-]; cbn; lia. }
  pose proof (digit_run_length t). destruct (bool_decide _); cbn; lia.
Qed.

Lemma int_part_length s :
  (int_part s).1 <> "" -> (String.length (int_part s).2 < String.length s)%nat.
Proof.
  assert ((digit_run s).1 <> "" -> (String.length (digit_run s).2 < String.length s)%nat) as H.
  { pose proof (digit_run_length s). destruct (digit_run s).1; cbn in *; [done | lia]. }
  unfold int_part. repeat case_goal; auto; cbn; lia.
Qed.

Lemma json_number_consumes s : consumes (json_number s) s.
Proof.
  unfold json_number.
  match goal with |- context [let '(_, _) := ?m in _] => destruct m as [sign t] eqn:E end.
  assert (String.length t <= String.length s)%nat as Ht.
  { revert E. repeat case_goal; intros [= <- <-]; cbn; lia. }
  pose proof (int_part_length t) as Hi. destruct (int_part t) as [i u]. cbn [fst snd] in Hi.
  destruct (bool_decide_reflect (i = "")) as [|Hne]; [done|]. specialize (Hi Hne).
  pose proof (frac_part_length u). destruct (frac_part u) as [f v].
  pose proof (exp_part_length v). destruct (exp_part v) as [e w]. cbn [fst snd] in *.
  destruct (bool_decide _).
  - destruct (int_of_str _); cbn; [lia | done].
  - destruct (float_of_str _); cbn; [lia | done].
Qed.

Lemma json_word_consumes words s r :
  Forall (fun w => w.1 <> "") words -> json_word words s = Some r ->
  (String.length r.2 < String.length s)%nat.
Proof.
  induction 1 as [|[w v] words Hw _ IH]; [done|]. cbn. unfold str_startswith.
  destruct (String.prefix w s) eqn:E; [|done]. intros [= <-]. apply prefix_length in E. cbn.
  rewrite drop_length. destruct w; cbn in *; [done | lia].
Qed.

Lemma consumes_le {A} (r : Res (A * string)) s t :
  consumes r s -> (String.length s <= String.length t)%nat -> consumes r t.
Proof. unfold consumes. destruct r; [lia | done]. Qed.

Definition value_consumes fuel : Prop :=
  forall s, (2 * String.length s + 1 <= fuel)%nat -> consumes (json_value fuel s) s.
Definition elements_consume fuel : Prop :=
  forall acc s, (2 * String.length s + 2 <= fuel)%nat -> consumes (json_elements fuel acc s) s.
Definition members_consume fuel : Prop :=
  forall acc s, (2 * String.length s + 2 <= fuel)%nat -> consumes (json_members fuel acc s) s.


Lemma elements_step fuel : value_consumes fuel -> elements_consume fuel -> elements_consume (S fuel).
Proof.
  intros Hv He acc s Hf. cbn [json_elements]. pose proof (Hv s ltac:(lia)) as Hc. unfold consumes in Hc.
  destruct (json_value fuel s) as [[v r]|e]; [|exact Hc]. cbn [mbind res_bind fst snd] in *.
  pose proof (skip_space_length r) as Hs.
  destruct (skip_space r) as [|c u] eqn:E; [done|]. cbn [String.length] in Hs.
  assert (consumes (json_elements fuel (acc ++ [v]) (skip_space u)) s) as Hrec.
  { pose proof (skip_space_length u). eapply consumes_le; [apply He|]; lia. }
  destruct c as [[] [] [] [] [] [] [] []]; try done. cbn. lia.
Qed.

Lemma members_step fuel : value_consumes fuel -> members_consume fuel -> members_consume (S fuel).
Proof.
  intros Hv Hm acc s Hf. cbn [json_members]. destruct s as [|q t]; [done|]. cbn [String.length] in Hf.
  destruct (negb (code q =? 34)%N); [done|].
  pose proof (json_string_consumes (String.length t) "" t ltac:(lia)) as Hk. unfold consumes in Hk.
  destruct (json_string _ "" t) as [[k r]|e]; [|exact Hk]. cbn [mbind res_bind fst snd] in *.
  pose proof (skip_space_length r) as Hs. destruct (skip_space r) as [|c u] eqn:E; [done|]. cbn [String.length] in Hs.
  pose proof (skip_space_length u) as Hu.
  pose proof (Hv (skip_space u) ltac:(lia)) as Hc. unfold consumes in Hc.
  assert (consumes (r0 ← json_value fuel (skip_space u);
      match skip_space r0.2 with
      | String "}" w => Ok (VDict (dset k r0.1 acc), w)
      | String "," w => json_members fuel (dset k r0.1 acc) (skip_space w)
      | _ => Err JSONDecodeError
      end) (String q t)) as Hrec.
  2:{ destruct c as [[] [] [] [] [] [] [] []]; done. }
  destruct (json_value fuel (skip_space u)) as [[v r']|e]; [|exact Hc]. cbn [mbind res_bind fst snd] in *.
  pose proof (skip_space_length r') as Hs'. destruct (skip_space r') as [|d w] eqn:E'; [done|].
  cbn [String.length] in Hs'. pose proof (skip_space_length w).
  assert (consumes (json_members fuel (dset k v acc) (skip_space w)) (String q t)) as Hrec.
  { eapply consumes_le; [apply Hm|]; cbn [String.length]; lia. }
  destruct d as [[] [] [] [] [] [] [] []]; try done. cbn. lia.
Qed.

Lemma value_step fuel :
  elements_consume fuel -> members_consume fuel -> value_consumes (S fuel).
Proof.
  intros He Hm s Hf. cbn [json_value]. destruct s as [|c t]; [done|]. cbn [String.length] in Hf.
  destruct (code c =? 34)%N.
  { pose proof (json_string_consumes (String.length t) "" t ltac:(lia)) as Hk. unfold consumes in *.
    destruct (json_string _ "" t) as [[k r]|e]; [|exact Hk]. cbn in *. lia. }
  pose proof (skip_space_length t) as Hs.
  assert (consumes (json_members fuel [] (skip_space t)) (String c t)) as H1.
  { eapply consumes_le; [apply Hm|]; cbn [String.length]; lia. }
  assert (consumes (json_elements fuel [] (skip_space t)) (String c t)) as H2.
  { eapply consumes_le; [apply He|]; cbn [String.length]; lia. }
  destruct (code c =? 123)%N.
  { destruct (skip_space t) as [|d u]; [done|]. cbn [String.length] in Hs.
    destruct d as [[] [] [] [] [] [] [] []]; try done. cbn. lia. }
  destruct (code c =? 91)%N.
  { destruct (skip_space t) as [|d u]; [done|]. cbn [String.length] in Hs.
    destruct d as [[] [] [] [] [] [] [] []]; try done. cbn. lia. }
  destruct (json_word json_words (String c t)) as [r|] eqn:E; [|apply json_number_consumes].
  eapply json_word_consumes, E. repeat constructor; done.
Qed.

Lemma json_consumes fuel : value_consumes fuel /\ elements_consume fuel /\ members_consume fuel.
Proof.
  induction fuel as [|fuel (Hv & He & Hm)].
  - split; [|split]; intros s; intros; cbn in *; lia.
  - auto using value_step, elements_step, members_step.
Qed.

(** The fuel of [json_loads] never runs out: an error is one that Python
    raises. *)
Lemma json_loads_fuel s : json_loads s <> Err OutOfFuel.
Proof.
  unfold json_loads. destruct (str_startswith bom s); [done|].
  pose proof (skip_space_length s).
  pose proof (proj1 (json_consumes (2 * String.length s + 1)) (skip_space s) ltac:(lia)) as Hc.
  unfold consumes in Hc. destruct (json_value _ _) as [[v r]|e]; cbn [mbind res_bind].
  - by destruct (bool_decide _).
  - congruence.
Qed.

(** The text [{"a": [1, -2.5e1, "x\n"], "b": {"c": null}, "a": true}]. *)
Definition json_sample : string :=
  let q s := chr 34 +:+ s +:+ chr 34 in
  "{" +:+ q "a" +:+ ": [1, -2.5e1, " +:+ q "x\u00e9\n" +:+ "], " +:+ q "b" +:+ ": {" +:+ q "c" +:+ ": null}, "
  +:+ q "a" +:+ ": true} ".

Example json_loads_sample :
  json_loads json_sample = Ok (VDict [("a", VBool true); ("b", VDict [("c", VNone)])]).
Proof. vm_compute. reflexivity. Qed.
