(* ===== verification/Base64.v ===== *)
(** Base64 as [binascii.a2b_base64] decodes it, the two decoders of the module
    [base64] that the code uses, and the UTF-8 decoding of their results; the JWT
    parts of [api/auth/utils.py] and the certificates of
    [api/auth/hashicorp_vault/auth.py].

    Text is its UTF-8 bytes, as everywhere; an invalid text is an error of
    [decode("utf-8")]. *)
From stdpp Require Import base list strings.
From Stdlib Require Import Ascii ZArith Lia.
From S2P Require Import Prelude PyStr PyNum PyVal Json.

Open Scope string_scope.
Open Scope Z_scope.
#[local] Arguments String.append !s1 s2 / : simpl nomatch.

(** Both are subclasses of [ValueError]. *)
Definition binascii_Error : exn := OtherException "binascii.Error".
Definition UnicodeDecodeError : exn := OtherException "UnicodeDecodeError".

Definition chr_of (z : Z) : ascii := ascii_of_N (Z.to_N z).
Definition ord (c : ascii) : Z := Z.of_N (code c).

(** ** [binascii.a2b_base64] *)

(** The six bits of a character of the alphabet. *)
Definition sextet (c : ascii) : option Z :=
  let n := ord c in
  if (65 <=? n) && (n <=? 90) then Some (n - 65)
  else if (97 <=? n) && (n <=? 122) then Some (n - 71)
  else if (48 <=? n) && (n <=? 57) then Some (n + 4)
  else if n =? 43 then Some 62
  else if n =? 47 then Some 63 else None.

Section decoder.
(** Whether padding after complete groups is an error in strict mode, which
    depends on the version of the interpreter. *)
Context (excess_padding_error strict : bool).

(** The state of the loop: whether padding was seen, the place in the group of
    four, the bits left over and the length of the padding. *)
Fixpoint a2b (padding_started : bool) (quad_pos leftchar pads : Z) (s : string) : Res string :=
  match s with
  | "" => if quad_pos =? 0 then Ok "" else Err binascii_Error
  | String c s =>
      if bool_decide (c = "="%char) then
        if strict && excess_padding_error && (quad_pos =? 0) then Err binascii_Error
        else
          let pads := if 2 <=? quad_pos then pads + 1 else pads in
          if (2 <=? quad_pos) && (4 <=? quad_pos + pads) then
            if strict && negb (bool_decide (s = "")) then Err binascii_Error else Ok ""
          else a2b true quad_pos leftchar pads s
      else match sextet c with
           | None => if strict then Err binascii_Error else a2b padding_started quad_pos leftchar pads s
           | Some v =>
               if strict && padding_started then Err binascii_Error
               else if quad_pos =? 0 then a2b padding_started 1 v 0 s
               else if quad_pos =? 1 then
                 String (chr_of (leftchar * 4 + v / 16)) <$> a2b padding_started 2 (v mod 16) 0 s
               else if quad_pos =? 2 then
                 String (chr_of (leftchar * 16 + v / 4)) <$> a2b padding_started 3 (v mod 4) 0 s
               else String (chr_of (leftchar * 64 + v)) <$> a2b padding_started 0 0 0 s
           end
  end.

Definition a2b_base64 (s : string) : Res string :=
  if strict && str_startswith "=" s then Err binascii_Error else a2b false 0 0 0 s.
End decoder.

(** Only ASCII text is decoded. *)
Definition is_ascii (s : string) : bool := str_forall (fun c => ord c <? 128) s.

(** [base64.b64decode(s, validate=True)] *)
Definition b64decode_strict (excess_padding_error : bool) (s : string) : Res string :=
  if is_ascii s then a2b_base64 excess_padding_error true s else Err ValueError.

(** [base64.urlsafe_b64decode(s)] *)
Definition url_char (c : ascii) : ascii :=
  if bool_decide (c = "-"%char) then "+"%char else if bool_decide (c = "_"%char) then "/"%char else c.
Definition urlsafe_b64decode (s : string) : Res string :=
  if is_ascii s then a2b_base64 false false (str_map url_char s) else Err ValueError.

(** ** [bytes.decode("utf-8")] *)

Definition continuation (lo hi : Z) (c : ascii) : bool := (lo <=? ord c) && (ord c <=? hi).

(** The lengths and ranges of Unicode's table of well-formed byte sequences. *)
Fixpoint utf8_valid (s : string) : bool :=
  match s with
  | "" => true
  | String c s1 =>
      let n := ord c in
      if n <? 128 then utf8_valid s1
      else match s1 with
      | "" => false
      | String c1 s2 =>
          if (194 <=? n) && (n <=? 223) then continuation 128 191 c1 && utf8_valid s2
          else match s2 with
          | "" => false
          | String c2 s3 =>
              if (224 <=? n) && (n <=? 239) then
                continuation (if n =? 224 then 160 else 128) (if n =? 237 then 159 else 191) c1
                && continuation 128 191 c2 && utf8_valid s3
              else match s3 with
              | "" => false
              | String c3 s4 =>
                  (240 <=? n) && (n <=? 244)
                  && continuation (if n =? 240 then 144 else 128) (if n =? 244 then 143 else 191) c1
                  && continuation 128 191 c2 && continuation 128 191 c3 && utf8_valid s4
              end
          end
      end
  end.

Definition decode_utf8 (s : string) : Res string := if utf8_valid s then Ok s else Err UnicodeDecodeError.

(** ** The encoder, a reference for the theorems

    [base64.b64encode], with its padding or without. *)

Definition alphabet (v : Z) : ascii :=
  chr_of (if v <? 26 then v + 65 else if v <? 52 then v + 71 else if v <? 62 then v - 4
          else if v =? 62 then 43 else 47).

Fixpoint b64encode (pad : bool) (s : string) : string :=
  match s with
  | "" => ""
  | String a "" =>
      String (alphabet (ord a / 4)) (String (alphabet (ord a mod 4 * 16)) (if pad then "==" else ""))
  | String a (String b "") =>
      String (alphabet (ord a / 4)) (String (alphabet (ord a mod 4 * 16 + ord b / 16))
        (String (alphabet (ord b mod 16 * 4)) (if pad then "=" else "")))
  | String a (String b (String c s)) =>
      String (alphabet (ord a / 4)) (String (alphabet (ord a mod 4 * 16 + ord b / 16))
        (String (alphabet (ord b mod 16 * 4 + ord c / 64)) (String (alphabet (ord c mod 64))
          (b64encode pad s))))
  end.

(** The alphabet of URLs. *)
Definition to_url_char (c : ascii) : ascii :=
  if bool_decide (c = "+"%char) then "-"%char else if bool_decide (c = "/"%char) then "_"%char else c.
Definition urlsafe_b64encode (pad : bool) (s : string) : string := str_map to_url_char (b64encode pad s).

Definition b64_sample : string := "caf" +:+ byte 195 +:+ byte 169 +:+ ".".
Example b64_sample_encoded : urlsafe_b64encode true b64_sample = "Y2Fmw6ku". Proof. by vm_compute. Qed.
Example b64_sample_padded : urlsafe_b64encode true (b64_sample +:+ "??") = "Y2Fmw6kuPz8=". Proof. by vm_compute. Qed.
Example b64_lenient : urlsafe_b64decode "Y 2F*mPw==ignored" = Ok "caf?". Proof. by vm_compute. Qed.
Example b64_strict : b64decode_strict false "Y2Fm*" = Err binascii_Error. Proof. by vm_compute. Qed.

(** ** Round trips *)

Lemma below_64 (P : Z -> bool) : forallb P (seqZ 0 64) = true -> forall v, 0 <= v < 64 -> P v = true.
Proof.
  intros H v Hv. rewrite forallb_forall in H. apply H, list_elem_of_In, elem_of_seqZ. lia.
Qed.

Lemma alphabet_facts v : 0 <= v < 64 ->
  sextet (alphabet v) = Some v /\ sextet (url_char (to_url_char (alphabet v))) = Some v /\
  alphabet v <> "="%char /\ ord (alphabet v) < 128 /\ ord (to_url_char (alphabet v)) < 128 /\
  url_char (to_url_char (alphabet v)) = alphabet v.
Proof.
  intros Hv.
  pose proof (below_64 (fun v => bool_decide
    (sextet (alphabet v) = Some v /\ sextet (url_char (to_url_char (alphabet v))) = Some v /\
     alphabet v <> "="%char /\ ord (alphabet v) < 128 /\ ord (to_url_char (alphabet v)) < 128 /\
     url_char (to_url_char (alphabet v)) = alphabet v)) ltac:(by vm_compute) v Hv) as H.
  by apply bool_decide_eq_true in H.
Qed.

Lemma ord_range c : 0 <= ord c < 256.
Proof. unfold ord, code. pose proof (N_ascii_bounded c). lia. Qed.

Lemma chr_ord c : chr_of (ord c) = c.
Proof. unfold chr_of, ord, code. by rewrite N2Z.id, ascii_N_embedding. Qed.

Lemma chr_ord_eq z c : z = ord c -> chr_of z = c.
Proof. intros ->. apply chr_ord. Qed.

(** One character of the alphabet. *)
Lemma a2b_char ex strict quad left pads v s : 0 <= v < 64 ->
  a2b ex strict false quad left pads (String (alphabet v) s) =
    if quad =? 0 then a2b ex strict false 1 v 0 s
    else if quad =? 1 then String (chr_of (left * 4 + v / 16)) <$> a2b ex strict false 2 (v mod 16) 0 s
    else if quad =? 2 then String (chr_of (left * 16 + v / 4)) <$> a2b ex strict false 3 (v mod 4) 0 s
    else String (chr_of (left * 64 + v)) <$> a2b ex strict false 0 0 0 s.
Proof.
  intros Hv. destruct (alphabet_facts v Hv) as (Hs & _ & Hp & _).
  cbn [a2b]. rewrite bool_decide_false by done. rewrite Hs. by rewrite andb_false_r.
Qed.

(** Goals about the bits of a group. *)
Ltac bits := apply chr_ord_eq; Z.to_euclidean_division_equations; lia.

(** Encoded text decodes, whatever follows, if what follows ends it. *)
Definition ends (ex strict : bool) (pad : bool) (t : string) : Prop :=
  a2b ex strict false 0 0 0 t = Ok "" /\
  (forall left, a2b ex strict false 2 left 0 ((if pad then "==" else "") +:+ t) = Ok "") /\
  (forall left, a2b ex strict false 3 left 0 ((if pad then "=" else "") +:+ t) = Ok "").

Lemma a2b_encode ex strict pad t : ends ex strict pad t -> forall n s, (String.length s <= n)%nat ->
  a2b ex strict false 0 0 0 (b64encode pad s +:+ t) = Ok s.
Proof.
  intros (E0 & E2 & E3). induction n as [|n IH]; intros s Hn.
  { destruct s; [done | cbn in Hn; lia]. }
  destruct s as [|a [|b [|c s]]]; [done| | |]; cbn [b64encode].
  - cbn [String.append]. pose proof (ord_range a).
    rewrite !a2b_char by (Z.to_euclidean_division_equations; lia). cbn [Z.eqb]. rewrite E2. cbn.
    do 2 f_equal. bits.
  - cbn [String.append]. pose proof (ord_range a). pose proof (ord_range b).
    rewrite !a2b_char by (Z.to_euclidean_division_equations; lia). cbn [Z.eqb]. rewrite E3. cbn.
    do 2 f_equal; [bits|]. f_equal. bits.
  - cbn [String.append]. pose proof (ord_range a). pose proof (ord_range b). pose proof (ord_range c).
    rewrite !a2b_char by (Z.to_euclidean_division_equations; lia). cbn [Z.eqb].
    rewrite IH by (cbn in Hn; lia). cbn.
    do 2 f_equal; [bits|]. f_equal; [bits|]. f_equal. bits.
Qed.

Lemma encode_forall (p : ascii -> bool) pad :
  (forall v, 0 <= v < 64 -> p (alphabet v) = true) -> p "="%char = true ->
  forall n s, (String.length s <= n)%nat -> str_forall p (b64encode pad s) = true.
Proof.
  intros Hp He. induction n as [|n IH]; intros s Hn.
  { destruct s; [done | cbn in Hn; lia]. }
  destruct s as [|a [|b [|c s]]]; [done| | |]; cbn [b64encode str_forall];
    repeat match goal with c : ascii |- _ => lazymatch goal with H : 0 <= ord c < 256 |- _ => fail | _ => pose proof (ord_range c) end end;
    rewrite !Hp by (Z.to_euclidean_division_equations; lia); [by destruct pad; cbn; rewrite ?He ..|].
  rewrite IH by (cbn in Hn; lia). done.
Qed.

(** Strict decoding inverts encoding with padding. *)
Lemma b64_strict_roundtrip ex s : b64decode_strict ex (b64encode true s) = Ok s.
Proof.
  unfold b64decode_strict, is_ascii.
  rewrite (encode_forall _ true) with (n := String.length s);
    [| intros v Hv; by apply Z.ltb_lt, alphabet_facts | by vm_compute | lia].
  unfold a2b_base64.
  replace (str_startswith "=" (b64encode true s)) with false; last first.
  { symmetry. unfold str_startswith. destruct s as [|a [|b [|c s]]]; [done| | |]; cbn [b64encode String.prefix];
      (destruct (ascii_dec _ _) as [He|]; [|done]); exfalso; pose proof (ord_range a);
      (destruct (alphabet_facts (ord a / 4)) as (_ & _ & Hne & _); [Z.to_euclidean_division_equations; lia | by rewrite <- He in Hne]). }
  rewrite andb_false_r, <- (append_nil_r (b64encode true s)).
  apply (a2b_encode ex true true "") with (n := String.length s); [|lia].
  split; [done|]. by split; intros left; destruct ex.
Qed.

(** The decoder for URLs inverts its encoding with padding, without it, and with
    two more characters of padding. *)
Lemma b64_url_roundtrip pad s t : t = "" /\ pad = true \/ t = "==" ->
  urlsafe_b64decode (urlsafe_b64encode pad s +:+ t) = Ok s.
Proof.
  intros Ht. unfold urlsafe_b64decode, urlsafe_b64encode, is_ascii.
  rewrite str_forall_app, str_forall_map, (encode_forall _ pad) with (n := String.length s);
    [| intros v Hv; by apply Z.ltb_lt, alphabet_facts | by vm_compute | lia].
  replace (str_forall _ t) with true by (by destruct Ht as [[-> _]| ->]).
  cbn [andb]. rewrite str_map_app, str_map_id; last first.
  { apply encode_forall with (n := String.length s); [| by vm_compute | lia].
    intros v Hv. apply bool_decide_eq_true, alphabet_facts, Hv. }
  replace (str_map url_char t) with t by (by destruct Ht as [[-> _]| ->]).
  unfold a2b_base64. cbn [andb]. apply a2b_encode with (n := String.length s); [|lia].
  destruct Ht as [[-> ->]| ->]; (split; [done|]); [by split; intros left | by split; intros left; destruct pad].
Qed.
