(* ===== verification/NetworkUtils.v ===== *)
(** Addresses and inventories: [scanner/network/utils.py].

    The address tests are those of Python's [ipaddress] module, which is
    modelled here as far as these functions use it.  Expanding host patterns
    needs Ansible's own parser and is not modelled. *)
From stdpp Require Import base sets list strings.
From Stdlib Require Import Ascii ZArith Lia.
From S2P Require Import Prelude PyStr PyNum PyVal.

Open Scope string_scope.
Open Scope Z_scope.

(** ** [ipaddress.IPv4Address] and [ipaddress.IPv6Address] on text *)

(** [_parse_octet] *)
Definition valid_octet (octet_str : string) : bool :=
  negb (bool_decide (octet_str = "")) && str_forall is_digit octet_str &&
  (String.length octet_str <=? 3)%nat &&
  (bool_decide (octet_str = "0") || negb (str_startswith "0" octet_str)) &&
  (digits_value octet_str 0 <=? 255).

Definition is_valid_ipv4_address (address : string) : bool :=
  negb (str_contains "/" address) &&
  (let octets := str_split "." address in
   (length octets =? 4)%nat && forallb valid_octet octets).

Definition is_hex (c : ascii) : bool :=
  is_hex_lower c || ((65 <=? code c)%N && (code c <=? 70)%N).

(** [_parse_hextet] *)
Definition valid_hextet (hextet_str : string) : bool :=
  negb (bool_decide (hextet_str = "")) && str_forall is_hex hextet_str &&
  (String.length hextet_str <=? 4)%nat.

(** The parts of the address; a dotted last part stands for two hextets. *)
Definition ipv6_parts (parts : list string) : option (list string) :=
  match last parts with
  | Some p => if str_contains "." p
              then if is_valid_ipv4_address p
                   then Some (take (length parts - 1) parts ++ ["0"; "0"])%list else None
              else Some parts
  | None => None
  end.

(** The positions of the empty parts other than the first and the last. *)
Definition inner_empty (parts : list string) : list nat :=
  List.filter (fun i => bool_decide (parts !! i = Some "")) (seq 1 (length parts - 2)).

Definition valid_ipv6_parts (parts : list string) : bool :=
  let n := length parts in
  let starts_empty := bool_decide (head parts = Some "") in
  let ends_empty := bool_decide (last parts = Some "") in
  (n <=? 9)%nat &&
  match inner_empty parts with
  | [] => (n =? 8)%nat && negb starts_empty && negb ends_empty && forallb valid_hextet parts
  | [skip] =>
      let hi := if starts_empty then (skip - 1)%nat else skip in
      let lo := if ends_empty then (n - skip - 2)%nat else (n - skip - 1)%nat in
      negb (starts_empty && negb (hi =? 0)%nat) && negb (ends_empty && negb (lo =? 0)%nat) &&
      (hi + lo <=? 7)%nat &&
      forallb valid_hextet (take hi parts) && forallb valid_hextet (drop (n - lo) parts)
  | _ => false
  end.

Definition valid_scope (address : string) : option string :=
  match str_partition "%" address with
  | (addr, "", _) => Some addr
  | (addr, _, scope_id) =>
      if bool_decide (scope_id = "") || str_contains "%" scope_id then None else Some addr
  end.

Definition is_valid_ipv6_address (address : string) : bool :=
  negb (str_contains "/" address) &&
  match valid_scope address with
  | None => false
  | Some addr =>
      let parts := str_split ":" addr in
      negb (bool_decide (addr = "")) && (3 <=? length parts)%nat &&
      match ipv6_parts parts with
      | Some parts => valid_ipv6_parts parts
      | None => false
      end
  end.

(** One round of [get_ipv4_ipv6_addresses]. *)
Definition sort_address (st : list string * list string) (ip_address : string) :
    list string * list string :=
  if is_valid_ipv4_address ip_address then ((st.1 ++ [ip_address])%list, st.2)
  else if is_valid_ipv6_address ip_address then (st.1, (st.2 ++ [ip_address])%list)
  else st.

Definition get_ipv4_ipv6_addresses (ip_addresses : list string) : list string * list string :=
  foldl sort_address ([], []) ip_addresses.

(** ** Inventories *)

(** A host is a name, or a tuple of a name and a credential. *)
Inductive host_entry : Type :=
| HostName (host : string)
| HostCredential (host : string) (credential : pydict).

Section vault.
(** [decrypt_data_as_unicode] of [api/vault.py], which calls Ansible's vault. *)
Context (decrypt : pyval -> Res pyval).

(** [if v: ansible_dict[k] = v] *)
Definition set_if (k : string) (v : pyval) (d : pydict) : pydict :=
  if truthy v then dset k v d else d.
Definition set_decrypted (k : string) (v : pyval) (d : pydict) : Res pydict :=
  if truthy v then x ← decrypt v; Ok (dset k x d) else Ok d.

Definition _credential_vars (credential : pydict) : Res pydict :=
  let ssh_keyfile := py_or (dget_none "generated_ssh_keyfile" credential)
                           (dget_none "ssh_keyfile" credential) in
  let d := [("ansible_user", dget_none "username" credential)] in
  d ← set_decrypted "ansible_ssh_pass" (dget_none "password" credential) d;
  let d := set_if "ansible_ssh_private_key_file" ssh_keyfile d in
  d ← set_decrypted "ansible_become_pass" (dget_none "become_password" credential) d;
  let d := set_if "ansible_become_method" (dget_none "become_method" credential) d in
  Ok (set_if "ansible_become_user" (dget_none "become_user" credential) d).

Definition _construct_vars (connection_port : pyval) (credential : option pydict) : Res pydict :=
  let ansible_vars := [("ansible_port", connection_port)] in
  match credential with
  | None => Ok ansible_vars
  | Some credential => d ← _credential_vars credential; Ok (dupdate ansible_vars d)
  end.

Definition _get_host_vars (h : host_entry) : Res (string * pydict) :=
  match h with
  | HostName host => Ok (host, [("ansible_host", VStr host)])
  | HostCredential host credentials =>
      host_vars ← _credential_vars credentials; Ok (host, dset "ansible_host" (VStr host) host_vars)
  end.

Definition host_step (hosts_dict : pydict) (h : host_entry) : Res pydict :=
  r ← _get_host_vars h; Ok (dset r.1 (VDict r.2) hosts_dict).

Definition _format_hosts_dict (group : list host_entry) : Res pydict := foldM host_step [] group.

(** [list(set(hosts) - set(exclude_hosts))]: a tuple with a credential dict is
    not hashable. *)
Definition host_name (h : host_entry) : Res string :=
  match h with HostName s => Ok s | HostCredential _ _ => Err TypeError end.

Definition remove_excluded (hosts : list host_entry) (exclude_hosts : list string) : Res (list host_entry) :=
  names ← mapM host_name hosts;
  Ok (HostName <$> filter (fun s => s ∉ exclude_hosts) (dedup names)).

(** [[hosts[i : i + n] for i in range(0, len(hosts), n)]] *)
Fixpoint chunks {A} (fuel n : nat) (l : list A) : list (list A) :=
  match fuel, l with
  | S fuel, _ :: _ => take n l :: chunks fuel n (drop n l)
  | _, _ => []
  end.

Definition concurrency_groups (hosts : list host_entry) (concurrency_count : Z) :
    Res (list (list host_entry)) :=
  if concurrency_count =? 0 then Err ValueError
  else if concurrency_count <? 0 then Ok []
  else Ok (chunks (length hosts) (Z.to_nat concurrency_count) hosts).

Definition group_name (index : nat) : string := "group_" +:+ int_repr (Z.of_nat index).

Definition group_step (st : list string * pydict) (ig : nat * list host_entry) :
    Res (list string * pydict) :=
  hosts ← _format_hosts_dict ig.2;
  Ok ((st.1 ++ [group_name ig.1])%list, dset (group_name ig.1) (VDict [("hosts", VDict hosts)]) st.2).

Definition construct_inventory (hosts : list host_entry) (connection_port : pyval)
    (concurrency_count : Z) (credential : option pydict) (exclude_hosts : option (list string)) :
    Res (list string * pydict) :=
  hosts ← match exclude_hosts with None => Ok hosts | Some ex => remove_excluded hosts ex end;
  groups ← concurrency_groups hosts concurrency_count;
  vars_dict ← _construct_vars connection_port credential;
  r ← foldM group_step ([], []) (zip (seq 0 (length groups)) groups);
  Ok (r.1, [("all", VDict [("children", VDict r.2); ("vars", VDict vars_dict)])]).
End vault.

(** ** Dotted addresses *)

Definition octets : list string := int_repr <$> seqZ 0 256.
Definition digit_chars : list ascii := digit_char <$> seqZ 0 10.

Lemma digit_in c : is_digit c = true -> c ∈ digit_chars.
Proof.
  unfold is_digit. intros [H1 H2]%andb_true_iff. apply N.leb_le in H1, H2.
  unfold digit_chars. apply list_elem_of_fmap. exists (Z.of_N (code c) - 48). split.
  - unfold digit_char. apply code_inj. unfold code in *. rewrite N_ascii_embedding; lia.
  - apply elem_of_seqZ. lia.
Qed.

(** All the texts of one to three digits. *)
Definition short_numbers : list string :=
  let one := (fun c => String c "") <$> digit_chars in
  let more l := c ← digit_chars; s ← l; [String c s] in
  (one ++ more one ++ more (more one))%list.

Lemma short_number s :
  str_forall is_digit s = true -> (1 <= String.length s <= 3)%nat -> s ∈ short_numbers.
Proof.
  intros Hd Hl. unfold short_numbers. rewrite !elem_of_app.
  destruct s as [|a [|b [|c [|d s]]]]; cbn in Hl; try lia; cbn in Hd;
    rewrite ?andb_true_iff in Hd; destruct_and? Hd.
  - left. apply list_elem_of_fmap. eauto using digit_in.
  - right; left. apply list_elem_of_bind. exists a. split; [|auto using digit_in].
    apply list_elem_of_bind. exists (String b ""). split; [left|].
    apply list_elem_of_fmap. eauto using digit_in.
  - right; right. apply list_elem_of_bind. exists a. split; [|auto using digit_in].
    apply list_elem_of_bind. exists (String b (String c "")). split; [left|].
    apply list_elem_of_bind. exists b. split; [|auto using digit_in].
    apply list_elem_of_bind. exists (String c ""). split; [left|].
    apply list_elem_of_fmap. eauto using digit_in.
Qed.

Lemma forallb_in {A} (f : A -> bool) l x : forallb f l = true -> x ∈ l -> f x = true.
Proof. rewrite forallb_forall. intros H Hx. by apply H, list_elem_of_In. Qed.

Lemma implied_in (f : string -> bool) (os l : list string) x :
  forallb (fun s => negb (f s) || bool_decide (s ∈ os)) l = true -> x ∈ l -> f x = true -> x ∈ os.
Proof.
  intros H Hx Hf. apply (forallb_in _ _ _ H) in Hx. rewrite Hf in Hx. by apply bool_decide_eq_true in Hx.
Qed.

Lemma short_octets :
  forallb (fun s => negb (valid_octet s) || bool_decide (s ∈ octets)) short_numbers = true.
Proof. vm_compute. reflexivity. Qed.

Lemma octets_valid : forallb valid_octet octets = true.
Proof. vm_compute. reflexivity. Qed.

Lemma valid_octet_iff s : valid_octet s = true <-> s ∈ octets.
Proof.
  split.
  - intros H. assert (s ∈ short_numbers) as Hs.
    { unfold valid_octet in H. rewrite !andb_true_iff in H. destruct H as [[[[Hne Hd] Hl] _] _].
      apply Nat.leb_le in Hl. apply short_number; [done|]. destruct s; cbn in *; [done | lia]. }
    eapply implied_in; [apply short_octets | done | done].
  - intros Hs. eapply forallb_in; [apply octets_valid | done].
Qed.

Lemma octet_chars s : s ∈ octets -> str_forall is_digit s = true.
Proof.
  intros H%valid_octet_iff. unfold valid_octet in H. rewrite !andb_true_iff in H. tauto.
Qed.

Lemma digits_without c s :
  is_digit c = false -> str_forall is_digit s = true ->
  str_forall (fun d => negb (bool_decide (d = c))) s = true.
Proof.
  intros Hc. apply str_forall_impl. intros d Hd. apply negb_true_iff, bool_decide_eq_false. congruence.
Qed.

(** The text of an address. *)
Definition dotted (a b c d : Z) : string :=
  int_repr a +:+ "." +:+ int_repr b +:+ "." +:+ int_repr c +:+ "." +:+ int_repr d.

Lemma octet_repr z : 0 <= z <= 255 -> int_repr z ∈ octets.
Proof. intros H. unfold octets. apply list_elem_of_fmap. exists z. split; [done|]. apply elem_of_seqZ. lia. Qed.

(** The text accepted as an IPv4 address is exactly the canonical text of four
    numbers from 0 to 255. *)
Theorem ipv4_iff address :
  is_valid_ipv4_address address = true <->
  exists a b c d, Forall (fun z => 0 <= z <= 255) [a; b; c; d] /\ address = dotted a b c d.
Proof.
  unfold is_valid_ipv4_address. rewrite andb_true_iff, andb_true_iff, negb_true_iff, Nat.eqb_eq. split.
  - intros (_ & Hlen & Hall). rewrite forallb_forall in Hall.
    rewrite <- (join_split "." address) by done.
    destruct (str_split "." address) as [|w [|x [|y [|z [|? ?]]]]]; try discriminate Hlen.
    assert (forall o, In o [w; x; y; z] -> exists n, o = int_repr n /\ 0 <= n <= 255) as Ho.
    { intros o Hin%Hall%valid_octet_iff. unfold octets in Hin. apply list_elem_of_fmap in Hin as (n & -> & Hn).
      apply elem_of_seqZ in Hn. exists n. split; [done | lia]. }
    destruct (Ho w) as (a & -> & Ha); [cbn; auto|]. destruct (Ho x) as (b & -> & Hb); [cbn; auto|].
    destruct (Ho y) as (c & -> & Hc); [cbn; auto|]. destruct (Ho z) as (d & -> & Hd); [cbn; auto|].
    exists a, b, c, d. split; [rewrite !Forall_cons; auto | done].
  - intros (a & b & c & d & Hr & ->). rewrite !Forall_cons in Hr. destruct Hr as (Ha & Hb & Hc & Hd & _).
    apply octet_repr in Ha, Hb, Hc, Hd. unfold dotted.
    assert (forall o, o ∈ octets -> str_forall (fun d => negb (bool_decide (d = "/"%char))) o = true) as Hs.
    { intros o Ho. by apply digits_without, octet_chars. }
    assert (forall o r, o ∈ octets -> str_split "." (o +:+ "." +:+ r) = o :: str_split "." r) as Hsplit.
    { intros o r Ho. apply split_no_char. by apply digits_without, octet_chars. }
    split; [|rewrite !Hsplit by done; rewrite split_no_sep].
    + apply contains_char. rewrite !str_forall_app, (Hs (int_repr a)), (Hs (int_repr b)), (Hs (int_repr c)), (Hs (int_repr d)) by done.
      done.
    + split; [done|]. apply forallb_forall. intros o Ho. apply valid_octet_iff.
      cbn in Ho. destruct Ho as [<-|[<-|[<-|[<-|[]]]]]; done.
    + apply contains_char. by apply digits_without, octet_chars.
Qed.

(** ** Inventories *)

Definition entry_name (h : host_entry) : string :=
  match h with HostName s | HostCredential s _ => s end.

Lemma chunks_spec {A} n fuel (l : list A) :
  (0 < n)%nat -> (length l <= fuel)%nat ->
  concat (chunks fuel n l) = l /\ Forall (fun g => 0 < length g <= n)%nat (chunks fuel n l).
Proof.
  intros Hn. revert l. induction fuel as [|fuel IH]; intros [|x l] Hl; cbn in Hl; try (split; done || constructor); [lia|].
  cbn [chunks concat]. destruct (IH (drop n (x :: l))) as [Hc Hf]; [rewrite length_drop; cbn; lia|].
  split; [rewrite Hc; apply take_drop|]. constructor; [|done]. rewrite length_take. cbn. lia.
Qed.

#[export] Instance group_name_inj : Inj (=) (=) group_name.
Proof.
  intros i j H. unfold group_name in H. cbn in H. simplify_eq H. intros H'.
  apply (inj int_repr) in H'. lia.
Qed.

Section inventory.
Context (decrypt : pyval -> Res pyval) (decrypt_total : forall v, is_Ok (decrypt v)).

Lemma set_decrypted_total k v d : is_Ok (set_decrypted decrypt k v d).
Proof. unfold set_decrypted. destruct (truthy v); [|by eexists]. destruct (decrypt_total v) as [x ->]. by eexists. Qed.

Lemma credential_vars_total c : is_Ok (_credential_vars decrypt c).
Proof.
  unfold _credential_vars. apply is_Ok_bind; [apply set_decrypted_total|]. intros d _.
  apply is_Ok_bind; [apply set_decrypted_total|]. intros d' _. by eexists.
Qed.

(** The variables of a host name the host itself. *)
Lemma get_host_vars_spec h :
  exists vars, _get_host_vars decrypt h = Ok (entry_name h, vars) /\
    dget "ansible_host" vars = Some (VStr (entry_name h)).
Proof.
  destruct h as [s|s c]; cbn [_get_host_vars entry_name]; [by eexists|].
  destruct (credential_vars_total c) as [d ->]. cbn [mbind res_bind]. eexists. split; [done|]. apply dget_dset_eq.
Qed.

(** The entry of a host, and the hosts of a group. *)
Definition host_entry_ok (hd : pydict) (h : host_entry) : Prop :=
  exists vars, dget (entry_name h) hd = Some (VDict vars) /\ dget "ansible_host" vars = Some (VStr (entry_name h)).

Lemma format_hosts_spec g :
  exists hd, _format_hosts_dict decrypt g = Ok hd /\
    (forall s, s ∈ dkeys hd <-> s ∈ (entry_name <$> g)) /\ Forall (host_entry_ok hd) g.
Proof.
  unfold _format_hosts_dict. induction g as [|h g IH] using rev_ind.
  { exists []. split; [done|]. split; [done | constructor]. }
  destruct IH as (hd & H & Hk & Hf). destruct (get_host_vars_spec h) as (vars & Hv & Ha).
  exists (dset (entry_name h) (VDict vars) hd). split; [|split].
  - rewrite foldM_app, H. cbn [mbind res_bind foldM]. unfold host_step. by rewrite Hv.
  - intros s. rewrite elem_of_dkeys_dset, fmap_app, elem_of_app, Hk. cbn. rewrite list_elem_of_singleton. tauto.
  - apply Forall_app. split.
    + eapply Forall_impl; [exact Hf|]. intros h' (vars' & Hd & Ha'). unfold host_entry_ok.
      rewrite dget_dset. case_decide as E; [rewrite E; eauto | eauto].
    + constructor; [|done]. exists vars. split; [apply dget_dset_eq | done].
Qed.

(** The groups from index [k] on. *)
Lemma groups_spec groups : forall k names children,
  (forall i, (k <= i)%nat -> group_name i ∉ dkeys children) ->
  exists children', foldM (group_step decrypt) (names, children) (zip (seq k (length groups)) groups) =
      Ok ((names ++ (group_name <$> seq k (length groups)))%list, children') /\
    dkeys children' = (dkeys children ++ (group_name <$> seq k (length groups)))%list /\
    (forall n, n ∈ dkeys children -> dget n children' = dget n children) /\
    (forall i g, groups !! i = Some g -> exists hd,
       dget (group_name (k + i)) children' = Some (VDict [("hosts", VDict hd)]) /\
       (forall s, s ∈ dkeys hd <-> s ∈ (entry_name <$> g)) /\ Forall (host_entry_ok hd) g).
Proof.
  induction groups as [|g groups IH]; intros k names children Hk.
  { exists children. cbn. rewrite !app_nil_r. repeat split; done. }
  destruct (format_hosts_spec g) as (hd & Hg & Hs & Hf).
  set (c1 := dset (group_name k) (VDict [("hosts", VDict hd)]) children).
  assert (dkeys c1 = (dkeys children ++ [group_name k])%list) as Hc1 by (apply dkeys_dset_notin, Hk; lia).
  destruct (IH (S k) (names ++ [group_name k])%list c1) as (c2 & Hrun & Hkeys & Hold & Hnew).
  { intros i Hi. rewrite Hc1. intros [Hin|Hin%list_elem_of_singleton]%elem_of_app.
    - apply (Hk i); [lia | done].
    - apply (inj group_name) in Hin. lia. }
  exists c2. cbn [length seq zip zip_with foldM fmap list_fmap]. split; [|split; [|split]].
  - assert (group_step decrypt (names, children) (k, g) = Ok ((names ++ [group_name k])%list, c1)) as ->.
    { unfold group_step. cbn [fst snd]. by rewrite Hg. }
    cbn [mbind res_bind]. rewrite Hrun. by rewrite <- app_assoc.
  - rewrite Hkeys, Hc1. by rewrite <- app_assoc.
  - intros n Hn. rewrite Hold by (rewrite Hc1; set_solver). apply dget_dset_ne. intros ->. apply (Hk k); [lia | done].
  - intros [|i] g' Hi.
    + injection Hi as <-. exists hd. rewrite Nat.add_0_r. split; [|done].
      rewrite Hold by (rewrite Hc1; set_solver). apply dget_dset_eq.
    + rewrite Nat.add_succ_r. by apply (Hnew i).
Qed.

(** The inventory splits the hosts, in order, into numbered groups of at most
    [concurrency_count] hosts: no host is lost, no group is empty, the names of
    the groups are distinct and are the children of the inventory, and each
    group lists exactly its hosts, each with its own address. *)
Theorem construct_inventory_groups hosts connection_port concurrency_count credential :
  0 < concurrency_count ->
  exists groups children vars,
    let names := group_name <$> seq 0 (length groups) in
    construct_inventory decrypt hosts connection_port concurrency_count credential None =
      Ok (names, [("all", VDict [("children", VDict children); ("vars", VDict vars)])]) /\
    concat groups = hosts /\ Forall (fun g => 0 < length g <= Z.to_nat concurrency_count)%nat groups /\
    NoDup names /\ dkeys children = names /\
    forall i g, groups !! i = Some g -> exists hd,
      dget (group_name i) children = Some (VDict [("hosts", VDict hd)]) /\
      (forall s, s ∈ dkeys hd <-> s ∈ (entry_name <$> g)) /\ Forall (host_entry_ok hd) g.
Proof.
  intros Hn. set (groups := chunks (length hosts) (Z.to_nat concurrency_count) hosts).
  destruct (chunks_spec (Z.to_nat concurrency_count) (length hosts) hosts) as [Hc Hf]; [lia | lia |].
  destruct (groups_spec groups 0 [] []) as (children & Hrun & Hk & _ & Hg); [by intros ? _ ?%elem_of_nil|].
  assert (exists vars, _construct_vars decrypt connection_port credential = Ok vars) as [vars Hv].
  { unfold _construct_vars. destruct credential as [c|]; [|by eexists].
    destruct (credential_vars_total c) as [d ->]. by eexists. }
  exists groups, children, vars. cbv zeta. split.
  { unfold construct_inventory, concurrency_groups. cbn [mbind res_bind].
    rewrite (proj2 (Z.eqb_neq _ _)), (proj2 (Z.ltb_ge _ _)) by lia. cbn [mbind res_bind]. rewrite Hv.
    cbn [mbind res_bind]. fold groups. rewrite Hrun. done. }
  split; [done|]. split; [done|]. split; [apply (NoDup_fmap_2 _), NoDup_ListNoDup, seq_NoDup|]. done.
Qed.
End inventory.

Definition sample_hosts : list host_entry :=
  [HostName "10.0.0.1"; HostCredential "10.0.0.2" [("username", VStr "root"); ("password", VStr "p")]; HostName "10.0.0.3"].

Lemma construct_inventory_groups_witness :
  exists groups children vars,
    construct_inventory Ok sample_hosts (VInt 22) 2 None None =
      Ok (group_name <$> seq 0 (length groups), [("all", VDict [("children", VDict children); ("vars", VDict vars)])]) /\
    concat groups = sample_hosts.
Proof.
  destruct (construct_inventory_groups Ok (fun v => ex_intro _ v eq_refl) sample_hosts (VInt 22) 2 None)
    as (groups & children & vars & H1 & H2 & _); [reflexivity|].
  exists groups, children, vars. split; [exact H1 | exact H2].
Defined.
