(* ===== verification/Processing.v ===== *)
(** Processing of raw Ansible results: the framework.

    Models [scanner/network/processing/process.py] (the function [process] and
    the attributes of a processor), the shared processors of
    [scanner/network/processing/util.py] and [_post_process_facts] of
    [scanner/network/inspect.py].  A processor class is a record of its
    attributes and its [process] method; the registry [PROCESSORS] is an
    argument here and is filled in [Processors.v].  Log lines are omitted,
    except where evaluating them raises. *)
From stdpp Require Import base sets list strings.
From Stdlib Require Import Ascii ZArith Lia.
From S2P Require Import Prelude PyStr PyNum PyVal Formatters.

Open Scope string_scope.
Open Scope Z_scope.

(** ** Python helpers of the processors *)

(** [len(v)] *)
Definition py_len (v : pyval) : Res Z :=
  match v with
  | VStr s => Ok (str_len s)
  | VList l => Ok (Z.of_nat (length l))
  | VDict d => Ok (Z.of_nat (length d))
  | _ => Err TypeError
  end.

(** Keeps the first of equal values: the list form of a [set]. *)
Fixpoint py_dedup (l : list pyval) : list pyval :=
  match l with
  | [] => []
  | x :: l => x :: List.filter (fun y => negb (py_eq x y)) (py_dedup l)
  end.

(** [list(set(l))], in an order Python leaves unspecified; unhashable elements
    raise. *)
Definition py_set (l : list pyval) : Res (list pyval) :=
  if forallb hashable l then Ok (py_dedup l) else Err TypeError.

(** [v.strip()] *)
Definition py_strip (v : pyval) : Res string := str_strip <$> as_str "strip" v.

(** [v.split()[0]]: blank text has no first word. *)
Definition first_word (v : pyval) : Res string :=
  s ← as_str "split" v; from_option IndexError (head (str_words s)).

(** [output["stdout_lines"]] and [output.get("stdout_lines", [])] as iterables. *)
Definition stdout_lines (output : pyval) : Res (list pyval) :=
  v ← getitem output "stdout_lines"; py_iter v.
Definition stdout_lines_or_empty (output : pyval) : Res (list pyval) :=
  v ← vget_default output "stdout_lines" (VList []); py_iter v.

(** [result[k] = v] for a computed key.  Keys of [pydict] are strings, which the
    item names of all the playbooks are; other keys are outside the model. *)
Definition set_item (result : pydict) (k v : pyval) : Res pydict :=
  if negb (hashable k) then Err TypeError else
  match k with VStr s => Ok (dset s v result) | _ => Err Unsupported end.

(** [[line.strip() for line in lines if line]] *)
Definition strip_nonempty (lines : list pyval) : Res pyval :=
  VList <$> mapM (fun x => VStr <$> py_strip x) (List.filter truthy lines).

(** ** [process.py] *)

Definition NO_DATA : pyval := VStr "".
Definition SUDO_ERROR : string := "sudo: a password is required".
Definition QUIPUCORDS_FORCE_POST_PROCESS : string := "QUIPUCORDS_FORCE_POST_PROCESS".

Definition is_sudo_error_value (value : pyval) : bool :=
  match value with
  | VStr s => bool_decide (s = SUDO_ERROR)
  | VList _ => py_eq value (VList [VStr SUDO_ERROR])
  | VDict d => py_eq (default (VStr "") (dget "stdout" d)) (VStr SUDO_ERROR)
  | _ => false
  end.

Definition is_ansible_task_result (value : pyval) : bool :=
  match value with
  | VDict d => dmem "skipped" d || dmem "failed" d || dmem "rc" d || dmem "results" d
  | _ => false
  end.

(** A class that derives from [Processor]. *)
Record processor := {
  p_deps : list string;
  p_require_deps : bool;
  p_return_code_any : bool;
  p_process : pyval -> pydict -> Res pyval }.

(** A processor with the default attributes. *)
Definition plain (f : pyval -> Res pyval) : processor :=
  {| p_deps := []; p_require_deps := true; p_return_code_any := false; p_process := fun o _ => f o |}.

Definition with_deps (deps : list string) (p : processor) : processor :=
  {| p_deps := deps; p_require_deps := p_require_deps p; p_return_code_any := p_return_code_any p;
     p_process := p_process p |}.

Definition any_return_code (p : processor) : processor :=
  {| p_deps := p_deps p; p_require_deps := p_require_deps p; p_return_code_any := true;
     p_process := p_process p |}.

(** A processor that looks at facts processed before it, present or not. *)
Definition optional_deps (deps : list string) (f : pyval -> pydict -> Res pyval) : processor :=
  {| p_deps := deps; p_require_deps := false; p_return_code_any := false; p_process := f |}.

(** The loop over [DEPS]: [None] when [StopIteration] leaves it.  The facts
    processed before are never [Exception] objects ([_post_process_facts] stores
    none), so optional dependencies are not tested at all. *)
Fixpoint gather_deps (require : bool) (previous : pydict) (deps : list string) (acc : pydict) :
    option pydict :=
  match deps with
  | [] => Some acc
  | dep :: deps =>
      if require && (negb (dmem dep previous) || negb (truthy (dget_none dep previous)))
      then None
      else gather_deps require previous deps (dset dep (dget_none dep previous) acc)
  end.

(** The tests on the raw value: [None] when the processor has to run.  The log
    line of a failed command reads [fact_value['stdout']]. *)
Definition reject_value (p : processor) (fact_value : pyval) : Res (option pyval) :=
  if py_eq fact_value (VStr QUIPUCORDS_FORCE_POST_PROCESS) then Ok None else
  if negb (is_ansible_task_result fact_value) then Ok (Some NO_DATA) else
  skipped ← vget_default fact_value "skipped" (VBool false);
  if truthy skipped then Ok (Some NO_DATA) else
  return_code ← vget_default fact_value "rc" (VInt 0);
  if truthy return_code && negb (p_return_code_any p) then
    _ ← getitem fact_value "stdout"; Ok (Some NO_DATA)
  else Ok None.

Section registry.
Context (PROCESSORS : list (string * processor)).

Definition process (previous_host_facts : pydict) (fact_key : string) (fact_value : pyval) :
    Res pyval :=
  if is_sudo_error_value fact_value then Ok NO_DATA else
  match dget fact_key PROCESSORS with
  | None => Ok fact_value
  | Some p =>
      match gather_deps (p_require_deps p) previous_host_facts (p_deps p) [] with
      | None => Ok NO_DATA
      | Some dependencies =>
          rejected ← reject_value p fact_value;
          match rejected with
          | Some v => Ok v
          | None => try_except (p_process p fact_value dependencies) any_exn (fun _ => Ok NO_DATA)
          end
      end
  end.

(** ** [_post_process_facts] of [scanner/network/inspect.py] *)

(** One round of the loop: a fact that makes [process] raise is skipped. *)
Definition post_process_step (facts : pydict) (kv : string * pyval) : pydict :=
  match process facts kv.1 kv.2 with
  | Err _ => facts
  | Ok processed_fact =>
      dset kv.1 (if py_eq processed_fact NO_DATA then VNone else processed_fact) facts
  end.

Definition processed_facts (raw : pydict) : pydict := foldl post_process_step [] raw.

Definition is_internal (fact_key : string) : bool := str_startswith "internal_" fact_key.

(** [fact_names]: the facts that the playbooks set ([get_fact_names]);
    [exclude_internal]: the setting [QUIPUCORDS_EXCLUDE_INTERNAL_FACTS]. *)
Definition raw_facts_template (fact_names : list string) : pydict :=
  foldl (fun d k => dset k VNone d) [] fact_names.

Definition _post_process_facts (fact_names : list string) (exclude_internal : bool) (raw : pydict) :
    pydict :=
  let facts := processed_facts raw in
  let facts := if exclude_internal then List.filter (fun kv => negb (is_internal kv.1)) facts else facts in
  dupdate (raw_facts_template fact_names) facts.
End registry.

(** ** [util.py] *)

(** [get_line(lines, line_index)] *)
Definition get_line (lines : pyval) (line_index : Z) : Res pyval :=
  match getitem_int lines line_index with
  | Err IndexError => Ok NO_DATA
  | r => r
  end.

(** [InitLineFinder]: the lines kept. *)
Definition init_line_matches (KEYWORDS : list string) (IGNORE_WORDS : option (list string))
    (start : string) : bool :=
  existsb (fun keyword => str_contains keyword start) KEYWORDS &&
  match IGNORE_WORDS with
  | None => true
  | Some [] => false
  | Some words => negb (existsb (fun ignore => str_contains ignore start) words)
  end.

Definition init_line_step (KEYWORDS : list string) (IGNORE_WORDS : option (list string))
    (matches : list pyval) (line : pyval) : Res (list pyval) :=
  if negb (truthy line) then Ok matches else
  start ← first_word line;
  if init_line_matches KEYWORDS IGNORE_WORDS start then
    s ← py_strip line; Ok (matches ++ [VStr s])%list
  else Ok matches.

Definition InitLineFinder (KEYWORDS : list string) (IGNORE_WORDS : option (list string))
    (output : pyval) : Res pyval :=
  lines ← stdout_lines output;
  VList <$> foldM (init_line_step KEYWORDS IGNORE_WORDS) [] lines.

(** [jar, date = version_stamp.split("**")] *)
Definition jar_stamp (version_stamp : string) : Res pyval :=
  match str_split "**" version_stamp with
  | [jar; date] => Ok (VDict [("version", VStr jar); ("date", VStr date)])
  | _ => Err ValueError
  end.

Definition FindJarVer (output : pyval) : Res pyval :=
  lines ← stdout_lines output;
  l ← mapM (fun line =>
        if py_eq line (VStr "") then Ok [] else
        s ← as_str "split" line; mapM jar_stamp (str_split "; " s)) lines;
  Ok (VList (concat l)).

Definition FindJar (output : pyval) : Res pyval :=
  lines ← stdout_lines output;
  l ← mapM (fun line =>
        s ← as_str "strip" line;
        Ok (if bool_decide (str_strip s = "") then [] else VStr <$> str_split "; " s)) lines;
  Ok (VList (concat l)).

(** [PerItemProcessor]: an exception of [process_item] and a [None] both leave
    the item out. *)
Definition per_item_step (process_item : pyval -> Res pyval) (result : pydict) (item : pyval) :
    Res pydict :=
  item_name ← getitem item "item";
  if negb (truthy item_name) then Ok result else
  match process_item item with
  | Err _ | Ok VNone => Ok result
  | Ok val => set_item result item_name val
  end.

Definition PerItemProcessor (process_item : pyval -> Res pyval) (output : pyval) : Res pyval :=
  results ← getitem output "results";
  items ← py_iter results;
  VDict <$> foldM (per_item_step process_item) [] items.

(** [item.get("rc", True)] is true: the command failed or did not run. *)
Definition item_failed (item : pyval) : Res bool :=
  truthy <$> vget_default item "rc" (VBool true).

Definition IndicatorFileFinder_process_item (INDICATOR_FILES : list string) (item : pyval) : Res pyval :=
  failed ← item_failed item;
  if (failed : bool) then Ok (VList []) else
  files ← getitem item "stdout_lines";
  found_in_dir ← filterM (fun filename => str_in filename files) INDICATOR_FILES;
  Ok (VList (VStr <$> found_in_dir)).

Definition StdoutSearch_process_item (SEARCH_STRING : string) (item : pyval) : Res pyval :=
  failed ← item_failed item;
  if (failed : bool) then Ok (VBool false) else
  stdout ← getitem item "stdout"; VBool <$> str_in SEARCH_STRING stdout.

(** [item["rc"] == 0 and item["stdout"].strip()] *)
Definition StdoutPassthrough_process_item (item : pyval) : Res pyval :=
  rc ← getitem item "rc";
  if negb (py_eq rc (VInt 0)) then Ok (VBool false) else
  stdout ← getitem item "stdout"; VStr <$> py_strip stdout.

Definition IndicatorFileFinder (INDICATOR_FILES : list string) : processor :=
  plain (PerItemProcessor (IndicatorFileFinder_process_item INDICATOR_FILES)).
Definition StdoutSearchProcessor (SEARCH_STRING : string) : processor :=
  plain (PerItemProcessor (StdoutSearch_process_item SEARCH_STRING)).
Definition StdoutPassthroughProcessor : processor :=
  plain (PerItemProcessor StdoutPassthrough_process_item).
