(* ===== verification/Processors.v ===== *)
(** The processors of the network scan, one per fact, and their registry
    [PROCESSORS].

    Models the modules of [scanner/network/processing/].  Each definition is the
    [process] or [process_item] method of the class it is named after. *)
From stdpp Require Import base sets list strings.
From Stdlib Require Import Ascii ZArith Lia SpecFloat.
From S2P Require Import Prelude PyStr PyNum PyVal Formatters Json NetworkUtils Processing.

Open Scope string_scope.
Open Scope Z_scope.

Definition last_line (v : pyval) : Res pyval := getitem_int v (-1).

(** [any(...)] over a literal list of substrings. *)
Definition lower_contains (sub : string) (v : pyval) : Res bool :=
  s ← as_str "lower" v; Ok (str_contains sub (str_lower s)).

(** ** [eap.py] *)

Definition FIND_WARNING : string :=
  "find: WARNING: Hard link count is wrong for /proc: this may be a bug in your filesystem driver.".

Definition ProcessJbossEapRunningPaths (output : pyval) : Res pyval :=
  stdout ← getitem output "stdout";
  warned ← str_in FIND_WARNING stdout;
  if (warned : bool) then Ok NO_DATA else
  lines ← stdout_lines output; strip_nonempty lines.

Definition ProcessFindJboss (output : pyval) : Res pyval :=
  lines ← stdout_lines_or_empty output;
  VList <$> filterM (fun line => s ← as_str "split" line; Ok (bool_decide (str_words s <> []))) lines.

(** The second message is quoted with U+2018 and U+2019, in UTF-8 here. *)
Definition no_such_user : list string :=
  ["id: jboss: no such user";
   "id: " +:+ chr 226 +:+ chr 128 +:+ chr 152 +:+ "jboss" +:+ chr 226 +:+ chr 128 +:+ chr 153 +:+ ": no such user";
   "id: 'jboss': no such user"].

Definition ProcessIdUJboss (output : pyval) : Res pyval :=
  rc ← vget_default output "rc" (VInt 1);
  if py_eq rc (VInt 0) then Ok (VBool true) else
  stdout ← getitem output "stdout";
  s ← py_strip stdout;
  Ok (if bool_decide (str_lower s ∈ no_such_user) then VBool false else NO_DATA).

Definition common_files_step (out_list : list pyval) (item : pyval) : Res (list pyval) :=
  directory ← getitem item "item";
  has_rc ← str_in "rc" item;
  if (has_rc : bool) then
    rc ← getitem item "rc";
    Ok (if py_eq rc (VInt 0) then (out_list ++ [directory])%list else out_list)
  else Ok out_list.

Definition ProcessJbossEapCommonFiles (output : pyval) : Res pyval :=
  results ← vget_default output "results" (VList []);
  items ← py_iter results;
  VList <$> foldM common_files_step [] items.

Definition IGNORE_PROCESSES : list string := ["bash"; "grep"; "oom_reaper"].

(** [line.split(None, 1)[0]] is the first word. *)
Definition count_process (num_matches : Z) (line : pyval) : Res Z :=
  w ← first_word line;
  Ok (if bool_decide (w ∈ IGNORE_PROCESSES) then num_matches else num_matches + 1).

Definition ProcessJbossProcesses (output : pyval) : Res pyval :=
  rc ← vget_default output "rc" (VInt 1);
  if negb (py_eq rc (VInt 0)) then Ok (VInt 0) else
  lines ← stdout_lines output;
  VInt <$> foldM count_process 0 lines.

Definition ProcessJbossEapPackages (output : pyval) : Res pyval :=
  lines ← getitem output "stdout_lines"; VInt <$> py_len lines.

Definition ProcessJbossEapLocate (output : pyval) : Res pyval :=
  lines ← stdout_lines output; strip_nonempty lines.

Definition ProcessJbossEapChkconfig : pyval -> Res pyval :=
  InitLineFinder ["jboss"; "eap"] (Some ["e2scrub_reap"]).

(** The longest prefix of non-blank characters: [\S*]. *)
Fixpoint nonspace (s : string) : string :=
  match s with
  | "" => ""
  | String c s => if is_space c then "" else String c (nonspace s)
  end.

(** [VERSION_RE.match(s)], group 1. *)
Definition eap_version_prefix : string := "Red Hat JBoss Enterprise Application Platform - Version ".

Definition VERSION_RE (s : string) : option string :=
  if str_startswith eap_version_prefix s then
    let tok := nonspace (str_drop (String.length eap_version_prefix) s) in
    if bool_decide (tok = "") then None else Some tok
  else None.

Definition ProcessEapHomeVersionTxt (item : pyval) : Res pyval :=
  failed ← item_failed item;
  if (failed : bool) then Ok (VBool false) else
  stdout ← getitem item "stdout";
  s ← py_strip stdout;
  Ok (VStr (match VERSION_RE s with Some v => str_removesuffix ".GA" v | None => s end)).

Definition ItemSuccessChecker (item : pyval) : Res pyval :=
  rc ← vget_default item "rc" (VInt 1); Ok (VBool (py_eq rc (VInt 0))).

(** ** [eap5.py] *)

(** [.*(CVS|SVN)Tag=(\S+)] after the literal, group 2: the greedy [.*] stops at
    a line feed and the last tag that is followed by a non-blank one wins. *)
Definition tag_here (s : string) : option string :=
  if str_startswith "CVSTag=" s || str_startswith "SVNTag=" s then
    let tok := nonspace (str_drop 7 s) in
    if bool_decide (tok = "") then None else Some tok
  else None.

Fixpoint last_tag (s : string) : option string :=
  match s with
  | "" => None
  | String c s' =>
      let here := tag_here s in
      if (code c =? 10)%N then here
      else match last_tag s' with Some t => Some t | None => here end
  end.

Definition VERSION_REGEXP (s : string) : option string :=
  let lit := "Implementation-Version:" in
  if str_startswith lit s then last_tag (str_drop (String.length lit) s) else None.

(** The first line that matches; no match gives [None]. *)
Fixpoint first_manifest_version (lines : list pyval) : Res pyval :=
  match lines with
  | [] => Ok VNone
  | VStr s :: lines =>
      match VERSION_REGEXP s with
      | Some v => Ok (VStr v)
      | None => first_manifest_version lines
      end
  | _ :: _ => Err TypeError
  end.

Definition ProcessRunJarManifest (item : pyval) : Res pyval :=
  lines ← stdout_lines item; first_manifest_version lines.

(** ** [karaf.py] *)

Definition ProcessKarafRunningProcesses (output : pyval) : Res pyval :=
  stdout ← getitem output "stdout";
  warned ← str_in FIND_WARNING stdout;
  if (warned : bool) then Ok NO_DATA else VStr <$> py_strip stdout.

Definition ProcessFindKaraf (output : pyval) : Res pyval := getitem output "stdout_lines".

Definition not_blank (v : pyval) : Res bool := s ← py_strip v; Ok (negb (bool_decide (s = ""))).

Definition ProcessLocateKaraf (output : pyval) : Res pyval :=
  lines ← stdout_lines_or_empty output; VList <$> filterM not_blank lines.

Definition item_ok (result : pyval) : Res pyval :=
  rc ← vget_default result "rc" (VInt 1); Ok (VBool (py_eq rc (VInt 0))).

Definition karaf_bin_step (d : pydict) (result : pyval) : Res pydict :=
  k ← getitem result "item"; v ← item_ok result; set_item d k v.

Definition ProcessKarafHomeBinFuse (output : pyval) : Res pyval :=
  results ← getitem output "results"; items ← py_iter results;
  VDict <$> foldM karaf_bin_step [] items.

Definition karaf_org_step (d : pydict) (result : pyval) : Res pydict :=
  lines ← getitem result "stdout_lines"; v ← item_ok result; Ok (dset (py_str lines) v d).

Definition ProcessKarafHomeSystemOrgJboss (output : pyval) : Res pyval :=
  results ← getitem output "results"; items ← py_iter results;
  VDict <$> foldM karaf_org_step [] items.

(** [item.get("stdout", "").strip()] *)
Definition stripped_stdout (item : pyval) : Res string :=
  stdout ← vget_default item "stdout" (VStr ""); py_strip stdout.

Definition fuse_version_item (results : list pyval) (item : pyval) : Res (list pyval) :=
  item_name ← vget item "item";
  if negb (truthy item_name) then Ok results else
  failed ← item_failed item;
  if (failed : bool) then Ok results else
  s ← stripped_stdout item;
  if bool_decide (s = "") then Ok results else
  lines ← stdout_lines_or_empty item;
  value ← filterM not_blank lines;
  versions ← py_set value;
  Ok (results ++ [VDict [("install_home", item_name); ("version", VList versions)]])%list.

Definition FuseVersionProcessor (output : pyval) : Res pyval :=
  results ← getitem output "results"; items ← py_iter results;
  VList <$> foldM fuse_version_item [] items.

(** The stripped text is compared with the list [[""]], never equal. *)
Definition FuseVersionProcessorLocate (output : pyval) : Res pyval :=
  rc ← vget_default output "rc" (VInt 1);
  if negb (py_eq rc (VInt 0)) then Ok (VList []) else
  s ← stripped_stdout output;
  if py_eq (VStr s) (VList [VStr ""]) then Ok (VList []) else
  lines ← stdout_lines_or_empty output;
  value ← filterM not_blank lines;
  VList <$> py_set value.

(** ** [jws.py] *)

(** [bool(stdout_lines and test(stdout_lines[-1]))] *)
Definition last_line_test (test : pyval -> Res bool) (output : pyval) : Res pyval :=
  stdout_lines ← vget_default output "stdout_lines" (VList []);
  if negb (truthy stdout_lines) then Ok (VBool false) else
  l ← last_line stdout_lines; VBool <$> test l.

Definition ProcessJWSInstalledWithRpm : pyval -> Res pyval :=
  last_line_test (str_in "Red Hat JBoss Web Server").
Definition ProcessHasJBossEULA : pyval -> Res pyval :=
  last_line_test (fun l => Ok (py_eq l (VStr "true"))).
Definition ProcessJWSHasCert : pyval -> Res pyval :=
  last_line_test (fun l => s ← as_str "endswith" l; Ok (str_endswith ".pem" s)).

(** ** [cpu.py] *)

(** [get_line(output["stdout_lines"])]: also the processors of [date.py]. *)
Definition get_last_line (output : pyval) : Res pyval :=
  lines ← getitem output "stdout_lines"; get_line lines (-1).

(** [d and d.get("rc") == 0] *)
Definition command_ok (d : pyval) : Res bool :=
  if truthy d then rc ← vget d "rc"; Ok (py_eq rc (VInt 0)) else Ok false.

Definition count_populated (dmi_count : Z) (status : pyval) : Res Z :=
  b ← lower_contains "status: populated" status; Ok (if (b : bool) then dmi_count + 1 else dmi_count).

Definition dmi_sockets (dmi : pyval) : Res (option Z) :=
  ok ← command_ok dmi;
  if negb ok then Ok None else
  lines ← vget dmi "stdout_lines";
  dmi_status ← py_iter lines;
  dmi_count ← foldM count_populated 0 dmi_status;
  Ok (if (dmi_count >? 0)%Z then Some dmi_count else None).

Definition cpuinfo_sockets (cpuinfo : pyval) : Res (option Z) :=
  ok ← command_ok cpuinfo;
  if negb ok then Ok None else
  lines ← vget cpuinfo "stdout_lines";
  if negb (truthy lines) then Ok None else
  cpuinfo_count ← last_line lines;
  Ok (match convert_to_int cpuinfo_count with
      | Some z => if negb (z =? 0) && (z <=? 8) then Some z else None
      | None => None
      end).

Definition int_or_None (o : option Z) : pyval := match o with Some z => VInt z | None => VNone end.

Definition ProcessCpuSocketCount (_ : pyval) (dependencies : pydict) : Res pyval :=
  dmi ← dmi_sockets (dget_none "internal_cpu_socket_count_dmi" dependencies);
  match dmi with
  | Some z => Ok (VInt z)
  | None =>
      cpuinfo ← cpuinfo_sockets (dget_none "internal_cpu_socket_count_cpuinfo" dependencies);
      Ok (match cpuinfo with
          | Some z => VInt z
          | None => int_or_None (convert_to_int (dget_none "cpu_count" dependencies))
          end)
  end.

(** [z / 2]: the float nearest to the quotient. *)
Definition half (z : Z) : Res pyval :=
  match SpecFloat.binary_normalize prec64 emax64 z (-1) false with
  | S754_infinity _ => Err OverflowError
  | f => Ok (VFloat f)
  end.

Definition ProcessCpuCoreCount (_ : pyval) (dependencies : pydict) : Res pyval :=
  let cpu_socket_count := dget_none "cpu_socket_count" dependencies in
  let cpu_core_per_socket := dget_none "cpu_core_per_socket" dependencies in
  let cpu_count := dget_none "cpu_count" dependencies in
  let cpu_hyperthreading := dget_none "cpu_hyperthreading" dependencies in
  let virt_type := dget_none "virt_type" dependencies in
  if truthy virt_type && py_eq virt_type (VStr "vmware") && is_int cpu_count
  then Ok (int_or_None (convert_to_int cpu_count)) else
  match convert_to_int cpu_core_per_socket, convert_to_int cpu_socket_count with
  | Some c, Some s => Ok (VInt (c * s))
  | _, _ =>
      match convert_to_int cpu_count with
      | Some n => if truthy cpu_hyperthreading then half n else Ok (VInt n)
      | None => Ok VNone
      end
  end.

(** ** [virt.py] *)

(** [is_last_stdout_line_y(output.get("stdout_lines", []))] *)
Definition is_last_stdout_line_y (output : pyval) : Res pyval :=
  lines ← stdout_lines_or_empty output;
  Ok (VBool (match last (List.filter truthy lines) with Some l => py_eq l (VStr "Y") | None => false end)).

Definition ProcessVirtXenGuest (output : pyval) : Res pyval :=
  lines ← stdout_lines_or_empty output;
  Ok (VBool (match last (List.filter truthy lines) with
             | Some l => match convert_to_int l with Some z => (z >? 0)%Z | None => false end
             | None => false
             end)).

Definition ProcessSystemManufacturer (output : pyval) : Res pyval :=
  lines ← stdout_lines_or_empty output;
  Ok (default VNone (last (List.filter truthy lines))).

(** The virtualization that a manufacturer stands for. *)
Definition manufacturer_virt_type (manufacturer : string) : option string :=
  if str_contains "vmware" manufacturer then Some "vmware"
  else if str_contains "innotek gmbh" manufacturer then Some "virtualbox"
  else if str_contains "microsoft" manufacturer then Some "virtualpc"
  else if str_contains "qemu" manufacturer then Some "kvm" else None.

Definition ProcessVirtType (_ : pyval) (dependencies : pydict) : Res pyval :=
  let has k := truthy (dget_none k dependencies) in
  if negb (truthy (VDict dependencies)) then Ok VNone else
  by_manufacturer ← (if has "internal_have_dmidecode" && has "internal_sys_manufacturer" then
      s ← as_str "lower" (dget_none "internal_sys_manufacturer" dependencies);
      Ok (manufacturer_virt_type (str_lower s))
    else Ok None);
  Ok (match by_manufacturer with
      | Some t => VStr t
      | None =>
          if has "internal_cpu_model_name_kvm" then VStr "kvm"
          else if has "internal_kvm_found" then VStr "kvm"
          else if has "internal_xen_guest" then VStr "xen"
          else if has "internal_xen_privcmd_found" then VStr "xen"
          else VNone
      end).

Definition ProcessVirtVirt (_ : pyval) (dependencies : pydict) : Res pyval :=
  Ok (if negb (truthy (VDict dependencies)) then VNone
      else if truthy (dget_none "internal_kvm_found" dependencies) then VStr "virt-host"
      else if truthy (dget_none "virt_type" dependencies) then VStr "virt-guest"
      else VNone).

(** [virt_what.py] *)
Definition ProcessVirtWhat (output : pyval) : Res pyval :=
  exit_code ← vget output "rc";
  if negb (py_eq exit_code (VInt 0)) then Ok (VResult exit_code VNone (VList [])) else
  lines ← stdout_lines_or_empty output;
  kept ← filterM not_blank lines;
  value ← mapM (fun l => VStr <$> py_strip l) kept;
  Ok (VResult exit_code VNone (VList value)).

(** ** [cloud_provider.py] *)

Definition ProcessDmiChassisAssetTag (_ : pyval) (dependencies : pydict) : Res pyval :=
  let tag := dget_none "internal_dmi_chassis_asset_tag" dependencies in
  ok ← command_ok tag;
  if negb ok then Ok (VStr "") else
  result ← vget tag "stdout_lines";
  if negb (truthy result) then Ok (VStr "") else
  first ← getitem_int result 0;
  n ← py_len result;
  if py_eq first (VStr "") && (n >? 1)%Z then getitem_int result 1 else Ok first.

Definition ProcessDmiSystemProductName (_ : pyval) (dependencies : pydict) : Res pyval :=
  let name := dget_none "internal_dmi_system_product_name" dependencies in
  ok ← command_ok name;
  if negb ok then Ok (VStr "") else
  result ← vget_default name "stdout_lines" (VList []);
  if negb (truthy result) then Ok (VStr "") else
  l ← last_line result; VStr <$> py_strip l.

Definition ProcessCloudProvider (_ : pyval) (dependencies : pydict) : Res pyval :=
  let dep k := py_or (default (VStr "") (dget k dependencies)) (VStr "") in
  amazon ← lower_contains "amazon" (dep "dmi_bios_version");
  if (amazon : bool) then Ok (VStr "aws") else
  google ← lower_contains "google" (dep "dmi_bios_version");
  if (google : bool) then Ok (VStr "gcp") else
  azure ← str_in "7783-7084-3265-9085-8269-3286-77" (dep "dmi_chassis_asset_tag");
  if (azure : bool) then Ok (VStr "azure") else
  manufacturer ← lower_contains "alibaba cloud" (dep "dmi_system_manufacturer");
  alibaba ← (if (manufacturer : bool) then Ok true
             else lower_contains "alibaba cloud ecs" (dep "dmi_system_product_name"));
  Ok (VStr (if (alibaba : bool) then "alibaba" else "")).

(** ** [dmi.py] *)

Fixpoint first_uuid (lines : list pyval) : Res pyval :=
  match lines with
  | [] => Ok (VStr "")
  | l :: lines =>
      n ← py_len l;
      if (0 <? n) && (n <=? 36) then Ok l else first_uuid lines
  end.

Definition ProcessDmiSystemUuid (_ : pyval) (dependencies : pydict) : Res pyval :=
  let dmi_system_uuid := dget_none "internal_dmi_system_uuid" dependencies in
  ok ← command_ok dmi_system_uuid;
  if negb ok then Ok (VStr "") else
  stdout_lines ← vget_default dmi_system_uuid "stdout_lines" (VList []);
  match stdout_lines with
  | VList l => first_uuid (rev l)
  | VStr _ => l ← py_iter stdout_lines; first_uuid (rev l)
  | VDict _ => Err (KeyError "slice(None, None, -1)")
  | _ => Err TypeError
  end.

(** ** [hostnamectl.py] *)

Definition hostnamectl_step (facts : pydict) (line : pyval) : Res pydict :=
  has_colon ← str_in ":" line;
  if negb has_colon then Ok facts else
  s ← as_str "split" line;
  match split_once ":" s with
  | None => Err ValueError
  | Some (fact_name, fact_value) =>
      let fact_name := str_replace " " "_" (str_lower (str_strip fact_name)) in
      fact_value ← (if bool_decide (fact_name = "chassis") then first_word (VStr fact_value)
                    else Ok fact_value);
      Ok (dset fact_name (VStr (str_strip fact_value)) facts)
  end.

(** Without text on either stream [error_msg] is never assigned. *)
Definition _handle_non_zero_rc (output : pyval) : Res pyval :=
  return_code ← vget output "rc";
  stderr ← vget output "stderr";
  stdout ← vget output "stdout";
  if truthy stdout then
    Ok (VResult return_code
          (VStr ("unexpected return code (" +:+ py_str return_code +:+ ") for 'hostnamectl status'. "
                 +:+ "Full output from command:" +:+ newline +:+ py_str stdout)) VNone)
  else if truthy stderr then Ok (VResult return_code stderr VNone)
  else Err (UnboundLocalError "error_msg").

Definition ProcessHostnameCTL (output : pyval) : Res pyval :=
  rc ← vget output "rc";
  if negb (py_eq rc (VInt 0)) then _handle_non_zero_rc output else
  lines ← vget output "stdout_lines";
  stdout_lines ← py_iter lines;
  facts ← foldM hostnamectl_step [] stdout_lines;
  Ok (VResult (VInt 0) VNone (VDict facts)).

(** ** [ifconfig.py] *)

Definition INET_PREFIXES : list string := ["inet addr:"; "inet "].
Definition INET6_PREFIXES : list string := ["inet6 "].

(** One of the two loops over prefixes, with its [break]. *)
Fixpoint after_prefix (prefixes : list string) (excluded : string) (line : string)
    (result : list string) : Res (list string) :=
  match prefixes with
  | [] => Ok result
  | prefix :: prefixes =>
      if str_startswith prefix line then
        ip_line ← first_word (VStr (str_drop (String.length prefix) line));
        Ok (if bool_decide (ip_line = excluded) then result else (result ++ [ip_line])%list)
      else after_prefix prefixes excluded line result
  end.

Definition ifconfig_step (result : list string) (line : string) : Res (list string) :=
  result ← after_prefix INET_PREFIXES "127.0.0.1" line result;
  after_prefix INET6_PREFIXES "::1" line result.

Definition ifconfig_ProcessIPAddresses (output : pyval) : Res pyval :=
  lines ← stdout_lines output;
  lines ← mapM py_strip lines;
  result ← foldM ifconfig_step [] lines;
  Ok (VList (VStr <$> dedup result)).

Definition ifconfig_ProcessMacAddresses (output : pyval) : Res pyval :=
  addresses ← stdout_lines_or_empty output;
  VList <$> py_set (List.filter truthy addresses).

(** ** [installed_products.py] *)

(** [line.strip() and ":" in line], then the key and the value of the line. *)
Definition product_line (product_dict : pydict) (line : string) : pydict :=
  if negb (bool_decide (str_strip line = "")) && str_contains ":" line then
    match split_once ":" (str_strip line) with
    | Some (key, value) =>
        if bool_decide (key ∈ ["Name"; "ID"])
        then dset (str_lower key) (VStr (str_strip value)) product_dict else product_dict
    | None => product_dict
    end
  else product_dict.

Definition parse_product (product : string) : pydict :=
  foldl product_line [] (str_splitlines product).

Definition installed_product_step (products : list pydict) (product : string) : list pydict :=
  let product_dict := parse_product product in
  if negb (truthy (dget_none "id" product_dict)) then products else
  if existsb (fun p => py_eq (dget_none "id" p) (dget_none "id" product_dict)) products then products
  else (products ++ [product_dict])%list.

Definition parse_products (text : string) : list pydict :=
  foldl installed_product_step [] (str_split "--" text).

Definition ProcessInstalledProducts (output : pyval) : Res pyval :=
  out ← vget_default output "stdout" (VStr "");
  s ← as_str "split" out;
  Ok (VList (VDict <$> parse_products s)).

(** ** [ip.py] *)

Definition EXCLUDE_IPV4_ADDRESSES : list string := ["127.0.0.1"; "0.0.0.0"].
Definition EXCLUDE_IPV6_ADDRESSES : list string := ["::1"].
Definition EXCLUDE_MAC_ADDRESSES : list string := ["00:00:00:00:00:00"; "ff:ff:ff:ff:ff:ff"].

(** [MATCH_MAC_ADDRESS]: six pairs of lower-case hexadecimal digits; [$] also
    accepts a final line feed. *)
Fixpoint hex_pairs (n : nat) (s : string) : bool :=
  match n, s with
  | O, _ => bool_decide (s = "") || bool_decide (s = newline)
  | S n, String ":" (String a (String b s)) => is_hex_lower a && is_hex_lower b && hex_pairs n s
  | _, _ => false
  end.

Definition is_valid_mac_address (address : string) : bool := hex_pairs 6 (":" +:+ address).

(** [line.strip().split(" ")[1].split("/")[0]] *)
Definition second_field (line : string) : Res string :=
  f ← from_option IndexError (str_split " " (str_strip line) !! 1%nat);
  from_option IndexError (head (str_split "/" f)).

(** The three processors: a prefix of the line, addresses to leave out, a test. *)
Definition ip_addresses (prefix : string) (excluded : list string) (valid : string -> bool)
    (output : pyval) : Res pyval :=
  lines ← stdout_lines output;
  lines ← mapM (fun l => str_lstrip <$> as_str "lstrip" l) lines;
  addresses ← mapM second_field (List.filter (str_startswith prefix) lines);
  Ok (VList (VStr <$> List.filter valid (filter (fun a => a ∉ excluded) (dedup addresses)))).

Definition ProcessIpAddressesIPv4 : pyval -> Res pyval :=
  ip_addresses "inet " EXCLUDE_IPV4_ADDRESSES is_valid_ipv4_address.
Definition ProcessIpAddressesIPv6 : pyval -> Res pyval :=
  ip_addresses "inet6 " EXCLUDE_IPV6_ADDRESSES is_valid_ipv6_address.
Definition ProcessIpAddressesMAC : pyval -> Res pyval :=
  ip_addresses "link/" EXCLUDE_MAC_ADDRESSES is_valid_mac_address.

(** ** [redhat_packages.py], [subman.py], [user_data.py] *)

(** [certs[:-1]] *)
Definition drop_last (v : pyval) : Res pyval :=
  match v with
  | VStr s => Ok (VStr (str_take (String.length s - 1) s))
  | VList l => Ok (VList (take (length l - 1) l))
  | _ => Err TypeError
  end.

Definition ProcessRedHatPackagesCerts (output : pyval) : Res pyval :=
  failed ← item_failed output;
  if (failed : bool) then Ok (VStr "") else
  certs ← vget output "stdout";
  if negb (truthy certs) then Ok certs else
  l ← last_line certs;
  if py_eq l (VStr ";") then drop_last certs else Ok certs.

Definition consumed_step (entitlements_data : list pyval) (entitlement : pyval) : Res (list pyval) :=
  if negb (truthy entitlement) then Ok entitlements_data else
  s ← as_str "split" entitlement;
  Ok (match str_split " - " s with
      | [name; entitlement_id] =>
          (entitlements_data ++
           [VDict [("name", VStr name); ("entitlement_id", VStr entitlement_id)]])%list
      | _ => entitlements_data
      end).

Definition ProcessSubmanConsumed (output : pyval) : Res pyval :=
  entitlements ← stdout_lines_or_empty output;
  VList <$> foldM consumed_step [] entitlements.

Definition is_user_line (line : pyval) : Res bool :=
  nologin ← str_in "/sbin/nologin" line;
  if (nologin : bool) then Ok false else
  home ← str_in "/home/" line;
  if (home : bool) then Ok true else str_in "/root:/" line.

Definition ProcessSystemUserCount (_ : pyval) (dependencies : pydict) : Res pyval :=
  let system_user_count := dget_none "internal_system_user_count" dependencies in
  ok ← command_ok system_user_count;
  if negb ok then Ok (VStr "") else
  v ← vget system_user_count "stdout_lines";
  lines ← py_iter v;
  users ← filterM is_user_line lines;
  unique_users ← py_set users;
  Ok (VInt (Z.of_nat (length unique_users))).

(** ** [yum.py] *)

(** [l[l.index(x) + 1:]] *)
Fixpoint after_first (x : pyval) (l : list pyval) : Res (list pyval) :=
  match l with
  | [] => Err ValueError
  | y :: l => if py_eq y x then Ok l else after_first x l
  end.

(** The first loop: it runs over the original lines while [out_lines] shrinks. *)
Definition header_step (st : list pyval * bool) (line : pyval) : Res (list pyval * bool) :=
  is_header ← str_in "repo id" line;
  if (is_header : bool) then rest ← after_first line st.1; Ok (rest, true) else Ok st.

Definition repo_step (repos : list pyval) (line : pyval) : Res (list pyval) :=
  s ← as_str "partition" line;
  let '(repo, _, remainder) := str_partition " " s in
  let '(repo_name, _, _) := str_rpartition " " remainder in
  let repo := str_strip repo in
  let repo_name := str_strip repo_name in
  Ok (if negb (bool_decide (repo = "")) && negb (bool_decide (repo_name = ""))
      then (repos ++ [VDict [("name", VStr repo_name); ("repo", VStr repo)]])%list else repos).

(** Lines come as a list; the characters of a text never contain a header. *)
Definition ProcessEnableYumRepolist (output : pyval) : Res pyval :=
  out_lines ← getitem output "stdout_lines";
  match out_lines with
  | VList l =>
      st ← foldM header_step (l, false) l;
      if (st.2 : bool) then VList <$> foldM repo_step [] st.1 else Ok (VList [])
  | VStr _ => Ok (VList [])
  | VDict d => if existsb (str_contains "repo id") (dkeys d) then Err (AttributeError "index")
               else Ok (VList [])
  | _ => Err TypeError
  end.

(** ** [system_purpose.py] *)

(** The loop: try to decode, else drop the first line.  [fuel] bounds the number
    of lines; the length of the text is enough ([system_purpose_spec]). *)
Fixpoint system_purpose_loop (fuel : nat) (system_purpose_str : string) : Res pyval :=
  match fuel with
  | O => Err OutOfFuel
  | S fuel =>
      if bool_decide (system_purpose_str = "") then Ok VNone else
      match json_loads system_purpose_str with
      | Ok v => Ok v
      | Err e =>
          if is_json_error e then
            match split_once newline system_purpose_str with
            | None => Ok VNone
            | Some (_, rest) => system_purpose_loop fuel rest
            end
          else Err e
      end
  end.

Definition ProcessSystemPurpose (output : pyval) : Res pyval :=
  stdout ← vget output "stdout";
  if negb (truthy stdout) then Ok VNone else
  match stdout with
  | VStr s => system_purpose_loop (S (String.length s)) s
  | _ => Err TypeError
  end.

(** ** The registry *)

Definition PROCESSORS : list (string * processor) :=
  [ (* eap.py *)
    ("jboss_eap_running_paths", with_deps ["internal_have_java"] (plain ProcessJbossEapRunningPaths));
    ("jboss_eap_find_jboss_modules_jar", plain ProcessFindJboss);
    ("jboss_eap_id_jboss", any_return_code (plain ProcessIdUJboss));
    ("jboss_eap_common_files", plain ProcessJbossEapCommonFiles);
    ("jboss_processes", any_return_code (plain ProcessJbossProcesses));
    ("jboss_eap_packages", plain ProcessJbossEapPackages);
    ("jboss_eap_locate_jboss_modules_jar", with_deps ["internal_have_locate"] (plain ProcessJbossEapLocate));
    ("jboss_eap_chkconfig", with_deps ["internal_have_chkconfig"] (plain ProcessJbossEapChkconfig));
    ("jboss_eap_systemctl_unit_files", with_deps ["internal_have_systemctl"] (plain ProcessJbossEapChkconfig));
    ("eap_home_ls", IndicatorFileFinder ["JBossEULA.txt"; "version.txt"]);
    ("eap_home_version_txt", plain (PerItemProcessor ProcessEapHomeVersionTxt));
    ("eap_home_readme_txt", StdoutSearchProcessor "Welcome to WildFly");
    ("eap_home_jboss_modules_manifest", StdoutPassthroughProcessor);
    ("eap_home_jboss_modules_version", StdoutPassthroughProcessor);
    ("eap_home_bin", IndicatorFileFinder ["fuseconfig.sh"; "fusepatch.sh"]);
    ("eap_home_layers", plain (PerItemProcessor ItemSuccessChecker));
    ("eap_home_layers_conf", plain (PerItemProcessor ItemSuccessChecker));
    ("jboss_eap_jar_ver", plain FindJarVer);
    ("jboss_eap_run_jar_ver", plain FindJarVer);
    (* eap5.py *)
    ("eap5_home_version_txt", StdoutSearchProcessor "JBoss Enterprise Application Platform - Version 5");
    ("eap5_home_readme_html", StdoutSearchProcessor "JBoss Enterprise Application Platform 5");
    ("eap5_home_ls_jboss_as", IndicatorFileFinder ["JBossEULA.txt"]);
    ("eap5_home_run_jar_version", StdoutSearchProcessor "JBoss");
    ("eap5_home_run_jar_manifest", plain (PerItemProcessor ProcessRunJarManifest));
    (* karaf.py *)
    ("karaf_running_processes", plain ProcessKarafRunningProcesses);
    ("karaf_find_karaf_jar", plain ProcessFindKaraf);
    ("karaf_locate_karaf_jar", with_deps ["internal_have_locate"] (plain ProcessLocateKaraf));
    ("jboss_fuse_chkconfig", with_deps ["internal_have_chkconfig"] (plain (InitLineFinder ["fuse"] None)));
    ("jboss_fuse_systemctl_unit_files", with_deps ["internal_have_systemctl"]
       (plain (InitLineFinder ["fuse"] (Some ["sys-fs-fuse-connections.mount"; "fuse.mount"]))));
    ("karaf_home_bin_fuse", plain ProcessKarafHomeBinFuse);
    ("karaf_home_system_org_jboss", plain ProcessKarafHomeSystemOrgJboss);
    ("jboss_fuse_on_karaf_camel_ver", plain FuseVersionProcessor);
    ("jboss_fuse_on_karaf_activemq_ver", plain FuseVersionProcessor);
    ("jboss_fuse_on_karaf_cxf_ver", plain FuseVersionProcessor);
    ("jboss_fuse_on_eap_camel_ver", plain FuseVersionProcessor);
    ("jboss_fuse_on_eap_activemq_ver", plain FuseVersionProcessor);
    ("jboss_fuse_on_eap_cxf_ver", plain FuseVersionProcessor);
    ("jboss_fuse_camel_ver", with_deps ["internal_have_locate"] (plain FuseVersionProcessorLocate));
    ("jboss_fuse_activemq_ver", with_deps ["internal_have_locate"] (plain FuseVersionProcessorLocate));
    ("jboss_fuse_cxf_ver", with_deps ["internal_have_locate"] (plain FuseVersionProcessorLocate));
    (* fuse.py *)
    ("jboss_activemq_ver", plain FindJar);
    ("jboss_camel_ver", plain FindJar);
    ("jboss_cxf_ver", plain FindJar);
    (* jws.py *)
    ("jws_installed_with_rpm", any_return_code (plain ProcessJWSInstalledWithRpm));
    ("jws_has_eula_txt_file", plain ProcessHasJBossEULA);
    ("jws_has_cert", any_return_code (plain ProcessJWSHasCert));
    (* cpu.py *)
    ("cpu_model_ver", plain get_last_line);
    ("cpu_vendor_id", plain get_last_line);
    ("cpu_model_name", plain get_last_line);
    ("cpu_socket_count", optional_deps
       ["internal_cpu_socket_count_dmi"; "internal_cpu_socket_count_cpuinfo"; "cpu_count"] ProcessCpuSocketCount);
    ("cpu_core_count", optional_deps
       ["cpu_socket_count"; "cpu_core_per_socket"; "cpu_count"; "cpu_hyperthreading"; "virt_type"]
       ProcessCpuCoreCount);
    (* virt.py, virt_what.py *)
    ("internal_xen_privcmd_found", plain is_last_stdout_line_y);
    ("internal_kvm_found", plain is_last_stdout_line_y);
    ("internal_xen_guest", plain ProcessVirtXenGuest);
    ("internal_sys_manufacturer", optional_deps [] (fun o _ => ProcessSystemManufacturer o));
    ("internal_cpu_model_name_kvm", plain is_last_stdout_line_y);
    ("virt_type", optional_deps
       ["internal_have_dmidecode"; "internal_sys_manufacturer"; "internal_cpu_model_name_kvm";
        "internal_xen_guest"; "internal_kvm_found"; "internal_xen_privcmd_found"] ProcessVirtType);
    ("virt_virt", optional_deps ["internal_kvm_found"; "virt_type"] ProcessVirtVirt);
    ("virt_what", plain ProcessVirtWhat);
    (* cloud_provider.py, date.py, dmi.py *)
    ("dmi_chassis_asset_tag", optional_deps ["internal_dmi_chassis_asset_tag"] ProcessDmiChassisAssetTag);
    ("dmi_system_product_name", optional_deps ["internal_dmi_system_product_name"] ProcessDmiSystemProductName);
    ("cloud_provider", optional_deps
       ["dmi_bios_version"; "dmi_chassis_asset_tag"; "dmi_system_manufacturer"; "dmi_system_product_name"]
       ProcessCloudProvider);
    ("date_filesystem_create", plain get_last_line);
    ("date_machine_id", plain get_last_line);
    ("dmi_system_uuid", optional_deps ["internal_dmi_system_uuid"] ProcessDmiSystemUuid);
    (* the others *)
    ("hostnamectl", plain ProcessHostnameCTL);
    ("ifconfig_ip_addresses", plain ifconfig_ProcessIPAddresses);
    ("ifconfig_mac_addresses", plain ifconfig_ProcessMacAddresses);
    ("installed_products", plain ProcessInstalledProducts);
    ("ip_address_show_ipv4", plain ProcessIpAddressesIPv4);
    ("ip_address_show_ipv6", plain ProcessIpAddressesIPv6);
    ("ip_address_show_mac", plain ProcessIpAddressesMAC);
    ("redhat_packages_certs", plain ProcessRedHatPackagesCerts);
    ("system_purpose_json", plain ProcessSystemPurpose);
    ("subman_consumed", plain ProcessSubmanConsumed);
    ("system_user_count", optional_deps ["internal_system_user_count"] ProcessSystemUserCount);
    ("yum_enabled_repolist", any_return_code (plain ProcessEnableYumRepolist)) ].
