(* ===== verification/ProcessingProps.v ===== *)
(** What the processing of raw Ansible results guarantees: [process],
    [_post_process_facts] and the processors that parse text. *)
From stdpp Require Import base sets list strings.
From Stdlib Require Import Ascii ZArith Lia.
From S2P Require Import Prelude PyStr PyNum PyVal Formatters Json NetworkUtils Processing Processors.

Open Scope string_scope.
Open Scope Z_scope.

(** ** [process] *)

(** A result that the log line of a failed command cannot print. *)
Definition no_stdout_failure (p : processor) (d : pydict) : Prop :=
  is_ansible_task_result (VDict d) = true /\ truthy (default (VBool false) (dget "skipped" d)) = false /\
  truthy (default (VInt 0) (dget "rc" d)) = true /\ p_return_code_any p = false /\ dget "stdout" d = None.

Lemma reject_value_Err p v e :
  reject_value p v = Err e <-> exists d, v = VDict d /\ no_stdout_failure p d /\ e = KeyError "stdout".
Proof.
  unfold reject_value, no_stdout_failure. split.
  - destruct (py_eq v _); [done|]. destruct (is_ansible_task_result v) eqn:Ha; [|done]. cbn [negb].
    destruct v as [| | | | | |d| | |]; try done. unfold vget_default. cbn [as_dict mbind res_bind].
    destruct (truthy (default (VBool false) _)) eqn:Hs; [done|].
    destruct (truthy (default (VInt 0) _)) eqn:Hr; [|done].
    destruct (p_return_code_any p) eqn:Hp; [done|]. cbn [negb andb getitem]. unfold dget_exn.
    destruct (dget "stdout" d) eqn:Ho; [done|]. cbn. intros [= <-]. exists d. auto 10.
  - intros (d & -> & (Ha & Hs & Hr & Hp & Ho) & ->). rewrite Ha.
    assert (py_eq (VDict d) (VStr QUIPUCORDS_FORCE_POST_PROCESS) = false) as -> by done.
    unfold vget_default. cbn [negb as_dict mbind res_bind]. rewrite Hs, Hr, Hp. cbn [negb andb getitem].
    unfold dget_exn. by rewrite Ho.
Qed.

(** [process] lets no exception of a processor through.  The only one it
    raises is the [KeyError] of its own log line, for a failed command whose
    result has no [stdout], when the fact has a processor that wants a zero
    return code and its dependencies are there. *)
Theorem process_raises procs previous k v e :
  process procs previous k v = Err e <->
  exists p d, v = VDict d /\ is_sudo_error_value v = false /\ dget k procs = Some p /\
    is_Some (gather_deps (p_require_deps p) previous (p_deps p) []) /\
    no_stdout_failure p d /\ e = KeyError "stdout".
Proof.
  unfold process. split.
  - destruct (is_sudo_error_value v) eqn:Hsudo; [done|]. destruct (dget k procs) as [p|] eqn:Hp; [|done].
    destruct (gather_deps _ _ _ _) as [deps|] eqn:Hd; [|done].
    destruct (reject_value p v) as [[x|]|e'] eqn:Hr; cbn [mbind res_bind].
    + done.
    + destruct (p_process p v deps); done.
    + intros [= <-]. apply reject_value_Err in Hr as (d & -> & Hf & ->). exists p, d. eauto 10.
  - intros (p & d & -> & Hs & Hp & [deps Hd] & Hf & ->). rewrite Hs, Hp, Hd.
    assert (reject_value p (VDict d) = Err (KeyError "stdout")) as ->; [|done].
    apply reject_value_Err. eauto.
Qed.

(** ** [_post_process_facts] *)

Section facts.
Context (procs : list (string * processor)).
Implicit Types (raw : pydict) (k : string) (v : pyval).

Lemma post_process_other facts kv k : k <> kv.1 -> dget k (post_process_step procs facts kv) = dget k facts.
Proof. unfold post_process_step. destruct (process _ _ _ _); [|done]. by intros; apply dget_dset_ne. Qed.

Lemma processed_other raw k facts :
  k ∉ dkeys raw -> dget k (foldl (post_process_step procs) facts raw) = dget k facts.
Proof.
  revert facts. induction raw as [|kv raw IH]; intros facts Hk; [done|]. cbn in Hk |- *.
  rewrite IH by set_solver. apply post_process_other. set_solver.
Qed.

(** The value a fact ends with: [None] for [NO_DATA], absent when skipped. *)
Definition cleaned (r : Res pyval) : option pyval :=
  match r with
  | Ok x => Some (if py_eq x NO_DATA then VNone else x)
  | Err _ => None
  end.

Lemma processed_at before k v after :
  NoDup (dkeys (before ++ (k, v) :: after)) ->
  dget k (processed_facts procs (before ++ (k, v) :: after)) =
  cleaned (process procs (processed_facts procs before) k v).
Proof.
  unfold dkeys. rewrite fmap_app. intros (_ & Hb & [Ha _]%NoDup_cons)%NoDup_app. cbn [fst] in *.
  unfold processed_facts. rewrite foldl_app. cbn [foldl]. rewrite processed_other by done.
  unfold post_process_step at 1. cbn [fst snd]. fold (processed_facts procs before).
  destruct (process procs _ k v) as [x|e]; cbn [cleaned].
  - apply dget_dset_eq.
  - unfold processed_facts. rewrite processed_other; [done|]. intros Hk. apply (Hb k Hk). left.
Qed.

Lemma processed_no_data raw k x : dget k (processed_facts procs raw) = Some x -> py_eq x NO_DATA = false.
Proof.
  unfold processed_facts. induction raw as [|kv raw IH] using rev_ind; [done|].
  rewrite foldl_app. cbn [foldl]. unfold post_process_step at 1.
  destruct (process _ _ _ _) as [y|]; [|done]. rewrite dget_dset. case_decide; [|done].
  intros [= <-]. by destruct (py_eq y NO_DATA) eqn:E.
Qed.

Lemma dget_template names k acc :
  dget k (foldl (fun d k => dset k VNone d) acc names) = if decide (k ∈ names) then Some VNone else dget k acc.
Proof.
  revert acc. induction names as [|n names IH]; intros acc; cbn [foldl].
  - rewrite decide_False; [done | set_solver].
  - rewrite IH, dget_dset. repeat case_decide; set_solver.
Qed.

Lemma processed_keys raw k : k ∈ dkeys (processed_facts procs raw) -> k ∈ dkeys raw.
Proof.
  intros Hk. destruct (decide (k ∈ dkeys raw)); [done|]. apply dget_keys in Hk as [x Hx].
  unfold processed_facts in Hx. by rewrite processed_other in Hx.
Qed.

Lemma processed_NoDup raw : NoDup (dkeys (processed_facts procs raw)).
Proof.
  unfold processed_facts. induction raw as [|kv raw IH] using rev_ind; [constructor|].
  rewrite foldl_app. cbn [foldl]. unfold post_process_step at 1.
  destruct (process _ _ _ _); [by apply NoDup_dkeys_dset | done].
Qed.

Lemma dget_filter (f : string -> bool) (d : pydict) k :
  dget k (List.filter (fun kv => f kv.1) d) = if f k then dget k d else None.
Proof.
  induction d as [|[k' v'] d IH]; cbn; [by destruct (f k)|]. destruct (f k') eqn:E; cbn; rewrite IH.
  - case_bool_decide; subst; by rewrite ?E.
  - case_bool_decide; subst; by rewrite ?E.
Qed.

Lemma NoDup_filter_keys (f : string -> bool) (d : pydict) :
  NoDup (dkeys d) -> NoDup (dkeys (List.filter (fun kv => f kv.1) d)).
Proof.
  induction d as [|[k v] d IH]; cbn; [done|]. intros [Hn H]%NoDup_cons. destruct (f k); [|auto].
  cbn. constructor; [|auto]. intros Hk. apply Hn. apply dget_keys in Hk as [x Hx].
  rewrite dget_filter in Hx. apply dget_keys. destruct (f k); [by eexists | done].
Qed.

Lemma dget_post_process names exclude raw k :
  dget k (_post_process_facts procs names exclude raw) =
  match (if exclude && is_internal k then None else dget k (processed_facts procs raw)) with
  | Some x => Some x
  | None => if decide (k ∈ names) then Some VNone else None
  end.
Proof.
  unfold _post_process_facts. rewrite dget_dupdate.
  - unfold raw_facts_template. rewrite dget_template. destruct exclude; cbn [andb]; [|done].
    rewrite (dget_filter (fun k => negb (is_internal k))). by destruct (is_internal k).
  - destruct exclude; [apply (NoDup_filter_keys (fun k => negb (is_internal k)))|]; apply processed_NoDup.
Qed.
End facts.

(** [C27] The facts stored for a host: each raw fact is processed with the facts
    before it, its [NO_DATA] becomes [None], and a fact whose processing raises
    falls back to the template; with the setting on, internal facts do too.
    Every fact of the template is there, nothing is made up, and no value is the
    empty string. *)
Theorem post_process_facts_spec procs names exclude before k v after :
  NoDup (dkeys (before ++ (k, v) :: after)) ->
  let raw := (before ++ (k, v) :: after)%list in
  let final := _post_process_facts procs names exclude raw in
  dget k final =
    match (if exclude && is_internal k then None
           else cleaned (process procs (processed_facts procs before) k v)) with
    | Some x => Some x
    | None => if decide (k ∈ names) then Some VNone else None
    end /\
  (forall n, n ∈ names -> n ∈ dkeys final) /\
  (forall n, n ∈ dkeys final -> n ∈ names \/ n ∈ dkeys raw) /\
  (forall n x, dget n final = Some x -> py_eq x NO_DATA = false).
Proof.
  intros Hnd. cbv zeta. split; [|split; [|split]].
  - by rewrite dget_post_process, processed_at.
  - intros n Hn. apply dget_keys. rewrite dget_post_process, (decide_True _ _ Hn).
    destruct (if _ && _ then _ else _); by eexists.
  - intros n [x Hx]%dget_keys. rewrite dget_post_process in Hx. case_decide; [by left|]. right.
    apply (processed_keys procs), dget_keys. destruct (_ && _); [done|]. by destruct (dget n _); eexists.
  - intros n x Hx. rewrite dget_post_process in Hx.
    destruct (exclude && is_internal n); [by case_decide; simplify_eq|].
    destruct (dget n _) eqn:E; [simplify_eq; by eapply processed_no_data | by case_decide; simplify_eq].
Qed.

(** The raw facts of a host with two commands that ran and one that failed. *)
Definition raw_ok (lines : list string) : pyval :=
  VDict [("rc", VInt 0); ("stdout_lines", VList (VStr <$> lines))].

Definition sample_raw : pydict :=
  [("internal_have_locate", VBool true);
   ("jboss_eap_locate_jboss_modules_jar", raw_ok [" /opt/eap/jboss-modules.jar"; ""]);
   ("date_machine_id", VDict [("rc", VInt 1)])].

Lemma post_process_facts_spec_witness :
  dget "jboss_eap_locate_jboss_modules_jar"
    (_post_process_facts PROCESSORS ["date_machine_id"; "cpu_count"] true sample_raw) =
  Some (VList [VStr "/opt/eap/jboss-modules.jar"]).
Proof.
  destruct (post_process_facts_spec PROCESSORS ["date_machine_id"; "cpu_count"] true
    [("internal_have_locate", VBool true)] "jboss_eap_locate_jboss_modules_jar"
    (raw_ok [" /opt/eap/jboss-modules.jar"; ""]) [("date_machine_id", VDict [("rc", VInt 1)])])
    as [H _]; [by_compute|].
  exact H.
Defined.

(** The order of the facts matters: a fact that is processed before one of
    its required dependencies, or whose dependency came out empty, is stored as
    [None]. *)
Theorem required_dependency procs before k v after p dep :
  NoDup (dkeys (before ++ (k, v) :: after)) ->
  dget k procs = Some p -> p_require_deps p = true -> dep ∈ p_deps p ->
  truthy (dget_none dep (processed_facts procs before)) = false ->
  dget k (processed_facts procs (before ++ (k, v) :: after)) = Some VNone.
Proof.
  intros Hnd Hp Hreq Hin Hdep. rewrite processed_at by done. unfold process. rewrite Hp, Hreq.
  destruct (is_sudo_error_value v); [done|].
  assert (forall acc, gather_deps true (processed_facts procs before) (p_deps p) acc = None) as ->; [|done].
  revert Hin. induction (p_deps p) as [|d deps IH]; [by intros ?%elem_of_nil|].
  intros [->|Hin]%elem_of_cons acc; cbn [gather_deps].
  - rewrite Hdep. cbn [negb]. by rewrite orb_true_r.
  - destruct (true && _); [done | by apply IH].
Qed.

(** ** Lines of text *)

Definition text_lines (lines : list string) : pyval := VList (VStr <$> lines).

(** A loop over lines of text, as a loop over strings. *)
Lemma foldM_lines {A} (f : A -> pyval -> Res A) (g : A -> string -> A) lines a :
  (forall a s, f a (VStr s) = Ok (g a s)) -> foldM f a (VStr <$> lines) = Ok (foldl g a lines).
Proof. intros H. revert a. induction lines as [|s l IH]; intros a; cbn; [done|]. by rewrite H; cbn. Qed.

(** ** [yum.py] *)

(** The lines after the last one that contains [repo id]. *)
Fixpoint after_last_header (lines : list string) : option (list string) :=
  match lines with
  | [] => None
  | s :: lines =>
      match after_last_header lines with
      | Some r => Some r
      | None => if str_contains "repo id" s then Some lines else None
      end
  end.

(** The repository and its name: the first word and the words up to the last. *)
Definition repo_entry (line : string) : option (string * string) :=
  let '(repo, _, remainder) := str_partition " " line in
  let '(repo_name, _, _) := str_rpartition " " remainder in
  if bool_decide (str_strip repo = "") || bool_decide (str_strip repo_name = "") then None
  else Some (str_strip repo, str_strip repo_name).

Definition repo_dict (r : string * string) : pyval := VDict [("name", VStr r.2); ("repo", VStr r.1)].

Lemma repo_step_lines repos lines :
  foldM repo_step repos (VStr <$> lines) = Ok (repos ++ (repo_dict <$> omap repo_entry lines))%list.
Proof.
  rewrite (foldM_lines _ (fun repos s => repos ++ (repo_dict <$> option_list (repo_entry s)))%list).
  - f_equal. revert repos. induction lines as [|s lines IH]; intros repos; cbn [foldl omap list_omap].
    + by rewrite app_nil_r.
    + rewrite IH, <- app_assoc. by destruct (repo_entry s).
  - intros r s. unfold repo_step, repo_entry. cbn [as_str mbind res_bind].
    destruct (str_partition " " s) as [[repo ?] rest]. destruct (str_rpartition " " rest) as [[name ?] ?].
    repeat case_bool_decide; cbn; by rewrite ?app_nil_r.
Qed.

Lemma after_first_line pre s l :
  Forall (fun x => x <> s) pre -> after_first (VStr s) (VStr <$> (pre ++ s :: l)%list) = Ok (VStr <$> l).
Proof.
  induction 1 as [|x pre Hx _ IH]; cbn -[py_eq]; rewrite py_eq_str.
  - by rewrite bool_decide_eq_true_2.
  - by rewrite bool_decide_eq_false_2.
Qed.

(** The lines before the position of the loop hold no header. *)
Lemma header_lines l : forall pre b,
  Forall (fun s => str_contains "repo id" s = false) pre ->
  foldM header_step (VStr <$> (pre ++ l)%list, b) (VStr <$> l) =
  Ok (match after_last_header l with
      | Some r => (VStr <$> r, true)
      | None => (VStr <$> (pre ++ l)%list, b)
      end).
Proof.
  induction l as [|s l IH]; intros pre b Hpre; [done|].
  assert (header_step (VStr <$> (pre ++ s :: l)%list, b) (VStr s) =
    Ok (if str_contains "repo id" s then (VStr <$> l, true) else (VStr <$> (pre ++ s :: l)%list, b))) as Hstep.
  { unfold header_step. cbn [str_in mbind res_bind fst]. destruct (str_contains "repo id" s) eqn:Hs; [|done].
    rewrite after_first_line; [done|]. eapply Forall_impl; [done|]. cbn. congruence. }
  rewrite (fmap_cons VStr s l). cbn [foldM after_last_header]. rewrite Hstep. cbn [mbind res_bind].
  destruct (str_contains "repo id" s) eqn:Hs.
  - pose proof (IH [] true ltac:(constructor)) as Hr. cbn [app] in Hr. rewrite Hr.
    by destruct (after_last_header l).
  - rewrite cons_middle, (assoc_L (++)%list).
    rewrite IH by (apply Forall_app; auto). by destruct (after_last_header l).
Qed.

(** The enabled repositories are read from the lines after the last header:
    although the first loop runs over the original lines while it cuts the list,
    it never fails to find a header, and repeated headers do no harm.  Lines
    without a repository and a name are skipped. *)
Theorem yum_repolist_spec d lines :
  dget "stdout_lines" d = Some (text_lines lines) ->
  ProcessEnableYumRepolist (VDict d) =
  Ok (VList (repo_dict <$> omap repo_entry (default [] (after_last_header lines)))).
Proof.
  intros Hd. unfold ProcessEnableYumRepolist. cbn [getitem]. unfold dget_exn. rewrite Hd.
  cbn [from_option mbind res_bind text_lines].
  pose proof (header_lines lines [] false ltac:(constructor)) as Hh. cbn [app] in Hh. rewrite Hh.
  cbn [mbind res_bind]. destruct (after_last_header lines); cbn [fst snd default id]; [|done].
  by rewrite repo_step_lines.
Qed.

Definition sample_repolist : list string :=
  ["Loaded plugins"; "repo id  repo name  status"; "rhel-7 Red Hat 7 1,200"; ""].

Lemma yum_repolist_spec_witness :
  ProcessEnableYumRepolist (VDict [("stdout_lines", text_lines sample_repolist)]) =
  Ok (VList [repo_dict ("rhel-7", "Red Hat 7")]).
Proof.
  exact (yum_repolist_spec [("stdout_lines", text_lines sample_repolist)] sample_repolist eq_refl).
Defined.

(** ** [system_purpose.py] *)

(** What is left of a text after each of its line feeds. *)
Fixpoint after_linefeeds (s : string) : list string :=
  match s with
  | "" => []
  | String c t => if (code c =? 10)%N then t :: after_linefeeds t else after_linefeeds t
  end.

(** The first candidate that is JSON; another error than a syntax error ends the
    search, and so does the empty text. *)
Fixpoint first_json (l : list string) : Res pyval :=
  match l with
  | [] => Ok VNone
  | s :: l =>
      if bool_decide (s = "") then Ok VNone else
      match json_loads s with
      | Ok v => Ok v
      | Err e => if is_json_error e then first_json l else Err e
      end
  end.

Lemma split_newline s :
  match split_once newline s with
  | None => after_linefeeds s = []
  | Some (_, rest) => after_linefeeds s = rest :: after_linefeeds rest /\ (String.length rest < String.length s)%nat
  end.
Proof.
  induction s as [|c s IH]; [done|]. cbn [split_once after_linefeeds].
  assert (String.prefix newline (String c s) = (code c =? 10)%N) as ->.
  { unfold newline, chr. cbn [String.prefix]. destruct (Ascii.ascii_dec _ c) as [<-|Hne].
    - by destruct s.
    - symmetry. apply N.eqb_neq. intros Hc. apply Hne, code_inj. by rewrite Hc. }
  destruct (code c =? 10)%N.
  - cbn. split; [done | lia].
  - destruct (split_once newline s) as [[x rest]|]; [|done]. destruct IH. cbn. split; [done | lia].
Qed.

Lemma system_purpose_loop_spec fuel s :
  (String.length s < fuel)%nat -> system_purpose_loop fuel s = first_json (s :: after_linefeeds s).
Proof.
  revert s. induction fuel as [|fuel IH]; intros s H; [lia|]. cbn [system_purpose_loop first_json].
  case_bool_decide; [done|]. destruct (json_loads s); [done|]. destruct (is_json_error e); [|done].
  pose proof (split_newline s) as Hn. destruct (split_once newline s) as [[x rest]|].
  - destruct Hn as [-> Hlt]. apply IH. lia.
  - by rewrite Hn.
Qed.

(** The system purpose is the first JSON value found in the output or after
    one of its line feeds, so lines of noise before the JSON text do no harm;
    without any it is [None].  The loop ends: its fuel, and that of the JSON
    scanner, never run out. *)
Theorem system_purpose_spec d s :
  dget "stdout" d = Some (VStr s) ->
  ProcessSystemPurpose (VDict d) = first_json (s :: after_linefeeds s) /\
  ProcessSystemPurpose (VDict d) <> Err OutOfFuel.
Proof.
  intros Hd.
  assert (ProcessSystemPurpose (VDict d) = first_json (s :: after_linefeeds s)) as ->.
  { unfold ProcessSystemPurpose, vget, vget_default. cbn [as_dict mbind res_bind]. rewrite Hd.
    cbn [default id]. destruct s as [|c s]; [done|]. cbn [truthy]. apply system_purpose_loop_spec. lia. }
  split; [done|]. clear Hd. generalize (s :: after_linefeeds s). intros l.
  induction l as [|x l IH]; cbn [first_json]; [done|]. case_bool_decide; [done|].
  pose proof (json_loads_fuel x). destruct (json_loads x) as [|e]; [done|].
  destruct (is_json_error e); [done | congruence].
Qed.

Definition noisy_json : string := "Welcome!" +:+ newline +:+ "{}".

Lemma system_purpose_spec_witness :
  ProcessSystemPurpose (VDict [("rc", VInt 0); ("stdout", VStr noisy_json)]) = Ok (VDict []).
Proof.
  destruct (system_purpose_spec [("rc", VInt 0); ("stdout", VStr noisy_json)] noisy_json) as [H _];
    [reflexivity|].
  rewrite H. vm_compute. reflexivity.
Defined.

(** ** [installed_products.py] *)

Lemma product_line_str d line :
  (forall v, dget "id" d = Some v -> is_str v = true) ->
  forall v, dget "id" (product_line d line) = Some v -> is_str v = true.
Proof.
  intros Hd v. unfold product_line. destruct (_ && _); [|apply Hd].
  destruct (split_once ":" _) as [[key value]|]; [|apply Hd]. case_bool_decide; [|apply Hd].
  rewrite dget_dset. case_decide; [by intros [= <-] | apply Hd].
Qed.

Lemma parse_product_str b v : dget "id" (parse_product b) = Some v -> is_str v = true.
Proof.
  unfold parse_product. assert (forall v, dget "id" ([] : pydict) = Some v -> is_str v = true) as H by done.
  revert H. generalize ([] : pydict). induction (str_splitlines b) as [|l ls IH]; intros d H; cbn; [apply H|].
  apply IH. intros w. by apply product_line_str.
Qed.

(** The identifier of a block of the output, when it has one. *)
Definition block_id (b : string) : option string :=
  match dget "id" (parse_product b) with
  | Some (VStr i) => if bool_decide (i = "") then None else Some i
  | _ => None
  end.

Definition has_id (p : pydict) (i : string) : Prop := dget "id" p = Some (VStr i).

Lemma existsb_has_id ps ids i :
  Forall2 has_id ps ids ->
  existsb (fun p => py_eq (dget_none "id" p) (VStr i)) ps = bool_decide (i ∈ ids).
Proof.
  induction 1 as [|p j ps ids Hp _ IH]; [done|]. cbn [existsb]. rewrite IH. unfold dget_none. rewrite Hp.
  cbn [default id]. rewrite py_eq_str. repeat case_bool_decide; set_solver.
Qed.

(** One block: skipped without an identifier or with a known one. *)
Lemma installed_product_step_spec ps ids b :
  Forall2 has_id ps ids ->
  installed_product_step ps b =
  match block_id b with
  | Some i => if bool_decide (i ∈ ids) then ps else (ps ++ [parse_product b])%list
  | None => ps
  end /\
  (forall i, block_id b = Some i -> has_id (parse_product b) i).
Proof.
  intros H. unfold installed_product_step, block_id, has_id. pose proof (parse_product_str b) as Hs.
  unfold dget_none at 1 3. destruct (dget "id" (parse_product b)) as [v|]; [|done].
  specialize (Hs v eq_refl). destruct v; try done. cbn [default id truthy]. case_bool_decide; [by subst|].
  destruct s; [done|]. cbn [negb]. rewrite (existsb_has_id _ ids) by done. split; [done | by intros i [= ->]].
Qed.

(** The installed products have pairwise distinct, non-empty identifiers:
    those of the blocks of the output, all of them, in the order of their first
    appearance, and each product is read from the first block that has its
    identifier. *)
Theorem installed_products_spec text :
  exists ids, Forall2 has_id (parse_products text) ids /\ NoDup ids /\
    (forall i, i ∈ ids <-> i <> "" /\ exists b, b ∈ str_split "--" text /\ has_id (parse_product b) i) /\
    (forall p, p ∈ parse_products text -> exists before b after,
       str_split "--" text = (before ++ b :: after)%list /\ p = parse_product b /\
       forall b', b' ∈ before -> block_id b' <> block_id b).
Proof.
  unfold parse_products. induction (str_split "--" text) as [|b blocks IH] using rev_ind.
  { exists []. split; [constructor|]. split; [constructor|]. split; [|by intros ? ?%elem_of_nil].
    intros i. split; [by intros ?%elem_of_nil | by intros (_ & ? & ?%elem_of_nil & _)]. }
  destruct IH as (ids & Hps & Hnd & Hids & Hfirst). rewrite foldl_app. cbn [foldl].
  destruct (installed_product_step_spec _ ids b Hps) as [-> Hid].
  assert (forall i, has_id (parse_product b) i -> i <> "" -> block_id b = Some i) as Hblock.
  { intros i Hi Hne. unfold block_id. rewrite Hi. by rewrite bool_decide_eq_false_2. }
  assert (forall b' i, block_id b' = Some i -> has_id (parse_product b') i /\ i <> "") as Hback.
  { intros b' i. unfold block_id, has_id. destruct (dget _ _) as [[]|]; try done.
    case_bool_decide; [done|]. by intros [= ->]. }
  assert (forall p, p ∈ foldl installed_product_step [] blocks -> exists before b0 after,
    (blocks ++ [b])%list = (before ++ b0 :: after)%list /\ p = parse_product b0 /\
    forall b', b' ∈ before -> block_id b' <> block_id b0) as Hold.
  { intros p (before & b0 & after & -> & H)%Hfirst. exists before, b0, (after ++ [b])%list.
    by rewrite <- app_assoc. }
  destruct (block_id b) as [i|] eqn:Hb; [destruct (bool_decide_reflect (i ∈ ids)) as [Hin|Hnew]|].
  - exists ids. split; [done|]. split; [done|]. split; [|done]. intros j. rewrite Hids.
    setoid_rewrite elem_of_app. setoid_rewrite list_elem_of_singleton. split; [naive_solver|].
    intros (Hj & b' & [Hb'| ->] & Hbj); [eauto|]. apply Hids. apply Hblock in Hbj; [congruence | done].
  - exists (ids ++ [i])%list. split; [apply Forall2_app; eauto|]. split; [|split].
    + apply NoDup_app. split; [done|]. split; [|apply NoDup_singleton]. set_solver.
    + intros j. rewrite elem_of_app, list_elem_of_singleton, Hids.
      setoid_rewrite elem_of_app. setoid_rewrite list_elem_of_singleton. split.
      * intros [(? & b' & ? & ?)| ->]; [eauto 6|]. destruct (Hback b i Hb). eauto.
      * intros (Hj & b' & [Hb'| ->] & Hbj); [eauto|]. right. apply Hblock in Hbj; [congruence | done].
    + intros p [Hp| ->%list_elem_of_singleton]%elem_of_app; [by apply Hold|]. exists blocks, b, [].
      split; [done|]. split; [done|]. intros b' Hb' Heq. rewrite Hb in Heq. apply Hnew, Hids.
      destruct (Hback b' i Heq). eauto.
  - exists ids. split; [done|]. split; [done|]. split; [|done]. intros j. rewrite Hids.
    setoid_rewrite elem_of_app. setoid_rewrite list_elem_of_singleton. split; [naive_solver|].
    intros (Hj & b' & [Hb'| ->] & Hbj); [eauto|]. apply Hblock in Hbj; [congruence | done].
Qed.

(** ** [ip.py] *)

Definition has_field (prefix line : string) (r : Res string) : Prop :=
  str_startswith prefix (str_lstrip line) = true /\ second_field (str_lstrip line) = r.

(** The addresses read from [ip address show]: when every line of the kind has
    an address, the result has no duplicates and holds exactly the addresses of
    those lines that are well formed and not excluded; a line without an address
    loses the whole fact. *)
Theorem ip_addresses_spec prefix excluded valid d lines :
  dget "stdout_lines" d = Some (text_lines lines) ->
  ((forall line, line ∈ lines -> str_startswith prefix (str_lstrip line) = true ->
      is_Ok (second_field (str_lstrip line))) ->
   exists addresses, ip_addresses prefix excluded valid (VDict d) = Ok (text_lines addresses) /\
     NoDup addresses /\
     (forall a, a ∈ addresses <->
        (valid a = true /\ (a ∉ excluded) /\ exists line, line ∈ lines /\ has_field prefix line (Ok a)))) /\
  (forall line e, line ∈ lines -> has_field prefix line (Err e) ->
     exists e', ip_addresses prefix excluded valid (VDict d) = Err e').
Proof.
  intros Hd. unfold ip_addresses, stdout_lines. cbn [getitem]. unfold dget_exn. rewrite Hd.
  cbn [from_option mbind res_bind text_lines py_iter].
  assert (mapM (fun l => str_lstrip <$> as_str "lstrip" l) (VStr <$> lines) = Ok (str_lstrip <$> lines)) as ->.
  { apply mapM_Ok. rewrite Forall2_fmap_l, Forall2_fmap_r. apply Forall_Forall2_diag, Forall_forall. done. }
  cbn [mbind res_bind].
  set (kept := List.filter (str_startswith prefix) (str_lstrip <$> lines)).
  assert (forall l, l ∈ kept <-> exists line, line ∈ lines /\ l = str_lstrip line /\ str_startswith prefix l = true) as Hkept.
  { intros l. unfold kept. rewrite list_elem_of_In, filter_In, <- list_elem_of_In, list_elem_of_fmap. naive_solver. }
  split.
  - intros Hok. assert (exists fs, mapM second_field kept = Ok fs) as [fs Hfs].
    { assert (forall l, l ∈ kept -> is_Ok (second_field l)) as Hk
        by (intros l (line & Hl & -> & Hp)%Hkept; by apply Hok).
      clear - Hk. induction kept as [|l ls IH]; [by eexists|]. cbn [mapM].
      destruct (Hk l) as [x ->]; [left|]. destruct IH as [fs ->]; [intros; apply Hk; by right|]. by eexists. }
    rewrite Hfs. cbn [mbind res_bind]. eexists. split; [done|]. split.
    + apply NoDup_ListNoDup, List.NoDup_filter, NoDup_ListNoDup, NoDup_filter, NoDup_dedup.
    + intros a. rewrite list_elem_of_In, filter_In, <- list_elem_of_In, list_elem_of_filter, elem_of_dedup.
      apply mapM_Ok in Hfs. assert (a ∈ fs <-> exists l, l ∈ kept /\ second_field l = Ok a) as ->.
      { split; intros Ha.
        - apply list_elem_of_lookup in Ha as [i Hi].
          destruct (Forall2_lookup_r _ _ _ _ _ Hfs Hi) as (l & Hl & Hx). exists l. split; [|done].
          by eapply list_elem_of_lookup_2.
        - destruct Ha as (l & Hl & Hx). apply list_elem_of_lookup in Hl as [i Hi].
          destruct (Forall2_lookup_l _ _ _ _ _ Hfs Hi) as (y & Hy & Hx'). rewrite Hx in Hx'. injection Hx' as ->.
          by eapply list_elem_of_lookup_2. }
      unfold has_field. setoid_rewrite Hkept. naive_solver.
  - intros line e Hl [Hp He]. destruct (mapM second_field kept) as [fs|e'] eqn:Hfs; [|by eexists].
    apply mapM_Ok in Hfs. assert (str_lstrip line ∈ kept) as Hin by (apply Hkept; eauto).
    apply list_elem_of_lookup in Hin as [i Hi]. destruct (Forall2_lookup_l _ _ _ _ _ Hfs Hi) as (y & _ & Hy).
    congruence.
Qed.

Definition sample_ip : list string :=
  ["2: eth0: <UP>"; "    link/ether 06:c5:af:85:83:e1 brd ff:ff:ff:ff:ff:ff"; "    link/loopback 00:00:00:00:00:00"].

Lemma ip_addresses_spec_witness :
  exists addresses,
    ProcessIpAddressesMAC (VDict [("stdout_lines", text_lines sample_ip)]) = Ok (text_lines addresses) /\
    "06:c5:af:85:83:e1" ∈ addresses.
Proof.
  destruct (ip_addresses_spec "link/" EXCLUDE_MAC_ADDRESSES is_valid_mac_address
              [("stdout_lines", text_lines sample_ip)] sample_ip) as [H _]; [reflexivity|].
  destruct H as (addresses & H1 & _ & H2).
  - intros line Hl _. unfold sample_ip in Hl. rewrite !elem_of_cons, elem_of_nil in Hl.
    destruct Hl as [->|[->|[->|[]]]]; eexists; vm_compute; reflexivity.
  - exists addresses. split; [exact H1|]. apply H2. split; [reflexivity|]. split; [by_compute|].
    exists "    link/ether 06:c5:af:85:83:e1 brd ff:ff:ff:ff:ff:ff". split; [by_compute|]. split; reflexivity.
Defined.
