(* ===== verification/ScanModel.v ===== *)
(** Scan jobs and scan tasks: the state machines of [api/scanjob/model.py] and
    [api/scantask/model.py] over the tables they use.

    A method works on an object in memory ([self]) and on the database; saving
    the object writes its row.  The clock is the argument [now].  Log lines are
    not modelled. *)
From stdpp Require Import base gmap sets list strings sorting.
From Stdlib Require Import ZArith Lia.
From S2P Require Import Prelude.

Open Scope string_scope.
Open Scope Z_scope.

(** ** Data *)

Inductive status := CREATED | PENDING | RUNNING | PAUSED | CANCELED | COMPLETED | FAILED.
Inductive scan_type := INSPECT | FINGERPRINT.

#[export] Instance status_eq_dec : EqDecision status.
Proof. solve_decision. Defined.
#[export] Instance scan_type_eq_dec : EqDecision scan_type.
Proof. solve_decision. Defined.

Definition ST_PENDING : string := "Task is pending.".
Definition ST_RUNNING : string := "Task is running.".
Definition ST_RESTARTED : string := "Task was restarted.".
Definition ST_PAUSED : string := "Task is paused.".
Definition ST_CANCELED : string := "Task is canceled.".
Definition ST_COMPLETED : string := "Task is complete.".
Definition SJ_CREATED : string := "Job is created.".
Definition SJ_RUNNING : string := "Job is running.".
Definition SJ_PENDING : string := "Job is pending.".
Definition SJ_PAUSED : string := "Job is paused.".
Definition SJ_CANCELED : string := "Job is canceled.".
Definition SJ_COMPLETED : string := "Job is complete.".

Record stats := mkstats
  { systems_count : Z; systems_scanned : Z; systems_failed : Z; systems_unreachable : Z }.

Record task := mktask {
  t_id : Z;
  t_scan_type : scan_type;
  t_status : status;
  t_message : string;
  t_job : Z;
  t_stats : stats;
  t_seq : Z;
  t_start : option Z;
  t_end : option Z;
  t_source : option Z;
  t_conn : option Z }.

Record job := mkjob {
  j_id : Z;
  j_scan_type : scan_type;
  j_status : status;
  j_message : string;
  j_start : option Z;
  j_end : option Z;
  j_scan : option Z;
  j_conn : option Z;
  j_report : option Z }.

Record scan := mkscan
  { s_scan_type : scan_type; s_sources : list Z; s_most_recent : option Z }.
Record source := mksource { src_type : string; src_most_recent : option Z }.
Record group := mkgroup { g_tasks : gset Z; g_reports : gset Z }.

(** The tables.  [prerequisites] and [job_sources] are many-to-many;
    [task_conns] maps a task connection result to its job result, [results] an
    inspect result to its group, [reports] a report to its deployment report,
    [fingerprints] a system fingerprint to its deployment report. *)
Record db := mkdb {
  jobs : gmap Z job;
  tasks : gmap Z task;
  prerequisites : gmap Z (list Z);
  job_sources : gmap Z (list Z);
  scans : gmap Z scan;
  sources : gmap Z source;
  job_conns : gset Z;
  task_conns : gmap Z Z;
  groups : gmap Z group;
  results : gmap Z Z;
  reports : gmap Z (option Z);
  fingerprints : gmap Z Z;
  next_id : Z }.

(** ** Updates of one field *)

Definition with_jobs f (d : db) := mkdb (f (jobs d)) (tasks d) (prerequisites d) (job_sources d)
  (scans d) (sources d) (job_conns d) (task_conns d) (groups d) (results d) (reports d)
  (fingerprints d) (next_id d).
Definition with_tasks f (d : db) := mkdb (jobs d) (f (tasks d)) (prerequisites d) (job_sources d)
  (scans d) (sources d) (job_conns d) (task_conns d) (groups d) (results d) (reports d)
  (fingerprints d) (next_id d).
Definition with_prerequisites f (d : db) := mkdb (jobs d) (tasks d) (f (prerequisites d)) (job_sources d)
  (scans d) (sources d) (job_conns d) (task_conns d) (groups d) (results d) (reports d)
  (fingerprints d) (next_id d).
Definition with_job_sources f (d : db) := mkdb (jobs d) (tasks d) (prerequisites d) (f (job_sources d))
  (scans d) (sources d) (job_conns d) (task_conns d) (groups d) (results d) (reports d)
  (fingerprints d) (next_id d).
Definition with_scans f (d : db) := mkdb (jobs d) (tasks d) (prerequisites d) (job_sources d)
  (f (scans d)) (sources d) (job_conns d) (task_conns d) (groups d) (results d) (reports d)
  (fingerprints d) (next_id d).
Definition with_sources f (d : db) := mkdb (jobs d) (tasks d) (prerequisites d) (job_sources d)
  (scans d) (f (sources d)) (job_conns d) (task_conns d) (groups d) (results d) (reports d)
  (fingerprints d) (next_id d).
Definition with_job_conns f (d : db) := mkdb (jobs d) (tasks d) (prerequisites d) (job_sources d)
  (scans d) (sources d) (f (job_conns d)) (task_conns d) (groups d) (results d) (reports d)
  (fingerprints d) (next_id d).
Definition with_task_conns f (d : db) := mkdb (jobs d) (tasks d) (prerequisites d) (job_sources d)
  (scans d) (sources d) (job_conns d) (f (task_conns d)) (groups d) (results d) (reports d)
  (fingerprints d) (next_id d).
Definition with_groups f (d : db) := mkdb (jobs d) (tasks d) (prerequisites d) (job_sources d)
  (scans d) (sources d) (job_conns d) (task_conns d) (f (groups d)) (results d) (reports d)
  (fingerprints d) (next_id d).
Definition with_results f (d : db) := mkdb (jobs d) (tasks d) (prerequisites d) (job_sources d)
  (scans d) (sources d) (job_conns d) (task_conns d) (groups d) (f (results d)) (reports d)
  (fingerprints d) (next_id d).
Definition with_reports f (d : db) := mkdb (jobs d) (tasks d) (prerequisites d) (job_sources d)
  (scans d) (sources d) (job_conns d) (task_conns d) (groups d) (results d) (f (reports d))
  (fingerprints d) (next_id d).
Definition with_fingerprints f (d : db) := mkdb (jobs d) (tasks d) (prerequisites d) (job_sources d)
  (scans d) (sources d) (job_conns d) (task_conns d) (groups d) (results d) (reports d)
  (f (fingerprints d)) (next_id d).

(** A new primary key. *)
Definition fresh_id (d : db) : Z * db :=
  (next_id d, mkdb (jobs d) (tasks d) (prerequisites d) (job_sources d) (scans d) (sources d)
    (job_conns d) (task_conns d) (groups d) (results d) (reports d) (fingerprints d) (next_id d + 1)).

(** [self.save()] *)
Definition save_task (self : task) (d : db) : db := with_tasks (<[t_id self := self]>) d.
Definition save_job (self : job) (d : db) : db := with_jobs (<[j_id self := self]>) d.

(** [Model.objects.get(id=i)] and [self.refresh_from_db()] *)
Definition get_task (i : Z) (d : db) : Res task := from_option DoesNotExist (tasks d !! i).
Definition get_job (i : Z) (d : db) : Res job := from_option DoesNotExist (jobs d !! i).

(** [job.tasks], ordered by sequence number. *)
Definition seq_le (a b : task) : Prop := t_seq a <= t_seq b.
#[export] Instance seq_le_dec : RelDecision seq_le.
Proof. intros a b. unfold seq_le. apply _. Defined.

Definition job_tasks (i : Z) (d : db) : list task :=
  merge_sort seq_le (filter (fun t => t_job t = i) (map_to_list (tasks d)).*2).

(** ** Scan tasks *)

Module Task.

Definition set_status (s : status) (m : string) (t : task) : task :=
  mktask (t_id t) (t_scan_type t) s m (t_job t) (t_stats t) (t_seq t) (t_start t) (t_end t)
    (t_source t) (t_conn t).
Definition set_start (x : option Z) (t : task) : task :=
  mktask (t_id t) (t_scan_type t) (t_status t) (t_message t) (t_job t) (t_stats t) (t_seq t) x
    (t_end t) (t_source t) (t_conn t).
Definition set_end (x : option Z) (t : task) : task :=
  mktask (t_id t) (t_scan_type t) (t_status t) (t_message t) (t_job t) (t_stats t) (t_seq t)
    (t_start t) x (t_source t) (t_conn t).
Definition set_stats (x : stats) (t : task) : task :=
  mktask (t_id t) (t_scan_type t) (t_status t) (t_message t) (t_job t) x (t_seq t)
    (t_start t) (t_end t) (t_source t) (t_conn t).

Definition set_conn (x : option Z) (t : task) : task :=
  mktask (t_id t) (t_scan_type t) (t_status t) (t_message t) (t_job t) (t_stats t) (t_seq t)
    (t_start t) (t_end t) (t_source t) x.

(** Each method returns the object and the database. *)
Definition save (self : task) (d : db) : task * db := (self, save_task self d).

Definition status_start (now : Z) (self : task) (d : db) : task * db :=
  save (set_status RUNNING ST_RUNNING (set_start (Some now) self)) d.
Definition status_restart (self : task) (d : db) : task * db :=
  save (set_status PENDING ST_RESTARTED self) d.
Definition status_pause (self : task) (d : db) : task * db :=
  save (set_status PAUSED ST_PAUSED self) d.
Definition status_cancel (now : Z) (self : task) (d : db) : task * db :=
  save (set_status CANCELED ST_CANCELED (set_end (Some now) self)) d.
Definition status_fail (now : Z) (message : string) (self : task) (d : db) : task * db :=
  save (set_status FAILED message (set_end (Some now) self)) d.

(** [refresh_from_db] first; an empty message counts as none. *)
Definition status_complete (now : Z) (message : option string) (self : task) (d : db) :
    Res (task * db) :=
  self ← get_task (t_id self) d;
  let m := match message with Some "" | None => ST_COMPLETED | Some m => m end in
  Ok (save (set_status COMPLETED m (set_end (Some now) self)) d).

Definition or_old (new : option Z) (old : Z) : Z := default old new.

(** Saved only when a value differs. *)
Definition update_stats (sys_count sys_scanned sys_failed sys_unreachable : option Z)
    (self : task) (d : db) : Res (task * db) :=
  self ← get_task (t_id self) d;
  let old := t_stats self in
  let changed (new : option Z) (old : Z) := match new with Some z => negb (z =? old) | None => false end in
  let new := mkstats (or_old sys_count (systems_count old)) (or_old sys_scanned (systems_scanned old))
               (or_old sys_failed (systems_failed old)) (or_old sys_unreachable (systems_unreachable old)) in
  Ok (if changed sys_count (systems_count old) || changed sys_scanned (systems_scanned old)
         || changed sys_failed (systems_failed old) || changed sys_unreachable (systems_unreachable old)
      then save (set_stats new self) d else (self, d)).

Definition bump (b : bool) (z : Z) : Z := if b then z + 1 else z.

(** The row is incremented in the database, then read back. *)
Definition increment_stats (count scanned failed unreachable : bool) (self : task) (d : db) :
    Res (task * db) :=
  if count || scanned || failed || unreachable then
    let d := with_tasks (alter (fun row => let s := t_stats row in
               set_stats (mkstats (bump count (systems_count s)) (bump scanned (systems_scanned s))
                 (bump failed (systems_failed s)) (bump unreachable (systems_unreachable s))) row)
               (t_id self)) d in
    self ← get_task (t_id self) d; Ok (self, d)
  else Ok (self, d).

End Task.

(** ** Scan jobs *)

Module Job.

Definition set_status (s : status) (m : string) (j : job) : job :=
  mkjob (j_id j) (j_scan_type j) s m (j_start j) (j_end j) (j_scan j) (j_conn j) (j_report j).
Definition set_start (x : option Z) (j : job) : job :=
  mkjob (j_id j) (j_scan_type j) (j_status j) (j_message j) x (j_end j) (j_scan j) (j_conn j) (j_report j).
Definition set_end (x : option Z) (j : job) : job :=
  mkjob (j_id j) (j_scan_type j) (j_status j) (j_message j) (j_start j) x (j_scan j) (j_conn j) (j_report j).
Definition set_scan_type (x : scan_type) (j : job) : job :=
  mkjob (j_id j) x (j_status j) (j_message j) (j_start j) (j_end j) (j_scan j) (j_conn j) (j_report j).
Definition set_conn (x : option Z) (j : job) : job :=
  mkjob (j_id j) (j_scan_type j) (j_status j) (j_message j) (j_start j) (j_end j) (j_scan j) x (j_report j).
Definition set_report (x : option Z) (j : job) : job :=
  mkjob (j_id j) (j_scan_type j) (j_status j) (j_message j) (j_start j) (j_end j) (j_scan j) (j_conn j) x.

(** [true] means that the change is refused; asking for the current status is
    never an error. *)
Definition validate_status_change (target : status) (valid_current : list status) (self : job) : bool :=
  if bool_decide (target = j_status self) then false
  else negb (bool_decide (j_status self ∈ valid_current)).

(** [self.sources.add(...)] *)
Definition add_sources (i : Z) (new : list Z) (d : db) : db :=
  let old := default [] (job_sources d !! i) in
  with_job_sources (<[i := (old ++ filter (fun x => x ∉ old) new)%list]>) d.

Definition copy_scan_details (self : job) (d : db) : Res (job * db) :=
  match j_scan self with
  | None => Ok (self, d)
  | Some s =>
      sc ← from_option DoesNotExist (scans d !! s);
      let d := add_sources (j_id self) (s_sources sc) d in
      let self := set_scan_type (s_scan_type sc) self in
      Ok (self, save_job self d)
  end.

(** The groups a job shares with no other job's report. *)
Definition exclusive_group (i : Z) (only : option Z) (d : db) (g : group) : Prop :=
  (exists t, t ∈ g_tasks g /\ (exists row, tasks d !! t = Some row /\ t_job row = i) /\
     match only with Some o => t = o | None => True end) /\
  ~ (exists r, r ∈ g_reports g /\
       exists k j, jobs d !! k = Some j /\ k <> i /\ j_report j = Some r).

Definition exclusive_groupb (i : Z) (only : option Z) (d : db) (g : group) : bool :=
  existsb (fun t => match tasks d !! t with Some row => t_job row =? i | None => false end &&
             match only with Some o => t =? o | None => true end) (elements (g_tasks g)) &&
  negb (existsb (fun r => existsb (fun kj : Z * job => negb (kj.1 =? i) &&
           bool_decide (j_report kj.2 = Some r)) (map_to_list (jobs d))) (elements (g_reports g))).

(** Inspect results exclusively related to the job, then every group that is
    left without results. *)
Definition delete_inspect_results (self : job) (scan_task_id : option Z) (d : db) : db :=
  let doomed g := match groups d !! g with
                  | Some gr => exclusive_groupb (j_id self) scan_task_id d gr
                  | None => false
                  end in
  let d := with_results (filter (fun rg : Z * Z => doomed rg.2 = false)) d in
  let used := (map_to_list (results d)).*2 in
  with_groups (filter (fun gg : Z * group => gg.1 ∈ used)) d.

(** [self.tasks.all().delete()], with the rows that point to the tasks. *)
Definition delete_tasks (self : job) (d : db) : db :=
  let ids := t_id <$> job_tasks (j_id self) d in
  let d := with_tasks (filter (fun it : Z * task => it.1 ∉ ids)) d in
  let d := with_prerequisites (fun m =>
             (fun l => filter (fun x => x ∉ ids) l) <$> filter (fun il : Z * list Z => il.1 ∉ ids) m) d in
  with_groups (fmap (fun g => mkgroup (filter (fun x => x ∉ ids) (g_tasks g)) (g_reports g))) d.

Definition create_inspect_task (self : job) (st : Z * list Z * db) (src : Z) : Z * list Z * db :=
  let '(index, acc, d) := st in
  let '(cid, d) := fresh_id d in
  let d := match j_conn self with Some jc => with_task_conns (<[cid := jc]>) d | None => d end in
  let '(tid, d) := fresh_id d in
  let t := mktask tid INSPECT PENDING ST_PENDING (j_id self) (mkstats 0 0 0 0) index None None
             (Some src) (Some cid) in
  (index + 1, (acc ++ [tid])%list, save_task t d).

(** The identifiers of the tasks, in the order of the sources. *)
Definition _create_inspection_tasks (self : job) (d : db) : list Z * db :=
  if bool_decide (j_scan_type self <> INSPECT) then ([], d) else
  let '(_, acc, d) := foldl (create_inspect_task self) (0, [], d) (default [] (job_sources d !! j_id self)) in
  (acc, d).

Definition _create_fingerprint_task (self : job) (inspect_tasks : list Z) (d : db) : db :=
  if bool_decide (j_scan_type self = FINGERPRINT) || negb (bool_decide (inspect_tasks = [])) then
    let '(tid, d) := fresh_id d in
    let t := mktask tid FINGERPRINT PENDING ST_PENDING (j_id self) (mkstats 0 0 0 0)
               (Z.of_nat (length inspect_tasks) + 1) None None None None in
    with_prerequisites (<[tid := inspect_tasks]>) (save_task t d)
  else d.

Definition _create_pending_tasks (self : job) (d : db) : db :=
  let '(inspect_tasks, d) := _create_inspection_tasks self d in
  _create_fingerprint_task self inspect_tasks d.

(** [self.connection_results.task_results.all().delete()]: a task that pointed
    to one of them is left without. *)
Definition delete_task_conns (jc : Z) (d : db) : db :=
  let gone c := match task_conns d !! c with Some x => x =? jc | None => false end in
  let d := with_tasks (fmap (fun t => match t_conn t with
                                      | Some c => if gone c then Task.set_conn None t else t
                                      | None => t
                                      end)) d in
  with_task_conns (filter (fun cj : Z * Z => cj.2 <> jc)) d.

(** [self.report.deployment_report.system_fingerprints.all().delete()] *)
Definition delete_fingerprints (self : job) (d : db) : Res db :=
  match j_report self with
  | None => Ok d
  | Some r =>
      dep ← from_option DoesNotExist (reports d !! r);
      Ok (match dep with
          | Some x => with_fingerprints (filter (fun fd : Z * Z => fd.2 <> x)) d
          | None => d
          end)
  end.

(** What a first, interrupted call may have left; [self.tasks] is a manager
    and always true. *)
Definition remove_partial (self : job) (d : db) : Res db :=
  let d := delete_inspect_results self None d in
  let d := delete_tasks self d in
  let d := match j_conn self with
           | Some jc => delete_task_conns jc d
           | None => d
           end in
  delete_fingerprints self d.

Definition mark_recent (self : job) (d : db) : db :=
  if bool_decide (j_scan_type self = FINGERPRINT) then d else
  let d := match j_scan self with
           | Some s => with_scans (alter (fun sc =>
                         mkscan (s_scan_type sc) (s_sources sc) (Some (j_id self))) s) d
           | None => d
           end in
  foldl (fun d src => with_sources (alter (fun so => mksource (src_type so) (Some (j_id self))) src) d)
    d (default [] (job_sources d !! j_id self)).

Definition queue (self : job) (d : db) : Res (job * db) :=
  r ← copy_scan_details self d;
  let '(self, d) := r in
  if validate_status_change PENDING [CREATED] self then Ok (self, d) else
  let '(self, d) := match j_conn self with
                    | Some _ => (self, d)
                    | None => let '(c, d) := fresh_id d in
                              let self := set_conn (Some c) self in
                              (self, save_job self (with_job_conns (fun s => s ∪ {[c]}) d))
                    end in
  d ← remove_partial self d;
  let d := _create_pending_tasks self d in
  let d := mark_recent self d in
  let self := set_status PENDING SJ_PENDING self in
  Ok (self, save_job self d).

(** The status changes return the answer of the method, the object and the
    database.  The times are set on the object before the check. *)
Definition change (target : status) (message : string) (valid : list status)
    (work : db -> db) (self : job) (d : db) : bool * job * db :=
  if validate_status_change target valid self then (false, self, d) else
  let d := work d in
  let self := set_status target message self in
  (true, self, save_job self d).

Definition status_start (now : Z) (self : job) (d : db) : bool * job * db :=
  change RUNNING SJ_RUNNING [PENDING] id (set_start (Some now) self) d.

(** Applies a method to tasks read from the database. *)
Definition each_task (f : task -> db -> task * db) (ts : list task) (d : db) : db :=
  foldl (fun d t => (f t d).2) d ts.

Definition status_restart (self : job) (d : db) : bool * job * db :=
  change PENDING SJ_RUNNING [PENDING; PAUSED; RUNNING]
    (fun d => each_task Task.status_restart
                (filter (fun t => t_status t = PAUSED) (job_tasks (j_id self) d)) d) self d.

(** The tasks that are not in a final state. *)
Definition unfinished (t : task) : Prop := ~ (t_status t ∈ [FAILED; CANCELED; COMPLETED]).

Definition status_pause (self : job) (d : db) : bool * job * db :=
  change PAUSED SJ_PAUSED [PENDING; RUNNING]
    (fun d => each_task Task.status_pause
                (filter unfinished (job_tasks (j_id self) d)) d) self d.

Definition status_cancel (now : Z) (self : job) (d : db) : bool * job * db :=
  change CANCELED SJ_CANCELED [CREATED; PENDING; RUNNING; PAUSED]
    (fun d => each_task (Task.status_cancel now)
                (filter unfinished (job_tasks (j_id self) d)) d) (set_end (Some now) self) d.

Definition status_complete (now : Z) (self : job) (d : db) : bool * job * db :=
  change COMPLETED SJ_COMPLETED [RUNNING] id (set_end (Some now) self) d.

Definition status_fail (now : Z) (message : string) (self : job) (d : db) : bool * job * db :=
  change FAILED message [RUNNING] id (set_end (Some now) self) d.

(** [_calculate_counts]: the sums over the tasks of the job's own type. *)
Definition sum_stats (l : list stats) : stats :=
  foldr (fun a b => mkstats (systems_count a + systems_count b) (systems_scanned a + systems_scanned b)
                      (systems_failed a + systems_failed b) (systems_unreachable a + systems_unreachable b))
    (mkstats 0 0 0 0) l.

Definition _calculate_counts (self : job) (d : db) : stats :=
  sum_stats (t_stats <$> filter (fun t => t_scan_type t = j_scan_type self) (job_tasks (j_id self) d)).

(** [None] while the job is created or pending. *)
Definition calculate_counts (self : job) (d : db) : Res (option (stats * Z)) :=
  self ← get_job (j_id self) d;
  if bool_decide (j_status self ∈ [CREATED; PENDING]) then Ok None else
  let s := _calculate_counts self d in
  match j_report self with
  | None => Ok (Some (s, 0))
  | Some r =>
      dep ← from_option DoesNotExist (reports d !! r);
      Ok (Some (s, match dep with
                   | Some x => Z.of_nat (size (filter (fun fd : Z * Z => fd.2 = x) (fingerprints d)))
                   | None => 0
                   end))
  end.

End Job.

(** ** Well-formed databases *)

(** Rows are stored under their primary key, and keys are below the next one. *)
Record wf_db (d : db) : Prop := {
  wd_tasks : forall i t, tasks d !! i = Some t -> t_id t = i /\ i < next_id d;
  wd_jobs : forall i j, jobs d !! i = Some j -> j_id j = i }.

Lemma elem_of_job_tasks i d t :
  wf_db d -> t ∈ job_tasks i d <-> tasks d !! t_id t = Some t /\ t_job t = i.
Proof.
  intros W. unfold job_tasks. rewrite merge_sort_Permutation, list_elem_of_filter.
  split.
  - intros [Hj ([i' t'] & -> & Hin)%list_elem_of_fmap]. apply elem_of_map_to_list in Hin.
    cbn in *. by destruct (wd_tasks _ W _ _ Hin) as [-> _].
  - intros [Ht Hj]. split; [done|]. apply list_elem_of_fmap. exists (t_id t, t). split; [done|].
    by apply elem_of_map_to_list.
Qed.

Lemma job_tasks_nodup i d : wf_db d -> NoDup (t_id <$> job_tasks i d).
Proof.
  intros W. unfold job_tasks. rewrite merge_sort_Permutation.
  assert (NoDup (map_to_list (tasks d)).*1) as Hn by apply NoDup_fst_map_to_list.
  assert (Forall (fun it : Z * task => t_id it.2 = it.1) (map_to_list (tasks d))) as Hk.
  { apply Forall_forall. intros [j t] Hin%elem_of_map_to_list. by destruct (wd_tasks _ W _ _ Hin). }
  induction (map_to_list (tasks d)) as [|[j t] l IH]; csimpl in *; [constructor|].
  apply NoDup_cons in Hn as [Hj Hn]. apply Forall_cons in Hk as [Hjt Hk]. cbn in Hjt.
  rewrite filter_cons. case_decide; [|by apply IH]. cbn. constructor; [|by apply IH].
  intros (t' & E & Hin)%list_elem_of_fmap. apply list_elem_of_filter in Hin as [_ Hin].
  apply list_elem_of_fmap in Hin as ([j' t''] & -> & Hin). cbn in E.
  rewrite Forall_forall in Hk. specialize (Hk _ Hin). cbn in Hk. apply Hj.
  apply list_elem_of_fmap. exists (j', t''). split; [cbn; congruence | done].
Qed.

(** A method that only changes the row of its task. *)
Definition row_method (f : task -> db -> task * db) (g : task -> task) : Prop :=
  (forall t d, f t d = (g t, save_task (g t) d)) /\ forall t, t_id (g t) = t_id t /\ t_job (g t) = t_job t.

Lemma each_task_spec f g ts d :
  row_method f g -> NoDup (t_id <$> ts) ->
  exists m, Job.each_task f ts d = with_tasks (fun _ => m) d /\
    (forall t, t ∈ ts -> m !! t_id t = Some (g t)) /\
    (forall i, i ∉ t_id <$> ts -> m !! i = tasks d !! i).
Proof.
  intros [Hf Hg]. revert d. induction ts as [|t ts IH]; intros d Hn.
  { exists (tasks d). split; [by destruct d|]. split; [by intros ? ?%elem_of_nil | done]. }
  cbn in Hn. apply NoDup_cons in Hn as [Ht Hn].
  destruct (IH (save_task (g t) d) Hn) as (m & Hm & H1 & H2).
  unfold Job.each_task in *. cbn [foldl]. rewrite Hf. cbn [snd]. exists m. rewrite Hm.
  destruct (Hg t) as [Eid _]. split; [done|]. split.
  - intros t' [->|Hin]%elem_of_cons; [|by apply H1]. rewrite H2 by done. cbn. by rewrite Eid, lookup_insert_eq.
  - cbn. intros i Hi. apply not_elem_of_cons in Hi as [Hi1 Hi2]. rewrite H2 by done. cbn.
    rewrite Eid. by rewrite lookup_insert_ne by done.
Qed.

(** ** The life cycle of a job *)

(** One call of a method on a job that was just read from the database. *)
Inductive op :=
| OpQueue
| OpStart (now : Z)
| OpRestart
| OpPause
| OpCancel (now : Z)
| OpComplete (now : Z)
| OpFail (now : Z) (message : string).

Definition apply_op (o : op) (i : Z) (d : db) : Res db :=
  self ← get_job i d;
  match o with
  | OpQueue => r ← Job.queue self d; Ok r.2
  | OpStart now => Ok (Job.status_start now self d).2
  | OpRestart => Ok (Job.status_restart self d).2
  | OpPause => Ok (Job.status_pause self d).2
  | OpCancel now => Ok (Job.status_cancel now self d).2
  | OpComplete now => Ok (Job.status_complete now self d).2
  | OpFail now message => Ok (Job.status_fail now message self d).2
  end.

Definition op_target (o : op) : status :=
  match o with
  | OpQueue | OpRestart => PENDING
  | OpStart _ => RUNNING
  | OpPause => PAUSED
  | OpCancel _ => CANCELED
  | OpComplete _ => COMPLETED
  | OpFail _ _ => FAILED
  end.

Definition op_valid (o : op) : list status :=
  match o with
  | OpQueue => [CREATED]
  | OpStart _ => [PENDING]
  | OpRestart => [PENDING; PAUSED; RUNNING]
  | OpPause => [PENDING; RUNNING]
  | OpCancel _ => [CREATED; PENDING; RUNNING; PAUSED]
  | OpComplete _ | OpFail _ _ => [RUNNING]
  end.

(** The status after the operation. *)
Definition op_status (o : op) (s : status) : status :=
  if decide (s ∈ op_valid o) then op_target o else s.

Definition terminal (s : status) : bool :=
  match s with CANCELED | COMPLETED | FAILED => true | _ => false end.

Lemma refused_status o j :
  Job.validate_status_change (op_target o) (op_valid o) j = true -> op_status o (j_status j) = j_status j.
Proof.
  unfold Job.validate_status_change, op_status. case_bool_decide; [done|].
  case_bool_decide; [done|]. intros _. by case_decide.
Qed.

Lemma accepted_status o j :
  Job.validate_status_change (op_target o) (op_valid o) j = false -> op_status o (j_status j) = op_target o.
Proof.
  unfold Job.validate_status_change, op_status. case_bool_decide as E; [rewrite <- E; by case_decide|].
  case_bool_decide; [|done]. intros _. by case_decide.
Qed.

(** What a method does to the jobs: its own row moves to the status above, the
    others stay. *)
Definition job_effect (o : op) (i : Z) (d d' : db) : Prop :=
  forall k j, jobs d !! k = Some j ->
    exists j', jobs d' !! k = Some j' /\
      (k = i -> j_status j' = op_status o (j_status j)) /\ (k <> i -> j' = j).

Lemma change_effect o message work self d i j :
  jobs d !! i = Some j -> j_id self = i -> j_status self = j_status j -> jobs (work d) = jobs d ->
  job_effect o i d (Job.change (op_target o) message (op_valid o) work self d).2.
Proof.
  intros Hj Hid Hst Hw. unfold Job.change.
  destruct (Job.validate_status_change _ _ self) eqn:V; cbn [snd].
  - intros k x Hx. exists x. split; [done|]. split; [|done]. intros ->. rewrite Hj in Hx.
    injection Hx as ->. rewrite <- Hst. symmetry. by apply refused_status.
  - intros k x Hx. cbn. rewrite Hid, Hw. destruct (decide (k = i)) as [->|Hne].
    + eexists. rewrite lookup_insert_eq. split; [done|]. split; [|done]. intros _. cbn.
      rewrite Hj in Hx. injection Hx as ->. rewrite <- Hst. symmetry. by apply accepted_status.
    + exists x. by rewrite lookup_insert_ne.
Qed.

Lemma each_task_jobs f ts d :
  (forall t d, jobs (f t d).2 = jobs d) -> jobs (Job.each_task f ts d) = jobs d.
Proof.
  intros Hf. unfold Job.each_task. revert d. induction ts as [|t ts IH]; intros d; cbn; [done|].
  by rewrite IH, Hf.
Qed.

(** The parts of [queue] that leave the jobs alone. *)
Lemma inspection_tasks_jobs self d : jobs (Job._create_inspection_tasks self d).2 = jobs d.
Proof.
  unfold Job._create_inspection_tasks. case_bool_decide; [done|].
  assert (forall l st, jobs (foldl (Job.create_inspect_task self) st l).2 = jobs st.2) as Hfold.
  { induction l as [|x l IH]; intros st; cbn; [done|]. rewrite IH.
    destruct st as [[n acc] d0]. cbn. by destruct (j_conn self). }
  specialize (Hfold (default [] (job_sources d !! j_id self)) (0, [], d)).
  by destruct (foldl _ _ _) as [[? ?] ?].
Qed.

Lemma pending_tasks_jobs self d : jobs (Job._create_pending_tasks self d) = jobs d.
Proof.
  unfold Job._create_pending_tasks. pose proof (inspection_tasks_jobs self d) as H.
  destruct (Job._create_inspection_tasks self d) as [ids d1]. cbn in H. rewrite <- H.
  unfold Job._create_fingerprint_task. by destruct (_ || _).
Qed.

Lemma mark_recent_jobs self d : jobs (Job.mark_recent self d) = jobs d.
Proof.
  unfold Job.mark_recent. case_bool_decide; [done|].
  rewrite (foldl_keeps jobs) by done. by destruct (j_scan self).
Qed.

Lemma delete_fingerprints_frame self d d' :
  Job.delete_fingerprints self d = Ok d' ->
  jobs d' = jobs d /\ tasks d' = tasks d /\ next_id d' = next_id d /\ job_sources d' = job_sources d.
Proof.
  unfold Job.delete_fingerprints. destruct (j_report self); intros H; res_inv; [|done].
  match goal with |- context [match ?x with _ => _ end] => by destruct x end.
Qed.

Lemma remove_partial_frame self d d' :
  Job.remove_partial self d = Ok d' ->
  jobs d' = jobs d /\ next_id d' = next_id d /\ job_sources d' = job_sources d /\
  forall i t, tasks d' !! i = Some t ->
    exists t0, tasks d !! i = Some t0 /\ t_id t = t_id t0 /\ t_job t = t_job t0 /\
      i ∉ t_id <$> job_tasks (j_id self) d.
Proof.
  unfold Job.remove_partial. intros (-> & -> & -> & ->)%delete_fingerprints_frame.
  split; [by destruct (j_conn self)|]. split; [by destruct (j_conn self)|]. split; [by destruct (j_conn self)|].
  intros i t Ht.
  assert (exists t1, tasks (Job.delete_tasks self (Job.delete_inspect_results self None d)) !! i = Some t1 /\
            t_id t = t_id t1 /\ t_job t = t_job t1) as (t1 & H1 & E).
  { destruct (j_conn self); [|by exists t]. cbn in Ht.
    apply lookup_fmap_Some in Ht as (t1 & <- & H1). exists t1. split; [done|].
    destruct (t_conn t1); [|done]. by case_match. }
  exists t1. cbn in H1. apply map_lookup_filter_Some in H1 as [? ?]. by destruct E.
Qed.

(** [queue] moves a created job to pending, and refuses any other. *)
Lemma queue_effect i j d self' d' :
  wf_db d -> jobs d !! i = Some j -> Job.queue j d = Ok (self', d') -> job_effect OpQueue i d d'.
Proof.
  intros W Hj H. pose proof (wd_jobs _ W _ _ Hj) as Hid.
  unfold Job.queue in H. apply bind_Ok in H as ([self d1] & Hc & H).
  assert (j_id self = i /\ j_status self = j_status j /\
          (jobs d1 = jobs d \/ jobs d1 = <[i := self]> (jobs d))) as (Hi & Hst & Hd1).
  { unfold Job.copy_scan_details in Hc. destruct (j_scan j); res_inv; [|by auto].
    cbn. auto. }
  assert (forall k x, jobs d !! k = Some x -> k <> i -> jobs d1 !! k = Some x) as Hother.
  { intros k x Hx Hne. destruct Hd1 as [->| ->]; [done | by rewrite lookup_insert_ne]. }
  destruct (Job.validate_status_change PENDING [CREATED] self) eqn:V.
  - injection H as <- <-. intros k x Hx. destruct (decide (k = i)) as [->|Hne]; [|exists x; split; [by apply Hother | done]].
    rewrite Hj in Hx. injection Hx as <-.
    apply (refused_status OpQueue) in V. rewrite Hst in V.
    destruct Hd1 as [->| ->]; [exists j | exists self; rewrite lookup_insert_eq];
      (split; [done|]); (split; [intros _; congruence | done]).
  - set (r := match j_conn self with Some _ => _ | None => _ end) in H.
    assert (j_id r.1 = i /\ (jobs r.2 = jobs d1 \/ jobs r.2 = <[i := r.1]> (jobs d1))) as [Hri Hrd].
    { unfold r. destruct (j_conn self); cbn; [by auto|]. rewrite Hi. auto. }
    destruct r as [self2 d2]. cbn [fst snd] in *. apply bind_Ok in H as (d3 & H3 & H).
    injection H as <- <-. intros k x Hx. cbn. rewrite Hri, mark_recent_jobs, pending_tasks_jobs.
    rewrite (proj1 (remove_partial_frame _ _ _ H3)). destruct (decide (k = i)) as [->|Hne].
    + eexists. rewrite lookup_insert_eq. split; [done|]. split; [|done]. intros _. cbn.
      rewrite Hj in Hx. injection Hx as <-. rewrite <- Hst. symmetry. by apply (accepted_status OpQueue).
    + exists x. rewrite lookup_insert_ne by done. split; [|done].
      destruct Hrd as [->| ->]; [by apply Hother | rewrite lookup_insert_ne by done; by apply Hother].
Qed.

(** Every call of a method moves its job as [op_status] says. *)
Lemma apply_op_effect o i d d' : wf_db d -> apply_op o i d = Ok d' -> job_effect o i d d'.
Proof.
  intros W H. unfold apply_op, get_job in H. destruct (jobs d !! i) as [j|] eqn:Hj; [|done].
  cbn [from_option mbind res_bind] in H. pose proof (wd_jobs _ W _ _ Hj) as Hid.
  destruct o; res_inv.
  1:{ destruct (_ : job * db) as [? ?]. by eapply queue_effect. }
  all: unfold Job.status_start, Job.status_restart, Job.status_pause, Job.status_cancel,
         Job.status_complete, Job.status_fail.
  all: match goal with |- job_effect ?o _ _ _ => apply (change_effect o _ _ _ _ _ j) end; try done.
  all: by rewrite each_task_jobs.
Qed.

(** *** Operations keep the database well formed *)

Definition tasks_ok (d : db) : Prop :=
  forall i t, tasks d !! i = Some t -> t_id t = i /\ i < next_id d.

Lemma save_task_ok t d : tasks_ok d -> t_id t < next_id d -> tasks_ok (save_task t d).
Proof.
  intros W Ht i x. cbn. destruct (decide (i = t_id t)) as [->|Hne].
  - rewrite lookup_insert_eq. by intros [= <-].
  - rewrite lookup_insert_ne by done. apply W.
Qed.

Lemma each_task_ok f g i p `{forall t, Decision (p t)} d :
  row_method f g -> wf_db d -> tasks_ok (Job.each_task f (filter p (job_tasks i d)) d).
Proof.
  intros Hf W.
  assert (NoDup (t_id <$> filter p (job_tasks i d))) as Hn.
  { eapply sublist_NoDup; [apply (job_tasks_nodup i d W)|]. apply fmap_sublist, sublist_filter. }
  destruct (each_task_spec f g _ d Hf Hn) as (m & -> & H1 & H2).
  intros k t Ht. cbn in *. destruct (decide (k ∈ t_id <$> filter p (job_tasks i d))) as [Hin|Hout].
  - apply list_elem_of_fmap in Hin as (t0 & -> & Hin). rewrite (H1 _ Hin) in Ht. injection Ht as <-.
    apply list_elem_of_filter in Hin as [_ Hin]. apply elem_of_job_tasks in Hin as [Hin _]; [|done].
    destruct Hf as [_ Hf]. destruct (Hf t0) as [-> _]. split; [done|]. by destruct (wd_tasks _ W _ _ Hin).
  - rewrite H2 in Ht by done. by apply (wd_tasks _ W).
Qed.

Lemma row_restart : row_method Task.status_restart (Task.set_status PENDING ST_RESTARTED).
Proof. by split. Qed.
Lemma row_pause : row_method Task.status_pause (Task.set_status PAUSED ST_PAUSED).
Proof. by split. Qed.
Lemma row_cancel now : row_method (Task.status_cancel now)
  (fun t => Task.set_status CANCELED ST_CANCELED (Task.set_end (Some now) t)).
Proof. by split. Qed.

Lemma inspection_tasks_ok self d : tasks_ok d -> tasks_ok (Job._create_inspection_tasks self d).2.
Proof.
  intros W. unfold Job._create_inspection_tasks. case_bool_decide; [done|].
  assert (forall l st, tasks_ok st.2 -> tasks_ok (foldl (Job.create_inspect_task self) st l).2) as Hfold.
  { induction l as [|x l IH]; intros [[n acc] d0] W0; cbn; [done|]. apply IH. cbn.
    destruct (j_conn self); apply save_task_ok; cbn; try lia;
      intros k t Ht; destruct (W0 k t Ht); split; [done | cbn in *; lia | done | cbn in *; lia]. }
  specialize (Hfold (default [] (job_sources d !! j_id self)) (0, [], d) W).
  by destruct (foldl _ _ _) as [[? ?] ?].
Qed.

Lemma pending_tasks_ok self d : tasks_ok d -> tasks_ok (Job._create_pending_tasks self d).
Proof.
  intros W. unfold Job._create_pending_tasks. pose proof (inspection_tasks_ok self d W) as W1.
  destruct (Job._create_inspection_tasks self d) as [ids d1]. cbn in W1.
  unfold Job._create_fingerprint_task. destruct (_ || _); [|done]. cbn.
  intros k t. cbn. destruct (decide (k = next_id d1)) as [->|Hne].
  - rewrite lookup_insert_eq. intros [= <-]. cbn. lia.
  - rewrite lookup_insert_ne by done. intros Ht. destruct (W1 k t Ht). split; [done|lia].
Qed.

Lemma mark_recent_tasks self d :
  tasks (Job.mark_recent self d) = tasks d /\ next_id (Job.mark_recent self d) = next_id d.
Proof.
  unfold Job.mark_recent. case_bool_decide; [done|].
  rewrite (foldl_keeps tasks), (foldl_keeps next_id) by done. by destruct (j_scan self).
Qed.

(** Deleting and rewriting rows in place. *)
Lemma tasks_ok_shrink d d' :
  tasks_ok d -> next_id d' = next_id d ->
  (forall i t, tasks d' !! i = Some t -> exists t0, tasks d !! i = Some t0 /\ t_id t = t_id t0) ->
  tasks_ok d'.
Proof. intros W Hn H i t Ht. destruct (H i t Ht) as (t0 & H0 & ->). rewrite Hn. by apply W. Qed.

Lemma remove_partial_ok self d d' :
  tasks_ok d -> Job.remove_partial self d = Ok d' -> tasks_ok d'.
Proof.
  intros W (_ & Hn & _ & Ht)%remove_partial_frame. eapply tasks_ok_shrink; [exact W | done |].
  intros i t (t0 & ? & ? & _)%Ht. eauto.
Qed.

Lemma change_ok target message valid work self d :
  wf_db d -> tasks_ok (work d) -> jobs (work d) = jobs d ->
  wf_db (Job.change target message valid work self d).2.
Proof.
  intros W Hw Hj. unfold Job.change. destruct (Job.validate_status_change _ _ _); [done|].
  split; [exact Hw|]. cbn. rewrite Hj. intros i j.
  destruct (decide (i = j_id self)) as [->|Hne].
  - rewrite lookup_insert_eq. by intros [= <-].
  - rewrite lookup_insert_ne by done. apply W.
Qed.

Lemma save_job_wf j d : wf_db d -> wf_db (save_job j d).
Proof.
  intros W. split; [apply W|]. cbn. intros i x. destruct (decide (i = j_id j)) as [->|Hne].
  - rewrite lookup_insert_eq. by intros [= <-].
  - rewrite lookup_insert_ne by done. apply W.
Qed.

Lemma wf_jobs d d' : wf_db d -> jobs d' = jobs d -> tasks_ok d' -> wf_db d'.
Proof. intros W Hj Ht. split; [exact Ht|]. rewrite Hj. apply W. Qed.

Lemma queue_wf j d r : wf_db d -> Job.queue j d = Ok r -> wf_db r.2.
Proof.
  intros W H. unfold Job.queue in H. apply bind_Ok in H as ([self d1] & Hc & H).
  assert (wf_db d1) as W1.
  { unfold Job.copy_scan_details in Hc. destruct (j_scan j); res_inv; [|done]. apply save_job_wf.
    exact (wf_jobs d (Job.add_sources _ _ d) W eq_refl (wd_tasks _ W)). }
  destruct (Job.validate_status_change _ _ _); [by injection H as <-|].
  set (q := match j_conn self with Some _ => _ | None => _ end) in H.
  assert (wf_db q.2) as W2.
  { unfold q. destruct (j_conn self); [done|]. cbn. apply save_job_wf.
    apply (wf_jobs d1); [done | done |]. intros k t Ht. destruct (wd_tasks _ W1 k t Ht). cbn. split; [done|lia]. }
  destruct q as [self2 d2]. apply bind_Ok in H as (d3 & H3 & H). injection H as <-. cbn [snd] in *.
  apply save_job_wf. eapply wf_jobs; [exact W2| |].
  - by rewrite mark_recent_jobs, pending_tasks_jobs, (proj1 (remove_partial_frame _ _ _ H3)).
  - unfold tasks_ok. destruct (mark_recent_tasks self2 (Job._create_pending_tasks self2 d3)) as [-> ->].
    apply pending_tasks_ok. eapply remove_partial_ok; [exact (wd_tasks _ W2) | exact H3].
Qed.

Lemma apply_op_wf o i d d' : wf_db d -> apply_op o i d = Ok d' -> wf_db d'.
Proof.
  intros W H. unfold apply_op, get_job in H. destruct (jobs d !! i) as [j|]; [|done].
  cbn [from_option mbind res_bind] in H. destruct o; res_inv; [by eapply queue_wf|..].
  all: apply change_ok; [done | | by rewrite ?each_task_jobs].
  all: first [exact (wd_tasks _ W) | by eapply each_task_ok; eauto using row_restart, row_pause, row_cancel].
Qed.

(** *** Sequences of calls *)

Inductive step : db -> db -> Prop :=
| step_op o i d d' : apply_op o i d = Ok d' -> step d d'.

Lemma op_status_terminal o s : terminal s = true -> op_status o s = s.
Proof. destruct o, s; try done. Qed.

Lemma terminal_step i s d d' :
  step d d' -> wf_db d -> terminal s = true -> (exists j, jobs d !! i = Some j /\ j_status j = s) ->
  wf_db d' /\ exists j', jobs d' !! i = Some j' /\ j_status j' = s.
Proof.
  intros [o k d0 d0' H] W Hs (j & Hj & Hjs). split; [by eapply apply_op_wf|].
  destruct (apply_op_effect _ _ _ _ W H _ _ Hj) as (j' & Hj' & H1 & H2). exists j'. split; [done|].
  destruct (decide (i = k)) as [->|Hne]; [|by rewrite H2].
  rewrite H1, Hjs by done. by apply op_status_terminal.
Qed.

(** ** What [queue] creates *)

Definition inspect_task (i tid index src cid : Z) : task :=
  mktask tid INSPECT PENDING ST_PENDING i (mkstats 0 0 0 0) index None None (Some src) (Some cid).
Definition fingerprint_task (i tid index : Z) : task :=
  mktask tid FINGERPRINT PENDING ST_PENDING i (mkstats 0 0 0 0) index None None None None.

(** The keys of the tasks of [n] sources when the next key is [next]: every
    task comes after its connection result. *)
Definition new_ids (next : Z) (n : nat) : list Z := (fun k => next + 2 * Z.of_nat k + 1) <$> seq 0 n.

Lemma elem_of_new_ids x next n :
  x ∈ new_ids next n <-> exists k, (k < n)%nat /\ x = next + 2 * Z.of_nat k + 1.
Proof.
  unfold new_ids. rewrite list_elem_of_fmap. setoid_rewrite elem_of_seq.
  split; intros (k & H1 & H2); exists k; split; try done; lia.
Qed.

Lemma create_fold_spec self srcs index acc d :
  exists d', foldl (Job.create_inspect_task self) (index, acc, d) srcs =
    (index + Z.of_nat (length srcs),
     (acc ++ new_ids (next_id d) (length srcs))%list, d') /\
    next_id d' = next_id d + 2 * Z.of_nat (length srcs) /\
    prerequisites d' = prerequisites d /\
    (forall k src, srcs !! k = Some src ->
       tasks d' !! (next_id d + 2 * Z.of_nat k + 1) =
       Some (inspect_task (j_id self) (next_id d + 2 * Z.of_nat k + 1) (index + Z.of_nat k) src
               (next_id d + 2 * Z.of_nat k))) /\
    (forall x t, tasks d' !! x = Some t -> tasks d !! x = Some t \/ x ∈ new_ids (next_id d) (length srcs)) /\
    (forall x, x < next_id d -> tasks d' !! x = tasks d !! x).
Proof.
  revert index acc d. induction srcs as [|src srcs IH]; intros index acc d.
  { exists d. cbn. rewrite app_nil_r, Z.add_0_r. repeat split; auto; try lia. done. }
  cbn [foldl]. set (st := Job.create_inspect_task self (index, acc, d) src).
  assert (st = (index + 1, (acc ++ [next_id d + 1])%list, st.2) /\ next_id st.2 = next_id d + 2 /\
    prerequisites st.2 = prerequisites d /\
    tasks st.2 = <[next_id d + 1 := inspect_task (j_id self) (next_id d + 1) index src (next_id d)]> (tasks d))
    as (Est & En & Ep & Et).
  { unfold st. cbn. destruct (j_conn self); cbn; (split; [done|]); (split; [lia|]); done. }
  rewrite Est. destruct (IH (index + 1) (acc ++ [next_id d + 1])%list st.2)
    as (d' & -> & Hn & Hp & Hk & Hx & Hlt).
  exists d'. split.
  { f_equal. f_equal; [cbn [length]; lia|]. unfold new_ids. cbn [length seq fmap list_fmap]. rewrite <- app_assoc.
    cbn [app]. f_equal. f_equal; [lia|]. rewrite <- fmap_S_seq, <- list_fmap_compose. apply list_fmap_ext.
    intros k y _. unfold compose. rewrite En. lia. }
  split; [cbn [length]; lia|]. split; [congruence|]. split; [|split].
  - intros [|k] s Hs; cbn in Hs.
    + injection Hs as ->. rewrite Hlt by lia. rewrite Et.
      replace (next_id d + 2 * Z.of_nat 0 + 1) with (next_id d + 1) by lia.
      rewrite lookup_insert_eq. f_equal. f_equal; lia.
    + specialize (Hk k s Hs). rewrite En in Hk.
      replace (next_id d + 2 * Z.of_nat (S k) + 1) with (next_id d + 2 + 2 * Z.of_nat k + 1) by lia.
      rewrite Hk. f_equal. f_equal; lia.
  - intros x t Ht. setoid_rewrite elem_of_new_ids. cbn [length].
    destruct (Hx x t Ht) as [H1|(k & Hk' & ->)%elem_of_new_ids].
    + rewrite Et in H1. apply lookup_insert_Some in H1 as [[<- _]|[_ ?]]; [right | by left].
      exists 0%nat. lia.
    + right. exists (S k). lia.
  - intros x Hlt'. rewrite Hlt by lia. rewrite Et. by rewrite lookup_insert_ne by lia.
Qed.

(** The tasks that [_create_pending_tasks] adds for an inspection of [srcs]. *)
Record created (i : Z) (srcs : list Z) (next : Z) (d : db) : Prop := {
  cr_inspect : forall k src, srcs !! k = Some src ->
    tasks d !! (next + 2 * Z.of_nat k + 1) =
    Some (inspect_task i (next + 2 * Z.of_nat k + 1) (Z.of_nat k) src (next + 2 * Z.of_nat k));
  cr_fingerprint : let fid := next + 2 * Z.of_nat (length srcs) in
    tasks d !! fid = Some (fingerprint_task i fid (Z.of_nat (length srcs) + 1)) /\
    prerequisites d !! fid = Some (new_ids next (length srcs)) }.

Lemma pending_tasks_spec self d srcs :
  tasks_ok d -> j_scan_type self = INSPECT -> default [] (job_sources d !! j_id self) = srcs -> srcs <> [] ->
  let d' := Job._create_pending_tasks self d in
  created (j_id self) srcs (next_id d) d' /\
  (forall x t, tasks d' !! x = Some t ->
     tasks d !! x = Some t \/ x ∈ (new_ids (next_id d) (length srcs) ++ [next_id d + 2 * Z.of_nat (length srcs)])%list) /\
  (forall x, x < next_id d -> tasks d' !! x = tasks d !! x).
Proof.
  intros W Hty Hs Hne d'. unfold d', Job._create_pending_tasks, Job._create_inspection_tasks.
  rewrite bool_decide_eq_false_2 by (rewrite Hty; auto). rewrite Hs.
  destruct (create_fold_spec self srcs 0 [] d) as (d1 & -> & Hn & Hp & Hk & Hx & Hlt).
  cbn [app]. unfold Job._create_fingerprint_task. rewrite Hty.
  assert (bool_decide (new_ids (next_id d) (length srcs) = []) = false) as ->.
  { apply bool_decide_eq_false_2. by destruct srcs. }
  cbn [negb orb bool_decide fresh_id]. rewrite orb_true_r. cbn [fst snd]. unfold new_ids. rewrite length_fmap, length_seq.
  split; [split|split]; cbn.
  - intros k src Hk'. rewrite lookup_insert_ne.
    + by apply Hk.
    + apply lookup_lt_Some in Hk'. lia.
  - rewrite Hn, !lookup_insert_eq. done.
  - intros x t Ht. rewrite elem_of_app, list_elem_of_singleton.
    apply lookup_insert_Some in Ht as [[<- _]|[_ Ht]]; [right; right; lia|].
    destruct (Hx x t Ht); [by left | right; by left].
  - intros x Hx'. rewrite lookup_insert_ne by lia. by apply Hlt.
Qed.

Lemma mark_recent_sources self d :
  job_sources (Job.mark_recent self d) = job_sources d /\ prerequisites (Job.mark_recent self d) = prerequisites d.
Proof.
  unfold Job.mark_recent. case_bool_decide; [done|].
  rewrite (foldl_keeps job_sources), (foldl_keeps prerequisites) by done. by destruct (j_scan self).
Qed.

Lemma pending_tasks_sources self d : job_sources (Job._create_pending_tasks self d) = job_sources d.
Proof.
  unfold Job._create_pending_tasks, Job._create_inspection_tasks.
  assert (forall ids d, job_sources (Job._create_fingerprint_task self ids d) = job_sources d) as Hf.
  { intros ids d0. unfold Job._create_fingerprint_task. by destruct (_ || _). }
  case_bool_decide; [apply Hf|].
  pose proof (foldl_keeps (fun st : Z * list Z * db => job_sources st.2) (Job.create_inspect_task self)
    (default [] (job_sources d !! j_id self)) (0, [], d)) as Hs.
  destruct (foldl _ _ _) as [[? ?] d1]. rewrite Hf. apply Hs.
  intros [[? ?] ?] ?. cbn. by destruct (j_conn self).
Qed.

(** Queueing a created inspection job with sources leaves exactly the new
    tasks, all pending, and the job pending. *)
Lemma queue_creates i j d self' d' srcs :
  wf_db d -> jobs d !! i = Some j -> j_status j = CREATED -> Job.queue j d = Ok (self', d') ->
  j_scan_type self' = INSPECT -> default [] (job_sources d' !! i) = srcs -> srcs <> [] ->
  exists next, created i srcs next d' /\
    (forall t, t ∈ job_tasks i d' ->
       t_id t ∈ (new_ids next (length srcs) ++ [next + 2 * Z.of_nat (length srcs)])%list) /\
    jobs d' !! i = Some self' /\ j_status self' = PENDING.
Proof.
  intros W Hj Hst H Hty Hsr Hne. pose proof (wd_jobs _ W _ _ Hj) as Hid.
  pose proof (queue_wf _ _ _ W H) as W'. cbn in W'.
  unfold Job.queue in H. apply bind_Ok in H as ([self d1] & Hc & H).
  assert (j_id self = i /\ j_status self = CREATED /\ wf_db d1) as (Hi & Hst1 & W1).
  { unfold Job.copy_scan_details in Hc. destruct (j_scan j); res_inv; [|done]. split; [done|]. split; [done|].
    apply save_job_wf. exact (wf_jobs d (Job.add_sources _ _ d) W eq_refl (wd_tasks _ W)). }
  assert (Job.validate_status_change PENDING [CREATED] self = false) as V
    by (unfold Job.validate_status_change; rewrite Hst1; done).
  rewrite V in H.
  set (q := match j_conn self with Some _ => _ | None => _ end) in H.
  assert (wf_db q.2 /\ j_id q.1 = i) as [W2 Hi2].
  { unfold q. destruct (j_conn self); [done|]. cbn. split; [|done]. apply save_job_wf.
    apply (wf_jobs d1); [done | done |]. intros k t Ht. destruct (wd_tasks _ W1 k t Ht). cbn. split; [done|lia]. }
  destruct q as [self2 d2]. apply bind_Ok in H as (d3 & H3 & H). injection H as <- <-. cbn [fst snd] in *.
  pose proof (remove_partial_ok _ _ _ (wd_tasks _ W2) H3) as W3.
  destruct (remove_partial_frame _ _ _ H3) as (_ & _ & _ & Hfr).
  destruct (mark_recent_tasks self2 (Job._create_pending_tasks self2 d3)) as [Emt _].
  destruct (mark_recent_sources self2 (Job._create_pending_tasks self2 d3)) as [Ems Emp].
  cbn in Hsr. rewrite Ems, pending_tasks_sources in Hsr.
  destruct (pending_tasks_spec self2 d3 srcs) as ([C1 C2] & Hx & _); [done | done | by rewrite Hi2 | done |].
  exists (next_id d3). rewrite Hi2 in *. split; [|split; [|split]].
  - split; cbn; rewrite Emt; [exact C1 | rewrite Emp; exact C2].
  - intros t [Ht Hjob]%elem_of_job_tasks; [|done]. cbn in Ht. rewrite Emt in Ht.
    destruct (Hx _ _ Ht) as [Ht3|?]; [|done]. exfalso.
    destruct (Hfr _ _ Ht3) as (t0 & H0 & E1 & E2 & Hnot). apply Hnot.
    apply list_elem_of_fmap. exists t0. split; [done|]. apply elem_of_job_tasks; [done|].
    by rewrite <- E1, <- E2.
  - cbn. by rewrite Hi2, lookup_insert_eq.
  - done.
Qed.

(** ** Pausing, cancelling and cleaning up *)

(** A job-wide change applies [g] to the rows of the job that satisfy [p], and
    to no other. *)
Lemma each_job_task f g i p `{forall t, Decision (p t)} d :
  row_method f g -> wf_db d ->
  forall k t, tasks d !! k = Some t ->
    tasks (Job.each_task f (filter p (job_tasks i d)) d) !! k =
    Some (if decide (t_job t = i /\ p t) then g t else t).
Proof.
  intros Hf W k t Ht. destruct (wd_tasks _ W _ _ Ht) as [Hk _].
  assert (NoDup (t_id <$> filter p (job_tasks i d))) as Hn.
  { eapply sublist_NoDup; [apply (job_tasks_nodup i d W)|]. apply fmap_sublist, sublist_filter. }
  destruct (each_task_spec f g _ d Hf Hn) as (m & -> & H1 & H2). cbn. case_decide as E.
  - rewrite <- Hk. apply H1. apply list_elem_of_filter. split; [apply E|]. apply elem_of_job_tasks; [done|].
    rewrite Hk. split; [done | apply E].
  - rewrite H2; [done|]. intros (t' & Hid & Hin)%list_elem_of_fmap. apply list_elem_of_filter in Hin as [Hp Hin].
    apply elem_of_job_tasks in Hin as [Hin Hj]; [|done]. rewrite <- Hid, Ht in Hin.
    injection Hin as <-. tauto.
Qed.

Lemma existsb_elem {A} (p : A -> bool) l : existsb p l = true <-> exists x, x ∈ l /\ p x = true.
Proof. rewrite existsb_exists. by setoid_rewrite list_elem_of_In. Qed.

Lemma exclusive_groupb_spec i only d g :
  Job.exclusive_groupb i only d g = true <-> Job.exclusive_group i only d g.
Proof.
  unfold Job.exclusive_groupb, Job.exclusive_group.
  rewrite andb_true_iff, negb_true_iff, <- not_true_iff_false, !existsb_elem.
  setoid_rewrite existsb_elem. setoid_rewrite elem_of_elements.
  setoid_rewrite andb_true_iff. setoid_rewrite negb_true_iff. setoid_rewrite bool_decide_eq_true.
  split; intros [H1 H2]; split.
  - destruct H1 as (t & Ht & Hrow & Ho). exists t. split; [done|].
    destruct (tasks d !! t) as [row|]; [|done]. split; [exists row; split; [done|lia]|].
    destruct only; [lia | done].
  - intros (r & Hr & k & j & Hj & Hk & E). apply H2. exists r. split; [done|]. exists (k, j).
    rewrite elem_of_map_to_list. cbn. split; [done|]. split; [lia | done].
  - destruct H1 as (t & Ht & (row & Hl & Hrow) & Ho). exists t. split; [done|]. rewrite Hl. split; [lia|].
    destruct only; [lia | done].
  - intros (r & Hr & [k j] & Hj & Hk & E). apply elem_of_map_to_list in Hj. cbn in *.
    apply H2. exists r. split; [done|]. exists k, j. split; [done|]. split; [lia | done].
Qed.

(** Deleting the results of a job: those of its exclusive groups, and only
    those. *)
Lemma delete_results_spec self only d r g gr :
  results d !! r = Some g -> groups d !! g = Some gr ->
  results (Job.delete_inspect_results self only d) !! r =
  if decide (Job.exclusive_groupb (j_id self) only d gr = true) then None else Some g.
Proof.
  intros Hr Hg. cbn. case_decide as E.
  - apply map_lookup_filter_None. right. intros x Hx. rewrite Hr in Hx. injection Hx as <-.
    cbn. rewrite Hg, E. done.
  - apply map_lookup_filter_Some. split; [done|]. cbn. rewrite Hg. by apply not_true_is_false.
Qed.

(** ** Properties *)

(** [C5] Every status method, called on a job read from the database, moves the
    job exactly along the documented transitions (queue: created to pending;
    start: pending to running; restart: pending, paused or running to pending;
    pause: pending or running to paused; cancel: anything unfinished to
    canceled; complete and fail: running to completed or failed) and leaves it
    as it is otherwise; it never changes another job, and keeps the database
    well formed. *)
Theorem job_transitions o i d d' :
  wf_db d -> apply_op o i d = Ok d' -> wf_db d' /\ job_effect o i d d'.
Proof. intros W H. split; [by eapply apply_op_wf | by apply apply_op_effect]. Qed.

(** A created job of two sources. *)
Definition sample_job : job :=
  mkjob 1 INSPECT CREATED SJ_CREATED None None (Some 5) None None.
Definition sample_db : db :=
  mkdb {[ 1 := sample_job ]} ∅ ∅ ∅
    {[ 5 := mkscan INSPECT [10; 11] None ]}
    {[ 10 := mksource "network" None; 11 := mksource "vcenter" None ]}
    ∅ ∅ ∅ ∅ ∅ ∅ 100.

Lemma sample_db_wf : wf_db sample_db.
Proof.
  split; cbn.
  - intros i t H. by rewrite lookup_empty in H.
  - intros i j H. apply lookup_singleton_Some in H as [<- <-]. done.
Qed.

Lemma job_transitions_witness :
  exists d', apply_op OpQueue 1 sample_db = Ok d' /\ wf_db d' /\ job_effect OpQueue 1 sample_db d'.
Proof.
  eexists. assert (apply_op OpQueue 1 sample_db = Ok _) as H by (vm_compute; reflexivity).
  split; [exact H | exact (job_transitions _ _ _ _ sample_db_wf H)].
Defined.

(** A job that is completed, failed or canceled stays so through any
    sequence of calls of the status methods on any jobs. *)
Theorem terminal_status_final d d' i s :
  rtc step d d' -> wf_db d -> terminal s = true ->
  (exists j, jobs d !! i = Some j /\ j_status j = s) ->
  exists j', jobs d' !! i = Some j' /\ j_status j' = s.
Proof.
  intros Hs. induction Hs as [d|d d1 d2 H1 _ IH]; intros W Ht Hj; [done|].
  destruct (terminal_step i s d d1) as [W1 Hj1]; auto.
Qed.

Definition done_db : db :=
  with_jobs (fun _ => {[ 1 := Job.set_status COMPLETED SJ_COMPLETED sample_job ]}) sample_db.

Lemma done_db_wf : wf_db done_db.
Proof.
  split; cbn.
  - intros i t H. by rewrite lookup_empty in H.
  - intros i j H. apply lookup_singleton_Some in H as [<- <-]. done.
Qed.

Lemma terminal_status_final_witness :
  exists d', apply_op (OpCancel 7) 1 done_db = Ok d' /\
    exists j', jobs d' !! 1 = Some j' /\ j_status j' = COMPLETED.
Proof.
  eexists. assert (apply_op (OpCancel 7) 1 done_db = Ok _) as H by (vm_compute; reflexivity).
  split; [exact H|]. apply (terminal_status_final done_db _ 1 COMPLETED).
  - eapply rtc_l; [exact (step_op _ _ _ _ H) | apply rtc_refl].
  - exact done_db_wf.
  - reflexivity.
  - eexists. split; vm_compute; reflexivity.
Defined.

(** [C28] Queueing a created inspection job that has sources leaves it pending
    with exactly the tasks it needs: one pending inspection task for each
    source, numbered from zero in their order, and one pending fingerprint task
    numbered after them whose prerequisites are the inspection tasks. *)
Theorem queue_creates_tasks i j d self' d' srcs :
  wf_db d -> jobs d !! i = Some j -> j_status j = CREATED -> Job.queue j d = Ok (self', d') ->
  j_scan_type self' = INSPECT -> default [] (job_sources d' !! i) = srcs -> srcs <> [] ->
  exists next, created i srcs next d' /\
    (forall t, t ∈ job_tasks i d' ->
       t_id t ∈ (new_ids next (length srcs) ++ [next + 2 * Z.of_nat (length srcs)])%list) /\
    jobs d' !! i = Some self' /\ j_status self' = PENDING.
Proof. apply queue_creates. Qed.

Lemma queue_creates_tasks_witness :
  exists self' d', Job.queue sample_job sample_db = Ok (self', d') /\
    exists next, created 1 [10; 11] next d' /\
    (forall t, t ∈ job_tasks 1 d' ->
       t_id t ∈ (new_ids next (length [10; 11]) ++ [next + 2 * Z.of_nat (length [10; 11])])%list) /\
    jobs d' !! 1 = Some self' /\ j_status self' = PENDING.
Proof.
  do 2 eexists. assert (Job.queue sample_job sample_db = Ok (_, _)) as H by (vm_compute; reflexivity).
  split; [exact H|].
  apply (queue_creates_tasks 1 sample_job sample_db _ _ [10; 11] sample_db_wf);
    [reflexivity | reflexivity | exact H | reflexivity | reflexivity | discriminate].
Defined.

(** Cancelling an unfinished job leaves each of its tasks finished, keeps
    the tasks that were finished before as they were, and touches no task of
    another job. *)
Theorem cancel_finishes_tasks now i j d k t :
  wf_db d -> jobs d !! i = Some j -> j_status j ∈ [CREATED; PENDING; RUNNING; PAUSED] ->
  tasks d !! k = Some t ->
  exists t', tasks (Job.status_cancel now j d).2 !! k = Some t' /\
    (t_job t = i -> terminal (t_status t') = true) /\
    (t_job t <> i \/ terminal (t_status t) = true -> t' = t).
Proof.
  intros W Hj Hs Ht. pose proof (wd_jobs _ W _ _ Hj) as Hid.
  unfold Job.status_cancel, Job.change.
  assert (Job.validate_status_change CANCELED [CREATED; PENDING; RUNNING; PAUSED] (Job.set_end (Some now) j) = false) as ->.
  { unfold Job.validate_status_change. case_bool_decide; [done|]. by rewrite bool_decide_eq_true_2. }
  cbn [snd]. eexists. split.
  - cbn. rewrite Hid. exact (each_job_task _ _ i Job.unfinished d (row_cancel now) W k t Ht).
  - unfold Job.unfinished. split.
    + intros Hi. case_decide as E; [done|]. destruct (t_status t); try done; exfalso; apply E; (split; [done|]);
        by_compute.
    + intros Hor. case_decide as E; [|done]. exfalso. destruct E as [E1 E2], Hor as [?|Hf]; [done|].
      apply E2. destruct (t_status t); try done; by_compute.
Qed.

Definition queued_db : db :=
  Eval vm_compute in match apply_op OpQueue 1 sample_db with Ok d => d | Err _ => sample_db end.

Lemma queued_db_wf : wf_db queued_db.
Proof.
  apply (apply_op_wf OpQueue 1 sample_db); [apply sample_db_wf | vm_compute; reflexivity].
Qed.

Lemma cancel_finishes_tasks_witness :
  exists j t t', jobs queued_db !! 1 = Some j /\ tasks queued_db !! 102 = Some t /\
    tasks (Job.status_cancel 7 j queued_db).2 !! 102 = Some t' /\ terminal (t_status t') = true.
Proof.
  do 2 eexists. assert (jobs queued_db !! 1 = Some _) as Hj by (vm_compute; reflexivity).
  assert (tasks queued_db !! 102 = Some _) as Ht by (vm_compute; reflexivity).
  destruct (cancel_finishes_tasks 7 1 _ queued_db 102 _ queued_db_wf Hj ltac:(by_compute) Ht)
    as (t' & H1 & H2 & _).
  exists t'. split; [exact Hj|]. split; [exact Ht|]. split; [exact H1 | apply H2; reflexivity].
Defined.

Lemma unfinished_terminal t : Job.unfinished t <-> terminal (t_status t) = false.
Proof.
  unfold Job.unfinished. destruct (t_status t); split; try done; intros H; try (intros H'; revert H'; by_compute);
    exfalso; apply H; by_compute.
Qed.

(** The status of a task after its job was paused and restarted. *)
Lemma restarted_status i t :
  let t1 := if decide (t_job t = i /\ Job.unfinished t) then Task.set_status PAUSED ST_PAUSED t else t in
  t_status (if decide (t_job t1 = i /\ t_status t1 = PAUSED)
            then Task.set_status PENDING ST_RESTARTED t1 else t1) =
  if decide (t_job t = i /\ terminal (t_status t) = false) then PENDING else t_status t.
Proof.
  intros t1. unfold t1. pose proof (unfinished_terminal t) as Hu.
  destruct (decide (t_job t = i /\ Job.unfinished t)) as [E|E]; cbn.
  - rewrite !decide_True by naive_solver. done.
  - rewrite (decide_False (P := t_job t = i /\ terminal (t_status t) = false)) by naive_solver.
    case_decide as E2; [|done]. exfalso. apply E. split; [apply E2|]. apply Hu. by destruct E2 as [_ ->].
Qed.

(** Pausing a running or pending job and restarting it brings every task
    that was not finished back to pending, and leaves the finished ones and the
    tasks of other jobs as they were; the job ends pending. *)
Theorem pause_restart_tasks i j d k t :
  wf_db d -> jobs d !! i = Some j -> j_status j ∈ [PENDING; RUNNING] -> tasks d !! k = Some t ->
  exists d1 d2 j' t', apply_op OpPause i d = Ok d1 /\ apply_op OpRestart i d1 = Ok d2 /\
    jobs d2 !! i = Some j' /\ j_status j' = PENDING /\ tasks d2 !! k = Some t' /\
    t_status t' = (if decide (t_job t = i /\ terminal (t_status t) = false) then PENDING else t_status t).
Proof.
  intros W Hj Hs Ht. pose proof (wd_jobs _ W _ _ Hj) as Hid.
  set (j1 := Job.set_status PAUSED SJ_PAUSED j).
  set (d1 := save_job j1 (Job.each_task Task.status_pause (filter Job.unfinished (job_tasks i d)) d)).
  assert (apply_op OpPause i d = Ok d1) as H1.
  { unfold apply_op, get_job. rewrite Hj. cbn [from_option mbind res_bind]. unfold Job.status_pause, Job.change.
    assert (Job.validate_status_change PAUSED [PENDING; RUNNING] j = false) as ->; [|by rewrite Hid].
    unfold Job.validate_status_change. case_bool_decide; [done|]. by rewrite bool_decide_eq_true_2. }
  assert (W1 : wf_db d1) by (by eapply apply_op_wf).
  assert (Hj1 : jobs d1 !! i = Some j1) by (cbn; rewrite Hid; apply lookup_insert_eq).
  set (t1 := if decide (t_job t = i /\ Job.unfinished t) then Task.set_status PAUSED ST_PAUSED t else t).
  assert (Ht1 : tasks d1 !! k = Some t1) by exact (each_job_task _ _ i Job.unfinished d row_pause W k t Ht).
  set (j2 := Job.set_status PENDING SJ_RUNNING j1).
  set (d2 := save_job j2 (Job.each_task Task.status_restart
               (filter (fun t => t_status t = PAUSED) (job_tasks i d1)) d1)).
  assert (apply_op OpRestart i d1 = Ok d2) as H2.
  { unfold apply_op, get_job. rewrite Hj1. cbn [from_option mbind res_bind]. unfold Job.status_restart, Job.change.
    cbn [j_status j1 Job.set_status Job.validate_status_change]. cbn [j_id j1 Job.set_status]. rewrite Hid. done. }
  exists d1, d2, j2. eexists. split; [done|]. split; [done|].
  split; [cbn; rewrite Hid; apply lookup_insert_eq|]. split; [done|].
  split; [exact (each_job_task _ _ i _ d1 row_restart W1 k t1 Ht1)|].
  apply restarted_status.
Qed.

Lemma pause_restart_tasks_witness :
  exists j t, jobs queued_db !! 1 = Some j /\ tasks queued_db !! 102 = Some t /\
    exists d1 d2 j' t', apply_op OpPause 1 queued_db = Ok d1 /\ apply_op OpRestart 1 d1 = Ok d2 /\
    jobs d2 !! 1 = Some j' /\ j_status j' = PENDING /\ tasks d2 !! 102 = Some t' /\
    t_status t' = (if decide (t_job t = 1 /\ terminal (t_status t) = false) then PENDING else t_status t).
Proof.
  do 2 eexists. assert (jobs queued_db !! 1 = Some _) as Hj by (vm_compute; reflexivity).
  assert (tasks queued_db !! 102 = Some _) as Ht by (vm_compute; reflexivity).
  split; [exact Hj|]. split; [exact Ht|].
  exact (pause_restart_tasks 1 _ queued_db 102 _ queued_db_wf Hj ltac:(by_compute) Ht).
Defined.

(** Cleaning up a job's inspection results deletes a result exactly when
    its group was filled by a task of the job and belongs to no report of
    another job: results that another job's report shows are never deleted. *)
Theorem delete_results_exclusive self only d r g gr :
  results d !! r = Some g -> groups d !! g = Some gr ->
  (results (Job.delete_inspect_results self only d) !! r = None <->
   Job.exclusive_group (j_id self) only d gr).
Proof.
  intros Hr Hg. rewrite (delete_results_spec _ _ _ _ _ _ Hr Hg), <- exclusive_groupb_spec.
  case_decide; naive_solver.
Qed.

(** A result of job 1 whose group is also in the report of job 2. *)
Definition shared_db : db :=
  mkdb {[ 1 := sample_job; 2 := Job.set_report (Some 50) (mkjob 2 INSPECT COMPLETED "" None None None None None) ]}
    {[ 20 := inspect_task 1 20 0 10 19 ]} ∅ ∅ ∅ ∅ ∅ ∅
    {[ 30 := mkgroup {[ 20 ]} {[ 50 ]} ]} {[ 40 := 30 ]} {[ 50 := None ]} ∅ 100.

Lemma delete_results_exclusive_witness :
  (results (Job.delete_inspect_results sample_job None shared_db) !! 40 = None <->
   Job.exclusive_group 1 None shared_db (mkgroup {[ 20 ]} {[ 50 ]})) /\
  results (Job.delete_inspect_results sample_job None shared_db) !! 40 = Some 30.
Proof.
  split; [|vm_compute; reflexivity].
  apply (delete_results_exclusive sample_job None shared_db 40 30 (mkgroup {[ 20 ]} {[ 50 ]}));
    vm_compute; reflexivity.
Defined.

(** Incrementing the statistics of a task changes its row by exactly the
    counters asked for, starting from what is stored and not from the object in
    memory, and changes no other row and no status. *)
Theorem increment_stats_spec c s f u self row d :
  wf_db d -> tasks d !! t_id self = Some row ->
  exists self' d', Task.increment_stats c s f u self d = Ok (self', d') /\
    (forall k, k <> t_id self -> tasks d' !! k = tasks d !! k) /\ jobs d' = jobs d /\
    exists row', tasks d' !! t_id self = Some row' /\ t_status row' = t_status row /\
      t_stats row' = mkstats (systems_count (t_stats row) + Z.b2z c) (systems_scanned (t_stats row) + Z.b2z s)
        (systems_failed (t_stats row) + Z.b2z f) (systems_unreachable (t_stats row) + Z.b2z u).
Proof.
  intros W Hr. unfold Task.increment_stats.
  assert (forall b z, Task.bump b z = z + Z.b2z b) as Hb by (intros [] z; cbn; lia).
  destruct (c || s || f || u) eqn:E.
  - unfold get_task. cbn. rewrite lookup_alter_eq, Hr. cbn. do 2 eexists. split; [done|]. cbn. split; [|split; [done|]].
    + intros k Hk. by rewrite lookup_alter_ne.
    + eexists. rewrite lookup_alter_eq, Hr. cbn. split; [done|]. split; [done|]. by rewrite !Hb.
  - rewrite !orb_false_iff in E. destruct E as [[[-> ->] ->] ->]. do 2 eexists. split; [done|].
    split; [done|]. split; [done|]. exists row. split; [done|]. split; [done|]. cbn.
    destruct (t_stats row). cbn. by rewrite !Z.add_0_r.
Qed.

Lemma increment_stats_spec_witness :
  exists row self' d', tasks queued_db !! 102 = Some row /\
    Task.increment_stats true true false false row queued_db = Ok (self', d') /\
    exists row', tasks d' !! 102 = Some row' /\ systems_scanned (t_stats row') = 1.
Proof.
  exists (inspect_task 1 102 0 10 101).
  assert (tasks queued_db !! 102 = Some (inspect_task 1 102 0 10 101)) as Ht by (vm_compute; reflexivity).
  destruct (increment_stats_spec true true false false (inspect_task 1 102 0 10 101) _ queued_db queued_db_wf Ht)
    as (self' & d' & H & _ & _ & row' & H1 & _ & H2).
  exists self', d'. split; [exact Ht|]. split; [exact H|]. exists row'. split; [exact H1|].
  rewrite H2. reflexivity.
Defined.
