(* ===== verification/ScanFlow.v ===== *)
(** Running a scan: [scanner/runner.py], [scanner/job.py], [scanner/tasks.py]
    and [scanner/manager.py].

    The work of a task ([execute_task]) is behind an interface, [TaskRunner].
    Celery runs the functions below one task at a time; the tasks of a group
    may run in any order.  Redis is a map from scan jobs to Celery ids, and the
    workers' list of revoked ids a predicate. *)
From stdpp Require Import base gmap sets list strings sorting.
From Stdlib Require Import ZArith Lia.
From S2P Require Import Prelude ScanModel.

Open Scope string_scope.
Open Scope Z_scope.

(** ** Task runners *)

(** The status a runner returns: one of the known ones, or another string. *)
Inductive runner_status := St (s : status) | OtherSt (s : string).

#[export] Instance runner_status_eq_dec : EqDecision runner_status.
Proof. solve_decision. Defined.

(** [execute_task]: the task object and the database afterwards, and the
    message and status returned or the exception raised. *)
Definition executor : Type := task -> job -> db -> task * db * Res (string * runner_status).

(** Two databases with the same jobs and the same task rows up to statistics and
    messages; the row of the task [own] may have become failed when its runner
    raised. *)
Record same_flow (raised : bool) (own : Z) (d d' : db) : Prop := {
  sf_jobs : jobs d' = jobs d;
  sf_next : next_id d <= next_id d';
  sf_tasks : forall k t, tasks d !! k = Some t ->
    exists t', tasks d' !! k = Some t' /\ t_id t' = t_id t /\ t_job t' = t_job t /\ t_scan_type t' = t_scan_type t /\
      (t_status t' = t_status t \/ (raised = true /\ k = own /\ t_status t' = FAILED));
  sf_back : forall k t', tasks d' !! k = Some t' -> is_Some (tasks d !! k) }.

Definition raised {A} (r : Res A) : bool := negb (is_ok r).

(** What the flow relies on: a runner stores facts, results and statistics, and
    leaves the state of jobs and tasks to its caller; only when it raises may its
    own task be failed already.  It is started with a task whose row has just been
    saved. *)
Class TaskRunner (e : executor) : Prop := {
  runner_flow : forall t j d t' d' r, tasks d !! t_id t = Some t -> e t j d = (t', d', r) ->
    same_flow (raised r) (t_id t) d d';
  runner_object : forall t j d t' d' r, tasks d !! t_id t = Some t -> e t j d = (t', d', r) ->
    t_id t' = t_id t /\ t_job t' = t_job t /\ t_scan_type t' = t_scan_type t /\ t_source t' = t_source t }.

(** [ScanTaskRunner.run] *)
Definition run (e : executor) (t : task) (j : job) (d : db) : task * db * Res (string * runner_status) :=
  let '(t, d, r) := e t j d in
  (t, d, match r with
         | Err (ScanFailureError message) => Ok (message, St FAILED)
         | r => r
         end).

Definition DataSourceTypes : list string :=
  ["network"; "vcenter"; "satellite"; "openshift"; "ansible"; "rhacs"].

(** [get_scanner] and [get_task_runner_class] of [scanner/tasks.py]: the
    packages under [scanner/] are named after the source types. *)
Definition get_scanner (source_type : string) : Res string :=
  if bool_decide (source_type ∈ DataSourceTypes) then Ok source_type else Err NotImplementedError.

Definition get_task_runner_class (source_type : string) (ty : scan_type) : Res string :=
  match ty with INSPECT => get_scanner source_type | FINGERPRINT => Err NotImplementedError end.

Section flow.
(** [str] of an exception and of the objects named in a failure message. *)
Context (str_exn : exn -> string) (str_context : job -> task -> string).
(** What a runner of each source type does, and the fingerprint runner. *)
Context (inspect_exec : string -> executor) (fingerprint_exec : executor).

(** [run_task_runner]: the job object, the database, and the status returned or
    the exception raised. *)
Definition run_task_runner (now : Z) (e : executor) (t : task) (j : job) (d : db) :
    job * db * Res runner_status :=
  let '(t, d) := Task.status_start now t d in
  let '(t, d, r) := run e t j d in
  match r with
  | Err error =>
      if bool_decide (t_scan_type t <> FINGERPRINT) && bool_decide (t_source t = None)
      then (j, d, Err (AttributeError "credentials")) else
      let '(t, d) := Task.status_fail now (str_context j t) t d in
      let '(_, j, d) := Job.status_fail now ("FATAL ERROR. " +:+ str_exn error) j d in
      (j, d, Err error)
  | Ok (_, St CANCELED) => (j, (Task.status_cancel now t d).2, Ok (St CANCELED))
  | Ok (_, St PAUSED) => (j, (Task.status_pause t d).2, Ok (St PAUSED))
  | Ok (message, St COMPLETED) =>
      match Task.status_complete now (Some message) t d with
      | Ok (_, d) => (j, d, Ok (St COMPLETED))
      | Err e => (j, d, Err e)
      end
  | Ok (message, St FAILED) => (j, (Task.status_fail now message t d).2, Ok (St FAILED))
  | Ok (message, _) =>
      (j, (Task.status_fail now ("Scan task must return ScanTask.COMPLETED or ScanTask.FAILED. " +:+ message) t d).2,
       Ok (St FAILED))
  end.

(** ** The functions that Celery runs *)

(** The answer of a task: success, its id and status. *)
Definition answer : Type := bool * Z * runner_status.

Definition celery_run (canceled : Z -> bool) (now : Z) (tid : Z) (source_type : string) (ty : scan_type)
    (d : db) : db * Res answer :=
  match (t ← get_task tid d; _ ← get_task_runner_class source_type ty; j ← get_job (t_job t) d; Ok (t, j)) with
  | Err e => (d, Err e)
  | Ok (t, j) =>
      if canceled (j_id j) then (d, Ok (false, tid, St CANCELED)) else
      let '(_, d, r) := run_task_runner now (inspect_exec source_type) t j d in
      (d, s ← r; Ok (bool_decide (s = St COMPLETED), tid, s))
  end.

(** The decorator [set_scan_task_failure_on_exception]; [name] is the name of
    the wrapped function. *)
Definition on_task_exception (now : Z) (name : string) (tid : Z) (f : db -> db * Res answer) (d : db) :
    db * Res answer :=
  if bool_decide (tid = 0) then (d, Err NotImplementedError) else
  match f d with
  | (d, Ok a) => (d, Ok a)
  | (d, Err _) =>
      let d := match get_task tid d with
               | Ok t => (Task.status_fail now ("Unexpected failure in " +:+ name +:+ ". Check logs for details.") t d).2
               | Err _ => d
               end in
      (d, Ok (false, tid, St FAILED))
  end.

Definition on_job_exception (now : Z) (name : string) (jid : Z) (f : db -> db * Res ()) (d : db) :
    db * Res () :=
  if bool_decide (jid = 0) then (d, Err NotImplementedError) else
  match f d with
  | (d, Ok a) => (d, Ok a)
  | (d, Err _) =>
      let d := match get_job jid d with
               | Ok j => (Job.status_fail now ("Unexpected failure in " +:+ name +:+ ". Check logs for details.") j d).2
               | Err _ => d
               end in
      (d, Ok ())
  end.

Definition celery_run_task_runner canceled now tid source_type ty d : db * Res answer :=
  on_task_exception now "celery_run_task_runner" tid (celery_run canceled now tid source_type ty) d.

(** [create_report_for_scan_job]: the report, or none when no system was
    scanned. *)
Definition create_report_for_scan_job (j : job) (d : db) : option Z * job * db :=
  let scanned := foldr Z.add 0 ((fun t => systems_scanned (t_stats t)) <$>
                   filter (fun t => t_scan_type t = INSPECT) (job_tasks (j_id j) d)) in
  if scanned =? 0 then (None, j, d) else
  let '(rid, d) := fresh_id d in
  let d := with_reports (<[rid := None]>) d in
  let j := Job.set_report (Some rid) j in
  let d := save_job j d in
  let mine := t_id <$> job_tasks (j_id j) d in
  let d := with_groups (fmap (fun g =>
             if existsb (fun t => bool_decide (t ∈ g_tasks g)) mine
             then mkgroup (g_tasks g) (g_reports g ∪ {[rid]}) else g)) d in
  (Some rid, j, d).

Definition _fingerprint (canceled : Z -> bool) (now : Z) (tid : Z) (d : db) : db * Res answer :=
  match (t ← get_task tid d; j ← get_job (t_job t) d; Ok (t, j)) with
  | Err e => (d, Err e)
  | Ok (t, j) =>
      if canceled (j_id j) then ((Job.status_cancel now j d).2, Ok (false, tid, St CANCELED)) else
      let '(report, j, d) := match j_report j with
                             | Some r => (Some r, j, d)
                             | None => create_report_for_scan_job j d
                             end in
      match report with
      | None => ((Job.status_fail now "No facts gathered from scan." j d).2, Ok (false, tid, St FAILED))
      | Some r =>
          let j := Job.set_report (Some r) j in
          let d := save_job j d in
          let '(_, d, r) := run_task_runner now fingerprint_exec t j d in
          (d, s ← r; Ok (bool_decide (s = St COMPLETED), tid, s))
      end
  end.

Definition fingerprint canceled now tid d : db * Res answer :=
  on_task_exception now "fingerprint" tid (_fingerprint canceled now tid) d.

Definition _finalize_scan (canceled : Z -> bool) (now : Z) (jid : Z) (d : db) : db * Res () :=
  match get_job jid d with
  | Err e => (d, Err e)
  | Ok j =>
      if canceled jid then ((Job.status_cancel now j d).2, Ok ()) else
      let sts := t_status <$> job_tasks jid d in
      if bool_decide (sts = []) then ((Job.status_complete now j d).2, Ok ())
      else if forallb (fun s => bool_decide (s = CANCELED)) sts then ((Job.status_cancel now j d).2, Ok ())
      else if existsb (fun s => bool_decide (s = COMPLETED)) sts then ((Job.status_complete now j d).2, Ok ())
      else ((Job.status_fail now "None of the tasks completed" j d).2, Ok ())
  end.

Definition finalize_scan canceled now jid d : db * Res () :=
  on_job_exception now "finalize_scan" jid (_finalize_scan canceled now jid) d.

(** ** [CeleryBasedScanJobRunner] *)

Definition incomplete (t : task) : Prop := t_status t ∈ [RUNNING; PENDING].

Definition source_seq_le (a b : task) : Prop :=
  match t_source a, t_source b with
  | Some x, Some y => x < y \/ (x = y /\ t_seq a <= t_seq b)
  | _, _ => True
  end.
#[local] Instance source_seq_le_dec : RelDecision source_seq_le.
Proof. intros a b. unfold source_seq_le. destruct (t_source a), (t_source b); apply _. Defined.

(** One signature: task id, source type and scan type. *)
Definition signature : Type := Z * string * scan_type.

Definition add_signature (m : list (Z * list signature)) (src : Z) (s : signature) :
    list (Z * list signature) :=
  (fix go m := match m with
   | [] => [(src, [s])]
   | (k, l) :: m => if k =? src then (k, (l ++ [s])%list) :: m else (k, l) :: go m
   end) m.

(** The chains of the group, by source. *)
Definition inspect_chains (jid : Z) (d : db) : Res (list (Z * list signature)) :=
  foldM (fun m t =>
    src ← from_option (AttributeError "source_type") (t_source t);
    row ← from_option (AttributeError "source_type") (sources d !! src);
    Ok (add_signature m src (t_id t, src_type row, t_scan_type t)))
    [] (merge_sort source_seq_le
          (filter (fun t => incomplete t /\ t_scan_type t = INSPECT) (job_tasks jid d))).

Record plan := mkplan
  { p_chains : list (Z * list signature); p_fingerprint : option Z; p_finalize : Z }.

(** [run]: what is handed to Celery, or nothing when the job cannot start. *)
Definition job_run (now : Z) (j : job) (d : db) : job * db * Res (option plan) :=
  let '(started, j, d) := Job.status_start now j d in
  if (started : bool) then
    (j, d,
     chains ← inspect_chains (j_id j) d;
     Ok (Some (mkplan chains
       (t_id <$> head (filter (fun t => t_scan_type t = FINGERPRINT /\ incomplete t) (job_tasks (j_id j) d)))
       (j_id j))))
  else
    let '(_, j, d) := Job.status_fail now "ScanJob failed to transition to running state." j d in
    (j, d, Ok None).

(** A chain stops after a task that did not succeed. *)
Fixpoint run_chain (canceled : Z -> bool) (now : Z) (sigs : list signature) (d : db) : db :=
  match sigs with
  | [] => d
  | (tid, source_type, ty) :: sigs =>
      match celery_run_task_runner canceled now tid source_type ty d with
      | (d, Ok (true, _, _)) => run_chain canceled now sigs d
      | (d, _) => d
      end
  end.

(** The group (its chains in the order given), then the fingerprint task, then
    the final one. *)
Definition run_plan (canceled : Z -> bool) (now : Z) (p : plan) (order : list (list signature)) (d : db) : db :=
  let d := foldl (fun d sigs => run_chain canceled now sigs d) d order in
  let d := match p_fingerprint p with Some tid => (fingerprint canceled now tid d).1 | None => d end in
  (finalize_scan canceled now (p_finalize p) d).1.

(** ** [CeleryScanManager] and the Celery ids of jobs *)

(** [scan_job_is_canceled]: a job without Celery id is not. *)
Definition scan_job_is_canceled (cache : gmap Z string) (revoked : string -> bool) (jid : Z) : bool :=
  match cache !! jid with Some cid => revoked cid | None => false end.

(** The tasks are changed in memory only.  The answer is whether there was a
    Celery task to revoke. *)
Definition kill (cache : gmap Z string) (now : Z) (j : job) (d : db) : bool * job * db :=
  let '(_, j, d) := Job.status_cancel now j d in
  (bool_decide (is_Some (cache !! j_id j)), j, d).

(** [put], with the id that Celery gives to the plan. *)
Definition put (celery_id : plan -> string) (cache : gmap Z string) (now : Z) (j : job) (d : db) :
    gmap Z string * db * Res () :=
  let '(j, d, r) := job_run now j d in
  match r with
  | Err e => (cache, d, Err e)
  | Ok o => (<[j_id j := match o with Some p => celery_id p | None => "None" end]> cache, d, Ok ())
  end.

End flow.

(** ** Lemmas *)

(** A job that is running or done. *)
Definition live (jid : Z) (d : db) : Prop :=
  exists j, jobs d !! jid = Some j /\ (j_status j = RUNNING \/ terminal (j_status j) = true).

Definition jobs_keyed (d : db) : Prop := forall i j, jobs d !! i = Some j -> j_id j = i.

Record flow_inv (jid : Z) (d : db) : Prop := { fi_keyed : jobs_keyed d; fi_live : live jid d }.

Lemma flow_inv_jobs jid d d' : jobs d' = jobs d -> flow_inv jid d -> flow_inv jid d'.
Proof. intros E [K L]. split; unfold jobs_keyed, live in *; by rewrite E. Qed.

Lemma keyed_save j d : jobs_keyed d -> jobs_keyed (save_job j d).
Proof.
  intros K i x. cbn. destruct (decide (i = j_id j)) as [->|Hne].
  - rewrite lookup_insert_eq. by intros [= <-].
  - rewrite lookup_insert_ne by done. apply K.
Qed.

(** Saving a job whose status is the one of its row. *)
Lemma save_same_status jid j row d :
  jobs d !! j_id j = Some row -> j_status j = j_status row -> flow_inv jid d -> flow_inv jid (save_job j d).
Proof.
  intros Hr Hs [K (x & Hx & Hl)]. split; [by apply keyed_save|]. unfold live. cbn.
  destruct (decide (jid = j_id j)) as [->|Hne].
  - exists j. rewrite lookup_insert_eq. rewrite Hr in Hx. injection Hx as <-. by rewrite Hs.
  - exists x. by rewrite lookup_insert_ne.
Qed.

(** The three changes that end a job keep the invariant. *)
Lemma change_flow jid target message valid work j row d :
  terminal target = true -> jobs d !! j_id j = Some row -> j_status j = j_status row ->
  jobs (work d) = jobs d -> flow_inv jid d ->
  flow_inv jid (Job.change target message valid work j d).2.
Proof.
  intros Ht Hr Hs Hw [K (x & Hx & Hl)]. unfold Job.change.
  destruct (Job.validate_status_change _ _ _); [by split; [|exists x]|]. cbn [snd].
  assert (jobs_keyed (work d)) as K' by (unfold jobs_keyed; by rewrite Hw).
  split; [by apply keyed_save|]. unfold live. cbn. rewrite Hw.
  destruct (decide (jid = j_id j)) as [->|Hne].
  - eexists. rewrite lookup_insert_eq. split; [done|]. by right.
  - exists x. by rewrite lookup_insert_ne.
Qed.

Lemma change_ends target message valid work j row d k :
  terminal target = true -> j_id j = k -> jobs d !! k = Some row -> j_status j = j_status row ->
  j_status row = RUNNING \/ terminal (j_status row) = true -> RUNNING ∈ valid -> jobs (work d) = jobs d ->
  exists j', jobs (Job.change target message valid work j d).2 !! k = Some j' /\
    terminal (j_status j') = true.
Proof.
  intros Ht <- Hr Hs Hl Hv Hw. unfold Job.change, Job.validate_status_change.
  case_bool_decide as E; cbn [snd].
  { eexists. cbn. rewrite lookup_insert_eq. done. }
  destruct Hl as [Hl|Hl]; [rewrite bool_decide_eq_true_2 by (by rewrite Hs, Hl)|].
  { eexists. cbn. by rewrite lookup_insert_eq. }
  destruct (bool_decide (j_status j ∈ valid)); cbn [negb snd]; [|by exists row].
  eexists. cbn. rewrite lookup_insert_eq. done.
Qed.

Section flow_lemmas.
Context (str_exn : exn -> string) (str_context : job -> task -> string).
Context (inspect_exec : string -> executor) (fingerprint_exec : executor).
Context `{HI : forall s, TaskRunner (inspect_exec s)} `{HF : TaskRunner fingerprint_exec}.

Lemma run_same_flow e t j d t' d' r :
  TaskRunner e -> tasks d !! t_id t = Some t -> run e t j d = (t', d', r) -> (exists b, same_flow b (t_id t) d d') /\
    t_id t' = t_id t /\ t_job t' = t_job t /\ t_scan_type t' = t_scan_type t /\ t_source t' = t_source t.
Proof.
  intros He Ht. unfold run. destruct (e t j d) as [[t1 d1] r1] eqn:E. intros [= <- <- _].
  split; [eexists; by eapply runner_flow | by eapply runner_object].
Qed.

Lemma run_task_runner_flow jid now e t j d :
  TaskRunner e -> jobs d !! j_id j = Some j -> flow_inv jid d ->
  flow_inv jid (run_task_runner str_exn str_context now e t j d).1.2.
Proof.
  intros He Hj Hf. unfold run_task_runner.
  destruct (Task.status_start now t d) as [t0 d0] eqn:E0. injection E0 as <- <-.
  destruct (run e _ j _) as [[t1 d1] r] eqn:E. apply run_same_flow in E as [[err [Ej _ _ _]] _];
    [|done | cbn; by rewrite lookup_insert_eq]. cbn in Ej.
  assert (flow_inv jid d1) as F1 by (by eapply flow_inv_jobs).
  destruct r as [[message s]|error].
  - repeat case_match; try done; cbn in *; simplify_eq; try (by eapply flow_inv_jobs).
    unfold Task.status_complete in *. res_inv. by eapply (flow_inv_jobs _ d1).
  - case_match; [done|]. cbn [fst snd].
    destruct (Task.status_fail now _ t1 d1) as [t2 d2] eqn:E2. injection E2 as <- <-.
    destruct (Job.status_fail now _ j _) as [[b j'] d3] eqn:E3. cbn [fst snd].
    replace d3 with (b, j', d3).2 by done. rewrite <- E3.
    apply (change_flow _ _ _ _ _ _ j); [done | cbn; by rewrite Ej | done | done | by eapply flow_inv_jobs].
Qed.

Lemma on_task_exception_flow jid now name tid f d :
  (flow_inv jid d -> flow_inv jid (f d).1) -> flow_inv jid d ->
  flow_inv jid (on_task_exception now name tid f d).1.
Proof.
  intros Hf H. unfold on_task_exception. case_bool_decide; [done|].
  specialize (Hf H). destruct (f d) as [d1 [a|e]]; [done|]. cbn in *.
  destruct (get_task tid d1); [by apply (flow_inv_jobs _ d1) | done].
Qed.

Lemma get_task_Ok i d t : get_task i d = Ok t <-> tasks d !! i = Some t.
Proof. unfold get_task. destruct (tasks d !! i); cbn; naive_solver. Qed.

Lemma get_job_Ok i d j : get_job i d = Ok j <-> jobs d !! i = Some j.
Proof. unfold get_job. destruct (jobs d !! i); cbn; naive_solver. Qed.

Lemma loaded_job jid d t j :
  flow_inv jid d -> get_job (t_job t) d = Ok j -> jobs d !! j_id j = Some j.
Proof. intros H Hj%get_job_Ok. by rewrite (fi_keyed _ _ H _ _ Hj). Qed.

Lemma celery_run_flow jid canceled now tid st ty d :
  flow_inv jid d -> flow_inv jid (celery_run str_exn str_context inspect_exec canceled now tid st ty d).1.
Proof.
  intros H. unfold celery_run. destruct (_ ≫= _) as [[t j]|e] eqn:E; [|done].
  destruct (canceled (j_id j)); [done|].
  assert (jobs d !! j_id j = Some j) as Hj.
  { apply bind_Ok in E as (t0 & _ & E). apply bind_Ok in E as (? & _ & E).
    apply bind_Ok in E as (j0 & Hj & [= <- <-]). by eapply loaded_job. }
  pose proof (run_task_runner_flow jid now (inspect_exec st) t j d _ Hj H) as F.
  by destruct (run_task_runner _ _ _ _ _ _ _) as [[? ?] ?].
Qed.

Lemma run_chain_flow jid canceled now sigs d :
  flow_inv jid d -> flow_inv jid (run_chain str_exn str_context inspect_exec canceled now sigs d).
Proof.
  revert d. induction sigs as [|[[tid st] ty] sigs IH]; intros d H; [done|]. cbn.
  assert (flow_inv jid (celery_run_task_runner str_exn str_context inspect_exec canceled now tid st ty d).1) as F
    by (unfold celery_run_task_runner; apply on_task_exception_flow; auto using celery_run_flow).
  destruct (celery_run_task_runner _ _ _ _ _ _ _ _ _) as [d1 [[[[] ?] ?]|?]]; cbn in F; auto.
Qed.

Lemma create_report_flow jid j d :
  jobs d !! j_id j = Some j -> flow_inv jid d ->
  let '(_, j', d') := create_report_for_scan_job j d in
  flow_inv jid d' /\ jobs d' !! j_id j' = Some j'.
Proof.
  intros Hj H. unfold create_report_for_scan_job. destruct (_ =? 0); [done|]. cbn [fresh_id].
  split; [|cbn; by rewrite lookup_insert_eq].
  set (d1 := save_job _ _). apply (flow_inv_jobs jid d1); [done|]. unfold d1.
  apply (save_same_status jid _ j); [done | done |]. by apply (flow_inv_jobs jid d).
Qed.

Lemma fingerprint_flow jid canceled now tid d :
  flow_inv jid d -> flow_inv jid (fingerprint str_exn str_context fingerprint_exec canceled now tid d).1.
Proof.
  apply on_task_exception_flow. intros H. unfold _fingerprint.
  destruct (_ ≫= _) as [[t j]|e] eqn:E; [|done].
  assert (jobs d !! j_id j = Some j) as Hj.
  { apply bind_Ok in E as (t0 & _ & E). apply bind_Ok in E as (j0 & Hj & [= <- <-]). by eapply loaded_job. }
  destruct (canceled (j_id j)).
  { cbn [fst]. apply (change_flow _ _ _ _ _ _ j); try done. by rewrite each_task_jobs. }
  assert (let '(_, j', d') := match j_report j with Some r => (Some r, j, d) | None => create_report_for_scan_job j d end in
          flow_inv jid d' /\ jobs d' !! j_id j' = Some j') as F
    by (destruct (j_report j); [done | by apply create_report_flow]).
  destruct (match j_report j with Some r => _ | None => _ end) as [[report j'] d'].
  destruct F as [F Hj']. destruct report as [r|]; cbn [fst].
  - assert (flow_inv jid (save_job (Job.set_report (Some r) j') d')) as F2
      by (by apply (save_same_status jid _ j')).
    pose proof (run_task_runner_flow jid now fingerprint_exec t (Job.set_report (Some r) j')
      (save_job (Job.set_report (Some r) j') d') _ ltac:(cbn; by rewrite lookup_insert_eq) F2) as F3.
    by destruct (run_task_runner _ _ _ _ _ _ _) as [[? ?] ?].
  - by apply (change_flow _ _ _ _ _ _ j').
Qed.

(** The last task of a plan always ends its job. *)
Lemma finalize_ends jid canceled now d :
  jid <> 0 -> flow_inv jid d ->
  exists j, jobs (finalize_scan canceled now jid d).1 !! jid = Some j /\ terminal (j_status j) = true.
Proof.
  intros Hz [K (j & Hj & Hl)]. unfold finalize_scan, on_job_exception. rewrite bool_decide_eq_false_2 by done.
  unfold _finalize_scan, get_job. rewrite Hj. cbn [from_option].
  pose proof (K _ _ Hj) as Hid. rewrite <- Hid in Hj |- *.
  repeat case_match; simplify_eq; cbn [fst]; apply (change_ends _ _ _ _ _ j); try done; try by_compute;
    by rewrite each_task_jobs.
Qed.

Lemma run_plan_ends canceled now p order d :
  p_finalize p <> 0 -> flow_inv (p_finalize p) d ->
  exists j, jobs (run_plan str_exn str_context inspect_exec fingerprint_exec canceled now p order d)
              !! p_finalize p = Some j /\ terminal (j_status j) = true.
Proof.
  intros Hz H. unfold run_plan. apply finalize_ends; [done|].
  set (d1 := foldl _ d order).
  assert (flow_inv (p_finalize p) d1) as F1.
  { unfold d1. clear d1. revert d H. induction order as [|sigs order IH]; intros d H; cbn; [done|].
    apply IH. by apply run_chain_flow. }
  destruct (p_fingerprint p); [by apply fingerprint_flow | done].
Qed.
End flow_lemmas.

(** ** Runners for the concrete runs *)

(** A runner that only answers, or only raises. *)
Definition const_exec (r : Res (string * runner_status)) : executor := fun t _ d => (t, d, r).
Definition raising_exec (e : exn) : executor := const_exec (Err e).

Lemma same_flow_refl b own d : same_flow b own d d.
Proof. split; [done | lia | |]; eauto 10. Qed.

#[export] Instance const_runner r : TaskRunner (const_exec r).
Proof. split; intros t j d t' d' r' _ [= <- <- <-]; [apply same_flow_refl | done]. Qed.
#[export] Instance raising_runner e : TaskRunner (raising_exec e) := const_runner (Err e).

(** ** Properties *)

(** [C3] Whatever the runners do within their contract, whatever is cancelled
    meanwhile, and in whatever order the inspection chains run, a running job is
    completed, failed or canceled once its plan has been executed. *)
Theorem scan_ends str_exn str_context inspect_exec fingerprint_exec canceled now p order d :
  (forall s, TaskRunner (inspect_exec s)) -> TaskRunner fingerprint_exec ->
  p_finalize p <> 0 -> flow_inv (p_finalize p) d ->
  exists j, jobs (run_plan str_exn str_context inspect_exec fingerprint_exec canceled now p order d)
              !! p_finalize p = Some j /\ terminal (j_status j) = true.
Proof. intros HI HF. by apply run_plan_ends. Qed.

Definition started : job * db * Res (option plan) :=
  match jobs queued_db !! 1 with
  | Some j => job_run 8 j queued_db
  | None => (sample_job, queued_db, Err DoesNotExist)
  end.

Definition sample_plan : plan :=
  Eval vm_compute in match started.2 with Ok (Some p) => p | _ => mkplan [] None 0 end.

Lemma started_flow : flow_inv 1 started.1.2.
Proof.
  split.
  - assert (wf_db started.1.2) as W; [|exact (wd_jobs _ W)].
    replace (started.1.2) with (match apply_op (OpStart 8) 1 queued_db with Ok d => d | Err _ => queued_db end)
      by (vm_compute; reflexivity).
    apply (apply_op_wf (OpStart 8) 1 queued_db); [apply queued_db_wf | vm_compute; reflexivity].
  - eexists. split; [vm_compute; reflexivity|]. left. reflexivity.
Qed.

Lemma scan_ends_witness :
  exists j, jobs (run_plan (fun _ => "") (fun _ _ => "") (fun _ => raising_exec (ScanFailureError "no"))
                    (const_exec (Ok ("done", St COMPLETED))) (fun _ => false) 9 sample_plan
                    (p_chains sample_plan).*2 started.1.2) !! p_finalize sample_plan = Some j /\
    terminal (j_status j) = true.
Proof.
  apply (scan_ends (fun _ => "") (fun _ _ => "") (fun _ => raising_exec (ScanFailureError "no"))
           (const_exec (Ok ("done", St COMPLETED))) (fun _ => false) 9 sample_plan (p_chains sample_plan).*2 started.1.2).
  - intros s. apply raising_runner.
  - apply const_runner.
  - discriminate.
  - exact started_flow.
Defined.

(** The outcome that the statuses of the tasks call for. *)
Definition outcome (sts : list status) : status :=
  if decide (sts = []) then COMPLETED
  else if decide (Forall (fun s => s = CANCELED) sts) then CANCELED
  else if decide (COMPLETED ∈ sts) then COMPLETED
  else FAILED.

(** The final step of a running job that was not revoked: it is completed
    when it has no task or a completed one, canceled when all its tasks were
    canceled, and failed otherwise. *)
Theorem finalize_outcome now jid j d :
  jid <> 0 -> jobs d !! jid = Some j -> j_id j = jid -> j_status j = RUNNING ->
  exists j', jobs (finalize_scan (fun _ => false) now jid d).1 !! jid = Some j' /\
    j_status j' = outcome (t_status <$> job_tasks jid d).
Proof.
  intros Hz Hj Hid Hs. unfold finalize_scan, on_job_exception. rewrite bool_decide_eq_false_2 by done.
  unfold _finalize_scan, get_job. rewrite Hj. cbn [from_option].
  set (sts := t_status <$> job_tasks jid d). unfold outcome.
  assert (forall target message valid work, RUNNING ∈ valid -> jobs (work d) = jobs d ->
    jobs (Job.change target message valid work (Job.set_end (Some now) j) d).2 !! jid =
    Some (Job.set_status target message (Job.set_end (Some now) j))) as Hc.
  { intros target message valid work Hv Hw. unfold Job.change, Job.validate_status_change. cbn [j_status Job.set_end].
    rewrite Hs. rewrite (bool_decide_eq_true_2 (RUNNING ∈ valid)) by done.
    case_bool_decide; cbn; rewrite Hw, Hid; apply lookup_insert_eq. }
  assert (forallb (fun s => bool_decide (s = CANCELED)) sts = bool_decide (Forall (fun s => s = CANCELED) sts)) as ->.
  { apply eq_iff_eq_true. rewrite forallb_forall, bool_decide_eq_true, Forall_forall.
    setoid_rewrite bool_decide_eq_true. by setoid_rewrite list_elem_of_In. }
  assert (existsb (fun s => bool_decide (s = COMPLETED)) sts = bool_decide (COMPLETED ∈ sts)) as ->.
  { apply eq_iff_eq_true. rewrite existsb_elem, bool_decide_eq_true. setoid_rewrite bool_decide_eq_true.
    split; [by intros (x & ? & ->) | eauto]. }
  destruct (decide (sts = [])) as [E|E].
  { rewrite bool_decide_eq_true_2 by done. cbn [fst]. eexists. split; [apply Hc; [by_compute | done] | done]. }
  rewrite bool_decide_eq_false_2 by done. destruct (decide (Forall _ sts)) as [HF|HF].
  { rewrite bool_decide_eq_true_2 by done. cbn [fst]. eexists.
    split; [apply Hc; [by_compute | by rewrite each_task_jobs] | done]. }
  rewrite bool_decide_eq_false_2 by done.
  destruct (decide (COMPLETED ∈ sts)); [rewrite bool_decide_eq_true_2 by done | rewrite bool_decide_eq_false_2 by done];
    cbn [fst]; eexists; (split; [apply Hc; [by_compute | done] | done]).
Qed.

Lemma finalize_outcome_witness :
  exists j', jobs (finalize_scan (fun _ => false) 9 1 started.1.2).1 !! 1 = Some j' /\
    j_status j' = outcome (t_status <$> job_tasks 1 started.1.2).
Proof.
  eapply (finalize_outcome 9 1 _ started.1.2); [discriminate | vm_compute; reflexivity | reflexivity | reflexivity].
Defined.

Lemma save_task_row t i d : t_id t = i -> tasks (save_task t d) !! i = Some t.
Proof. intros <-. cbn. apply lookup_insert_eq. Qed.

(** Running one task: when the runner answers, the stored status of the
    task is the answer (an unknown answer counts as failed) and no job changes;
    when the runner raises, the task is stored as failed, a running job becomes
    failed too, and the exception goes on. *)
Theorem run_task_runner_outcome str_exn str_context now e t j d j' d' r :
  TaskRunner e -> is_Some (tasks d !! t_id t) -> jobs d !! j_id j = Some j ->
  t_scan_type t = FINGERPRINT \/ t_source t <> None ->
  run_task_runner str_exn str_context now e t j d = (j', d', r) ->
  exists row, tasks d' !! t_id t = Some row /\
    match r with
    | Ok s => s = St (t_status row) /\ t_status row ∈ [CANCELED; PAUSED; COMPLETED; FAILED] /\ jobs d' = jobs d
    | Err _ => t_status row = FAILED /\
               exists x, jobs d' !! j_id j = Some x /\
                 (j_status j = RUNNING -> j_status x = FAILED) /\
                 (j_status j <> RUNNING -> j_status x = j_status j)
    end.
Proof.
  intros He [row0 Hrow] Hj Hsrc. unfold run_task_runner.
  destruct (Task.status_start now t d) as [t0 d0] eqn:E0. injection E0 as <- <-.
  destruct (run e _ j _) as [[t1 d1] rr] eqn:E.
  apply run_same_flow in E as [[err [Ej _ Hst _]] (Eid & Ejob & Ety & Esrc)];
    [|done | cbn; by rewrite lookup_insert_eq]. cbn in Eid, Ejob, Ety, Esrc, Ej.
  assert (exists row1, tasks d1 !! t_id t1 = Some row1 /\ t_id row1 = t_id t1) as (row1 & Hrow1 & Hid1).
  { rewrite Eid. edestruct Hst as (x & Hx & Hxi & _); [cbn; apply lookup_insert_eq|]. eauto. }
  destruct rr as [[message s]|error].
  - rewrite <- Eid. destruct (decide (s = St COMPLETED)) as [->|Hne].
    + unfold Task.status_complete, get_task. rewrite Hrow1. cbn [from_option mbind res_bind Task.save].
      intros [= <- <- <-]. rewrite <- Hid1. eexists. split; [by apply save_task_row|].
      split; [done|]. split; [by_compute | exact Ej].
    + destruct s as [s|s]; [destruct s; try done|]; intros [= <- <- <-];
        (eexists; split; [by apply save_task_row|]; split; [done|]; split; [by_compute|]; exact Ej).
  - assert (bool_decide (t_scan_type t1 <> FINGERPRINT) && bool_decide (t_source t1 = None) = false) as ->.
    { rewrite Ety, Esrc. repeat case_bool_decide; naive_solver. }
    cbn [Task.status_fail Task.save]. unfold Job.status_fail, Job.change, Job.validate_status_change.
    cbn [j_status Job.set_end]. rewrite <- Eid.
    set (t2 := Task.set_status FAILED _ _). change (t_id t1) with (t_id t2).
    destruct (bool_decide (FAILED = j_status j)) eqn:EF;
      [|destruct (bool_decide (j_status j ∈ [RUNNING])) eqn:ER]; cbn [negb]; intros [= <- <- <-];
      (eexists; split; [by apply save_task_row|]); (split; [done|]); cbn; rewrite ?Ej.
    + eexists. rewrite lookup_insert_eq. apply bool_decide_eq_true in EF. rewrite <- EF. done.
    + eexists. rewrite lookup_insert_eq. apply bool_decide_eq_true, list_elem_of_singleton in ER. rewrite ER. done.
    + exists j. rewrite Hj. apply bool_decide_eq_false in ER. split; [done|]. split; [|done].
      intros E. exfalso. apply ER. rewrite E. left.
Qed.

Definition running_job : job := Job.set_status RUNNING SJ_RUNNING sample_job.
Definition running_db : db := save_job running_job queued_db.

Lemma run_task_runner_outcome_witness :
  exists j' d' r row, run_task_runner (fun _ => "") (fun _ _ => "") 9 (raising_exec ValueError)
      (inspect_task 1 102 0 10 101) running_job running_db = (j', d', r) /\
    r = Err ValueError /\ tasks d' !! 102 = Some row /\ t_status row = FAILED.
Proof.
  destruct (run_task_runner (fun _ => "") (fun _ _ => "") 9 (raising_exec ValueError)
      (inspect_task 1 102 0 10 101) running_job running_db) as [[j' d'] r] eqn:H.
  assert (r = Err ValueError) as Hr.
  { assert ((run_task_runner (fun _ => "") (fun _ _ => "") 9 (raising_exec ValueError)
      (inspect_task 1 102 0 10 101) running_job running_db).2 = Err ValueError) as H2 by (vm_compute; reflexivity).
    rewrite H in H2. exact H2. }
  destruct (run_task_runner_outcome (fun _ => "") (fun _ _ => "") 9 (raising_exec ValueError)
    (inspect_task 1 102 0 10 101) running_job running_db j' d' r) as (row & H1 & H2);
    [apply raising_runner | eexists; vm_compute; reflexivity | vm_compute; reflexivity
    | right; discriminate | exact H |].
  exists j', d', r, row. rewrite Hr in H2 |- *. split; [reflexivity|]. split; [reflexivity|]. split; [exact H1 | exact (proj1 H2)].
Defined.

(** A job that is neither pending nor running nor failed cannot be
    started: nothing is handed to Celery, and the attempt to mark it failed has
    no effect, the database is left exactly as it was. *)
Theorem failed_start_no_effect now j d :
  j_status j ∈ [CREATED; PAUSED; CANCELED; COMPLETED] ->
  (job_run now j d).1.2 = d /\ (job_run now j d).2 = Ok None.
Proof.
  intros Hs. rewrite !elem_of_cons, elem_of_nil in Hs. destruct j as [id ty st m s e sc c r]. cbn in Hs.
  destruct Hs as [->|[->|[->|[->|[]]]]]; done.
Qed.

Lemma failed_start_no_effect_witness :
  (job_run 9 sample_job sample_db).1.2 = sample_db /\ (job_run 9 sample_job sample_db).2 = Ok None.
Proof. apply (failed_start_no_effect 9 sample_job sample_db). by_compute. Defined.

(** A worker that read a running job before it was killed and saves it
    afterwards, as the fingerprint task does when it attaches the report,
    brings the job back to running: the cancellation is lost. *)
Theorem stale_save_revives cache now j d r :
  j_status j = RUNNING ->
  let killed := (kill cache now j d).2 in
  (exists x, jobs killed !! j_id j = Some x /\ j_status x = CANCELED) /\
  (exists x, jobs (save_job (Job.set_report (Some r) j) killed) !! j_id j = Some x /\ j_status x = RUNNING).
Proof.
  intros Hs killed. split.
  - destruct j as [id ty st m s e sc c rep]. cbn in Hs. subst st. unfold killed, kill, Job.status_cancel, Job.change.
    match goal with |- context [Job.validate_status_change ?a ?b ?c] =>
      replace (Job.validate_status_change a b c) with false by reflexivity end.
    cbn [snd save_job with_jobs jobs j_id Job.set_status Job.set_end]. eexists. by rewrite lookup_insert_eq.
  - cbn. eexists. rewrite lookup_insert_eq. done.
Qed.

Lemma stale_save_revives_witness :
  exists x, jobs (save_job (Job.set_report (Some 60) (Job.set_status RUNNING SJ_RUNNING sample_job))
    (kill ∅ 9 (Job.set_status RUNNING SJ_RUNNING sample_job) sample_db).2) !! 1 = Some x /\ j_status x = RUNNING.
Proof.
  apply (stale_save_revives ∅ 9 (Job.set_status RUNNING SJ_RUNNING sample_job) sample_db 60). reflexivity.
Defined.
