(* ===== verification/TaskStats.v ===== *)
(** What a runner may do to its task: change its statistics.  The definition and the
    lemmas here are shared by the runners of all source types. *)
From stdpp Require Import base gmap list strings.
From Stdlib Require Import ZArith Lia.
From S2P Require Import Prelude ScanModel ScanFlow.

Open Scope Z_scope.

(** The object and the tables of a task, against those it was started with. *)
Definition stats_only (t0 : task) (d0 : db) (self : task) (d : db) : Prop :=
  (exists s, self = Task.set_stats s t0) /\ exists s, d = with_tasks <[t_id t0 := Task.set_stats s t0]> d0.

Section stats_only.
Context (t0 : task) (d0 : db).

Lemma stats_only_start : tasks d0 !! t_id t0 = Some t0 -> stats_only t0 d0 t0 d0.
Proof.
  intros H. split; exists (t_stats t0); [by destruct t0|].
  destruct d0 as [js ts ps]. cbn in *. unfold with_tasks. cbn. f_equal.
  rewrite insert_id; [done|]. rewrite H. by destruct t0.
Qed.

Lemma stats_only_update c s f u self d self' d' :
  Task.update_stats c s f u self d = Ok (self', d') -> stats_only t0 d0 self d -> stats_only t0 d0 self' d'.
Proof.
  intros H [[x ->] [y ->]]. unfold Task.update_stats, get_task in H. cbn in H. rewrite lookup_insert_eq in H.
  cbn in H. destruct (_ || _) in H; injection H as <- <-; split; eexists; try done.
  unfold save_task, with_tasks. cbn. by rewrite insert_insert_eq.
Qed.

Lemma stats_only_increment c s f u self d :
  stats_only t0 d0 self d -> exists self' d', Task.increment_stats c s f u self d = Ok (self', d') /\ stats_only t0 d0 self' d'.
Proof.
  intros [[x ->] [y ->]]. unfold Task.increment_stats. destruct (_ || _).
  - unfold get_task. cbn. rewrite lookup_alter_eq, lookup_insert_eq. cbn. do 2 eexists. split; [done|].
    split; eexists; [done|]. unfold with_tasks. cbn. by rewrite alter_insert_eq.
  - do 2 eexists. split; [done|]. split; by eexists.
Qed.

Lemma stats_only_flow b own self d : tasks d0 !! t_id t0 = Some t0 -> stats_only t0 d0 self d ->
  same_flow b own d0 d /\ t_id self = t_id t0 /\ t_job self = t_job t0 /\ t_scan_type self = t_scan_type t0 /\
  t_source self = t_source t0.
Proof.
  intros Ht [[x ->] [y ->]]. split; [|done]. split; [done | cbn; lia | |]; cbn; intros k t Hk.
  - destruct (decide (k = t_id t0)) as [->|Hne].
    + rewrite lookup_insert_eq. rewrite Ht in Hk. injection Hk as <-. eexists. split; [done|]. repeat split. by left.
    + rewrite lookup_insert_ne by done. exists t. repeat split; [done | by left].
  - destruct (decide (k = t_id t0)) as [->|Hne]; [by eexists|]. rewrite lookup_insert_ne in Hk by done. by eexists.
Qed.
End stats_only.

(** A runner that only changes the statistics of its task keeps the contract of the
    flow. *)
Definition keeps_stats (e : executor) : Prop :=
  forall t j d t' d' r, tasks d !! t_id t = Some t -> e t j d = (t', d', r) -> stats_only t d t' d'.

Lemma stats_only_runner e : keeps_stats e -> TaskRunner e.
Proof.
  intros H. split; intros t j d t' d' r Ht E.
  - by eapply (stats_only_flow t d), H.
  - by apply (stats_only_flow t d false 0 t' d' Ht), (H t j d t' d' r).
Qed.
