(* ===== verification/NetworkConnect.v ===== *)
(** The connection phase of a network scan: [ConnectResultStore], [_connect] and
    [run_with_result_store] of [scanner/network/inspect.py] and
    [ConnectResultCallback] of [scanner/network/connect_callback.py].

    A run of Ansible is external: it is the list of events it hands to the event
    handler and its final status.  [runs n] is the [n]-th run.  An exception of
    the handler ends the run, and so does one of Ansible itself; [_connect] turns
    both into [AnsibleRunnerException].  Key files, passphrases and log lines are
    not modelled.  [expand] stands for [expand_hostpattern], [decrypt] for the
    vault. *)
From stdpp Require Import base gmap sets list strings.
From Stdlib Require Import Ascii ZArith Lia.
From S2P Require Import Prelude PyStr PyNum PyVal Formatters NetworkUtils ScanModel.

Open Scope string_scope.
Open Scope Z_scope.

Inductive conn_status := SUCCESS | CONN_FAILED | UNREACHABLE.

#[export] Instance conn_status_dec : EqDecision conn_status.
Proof. solve_decision. Defined.

(** A row of [SystemConnectionResult] of the task's connection result. *)
Record conn_result := mkresult { r_name : string; r_credential : option Z; r_status : conn_status }.

(** A credential: its key, its name and [model_to_dict] of it. *)
Record credential := mkcred { cred_id : Z; cred_name : string; cred_data : pydict }.

(** ** [ConnectResultStore] *)

Record store := mkstore {
  scan_task : task;
  remaining : list string;
  systems : list conn_result;
  database : db }.

Definition new_store (expand : string -> list string) (hosts exclude_hosts : list string)
    (self : task) (d : db) : Res store :=
  let excluded := concat (expand <$> exclude_hosts) in
  let hosts := filter (fun h => h ∉ excluded) (dedup (concat (expand <$> hosts))) in
  r ← Task.update_stats (Some (Z.of_nat (length hosts))) (Some 0) (Some 0) (Some 0) self d;
  Ok (mkstore r.1 hosts [] r.2).

Definition is_status (a b : conn_status) : bool := bool_decide (a = b).

(** [record_result], one transaction: when [remove] fails its writes are rolled
    back, but the object in memory keeps the counters it read. *)
Definition record_result (name : string) (cred : option Z) (status : conn_status) (st : store) :
    store * Res unit :=
  match Task.increment_stats false (is_status status SUCCESS) (is_status status CONN_FAILED)
          (is_status status UNREACHABLE) (scan_task st) (database st) with
  | Err e => (st, Err e)
  | Ok (self, d) =>
      if decide (name ∈ remaining st) then
        (mkstore self (filter (fun h => h <> name) (remaining st))
           (systems st ++ [mkresult name cred status])%list d, Ok tt)
      else (mkstore self (remaining st) (systems st) (database st), Err (KeyError name))
  end.

(** ** [ConnectResultCallback] *)

Definition UnexpectedError : exn := OtherException "UnexpectedError".
Definition is_unexpected (e : exn) : bool :=
  match e with OtherException n => bool_decide (n = "UnexpectedError") | _ => false end.

(** [message is not None and "permission denied" in message.lower()] *)
Definition permission_denied (message : pyval) : Res bool :=
  if is_none message then Ok false
  else s ← as_str "lower" message; Ok (str_contains "permission denied" (str_lower s)).

Definition host_str (host : pyval) : Res string :=
  match host with VStr s => Ok s | _ => Err Unsupported end.

Section callback.
Context (cred : Z).

(** Runs a computation of the event and then an action on the store. *)
Definition act {A} (r : Res A) (f : A -> store -> store * Res unit) (st : store) : store * Res unit :=
  match r with Ok a => f a st | Err e => (st, Err e) end.

Definition task_on_ok (host task_result : pyval) (st : store) : store * Res unit :=
  act (has_rc ← str_in "rc" task_result;
       if (has_rc : bool) then rc ← getitem task_result "rc"; Ok (py_eq rc (VInt 0)) else Ok false)
    (fun ok st => if (ok : bool)
                  then act (host_str host) (fun h => record_result h (Some cred) SUCCESS) st
                  else (st, Ok tt)) st.

Definition task_on_unreachable (host task_result : pyval) (st : store) : store * Res unit :=
  act (m ← vget_default task_result "msg" (VStr "No information given on unreachable warning.");
       permission_denied m)
    (fun denied st => if (denied : bool) then (st, Ok tt)
                      else act (host_str host) (fun h => record_result h (Some cred) UNREACHABLE) st) st.

Definition task_on_failed (task_result : pyval) (st : store) : store * Res unit :=
  act (m ← vget_default task_result "stderr" (VStr "No information given on failure.");
       permission_denied m)
    (fun _ st => (st, Ok tt)) st.

(** The event, when it needs an action: its name, the host and the result. *)
Definition read_event (event_dict : pyval) : Res (option (string * pyval * pyval)) :=
  if negb (truthy event_dict) then Ok None else
  event ← vget event_dict "event";
  event_data ← vget event_dict "event_data";
  if is_none event then Err UnexpectedError else
  if py_eq event (VStr "runner_on_start") then Ok None else
  e ← as_str "startswith" event;
  if negb (str_startswith "runner" e) then Ok None else
  host ← vget event_data "host";
  task_result ← vget event_data "res";
  if is_none host || is_none task_result then Err UnexpectedError else
  if bool_decide (e ∈ ["runner_on_ok"; "runner_on_unreachable"; "runner_on_failed"])
  then Ok (Some (e, host, task_result)) else Err UnexpectedError.

Definition _event_callback (event_dict : pyval) (st : store) : store * Res unit :=
  act (read_event event_dict)
    (fun o st => match o with
                 | None => (st, Ok tt)
                 | Some (e, host, task_result) =>
                     if bool_decide (e = "runner_on_ok") then task_on_ok host task_result st
                     else if bool_decide (e = "runner_on_unreachable")
                     then task_on_unreachable host task_result st
                     else task_on_failed task_result st
                 end) st.

(** [UnexpectedError] is logged; the log line reads the event again. *)
Definition event_callback (event_dict : pyval) (st : store) : store * Res unit :=
  match _event_callback event_dict st with
  | (st, Err e) => (st, if is_unexpected e then Ok tt else Err e)
  | r => r
  end.

Fixpoint handle_events (events : list pyval) (st : store) : store * Res unit :=
  match events with
  | [] => (st, Ok tt)
  | ev :: events =>
      match event_callback ev st with
      | (st, Ok _) => handle_events events st
      | r => r
      end
  end.
End callback.

(** ** [_connect] *)

(** A run: the events, then the status, or an exception of Ansible. *)
Record run := mkrun { run_events : list pyval; run_status : option string }.

Definition AnsibleRunnerException : exn := OtherException "AnsibleRunnerException".
Definition is_runner_exception (e : exn) : bool :=
  match e with OtherException n => bool_decide (n = "AnsibleRunnerException") | _ => false end.

Definition run_group (cred : Z) (r : run) (st : store) : store * Res string :=
  match handle_events cred (run_events r) st with
  | (st, Err _) => (st, Err AnsibleRunnerException)
  | (st, Ok _) => (st, from_option AnsibleRunnerException (run_status r))
  end.

Definition NETWORK_TIMEOUT_ERR : string := "A timeout was reached while executing the Ansible playbook.".
Definition NETWORK_UNKNOWN_ERR : string :=
  "An error occurred while executing the Ansible playbook. See logs for further details.".
Definition NETWORK_PLAYBOOK_STOPPED : string :=
  "NETWORK CONNECT: Playbook status has been reported as canceled.".
Definition NETWORK_CONNECT_FAIL (final_status error : string) : string :=
  "Unexpected ansible status " +:+ final_status +:+ ". Failing scan because there were no successful "
  +:+ "system connections. Ansible error: " +:+ error.

Definition outcome : Type := option string * status.

Section connect.
(** [error_text]: the text of an exception of Ansible. *)
Context (decrypt : pyval -> Res pyval) (runs : nat -> run) (error_text : string).

(** The loop over the groups; [n] counts the runs. *)
Fixpoint connect_groups (cred : Z) (groups : list string) (any_successful_connection : bool)
    (n : nat) (st : store) : nat * store * Res outcome :=
  match groups with
  | [] => (n, st, Ok (if any_successful_connection then (None, COMPLETED)
                      else (Some "No successful connections", FAILED)))
  | _ :: groups =>
      let '(st, r) := run_group cred (runs n) st in
      match r with
      | Err e => (S n, st, Err e)
      | Ok final_status =>
          let scanned := systems_scanned (t_stats (scan_task st)) in
          let any := any_successful_connection || (1 <=? scanned) in
          if bool_decide (final_status = "canceled")
          then (S n, st, Ok (Some NETWORK_PLAYBOOK_STOPPED, CANCELED)) else
          if bool_decide (final_status ∉ ["successful"; "unreachable"; "failed"; "canceled"])
             && (scanned =? 0)
          then (S n, st, Ok (Some (NETWORK_CONNECT_FAIL final_status
                 (if bool_decide (final_status = "timeout") then NETWORK_TIMEOUT_ERR else NETWORK_UNKNOWN_ERR)),
               FAILED))
          else connect_groups cred groups any (S n) st
      end
  end.

Definition _connect (hosts : list string) (c : credential) (connection_port : pyval) (forks : Z)
    (n : nat) (st : store) : nat * store * Res outcome :=
  match construct_inventory decrypt (HostName <$> hosts) connection_port forks (Some (cred_data c)) None with
  | Err e => (n, st, Err e)
  | Ok (group_names, _) => connect_groups (cred_id c) group_names false n st
  end.

(** ** [run_with_result_store] *)

(** [for host in remaining_hosts: record_result(host, ..., None, FAILED)] *)
Fixpoint fail_remaining (hosts : list string) (st : store) : store * Res unit :=
  match hosts with
  | [] => (st, Ok tt)
  | h :: hosts =>
      match record_result h None CONN_FAILED st with
      | (st, Ok _) => fail_remaining hosts st
      | r => r
      end
  end.

Definition finish_run (st : store) : store * Res outcome :=
  match fail_remaining (remaining st) st with
  | (st, Ok _) => (st, Ok (None, COMPLETED))
  | (st, Err e) => (st, Err e)
  end.

Definition connect_error (c : credential) (hosts : list string) : string :=
  "Connect scan task failed with credential " +:+ cred_name c +:+ ". Error: " +:+ error_text
  +:+ " Hosts: " +:+ str_join ", " hosts.

Fixpoint run_with_result_store (credentials : list credential) (connection_port : pyval) (forks : Z)
    (n : nat) (st : store) : store * Res outcome :=
  match credentials, remaining st with
  | [], _ | _, [] => finish_run st
  | c :: credentials, hosts =>
      let '(n, st, r) := _connect hosts c connection_port forks n st in
      match r with
      | Ok (message, result) =>
          if bool_decide (result = COMPLETED)
          then run_with_result_store credentials connection_port forks n st
          else (st, Ok (message, result))
      | Err e =>
          if is_runner_exception e then (st, Ok (Some (connect_error c (remaining st)), FAILED)) else (st, Err e)
      end
  end.
End connect.

(** ** Lemmas *)

Definition count (s : conn_status) (rs : list conn_result) : Z :=
  Z.of_nat (length (filter (fun r => r_status r = s) rs)).

(** Every host is either waiting or has one result, and the counters of the task
    in the database are those of the results. *)
Record store_ok (hosts : list string) (st : store) : Prop := {
  so_hosts : ((r_name <$> systems st) ++ remaining st)%list ≡ₚ hosts;
  so_row : exists row, tasks (database st) !! t_id (scan_task st) = Some row /\
    t_id row = t_id (scan_task st) /\
    t_stats row = mkstats (Z.of_nat (length hosts)) (count SUCCESS (systems st))
      (count CONN_FAILED (systems st)) (count UNREACHABLE (systems st)) }.

(** The object in memory has read the last counters. *)
Definition synced (st : store) : Prop :=
  systems_scanned (t_stats (scan_task st)) = count SUCCESS (systems st).

Lemma count_snoc s rs r : count s (rs ++ [r]) = Task.bump (is_status (r_status r) s) (count s rs).
Proof.
  unfold count, is_status. rewrite filter_app, filter_cons. cbn.
  case_decide; [rewrite bool_decide_eq_true_2 by done | rewrite bool_decide_eq_false_2 by done];
    rewrite length_app; cbn; lia.
Qed.

Lemma remove_perm (h : string) l : NoDup l -> h ∈ l -> h :: filter (fun x => x <> h) l ≡ₚ l.
Proof.
  intros Hnd Hh. apply NoDup_Permutation; [|done|].
  - constructor; [|by apply NoDup_filter]. rewrite list_elem_of_filter. naive_solver.
  - intros x. rewrite elem_of_cons, list_elem_of_filter. destruct (decide (x = h)); naive_solver.
Qed.

Lemma store_ok_NoDup hosts st : NoDup hosts -> store_ok hosts st -> NoDup (remaining st).
Proof. intros Hnd [Hp _]. rewrite <- Hp in Hnd. by apply NoDup_app in Hnd as (_ & _ & ?). Qed.

(** Recording: the result of a waiting host is kept and counted; for another host
    the tables do not change. *)
Lemma record_result_ok hosts name cred status st :
  NoDup hosts -> store_ok hosts st ->
  exists st' r, record_result name cred status st = (st', r) /\ store_ok hosts st' /\
    if decide (name ∈ remaining st) then
      r = Ok tt /\ synced st' /\ remaining st' = filter (fun h => h <> name) (remaining st) /\
      systems st' = (systems st ++ [mkresult name cred status])%list
    else r = Err (KeyError name) /\ remaining st' = remaining st /\ systems st' = systems st.
Proof.
  intros Hnd Hok. pose proof (store_ok_NoDup _ _ Hnd Hok) as Hr. destruct Hok as [Hp (row & Hrow & Hid & Hst)].
  unfold record_result.
  set (f := fun row0 => let s := t_stats row0 in
     Task.set_stats (mkstats (systems_count s) (Task.bump (is_status status SUCCESS) (systems_scanned s))
       (Task.bump (is_status status CONN_FAILED) (systems_failed s))
       (Task.bump (is_status status UNREACHABLE) (systems_unreachable s))) row0).
  assert (Task.increment_stats false (is_status status SUCCESS) (is_status status CONN_FAILED)
            (is_status status UNREACHABLE) (scan_task st) (database st) =
          Ok (f row, with_tasks (alter f (t_id (scan_task st))) (database st))) as ->.
  { unfold Task.increment_stats. cbn [orb]. assert ((is_status status SUCCESS || is_status status CONN_FAILED ||
      is_status status UNREACHABLE) = true) as -> by (by destruct status).
    unfold get_task. cbn. by rewrite lookup_alter_eq, Hrow. }
  assert (t_id (f row) = t_id (scan_task st)) as Hfid by done.
  destruct (decide (name ∈ remaining st)) as [Hin|Hin]; do 2 eexists; (split; [done|]); split.
  - split; cbn.
    + rewrite fmap_app. cbn. rewrite <- app_assoc. cbn. by rewrite (remove_perm name).
    + exists (f row). rewrite Hid, lookup_alter_eq, Hrow. split; [done|]. split; [done|].
      rewrite !count_snoc. cbn. rewrite Hst. done.
  - split; [done|]. unfold synced. cbn. rewrite count_snoc, Hst. done.
  - split; cbn; [done|]. exists row. by rewrite Hid.
  - done.
Qed.

(** What a step of the scan does to the store: the tables stay consistent,
    results are only added, and without an exception the object in memory is up
    to date. *)
Definition grows (hosts : list string) {A} (st : store) (x : store * Res A) : Prop :=
  store_ok hosts x.1 /\ (exists rs, systems x.1 = (systems st ++ rs)%list) /\
  (is_Ok x.2 -> synced st -> synced x.1).

Section grows.
Context (hosts : list string) (Hnd : NoDup hosts).

Lemma grows_same {A} st (r : Res A) : store_ok hosts st -> grows hosts st (st, r).
Proof. intros H. split; [done|]. split; [exists []; by rewrite app_nil_r | done]. Qed.

Lemma grows_trans {A B} st st' (x : store * Res A) (r : Res B) :
  grows hosts st (st', r) -> is_Ok r -> grows hosts st' x -> grows hosts st x.
Proof.
  intros (_ & [rs Hrs] & Hs) Hr (Hok & [rs' Hrs'] & Hs'). cbn in *. split; [done|]. split; [|auto].
  exists (rs ++ rs')%list. by rewrite Hrs', Hrs, app_assoc.
Qed.

Lemma grows_change {A B} st st' (r : Res A) (r' : Res B) :
  grows hosts st (st', r) -> (is_Ok r' -> is_Ok r) -> grows hosts st (st', r').
Proof. intros (Hok & Hrs & Hs) Hr. split; [done|]. split; [done|]. cbn in *. auto. Qed.

Lemma grows_record name cred status st :
  store_ok hosts st -> grows hosts st (record_result name cred status st).
Proof.
  intros Hok. destruct (record_result_ok hosts name cred status st Hnd Hok) as (st' & r & -> & Hok' & H).
  split; [done|]. case_decide.
  - destruct H as (-> & Hs & _ & Hsys). split; [by eexists|]. done.
  - destruct H as (-> & _ & Hsys). split; [exists []; by rewrite app_nil_r|]. by intros [? ?].
Qed.

Lemma grows_act {A} (r : Res A) f st :
  store_ok hosts st -> (forall a, r = Ok a -> grows hosts st (f a st)) -> grows hosts st (act r f st).
Proof. intros Hok H. unfold act. destruct r; [by apply H | by apply grows_same]. Qed.

(** An event that is not expected leaves the store alone. *)
Definition unmoved (st : store) (x : store * Res unit) : Prop :=
  forall e, x.2 = Err e -> is_unexpected e = true -> x.1 = st.

Lemma unmoved_record name cred status st : unmoved st (record_result name cred status st).
Proof.
  intros e. unfold record_result, Task.increment_stats, get_task, from_option.
  repeat case_goal; cbn; intros [= <-] H; done.
Qed.

Lemma unmoved_act {A} (r : Res A) f st :
  (forall a, unmoved st (f a st)) -> unmoved st (act r f st).
Proof. intros H. unfold act. destruct r; [apply H | by intros ? _]. Qed.

Ltac event_cases t :=
  unfold _event_callback, task_on_ok, task_on_unreachable, task_on_failed;
  repeat first [t | case_goal; subst].

Lemma unmoved_event cred ev st : unmoved st (_event_callback cred ev st).
Proof.
  event_cases ltac:(first [apply unmoved_act; intros ? | apply unmoved_record | by intros ? ?]).
Qed.

Lemma grows_event cred ev st : store_ok hosts st -> grows hosts st (event_callback cred ev st).
Proof.
  intros Hok. assert (grows hosts st (_event_callback cred ev st)) as H.
  { event_cases ltac:(first [apply grows_act; [done | intros ? _] | apply grows_record; done
                            | apply grows_same; done]). }
  pose proof (unmoved_event cred ev st) as Hu.
  unfold event_callback. destruct (_event_callback cred ev st) as [st' [a|e]]; [done|].
  destruct (is_unexpected e) eqn:He.
  - specialize (Hu e eq_refl He). cbn in Hu. subst. by apply grows_same.
  - eapply grows_change; [exact H | by intros [? ?]].
Qed.

Lemma grows_events cred evs st : store_ok hosts st -> grows hosts st (handle_events cred evs st).
Proof.
  revert st. induction evs as [|ev evs IH]; intros st Hok; [by apply grows_same|]. cbn.
  pose proof (grows_event cred ev st Hok) as H. destruct (event_callback cred ev st) as [st' [a|e]]; [|done].
  eapply grows_trans; [exact H | by eexists | apply IH, H].
Qed.

Lemma grows_group cred r st : store_ok hosts st -> grows hosts st (run_group cred r st).
Proof.
  intros Hok. unfold run_group. pose proof (grows_events cred (run_events r) st Hok) as H.
  destruct (handle_events _ _ _) as [st' [a|e]]; eapply grows_change; try exact H; [by eexists | by intros [? ?]].
Qed.

Section connect_lemmas.
Context (decrypt : pyval -> Res pyval) (runs : nat -> run) (error_text : string).

(** A run over all the groups; it only completes with a success. *)
Lemma grows_groups cred groups any n st n' st' r :
  connect_groups runs cred groups any n st = (n', st', r) ->
  store_ok hosts st -> synced st -> (any = true -> 1 <= count SUCCESS (systems st)) ->
  grows hosts st (st', r) /\
  (forall m, r = Ok (m, COMPLETED) -> 1 <= count SUCCESS (systems st')).
Proof.
  revert any n st. induction groups as [|g groups IH]; intros any n st; cbn [connect_groups].
  { intros [= <- <- <-] Hok Hs Ha. split; [by apply grows_same|]. destruct any; [auto | done]. }
  intros H Hok Hs Ha. pose proof (grows_group cred (runs n) st Hok) as Hg.
  destruct (run_group cred (runs n) st) as [st1 [fs|e]]; [|simplify_eq; split; [|done]].
  2:{ eapply grows_change; [exact Hg | by intros [? ?]]. }
  assert (synced st1) as Hs1 by (apply Hg; [by eexists | done]).
  destruct (bool_decide (fs = "canceled")).
  { simplify_eq. split; [|done]. eapply grows_change; [exact Hg | by eexists]. }
  destruct (bool_decide (fs ∉ _) && _).
  { simplify_eq. split; [|done]. eapply grows_change; [exact Hg | by eexists]. }
  destruct (IH _ _ _ H) as [Hgr Hc]; [apply Hg | done | |split; [|done]].
  - rewrite Hs1. intros [Ht|Ht%Z.leb_le]%orb_true_iff; [|done]. specialize (Ha Ht).
    destruct Hg as (_ & [rs Hrs] & _). cbn in Hrs. rewrite Hrs. unfold count in *. rewrite filter_app, length_app. lia.
  - eapply grows_trans; [exact Hg | by eexists | exact Hgr].
Qed.

Lemma grows_connect c port forks n st n' st' r :
  _connect decrypt runs (remaining st) c port forks n st = (n', st', r) ->
  store_ok hosts st -> synced st ->
  grows hosts st (st', r) /\ (forall m, r = Ok (m, COMPLETED) -> 1 <= count SUCCESS (systems st')).
Proof.
  unfold _connect. destruct (construct_inventory _ _ _ _ _ _) as [[names inv]|e].
  - intros H Hok Hs. eapply grows_groups; try done.
  - intros [= <- <- <-] Hok _. split; [by apply grows_same | done].
Qed.

(** The hosts left are recorded as failed, which cannot fail. *)
Lemma fail_remaining_ok l st :
  store_ok hosts st -> remaining st = l -> exists st', fail_remaining l st = (st', Ok tt) /\
    store_ok hosts st' /\ remaining st' = [] /\
    systems st' = (systems st ++ ((fun h => mkresult h None CONN_FAILED) <$> l))%list.
Proof.
  revert st. induction l as [|h l IH]; intros st Hok Hl.
  { exists st. cbn. by rewrite app_nil_r. }
  cbn [fail_remaining].
  destruct (record_result_ok hosts h None CONN_FAILED st Hnd Hok) as (st' & r & -> & Hok' & H).
  rewrite decide_True in H by (rewrite Hl; left). destruct H as (-> & _ & Hrem & Hsys).
  destruct (IH st' Hok') as (st2 & H2 & Hok2 & Hrem2 & Hsys2).
  { rewrite Hrem, Hl. pose proof (store_ok_NoDup _ _ Hnd Hok) as Hn. rewrite Hl in Hn.
    apply NoDup_cons in Hn as [Hh _]. rewrite filter_cons_False by auto.
    clear -Hh. induction l as [|x l IHl]; [done|]. apply not_elem_of_cons in Hh as [Hx Hh].
    rewrite filter_cons_True by auto. by rewrite IHl. }
  exists st2. split; [done|]. split; [done|]. split; [done|].
  rewrite Hsys2, Hsys. by rewrite <- app_assoc.
Qed.
End connect_lemmas.
End grows.

(** The store of a new scan: the expanded hosts but the excluded ones, once each,
    all waiting, and the counters reset. *)
Lemma new_store_ok expand hosts exclude_hosts self d row :
  tasks d !! t_id self = Some row -> t_id row = t_id self ->
  exists st, new_store expand hosts exclude_hosts self d = Ok st /\ systems st = [] /\ NoDup (remaining st) /\
    (forall h, h ∈ remaining st <->
       h ∈ concat (expand <$> hosts) /\ h ∉ concat (expand <$> exclude_hosts)) /\
    store_ok (remaining st) st /\ synced st.
Proof.
  intros Hrow Hid. unfold new_store. set (targets := filter _ _).
  assert (exists d' row', Task.update_stats (Some (Z.of_nat (length targets))) (Some 0) (Some 0) (Some 0) self d =
    Ok (row', d') /\ tasks d' !! t_id row' = Some row' /\
    t_stats row' = mkstats (Z.of_nat (length targets)) 0 0 0) as (d' & row' & -> & Hrow' & Hst').
  { unfold Task.update_stats, get_task. rewrite Hrow. cbn [from_option mbind res_bind].
    unfold Task.or_old. cbn [default id]. destruct (_ || _) eqn:E.
    - do 2 eexists. split; [done|]. cbn. by rewrite lookup_insert_eq.
    - rewrite !orb_false_iff, !negb_false_iff, !Z.eqb_eq in E. destruct E as [[[E1 E2] E3] E4].
      do 2 eexists. split; [done|]. rewrite Hid. split; [done|]. destruct (t_stats row). cbn in *. congruence. }
  cbn [mbind res_bind]. eexists. split; [done|]. cbn. split; [done|]. split; [|split; [|split]].
  - unfold targets. apply NoDup_filter, NoDup_dedup.
  - intros h. unfold targets. rewrite list_elem_of_filter, elem_of_dedup. tauto.
  - split; cbn; [done|]. by exists row'.
  - unfold synced. cbn. by rewrite Hst'.
Qed.

(** ** Properties *)

Lemma count_total rs :
  count SUCCESS rs + count CONN_FAILED rs + count UNREACHABLE rs = Z.of_nat (length rs).
Proof.
  induction rs as [|r rs IH] using rev_ind; [done|]. rewrite !count_snoc, length_app, Nat2Z.inj_add, <- IH.
  unfold is_status, Task.bump. destruct (r_status r);
    repeat (case_bool_decide; [|try done]; try done); cbn [length]; lia.
Qed.

Lemma run_accounts hosts decrypt runs text credentials port forks n st st' r :
  NoDup hosts -> store_ok hosts st -> synced st ->
  run_with_result_store decrypt runs text credentials port forks n st = (st', r) ->
  store_ok hosts st' /\ (forall m, r = Ok (m, COMPLETED) -> remaining st' = []).
Proof.
  intros Hnd. revert n st. induction credentials as [|c cs IH]; intros n st Hok Hs; cbn [run_with_result_store].
  2: destruct (remaining st) as [|h hs] eqn:Hrem.
  1,2: unfold finish_run; destruct (fail_remaining_ok hosts Hnd (remaining st) st Hok eq_refl)
         as (st1 & Hf & Hok1 & Hr1 & _); rewrite ?Hrem in *; rewrite Hf; intros [= <- <-]; done.
  rewrite <- Hrem. destruct (_connect decrypt runs (remaining st) c port forks n st) as [[n1 st1] r1] eqn:Hc.
  destruct (grows_connect hosts Hnd _ _ _ _ _ _ _ _ _ _ Hc Hok Hs) as [(Hok1 & _ & Hs1) _]. cbn in Hok1, Hs1.
  destruct r1 as [[m s]|e].
  - case_bool_decide as Hcompl; [apply IH; [done | apply Hs1; [by eexists | done]]|].
    intros [= <- <-]. split; [done|]. by intros m' [= -> ->].
  - destruct (is_runner_exception e); intros [= <- <-]; done.
Qed.

(** [C8] The connection phase accounts for every host.  Whatever Ansible reports,
    whichever runs fail, each targeted host has at most one result, the others
    are still waiting, and the counters of the task in the database are exactly
    those of the results; when the phase completes, every host has its one
    result and the three counters add up to the number of hosts. *)
Theorem connect_accounts_hosts decrypt runs text expand hosts exclude_hosts self d row credentials port forks n :
  tasks d !! t_id self = Some row -> t_id row = t_id self ->
  exists st st' r targets, new_store expand hosts exclude_hosts self d = Ok st /\
    run_with_result_store decrypt runs text credentials port forks n st = (st', r) /\
    NoDup targets /\
    (forall h, h ∈ targets <-> h ∈ concat (expand <$> hosts) /\ h ∉ concat (expand <$> exclude_hosts)) /\
    ((r_name <$> systems st') ++ remaining st')%list ≡ₚ targets /\
    exists row', tasks (database st') !! t_id (scan_task st') = Some row' /\
      t_stats row' = mkstats (Z.of_nat (length targets)) (count SUCCESS (systems st'))
        (count CONN_FAILED (systems st')) (count UNREACHABLE (systems st')) /\
      forall m, r = Ok (m, COMPLETED) ->
        remaining st' = [] /\ (r_name <$> systems st') ≡ₚ targets /\
        systems_scanned (t_stats row') + systems_failed (t_stats row') + systems_unreachable (t_stats row') =
          systems_count (t_stats row').
Proof.
  intros Hrow Hid.
  destruct (new_store_ok expand hosts exclude_hosts self d row Hrow Hid) as (st & Hst & _ & Hnd & Ht & Hok & Hs).
  destruct (run_with_result_store decrypt runs text credentials port forks n st) as [st' r] eqn:Hrun.
  destruct (run_accounts _ _ _ _ _ _ _ _ _ _ _ Hnd Hok Hs Hrun) as [[Hp (row' & Hrow' & _ & Hst')] Hc].
  exists st, st', r, (remaining st). do 5 (split; [done|]). exists row'. split; [done|]. split; [done|].
  intros m Hm. specialize (Hc m Hm). split; [done|]. rewrite Hc, app_nil_r in Hp. split; [done|].
  rewrite Hst'. cbn. rewrite count_total. by rewrite <- (Permutation_length Hp), length_fmap.
Qed.

(** A task, and runs in which the first credential is refused by the only host
    and any later run would succeed. *)
Definition demo_task : task :=
  mktask 7 INSPECT RUNNING ST_RUNNING 1 (mkstats 0 0 0 0) 0 (Some 0) None (Some 5) None.
Definition demo_db : db :=
  mkdb ∅ {[ 7 := demo_task ]} ∅ ∅ ∅ ∅ ∅ ∅ ∅ ∅ ∅ ∅ 100.
Definition event (name host : string) (res : pydict) : pyval :=
  VDict [("event", VStr name); ("event_data", VDict [("host", VStr host); ("res", VDict res)])].
Definition refused : run :=
  mkrun [event "runner_on_unreachable" "h" [("msg", VStr "Permission denied (publickey).")]] (Some "unreachable").
Definition accepted : run := mkrun [event "runner_on_ok" "h" [("rc", VInt 0)]] (Some "successful").
Definition demo_runs (n : nat) : run := match n with O => refused | S _ => accepted end.
Definition demo_credentials : list credential := [mkcred 1 "first" []; mkcred 2 "second" []].

Lemma connect_accounts_hosts_witness :
  tasks demo_db !! 7 = Some demo_task /\
  exists st st' r targets, new_store (fun h => [h]) ["h"; "g"] ["g"] demo_task demo_db = Ok st /\
    run_with_result_store Ok (fun _ => accepted) "" demo_credentials (VInt 22) 50 0 st = (st', r) /\
    ((r_name <$> systems st') ++ remaining st')%list ≡ₚ targets.
Proof.
  assert (tasks demo_db !! 7 = Some demo_task) as Hrow by reflexivity.
  destruct (connect_accounts_hosts Ok (fun _ => accepted) "" (fun h => [h]) ["h"; "g"] ["g"] demo_task demo_db
              demo_task demo_credentials (VInt 22) 50 0 Hrow eq_refl)
    as (st & st' & r & targets & H1 & H2 & _ & _ & H3 & _).
  split; [exact Hrow|]. exists st, st', r, targets. split; [exact H1|]. split; [exact H2 | exact H3].
Defined.

(** Only the first credential is tried unless it connects to some host: when
    it leaves hosts waiting and connects to none, the phase does not complete and
    its result is the same whatever credentials follow. *)
Theorem first_credential_decides decrypt runs text hosts c port forks n st :
  NoDup hosts -> store_ok hosts st -> synced st -> remaining st <> [] ->
  let '(_, st1, r1) := _connect decrypt runs (remaining st) c port forks n st in
  count SUCCESS (systems st1) = 0 ->
  exists r, (forall m, r <> Ok (m, COMPLETED)) /\
    forall cs, run_with_result_store decrypt runs text (c :: cs) port forks n st = (st1, r).
Proof.
  intros Hnd Hok Hs Hne. destruct (_connect decrypt runs (remaining st) c port forks n st) as [[n1 st1] r1] eqn:Hc.
  destruct (grows_connect hosts Hnd _ _ _ _ _ _ _ _ _ _ Hc Hok Hs) as [_ Hcompl]. intros H0.
  assert (forall m, r1 <> Ok (m, COMPLETED)) as Hn by (intros m Hm; apply Hcompl in Hm; lia).
  destruct r1 as [[m s]|e].
  - exists (Ok (m, s)). split; [done|]. intros cs. cbn [run_with_result_store].
    destruct (remaining st) eqn:Hrem; [done|]. rewrite Hc.
    rewrite bool_decide_eq_false_2; [done|]. intros ->. by apply (Hn m).
  - exists (if is_runner_exception e then Ok (Some (connect_error text c (remaining st1)), FAILED) else Err e).
    split; [by destruct (is_runner_exception e)|]. intros cs. cbn [run_with_result_store].
    destruct (remaining st) eqn:Hrem; [done|]. rewrite Hc. by destruct (is_runner_exception e).
Qed.

Definition demo_store : store := mkstore (Task.set_stats (mkstats 1 0 0 0) demo_task) ["h"] []
  (mkdb ∅ {[ 7 := Task.set_stats (mkstats 1 0 0 0) demo_task ]} ∅ ∅ ∅ ∅ ∅ ∅ ∅ ∅ ∅ ∅ 100).

Lemma first_credential_decides_witness :
  exists st1 r, (forall m, r <> Ok (m, COMPLETED)) /\
    run_with_result_store Ok demo_runs "" demo_credentials (VInt 22) 50 0 demo_store = (st1, r) /\
    run_with_result_store Ok demo_runs "" demo_credentials (VInt 22) 50 1 demo_store <> (st1, r).
Proof.
  assert (store_ok ["h"] demo_store) as Hok
    by (split; [reflexivity | exists (Task.set_stats (mkstats 1 0 0 0) demo_task); repeat split; reflexivity]).
  pose proof (first_credential_decides Ok demo_runs "" ["h"] (mkcred 1 "first" []) (VInt 22) 50 0 demo_store
                ltac:(by_compute) Hok eq_refl ltac:(discriminate)) as H.
  destruct (_connect Ok demo_runs (remaining demo_store) (mkcred 1 "first" []) (VInt 22) 50 0 demo_store)
    as [[n1 st1] r1] eqn:Hc.
  assert (count SUCCESS (systems st1) = 0) as H0 by (vm_compute in Hc; injection Hc as _ <- _; reflexivity).
  destruct (H H0) as (r & Hn & Hr). exists st1, r. split; [exact Hn|]. split; [exact (Hr _)|].
  intros Heq. vm_compute in Heq. injection Heq as _ <-. exact (Hn _ eq_refl).
Defined.
