(* ===== verification/InspectCallback.v ===== *)
(** Collecting facts from Ansible: [InspectCallback] of
    [scanner/network/inspect_callback.py] and [sanitize_for_utf8_compatibility] of
    [utils/misc.py].

    An event handler either updates the state or raises before touching it, so a
    handler is a function from the state to [Res] of the state.  Host names are
    text; another value of the key [host] is outside the model. *)
From stdpp Require Import base sets list strings.
From Stdlib Require Import Ascii ZArith Lia.
From S2P Require Import Prelude PyStr PyNum PyVal.

Open Scope string_scope.
Open Scope Z_scope.

(** ** [sanitize_for_utf8_compatibility] *)

(** [value.encode("utf-8", errors="replace").decode()]: a lone surrogate, three
    bytes in the model, becomes a question mark. *)
Fixpoint sanitize_str (s : string) : string :=
  match s with
  | String a (String b (String c t) as s1) =>
      if (code a =? 237)%N && (160 <=? code b)%N && (code b <=? 191)%N
      then String "?" (sanitize_str t) else String a (sanitize_str s1)
  | String a s1 => String a (sanitize_str s1)
  | "" => ""
  end.

Fixpoint sanitize (v : pyval) : pyval :=
  match v with
  | VStr s => VStr (sanitize_str s)
  | VList l => VList (sanitize <$> l)
  | VDict d =>
      VDict ((fix go (d acc : pydict) : pydict :=
                match d with
                | [] => acc
                | (k, x) :: d => go d (dset (sanitize_str k) (sanitize x) acc)
                end) d [])
  | v => v
  end.

(** ** The state and the handlers *)

(** [_ansible_facts], [_unreachable_hosts] and [_skipped_facts]. *)
Record callback := mkcb {
  ansible_facts : list (string * pydict);
  unreachable_hosts : list string;
  skipped_facts : list (string * list string) }.

Definition empty_callback : callback := mkcb [] [] [].

Definition HOST_DONE : string := "host_done".
Definition UNKNOWN_HOST : pyval := VStr "unknown_host".

Definition facts_of (host : string) (cb : callback) : pydict := default [] (dget host (ansible_facts cb)).

Definition store_fact (host : string) (cb : callback) (kv : string * pyval) : callback :=
  mkcb (dset host (dset kv.1 (sanitize kv.2) (facts_of host cb)) (ansible_facts cb))
       (unreachable_hosts cb) (skipped_facts cb).

Definition host_name (v : pyval) : Res string :=
  match v with VStr s => Ok s | _ => Err Unsupported end.

Definition _process_task_facts (facts host : pyval) (cb : callback) : Res callback :=
  items ← as_dict "items" facts;
  h ← host_name host;
  Ok (foldl (store_fact h) cb items).

Definition task_on_ok (event_dict : pyval) (cb : callback) : Res callback :=
  event_data ← vget_default event_dict "event_data" (VDict []);
  res ← vget_default event_data "res" (VDict []);
  facts ← vget_default res "ansible_facts" (VDict []);
  if negb (truthy facts) then Ok cb else
  host ← vget_default event_data "host" UNKNOWN_HOST;
  _process_task_facts facts host cb.

(** The facts of a failed task are kept too. *)
Definition task_on_failed (event_dict : pyval) (cb : callback) : Res callback :=
  event_data ← vget_default event_dict "event_data" (VDict []);
  host ← vget_default event_data "host" UNKNOWN_HOST;
  result ← vget event_data "res";
  task_facts ← vget result "ansible_facts";
  if negb (truthy task_facts) then Ok cb else _process_task_facts task_facts host cb.

Definition add_new {A} `{EqDecision A} (x : A) (l : list A) : list A :=
  if decide (x ∈ l) then l else (l ++ [x])%list.

Definition task_on_unreachable (event_dict : pyval) (cb : callback) : Res callback :=
  event_data ← vget_default event_dict "event_data" (VDict []);
  host ← vget_default event_data "host" UNKNOWN_HOST;
  result ← vget_default event_data "res" (VDict []);
  _ ← vget result "msg";
  h ← host_name host;
  Ok (mkcb (ansible_facts cb) (add_new h (unreachable_hosts cb)) (skipped_facts cb)).

(** The name of a skipped task, with the item of its loop. *)
Definition task_on_skipped (event_dict : pyval) (cb : callback) : Res callback :=
  event_data ← vget_default event_dict "event_data" (VDict []);
  host ← vget_default event_data "host" UNKNOWN_HOST;
  task_path ← vget_default event_data "task_path" (VStr "unknown_task_path");
  result ← vget_default event_data "res" (VDict []);
  loop_var ← vget_default result "ansible_loop_var" (VStr "");
  loop_var_name ← host_name loop_var;
  item_id ← vget_default result loop_var_name (VStr "");
  let task_id := if truthy item_id then py_str task_path +:+ "[" +:+ py_str item_id +:+ "]"
                 else py_str task_path in
  h ← host_name host;
  let old := default [] (dget h (skipped_facts cb)) in
  Ok (mkcb (ansible_facts cb) (unreachable_hosts cb) (dset h (add_new task_id old) (skipped_facts cb))).

Definition okay : list string := ["runner_on_ok"; "runner_item_on_ok"].
Definition failed : list string := ["runner_on_failed"; "runner_item_on_failed"].
Definition unreachable : list string := ["runner_on_unreachable"].
Definition skipped : list string := ["runner_on_skipped"; "runner_item_on_skipped"].

(** [collect_skipped]: the feature flag [REPORT_SKIPPED_TASKS]. *)
Definition event_callback (collect_skipped : bool) (event_dict : pyval) (cb : callback) : Res callback :=
  match getitem event_dict "event" with
  | Err (KeyError _) => Ok cb
  | Err e => Err e
  | Ok event =>
      if py_in event (VStr <$> okay) then task_on_ok event_dict cb
      else if py_in event (VStr <$> failed) then task_on_failed event_dict cb
      else if py_in event (VStr <$> unreachable) then task_on_unreachable event_dict cb
      else if collect_skipped && py_in event (VStr <$> skipped) then task_on_skipped event_dict cb
      else Ok cb
  end.

(** ** [iter_results] *)

Inductive host_status := SUCCESS | UNREACHABLE | FAILED.

Record AnsibleResults := mkresults { ar_host : string; ar_status : host_status; ar_facts : pydict }.

Definition status_of (cb : callback) (host : string) (facts : pydict) : host_status :=
  if decide (host ∈ unreachable_hosts cb) then UNREACHABLE
  else match default (VBool false) (dget HOST_DONE facts) with
       | VBool true => SUCCESS
       | _ => FAILED
       end.

Definition iter_results (cb : callback) : list AnsibleResults :=
  (fun hf => mkresults hf.1 (status_of cb hf.1 hf.2) hf.2) <$> ansible_facts cb.

(** ** What the events say *)

Definition event_in (names : list string) (ev : pyval) : bool :=
  match getitem ev "event" with Ok event => py_in event (VStr <$> names) | Err _ => false end.

Definition event_host (ev : pyval) : Res string :=
  event_data ← vget_default ev "event_data" (VDict []);
  host ← vget_default event_data "host" UNKNOWN_HOST;
  host_name host.

Definition event_items (ev : pyval) : Res pydict :=
  event_data ← vget_default ev "event_data" (VDict []);
  res ← vget_default event_data "res" (VDict []);
  facts ← vget_default res "ansible_facts" (VDict []);
  if truthy facts then as_dict "items" facts else Ok [].

(** The facts an event reports about a host: those of a task that ended, well or
    not. *)
Definition reported (ev : pyval) (host : string) : pydict :=
  if event_in (okay ++ failed)%list ev then
    match event_items ev, event_host ev with
    | Ok items, Ok h => if bool_decide (h = host) then items else []
    | _, _ => []
    end
  else [].

Definition says_unreachable (ev : pyval) (host : string) : Prop :=
  event_in (okay ++ failed)%list ev = false /\ event_in unreachable ev = true /\ event_host ev = Ok host.

(** The last fact of the name in the events. *)
Fixpoint last_fact (k : string) (l : pydict) : option pyval :=
  match l with
  | [] => None
  | (k', v) :: l => match last_fact k l with
                    | Some v => Some v
                    | None => if bool_decide (k = k') then Some v else None
                    end
  end.

Definition last_reported (evs : list pyval) (host k : string) : option pyval :=
  last_fact k (evs ≫= fun ev => reported ev host).

(** ** Lemmas *)

Lemma py_in_app v l1 l2 : py_in v (l1 ++ l2) = py_in v l1 || py_in v l2.
Proof. apply existsb_app. Qed.

Definition host_facts (cb : callback) (host : string) (k : string) : option pyval := dget k (facts_of host cb).

Lemma facts_of_dset host host' fs fcts u s :
  facts_of host (mkcb (dset host' fs fcts) u s) = if decide (host = host') then fs else facts_of host (mkcb fcts u s).
Proof. unfold facts_of. cbn. rewrite dget_dset. by case_decide. Qed.

(** Storing the items of an event. *)
Lemma store_facts_spec h items cb :
  let cb' := foldl (store_fact h) cb items in
  unreachable_hosts cb' = unreachable_hosts cb /\
  (forall host k, host_facts cb' host k =
     match (if decide (host = h) then last_fact k items else None) with
     | Some v => Some (sanitize v)
     | None => host_facts cb host k
     end) /\
  (forall host, host ∈ dkeys (ansible_facts cb') <-> host ∈ dkeys (ansible_facts cb) \/ (host = h /\ items <> [])) /\
  (NoDup (dkeys (ansible_facts cb)) -> NoDup (dkeys (ansible_facts cb'))).
Proof.
  revert cb. induction items as [|[k0 v0] items IH]; intros cb; cbn [foldl].
  { split; [done|]. split; [intros; by case_decide|]. split; [naive_solver | done]. }
  destruct (IH (store_fact h cb (k0, v0))) as (Hu & Hf & Hh & Hn). split; [done|]. split; [|split].
  - intros host k. rewrite Hf. cbn [last_fact]. unfold host_facts, store_fact. rewrite facts_of_dset.
    case_decide as E; [subst|done]. destruct (last_fact k items); [done|]. cbn [fst snd]. rewrite dget_dset.
    by repeat case_decide; repeat case_bool_decide.
  - intros host. rewrite Hh. unfold store_fact. cbn [ansible_facts fst snd]. rewrite elem_of_dkeys_dset. naive_solver.
  - intros Hnd. apply Hn. by apply NoDup_dkeys_dset.
Qed.

Lemma event_in_split (names : list string) ev event : getitem ev "event" = Ok event -> event_in names ev = py_in event (VStr <$> names).
Proof. intros H. unfold event_in. by rewrite H. Qed.

(** Both handlers of facts: nothing to store, or the items of the event. *)
Definition stores (ev : pyval) (cb cb' : callback) : Prop :=
  event_items ev = Ok [] /\ cb' = cb \/
  exists h items, event_items ev = Ok items /\ event_host ev = Ok h /\ cb' = foldl (store_fact h) cb items.

Lemma vget_of_default v k d x : vget v k = Ok x -> is_dict x = true -> vget_default v k d = Ok x.
Proof.
  unfold vget, vget_default. destruct v; try done. cbn. destruct (dget k d0); cbn; [done|].
  by intros [= <-].
Qed.

Lemma vget_dict v k x : vget v k = Ok x -> forall d, vget_default v k d = Ok x \/ x = VNone /\ vget_default v k d = Ok d.
Proof.
  unfold vget, vget_default. destruct v; try done. cbn. intros H d'. destruct (dget k d); cbn in *; [by left|].
  injection H as <-. by right.
Qed.

Lemma process_stores ev cb cb' event_data res facts :
  vget_default ev "event_data" (VDict []) = Ok event_data ->
  vget_default event_data "res" (VDict []) = Ok res ->
  vget_default res "ansible_facts" (VDict []) = Ok facts -> truthy facts = true ->
  (host ← vget_default event_data "host" UNKNOWN_HOST; _process_task_facts facts host cb) = Ok cb' ->
  stores ev cb cb'.
Proof.
  intros H1 H2 H3 Ht H. apply bind_Ok in H as (host & Hh & H). unfold _process_task_facts in H.
  apply bind_Ok in H as (items & Hi & H). apply bind_Ok in H as (h & Hn & [= <-]).
  right. exists h, items. unfold event_items, event_host. rewrite H1. cbn [mbind res_bind]. rewrite H2.
  cbn [mbind res_bind]. rewrite H3. cbn [mbind res_bind]. rewrite Ht. split; [done|]. split; [|done].
  rewrite Hh. done.
Qed.

Lemma task_on_ok_stores ev cb cb' : task_on_ok ev cb = Ok cb' -> stores ev cb cb'.
Proof.
  intros H. unfold task_on_ok in H. apply bind_Ok in H as (event_data & H1 & H).
  apply bind_Ok in H as (res & H2 & H). apply bind_Ok in H as (facts & H3 & H).
  destruct (truthy facts) eqn:Ht; cbn [negb] in H; [by eapply process_stores|].
  injection H as <-. left. unfold event_items. rewrite H1. cbn [mbind res_bind]. rewrite H2.
  cbn [mbind res_bind]. rewrite H3. cbn [mbind res_bind]. by rewrite Ht.
Qed.

Lemma task_on_failed_stores ev cb cb' : task_on_failed ev cb = Ok cb' -> stores ev cb cb'.
Proof.
  intros H. unfold task_on_failed in H. apply bind_Ok in H as (event_data & H1 & H).
  apply bind_Ok in H as (host & Hh & H). apply bind_Ok in H as (res & H2 & H).
  apply bind_Ok in H as (facts & H3 & H).
  assert (vget_default event_data "res" (VDict []) = Ok res) as H2'.
  { apply vget_of_default; [done|]. by destruct res. }
  destruct (truthy facts) eqn:Ht; cbn [negb] in H.
  - destruct (vget_dict _ _ _ H3 (VDict [])) as [H3'|[-> _]]; [|done].
    eapply process_stores; [done..|]. by rewrite Hh.
  - injection H as <-. left. unfold event_items. rewrite H1. cbn [mbind res_bind]. rewrite H2'.
    cbn [mbind res_bind]. destruct (vget_dict _ _ _ H3 (VDict [])) as [H3'|[-> H3']]; rewrite H3'; cbn [mbind res_bind].
    + by rewrite Ht.
    + done.
Qed.

(** What handling an event does to the state. *)
Definition effect (ev : pyval) (cb cb' : callback) : Prop :=
  (forall host k, host_facts cb' host k =
     match last_fact k (reported ev host) with
     | Some v => Some (sanitize v)
     | None => host_facts cb host k
     end) /\
  (forall host, host ∈ dkeys (ansible_facts cb') <-> host ∈ dkeys (ansible_facts cb) \/ reported ev host <> []) /\
  (NoDup (dkeys (ansible_facts cb)) -> NoDup (dkeys (ansible_facts cb'))) /\
  (forall host, host ∈ unreachable_hosts cb' <-> host ∈ unreachable_hosts cb \/ says_unreachable ev host).

Lemma no_facts_effect ev cb cb' :
  event_in (okay ++ failed)%list ev = false -> ansible_facts cb' = ansible_facts cb ->
  (forall host, host ∈ unreachable_hosts cb' <-> host ∈ unreachable_hosts cb \/ says_unreachable ev host) ->
  effect ev cb cb'.
Proof.
  intros He Hf Hu. unfold effect, host_facts, facts_of, reported. rewrite He, Hf.
  split; [done|]. split; [naive_solver|]. done.
Qed.

Lemma stores_effect ev cb cb' : event_in (okay ++ failed)%list ev = true -> stores ev cb cb' -> effect ev cb cb'.
Proof.
  intros He [[Hi ->]|(h & items & Hi & Hh & ->)].
  - unfold effect, reported, says_unreachable. rewrite He, Hi. split; [|split; [|split; [done|naive_solver]]].
    + intros host k. destruct (event_host ev); [by case_bool_decide | done].
    + intros host. destruct (event_host ev); [case_bool_decide|]; naive_solver.
  - destruct (store_facts_spec h items cb) as (Hu & Hf & Hk & Hn). unfold effect, reported, says_unreachable.
    rewrite He, Hi, Hh. split; [|split; [|split; [done|]]].
    + intros host k. rewrite Hf. case_decide; case_bool_decide; naive_solver.
    + intros host. rewrite Hk. case_bool_decide; naive_solver.
    + intros host. rewrite Hu. naive_solver.
Qed.

(** A handled event does what it reports. *)
Lemma event_callback_spec flag ev cb cb' : event_callback flag ev cb = Ok cb' -> effect ev cb cb'.
Proof.
  unfold event_callback. destruct (getitem ev "event") as [event|e] eqn:He.
  2:{ assert (forall names, event_in names ev = false) as Hno by (intros; unfold event_in; by rewrite He).
      destruct e; try done. intros [= <-]. apply no_facts_effect; [done | done|].
      unfold says_unreachable. rewrite !Hno. naive_solver. }
  assert (event_in (okay ++ failed)%list ev = py_in event (VStr <$> okay) || py_in event (VStr <$> failed)) as Hof.
  { rewrite (event_in_split _ _ _ He), fmap_app. apply py_in_app. }
  assert (event_in unreachable ev = py_in event (VStr <$> unreachable)) as Hun by apply (event_in_split _ _ _ He).
  destruct (py_in event (VStr <$> okay)); [intros; apply stores_effect; [done | by apply task_on_ok_stores]|].
  destruct (py_in event (VStr <$> failed)); [intros; apply stores_effect; [done | by apply task_on_failed_stores]|].
  destruct (py_in event (VStr <$> unreachable)).
  - intros H. unfold task_on_unreachable in H. apply bind_Ok in H as (event_data & H1 & H).
    apply bind_Ok in H as (host & H2 & H). apply bind_Ok in H as (result & _ & H). apply bind_Ok in H as (_ & _ & H).
    apply bind_Ok in H as (h & H3 & [= <-]). apply no_facts_effect; [done | done|].
    assert (event_host ev = Ok h) as Hh by (unfold event_host; rewrite H1; cbn [mbind res_bind]; by rewrite H2).
    intros host'. unfold says_unreachable. rewrite Hof, Hun, Hh. cbn. unfold add_new.
    case_decide; rewrite ?elem_of_app, ?list_elem_of_singleton; naive_solver.
  - assert (forall h, ~ says_unreachable ev h) as Hno by (unfold says_unreachable; rewrite Hun; naive_solver).
    destruct (flag && _).
    + intros H. unfold task_on_skipped in H. repeat (apply bind_Ok in H as (? & _ & H)). injection H as <-.
      apply no_facts_effect; [done | done | naive_solver].
    + intros [= <-]. apply no_facts_effect; [done | done | naive_solver].
Qed.

Lemma last_fact_app k l1 l2 :
  last_fact k (l1 ++ l2) = match last_fact k l2 with Some v => Some v | None => last_fact k l1 end.
Proof.
  induction l1 as [|[k' v] l1 IH]; cbn; [by destruct (last_fact k l2)|]. rewrite IH. by destruct (last_fact k l2).
Qed.

Definition handle_all (flag : bool) (evs : list pyval) : Res callback :=
  foldM (fun cb ev => event_callback flag ev cb) empty_callback evs.

(** The state after a list of events. *)
Lemma handle_all_spec flag evs cb :
  handle_all flag evs = Ok cb ->
  (forall host k, host_facts cb host k = sanitize <$> last_reported evs host k) /\
  (forall host, host ∈ dkeys (ansible_facts cb) <-> exists ev, ev ∈ evs /\ reported ev host <> []) /\
  NoDup (dkeys (ansible_facts cb)) /\
  (forall host, host ∈ unreachable_hosts cb <-> exists ev, ev ∈ evs /\ says_unreachable ev host).
Proof.
  revert cb. unfold handle_all. induction evs as [|ev evs IH] using rev_ind; intros cb.
  { intros [= <-]. split; [done|]. split; [|split; [constructor|]];
      intros host; cbn; setoid_rewrite elem_of_nil; naive_solver. }
  rewrite foldM_app. intros (cb0 & H0 & H)%bind_Ok. cbn in H. apply bind_Ok in H as (cb1 & H & [= <-]).
  destruct (IH _ H0) as (Hf & Hk & Hn & Hu). destruct (event_callback_spec _ _ _ _ H) as (Hf' & Hk' & Hn' & Hu').
  split; [|split; [|split]].
  - intros host k. rewrite Hf', Hf. unfold last_reported. rewrite bind_app, last_fact_app. cbn. rewrite app_nil_r.
    by destruct (last_fact k (reported ev host)).
  - intros host. rewrite Hk', Hk. setoid_rewrite elem_of_app. setoid_rewrite list_elem_of_singleton. naive_solver.
  - auto.
  - intros host. rewrite Hu', Hu. setoid_rewrite elem_of_app. setoid_rewrite list_elem_of_singleton. naive_solver.
Qed.

(** The results of an inspection say what the events said: one result for each
    host about which a task reported a fact, each fact with the last value
    reported, sanitized; the host is unreachable when some event said so, even if
    it was scanned completely; otherwise its scan succeeded exactly when the last
    fact of the playbook is true. *)
Theorem inspect_results_spec flag evs cb :
  handle_all flag evs = Ok cb ->
  NoDup (ar_host <$> iter_results cb) /\
  (forall host, host ∈ (ar_host <$> iter_results cb) <-> exists ev, ev ∈ evs /\ reported ev host <> []) /\
  forall r, r ∈ iter_results cb ->
    let unreachable := exists ev, ev ∈ evs /\ says_unreachable ev (ar_host r) in
    (forall k, dget k (ar_facts r) = sanitize <$> last_reported evs (ar_host r) k) /\
    (ar_status r = UNREACHABLE <-> unreachable) /\
    (ar_status r = SUCCESS <-> ~ unreachable /\ last_reported evs (ar_host r) HOST_DONE = Some (VBool true)).
Proof.
  intros H. destruct (handle_all_spec _ _ _ H) as (Hf & Hk & Hn & Hu).
  assert ((ar_host <$> iter_results cb) = dkeys (ansible_facts cb)) as Hkeys
    by (unfold iter_results; by rewrite <- list_fmap_compose).
  rewrite Hkeys. split; [done|]. split; [done|].
  intros r Hr. cbv zeta. unfold iter_results in Hr. apply list_elem_of_fmap in Hr as ([host facts] & -> & Hin). cbn.
  assert (forall k, dget k facts = sanitize <$> last_reported evs host k) as Hfacts.
  { intros k. rewrite <- Hf. unfold host_facts, facts_of. by rewrite (dget_NoDup host facts). }
  split; [done|]. unfold status_of. rewrite <- Hu. rewrite (Hfacts HOST_DONE).
  assert (forall v, sanitize v = VBool true <-> v = VBool true) as Hs
    by (intros []; split; intros Hv; try done; by injection Hv as ->).
  case_decide as Hd; [naive_solver|].
  destruct (last_reported evs host HOST_DONE) as [v|]; cbn [fmap option_fmap option_map default id]; [|naive_solver].
  specialize (Hs v). split; [destruct (sanitize v) as [|[]| | | | | | | |]; naive_solver|].
  split; [|naive_solver]. intros He. split; [done|]. f_equal. apply Hs.
  by destruct (sanitize v) as [|[]| | | | | | | |].
Qed.

Definition ok_event (host : string) (facts : pydict) : pyval :=
  VDict [("event", VStr "runner_on_ok");
         ("event_data", VDict [("host", VStr host); ("res", VDict [("ansible_facts", VDict facts)])])].

Definition sample_events : list pyval :=
  [VDict []; ok_event "h" [("uname", VStr "old"); ("cpu_count", VInt 2)];
   ok_event "h" [("uname", VStr "new")]; ok_event "h" [(HOST_DONE, VBool true)]].

Lemma inspect_results_spec_witness :
  exists cb r, handle_all true sample_events = Ok cb /\ r ∈ iter_results cb /\
    ar_status r = SUCCESS /\ dget "uname" (ar_facts r) = Some (VStr "new").
Proof.
  destruct (handle_all true sample_events) as [cb|] eqn:H; [|vm_compute in H; discriminate H].
  destruct (inspect_results_spec true sample_events cb H) as (_ & Hh & Hr).
  assert ("h" ∈ (ar_host <$> iter_results cb)) as Hin.
  { apply Hh. exists (ok_event "h" [(HOST_DONE, VBool true)]). split; [|vm_compute; discriminate].
    do 3 right. left. }
  apply list_elem_of_fmap in Hin as (r & Hhost & Hin). destruct (Hr r Hin) as (Hf & _ & Hs).
  exists cb, r. split; [reflexivity|]. split; [exact Hin|]. rewrite <- Hhost in Hf, Hs. split.
  - apply Hs. split; [|vm_compute; reflexivity]. intros (ev & Hev & _ & Hu & _).
    unfold sample_events in Hev. rewrite !elem_of_cons, elem_of_nil in Hev.
    destruct Hev as [->|[->|[->|[->|[]]]]]; vm_compute in Hu; discriminate Hu.
  - rewrite Hf. vm_compute. reflexivity.
Defined.
