(* ===== verification/ApiCommon.v ===== *)
(** What the views share: [api/common/util.py], [utils/get_from_object_or_dict.py],
    the mixin of [api/common/serializer.py] that leaves out what is empty, and the bulk deletions of credentials ([api/credential/model.py]) and sources
    ([api/source/view.py]).

    A table is a [gmap] from primary keys to rows; a many-to-many relation is the
    list of its links. *)
From stdpp Require Import base gmap sets list strings sorting.
From Stdlib Require Import Ascii ZArith Lia.
From S2P Require Import Prelude PyStr PyNum PyVal.

Open Scope string_scope.
Open Scope Z_scope.

(** [ValidationError(message)] and [ValidationError({field: [message]})]; a bare
    message has the empty field. *)
Definition invalid (message : string) : exn := ValidationError [("", [message])].
Definition invalid_field (field message : string) : exn := ValidationError [(field, [message])].

(** [getattr(instance, key, None) or dict_obj.get(key)]; no instance is [[]]. *)
Definition get_from_object_or_dict (instance dict_obj : pydict) (key : string) : pyval :=
  py_or (dget_none key instance) (dget_none key dict_obj).

(** ** Names *)

Section names.
Context {row : Type} (name_of : row -> string).

(** [queryset.filter(name=name).exclude(id=search_id).first() is not None] *)
Definition name_taken (queryset : gmap Z row) (name : pyval) (search_id : option Z) : bool :=
  match name with
  | VStr n => existsb (fun '(i, r) => bool_decide (name_of r = n) && bool_decide (Some i <> search_id))
                      (map_to_list queryset)
  | _ => false
  end.

Definition check_for_existing_name (queryset : gmap Z row) (name : pyval) (error_message : string)
    (search_id : option Z) : Res unit :=
  if name_taken queryset name search_id then Err (invalid_field "name" error_message) else Ok tt.

(** The [unique=True] of the [name] columns. *)
Definition unique_names (rows : gmap Z row) : Prop :=
  forall i j r s, rows !! i = Some r -> rows !! j = Some s -> name_of r = name_of s -> i = j.

Lemma name_taken_spec queryset name search_id :
  name_taken queryset name search_id = true <->
  exists i r, queryset !! i = Some r /\ name = VStr (name_of r) /\ Some i <> search_id.
Proof.
  destruct name; cbn [name_taken]; try (split; [done | by intros (? & ? & _ & [=] & _)]).
  rewrite existsb_exists. split.
  - intros ([i r] & Hin%list_elem_of_In & [Hn Hi]%andb_prop).
    apply elem_of_map_to_list in Hin. apply bool_decide_eq_true in Hn, Hi. exists i, r. by subst.
  - intros (i & r & Hr & [= ->] & Hi). exists (i, r). split.
    + by apply list_elem_of_In, elem_of_map_to_list.
    + by rewrite !bool_decide_eq_true_2.
Qed.

(** A row stored after the check keeps the names unique. *)
Lemma unique_names_insert rows k r :
  unique_names rows ->
  (forall i s, rows !! i = Some s -> name_of s = name_of r -> i = k) ->
  unique_names (<[k := r]> rows).
Proof.
  intros Hu Hk i j x y Hx Hy Hn. apply lookup_insert_Some in Hx, Hy.
  destruct Hx as [[<- <-]|[Hi Hx]]; destruct Hy as [[<- <-]|[Hj Hy]]; eauto. symmetry; eauto.
Qed.

Lemma check_name_free queryset n message search_id u :
  check_for_existing_name queryset (VStr n) message search_id = Ok u ->
  forall i s, queryset !! i = Some s -> name_of s = n -> Some i = search_id.
Proof.
  unfold check_for_existing_name. destruct (name_taken _ _ _) eqn:Hf; [done|]. intros _ i s Hs Hn.
  destruct (decide (Some i = search_id)) as [|He]; [done|].
  assert (name_taken queryset (VStr n) search_id = true); [|congruence].
  apply name_taken_spec. exists i, s. by subst.
Qed.
End names.

(** ** Identifiers *)

Inductive ids_arg := AllIds | Ids (ids : gset Z).

Definition ALL_IDS_MAGIC_STRING : string := "all".

Definition as_int (v : pyval) : option Z :=
  match v with VInt z => Some z | VBool b => Some (b2z b) | _ => None end.

Definition set_of_ids_or_all_str (ids : pyval) : Res ids_arg :=
  match ids with
  | VStr s => if bool_decide (s = ALL_IDS_MAGIC_STRING) then Ok AllIds else Err ParseError
  | VList [] => Err ParseError
  | VList l => match mapM as_int l with Some zs => Ok (Ids (list_to_set zs)) | None => Err ParseError end
  | _ => Err ParseError
  end.

(** ** [NotEmptyMixin] *)

Definition not_empty (qpc_allow_empty_fields : list string) (result : pydict) : pydict :=
  List.filter (fun '(key, v) => bool_decide (key ∈ qpc_allow_empty_fields) || is_int_inst v || truthy v) result.

(** ** Bulk deletion

    [credential_bulk_delete_ids] and [SourceViewSet.bulk_delete] are the same
    code on credentials and their sources, and on sources and their scans. *)

Definition sorted_ids (s : gset Z) : list Z := merge_sort Z.le (elements s).

(** [itertools.groupby(pairs, key=lambda c: c[0])] *)
Fixpoint groupby (pairs : list (Z * Z)) : list (Z * list Z) :=
  match pairs with
  | [] => []
  | (k, x) :: pairs =>
      match groupby pairs with
      | (k', g) :: groups => if decide (k = k') then (k, x :: g) :: groups
                             else (k, [x]) :: (k', g) :: groups
      | [] => [(k, [x])]
      end
  end.

Record bulk_result := mkbulk {
  deleted : gset Z;
  missing : gset Z;
  skipped : list (Z * list Z) }.

Section bulk.
Context {row : Type}.

(** [links]: the pairs (row, user) of the relation that protects a row. *)
Definition users (links : list (Z * Z)) (i : Z) : list Z :=
  (List.filter (fun l => bool_decide (l.1 = i)) links).*2.

Definition selected (ids : ids_arg) (rows : gmap Z row) : gset Z :=
  match ids with AllIds => dom rows | Ids s => dom rows ∩ s end.

Definition with_users (links : list (Z * Z)) (found : gset Z) : list (Z * Z) :=
  concat ((fun i => (fun u => (i, u)) <$> users links i) <$> sorted_ids found).

Definition bulk_delete_ids (ids : ids_arg) (links : list (Z * Z)) (rows : gmap Z row) :
    gmap Z row * bulk_result :=
  let requested := match ids with AllIds => ∅ | Ids s => s end in
  let found := selected ids rows in
  let unused := filter (fun i => users links i = []) found in
  let rows' := filter (fun p => p.1 ∉ unused) rows in
  let skipped := groupby (with_users links found) in
  (rows', mkbulk (found ∖ list_to_set skipped.*1) (requested ∖ found) skipped).
End bulk.

(** ** Files *)

(** [Path(p).is_absolute()] *)
Definition check_path_validity (path_list : list string) : list string :=
  List.filter (fun p => negb (str_startswith "/" p)) path_list.

(** [Path(filename).name] *)
Definition path_name (filename : string) : string :=
  default "" (last (List.filter (fun p => negb (bool_decide (p = "" \/ p = "."))) (str_split "/" filename))).

(** The stem and the suffix without its dot, as [PurePath] splits the name. *)
Definition split_filename (filename : string) : string * option string :=
  let name := path_name filename in
  match split_last "." name with
  | Some (stem, ext) => if bool_decide (stem <> "" /\ ext <> "") then (stem, Some ext) else (name, None)
  | None => (name, None)
  end.

(** ** What bulk deletion does *)

Lemma groupby_block i us ps :
  (forall k g gs, groupby ps = (k, g) :: gs -> k <> i) ->
  groupby (((fun u => (i, u)) <$> us) ++ ps)%list =
  ((if decide (us = []) then [] else [(i, us)]) ++ groupby ps)%list.
Proof.
  intros Hp. induction us as [|u us IH]; [done|]. cbn [fmap list_fmap app groupby]. rewrite IH.
  rewrite (decide_False (P := u :: us = [])) by done. destruct us as [|u' us].
  - rewrite decide_True by done. cbn [app]. destruct (groupby ps) as [|[k g] gs]; [done|].
    by rewrite decide_False by (intros ->; by eapply Hp).
  - rewrite decide_False by done. cbn [app]. by rewrite decide_True.
Qed.

Lemma groupby_blocks (us : Z -> list Z) ids :
  NoDup ids ->
  groupby (concat ((fun i => (fun u => (i, u)) <$> us i) <$> ids)) =
  (fun i => (i, us i)) <$> filter (fun i => us i <> []) ids.
Proof.
  induction 1 as [|i ids Hi Hn IH]; [done|]. cbn [fmap list_fmap concat].
  rewrite groupby_block, IH.
  - rewrite filter_cons. by destruct (decide (us i = [])), (decide (us i <> [])).
  - intros k g gs. rewrite IH. intros Hk ->. destruct Hi.
    assert (Hin : (i, g) ∈ (fun j => (j, us j)) <$> filter (fun j => us j <> []) ids)
      by (rewrite Hk; left).
    apply list_elem_of_fmap in Hin as (j & [= <- _] & Hj). by apply list_elem_of_filter in Hj as [_ Hj].
Qed.

Lemma elem_of_sorted_ids s i : i ∈ sorted_ids s <-> i ∈ s.
Proof. unfold sorted_ids. by rewrite merge_sort_Permutation, elem_of_elements. Qed.

Lemma NoDup_sorted_ids s : NoDup (sorted_ids s).
Proof. unfold sorted_ids. rewrite merge_sort_Permutation. apply NoDup_elements. Qed.

Lemma skipped_spec links found :
  groupby (with_users links found) =
  (fun i => (i, users links i)) <$> filter (fun i => users links i <> []) (sorted_ids found).
Proof. apply groupby_blocks, NoDup_sorted_ids. Qed.

Lemma elem_of_users links i u : u ∈ users links i <-> (i, u) ∈ links.
Proof.
  unfold users. rewrite list_elem_of_fmap. setoid_rewrite elem_of_List_filter. split.
  - intros ([j v] & -> & Hin & Hj%bool_decide_eq_true). cbn in *. by subst.
  - intros Hin. exists (i, u). by rewrite bool_decide_eq_true_2.
Qed.

(** Bulk deletion of credentials or sources: the identifiers found split into
    the deleted ones, which nobody uses, and the skipped ones, each with exactly its
    users; exactly the deleted rows leave the table, so that no link is left
    dangling; and the missing identifiers are those requested without a row. *)
Theorem bulk_delete_spec {row} ids links (rows : gmap Z row) :
  let '(rows', r) := bulk_delete_ids ids links rows in
  let skipped_ids := list_to_set (skipped r).*1 : gset Z in
  deleted r ∪ skipped_ids = selected ids rows /\ deleted r ## skipped_ids /\
  (forall i, i ∈ deleted r <-> i ∈ selected ids rows /\ users links i = []) /\
  (forall i us, (i, us) ∈ skipped r <-> i ∈ selected ids rows /\ us = users links i /\ us <> []) /\
  (forall i, rows' !! i = if decide (i ∈ deleted r) then None else rows !! i) /\
  (forall i u, (i, u) ∈ links -> is_Some (rows !! i) -> is_Some (rows' !! i)) /\
  missing r = match ids with AllIds => ∅ | Ids s => s ∖ dom rows end.
Proof.
  unfold bulk_delete_ids. cbn [deleted missing skipped]. rewrite skipped_spec.
  set (found := selected ids rows).
  assert (Hs : forall i, i ∈ (list_to_set ((fun i => (i, users links i)) <$>
      filter (fun i => users links i <> []) (sorted_ids found)).*1 : gset Z) <->
      i ∈ found /\ users links i <> []).
  { intros i. rewrite elem_of_list_to_set, <-list_fmap_compose, list_fmap_id, list_elem_of_filter,
      elem_of_sorted_ids. tauto. }
  set (sk := list_to_set _) in *.
  assert (Hd : forall i, i ∈ found ∖ sk <-> i ∈ found /\ users links i = []).
  { intros i. rewrite elem_of_difference, Hs. destruct (decide (users links i = [])); tauto. }
  assert (Hr : forall i, filter (fun p => p.1 ∉ filter (fun i => users links i = []) found) rows !! i
      = if decide (i ∈ found ∖ sk) then None else rows !! i).
  { intros i. apply option_eq. intros x. rewrite map_lookup_filter_Some, elem_of_filter. cbn [fst].
    destruct (decide _) as [Hi|Hi]; rewrite Hd in Hi; [naive_solver | tauto]. }
  repeat apply conj.
  - apply set_eq. intros i. rewrite elem_of_union, Hd, Hs.
    destruct (decide (users links i = [])); tauto.
  - set_solver.
  - done.
  - intros i us. rewrite list_elem_of_fmap. setoid_rewrite list_elem_of_filter.
    setoid_rewrite elem_of_sorted_ids. naive_solver.
  - done.
  - intros i u Hl Hi. rewrite Hr, decide_False; [done|]. rewrite Hd. intros [_ Hu].
    apply elem_of_users in Hl. by rewrite Hu, elem_of_nil in Hl.
  - unfold found, selected. destruct ids; set_solver.
Qed.

Example bulk_delete_example :
  let '(rows, r) := bulk_delete_ids (Ids {[1; 2; 9]}) [(2, 5); (2, 6); (3, 5)]
                      ({[1 := "a"; 2 := "b"; 3 := "c"]} : gmap Z string) in
  rows = {[2 := "b"; 3 := "c"]} /\ deleted r = {[1]} /\ missing r = {[9]} /\ skipped r = [(2, [5; 6])].
Proof. vm_compute. done. Qed.

(** [split_filename] takes the name apart at its last dot and loses nothing. *)
Lemma split_last_join sep s a b : split_last sep s = Some (a, b) -> s = a +:+ sep +:+ b.
Proof.
  revert a b. induction s as [|c s IH]; intros a b; cbn [split_last].
  - destruct sep; cbn; [by intros [= <- <-] | done].
  - destruct (split_last sep s) as [[x y]|] eqn:Hs.
    + intros [= <- <-]. cbn. by rewrite (IH x y).
    + destruct (String.prefix sep (String c s)) eqn:Hp; [|done]. intros [= <- <-].
      apply prefix_app in Hp as (t & Ht). rewrite Ht, drop_append. done.
Qed.

Lemma split_filename_spec filename :
  let '(stem, ext) := split_filename filename in
  path_name filename = match ext with Some e => stem +:+ "." +:+ e | None => stem end.
Proof.
  unfold split_filename. destruct (split_last "." (path_name filename)) as [[a b]|] eqn:Hs; [|done].
  case_bool_decide; [|done]. by apply split_last_join in Hs.
Qed.

Example split_filename_examples :
  split_filename "hello" = ("hello", None) /\ split_filename "hello.txt" = ("hello", Some "txt") /\
  split_filename "hello.world.txt" = ("hello.world", Some "txt") /\
  split_filename "/a/.profile" = (".profile", None).
Proof. vm_compute. done. Qed.
