(* ===== verification/Users.v ===== *)
(** Users and settings: [quipucords/user.py], [quipucords/featureflag.py],
    [api/user/], [api/status/model.py] and the command [create_or_update_user].

    The password hasher, the validators and the random generator of the framework
    are parameters. *)
From stdpp Require Import base gmap sets list strings sorting.
From Stdlib Require Import Ascii ZArith Lia.
From S2P Require Import Prelude PyStr PyNum PyVal ApiCommon.

Open Scope string_scope.
Open Scope Z_scope.

(** ** Users *)

Record user := mkuser { username : string; email : string; password : string; is_active : bool }.

(** [authtoken]'s rows, by their key. *)
Record auth_token := mkauth { t_user : Z; t_created : Z }.

Record store := mkstore { u_rows : gmap Z user; u_next : Z; u_tokens : gmap string auth_token }.

Definition InvalidPasswordError : exn := OtherException "InvalidPasswordError".

(** The users of a name, in the order of the keys. *)
Definition named (name : string) (st : store) : list (Z * user) :=
  omap (fun i => u ← u_rows st !! i; if bool_decide (username u = name) then Some (i, u) else None)
    (sorted_ids (dom (u_rows st))).

(** [User.objects.exclude(username=username).delete()], with the tokens of the users
    that go. *)
Definition delete_others (name : string) (st : store) : store :=
  let rows := filter (fun p => username p.2 = name) (u_rows st) in
  mkstore rows (u_next st) (filter (fun p => t_user p.2 ∈ dom rows) (u_tokens st)).

Section users.
(** [accepts password user]: the validators, for a user if there is one. *)
Context (accepts : string -> option user -> bool) (set_password : string -> string).

Definition validate_password (p : string) (u : option user) : Res unit :=
  if accepts p u then Ok tt else Err InvalidPasswordError.

Definition update_password (i : Z) (u : user) (p : string) (st : store) : Res store :=
  _ ← validate_password p (Some u);
  Ok (mkstore (<[i := mkuser (username u) (email u) (set_password p) (is_active u)]> (u_rows st)) (u_next st) (u_tokens st)).

(** A new user has no password that opens the account. *)
Definition get_or_create (name mail : string) (st : store) : Z * user * bool * store :=
  match named name st with
  | (i, u) :: _ => (i, u, false, st)
  | [] => let u := mkuser name mail "" true in
          (u_next st, u, true, mkstore (<[u_next st := u]> (u_rows st)) (u_next st + 1) (u_tokens st))
  end.

(** [random] is what [make_random_password] gives.  An exception leaves the table as
    it was. *)
Definition create_or_update_user (random name mail : string) (given : option string) (st : store) :
    Res (store * (bool * bool * option string)) :=
  let rejected := match given with
                  | Some p => negb (bool_decide (p = "")) && negb (is_ok (validate_password p None))
                  | None => false
                  end in
  let '(i, u, created, st) := get_or_create name mail (delete_others name st) in
  let updated := negb created && bool_decide (given <> None) in
  let generate := rejected || (created && bool_decide (given = None)) in
  let p := if generate then Some random else given in
  st ← (if created || updated then
          match p with Some p => update_password i u p st | None => Err TypeError end
        else Ok st);
  Ok (st, (created, updated, if generate then p else None)).

(** *** The command *)

Definition DEFAULT_USERNAME : string := "admin".
Definition DEFAULT_EMAIL : string := "admin@example.com".

(** What [handle] writes: a warning and a message. *)
Definition handle (random : string) (environ : list (string * string)) (st : store) :
    Res (store * list string) :=
  let name := default DEFAULT_USERNAME (dget "QUIPUCORDS_SERVER_USERNAME" environ) in
  let mail := default DEFAULT_EMAIL (dget "QUIPUCORDS_SERVER_USER_EMAIL" environ) in
  let given := dget "QUIPUCORDS_SERVER_PASSWORD" environ in
  '(st, (created, updated, generated)) ← create_or_update_user random name mail given st;
  if (created || updated : bool) then
    let warning :=
      match given, generated with
      | Some p, Some g => if bool_decide (p <> "" /\ g <> "" /\ p <> g) then
          ["QUIPUCORDS_SERVER_PASSWORD value failed password requirements. Using a randomly generated password instead."]
          else []
      | _, _ => []
      end in
    let verb := if (created : bool) then "Created" else "Updated" in
    let description := match generated with
                       | Some g => if bool_decide (g <> "") then "random password: " +:+ g
                                   else "password from QUIPUCORDS_SERVER_PASSWORD"
                       | None => "password from QUIPUCORDS_SERVER_PASSWORD"
                       end in
    Ok (st, (warning ++ [verb +:+ " user '" +:+ name +:+ "' with " +:+ description])%list)
  else Ok (st, ["User '" +:+ name +:+ "' already exists and was not updated."]).

(** ** Theorems: one user *)

Definition wf_users (st : store) : Prop :=
  (forall i j u v, u_rows st !! i = Some u -> u_rows st !! j = Some v -> username u = username v -> i = j) /\
  (forall i u, u_rows st !! i = Some u -> i < u_next st).

Lemma named_elem name st i u : (i, u) ∈ named name st <-> u_rows st !! i = Some u /\ username u = name.
Proof.
  unfold named. rewrite list_elem_of_omap. split.
  - intros (j & _ & H). destruct (u_rows st !! j) as [v|] eqn:Hv; [|done]. cbn in H.
    case_bool_decide; [|done]. by injection H as <- <-.
  - intros [Hu Hn]. exists i. rewrite Hu. cbn. rewrite bool_decide_true by done. split; [|done].
    unfold sorted_ids. rewrite merge_sort_Permutation, elem_of_elements, elem_of_dom. eauto.
Qed.

(** What [get_or_create] finds or makes is the only row. *)
Lemma get_or_create_spec name mail st i u created st' : wf_users st ->
  get_or_create name mail (delete_others name st) = (i, u, created, st') ->
  username u = name /\ u_rows st' = {[ i := u ]} /\
  if created then forall j v, u_rows st !! j = Some v -> username v <> name else u_rows st !! i = Some u.
Proof.
  intros [Hu Hn]. unfold get_or_create. destruct (named name (delete_others name st)) as [|[j v] l] eqn:Hl; intros [= <- <- <- <-].
  - assert (forall j v, u_rows st !! j = Some v -> username v <> name) as Hno.
    { intros j v Hv Hname. assert ((j, v) ∈ named name (delete_others name st)) as Hin.
      { apply named_elem. split; [|done]. cbn. by apply map_lookup_filter_Some. }
      rewrite Hl in Hin. by apply elem_of_nil in Hin. }
    split; [done|]. split; [|done]. cbn. apply map_eq. intros j. destruct (decide (j = u_next st)) as [->|Hj].
    + by rewrite lookup_insert_eq, lookup_singleton_eq.
    + rewrite lookup_insert_ne, lookup_singleton_ne by done. apply map_lookup_filter_None. right. intros v Hv. by apply (Hno j v).
  - assert ((j, v) ∈ named name (delete_others name st)) as [Hv Hname]%named_elem by (rewrite Hl; by left).
    cbn in Hv. apply map_lookup_filter_Some in Hv as [Hv _]. split_and!; [done| |done]. cbn.
    apply map_eq. intros k. destruct (decide (k = j)) as [->|Hk].
    + rewrite lookup_singleton_eq. by apply map_lookup_filter_Some.
    + rewrite lookup_singleton_ne by done. apply map_lookup_filter_None. right. intros w Hw Hwn. cbn in Hwn.
      apply Hk. apply (Hu k j w v); [done..|congruence].
Qed.

(** [C40] The command for the server's account leaves one user, with the name asked
    for.  A user that was there keeps password and account unless a password is
    given; when the account is created or updated, the password that opens it is the
    one returned, or else the one given, and the validators accept it.  With a
    password given that is not empty nothing but the validators' refusal of the
    chosen password can stop it. *)
Theorem create_or_update_user_spec random name mail given st : wf_users st ->
  match create_or_update_user random name mail given st with
  | Ok (st', (created, updated, shown)) =>
      exists i u, u_rows st' = {[ i := u ]} /\ username u = name /\
        (created = true <-> forall j v, u_rows st !! j = Some v -> username v <> name) /\
        (updated = true <-> created = false /\ given <> None) /\
        if created || updated then
          exists p v, password u = set_password p /\ accepts p (Some v) = true /\ username v = name /\
            match shown with Some s => p = s | None => given = Some p end
        else given = None /\ shown = None /\ u_rows st !! i = Some u
  | Err e => e = InvalidPasswordError /\ exists p v, accepts p (Some v) = false /\ username v = name /\
      (p = random \/ given = Some p)
  end.
Proof.
  intros W. unfold create_or_update_user. set (rejected := match given with Some _ => _ | None => false end).
  destruct (get_or_create name mail (delete_others name st)) as [[[i u] created] st1] eqn:Hg.
  apply get_or_create_spec in Hg as (Hname & Hrows & Hcase); [|done].
  assert (created = true <-> forall j v, u_rows st !! j = Some v -> username v <> name) as Hcreated.
  { destruct created; [done|]. split; [done|]. intros H. by destruct (H i u Hcase). }
  set (updated := negb created && _). set (generate := rejected || _). cbv zeta.
  assert (updated = true <-> created = false /\ given <> None) as Hupdated.
  { unfold updated. by rewrite andb_true_iff, negb_true_iff, bool_decide_eq_true. }
  destruct (created || updated) eqn:Hcu.
  - assert (exists p, (if generate then Some random else given) = Some p) as [p Hp].
    { destruct generate eqn:Hgen; [by eexists|]. destruct given as [p|]; [by exists p|]. exfalso.
      unfold generate, updated in *. destruct created; [by rewrite bool_decide_true, orb_true_r in Hgen|].
      by rewrite bool_decide_false in Hcu. }
    rewrite Hp. unfold update_password, validate_password. destruct (accepts p (Some u)) eqn:Ha; cbn.
    + exists i, (mkuser (username u) (email u) (set_password p) (is_active u)). rewrite Hrows, insert_singleton_eq.
      do 4 (split; [done|]). rewrite Hcu. exists p, u. do 3 (split; [done|]).
      destruct generate; [congruence | done].
    + split; [done|]. exists p, u. do 2 (split; [done|]). destruct generate; [left; congruence | by right].
  - cbn. exists i, u. do 4 (split; [done|]). rewrite Hcu. apply orb_false_iff in Hcu as [-> Hup].
    assert (given = None) as ->.
    { destruct given; [|done]. unfold updated in Hup. by rewrite bool_decide_true in Hup. }
    unfold generate, rejected. by split_and!.
Qed.
End users.

(** ** Authentication by token *)

Section tokens.
Context (EXPIRE_HOURS : Z).

Definition AuthenticationFailed (message : string) : exn := OtherException ("AuthenticationFailed: " +:+ message).

Definition expired (now : Z) (t : auth_token) : bool := t_created t <? now - EXPIRE_HOURS * 3600.

(** A token belongs to a user that exists: the foreign key sees to it. *)
Definition authenticate_credentials (now : Z) (key : string) (st : store) : Res (Z * auth_token) :=
  match u_tokens st !! key with
  | None => Err (AuthenticationFailed "Invalid token")
  | Some t =>
      match u_rows st !! t_user t with
      | None => Err DoesNotExist
      | Some u =>
          if negb (is_active u) then Err (AuthenticationFailed "User inactive or deleted")
          else if expired now t then Err (AuthenticationFailed "Token has expired")
          else Ok (t_user t, t)
      end
  end.

(** [Token.objects.get_or_create(user=user)]; [key1] and [key2] are the random keys
    of the tokens it and [create] make. *)
Definition token_of (i : Z) (st : store) : option (string * auth_token) :=
  head (List.filter (fun p => bool_decide (t_user p.2 = i)) (map_to_list (u_tokens st))).

Definition set_tokens (m : gmap string auth_token) (st : store) : store := mkstore (u_rows st) (u_next st) m.

Definition obtain (now : Z) (key1 key2 : string) (i : Z) (st : store) : store * string :=
  match token_of i st with
  | None => (set_tokens (<[key1 := mkauth i now]> (u_tokens st)) st, key1)
  | Some (key, t) =>
      if expired now t
      then (set_tokens (<[key2 := mkauth i now]> (delete key (u_tokens st))) st, key2)
      else (st, key)
  end.

(** [UserViewSet.logout] *)
Definition logout (i : Z) (st : store) : store :=
  set_tokens (filter (fun p => t_user p.2 <> i) (u_tokens st)) st.

Lemma token_of_elem i st key t : token_of i st = Some (key, t) -> u_tokens st !! key = Some t /\ t_user t = i.
Proof.
  unfold token_of. intros H%head_Some_elem_of%list_elem_of_In. apply filter_In in H as [Hin Hi].
  apply list_elem_of_In, elem_of_map_to_list in Hin. by apply bool_decide_eq_true in Hi.
Qed.

(** The token that a login hands out opens the account for as long as a token
    lives, counted from its creation, unless the user logs out or is deleted. *)
Lemma obtained_token_works now key1 key2 i st u st' key : 0 <= EXPIRE_HOURS ->
  u_rows st !! i = Some u -> is_active u = true -> obtain now key1 key2 i st = (st', key) ->
  exists t, authenticate_credentials now key st' = Ok (i, t) /\
    forall later, t_created t <= later - EXPIRE_HOURS * 3600 \/ authenticate_credentials later key st' = Ok (i, t).
Proof.
  intros He Hu Ha Ho.
  assert (exists t, u_tokens st' !! key = Some t /\ t_user t = i /\ expired now t = false /\ u_rows st' = u_rows st)
    as (t & Ht & Hi & Hx & Hr).
  { unfold obtain in Ho. destruct (token_of i st) as [[k t]|] eqn:Ht.
    - apply token_of_elem in Ht as [Hk Hi]. destruct (expired now t) eqn:Hx; injection Ho as <- <-; [|by exists t].
      exists (mkauth i now). cbn. rewrite lookup_insert_eq. split_and!; [done..| |done]. unfold expired. cbn. lia.
    - injection Ho as <- <-. exists (mkauth i now). cbn. rewrite lookup_insert_eq. split_and!; [done..| |done].
      unfold expired. cbn. lia. }
  exists t. unfold authenticate_credentials. rewrite Ht, Hi, Hr, Hu, Ha, Hx. cbn [negb]. split; [done|].
  intros later. destruct (expired later t) eqn:E; [|by right]. left. unfold expired in E. lia.
Qed.

Lemma logout_closes now i st key t : authenticate_credentials now key (logout i st) <> Ok (i, t).
Proof.
  unfold authenticate_credentials. cbn. destruct (filter _ _ !! key) as [t'|] eqn:H; [|done].
  apply map_lookup_filter_Some in H as [_ Hn]. cbn in Hn. repeat case_match; congruence.
Qed.
End tokens.

(** ** The server's identifier *)

(** [ServerInformation.create_or_retrieve_server_id]: the rows in their order. *)
Definition create_or_retrieve_server_id (uuid : string) (rows : list string) : list string * string :=
  match rows with
  | [] => ([uuid], uuid)
  | server_info :: _ => (rows, server_info)
  end.

(** Once there is an identifier it stays. *)
Lemma server_id_stable uuid1 uuid2 rows :
  let '(rows', id) := create_or_retrieve_server_id uuid1 rows in
  create_or_retrieve_server_id uuid2 rows' = (rows', id).
Proof. by destruct rows. Qed.

(** ** Feature flags *)

Module Flags.
Definition DEFAULT_FEATURE_FLAGS_VALUES : list (string * bool) :=
  [("OCP_WORKLOADS", false); ("REPORT_SKIPPED_TASKS", false)].

Definition VALID_VALUES_FOR_ENV_VARIABLES : list string := ["0"; "1"].

Definition upper_char (c : ascii) : ascii :=
  if (97 <=? code c)%N && (code c <=? 122)%N then ascii_of_N (code c - 32) else c.
Definition str_upper : string -> string := str_map upper_char.

Definition PREFIX : string := "QUIPUCORDS_FEATURE_".

Definition flag_step (feature_flags : list (string * bool)) (v : string * string) : Res (list (string * bool)) :=
  let '(key, value) := v in
  if str_startswith PREFIX (str_upper key) then
    let feature_name := str_replace PREFIX "" (str_upper key) in
    let feature_value := str_strip value in
    if bool_decide (feature_value ∈ VALID_VALUES_FOR_ENV_VARIABLES)
    then Ok (dset feature_name (bool_decide (feature_value = "1")) feature_flags)
    else Err ValueError
  else Ok feature_flags.

Definition get_feature_flags_from_env (environ : list (string * string)) : Res (list (string * bool)) :=
  foldM flag_step DEFAULT_FEATURE_FLAGS_VALUES environ.

(** For a name that is not an attribute of the object itself. *)
Definition is_feature_active (feature_flags : list (string * bool)) (feature_name : string) : Res bool :=
  from_option ValueError (dget feature_name feature_flags).

(** The variables of a feature. *)
Definition sets (name : string) (v : string * string) : bool :=
  str_startswith PREFIX (str_upper v.1) && bool_decide (str_replace PREFIX "" (str_upper v.1) = name).

(** The value of a feature is that of the last of its variables, or its default. *)
Lemma flags_spec environ flags name : get_feature_flags_from_env environ = Ok flags ->
  dget name flags =
    match last (List.filter (sets name) environ) with
    | Some v => Some (bool_decide (str_strip v.2 = "1"))
    | None => dget name DEFAULT_FEATURE_FLAGS_VALUES
    end.
Proof.
  unfold get_feature_flags_from_env. generalize DEFAULT_FEATURE_FLAGS_VALUES as d.
  induction environ as [|[key value] environ IH]; intros d; cbn [foldM]; [by intros [= <-]|].
  intros (d1 & H1 & H2)%bind_Ok. rewrite (IH d1 H2). cbn [List.filter]. unfold flag_step in H1.
  destruct (str_startswith PREFIX (str_upper key)) eqn:Hp; unfold sets at 2; cbn [fst]; rewrite Hp; cbn [andb].
  - destruct (bool_decide (_ ∈ _)) in H1; [|done]. injection H1 as <-.
    destruct (decide (str_replace PREFIX "" (str_upper key) = name)) as [Hn|Hn].
    + rewrite Hn, (bool_decide_true (name = name)), dget_dset_eq by done.
      destruct (List.filter (sets name) environ) as [|v l]; [done|].
      rewrite last_cons_cons. by destruct (last (v :: l)) eqn:El; [|apply last_None in El].
    + rewrite (bool_decide_false _ Hn), dget_dset_ne by congruence. done.
  - by injection H1 as ->.
Qed.

Lemma flags_raise environ e : get_feature_flags_from_env environ = Err e -> e = ValueError.
Proof.
  unfold get_feature_flags_from_env. generalize DEFAULT_FEATURE_FLAGS_VALUES as d.
  induction environ as [|[key value] environ IH]; intros d; cbn [foldM]; [done|].
  destruct (flag_step d (key, value)) as [d1|e1] eqn:H1; cbn; [apply IH|]. intros [= ->].
  unfold flag_step in H1. repeat case_match; congruence.
Qed.
End Flags.

(** ** Examples and a witness *)

Module Samples.
(** Four characters at least, and not the name of the user. *)
Definition validators (p : string) (u : option user) : bool :=
  (4 <=? str_len p) && match u with Some v => negb (bool_decide (p = username v)) | None => true end.
Definition hash (p : string) : string := "hashed " +:+ p.
Definition two_users : store :=
  mkstore {[ 1 := mkuser "admin" "a@x" (hash "old password") true; 2 := mkuser "other" "o@x" "" true ]} 3 ∅.
Definition command := create_or_update_user validators hash "random1" "admin" "a@x".
Definition outcome (given : option string) : Res (list (string * string) * (bool * bool * option string)) :=
  r ← command given two_users; Ok ((fun p => (username p.2, password p.2)) <$> map_to_list (u_rows r.1), r.2).

Example new_password : outcome (Some "secret") = Ok ([("admin", "hashed secret")], (false, true, None)).
Proof. by vm_compute. Qed.
Example no_password : outcome None = Ok ([("admin", "hashed old password")], (false, false, None)).
Proof. by vm_compute. Qed.
Example short_password : outcome (Some "x") = Ok ([("admin", "hashed random1")], (false, true, Some "random1")).
Proof. by vm_compute. Qed.

(** A password that only the comparison with the user refuses is not replaced: the
    command fails, and so it does for an empty one. *)
Example similar_password : outcome (Some "admin") = Err InvalidPasswordError.
Proof. by vm_compute. Qed.
Example empty_password : outcome (Some "") = Err InvalidPasswordError.
Proof. by vm_compute. Qed.

(** The variable that the documentation names is not read. *)
Example documented_email_ignored :
  (r ← handle validators hash "random1" [("QUIPUCORDS_SERVER_EMAIL", "me@x")] (mkstore ∅ 1 ∅);
   Ok ((fun p => email p.2) <$> map_to_list (u_rows r.1))) = Ok ["admin@example.com"].
Proof. by vm_compute. Qed.
End Samples.

Import Samples.

Lemma two_users_wf : wf_users two_users.
Proof.
  assert (forall i u, u_rows two_users !! i = Some u -> (i = 1 /\ username u = "admin") \/ (i = 2 /\ username u = "other")) as H.
  { intros i u. unfold two_users. cbn [u_rows]. intros [[<- <-]|[_ [<- <-]%lookup_singleton_Some]]%lookup_insert_Some; auto. }
  split.
  - intros i j u v [[-> Hu]|[-> Hu]]%H [[-> Hv]|[-> Hv]]%H E; congruence.
  - intros i u [[-> _]|[-> _]]%H; by vm_compute.
Qed.

Lemma create_or_update_user_spec_witness :
  exists st' shown i u, command (Some "secret") two_users = Ok (st', (false, true, shown)) /\
    u_rows st' = {[ i := u ]} /\ username u = "admin".
Proof.
  pose proof (create_or_update_user_spec validators hash "random1" "admin" "a@x" (Some "secret") two_users two_users_wf) as H.
  change (create_or_update_user validators hash "random1" "admin" "a@x") with command in H.
  destruct (command (Some "secret") two_users) as [[st' [[created updated] shown]]|e] eqn:E; [|vm_compute in E; discriminate E].
  destruct H as (i & u & Hrows & Hname & _). exists st', shown, i, u.
  split; [|split; [exact Hrows | exact Hname]].
  vm_compute in E. injection E as <- <- <- <-. reflexivity.
Defined.
