(* ===== verification/SecureTokens.v ===== *)
(** The table of secure tokens ([api/secure_token/model.py]).

    An object in memory is a copy of its row with the primary key: [save] writes all
    its fields back, so an object that is older than its row undoes what others have
    written, and brings a deleted row back.  The encryption of the columns is that of
    the credentials and is left out: a column reads back what was stored. *)
From stdpp Require Import base gmap sets list strings sorting.
From Stdlib Require Import Ascii ZArith Lia.
From S2P Require Import Prelude PyStr PyNum PyVal ApiCommon.

Open Scope string_scope.
Open Scope Z_scope.

Record secure_token := mktoken {
  st_name : string; st_token_type : string; st_user : option Z; st_token : option string;
  st_metadata : option pydict; st_expires_at : option Z }.

Record object := mkobj { pk : Z; row : secure_token }.

(** The rows, the sequence of the primary keys, and the keys of the users. *)
Record store := mkstore { rows : gmap Z secure_token; next_id : Z; users : gset Z }.

Definition set_rows (r : gmap Z secure_token) (st : store) : store := mkstore r (next_id st) (users st).

Definition LIGHTSPEED : string := "lightspeed-jwt".
Definition HASHICORP_VAULT : string := "hashicorp-vault".
Definition TOKEN_TYPES : list string := [LIGHTSPEED; HASHICORP_VAULT].

(** ** [full_clean] *)

Definition fields_valid (users : gset Z) (t : secure_token) : bool :=
  bool_decide (st_name t <> "") && (str_len (st_name t) <=? 64)
  && bool_decide (st_token_type t ∈ TOKEN_TYPES)
  && match st_user t with Some u => bool_decide (u ∈ users) | None => true end
  && match st_token t with Some s => str_len s <=? 32768 | None => true end.

(** The two unique constraints: a name once for each user, and once without user. *)
Definition same_key (t u : secure_token) : bool :=
  bool_decide (st_name t = st_name u) && bool_decide (st_user t = st_user u).

Definition unique_key (i : Z) (t : secure_token) (r : gmap Z secure_token) : bool :=
  negb (existsb (fun p => negb (bool_decide (p.1 = i)) && same_key t p.2) (map_to_list r)).

Definition full_clean (o : object) (st : store) : Res unit :=
  if fields_valid (users st) (row o) && unique_key (pk o) (row o) (rows st) then Ok tt
  else Err (invalid "secure token").

(** [save]: the row is updated, or inserted when it is not there any more. *)
Definition save (o : object) (st : store) : Res store :=
  _ ← full_clean o st; Ok (set_rows (<[pk o := row o]> (rows st)) st).

Definition delete (o : object) (st : store) : store := set_rows (base.delete (pk o) (rows st)) st.

(** [on_delete=CASCADE] *)
Definition delete_user (u : Z) (st : store) : store :=
  mkstore (filter (fun p => st_user p.2 <> Some u) (rows st)) (next_id st) (users st ∖ {[u]}).

(** ** Queries *)

(** [objects.filter(name=..., token_type=..., user=...)]; [None] selects every user. *)
Definition selects (name token_type : string) (user : option (option Z)) (t : secure_token) : bool :=
  bool_decide (st_name t = name) && bool_decide (st_token_type t = token_type)
  && match user with Some u => bool_decide (st_user t = u) | None => true end.

(** In the order of the primary keys. *)
Definition matching (p : secure_token -> bool) (st : store) : list object :=
  omap (fun i => t ← rows st !! i; if p t then Some (mkobj i t) else None) (sorted_ids (dom (rows st))).

Definition first (p : secure_token -> bool) (st : store) : option object := head (matching p st).

Definition MultipleObjectsReturned : exn := OtherException "MultipleObjectsReturned".

(** [objects.create] *)
Definition create (t : secure_token) (st : store) : Res (object * store) :=
  let o := mkobj (next_id st) t in
  st' ← save o st; Ok (o, mkstore (rows st') (next_id st + 1) (users st)).

(** [objects.get_or_create(name=..., token_type=..., user=...)], without [user] for
    a token of nobody, which looks among the tokens of all users. *)
Definition get_or_create (name token_type : string) (user : option Z) (st : store) : Res (object * store) :=
  match matching (selects name token_type (Some <$> user)) st with
  | [o] => Ok (o, st)
  | _ :: _ => Err MultipleObjectsReturned
  | [] => create (mktoken name token_type user None None None) st
  end.

(** ** Expiry *)

Definition set_expiration (expires_at : Z) (o : object) (st : store) : Res (object * store) :=
  let t := row o in
  let o := mkobj (pk o) (mktoken (st_name t) (st_token_type t) (st_user t) (st_token t) (st_metadata t) (Some expires_at)) in
  st ← save o st; Ok (o, st).

Definition clear_expiration (o : object) (st : store) : Res (object * store) :=
  let t := row o in
  let o := mkobj (pk o) (mktoken (st_name t) (st_token_type t) (st_user t) (st_token t) (st_metadata t) None) in
  st ← save o st; Ok (o, st).

Definition is_expired (now : Z) (t : secure_token) : bool :=
  match st_expires_at t with Some e => e <=? now | None => false end.

(** ** Well-formed tables *)

Record wf (st : store) : Prop := {
  wf_fields : forall i t, rows st !! i = Some t -> fields_valid (users st) t = true;
  wf_unique : forall i j t u, rows st !! i = Some t -> rows st !! j = Some u -> same_key t u = true -> i = j;
  wf_fresh : forall i t, rows st !! i = Some t -> i < next_id st }.

Lemma same_key_spec t u : same_key t u = true <-> st_name t = st_name u /\ st_user t = st_user u.
Proof. unfold same_key. by rewrite andb_true_iff, !bool_decide_eq_true. Qed.

Lemma unique_key_spec i t r :
  unique_key i t r = true <-> forall j u, r !! j = Some u -> same_key t u = true -> j = i.
Proof.
  unfold unique_key. rewrite negb_true_iff, <- not_true_iff_false, existsb_exists. split.
  - intros Hn j u Hj Hs. destruct (decide (j = i)) as [|Hi]; [done|]. destruct Hn. exists (j, u).
    split; [by apply list_elem_of_In, elem_of_map_to_list|]. cbn. by rewrite bool_decide_false, Hs.
  - intros H ([j u] & Hj & [Hi Hs]%andb_prop). apply list_elem_of_In, elem_of_map_to_list in Hj.
    cbn in *. rewrite (H j u Hj Hs), bool_decide_true in Hi; done.
Qed.

Lemma save_spec o st st' : save o st = Ok st' ->
  fields_valid (users st) (row o) = true /\
  (forall j u, rows st !! j = Some u -> same_key (row o) u = true -> j = pk o) /\
  st' = set_rows (<[pk o := row o]> (rows st)) st.
Proof.
  unfold save, full_clean. intros (u & H & [= <-])%bind_Ok.
  destruct (fields_valid _ _) eqn:Hf, (unique_key _ _ _) eqn:Hu; try done.
  by split_and!; [| apply unique_key_spec |].
Qed.

(** What [save] refuses it refuses for these reasons only. *)
Lemma save_Ok o st : fields_valid (users st) (row o) = true ->
  (forall j u, rows st !! j = Some u -> same_key (row o) u = true -> j = pk o) ->
  save o st = Ok (set_rows (<[pk o := row o]> (rows st)) st).
Proof. intros Hf Hu. unfold save, full_clean. by rewrite Hf, (proj2 (unique_key_spec _ _ _) Hu). Qed.

Lemma wf_save o st st' : wf st -> pk o < next_id st -> save o st = Ok st' -> wf st'.
Proof.
  intros [Hf Hu Hi] Ho (Hfo & Huo & ->)%save_spec. split; cbn.
  - intros i t [[<- <-]|[_ H]]%lookup_insert_Some; eauto.
  - intros i j t u [[<- <-]|[Hni Ht]]%lookup_insert_Some [[<- <-]|[Hnj Hu']]%lookup_insert_Some Hs; eauto.
    + symmetry. eauto.
    + apply same_key_spec in Hs as [H1 H2]. eapply Huo; [done|]. by apply same_key_spec.
  - intros i t [[<- <-]|[_ H]]%lookup_insert_Some; eauto.
Qed.

(** Fewer rows, and each of them still valid. *)
Lemma wf_fewer r us st : wf st ->
  (forall i t, r !! i = Some t -> rows st !! i = Some t /\ fields_valid us t = true) ->
  wf (mkstore r (next_id st) us).
Proof.
  intros [Hf Hu Hi] H. split; cbn.
  - intros i t Ht. by apply (H i t).
  - intros i j t u [Ht _]%H [Hj _]%H. eauto.
  - intros i t [Ht _]%H. eauto.
Qed.

Lemma wf_delete o st : wf st -> wf (delete o st).
Proof.
  intros W. apply wf_fewer; [done|]. intros i t [_ H]%lookup_delete_Some. split; [done | by eapply wf_fields].
Qed.

Lemma fields_valid_user us u t : fields_valid us t = true -> st_user t <> Some u ->
  fields_valid (us ∖ {[u]}) t = true.
Proof.
  unfold fields_valid. intros H Hn. rewrite !andb_true_iff in *. destruct H as [[H Hu] Ht].
  split_and!; try apply H; [|done]. destruct (st_user t) as [v|]; [|done].
  rewrite bool_decide_eq_true in *. set_solver.
Qed.

Lemma wf_delete_user u st : wf st -> wf (delete_user u st).
Proof.
  intros W. apply wf_fewer; [done|]. intros i t [H Hn]%map_lookup_filter_Some.
  split; [done | by eapply fields_valid_user; [eapply wf_fields|]].
Qed.

Lemma matching_elem p st o : o ∈ matching p st <-> rows st !! pk o = Some (row o) /\ p (row o) = true.
Proof.
  unfold matching. rewrite list_elem_of_omap. split.
  - intros (i & _ & H). destruct (rows st !! i) as [t|] eqn:Ht; [|done]. cbn in H.
    destruct (p t) eqn:Hp; [|done]. by injection H as <-.
  - intros [H Hp]. exists (pk o). rewrite H. cbn. rewrite Hp. split; [|by destruct o].
    unfold sorted_ids. rewrite merge_sort_Permutation, elem_of_elements, elem_of_dom. eauto.
Qed.

Lemma first_elem p st o : first p st = Some o -> rows st !! pk o = Some (row o) /\ p (row o) = true.
Proof. unfold first. intros H. apply matching_elem. destruct (matching p st); [done|]. injection H as ->. by left. Qed.

Lemma first_none p st i t : first p st = None -> rows st !! i = Some t -> p t = false.
Proof.
  intros H Ht. destruct (p t) eqn:Hp; [|done].
  assert (mkobj i t ∈ matching p st) as Hin by by apply matching_elem.
  unfold first in H. destruct (matching p st); [by apply elem_of_nil in Hin | done].
Qed.

Lemma create_spec t st o st' : wf st -> create t st = Ok (o, st') ->
  o = mkobj (next_id st) t /\ rows st !! next_id st = None /\
  st' = mkstore (<[next_id st := t]> (rows st)) (next_id st + 1) (users st) /\ wf st'.
Proof.
  intros [Hf Hu Hi] (st1 & H & [= <- <-])%bind_Ok. pose proof H as (Hfo & Huo & ->)%save_spec. cbn in *.
  assert (rows st !! next_id st = None) as Hn.
  { destruct (rows st !! next_id st) eqn:E; [|done]. apply Hi in E. lia. }
  split_and!; [done..|].
  assert (wf (mkstore (rows st) (next_id st + 1) (users st))) as W.
  { split; [exact Hf | exact Hu | intros i u Hiu; cbn; specialize (Hi i u Hiu); lia]. }
  eapply (wf_save (mkobj (next_id st) t) _ _ W); [cbn; lia|]. by rewrite save_Ok.
Qed.
