(* ===== verification/Lightspeed.v ===== *)
(** Logging in to Lightspeed: [api/auth/lightspeed/auth.py], [api/auth/lightspeed/view.py]
    and [api/auth/utils.py].

    A login asks the SSO server for a device code and leaves a Celery task behind
    that polls the server until the user has authorised it.  The tasks run beside
    the requests: the polls of a task are steps between which anything may change
    the table, while the task keeps the object it read when it started.

    [requests] is external: [server n q] is the answer to the [n]th request of a
    task, or the exception it raised. *)
From stdpp Require Import base gmap sets list strings sorting.
From Stdlib Require Import Ascii ZArith Lia.
From S2P Require Import Prelude PyStr PyNum PyVal Json Base64 Formatters ApiCommon SecureTokens.

Open Scope string_scope.
Open Scope Z_scope.

(** ** [AuthStatus] *)

Inductive AuthStatus := PENDING | VALID | FAILED | EXPIRED | MISSING.

#[export] Instance AuthStatus_eq_dec : EqDecision AuthStatus.
Proof. solve_decision. Defined.

Definition status_value (s : AuthStatus) : string :=
  match s with
  | PENDING => "pending" | VALID => "valid" | FAILED => "failed" | EXPIRED => "expired"
  | MISSING => "missing"
  end.

(** ** [api/auth/utils.py] *)

Definition JWT_PARTS : nat := 3.

Definition decode_jwt_part (jwt_part : string) : Res pyval :=
  decoded_bytes ← urlsafe_b64decode (jwt_part +:+ "==");
  decoded_string ← decode_utf8 decoded_bytes;
  json_loads decoded_string.

(** [datetime.fromtimestamp(t, UTC)], as the seconds themselves: the years 1 to 9999.
    Further away the exception depends on what the C library can represent. *)
Definition fromtimestamp (t : Z) : Res Z :=
  if (-62135596800 <=? t) && (t <=? 253402300799) then Ok t
  else if (t <? - 2 ^ 63) || (2 ^ 63 <=? t) then Err OverflowError
  else if (-67768040609740800 <=? t) && (t <=? 67768036191676799) then Err ValueError
  else Err (OtherException "OSError").

Record decoded_jwt := mkjwt { header : pyval; payload : pyval; expires_at : option Z }.

Definition decode_jwt (jwt_token : pyval) : Res (option decoded_jwt) :=
  jwt_token ← as_str "split" jwt_token;
  match str_split "." jwt_token with
  | [h; p; _] =>
      header ← decode_jwt_part h;
      payload ← decode_jwt_part p;
      exp ← vget payload "exp";
      expires_at ← (if is_none exp then Ok None else t ← py_int exp; Some <$> fromtimestamp t);
      Ok (Some (mkjwt header payload expires_at))
  | _ => Ok None
  end.

(** ** Messages *)

Definition LIGHTSPEED_INVALID_TOKEN : string := "Invalid Lightspeed Token received".
Definition LIGHTSPEED_TOKEN_EXPIRED : string := "Authorization token expired, please log in again to Lightspeed".
Definition LIGHTSPEED_SSO_QUERY_FAILED (x : string) : string :=
  "Failed to query the Lightspeed SSO configuration: missing " +:+ x.
Definition LIGHTSPEED_LOGIN_REQUEST_FAILED (x : string) : string := "Failed to request login authorization: " +:+ x.
Definition LIGHTSPEED_LOGIN_VERIFICATION_FAILED (x : string) : string := "Failed to verify Login authorization: " +:+ x.
Definition LIGHTSPEED_LOGIN_VERIFICATION_TIMEOUT : string := "Time-out while waiting for Login authorization".
Definition LIGHTSPEED_LOGOUT_SUCCESSFUL : string := "Logged out successfully".
Definition LIGHTSPEED_ALREADY_LOGGED_OUT : string := "Already logged out".

Definition DISCOVERY_CLIENT_ID : string := "discovery-client-id".
Definition LIGHTSPEED_REALM : string := "redhat-external".
Definition LIGHTSPEED_SCOPE : string := "api.console".
Definition GRANT_TYPE : string := "urn:ietf:params:oauth:grant-type:device_code".
Definition OPENID_CONFIG_ENDPOINT : string :=
  "/auth/realms/" +:+ LIGHTSPEED_REALM +:+ "/.well-known/openid-configuration".
Definition DEVICE_AUTH_ENDPOINT_KEY : string := "device_authorization_endpoint".
Definition ENDPOINT_KEY : string := "token_endpoint".
Definition LIGHTSPEED_NAME : string := "lightspeed-jwt-token".
Definition LIGHTSPEED_TYPE : string := "lightspeed-jwt".

(** ** The token of a user *)

Definition set_metadata (m : option pydict) (t : secure_token) : secure_token :=
  mktoken (st_name t) (st_token_type t) (st_user t) (st_token t) m (st_expires_at t).
Definition set_token (s : option string) (t : secure_token) : secure_token :=
  mktoken (st_name t) (st_token_type t) (st_user t) s (st_metadata t) (st_expires_at t).
Definition set_expires_at (e : option Z) (t : secure_token) : secure_token :=
  mktoken (st_name t) (st_token_type t) (st_user t) (st_token t) (st_metadata t) e.

(** Assign to the object and save it. *)
Definition assign (f : secure_token -> secure_token) (o : object) (st : store) : Res (object * store) :=
  let o := mkobj (pk o) (f (row o)) in
  st ← save o st; Ok (o, st).

(** [secure_token.metadata or {}] *)
Definition metadata_of (t : secure_token) : pydict := default [] (st_metadata t).

Definition with_status (status : AuthStatus) (status_reason : string) (t : secure_token) : secure_token :=
  set_metadata (Some (dset "status_reason" (VStr status_reason)
                        (dset "status" (VStr (status_value status)) (metadata_of t)))) t.

Definition update_secure_token_status (o : object) (status : AuthStatus) (status_reason : string)
    (st : store) : Res (object * store) :=
  assign (with_status status status_reason) o st.

Definition identity (payload : pyval) : Res pydict :=
  organization ← getitem payload "organization";
  org_id ← getitem organization "id";
  organization ← getitem payload "organization";
  account_number ← getitem organization "account_number";
  username ← getitem payload "preferred_username";
  first_name ← getitem payload "given_name";
  last_name ← getitem payload "family_name";
  email ← getitem payload "email";
  Ok [("org_id", org_id); ("account_number", account_number); ("username", username);
      ("first_name", first_name); ("last_name", last_name); ("email", email)].

Definition with_identity (fields : pydict) (expires_at : option Z) (t : secure_token) : secure_token :=
  set_expires_at expires_at (set_metadata (Some (dupdate (metadata_of t) fields)) t).

Definition update_secure_token_metadata (o : object) (jwt : decoded_jwt) (st : store) : Res (object * store) :=
  fields ← identity (payload jwt);
  assign (with_identity fields (expires_at jwt)) o st.

Definition of_user (user : option Z) : secure_token -> bool :=
  selects LIGHTSPEED_NAME LIGHTSPEED_TYPE (Some user).

(** [user=None] selects the tokens without user. *)
Definition get_lightspeed_secure_token (user : option Z) (st : store) : option object := first (of_user user) st.

Definition get_or_create_lightspeed_secure_token (user : Z) (st : store) : Res (object * store) :=
  get_or_create LIGHTSPEED_NAME LIGHTSPEED_TYPE (Some user) st.

Definition cleared (t : secure_token) : secure_token := set_expires_at None (set_metadata None (set_token None t)).

Definition clear_lightspeed_auth_token (o : object) (st : store) : Res (object * store) := assign cleared o st.

Definition token_status (t : secure_token) : pyval := dget_none "status" (metadata_of t).

Definition lightspeed_token_check_expiration (now : Z) (o : object) (st : store) : Res (object * store) :=
  if truthy (VDict (metadata_of (row o))) then
    status ← dget_exn "status" (metadata_of (row o));
    if py_eq status (VStr (status_value VALID)) && is_expired now (row o) then
      update_secure_token_status o EXPIRED LIGHTSPEED_TOKEN_EXPIRED st
    else Ok (o, st)
  else Ok (o, st).

(** ** Requests of the user *)

Definition lightspeed_logout_request (user : Z) (st : store) : store * pydict :=
  match get_lightspeed_secure_token (Some user) st with
  | Some o => (delete o st, [("status", VStr "successful"); ("status_reason", VStr LIGHTSPEED_LOGOUT_SUCCESSFUL)])
  | None => (st, [("status", VStr "successful"); ("status_reason", VStr LIGHTSPEED_ALREADY_LOGGED_OUT)])
  end.

(** The data of the response before its fields are rendered. *)
Definition user_lightspeed_auth_status (now : Z) (user : Z) (st : store) : Res (store * pydict) :=
  let missing := [("status", VStr (status_value MISSING))] in
  match get_lightspeed_secure_token (Some user) st with
  | None => Ok (st, missing)
  | Some o =>
      '(o, st) ← lightspeed_token_check_expiration now o st;
      let metadata := metadata_of (row o) in
      if truthy (VDict metadata) then
        status ← dget_exn "status" metadata;
        Ok (st, [("status", status); ("metadata", VDict metadata)])
      else Ok (st, missing)
  end.

(** The serializers of the responses: the declared fields that are there, as text. *)
Definition char_field (v : pyval) : pyval := if is_none v then VNone else VStr (py_str v).

Definition char_fields (fields : list string) (d : pydict) : pydict :=
  omap (fun k => v ← dget k d; Some (k, char_field v)) fields.

Definition LightspeedAuthLoginResponse : list string :=
  ["status"; "user_code"; "verification_uri"; "verification_uri_complete"].
Definition LightspeedAuthLogoutResponse : list string := ["status"; "status_reason"].
Definition LightspeedAuthStatusMetadata : list string :=
  ["status"; "status_reason"; "org_id"; "account_number"; "username"; "first_name"; "last_name"; "email"].

Definition LightspeedAuthStatusResponse (d : pydict) : pydict :=
  (char_fields ["status"] d ++
   match dget "metadata" d with
   | Some (VDict m) => [("metadata", VDict (char_fields LightspeedAuthStatusMetadata m))]
   | _ => []
   end)%list.

(** ** The SSO server *)

(** A [GET], or a [POST] of a form. *)
Inductive http_request :=
| HttpGet (url : pyval)
| HttpPost (url : pyval) (data : pydict).

Record http_response := mkhttp { status_code : Z; json : Res pyval; reason : string; text : string }.

(** The arguments of a task left with [delay]. *)
Record wait_request := mkrequest {
  secure_token_id : Z; device_code : pyval; interval : pyval; expires_in : pyval }.

Section sso.
(** The classes [requests.exceptions.ConnectionError] and [urllib3]'s [HTTPError],
    and [str] on exceptions. *)
Context (ConnectionError BaseHTTPError : exn -> bool) (str_exn : exn -> string).
Context (QUIPUCORDS_LIGHTSPEED_SSO_HOST : string).

Definition unreachable (e : exn) : bool := ConnectionError e || BaseHTTPError e.

Section requests.
Context (server : nat -> http_request -> Res http_response).

Definition get_sso_endpoint (n : nat) (endpoint : string) : Res pyval :=
  response ← server n (HttpGet (VStr ("https://" +:+ QUIPUCORDS_LIGHTSPEED_SSO_HOST +:+ OPENID_CONFIG_ENDPOINT)));
  config ← json response;
  there ← str_in endpoint config;
  if (there : bool) then getitem config endpoint
  else Err (LightspeedAuthError (LIGHTSPEED_SSO_QUERY_FAILED endpoint)).

Definition request_params : pydict :=
  [("grant_type", VStr GRANT_TYPE); ("scope", VStr LIGHTSPEED_SCOPE); ("client_id", VStr DISCOVERY_CLIENT_ID)].

Definition lightspeed_request_auth : Res pyval :=
  response ← try_except
    (device_auth_endpoint ← get_sso_endpoint 0 DEVICE_AUTH_ENDPOINT_KEY;
     server 1 (HttpPost device_auth_endpoint request_params))
    unreachable (fun e => Err (LightspeedAuthError (LIGHTSPEED_LOGIN_REQUEST_FAILED (str_exn e))));
  if status_code response =? 200 then json response
  else Err (LightspeedAuthError (LIGHTSPEED_LOGIN_REQUEST_FAILED (reason response))).

(** The table, the task left behind, and the response or the exception.  What an
    exception interrupts stays done: requests do not run in a transaction. *)
Definition lightspeed_login_request (user : Z) (st : store) : store * option wait_request * Res pydict :=
  match (auth_request ← lightspeed_request_auth;
         _ ← getitem auth_request "verification_uri_complete"; Ok auth_request) with
  | Err e => (st, None, Err e)
  | Ok auth_request =>
      match get_or_create_lightspeed_secure_token user st with
      | Err e => (st, None, Err e)
      | Ok (o, st) =>
          match clear_lightspeed_auth_token o st with
          | Err e => (st, None, Err e)
          | Ok (o, st) =>
              match update_secure_token_status o PENDING "" st with
              | Err e => (st, None, Err e)
              | Ok (o, st) =>
                  match (user_code ← getitem auth_request "user_code";
                         verification_uri ← getitem auth_request "verification_uri";
                         verification_uri_complete ← getitem auth_request "verification_uri_complete";
                         device_code ← getitem auth_request "device_code";
                         interval ← getitem auth_request "interval";
                         expires_in ← getitem auth_request "expires_in";
                         Ok (mkrequest (pk o) device_code interval expires_in,
                             [("status", token_status (row o)); ("user_code", user_code);
                              ("verification_uri", verification_uri);
                              ("verification_uri_complete", verification_uri_complete)])) with
                  | Err e => (st, None, Err e)
                  | Ok (task, data) => (st, Some task, Ok data)
                  end
              end
          end
      end
  end.

(** The view: 500 with the message for a [LightspeedAuthError]; any other exception
    is left to the framework. *)
Definition lightspeed_auth_login (user : Z) (st : store) : store * option wait_request * Res (Z * pydict) :=
  let '(st, task, r) := lightspeed_login_request user st in
  (st, task,
   match r with
   | Ok data => Ok (200, char_fields LightspeedAuthLoginResponse data)
   | Err (LightspeedAuthError message) => Ok (500, [("detail", VStr message)])
   | Err e => Err e
   end).
End requests.

Definition lightspeed_auth_logout (user : Z) (st : store) : store * (Z * pydict) :=
  let '(st, data) := lightspeed_logout_request user st in
  (st, (200, char_fields LightspeedAuthLogoutResponse data)).

Definition lightspeed_auth_status (now user : Z) (st : store) : Res (store * (Z * pydict)) :=
  '(st, data) ← user_lightspeed_auth_status now user st;
  Ok (st, (200, LightspeedAuthStatusResponse data)).

(** ** The task that waits *)

Section wait.
Context (server : nat -> http_request -> Res http_response).
Context (device_code : pyval) (interval expires_in : Z).

(** What the task remembers between two polls: its object, the endpoint once it is
    known, the time waited and the number of requests sent. *)
Record waiting := mkwait { w_object : object; w_endpoint : pyval; w_elapsed : Z; w_sent : nat }.

Inductive outcome := Next (w : waiting) | Returned | Raised (e : exn).

(** [update_secure_token_status] and [return]. *)
Definition finish (o : object) (status : AuthStatus) (status_reason : string) (st : store) : store * outcome :=
  match update_secure_token_status o status status_reason st with
  | Ok (_, st) => (st, Returned)
  | Err e => (st, Raised e)
  end.

Definition poll_params : pydict :=
  [("grant_type", VStr GRANT_TYPE); ("client_id", VStr DISCOVERY_CLIENT_ID); ("device_code", device_code)].

(** The transaction that stores the token. *)
Definition store_token (o : object) (lightspeed_jwt : string) (jwt : decoded_jwt) (st : store) : Res store :=
  '(o, st) ← assign (set_token (Some lightspeed_jwt)) o st;
  '(o, st) ← update_secure_token_metadata o jwt st;
  '(_, st) ← update_secure_token_status o VALID "" st;
  Ok st.

Definition authorized (o : object) (response : http_response) (st : store) : store * outcome :=
  match (token_response ← json response;
         lightspeed_jwt ← getitem token_response "access_token";
         decoded ← decode_jwt lightspeed_jwt; Ok (lightspeed_jwt, decoded)) with
  | Err e => (st, Raised e)
  | Ok (_, None) => finish o FAILED LIGHTSPEED_INVALID_TOKEN st
  | Ok (lightspeed_jwt, Some jwt) =>
      match store_token o (py_str lightspeed_jwt) jwt st with
      | Ok st => (st, Returned)
      | Err e => (st, Raised e)
      end
  end.

(** The end of an iteration: sleep, and give up when the time is over. *)
Definition sleep (w : waiting) (st : store) : store * outcome :=
  if interval <? 0 then (st, Raised ValueError)
  else
    let elapsed := w_elapsed w + interval in
    if expires_in <? elapsed then finish (w_object w) FAILED LIGHTSPEED_LOGIN_VERIFICATION_TIMEOUT st
    else (st, Next (mkwait (w_object w) (w_endpoint w) elapsed (w_sent w))).

Definition answered (w : waiting) (response : http_response) (st : store) : store * outcome :=
  let failed reason := finish (w_object w) FAILED reason st in
  if status_code response =? 200 then authorized (w_object w) response st
  else if status_code response =? 400 then
    match (token_response ← json response; vget token_response "error") with
    | Err e => (st, Raised e)
    | Ok response_error =>
        if py_eq response_error (VStr "expired_token") then failed LIGHTSPEED_TOKEN_EXPIRED
        else if negb (py_eq response_error (VStr "authorization_pending"))
        then failed (LIGHTSPEED_LOGIN_VERIFICATION_FAILED (reason response))
        else sleep w st
    end
  else failed (LIGHTSPEED_LOGIN_VERIFICATION_FAILED (reason response)).

(** The requests of an iteration. *)
Definition ask (w : waiting) : waiting * Res http_response :=
  let '(n, endpoint) :=
    if truthy (w_endpoint w) then (w_sent w, Ok (w_endpoint w))
    else (S (w_sent w), get_sso_endpoint server (w_sent w) ENDPOINT_KEY) in
  match endpoint with
  | Err e => (mkwait (w_object w) (w_endpoint w) (w_elapsed w) n, Err e)
  | Ok endpoint => (mkwait (w_object w) endpoint (w_elapsed w) (S n), server n (HttpPost endpoint poll_params))
  end.

(** One iteration of the loop. *)
Definition poll (w : waiting) (st : store) : store * outcome :=
  match ask w with
  | (w, Ok response) => answered w response st
  | (w, Err e) =>
      if unreachable e
      then finish (w_object w) FAILED (LIGHTSPEED_LOGIN_VERIFICATION_FAILED (str_exn e)) st
      else (st, Raised e)
  end.

(** The loop; [others i] is what the rest of the program does to the table before
    the [i]th poll. *)
Fixpoint polls (others : nat -> store -> store) (fuel i : nat) (w : waiting) (st : store) :
    option (store * Res unit) :=
  match fuel with
  | O => None
  | S fuel =>
      match poll w (others i st) with
      | (st, Next w) => polls others fuel (S i) w st
      | (st, Returned) => Some (st, Ok tt)
      | (st, Raised e) => Some (st, Err e)
      end
  end.

(** The object the task starts with, [None] when its row is gone. *)
Definition start_waiting (secure_token_id : Z) (st : store) : option (Res (waiting * store)) :=
  match rows st !! secure_token_id with
  | None => None
  | Some t =>
      Some ('(o, st) ← update_secure_token_status (mkobj secure_token_id t) PENDING "" st;
            Ok (mkwait o VNone 0 0, st))
  end.

Definition lightspeed_wait_for_authorization (others : nat -> store -> store) (fuel : nat)
    (secure_token_id : Z) (st : store) : option (store * Res unit) :=
  match start_waiting secure_token_id st with
  | None => Some (st, Ok tt)
  | Some (Err e) => Some (st, Err e)
  | Some (Ok (w, st)) => polls others fuel 0 w st
  end.
End wait.
End sso.

(** ** Tokens of JWT form *)

Lemma decode_part pad s : utf8_valid s = true -> decode_jwt_part (urlsafe_b64encode pad s) = json_loads s.
Proof.
  intros Hs. unfold decode_jwt_part. rewrite b64_url_roundtrip by by right. cbn.
  unfold decode_utf8. by rewrite Hs.
Qed.

(** ** The task that waits: one poll *)

Section wait_lemmas.
Context (ConnectionError BaseHTTPError : exn -> bool) (str_exn : exn -> string) (host : string).
Context (server : nat -> http_request -> Res http_response).
Context (device_code : pyval) (interval expires_in : Z).

#[local] Abbreviation poll := (poll ConnectionError BaseHTTPError str_exn host server device_code interval expires_in).
#[local] Abbreviation polls := (polls ConnectionError BaseHTTPError str_exn host server device_code interval expires_in).
#[local] Abbreviation wait :=
  (lightspeed_wait_for_authorization ConnectionError BaseHTTPError str_exn host server device_code interval expires_in).

Lemma assign_spec f o st o' st' : assign f o st = Ok (o', st') ->
  o' = mkobj (pk o) (f (row o)) /\ save o' st = Ok st'.
Proof. unfold assign. intros (s & H & [= <- <-])%bind_Ok. done. Qed.

Lemma finish_spec o s reason st st' r : finish o s reason st = (st', r) ->
  (r = Returned /\ save (mkobj (pk o) (with_status s reason (row o))) st = Ok st') \/
  (exists e, r = Raised e) /\ st' = st.
Proof.
  unfold finish, update_secure_token_status. destruct (assign _ o st) as [[o1 st1]|e] eqn:Ha; intros [= <- <-].
  - left. apply assign_spec in Ha as [-> Hs]. done.
  - right. eauto.
Qed.

(** The row of a token that was authorised. *)
Definition valid_row (jwt : string) (fields : pydict) (expires_at : option Z) (t : secure_token) : secure_token :=
  with_status VALID "" (with_identity fields expires_at (set_token (Some jwt) t)).

Definition answered_with (jwt : string) (dec : decoded_jwt) : Prop :=
  exists n q response body, server n q = Ok response /\ status_code response = 200 /\
    json response = Ok (VDict body) /\ dget "access_token" body = Some (VStr jwt) /\
    decode_jwt (VStr jwt) = Ok (Some dec).

Lemma save_twice o t st st1 : save o st = Ok st1 -> save (mkobj (pk o) t) st1 = save (mkobj (pk o) t) st.
Proof.
  intros (Hf & Hu & ->)%save_spec. unfold save, full_clean. cbn.
  assert (unique_key (pk o) t (<[pk o := row o]> (rows st)) = unique_key (pk o) t (rows st)) as ->.
  { apply Bool.eq_iff_eq_true. rewrite !unique_key_spec. split; intros H j u Hj Hs.
    - destruct (decide (j = pk o)) as [|Hn]; [done|]. eapply H; [|done]. by rewrite lookup_insert_ne.
    - apply lookup_insert_Some in Hj as [[? _]|[_ Hj]]; eauto. }
  destruct (_ && _); [|done]. cbn. unfold set_rows. cbn. by rewrite insert_insert_eq.
Qed.

Lemma store_token_spec o jwt dec st st' : store_token o jwt dec st = Ok st' ->
  exists fields, identity (payload dec) = Ok fields /\
    save (mkobj (pk o) (valid_row jwt fields (expires_at dec) (row o))) st = Ok st'.
Proof.
  unfold store_token. intros ([o1 st1] & [-> H1]%assign_spec & H)%bind_Ok.
  apply bind_Ok in H as ([o2 st2] & H2 & H). unfold update_secure_token_metadata in H2.
  apply bind_Ok in H2 as (fields & Hf & [-> H2]%assign_spec).
  apply bind_Ok in H as ([o3 st3] & [-> H3]%assign_spec & [= <-]).
  exists fields. split; [done|]. cbn in *.
  rewrite <- (save_twice _ _ _ _ H1). cbn. rewrite <- (save_twice _ _ _ _ H2). done.
Qed.

(** What one poll does: it waits on with the table unchanged, ends with the row of
    the object failed or authorised, or raises and changes nothing. *)
Definition ended (o : object) (st st' : store) : Prop :=
  (exists reason, save (mkobj (pk o) (with_status FAILED reason (row o))) st = Ok st') \/
  (exists jwt dec fields, answered_with jwt dec /\ identity (payload dec) = Ok fields /\
     save (mkobj (pk o) (valid_row jwt fields (expires_at dec) (row o))) st = Ok st').

Definition poll_spec (w : waiting) (st : store) (res : store * outcome) : Prop :=
  match res.2 with
  | Next w' => res.1 = st /\ w_object w' = w_object w /\ w_elapsed w' = w_elapsed w + interval /\
               w_elapsed w' <= expires_in
  | Returned => ended (w_object w) st res.1
  | Raised e => res.1 = st
  end.

Lemma finish_poll_spec w reason st : poll_spec w st (finish (w_object w) FAILED reason st).
Proof.
  destruct (finish _ _ _ _) as [st' r] eqn:Hf. apply finish_spec in Hf as [[-> Hs]|[[e ->] ->]]; [|done].
  left. eauto.
Qed.

Lemma authorized_spec w n q response st : server n q = Ok response -> status_code response = 200 ->
  poll_spec w st (authorized (w_object w) response st).
Proof.
  intros Hn H200. unfold authorized.
  destruct (json response) as [v|e] eqn:Hj; cbn; [|done].
  destruct (getitem v "access_token") as [jwt|e] eqn:Ha; cbn; [|done].
  destruct (decode_jwt jwt) as [[dec|]|e] eqn:Hd; cbn; [| apply finish_poll_spec | done].
  destruct (store_token _ _ _ _) as [st'|e] eqn:Hs; [|done]. right.
  apply store_token_spec in Hs as (fields & Hf & Hs).
  destruct v as [| | | | | |body| | |]; try done. unfold getitem, dget_exn in Ha.
  destruct (dget "access_token" body) as [v|] eqn:Hb; [|done]. injection Ha as ->.
  destruct jwt as [| | | |jwt| | | | |]; try done.
  exists jwt, dec, fields. split_and!; [|done|done]. by exists n, q, response, body.
Qed.

Lemma sleep_poll_spec w st : poll_spec w st (sleep interval expires_in w st).
Proof.
  unfold sleep. destruct (interval <? 0); [done|].
  destruct (expires_in <? _) eqn:He; [apply finish_poll_spec|]. apply Z.ltb_ge in He. done.
Qed.

Lemma answered_spec w n q response st : server n q = Ok response ->
  poll_spec w st (answered interval expires_in w response st).
Proof.
  intros Hn. unfold answered. destruct (status_code response =? 200) eqn:H200.
  { apply Z.eqb_eq in H200. by eapply authorized_spec. }
  destruct (status_code response =? 400); [|apply finish_poll_spec].
  destruct (json response ≫= _) as [err|e]; [|done].
  destruct (py_eq _ _); [apply finish_poll_spec|].
  destruct (negb _); [apply finish_poll_spec | apply sleep_poll_spec].
Qed.

Lemma ask_spec w w' r : ask host server device_code w = (w', r) ->
  w_object w' = w_object w /\ w_elapsed w' = w_elapsed w /\
  (forall response, r = Ok response -> exists n q, server n q = Ok response).
Proof.
  unfold ask. destruct (truthy _).
  - intros [= <- <-]. split_and!; eauto.
  - destruct (get_sso_endpoint _ _ _ _) as [v|e]; intros [= <- <-]; (split_and!; [done..|]); [eauto | done].
Qed.

Lemma poll_meets_spec w st : poll_spec w st (poll w st).
Proof.
  unfold Lightspeed.poll. destruct (ask _ _ _ w) as [w' [response|e]] eqn:Ha;
    apply ask_spec in Ha as (Ho & He & Hr).
  - destruct (Hr _ eq_refl) as (n & q & Hn). pose proof (answered_spec w' n q response st Hn) as H.
    unfold poll_spec in *. by rewrite Ho, He in H.
  - destruct (unreachable _ _ _); [|done].
    pose proof (finish_poll_spec w' (LIGHTSPEED_LOGIN_VERIFICATION_FAILED (str_exn e)) st) as H.
    unfold poll_spec in *. rewrite He, Ho in H. by rewrite Ho.
Qed.




Lemma with_status_of s reason t : token_status (with_status s reason t) = VStr (status_value s).
Proof. unfold token_status, dget_none. cbn. by rewrite dget_dset_ne, dget_dset_eq. Qed.

Lemma ended_row o st st' : ended o st st' -> exists t, rows st' !! pk o = Some t /\
  st_user t = st_user (row o) /\
  (token_status t = VStr "failed" /\ st_token t = st_token (row o) /\ st_expires_at t = st_expires_at (row o) \/
   token_status t = VStr "valid" /\ exists jwt dec, answered_with jwt dec /\ st_token t = Some jwt /\
     st_expires_at t = expires_at dec).
Proof.
  intros [(reason & (_ & _ & ->)%save_spec)|(jwt & dec & fields & Ha & _ & (_ & _ & ->)%save_spec)];
    eexists; (split; [cbn; apply lookup_insert_eq|]); (split; [done|]).
  - left. by rewrite with_status_of.
  - right. unfold valid_row. rewrite with_status_of. split; [done|]. by exists jwt, dec.
Qed.

End wait_lemmas.

(** ** The program as a whole

    Requests of users, tasks that start and their polls, in any order; the SSO
    server may answer anything at any time. *)

Record system := mksystem {
  sys_store : store; sys_queue : list wait_request; sys_waiting : list (wait_request * waiting) }.

Section system.
Context (ConnectionError BaseHTTPError : exn -> bool) (str_exn : exn -> string) (host : string).

Definition secs (v : pyval) : Z := default 0 (as_int v).

Inductive step : system -> system -> Prop :=
| step_login server user st q ws st' task r :
    lightspeed_auth_login ConnectionError BaseHTTPError str_exn host server user st = (st', task, r) ->
    step (mksystem st q ws) (mksystem st' (q ++ option_list task) ws)
| step_logout user st q ws :
    step (mksystem st q ws) (mksystem (lightspeed_auth_logout user st).1 q ws)
| step_status now user st q ws st' r :
    lightspeed_auth_status now user st = Ok (st', r) ->
    step (mksystem st q ws) (mksystem st' q ws)
| step_start st q1 task q2 ws w st' :
    start_waiting (secure_token_id task) st = Some (Ok (w, st')) ->
    step (mksystem st (q1 ++ task :: q2) ws) (mksystem st' (q1 ++ q2) ((task, w) :: ws))
| step_drop st q1 task q2 ws :
    step (mksystem st (q1 ++ task :: q2) ws) (mksystem st (q1 ++ q2) ws)
| step_poll server st q ws1 task w ws2 st' res :
    poll ConnectionError BaseHTTPError str_exn host server (device_code task) (secs (interval task))
      (secs (expires_in task)) w st = (st', res) ->
    step (mksystem st q (ws1 ++ (task, w) :: ws2))
      (mksystem st' q (ws1 ++ match res with Next w => [(task, w)] | _ => [] end ++ ws2))
| step_delete_user user st q ws :
    step (mksystem st q ws) (mksystem (delete_user user st) q ws).

Definition initial (s : system) : Prop := rows (sys_store s) = ∅ /\ sys_queue s = [] /\ sys_waiting s = [].

(** ** The invariant *)

(** A valid token has a text. *)
Definition good (t : secure_token) : Prop := token_status t = VStr "valid" -> is_Some (st_token t).

Record tokens_ok (st : store) : Prop := {
  ok_wf : wf st;
  ok_good : forall i t, rows st !! i = Some t -> good t }.

Record system_ok (s : system) : Prop := {
  ok_store : tokens_ok (sys_store s);
  ok_waiting : forall p, p ∈ sys_waiting s -> pk (w_object p.2) < next_id (sys_store s) }.

Lemma good_with_status s reason t : s <> VALID -> good (with_status s reason t).
Proof. intros Hs. unfold good. rewrite with_status_of. by destruct s. Qed.

Lemma good_valid jwt fields e t : good (valid_row jwt fields e t).
Proof. intros _. by eexists. Qed.

Lemma ok_save o st st' : tokens_ok st -> pk o < next_id st -> good (row o) -> save o st = Ok st' ->
  tokens_ok st' /\ next_id st' = next_id st.
Proof.
  intros [W G] Ho Hg Hs. split; [split|].
  - by eapply wf_save.
  - apply save_spec in Hs as (_ & _ & ->). cbn. intros i t [[<- <-]|[_ H]]%lookup_insert_Some; eauto.
  - by apply save_spec in Hs as (_ & _ & ->).
Qed.

Lemma ok_assign f o st o' st' : tokens_ok st -> pk o < next_id st -> good (f (row o)) ->
  assign f o st = Ok (o', st') -> tokens_ok st' /\ next_id st' = next_id st /\ pk o' = pk o.
Proof. intros K Ho Hg [-> Hs]%assign_spec. by destruct (ok_save (mkobj (pk o) (f (row o))) st st' K Ho Hg Hs). Qed.

Lemma ok_delete o st : tokens_ok st -> tokens_ok (delete o st).
Proof. intros [W G]. split; [by apply wf_delete|]. cbn. intros i t [_ H]%lookup_delete_Some. eauto. Qed.

Lemma ok_delete_user u st : tokens_ok st -> tokens_ok (delete_user u st).
Proof. intros [W G]. split; [by apply wf_delete_user|]. cbn. intros i t [H _]%map_lookup_filter_Some. eauto. Qed.

Lemma ok_first p st o : tokens_ok st -> first p st = Some o -> pk o < next_id st /\ good (row o).
Proof. intros [W G] [H _]%first_elem. split; [by eapply wf_fresh | eauto]. Qed.

Lemma ok_get_or_create user st o st' : tokens_ok st ->
  get_or_create_lightspeed_secure_token user st = Ok (o, st') -> tokens_ok st' /\ pk o < next_id st' /\ next_id st <= next_id st'.
Proof.
  intros [W G]. unfold get_or_create_lightspeed_secure_token, get_or_create.
  destruct (matching _ st) as [|o1 [|o2 l]] eqn:Hm; [| |done].
  - intros (-> & _ & -> & W')%create_spec; [|done]. split_and!; [split; [done|] | cbn; lia | cbn; lia].
    cbn. intros i t [[<- <-]|[_ H]]%lookup_insert_Some; [|eauto]. intros Hs. by vm_compute in Hs.
  - intros [= <- <-]. assert (o1 ∈ matching (selects LIGHTSPEED_NAME LIGHTSPEED_TYPE (Some <$> Some user)) st) as Hin
      by (rewrite Hm; by left). apply matching_elem in Hin as [Hin _]. split_and!; [done | by eapply wf_fresh | lia].
Qed.

Lemma ok_login server user st st' task r : tokens_ok st ->
  lightspeed_auth_login ConnectionError BaseHTTPError str_exn host server user st = (st', task, r) ->
  tokens_ok st' /\ next_id st <= next_id st'.
Proof.
  intros K. unfold lightspeed_auth_login. destruct (lightspeed_login_request _ _ _ _ _ _ _) as [[st1 t1] r1] eqn:H.
  intros [= <- _ _]. revert H. unfold lightspeed_login_request.
  destruct (_ ≫= _) as [a|e]; [|by intros [= <- _ _]].
  destruct (get_or_create_lightspeed_secure_token user st) as [[o st2]|e] eqn:Hg; [|by intros [= <- _ _]].
  apply ok_get_or_create in Hg as (K2 & Ho & Hn); [|done].
  destruct (clear_lightspeed_auth_token o st2) as [[o3 st3]|e] eqn:Hc; [|by intros [= <- _ _]].
  apply ok_assign in Hc as (K3 & Hn3 & Hp3); [|done|done|by intros Hs; vm_compute in Hs].
  unfold update_secure_token_status. destruct (assign _ o3 st3) as [[o4 st4]|e] eqn:Hu; [|intros [= <- _ _]; split; [done | lia]].
  apply ok_assign in Hu as (K4 & Hn4 & _); [|done|lia|by apply good_with_status].
  intros H. assert (st1 = st4) as -> by (by case_match; [case_match|]; injection H as <- _ _).
  split; [done | lia].
Qed.

Lemma ok_logout user st : tokens_ok st ->
  tokens_ok (lightspeed_auth_logout user st).1 /\ next_id (lightspeed_auth_logout user st).1 = next_id st.
Proof.
  intros K. unfold lightspeed_auth_logout, lightspeed_logout_request.
  destruct (get_lightspeed_secure_token _ st) as [o|]; [|done]. split; [by apply ok_delete | done].
Qed.

Lemma ok_status now user st st' r : tokens_ok st -> lightspeed_auth_status now user st = Ok (st', r) ->
  tokens_ok st' /\ next_id st' = next_id st.
Proof.
  intros K. unfold lightspeed_auth_status, user_lightspeed_auth_status.
  destruct (get_lightspeed_secure_token _ st) as [o|] eqn:Ho; [|intros [= <- _]; done].
  intros ([st1 d] & ([o1 st2] & H & H2)%bind_Ok & [= -> _])%bind_Ok.
  assert (st2 = st') as ->.
  { destruct (truthy _); [|by injection H2 as -> _]. apply bind_Ok in H2 as (s & _ & H2). by injection H2 as -> _. }
  clear H2. revert H. unfold lightspeed_token_check_expiration.
  destruct (truthy _); [|by intros [= _ ->]]. intros (s & _ & H)%bind_Ok.
  destruct (_ && _); [|by injection H as _ ->].
  apply (ok_first _ st) in Ho as [Hp _]; [|done].
  apply ok_assign in H as (K' & Hn & _); [done..|]. by apply good_with_status.
Qed.

Lemma ok_start id st w st' : tokens_ok st -> start_waiting id st = Some (Ok (w, st')) ->
  tokens_ok st' /\ next_id st' = next_id st /\ pk (w_object w) < next_id st'.
Proof.
  intros K. unfold start_waiting. destruct (rows st !! id) as [t|] eqn:Ht; [|done].
  intros [= ([o st1] & H & [= <- <-])%bind_Ok]. pose proof (wf_fresh _ (ok_wf _ K) _ _ Ht) as Hi.
  apply ok_assign in H as (K' & Hn & Hp); [|done|done|by apply good_with_status].
  split_and!; [done | done |]. cbn. rewrite Hp, Hn. done.
Qed.

Lemma ok_poll server dc iv ex w st st' res : tokens_ok st -> pk (w_object w) < next_id st ->
  poll ConnectionError BaseHTTPError str_exn host server dc iv ex w st = (st', res) ->
  tokens_ok st' /\ next_id st' = next_id st /\ forall w', res = Next w' -> w_object w' = w_object w.
Proof.
  intros K Hp H. pose proof (poll_meets_spec ConnectionError BaseHTTPError str_exn host server dc iv ex w st) as S.
  rewrite H in S. destruct res as [w'| |e]; cbn in S.
  - destruct S as (-> & Ho & _). split_and!; [done..|]. by intros w1 [= <-].
  - destruct S as [(reason & Hs)|(jwt & dec & fields & _ & _ & Hs)]; eapply ok_save in Hs as [K' Hn]; try done.
    + by apply good_with_status.
    + apply good_valid.
  - by rewrite S.
Qed.

Lemma system_step_ok s s' : step s s' -> system_ok s -> system_ok s'.
Proof.
  intros H. destruct H as [server user st q ws st' task r Hl|user st q ws|now user st q ws st' r Hl
    |st q1 task q2 ws w st' Hl|st q1 task q2 ws|server st q ws1 task w ws2 st' res Hl|user st q ws];
    intros [K W]; cbn in *.
  - apply ok_login in Hl as [K' Hn]; [|done]. split; [done|]. intros p Hp. cbn. specialize (W p Hp). lia.
  - destruct (ok_logout user st K) as [K' Hn]. split; [done|]. intros p Hp. cbn -[lightspeed_auth_logout].
    rewrite Hn. by apply W.
  - apply ok_status in Hl as [K' Hn]; [|done]. split; [done|]. intros p Hp. cbn. rewrite Hn. by apply W.
  - apply ok_start in Hl as (K' & Hn & Hw); [|done]. split; [done|]. intros p [->|Hp]%elem_of_cons; [done|].
    cbn. rewrite Hn. by apply W.
  - by split.
  - apply ok_poll in Hl as (K' & Hn & Ho); [|done|apply (W (task, w)); set_solver]. split; [done|].
    intros p Hp. cbn in *. rewrite Hn. rewrite !elem_of_app in Hp. destruct Hp as [Hp|[Hp|Hp]].
    + apply W. set_solver.
    + destruct res as [w'| |e]; [|by apply elem_of_nil in Hp..]. apply list_elem_of_singleton in Hp as ->. cbn.
      rewrite (Ho w' eq_refl). apply (W (task, w)). set_solver.
    + apply W. set_solver.
  - split; [by apply ok_delete_user | done].
Qed.

Lemma initial_ok s : initial s -> system_ok s.
Proof.
  intros (Hr & _ & Hw). split.
  - split; [split|]; intros *; rewrite Hr; by rewrite !lookup_empty.
  - intros p. rewrite Hw. by intros ?%elem_of_nil.
Qed.

Lemma system_reachable_ok s0 s : initial s0 -> rtc step s0 s -> system_ok s.
Proof. intros Hi H. apply initial_ok in Hi. induction H as [|s1 s2 s3 H _ IH]; [done|]. apply IH. by eapply system_step_ok. Qed.

(** [C17] Whatever logins, logouts, status requests, polls and deletions of users come
    in whatever order, and whatever the SSO server answers: a user has one token of
    a name at most, a token belongs to a user that exists, and a token that counts
    as valid has a text. *)
Theorem tokens_invariant s0 s : initial s0 -> rtc step s0 s ->
  (forall i j t u, rows (sys_store s) !! i = Some t -> rows (sys_store s) !! j = Some u ->
     st_name t = st_name u -> st_user t = st_user u -> i = j) /\
  (forall i t, rows (sys_store s) !! i = Some t ->
     (forall u, st_user t = Some u -> u ∈ users (sys_store s)) /\
     (token_status t = VStr "valid" -> is_Some (st_token t))).
Proof.
  intros Hi H. pose proof (system_reachable_ok s0 s Hi H) as [[[Hf Hu Hn] G] _]. split.
  - intros i j t u Ht Hj Hname Huser. apply (Hu i j t u Ht Hj). by apply same_key_spec.
  - intros i t Ht. split; [|by apply (G i)]. intros u Hs. specialize (Hf i t Ht). unfold fields_valid in Hf.
    rewrite Hs in Hf. rewrite !andb_true_iff in Hf. destruct Hf as [[_ Hf] _]. by apply bool_decide_eq_true in Hf.
Qed.
End system.

(** ** The form of a token *)

Lemma url_no_dot pad s : str_forall (fun c => negb (bool_decide (c = "."%char))) (urlsafe_b64encode pad s) = true.
Proof.
  unfold urlsafe_b64encode. rewrite str_forall_map. apply encode_forall with (n := String.length s); [|done|lia].
  intros v Hv. pose proof (below_64 (fun v => negb (bool_decide (to_url_char (alphabet v) = "."%char))) ltac:(by vm_compute) v Hv).
  done.
Qed.

(** A token made as the standard says, of two JSON texts in base64 for URLs,
    with or without padding, and a signature, is read back: header, payload and the
    time of the claim [exp], if there is one. *)
Theorem jwt_roundtrip pad header_text payload_text signature h d exp :
  utf8_valid header_text = true -> utf8_valid payload_text = true ->
  json_loads header_text = Ok h -> json_loads payload_text = Ok (VDict d) ->
  str_contains "." signature = false ->
  match dget "exp" d with
  | Some (VInt t) => 0 <= t <= 253402300799 /\ exp = Some t
  | None => exp = None
  | _ => False
  end ->
  decode_jwt (VStr (urlsafe_b64encode pad header_text +:+ "." +:+ urlsafe_b64encode pad payload_text
                    +:+ "." +:+ signature)) = Ok (Some (mkjwt h (VDict d) exp)).
Proof.
  intros Hh Hp Jh Jp Hs Hexp. unfold decode_jwt. cbn [as_str mbind res_bind].
  pose proof (url_no_dot pad header_text) as N1. pose proof (url_no_dot pad payload_text) as N2.
  assert (forall s, "." +:+ s = String "." s) as E by done. rewrite !E. rewrite split_no_char by done. rewrite split_no_char by done.
  rewrite split_no_sep by done.
  rewrite !decode_part by done. rewrite Jh, Jp. cbn [mbind res_bind]. unfold vget, vget_default. cbn [as_dict mbind res_bind].
  destruct (dget "exp" d) as [[| |t| | | | | | |]|]; try done; cbn.
  - destruct Hexp as [Ht ->]. unfold fromtimestamp.
    replace ((-62135596800 <=? t) && (t <=? 253402300799)) with true; [done|].
    symmetry. apply andb_true_iff. rewrite !Z.leb_le. lia.
  - by rewrite Hexp.
Qed.

(** ** The status of a user *)

Lemma status_missing now user st : get_lightspeed_secure_token (Some user) st = None ->
  lightspeed_auth_status now user st = Ok (st, (200, [("status", VStr "missing")])).
Proof. intros H. unfold lightspeed_auth_status, user_lightspeed_auth_status. by rewrite H. Qed.

Lemma dset_nonempty k v (d : pydict) : dset k v d <> [].
Proof. destruct d as [|[k' v'] d]; cbn; [done|]. by case_bool_decide. Qed.

(** A valid token whose time is over is reported and stored as expired, any other
    as it is. *)
Lemma auth_status_spec now user st o s : wf st ->
  get_lightspeed_secure_token (Some user) st = Some o -> dget "status" (metadata_of (row o)) = Some (VStr s) ->
  exists st' data, user_lightspeed_auth_status now user st = Ok (st', data) /\
    if bool_decide (s = "valid") && is_expired now (row o) then
      st' = set_rows (<[pk o := with_status EXPIRED LIGHTSPEED_TOKEN_EXPIRED (row o)]> (rows st)) st /\
      dget "status" data = Some (VStr "expired")
    else st' = st /\ dget "status" data = Some (VStr s).
Proof.
  intros W Ho Hs. unfold user_lightspeed_auth_status. rewrite Ho.
  assert (metadata_of (row o) <> []) as Hne by (by intros E; rewrite E in Hs).
  assert (forall m : pydict, m <> [] -> truthy (VDict m) = true) as Htr by (by intros [|]).
  unfold lightspeed_token_check_expiration. rewrite Htr by done.
  assert (dget_exn "status" (metadata_of (row o)) = Ok (VStr s)) as Hst by (unfold dget_exn; by rewrite Hs).
  rewrite Hst. cbn [mbind res_bind]. change (py_eq (VStr s) _) with (bool_decide (s = "valid")).
  destruct (bool_decide (s = "valid") && is_expired now (row o)).
  - apply first_elem in Ho as [Ho _]. unfold update_secure_token_status, assign.
    rewrite save_Ok; cbn [row pk]; last first.
    { intros j u Hj Hk. apply (wf_unique _ W j (pk o) u (row o) Hj Ho). apply same_key_spec in Hk as [Hk1 Hk2]. by apply same_key_spec. }
    { apply (wf_fields _ W _ _ Ho). }
    cbn [mbind res_bind row]. assert (metadata_of (with_status EXPIRED LIGHTSPEED_TOKEN_EXPIRED (row o)) <> []) as Hn.
    { apply dset_nonempty. }
    rewrite Htr by done. unfold dget_exn. cbn. rewrite dget_dset_ne, dget_dset_eq by done. cbn. eauto.
  - cbn [mbind res_bind]. rewrite Htr, Hst by done. cbn. eauto.
Qed.

(** ** Late polls

    The object of a task is as old as the task: whatever has happened to the row
    since, a poll that fails writes the old token back. *)
Theorem late_failure_overwrites ConnectionError BaseHTTPError str_exn host server dc iv ex w st st' :
  poll ConnectionError BaseHTTPError str_exn host server dc iv ex w st = (st', Returned) ->
  exists t, rows st' !! pk (w_object w) = Some t /\
    (token_status t = VStr "failed" -> st_token t = st_token (row (w_object w))).
Proof.
  intros H. pose proof (poll_meets_spec ConnectionError BaseHTTPError str_exn host server dc iv ex w st) as S.
  rewrite H in S. cbn in S. apply ended_row in S as (t & Ht & _ & Hcase). exists t. split; [done|].
  intros Hf. destruct Hcase as [(_ & Hs & _)|(Hv & _)]; [done | congruence].
Qed.

(** ** Examples *)

Module Samples.
(** JSON with single quotes. *)
Definition quoted (s : string) : string := str_map (subst_char single_quote double_quote) s.

Definition sample_header : string := quoted "{'alg': 'none'}".
Definition sample_payload : string := quoted
  "{'exp': 2000, 'organization': {'id': '1', 'account_number': '2'}, 'preferred_username': 'jdoe', 'given_name': 'J', 'family_name': 'D', 'email': 'j@d'}".
Definition sample_jwt : string :=
  urlsafe_b64encode false sample_header +:+ "." +:+ urlsafe_b64encode false sample_payload +:+ "." +:+ "sig".

Definition connection_error : exn := OtherException "ConnectionError".
Definition is_connection_error (e : exn) : bool :=
  match e with OtherException n => bool_decide (n = "ConnectionError") | _ => false end.
Definition no_error (e : exn) : bool := false.
Definition str_exn (e : exn) : string := "error".

Definition config : pydict := [("device_authorization_endpoint", VStr "device"); ("token_endpoint", VStr "token")].
Definition device (with_interval : bool) : pydict :=
  ([("device_code", VStr "dc"); ("user_code", VStr "uc"); ("verification_uri", VStr "u");
    ("verification_uri_complete", VStr "uu"); ("expires_in", VInt 20)] ++
   if with_interval then [("interval", VInt 5)] else [])%list.

(** The server: what it answers to a question about the token is [answer]. *)
Definition sso (with_interval : bool) (answer : Res http_response) (n : nat) (q : http_request) : Res http_response :=
  match q with
  | HttpGet _ => Ok (mkhttp 200 (Ok (VDict config)) "OK" "")
  | HttpPost url _ => if py_eq url (VStr "device") then Ok (mkhttp 200 (Ok (VDict (device with_interval))) "OK" "")
                      else answer
  end.

Definition refusal (error : string) : Res http_response :=
  Ok (mkhttp 400 (Ok (VDict [("error", VStr error)])) "Bad Request" "").
Definition grant : Res http_response := Ok (mkhttp 200 (Ok (VDict [("access_token", VStr sample_jwt)])) "OK" "").

Definition empty : store := mkstore ∅ 1 {[7]}.

Definition login (with_interval : bool) (st : store) :=
  lightspeed_auth_login is_connection_error no_error str_exn "sso" (sso with_interval grant) 7 st.
Definition wait_for (answer : Res http_response) (others : nat -> store -> store) (st : store) :=
  lightspeed_wait_for_authorization is_connection_error no_error str_exn "sso" (sso true answer) (VStr "dc") 5 20
    others 5 1 st.
Definition quiet (i : nat) (st : store) : store := st.

Definition token_of (st : store) : option (pyval * option string) :=
  (fun t => (token_status t, st_token t)) <$> (rows st !! 1).

Example login_leaves_pending : token_of (login true empty).1.1 = Some (VStr "pending", None).
Proof. by vm_compute. Qed.

Example authorised : (r ← wait_for grant quiet (login true empty).1.1; token_of r.1) = Some (VStr "valid", Some sample_jwt).
Proof. by vm_compute. Qed.

(** With 20 seconds and an interval of 5 the bound is 5 polls, and all are needed. *)
Example four_polls_are_not_enough :
  lightspeed_wait_for_authorization is_connection_error no_error str_exn "sso" (sso true (refusal "authorization_pending"))
    (VStr "dc") 5 20 quiet 4 1 (login true empty).1.1 = None.
Proof. by vm_compute. Qed.

Example times_out : (r ← wait_for (refusal "authorization_pending") quiet (login true empty).1.1; token_of r.1)
  = Some (VStr "failed", None).
Proof. by vm_compute. Qed.

(** A read time-out is neither of the two exceptions that are caught. *)
Example read_timeout_stays_pending :
  (r ← wait_for (Err (OtherException "ReadTimeout")) quiet (login true empty).1.1; token_of r.1) = Some (VStr "pending", None).
Proof. by vm_compute. Qed.

(** The first login is given up; a second one succeeds while the task of the first
    still polls.  When the first code expires, the user is logged out. *)
Definition second_login (i : nat) (st : store) : store :=
  match i with
  | O => default st (fst <$> wait_for grant quiet (login true st).1.1)
  | _ => st
  end.

Example second_login_lost :
  token_of (second_login 0 (login true empty).1.1) = Some (VStr "valid", Some sample_jwt) /\
  (r ← wait_for (refusal "expired_token") second_login (login true empty).1.1; token_of r.1) = Some (VStr "failed", None).
Proof. by vm_compute. Qed.

(** Logging out while the task waits does not last. *)
Definition logout (i : nat) (st : store) : store := (lightspeed_auth_logout 7 st).1.

Example logout_undone :
  token_of (logout 0 (login true empty).1.1) = None /\
  (r ← wait_for grant logout (login true empty).1.1; token_of r.1) = Some (VStr "valid", Some sample_jwt).
Proof. by vm_compute. Qed.

(** A response without [interval], which RFC 8628 allows, fails the login after the
    token was made pending, and no task will ever end it. *)
Example login_without_interval :
  (login false empty).2 = Err (KeyError "interval") /\ (login false empty).1.2 = None /\
  token_of (login false empty).1.1 = Some (VStr "pending", None).
Proof. by vm_compute. Qed.
End Samples.

(** ** Witnesses *)

Import Samples.

Definition logged_in : store := (login true empty).1.1.
Definition fresh_token : secure_token :=
  mktoken LIGHTSPEED_NAME LIGHTSPEED_TYPE (Some 7) None
    (Some [("status", VStr "pending"); ("status_reason", VStr "")]) None.


Definition initial_system : system := mksystem empty [] [].

Lemma tokens_invariant_witness :
  let s := mksystem logged_in [mkrequest 1 (VStr "dc") (VInt 5) (VInt 20)] [] in
  rows (sys_store s) !! 1 = Some fresh_token /\ 7 ∈ users (sys_store s).
Proof.
  intros s. assert (rows (sys_store s) !! 1 = Some fresh_token) as Hrow by (by vm_compute).
  split; [done|].
  refine (proj1 (proj2 (tokens_invariant is_connection_error no_error str_exn "sso" initial_system s _ _)
    1 fresh_token Hrow) 7 _); [done | | done].
  apply rtc_once. refine (step_login _ _ _ _ (sso true grant) 7 empty [] [] logged_in
    (Some (mkrequest 1 (VStr "dc") (VInt 5) (VInt 20))) (login true empty).2 _).
  by vm_compute.
Defined.

Definition header_value : pyval := VDict [("alg", VStr "none")].
Definition payload_value : pydict := match json_loads sample_payload with Ok (VDict d) => d | _ => [] end.

Lemma jwt_roundtrip_witness :
  decode_jwt (VStr sample_jwt) = Ok (Some (mkjwt header_value (VDict payload_value) (Some 2000))).
Proof.
  refine (jwt_roundtrip false sample_header sample_payload "sig" header_value payload_value (Some 2000)
    _ _ _ _ _ _); by vm_compute.
Defined.
