(* ===== verification/Sources.v ===== *)
(** Sources: [api/source/model.py], [api/source/serializer.py] and the deletion of
    [api/source/view.py].

    A row is the dict of its columns beside the credentials linked to it.  The
    framework's parsing of a request is not modelled: a request is the dict of
    values that came out of the declared fields, and [parsed] states what the
    framework documents about them.  FQDN syntax is a third-party package's, a
    parameter here. *)
From stdpp Require Import base gmap sets list strings relations.
From Stdlib Require Import Ascii ZArith Lia.
From S2P Require Import Prelude PyStr PyNum PyVal Merge NetworkUtils ApiCommon.

Open Scope string_scope.
Open Scope Z_scope.

(** ** Messages *)

Definition SOURCE_NAME_ALREADY_EXISTS (name : pyval) : string :=
  "Source with name=" +:+ py_str name +:+ " already exists".
Definition SOURCE_NAME_VALIDATION : string := "Source must have printable name.".
Definition SOURCE_HOSTS_CANNOT_BE_EMPTY : string := "List cannot be empty.".
Definition SOURCE_HOST_MUST_BE_JSON_ARRAY : string := "Must be a JSON array of strings".
Definition SOURCE_CRED_WRONG_TYPE : string := "Credentials must have the same type as source.".
Definition SOURCE_TYPE_REQ : string :=
  "A value for source_type must be provided to create a source.".
Definition SOURCE_TYPE_INV : string :=
  "A source_type must not be provided when updating a source.".
Definition SOURCE_CRED_IDS_INV : string := "Credential identifiers must be integer values.".
Definition SOURCE_MIN_CREDS : string := "Source must have at least one set of credentials.".
Definition SOURCE_INVALID_SCHEMA_PROXY_URL : string :=
  "Enter a valid proxy URL including the protocol, such as 'http://host:port'.".
Definition SOURCE_INVALID_HOST_PROXY_URL : string := "Enter a valid proxy URL with a valid host.".
Definition SOURCE_INVALID_PORT_PROXY_URL : string := "Port must be in range [1, 65535].".
Definition NET_INVALID_HOST (address : string) : string := address +:+ " is invalid host".
Definition NET_INVALID_PORT : string :=
  "Source of type network must have ssh port in range [0, 65535]".
Definition INVALID_PORT : string := "Port must be an integer.".
Definition NET_HC_DO_NOT_EXIST (id : Z) : string :=
  "Host credential with id=" +:+ int_repr id +:+ " could not be found in database.".
Definition NET_SSL_OPTIONS_NOT_ALLOWED (source_type options : string) : string :=
  "Invalid SSL options for network source: " +:+ options.
Definition INVALID_OPTIONS (source_type options : string) : string :=
  "Invalid options for '" +:+ source_type +:+ "': " +:+ options +:+ ".".
Definition SOURCE_ONE_HOST : string := "This source must have a single host.".
Definition SOURCE_EXCLUDE_HOSTS_INCLUDED : string :=
  "The exclude_hosts option is not valid for this source.".
Definition SOURCE_ONE_CRED : string := "This source must have a single credential.".
Definition UNKNOWN_SOURCE_TYPE : string := "Source type invalid.".

(** ** Addresses

    [ipaddress.ip_network(address, strict=False)] on text. *)

Definition max_prefix (version : Z) : Z := if version =? 4 then 32 else 128.

(** [_prefix_from_prefix_string] *)
Definition prefix_string (version : Z) (s : string) : bool :=
  negb (bool_decide (s = "")) && str_forall is_digit s && (digits_value s 0 <=? max_prefix version).

Definition ipv4_value (s : string) : Z :=
  foldl (fun acc o => acc * 256 + digits_value o 0) 0 (str_split "." s).

(** [_prefix_from_ip_int]: a mask is ones followed by zeroes. *)
Definition is_mask (z : Z) : bool :=
  existsb (fun k => z =? 2 ^ 32 - 2 ^ k) (seqZ 0 33).

(** [IPv4Network._make_netmask]: a prefix length, a netmask or a hostmask. *)
Definition valid_netmask (s : string) : bool :=
  prefix_string 4 s ||
  (is_valid_ipv4_address s &&
   (is_mask (ipv4_value s) || is_mask (2 ^ 32 - 1 - ipv4_value s))).

Definition is_valid_ip (address : string) : bool :=
  is_valid_ipv4_address address || is_valid_ipv6_address address.

Definition is_valid_cidr (address : string) : bool :=
  match str_split "/" address with
  | [addr] => is_valid_ip addr
  | [addr; mask] => (is_valid_ipv4_address addr && valid_netmask mask) ||
                    (is_valid_ipv6_address addr && prefix_string 6 mask)
  | _ => false
  end.

(** [\d+] and what follows it. *)
Definition digits (s : string) : option string :=
  match lstrip_by is_digit s with
  | rest => if bool_decide (rest = s) then None else Some rest
  end.

(** [\[\d+:\d+\]] at the start of [s]. *)
Definition range_here (s : string) : bool :=
  match s with
  | String "[" s =>
      match digits s with
      | Some (String ":" s) => match digits s with Some (String "]" _) => true | _ => false end
      | _ => false
      end
  | _ => false
  end.

(** [re.search(r"\[\d+:\d+\]", s)] *)
Fixpoint has_range (s : string) : bool :=
  range_here s || match s with "" => false | String _ s => has_range s end.

Definition is_valid_ansible_range (address : string) : bool :=
  has_range address && negb (str_contains "/" address).

Section fqdn.
(** [FQDN(address).is_valid] of the package [fqdn]. *)
Context (FQDN_is_valid : string -> Res bool).

Definition is_valid_hostname (address : string) : Res bool :=
  try_except (FQDN_is_valid address) is_value_error (fun _ => Ok false).

Definition classify_and_validate_address (address : string) : Res (list string) :=
  if is_valid_ip address then Ok [address]
  else if is_valid_cidr address then Ok [address]
  else hostname ← is_valid_hostname address;
       if (hostname : bool) then Ok [address]
       else if is_valid_ansible_range address then Ok [address]
       else Err (invalid (NET_INVALID_HOST address)).

Definition address_step (st : list string * list string) (address : string) :
    Res (list string * list string) :=
  match classify_and_validate_address address with
  | Ok l => Ok ((st.1 ++ l)%list, st.2)
  | Err (ValidationError detail) => Ok (st.1, (st.2 ++ concat detail.*2)%list)
  | Err e => Err e
  end.

Definition text_of (v : pyval) : option string := match v with VStr s => Some s | _ => None end.

Definition validate_addresses (addresses : pyval) : Res pyval :=
  match addresses with
  | VList l =>
      let l := List.filter truthy l in
      match l with
      | [] => Err (invalid SOURCE_HOSTS_CANNOT_BE_EMPTY)
      | _ =>
          match mapM text_of l with
          | None => Err (invalid SOURCE_HOST_MUST_BE_JSON_ARRAY)
          | Some ss =>
              st ← foldM address_step ([], []) ss;
              match st with
              | (normalized, []) => Ok (VList (VStr <$> normalized))
              | (_, errors) => Err (ValidationError [("", errors)])
              end
          end
      end
  | _ => Err (invalid SOURCE_HOST_MUST_BE_JSON_ARRAY)
  end.
End fqdn.

(** ** The model *)

Record credential := mkcred { c_id : Z; c_type : string }.

#[export] Instance credential_eq_dec : EqDecision credential.
Proof. solve_decision. Defined.

Record source := mksource { columns : pydict; credentials : list credential }.

Definition get (k : string) (s : source) : pyval := dget_none k (columns s).
Definition set (k : string) (v : pyval) (s : source) : source :=
  mksource (dset k v (columns s)) (credentials s).
Definition set_credentials (l : list credential) (s : source) : source :=
  mksource (columns s) (dedup l).

Definition source_name (s : source) : string :=
  match get "name" s with VStr n => n | _ => "" end.

(** A row before anything is assigned: the columns and their defaults. *)
Definition new_source : pydict :=
  [("name", VNone); ("source_type", VNone); ("port", VNone); ("ssl_protocol", VNone);
   ("ssl_cert_verify", VNone); ("disable_ssl", VNone); ("use_paramiko", VNone);
   ("hosts", VList []); ("exclude_hosts", VNone); ("most_recent_connect_scan", VNone);
   ("proxy_url", VNone)].

Definition SSL_PROTOCOL_CHOICES : list string := ["SSLv23"; "TLSv1"; "TLSv1_1"; "TLSv1_2"].
Definition SSL_OPTIONS : list string := ["ssl_cert_verify"; "ssl_protocol"; "disable_ssl"; "use_paramiko"].

(** [Source.options]: the options that are set. *)
Definition source_options (s : source) : pydict :=
  List.filter (fun kv => negb (is_none kv.2))
    ((fun k => (k, get k s)) <$> ["ssl_protocol"; "ssl_cert_verify"; "disable_ssl"; "use_paramiko"]).

Definition get_exclude_hosts (s : source) : pyval := py_or (get "exclude_hosts" s) (VList []).

Definition get_ssl_options (s : source) : bool * pyval :=
  let ssl_enabled := negb (truthy (get "disable_ssl" s)) in
  (ssl_enabled,
   if ssl_enabled
   then if is_none (get "ssl_cert_verify" s) then VBool true else get "ssl_cert_verify" s
   else VBool false).

(** ** Field hooks *)

Definition MAX_PORT : Z := 65536.
Definition MIN_PORT : Z := 0.

(** [ValidStringChoiceField.to_internal_value] *)
Definition choice_to_internal_value (choices : list string) (data : pyval) : Res pyval :=
  let values_str := str_join "," choices in
  match data with
  | VStr s =>
      if bool_decide (s = "") then
        Err (invalid ("This field may not be blank. Valid values are " +:+ values_str +:+ "."))
      else if bool_decide (s ∈ choices) then Ok data
      else Err (invalid (s +:+ ", is an invalid choice. Valid values are " +:+ values_str +:+ "."))
  | _ => Err (invalid ("Must be a string. Valid values are " +:+ values_str +:+ "."))
  end.

(** [CredentialsField.to_internal_value] *)
Definition credential_to_internal_value (table : gmap Z credential) (data : pyval) : Res credential :=
  match as_int data with
  | None => Err (invalid SOURCE_CRED_IDS_INV)
  | Some i => from_option (invalid (NET_HC_DO_NOT_EXIST i)) (table !! i)
  end.

(** [str.isprintable] on ASCII; other bytes are taken as printable. *)
Definition printable (s : string) : bool :=
  str_forall (fun c => (32 <=? code c)%N && negb (code c =? 127)%N) s.

Definition validate_name (name : pyval) : Res pyval :=
  match name with
  | VStr s => if printable s then Ok name else Err (invalid SOURCE_NAME_VALIDATION)
  | _ => Err (invalid SOURCE_NAME_VALIDATION)
  end.

Definition validate_port (port : pyval) : Res pyval :=
  if is_none port then Ok port else
  match as_int port with
  | None => Err (invalid INVALID_PORT)
  | Some p => if (p <? MIN_PORT) || (MAX_PORT <? p) then Err (invalid NET_INVALID_PORT) else Ok port
  end.

Definition validate_credentials (l : list credential) : Res (list credential) :=
  match l with [] => Err (invalid SOURCE_MIN_CREDS) | _ => Ok l end.

(** ** Proxy URLs: [urllib.parse.urlparse] *)

Definition scheme_char (c : ascii) : bool :=
  is_digit c || is_upper c || is_upper (ascii_of_N (code c - 32)) || char_in c "+-.".
Definition is_letter (c : ascii) : bool := is_upper c || is_upper (ascii_of_N (code c - 32)).

(** The text before the first of [/?#]. *)
Fixpoint until_delimiter (s : string) : string :=
  match s with
  | "" => ""
  | String c s => if char_in c "/?#" then "" else String c (until_delimiter s)
  end.

Record parse_result := mkparse { scheme : string; netloc : string }.

(** [_check_bracketed_host] *)
Definition bracketed_host_ok (host : string) : bool :=
  if str_startswith "v" host then
    match split_once "." (str_drop 1 host) with
    | Some (version, rest) => negb (bool_decide (version = "")) && str_forall is_hex version &&
                              negb (bool_decide (rest = ""))
    | None => false
    end
  else is_valid_ipv6_address host.

Definition urlparse (url : string) : Res parse_result :=
  let url := lstrip_by (fun c => (code c <=? 32)%N) url in
  let url := str_replace (chr 10) "" (str_replace (chr 13) "" (str_replace (chr 9) "" url)) in
  let '(scheme, rest) :=
    match split_once ":" url with
    | Some (String c s, rest) => if is_letter c && str_forall scheme_char s
                                 then (str_lower (String c s), rest) else ("", url)
    | _ => ("", url)
    end in
  if str_startswith "//" rest then
    let netloc := until_delimiter (str_drop 2 rest) in
    if xorb (str_contains "[" netloc) (str_contains "]" netloc) then Err ValueError
    else if str_contains "[" netloc &&
            negb (bracketed_host_ok (str_partition "]" (str_partition "[" netloc).2).1.1)
    then Err ValueError
    else Ok (mkparse scheme netloc)
  else Ok (mkparse scheme "").

(** [_hostinfo]: the host and the text of the port. *)
Definition hostinfo (p : parse_result) : string * string :=
  let hostinfo := (str_rpartition "@" (netloc p)).2 in
  match split_once "[" hostinfo with
  | Some (_, bracketed) =>
      let '(hostname, _, port) := str_partition "]" bracketed in (hostname, (str_partition ":" port).2)
  | None => let '(hostname, _, port) := str_partition ":" hostinfo in (hostname, port)
  end.

Definition url_hostname (p : parse_result) : string :=
  let '(hostname, percent, zone) := str_partition "%" (hostinfo p).1 in
  str_lower hostname +:+ percent +:+ zone.

Definition url_port (p : parse_result) : Res (option Z) :=
  match (hostinfo p).2 with
  | "" => Ok None
  | port => if str_forall is_digit port
            then let z := digits_value port 0 in if z <=? 65535 then Ok (Some z) else Err ValueError
            else Err ValueError
  end.

(** [^[a-zA-Z0-9.-]+$] *)
Definition host_char (c : ascii) : bool := is_letter c || is_digit c || char_in c ".-".

Definition is_valid_proxy_url_format (proxy_url : string) : Res unit :=
  parsed ← urlparse proxy_url;
  if negb (bool_decide (scheme parsed ∈ ["http"; "https"])) then
    Err (invalid SOURCE_INVALID_SCHEMA_PROXY_URL)
  else if bool_decide (url_hostname parsed = "") then Err (invalid SOURCE_INVALID_HOST_PROXY_URL)
  else if negb (str_forall host_char (url_hostname parsed)) then
    Err (invalid SOURCE_INVALID_HOST_PROXY_URL)
  else port ← url_port parsed;
       match port with
       | Some p => if (MIN_PORT <? p) && (p <? MAX_PORT) then Ok tt
                   else Err (invalid SOURCE_INVALID_PORT_PROXY_URL)
       | None => Err (invalid SOURCE_INVALID_PORT_PROXY_URL)
       end.

Definition validate_proxy_url (value : pyval) : Res pyval :=
  match value with
  | VStr s => if bool_decide (s = "") then Ok value else _ ← is_valid_proxy_url_format s; Ok value
  | VNone => Ok value
  | _ => Err Unsupported
  end.

Example proxy_examples :
  is_ok (validate_proxy_url (VStr "http://proxy.example.com:3128")) = true /\
  is_ok (validate_proxy_url (VStr "https://user:pw@10.0.0.1:65535/path")) = true /\
  validate_proxy_url (VStr "ftp://proxy:21") = Err (invalid SOURCE_INVALID_SCHEMA_PROXY_URL) /\
  validate_proxy_url (VStr "http://proxy") = Err (invalid SOURCE_INVALID_PORT_PROXY_URL) /\
  validate_proxy_url (VStr "http://pr_xy:80") = Err (invalid SOURCE_INVALID_HOST_PROXY_URL) /\
  validate_proxy_url (VStr "http://proxy:0") = Err (invalid SOURCE_INVALID_PORT_PROXY_URL) /\
  validate_proxy_url (VStr "http://proxy:70000") = Err ValueError /\
  validate_proxy_url (VStr "http://proxy:port") = Err ValueError.
Proof. vm_compute. done. Qed.

(** ** Requests *)

(** The values of a request beside its credentials, [None] when they are left out. *)
Record attrs := mkattrs { data : pydict; cred_attr : option (list credential) }.
Definition with_data (f : pydict -> pydict) (a : attrs) : attrs := mkattrs (f (data a)) (cred_attr a).

Definition HTTP_SOURCE_TYPES : list string := ["rhacs"; "ansible"; "openshift"; "satellite"; "vcenter"].
Definition SSH_SOURCE_TYPES : list string := ["network"].

Definition type_in (v : pyval) (l : list string) : bool :=
  match v with VStr s => bool_decide (s ∈ l) | _ => false end.

Definition _check_for_disallowed_fields (options : pydict) (message : string -> string -> string)
    (valid_fields : list string) (source_type : pyval) : Res unit :=
  let invalid_options := List.filter (fun o => negb (bool_decide (o ∈ valid_fields))) (dkeys options) in
  match invalid_options with
  | [] => Ok tt
  | _ => Err (invalid_field "options" (message (py_str source_type) (str_join ", " invalid_options)))
  end.

Definition valid_ssh_options : list string := ["use_paramiko"].
Definition valid_http_options : list string := ["ssl_cert_verify"; "ssl_protocol"; "disable_ssl"].

Definition setdefault (k : string) (v : pyval) (d : pydict) : pydict := if dmem k d then d else dset k v d.

(** [validate_opts]: the options, with the default it sets in them. *)
Definition validate_opts (options : pydict) (source_type : pyval) (apply_defaults : bool) : Res pydict :=
  if type_in source_type HTTP_SOURCE_TYPES then
    let options := if apply_defaults then setdefault "ssl_cert_verify" (VBool true) options else options in
    _ ← _check_for_disallowed_fields options INVALID_OPTIONS valid_http_options source_type; Ok options
  else if type_in source_type SSH_SOURCE_TYPES then
    _ ← _check_for_disallowed_fields options NET_SSL_OPTIONS_NOT_ALLOWED valid_ssh_options source_type;
    Ok options
  else Err NotImplementedError.

Definition update_option (options : pydict) (s : source) (ssl_option : string) : source :=
  let value := dget_none ssl_option options in
  if is_none value then s else set ssl_option value s.
Definition update_options (options : pydict) (s : source) : source :=
  foldl (update_option options) s SSL_OPTIONS.

Definition check_credential_type (source_type : pyval) (c : credential) : Res unit :=
  if py_eq (VStr (c_type c)) source_type then Ok tt
  else Err (invalid_field "source_type" SOURCE_CRED_WRONG_TYPE).

Fixpoint check_credential_types (source_type : pyval) (l : list credential) : Res unit :=
  match l with
  | [] => Ok tt
  | c :: l => _ ← check_credential_type source_type c; check_credential_types source_type l
  end.

(** The hosts are a list of strings, or were left out. *)
Definition hosts_error (hosts_list : pyval) : Res bool :=
  match hosts_list with
  | VNone | VList [] => Ok false
  | VList [VStr h] => Ok (str_contains "[" h || str_contains "/" h)
  | VList (_ :: _ :: _) => Ok true
  | _ => Err Unsupported
  end.

Definition _validate_number_hosts_and_credentials (hosts_list source_type : pyval)
    (creds : option (list credential)) (exclude_hosts_list : pyval) : Res unit :=
  bad_hosts ← hosts_error hosts_list;
  if (bad_hosts : bool) then Err (invalid_field "hosts" SOURCE_ONE_HOST)
  else if negb (is_none exclude_hosts_list) then
    Err (invalid_field "exclude_hosts" SOURCE_EXCLUDE_HOSTS_INCLUDED)
  else match creds with
       | Some (_ :: _ :: _) => Err (invalid_field "credentials" SOURCE_ONE_CRED)
       | Some [c] => check_credential_type source_type c
       | _ => Ok tt
       end.

(** The columns of [self.instance], empty when there is none. *)
Definition instance_columns (instance : option source) : pydict :=
  match instance with Some s => columns s | None => [] end.

Definition _set_default_port (instance : option source) (port_number : Z) (a : attrs) : attrs :=
  if truthy (get_from_object_or_dict (instance_columns instance) (data a) "port") then a
  else with_data (dset "port" (VInt port_number)) a.

Definition validate_network_source (instance : option source) (a : attrs) (source_type : pyval) :
    Res attrs :=
  let a := _set_default_port instance 22 a in
  _ ← check_credential_types source_type (default [] (cred_attr a)); Ok a.

(** [initial_data]: the keys of the request. *)
Definition validate_http_source (instance : option source) (initial_data : list string) (a : attrs)
    (source_type : pyval) : Res attrs :=
  let hosts_list := dget_none "hosts" (data a) in
  let exclude_hosts_list := dget_none "exclude_hosts" (data a) in
  let default_port := if py_eq source_type (VStr "openshift") then 6443 else 443 in
  let a := _set_default_port instance default_port a in
  let a := match instance with
           | None => if bool_decide ("ssl_cert_verify" ∈ initial_data) then a
                     else with_data (dset "ssl_cert_verify" (VBool true)) a
           | Some _ => a
           end in
  _ ← _validate_number_hosts_and_credentials hosts_list source_type (cred_attr a) exclude_hosts_list;
  Ok a.

Definition validate (instance : option source) (initial_data : list string) (a : attrs) : Res attrs :=
  let source_type := get_from_object_or_dict (instance_columns instance) (data a) "source_type" in
  if type_in source_type SSH_SOURCE_TYPES then validate_network_source instance a source_type
  else if type_in source_type HTTP_SOURCE_TYPES then
    validate_http_source instance initial_data a source_type
  else Err (invalid_field "source_type" UNKNOWN_SOURCE_TYPE).

(** ** Saving *)

Abbreviation sources := (gmap Z source).

(** [Source.objects.create( **values)] *)
Definition objects_create (values : pydict) : Res source :=
  if forallb (fun k => dmem k new_source) (dkeys values) then Ok (mksource (dupdate new_source values) [])
  else Err TypeError.

(** [pk]: the key that the database allots. *)
Definition create_base (rows : sources) (pk : Z) (a : attrs) : Res (sources * source) :=
  let name := dget_none "name" (data a) in
  _ ← check_for_existing_name source_name rows name (SOURCE_NAME_ALREADY_EXISTS name) None;
  if negb (dmem "source_type" (data a)) then Err (invalid_field "source_type" SOURCE_TYPE_REQ) else
  let source_type := dget_none "source_type" (data a) in
  creds ← from_option (KeyError "credentials") (cred_attr a);
  let hosts_list := dget_none "hosts" (data a) in
  let exclude_hosts_list := dget_none "exclude_hosts" (data a) in
  s ← objects_create (dpop "exclude_hosts" (dpop "hosts" (data a)));
  s ← (match source_options s with
       | [] => Ok (if type_in source_type HTTP_SOURCE_TYPES
                   then set "ssl_cert_verify" (VBool true) s else s)
       | options => _ ← validate_opts options source_type true; Ok s
       end);
  let s := set "hosts" hosts_list s in
  let s := if truthy exclude_hosts_list then set "exclude_hosts" exclude_hosts_list s else s in
  let s := set_credentials creds s in
  Ok (<[pk := s]> rows, s).

Definition update_base (rows : sources) (id : Z) (instance : source) (a : attrs) : Res (sources * source) :=
  let name := dget_none "name" (data a) in
  _ ← check_for_existing_name source_name rows name (SOURCE_NAME_ALREADY_EXISTS name) (Some id);
  if dmem "source_type" (data a) then Err (invalid_field "source_type" SOURCE_TYPE_INV) else
  let hosts_list := dget_none "hosts" (data a) in
  let exclude_hosts_list := dget_none "exclude_hosts" (data a) in
  let s := mksource (dupdate (columns instance) (dpop "exclude_hosts" (dpop "hosts" (data a))))
             (credentials instance) in
  let s := if truthy hosts_list then set "hosts" hosts_list s else s in
  let s := if truthy exclude_hosts_list then set "exclude_hosts" exclude_hosts_list s else s in
  let s := match cred_attr a with Some (c :: l) => set_credentials (c :: l) s | _ => s end in
  Ok (<[id := s]> rows, s).

Inductive version := V1 | V2.

(** The [options] of a V1 request. *)
Definition request_options (a : attrs) : Res pydict :=
  match dget_none "options" (data a) with
  | VDict d => Ok d
  | VNone => Ok []
  | _ => Err Unsupported
  end.

Definition create_v1 (rows : sources) (pk : Z) (a : attrs) : Res (sources * source) :=
  options ← request_options a;
  '(rows, instance) ← create_base rows pk (with_data (dpop "options") a);
  if bool_decide (options = []) then Ok (rows, instance) else
  options ← validate_opts options (get "source_type" instance) true;
  let assign s k := set k (dget_none k options) s in
  let instance := foldl assign instance ["ssl_protocol"; "ssl_cert_verify"; "disable_ssl"; "use_paramiko"] in
  Ok (<[pk := instance]> rows, instance).

Definition update_v1 (rows : sources) (id : Z) (instance : source) (a : attrs) : Res (sources * source) :=
  options ← request_options a;
  '(rows, instance) ← update_base rows id instance (with_data (dpop "options") a);
  if bool_decide (options = []) then Ok (rows, instance) else
  options ← validate_opts options (get "source_type" instance) true;
  let instance := update_options options instance in
  Ok (<[id := instance]> rows, instance).

Definition update_v2 (rows : sources) (id : Z) (instance : source) (a : attrs) : Res (sources * source) :=
  let ssl_options := List.filter (fun kv => negb (is_none kv.2))
                       ((fun k => (k, dget_none k (data a))) <$> SSL_OPTIONS) in
  '(rows, instance) ← update_base rows id instance (with_data (fun d => foldl (fun d k => dpop k d) d SSL_OPTIONS) a);
  if bool_decide (ssl_options = []) then Ok (rows, instance) else
  options ← validate_opts ssl_options (get "source_type" instance) false;
  let instance := update_options options instance in
  Ok (<[id := instance]> rows, instance).

Definition create (v : version) : sources -> Z -> attrs -> Res (sources * source) :=
  match v with V1 => create_v1 | V2 => create_base end.
Definition update (v : version) : sources -> Z -> source -> attrs -> Res (sources * source) :=
  match v with V1 => update_v1 | V2 => update_v2 end.

(** [@transaction.atomic]: an exception undoes what was written. *)
Definition atomic (rows : sources) (r : Res (sources * source)) : sources * Res source :=
  match r with Ok (rows', s) => (rows', Ok s) | Err e => (rows, Err e) end.

(** [POST]: validate, then create. *)
Definition create_source (v : version) (rows : sources) (pk : Z) (initial_data : list string) (a : attrs) :
    sources * Res source :=
  match validate None initial_data a with
  | Ok a => atomic rows (create v rows pk a)
  | Err e => (rows, Err e)
  end.

(** [PUT] and [PATCH]. *)
Definition update_source (v : version) (rows : sources) (id : Z) (initial_data : list string) (a : attrs) :
    sources * Res source :=
  match rows !! id with
  | None => (rows, Err DoesNotExist)
  | Some instance =>
      match validate (Some instance) initial_data a with
      | Ok a => atomic rows (update v rows id instance a)
      | Err e => (rows, Err e)
      end
  end.

(** [SourceViewSet.destroy]: [scans] are the links from sources to scans. *)
Definition SOURCE_DELETE_NOT_VALID_W_SCANS : string :=
  "Source cannot be deleted because it is used by one or more scans.".
Definition destroy (rows : sources) (scans : list (Z * Z)) (pk : Z) : sources * Res unit :=
  match rows !! pk with
  | None => (rows, Err DoesNotExist)
  | Some _ => match users scans pk with
              | [] => (delete pk rows, Ok tt)
              | _ => (rows, Err (invalid_field "detail" SOURCE_DELETE_NOT_VALID_W_SCANS))
              end
  end.

(** ** Lemmas: options *)

Lemma dget_none_dupdate k (d1 d2 : pydict) : NoDup (dkeys d2) ->
  dget_none k (dupdate d1 d2) = default (dget_none k d1) (dget k d2).
Proof. intros H. unfold dget_none. rewrite dget_dupdate by done. by destruct (dget k d2). Qed.

Lemma get_set k k' v s : get k (set k' v s) = if decide (k = k') then v else get k s.
Proof. apply dget_none_dset. Qed.

Definition allowed_options (source_type : pyval) : list string :=
  if type_in source_type HTTP_SOURCE_TYPES then valid_http_options else valid_ssh_options.

Lemma check_disallowed options message valid source_type u :
  _check_for_disallowed_fields options message valid source_type = Ok u ->
  forall k, k ∈ dkeys options -> k ∈ valid.
Proof.
  unfold _check_for_disallowed_fields. destruct (List.filter _ _) eqn:Hf; [|done]. intros _ k Hk.
  destruct (decide (k ∈ valid)) as [|Hn]; [done|].
  assert (Hin : k ∈ List.filter (fun o => negb (bool_decide (o ∈ valid))) (dkeys options)).
  { apply elem_of_List_filter. split; [done|]. by rewrite bool_decide_eq_false_2. }
  rewrite Hf in Hin. by apply elem_of_nil in Hin.
Qed.

(** Accepted options are those of the source type; the default adds one of them. *)
Lemma validate_opts_spec options source_type ad options' :
  validate_opts options source_type ad = Ok options' ->
  (forall k, k ∈ dkeys options' -> k ∈ allowed_options source_type) /\
  (forall k, k <> "ssl_cert_verify" -> dget_none k options' = dget_none k options) /\
  (ad = false -> options' = options) /\
  (ad = true -> type_in source_type HTTP_SOURCE_TYPES = true -> "ssl_cert_verify" ∉ dkeys options ->
   dget_none "ssl_cert_verify" options' = VBool true).
Proof.
  unfold validate_opts, allowed_options. destruct (type_in source_type HTTP_SOURCE_TYPES).
  - intros H. res_inv. split; [eapply check_disallowed; eassumption|]. split; [|split].
    + intros k Hk. destruct ad; [|done]. unfold setdefault. destruct (dmem _ _); [done|].
      by rewrite dget_none_dset, decide_False.
    + by intros ->.
    + intros -> _ Hn. unfold setdefault. destruct (dmem _ options) eqn:Hm.
      * by apply dmem_true in Hm.
      * by rewrite dget_none_dset, decide_True.
  - destruct (type_in source_type SSH_SOURCE_TYPES); [|done]. intros H. res_inv.
    split; [eapply check_disallowed; eassumption | done].
Qed.

Lemma option_not_allowed options source_type ad options' k :
  validate_opts options source_type ad = Ok options' -> k ∉ allowed_options source_type ->
  dget_none k options' = VNone.
Proof. intros H Hk. apply dget_none_absent. intros Hin. apply Hk. by apply (validate_opts_spec _ _ _ _ H). Qed.

(** [v] unless it is [None]. *)
Definition py_none_or (v w : pyval) : pyval := if is_none v then w else v.

Lemma get_update_options options s k :
  get k (update_options options s) =
  if decide (k ∈ SSL_OPTIONS) then py_none_or (dget_none k options) (get k s) else get k s.
Proof.
  unfold update_options. generalize s as s0.
  assert (HN : NoDup SSL_OPTIONS) by by_compute. revert HN. generalize SSL_OPTIONS as l.
  induction l as [|o l IH]; intros HN s0; [done|]. apply NoDup_cons in HN as [Ho HN]. cbn [foldl].
  rewrite IH by done. unfold update_option.
  destruct (decide (k = o)) as [->|Hk].
  - rewrite decide_False by done. rewrite decide_True by left. unfold py_none_or.
    destruct (is_none _); [done|]. by rewrite get_set, decide_True.
  - assert (Hg : get k (if is_none (dget_none o options) then s0 else set o (dget_none o options) s0) = get k s0).
    { destruct (is_none _); [done|]. by rewrite get_set, decide_False. }
    rewrite Hg. repeat case_decide; set_solver.
Qed.

Lemma credentials_update_options options s : credentials (update_options options s) = credentials s.
Proof.
  unfold update_options. generalize s as s0. induction SSL_OPTIONS as [|o l IH]; intros s0; [done|].
  cbn [foldl]. rewrite IH. unfold update_option. by destruct (is_none _).
Qed.

(** ** Well-formed sources *)

Section rules.
Context (FQDN_is_valid : string -> Res bool).
(** The package raises [ValueError] only. *)
Context (FQDN_raises : forall s e, FQDN_is_valid s = Err e -> e = ValueError).

Definition address_ok (s : string) : Prop := classify_and_validate_address FQDN_is_valid s = Ok [s].

Definition addresses_ok (v : pyval) : Prop :=
  exists l, v = VList (VStr <$> l) /\ l <> [] /\ Forall address_ok l.

Definition port_ok (v : pyval) : Prop := v = VNone \/ exists p, as_int v = Some p /\ 0 <= p <= 65536.

(** One address that is neither a range nor a network. *)
Definition single_host (v : pyval) : Prop :=
  exists h, v = VList [VStr h] /\ str_contains "[" h = false /\ str_contains "/" h = false.

Record wf_source (s : source) : Prop := {
  wf_name : exists n, get "name" s = VStr n /\ printable n = true;
  wf_type : exists t, get "source_type" s = VStr t /\ t ∈ DataSources;
  wf_creds : credentials s <> [] /\
             Forall (fun c => get "source_type" s = VStr (c_type c)) (credentials s);
  wf_hosts : addresses_ok (get "hosts" s);
  wf_excluded : get "exclude_hosts" s = VNone \/ addresses_ok (get "exclude_hosts" s);
  wf_port : port_ok (get "port" s);
  wf_options : forall k, k ∈ SSL_OPTIONS -> k ∉ allowed_options (get "source_type" s) -> get k s = VNone;
  wf_http : type_in (get "source_type" s) HTTP_SOURCE_TYPES = true ->
    single_host (get "hosts" s) /\ length (credentials s) = 1%nat /\ get "exclude_hosts" s = VNone }.

(** The hooks that the serializer declares on its fields. *)
Definition field_hook (k : string) : pyval -> Res pyval :=
  match k with
  | "name" => validate_name
  | "hosts" | "exclude_hosts" => validate_addresses FQDN_is_valid
  | "port" => validate_port
  | "source_type" => choice_to_internal_value DataSources
  | "ssl_protocol" => choice_to_internal_value SSL_PROTOCOL_CHOICES
  | "proxy_url" => validate_proxy_url
  | _ => Ok
  end.

Definition request_fields (v : version) : list string :=
  match v with
  | V1 => ["name"; "source_type"; "port"; "hosts"; "exclude_hosts"; "options"; "most_recent_connect_scan"]
  | V2 => ["name"; "source_type"; "port"; "hosts"; "exclude_hosts"; "ssl_protocol"; "ssl_cert_verify";
           "disable_ssl"; "use_paramiko"; "proxy_url"; "most_recent_connect_scan"]
  end.

(** What the framework documents of a parsed request: only declared fields, each
    the result of its hook, and on creation the required ones. *)
Record parsed (v : version) (creating : bool) (a : attrs) : Prop := {
  parsed_NoDup : NoDup (dkeys (data a));
  parsed_keys : forall k, k ∈ dkeys (data a) -> k ∈ request_fields v;
  parsed_hook : forall k w, dget k (data a) = Some w -> exists x, field_hook k x = Ok w;
  parsed_creds : forall l, cred_attr a = Some l -> exists x, validate_credentials x = Ok l;
  parsed_required : creating = true ->
    "name" ∈ dkeys (data a) /\ "hosts" ∈ dkeys (data a) /\ is_Some (cred_attr a) }.

(** *** Hooks *)

Lemma validate_name_ok x w : validate_name x = Ok w -> exists n, w = VStr n /\ printable n = true.
Proof. destruct x; try done. cbn. destruct (printable s) eqn:E; [|done]. intros [= <-]. eauto. Qed.

Lemma validate_port_ok x w : validate_port x = Ok w -> port_ok w.
Proof.
  unfold validate_port, port_ok. destruct (is_none x) eqn:E.
  - destruct x; try done. intros [= <-]. by left.
  - destruct (as_int x) as [p|] eqn:Hp; [|done].
    unfold MIN_PORT, MAX_PORT. destruct ((p <? 0) || (65536 <? p)) eqn:Hr; [done|].
    intros [= <-]. right. exists p. split; [done | lia].
Qed.

(** The four tests, in order. *)
Definition valid_address (s : string) : bool :=
  is_valid_ip s || is_valid_cidr s || match FQDN_is_valid s with Ok b => b | Err _ => false end ||
  is_valid_ansible_range s.

Lemma classify_spec s :
  classify_and_validate_address FQDN_is_valid s =
  if valid_address s then Ok [s] else Err (invalid (NET_INVALID_HOST s)).
Proof.
  unfold classify_and_validate_address, valid_address, is_valid_hostname.
  destruct (is_valid_ip s); [done|]. destruct (is_valid_cidr s); [done|]. cbn [orb].
  destruct (FQDN_is_valid s) as [b|e] eqn:E; cbn.
  - destruct b; cbn; [done | by destruct (is_valid_ansible_range s)].
  - apply FQDN_raises in E as ->. cbn. by destruct (is_valid_ansible_range s).
Qed.

Lemma address_ok_spec s : address_ok s <-> valid_address s = true.
Proof. unfold address_ok. rewrite classify_spec. by destruct (valid_address s). Qed.

Lemma address_step_spec ok errs s :
  address_step FQDN_is_valid (ok, errs) s =
  Ok (if valid_address s then (ok ++ [s], errs) else (ok, errs ++ [NET_INVALID_HOST s]))%list.
Proof. unfold address_step. rewrite classify_spec. by destruct (valid_address s). Qed.

Lemma address_steps ss : forall ok errs,
  foldM (address_step FQDN_is_valid) (ok, errs) ss =
  Ok (ok ++ List.filter valid_address ss,
      errs ++ (NET_INVALID_HOST <$> List.filter (fun s => negb (valid_address s)) ss))%list.
Proof.
  induction ss as [|s ss IH]; intros ok errs; cbn [foldM List.filter]; [by rewrite !app_nil_r|].
  rewrite address_step_spec. cbn [mbind res_bind].
  destruct (valid_address s); rewrite IH; cbn; by rewrite <-app_assoc.
Qed.

Lemma texts_of l ss : mapM text_of l = Some ss -> l = VStr <$> ss.
Proof.
  intros Hs%mapM_Some. induction Hs as [|x s xs ys Hx _ IH]; [done|]. cbn. f_equal; [|done].
  destruct x; try done. cbn in Hx. by injection Hx as ->.
Qed.

Lemma validate_texts l ss :
  List.filter truthy l <> [] -> mapM text_of (List.filter truthy l) = Some ss ->
  validate_addresses FQDN_is_valid (VList l) =
  if forallb valid_address ss then Ok (VList (VStr <$> ss))
  else Err (ValidationError [("", NET_INVALID_HOST <$> List.filter (fun s => negb (valid_address s)) ss)]).
Proof.
  intros Hn Hs. unfold validate_addresses. destruct (List.filter truthy l) as [|v l'] eqn:Hl; [done|].
  rewrite Hs, address_steps. cbn [mbind res_bind app]. clear.
  destruct (List.filter (fun s => negb (valid_address s)) ss) as [|b bs] eqn:Hf; cbn [fmap list_fmap].
  - assert (Ha : forallb valid_address ss = true).
    { apply forallb_forall. intros s Hin%list_elem_of_In. destruct (valid_address s) eqn:E; [done|].
      assert (Hb : s ∈ List.filter (fun s => negb (valid_address s)) ss)
        by (apply elem_of_List_filter; by rewrite E).
      by rewrite Hf in Hb; apply elem_of_nil in Hb. }
    rewrite Ha. do 2 f_equal. f_equal. clear Hf. induction ss as [|s ss IH]; [done|].
    cbn in Ha |- *. apply andb_prop in Ha as [-> Ha]. cbn. by rewrite IH.
  - destruct (forallb valid_address ss) eqn:Ha; [|done].
    assert (Hb : b ∈ List.filter (fun s => negb (valid_address s)) ss) by (rewrite Hf; left).
    apply elem_of_List_filter in Hb as [Hb Hn']. rewrite (forallb_in valid_address ss b Ha Hb) in Hn'. done.
Qed.

(** [validate_hosts] and [validate_exclude_hosts]: the addresses that are not
    empty, unchanged and in order, when each is an IP address, a CIDR block, a host
    name or an Ansible range; otherwise an error that names exactly the others, in
    order; and what is no list, has nothing in it or has something that is no
    string is refused as such. *)
Theorem validate_addresses_spec addresses :
  validate_addresses FQDN_is_valid addresses =
  match addresses with
  | VList l =>
      let l := List.filter truthy l in
      if bool_decide (l = []) then Err (invalid SOURCE_HOSTS_CANNOT_BE_EMPTY)
      else match mapM text_of l with
           | None => Err (invalid SOURCE_HOST_MUST_BE_JSON_ARRAY)
           | Some ss => if forallb valid_address ss then Ok (VList l)
                        else Err (ValidationError
                               [("", NET_INVALID_HOST <$> List.filter (fun s => negb (valid_address s)) ss)])
           end
  | _ => Err (invalid SOURCE_HOST_MUST_BE_JSON_ARRAY)
  end.
Proof.
  destruct addresses; try done. cbn zeta. case_bool_decide as Hl; [unfold validate_addresses; by rewrite Hl|].
  destruct (mapM text_of (List.filter truthy l)) as [ss|] eqn:Hs.
  - rewrite (validate_texts l ss Hl Hs). by rewrite (texts_of _ ss Hs).
  - unfold validate_addresses. destruct (List.filter truthy l); [done|]. by rewrite Hs.
Qed.

Lemma validate_addresses_ok x w : validate_addresses FQDN_is_valid x = Ok w -> addresses_ok w.
Proof.
  destruct x; try done. destruct (decide (List.filter truthy l = [])) as [Hl|Hl];
    [unfold validate_addresses; by rewrite Hl|].
  destruct (mapM text_of (List.filter truthy l)) as [ss|] eqn:Hs.
  - rewrite (validate_texts l ss) by done. destruct (forallb valid_address ss) eqn:Ha; [|done].
    intros [= <-]. exists ss. split; [done|]. split.
    + intros ->. by apply texts_of in Hs.
    + apply Forall_forall. intros s Hin. apply address_ok_spec. by eapply forallb_in.
  - unfold validate_addresses. destruct (List.filter truthy l); [done|]. by rewrite Hs.
Qed.

End rules.

Arguments wf_name {_ _} _.
Arguments wf_type {_ _} _.
Arguments wf_creds {_ _} _.
Arguments wf_hosts {_ _} _.
Arguments wf_excluded {_ _} _.
Arguments wf_port {_ _} _.
Arguments wf_options {_ _} _.
Arguments wf_http {_ _} _.
Arguments parsed_NoDup {_ _ _ _} _.
Arguments parsed_keys {_ _ _ _} _.
Arguments parsed_hook {_ _ _ _} _.
Arguments parsed_creds {_ _ _ _} _.
Arguments parsed_required {_ _ _ _} _.

(** ** Examples *)

Definition sample_fqdn (s : string) : Res bool :=
  if str_contains "_" s then Err ValueError else Ok (str_contains "." s && negb (str_contains "/" s)).

Lemma sample_fqdn_raises s e : sample_fqdn s = Err e -> e = ValueError.
Proof. unfold sample_fqdn. destruct (str_contains "_" s); congruence. Qed.

Lemma validate_addresses_spec_witness :
  validate_addresses sample_fqdn (VList [VStr "10.0.0.1"; VStr ""; VStr "a_b"; VStr "10.0.0.300/33"]) =
  Err (ValidationError [("", ["a_b is invalid host"; "10.0.0.300/33 is invalid host"])]).
Proof. rewrite (validate_addresses_spec sample_fqdn sample_fqdn_raises). vm_compute. reflexivity. Defined.

Example cidr_examples :
  (is_valid_cidr <$> ["10.0.0.0/24"; "10.0.0.7/24"; "10.0.0.0/255.255.0.0"; "10.0.0.0/0.0.0.255";
     "10.0.0.0/255.0.255.0"; "10.0.0.0/33"; "fe80::/64"; "10.0.0.0/"; "1.2.3.4"]) =
  [true; true; true; true; false; false; true; false; true].
Proof. vm_compute. done. Qed.

(** The test of a range is not anchored. *)
Example range_examples :
  (is_valid_ansible_range <$> ["10.0.0.[1:9]"; "h[1:2]x y;z"; "h[a:z]"; "h[1:2]/24"]) =
  [true; true; false; false].
Proof. vm_compute. done. Qed.

(** A port of 65536 passes, although the message says [0, 65535]. *)
Example port_too_big :
  validate_port (VInt 65536) = Ok (VInt 65536) /\ validate_port (VInt 65537) = Err (invalid NET_INVALID_PORT).
Proof. done. Qed.

