(* ===== verification/SourceProps.v ===== *)
(** Requests on sources: what validation checks, what creation and update store,
    and the invariant of the table ([api/source/serializer.py]). *)
From stdpp Require Import base gmap sets list strings relations.
From Stdlib Require Import Ascii ZArith Lia.
From S2P Require Import Prelude PyStr PyNum PyVal Merge NetworkUtils ApiCommon Sources.

Open Scope string_scope.
Open Scope Z_scope.

Section rules.
Context (FQDN_is_valid : string -> Res bool).
Context (FQDN_raises : forall s e, FQDN_is_valid s = Err e -> e = ValueError).

#[local] Abbreviation parsed := (parsed FQDN_is_valid).
#[local] Abbreviation wf_source := (wf_source FQDN_is_valid).
#[local] Abbreviation addresses_ok := (addresses_ok FQDN_is_valid).

(** *** Requests *)

Section request.
Context (v : version) (creating : bool) (a : attrs) (P : parsed v creating a).

Lemma request_name w : dget "name" (data a) = Some w -> exists n, w = VStr n /\ printable n = true.
Proof. intros [x Hx]%(parsed_hook P). by apply (validate_name_ok x). Qed.

Lemma request_addresses k w : k = "hosts" \/ k = "exclude_hosts" ->
  dget k (data a) = Some w -> addresses_ok w.
Proof. intros [-> | ->] [x Hx]%(parsed_hook P); by apply (validate_addresses_ok FQDN_is_valid FQDN_raises x). Qed.

Lemma request_port w : dget "port" (data a) = Some w -> port_ok w.
Proof. intros [x Hx]%(parsed_hook P). by apply (validate_port_ok x). Qed.

Lemma request_creds l : cred_attr a = Some l -> l <> [].
Proof. intros [x Hx]%(parsed_creds P) ->. by destruct x. Qed.
End request.

Lemma addresses_truthy w : addresses_ok w -> truthy w = true.
Proof. intros (l & -> & Hl & _). by destruct l. Qed.

Lemma py_eq_str_true c t l : type_in t l = true -> py_eq (VStr c) t = true -> t = VStr c.
Proof. destruct t; try done. intros _ H. rewrite py_eq_str in H. by apply bool_decide_eq_true in H as ->. Qed.

Definition default_port (t : pyval) : Z :=
  if type_in t SSH_SOURCE_TYPES then 22 else if py_eq t (VStr "openshift") then 6443 else 443.

Lemma default_port_range t : 0 < default_port t < 65536.
Proof. unfold default_port. repeat case_match; lia. Qed.

Lemma types_disjoint t : type_in t HTTP_SOURCE_TYPES = true -> type_in t SSH_SOURCE_TYPES = false.
Proof.
  destruct t; try done. cbn. rewrite bool_decide_eq_true, bool_decide_eq_false.
  unfold SSH_SOURCE_TYPES, HTTP_SOURCE_TYPES. set_solver.
Qed.

(** What validation leaves of the request [a] for the source type [t], and what it
    has checked. *)
Record checked (instance : option source) (a a' : attrs) (t : pyval) : Prop := {
  ck_type : type_in t SSH_SOURCE_TYPES || type_in t HTTP_SOURCE_TYPES = true;
  ck_data : forall k, k <> "port" -> k <> "ssl_cert_verify" -> dget k (data a') = dget k (data a);
  ck_port : dget "port" (data a') =
    if truthy (get_from_object_or_dict (instance_columns instance) (data a) "port")
    then dget "port" (data a) else Some (VInt (default_port t));
  ck_verify : dget "ssl_cert_verify" (data a') = dget "ssl_cert_verify" (data a) \/
              (type_in t HTTP_SOURCE_TYPES = true /\ instance = None);
  ck_NoDup : NoDup (dkeys (data a)) -> NoDup (dkeys (data a'));
  ck_cred : cred_attr a' = cred_attr a;
  ck_creds : forall l, cred_attr a = Some l -> Forall (fun c => t = VStr (c_type c)) l;
  ck_http : type_in t HTTP_SOURCE_TYPES = true ->
    (forall w, dget "hosts" (data a) = Some w -> truthy w = true -> single_host w) /\
    dget_none "exclude_hosts" (data a) = VNone /\
    forall l, cred_attr a = Some l -> (length l <= 1)%nat }.

Lemma check_types t l u : type_in t SSH_SOURCE_TYPES = true ->
  check_credential_types t l = Ok u -> Forall (fun c => t = VStr (c_type c)) l.
Proof.
  intros Ht. revert u. induction l as [|c l IH]; intros u; [by constructor|]. cbn [check_credential_types].
  unfold check_credential_type. destruct (py_eq (VStr (c_type c)) t) eqn:E; [|done]. intros H.
  constructor; [by eapply py_eq_str_true | by eapply IH].
Qed.

Lemma set_default_port_spec instance p a :
  let a' := _set_default_port instance p a in
  (forall k, k <> "port" -> dget k (data a') = dget k (data a)) /\ cred_attr a' = cred_attr a /\
  (NoDup (dkeys (data a)) -> NoDup (dkeys (data a'))) /\
  dget "port" (data a') = (if truthy (get_from_object_or_dict (instance_columns instance) (data a) "port")
                           then dget "port" (data a) else Some (VInt p)).
Proof.
  unfold _set_default_port. destruct (truthy _); [by eauto|]. cbn [with_data data cred_attr].
  repeat split; eauto using NoDup_dkeys_dset.
  - intros k Hk. by rewrite dget_dset_ne.
  - apply dget_dset_eq.
Qed.

Lemma validate_network_spec instance a t a' :
  type_in t SSH_SOURCE_TYPES = true -> validate_network_source instance a t = Ok a' ->
  checked instance a a' t.
Proof.
  intros Ht H. unfold validate_network_source in H. res_inv.
  destruct (set_default_port_spec instance 22 a) as (Hd & Hc & Hn & Hp).
  rewrite Hc in *. match goal with H : check_credential_types _ _ = _ |- _ => rename H into Hcr end.
  constructor; try done.
  - by rewrite Ht.
  - intros k Hk _. by apply Hd.
  - rewrite Hp. unfold default_port. by rewrite Ht.
  - left. by apply Hd.
  - intros l Hl. rewrite Hl in Hcr. by eapply check_types.
  - intros Hh%types_disjoint. congruence.
Qed.

Lemma hosts_error_false w : hosts_error w = Ok false -> truthy w = true -> single_host w.
Proof.
  destruct w; try done. destruct l as [|x [|]]; try done; destruct x; try done.
  cbn. intros [= H] _. apply orb_false_iff in H as [H1 H2]. by exists s.
Qed.

Lemma validate_http_spec instance init a t a' :
  type_in t HTTP_SOURCE_TYPES = true -> validate_http_source instance init a t = Ok a' ->
  checked instance a a' t.
Proof.
  intros Ht H. unfold validate_http_source in H.
  set (p := if py_eq t (VStr "openshift") then 6443 else 443) in *.
  assert (Hp0 : p = default_port t) by (unfold default_port; by rewrite types_disjoint).
  destruct (set_default_port_spec instance p a) as (Hd & Hc & Hn & Hp).
  set (a1 := _set_default_port instance p a) in *.
  set (a2 := match instance with None => _ | Some _ => a1 end) in H. clearbody p.
  assert (Ha2 : (forall k, k <> "ssl_cert_verify" -> dget k (data a2) = dget k (data a1)) /\
    cred_attr a2 = cred_attr a1 /\ (NoDup (dkeys (data a1)) -> NoDup (dkeys (data a2))) /\
    (a2 = a1 \/ instance = None)).
  { unfold a2. destruct instance; [by eauto|]. case_bool_decide; [by eauto|]. cbn.
    repeat split; eauto using NoDup_dkeys_dset. intros k Hk. by rewrite dget_dset_ne. }
  clearbody a2. destruct Ha2 as (Hd2 & Hc2 & Hn2 & Hv). res_inv.
  match goal with H : _validate_number_hosts_and_credentials _ _ _ _ = _ |- _ => rename H into Hnum end.
  unfold _validate_number_hosts_and_credentials in Hnum. apply bind_Ok in Hnum as (b & Hb & Hnum).
  destruct b; [done|]. destruct (is_none (dget_none "exclude_hosts" (data a))) eqn:Hex; [|done].
  cbn [negb] in Hnum. rewrite Hc2, Hc in Hnum.
  constructor.
  - rewrite Ht. apply orb_true_r.
  - intros k Hk1 Hk2. by rewrite Hd2, Hd.
  - by rewrite Hd2, Hp.
  - destruct Hv as [-> | ->]; [left; by apply Hd | by right].
  - auto.
  - by rewrite Hc2.
  - intros l Hl. rewrite Hl in Hnum. destruct l as [|c [|]]; [by constructor | | done].
    unfold check_credential_type in Hnum. destruct (py_eq _ _) eqn:E; [|done].
    constructor; [by eapply py_eq_str_true | by constructor].
  - intros _. split; [|split].
    + intros w Hw. apply hosts_error_false. unfold dget_none in Hb. by rewrite Hw in Hb.
    + by destruct (dget_none "exclude_hosts" (data a)).
    + intros l Hl. rewrite Hl in Hnum. destruct l as [|c [|]]; cbn; [lia | lia | done].
Qed.

Lemma validate_spec instance init a a' : validate instance init a = Ok a' ->
  checked instance a a' (get_from_object_or_dict (instance_columns instance) (data a) "source_type").
Proof.
  unfold validate. destruct (type_in _ SSH_SOURCE_TYPES) eqn:Hs; [by apply validate_network_spec|].
  destruct (type_in _ HTTP_SOURCE_TYPES) eqn:Hh; [by apply validate_http_spec | done].
Qed.

(** *** Saving *)

(** [default (get k base) (dget k (data a))]: the value of the request, or else
    what was there. *)
Definition requested (k : string) (base : source) (a : attrs) : pyval :=
  default (get k base) (dget k (data a)).

(** What a row [s] takes from a validated request and from the row it replaces. *)
Record stored (base : source) (a : attrs) (s : source) : Prop := {
  st_columns : forall k, k <> "hosts" -> k <> "exclude_hosts" -> k ∉ SSL_OPTIONS ->
    get k s = requested k base a;
  st_lists : forall k, k = "hosts" \/ k = "exclude_hosts" ->
    (forall w, dget k (data a) = Some w -> truthy w = true) -> get k s = requested k base a;
  st_creds : cred_attr a <> Some [] -> credentials s = default (credentials base) (fmap dedup (cred_attr a)) }.

Lemma get_put k k' w s :
  get k (if truthy w then set k' w s else s) =
  if decide (k = k') then (if truthy w then w else get k s) else get k s.
Proof. destruct (truthy w); [apply get_set | by case_decide]. Qed.

Lemma get_creds_of k s (o : option (list credential)) :
  get k (match o with Some (c :: l) => set_credentials (c :: l) s | _ => s end) = get k s.
Proof. by destruct o as [[|]|]. Qed.

Lemma get_assigned (d d' : pydict) c k : NoDup (dkeys d') ->
  get k (mksource (dupdate d (dpop "exclude_hosts" (dpop "hosts" d'))) c) =
  if decide (k = "hosts" \/ k = "exclude_hosts") then dget_none k d
  else default (dget_none k d) (dget k d').
Proof.
  intros HN. unfold get. cbn [columns].
  rewrite dget_none_dupdate by (by apply NoDup_dkeys_dpop, NoDup_dkeys_dpop).
  rewrite !dget_dpop.
  destruct (decide (k = "exclude_hosts")), (decide (k = "hosts")); subst;
    repeat case_decide; tauto || done.
Qed.

Lemma update_base_spec rows id inst a rows' s :
  NoDup (dkeys (data a)) -> update_base rows id inst a = Ok (rows', s) ->
  rows' = <[id := s]> rows /\ ("source_type" ∉ dkeys (data a)) /\ stored inst a s /\
  (forall k, k ∈ SSL_OPTIONS -> get k s = requested k inst a) /\
  (forall n i r, dget "name" (data a) = Some (VStr n) -> rows !! i = Some r -> source_name r = n -> i = id).
Proof.
  intros HN H. unfold update_base in H. apply bind_Ok in H as (u & Hu & H).
  destruct (dmem "source_type" (data a)) eqn:Ht; [done|]. injection H as <- <-.
  set (b := mksource _ (credentials inst)).
  assert (Hb : forall k, get k b = if decide (k = "hosts" \/ k = "exclude_hosts") then get k inst
                                   else requested k inst a)
    by (intros k; by apply get_assigned).
  split; [done|]. split; [by rewrite <-dmem_true, Ht|]. split; [constructor | split].
  - intros k H1 H2 _. by rewrite get_creds_of, !get_put, !(decide_False (P := k = _)), Hb, decide_False by tauto.
  - intros k Hk Hw. rewrite get_creds_of, !get_put, Hb, (decide_True (P := k = "hosts" \/ _)) by done.
    unfold requested, dget_none. destruct Hk as [-> | ->].
    + rewrite decide_False, decide_True by done. destruct (dget "hosts" (data a)) eqn:E; [|done].
      cbn. by rewrite Hw.
    + rewrite decide_True by done. destruct (dget "exclude_hosts" (data a)) eqn:E; cbn.
      * by rewrite Hw.
      * by rewrite decide_False.
  - intros Hc. destruct (cred_attr a) as [[|c l]|]; [done | done |].
    cbn [default fmap option_fmap option_map]. by repeat case_match.
  - intros k Hk. rewrite get_creds_of, !get_put, !(decide_False (P := k = _)), Hb, decide_False; [done|..];
      unfold SSL_OPTIONS in Hk; set_solver.
  - intros n i r Hn Hr Hs. unfold dget_none in Hu. rewrite Hn in Hu. cbn in Hu.
    assert (Some i = Some id) by (by eapply check_name_free). congruence.
Qed.

(** A new row has nothing but the defaults to inherit. *)
Definition blank : source := mksource new_source [].

Lemma source_options_spec s k : k ∈ SSL_OPTIONS -> k ∉ dkeys (source_options s) -> get k s = VNone.
Proof.
  intros Hk Hn. destruct (is_none (get k s)) eqn:E; [by destruct (get k s)|]. destruct Hn.
  unfold dkeys, source_options. apply list_elem_of_fmap. exists (k, get k s). split; [done|].
  apply elem_of_List_filter. split; [|cbn; by rewrite E]. apply list_elem_of_fmap. exists k. split; [done|].
  unfold SSL_OPTIONS in Hk. set_solver.
Qed.

Lemma get_set_credentials k l s : get k (set_credentials l s) = get k s.
Proof. done. Qed.

(** The assignment of the two lists in [create_base]. *)
Definition put_lists (a : attrs) (s : source) : source :=
  let s := set "hosts" (dget_none "hosts" (data a)) s in
  if truthy (dget_none "exclude_hosts" (data a))
  then set "exclude_hosts" (dget_none "exclude_hosts" (data a)) s else s.

(** The options of a new row are those of its type; without any, a source other than
    a network one has its certificate verified. *)
Lemma create_options s0 t s1 :
  match source_options s0 with
  | [] => Ok (if type_in t HTTP_SOURCE_TYPES then set "ssl_cert_verify" (VBool true) s0 else s0)
  | options => _ ← validate_opts options t true; Ok s0
  end = Ok s1 ->
  (forall k, k <> "ssl_cert_verify" -> get k s1 = get k s0) /\
  (get "ssl_cert_verify" s1 = get "ssl_cert_verify" s0 \/
   (get "ssl_cert_verify" s0 = VNone /\ get "ssl_cert_verify" s1 = VBool true /\
    type_in t HTTP_SOURCE_TYPES = true)) /\
  (forall k, k ∈ SSL_OPTIONS -> k ∉ allowed_options t -> get k s1 = VNone).
Proof.
  intros Hs1.
  destruct (source_options s0) as [|o os] eqn:Ho.
  - assert (Hn : forall k, k ∈ SSL_OPTIONS -> get k s0 = VNone).
    { intros k Hk. apply source_options_spec; [done|]. rewrite Ho. apply not_elem_of_nil. }
    assert (Hv : "ssl_cert_verify" ∈ SSL_OPTIONS) by by_compute.
    destruct (type_in t HTTP_SOURCE_TYPES) eqn:Ht; injection Hs1 as <-; [|by eauto].
    split; [|split].
    + intros k Hk. by rewrite get_set, decide_False.
    + right. by rewrite get_set, decide_True, Hn.
    + intros k Hk Ha. unfold allowed_options in Ha. rewrite Ht in Ha. rewrite get_set, decide_False; [auto|].
      intros ->. by destruct Ha; left.
  - apply bind_Ok in Hs1 as (opts & Hv & Hs1). injection Hs1 as <-. split; [done|]. split; [by left|].
    intros k Hk Ha. apply source_options_spec; [done|]. rewrite Ho. intros Hin. apply Ha.
    destruct (validate_opts_spec _ _ _ _ Hv) as (Hall & _). apply Hall.
    unfold validate_opts in Hv. clear -Hin Hv. destruct (type_in t HTTP_SOURCE_TYPES).
    + res_inv. unfold setdefault. destruct (dmem _ _); [done|]. apply elem_of_dkeys_dset. by right.
    + destruct (type_in t SSH_SOURCE_TYPES); [|done]. by res_inv.
Qed.

Lemma create_base_spec rows pk a rows' s :
  NoDup (dkeys (data a)) -> "hosts" ∈ dkeys (data a) -> create_base rows pk a = Ok (rows', s) ->
  let t := dget_none "source_type" (data a) in
  rows' = <[pk := s]> rows /\ is_Some (cred_attr a) /\ stored blank a s /\
  (forall k, k ∈ SSL_OPTIONS -> get k s = requested k blank a \/
     (k = "ssl_cert_verify" /\ requested k blank a = VNone /\ get k s = VBool true /\
      type_in t HTTP_SOURCE_TYPES = true)) /\
  (forall k, k ∈ SSL_OPTIONS -> k ∉ allowed_options t -> get k s = VNone) /\
  (forall n i r, dget "name" (data a) = Some (VStr n) -> rows !! i = Some r -> source_name r <> n).
Proof.
  intros HN Hhosts H t. unfold create_base in H. apply bind_Ok in H as (u & Hu & H).
  destruct (dmem "source_type" (data a)); [|done]. cbn [negb] in H. fold t in H.
  apply bind_Ok in H as (l & Hl & H). apply bind_Ok in H as (s0 & Hs0 & H).
  apply bind_Ok in H as (s1 & Hs1 & H). injection H as <- <-.
  destruct (cred_attr a) as [l'|] eqn:Hcr; [|done]. injection Hl as ->.
  unfold objects_create in Hs0. destruct (forallb _ _); [|done]. injection Hs0 as <-.
  set (s0 := mksource _ []) in Hs1.
  assert (H0 : forall k, get k s0 = if decide (k = "hosts" \/ k = "exclude_hosts")
    then get k blank else requested k blank a) by (intros k; by apply get_assigned).
  destruct (create_options _ _ _ Hs1) as (H1 & H2 & H3).
  assert (Hg : forall k, k <> "hosts" -> k <> "exclude_hosts" -> get k (set_credentials l (put_lists a s1)) = get k s1).
  { intros k Hk1 Hk2. rewrite get_set_credentials. unfold put_lists. by rewrite get_put, !get_set, !decide_False. }
  fold (put_lists a s1).
  assert (Hssl : forall k, k ∈ SSL_OPTIONS -> k <> "hosts" /\ k <> "exclude_hosts")
    by (intros k Hk; unfold SSL_OPTIONS in Hk; set_solver).
  repeat apply conj.
  - done.
  - by eexists.
  - constructor.
    + intros k Hk1 Hk2 Hk. assert (k <> "ssl_cert_verify") by (intros ->; by destruct Hk; left).
      rewrite Hg, H1, H0, decide_False; done || tauto.
    + intros k Hk Hw. rewrite get_set_credentials. unfold put_lists, requested. rewrite get_put, !get_set.
      unfold dget_none. destruct Hk as [-> | ->].
      * rewrite decide_False, decide_True by done. apply dget_keys in Hhosts as [w ->]. done.
      * rewrite decide_True, decide_False by done. destruct (dget "exclude_hosts" (data a)) eqn:E; cbn.
        -- by rewrite Hw.
        -- rewrite H1, H0, decide_True by (done || by right). done.
    + intros _. by rewrite Hcr.
  - intros k Hk. destruct (Hssl k Hk). rewrite Hg by done.
    assert (H0k : get k s0 = requested k blank a) by (rewrite H0, decide_False; tauto).
    destruct (decide (k = "ssl_cert_verify")) as [->|Hne].
    + destruct H2 as [-> | (Hn & -> & Ht)]; [by left | right]. by rewrite <-H0k.
    + left. by rewrite H1.
  - intros k Hk Ha. destruct (Hssl k Hk). rewrite Hg by done. auto.
  - intros n i r Hn Hr Hs. unfold dget_none in Hu. rewrite Hn in Hu. cbn in Hu.
    assert (Some i = None) by (by eapply check_name_free). done.
Qed.

(** A row [s] made of the request [a] and of the row [base]. *)
Record merged (base : source) (a : attrs) (t : pyval) (s : source) : Prop := {
  mg_columns : forall k, k ∈ ["name"; "source_type"; "hosts"; "exclude_hosts"] ->
    get k s = requested k base a;
  mg_port : get "port" s = if truthy (py_or (get "port" base) (dget_none "port" (data a)))
                           then requested "port" base a else VInt (default_port t);
  mg_creds : credentials s = default (credentials base) (fmap dedup (cred_attr a));
  mg_options : forall k, k ∈ SSL_OPTIONS -> k ∉ allowed_options t -> get k s = VNone }.

Lemma requested_ext k base a a' : dget k (data a') = dget k (data a) -> requested k base a' = requested k base a.
Proof. unfold requested. by intros ->. Qed.

Lemma merged_of_stored v creating inst base a0 a a' t s :
  parsed v creating a0 -> checked inst a0 a t ->
  dget_none "port" (instance_columns inst) = get "port" base ->
  (forall k, k <> "options" -> k ∉ SSL_OPTIONS -> dget k (data a') = dget k (data a)) ->
  cred_attr a' = cred_attr a -> stored base a' s ->
  (forall k, k ∈ SSL_OPTIONS -> k ∉ allowed_options t -> get k s = VNone) ->
  merged base a0 t s.
Proof.
  intros HP HC Hip Hd Hc HS Ho.
  assert (Hk0 : forall k, k ∈ ["name"; "source_type"; "hosts"; "exclude_hosts"] ->
    k <> "options" /\ (k ∉ SSL_OPTIONS) /\ k <> "port" /\ k <> "ssl_cert_verify").
  { intros k Hk. repeat (apply elem_of_cons in Hk as [->|Hk]; [by repeat split; by_compute|]).
    by apply elem_of_nil in Hk. }
  constructor; [| | |done].
  - intros k Hk. destruct (Hk0 k Hk) as (H1 & H2 & H3 & H4).
    assert (E : dget k (data a') = dget k (data a0)) by (by rewrite Hd, (ck_data _ _ _ _ HC)).
    rewrite <-(requested_ext k base a0 a' E).
    destruct (decide (k = "hosts" \/ k = "exclude_hosts")) as [Hl|Hl].
    + apply (st_lists _ _ _ HS k Hl). intros w Hw. rewrite E in Hw.
      eapply addresses_truthy, request_addresses; eauto.
    + apply (st_columns _ _ _ HS); tauto.
  - rewrite (st_columns _ _ _ HS) by by_compute. unfold requested.
    rewrite Hd, (ck_port _ _ _ _ HC) by by_compute. unfold get_from_object_or_dict. rewrite Hip.
    by destruct (truthy _).
  - rewrite (st_creds _ _ _ HS), Hc, (ck_cred _ _ _ _ HC); [done|].
    rewrite Hc, (ck_cred _ _ _ _ HC). intros E. by apply (request_creds _ _ _ HP) in E.
Qed.

(** The options may change afterwards. *)
Lemma merged_options base a t s s' : merged base a t s ->
  (forall k, k ∉ SSL_OPTIONS -> get k s' = get k s) -> credentials s' = credentials s ->
  (forall k, k ∈ SSL_OPTIONS -> k ∉ allowed_options t -> get k s' = VNone) -> merged base a t s'.
Proof.
  intros [H1 H2 H3 H4] Hg Hc Ho. constructor; [| | |done].
  - intros k Hk. rewrite Hg; [by apply H1|]. unfold SSL_OPTIONS. set_solver.
  - rewrite Hg by by_compute. done.
  - by rewrite Hc.
Qed.

(** What the row that is replaced, or the request, must have for the result to be
    well formed. *)
Record base_ok (a : attrs) (t : pyval) (base : source) : Prop := {
  bo_type : requested "source_type" base a = t;
  bo_name : "name" ∈ dkeys (data a) \/ exists n, get "name" base = VStr n /\ printable n = true;
  bo_hosts : "hosts" ∈ dkeys (data a) \/
    (addresses_ok (get "hosts" base) /\
     (type_in t HTTP_SOURCE_TYPES = true -> single_host (get "hosts" base)));
  bo_excluded : get "exclude_hosts" base = VNone \/
    (addresses_ok (get "exclude_hosts" base) /\ type_in t HTTP_SOURCE_TYPES = false);
  bo_port : port_ok (get "port" base);
  bo_creds : is_Some (cred_attr a) \/
    (credentials base <> [] /\ Forall (fun c => t = VStr (c_type c)) (credentials base) /\
     (type_in t HTTP_SOURCE_TYPES = true -> length (credentials base) = 1%nat)) }.

Lemma requested_in k base a : k ∈ dkeys (data a) -> exists w, dget k (data a) = Some w /\ requested k base a = w.
Proof. intros [w Hw]%dget_keys. exists w. unfold requested. by rewrite Hw. Qed.

Lemma requested_cases k base a : (exists w, dget k (data a) = Some w /\ requested k base a = w) \/
  (dget k (data a) = None /\ requested k base a = get k base).
Proof. unfold requested. destruct (dget k (data a)); eauto. Qed.

Section merge.
Context (v : version) (creating : bool) (inst : option source) (base : source) (a a' : attrs) (t : pyval) (s : source).
Context (HP : parsed v creating a) (HC : checked inst a a' t) (HB : base_ok a t base) (HM : merged base a t s).

Lemma merged_credentials :
  credentials s <> [] /\ Forall (fun c => t = VStr (c_type c)) (credentials s) /\
  (type_in t HTTP_SOURCE_TYPES = true -> length (credentials s) = 1%nat).
Proof.
  rewrite (mg_creds _ _ _ _ HM). destruct (cred_attr a) as [l|] eqn:Hl; cbn.
  - pose proof (request_creds _ _ _ HP l Hl) as Hn. split; [by rewrite dedup_nil|]. split.
    + apply Forall_forall. intros c Hc. rewrite elem_of_dedup in Hc. revert c Hc.
      apply Forall_forall, (ck_creds _ _ _ _ HC l Hl).
    + intros Hh. destruct (ck_http _ _ _ _ HC Hh) as (_ & _ & Hlen).
      specialize (Hlen l Hl). destruct l as [|c [|]]; cbn in Hlen; [done | done | lia].
  - destruct (bo_creds _ _ _ HB) as [Hs|H]; [|done]. rewrite Hl in Hs. by apply is_Some_None in Hs.
Qed.

Lemma merged_hosts :
  addresses_ok (get "hosts" s) /\ (type_in t HTTP_SOURCE_TYPES = true -> single_host (get "hosts" s)).
Proof.
  rewrite (mg_columns _ _ _ _ HM) by by_compute.
  destruct (requested_cases "hosts" base a) as [(w & Hw & ->)|(Hn & ->)].
  - assert (addresses_ok w) by (exact (request_addresses _ _ _ HP _ _ (or_introl eq_refl) Hw)).
    split; [done|].
    intros Hh. destruct (ck_http _ _ _ _ HC Hh) as (H1 & _). apply H1; [done | by apply addresses_truthy].
  - destruct (bo_hosts _ _ _ HB) as [Hin|H]; [|done]. apply dget_keys in Hin as [? ?]. congruence.
Qed.

Lemma merged_excluded :
  get "exclude_hosts" s = VNone \/
  (addresses_ok (get "exclude_hosts" s) /\ type_in t HTTP_SOURCE_TYPES = false).
Proof.
  rewrite (mg_columns _ _ _ _ HM) by by_compute.
  destruct (requested_cases "exclude_hosts" base a) as [(w & Hw & ->)|(Hn & ->)];
    [|apply (bo_excluded _ _ _ HB)].
  assert (Ha : addresses_ok w) by (exact (request_addresses _ _ _ HP _ _ (or_intror eq_refl) Hw)).
  right. split; [done|].
  destruct (type_in t HTTP_SOURCE_TYPES) eqn:Hh; [|done].
  destruct (ck_http _ _ _ _ HC Hh) as (_ & H2 & _). unfold dget_none in H2. rewrite Hw in H2. cbn in H2.
  by destruct Ha as (l & -> & _).
Qed.

Lemma wf_merged : wf_source s.
Proof.
  assert (Ht : get "source_type" s = t)
    by (rewrite (mg_columns _ _ _ _ HM), (bo_type _ _ _ HB); [done | by_compute]).
  destruct merged_credentials as (Hc1 & Hc2 & Hc3), merged_hosts as (Hh1 & Hh2).
  constructor; rewrite ?Ht.
  - rewrite (mg_columns _ _ _ _ HM) by by_compute.
    destruct (requested_cases "name" base a) as [(w & Hw & ->)|(Hn & ->)].
    + by eapply (request_name _ _ _ HP).
    + destruct (bo_name _ _ _ HB) as [Hin|H]; [|done]. apply dget_keys in Hin as [? ?]. congruence.
  - pose proof (ck_type _ _ _ _ HC) as Hty. destruct t; try done. eexists. split; [done|].
    revert Hty. clear. cbn. rewrite orb_true_iff, !bool_decide_eq_true.
    unfold SSH_SOURCE_TYPES, HTTP_SOURCE_TYPES, DataSources. set_solver.
  - done.
  - done.
  - destruct merged_excluded as [|[]]; auto.
  - rewrite (mg_port _ _ _ _ HM). pose proof (default_port_range t) as Hd.
    destruct (truthy _); [|right; exists (default_port t); split; [done | lia]].
    destruct (requested_cases "port" base a) as [(w & Hw & ->)|(Hn & ->)];
      [by eapply (request_port _ _ _ HP) | apply (bo_port _ _ _ HB)].
  - apply (mg_options _ _ _ _ HM).
  - intros Hh. destruct merged_excluded as [He|[_ He]]; [auto | congruence].
Qed.
End merge.

(** *** Creation and update *)

Lemma base_ok_blank v a t :
  parsed v true a -> t = dget_none "source_type" (data a) -> base_ok a t blank.
Proof.
  intros HP ->. destruct (parsed_required HP eq_refl) as (Hn & Hh & Hc).
  constructor; [| by left | by left | by left | by left | by left].
  unfold requested, dget_none. by destruct (dget _ _).
Qed.

Lemma base_ok_wf a inst : wf_source inst -> "source_type" ∉ dkeys (data a) ->
  base_ok a (get "source_type" inst) inst.
Proof.
  intros W Ht. constructor.
  - unfold requested. destruct (dget "source_type" (data a)) eqn:E; [|done].
    destruct Ht. apply dget_keys. by eexists.
  - right. apply (wf_name W).
  - right. split; [apply (wf_hosts W)|]. intros Hh. by apply (wf_http W).
  - destruct (wf_excluded W) as [|Ha]; [by left|].
    destruct (type_in (get "source_type" inst) HTTP_SOURCE_TYPES) eqn:Hh; [|by right].
    left. by apply (wf_http W).
  - apply (wf_port W).
  - right. destruct (wf_creds W) as [H1 H2]. split; [done|]. split; [done|].
    intros Hh. by apply (wf_http W).
Qed.

(** The options of a V1 request are written over the row. *)
Definition assign_options (options : pydict) (s : source) : source :=
  foldl (fun s k => set k (dget_none k options) s) s
    ["ssl_protocol"; "ssl_cert_verify"; "disable_ssl"; "use_paramiko"].

Lemma get_assign_options options s k :
  get k (assign_options options s) = if decide (k ∈ SSL_OPTIONS) then dget_none k options else get k s.
Proof.
  unfold assign_options. cbn [foldl]. rewrite !get_set. unfold SSL_OPTIONS.
  destruct (decide (k ∈ _)) as [Hk|Hk].
  - repeat (apply elem_of_cons in Hk as [->|Hk]; [done|]). by apply elem_of_nil in Hk.
  - rewrite !decide_False; [done|..]; set_solver.
Qed.


Lemma dget_with_data_dpop k k' a : k <> k' -> dget k (data (with_data (dpop k') a)) = dget k (data a).
Proof. intros H. cbn. by rewrite dget_dpop, decide_False. Qed.

Lemma create_base_saved v a0 a a' rows pk rows' s :
  let t := dget_none "source_type" (data a0) in
  parsed v true a0 -> checked None a0 a t ->
  NoDup (dkeys (data a')) -> cred_attr a' = cred_attr a ->
  (forall k, k <> "options" -> dget k (data a') = dget k (data a)) ->
  create_base rows pk a' = Ok (rows', s) ->
  rows' = <[pk := s]> rows /\ merged blank a0 t s /\
  (forall n i r, dget "name" (data a0) = Some (VStr n) -> rows !! i = Some r -> source_name r <> n).
Proof.
  intros t HP HC HN Hc Hd H.
  assert (Ha0 : forall k, k <> "options" -> k <> "port" -> k <> "ssl_cert_verify" ->
    dget k (data a') = dget k (data a0)) by (intros k ???; by rewrite Hd, (ck_data _ _ _ _ HC)).
  destruct (parsed_required HP eq_refl) as (_ & Hh & _).
  apply create_base_spec in H as (-> & _ & HS & _ & Ho & Hn); [|done|].
  - assert (Et : dget_none "source_type" (data a') = t)
      by (unfold t, dget_none; by rewrite Ha0 by by_compute).
    rewrite Et in Ho. split; [done|]. split.
    + eapply merged_of_stored; [exact HP | exact HC | done | | exact Hc | exact HS | exact Ho]. auto.
    + intros n i r Hn'. apply Hn. by rewrite Ha0 by by_compute.
  - apply dget_keys. rewrite Ha0 by by_compute. by apply dget_keys.
Qed.

Lemma create_saved v a0 a rows pk rows' s :
  let t := dget_none "source_type" (data a0) in
  parsed v true a0 -> checked None a0 a t -> create v rows pk a = Ok (rows', s) ->
  rows' = <[pk := s]> rows /\ merged blank a0 t s /\
  (forall n i r, dget "name" (data a0) = Some (VStr n) -> rows !! i = Some r -> source_name r <> n).
Proof.
  intros t HP HC H. pose proof (ck_NoDup _ _ _ _ HC (parsed_NoDup HP)) as HN.
  destruct v; cbn [create] in H.
  - unfold create_v1 in H. apply bind_Ok in H as (options & _ & H). apply bind_Ok in H as ([r1 s1] & H1 & H).
    apply (create_base_saved _ _ _ _ _ _ _ _ HP HC) in H1 as (-> & HM & Hn);
      [| by apply NoDup_dkeys_dpop | done | by intros; apply dget_with_data_dpop].
    case_bool_decide; [by injection H as <- <-|].
    apply bind_Ok in H as (options' & Hv & H). injection H as Hr Hs.
    change (<[pk := assign_options options' s1]> (<[pk := s1]> rows) = rows') in Hr.
    change (assign_options options' s1 = s) in Hs. rewrite insert_insert_eq in Hr. subst rows' s.
    split; [done|].
    split; [|done]. eapply merged_options; [exact HM | | done |].
    + intros k Hk. by rewrite get_assign_options, decide_False.
    + intros k Hk Ha. rewrite get_assign_options, decide_True by done. eapply option_not_allowed; [exact Hv|].
      rewrite (mg_columns _ _ _ _ HM) by by_compute.
      by rewrite (bo_type _ _ _ (base_ok_blank _ _ _ HP eq_refl)).
  - eapply create_base_saved; eauto.
Qed.

Lemma update_base_saved v a0 a a' rows id inst rows' s :
  let t := get "source_type" inst in
  wf_source inst -> parsed v false a0 -> checked (Some inst) a0 a t ->
  NoDup (dkeys (data a')) -> cred_attr a' = cred_attr a ->
  (forall k, k <> "options" -> k ∉ SSL_OPTIONS -> dget k (data a') = dget k (data a)) ->
  (forall k, k ∈ SSL_OPTIONS -> dget k (data a') = None) ->
  update_base rows id inst a' = Ok (rows', s) ->
  rows' = <[id := s]> rows /\ ("source_type" ∉ dkeys (data a0)) /\ merged inst a0 t s /\
  (forall k, k ∈ SSL_OPTIONS -> get k s = get k inst) /\
  (forall n i r, dget "name" (data a0) = Some (VStr n) -> rows !! i = Some r -> source_name r = n -> i = id).
Proof.
  intros t W HP HC HN Hc Hd Hssl H.
  assert (Ha0 : forall k, k <> "options" -> k ∉ SSL_OPTIONS -> k <> "port" ->
    dget k (data a') = dget k (data a0)).
  { intros k H1 H2 H3. rewrite Hd by done. apply (ck_data _ _ _ _ HC); [done|]. intros ->. by destruct H2; left. }
  apply update_base_spec in H as (-> & Ht & HS & Ho & Hn); [|done].
  assert (Ho' : forall k, k ∈ SSL_OPTIONS -> get k s = get k inst).
  { intros k Hk. rewrite Ho by done. unfold requested. by rewrite Hssl. }
  split; [done|]. split; [|split; [|split; [done|]]].
  - rewrite <-dget_keys. rewrite <-dget_keys in Ht. by rewrite <-(Ha0 "source_type") by by_compute.
  - eapply merged_of_stored; [exact HP | exact HC | done | exact Hd | exact Hc | exact HS |].
    intros k Hk Ha. rewrite Ho' by done. by apply (wf_options W).
  - intros n i r Hn'. apply Hn. by rewrite Ha0 by by_compute.
Qed.

(** The options of an update: written where they are set. *)
Lemma merged_update_options base a0 t s options ad options' :
  get "source_type" s = t -> merged base a0 t s -> validate_opts options t ad = Ok options' ->
  merged base a0 t (update_options options' s).
Proof.
  intros Ht HM Hv. eapply merged_options; [exact HM | | apply credentials_update_options |].
  - intros k Hk. by rewrite get_update_options, decide_False.
  - intros k Hk Ha. rewrite get_update_options, decide_True by done.
    rewrite (option_not_allowed _ _ _ _ _ Hv Ha). cbn. by apply (mg_options _ _ _ _ HM).
Qed.

Lemma pops_keys l (d : pydict) k : dget k (foldl (fun d k => dpop k d) d l) =
  if decide (k ∈ l) then None else dget k d.
Proof.
  revert d. induction l as [|x l IH]; intros d; [done|]. cbn [foldl]. rewrite IH, dget_dpop.
  repeat case_decide; set_solver.
Qed.

Lemma pops_NoDup l (d : pydict) : NoDup (dkeys d) -> NoDup (dkeys (foldl (fun d k => dpop k d) d l)).
Proof. revert d. induction l as [|x l IH]; intros d H; [done|]. cbn [foldl]. by apply IH, NoDup_dkeys_dpop. Qed.

Lemma update_saved v a0 a rows id inst rows' s :
  let t := get "source_type" inst in
  wf_source inst -> parsed v false a0 -> checked (Some inst) a0 a t ->
  update v rows id inst a = Ok (rows', s) ->
  rows' = <[id := s]> rows /\ ("source_type" ∉ dkeys (data a0)) /\ merged inst a0 t s /\
  (forall n i r, dget "name" (data a0) = Some (VStr n) -> rows !! i = Some r -> source_name r = n -> i = id).
Proof.
  intros t W HP HC H. pose proof (ck_NoDup _ _ _ _ HC (parsed_NoDup HP)) as HN.
  assert (Hst : forall s1, ("source_type" ∉ dkeys (data a0)) -> merged inst a0 t s1 -> get "source_type" s1 = t).
  { intros s1 Hs HM. rewrite (mg_columns _ _ _ _ HM) by by_compute.
    apply (bo_type _ _ _ (base_ok_wf a0 inst W Hs)). }
  destruct v; cbn [update] in H; unfold update_v1, update_v2 in H.
  - apply bind_Ok in H as (options & _ & H). apply bind_Ok in H as ([r1 s1] & H1 & H).
    apply (update_base_saved _ _ _ _ _ _ _ _ _ W HP HC) in H1 as (-> & Hs & HM & _ & Hn);
      [| by apply NoDup_dkeys_dpop | done | by intros; apply dget_with_data_dpop |].
    + case_bool_decide; [by injection H as <- <-|].
      apply bind_Ok in H as (options' & Hv & H). injection H as <- <-. rewrite insert_insert_eq.
      rewrite (Hst s1 Hs HM) in Hv. split; [done|]. split; [done|]. split; [|done].
      by eapply merged_update_options; [apply Hst | |].
    + intros k Hk. cbn. rewrite dget_dpop. case_decide; [done|].
      destruct (dget k (data a)) eqn:E; [|done]. exfalso.
      assert (Hk0 : dget k (data a0) = dget k (data a)).
      { symmetry. destruct (decide (k = "ssl_cert_verify")) as [->|].
        - by destruct (ck_verify _ _ _ _ HC) as [|[_ ?]].
        - apply (ck_data _ _ _ _ HC); [|done]. intros ->. revert Hk. unfold SSL_OPTIONS. set_solver. }
      assert (Hin : k ∈ request_fields V1) by (apply (parsed_keys HP), dget_keys; rewrite Hk0, E; by eexists).
      revert Hk Hin. clear. unfold SSL_OPTIONS. cbn. set_solver.
  - apply bind_Ok in H as ([r1 s1] & H1 & H).
    apply (update_base_saved _ _ _ _ _ _ _ _ _ W HP HC) in H1 as (-> & Hs & HM & _ & Hn);
      [| by apply pops_NoDup | done | | ].
    + case_bool_decide; [by injection H as <- <-|].
      apply bind_Ok in H as (options' & Hv & H). injection H as <- <-. rewrite insert_insert_eq.
      rewrite (Hst s1 Hs HM) in Hv. split; [done|]. split; [done|]. split; [|done].
      by eapply merged_update_options; [apply Hst | |].
    + intros k _ Hk. cbn [with_data data]. by rewrite pops_keys, decide_False.
    + intros k Hk. cbn [with_data data]. by rewrite pops_keys, decide_True.
Qed.

(** ** The table *)

Record wf_table (rows : sources) : Prop := {
  wf_rows : forall i s, rows !! i = Some s -> wf_source s;
  wf_unique : unique_names source_name rows }.

(** The requests that change the table. *)
Inductive step (rows : sources) : sources -> Prop :=
| step_create v pk init a : parsed v true a -> rows !! pk = None ->
    step rows (create_source v rows pk init a).1
| step_update v id init a : parsed v false a -> step rows (update_source v rows id init a).1
| step_destroy scans pk : step rows (destroy rows scans pk).1
| step_bulk ids scans : step rows (bulk_delete_ids ids scans rows).1.

Lemma wf_insert rows id s :
  wf_table rows -> wf_source s ->
  (forall i r, rows !! i = Some r -> source_name r = source_name s -> i = id) ->
  wf_table (<[id := s]> rows).
Proof.
  intros [W U] Hs Hn. constructor; [|by apply unique_names_insert].
  intros i r [[<- <-]|[_ Hr]]%lookup_insert_Some; eauto.
Qed.

(** A smaller table. *)
Lemma wf_sub rows rows' : rows' ⊆ rows -> wf_table rows -> wf_table rows'.
Proof.
  intros Hs [W U]. constructor.
  - intros i s Hi. apply (W i). by eapply lookup_weaken.
  - intros i j r s Hi Hj. apply U; by eapply lookup_weaken.
Qed.

Lemma merged_name v creating base a t s : parsed v creating a -> merged base a t s ->
  (exists n, dget "name" (data a) = Some (VStr n) /\ source_name s = n) \/
  (dget "name" (data a) = None /\ get "name" s = get "name" base).
Proof.
  intros HP HM. pose proof (mg_columns _ _ _ _ HM "name" ltac:(by_compute)) as Hs.
  destruct (requested_cases "name" base a) as [(w & Hw & Hr)|(Hw & Hr)]; rewrite Hr in Hs; [left | by right].
  destruct (request_name _ _ _ HP _ Hw) as (n & -> & _). exists n. split; [done|].
  unfold source_name. by rewrite Hs.
Qed.

Lemma create_preserves v rows pk init a : wf_table rows -> parsed v true a ->
  wf_table (create_source v rows pk init a).1.
Proof.
  intros W HP. unfold create_source. destruct (validate None init a) as [a1|e] eqn:HV; [|done].
  apply validate_spec in HV. destruct (create v rows pk a1) as [[rows' s]|e] eqn:HC; [|done].
  cbn [instance_columns] in HV. change (get_from_object_or_dict [] (data a) "source_type") with
    (dget_none "source_type" (data a)) in HV.
  apply (create_saved _ _ _ _ _ _ _ HP HV) in HC as (-> & HM & Hn). cbn.
  apply wf_insert; [done | |].
  - eapply wf_merged; [exact HP | exact HV | by eapply base_ok_blank | exact HM].
  - intros i r Hr Hs. destruct (merged_name _ _ _ _ _ _ HP HM) as [(n & Hn' & Hs')|[Hno _]].
    + by destruct (Hn n i r Hn' Hr); rewrite Hs.
    + destruct (parsed_required HP eq_refl) as ([? ?]%dget_keys & _). congruence.
Qed.

Lemma wf_instance_type inst a : wf_source inst ->
  get_from_object_or_dict (columns inst) (data a) "source_type" = get "source_type" inst.
Proof.
  intros W. destruct (wf_type W) as (t & Ht & Hin). unfold get_from_object_or_dict, py_or.
  change (dget_none "source_type" (columns inst)) with (get "source_type" inst). rewrite Ht.
  destruct t; [|done]. revert Hin. unfold DataSources. set_solver.
Qed.

Lemma update_preserves v rows id init a : wf_table rows -> parsed v false a ->
  wf_table (update_source v rows id init a).1.
Proof.
  intros W HP. unfold update_source. destruct (rows !! id) as [inst|] eqn:Hid; [|done].
  pose proof (wf_rows _ W _ _ Hid) as Wi.
  destruct (validate (Some inst) init a) as [a1|e] eqn:HV; [|done]. apply validate_spec in HV.
  cbn [instance_columns] in HV. rewrite wf_instance_type in HV by done.
  destruct (update v rows id inst a1) as [[rows' s]|e] eqn:HU; [|done].
  apply (update_saved _ _ _ _ _ _ _ _ Wi HP HV) in HU as (-> & Ht & HM & Hn). cbn.
  apply wf_insert; [done | |].
  - eapply wf_merged; [exact HP | exact HV | by apply base_ok_wf | exact HM].
  - intros i r Hr Hs. destruct (merged_name _ _ _ _ _ _ HP HM) as [(n & Hn' & Hs')|[_ Hs']].
    + apply (Hn n i r); [done | done | by rewrite Hs].
    + apply (wf_unique _ W i id r inst Hr Hid). rewrite Hs. unfold source_name. by rewrite Hs'.
Qed.

Lemma step_preserves rows rows' : wf_table rows -> step rows rows' -> wf_table rows'.
Proof.
  intros W [v pk init a HP _|v id init a HP|scans pk|ids scans].
  - by apply create_preserves.
  - by apply update_preserves.
  - unfold destroy. destruct (rows !! pk); [|done]. destruct (users scans pk); [|done].
    cbn. eapply wf_sub; [apply delete_subseteq | done].
  - eapply wf_sub; [apply map_filter_subseteq | done].
Qed.

(** [C6] Whatever sequence of requests of both API versions creates, updates and
    deletes sources, every source of the table is well formed: a printable name
    that no other source has; credentials of its own type, at least one; hosts
    that are addresses and a port from 0 to 65536; only the options of its type;
    and, unless it is a network source, one host that is neither a range nor a
    network, one credential and no excluded hosts. *)
Theorem sources_invariant rows : rtc step ∅ rows -> wf_table rows.
Proof.
  intros H. assert (Hgen : forall x y, rtc step x y -> wf_table x -> wf_table y).
  { intros x y Hxy. induction Hxy as [|x y z Hs _ IH]; [done|]. intros Wx. by apply IH, (step_preserves x). }
  apply (Hgen ∅); [done|]. constructor; intros i; intros; by rewrite lookup_empty in *.
Qed.

(** What a saved row holds: the columns and credentials of the request, those of
    the row it replaces where the request has none, and the default port where
    neither has one. *)
Record holds_request (base : source) (a : attrs) (s : source) : Prop := {
  hr_columns : forall k, k ∈ ["name"; "source_type"; "hosts"; "exclude_hosts"] ->
    get k s = requested k base a;
  hr_port : get "port" s = if truthy (py_or (get "port" base) (dget_none "port" (data a)))
                           then requested "port" base a else VInt (default_port (get "source_type" s));
  hr_creds : credentials s = default (credentials base) (fmap dedup (cred_attr a)) }.

Lemma merged_holds base a t s : merged base a t s -> get "source_type" s = t -> holds_request base a s.
Proof. intros [H1 H2 H3 _] Ht. constructor; [done | by rewrite H2, Ht | done]. Qed.

(** Creating a source: it is stored at its key and nothing else changes; it
    holds what the request gave, with the port of its type when the request gave
    none (or 0); its name was free; and a request that is refused changes nothing. *)
Theorem create_source_spec v rows pk init a :
  parsed v true a ->
  match create_source v rows pk init a with
  | (rows', Ok s) => rows' = <[pk := s]> rows /\ holds_request blank a s /\ wf_source s /\
                     forall i r, rows !! i = Some r -> source_name r <> source_name s
  | (rows', Err _) => rows' = rows
  end.
Proof.
  intros HP. unfold create_source. destruct (validate None init a) as [a1|e] eqn:HV; [|done].
  apply validate_spec in HV. destruct (create v rows pk a1) as [[rows' s]|e] eqn:HC; [|done].
  change (get_from_object_or_dict (instance_columns None) (data a) "source_type") with
    (dget_none "source_type" (data a)) in HV.
  apply (create_saved _ _ _ _ _ _ _ HP HV) in HC as (-> & HM & Hn).
  pose proof (base_ok_blank _ _ _ HP eq_refl) as HB. cbn [atomic]. split; [done|]. split; [|split].
  - eapply merged_holds; [exact HM|]. rewrite (mg_columns _ _ _ _ HM) by by_compute. apply (bo_type _ _ _ HB).
  - eapply wf_merged; [exact HP | exact HV | exact HB | exact HM].
  - intros i r Hr Hs. destruct (merged_name _ _ _ _ _ _ HP HM) as [(n & Hn' & <-)|[Hno _]].
    + by apply (Hn (source_name s) i r Hn' Hr).
    + destruct (parsed_required HP eq_refl) as ([? ?]%dget_keys & _). congruence.
Qed.

(** Updating a source of a well-formed table, [PUT] and [PATCH] alike: its row
    alone changes, keeps its type, takes what the request gives and keeps the rest
    (so hosts to exclude can be replaced but never removed); a request that is
    refused changes nothing.  A V1 request with options that do not mention
    [ssl_cert_verify] switches verification on whatever it was. *)
Theorem update_source_spec v rows id init a :
  wf_table rows -> parsed v false a ->
  match update_source v rows id init a with
  | (rows', Ok s) =>
      exists inst, rows !! id = Some inst /\ rows' = <[id := s]> rows /\ holds_request inst a s /\
        wf_source s /\ get "source_type" s = get "source_type" inst /\
        (get "exclude_hosts" inst <> VNone -> get "exclude_hosts" s <> VNone) /\
        (forall options, v = V1 -> dget "options" (data a) = Some (VDict options) -> options <> [] ->
           "ssl_cert_verify" ∉ dkeys options -> type_in (get "source_type" s) HTTP_SOURCE_TYPES = true ->
           get "ssl_cert_verify" s = VBool true)
  | (rows', Err _) => rows' = rows
  end.
Proof.
  intros W HP. unfold update_source. destruct (rows !! id) as [inst|] eqn:Hid; [|done].
  pose proof (wf_rows _ W _ _ Hid) as Wi.
  destruct (validate (Some inst) init a) as [a1|e] eqn:HV; [|done]. apply validate_spec in HV.
  cbn [instance_columns] in HV. rewrite wf_instance_type in HV by done.
  destruct (update v rows id inst a1) as [[rows' s]|e] eqn:HU; [|done]. cbn [atomic].
  destruct (update_saved _ _ _ _ _ _ _ _ Wi HP HV HU) as (-> & Ht & HM & Hn).
  pose proof (base_ok_wf a inst Wi Ht) as HB.
  assert (Hty : get "source_type" s = get "source_type" inst)
    by (rewrite (mg_columns _ _ _ _ HM) by by_compute; apply (bo_type _ _ _ HB)).
  exists inst. split; [done|]. split; [done|]. split; [by eapply merged_holds|].
  split; [eapply wf_merged; [exact HP | exact HV | exact HB | exact HM]|]. split; [done|]. split.
  - intros He. rewrite (mg_columns _ _ _ _ HM) by by_compute.
    destruct (requested_cases "exclude_hosts" inst a) as [(w & Hw & ->)|(_ & ->)]; [|done].
    by destruct (request_addresses _ _ _ HP _ _ (or_intror eq_refl) Hw) as (l & -> & _).
  - intros options -> Ho Hne Hv Hh. cbn [update] in HU. unfold update_v1, request_options, dget_none in HU.
    rewrite (ck_data _ _ _ _ HV) in HU by by_compute. rewrite Ho in HU. cbn in HU.
    apply bind_Ok in HU as ([r1 s1] & _ & HU). rewrite bool_decide_eq_false_2 in HU by done.
    apply bind_Ok in HU as (options' & Hopt & HU). injection HU as _ Hs.
    change (update_options options' s1 = s) in Hs. subst s.
    rewrite get_update_options, decide_True by by_compute.
    rewrite get_update_options, decide_False in Hh by by_compute.
    destruct (validate_opts_spec _ _ _ _ Hopt) as (_ & _ & _ & Hd). by rewrite Hd.
Qed.
End rules.

(** ** Examples *)

(** [parsed] on a concrete request. *)
Lemma parsed_check v creating a :
  NoDup (dkeys (data a)) -> Forall (fun k => k ∈ request_fields v) (dkeys (data a)) ->
  Forall (fun p => field_hook sample_fqdn p.1 p.2 = Ok p.2) (data a) -> cred_attr a <> Some [] ->
  (creating = true -> "name" ∈ dkeys (data a) /\ "hosts" ∈ dkeys (data a) /\ is_Some (cred_attr a)) ->
  parsed sample_fqdn v creating a.
Proof.
  intros H1 H2 H3 H4 H5. constructor; [done | by apply Forall_forall | | |done].
  - intros k w Hw%dget_elem. exists w. apply (proj1 (Forall_forall _ _) H3 (k, w) Hw).
  - intros l Hl. exists l. rewrite Hl in H4. by destruct l.
Qed.

Ltac parsed_tac :=
  apply parsed_check; [by_compute | by_compute | repeat (constructor; [reflexivity|]); constructor | done | ];
  intros Hc; first [discriminate Hc | repeat split; try by_compute; by eexists].

Definition sample_create : attrs :=
  mkattrs [("name", VStr "vc"); ("source_type", VStr "vcenter"); ("hosts", VList [VStr "vc.example.com"]);
           ("ssl_cert_verify", VBool false)] (Some [mkcred 1 "vcenter"]).
Definition sample_patch : attrs := mkattrs [("options", VDict [("disable_ssl", VBool false)])] None.

Definition sample_row (verify : bool) (disable : pyval) : source :=
  mksource [("name", VStr "vc"); ("source_type", VStr "vcenter"); ("port", VInt 443); ("ssl_protocol", VNone);
    ("ssl_cert_verify", VBool verify); ("disable_ssl", disable); ("use_paramiko", VNone);
    ("hosts", VList [VStr "vc.example.com"]); ("exclude_hosts", VNone); ("most_recent_connect_scan", VNone);
    ("proxy_url", VNone)] [mkcred 1 "vcenter"].

Lemma sample_create_parsed : parsed sample_fqdn V2 true sample_create.
Proof. parsed_tac. Qed.
Lemma sample_patch_parsed : parsed sample_fqdn V1 false sample_patch.
Proof. parsed_tac. Qed.

Lemma create_source_spec_witness :
  create_source V2 ∅ 1 ["name"; "source_type"; "hosts"; "ssl_cert_verify"; "credentials"] sample_create =
    ({[1 := sample_row false VNone]}, Ok (sample_row false VNone)) /\
  holds_request blank sample_create (sample_row false VNone).
Proof.
  split; [vm_compute; reflexivity|].
  pose proof (create_source_spec sample_fqdn sample_fqdn_raises V2 ∅ 1
    ["name"; "source_type"; "hosts"; "ssl_cert_verify"; "credentials"] _ sample_create_parsed) as H.
  vm_compute (create_source _ _ _ _ _) in H. apply H.
Defined.

(** The table after a creation with verification switched off, and after a [PATCH]
    of another option, which switches it on again. *)
Lemma sample_steps :
  rtc (step sample_fqdn) ∅ {[1 := sample_row true (VBool false)]}.
Proof.
  eapply rtc_l; [exact (step_create sample_fqdn ∅ V2 1 ["ssl_cert_verify"] sample_create sample_create_parsed eq_refl)|].
  eapply rtc_l; [exact (step_update sample_fqdn _ V1 1 [] sample_patch sample_patch_parsed)|].
  vm_compute. apply rtc_refl.
Qed.

Lemma sources_invariant_witness : wf_table sample_fqdn {[1 := sample_row true (VBool false)]}.
Proof. exact (sources_invariant sample_fqdn sample_fqdn_raises _ sample_steps). Defined.

Lemma sample_wf : wf_table sample_fqdn {[1 := sample_row false VNone]}.
Proof.
  assert (W0 : wf_table sample_fqdn ∅) by (constructor; intros i; intros; by rewrite lookup_empty in *).
  pose proof (create_preserves sample_fqdn sample_fqdn_raises V2 ∅ 1 ["ssl_cert_verify"] _ W0
    sample_create_parsed) as H.
  vm_compute (create_source _ _ _ _ _) in H. exact H.
Qed.

(** The [PATCH] does not name [ssl_cert_verify], and switches it on. *)
Lemma update_source_spec_witness :
  update_source V1 {[1 := sample_row false VNone]} 1 [] sample_patch =
    ({[1 := sample_row true (VBool false)]}, Ok (sample_row true (VBool false))) /\
  holds_request (sample_row false VNone) sample_patch (sample_row true (VBool false)).
Proof.
  split; [vm_compute; reflexivity|].
  pose proof (update_source_spec sample_fqdn sample_fqdn_raises V1 _ 1 [] _ sample_wf sample_patch_parsed) as H.
  vm_compute (update_source _ _ _ _ _) in H. destruct H as (inst & Hi & _ & H & _).
  vm_compute in Hi. injection Hi as <-. exact H.
Defined.
