(* ===== verification/Credentials.v ===== *)
(** Credentials: [api/credential/model.py], the V2 serializers of
    [api/credential/serializer.py], the choice of a serializer in
    [api/credential/view.py] and the V1 rules of [serializer_v1.py].

    A row is the dict of its columns.  The framework's fields are behind the
    interface [FieldRules]: they turn the data of a request into the values of the
    declared fields.  Encryption is Ansible's vault, a parameter, as is whether a
    HashiCorp vault is configured. *)
From stdpp Require Import base gmap sets list strings.
From Stdlib Require Import Ascii ZArith Lia.
From S2P Require Import Prelude PyStr PyNum PyVal ApiCommon.

Open Scope string_scope.
Open Scope Z_scope.

(** ** Messages *)

Definition HC_KEYFILE_OR_KEY : string :=
  "A host credential must have either an ssh_keyfile or an ssh_key, not both.".
Definition HC_PWD_OR_KEYFILE_OR_KEY : string :=
  "A host credential must have a password, ssh_keyfile, or ssh_key exclusively.".
Definition HC_PWD_OR_KEY : string := "A host credential must have a password or ssh_key exclusively.".
Definition HC_PWD_NOT_WITH_KEYFILE : string :=
  "A host credential must have either a password or an ssh_keyfile, not both.".
Definition HC_PWD_NOT_WITH_KEY : string :=
  "A host credential must have either a password or an ssh_key, not both.".
Definition TOKEN_OR_USER_PASS : string :=
  "A host credential must have either a username+password or auth_token.".
Definition TOKEN_OR_USER_PASS_NOT_BOTH : string :=
  "A host credential must have either a username+password or auth_token, not both.".
Definition HC_NO_KEY_W_PASS : string :=
  "A host credential must have an ssh_keyfile or an ssh_key provided if an ssh_passphrase is provided.".
Definition CRED_TYPE_NOT_ALLOWED_UPDATE : string := "cred_type is invalid for credential update".
Definition VAULT_SECRET_PATH_REQUIRES_CONFIG : string :=
  "HashiCorp Vault configuration is required to use vault credentials.".
Definition VAULT_KEY_REQUIRED : string := "vault_secret_key is required when using vault_secret_path.".
Definition TOKEN_OR_USER_PASS_OR_VAULT : string :=
  "A credential must have a username+password, auth_token, or vault_secret_path.".
Definition TOKEN_OR_USER_PASS_OR_VAULT_EXCLUSIVE : string :=
  "A credential must have only one of username+password, auth_token, or vault_secret_path.".
Definition USER_PASS_OR_VAULT : string :=
  "A credential must have a username+password or vault_secret_path.".
Definition USER_PASS_OR_VAULT_NOT_BOTH : string :=
  "A credential must have either a username+password or vault_secret_path, not both.".

(** ** The model *)

Definition ENCRYPTED_FIELDS : list string :=
  ["password"; "ssh_passphrase"; "ssh_key"; "become_password"; "auth_token"].

Definition new_credential : pydict :=
  (fun k => (k, VNone)) <$>
  ["name"; "cred_type"; "username"; "password"; "auth_token"; "ssh_keyfile"; "ssh_key"; "ssh_passphrase";
   "become_method"; "become_user"; "become_password"; "vault_secret_path"; "vault_mount_point";
   "vault_secret_key"].

Definition is_encrypted (field : string) : bool := str_contains "$ANSIBLE_VAULT" field.

Section encryption.
(** [encrypt_data_as_unicode] of [api/vault.py] *)
Context (encrypt : string -> string).

Definition encrypt_field (row : pydict) (field_name : string) : pydict :=
  match dget_none field_name row with
  | VStr s => if bool_decide (s = "") || is_encrypted s then row
              else dset field_name (VStr (encrypt s)) row
  | _ => row
  end.
Definition encrypt_fields (row : pydict) : pydict := foldl encrypt_field row ENCRYPTED_FIELDS.
End encryption.

(** [CredentialSerializerV2.get_auth_type] *)
Definition get_auth_type (row : pydict) : string :=
  let has k := truthy (dget_none k row) in
  if has "vault_secret_path" then "vault_secret_path"
  else if has "auth_token" then "auth_token"
  else if has "password" then "password"
  else if has "ssh_key" then "ssh_key"
  else if has "ssh_keyfile" then "ssh_keyfile"
  else "unknown".

(** [get_has_auth_token], [get_has_password], ...: neither [None] nor empty. *)
Definition get_has (k : string) (row : pydict) : bool :=
  match dget_none k row with VNone => false | VStr s => negb (bool_decide (s = "")) | _ => true end.

(** ** The serializers of the V2 API *)

Inductive simple := AuthToken | UsernamePassword | VaultSecretPath.
Inductive serializer :=
| Simple (s : simple)
| Ssh
| AuthTokenOrUserPass
| UsernamePasswordOrVault.

Definition optional_type_specific_fields : list string :=
  ["auth_token"; "become_method"; "become_password"; "become_user"; "password"; "ssh_key"; "ssh_keyfile";
   "ssh_passphrase"; "username"; "vault_mount_point"; "vault_secret_path"; "vault_secret_key"].

Definition Meta_fields (c : serializer) : list string :=
  match c with
  | Simple AuthToken => ["auth_token"; "cred_type"; "name"]
  | Simple UsernamePassword => ["cred_type"; "name"; "password"; "username"]
  | Simple VaultSecretPath =>
      ["cred_type"; "name"; "vault_secret_path"; "vault_mount_point"; "vault_secret_key"]
  | Ssh => ["become_method"; "become_password"; "become_user"; "cred_type"; "name"; "password"; "ssh_key";
            "ssh_keyfile"; "ssh_passphrase"; "username"]
  | AuthTokenOrUserPass => ["auth_token"; "cred_type"; "name"; "password"; "username"; "vault_mount_point";
                            "vault_secret_path"; "vault_secret_key"]
  | UsernamePasswordOrVault => ["cred_type"; "name"; "password"; "username"; "vault_mount_point";
                                "vault_secret_path"; "vault_secret_key"]
  end.

(** [extra_kwargs]: [ssh_keyfile] is read-only, some fields are required and may not
    be blank; [name] and [cred_type] are required by the model. *)
Definition writable (c : serializer) : list string :=
  List.filter (fun k => negb (bool_decide (k = "ssh_keyfile"))) (Meta_fields c).
Definition not_blank (c : serializer) : list string :=
  match c with
  | Simple AuthToken => ["auth_token"]
  | Simple UsernamePassword => ["password"; "username"]
  | Simple VaultSecretPath => ["vault_secret_path"; "vault_secret_key"]
  | Ssh => ["username"]
  | _ => []
  end.
Definition required (c : serializer) : list string := "cred_type" :: "name" :: not_blank c.

(** A serializer is made to create a row, to replace one ([PUT]) or to change one
    ([PATCH], [partial=True]). *)
Inductive mode := Create | Put (instance : pydict) | Patch (instance : pydict).
Definition instance (m : mode) : option pydict :=
  match m with Create => None | Put i | Patch i => Some i end.
Definition partial (m : mode) : bool := match m with Patch _ => true | _ => false end.
(** [getattr(self.instance, k, None)] *)
Definition inst_get (k : string) (m : mode) : pyval :=
  match instance m with Some i => dget_none k i | None => VNone end.

(** [get_fields_to_clear] *)
Definition get_fields_to_clear (c : serializer) : list string :=
  List.filter (fun k => negb (bool_decide (k ∈ Meta_fields c))) optional_type_specific_fields.

(** [CredentialSerializerV2.validate] *)
Definition base_validate (c : serializer) (attrs : pydict) : pydict :=
  dupdate attrs ((fun k => (k, VNone)) <$> get_fields_to_clear c).

Definition has (k : string) (d : pydict) : bool := truthy (dget_none k d).

(** [if cond: errors[key].append(message)] *)
Definition note (cond : bool) (key message : string) (errors : list (string * list string)) :
    list (string * list string) :=
  if cond
  then match errors with
       | (k, ms) :: rest => if bool_decide (k = key) then (k, ms ++ [message])%list :: rest
                            else ((k, ms) :: rest ++ [(key, [message])])%list
       | [] => [(key, [message])]
       end
  else errors.

Definition raise_if (errors : list (string * list string)) : Res unit :=
  match errors with [] => Ok tt | _ => Err (ValidationError errors) end.

Definition _has_password_or_ssh_key (m : mode) (attrs : pydict) : bool * bool :=
  let has_password := has "password" attrs in
  let has_ssh_key := has "ssh_key" attrs in
  if partial m && negb has_password && negb has_ssh_key
  then (truthy (inst_get "password" m), truthy (inst_get "ssh_key" m))
  else (has_password, has_ssh_key).

(** [SshCredentialSerializerV2.validate] *)
Definition validate_ssh (m : mode) (attrs : pydict) : Res pydict :=
  let attrs := base_validate Ssh attrs in
  let '(has_password, has_ssh_key) := _has_password_or_ssh_key m attrs in
  let errors := note (has_password && has_ssh_key) "non_field_errors" HC_PWD_NOT_WITH_KEY [] in
  let errors := note (negb has_password && negb has_ssh_key) "non_field_errors" HC_PWD_OR_KEY errors in
  let errors := note (has "ssh_passphrase" attrs && negb has_ssh_key) "ssh_passphrase" HC_NO_KEY_W_PASS errors in
  _ ← raise_if errors;
  let attrs := if has_password then dset "ssh_passphrase" VNone (dset "ssh_key" VNone attrs)
               else if has_ssh_key then dset "password" VNone attrs else attrs in
  let attrs := if py_eq (dget_none "ssh_passphrase" attrs) (VStr "")
               then dset "ssh_passphrase" VNone attrs else attrs in
  Ok (if has_password || has_ssh_key then dset "ssh_keyfile" VNone attrs else attrs).

Section serializers.
(** The framework's [to_internal_value] over the declared fields. *)
Context (run_fields : serializer -> bool -> pydict -> Res pydict).
(** [get_hashicorp_vault_token() is not None] *)
Context (vault_configured : bool).

(** The hook [validate_cred_type]. *)
Definition validate_cred_type (m : mode) (d : pydict) : Res unit :=
  match instance m, dget "cred_type" d with
  | Some i, Some cred_type => if py_eq cred_type (dget_none "cred_type" i) then Ok tt
                              else Err (invalid_field "cred_type" CRED_TYPE_NOT_ALLOWED_UPDATE)
  | _, _ => Ok tt
  end.

Definition validate_simple (s : simple) (m : mode) (attrs : pydict) : Res pydict :=
  let attrs := base_validate (Simple s) attrs in
  match s with
  | VaultSecretPath =>
      if negb (has "vault_secret_key" attrs) && negb (truthy (inst_get "vault_secret_key" m))
      then Err (invalid_field "vault_secret_key" VAULT_KEY_REQUIRED)
      else if negb vault_configured then Err (invalid VAULT_SECRET_PATH_REQUIRES_CONFIG)
      else Ok attrs
  | _ => Ok attrs
  end.

(** [serializer(instance, data=data, partial=partial).is_valid(raise_exception=True)]
    and its [validated_data]. *)
Definition is_valid_simple (s : simple) (m : mode) (data : pydict) : Res pydict :=
  attrs ← run_fields (Simple s) (partial m) data;
  _ ← validate_cred_type m attrs;
  validate_simple s m attrs.

(** [AuthTokenOrUserPassSerializerV2._detect_provided_auth] *)
Definition _detect_provided_auth (m : mode) (attrs : pydict) : bool * bool * bool :=
  let has_user_or_pass := has "password" attrs || has "username" attrs in
  let has_auth_token := has "auth_token" attrs in
  let has_vault := has "vault_secret_path" attrs in
  if partial m && (negb has_user_or_pass && negb has_auth_token && negb has_vault)
  then (truthy (inst_get "password" m) || truthy (inst_get "username" m),
        truthy (inst_get "auth_token" m), truthy (inst_get "vault_secret_path" m))
  else (has_user_or_pass, has_auth_token, has_vault).

Definition validate_token_or_user_pass (m : mode) (attrs : pydict) : Res pydict :=
  let attrs := base_validate AuthTokenOrUserPass attrs in
  let '(has_user_or_pass, has_auth_token, has_vault) := _detect_provided_auth m attrs in
  if negb has_auth_token && negb has_user_or_pass && negb has_vault then
    Err (invalid TOKEN_OR_USER_PASS_OR_VAULT)
  else if 1 <? b2z has_user_or_pass + b2z has_auth_token + b2z has_vault then
    Err (invalid TOKEN_OR_USER_PASS_OR_VAULT_EXCLUSIVE)
  else
    let validator_class := if has_vault then VaultSecretPath
                           else if has_auth_token then AuthToken else UsernamePassword in
    is_valid_simple validator_class m attrs.

(** [UsernamePasswordOrVaultSerializerV2._detect_provided_auth] *)
Definition detect_user_pass_or_vault (m : mode) (attrs : pydict) : bool * bool :=
  let has_user_or_pass := has "password" attrs || has "username" attrs in
  let has_vault := has "vault_secret_path" attrs in
  if partial m && negb has_user_or_pass && negb has_vault
  then (truthy (inst_get "password" m) || truthy (inst_get "username" m),
        truthy (inst_get "vault_secret_path" m))
  else (has_user_or_pass, has_vault).

Definition validate_user_pass_or_vault (m : mode) (attrs : pydict) : Res pydict :=
  let attrs := base_validate UsernamePasswordOrVault attrs in
  let '(has_user_or_pass, has_vault) := detect_user_pass_or_vault m attrs in
  if negb has_user_or_pass && negb has_vault then Err (invalid USER_PASS_OR_VAULT)
  else if has_user_or_pass && has_vault then Err (invalid USER_PASS_OR_VAULT_NOT_BOTH)
  else is_valid_simple (if has_vault then VaultSecretPath else UsernamePassword) m attrs.

Definition validate (c : serializer) (m : mode) (attrs : pydict) : Res pydict :=
  match c with
  | Simple s => validate_simple s m attrs
  | Ssh => validate_ssh m attrs
  | AuthTokenOrUserPass => validate_token_or_user_pass m attrs
  | UsernamePasswordOrVault => validate_user_pass_or_vault m attrs
  end.

Definition is_valid (c : serializer) (m : mode) (data : pydict) : Res pydict :=
  attrs ← run_fields c (partial m) data;
  _ ← validate_cred_type m attrs;
  validate c m attrs.

(** ** The view *)

Definition serializer_by_type : list (string * serializer) :=
  [("network", Ssh); ("openshift", AuthTokenOrUserPass); ("vcenter", Simple UsernamePassword);
   ("satellite", Simple UsernamePassword); ("ansible", UsernamePasswordOrVault); ("rhacs", Simple AuthToken)].

Definition get_input_serializer_class (cred_type : pyval) : Res serializer :=
  match cred_type with
  | VStr t => from_option ValueError (dget t serializer_by_type)
  | _ => Err ValueError
  end.

Context (encrypt : string -> string).

(** [CredentialViewSetV2.create] and [update], up to the row that is saved. *)
Definition save_credential (m : mode) (data : pydict) : Res pydict :=
  let cred_type := match instance m with
                   | Some i => default (dget_none "cred_type" i) (dget "cred_type" data)
                   | None => dget_none "cred_type" data
                   end in
  c ← get_input_serializer_class cred_type;
  attrs ← is_valid c m data;
  Ok (encrypt_fields encrypt (dupdate (default new_credential (instance m)) attrs)).
End serializers.

(** ** The rules of the V1 API *)

Definition prepare_data_for_update (data : pydict) : pydict :=
  if has "password" data then dset "ssh_key" VNone (dset "ssh_keyfile" VNone data)
  else if has "ssh_key" data then dset "ssh_keyfile" VNone (dset "password" VNone data)
  else if has "ssh_keyfile" data then dset "ssh_key" VNone (dset "password" VNone data)
  else data.

(** [NetworkCredentialSerializerV1.validate] *)
Definition validate_network_v1 (m : mode) (data : pydict) : Res pydict :=
  let password := has "password" data in
  let ssh_keyfile := has "ssh_keyfile" data in
  let ssh_key := has "ssh_key" data in
  let instance_ssh_keyfile := truthy (inst_get "ssh_keyfile" m) in
  let instance_ssh_key := truthy (inst_get "ssh_key" m) in
  let errors := note (ssh_keyfile && ssh_key) "non_field_errors" HC_KEYFILE_OR_KEY [] in
  let errors := note (password && ssh_keyfile) "non_field_errors" HC_PWD_NOT_WITH_KEYFILE errors in
  let errors := note (password && ssh_key) "non_field_errors" HC_PWD_NOT_WITH_KEY errors in
  let errors := note (negb (partial m) && negb (password || ssh_keyfile || ssh_key)) "non_field_errors"
                  HC_PWD_OR_KEYFILE_OR_KEY errors in
  let errors := note (has "ssh_passphrase" data &&
                      negb (ssh_keyfile || instance_ssh_keyfile || ssh_key || instance_ssh_key))
                  "ssh_passphrase" HC_NO_KEY_W_PASS errors in
  _ ← raise_if errors;
  Ok (match instance m with Some _ => prepare_data_for_update data | None => data end).

Inductive serializer_v1 := AuthTokenV1 | UsernamePasswordV1.

(** [AuthTokenOrUserPassSerializerV1._get_user_pass_or_auth_token] *)
Definition _get_user_pass_or_auth_token (m : mode) (attrs : pydict) : bool * bool :=
  let has_user_or_pass := has "password" attrs || has "username" attrs in
  let has_auth_token := has "auth_token" attrs in
  if partial m && negb has_auth_token && negb has_user_or_pass
  then (truthy (inst_get "password" m) || truthy (inst_get "username" m), truthy (inst_get "auth_token" m))
  else (has_user_or_pass, has_auth_token).

(** [_setup_default_data]: a [PATCH] is completed from the row. *)
Definition _setup_default_data (m : mode) (attrs : pydict) : pydict :=
  match m with
  | Patch i => foldl (fun d k => if dmem k d then d else dset k (dget_none k i) d) attrs
                 ["cred_type"; "name"; "password"; "username"; "auth_token"]
  | _ => attrs
  end.

Section v1.
(** [validator.is_valid] of the two specialised serializers, always complete. *)
Context (is_valid_v1 : serializer_v1 -> mode -> pydict -> Res pydict).

(** [AuthTokenOrUserPassSerializerV1.validate] *)
Definition validate_token_or_user_pass_v1 (m : mode) (attrs : pydict) : Res pydict :=
  let '(has_user_or_pass, has_auth_token) := _get_user_pass_or_auth_token m attrs in
  if negb has_auth_token && negb has_user_or_pass then Err (invalid TOKEN_OR_USER_PASS)
  else if has_auth_token && has_user_or_pass then Err (invalid TOKEN_OR_USER_PASS_NOT_BOTH)
  else
    let '(none_fields, validator_class) :=
      if has_auth_token then ([("username", VNone); ("password", VNone)], AuthTokenV1)
      else ([("auth_token", VNone)], UsernamePasswordV1) in
    let attrs := dupdate (_setup_default_data m attrs) none_fields in
    data ← is_valid_v1 validator_class m attrs;
    Ok (dupdate data none_fields).
End v1.

(** ** What the framework promises of its fields *)

(** A text field strips its value, except the encrypted ones; [null] is allowed. *)
Definition trim (k s : string) : string :=
  if bool_decide (k ∈ ENCRYPTED_FIELDS) then s else str_strip s.
Definition clean_field (k : string) (v : pyval) : pyval :=
  match v with VNone => VNone | v => VStr (trim k (py_str v)) end.

Class FieldRules (run_fields : serializer -> bool -> pydict -> Res pydict) : Prop := {
  fr_declared c p data d k : run_fields c p data = Ok d -> k ∈ dkeys d -> k ∈ writable c;
  fr_given c p data d k v : run_fields c p data = Ok d -> k ∈ writable c -> dget k data = Some v ->
    dget k d = Some (clean_field k v);
  fr_blank c p data d k v : run_fields c p data = Ok d -> k ∈ not_blank c -> dget k data = Some v ->
    clean_field k v <> VStr "";
  fr_absent c p data d k : run_fields c p data = Ok d -> dget k data = None ->
    dget k d = None \/ (p = false /\ k ∈ ["become_method"; "become_user"]);
  fr_NoDup c p data d : run_fields c p data = Ok d -> NoDup (dkeys d);
  fr_required c data d k : run_fields c false data = Ok d -> k ∈ required c -> is_Some (dget k data) }.

(** ** Lemmas *)

Lemma dget_base_validate c attrs k :
  dget k (base_validate c attrs) =
  if decide (k ∈ get_fields_to_clear c) then Some VNone else dget k attrs.
Proof.
  unfold base_validate. rewrite dget_dupdate.
  - assert (Hk : forall l, dget k ((fun k => (k, VNone)) <$> l) = if decide (k ∈ l) then Some VNone else None).
    { induction l as [|x l IH]; [done|]. cbn. rewrite IH.
      destruct (decide (k = x)) as [->|Hk]; [rewrite bool_decide_eq_true_2, decide_True by set_solver; done|].
      rewrite bool_decide_eq_false_2 by done. repeat case_decide; set_solver. }
    rewrite Hk. by case_decide.
  - unfold dkeys. rewrite <-list_fmap_compose, list_fmap_id. unfold get_fields_to_clear.
    destruct c as [[]| | |]; by_compute.
Qed.

Lemma has_ext k d d' : dget k d = dget k d' -> has k d = has k d'.
Proof. unfold has, dget_none. by intros ->. Qed.

Lemma clean_field_idem k v : clean_field k (clean_field k v) = clean_field k v.
Proof.
  assert (Ht : forall s, trim k (trim k s) = trim k s)
    by (intros s; unfold trim; case_bool_decide; [done | apply strip_idem]).
  destruct v; [done|..]; refine (f_equal VStr (Ht _)).
Qed.

(** Saving encrypts what is set and leaves everything else. *)
Section save.
Context (encrypt : string -> string) (Hmark : forall s, is_encrypted (encrypt s) = true).

Lemma encrypt_nonempty s : encrypt s <> "".
Proof. intros E. pose proof (Hmark s) as H. by rewrite E in H. Qed.

Definition encrypted_value (v : pyval) : pyval :=
  match v with
  | VStr s => if bool_decide (s = "") || is_encrypted s then VStr s else VStr (encrypt s)
  | v => v
  end.

Lemma dget_encrypt_field row f k :
  dget_none k (encrypt_field encrypt row f) =
  if decide (k = f) then encrypted_value (dget_none k row) else dget_none k row.
Proof.
  unfold encrypt_field, encrypted_value. case_decide as Hk; [subst|].
  - destruct (dget_none f row) eqn:E; try done. destruct (_ || _); [done|].
    by rewrite dget_none_dset, decide_True.
  - destruct (dget_none f row) eqn:E; try done. destruct (_ || _); [done|].
    by rewrite dget_none_dset, decide_False.
Qed.

Lemma dget_encrypt_fields row k :
  dget_none k (encrypt_fields encrypt row) =
  if decide (k ∈ ENCRYPTED_FIELDS) then encrypted_value (dget_none k row) else dget_none k row.
Proof.
  unfold encrypt_fields. assert (HN : NoDup ENCRYPTED_FIELDS) by by_compute. revert HN row.
  generalize ENCRYPTED_FIELDS. induction l as [|f l IH]; intros HN row; [done|].
  apply NoDup_cons in HN as [Hf HN]. cbn [foldl]. rewrite IH, dget_encrypt_field by done.
  destruct (decide (k = f)) as [->|Hk].
  - rewrite (decide_False (P := f ∈ l)), decide_True by (done || left). done.
  - assert (Hin : k ∈ f :: l <-> k ∈ l) by set_solver.
    destruct (decide (k ∈ l)), (decide (k ∈ f :: l)); tauto || done.
Qed.

Lemma truthy_encrypted v : truthy (encrypted_value v) = truthy v.
Proof.
  destruct v; try done. cbn. destruct (bool_decide (s = "")) eqn:E; cbn; [by rewrite E|].
  destruct (is_encrypted s); cbn; rewrite ?E; [done|].
  rewrite bool_decide_eq_false_2; [done | apply encrypt_nonempty].
Qed.

Lemma has_encrypt_fields k row : has k (encrypt_fields encrypt row) = has k row.
Proof. unfold has. rewrite dget_encrypt_fields. case_decide; [apply truthy_encrypted | done]. Qed.
End save.

(** ** One way to authenticate *)

(** The ways to authenticate, and the columns that each may use. *)
Inductive kind := Token | UserPass | Vault | SshPassword | SshKey.
Definition kind_fields (K : kind) : list string :=
  match K with
  | Token => ["auth_token"]
  | UserPass => ["password"; "username"]
  | Vault => ["vault_mount_point"; "vault_secret_path"; "vault_secret_key"]
  | SshPassword => ["become_method"; "become_password"; "become_user"; "password"; "username"]
  | SshKey => ["become_method"; "become_password"; "become_user"; "ssh_key"; "ssh_passphrase"; "username"]
  end.

Definition AUTH_FIELDS : list string :=
  ["password"; "ssh_key"; "ssh_keyfile"; "auth_token"; "vault_secret_path"].

(** Validated data that clears every column outside a kind. *)
Definition limited (K : kind) (d : pydict) : Prop :=
  NoDup (dkeys d) /\
  forall k, k ∈ optional_type_specific_fields -> k ∉ kind_fields K -> dget k d = Some VNone.

Definition simple_kind (s : simple) : kind :=
  match s with AuthToken => Token | UsernamePassword => UserPass | VaultSecretPath => Vault end.

Lemma fields_to_clear_simple s k :
  k ∈ optional_type_specific_fields -> k ∉ kind_fields (simple_kind s) -> k ∈ get_fields_to_clear (Simple s).
Proof.
  intros Hk Hn. unfold get_fields_to_clear. apply elem_of_List_filter. split; [done|].
  rewrite bool_decide_eq_false_2; [done|]. intros Hm. apply Hn. revert Hk Hm.
  unfold optional_type_specific_fields. destruct s; cbn; set_solver.
Qed.

Lemma NoDup_dupdate {A} (d1 d2 : list (string * A)) : NoDup (dkeys d1) -> NoDup (dkeys (dupdate d1 d2)).
Proof.
  unfold dupdate. revert d1. induction d2 as [|[k v] d2 IH]; intros d1 H; [done|]. cbn [foldl].
  by apply IH, NoDup_dkeys_dset.
Qed.

Section exclusive.
Context (run_fields : serializer -> bool -> pydict -> Res pydict) {FR : FieldRules run_fields}.
Context (vault_configured : bool).

#[local] Abbreviation is_valid_simple := (is_valid_simple run_fields vault_configured).
#[local] Abbreviation is_valid := (is_valid run_fields vault_configured).

Lemma validate_simple_eq s m attrs d :
  validate_simple vault_configured s m attrs = Ok d -> d = base_validate (Simple s) attrs.
Proof. unfold validate_simple. destruct s; [by intros [= <-]..|]. by repeat case_match; intros; res_inv. Qed.

Lemma simple_limited s m data d : is_valid_simple s m data = Ok d -> limited (simple_kind s) d.
Proof.
  intros H. unfold Credentials.is_valid_simple in H. res_inv.
  match goal with H : validate_simple _ _ _ _ = _ |- _ => apply validate_simple_eq in H as -> end.
  split.
  - apply NoDup_dupdate. by eapply fr_NoDup.
  - intros k Hk Hn. rewrite dget_base_validate, decide_True; [done | by apply fields_to_clear_simple].
Qed.

(** A column of the class that the data give, or that a [PATCH] leaves alone. *)
Lemma simple_value s m data d k :
  is_valid_simple s m data = Ok d -> k ∈ kind_fields (simple_kind s) ->
  dget k d = match dget k data with Some v => Some (clean_field k v) | None => None end.
Proof.
  intros H Hk. unfold Credentials.is_valid_simple in H. apply bind_Ok in H as (attrs & Hr & H). res_inv.
  match goal with H : validate_simple _ _ _ _ = _ |- _ => apply validate_simple_eq in H as -> end.
  assert (Hall : Forall (fun k => k ∈ writable (Simple s) /\ (k ∉ get_fields_to_clear (Simple s)) /\
    (k ∉ ["become_method"; "become_user"])) (kind_fields (simple_kind s))) by (destruct s; by_compute).
  pose proof (proj1 (Forall_forall _ _) Hall k Hk) as (Hw & Hc & Hb). clear Hall.
  rewrite dget_base_validate, decide_False by done.
  destruct (dget k data) as [v|] eqn:E; [by eapply fr_given|].
  by destruct (fr_absent _ _ _ _ _ Hr E) as [|[_ ?]].
Qed.

Lemma base_validate_ssh attrs k : k ∈ ["auth_token"; "vault_mount_point"; "vault_secret_path"; "vault_secret_key"] ->
  dget k (base_validate Ssh attrs) = Some VNone.
Proof.
  intros Hk. rewrite dget_base_validate, decide_True; [done|]. revert k Hk. apply Forall_forall. by_compute.
Qed.

Lemma raise_if_Ok errors u : raise_if errors = Ok u -> errors = [].
Proof. by destruct errors. Qed.

Lemma note_nil cond key message errors : note cond key message errors = [] -> cond = false /\ errors = [].
Proof.
  unfold note. destruct cond; [|done]. destruct errors as [|[k ms] rest]; [done|].
  by destruct (bool_decide (k = key)).
Qed.

(** The columns that an SSH credential cannot have, and what it keeps of the others. *)
Lemma ssh_columns (hp : bool) attrs d :
  NoDup (dkeys attrs) ->
  (forall k, dget k d =
     if decide (k ∈ ["ssh_keyfile"; if hp then "ssh_key" else "password"]) then Some VNone
     else if decide (k = "ssh_passphrase") then (if hp then Some VNone else dget k d)
     else dget k (base_validate Ssh attrs)) ->
  (forall k, k ∈ optional_type_specific_fields -> k ∉ kind_fields (if hp then SshPassword else SshKey) ->
     dget k d = Some VNone) /\
  (forall k, k ∈ writable Ssh -> k <> "ssh_passphrase" -> k <> (if hp then "ssh_key" else "password") ->
     dget k d = dget k attrs).
Proof.
  intros HN Hd.
  assert (Hopt : Forall (fun k => k ∉ kind_fields (if hp then SshPassword else SshKey) ->
      k ∉ ["ssh_keyfile"; if hp then "ssh_key" else "password"] -> k <> "ssh_passphrase" \/ hp = false ->
      k <> "ssh_passphrase" /\ k ∈ ["auth_token"; "vault_mount_point"; "vault_secret_path"; "vault_secret_key"])
    optional_type_specific_fields) by (destruct hp; by_compute).
  assert (Hwr : Forall (fun k => k <> "ssh_passphrase" -> k <> (if hp then "ssh_key" else "password") ->
      (k ∉ ["ssh_keyfile"; if hp then "ssh_key" else "password"]) /\ k ∉ get_fields_to_clear Ssh)
    (writable Ssh)) by (destruct hp; by_compute).
  split.
  - intros k Hk Hn. pose proof (proj1 (Forall_forall _ _) Hopt k Hk Hn) as H. rewrite Hd.
    case_decide as H1; [done|]. case_decide as H2.
    + destruct hp; [done|]. by destruct (H H1 (or_intror eq_refl)).
    + apply base_validate_ssh. by apply H; [|left].
  - intros k Hk H1 H2. destruct (proj1 (Forall_forall _ _) Hwr k Hk H1 H2) as [Hc1 Hc2].
    by rewrite Hd, decide_False, decide_False, dget_base_validate, decide_False.
Qed.

(** What the SSH serializer accepts, and what it makes of it. *)
Lemma validate_ssh_spec m attrs d : NoDup (dkeys attrs) -> validate_ssh m attrs = Ok d ->
  exists hp, _has_password_or_ssh_key m (base_validate Ssh attrs) = (hp, negb hp) /\
    limited (if hp then SshPassword else SshKey) d /\
    (forall k, k ∈ writable Ssh -> k <> "ssh_passphrase" -> k <> (if hp then "ssh_key" else "password") ->
       dget k d = dget k attrs) /\
    (hp = true -> dget "ssh_passphrase" d = Some VNone).
Proof.
  intros HN H. unfold validate_ssh in H. set (b := base_validate Ssh attrs) in *.
  assert (HNb : NoDup (dkeys b)) by (by apply NoDup_dupdate).
  destruct (_has_password_or_ssh_key m b) as [hp hk]. apply bind_Ok in H as (u & Hu & H).
  apply raise_if_Ok in Hu. apply note_nil in Hu as [_ [H2 [H1 _]%note_nil]%note_nil].
  exists hp. assert (hk = negb hp) as -> by (by destruct hp, hk). split; [done|].
  set (d1 := if hp then dset "ssh_passphrase" VNone (dset "ssh_key" VNone b)
             else if negb hp then dset "password" VNone b else b) in H.
  set (d2 := if py_eq _ _ then dset "ssh_passphrase" VNone d1 else d1) in H.
  assert (E : hp || negb hp = true) by (by destruct hp). rewrite E in H.
  assert (Hd : d = dset "ssh_keyfile" VNone d2) by congruence. clear H.
  assert (HN2 : NoDup (dkeys d2)).
  { assert (NoDup (dkeys d1)) by (unfold d1; destruct hp; by repeat apply NoDup_dkeys_dset).
    unfold d2. destruct (py_eq _ _); [by apply NoDup_dkeys_dset | done]. }
  assert (Hg1 : forall k, dget k d1 = if decide (k = if hp then "ssh_key" else "password") then Some VNone
      else if decide (k = "ssh_passphrase") then (if hp then Some VNone else dget k b) else dget k b).
  { intros k. unfold d1. destruct hp; cbn [negb]; rewrite !dget_dset; repeat case_decide; congruence. }
  assert (Hg2 : forall k, k <> "ssh_passphrase" -> dget k d2 = dget k d1).
  { intros k Hk. unfold d2. destruct (py_eq _ _); [by rewrite dget_dset_ne|done]. }
  assert (Hp2 : hp = true -> dget "ssh_passphrase" d2 = Some VNone).
  { intros Hh. unfold d2. destruct (py_eq _ _); [apply dget_dset_eq|].
    rewrite Hg1, Hh. by rewrite decide_False, decide_True. }
  destruct (ssh_columns hp attrs d HN) as [Ha Hb].
  - intros k. rewrite Hd, dget_dset. destruct (decide (k = "ssh_keyfile")) as [->|Hk]; [done|].
    destruct (decide (k ∈ _)) as [Hin|Hin].
    + apply elem_of_cons in Hin as [?|Hin%list_elem_of_singleton]; [done|].
      rewrite Hg2, Hg1, decide_True; [done | done |]. intros ->. by destruct hp.
    + case_decide as Hps; [subst; destruct hp; [by apply Hp2 | done]|].
      rewrite Hg2, Hg1, !decide_False; [done | done | | done]. intros ->. apply Hin. right. left.
  - split; [split; [rewrite Hd; by apply NoDup_dkeys_dset | done]|]. split; [done|].
    intros Hh. rewrite Hd, dget_dset_ne by done. auto.
Qed.

Lemma is_valid_limited c m data d : is_valid c m data = Ok d -> exists K, limited K d.
Proof.
  unfold Credentials.is_valid. intros (attrs & Hr & (u & Hu & H)%bind_Ok)%bind_Ok.
  destruct c as [s| | |]; cbn [validate] in H.
  - exists (simple_kind s). apply (simple_limited s m data). unfold Credentials.is_valid_simple. rewrite Hr.
    cbn [mbind res_bind]. by rewrite Hu.
  - apply validate_ssh_spec in H as (hp & _ & H & _); [by eexists | by eapply fr_NoDup].
  - unfold validate_token_or_user_pass in H. destruct (_detect_provided_auth _ _) as [[? ?] ?].
    repeat (case_match; [done|]). eexists. by eapply simple_limited.
  - unfold validate_user_pass_or_vault in H. destruct (detect_user_pass_or_vault _ _) as [? ?].
    repeat (case_match; [done|]). eexists. by eapply simple_limited.
Qed.

(** *** The saved row *)

Context (encrypt : string -> string) (Hmark : forall s, is_encrypted (encrypt s) = true).

Definition base_row (m : mode) : pydict := default new_credential (instance m).

Lemma has_row m d k : NoDup (dkeys d) ->
  has k (encrypt_fields encrypt (dupdate (base_row m) d)) =
  match dget k d with Some v => truthy v | None => has k (base_row m) end.
Proof.
  intros HN. rewrite has_encrypt_fields by done. unfold has, dget_none at 1. rewrite dget_dupdate by done.
  by destruct (dget k d).
Qed.

Lemma limited_row K m d k : limited K d -> k ∈ optional_type_specific_fields -> k ∉ kind_fields K ->
  has k (encrypt_fields encrypt (dupdate (base_row m) d)) = false.
Proof. intros [HN Hl] Hk Hn. rewrite has_row by done. by rewrite Hl. Qed.

(** The request blanks no column that authenticates. *)
Definition keeps_auth (data : pydict) : Prop :=
  forall k v, k ∈ "username" :: AUTH_FIELDS -> dget k data = Some v -> truthy (clean_field k v) = true.

(** The class of the credential, when it has one only, finds its column in the row. *)
Definition authenticated (i : pydict) : Prop :=
  match dget_none "cred_type" i with
  | VStr "rhacs" => has "auth_token" i = true
  | VStr "vcenter" | VStr "satellite" => has "password" i = true
  | _ => True
  end.

(** A column of a simple class stays or becomes set. *)
Lemma simple_has s m data d k :
  is_valid_simple s m data = Ok d -> k ∈ kind_fields (simple_kind s) ->
  (forall v, dget k data = Some v -> truthy (clean_field k v) = true) ->
  (dget k data = None -> has k (base_row m) = true) ->
  has k (encrypt_fields encrypt (dupdate (base_row m) d)) = true.
Proof.
  intros H Hk Hv Hn. rewrite has_row by apply (simple_limited _ _ _ _ H). rewrite (simple_value _ _ _ _ _ H Hk).
  destruct (dget k data) eqn:E; [by apply Hv | by apply Hn].
Qed.

(** What a composite class hands to the simple one. *)
Lemma given_clean c p data attrs k v :
  run_fields c p data = Ok attrs -> k ∈ writable c -> k ∉ ["become_method"; "become_user"] ->
  (k ∉ get_fields_to_clear c) -> dget k (base_validate c attrs) = Some v ->
  exists w, dget k data = Some w /\ v = clean_field k w.
Proof.
  intros Hr Hw Hb Hc Hv. rewrite dget_base_validate, decide_False in Hv by done.
  destruct (dget k data) as [w|] eqn:E.
  - rewrite (fr_given _ _ _ _ _ _ Hr Hw E) in Hv. injection Hv as <-. eauto.
  - destruct (fr_absent _ _ _ _ _ Hr E) as [|[_ ?]]; [congruence | done].
Qed.

Lemma truthy_inst k m : truthy (inst_get k m) = true -> has k (base_row m) = true.
Proof. unfold inst_get, has, base_row. by destruct (instance m). Qed.

(** A composite class passes its data on to the simple class [s], whose column [k]
    it has found in the data or, for a [PATCH], in the row. *)
Lemma composite_has c s m data attrs d k :
  run_fields c (partial m) data = Ok attrs -> keeps_auth data ->
  k ∈ "username" :: AUTH_FIELDS -> k ∈ writable c -> (k ∉ get_fields_to_clear c) ->
  k ∈ kind_fields (simple_kind s) ->
  is_valid_simple s m (base_validate c attrs) = Ok d ->
  (has k (base_validate c attrs) = true \/ truthy (inst_get k m) = true) ->
  has k (encrypt_fields encrypt (dupdate (base_row m) d)) = true.
Proof.
  intros Hr Hka Hk Hw Hc Hs H Hor.
  assert (Hb : k ∉ ["become_method"; "become_user"]).
  { revert Hk. unfold AUTH_FIELDS. clear. set_solver. }
  eapply simple_has; [exact H | exact Hs | |].
  - intros v Hv. destruct (given_clean _ _ _ _ _ _ Hr Hw Hb Hc Hv) as (w & Hd & ->).
    rewrite clean_field_idem. by apply (Hka k w).
  - intros Hn. destruct Hor as [Hh|Hi]; [|by apply truthy_inst].
    unfold has, dget_none in Hh. by rewrite Hn in Hh.
Qed.

#[local] Abbreviation row m d := (encrypt_fields encrypt (dupdate (base_row m) d)).
Definition some_auth (r : pydict) : Prop := exists k, k ∈ "username" :: AUTH_FIELDS /\ has k r = true.

Lemma is_valid_simple_eq s m data d : is_valid (Simple s) m data = Ok d -> is_valid_simple s m data = Ok d.
Proof. done. Qed.

(** The classes with one way to authenticate. *)
Lemma single_saved s k m data d : k ∈ not_blank (Simple s) -> k ∈ kind_fields (simple_kind s) ->
  k ∈ "username" :: AUTH_FIELDS -> is_valid_simple s m data = Ok d -> keeps_auth data ->
  (forall i, m = Patch i -> has k i = true) -> has k (row m d) = true.
Proof.
  intros Hnb Hk Hin H Hka Hi. eapply simple_has; [exact H | exact Hk | by intros v; apply Hka |].
  intros Hn. destruct m as [|i|i]; [| |by apply (Hi i)];
    apply bind_Ok in H as (attrs & Hr & _);
    destruct (fr_required _ _ _ k Hr) as [v Hv]; [by right; right | congruence | by right; right | congruence].
Qed.

Lemma ssh_saved m data d : is_valid Ssh m data = Ok d -> keeps_auth data -> some_auth (row m d).
Proof.
  intros (attrs & Hr & (u & _ & H)%bind_Ok)%bind_Ok Hka. cbn [validate] in H.
  apply validate_ssh_spec in H as (hp & Hd & [HN _] & Hg & _); [|by eapply fr_NoDup].
  set (k := if hp then "password" else "ssh_key"). exists k.
  assert (Hk : k ∈ "username" :: AUTH_FIELDS /\ k ∈ writable Ssh /\ k <> "ssh_passphrase" /\
    k <> (if hp then "ssh_key" else "password") /\ (k ∉ ["become_method"; "become_user"]) /\
    (k ∉ get_fields_to_clear Ssh)) by (unfold k; destruct hp; by_compute).
  destruct Hk as (Hk1 & Hk2 & Hk3 & Hk4 & Hk5 & Hk6). split; [done|].
  rewrite has_row, Hg by done.
  assert (Hb : dget k (base_validate Ssh attrs) = dget k attrs) by (by rewrite dget_base_validate, decide_False).
  destruct (dget k attrs) as [v|] eqn:E.
  - destruct (given_clean _ _ _ _ _ _ Hr Hk2 Hk5 Hk6 Hb) as (w & Hw & ->). by apply (Hka k w).
  - apply truthy_inst. revert Hd. unfold _has_password_or_ssh_key.
    assert (Hf : has k (base_validate Ssh attrs) = false) by (unfold has, dget_none; by rewrite Hb).
    destruct (partial m && _ && _); intros [= H1 H2]; unfold k in *; destruct hp;
      cbv beta iota delta [negb] in *; congruence.
Qed.

Lemma token_saved m data d : is_valid AuthTokenOrUserPass m data = Ok d -> keeps_auth data -> some_auth (row m d).
Proof.
  intros (attrs & Hr & (u & _ & H)%bind_Ok)%bind_Ok Hka. cbn [validate] in H.
  unfold validate_token_or_user_pass in H. set (b := base_validate _ attrs) in *.
  destruct (_detect_provided_auth m b) as [[hu ht] hv] eqn:Hd.
  assert (Hor : forall k, k ∈ ["vault_secret_path"; "auth_token"; "password"; "username"] ->
    k ∈ "username" :: AUTH_FIELDS /\ k ∈ writable AuthTokenOrUserPass /\
    (k ∉ get_fields_to_clear AuthTokenOrUserPass)) by (apply Forall_forall; by_compute).
  assert (Hwhere : (hv = true -> has "vault_secret_path" b = true \/ truthy (inst_get "vault_secret_path" m) = true) /\
    (ht = true -> has "auth_token" b = true \/ truthy (inst_get "auth_token" m) = true) /\
    (hu = true -> (has "password" b = true \/ truthy (inst_get "password" m) = true) \/
                  (has "username" b = true \/ truthy (inst_get "username" m) = true))).
  { unfold _detect_provided_auth in Hd. destruct (partial m && _); injection Hd as <- <- <-;
      rewrite ?orb_true_iff; tauto. }
  destruct Hwhere as (Hwv & Hwt & Hwu).
  destruct (negb ht && negb hu && negb hv) eqn:Hany; [done|].
  destruct (1 <? b2z hu + b2z ht + b2z hv) eqn:Hone; [done|].
  assert (Hc : forall s k, k ∈ ["vault_secret_path"; "auth_token"; "password"; "username"] ->
    k ∈ kind_fields (simple_kind s) -> is_valid_simple s m b = Ok d ->
    (has k b = true \/ truthy (inst_get k m) = true) -> some_auth (row m d)).
  { intros s k Hk Hs Hv Hw. destruct (Hor k Hk) as (H1 & H2 & H3). exists k. split; [done|].
    eapply composite_has; eauto. }
  destruct hv; [eapply (Hc VaultSecretPath "vault_secret_path"); [by_compute | by_compute | exact H | auto]|].
  destruct ht; [eapply (Hc AuthToken "auth_token"); auto; by_compute|].
  destruct hu; [|done]. destruct (Hwu eq_refl).
  - eapply (Hc UsernamePassword "password"); auto; by_compute.
  - eapply (Hc UsernamePassword "username"); auto; by_compute.
Qed.

Lemma vault_saved m data d : is_valid UsernamePasswordOrVault m data = Ok d -> keeps_auth data ->
  some_auth (row m d).
Proof.
  intros (attrs & Hr & (u & _ & H)%bind_Ok)%bind_Ok Hka. cbn [validate] in H.
  unfold validate_user_pass_or_vault in H. set (b := base_validate _ attrs) in *.
  destruct (detect_user_pass_or_vault m b) as [hu hv] eqn:Hd.
  assert (Hc : forall s k, k ∈ ["vault_secret_path"; "password"; "username"] ->
    k ∈ kind_fields (simple_kind s) -> is_valid_simple s m b = Ok d ->
    (has k b = true \/ truthy (inst_get k m) = true) -> some_auth (row m d)).
  { assert (Hor : forall k, k ∈ ["vault_secret_path"; "password"; "username"] ->
      k ∈ "username" :: AUTH_FIELDS /\ k ∈ writable UsernamePasswordOrVault /\
      (k ∉ get_fields_to_clear UsernamePasswordOrVault)) by (apply Forall_forall; by_compute).
    intros s k Hk Hs Hv Hw. destruct (Hor k Hk) as (H1 & H2 & H3). exists k. split; [done|].
    eapply composite_has; eauto. }
  destruct (negb hu && negb hv) eqn:Hany; [done|]. destruct (hu && hv) eqn:Hboth; [done|].
  unfold detect_user_pass_or_vault in Hd. destruct hv.
  - eapply (Hc VaultSecretPath "vault_secret_path"); [by_compute | by_compute | by destruct hu |].
    destruct (partial m && _ && _); injection Hd as _ ->; auto.
  - destruct hu; [|done].
    assert (Hw : (has "password" b = true \/ truthy (inst_get "password" m) = true) \/
      (has "username" b = true \/ truthy (inst_get "username" m) = true)).
    { destruct (partial m && _ && _); injection Hd as Hd _; apply orb_true_iff in Hd; tauto. }
    destruct Hw; [eapply (Hc UsernamePassword "password") | eapply (Hc UsernamePassword "username")];
      auto; by_compute.
Qed.

(** The type of the request, which selects the serializer, is that of the row. *)
Definition request_type (m : mode) (data : pydict) : pyval :=
  match instance m with
  | Some i => default (dget_none "cred_type" i) (dget "cred_type" data)
  | None => dget_none "cred_type" data
  end.

Lemma patched_type c i data d t : is_valid c (Patch i) data = Ok d -> "cred_type" ∈ writable c ->
  request_type (Patch i) data = VStr t -> str_strip t = t -> dget_none "cred_type" i = VStr t.
Proof.
  intros (attrs & Hr & (u & Hu & _)%bind_Ok)%bind_Ok Hw Ht Hs. unfold request_type in Ht. cbn in Ht.
  destruct (dget "cred_type" data) as [v|] eqn:E; [|done]. cbn in Ht. subst v.
  pose proof (fr_given _ _ _ _ _ _ Hr Hw E) as Ha. unfold validate_cred_type in Hu. cbn [instance] in Hu.
  rewrite Ha in Hu. change (clean_field "cred_type" (VStr t)) with (VStr (str_strip t)) in Hu. rewrite Hs in Hu.
  destruct (dget_none "cred_type" i) eqn:Ei; try done. rewrite py_eq_str in Hu.
  by case_bool_decide; subst.
Qed.

Lemma simple_saved s m data d : get_input_serializer_class (request_type m data) = Ok (Simple s) ->
  is_valid (Simple s) m data = Ok d -> keeps_auth data -> (forall i, m = Patch i -> authenticated i) ->
  some_auth (row m d).
Proof.
  intros Hc Hd Hka Hi. destruct (request_type m data) as [| | | |t| | | | |] eqn:Ht; try done.
  assert (Ht' : (s = AuthToken /\ t = "rhacs") \/ (s = UsernamePassword /\ (t = "vcenter" \/ t = "satellite"))).
  { cbn [get_input_serializer_class] in Hc. destruct (dget t serializer_by_type) eqn:E; [|done].
    injection Hc as ->. apply dget_elem in E. revert E. unfold serializer_by_type. clear.
    rewrite !elem_of_cons, elem_of_nil. naive_solver. }
  assert (Hrow : forall i, m = Patch i -> dget_none "cred_type" i = VStr t).
  { intros i ->. eapply patched_type; [exact Hd | destruct s; by_compute | exact Ht |].
    by destruct Ht' as [[_ ->]|[_ [-> | ->]]]. }
  destruct Ht' as [[-> ->]|[-> Ht']].
  - exists "auth_token". split; [by_compute|]. eapply (single_saved AuthToken); eauto; try by_compute.
    intros i Hm. pose proof (Hi i Hm) as Ha. unfold authenticated in Ha. by rewrite (Hrow i Hm) in Ha.
  - exists "password". split; [by_compute|]. eapply (single_saved UsernamePassword); eauto; try by_compute.
    intros i Hm. pose proof (Hi i Hm) as Ha. unfold authenticated in Ha. rewrite (Hrow i Hm) in Ha.
    by destruct Ht' as [-> | ->].
Qed.

Lemma kind_one K : Forall (fun k1 => Forall (fun k2 => k1 ∈ kind_fields K -> k2 ∈ kind_fields K -> k1 = k2)
  AUTH_FIELDS) AUTH_FIELDS.
Proof. destruct K; by_compute. Qed.

Lemma auth_optional : Forall (fun k => k ∈ optional_type_specific_fields) ("username" :: AUTH_FIELDS).
Proof. by_compute. Qed.

Lemma limited_has K m d k : limited K d -> k ∈ optional_type_specific_fields -> has k (row m d) = true ->
  k ∈ kind_fields K.
Proof.
  intros Hl Ho Hh. destruct (decide (k ∈ kind_fields K)) as [|Hn]; [done|].
  by rewrite (limited_row K) in Hh.
Qed.

(** [C24] A credential saved through the V2 API, whatever the row was before a [PUT]
    or [PATCH]: it has at most one of password, key, key file, token and vault path;
    a user name goes with neither token nor vault; a passphrase does not go with a
    password; and it has some way to authenticate, if the request blanks none of
    these columns and, for the types with only one way, a patched row had it. *)
Theorem credential_auth_exclusive m data r :
  save_credential run_fields vault_configured encrypt m data = Ok r ->
  (forall k1 k2, k1 ∈ AUTH_FIELDS -> k2 ∈ AUTH_FIELDS -> has k1 r = true -> has k2 r = true -> k1 = k2) /\
  (has "username" r = true -> has "auth_token" r = false /\ has "vault_secret_path" r = false) /\
  (has "ssh_passphrase" r = true -> has "password" r = false) /\
  (keeps_auth data -> (forall i, m = Patch i -> authenticated i) -> some_auth r).
Proof.
  unfold save_credential. fold (request_type m data).
  intros (c & Hc & (d & Hd & Hr)%bind_Ok)%bind_Ok. injection Hr as <-.
  change (dupdate (default new_credential (instance m)) d) with (dupdate (base_row m) d).
  destruct (is_valid_limited _ _ _ _ Hd) as [K HK].
  assert (Hin : forall k, k ∈ "username" :: AUTH_FIELDS -> has k (row m d) = true -> k ∈ kind_fields K).
  { intros k Hk. apply (limited_has K); [done|]. by apply (proj1 (Forall_forall _ _) auth_optional). }
  assert (Hno : forall k, k ∈ optional_type_specific_fields -> k ∉ kind_fields K -> has k (row m d) = false)
    by (intros k; by apply limited_row).
  split; [|split; [|split]].
  - intros k1 k2 H1 H2 Hh1 Hh2.
    pose proof (proj1 (Forall_forall _ _) (kind_one K) k1 H1) as Hk.
    apply (proj1 (Forall_forall _ _) Hk k2 H2); apply Hin; done || by right.
  - intros Hh%Hin; [|left]. split; apply Hno; try by_compute; destruct K; revert Hh; clear; cbn; set_solver.
  - intros Hh. assert (Hp : "ssh_passphrase" ∈ kind_fields K) by (eapply limited_has; [done | by_compute | done]).
    apply Hno; [by_compute|]. destruct K; revert Hp; clear; cbn; set_solver.
  - intros Hka Hi. destruct c as [s| | |];
      [by eapply simple_saved | by apply (ssh_saved m data) | by apply (token_saved m data) |
       by apply (vault_saved m data)].
Qed.
End exclusive.

(** ** V1: network credentials *)

Definition SSH_AUTH : list string := ["password"; "ssh_keyfile"; "ssh_key"].
Definition at_most_one (r : pydict) : Prop :=
  forall k1 k2, k1 ∈ SSH_AUTH -> k2 ∈ SSH_AUTH -> has k1 r = true -> has k2 r = true -> k1 = k2.

Lemma at_most_one_bool r : at_most_one r <->
  has "password" r && has "ssh_keyfile" r || has "password" r && has "ssh_key" r ||
  has "ssh_keyfile" r && has "ssh_key" r = false.
Proof.
  split.
  - intros H. assert (Hne : forall a b, a ∈ SSH_AUTH -> b ∈ SSH_AUTH -> a <> b -> has a r && has b r = false).
    { intros a b Ha Hb Hn. destruct (has a r) eqn:E1, (has b r) eqn:E2; try done. by destruct Hn; apply H. }
    rewrite !Hne; done || by_compute.
  - intros H k1 k2 H1 H2. unfold SSH_AUTH in *. rewrite !elem_of_cons, elem_of_nil in H1, H2.
    destruct (has "password" r) eqn:E1, (has "ssh_keyfile" r) eqn:E2, (has "ssh_key" r) eqn:E3; try done;
      destruct H1 as [->|[->|[->|[]]]], H2 as [->|[->|[->|[]]]]; congruence.
Qed.

Lemma has_dupdate k (d1 d2 : pydict) : NoDup (dkeys d2) ->
  has k (dupdate d1 d2) = match dget k d2 with Some v => truthy v | None => has k d1 end.
Proof. intros HN. unfold has, dget_none at 1. rewrite dget_dupdate by done. by destruct (dget k d2). Qed.

Lemma at_most_one_sub r r' : (forall k, k ∈ SSH_AUTH -> has k r' = true -> has k r = true) ->
  at_most_one r -> at_most_one r'.
Proof. intros Hs H k1 k2 H1 H2 Hh1 Hh2. apply H; auto. Qed.

Lemma only_one K r : (forall k, k ∈ SSH_AUTH -> k <> K -> has k r = false) -> at_most_one r.
Proof.
  intros H k1 k2 H1 H2 Hh1 Hh2.
  destruct (decide (k1 = K)) as [->|N1]; [|by rewrite H in Hh1].
  destruct (decide (k2 = K)) as [->|N2]; [done | by rewrite H in Hh2].
Qed.

(** An update that names one of the three clears the other two. *)
Lemma prepare_spec data :
  (exists K, K ∈ SSH_AUTH /\ forall k, k ∈ SSH_AUTH -> k <> K ->
     dget k (prepare_data_for_update data) = Some VNone) \/
  (prepare_data_for_update data = data /\ forall k, k ∈ SSH_AUTH -> has k data = false).
Proof.
  assert (Hc : forall K a b, K ∈ SSH_AUTH -> (forall k, k ∈ SSH_AUTH -> k <> K -> k = a \/ k = b) ->
    forall k, k ∈ SSH_AUTH -> k <> K -> dget k (dset a VNone (dset b VNone data)) = Some VNone).
  { intros K a b _ Hab k Hk Hn. rewrite !dget_dset. destruct (Hab k Hk Hn); subst; repeat case_decide; done. }
  unfold prepare_data_for_update, SSH_AUTH in *. destruct (has "password" data) eqn:E1.
  - left. exists "password". split; [by_compute|]. apply Hc; [by_compute|]. set_solver.
  - destruct (has "ssh_key" data) eqn:E3.
    + left. exists "ssh_key". split; [by_compute|]. apply Hc; [by_compute|]. set_solver.
    + destruct (has "ssh_keyfile" data) eqn:E2.
      * left. exists "ssh_keyfile". split; [by_compute|]. apply Hc; [by_compute|]. set_solver.
      * right. split; [done|]. by apply Forall_forall; repeat constructor.
Qed.

(** The V1 rules keep a password, a key file and a key apart too. *)
Lemma v1_network_exclusive m data d :
  NoDup (dkeys data) -> at_most_one (default new_credential (instance m)) ->
  validate_network_v1 m data = Ok d -> at_most_one (dupdate (default new_credential (instance m)) d).
Proof.
  intros HN Hi H. unfold validate_network_v1 in H. apply bind_Ok in H as (u & Hu & H).
  apply raise_if_Ok, note_nil in Hu as [_ [_ [H3 [H2 [H1 _]%note_nil]%note_nil]%note_nil]%note_nil].
  assert (Hdata : at_most_one data) by (apply at_most_one_bool; by rewrite H1, H2, H3).
  assert (HNd : NoDup (dkeys d)).
  { injection H as <-. unfold prepare_data_for_update. repeat case_match; by repeat apply NoDup_dkeys_dset. }
  destruct (instance m) as [i|]; injection H as <-; cbn [default] in *.
  - destruct (prepare_spec data) as [(K & _ & HK)|[Hp Hf]].
    + apply (only_one K). intros k Hk Hn. rewrite has_dupdate by done. by rewrite HK.
    + rewrite Hp in *. eapply at_most_one_sub; [|exact Hi]. intros k Hk. rewrite has_dupdate by done.
      specialize (Hf k Hk). unfold has, dget_none in Hf. destruct (dget k data); cbn in Hf; congruence.
  - eapply at_most_one_sub; [|exact Hdata]. intros k Hk. rewrite has_dupdate by done.
    unfold has at 2, dget_none. destruct (dget k data); [done|]. revert k Hk.
    assert (HF : Forall (fun k => has k new_credential = true -> False) SSH_AUTH) by by_compute.
    intros k Hk Hh. by destruct (proj1 (Forall_forall _ _) HF k Hk Hh).
Qed.

(** ** Examples *)

Definition sample_run (c : serializer) (p : bool) (data : pydict) : Res pydict :=
  if forallb (fun k => dmem k data || p) (required c) &&
     forallb (fun k => match dget k data with
                       | Some v => negb (py_eq (clean_field k v) (VStr ""))
                       | None => true
                       end) (not_blank c)
  then Ok (omap (fun k => (fun v => (k, clean_field k v)) <$> dget k data) (writable c))
  else Err (invalid "required").

Lemma dget_omap (f : string -> option pyval) l k :
  dget k (omap (fun k => (fun v => (k, v)) <$> f k) l) = if decide (k ∈ l) then f k else None.
Proof.
  induction l as [|x l IH]; [done|]. cbn. destruct (f x) as [v|] eqn:E; cbn; rewrite IH.
  - destruct (decide (k = x)) as [->|Hk].
    + by rewrite bool_decide_eq_true_2, decide_True by (done || left).
    + rewrite bool_decide_eq_false_2 by done. destruct (decide (k ∈ l)), (decide (k ∈ x :: l)); set_solver.
  - destruct (decide (k ∈ l)), (decide (k ∈ x :: l)) as [Hx|]; try done; [set_solver|].
    apply elem_of_cons in Hx as [->|]; [by rewrite E | done].
Qed.

Lemma keys_omap (f : string -> option pyval) l k :
  k ∈ dkeys (omap (fun k => (fun v => (k, v)) <$> f k) l) -> k ∈ l.
Proof.
  rewrite <-dget_keys, dget_omap. case_decide; [done|]. by intros [? ?].
Qed.

Lemma NoDup_omap (f : string -> option pyval) l : NoDup l ->
  NoDup (dkeys (omap (fun k => (fun v => (k, v)) <$> f k) l)).
Proof.
  induction 1 as [|x l Hx HN IH]; cbn; [constructor|]. destruct (f x); [|done]. cbn.
  constructor; [|done]. intros Hin. by apply keys_omap in Hin.
Qed.

Definition sample_fields (data : pydict) (k : string) : option pyval := clean_field k <$> dget k data.

Lemma sample_run_eq c p data d : sample_run c p data = Ok d ->
  d = omap (fun k => (fun v => (k, v)) <$> sample_fields data k) (writable c).
Proof.
  unfold sample_run. destruct (_ && _); [|done]. intros [= <-]. unfold sample_fields.
  induction (writable c) as [|x l IH]; [done|]. cbn. rewrite IH. by destruct (dget x data).
Qed.

#[export] Instance sample_rules : FieldRules sample_run.
Proof.
  split.
  - intros c p data d k ->%sample_run_eq. apply keys_omap.
  - intros c p data d k v ->%sample_run_eq Hk Hv. rewrite dget_omap, decide_True by done.
    unfold sample_fields. by rewrite Hv.
  - intros c p data d k v H Hk Hv. unfold sample_run in H. destruct (_ && _) eqn:E; [|done].
    apply andb_prop in E as [_ E]. rewrite forallb_forall in E. apply list_elem_of_In in Hk.
    specialize (E k Hk). cbn in E. rewrite Hv in E. intros Hc. by rewrite Hc in E.
  - intros c p data d k ->%sample_run_eq Hn. left. rewrite dget_omap. unfold sample_fields. rewrite Hn.
    by case_decide.
  - intros c p data d ->%sample_run_eq. apply NoDup_omap. destruct c as [[]| | |]; by_compute.
  - intros c data d k H Hk. unfold sample_run in H. destruct (_ && _) eqn:E; [|done].
    apply andb_prop in E as [E _]. rewrite forallb_forall in E. apply list_elem_of_In in Hk.
    specialize (E k Hk). cbn in E. rewrite orb_false_r in E. apply dmem_true, dget_keys in E. done.
Qed.

Definition sample_encrypt (s : string) : string := "$ANSIBLE_VAULT;" +:+ s.
Definition sample_decrypt (s : string) : string := str_drop 15 s.

Lemma sample_marked s : is_encrypted (sample_encrypt s) = true.
Proof. apply contains_spec. by exists "", (";" +:+ s). Qed.

Definition sample_ssh : pydict :=
  dset "username" (VStr "root") (dset "password" (VStr "$ANSIBLE_VAULT;old")
    (dset "cred_type" (VStr "network") (dset "name" (VStr "c") new_credential))).

(** From a password to a key. *)
Definition sample_rekeyed : pydict :=
  dset "ssh_key" (VStr "$ANSIBLE_VAULT;KEY") (dset "password" VNone sample_ssh).

Lemma credential_auth_exclusive_witness :
  save_credential sample_run true sample_encrypt (Patch sample_ssh) [("ssh_key", VStr "KEY")] = Ok sample_rekeyed /\
  some_auth sample_rekeyed.
Proof.
  assert (H : save_credential sample_run true sample_encrypt (Patch sample_ssh) [("ssh_key", VStr "KEY")] =
    Ok sample_rekeyed) by (vm_compute; reflexivity).
  split; [exact H|].
  destruct (credential_auth_exclusive sample_run true sample_encrypt sample_marked _ _ _ H) as (_ & _ & _ & Ha).
  apply Ha.
  - intros k v _ Hv. cbn in Hv. case_bool_decide; [|done]. injection Hv as <-. by subst.
  - intros i Hi. injection Hi as <-. exact I.
Defined.

(** A [PATCH] whose password is [null] passes, and leaves nothing to log in with. *)
Example null_password_accepted :
  get_auth_type <$> save_credential sample_run true sample_encrypt (Patch sample_ssh) [("password", VNone)]
  = Ok "unknown".
Proof. vm_compute. done. Qed.

(** A [PATCH] from a token to a password needs no user name. *)
Example password_without_user :
  (fun r => (get_auth_type r, dget_none "username" r)) <$>
  save_credential sample_run true sample_encrypt
    (Patch (dset "auth_token" (VStr "t") (dset "cred_type" (VStr "openshift") new_credential)))
    [("password", VStr "pw")] = Ok ("password", VNone).
Proof. vm_compute. done. Qed.

(** V1: the passphrase of a key that the same request replaces by a password. *)
Example passphrase_without_key :
  (fun d => let r := dupdate (dset "ssh_key" (VStr "k") new_credential) d in
            (has "password" r, has "ssh_key" r, has "ssh_passphrase" r)) <$>
  validate_network_v1 (Patch (dset "ssh_key" (VStr "k") new_credential))
    [("password", VStr "pw"); ("ssh_passphrase", VStr "pp")] = Ok (true, false, true).
Proof. vm_compute. done. Qed.

(** Saving a credential encrypts its secrets: saving again changes nothing, the
    other columns are untouched, and a secret decrypts to what was given, unless it
    contains the marker of the vault, and is stored as it is. *)
Theorem encrypt_fields_roundtrip (encrypt decrypt : string -> string) row k :
  (forall s, is_encrypted (encrypt s) = true) -> (forall s, decrypt (encrypt s) = s) ->
  let saved := encrypt_fields encrypt row in
  dget_none k (encrypt_fields encrypt saved) = dget_none k saved /\
  (k ∉ ENCRYPTED_FIELDS -> dget_none k saved = dget_none k row) /\
  (forall s, k ∈ ENCRYPTED_FIELDS -> dget_none k row = VStr s -> s <> "" ->
     exists t, dget_none k saved = VStr t /\ is_encrypted t = true /\
               (if is_encrypted s then t = s else decrypt t = s)).
Proof.
  intros Hmark Hdec saved. unfold saved. rewrite !dget_encrypt_fields by done. split; [|split].
  - case_decide; [|done]. destruct (dget_none k row); try done. unfold encrypted_value at 2.
    destruct (bool_decide (s = "") || is_encrypted s) eqn:E; cbn; [by rewrite E|].
    by rewrite Hmark, orb_true_r, E.
  - intros Hk. by rewrite decide_False.
  - intros s Hk Hs Hn. rewrite decide_True, Hs by done. cbn. rewrite bool_decide_eq_false_2 by done.
    destruct (is_encrypted s) eqn:E; cbn; eauto.
Qed.

Lemma encrypt_fields_roundtrip_witness :
  let row := dset "password" (VStr "secret") new_credential in
  dget_none "password" (encrypt_fields sample_encrypt row) = VStr "$ANSIBLE_VAULT;secret" /\
  exists t, dget_none "password" (encrypt_fields sample_encrypt row) = VStr t /\ sample_decrypt t = "secret".
Proof.
  intros row. split; [vm_compute; reflexivity|].
  assert (Hdec : forall s, sample_decrypt (sample_encrypt s) = s)
    by (intros s; exact (drop_append "$ANSIBLE_VAULT;" s)).
  destruct (encrypt_fields_roundtrip sample_encrypt sample_decrypt row "password" sample_marked Hdec)
    as (_ & _ & H).
  destruct (H "secret") as (t & Ht & _ & Hd); [by_compute | reflexivity | done |]. by exists t.
Defined.
