(* ===== verification/CredentialApi.v ===== *)
(** The V1 API of credentials, what both APIs show of a credential, and deletion.

    Models [api/credential/serializer_v1.py] around the rules of [Credentials], the
    representations of both serializers, and [destroy] of [api/credential/view.py] and
    [view_v1.py].  The framework's fields are behind the interface [FieldRulesV1]; the
    files, users and variables of the server are parameters. *)
From stdpp Require Import base gmap sets list strings.
From Stdlib Require Import Ascii ZArith Lia.
From S2P Require Import Prelude PyStr PyNum PyVal Merge ApiCommon Credentials.

Open Scope string_scope.
Open Scope Z_scope.

Definition RuntimeError : exn := OtherException "RuntimeError".
Definition NotFound : exn := OtherException "NotFound".
Definition Http404 : exn := OtherException "Http404".

(** ** Key files: [expand_filepath] *)

(** [\w] of the variables of [os.path.expandvars] *)
Definition word_char (c : ascii) : bool :=
  let n := Ascii.nat_of_ascii c in
  ((48 <=? n) && (n <=? 57) || (65 <=? n) && (n <=? 90) || (97 <=? n) && (n <=? 122) || (n =? 95))%nat.

Fixpoint word_run (s : string) : string * string :=
  match s with
  | String c r => if word_char c then let '(w, rest) := word_run r in (String c w, rest) else ("", s)
  | "" => ("", "")
  end.

Fixpoint until_brace (s : string) : option (string * string) :=
  match s with
  | "" => None
  | String c r => if bool_decide (c = "}"%char) then Some ("", r)
                  else '(name, rest) ← until_brace r; Some (String c name, rest)
  end.

(** What follows a dollar: the text matched, the name and the rest. *)
Definition variable (s : string) : option (string * string * string) :=
  match s with
  | String "{"%char r => '(name, rest) ← until_brace r; Some ("{" +:+ name +:+ "}", name, rest)
  | _ => match word_run s with ("", _) => None | (w, rest) => Some (w, w, rest) end
  end.

(** A path as [PurePath] parses it: its root and its parts. *)
Record pure_path := mkpath { root : string; parts : list string }.

Definition parse_path (s : string) : pure_path :=
  let root := if negb (str_startswith "/" s) then ""
              else if str_startswith "//" s && negb (str_startswith "///" s) then "//" else "/" in
  mkpath root (List.filter (fun p => negb (bool_decide (p = "" \/ p = "."))) (str_split "/" s)).

Definition path_str (p : pure_path) : string :=
  match root p, parts p with
  | "", [] => "."
  | r, l => r +:+ str_join "/" l
  end.

Section server.
(** The environment, the home directories by the name after the tilde, and the
    directory of the process. *)
Context (environ : string -> option string) (home : string -> option string) (cwd : string).
Context (is_file : string -> bool).

Fixpoint expandvars_go (fuel : nat) (s : string) : string :=
  match fuel, s with
  | O, _ => s
  | _, "" => ""
  | S fuel, String c r =>
      if bool_decide (c = "$"%char) then
        match variable r with
        | Some (text, name, rest) => default (String c text) (environ name) +:+ expandvars_go fuel rest
        | None => String c (expandvars_go fuel r)
        end
      else String c (expandvars_go fuel r)
  end.
Definition expandvars (s : string) : string := expandvars_go (String.length s) s.

Definition expanduser (p : pure_path) : Res pure_path :=
  match root p, parts p with
  | "", first :: rest =>
      if str_startswith "~" first then
        match home (str_drop 1 first) with
        | None => Err RuntimeError
        | Some dir => let d := parse_path dir in Ok (mkpath (root d) (parts d ++ rest)%list)
        end
      else Ok p
  | _, _ => Ok p
  end.

Definition absolute (p : pure_path) : pure_path :=
  if negb (bool_decide (root p = "")) then p
  else let d := parse_path cwd in mkpath (root d) (parts d ++ parts p)%list.

Definition expand_filepath (filepath : string) : Res string :=
  p ← expanduser (parse_path (expandvars filepath)); Ok (path_str (absolute p)).

Definition HC_KEY_INVALID (ssh_keyfile : string) : string :=
  "ssh_keyfile, " +:+ ssh_keyfile +:+ ", is not a valid file on the system.".

Definition validate_ssh_keyfile (ssh_keyfile : pyval) : Res pyval :=
  match ssh_keyfile with
  | VStr s => keyfile ← expand_filepath s;
              if is_file keyfile then Ok (VStr keyfile) else Err (invalid_field "ssh_keyfile" (HC_KEY_INVALID s))
  | _ => Ok VNone
  end.

(** ** The serializers of the V1 API *)

Inductive class_v1 := BaseV1 | NetworkV1 | AuthTokenOrUserPassV1 | SpecialV1 (s : serializer_v1).

Definition serializer_per_datasource : list (string * class_v1) :=
  [("network", NetworkV1); ("openshift", AuthTokenOrUserPassV1); ("vcenter", SpecialV1 UsernamePasswordV1);
   ("satellite", SpecialV1 UsernamePasswordV1); ("ansible", SpecialV1 UsernamePasswordV1);
   ("rhacs", SpecialV1 AuthTokenV1)].

(** A [defaultdict]; a list or a dict is no key. *)
Definition _get_serializer_class (cred_type : pyval) : Res class_v1 :=
  match cred_type with
  | VStr t => Ok (default BaseV1 (dget t serializer_per_datasource))
  | VList _ | VDict _ => Err TypeError
  | _ => Ok BaseV1
  end.

Definition _get_cred_type (m : mode) (data : pydict) : pyval :=
  match instance m with Some i => dget_none "cred_type" i | None => dget_none "cred_type" data end.

(** [__init__] *)
Definition with_cred_type (m : mode) (data : pydict) : pydict :=
  match instance m with
  | Some i => if dmem "cred_type" data then data else dset "cred_type" (dget_none "cred_type" i) data
  | None => data
  end.

(** [Meta.fields]; all the fields are the framework's, the declared ones and the
    columns, without the time stamps. *)
Definition Meta_fields_v1 (c : class_v1) : list string :=
  match c with
  | BaseV1 => ["id"; "sources"; "auth_type"] ++ dkeys new_credential
  | SpecialV1 AuthTokenV1 => ["auth_type"; "id"; "name"; "cred_type"; "auth_token"; "sources"]
  | SpecialV1 UsernamePasswordV1 => ["auth_type"; "cred_type"; "id"; "name"; "password"; "username"; "sources"]
  | NetworkV1 => ["auth_type"; "id"; "name"; "become_method"; "become_password"; "become_user"; "cred_type"; "password";
                  "ssh_keyfile"; "ssh_key"; "ssh_passphrase"; "username"; "sources"]
  | AuthTokenOrUserPassV1 => ["auth_type"; "cred_type"; "id"; "name"; "password"; "username"; "auth_token"; "sources"]
  end.

(** The others are only read. *)
Definition writable_v1 (c : class_v1) : list string :=
  List.filter (fun k => negb (bool_decide (k ∈ ["id"; "auth_type"; "sources"]))) (Meta_fields_v1 c).

(** The framework's [to_internal_value] over the declared fields, hooks apart. *)
Context (run_fields : class_v1 -> bool -> pydict -> Res pydict).

(** The hooks [validate_cred_type] and [validate_ssh_keyfile], whose errors are
    reported together. *)
Definition hook_errors {A} (r : Res A) : Res (list (string * list string)) :=
  match r with
  | Ok _ => Ok []
  | Err (ValidationError detail) => Ok detail
  | Err e => Err e
  end.

Definition field_hooks (c : class_v1) (m : mode) (attrs : pydict) : Res pydict :=
  let type := validate_cred_type m attrs in
  let keyfile := match c, dget "ssh_keyfile" attrs with
                 | NetworkV1, Some v => v ← validate_ssh_keyfile v; Ok (dset "ssh_keyfile" v attrs)
                 | _, _ => Ok attrs
                 end in
  e1 ← hook_errors type; e2 ← hook_errors keyfile;
  _ ← raise_if (e1 ++ e2)%list;
  keyfile.

(** The specialised serializers have no rule of their own, and are always complete. *)
Definition whole (m : mode) : mode := match instance m with Some i => Put i | None => Create end.

Definition is_valid_special (s : serializer_v1) (m : mode) (data : pydict) : Res pydict :=
  attrs ← run_fields (SpecialV1 s) (partial m) (with_cred_type m data);
  field_hooks (SpecialV1 s) m attrs.

Definition validate_v1 (c : class_v1) (m : mode) (attrs : pydict) : Res pydict :=
  match c with
  | NetworkV1 => validate_network_v1 m attrs
  | AuthTokenOrUserPassV1 => validate_token_or_user_pass_v1 (fun s m => is_valid_special s (whole m)) m attrs
  | BaseV1 | SpecialV1 _ => Ok attrs
  end.

Definition is_valid_v1 (c : class_v1) (m : mode) (data : pydict) : Res pydict :=
  attrs ← run_fields c (partial m) (with_cred_type m data);
  attrs ← field_hooks c m attrs;
  validate_v1 c m attrs.

(** [create] and [update] of the view, up to the row that is saved. *)
Definition save_credential_v1 (encrypt : string -> string) (m : mode) (data : pydict) : Res pydict :=
  c ← _get_serializer_class (_get_cred_type m data);
  attrs ← is_valid_v1 c m data;
  Ok (encrypt_fields encrypt (dupdate (default new_credential (instance m)) attrs)).
End server.

(** ** Representations *)

Definition ENCRYPTED_DATA_MASK : string := "********".

(** [CredentialSerializerV1.get_auth_type] *)
Definition get_auth_type_v1 (row : pydict) : string :=
  if has "auth_token" row then "auth_token"
  else if has "password" row then "password"
  else if has "ssh_key" row then "ssh_key"
  else if has "ssh_keyfile" row then "ssh_keyfile"
  else "unknown".

(** [RelatedSourceSerializer]: the sources that use a credential, by id and name. *)
Definition related_source (source : Z * string) : pyval :=
  VDict (not_empty [] [("id", VInt source.1); ("name", VStr source.2)]).
Definition related_sources (sources : list (Z * string)) : pyval := VList (related_source <$> sources).

(** The value of a field before what is empty is left out. *)
Definition field_value (auth_type : pydict -> string) (id : Z) (row : pydict) (sources : list (Z * string))
    (k : string) : pyval :=
  if bool_decide (k = "id") then VInt id
  else if bool_decide (k = "auth_type") then VStr (auth_type row)
  else if bool_decide (k = "sources") then related_sources sources
  else dget_none k row.

(** [to_representation] of the V1 API: the secrets that are not empty are masked. *)
Definition mask (data : pydict) : pydict :=
  foldl (fun d field => if dmem field d then dset field (VStr ENCRYPTED_DATA_MASK) d else d) data ENCRYPTED_FIELDS.

Definition to_representation_v1 (c : class_v1) (id : Z) (row : pydict) (sources : list (Z * string)) : pydict :=
  mask (not_empty [] ((fun k => (k, field_value get_auth_type_v1 id row sources k)) <$> Meta_fields_v1 c)).

(** The V2 API: the encrypted fields are only written, and shown as flags. *)
Definition flags : list string := ["auth_token"; "password"; "ssh_key"; "ssh_passphrase"; "become_password"].
Definition readable : list string :=
  List.filter (fun k => negb (bool_decide (k ∈ ENCRYPTED_FIELDS))) (dkeys new_credential).

Definition to_representation (id : Z) (row : pydict) (sources : list (Z * string)) : pydict :=
  let value k := (k, field_value get_auth_type id row sources k) in
  ((value <$> ["id"; "sources"; "auth_type"]) ++
   ((fun k => ("has_" +:+ k, VBool (get_has k row))) <$> flags) ++ (value <$> readable))%list.

(** ** Deletion *)

Definition CRED_DELETE_NOT_VALID_W_SOURCES : string :=
  "Credential cannot be deleted because it is used by one or more sources.".

(** [destroy] of the V2 API; [links]: the pairs (credential, source). *)
Definition destroy {row : Type} (links : list (Z * Z)) (pk : Z) (rows : gmap Z row) : Res (gmap Z row) :=
  match users links pk with
  | _ :: _ => Err (invalid_field "detail" CRED_DELETE_NOT_VALID_W_SOURCES)
  | [] => match rows !! pk with None => Err NotFound | Some _ => Ok (delete pk rows) end
  end.

(** The V1 API looks for the credential first. *)
Definition destroy_v1 {row : Type} (links : list (Z * Z)) (pk : Z) (rows : gmap Z row) : Res (gmap Z row) :=
  match rows !! pk with
  | None => Err Http404
  | Some _ => match users links pk with
              | _ :: _ => Err (invalid_field "detail" CRED_DELETE_NOT_VALID_W_SOURCES)
              | [] => Ok (delete pk rows)
              end
  end.

(** ** Lemmas: what a response shows *)

Definition text (v : pyval) : bool := match v with VNone | VStr _ => true | _ => false end.

(** Two rows that differ in the value of secrets only. *)
Record same_but_secrets (row row' : pydict) : Prop := {
  sb_open k : k ∉ ENCRYPTED_FIELDS -> dget_none k row = dget_none k row';
  sb_secret k : k ∈ ENCRYPTED_FIELDS -> has k row = has k row';
  sb_text k : k ∈ ENCRYPTED_FIELDS -> text (dget_none k row) = true /\ text (dget_none k row') = true }.

Definition mask_value (kv : string * pyval) : string * pyval :=
  (kv.1, if bool_decide (kv.1 ∈ ENCRYPTED_FIELDS) then VStr ENCRYPTED_DATA_MASK else kv.2).

Lemma dset_map field v (d : pydict) : NoDup (dkeys d) ->
  (if dmem field d then dset field v d else d) =
  (fun kv : string * pyval => (kv.1, if bool_decide (kv.1 = field) then v else kv.2)) <$> d.
Proof.
  unfold dmem. induction d as [|[k x] d IH]; [done|]. cbn. intros [Hk HN]%NoDup_cons.
  destruct (decide (field = k)) as [->|Hn].
  - rewrite !(bool_decide_eq_true_2 (k = k)) by done. f_equal.
    rewrite <-(list_fmap_id d) at 1. apply list_fmap_ext. intros i [k' x'] Hi. cbn.
    rewrite bool_decide_eq_false_2; [done|]. intros ->. apply Hk. unfold dkeys.
    apply list_elem_of_lookup. exists i. by rewrite list_lookup_fmap, Hi.
  - rewrite (bool_decide_eq_false_2 (field = k)), (bool_decide_eq_false_2 (k = field)) by congruence.
    rewrite <-IH by done. by destruct (dget field d).
Qed.

Lemma mask_map d : NoDup (dkeys d) -> mask d = mask_value <$> d.
Proof.
  unfold mask, mask_value. generalize (VStr ENCRYPTED_DATA_MASK) as v. intros v. revert d.
  induction ENCRYPTED_FIELDS as [|f l IH]; intros d HN; cbn [foldl].
  - rewrite <-(list_fmap_id d) at 1. by apply list_fmap_ext; intros ? [??] _.
  - rewrite dset_map by done. rewrite IH.
    + rewrite <-list_fmap_compose. apply list_fmap_ext. intros _ [k x] _. cbn. f_equal.
      repeat case_bool_decide; try done; set_solver.
    + unfold dkeys. rewrite <-list_fmap_compose. exact HN.
Qed.

Lemma not_empty_fmap f ks : (forall k, f k = (k, (f k).2) :> string * pyval) ->
  not_empty [] (f <$> ks) = f <$> List.filter (fun k => is_int_inst (f k).2 || truthy (f k).2) ks.
Proof.
  intros Hf. unfold not_empty. induction ks as [|k ks IH]; [done|]. cbn. rewrite (Hf k). cbn. rewrite IH.
  destruct (_ || _); [cbn; by rewrite <-Hf | done].
Qed.

Lemma NoDup_filter_list {A} (p : A -> bool) l : NoDup l -> NoDup (List.filter p l).
Proof.
  induction 1 as [|x l Hx HN IH]; cbn; [constructor|]. destruct (p x); [|done].
  constructor; [|done]. rewrite list_elem_of_In, filter_In. intros [H _]. by apply Hx, list_elem_of_In.
Qed.

Section hidden.
Context (row row' : pydict) (Hsame : same_but_secrets row row').

Lemma has_same k : has k row = has k row'.
Proof.
  destruct (decide (k ∈ ENCRYPTED_FIELDS)) as [H|H]; [by apply sb_secret | unfold has; by rewrite (sb_open _ _ Hsame)].
Qed.

Lemma get_has_same k : get_has k row = get_has k row'.
Proof.
  unfold get_has. destruct (decide (k ∈ ENCRYPTED_FIELDS)) as [H|H]; [|by rewrite (sb_open _ _ Hsame)].
  pose proof (sb_secret _ _ Hsame k H) as Hs. destruct (sb_text _ _ Hsame k H) as [T T']. unfold has in Hs.
  destruct (dget_none k row), (dget_none k row'); try done; cbn in Hs; try done; by rewrite Hs.
Qed.

Lemma auth_type_same : get_auth_type row = get_auth_type row' /\ get_auth_type_v1 row = get_auth_type_v1 row'.
Proof.
  pose proof has_same as H. unfold has in H.
  unfold get_auth_type, get_auth_type_v1, has. split; cbn beta zeta; by rewrite !H.
Qed.

Lemma field_value_same auth_type id sources k : auth_type row = auth_type row' ->
  (is_int_inst (field_value auth_type id row sources k) || truthy (field_value auth_type id row sources k) =
   is_int_inst (field_value auth_type id row' sources k) || truthy (field_value auth_type id row' sources k)) /\
  (k ∉ ENCRYPTED_FIELDS -> field_value auth_type id row sources k = field_value auth_type id row' sources k).
Proof.
  intros Ha. unfold field_value. repeat case_bool_decide; try (by rewrite ?Ha).
  destruct (decide (k ∈ ENCRYPTED_FIELDS)) as [He|He]; [|by rewrite (sb_open _ _ Hsame)].
  split; [|done]. destruct (sb_text _ _ Hsame k He) as [T T']. pose proof (has_same k) as Hs. unfold has in Hs.
  rewrite Hs. by destruct (dget_none k row), (dget_none k row').
Qed.
End hidden.

Lemma dget_keyed (v : string -> pyval) ks k :
  dget k ((fun k => (k, v k)) <$> ks) = if decide (k ∈ ks) then Some (v k) else None.
Proof.
  induction ks as [|x ks IH]; [done|]. cbn. rewrite IH. case_bool_decide as H.
  - subst. by rewrite decide_True by left.
  - destruct (decide (k ∈ ks)), (decide (k ∈ x :: ks)) as [Hx|]; try done; set_solver.
Qed.

(** The fields that are shown, with the secrets masked. *)
Definition shown (id : Z) (row : pydict) (sources : list (Z * string)) (k : string) : bool :=
  is_int_inst (field_value get_auth_type_v1 id row sources k) || truthy (field_value get_auth_type_v1 id row sources k).
Definition masked (id : Z) (row : pydict) (sources : list (Z * string)) (k : string) : pyval :=
  if bool_decide (k ∈ ENCRYPTED_FIELDS) then VStr ENCRYPTED_DATA_MASK else field_value get_auth_type_v1 id row sources k.

Lemma representation_v1_eq c id row sources : to_representation_v1 c id row sources =
  (fun k => (k, masked id row sources k)) <$> List.filter (shown id row sources) (Meta_fields_v1 c).
Proof.
  unfold to_representation_v1. rewrite not_empty_fmap by done. rewrite mask_map.
  - rewrite <-list_fmap_compose. by apply list_fmap_ext.
  - unfold dkeys. rewrite <-list_fmap_compose. rewrite (list_fmap_ext _ (fun k => k)) by done. rewrite list_fmap_id.
    apply NoDup_filter_list. destruct c as [| | |[]]; by_compute.
Qed.

Lemma secret_not_special k : k ∈ ENCRYPTED_FIELDS -> k ∉ ["id"; "auth_type"; "sources"].
Proof. intros H. apply (proj1 (Forall_forall (fun k => k ∉ ["id"; "auth_type"; "sources"]) ENCRYPTED_FIELDS)); [by_compute | done]. Qed.

Lemma secret_value auth_type id row sources k : k ∈ ENCRYPTED_FIELDS ->
  field_value auth_type id row sources k = dget_none k row.
Proof.
  intros H%secret_not_special. unfold field_value.
  rewrite !bool_decide_eq_false_2 by (intros ->; apply H; by_compute). done.
Qed.

(** [C25] The answers of both APIs do not depend on the value of a secret, whatever the
    serializer: two credentials that differ in the text of their secrets only are shown
    alike.  V1 shows a mask for each secret that is set, V2 shows none of them. *)
Theorem responses_hide_secrets row row' c id sources : same_but_secrets row row' ->
  to_representation_v1 c id row sources = to_representation_v1 c id row' sources /\
  to_representation id row sources = to_representation id row' sources /\
  (forall k, k ∈ ENCRYPTED_FIELDS ->
     dget k (to_representation_v1 c id row sources) =
       (if bool_decide (k ∈ Meta_fields_v1 c) && has k row then Some (VStr ENCRYPTED_DATA_MASK) else None) /\
     dget k (to_representation id row sources) = None).
Proof.
  intros Hs. destruct (auth_type_same row row' Hs) as [A2 A1].
  pose proof (fun k => field_value_same row row' Hs get_auth_type_v1 id sources k A1) as V1.
  pose proof (fun k => field_value_same row row' Hs get_auth_type id sources k A2) as V2.
  split; [|split].
  - rewrite !representation_v1_eq. rewrite (filter_ext _ (shown id row' sources)) by (intros k; apply V1).
    apply list_fmap_ext. intros _ k _. unfold masked. case_bool_decide as He; [done|]. by rewrite (proj2 (V1 k) He).
  - assert (HF : forall ks, Forall (fun k => k ∉ ENCRYPTED_FIELDS) ks ->
      (fun k => (k, field_value get_auth_type id row sources k)) <$> ks =
      (fun k => (k, field_value get_auth_type id row' sources k)) <$> ks).
    { intros ks HF. apply list_fmap_ext. intros i k Hi. rewrite (proj2 (V2 k)); [done|].
      by apply (Forall_lookup_1 _ _ i k HF). }
    unfold to_representation. cbn zeta. rewrite !HF by by_compute. do 2 f_equal.
    apply list_fmap_ext. intros _ k _. by rewrite (get_has_same row row' Hs).
  - intros k Hk. split.
    + rewrite representation_v1_eq, dget_keyed. unfold masked. rewrite bool_decide_eq_true_2 by done.
      assert (E : shown id row sources k = has k row).
      { unfold shown. rewrite secret_value by done. destruct (sb_text _ _ Hs k Hk) as [T _]. unfold has.
        by destruct (dget_none k row). }
      destruct (decide _) as [H|H]; rewrite list_elem_of_In, filter_In, <-list_elem_of_In, E in H.
      * destruct H as [H1 ->]. by rewrite bool_decide_eq_true_2.
      * case_bool_decide; cbn; [|done]. destruct (has k row); tauto.
    + assert (HF : forall k, k ∈ ENCRYPTED_FIELDS -> k ∉ dkeys (to_representation id row sources)).
      { apply Forall_forall. unfold to_representation. by_compute. }
      destruct (dget k _) eqn:E; [|done]. destruct (HF k Hk). apply dget_keys. by rewrite E.
Qed.

(** ** The rows of the V1 API *)

(** What the framework promises of the fields of the V1 serializers: [cred_type] is a
    choice, required to create a credential. *)
Class FieldRulesV1 (run_fields : class_v1 -> bool -> pydict -> Res pydict) : Prop := {
  fv_declared c p data d k : run_fields c p data = Ok d -> k ∈ dkeys d -> k ∈ writable_v1 c;
  fv_NoDup c p data d : run_fields c p data = Ok d -> NoDup (dkeys d);
  fv_type c p data d v : run_fields c p data = Ok d -> dget "cred_type" data = Some v ->
    dget "cred_type" d = Some v /\ exists t, v = VStr t /\ t ∈ DataSources;
  fv_required c data d : run_fields c false data = Ok d -> is_Some (dget "cred_type" data) }.

(** One way to log in. *)
Definition exclusive_v1 (c : class_v1) (r : pydict) : Prop :=
  match c with
  | NetworkV1 => at_most_one r
  | AuthTokenOrUserPassV1 => has "auth_token" r = true -> has "username" r = false /\ has "password" r = false
  | _ => True
  end.

(** A row of a known type, with the columns of that type only. *)
Definition v1_row (r : pydict) : Prop := exists t c,
  dget_none "cred_type" r = VStr t /\ dget t serializer_per_datasource = Some c /\
  (forall k, k ∈ optional_type_specific_fields -> k ∉ writable_v1 c -> has k r = false) /\ exclusive_v1 c r.

Section stored.
Context (environ : string -> option string) (home : string -> option string) (cwd : string).
Context (is_file : string -> bool).
Context (run_fields : class_v1 -> bool -> pydict -> Res pydict) {FR : FieldRulesV1 run_fields}.

Abbreviation hooks := (field_hooks environ home cwd is_file).
Abbreviation special := (is_valid_special environ home cwd is_file run_fields).

Lemma validate_cred_type_cases m attrs :
  validate_cred_type m attrs = Ok tt \/
  validate_cred_type m attrs = Err (invalid_field "cred_type" CRED_TYPE_NOT_ALLOWED_UPDATE).
Proof. unfold validate_cred_type. repeat case_match; auto. Qed.

Lemma validate_cred_type_spec m attrs t : dget "cred_type" attrs = Some (VStr t) ->
  validate_cred_type m attrs = Ok tt -> forall i, instance m = Some i -> dget_none "cred_type" i = VStr t.
Proof.
  unfold validate_cred_type. intros Ht H i Hi. rewrite Hi, Ht in H.
  destruct (dget_none "cred_type" i) as [| | | |s| | | | |]; try done.
  rewrite py_eq_str in H. by case_bool_decide; subst.
Qed.

(** The hooks change the key file at most, and accept the type of the row only. *)
Lemma field_hooks_spec c m attrs d t : NoDup (dkeys attrs) -> dget "cred_type" attrs = Some (VStr t) ->
  hooks c m attrs = Ok d ->
  NoDup (dkeys d) /\ dkeys d = dkeys attrs /\ dget "cred_type" d = Some (VStr t) /\
  (forall i, instance m = Some i -> dget_none "cred_type" i = VStr t).
Proof.
  intros HN Ht. unfold field_hooks.
  destruct (validate_cred_type_cases m attrs) as [E|E]; rewrite E; cbn [hook_errors invalid_field mbind res_bind];
    [|intros (? & _ & (? & [=] & _)%bind_Ok)%bind_Ok].
  intros (e2 & _ & (_ & _ & H)%bind_Ok)%bind_Ok.
  assert (Hd : d = attrs \/ exists v w, dget "ssh_keyfile" attrs = Some w /\ d = dset "ssh_keyfile" v attrs).
  { destruct c; try (injection H as <-; by left). destruct (dget "ssh_keyfile" attrs) as [w|]; [|injection H as <-; by left].
    apply bind_Ok in H as (v & _ & [= <-]). right. eauto. }
  assert (Hi := validate_cred_type_spec m attrs t Ht E).
  destruct Hd as [->|(v & w & Hw & ->)]; [done|].
  assert (HK : dkeys (dset "ssh_keyfile" v attrs) = dkeys attrs).
  { rewrite dkeys_dset. case_decide as Hin; [done|]. destruct Hin. apply dget_keys. by rewrite Hw. }
  rewrite HK. split; [done|]. split; [done|]. split; [|done]. by rewrite dget_dset_ne.
Qed.

Lemma with_cred_type_given m data : dmem "cred_type" data = true -> with_cred_type m data = data.
Proof. unfold with_cred_type. destruct (instance m); [|done]. by intros ->. Qed.

(** The values of a specialised serializer. *)
Lemma special_spec s m attrs d t : dget "cred_type" attrs = Some (VStr t) -> special s m attrs = Ok d ->
  NoDup (dkeys d) /\ (forall k, k ∈ dkeys d -> k ∈ writable_v1 (SpecialV1 s)) /\ dget "cred_type" d = Some (VStr t).
Proof.
  intros Ht. unfold is_valid_special. rewrite with_cred_type_given by (unfold dmem; by rewrite Ht).
  intros (d0 & Hrun & Hh)%bind_Ok. pose proof (fv_NoDup _ _ _ _ Hrun) as HN.
  destruct (fv_type _ _ _ _ _ Hrun Ht) as [Ht0 _].
  destruct (field_hooks_spec _ _ _ _ _ HN Ht0 Hh) as (HNd & HK & Htd & _).
  split; [done|]. split; [|done]. rewrite HK. intros k. by apply (fv_declared _ _ _ _ _ Hrun).
Qed.

Lemma setup_type m attrs v : dget "cred_type" attrs = Some v -> dget "cred_type" (_setup_default_data m attrs) = Some v.
Proof.
  unfold _setup_default_data. destruct m as [| |i]; try done.
  generalize ["cred_type"; "name"; "password"; "username"; "auth_token"] as ks. intros ks. revert attrs.
  induction ks as [|k ks IH]; intros attrs H; [done|]. cbn [foldl]. apply IH.
  destruct (dmem k attrs) eqn:E; [done|]. rewrite dget_dset_ne; [done|]. intros <-. unfold dmem in E. by rewrite H in E.
Qed.

(** What a valid request gives: columns of its class, or cleared ones. *)
Definition valid_v1 (c : class_v1) (m : mode) (t : string) (d : pydict) : Prop :=
  NoDup (dkeys d) /\ (forall k, k ∈ dkeys d -> k ∈ writable_v1 c) /\ dget "cred_type" d = Some (VStr t) /\
  (c = AuthTokenOrUserPassV1 ->
     dget "username" d = Some VNone /\ dget "password" d = Some VNone \/ dget "auth_token" d = Some VNone) /\
  (c = NetworkV1 -> at_most_one (default new_credential (instance m)) ->
     at_most_one (dupdate (default new_credential (instance m)) d)).

Lemma special_v1 s m t d : NoDup (dkeys d) -> (forall k, k ∈ dkeys d -> k ∈ writable_v1 (SpecialV1 s)) ->
  dget "cred_type" d = Some (VStr t) -> valid_v1 (SpecialV1 s) m t d.
Proof. by split. Qed.

Lemma token_or_user_pass_v1 m attrs t d : dget "cred_type" attrs = Some (VStr t) ->
  validate_token_or_user_pass_v1 (fun s m => special s (whole m)) m attrs = Ok d ->
  valid_v1 AuthTokenOrUserPassV1 m t d.
Proof.
  intros Ht. unfold validate_token_or_user_pass_v1.
  destruct (_get_user_pass_or_auth_token m attrs) as [up tk]. destruct tk, up; cbn [negb andb]; try done.
  all: intros (d0 & Hd & [= <-])%bind_Ok.
  all: unfold dupdate in *; cbn [foldl] in *.
  all: apply (special_spec _ _ _ _ t) in Hd as (HN & HK & Htd);
    [|rewrite !dget_dset_ne by done; by apply setup_type].
  all: split; [by repeat apply NoDup_dkeys_dset|split; [|split; [|split; [|done]]]].
  all: try (rewrite !dget_dset_ne by done; exact Htd).
  all: try (intros k; rewrite ?elem_of_dkeys_dset; intros Hk; repeat (destruct Hk as [->|Hk]; [by_compute|]);
    apply HK in Hk; revert k Hk; apply Forall_forall; by_compute).
  - intros _. left. by rewrite !dget_dset; repeat case_decide.
  - intros _. right. by rewrite dget_dset_eq.
Qed.

Lemma prepare_keys data : (forall k, k ∈ dkeys (prepare_data_for_update data) ->
    k ∈ dkeys data \/ k ∈ ["password"; "ssh_keyfile"; "ssh_key"]) /\
  (NoDup (dkeys data) -> NoDup (dkeys (prepare_data_for_update data))) /\
  dget "cred_type" (prepare_data_for_update data) = dget "cred_type" data.
Proof.
  unfold prepare_data_for_update. repeat case_match; (split; [|split]);
    try (intros HN; by repeat apply NoDup_dkeys_dset); try (by rewrite ?dget_dset_ne);
    intros k; rewrite ?elem_of_dkeys_dset; set_solver.
Qed.

Lemma network_v1 m attrs t d : NoDup (dkeys attrs) -> (forall k, k ∈ dkeys attrs -> k ∈ writable_v1 NetworkV1) ->
  dget "cred_type" attrs = Some (VStr t) -> validate_network_v1 m attrs = Ok d -> valid_v1 NetworkV1 m t d.
Proof.
  intros HN HK Ht Hv. pose proof Hv as Hv'. unfold validate_network_v1 in Hv.
  apply bind_Ok in Hv as (_ & _ & [= <-]).
  destruct (prepare_keys attrs) as (P1 & P2 & P3).
  assert (HW : forall k, k ∈ ["password"; "ssh_keyfile"; "ssh_key"] -> k ∈ writable_v1 NetworkV1)
    by (apply Forall_forall; by_compute).
  split; [destruct (instance m); auto|]. split.
  { intros k Hk. destruct (instance m); [destruct (P1 k Hk)|]; auto. }
  split; [by destruct (instance m); rewrite ?P3|]. split; [done|].
  intros _ Hi. by apply (v1_network_exclusive m attrs).
Qed.

Lemma is_valid_v1_spec c m data d : is_valid_v1 environ home cwd is_file run_fields c m data = Ok d ->
  exists t, t ∈ DataSources /\ _get_cred_type m data = VStr t /\ (c <> BaseV1 -> valid_v1 c m t d).
Proof.
  unfold is_valid_v1. intros (d0 & Hrun & (d1 & Hh & Hv)%bind_Ok)%bind_Ok.
  assert (Hg : exists v, dget "cred_type" (with_cred_type m data) = Some v /\
    (instance m = None -> dget_none "cred_type" data = v)).
  { unfold with_cred_type. destruct (instance m) as [i|] eqn:Ei.
    - destruct (dmem "cred_type" data) eqn:E; unfold dmem in E.
      + destruct (dget "cred_type" data); [by eexists | done].
      + rewrite dget_dset_eq. by eexists.
    - destruct m; try done. destruct (fv_required _ _ _ Hrun) as [v Hv']. unfold with_cred_type in Hv'. cbn in Hv'.
      exists v. split; [done|]. intros _. unfold dget_none. by rewrite Hv'. }
  destruct Hg as (v & Hg & Hcreate). destruct (fv_type _ _ _ _ _ Hrun Hg) as (Ht & t & -> & Hin).
  pose proof (fv_NoDup _ _ _ _ Hrun) as HN.
  destruct (field_hooks_spec _ _ _ _ _ HN Ht Hh) as (HN1 & HK1 & Ht1 & Hi).
  assert (HK : forall k, k ∈ dkeys d1 -> k ∈ writable_v1 c)
    by (rewrite HK1; intros k; by apply (fv_declared _ _ _ _ _ Hrun)).
  exists t. split; [done|]. split.
  { unfold _get_cred_type. destruct (instance m) as [i|]; [by apply Hi | by apply Hcreate]. }
  intros Hc. destruct c as [| | |s]; [done| | |].
  - by apply (network_v1 m d1).
  - by apply (token_or_user_pass_v1 m d1).
  - injection Hv as <-. by apply special_v1.
Qed.
Context (encrypt : string -> string) (Hmark : forall s, is_encrypted (encrypt s) = true).

Lemma known_types : Forall (fun t => exists c, dget t serializer_per_datasource = Some c /\ c <> BaseV1) DataSources.
Proof. repeat constructor; eexists; (split; [reflexivity | done]). Qed.

Lemma new_credential_empty k : has k new_credential = false.
Proof.
  assert (H : Forall (fun kv : string * pyval => kv.2 = VNone) new_credential) by by repeat constructor.
  unfold has, dget_none. destruct (dget k new_credential) as [v|] eqn:E; [|done].
  apply dget_elem in E. pose proof (proj1 (Forall_forall _ _) H _ E) as Hv. cbn in Hv. by subst.
Qed.

(** [C26] The rows that the V1 API makes, by any sequence of creations, [PUT]s and
    [PATCH]es: each keeps the type it was made with, has the columns of that type only,
    and one way to log in: one of password, key and key file, or a token without user
    name and password. *)
Theorem v1_rows_invariant m data r :
  save_credential_v1 environ home cwd is_file run_fields encrypt m data = Ok r ->
  (forall i, instance m = Some i -> v1_row i) ->
  v1_row r /\ (forall i, instance m = Some i -> dget_none "cred_type" r = dget_none "cred_type" i).
Proof.
  unfold save_credential_v1. intros (c & Hc & (d & Hd & [= <-])%bind_Ok)%bind_Ok Hi.
  destruct (is_valid_v1_spec _ _ _ _ Hd) as (t & Ht & Hty & Hv).
  destruct (proj1 (Forall_forall _ _) known_types t Ht) as (c' & Hc' & Hne).
  rewrite Hty in Hc. unfold _get_serializer_class in Hc. rewrite Hc' in Hc. injection Hc as ->.
  destruct (Hv Hne) as (HN & HK & Htd & Hex & Hnet). clear Hv.
  set (base := default new_credential (instance m)) in *.
  assert (Hbase : (forall k, k ∈ optional_type_specific_fields -> k ∉ writable_v1 c -> has k base = false) /\
                  exclusive_v1 c base).
  { unfold base. destruct (instance m) as [i|] eqn:Ei; cbn [default].
    - destruct (Hi i eq_refl) as (t' & c' & Ht' & Hct & Hcol & He).
      unfold _get_cred_type in Hty. rewrite Ei, Ht' in Hty. injection Hty as ->. by assert (c' = c) as -> by congruence.
    - split; [intros k _ _; apply new_credential_empty|].
      destruct c as [| | |s]; try done.
      intros k1 k2 _ _ H. by rewrite new_credential_empty in H. }
  assert (Hrow : dget_none "cred_type" (encrypt_fields encrypt (dupdate base d)) = VStr t).
  { rewrite dget_encrypt_fields, decide_False by (done || by_compute). unfold dget_none.
    by rewrite dget_dupdate, Htd. }
  split.
  2:{ intros i Ei. rewrite Hrow. unfold _get_cred_type in Hty. by rewrite Ei in Hty. }
  exists t, c. split; [done|]. split; [done|]. destruct Hbase as [Hcol He]. split.
  - intros k Hk Hn. rewrite has_encrypt_fields, has_dupdate by done.
    destruct (dget k d) eqn:E; [|by apply Hcol]. destruct Hn. apply HK, dget_keys. by rewrite E.
  - destruct c as [| | |s]; cbn [exclusive_v1] in *; try done.
    + intros k1 k2 H1 H2. rewrite !has_encrypt_fields by done. by apply Hnet.
    + rewrite !has_encrypt_fields, !has_dupdate by done. intros Htok.
      destruct (Hex eq_refl) as [[-> ->]|E]; [done|]. by rewrite E in Htok.
Qed.
End stored.

(** ** Deletion *)

(** Both APIs delete the same credentials, and only those without sources, where the
    sources use credentials that exist. *)
Lemma destroy_agree {row} links pk (rows : gmap Z row) :
  (forall i u, (i, u) ∈ links -> is_Some (rows !! i)) ->
  (forall rows', destroy links pk rows = Ok rows' <-> destroy_v1 links pk rows = Ok rows') /\
  (forall rows', destroy links pk rows = Ok rows' ->
     is_Some (rows !! pk) /\ users links pk = [] /\ rows' = delete pk rows /\
     forall i u, (i, u) ∈ links -> is_Some (rows' !! i)).
Proof.
  intros Hl. unfold destroy, destroy_v1. split; intros rows'; destruct (users links pk) as [|u us] eqn:Eu;
    destruct (rows !! pk) as [r|] eqn:Er; try done.
  intros [= <-]. split; [by eexists|]. do 2 (split; [done|]). intros i u Hiu.
  rewrite lookup_delete_ne; [by eapply Hl|]. intros <-. unfold users in Eu.
  assert (Hin : u ∈ (List.filter (fun l => bool_decide (l.1 = pk)) links).*2); [|rewrite Eu in Hin; by apply elem_of_nil in Hin].
  apply list_elem_of_fmap. exists (pk, u). split; [done|]. apply list_elem_of_In, filter_In.
  rewrite <-list_elem_of_In. split; [done|]. by apply bool_decide_eq_true_2.
Qed.

(** The path of a key file is absolute, where the home directories and the directory
    of the process are. *)
Lemma expand_filepath_absolute environ home cwd f p :
  root (parse_path cwd) <> "" -> (forall u d, home u = Some d -> root (parse_path d) <> "") ->
  expand_filepath environ home cwd f = Ok p -> str_startswith "/" p = true.
Proof.
  intros Hc Hh. unfold expand_filepath. intros (q & Hq & [= <-])%bind_Ok.
  assert (Hroot : forall s, root (parse_path s) = "" \/ root (parse_path s) = "/" \/ root (parse_path s) = "//")
    by (intros s; unfold parse_path; cbn; repeat case_match; auto).
  assert (Ha : forall r l, (r = "/" \/ r = "//") -> str_startswith "/" (path_str (mkpath r l)) = true).
  { assert (H1 : forall y, str_startswith "/" (String "/" y) = true) by (intros y; by destruct y).
    intros r l [-> | ->]; [apply (H1 (str_join "/" l)) | apply (H1 (String "/" (str_join "/" l)))]. }
  assert (Hr : root q <> "" -> exists s, root q = root (parse_path s)).
  { unfold expanduser in Hq. set (p0 := parse_path (expandvars environ f)) in *.
    assert (H0 : Ok p0 = Ok q -> exists s, root q = root (parse_path s)) by (intros [= <-]; by eexists).
    destruct (root p0), (parts p0) as [|x rest]; auto. destruct (str_startswith "~" x); auto.
    destruct (home _) as [dir|]; [|done]. injection Hq as <-. by exists dir. }
  unfold absolute. case_bool_decide as E; cbn [negb].
  - apply Ha. destruct (Hroot cwd) as [?|[H|H]]; cbn [root]; auto. done.
  - destruct (Hr E) as [s Hs]. destruct q as [r l]. cbn in *. apply Ha.
    destruct (Hroot s) as [H|[H|H]]; rewrite <-Hs in H; auto. done.
Qed.

(** ** Examples *)

Module Samples.
Definition env (name : string) : option string := if bool_decide (name = "KEYS") then Some "/srv/keys" else None.
Definition users_home (user : string) : option string := if bool_decide (user = "") then Some "/home/qpc" else None.
Definition key_exists (f : string) : bool := bool_decide (f = "/srv/keys/id" \/ f = "/home/qpc/id").

Definition required_v1 (c : class_v1) : list string :=
  match c with
  | SpecialV1 AuthTokenV1 => ["auth_token"]
  | SpecialV1 UsernamePasswordV1 => ["username"; "password"]
  | NetworkV1 => ["username"]
  | _ => []
  end.

Definition type_ok (data : pydict) : bool :=
  match dget "cred_type" data with
  | Some (VStr t) => bool_decide (t ∈ DataSources)
  | Some _ => false
  | None => true
  end.

Definition run_v1 (c : class_v1) (p : bool) (data : pydict) : Res pydict :=
  if type_ok data && (p || forallb (fun k => dmem k data) ("cred_type" :: required_v1 c))
  then Ok (omap (fun k => (fun v => (k, v)) <$> dget k data) (writable_v1 c))
  else Err (invalid "required").

Lemma cred_type_writable c : "cred_type" ∈ writable_v1 c.
Proof. destruct c as [| | |[]]; by_compute. Qed.

#[export] Instance run_v1_rules : FieldRulesV1 run_v1.
Proof.
  assert (Hrun : forall c p data d, run_v1 c p data = Ok d ->
    d = omap (fun k => (fun v => (k, v)) <$> dget k data) (writable_v1 c) /\ type_ok data = true /\
    (p = true \/ dmem "cred_type" data = true)).
  { unfold run_v1. intros c p data d. destruct (type_ok data && _) eqn:E; [|done]. intros [= <-].
    apply andb_prop in E as [E1 E2]. split; [done|]. split; [done|].
    destruct p; [by left | right]. cbn in E2. by apply andb_prop in E2 as [E2 _]. }
  split.
  - intros c p data d k (-> & _)%Hrun. apply keys_omap.
  - intros c p data d (-> & _)%Hrun. apply NoDup_omap. destruct c as [| | |[]]; by_compute.
  - intros c p data d v (-> & Ht & _)%Hrun Hv. rewrite dget_omap, decide_True by apply cred_type_writable.
    split; [done|]. unfold type_ok in Ht. rewrite Hv in Ht. destruct v; try done. apply bool_decide_eq_true in Ht. eauto.
  - intros c data d (_ & _ & [?|H])%Hrun; [done|]. unfold dmem in H. by destruct (dget "cred_type" data).
Qed.

Definition save : mode -> pydict -> Res pydict :=
  save_credential_v1 env users_home "/work" key_exists run_v1 sample_encrypt.

Definition network_data : pydict :=
  [("name", VStr "c"); ("cred_type", VStr "network"); ("username", VStr "root"); ("ssh_keyfile", VStr "${KEYS}/./id")].
Definition network_row : pydict :=
  dset "ssh_keyfile" (VStr "/srv/keys/id") (dset "username" (VStr "root") (dset "cred_type" (VStr "network")
    (dset "name" (VStr "c") new_credential))).

Lemma network_row_v1 : v1_row network_row.
Proof.
  exists "network", NetworkV1. split; [done|]. split; [done|]. split.
  - intros k Hk Hn. assert (HF : Forall (fun k => k ∉ writable_v1 NetworkV1 -> has k network_row = false)
      optional_type_specific_fields) by (repeat constructor; intros H; try done; destruct H; by_compute).
    exact (proj1 (Forall_forall _ _) HF k Hk Hn).
  - apply at_most_one_bool. by vm_compute.
Qed.

(** From a key file to a password. *)
Lemma v1_rows_invariant_witness :
  save Create network_data = Ok network_row /\
  exists r, save (Patch network_row) [("password", VStr "pw")] = Ok r /\ v1_row r /\
    dget_none "ssh_keyfile" r = VNone.
Proof.
  split; [by vm_compute|].
  destruct (save (Patch network_row) [("password", VStr "pw")]) as [r|e] eqn:E; [|vm_compute in E; discriminate E].
  exists r. split; [done|].
  destruct (v1_rows_invariant env users_home "/work" key_exists run_v1 sample_encrypt sample_marked _ _ _ E)
    as [Hr _]; [intros i [= <-]; exact network_row_v1|].
  split; [exact Hr|]. vm_compute in E. injection E as <-. reflexivity.
Defined.

Example unknown_user : save Create (dset "ssh_keyfile" (VStr "~nobody/id") network_data) = Err RuntimeError.
Proof. by vm_compute. Qed.
Example undefined_variable :
  save Create (dset "ssh_keyfile" (VStr "$HERE/id") network_data) =
  Err (invalid_field "ssh_keyfile" (HC_KEY_INVALID "$HERE/id")).
Proof. by vm_compute. Qed.
Example expanded : expand_filepath env users_home "/work" "~/a//$KEYS/./b" = Ok "/home/qpc/a/srv/keys/b" /\
  expand_filepath env users_home "/work" "${}$x{y" = Ok "/work/${}$x{y".
Proof. by vm_compute. Qed.

(** A credential that the V2 API made with a vault path, changed through V1: V1 does not
    know the column, and the row has two ways to log in. *)
Definition vault_row : pydict :=
  dset "vault_secret_key" (VStr "k") (dset "vault_secret_path" (VStr "p") (dset "cred_type" (VStr "ansible")
    (dset "name" (VStr "c") new_credential))).
Example v1_mixes_vault :
  (fun r => (has "vault_secret_path" r, has "username" r, has "password" r, get_auth_type r, get_auth_type_v1 r)) <$>
  save (Patch vault_row) [("username", VStr "u"); ("password", VStr "pw")] =
  Ok (true, true, true, "vault_secret_path", "password").
Proof. by vm_compute. Qed.

Definition other_row : pydict := dset "password" (VStr "$ANSIBLE_VAULT;other") sample_ssh.

Lemma same_sample : same_but_secrets sample_ssh other_row.
Proof.
  split.
  - intros k Hk. unfold other_row, dget_none. rewrite dget_dset_ne; [done|]. intros ->. apply Hk. by_compute.
  - apply Forall_forall. by_compute.
  - intros k Hk. assert (HF : Forall (fun k => text (dget_none k sample_ssh) = true /\ text (dget_none k other_row) = true)
      ENCRYPTED_FIELDS) by by_compute. exact (proj1 (Forall_forall _ _) HF k Hk).
Qed.

Lemma responses_hide_secrets_witness :
  to_representation_v1 NetworkV1 1 sample_ssh [(2, "s")] = to_representation_v1 NetworkV1 1 other_row [(2, "s")] /\
  dget "password" (to_representation_v1 NetworkV1 1 sample_ssh [(2, "s")]) = Some (VStr "********").
Proof.
  destruct (responses_hide_secrets sample_ssh other_row NetworkV1 1 [(2, "s")] same_sample) as (H & _ & Hm).
  split; [exact H|]. destruct (Hm "password") as [Hp _]; [by_compute|]. rewrite Hp. by vm_compute.
Defined.
End Samples.
