(* ===== verification/HashicorpVault.v ===== *)
(** The HashiCorp Vault server: its definition through the REST API and the secrets
    read from it ([api/auth/hashicorp_vault/]).

    The definition is the metadata of one secure token of nobody.  The client
    library [hvac] is external: what it answers depends on the request and may be an
    exception of one of three classes.  The parsing of one value by a field of the
    framework is a parameter too, what the serializer does with the fields is
    written out. *)
From stdpp Require Import base gmap sets list strings sorting.
From Stdlib Require Import Ascii ZArith Lia.
From S2P Require Import Prelude PyStr PyNum PyVal Base64 NetworkUtils Sources ApiCommon SecureTokens.

Open Scope string_scope.
Open Scope Z_scope.

(** ** [api/auth/hashicorp_vault/auth.py] *)

Definition HASHICORP_VAULT_NAME : string := "hashicorp-vault-server".
Definition HASHICORP_VAULT_TYPE : string := "hashicorp-vault".
Definition HASHICORP_VAULT_CLIENT_CERT : string := "client_cert".
Definition HASHICORP_VAULT_CLIENT_KEY : string := "client_key".
Definition HASHICORP_VAULT_CA_CERT : string := "ca_cert".

Definition HASHICORP_VAULT_NOT_DEFINED : string := "HashiCorp Vault server is not defined".
Definition HASHICORP_VAULT_ALREADY_EXISTS : string := "HashiCorp Vault server definition already exists".
Definition HASHICORP_VAULT_INVALID_ADDRESS : string := "Address must be a valid FQDN, IPv4 or IPv6 address".
Definition HASHICORP_VAULT_VALID_CLIENT_CERT_REQUIRED : string :=
  "Valid client certificate is required for HashiCorp Vault authentication".
Definition HASHICORP_VAULT_VALID_CLIENT_KEY_REQUIRED : string :=
  "Valid client key is required for HashiCorp Vault authentication".
Definition HASHICORP_VAULT_VALID_CA_CERT_REQUIRED : string :=
  "Valid CA Cert is required for HashiCorp Vault authentication".
Definition HASHICORP_VAULT_FAILED_AUTHENTICATION (a : string) : string :=
  "Failed to authenticate to HashiCorp Vault " +:+ a.
Definition HASHICORP_VAULT_UPSTREAM_ERROR (a e : string) : string :=
  "Failed to authenticate to HashiCorp Vault " +:+ a +:+ ", VaultError: " +:+ e.
Definition HASHICORP_VAULT_CONNECTION_ERROR (a e : string) : string :=
  "Failed to authenticate to HashiCorp Vault " +:+ a +:+ ", ConnectionError: " +:+ e.
Definition HASHICORP_VAULT_HTTP_ERROR (a e : string) : string :=
  "Failed to authenticate to HashiCorp Vault " +:+ a +:+ ", BaseHTTPError: " +:+ e.
Definition VAULT_SECRET_NOT_CONFIGURED : string :=
  "Credential uses vault_secret_path but HashiCorp Vault is not configured.".
Definition VAULT_SECRET_AUTH_FAILED : string :=
  "Failed to authenticate with HashiCorp Vault when reading credential secret.".
Definition VAULT_SECRET_FETCH_FAILED (path mount err : string) : string :=
  "Failed to retrieve secret from HashiCorp Vault (path=" +:+ path +:+ ", mount_point=" +:+ mount +:+ "): " +:+ err.
Definition VAULT_SECRET_NO_DATA (path mount : string) : string :=
  "Vault secret at path '" +:+ path +:+ "' (mount_point='" +:+ mount +:+ "') returned no data.".
Definition VAULT_SECRET_MISSING_KEY (key path : string) : string :=
  "Vault secret does not contain the expected '" +:+ key +:+ "' key (path='" +:+ path +:+ "').".

Definition vault_token : secure_token -> bool := selects HASHICORP_VAULT_NAME HASHICORP_VAULT_TYPE None.

Definition get_hashicorp_vault_token (st : store) : option object := first vault_token st.

Definition delete_hashicorp_vault_token (st : store) : store :=
  match get_hashicorp_vault_token st with Some o => delete o st | None => st end.

Definition get_or_create_hashicorp_vault_token (st : store) : Res (object * store) :=
  get_or_create HASHICORP_VAULT_NAME HASHICORP_VAULT_TYPE None st.

(** The arguments of [hvac.Client], the files with their content. *)
Record client_args := mkclient { c_url : string; c_cert : string; c_key : string; c_ca : string }.

Section vault.
Context (excess_padding_error : bool) (DEFAULT_PORT : Z).

Definition hashicorp_vault_address (metadata : pydict) : string :=
  py_str (dget_none "address" metadata) +:+ ":" +:+ py_str (default (VInt DEFAULT_PORT) (dget "port" metadata)).

Definition hashicorp_vault_url (metadata : pydict) : string := "https://" +:+ hashicorp_vault_address metadata.

(** The two exceptions of decoding become a [ValueError], which text that is not
    ASCII raises by itself. *)
Definition decode_cert_from_content (content_b64 : pyval) : Res (option string) :=
  if truthy content_b64 then
    match content_b64 with
    | VStr s =>
        match (bytes ← b64decode_strict excess_padding_error s; decode_utf8 bytes) with
        | Ok content => Ok (Some content)
        | Err _ => Err ValueError
        end
    | _ => Err TypeError
    end
  else Ok None.

Definition hashicorp_cert_file (content_b64 : pyval) : Res (option string) :=
  if truthy content_b64 then
    try_except (decode_cert_from_content content_b64) is_value_error (fun _ => Ok None)
  else Ok None.

Definition require_cert (message : string) (content : option string) : Res string :=
  from_option (HashiCorpVaultAuthError message) content.

(** The arguments of the client; [vault_token] wins over [metadata]. *)
Definition hashicorp_vault_client (vault_token : option secure_token) (metadata : option pydict) : Res client_args :=
  let metadata := match vault_token with Some t => st_metadata t | None => metadata end in
  let metadata := default [] metadata in
  client_cert_content ← hashicorp_cert_file (dget_none HASHICORP_VAULT_CLIENT_CERT metadata);
  client_key_content ← hashicorp_cert_file (dget_none HASHICORP_VAULT_CLIENT_KEY metadata);
  ca_file_content ← hashicorp_cert_file (dget_none HASHICORP_VAULT_CA_CERT metadata);
  cert ← require_cert HASHICORP_VAULT_VALID_CLIENT_CERT_REQUIRED client_cert_content;
  key ← require_cert HASHICORP_VAULT_VALID_CLIENT_KEY_REQUIRED client_key_content;
  ca ← require_cert HASHICORP_VAULT_VALID_CA_CERT_REQUIRED ca_file_content;
  Ok (mkclient (hashicorp_vault_url metadata) cert key ca).

(** [hvac]: the login with the certificate, whether it succeeded, and a secret of
    the second version of the key-value store, by path and mount point. *)
Context (login : client_args -> Res unit) (is_authenticated : client_args -> Res bool).
Context (read_secret_version : client_args -> pydict -> Res pyval).
Context (VaultError ConnectionError BaseHTTPError : exn -> bool) (str_exn : exn -> string).

Definition hashicorp_vault_authenticate (vault_token : option secure_token) (metadata : option pydict) : Res unit :=
  let metadata := match vault_token with Some t => st_metadata t | None => metadata end in
  client ← hashicorp_vault_client vault_token metadata;
  let vault_address := hashicorp_vault_address (default [] metadata) in
  match (_ ← login client; is_authenticated client) with
  | Ok true => Ok tt
  | Ok false => Err (HashiCorpVaultAuthError (HASHICORP_VAULT_FAILED_AUTHENTICATION vault_address))
  | Err e =>
      if VaultError e then Err (HashiCorpVaultAuthError (HASHICORP_VAULT_UPSTREAM_ERROR vault_address (str_exn e)))
      else if ConnectionError e then
        Err (HashiCorpVaultAuthError (HASHICORP_VAULT_CONNECTION_ERROR vault_address (str_exn e)))
      else if BaseHTTPError e then
        Err (HashiCorpVaultAuthError (HASHICORP_VAULT_HTTP_ERROR vault_address (str_exn e)))
      else Err e
  end.

(** [hvac] and the network, and the exception of the client itself. *)
Definition vault_failure (e : exn) : bool :=
  VaultError e || ConnectionError e || BaseHTTPError e ||
  match e with HashiCorpVaultAuthError _ => true | _ => false end.

Definition fetch_secret (token : secure_token) (path mount_point : pyval) : Res pyval :=
  client ← hashicorp_vault_client (Some token) None;
  _ ← login client;
  authenticated ← is_authenticated client;
  if negb authenticated then Err (ScanFailureError VAULT_SECRET_AUTH_FAILED)
  else
    let read_kwargs := [("path", path)] in
    let read_kwargs := if truthy mount_point then dset "mount_point" mount_point read_kwargs else read_kwargs in
    read_secret_version client read_kwargs.

Definition read_vault_secret (st : store) (credential : pyval) : Res pyval :=
  match get_hashicorp_vault_token st with
  | None => Err (ScanFailureError VAULT_SECRET_NOT_CONFIGURED)
  | Some o =>
      credential ← as_dict "vault_secret_path" credential;
      let path := dget_none "vault_secret_path" credential in
      let mount_point := dget_none "vault_mount_point" credential in
      let secret_key := dget_none "vault_secret_key" credential in
      response ← try_except (fetch_secret (row o) path mount_point) vault_failure
        (fun e => Err (ScanFailureError (VAULT_SECRET_FETCH_FAILED (py_str path) (py_str mount_point) (str_exn e))));
      data ← vget_default response "data" (VDict []);
      secret_data ← vget_default data "data" (VDict []);
      if negb (truthy secret_data) then
        Err (ScanFailureError (VAULT_SECRET_NO_DATA (py_str path) (py_str mount_point)))
      else
        secret_data ← as_dict "get" secret_data;
        let value := match secret_key with VStr k => dget_none k secret_data | _ => VNone end in
        if negb (truthy value) then
          Err (ScanFailureError (VAULT_SECRET_MISSING_KEY (py_str secret_key) (py_str path)))
        else Ok value
  end.

(** ** [HashiCorpVaultSerializer] *)

(** [FQDN(value).is_valid]; a field of the framework on a value that is there. *)
Context (FQDN_is_valid : string -> Res bool) (parse_field : string -> pyval -> Res pyval).
(** The message for the content of a file that cannot be decoded. *)
Context (decode_error : string -> pyval -> string).

Definition validate_address (value : pyval) : Res pyval :=
  match value with
  | VStr s =>
      if is_valid_ip s then Ok value
      else valid ← FQDN_is_valid s;
           if (valid : bool) then Ok value else Err (invalid HASHICORP_VAULT_INVALID_ADDRESS)
  | _ => Err (invalid HASHICORP_VAULT_INVALID_ADDRESS)
  end.

Definition verify_client_cert_is_base64encoded (cert_file_name : string) (value : pyval) : Res pyval :=
  _ ← try_except (decode_cert_from_content value) is_value_error (fun _ => Err (invalid (decode_error cert_file_name value)));
  Ok value.

(** The declared fields with their defaults and the methods [validate_<field>]. *)
Definition field : Type := string * option pyval * (pyval -> Res pyval).

Definition cert_field (name : string) : field := (name, None, verify_client_cert_is_base64encoded name).

Definition fields : list field :=
  [("address", None, validate_address); ("port", Some (VInt DEFAULT_PORT), fun v => Ok v);
   cert_field HASHICORP_VAULT_CLIENT_KEY; cert_field HASHICORP_VAULT_CLIENT_CERT; cert_field HASHICORP_VAULT_CA_CERT].

(** [HashiCorpVaultResponseSerializer] *)
Definition response_fields : list field :=
  [("address", None, fun v => Ok v); ("port", None, fun v => Ok v)].

(** [run_validation] of one field: nothing, a value, or an exception. *)
Definition field_result (partial : bool) (data : pydict) (f : field) : Res (option pyval) :=
  let '(name, dflt, hook) := f in
  match dget name data with
  | Some v => v ← parse_field name v; Some <$> hook v
  | None =>
      if partial then Ok None
      else match dflt with
           | Some v => Some <$> hook v
           | None => Err (invalid "This field is required.")
           end
  end.

(** [to_internal_value]: every field is tried, the errors are collected. *)
Definition field_step (partial : bool) (data : pydict) (acc : pydict * list (string * list string))
    (f : field) : Res (pydict * list (string * list string)) :=
  match field_result partial data f with
  | Ok (Some v) => Ok ((acc.1 ++ [(f.1.1, v)])%list, acc.2)
  | Ok None => Ok acc
  | Err (ValidationError detail) => Ok (acc.1, (acc.2 ++ [(f.1.1, concat detail.*2)])%list)
  | Err e => Err e
  end.

Definition to_internal_value (fields : list field) (partial : bool) (data : pydict) : Res pydict :=
  acc ← foldM (field_step partial data) ([], []) fields;
  if bool_decide (acc.2 = []) then Ok acc.1 else Err (ValidationError acc.2).

(** [is_valid(raise_exception=True)], [validate] included. *)
Definition is_valid (partial : bool) (data : pydict) : Res pydict :=
  attrs ← to_internal_value fields partial data;
  _ ← hashicorp_vault_authenticate None (Some attrs);
  Ok attrs.

Definition set_definition (token : option string) (metadata : pydict) (t : secure_token) : secure_token :=
  mktoken (st_name t) (st_token_type t) (st_user t) token (Some metadata) (st_expires_at t).

(** [create] and [update], each in a transaction. *)
Definition create_definition (validated_data : pydict) (st : store) : Res (object * store) :=
  '(o, st) ← get_or_create_hashicorp_vault_token st;
  let o := mkobj (pk o) (set_definition None validated_data (row o)) in
  st ← save o st; Ok (o, st).

Definition update_definition (instance : object) (validated_data : pydict) (st : store) : Res (object * store) :=
  let o := mkobj (pk instance) (set_definition (st_token (row instance)) validated_data (row instance)) in
  st ← save o st; Ok (o, st).

(** [HashiCorpVaultResponseSerializer(data).data] *)
Definition response_representation (data : pydict) : Res pydict :=
  address ← getitem (VDict data) "address";
  port ← getitem (VDict data) "port";
  port ← Formatters.py_int port;
  Ok [("address", VStr (py_str address)); ("port", VInt port)].

(** [to_representation]: every field is read, the sensitive ones are taken out. *)
Definition to_representation (metadata : pydict) : Res pydict :=
  address ← getitem (VDict metadata) "address";
  let port := default (VInt DEFAULT_PORT) (dget "port" metadata) in
  port ← Formatters.py_int port;
  _ ← mapM (getitem (VDict metadata)) [HASHICORP_VAULT_CLIENT_KEY; HASHICORP_VAULT_CLIENT_CERT; HASHICORP_VAULT_CA_CERT];
  Ok [("address", VStr (py_str address)); ("port", VInt port)].

(** ** [HashiCorpVaultViewSet] *)

Definition detail (message : string) : pyval := VDict [("detail", VStr message)].

Definition errors_body (d : list (string * list string)) : pyval :=
  VDict ((fun p => (p.1, VList (VStr <$> p.2))) <$> d).

(** A [ValidationError] that the view lets through is answered by the framework in
    the way [put] does it. *)
Definition answer_errors (r : Res (Z * pyval)) : Res (Z * pyval) :=
  match r with
  | Err (HashiCorpVaultAuthError message) => Ok (400, detail message)
  | Err (ValidationError d) => Ok (400, errors_body d)
  | _ => r
  end.

Definition list_view (st : store) : store * Res (Z * pyval) :=
  (st, match get_hashicorp_vault_token st with
       | None => Ok (404, detail HASHICORP_VAULT_NOT_DEFINED)
       | Some o =>
           match st_metadata (row o) with
           | None => answer_errors (Err (invalid "No data provided"))
           | Some metadata =>
               answer_errors (validated_data ← to_internal_value response_fields false metadata;
                              d ← response_representation validated_data; Ok (200, VDict d))
           end
       end).

(** The response after [save]. *)
Definition saved_response (status : Z) (o : object) : Res (Z * pyval) :=
  data ← to_representation (default [] (st_metadata (row o)));
  d ← response_representation data;
  Ok (status, VDict d).

Definition post (data : pydict) (st : store) : store * Res (Z * pyval) :=
  match get_hashicorp_vault_token st with
  | Some _ => (st, Ok (409, detail HASHICORP_VAULT_ALREADY_EXISTS))
  | None =>
      match is_valid false data with
      | Err e => (st, answer_errors (Err e))
      | Ok attrs =>
          match create_definition attrs st with
          | Err e => (st, Err e)
          | Ok (o, st) => (st, saved_response 201 o)
          end
      end
  end.

Definition put_view (partial : bool) (data : pydict) (st : store) : store * Res (Z * pyval) :=
  match get_hashicorp_vault_token st with
  | None => (st, Ok (404, detail HASHICORP_VAULT_NOT_DEFINED))
  | Some o =>
      match (if partial then match st_metadata (row o) with Some m => Ok (dupdate m data) | None => Err TypeError end
             else Ok data) with
      | Err e => (st, Err e)
      | Ok metadata =>
          match is_valid partial metadata with
          | Err e => (st, answer_errors (Err e))
          | Ok attrs =>
              match update_definition o attrs st with
              | Err e => (st, Err e)
              | Ok (o, st) => (st, saved_response 200 o)
              end
          end
      end
  end.

Definition patch (data : pydict) (st : store) : store * Res (Z * pyval) := put_view true data st.

Definition delete_view (st : store) : store * Res (Z * pyval) :=
  (delete_hashicorp_vault_token st, Ok (204, VNone)).

(** ** What validation ensures *)

Lemma field_step_spec partial data acc acc' f : field_step partial data acc f = Ok acc' ->
  (acc'.2 = [] -> acc.2 = []) /\ dkeys acc.1 ⊆ dkeys acc'.1 /\
  (acc'.2 = [] -> partial = false \/ f.1.1 ∈ dkeys data -> f.1.1 ∈ dkeys acc'.1).
Proof.
  unfold field_step. destruct (field_result partial data f) as [[v|]|e] eqn:Hf.
  - intros [= <-]. cbn. unfold dkeys. rewrite fmap_app. split; [done|]. split; [set_solver|]. cbn. set_solver.
  - intros [= <-]. split; [done|]. split; [done|]. intros _ Hp. exfalso. revert Hf.
    destruct f as [[name dflt] hook]. cbn in *. destruct (dget name data) as [v|] eqn:Hd.
    + intros (v' & _ & (x & _ & [=])%fmap_Ok)%bind_Ok.
    + destruct Hp as [->|Hin]; [|apply dget_keys in Hin as [x Hx]; congruence].
      destruct dflt; [|done]. by intros (x & _ & [=])%fmap_Ok.
  - destruct e; try done. intros [= <-]. cbn. split; [intros H; by apply app_eq_nil in H as [_ ?]|].
    split; [done|]. intros H. by apply app_eq_nil in H as [_ ?].
Qed.

Lemma fields_step_spec partial data l : forall acc acc', foldM (field_step partial data) acc l = Ok acc' ->
  acc'.2 = [] -> acc.2 = [] /\ dkeys acc.1 ⊆ dkeys acc'.1 /\
  forall f, f ∈ l -> partial = false \/ f.1.1 ∈ dkeys data -> f.1.1 ∈ dkeys acc'.1.
Proof.
  induction l as [|f l IH]; intros acc acc'; cbn [foldM].
  - intros [= <-] He. split_and!; [done..|]. by intros f ?%elem_of_nil.
  - intros (acc1 & H1 & H2)%bind_Ok He. apply IH in H2 as (He1 & Hsub & Hin); [|done].
    apply field_step_spec in H1 as (He0 & Hsub0 & Hf). split_and!; [by apply He0 | set_solver|].
    intros g [->|Hg]%elem_of_cons Hp; [|by apply Hin]. apply Hsub. by apply Hf.
Qed.

Definition field_names : list string :=
  ["address"; "port"; HASHICORP_VAULT_CLIENT_KEY; HASHICORP_VAULT_CLIENT_CERT; HASHICORP_VAULT_CA_CERT].

Definition complete (metadata : pydict) : Prop := forall k, k ∈ field_names -> k ∈ dkeys metadata.

Lemma authenticate_client token metadata u : hashicorp_vault_authenticate token metadata = Ok u ->
  is_Ok (hashicorp_vault_client token (match token with Some t => st_metadata t | None => metadata end)).
Proof. unfold hashicorp_vault_authenticate. intros (c & H & _)%bind_Ok. by exists c. Qed.

Lemma is_valid_spec partial data attrs : is_valid partial data = Ok attrs ->
  is_Ok (hashicorp_vault_client None (Some attrs)) /\ (partial = false \/ complete data -> complete attrs).
Proof.
  unfold is_valid, to_internal_value.
  intros (a & (acc & Hacc & Ha)%bind_Ok & (u & Hu & [= ->])%bind_Ok)%bind_Ok.
  case_bool_decide as He; [|done]. injection Ha as <-. apply authenticate_client in Hu. split; [done|].
  apply fields_step_spec in Hacc as (_ & _ & Hin); [|done]. intros Hp k Hk.
  assert (exists f, f ∈ fields /\ f.1.1 = k) as (f & Hf & <-).
  { assert (field_names = (fun f : field => f.1.1) <$> fields) as E by done. rewrite E in Hk.
    apply list_elem_of_fmap in Hk as (f & -> & Hf). eauto. }
  apply Hin; [done|]. destruct Hp as [->|Hc]; [by left | right; by apply Hc].
Qed.

Lemma dupdate_keys (d1 d2 : pydict) k : k ∈ dkeys d1 -> k ∈ dkeys (dupdate d1 d2).
Proof.
  unfold dupdate. revert d1. induction d2 as [|[k' v] d2 IH]; intros d1 Hk; [done|]. cbn. apply IH.
  apply dget_keys in Hk as [x Hx]. apply dget_keys. rewrite dget_dset. case_decide; eauto.
Qed.

(** ** The invariant of the definition *)

(** A token of the server is complete and gives a client. *)
Definition usable (t : secure_token) : Prop :=
  st_user t = None /\ exists metadata, st_metadata t = Some metadata /\ complete metadata /\
    is_Ok (hashicorp_vault_client (Some t) None).

Definition vault_ok (st : store) : Prop :=
  wf st /\ forall i t, rows st !! i = Some t -> vault_token t = true -> usable t.

Lemma vault_token_spec t : vault_token t = true <->
  st_name t = HASHICORP_VAULT_NAME /\ st_token_type t = HASHICORP_VAULT_TYPE.
Proof. unfold vault_token, selects. by rewrite andb_true_r, andb_true_iff, !bool_decide_eq_true. Qed.

Lemma usable_defined token attrs t : st_user t = None -> complete attrs ->
  is_Ok (hashicorp_vault_client None (Some attrs)) -> usable (set_definition token attrs t).
Proof. intros Hu Hc Hok. split; [done|]. by exists attrs. Qed.

Lemma vault_ok_save o st st' : vault_ok st -> pk o < next_id st -> (vault_token (row o) = true -> usable (row o)) ->
  save o st = Ok st' -> vault_ok st'.
Proof.
  intros [W U] Hp Ho Hs. split; [by eapply wf_save|]. apply save_spec in Hs as (_ & _ & ->). cbn.
  intros i t [[<- <-]|[_ H]]%lookup_insert_Some; eauto.
Qed.

Lemma vault_ok_create attrs st o st' : vault_ok st -> get_hashicorp_vault_token st = None -> complete attrs ->
  is_Ok (hashicorp_vault_client None (Some attrs)) -> create_definition attrs st = Ok (o, st') -> vault_ok st'.
Proof.
  intros [W U] Hnone Hc Hok. unfold create_definition, get_or_create_hashicorp_vault_token, get_or_create.
  change (selects _ _ (Some <$> None)) with vault_token. unfold get_hashicorp_vault_token, first in Hnone.
  destruct (matching vault_token st) as [|o1 l]; [|done].
  intros ([o1 st1] & (-> & Hn & -> & W1)%create_spec & (st2 & Hs & [= <- <-])%bind_Ok)%bind_Ok; [|done].
  split; [refine (wf_save _ _ _ W1 _ Hs); cbn; lia|].
  apply save_spec in Hs as (_ & _ & ->). cbn. rewrite insert_insert_eq.
  intros i t [[<- <-]|[_ H]]%lookup_insert_Some Ht; [|by eapply U]. by apply usable_defined.
Qed.

Lemma vault_ok_post data st : vault_ok st -> vault_ok (post data st).1.
Proof.
  intros K. unfold post. destruct (get_hashicorp_vault_token st) eqn:Hg; [done|].
  destruct (is_valid false data) as [attrs|e] eqn:Hv; [|done]. apply is_valid_spec in Hv as [Hok Hc].
  destruct (create_definition attrs st) as [[o st']|e] eqn:Hd; [|done]. cbn. eapply vault_ok_create; eauto.
Qed.

Lemma vault_ok_put partial data st : vault_ok st -> vault_ok (put_view partial data st).1.
Proof.
  intros K. unfold put_view. destruct (get_hashicorp_vault_token st) as [o|] eqn:Hg; [|done].
  apply first_elem in Hg as [Ho Hvt]. destruct (proj2 K _ _ Ho Hvt) as (Hu & m & Hm & Hcm & _). rewrite Hm.
  assert (exists metadata, (if partial then Ok (dupdate m data) else Ok data) = Ok metadata /\
          (partial = false \/ complete metadata)) as (metadata & -> & Hp).
  { destruct partial; eexists; (split; [done|]); [right|by left]. intros k Hk. apply dupdate_keys. by apply Hcm. }
  destruct (is_valid partial metadata) as [attrs|e] eqn:Hv; [|done]. apply is_valid_spec in Hv as [Hok Hc].
  unfold update_definition. destruct (save _ st) as [st'|e] eqn:Hs; [|done]. cbn.
  eapply vault_ok_save; [exact K | | | exact Hs].
  - cbn. by eapply wf_fresh; [apply K|].
  - intros _. apply usable_defined; eauto.
Qed.

Lemma vault_ok_delete st : vault_ok st -> vault_ok (delete_view st).1.
Proof.
  intros [W U]. cbn. unfold delete_hashicorp_vault_token. destruct (get_hashicorp_vault_token st) as [o|]; [|done].
  split; [by apply wf_delete|]. cbn. intros i t [_ H]%lookup_delete_Some. eauto.
Qed.

Lemma vault_ok_delete_user u st : vault_ok st -> vault_ok (delete_user u st).
Proof. intros [W U]. split; [by apply wf_delete_user|]. cbn. intros i t [H _]%map_lookup_filter_Some. eauto. Qed.
(** ** Reading a secret *)



Definition read_kwargs (credential : pydict) : pydict :=
  let mount_point := dget_none "vault_mount_point" credential in
  ("path", dget_none "vault_secret_path" credential) ::
  if truthy mount_point then [("mount_point", mount_point)] else [].



(** A secret that is given is not empty. *)
Lemma secret_given st credential v : read_vault_secret st credential = Ok v -> truthy v = true.
Proof.
  unfold read_vault_secret. destruct (get_hashicorp_vault_token st); [|done].
  intros (? & _ & (? & _ & (? & _ & (secret & _ & H)%bind_Ok)%bind_Ok)%bind_Ok)%bind_Ok.
  destruct (negb (truthy secret)); [done|]. apply bind_Ok in H as (d & _ & H).
  by destruct (truthy (match _ with VStr _ => _ | _ => _ end)) eqn:Ht; [injection H as <-|].
Qed.

End vault.

(** ** Requests in any order *)

Section requests.
Context (excess_padding_error : bool) (DEFAULT_PORT : Z).
Context (VaultError ConnectionError BaseHTTPError : exn -> bool) (str_exn : exn -> string).
Context (FQDN_is_valid : string -> Res bool) (parse_field : string -> pyval -> Res pyval).
Context (decode_error : string -> pyval -> string).

(** The server may answer otherwise at each request. *)
Inductive vault_step : store -> store -> Prop :=
| vault_post login is_authenticated data st :
    vault_step st (post excess_padding_error DEFAULT_PORT login is_authenticated VaultError ConnectionError
      BaseHTTPError str_exn FQDN_is_valid parse_field decode_error data st).1
| vault_put login is_authenticated partial data st :
    vault_step st (put_view excess_padding_error DEFAULT_PORT login is_authenticated VaultError ConnectionError
      BaseHTTPError str_exn FQDN_is_valid parse_field decode_error partial data st).1
| vault_delete st : vault_step st (delete_view st).1
| vault_delete_user u st : vault_step st (delete_user u st).

Lemma vault_step_ok st st' : vault_step st st' ->
  vault_ok excess_padding_error DEFAULT_PORT st -> vault_ok excess_padding_error DEFAULT_PORT st'.
Proof.
  intros [login is_authenticated data s|login is_authenticated partial data s|s|u s] K.
  - by apply vault_ok_post.
  - by apply vault_ok_put.
  - by apply vault_ok_delete.
  - by apply vault_ok_delete_user.
Qed.

Lemma vault_reachable_ok st0 st : rows st0 = ∅ -> rtc vault_step st0 st -> vault_ok excess_padding_error DEFAULT_PORT st.
Proof.
  intros H0 H. assert (vault_ok excess_padding_error DEFAULT_PORT st0) as K.
  { split; [split|]; intros *; rewrite H0; by rewrite !lookup_empty. }
  clear H0. induction H as [|s1 s2 s3 H _ IH]; [done|]. apply IH. by eapply vault_step_ok.
Qed.

(** Whatever requests define, change and delete the HashiCorp Vault server, in
    whatever order and whatever the server answers: there is one definition at most,
    and the definition there is has an address, a port and three files that decode,
    so that a client can always be made of it. *)
Theorem vault_requests st0 st : rows st0 = ∅ -> rtc vault_step st0 st ->
  (forall i j t u, rows st !! i = Some t -> rows st !! j = Some u ->
     vault_token t = true -> vault_token u = true -> i = j) /\
  (forall o, get_hashicorp_vault_token st = Some o ->
     (exists metadata, st_metadata (row o) = Some metadata /\ forall k, k ∈ field_names -> k ∈ dkeys metadata) /\
     exists client, hashicorp_vault_client excess_padding_error DEFAULT_PORT (Some (row o)) None = Ok client).
Proof.
  intros H0 H. destruct (vault_reachable_ok st0 st H0 H) as [W U]. split.
  - intros i j t u Hi Hj Ht Hu. apply (wf_unique _ W i j t u Hi Hj). apply same_key_spec.
    destruct (U i t Hi Ht) as [-> _], (U j u Hj Hu) as [-> _]. apply vault_token_spec in Ht as [-> _], Hu as [-> _]. done.
  - intros o [Ho Ht]%first_elem. destruct (U _ _ Ho Ht) as (_ & m & Hm & Hc & [c Hok]). eauto.
Qed.
End requests.

(** ** Examples and witnesses *)

Module Samples.
Definition no_error (e : exn) : bool := false.
Definition is_forbidden (e : exn) : bool := match e with OtherException n => bool_decide (n = "Forbidden") | _ => false end.
Definition text (e : exn) : string := "error".
Definition any_name (s : string) : Res bool := Ok true.
Definition as_given (name : string) (v : pyval) : Res pyval := Ok v.
Definition undecodable (name : string) (v : pyval) : string := "cannot decode " +:+ name.

Definition logs_in (c : client_args) : Res unit := Ok tt.
Definition forbids (c : client_args) : Res unit := Err (OtherException "Forbidden").
Definition trusted (c : client_args) : Res bool := Ok true.

Definition definition (cert : string) : pydict :=
  [("address", VStr "vault.example.com"); ("client_key", VStr (b64encode true "key"));
   ("client_cert", VStr cert); ("ca_cert", VStr (b64encode true "authority"))].
Definition good_cert : string := b64encode true "certificate".

Definition no_tokens : store := mkstore ∅ 1 ∅.
Definition post_to (login : client_args -> Res unit) (data : pydict) (st : store) : store * Res (Z * pyval) :=
  post false 8200 login trusted is_forbidden no_error no_error text any_name as_given undecodable data st.
Definition put_to (login : client_args -> Res unit) (partial : bool) (data : pydict) (st : store) : store * Res (Z * pyval) :=
  put_view false 8200 login trusted is_forbidden no_error no_error text any_name as_given undecodable partial data st.
Definition defined : store := (post_to logs_in (definition good_cert) no_tokens).1.

(** The answers name the address and the port, never the files. *)
Example created : (post_to logs_in (definition good_cert) no_tokens).2
  = Ok (201, VDict [("address", VStr "vault.example.com"); ("port", VInt 8200)]).
Proof. by vm_compute. Qed.

Example created_twice : (post_to logs_in (definition good_cert) defined).2 = Ok (409, detail HASHICORP_VAULT_ALREADY_EXISTS).
Proof. by vm_compute. Qed.

Example bad_certificate : (post_to logs_in (definition "$$") no_tokens).2
  = Ok (400, VDict [("client_cert", VList [VStr "cannot decode client_cert"])]).
Proof. by vm_compute. Qed.

Example rejected_by_the_server :
  post_to forbids (definition good_cert) no_tokens
  = (no_tokens, Ok (400, detail (HASHICORP_VAULT_UPSTREAM_ERROR "vault.example.com:8200" "error"))).
Proof. by vm_compute. Qed.

Example port_changed : (put_to logs_in true [("port", VInt 8230)] defined).2
  = Ok (200, VDict [("address", VStr "vault.example.com"); ("port", VInt 8230)]).
Proof. by vm_compute. Qed.
End Samples.

Import Samples.

Definition vault_credential : pydict := [("vault_secret_path", VStr "aap"); ("vault_secret_key", VStr "password")].

Lemma defined_reachable : rtc (vault_step false 8200 is_forbidden no_error no_error text any_name as_given undecodable)
  no_tokens defined.
Proof. apply rtc_once. exact (vault_post _ _ _ _ _ _ _ _ _ logs_in trusted (definition good_cert) no_tokens). Qed.

Lemma vault_requests_witness :
  exists o client, get_hashicorp_vault_token defined = Some o /\ hashicorp_vault_client false 8200 (Some (row o)) None = Ok client.
Proof.
  destruct (get_hashicorp_vault_token defined) as [o|] eqn:Ho; [|vm_compute in Ho; discriminate Ho].
  destruct (proj2 (proj2 (vault_requests false 8200 is_forbidden no_error no_error text any_name as_given undecodable
    no_tokens defined ltac:(reflexivity) defined_reachable) o Ho)) as [client Hc].
  exists o, client. split; [reflexivity | exact Hc].
Defined.


(** A read that times out is none of the exceptions that are caught, and ends the scan
    with an unexpected exception instead of a scan failure. *)
Example read_timeout_escapes :
  read_vault_secret false 8200 logs_in trusted (fun _ _ => Err (OtherException "ReadTimeout")) is_forbidden no_error no_error
    text defined (VDict vault_credential) = Err (OtherException "ReadTimeout").
Proof. by vm_compute. Qed.
