(* ===== verification/Scans.v ===== *)
(** Scans: the model with its V1 options ([api/scan/model.py]) and the serializer
    that creates and updates it ([api/scan/serializer.py]).

    The nested details of a validation error have the path of their keys, joined
    by dots.  A column keeps the Python value in memory; [save] writes the row as
    the database has it. *)
From stdpp Require Import base gmap sets list strings relations.
From Stdlib Require Import Ascii ZArith Lia.
From S2P Require Import Prelude PyStr PyNum PyVal ApiCommon Sources.

Open Scope string_scope.
Open Scope Z_scope.

Definition SCAN_NAME_ALREADY_EXISTS (name : string) : string :=
  "Scan with name=" +:+ name +:+ " already exists".
Definition HC_NAME_ALREADY_EXISTS (name : string) : string :=
  "Host credential with name=" +:+ name +:+ " already exists".
Definition SCAN_OPTIONS_EXTENDED_SEARCH_DIR_NOT_LIST : string :=
  "search_directories must be a JSON array of valid paths".
Definition SJ_REQ_SOURCES : string := "Scan job must have one or more sources.".
Definition SJ_SOURCE_IDS_INV : string := "Source identifiers must be integer values.".
Definition SJ_SOURCE_DO_NOT_EXIST (id : Z) : string :=
  "Source with id=" +:+ int_repr id +:+ " could not be found in database.".

(** ** The model *)

Definition JBOSS_EAP : string := "jboss_eap".
Definition JBOSS_FUSE : string := "jboss_fuse".
Definition JBOSS_WS : string := "jboss_ws".

Record PROD_DEF := mkprod {
  enabled : bool; ext_name : string; ext_enabled : bool; extra_var_opt : bool }.

Definition PRODUCTS : list (string * PROD_DEF) :=
  (fun p => (p, mkprod true (p +:+ "_ext") false true)) <$> [JBOSS_EAP; JBOSS_FUSE; JBOSS_WS].
Definition SUPPORTED_PRODUCTS : list string := dkeys PRODUCTS.

Definition EXT_PRODUCT_SEARCH_DIRS : string := "search_directories".
Definition MAX_CONCURRENCY : string := "max_concurrency".
Definition DISABLED_OPTIONAL_PRODUCTS : string := "disabled_optional_products".
Definition ENABLED_EXTENDED_PRODUCT_SEARCH : string := "enabled_extended_product_search".
Definition DEFAULT_MAX_CONCURRENCY : Z := 25.
Definition UPPER_MAX_CONCURRENCY : Z := 200.
Definition SCAN_TYPE_CHOICES : list string := ["inspect"].

Record scan := mkscan {
  name : string;
  scan_sources : list Z;
  scan_type : pyval;
  max_concurrency : pyval;
  enabled_optional_products : pyval;
  enabled_extended_product_search : pyval }.

Definition new_scan : scan := mkscan "" [] (VStr "inspect") (VInt DEFAULT_MAX_CONCURRENCY) VNone VNone.

Definition set_name v (s : scan) := mkscan v (scan_sources s) (scan_type s) (max_concurrency s)
  (enabled_optional_products s) (enabled_extended_product_search s).
Definition set_sources v (s : scan) := mkscan (name s) v (scan_type s) (max_concurrency s)
  (enabled_optional_products s) (enabled_extended_product_search s).
Definition set_type v (s : scan) := mkscan (name s) (scan_sources s) v (max_concurrency s)
  (enabled_optional_products s) (enabled_extended_product_search s).
Definition set_concurrency v (s : scan) := mkscan (name s) (scan_sources s) (scan_type s) v
  (enabled_optional_products s) (enabled_extended_product_search s).
Definition set_optional v (s : scan) := mkscan (name s) (scan_sources s) (scan_type s) (max_concurrency s)
  v (enabled_extended_product_search s).
Definition set_extended v (s : scan) := mkscan (name s) (scan_sources s) (scan_type s) (max_concurrency s)
  (enabled_optional_products s) v.

(** The property [options]: read. *)
Definition product_search (enabled_products : pyval) : Res pydict :=
  flags ← mapM (fun '(p, d) => v ← vget_default enabled_products p (VBool (ext_enabled d)); Ok (p, v)) PRODUCTS;
  search_dir ← vget enabled_products EXT_PRODUCT_SEARCH_DIRS;
  Ok (if is_none search_dir then flags else flags ++ [(EXT_PRODUCT_SEARCH_DIRS, search_dir)])%list.

Definition disabled_products (enabled : pyval) : Res pydict :=
  d ← as_dict "items" enabled;
  Ok ((fun kv => (kv.1, VBool (negb (truthy kv.2)))) <$> List.filter (fun kv => negb (is_none kv.2)) d).

Definition options (s : scan) : Res pydict :=
  ext ← (if truthy (enabled_extended_product_search s)
         then d ← product_search (enabled_extended_product_search s);
              Ok [(ENABLED_EXTENDED_PRODUCT_SEARCH, VDict d)]
         else Ok []);
  opt ← (if truthy (enabled_optional_products s)
         then d ← disabled_products (enabled_optional_products s);
              Ok [(DISABLED_OPTIONAL_PRODUCTS, VDict d)]
         else Ok []);
  Ok ((MAX_CONCURRENCY, max_concurrency s) :: ext ++ opt)%list.

(** The property [options]: assigned. *)
Definition enabled_of (disabled_products : pyval) : Res pydict :=
  mapM (fun prod => flag ← vget disabled_products prod;
                    Ok (prod, VBool (if is_none flag then true else negb (convert_to_boolean flag))))
    SUPPORTED_PRODUCTS.

Definition extended_of (extended_search : pyval) : Res pydict :=
  flags ← mapM (fun prod => flag ← vget_default extended_search prod (VBool false);
                            Ok (prod, VBool (convert_to_boolean flag))) SUPPORTED_PRODUCTS;
  dirs ← vget extended_search EXT_PRODUCT_SEARCH_DIRS;
  Ok (flags ++ [(EXT_PRODUCT_SEARCH_DIRS, dirs)])%list.

Definition int_or_null (o : option Z) : pyval := match o with Some z => VInt z | None => VNone end.

Definition set_options (value : pydict) (s : scan) : Res scan :=
  let mc := dget_none MAX_CONCURRENCY value in
  let s := if is_none mc then s else set_concurrency (int_or_null (convert_to_int mc)) s in
  let disabled := dget_none DISABLED_OPTIONAL_PRODUCTS value in
  s ← (if is_none disabled then Ok s else d ← enabled_of disabled; Ok (set_optional (VDict d) s));
  let extended := dget_none ENABLED_EXTENDED_PRODUCT_SEARCH value in
  if is_none extended then Ok s else d ← extended_of extended; Ok (set_extended (VDict d) s).

Definition get_default_extra_vars : pydict :=
  foldl (fun d '(p, def) => dset (ext_name def) (VBool (ext_enabled def)) (dset p (VBool (extra_var_opt def)) d))
    [] PRODUCTS.

Definition get_search_directories (s : scan) : Res pyval :=
  if truthy (enabled_extended_product_search s)
  then vget_default (enabled_extended_product_search s) EXT_PRODUCT_SEARCH_DIRS (VList [])
  else Ok (VList []).

(** [Scan.PRODUCTS[prod].enabled] *)
Definition default_enabled (prod : string) : Res pyval :=
  d ← dget_exn prod PRODUCTS; Ok (VBool (enabled d)).

Definition get_enabled (enable_products : pyval) (prod : string) : Res pyval :=
  dflt ← default_enabled prod; vget_default enable_products prod dflt.

Definition text_join (v : pyval) : Res string :=
  match v with
  | VList l => match mapM text_of l with Some ss => Ok (str_join " " ss) | None => Err TypeError end
  | _ => Err TypeError
  end.

Definition get_extra_vars (s : scan) : Res pydict :=
  let extra_vars := get_default_extra_vars in
  let enable_products := enabled_optional_products s in
  extra_vars ←
    (if is_none enable_products then Ok extra_vars else
     fuse ← get_enabled enable_products JBOSS_FUSE;
     eap ← (if truthy fuse then Ok fuse else
            eap ← get_enabled enable_products JBOSS_EAP;
            if truthy eap then Ok eap else get_enabled enable_products JBOSS_WS);
     ws ← get_enabled enable_products JBOSS_WS;
     Ok (dset JBOSS_WS ws (dset JBOSS_FUSE fuse (dset JBOSS_EAP eap extra_vars))));
  let extended_search := enabled_extended_product_search s in
  if is_none extended_search then Ok extra_vars else
  extra_vars ← foldM (fun d '(prod, def) =>
                 v ← vget_default extended_search prod (VBool (ext_enabled def));
                 Ok (dset (ext_name def) v d)) extra_vars PRODUCTS;
  dirs ← vget extended_search EXT_PRODUCT_SEARCH_DIRS;
  if is_list dirs then t ← text_join dirs; Ok (dset EXT_PRODUCT_SEARCH_DIRS (VStr t) extra_vars)
  else Ok extra_vars.

(** ** The serializer *)

Definition bad_key (path message : string) : exn := ValidationError [(path, [message])].

(** [SourceField.to_internal_value]; [table]: the keys of the sources. *)
Definition source_to_internal_value (table : gset Z) (data : pyval) : Res Z :=
  match convert_to_int data with
  | None => Err (invalid SJ_SOURCE_IDS_INV)
  | Some i => if bool_decide (i ∈ table) then Ok i else Err (invalid (SJ_SOURCE_DO_NOT_EXIST i))
  end.

Definition validate_sources (sources : list Z) : Res (list Z) :=
  match sources with [] => Err (invalid SJ_REQ_SOURCES) | _ => Ok sources end.

Definition validate_max_concurrency (mc : pyval) : Res pyval :=
  if is_none mc then Ok VNone else
  match convert_to_int mc with
  | Some z =>
      if z <? 1 then Err (invalid_field MAX_CONCURRENCY "Ensure this value is greater than or equal to 1.")
      else if UPPER_MAX_CONCURRENCY <? z
      then Err (invalid_field MAX_CONCURRENCY
             ("Ensure this value is less than or equal to " +:+ int_repr UPPER_MAX_CONCURRENCY +:+ "."))
      else Ok mc
  | None => Err (invalid_field MAX_CONCURRENCY "Ensure this value is a positive integer.")
  end.

(** The loop over the products that the two validators share; [option] is the key
    of the option in the error. *)
Definition validate_flags (option : string) (flags : pyval) : Res pyval :=
  if is_str flags
  then Err (bad_key (option +:+ ".non_field_errors") "Invalid data. Expected a dictionary, but got str.")
  else
    bad_prods ← filterM (fun prod => flag ← vget flags prod;
                                     Ok (negb (is_none flag) && negb (is_boolean flag))) SUPPORTED_PRODUCTS;
    match bad_prods with
    | [] => Ok flags
    | _ => Err (ValidationError ((fun prod => (option +:+ "." +:+ prod, ["Must be a valid boolean."])) <$> bad_prods))
    end.

Definition validate_disabled_optional_products (disabled : pyval) : Res pyval :=
  if is_none disabled then Ok VNone else validate_flags DISABLED_OPTIONAL_PRODUCTS disabled.

Definition directories_error : exn :=
  bad_key (ENABLED_EXTENDED_PRODUCT_SEARCH +:+ "." +:+ EXT_PRODUCT_SEARCH_DIRS)
    SCAN_OPTIONS_EXTENDED_SEARCH_DIR_NOT_LIST.

Definition validate_search_directories (dirs : pyval) : Res pyval :=
  match dirs with
  | VNone => Ok VNone
  | VList l => match mapM text_of l with
               | Some ss => match check_path_validity ss with [] => Ok dirs | _ => Err directories_error end
               | None => Err directories_error
               end
  | _ => Err directories_error
  end.

Definition validate_enabled_extended_product_search (extended : pyval) : Res pyval :=
  if is_none extended then Ok VNone else
  _ ← validate_flags ENABLED_EXTENDED_PRODUCT_SEARCH extended;
  dirs ← vget extended EXT_PRODUCT_SEARCH_DIRS;
  _ ← validate_search_directories dirs;
  Ok extended.

Definition validate_options (options : pydict) : Res pydict :=
  _ ← validate_max_concurrency (dget_none MAX_CONCURRENCY options);
  _ ← validate_disabled_optional_products (dget_none DISABLED_OPTIONAL_PRODUCTS options);
  _ ← validate_enabled_extended_product_search (dget_none ENABLED_EXTENDED_PRODUCT_SEARCH options);
  Ok options.

(** A flag of a product that was given replaces the stored one. *)
Definition merge_flag (conv : bool -> bool) (given : pyval) (d : pydict) (prod : string) : Res pydict :=
  flag ← vget given prod;
  Ok (if is_none flag then d else dset prod (VBool (conv (convert_to_boolean flag))) d).

Definition update_optional_products (disabled : pyval) (s : scan) : Res scan :=
  if negb (truthy (enabled_optional_products s)) then
    d ← mapM (fun prod => flag ← vget_default disabled prod (VBool false);
                          Ok (prod, VBool (negb (convert_to_boolean flag)))) SUPPORTED_PRODUCTS;
    Ok (set_optional (VDict d) s)
  else
    d ← as_dict "__setitem__" (enabled_optional_products s);
    d ← foldM (merge_flag negb disabled) d SUPPORTED_PRODUCTS;
    Ok (set_optional (VDict d) s).

Definition update_enabled_extended_product_search (extended : pyval) (s : scan) : Res scan :=
  if negb (truthy (enabled_extended_product_search s)) then
    d ← foldM (merge_flag id extended) [] SUPPORTED_PRODUCTS;
    dirs ← vget extended EXT_PRODUCT_SEARCH_DIRS;
    Ok (set_extended (VDict (if truthy dirs then dset EXT_PRODUCT_SEARCH_DIRS dirs d else d)) s)
  else
    d ← as_dict "__setitem__" (enabled_extended_product_search s);
    d ← foldM (merge_flag id extended) d SUPPORTED_PRODUCTS;
    dirs ← vget extended EXT_PRODUCT_SEARCH_DIRS;
    Ok (set_extended (VDict (if is_none dirs then d else dset EXT_PRODUCT_SEARCH_DIRS dirs d)) s).

Definition update_options (options : pydict) (s : scan) : Res scan :=
  let mc := dget_none MAX_CONCURRENCY options in
  let s := if is_none mc then s else set_concurrency mc s in
  let disabled := dget_none DISABLED_OPTIONAL_PRODUCTS options in
  s ← (if truthy disabled then update_optional_products disabled s else Ok s);
  let extended := dget_none ENABLED_EXTENDED_PRODUCT_SEARCH options in
  if truthy extended then update_enabled_extended_product_search extended s else Ok s.

(** A request, its fields parsed by the framework. *)
Record request := mkreq {
  r_name : option string;
  r_sources : option (list Z);
  r_scan_type : option pyval;
  r_options : option pydict }.

(** The hooks of the fields that are present. *)
Definition hook {A B} (f : A -> Res B) (o : option A) : Res (option B) :=
  match o with Some a => b ← f a; Ok (Some b) | None => Ok None end.

(** A complete request ([POST], [PUT]) needs a name and sources; its options
    default to [{}]. *)
Definition is_valid (partial : bool) (r : request) : Res request :=
  if negb partial && bool_decide (r_name r = None) then Err (invalid_field "name" "This field is required.")
  else if negb partial && bool_decide (r_sources r = None)
  then Err (invalid_field "sources" "This field is required.")
  else
    srcs ← hook validate_sources (r_sources r);
    ty ← hook (choice_to_internal_value SCAN_TYPE_CHOICES) (r_scan_type r);
    opts ← hook validate_options (r_options r);
    Ok (mkreq (r_name r) srcs ty (if partial then opts else Some (default [] opts))).

Abbreviation scans := (gmap Z scan).

(** The row that [save] writes: the columns that cannot be [null], an integer. *)
Definition row_of (s : scan) : Res scan :=
  if is_none (scan_type s) then Err (OtherException "IntegrityError") else
  match convert_to_int (max_concurrency s) with
  | Some z => Ok (set_concurrency (VInt z) s)
  | None => Err (OtherException "IntegrityError")
  end.

Definition save (rows : scans) (id : Z) (s : scan) : Res (scans * scan) :=
  row ← row_of s; Ok (<[id := row]> rows, s).

Definition text_or_none (o : option string) : pyval := match o with Some n => VStr n | None => VNone end.

Definition create (rows : scans) (pk : Z) (r : request) : Res (scans * scan) :=
  let n := default "" (r_name r) in
  _ ← check_for_existing_name name rows (text_or_none (r_name r)) (SCAN_NAME_ALREADY_EXISTS n) None;
  let s := set_name n new_scan in
  let s := match r_scan_type r with Some t => set_type t s | None => s end in
  s ← (match r_options r with Some o => set_options o s | None => Ok s end);
  save rows pk (set_sources (dedup (default [] (r_sources r))) s).

Definition _do_full_update (rows : scans) (id : Z) (s : scan) (r : request) : Res (scans * scan) :=
  let s := set_name (default "" (r_name r)) s in
  let s := set_type (default VNone (r_scan_type r)) s in
  let s := set_sources (dedup (default [] (r_sources r))) s in
  s ← (match r_options r with Some ((_ :: _) as o) => set_options o s | _ => Ok s end);
  save rows id s.

Definition _do_partial_update (rows : scans) (id : Z) (s : scan) (r : request) : Res (scans * scan) :=
  let s := match r_name r with Some n => set_name n s | None => s end in
  let s := match r_scan_type r with Some t => set_type t s | None => s end in
  let s := match r_sources r with Some l => set_sources (dedup l) s | None => s end in
  s ← (match r_options r with Some ((_ :: _) as o) => update_options o s | _ => Ok s end);
  save rows id s.

Definition update (partial : bool) (rows : scans) (id : Z) (s : scan) (r : request) : Res (scans * scan) :=
  _ ← check_for_existing_name name rows (text_or_none (r_name r))
        (HC_NAME_ALREADY_EXISTS (default "None" (r_name r))) (Some id);
  if partial then _do_partial_update rows id s r else _do_full_update rows id s r.

(** The views, in a transaction. *)
Definition rolled_back (rows : scans) (res : Res (scans * scan)) : scans * Res scan :=
  match res with Ok (rows', s) => (rows', Ok s) | Err e => (rows, Err e) end.

Definition create_scan (rows : scans) (pk : Z) (r : request) : scans * Res scan :=
  rolled_back rows (r ← is_valid false r; create rows pk r).

Definition update_scan (partial : bool) (rows : scans) (id : Z) (r : request) : scans * Res scan :=
  rolled_back rows
    (s ← from_option DoesNotExist (rows !! id); r ← is_valid partial r; update partial rows id s r).

(** ** Lemmas: flags and directories *)

(** What a stored dict of flags says of a product. *)
Definition flag_of (dflt : bool) (v : pyval) (p : string) : bool :=
  match v with VDict d => truthy (default (VBool dflt) (dget p d)) | _ => dflt end.

(** Is the product searched, and searched in more directories? *)
Definition enabled_flag (s : scan) : string -> bool := flag_of true (enabled_optional_products s).
Definition extended_flag (s : scan) : string -> bool := flag_of false (enabled_extended_product_search s).
Definition directories (s : scan) : pyval :=
  match enabled_extended_product_search s with VDict d => dget_none EXT_PRODUCT_SEARCH_DIRS d | _ => VNone end.

Definition flag (v : pyval) : Prop := exists b, v = VBool b.
Definition dirs_ok (v : pyval) : Prop :=
  v = VNone \/ exists ss, v = VList (VStr <$> ss) /\ Forall (fun d => str_startswith "/" d = true) ss.

Definition wf_optional (v : pyval) : Prop :=
  v = VNone \/ exists d, v = VDict d /\ dkeys d = SUPPORTED_PRODUCTS /\ forall k w, dget k d = Some w -> flag w.
Definition wf_extended (v : pyval) : Prop :=
  v = VNone \/ exists d, v = VDict d /\ NoDup (dkeys d) /\ forall k w, dget k d = Some w ->
    (k ∈ SUPPORTED_PRODUCTS /\ flag w) \/ (k = EXT_PRODUCT_SEARCH_DIRS /\ dirs_ok w).

Record wf_scan (s : scan) : Prop := {
  wf_type : scan_type s = VStr "inspect";
  wf_sources : scan_sources s <> [] /\ NoDup (scan_sources s);
  wf_concurrency : exists n, max_concurrency s = VInt n /\ 1 <= n <= 200;
  wf_opt : wf_optional (enabled_optional_products s);
  wf_ext : wf_extended (enabled_extended_product_search s) }.

Lemma products_nodup : NoDup SUPPORTED_PRODUCTS.
Proof. by_compute. Qed.

Lemma dirs_not_product : EXT_PRODUCT_SEARCH_DIRS ∉ SUPPORTED_PRODUCTS.
Proof. by_compute. Qed.

Lemma mapM_pure {A B} (f : A -> Res B) (g : A -> B) l : (forall x, f x = Ok (g x)) -> mapM f l = Ok (g <$> l).
Proof. intros H. induction l as [|x l IH]; [done|]. cbn. by rewrite H, IH. Qed.

(** A dict with one entry for each key. *)
Lemma dget_table (f : string -> pyval) l k :
  dget k ((fun p => (p, f p)) <$> l) = if decide (k ∈ l) then Some (f k) else None.
Proof.
  induction l as [|x l IH]; [done|]. cbn. destruct (decide (k = x)) as [->|Hk].
  - by rewrite bool_decide_eq_true_2, decide_True by (done || left).
  - rewrite bool_decide_eq_false_2, IH by done. repeat case_decide; set_solver.
Qed.

Lemma dkeys_table (f : string -> pyval) l : dkeys ((fun p => (p, f p)) <$> l) = l.
Proof. induction l as [|x l IH]; [done|]. cbn. unfold dkeys in IH. by rewrite IH. Qed.

Lemma merge_flags conv (g d : pydict) l :
  exists d', foldM (merge_flag conv (VDict g)) d l = Ok d' /\
    (forall k, dget k d' = if bool_decide (k ∈ l) && negb (is_none (dget_none k g))
                           then Some (VBool (conv (convert_to_boolean (dget_none k g)))) else dget k d) /\
    ((forall k, k ∈ l -> k ∈ dkeys d) -> dkeys d' = dkeys d) /\ (NoDup (dkeys d) -> NoDup (dkeys d')).
Proof.
  revert d. induction l as [|p l IH]; intros d.
  - exists d. split; [done|]. split; [|done]. intros k. rewrite bool_decide_eq_false_2; [done|]. by intros ?%elem_of_nil.
  - set (d1 := if is_none (dget_none p g) then d else dset p (VBool (conv (convert_to_boolean (dget_none p g)))) d).
    change (foldM (merge_flag conv (VDict g)) d (p :: l)) with (foldM (merge_flag conv (VDict g)) d1 l).
    destruct (IH d1) as (d' & Hd & Hget & Hkeys & HN). exists d'. split; [done|]. split; [|split].
    + intros k. rewrite Hget. unfold d1. destruct (decide (k = p)) as [->|Hk].
      * rewrite (bool_decide_eq_true_2 (p ∈ p :: l)) by left.
        destruct (is_none (dget_none p g)); [by rewrite andb_false_r|]. rewrite andb_true_r, dget_dset_eq.
        by case_bool_decide.
      * assert (bool_decide (k ∈ p :: l) = bool_decide (k ∈ l)) as -> by (apply bool_decide_ext; set_solver).
        assert (dget k (if is_none (dget_none p g) then d
                        else dset p (VBool (conv (convert_to_boolean (dget_none p g)))) d) = dget k d) as ->
          by (destruct (is_none _); [done | by apply dget_dset_ne]).
        done.
    + intros H. unfold d1 in Hkeys. destruct (is_none _); [apply Hkeys; set_solver|].
      rewrite Hkeys; [apply dkeys_dset_in, H; left|].
      intros k Hk. rewrite dkeys_dset_in by (apply H; left). apply H. by right.
    + intros H. apply HN. unfold d1. destruct (is_none _); [done|]. by apply NoDup_dkeys_dset.
Qed.

Lemma check_path_ok ss : check_path_validity ss = [] -> Forall (fun d => str_startswith "/" d = true) ss.
Proof.
  intros H. apply Forall_forall. intros d Hd. destruct (str_startswith "/" d) eqn:E; [done|].
  assert (Hin : d ∈ check_path_validity ss) by (apply elem_of_List_filter; by rewrite E).
  rewrite H in Hin. by apply elem_of_nil in Hin.
Qed.

Lemma validate_search_directories_ok v w : validate_search_directories v = Ok w -> w = v /\ dirs_ok v.
Proof.
  destruct v; try done; cbn.
  - intros [= <-]. split; [done | by left].
  - destruct (mapM text_of l) as [ss|] eqn:Hs; [|done]. destruct (check_path_validity ss) eqn:Hc; [|done].
    intros [= <-]. split; [done|]. right. exists ss. rewrite (texts_of l ss Hs). split; [done|].
    by apply check_path_ok.
Qed.

Lemma validate_flags_ok option v w : validate_flags option v = Ok w -> w = v /\ exists d, v = VDict d.
Proof.
  unfold validate_flags. destruct v; try done. cbn [is_str].
  destruct (filterM _ SUPPORTED_PRODUCTS) as [[|]|]; try done. intros [= <-]. eauto.
Qed.

Lemma convert_range mc w : validate_max_concurrency mc = Ok w -> mc <> VNone ->
  exists n, convert_to_int mc = Some n /\ 1 <= n <= 200.
Proof.
  unfold validate_max_concurrency. destruct (is_none mc) eqn:E; [by destruct mc|]. intros H _.
  destruct (convert_to_int mc) as [n|]; [|done]. exists n. split; [done|].
  destruct (n <? 1) eqn:E1; [done|]. destruct (UPPER_MAX_CONCURRENCY <? n) eqn:E2; [done|].
  apply Z.ltb_ge in E1, E2. unfold UPPER_MAX_CONCURRENCY in E2. lia.
Qed.

Lemma is_none_true v : is_none v = true -> v = VNone.
Proof. by destruct v. Qed.

(** Accepted options. *)
Record good_options (o : pydict) : Prop := {
  go_concurrency : dget_none MAX_CONCURRENCY o = VNone \/
    exists n, convert_to_int (dget_none MAX_CONCURRENCY o) = Some n /\ 1 <= n <= 200;
  go_disabled : dget_none DISABLED_OPTIONAL_PRODUCTS o = VNone \/
    exists g, dget_none DISABLED_OPTIONAL_PRODUCTS o = VDict g;
  go_extended : dget_none ENABLED_EXTENDED_PRODUCT_SEARCH o = VNone \/
    exists g, dget_none ENABLED_EXTENDED_PRODUCT_SEARCH o = VDict g /\ dirs_ok (dget_none EXT_PRODUCT_SEARCH_DIRS g) }.

Lemma validate_options_ok o o' : validate_options o = Ok o' -> o' = o /\ good_options o.
Proof.
  unfold validate_options. intros H.
  apply bind_Ok in H as (c & Hc & H). apply bind_Ok in H as (d & Hd & H). apply bind_Ok in H as (e & He & [= <-]).
  split; [done|]. split.
  - destruct (is_none (dget_none MAX_CONCURRENCY o)) eqn:E; [left; by apply is_none_true|]. right.
    eapply convert_range; [exact Hc|]. intros Hn. by rewrite Hn in E.
  - unfold validate_disabled_optional_products in Hd. destruct (is_none _) eqn:E; [left; by apply is_none_true|].
    right. by apply validate_flags_ok in Hd as [_ ?].
  - unfold validate_enabled_extended_product_search in He.
    destruct (is_none _) eqn:E; [left; by apply is_none_true|]. right.
    apply bind_Ok in He as (x & Hx & He). apply validate_flags_ok in Hx as [_ [g Hg]]. rewrite Hg in He |- *.
    exists g. split; [done|]. rewrite vget_VDict in He. cbn [mbind res_bind] in He.
    apply bind_Ok in He as (y & Hy & _). by apply validate_search_directories_ok in Hy as [_ ?].
Qed.

(** ** Lemmas: what requests do to the flags *)

(** The flag of a product after a request with the options [o]: the one given;
    else, if the option is given without the product, the old one for [PATCH] and
    the default for [POST] and [PUT]. *)
Definition given (option : string) (o : pydict) (p : string) : pyval :=
  match dget_none option o with VDict g => dget_none p g | _ => VNone end.

Definition new_flag (partial : bool) (option : string) (conv : bool -> bool) (dflt : bool) (o : pydict)
    (old : string -> bool) (p : string) : bool :=
  if is_none (dget_none option o) then old p
  else if is_none (given option o p) then (if partial then old p else dflt)
  else conv (convert_to_boolean (given option o p)).

Abbreviation new_enabled partial := (new_flag partial DISABLED_OPTIONAL_PRODUCTS negb true).
Abbreviation new_extended partial := (new_flag partial ENABLED_EXTENDED_PRODUCT_SEARCH id false).

Definition new_directories (partial : bool) (o : pydict) (s : scan) : pyval :=
  if is_none (dget_none ENABLED_EXTENDED_PRODUCT_SEARCH o) then directories s
  else
    let dirs := given ENABLED_EXTENDED_PRODUCT_SEARCH o EXT_PRODUCT_SEARCH_DIRS in
    if partial then
      if truthy (enabled_extended_product_search s)
      then (if is_none dirs then directories s else dirs)
      else (if truthy dirs then dirs else VNone)
    else dirs.

Definition new_concurrency (o : pydict) (s : scan) : option Z :=
  convert_to_int (if is_none (dget_none MAX_CONCURRENCY o) then max_concurrency s
                  else dget_none MAX_CONCURRENCY o).

(** The options of a scan changed as requested, and nothing else. *)
Record options_changed (partial : bool) (o : pydict) (s s' : scan) : Prop := {
  oc_name : name s' = name s;
  oc_sources : scan_sources s' = scan_sources s;
  oc_type : scan_type s' = scan_type s;
  oc_concurrency : convert_to_int (max_concurrency s') = new_concurrency o s;
  oc_enabled : forall p, p ∈ SUPPORTED_PRODUCTS -> enabled_flag s' p = new_enabled partial o (enabled_flag s) p;
  oc_extended : forall p, p ∈ SUPPORTED_PRODUCTS -> extended_flag s' p = new_extended partial o (extended_flag s) p;
  oc_directories : directories s' = new_directories partial o s;
  oc_wf_opt : wf_optional (enabled_optional_products s');
  oc_wf_ext : wf_extended (enabled_extended_product_search s') }.

Lemma flag_truthy b : truthy (VBool b) = b.
Proof. done. Qed.

Lemma table_flag dflt f l p : p ∈ l -> flag_of dflt (VDict ((fun p => (p, VBool (f p))) <$> l)) p = f p.
Proof. intros Hp. cbn. by rewrite dget_table, decide_True. Qed.

Lemma enabled_of_dict g :
  enabled_of (VDict g) =
  Ok ((fun p => (p, VBool (if is_none (dget_none p g) then true else negb (convert_to_boolean (dget_none p g)))))
        <$> SUPPORTED_PRODUCTS).
Proof. by apply (mapM_pure _ (fun p => (p, VBool _))). Qed.

Lemma convert_default g p : convert_to_boolean (default (VBool false) (dget p g)) =
  if is_none (dget_none p g) then false else convert_to_boolean (dget_none p g).
Proof. unfold dget_none. destruct (dget p g) as [v|]; [|done]. by destruct v. Qed.

Lemma extended_of_dict g :
  extended_of (VDict g) =
  Ok (((fun p => (p, VBool (if is_none (dget_none p g) then false else convert_to_boolean (dget_none p g))))
         <$> SUPPORTED_PRODUCTS) ++ [(EXT_PRODUCT_SEARCH_DIRS, dget_none EXT_PRODUCT_SEARCH_DIRS g)])%list.
Proof.
  unfold extended_of.
  rewrite (mapM_pure _ (fun p => (p, VBool (if is_none (dget_none p g) then false
                                            else convert_to_boolean (dget_none p g))))); [done|].
  intros p. cbn. by rewrite convert_default.
Qed.

Lemma wf_flags f : wf_optional (VDict ((fun p => (p, VBool (f p))) <$> SUPPORTED_PRODUCTS)).
Proof.
  right. eexists. split; [done|]. split; [apply dkeys_table|]. intros k w. rewrite dget_table.
  case_decide; [|done]. intros [= <-]. by eexists.
Qed.

Lemma dget_flags_dirs f dirs k :
  dget k (((fun p => (p, VBool (f p))) <$> SUPPORTED_PRODUCTS) ++ [(EXT_PRODUCT_SEARCH_DIRS, dirs)])%list =
  if decide (k ∈ SUPPORTED_PRODUCTS) then Some (VBool (f k))
  else if decide (k = EXT_PRODUCT_SEARCH_DIRS) then Some dirs else None.
Proof.
  unfold SUPPORTED_PRODUCTS. cbn [dkeys PRODUCTS fmap list_fmap fst app dget].
  repeat case_bool_decide; subst; repeat case_decide; set_solver.
Qed.

Lemma wf_flags_dirs f dirs : dirs_ok dirs ->
  wf_extended (VDict (((fun p => (p, VBool (f p))) <$> SUPPORTED_PRODUCTS) ++ [(EXT_PRODUCT_SEARCH_DIRS, dirs)])%list).
Proof.
  intros Hd. right. eexists. split; [done|]. split.
  - unfold dkeys. rewrite fmap_app. fold (dkeys ((fun p => (p, VBool (f p))) <$> SUPPORTED_PRODUCTS)).
    rewrite (dkeys_table (fun p => VBool (f p))). by_compute.
  - intros k w. rewrite dget_flags_dirs. case_decide as Hk; [intros [= <-]; left; split; [done | by eexists]|].
    case_decide as Hk'; [|done]. intros [= <-]. by right.
Qed.

Lemma given_dict o option g p : dget_none option o = VDict g -> given option o p = dget_none p g.
Proof. unfold given. by intros ->. Qed.

Section changed.
Context (o : pydict) (s : scan) (Ho : good_options o).
Context (Hopt : wf_optional (enabled_optional_products s)) (Hext : wf_extended (enabled_extended_product_search s)).

(** The two columns of flags, as a request leaves them. *)
Definition optional_after (partial : bool) (v : pyval) : Prop :=
  wf_optional v /\
  forall p, p ∈ SUPPORTED_PRODUCTS -> flag_of true v p = new_enabled partial o (enabled_flag s) p.

Definition extended_after (partial : bool) (v : pyval) : Prop :=
  wf_extended v /\
  (forall p, p ∈ SUPPORTED_PRODUCTS -> flag_of false v p = new_extended partial o (extended_flag s) p) /\
  match v with VDict d => dget_none EXT_PRODUCT_SEARCH_DIRS d | _ => VNone end = new_directories partial o s.

Lemma changed_intro partial (mc opt ext : pyval) :
  convert_to_int mc = new_concurrency o s -> optional_after partial opt -> extended_after partial ext ->
  options_changed partial o s (set_extended ext (set_optional opt (set_concurrency mc s))).
Proof. intros Hm [Hw Hf] (Hw' & Hf' & Hd). by split. Qed.

(** *** All the options: [POST] and [PUT] *)

Lemma put_optional s1 : enabled_optional_products s1 = enabled_optional_products s ->
  exists v, optional_after false v /\
    (if is_none (dget_none DISABLED_OPTIONAL_PRODUCTS o) then Ok s1
     else d ← enabled_of (dget_none DISABLED_OPTIONAL_PRODUCTS o); Ok (set_optional (VDict d) s1))
    = Ok (set_optional v s1).
Proof.
  intros H1. destruct (go_disabled _ Ho) as [Hd | (g & Hd)]; rewrite Hd; cbn [is_none].
  - exists (enabled_optional_products s). rewrite <-H1 at 2. split; [|by destruct s1]. split; [done|].
    intros p _. unfold new_flag. by rewrite Hd.
  - rewrite enabled_of_dict. cbn [mbind res_bind]. eexists. split; [|done]. split; [apply wf_flags|].
    intros p Hp. rewrite table_flag by done. unfold new_flag. by rewrite (given_dict _ _ _ _ Hd), Hd.
Qed.

Lemma put_extended s1 : enabled_extended_product_search s1 = enabled_extended_product_search s ->
  exists v, extended_after false v /\
    (if is_none (dget_none ENABLED_EXTENDED_PRODUCT_SEARCH o) then Ok s1
     else d ← extended_of (dget_none ENABLED_EXTENDED_PRODUCT_SEARCH o); Ok (set_extended (VDict d) s1))
    = Ok (set_extended v s1).
Proof.
  intros H1. unfold extended_after, new_flag, new_directories.
  destruct (go_extended _ Ho) as [He | (g & He & Hdirs)]; rewrite He; cbn [is_none].
  - exists (enabled_extended_product_search s). split; [done | rewrite <-H1; by destruct s1].
  - rewrite extended_of_dict. cbn [mbind res_bind]. eexists. split; [|done].
    split; [by apply wf_flags_dirs|]. split.
    + intros p Hp. rewrite (given_dict _ _ _ _ He). cbn [flag_of]. rewrite dget_flags_dirs, decide_True by done.
      cbn. by destruct (is_none _).
    + rewrite (given_dict _ _ _ _ He). unfold dget_none at 1. rewrite dget_flags_dirs.
      by rewrite decide_False, decide_True by (done || apply dirs_not_product).
Qed.

Lemma concurrency_given :
  let mc := dget_none MAX_CONCURRENCY o in
  exists v, convert_to_int v = new_concurrency o s /\
    (if is_none mc then s else set_concurrency (int_or_null (convert_to_int mc)) s) = set_concurrency v s.
Proof.
  cbn zeta. unfold new_concurrency. destruct (is_none _) eqn:E.
  - exists (max_concurrency s). split; [done | by destruct s].
  - eexists. split; [|done]. destruct (go_concurrency _ Ho) as [Hn | (n & -> & _)]; [by rewrite Hn in E | done].
Qed.

Lemma set_options_spec : exists s', set_options o s = Ok s' /\ options_changed false o s s'.
Proof.
  unfold set_options. destruct concurrency_given as (mc & Hmc & ->).
  destruct (put_optional (set_concurrency mc s) eq_refl) as (opt & Hopt' & ->). cbn [mbind res_bind].
  destruct (put_extended (set_optional opt (set_concurrency mc s)) eq_refl) as (ext & Hext' & ->).
  eexists. split; [done|]. by apply changed_intro.
Qed.

(** *** Some of the options: [PATCH] *)

Lemma merged_flag dflt option conv g d d' p :
  dget_none option o = VDict g -> p ∈ SUPPORTED_PRODUCTS ->
  dget p d' = (if bool_decide (p ∈ SUPPORTED_PRODUCTS) && negb (is_none (dget_none p g))
               then Some (VBool (conv (convert_to_boolean (dget_none p g)))) else dget p d) ->
  flag_of dflt (VDict d') p = new_flag true option conv dflt o (flag_of dflt (VDict d)) p.
Proof.
  intros Hg Hp Hd. unfold new_flag. rewrite (given_dict _ _ _ _ Hg), Hg. cbn [is_none flag_of].
  rewrite Hd, bool_decide_eq_true_2 by done. by destruct (is_none _).
Qed.

Lemma patch_optional s1 : enabled_optional_products s1 = enabled_optional_products s ->
  exists v, optional_after true v /\
    (if truthy (dget_none DISABLED_OPTIONAL_PRODUCTS o)
     then update_optional_products (dget_none DISABLED_OPTIONAL_PRODUCTS o) s1 else Ok s1)
    = Ok (set_optional v s1).
Proof.
  intros H1. destruct (truthy _) eqn:Ht.
  2:{ exists (enabled_optional_products s). rewrite <-H1 at 2. split; [|by destruct s1]. split; [done|].
      intros p _. unfold new_flag, given. destruct (go_disabled _ Ho) as [-> | (g & Hg)]; [done|].
      rewrite Hg in Ht |- *. by destruct g. }
  destruct (go_disabled _ Ho) as [Hn | (g & Hg)]; [by rewrite Hn in Ht|]. rewrite Hg.
  unfold update_optional_products. rewrite H1. destruct Hopt as [Hs | (d & Hs & Hk & Hv)]; rewrite Hs.
  - cbn [truthy negb]. rewrite (mapM_pure _ (fun p => (p, VBool (negb (convert_to_boolean
      (default (VBool false) (dget p g))))))) by done. cbn [mbind res_bind]. eexists. split; [|done].
    split; [apply wf_flags|]. intros p Hp. rewrite table_flag, convert_default by done.
    unfold new_flag, enabled_flag. rewrite Hs, (given_dict _ _ _ _ Hg), Hg. cbn. by destruct (is_none _).
  - assert (truthy (VDict d) = true) as -> by (destruct d; [by vm_compute in Hk | done]).
    cbn [negb as_dict mbind res_bind]. destruct (merge_flags negb g d SUPPORTED_PRODUCTS) as (d' & -> & Hget & Hk' & _).
    cbn [mbind res_bind]. eexists. split; [|done]. split.
    + right. exists d'. split; [done|]. rewrite Hk' by (intros k; by rewrite Hk). split; [done|].
      intros k w. rewrite Hget. destruct (_ && _); [intros [= <-]; by eexists | apply Hv].
    + intros p Hp. unfold enabled_flag. rewrite Hs. by eapply merged_flag.
Qed.

(** The merged dict, with the directories [dirs] unless they are left as they are. *)
Lemma merged_flags_wf g d d' dirs (keep : bool) : dirs_ok dirs ->
  wf_extended (VDict d) ->
  (forall k, dget k d' = if bool_decide (k ∈ SUPPORTED_PRODUCTS) && negb (is_none (dget_none k g))
                         then Some (VBool (id (convert_to_boolean (dget_none k g)))) else dget k d) ->
  (NoDup (dkeys d) -> NoDup (dkeys d')) ->
  wf_extended (VDict (if keep then d' else dset EXT_PRODUCT_SEARCH_DIRS dirs d')).
Proof.
  intros Hdirs [?|(d0 & [= <-] & HN & Hv)] Hget HN'; [done|]. right. eexists. split; [done|].
  assert (Hd' : forall k w, dget k d' = Some w ->
    (k ∈ SUPPORTED_PRODUCTS /\ flag w) \/ (k = EXT_PRODUCT_SEARCH_DIRS /\ dirs_ok w)).
  { intros k w. rewrite Hget. destruct (bool_decide (k ∈ SUPPORTED_PRODUCTS)) eqn:E; [|apply Hv].
    apply bool_decide_eq_true in E. cbn. destruct (negb _); [|apply Hv]. intros [= <-]. left. split; [done | by eexists]. }
  destruct keep; [split; [by apply HN' | done]|].
  split; [apply NoDup_dkeys_dset; by apply HN'|]. intros k w. rewrite dget_dset.
  case_decide; [intros [= <-]; by right | apply Hd'].
Qed.

Lemma flag_of_dset dflt k v (d : pydict) p : p <> k -> flag_of dflt (VDict (dset k v d)) p = flag_of dflt (VDict d) p.
Proof. intros Hp. cbn. by rewrite dget_dset_ne. Qed.

Lemma extended_empty : truthy (enabled_extended_product_search s) = false ->
  (forall p, extended_flag s p = false) /\ directories s = VNone.
Proof.
  unfold extended_flag, directories. destruct Hext as [-> | (d & -> & _)]; [done|]. by destruct d.
Qed.

Lemma patch_extended s1 : enabled_extended_product_search s1 = enabled_extended_product_search s ->
  exists v, extended_after true v /\
    (if truthy (dget_none ENABLED_EXTENDED_PRODUCT_SEARCH o)
     then update_enabled_extended_product_search (dget_none ENABLED_EXTENDED_PRODUCT_SEARCH o) s1 else Ok s1)
    = Ok (set_extended v s1).
Proof.
  intros H1. unfold extended_after, new_directories. destruct (truthy (dget_none _ o)) eqn:Ht.
  2:{ exists (enabled_extended_product_search s). split; [|rewrite <-H1; by destruct s1].
      unfold new_flag, given. destruct (go_extended _ Ho) as [-> | (g & Hg & _)]; [done|].
      rewrite Hg in Ht |- *. destruct g; [|done]. cbn. split; [done|]. split; [done|].
      destruct (truthy (enabled_extended_product_search s)) eqn:E; [done|]. by apply extended_empty. }
  destruct (go_extended _ Ho) as [Hn | (g & Hg & Hdirs)]; [by rewrite Hn in Ht|]. rewrite Hg.
  rewrite (given_dict _ _ _ _ Hg). cbn [is_none].
  unfold update_enabled_extended_product_search. rewrite H1.
  destruct (truthy (enabled_extended_product_search s)) eqn:E; cbn [negb].
  - destruct Hext as [Hs | (d & Hs & HN & Hv)]; [by rewrite Hs in E|]. rewrite Hs. cbn [as_dict mbind res_bind].
    destruct (merge_flags id g d SUPPORTED_PRODUCTS) as (d' & -> & Hget & _ & HN').
    rewrite vget_VDict. cbn [mbind res_bind]. eexists. split; [|done]. split; [|split].
    + eapply merged_flags_wf; [exact Hdirs | rewrite <-Hs; exact Hext | exact Hget | exact HN'].
    + intros p Hp. unfold extended_flag. rewrite Hs.
      transitivity (flag_of false (VDict d') p); [|by eapply merged_flag].
      destruct (is_none _); [done|]. apply flag_of_dset. intros ->. by apply dirs_not_product.
    + destruct (is_none _) eqn:En; [|by rewrite dget_none_dset, decide_True].
      unfold directories. rewrite Hs. unfold dget_none. rewrite Hget, bool_decide_eq_false_2; [done | apply dirs_not_product].
  - destruct (extended_empty E) as [Hf Hdir].
    destruct (merge_flags id g [] SUPPORTED_PRODUCTS) as (d' & -> & Hget & _ & HN').
    cbn [mbind res_bind]. rewrite vget_VDict. cbn [mbind res_bind]. eexists. split; [|done].
    assert (Hnil : wf_extended (VDict [])) by (right; exists []; split; [done|]; split; [constructor | done]).
    split; [|split].
    + pose proof (merged_flags_wf g [] d' _ (negb (truthy (dget_none EXT_PRODUCT_SEARCH_DIRS g))) Hdirs Hnil Hget HN') as Hw.
      by destruct (truthy (dget_none EXT_PRODUCT_SEARCH_DIRS g)).
    + intros p Hp. transitivity (flag_of false (VDict d') p).
      { destruct (truthy (dget_none EXT_PRODUCT_SEARCH_DIRS g)); [|done]. apply flag_of_dset. intros ->. by apply dirs_not_product. }
      rewrite (merged_flag false _ id g [] d' p Hg Hp (Hget p)). unfold new_flag. by rewrite Hf.
    + destruct (truthy (dget_none EXT_PRODUCT_SEARCH_DIRS g)); [by rewrite dget_none_dset, decide_True|].
      unfold dget_none. by rewrite Hget, bool_decide_eq_false_2 by apply dirs_not_product.
Qed.

Lemma update_options_spec : exists s', update_options o s = Ok s' /\ options_changed true o s s'.
Proof.
  unfold update_options.
  assert (exists v, convert_to_int v = new_concurrency o s /\
    (if is_none (dget_none MAX_CONCURRENCY o) then s else set_concurrency (dget_none MAX_CONCURRENCY o) s)
    = set_concurrency v s) as (mc & Hmc & ->).
  { unfold new_concurrency. destruct (is_none _); [exists (max_concurrency s); split; [done | by destruct s] | by eexists]. }
  destruct (patch_optional (set_concurrency mc s) eq_refl) as (opt & Hopt' & ->). cbn [mbind res_bind].
  destruct (patch_extended (set_optional opt (set_concurrency mc s)) eq_refl) as (ext & Hext' & ->).
  eexists. split; [done|]. by apply changed_intro.
Qed.
End changed.

(** ** Lemmas: what is read from a scan *)

Definition search_text (dirs : pyval) : pydict :=
  match dirs with
  | VList l => [(EXT_PRODUCT_SEARCH_DIRS, VStr (str_join " " (omap text_of l)))]
  | _ => []
  end.

(** What Ansible is given for a scan. *)
Definition extra_vars_table (s : scan) : pydict :=
  [(JBOSS_EAP, VBool (existsb (enabled_flag s) SUPPORTED_PRODUCTS));
   ("jboss_eap_ext", VBool (extended_flag s JBOSS_EAP));
   (JBOSS_FUSE, VBool (enabled_flag s JBOSS_FUSE)); ("jboss_fuse_ext", VBool (extended_flag s JBOSS_FUSE));
   (JBOSS_WS, VBool (enabled_flag s JBOSS_WS)); ("jboss_ws_ext", VBool (extended_flag s JBOSS_WS))]
  ++ search_text (directories s).

(** What the API shows of its options. *)
Definition options_table (s : scan) : pydict :=
  (MAX_CONCURRENCY, max_concurrency s) ::
  (if truthy (enabled_extended_product_search s)
   then [(ENABLED_EXTENDED_PRODUCT_SEARCH,
          VDict (((fun p => (p, VBool (extended_flag s p))) <$> SUPPORTED_PRODUCTS) ++
                 (if is_none (directories s) then [] else [(EXT_PRODUCT_SEARCH_DIRS, directories s)])))]
   else []) ++
  (if truthy (enabled_optional_products s)
   then [(DISABLED_OPTIONAL_PRODUCTS,
          VDict ((fun p => (p, VBool (negb (enabled_flag s p)))) <$> SUPPORTED_PRODUCTS))]
   else []).

Lemma stored_flag dflt (d : pydict) p : (forall w, dget p d = Some w -> flag w) ->
  default (VBool dflt) (dget p d) = VBool (flag_of dflt (VDict d) p).
Proof. intros H. cbn. destruct (dget p d) as [w|]; [|done]. by destruct (H w eq_refl) as [b ->]. Qed.

Lemma optional_none s : wf_optional (enabled_optional_products s) ->
  truthy (enabled_optional_products s) = false -> enabled_optional_products s = VNone.
Proof. intros [?|(d & Hd & Hk & _)] Ht; [done|]. rewrite Hd in Ht. destruct d; [by vm_compute in Hk | done]. Qed.

Lemma product_cases p : p ∈ SUPPORTED_PRODUCTS -> p = JBOSS_EAP \/ p = JBOSS_FUSE \/ p = JBOSS_WS.
Proof. unfold SUPPORTED_PRODUCTS. cbn. set_solver. Qed.

Section reads.
Context (s : scan) (Hopt : wf_optional (enabled_optional_products s)).
Context (Hext : wf_extended (enabled_extended_product_search s)).

Lemma get_enabled_flag p : p ∈ SUPPORTED_PRODUCTS -> enabled_optional_products s <> VNone ->
  get_enabled (enabled_optional_products s) p = Ok (VBool (enabled_flag s p)).
Proof.
  intros Hp Hn. unfold enabled_flag. destruct Hopt as [?|(d & -> & _ & Hv)]; [done|].
  rewrite <-stored_flag by (intros w; apply Hv).
  destruct (product_cases p Hp) as [-> | [-> | ->]]; done.
Qed.

Lemma get_extended_flag p : p ∈ SUPPORTED_PRODUCTS -> enabled_extended_product_search s <> VNone ->
  vget_default (enabled_extended_product_search s) p (VBool false) = Ok (VBool (extended_flag s p)).
Proof.
  intros Hp Hn. unfold extended_flag. destruct Hext as [?|(d & -> & _ & Hv)]; [done|].
  rewrite <-stored_flag; [done|]. intros w Hw. destruct (Hv _ _ Hw) as [[_ ?]|[-> _]]; [done|].
  by apply dirs_not_product in Hp.
Qed.

Lemma get_directories : enabled_extended_product_search s <> VNone ->
  vget (enabled_extended_product_search s) EXT_PRODUCT_SEARCH_DIRS = Ok (directories s) /\ dirs_ok (directories s).
Proof.
  intros Hn. unfold directories. destruct Hext as [?|(d & -> & _ & Hv)]; [done|]. split; [done|].
  unfold dget_none. destruct (dget _ d) as [w|] eqn:E; [|by left].
  destruct (Hv _ _ E) as [[H _]|[_ ?]]; [by apply dirs_not_product in H | done].
Qed.

Lemma text_join_dirs l : dirs_ok (VList l) -> text_join (VList l) = Ok (str_join " " (omap text_of l)).
Proof.
  intros [?|(ss & [= ->] & _)]; [done|]. unfold text_join.
  assert (mapM text_of (VStr <$> ss) = Some ss) as ->
    by (apply mapM_Some; induction ss; cbn; by constructor).
  assert (omap text_of (VStr <$> ss) = ss) as ->; [|done].
  induction ss as [|x ss IH]; [done|]. cbn. by rewrite IH.
Qed.

Lemma extra_vars_eq : get_extra_vars s = Ok (extra_vars_table s).
Proof.
  unfold get_extra_vars, extra_vars_table.
  assert (forall ev, ev = get_default_extra_vars ->
    (if is_none (enabled_optional_products s) then Ok ev else
     fuse ← get_enabled (enabled_optional_products s) JBOSS_FUSE;
     eap ← (if truthy fuse then Ok fuse else
            eap ← get_enabled (enabled_optional_products s) JBOSS_EAP;
            if truthy eap then Ok eap else get_enabled (enabled_optional_products s) JBOSS_WS);
     ws ← get_enabled (enabled_optional_products s) JBOSS_WS;
     Ok (dset JBOSS_WS ws (dset JBOSS_FUSE fuse (dset JBOSS_EAP eap ev))))
    = Ok [(JBOSS_EAP, VBool (existsb (enabled_flag s) SUPPORTED_PRODUCTS)); ("jboss_eap_ext", VBool false);
          (JBOSS_FUSE, VBool (enabled_flag s JBOSS_FUSE)); ("jboss_fuse_ext", VBool false);
          (JBOSS_WS, VBool (enabled_flag s JBOSS_WS)); ("jboss_ws_ext", VBool false)]) as H.
  { intros ev ->. destruct (is_none _) eqn:E.
    - apply is_none_true in E. unfold enabled_flag. by rewrite E.
    - assert (enabled_optional_products s <> VNone) as Hn by (intros Hn; by rewrite Hn in E).
      rewrite !get_enabled_flag by (done || by_compute). cbn [mbind res_bind truthy].
      change (existsb (enabled_flag s) SUPPORTED_PRODUCTS) with
        (enabled_flag s JBOSS_EAP || (enabled_flag s JBOSS_FUSE || (enabled_flag s JBOSS_WS || false))).
      by destruct (enabled_flag s JBOSS_FUSE), (enabled_flag s JBOSS_EAP), (enabled_flag s JBOSS_WS). }
  rewrite H by done. cbn [mbind res_bind]. clear H.
  destruct (is_none (enabled_extended_product_search s)) eqn:E.
  - apply is_none_true in E. unfold directories, extended_flag. by rewrite E.
  - assert (enabled_extended_product_search s <> VNone) as Hn by (intros Hn; by rewrite Hn in E).
    destruct (get_directories Hn) as [-> Hd]. unfold PRODUCTS. cbn [fmap list_fmap foldM ext_enabled ext_name].
    rewrite !get_extended_flag by (done || by_compute). cbn [mbind res_bind].
    generalize (existsb (enabled_flag s) SUPPORTED_PRODUCTS), (enabled_flag s JBOSS_FUSE), (enabled_flag s JBOSS_WS),
      (extended_flag s JBOSS_EAP), (extended_flag s JBOSS_FUSE), (extended_flag s JBOSS_WS).
    intros. destruct (directories s); try done. cbn [is_list]. rewrite text_join_dirs by done. done.
Qed.

Lemma options_eq : options s = Ok (options_table s).
Proof.
  unfold options, options_table.
  assert ((if truthy (enabled_extended_product_search s)
           then d ← product_search (enabled_extended_product_search s);
                Ok [(ENABLED_EXTENDED_PRODUCT_SEARCH, VDict d)] else Ok []) =
    Ok (if truthy (enabled_extended_product_search s)
        then [(ENABLED_EXTENDED_PRODUCT_SEARCH,
          VDict (((fun p => (p, VBool (extended_flag s p))) <$> SUPPORTED_PRODUCTS) ++
                 (if is_none (directories s) then [] else [(EXT_PRODUCT_SEARCH_DIRS, directories s)])))]
        else [])) as ->.
  { destruct (truthy _) eqn:E; [|done].
    assert (enabled_extended_product_search s <> VNone) as Hn by (intros Hn; by rewrite Hn in E).
    unfold product_search, PRODUCTS. cbn [fmap list_fmap mapM ext_enabled].
    rewrite !get_extended_flag by (done || by_compute). cbn [mbind res_bind].
    rewrite (proj1 (get_directories Hn)). cbn [mbind res_bind]. by destruct (is_none _). }
  cbn [mbind res_bind].
  assert ((if truthy (enabled_optional_products s)
           then d ← disabled_products (enabled_optional_products s); Ok [(DISABLED_OPTIONAL_PRODUCTS, VDict d)]
           else Ok []) =
    Ok (if truthy (enabled_optional_products s)
        then [(DISABLED_OPTIONAL_PRODUCTS,
               VDict ((fun p => (p, VBool (negb (enabled_flag s p)))) <$> SUPPORTED_PRODUCTS))]
        else [])) as ->; [|done].
  destruct (truthy _) eqn:E; [|done]. unfold enabled_flag.
  destruct Hopt as [Hn|(d & -> & Hk & Hv)]; [by rewrite Hn in E|]. cbn [as_dict disabled_products mbind res_bind].
  do 3 f_equal. f_equal. rewrite <-Hk. clear E.
  assert (HN : NoDup (dkeys d)) by (rewrite Hk; apply products_nodup). clear Hk.
  assert (Hall : forall k w, (k, w) ∈ d -> exists b, w = VBool b /\ dget k d = Some w).
  { intros k w Hin. apply dget_NoDup in Hin; [|done]. destruct (Hv _ _ Hin) as [b ->]. eauto. }
  unfold dkeys. rewrite <-list_fmap_compose.
  assert (Hgo : forall l, (forall k w, (k, w) ∈ l -> exists b, w = VBool b /\ dget k d = Some w) ->
    (fun kv => (kv.1, VBool (negb (truthy kv.2)))) <$> List.filter (fun kv => negb (is_none kv.2)) l =
    ((fun p => (p, VBool (negb (flag_of true (VDict d) p)))) ∘ fst) <$> l).
  { induction l as [|[k w] l IH]; intros H; [done|]. destruct (H k w) as (b & -> & Hg); [left|].
    cbn. rewrite Hg. cbn. f_equal. apply IH. intros k' w' Hin. apply H. by right. }
  by apply Hgo.
Qed.

Lemma directories_ok : dirs_ok (directories s).
Proof.
  destruct (is_none (enabled_extended_product_search s)) eqn:E.
  - apply is_none_true in E. unfold directories. rewrite E. by left.
  - apply get_directories. intros Hn. by rewrite Hn in E.
Qed.

(** The options shown are options that can be sent. *)
Lemma shown_options :
  dget_none MAX_CONCURRENCY (options_table s) = max_concurrency s /\
  dget_none DISABLED_OPTIONAL_PRODUCTS (options_table s) =
    (if truthy (enabled_optional_products s)
     then VDict ((fun p => (p, VBool (negb (enabled_flag s p)))) <$> SUPPORTED_PRODUCTS) else VNone) /\
  dget_none ENABLED_EXTENDED_PRODUCT_SEARCH (options_table s) =
    (if truthy (enabled_extended_product_search s)
     then VDict (((fun p => (p, VBool (extended_flag s p))) <$> SUPPORTED_PRODUCTS) ++
                 (if is_none (directories s) then [] else [(EXT_PRODUCT_SEARCH_DIRS, directories s)]))
     else VNone).
Proof.
  unfold options_table. by destruct (truthy (enabled_extended_product_search s)), (truthy (enabled_optional_products s)).
Qed.

Lemma shown_extended p : p ∈ SUPPORTED_PRODUCTS ->
  dget_none p (((fun p => (p, VBool (extended_flag s p))) <$> SUPPORTED_PRODUCTS) ++
               (if is_none (directories s) then [] else [(EXT_PRODUCT_SEARCH_DIRS, directories s)]))
  = VBool (extended_flag s p).
Proof. intros Hp. destruct (product_cases p Hp) as [-> | [-> | ->]]; done. Qed.

Lemma shown_directories :
  dget_none EXT_PRODUCT_SEARCH_DIRS (((fun p => (p, VBool (extended_flag s p))) <$> SUPPORTED_PRODUCTS) ++
               (if is_none (directories s) then [] else [(EXT_PRODUCT_SEARCH_DIRS, directories s)]))
  = directories s.
Proof. destruct (is_none _) eqn:E; [by apply is_none_true in E as ->|]. done. Qed.

Lemma shown_disabled p : p ∈ SUPPORTED_PRODUCTS ->
  dget_none p ((fun p => (p, VBool (negb (enabled_flag s p)))) <$> SUPPORTED_PRODUCTS) = VBool (negb (enabled_flag s p)).
Proof. intros Hp. unfold dget_none. by rewrite (dget_table (fun p => VBool _)), decide_True. Qed.

Lemma flags_accepted option (d : pydict) : (forall p, p ∈ SUPPORTED_PRODUCTS -> flag (dget_none p d)) ->
  validate_flags option (VDict d) = Ok (VDict d).
Proof.
  intros H. unfold validate_flags. cbn [is_str].
  rewrite (filterM_Ok _ (fun _ => false)).
  - assert (List.filter (fun _ => false) SUPPORTED_PRODUCTS = []) as -> by done. done.
  - intros p Hp. rewrite vget_VDict. cbn [mbind res_bind]. destruct (H p Hp) as [b ->]. done.
Qed.
End reads.

Lemma directories_accepted v : dirs_ok v -> validate_search_directories v = Ok v.
Proof.
  intros [-> | (ss & -> & H)]; [done|]. cbn.
  assert (mapM text_of (VStr <$> ss) = Some ss) as ->
    by (apply mapM_Some; clear; induction ss; cbn; by constructor).
  assert (check_path_validity ss = []) as ->; [|done].
  unfold check_path_validity. induction H as [|d ss Hd _ IH]; [done|]. cbn. by rewrite Hd.
Qed.

Lemma options_accepted s : wf_scan s -> validate_options (options_table s) = Ok (options_table s).
Proof.
  intros [_ _ (n & Hn & Hr) Hopt Hext]. destruct (shown_options s) as (Hm & Hd & He).
  unfold validate_options, validate_max_concurrency, validate_disabled_optional_products,
    validate_enabled_extended_product_search. rewrite Hm, Hd, He, Hn.
  cbn [is_none convert_to_int is_int is_int_inst negb].
  destruct (n <? 1) eqn:E1; [apply Z.ltb_lt in E1; lia|].
  destruct (UPPER_MAX_CONCURRENCY <? n) eqn:E2; [apply Z.ltb_lt in E2; unfold UPPER_MAX_CONCURRENCY in E2; lia|].
  cbn [mbind res_bind].
  assert (forall A (r : A), (x ← (if is_none (if truthy (enabled_optional_products s)
              then VDict ((fun p => (p, VBool (negb (enabled_flag s p)))) <$> SUPPORTED_PRODUCTS) else VNone)
            then Ok VNone
            else validate_flags DISABLED_OPTIONAL_PRODUCTS (if truthy (enabled_optional_products s)
              then VDict ((fun p => (p, VBool (negb (enabled_flag s p)))) <$> SUPPORTED_PRODUCTS) else VNone));
     Ok r) = Ok r) as H.
  { intros A r. destruct (truthy _); [|done]. cbn [is_none]. rewrite flags_accepted; [done|].
    intros p Hp. rewrite shown_disabled by done. by eexists. }
  destruct (truthy (enabled_extended_product_search s)).
  - cbn [is_none]. rewrite flags_accepted by (intros p Hp; rewrite shown_extended by done; by eexists).
    cbn [mbind res_bind]. rewrite vget_VDict. cbn [mbind res_bind].
    rewrite shown_directories, directories_accepted by (by apply directories_ok). cbn [mbind res_bind]. apply H.
  - cbn [is_none mbind res_bind]. apply H.
Qed.

(** What assignment keeps, beside the flags. *)
Lemma set_options_shape o s s' : good_options o -> set_options o s = Ok s' ->
  truthy (enabled_optional_products s') =
    negb (is_none (dget_none DISABLED_OPTIONAL_PRODUCTS o)) || truthy (enabled_optional_products s) /\
  truthy (enabled_extended_product_search s') =
    negb (is_none (dget_none ENABLED_EXTENDED_PRODUCT_SEARCH o)) || truthy (enabled_extended_product_search s) /\
  max_concurrency s' = (if is_none (dget_none MAX_CONCURRENCY o) then max_concurrency s
                        else int_or_null (convert_to_int (dget_none MAX_CONCURRENCY o))).
Proof.
  intros Ho. unfold set_options.
  destruct (go_disabled _ Ho) as [-> | (g & ->)]; destruct (go_extended _ Ho) as [-> | (h & -> & _)];
    rewrite ?enabled_of_dict, ?extended_of_dict; cbn [is_none mbind res_bind]; intros [= <-];
    by destruct (is_none (dget_none MAX_CONCURRENCY o)).
Qed.

Lemma options_table_ext s s' :
  max_concurrency s' = max_concurrency s ->
  truthy (enabled_optional_products s') = truthy (enabled_optional_products s) ->
  truthy (enabled_extended_product_search s') = truthy (enabled_extended_product_search s) ->
  (forall p, p ∈ SUPPORTED_PRODUCTS -> enabled_flag s' p = enabled_flag s p) ->
  (forall p, p ∈ SUPPORTED_PRODUCTS -> extended_flag s' p = extended_flag s p) ->
  directories s' = directories s ->
  options_table s' = options_table s /\ extra_vars_table s' = extra_vars_table s.
Proof.
  intros Hm Ho He Hen Hex Hd. unfold options_table, extra_vars_table.
  change SUPPORTED_PRODUCTS with [JBOSS_EAP; JBOSS_FUSE; JBOSS_WS] in *. cbn [fmap list_fmap existsb].
  rewrite Hm, Ho, He, Hd, !Hen, !Hex by set_solver. done.
Qed.

(** A dict of flags given back is the same flags. *)
Lemma negb_flag b : negb (convert_to_boolean (VBool (negb b))) = b.
Proof. by destruct b. Qed.

Lemma set_back s base s' : wf_scan s -> (base = s \/ base = new_scan) ->
  set_options (options_table s) base = Ok s' -> options_changed false (options_table s) base s' ->
  good_options (options_table s) ->
  options_table s' = options_table s /\ extra_vars_table s' = extra_vars_table s.
Proof.
  intros [_ _ (n & Hn & _) Hopt Hext] Hb Hs' [_ _ _ _ Hen Hex Hdirs _ _] Hg.
  destruct (shown_options s) as (Hm & Hd & He).
  destruct (set_options_shape _ _ _ Hg Hs') as (Hto & Hte & Hmc).
  apply options_table_ext.
  - rewrite Hmc, Hm, Hn. done.
  - rewrite Hto, Hd. destruct (truthy (enabled_optional_products s)) eqn:E; [done|].
    cbn. by destruct Hb as [-> | ->].
  - rewrite Hte, He. destruct (truthy (enabled_extended_product_search s)) eqn:E; [done|].
    cbn. by destruct Hb as [-> | ->].
  - intros p Hp. rewrite Hen by done. unfold new_flag, given. rewrite Hd.
    destruct (truthy (enabled_optional_products s)) eqn:E.
    + rewrite shown_disabled by done. cbn [is_none]. apply negb_flag.
    + cbn [is_none]. destruct Hb as [-> | ->]; [done|]. unfold enabled_flag.
      by rewrite (optional_none s Hopt E).
  - intros p Hp. rewrite Hex by done. unfold new_flag, given. rewrite He.
    destruct (truthy (enabled_extended_product_search s)) eqn:E.
    + rewrite shown_extended by done. done.
    + cbn [is_none]. destruct Hb as [-> | ->]; [done|].
      by rewrite (proj1 (extended_empty s Hext E)).
  - rewrite Hdirs. unfold new_directories, given. rewrite He.
    destruct (truthy (enabled_extended_product_search s)) eqn:E.
    + cbn [is_none]. apply shown_directories.
    + cbn [is_none]. destruct Hb as [-> | ->]; [done|].
      by rewrite (proj2 (extended_empty s Hext E)).
Qed.

(** ** Lemmas: requests *)

(** The row that a request starts from: its own name and sources, if given. *)
Definition with_fields (r : request) (base : scan) : scan :=
  set_sources (default (scan_sources base) (dedup <$> r_sources r))
    (set_name (default (name base) (r_name r)) base).

Definition requested_options (r : request) : pydict := default [] (r_options r).

(** What validation makes of a request. *)
Record valid (partial : bool) (r r' : request) : Prop := {
  va_name : r_name r' = r_name r;
  va_sources : r_sources r' = r_sources r;
  va_type : r_scan_type r' = r_scan_type r;
  va_options : requested_options r' = requested_options r;
  va_good : good_options (requested_options r);
  va_some_sources : forall l, r_sources r = Some l -> l <> [];
  va_inspect : forall t, r_scan_type r = Some t -> t = VStr "inspect";
  va_full : partial = false -> is_Some (r_name r) /\ is_Some (r_sources r) }.

Lemma no_options : good_options [].
Proof. split; by left. Qed.

Lemma hook_ok {A B} (f : A -> Res B) o o' : hook f o = Ok o' ->
  match o with Some a => exists b, f a = Ok b /\ o' = Some b | None => o' = None end.
Proof. destruct o; cbn; [|by intros [= <-]]. intros (b & Hb & [= <-])%bind_Ok. eauto. Qed.

Lemma choice_inspect t t' : choice_to_internal_value SCAN_TYPE_CHOICES t = Ok t' -> t' = t /\ t = VStr "inspect".
Proof.
  unfold choice_to_internal_value. destruct t; try done. intros H. repeat case_bool_decide; try done.
  injection H as <-. match goal with H : _ ∈ SCAN_TYPE_CHOICES |- _ => apply list_elem_of_singleton in H as -> end. done.
Qed.

Lemma is_valid_ok partial r r' : is_valid partial r = Ok r' -> valid partial r r'.
Proof.
  unfold is_valid. destruct (negb partial && bool_decide (r_name r = None)) eqn:En; [done|].
  destruct (negb partial && bool_decide (r_sources r = None)) eqn:Es; [done|].
  intros (srcs & Hs & (ty & Ht & (opts & Ho & [= <-])%bind_Ok)%bind_Ok)%bind_Ok.
  apply hook_ok in Hs, Ht, Ho. unfold requested_options.
  assert (Hopt : opts = r_options r /\ good_options (default [] (r_options r))).
  { destruct (r_options r) as [o|]; [|split; [done | apply no_options]].
    destruct Ho as (o' & [-> ?]%validate_options_ok & ->). done. }
  destruct Hopt as [-> Hg]. split; cbn; try done.
  - destruct (r_sources r) as [[|x l]|]; [by destruct Hs as (? & ? & _) | | done].
    by destruct Hs as (b & [= <-] & ->).
  - destruct (r_scan_type r) as [t|]; [|done]. by destruct Ht as (b & [-> _]%choice_inspect & ->).
  - unfold requested_options. by destruct partial, (r_options r).
  - intros l Hl. rewrite Hl in Hs. destruct Hs as (b & Hb & _). by destruct l.
  - intros t Hl. rewrite Hl in Ht. by destruct Ht as (b & [_ ?]%choice_inspect & _).
  - intros ->. cbn in En, Es. apply bool_decide_eq_false in En, Es.
    split; [by destruct (r_name r); [eexists|] | by destruct (r_sources r); [eexists|]].
Qed.

Lemma row_of_ok s row : row_of s = Ok row ->
  exists n, convert_to_int (max_concurrency s) = Some n /\ row = set_concurrency (VInt n) s /\ scan_type s <> VNone.
Proof.
  unfold row_of. destruct (is_none (scan_type s)) eqn:E; [done|].
  destruct (convert_to_int _) as [n|]; [|done]. intros [= <-]. exists n. split; [done|]. split; [done|].
  intros H. by rewrite H in E.
Qed.

(** A base that options can be put on. *)
Record base_ok (s : scan) : Prop := {
  bo_concurrency : exists n, convert_to_int (max_concurrency s) = Some n /\ 1 <= n <= 200;
  bo_opt : wf_optional (enabled_optional_products s);
  bo_ext : wf_extended (enabled_extended_product_search s) }.

Lemma wf_base s : wf_scan s -> base_ok s.
Proof. intros [_ _ (n & Hn & Hr) Ho He]. split; [exists n; by rewrite Hn | done | done]. Qed.

Lemma new_base : base_ok new_scan.
Proof. split; [exists 25; done | by left | by left]. Qed.

(** Saving what the options were put on. *)
Lemma saved_row partial o base s row :
  good_options o -> base_ok base -> options_changed partial o base s -> row_of s = Ok row ->
  scan_type s = VStr "inspect" -> scan_sources s <> [] -> NoDup (scan_sources s) ->
  wf_scan row /\ options_changed partial o base row.
Proof.
  intros Hg [Hc _ _] [H1 H2 H3 H4 H5 H6 H7 H8 H9] (n & Hn & -> & _)%row_of_ok Ht Hs HN. split.
  - split; try done. exists n. split; [done|]. rewrite Hn in H4. unfold new_concurrency in H4.
    destruct (go_concurrency _ Hg) as [E | (m & E & Hm)].
    + rewrite E in H4. destruct Hc as (m & Hm & ?). cbn in H4. rewrite Hm in H4. by injection H4 as ->.
    + destruct (is_none _) eqn:En; [by apply is_none_true in En; rewrite En in E|].
      rewrite E in H4. by injection H4 as ->.
  - split; try done. rewrite <-H4. by rewrite Hn.
Qed.

(** The sources of a valid request. *)
Lemma request_sources partial r r' base : valid partial r r' ->
  (partial = true -> scan_sources base <> [] /\ NoDup (scan_sources base)) ->
  let l := default (scan_sources base) (dedup <$> r_sources r) in l <> [] /\ NoDup l.
Proof.
  intros V Hb. cbn zeta. destruct (r_sources r) as [l|] eqn:E; cbn.
  - split; [|apply NoDup_dedup]. rewrite dedup_nil. by apply (va_some_sources _ _ _ V).
  - destruct partial; [by apply Hb|]. destruct (va_full _ _ _ V eq_refl) as [_ [? H]]. by rewrite E in H.
Qed.

(** What a successful request did. *)
Definition stored (partial : bool) (rows rows' : scans) (id : Z) (r : request) (base s' : scan) : Prop :=
  exists row, rows' = <[id := row]> rows /\ row_of s' = Ok row /\ wf_scan row /\
    options_changed partial (requested_options r) (with_fields r base) row /\
    (forall i s, rows !! i = Some s -> name s = name row -> i = id).

(** Putting on the options is putting on those that were requested. *)
Lemma put_options (f : pydict -> scan -> Res scan) (o : option pydict) s : f [] s = Ok s ->
  (match o with Some ((_ :: _) as o) => f o s | _ => Ok s end) = f (default [] o) s.
Proof. intros H. destruct o as [[|]|]; [exact (eq_sym H) | done | exact (eq_sym H)]. Qed.

Lemma name_check rows r message id u :
  check_for_existing_name name rows (text_or_none (r_name r)) message id = Ok u ->
  is_Some (r_name r) -> forall i s, rows !! i = Some s -> name s = default "" (r_name r) -> Some i = id.
Proof. intros H [n Hn] i s Hs Hname. rewrite Hn in H, Hname. by eapply (check_name_free name). Qed.

Section request.
Context (rows : scans) (id : Z) (r r' : request) (base : scan) (Hbt : scan_type base = VStr "inspect").

Lemma saved partial s1 rows' s' :
  valid partial r r' -> base_ok base -> options_changed partial (requested_options r) (with_fields r base) s1 ->
  scan_type s1 = VStr "inspect" ->
  (partial = true -> scan_sources base <> [] /\ NoDup (scan_sources base)) ->
  (forall i s, rows !! i = Some s -> name s = default (name base) (r_name r) -> i = id) ->
  save rows id s1 = Ok (rows', s') -> stored partial rows rows' id r base s'.
Proof.
  intros V B C Ht Hb Hn H. unfold save in H. apply bind_Ok in H as (row & Hr & [= <- <-]).
  destruct (request_sources _ _ _ _ V Hb) as [Hs HN].
  destruct (saved_row partial (requested_options r) (with_fields r base) s1 row) as [W C'].
  - apply V.
  - destruct B. by split.
  - done.
  - done.
  - done.
  - by rewrite (oc_sources _ _ _ _ C).
  - by rewrite (oc_sources _ _ _ _ C).
  - exists row. split; [done|]. split; [done|]. split; [done|]. split; [done|].
    intros i s Hi Hs'. apply (Hn i s Hi). by rewrite Hs', (oc_name _ _ _ _ C').
Qed.

Lemma full_update_stored u message rows' s' :
  valid false r r' -> base_ok base ->
  check_for_existing_name name rows (text_or_none (r_name r)) message (Some id) = Ok u ->
  _do_full_update rows id base r' = Ok (rows', s') ->
  r_scan_type r <> None /\ stored false rows rows' id r base s'.
Proof.
  intros V B Hu H. destruct (va_full _ _ _ V eq_refl) as [[n Hn] [l Hl]].
  unfold _do_full_update in H. rewrite (put_options set_options) in H by done.
  fold (requested_options r') in H. rewrite (va_name _ _ _ V), (va_sources _ _ _ V), (va_type _ _ _ V),
    (va_options _ _ _ V), Hn, Hl in H. cbn [default] in H.
  apply bind_Ok in H as (s1 & Hs1 & H).
  set (b1 := set_sources _ _) in Hs1.
  destruct (set_options_spec _ b1 (va_good _ _ _ V) (bo_opt _ B) (bo_ext _ B)) as (s2 & Hs2 & C).
  rewrite Hs1 in Hs2. injection Hs2 as <-.
  assert (Hty : r_scan_type r <> None).
  { intros E. pose proof (oc_type _ _ _ _ C) as Hty. unfold b1 in Hty. rewrite E in Hty. cbn in Hty.
    unfold save in H. apply bind_Ok in H as (row & (m & _ & _ & ?)%row_of_ok & _). done. }
  split; [done|]. destruct (r_scan_type r) as [t|] eqn:Et; [|done].
  assert (t = VStr "inspect") as -> by (by apply (va_inspect _ _ _ V)).
  apply (saved false s1 rows' s' V B); [|by rewrite (oc_type _ _ _ _ C)|done| |exact H].
  - destruct C as [C1 C2 C3 C4 C5 C6 C7 C8 C9]. unfold with_fields. rewrite Hn, Hl. split; try done. by rewrite C3.
  - intros i s Hi Hname. rewrite Hn in Hname. cbn in Hname.
    assert (Some i = Some id) as [= ->]; [|done].
    eapply (name_check rows r); [exact Hu | by rewrite Hn | exact Hi | by rewrite Hn].
Qed.
Lemma partial_update_stored u message rows' s' :
  valid true r r' -> wf_scan base -> (forall j s, rows !! j = Some s -> name s = name base -> j = id) ->
  check_for_existing_name name rows (text_or_none (r_name r)) message (Some id) = Ok u ->
  _do_partial_update rows id base r' = Ok (rows', s') -> stored true rows rows' id r base s'.
Proof.
  intros V W Hb Hu H. pose proof (wf_base _ W) as B. unfold _do_partial_update in H.
  rewrite (put_options update_options) in H by done. fold (requested_options r') in H.
  rewrite (va_name _ _ _ V), (va_sources _ _ _ V), (va_type _ _ _ V), (va_options _ _ _ V) in H.
  apply bind_Ok in H as (s1 & Hs1 & H). set (b1 := match r_sources r with Some _ => _ | None => _ end) in Hs1.
  assert (Hb1 : b1 = with_fields r base).
  { unfold b1, with_fields. destruct (r_scan_type r) as [t|] eqn:Et.
    - rewrite (va_inspect _ _ _ V t Et). destruct (r_name r), (r_sources r), base; cbn in *; by subst.
    - by destruct (r_name r), (r_sources r), base. }
  rewrite Hb1 in Hs1.
  destruct (update_options_spec _ (with_fields r base) (va_good _ _ _ V) (bo_opt _ B) (bo_ext _ B)) as (s2 & Hs2 & C).
  rewrite Hs1 in Hs2. injection Hs2 as <-.
  apply (saved true s1 rows' s' V B C); [by rewrite (oc_type _ _ _ _ C) | intros _; apply W | | exact H].
  intros i s Hi Hname. destruct (r_name r) as [n|] eqn:En; [|by eapply Hb].
  assert (Some i = Some id) as [= ->]; [|done].
  eapply (name_check rows r); [by rewrite En | by rewrite En | exact Hi | by rewrite En].
Qed.
End request.

Lemma create_stored rows pk r r' rows' s' :
  valid false r r' -> create rows pk r' = Ok (rows', s') -> stored false rows rows' pk r new_scan s'.
Proof.
  intros V H. destruct (va_full _ _ _ V eq_refl) as [[n Hn] [l Hl]].
  unfold create in H. rewrite (va_name _ _ _ V), (va_sources _ _ _ V), (va_type _ _ _ V), Hn, Hl in H. cbn [default] in H.
  apply bind_Ok in H as (u & Hu & H). apply bind_Ok in H as (s1 & Hs1 & H).
  set (b1 := match r_scan_type r with Some _ => _ | None => _ end) in Hs1.
  assert (Hb1 : b1 = set_name n new_scan).
  { unfold b1. destruct (r_scan_type r) as [t|] eqn:Et; [|done]. by rewrite (va_inspect _ _ _ V t Et). }
  assert (Hs : set_options (requested_options r) b1 = Ok s1).
  { rewrite <-(va_options _ _ _ V). unfold requested_options. by destruct (r_options r'). }
  rewrite Hb1 in Hs. clear Hs1.
  destruct (set_options_spec _ (set_name n new_scan) (va_good _ _ _ V) (bo_opt _ new_base) (bo_ext _ new_base))
    as (s2 & Hs2 & C).
  rewrite Hs in Hs2. injection Hs2 as <-.
  apply (saved rows pk r r' new_scan false (set_sources (dedup l) s1) rows' s' V new_base); [| |done| |exact H].
  - destruct C as [C1 C2 C3 C4 C5 C6 C7 C8 C9]. unfold with_fields. rewrite Hn, Hl. by split.
  - cbn. by rewrite (oc_type _ _ _ _ C).
  - intros i s Hi Hname. rewrite Hn in Hname. cbn in Hname.
    pose proof (name_check rows r _ None u ltac:(rewrite Hn; exact Hu) ltac:(by rewrite Hn) i s Hi
      ltac:(by rewrite Hn)). done.
Qed.

Record wf_table (rows : scans) : Prop := {
  wf_rows : forall i s, rows !! i = Some s -> wf_scan s;
  wf_unique : unique_names name rows }.

(** The requests that change the table; a scan is deleted with its jobs. *)
Inductive step (rows : scans) : scans -> Prop :=
| step_create pk r : rows !! pk = None -> step rows (create_scan rows pk r).1
| step_update partial id r : step rows (update_scan partial rows id r).1
| step_delete id : step rows (delete id rows).

Lemma stored_wf partial rows rows' id r base s' :
  wf_table rows -> stored partial rows rows' id r base s' -> wf_table rows'.
Proof.
  intros [W U] (row & -> & _ & Wr & _ & Hn). constructor; [|by apply unique_names_insert].
  intros i s [[<- <-]|[_ Hs]]%lookup_insert_Some; [done | by eapply W].
Qed.

(** What a request on a well-formed table gives. *)
Lemma update_cases partial rows id r base : wf_table rows -> rows !! id = Some base ->
  match update_scan partial rows id r with
  | (rows', Ok s') => (partial = false -> r_scan_type r <> None) /\ stored partial rows rows' id r base s'
  | (rows', Err _) => rows' = rows
  end.
Proof.
  intros T Hb. pose proof (wf_rows _ T _ _ Hb) as W. unfold update_scan. rewrite Hb. cbn [from_option mbind res_bind].
  destruct (is_valid partial r) as [r'|e] eqn:V; [|done]. cbn [mbind res_bind]. apply is_valid_ok in V.
  destruct (update partial rows id base r') as [[rows' s']|e] eqn:H; [|done]. cbn [rolled_back].
  unfold update in H. apply bind_Ok in H as (u & Hu & H). rewrite (va_name _ _ _ V) in Hu.
  destruct partial.
  - split; [done|]. eapply partial_update_stored; try done; [apply W|].
    intros j s Hj Hname. by apply (wf_unique _ T _ _ _ _ Hj Hb).
  - destruct (full_update_stored rows id r r' base (wf_type _ W) u _ rows' s' V (wf_base _ W) Hu H). done.
Qed.

Lemma create_cases rows pk r :
  match create_scan rows pk r with
  | (rows', Ok s') => stored false rows rows' pk r new_scan s'
  | (rows', Err _) => rows' = rows
  end.
Proof.
  unfold create_scan. destruct (is_valid false r) as [r'|e] eqn:V; [|done]. cbn [mbind res_bind].
  apply is_valid_ok in V. destruct (create rows pk r') as [[rows' s']|e] eqn:H; [|done].
  by eapply create_stored.
Qed.

Lemma step_wf rows rows' : step rows rows' -> wf_table rows -> wf_table rows'.
Proof.
  intros [pk r _ | partial id r | id] T.
  - pose proof (create_cases rows pk r) as H. destruct (create_scan rows pk r) as [rows1 [s'|e]]; cbn.
    + by eapply stored_wf.
    + by subst.
  - destruct (rows !! id) as [base|] eqn:Hb.
    + pose proof (update_cases partial rows id r base T Hb) as H.
      destruct (update_scan partial rows id r) as [rows1 [s'|e]]; cbn; [|by subst].
      eapply stored_wf; [done | by apply H].
    + unfold update_scan. by rewrite Hb.
  - destruct T as [W U]. split.
    + intros i s [_ Hs]%lookup_delete_Some. by eapply W.
    + intros i j s t [_ Hs]%lookup_delete_Some [_ Ht]%lookup_delete_Some. by eapply U.
Qed.

(** ** Properties *)

(** The options of a scan can be given back: the API shows them for every
    scan, accepts what it shows, and setting them on the same scan or on a new one
    gives a scan that shows the same options and gives Ansible the same variables. *)
Theorem scan_options_roundtrip s base : wf_scan s -> (base = s \/ base = new_scan) ->
  exists o s', options s = Ok o /\ validate_options o = Ok o /\ set_options o base = Ok s' /\
    options s' = Ok o /\ get_extra_vars s' = get_extra_vars s.
Proof.
  intros W Hb. pose proof W as [_ _ _ Hopt Hext].
  assert (Hbase : wf_optional (enabled_optional_products base) /\ wf_extended (enabled_extended_product_search base))
    by (destruct Hb as [-> | ->]; [done | split; by left]).
  pose proof (options_accepted s W) as Ha. destruct (validate_options_ok _ _ Ha) as [_ Hg].
  destruct (set_options_spec _ base Hg (proj1 Hbase) (proj2 Hbase)) as (s' & Hs' & Hc).
  destruct (set_back s base s' W Hb Hs' Hc Hg) as [Ht Hv].
  exists (options_table s), s'. split; [by apply options_eq|]. split; [done|]. split; [done|].
  destruct Hc as [_ _ _ _ _ _ _ Hopt' Hext'].
  split; [rewrite options_eq by done; by rewrite Ht | rewrite !extra_vars_eq by done; by rewrite Hv].
Qed.

(** [C38] Whatever requests create, change and delete scans, every scan of the table
    is well formed: the one scan type, at least one source, an integer concurrency
    from 1 to 200, flags for exactly the three products and absolute search
    directories; names are unique.  So the variables for Ansible can always be
    computed, and they are the flags, EAP being searched as long as any of the three
    products is. *)
Theorem scans_invariant rows : rtc step ∅ rows ->
  wf_table rows /\
  forall i s, rows !! i = Some s -> get_extra_vars s = Ok (extra_vars_table s) /\ options s = Ok (options_table s).
Proof.
  intros H. assert (T : wf_table rows).
  { assert (forall x, rtc step x rows -> wf_table x -> wf_table rows) as Hgen.
    { intros x Hx. induction Hx as [|x y z Hs _ IH]; [done|]. intros Wx. by apply IH, (step_wf x). }
    apply (Hgen ∅); [done|]. split; intros i; intros; by rewrite lookup_empty in *. }
  split; [done|]. intros i s Hs. destruct (wf_rows _ T _ _ Hs) as [_ _ _ Ho He].
  split; [by apply extra_vars_eq | by apply options_eq].
Qed.

(** Updating a scan of a well-formed table.  A refused request changes nothing;
    an accepted one changes its row alone: the name, the sources and the concurrency
    are the given ones, or the old; a product is searched, or searched further, as
    its flag says, and without a flag a [PATCH] keeps what it was, while a [PUT]
    resets it, but only if it gives the option at all.  A [PUT] that leaves out the
    optional scan type is never accepted. *)
Theorem update_scan_spec partial rows id r base : wf_table rows -> rows !! id = Some base ->
  match update_scan partial rows id r with
  | (rows', Err _) => rows' = rows
  | (rows', Ok _) =>
      let o := requested_options r in
      (partial = false -> r_scan_type r <> None) /\
      exists row n, rows' = <[id := row]> rows /\ wf_scan row /\
        name row = default (name base) (r_name r) /\
        scan_sources row = default (scan_sources base) (dedup <$> r_sources r) /\
        max_concurrency row = VInt n /\ new_concurrency o base = Some n /\
        (forall p, p ∈ SUPPORTED_PRODUCTS ->
           enabled_flag row p = new_enabled partial o (enabled_flag base) p /\
           extended_flag row p = new_extended partial o (extended_flag base) p) /\
        directories row = new_directories partial o base
  end.
Proof.
  intros T Hb. pose proof (update_cases partial rows id r base T Hb) as H.
  destruct (update_scan partial rows id r) as [rows' [s'|e]]; [|done].
  destruct H as (Hp & row & -> & _ & W & C & _). split; [done|].
  destruct (wf_concurrency _ W) as (n & Hn & _). exists row, n.
  destruct C as [C1 C2 C3 C4 C5 C6 C7 _ _]. rewrite Hn in C4.
  split; [done|]. split; [done|]. split; [done|]. split; [done|]. split; [done|]. split; [by symmetry in C4|].
  split; [|done]. intros p Hprod. split; [by apply C5 | by apply C6].
Qed.

(** ** Examples *)

Definition sample_post : request :=
  mkreq (Some "nightly") (Some [3; 1; 3]) None
    (Some [("max_concurrency", VStr "50"); ("disabled_optional_products", VDict [("jboss_ws", VStr "True")]);
           ("enabled_extended_product_search", VDict [("search_directories", VList [VStr "/opt"; VStr "/srv"])])]).

Definition sample_patch : request :=
  mkreq None None None (Some [("disabled_optional_products", VDict [("jboss_eap", VBool true); ("jboss_fuse", VBool true)])]).

Definition sample_scan (eap fuse : bool) : scan :=
  mkscan "nightly" [3; 1] (VStr "inspect") (VInt 50)
    (VDict [("jboss_eap", VBool eap); ("jboss_fuse", VBool fuse); ("jboss_ws", VBool false)])
    (VDict [("jboss_eap", VBool false); ("jboss_fuse", VBool false); ("jboss_ws", VBool false);
            ("search_directories", VList [VStr "/opt"; VStr "/srv"])]).

Lemma sample_created : (create_scan ∅ 1 sample_post).1 = {[1 := sample_scan true true]}.
Proof. vm_compute. reflexivity. Qed.

Lemma sample_requests : rtc step ∅ {[1 := sample_scan true true]}.
Proof. eapply rtc_once. rewrite <-sample_created. by apply step_create. Qed.

Lemma scans_invariant_witness :
  get_extra_vars (sample_scan true true) =
  Ok [("jboss_eap", VBool true); ("jboss_eap_ext", VBool false); ("jboss_fuse", VBool true);
      ("jboss_fuse_ext", VBool false); ("jboss_ws", VBool false); ("jboss_ws_ext", VBool false);
      ("search_directories", VStr "/opt /srv")].
Proof. exact (proj1 (proj2 (scans_invariant _ sample_requests) 1 (sample_scan true true) eq_refl)). Defined.

Lemma sample_scans : wf_table {[1 := sample_scan true true]}.
Proof.
  assert (T : wf_table ∅) by (split; intros i; intros; by rewrite lookup_empty in *).
  apply (step_wf ∅); [|done]. rewrite <-sample_created. by apply step_create.
Qed.

(** With no product left, EAP is searched no more. *)
Lemma update_scan_spec_witness :
  exists row n, (update_scan true {[1 := sample_scan true true]} 1 sample_patch).1 !! 1 = Some row /\
    max_concurrency row = VInt n /\ n = 50 /\ enabled_flag row JBOSS_FUSE = false /\
    dget JBOSS_EAP (extra_vars_table row) = Some (VBool false).
Proof.
  pose proof (update_scan_spec true {[1 := sample_scan true true]} 1 sample_patch _ sample_scans eq_refl) as H.
  vm_compute (update_scan _ _ _ _) in H |- *. destruct H as (_ & row & n & Hrows & _ & _ & _ & Hm & Hn & Hf & _).
  pose proof (f_equal (lookup 1) Hrows) as E. rewrite lookup_insert_eq in E.
  assert (Some (sample_scan false false) = Some row) as [= <-] by exact E.
  exists (sample_scan false false), n. split; [reflexivity|]. split; [exact Hm|]. split; [by injection Hn|].
  split; [by destruct (Hf JBOSS_FUSE ltac:(by_compute)) as [-> _] | reflexivity].
Defined.

Lemma scan_options_roundtrip_witness :
  exists o s', options (sample_scan true true) = Ok o /\ set_options o new_scan = Ok s' /\
    get_extra_vars s' = get_extra_vars (sample_scan true true).
Proof.
  destruct (scan_options_roundtrip (sample_scan true true) new_scan) as (o & s' & Ho & _ & Hs & _ & Hv).
  - apply (wf_rows _ sample_scans 1). reflexivity.
  - by right.
  - exists o, s'. done.
Defined.

(** A [PUT] without the optional scan type. *)
Example put_without_type :
  (update_scan false {[1 := sample_scan true true]} 1 (mkreq (Some "nightly") (Some [1]) None None)).2
  = Err (OtherException "IntegrityError").
Proof. vm_compute. done. Qed.

(** An option that is a list. *)
Example list_option_raises :
  validate_options [("disabled_optional_products", VList [])] = Err (AttributeError "get").
Proof. vm_compute. done. Qed.

(** The setter stores [None] for directories that are not given. *)
Example no_search_directories :
  (s ← set_options [("enabled_extended_product_search", VDict [("jboss_eap", VBool true)])] new_scan;
   get_search_directories s) = Ok VNone.
Proof. vm_compute. done. Qed.
