(* ===== verification/RawFacts.v ===== *)
(** What inspections and uploads store: inspect groups, results and raw facts
    ([api/inspectresult/model.py]), how they get there
    ([ScanJob.ingest_sources], [ScanJob.copy_raw_facts_from_reports] in
    [api/scanjob/model.py], the upload serializer of [api/report/serializer_v1.py],
    [api/merge_report/view.py]) and how they are read again ([Report.sources] in
    [api/report/model.py], [ScanTask.get_facts] and [cleanup_facts] in
    [api/scantask/model.py]).

    A table is a list of rows in the order of their keys, which is the order of the
    queries; the raw facts of a result, whose names are distinct, are kept with it
    as a dict; the links of a group to tasks and reports are lists in the group. *)
From stdpp Require Import base gmap sets list strings.
From Stdlib Require Import Ascii ZArith Lia.
From S2P Require Import Prelude PyStr PyNum PyVal Fingerprints Merge ApiCommon.

Open Scope string_scope.
Open Scope Z_scope.

(** ** The tables *)

Record inspect_group := mkgroup {
  source_type : pyval;
  source_name : pyval;
  server_id : pyval;
  server_version : pyval;
  group_source : option Z;
  group_tasks : list Z;
  group_reports : list Z }.

Inductive result_status := SUCCESS | FAILED | UNREACHABLE | NO_STATUS.

#[export] Instance result_status_eq_dec : EqDecision result_status.
Proof. solve_decision. Defined.

Record inspect_result := mkresult {
  result_name : string;
  result_status_of : result_status;
  result_group : Z;
  facts : pydict }.

Record store := mkstore {
  groups : list (Z * inspect_group);
  results : list (Z * inspect_result);
  next_id : Z }.

Definition add_group (g : inspect_group) (st : store) : Z * store :=
  (next_id st, mkstore (groups st ++ [(next_id st, g)])%list (results st) (next_id st + 1)).

Definition add_result (r : inspect_result) (st : store) : store :=
  mkstore (groups st) (results st ++ [(next_id st, r)])%list (next_id st + 1).

(** [report.inspect_groups.set(groups)] and [report.inspect_groups]: the groups are
    chosen by [p]. *)
Definition set_report (report : Z) (p : Z * inspect_group -> bool) (st : store) : store :=
  mkstore
    ((fun kg : Z * inspect_group =>
        let g := kg.2 in
        let others := List.filter (fun r => negb (r =? report)) (group_reports g) in
        (kg.1, mkgroup (source_type g) (source_name g) (server_id g) (server_version g) (group_source g)
                 (group_tasks g) (if p kg then others ++ [report] else others)%list)) <$> groups st)
    (results st) (next_id st).

Definition in_report (report : Z) (kg : Z * inspect_group) : bool := bool_decide (report ∈ group_reports kg.2).
Definition in_task (task : Z) (kg : Z * inspect_group) : bool := bool_decide (task ∈ group_tasks kg.2).

Definition results_of (gid : Z) (st : store) : list inspect_result :=
  List.filter (fun r => result_group r =? gid) (results st).*2.

(** ** Reading *)

(** [RAW_QUERY_POSTGRES], [RAW_QUERY_SQLITE]: the join leaves out results without
    facts; without any, there is no row and the value is [null]. *)
Definition raw_fact_list (gid : Z) (st : store) : pyval :=
  match List.filter (fun r => negb (bool_decide (dkeys (facts r) = []))) (results_of gid st) with
  | [] => VNone
  | rs => VList ((fun r => VDict (facts r)) <$> rs)
  end.

(** [with_raw_facts] and the [values] of [Report.sources]. *)
Definition source_of (st : store) (kg : Z * inspect_group) : pydict :=
  let g := kg.2 in
  [("server_id", server_id g); ("report_version", server_version g); ("source_name", source_name g);
   ("source_type", source_type g); ("facts", raw_fact_list kg.1 st)].

Definition report_sources (report : Z) (st : store) : list pydict :=
  source_of st <$> List.filter (in_report report) (groups st).

Inductive task_type := INSPECT | FINGERPRINT.

#[export] Instance task_type_eq_dec : EqDecision task_type.
Proof. solve_decision. Defined.

Definition task_results (task : Z) (st : store) : list (Z * inspect_result) :=
  List.filter (fun kr => bool_decide (result_group kr.2 ∈ (List.filter (in_task task) (groups st)).*1)) (results st).

Definition get_facts (task : Z) (ty : task_type) (st : store) : list pydict :=
  if decide (ty = INSPECT) then (fun kr => facts kr.2) <$> task_results task st else [].

(** The raw fact [identity_key] of a result, with a value that is neither [null]
    nor empty. *)
Definition has_identity (identity_key : string) (r : inspect_result) : bool :=
  match dget identity_key (facts r) with
  | Some v => negb (is_none v || py_eq v (VStr "") || py_eq v (VDict []))
  | None => false
  end.

Definition cleanup_facts (identity_key : string) (task : Z) (ty : task_type) (st : store) : store :=
  if decide (ty <> INSPECT) then st else
  let invalid := List.filter (fun kr => negb (has_identity identity_key kr.2)) (task_results task st) in
  match invalid with
  | [] => st
  | _ => mkstore (groups st) (List.filter (fun kr => negb (bool_decide (kr.1 ∈ invalid.*1))) (results st)) (next_id st)
  end.

(** ** Uploads *)

(** A run of digits, at least one, and what follows. *)
Fixpoint read_digits (acc : option Z) (s : string) : option (Z * string) :=
  match s with
  | String c s' => if is_digit c then read_digits (Some (default 0 acc * 10 + digit_val c)) s'
                   else (fun z => (z, s)) <$> acc
  | "" => (fun z => (z, s)) <$> acc
  end.

Definition read_char (c : ascii) (s : string) : option string :=
  match s with String c' s' => if Ascii.eqb c c' then Some s' else None | "" => None end.

(** [re.match(r"(\d+)\.(\d+)\.(\d+)\+\S", value)] *)
Definition match_version (value : string) : option (Z * Z * Z) :=
  '(major, s) ← read_digits None value; s ← read_char "." s;
  '(minor, s) ← read_digits None s; s ← read_char "." s;
  '(patch, s) ← read_digits None s; s ← read_char "+" s;
  match s with String c _ => if is_space c then None else Some (major, minor, patch) | "" => None end.

Definition MINIMUM_REPORT_VERSION : Z * Z * Z := (1, 0, 0).

(** [<] on tuples *)
Definition version_lt (a b : Z * Z * Z) : bool :=
  let '(a1, a2, a3) := a in let '(b1, b2, b3) := b in
  (a1 <? b1) || ((a1 =? b1) && ((a2 <? b2) || ((a2 =? b2) && (a3 <? b3)))).

Definition version_str (v : Z * Z * Z) : string :=
  let '(a, b, c) := v in str_join "." [int_repr a; int_repr b; int_repr c].

Definition validate_report_version (value : string) : Res string :=
  match match_version value with
  | None => Err (invalid "Invalid report_version.")
  | Some source_version =>
      if version_lt source_version MINIMUM_REPORT_VERSION
      then Err (invalid ("Source version (" +:+ version_str source_version +:+ ") is below the minimum supported report version ("
                           +:+ version_str MINIMUM_REPORT_VERSION +:+ ")"))
      else Ok value
  end.

Definition validate_sources (value : list pydict) : Res (list pydict) :=
  match value with [] => Err (invalid "minimum length required for 'sources' is 1.") | _ => Ok value end.

(** The group of a source, and the results of its facts. *)
Definition group_of_source (source_dict : pydict) : Res inspect_group :=
  t ← dget_exn "source_type" source_dict; n ← dget_exn "source_name" source_dict;
  i ← dget_exn "server_id" source_dict; v ← dget_exn "report_version" source_dict;
  Ok (mkgroup t n i v None [] []).

Definition facts_of_source (source_dict : pydict) : Res (list pydict) :=
  fs ← dget_exn "facts" source_dict; l ← py_iter fs; mapM (as_dict "items") l.

(** [bulk_create] of the groups and of the results. *)
Definition create_groups (gs : list inspect_group) (st : store) : store :=
  foldl (fun st g => (add_group g st).2) st gs.

Definition create_results (l : list (Z * list pydict)) (st : store) : store :=
  foldl (fun st '(i, fs) => foldl (fun st f => add_result (mkresult "" NO_STATUS i f) st) st fs) st l.

(** [ingest_sources]: all the groups are created, then all the results. *)
Definition ingest_sources (report : Z) (source_list : list pydict) (st : store) : Res store :=
  rows ← mapM (fun s => g ← group_of_source s; fs ← facts_of_source s; Ok (g, fs)) source_list;
  let inspect_group_list := seqZ (next_id st) (Z.of_nat (length rows)) in
  let st := create_results (zip inspect_group_list rows.*2) (create_groups rows.*1 st) in
  Ok (set_report report (fun kg => bool_decide (kg.1 ∈ inspect_group_list)) st).

(** ** Merging *)

Definition REPORT_MERGE_REQUIRED : string := "This field is required".
Definition REPORT_MERGE_NOT_LIST : string := "This field must be a list of report ids.".
Definition REPORT_MERGE_TOO_SHORT : string := "Two or more scan report ids are required.".
Definition REPORT_MERGE_NOT_INT : string := "Scan report ids must be integers.".
Definition REPORT_MERGE_NOT_UNIQUE : string := "Set of ids must be unique.".
Definition REPORT_MERGE_NOT_FOUND (ids : string) : string :=
  "Not all scan report ids exist. Scan reports not found: " +:+ ids.

(** [reports]: the keys of the reports.  The identifiers of the message are in the
    order of the request. *)
Definition _validate_report_ids (reports : gset Z) (data : pyval) : Res (list Z) :=
  let error message := Err (invalid_field "reports" message) in
  match data with
  | VDict d =>
      match dget_none "reports" d with
      | VNone => error REPORT_MERGE_REQUIRED
      | VList report_ids =>
          if (length report_ids <? 2)%nat then error REPORT_MERGE_TOO_SHORT
          else match mapM convert_to_int report_ids with
               | None => error REPORT_MERGE_NOT_INT
               | Some report_ids =>
                   if negb (bool_decide (NoDup report_ids)) then error REPORT_MERGE_NOT_UNIQUE
                   else match List.filter (fun i => negb (bool_decide (i ∈ reports))) report_ids with
                        | [] => Ok report_ids
                        | missing_reports => error (REPORT_MERGE_NOT_FOUND (str_join ", " (int_repr <$> missing_reports)))
                        end
               end
      | _ => error REPORT_MERGE_NOT_LIST
      end
  | _ => error REPORT_MERGE_REQUIRED
  end.

Definition copy_raw_facts_from_reports (report : Z) (report_id_list : list Z) (st : store) : store :=
  set_report report (fun kg => existsb (fun r => in_report r kg) report_id_list) st.

(** [async_merge_reports], up to the start of the job: the key of the new report
    and the groups it takes. *)
Definition async_merge_reports (reports : gset Z) (report : Z) (data : pyval) (st : store) :
    gset Z * store * Res Z :=
  match _validate_report_ids reports data with
  | Err e => (reports, st, Err e)
  | Ok ids => ({[report]} ∪ reports, copy_raw_facts_from_reports report ids st, Ok report)
  end.

(** ** Lemmas: reports *)

(** Keys are allotted in order, and results belong to groups. *)
Record wf_store (st : store) : Prop := {
  wf_groups : Forall (fun kg => kg.1 < next_id st) (groups st);
  wf_results : Forall (fun kr => kr.1 < next_id st /\ result_group kr.2 < next_id st) (results st);
  wf_group_keys : NoDup (groups st).*1;
  wf_result_keys : NoDup (results st).*1 }.

Lemma filter_fmap {A B} (p : B -> bool) (f : A -> B) l : List.filter p (f <$> l) = f <$> List.filter (fun x => p (f x)) l.
Proof. induction l as [|x l IH]; [done|]. cbn. destruct (p (f x)); cbn; by rewrite IH. Qed.

Lemma filter_ext_in {A} (p q : A -> bool) l : (forall x, x ∈ l -> p x = q x) -> List.filter p l = List.filter q l.
Proof.
  induction l as [|x l IH]; intros H; [done|]. cbn. rewrite H by left. rewrite IH; [done|].
  intros y Hy. apply H. by right.
Qed.

Lemma filter_filter {A} (p q : A -> bool) l : List.filter p (List.filter q l) = List.filter (fun x => q x && p x) l.
Proof. induction l as [|x l IH]; [done|]. cbn. destruct (q x); cbn; [|done]. by rewrite IH. Qed.

Lemma elem_of_others r report (l : list Z) :
  r ∈ List.filter (fun r => negb (r =? report)) l <-> r ∈ l /\ r <> report.
Proof. rewrite elem_of_List_filter, negb_true_iff, Z.eqb_neq. tauto. Qed.

(** Setting the groups of a report: exactly the chosen ones, and no other report
    changes. *)
Lemma set_report_sources report p st r :
  report_sources r (set_report report p st) =
  if decide (r = report) then source_of st <$> List.filter p (groups st) else report_sources r st.
Proof.
  unfold report_sources, set_report. cbn [groups]. rewrite filter_fmap, <-list_fmap_compose.
  assert (Hin : forall kg : Z * inspect_group,
    bool_decide (r ∈ (if p kg then List.filter (fun r => negb (r =? report)) (group_reports kg.2) ++ [report]
                      else List.filter (fun r => negb (r =? report)) (group_reports kg.2))%list) =
    if decide (r = report) then p kg else in_report r kg).
  { intros kg. unfold in_report. case_decide as Hr; subst.
    - destruct (p kg); case_bool_decide as H; try done.
      + destruct H. apply elem_of_app. right. by apply list_elem_of_singleton.
      + by apply elem_of_others in H as [_ H].
    - apply bool_decide_ext. destruct (p kg); rewrite ?elem_of_app, elem_of_others, ?list_elem_of_singleton; naive_solver. }
  cbn. rewrite (filter_ext_in _ _ _ (fun kg _ => Hin kg)). by case_decide.
Qed.

(** ** Lemmas: the tables stay well formed *)

Lemma Forall_key {A} (P Q : A -> Prop) l : (forall x, P x -> Q x) -> Forall P l -> Forall Q l.
Proof. intros H HF. by eapply Forall_impl. Qed.

Lemma NoDup_snoc_key {A} (l : list (Z * A)) k x : Forall (fun kx => kx.1 < k) l -> NoDup l.*1 ->
  NoDup (l ++ [(k, x)])%list.*1.
Proof.
  intros Hl HN. rewrite fmap_app. apply NoDup_app. split; [done|]. split; [|apply NoDup_singleton].
  intros y Hy ->%list_elem_of_singleton. apply list_elem_of_fmap in Hy as ([k' x'] & E & Hin).
  pose proof (proj1 (Forall_forall _ _) Hl _ Hin). cbn in *. lia.
Qed.

Lemma add_group_wf g st : wf_store st -> wf_store (add_group g st).2.
Proof.
  intros [Hg Hr HG HR]. split; cbn.
  - apply Forall_app. split; [|by repeat constructor; cbn; lia]. revert Hg. apply Forall_key. cbn. lia.
  - revert Hr. apply Forall_key. cbn. lia.
  - by apply NoDup_snoc_key.
  - done.
Qed.

Lemma add_result_wf r st : result_group r < next_id st -> wf_store st -> wf_store (add_result r st).
Proof.
  intros Hgr [Hg Hr HG HR]. split; cbn.
  - revert Hg. apply Forall_key. cbn. lia.
  - apply Forall_app. split; [|repeat constructor; cbn; lia]. revert Hr. apply Forall_key. cbn. lia.
  - done.
  - apply NoDup_snoc_key; [|done]. revert Hr. apply Forall_key. cbn. tauto.
Qed.

Lemma set_report_wf report p st : wf_store st -> wf_store (set_report report p st).
Proof.
  intros [Hg Hr HG HR]. split; cbn; [|done| |done].
  - by apply Forall_fmap.
  - by rewrite <-list_fmap_compose.
Qed.

Lemma filter_results_wf p st : wf_store st ->
  wf_store (mkstore (groups st) (List.filter p (results st)) (next_id st)).
Proof.
  intros [Hg Hr HG HR]. split; cbn; [done| |done|].
  - apply Forall_forall. intros kr [Hkr _]%elem_of_List_filter. by apply (proj1 (Forall_forall _ _) Hr).
  - eapply sublist_NoDup; [exact HR|]. apply fmap_sublist.
    clear. induction (results st) as [|kr l IH]; cbn; [constructor|]. destruct (p kr); by constructor.
Qed.

Lemma create_groups_wf gs st : wf_store st -> wf_store (create_groups gs st).
Proof. unfold create_groups. revert st. induction gs; intros st; cbn; [done|]. intros W. by apply IHgs, add_group_wf. Qed.

Lemma create_results_wf l st : Forall (fun ifs => ifs.1 < next_id st) l -> wf_store st -> wf_store (create_results l st).
Proof.
  unfold create_results. revert st. induction l as [|[i fs] l IH]; intros st Hl W; [done|].
  apply Forall_cons in Hl as [Hi Hl]. cbn in Hi. cbn [foldl].
  enough (forall st, i < next_id st -> wf_store st ->
    let st' := foldl (fun st f => add_result (mkresult "" NO_STATUS i f) st) st fs in
    next_id st <= next_id st' /\ wf_store st') as H.
  { destruct (H st Hi W) as [Hn W']. apply IH; [|done]. revert Hl. apply Forall_key. intros x ?. cbn in *. lia. }
  clear. induction fs as [|f fs IH]; intros st Hi W; [by split; [cbn; lia|]|]. cbn zeta. cbn [foldl].
  destruct (IH (add_result (mkresult "" NO_STATUS i f) st)) as [Hn W']; [cbn; lia | by apply add_result_wf |].
  cbn zeta in *. split; [|done]. cbn in *. lia.
Qed.

(** ** Lemmas: ingestion *)

Lemma add_groups_spec gs st :
  let st' := create_groups gs st in
  groups st' = (groups st ++ zip (seqZ (next_id st) (Z.of_nat (length gs))) gs)%list /\
  results st' = results st /\ next_id st' = next_id st + Z.of_nat (length gs).
Proof.
  unfold create_groups. revert st. induction gs as [|g gs IH]; intros st; cbn zeta.
  - cbn. rewrite app_nil_r. split; [done|]. split; [done | lia].
  - cbn [foldl length]. destruct (IH (add_group g st).2) as (Hg & Hr & Hn). cbn zeta in Hg, Hr, Hn.
    rewrite Hg, Hr, Hn. unfold add_group. cbn [groups results next_id snd].
    rewrite (seqZ_cons (next_id st)) by lia.
    replace (Z.pred (Z.of_nat (S (length gs)))) with (Z.of_nat (length gs)) by lia.
    replace (Z.succ (next_id st)) with (next_id st + 1) by lia.
    cbn [zip zip_with]. rewrite <-app_assoc. split; [done|]. split; [done | lia].
Qed.

Lemma add_results_spec i fs st :
  let st' := foldl (fun st f => add_result (mkresult "" NO_STATUS i f) st) st fs in
  groups st' = groups st /\ (results st').*2 = ((results st).*2 ++ ((fun f : pydict => mkresult "" NO_STATUS i f) <$> fs))%list.
Proof.
  revert st. induction fs as [|f fs IH]; intros st; cbn zeta; cbn [foldl fmap list_fmap]; [by rewrite app_nil_r|].
  destruct (IH (add_result (mkresult "" NO_STATUS i f) st)) as [Hg Hr]. cbn zeta in Hg, Hr. rewrite Hg, Hr.
  split; [done|]. cbn. rewrite fmap_app, <-app_assoc. done.
Qed.

(** The results of the facts of the groups. *)
Definition ingested_results (l : list (Z * list pydict)) : list inspect_result :=
  mjoin ((fun p : Z * list pydict => (fun f : pydict => mkresult "" NO_STATUS p.1 f) <$> p.2) <$> l).

Lemma add_all_results_spec (l : list (Z * list pydict)) st :
  let st' := create_results l st in
  groups st' = groups st /\
  (results st').*2 = ((results st).*2 ++ ingested_results l)%list.
Proof.
  unfold create_results. revert st. induction l as [|[i fs] l IH]; intros st; cbn zeta; cbn [foldl]; [by rewrite app_nil_r|].
  set (st1 := foldl (fun st f => add_result (mkresult "" NO_STATUS i f) st) st fs).
  destruct (add_results_spec i fs st) as [Hg Hr]. fold st1 in Hg, Hr. destruct (IH st1) as [Hg' Hr'].
  cbn zeta in Hg', Hr'. rewrite Hg', Hr', Hg, Hr. split; [done|]. cbn. by rewrite <-app_assoc.
Qed.

(** The results of one group among those of distinct groups. *)
Lemma filter_group (l : list (Z * list pydict)) i fs : NoDup l.*1 -> (i, fs) ∈ l ->
  List.filter (fun r => result_group r =? i) (ingested_results l)
  = (fun f : pydict => mkresult "" NO_STATUS i f) <$> fs.
Proof.
  induction l as [|[j gs] l IH]; intros HN Hin; [by apply elem_of_nil in Hin|].
  apply NoDup_cons in HN as [Hj HN]. change (ingested_results ((j, gs) :: l)) with
    (((fun f : pydict => mkresult "" NO_STATUS j f) <$> gs) ++ ingested_results l)%list. rewrite List.filter_app.
  apply elem_of_cons in Hin as [[= <- <-]|Hin].
  - rewrite (List_filter_all _ ((fun f : pydict => mkresult "" NO_STATUS i f) <$> fs))
      by (intros r (f & -> & _)%list_elem_of_fmap; cbn; apply Z.eqb_refl).
    rewrite (List_filter_none _ (ingested_results l)); [by rewrite app_nil_r|].
    intros r (x & Hr & ([k hs] & -> & Hp)%list_elem_of_fmap)%list_elem_of_join.
    apply list_elem_of_fmap in Hr as (f & -> & _). cbn. apply Z.eqb_neq. intros ->. apply Hj.
    apply list_elem_of_fmap. by exists (i, hs).
  - rewrite (List_filter_none _ ((fun f : pydict => mkresult "" NO_STATUS j f) <$> gs)); [by apply IH|].
    intros r (f & -> & _)%list_elem_of_fmap. cbn. apply Z.eqb_neq. intros ->.
    apply Hj, list_elem_of_fmap. by exists (i, fs).
Qed.

(** What a report shows of the facts of a source. *)
Definition shown_facts (fs : list pydict) : pyval :=
  match List.filter (fun f => negb (bool_decide (dkeys f = []))) fs with
  | [] => VNone
  | fs => VList (VDict <$> fs)
  end.

Lemma raw_fact_list_shown gid st fs name status :
  results_of gid st = (fun f => mkresult name status gid f) <$> fs -> raw_fact_list gid st = shown_facts fs.
Proof.
  intros H. unfold raw_fact_list, shown_facts. rewrite H, filter_fmap. cbn [facts].
  destruct (List.filter _ fs); [done|]. cbn. do 2 f_equal. by rewrite <-list_fmap_compose.
Qed.

Definition shown_source (g : inspect_group) (fs : list pydict) : pydict :=
  [("server_id", server_id g); ("report_version", server_version g); ("source_name", source_name g);
   ("source_type", source_type g); ("facts", shown_facts fs)].

Lemma zip_fmap {A B C} (f : A -> B) (ks : list C) (l : list A) :
  zip ks (f <$> l) = (fun p : C * A => (p.1, f p.2)) <$> zip ks l.
Proof. revert ks. induction l as [|x l IH]; intros [|k ks]; cbn; [done..|]. by rewrite <-IH. Qed.

Lemma zip_with_keys {A B} (f : Z -> A -> B) (l : list A) (ks : list Z) (h : A -> B) :
  length ks = length l -> (forall k x, (k, x) ∈ zip ks l -> f k x = h x) ->
  (fun p => f p.1 p.2) <$> zip ks l = h <$> l.
Proof.
  revert ks. induction l as [|x l IH]; intros [|k ks] Hl H; try done. cbn. f_equal.
  - apply H. left.
  - apply IH; [by injection Hl|]. intros k' x' Hin. apply H. by right.
Qed.

Section ingest.
Context (report : Z) (st : store) (W : wf_store st) (rows : list (inspect_group * list pydict)).

#[local] Definition new_keys : list Z := seqZ (next_id st) (Z.of_nat (length rows)).
#[local] Definition stored : store := create_results (zip new_keys rows.*2) (create_groups rows.*1 st).

Lemma stored_groups : groups stored = (groups st ++ zip new_keys rows.*1)%list.
Proof.
  unfold stored, new_keys. rewrite (proj1 (add_all_results_spec _ _)).
  rewrite (proj1 (add_groups_spec rows.*1 st)). by rewrite length_fmap.
Qed.

Lemma stored_results : (results stored).*2 = ((results st).*2 ++ ingested_results (zip new_keys rows.*2))%list.
Proof.
  unfold stored. rewrite (proj2 (add_all_results_spec _ _)). do 2 f_equal.
  apply (add_groups_spec rows.*1 st).
Qed.

Lemma new_keys_length : length new_keys = length rows.
Proof. unfold new_keys. rewrite length_seqZ. lia. Qed.

Lemma new_key k : k ∈ new_keys -> next_id st <= k.
Proof. unfold new_keys. rewrite elem_of_seqZ. lia. Qed.

Lemma old_group kg : kg ∈ groups st -> kg.1 ∉ new_keys.
Proof.
  intros Hin Hk%new_key. pose proof (proj1 (Forall_forall _ _) (wf_groups _ W) kg Hin). cbn in *. lia.
Qed.

Lemma old_results gid : gid ∉ new_keys -> results_of gid stored = results_of gid st.
Proof.
  intros Hgid. unfold results_of. rewrite stored_results, List.filter_app.
  rewrite (List_filter_none _ (ingested_results _)); [by rewrite app_nil_r|].
  intros r (x & Hr & ([k hs] & -> & Hp)%list_elem_of_fmap)%list_elem_of_join.
  apply list_elem_of_fmap in Hr as (f & -> & _). cbn. apply Z.eqb_neq. intros ->. apply Hgid.
  by apply elem_of_zip_l in Hp.
Qed.

Lemma new_results k g fs : (k, (g, fs)) ∈ zip new_keys rows ->
  results_of k stored = (fun f : pydict => mkresult "" NO_STATUS k f) <$> fs.
Proof.
  intros Hin. unfold results_of. rewrite stored_results, List.filter_app, (List_filter_none _ (results st).*2).
  - cbn [app]. apply filter_group.
    + rewrite fst_zip by (rewrite length_fmap, new_keys_length; lia). apply NoDup_seqZ.
    + rewrite zip_fmap. apply list_elem_of_fmap. by exists (k, (g, fs)).
  - intros r (kr & -> & Hkr)%list_elem_of_fmap. apply Z.eqb_neq. intros Hk.
    apply elem_of_zip_l, new_key in Hin. pose proof (proj1 (Forall_forall _ _) (wf_results _ W) kr Hkr) as [_ ?].
    cbn in *. lia.
Qed.

Lemma ingested_report :
  report_sources report (set_report report (fun kg => bool_decide (kg.1 ∈ new_keys)) stored)
  = (fun p => shown_source p.1 p.2) <$> rows.
Proof.
  rewrite set_report_sources, decide_True by done. rewrite stored_groups, List.filter_app.
  rewrite (List_filter_none _ (groups st)).
  2:{ intros kg Hin. cbn. apply bool_decide_eq_false. by apply old_group. }
  rewrite (List_filter_all _ (zip new_keys rows.*1)).
  2:{ intros [k g] Hin. apply bool_decide_eq_true. by apply elem_of_zip_l in Hin. }
  cbn [app]. rewrite zip_fmap, <-list_fmap_compose.
  transitivity ((fun p : Z * (inspect_group * list pydict) => source_of stored (p.1, p.2.1)) <$> zip new_keys rows);
    [done|].
  apply (zip_with_keys (fun k (p : inspect_group * list pydict) => source_of stored (k, p.1)));
    [apply new_keys_length|].
  intros k [g fs] Hin. unfold source_of, shown_source. cbn [fst snd].
  by rewrite (raw_fact_list_shown k stored fs "" NO_STATUS) by (by eapply new_results).
Qed.

Lemma ingested_wf : wf_store stored.
Proof.
  unfold stored. apply create_results_wf; [|by apply create_groups_wf].
  apply Forall_forall. intros [k fs] Hin. cbn. apply elem_of_zip_l in Hin.
  destruct (add_groups_spec rows.*1 st) as (_ & _ & ->). unfold new_keys in Hin.
  apply elem_of_seqZ in Hin. rewrite length_fmap. lia.
Qed.

Lemma other_reports p r : r <> report -> Forall (fun row => group_reports row.1 = []) rows ->
  report_sources r (set_report report p stored) = report_sources r st.
Proof.
  intros Hr Hnew. rewrite set_report_sources, decide_False by done. unfold report_sources.
  rewrite stored_groups, List.filter_app, (List_filter_none _ (zip new_keys rows.*1)).
  - rewrite app_nil_r. apply list_fmap_ext. intros n kg Hkg.
    apply list_elem_of_lookup_2, elem_of_List_filter in Hkg as [Hkg _].
    unfold source_of, raw_fact_list. by rewrite old_results by (by apply old_group).
  - intros [k g] Hin. apply elem_of_zip_r, list_elem_of_fmap in Hin as (row & -> & Hrow).
    pose proof (proj1 (Forall_forall _ _) Hnew row Hrow) as E. apply bool_decide_eq_false. cbn in E |- *.
    rewrite E. by intros ?%elem_of_nil.
Qed.
End ingest.

(** ** Properties *)

(** What an accepted upload gives for a source. *)
Definition uploaded (s : pydict) : pydict :=
  [("server_id", dget_none "server_id" s); ("report_version", dget_none "report_version" s);
   ("source_name", dget_none "source_name" s); ("source_type", dget_none "source_type" s);
   ("facts", match dget_none "facts" s with
             | VList l => shown_facts (omap (fun v => match v with VDict d => Some d | _ => None end) l)
             | _ => VNone
             end)].

(** The shape that the fields of the serializer guarantee. *)
Definition valid_source (s : pydict) : Prop :=
  (forall k, k ∈ ["server_id"; "report_version"; "source_name"; "source_type"] -> k ∈ dkeys s) /\
  exists ds, dget "facts" s = Some (VList (VDict <$> ds)) /\ ds <> [].

Lemma source_row s : valid_source s -> exists g fs,
  (g ← group_of_source s; fs ← facts_of_source s; Ok (g, fs)) = Ok (g, fs) /\
  shown_source g fs = uploaded s /\ group_reports g = [].
Proof.
  intros [Hk (ds & Hf & _)].
  assert (Hget : forall k, k ∈ ["server_id"; "report_version"; "source_name"; "source_type"] ->
    dget_exn k s = Ok (dget_none k s)).
  { intros k Hin. apply dget_exn_Ok. destruct (proj2 (dget_keys k s) (Hk k Hin)) as [v Hv].
    unfold dget_none. by rewrite Hv. }
  unfold group_of_source, facts_of_source.
  rewrite (Hget "source_type"), (Hget "source_name"), (Hget "server_id"), (Hget "report_version") by by_compute.
  rewrite (proj2 (dget_exn_Ok "facts" s _) Hf). cbn [mbind res_bind py_iter].
  assert (mapM (as_dict "items") (VDict <$> ds) = Ok ds) as ->
    by (clear; induction ds as [|d ds IH]; [done|]; cbn; by rewrite IH).
  cbn [mbind res_bind]. do 2 eexists. split; [done|]. split; [|done].
  unfold shown_source, uploaded.
  assert (dget_none "facts" s = VList (VDict <$> ds)) as -> by (unfold dget_none; by rewrite Hf).
  assert (omap (fun v => match v with VDict d => Some d | _ => None end) (VDict <$> ds) = ds) as ->; [|done].
  clear. induction ds as [|d ds IH]; [done|]. cbn. by rewrite IH.
Qed.

Lemma source_rows sources : Forall valid_source sources -> exists rows,
  mapM (fun s => g ← group_of_source s; fs ← facts_of_source s; Ok (g, fs)) sources = Ok rows /\
  (fun p => shown_source p.1 p.2) <$> rows = uploaded <$> sources /\
  Forall (fun row => group_reports row.1 = []) rows.
Proof.
  induction 1 as [|s l Hs _ (rows & Hrows & Hshow & Hrep)]; [by exists []|].
  destruct (source_row s Hs) as (g & fs & Hrow & Hsh & Hg). exists ((g, fs) :: rows).
  split; [cbn [mapM]; rewrite Hrow, Hrows; done|]. split; [cbn; by rewrite Hsh, Hshow | by constructor].
Qed.

(** [C29] What is uploaded is what the report gives back: ingesting accepted sources
    succeeds, the new report has exactly these sources, in order, with the same
    facts for each host, no other report changes and the tables stay well formed.  But a host without facts is
    lost, and of a source with only such hosts the facts are [null]. *)
Theorem ingest_roundtrip report sources st : wf_store st -> Forall valid_source sources ->
  exists st', ingest_sources report sources st = Ok st' /\
    report_sources report st' = uploaded <$> sources /\
    (forall r, r <> report -> report_sources r st' = report_sources r st) /\
    wf_store st'.
Proof.
  intros W V. destruct (source_rows sources V) as (rows & Hrows & Hshow & Hrep).
  eexists. split; [unfold ingest_sources; by rewrite Hrows|]. split.
  - rewrite <-Hshow. by apply ingested_report.
  - split; [|by apply set_report_wf, ingested_wf]. intros r Hr. by apply other_reports.
Qed.

(** A source whose hosts gave no facts makes the whole report fail: whatever the
    other sources are, and in whatever order, the fingerprints of the report cannot
    be made, since the loop over its facts raises [TypeError] on [null].  So it is
    for an upload with empty facts and for a network scan whose results were all
    cleaned up. *)
Theorem empty_source_fails uuid report st k g : (k, g) ∈ groups st -> in_report report (k, g) = true ->
  Forall (fun r => facts r = []) (results_of k st) ->
  exists e, _process_sources uuid (report_sources report st) = Err e.
Proof.
  intros Hin Hr Hf. unfold _process_sources.
  enough (exists e, collect_sources (report_sources report st) = Err e) as [e ->] by (by exists e).
  assert (Hs : source_of st (k, g) ∈ report_sources report st)
    by (apply list_elem_of_fmap; exists (k, g); split; [done | by apply elem_of_List_filter]).
  apply list_elem_of_split in Hs as (l1 & l2 & ->). unfold collect_sources. rewrite foldM_app.
  destruct (foldM collect_step _ l1) as [m|e]; [|by exists e]. cbn [mbind res_bind foldM].
  assert (_process_source (source_of st (k, g)) = Err TypeError) as Hp.
  { unfold _process_source, source_of. cbn. unfold raw_fact_list.
    rewrite List_filter_none; [done|]. intros r Hin'. pose proof (proj1 (Forall_forall _ _) Hf r Hin') as E. cbn in E.
    by rewrite E. }
  assert (collect_step m (source_of st (k, g)) = Err TypeError) as -> by (unfold collect_step; by rewrite Hp). by eexists.
Qed.

(** ** Properties: merging *)

(** What a request to merge reports must be. *)
Definition merge_request (reports : gset Z) (data : pyval) (ids : list Z) : Prop :=
  exists d raw, data = VDict d /\ dget "reports" d = Some (VList raw) /\ (2 <= length raw)%nat /\
    mapM convert_to_int raw = Some ids /\ NoDup ids /\ Forall (fun i => i ∈ reports) ids.

Lemma missing_none (reports : gset Z) ids :
  List.filter (fun i => negb (bool_decide (i ∈ reports))) ids = [] <-> Forall (fun i => i ∈ reports) ids.
Proof.
  rewrite Forall_forall. split.
  - intros E i Hi. destruct (decide (i ∈ reports)) as [|Hn]; [done|]. exfalso.
    enough (i ∈ List.filter (fun i => negb (bool_decide (i ∈ reports))) ids) as H by (rewrite E in H; by apply elem_of_nil in H).
    apply elem_of_List_filter. split; [done|]. by rewrite bool_decide_eq_false_2.
  - intros H. apply List_filter_none. intros i Hi. by rewrite bool_decide_eq_true_2 by (by apply H).
Qed.

Lemma validate_report_ids_Ok reports data ids :
  _validate_report_ids reports data = Ok ids <-> merge_request reports data ids.
Proof.
  unfold _validate_report_ids, merge_request. split.
  - destruct data as [| | | | | |d| | |]; try done. unfold dget_none.
    destruct (dget "reports" d) as [[| | | | |raw| | | |]|] eqn:Ed; cbn -[Nat.ltb]; try done.
    destruct (length raw <? 2)%nat eqn:El; [done|]. destruct (mapM convert_to_int raw) as [ints|] eqn:Em; [|done].
    case_bool_decide as HN; cbn [negb]; [|done].
    destruct (List.filter _ ints) eqn:Ef; [|done]. intros [= <-]. apply missing_none in Ef.
    apply Nat.ltb_ge in El. by exists d, raw.
  - intros (d & raw & -> & Hd & Hl & Hm & HN & HF). unfold dget_none. rewrite Hd. cbn -[Nat.ltb].
    apply Nat.ltb_ge in Hl. rewrite Hl, Hm, bool_decide_eq_true_2 by done. cbn [negb].
    apply missing_none in HF. by rewrite HF.
Qed.

Lemma validate_report_ids_Err reports data e :
  _validate_report_ids reports data = Err e -> exists message, e = invalid_field "reports" message.
Proof.
  unfold _validate_report_ids. intros H.
  repeat (case_match || by (injection H as <-; eexists) || done).
Qed.

Lemma in_any_report ids kg : existsb (fun r => in_report r kg) ids = true <-> exists i, i ∈ ids /\ in_report i kg = true.
Proof.
  rewrite existsb_exists. split; intros (i & Hi & H); exists i; (split; [|done]); by apply list_elem_of_In.
Qed.

(** [C36] Merging reports makes a report of exactly their sources.  The request is
    accepted exactly when it lists two or more distinct identifiers of existing
    reports; then the new report has the sources of the groups of these reports,
    each group once even when several reports share it, and no other report
    changes.  A refused request is a validation error of the field and changes
    nothing. *)
Theorem merge_reports_spec reports report data st :
  match async_merge_reports reports report data st with
  | (reports', st', Ok new) =>
      exists ids, merge_request reports data ids /\ new = report /\ reports' = {[report]} ∪ reports /\
        report_sources report st' =
          source_of st <$> List.filter (fun kg => existsb (fun i => in_report i kg) ids) (groups st) /\
        (forall s, s ∈ report_sources report st' <-> exists i, i ∈ ids /\ s ∈ report_sources i st) /\
        (forall r, r <> report -> report_sources r st' = report_sources r st)
  | (reports', st', Err e) =>
      reports' = reports /\ st' = st /\ (exists message, e = invalid_field "reports" message) /\
        forall ids, ~ merge_request reports data ids
  end.
Proof.
  unfold async_merge_reports. destruct (_validate_report_ids reports data) as [ids|e] eqn:E.
  - exists ids. split; [by apply validate_report_ids_Ok|]. split; [done|]. split; [done|].
    unfold copy_raw_facts_from_reports. rewrite set_report_sources, decide_True by done. split; [done|]. split.
    + intros s. unfold report_sources. setoid_rewrite list_elem_of_fmap.
      setoid_rewrite elem_of_List_filter. setoid_rewrite in_any_report. naive_solver.
    + intros r Hr. by rewrite set_report_sources, decide_False by done.
  - split; [done|]. split; [done|]. split; [by eapply validate_report_ids_Err|].
    intros ids H%validate_report_ids_Ok. congruence.
Qed.

(** ** Properties: the clean-up after an inspection *)

Lemma same_row {A} (l : list (Z * A)) k x y : NoDup l.*1 -> (k, x) ∈ l -> (k, y) ∈ l -> x = y.
Proof.
  induction l as [|[j z] l IH]; cbn; [by intros _ ?%elem_of_nil|]. intros [Hj HN]%NoDup_cons.
  assert (forall u, (j, u) ∉ l) as Hu by (intros u Hin; apply Hj, list_elem_of_fmap; by exists (j, u)).
  rewrite !elem_of_cons. intros [Hx|Hx] [Hy|Hy]; simplify_eq; try done; [by edestruct Hu..|by apply IH].
Qed.

(** The results of a task grow with the results added to its groups. *)
Definition in_groups (tid : Z) (tb : store) (g : Z) : Prop :=
  g ∈ (List.filter (in_task tid) (groups tb)).*1.

#[export] Instance in_groups_dec tid tb g : Decision (in_groups tid tb g).
Proof. unfold in_groups. apply _. Defined.

Lemma task_results_add tid r tb :
  (task_results tid (add_result r tb)).*2 =
  ((task_results tid tb).*2 ++ if bool_decide (in_groups tid tb (result_group r)) then [r] else [])%list.
Proof.
  unfold task_results, add_result, in_groups. cbn. rewrite List.filter_app, fmap_app. f_equal. cbn.
  by destruct (bool_decide _).
Qed.

Lemma task_results_group tid gr tb : wf_store tb ->
  task_results tid (add_group gr tb).2 = task_results tid tb.
Proof.
  intros [_ Hr _ _]. unfold task_results. cbn. apply filter_ext_in. intros kr Hin. apply bool_decide_ext.
  rewrite List.filter_app, fmap_app, elem_of_app. split; [|by left]. intros [H|H]; [done|]. exfalso. cbn in H.
  pose proof (proj1 (Forall_forall _ _) Hr kr Hin) as [_ Hlt]. cbn in Hlt.
  destruct (in_task tid _); cbn in H; [apply list_elem_of_singleton in H; lia | by apply elem_of_nil in H].
Qed.

Lemma in_groups_own tid o g gr tb : wf_store tb -> (g, gr) ∈ groups tb -> group_tasks gr = [tid] ->
  in_groups o tb g <-> o = tid.
Proof.
  intros W Hin Ht. unfold in_groups. rewrite list_elem_of_fmap. setoid_rewrite elem_of_List_filter. unfold in_task.
  setoid_rewrite bool_decide_eq_true. split.
  - intros ([g' gr'] & Hg & Hin' & Ho). cbn in *. subst g'.
    rewrite (same_row _ g gr' gr (wf_group_keys _ W) Hin' Hin), Ht in Ho. by apply list_elem_of_singleton in Ho.
  - intros ->. exists (g, gr). split; [done|]. split; [done|]. cbn. rewrite Ht. by left.
Qed.

Lemma filter_keys {A} (p : Z * A -> bool) (l m : list (Z * A)) : NoDup l.*1 -> (forall kx, kx ∈ m -> kx ∈ l) ->
  List.filter (fun kx => negb (bool_decide (kx.1 ∈ (List.filter p m).*1))) l
  = List.filter (fun kx => negb (p kx && existsb (fun ky => ky.1 =? kx.1) m)) l.
Proof.
  intros HN Hm. apply filter_ext_in. intros [k x] Hin. f_equal. apply Bool.eq_iff_eq_true.
  rewrite bool_decide_eq_true, andb_true_iff, existsb_exists, list_elem_of_fmap. cbn. split.
  - intros ([k' x'] & Hk & [Hin' Hp]%elem_of_List_filter). cbn in Hk. subst k'.
    rewrite <-(same_row l k x' x HN) by auto. split; [done|]. exists (k, x').
    split; [by apply list_elem_of_In | apply Z.eqb_refl].
  - intros [Hp ([k' x'] & Hin'%list_elem_of_In & Hk%Z.eqb_eq)]. cbn in Hk. subst k'. exists (k, x). split; [done|].
    apply elem_of_List_filter. split; [|done]. by rewrite <-(same_row l k x' x HN) by auto.
Qed.

Definition of_task (task : Z) (st : store) (kr : Z * inspect_result) : bool :=
  bool_decide (result_group kr.2 ∈ (List.filter (in_task task) (groups st)).*1).

Lemma cleanup_results identity_key task st : wf_store st ->
  cleanup_facts identity_key task INSPECT st =
  mkstore (groups st) (List.filter (fun kr => negb (of_task task st kr && negb (has_identity identity_key kr.2))) (results st))
          (next_id st).
Proof.
  intros W. unfold cleanup_facts. rewrite decide_False by (intros H; by apply H).
  set (invalid := List.filter _ (task_results task st)).
  assert (Hdel : List.filter (fun kr => negb (bool_decide (kr.1 ∈ invalid.*1))) (results st)
    = List.filter (fun kr => negb (of_task task st kr && negb (has_identity identity_key kr.2))) (results st)).
  { unfold invalid, task_results. rewrite filter_filter. rewrite filter_keys by (apply W || done).
    apply filter_ext_in. intros kr Hin. apply f_equal, Bool.eq_iff_eq_true.
    rewrite andb_true_iff, existsb_exists. split; [by intros [? _] | intros ?]. split; [done|]. exists kr. split; [by apply list_elem_of_In | apply Z.eqb_refl]. }
  rewrite <-Hdel. destruct invalid; [|done]. cbn. rewrite List_filter_all by done. by destruct st.
Qed.

Lemma cleanup_task_results identity_key task st : wf_store st ->
  task_results task (cleanup_facts identity_key task INSPECT st)
  = List.filter (fun kr => has_identity identity_key kr.2) (task_results task st).
Proof.
  intros W. rewrite cleanup_results by done. unfold task_results. cbn. rewrite !filter_filter.
  apply filter_ext_in. intros kr _. unfold of_task.
  by destruct (bool_decide _), (has_identity identity_key kr.2).
Qed.

Lemma cleanup_wf identity_key task ty st : wf_store st -> wf_store (cleanup_facts identity_key task ty st).
Proof.
  intros W. destruct ty; [rewrite cleanup_results by done; by apply filter_results_wf|].
  unfold cleanup_facts. by rewrite decide_True.
Qed.

Lemma cleanup_groups identity_key task ty st : groups (cleanup_facts identity_key task ty st) = groups st.
Proof. unfold cleanup_facts. case_decide; [done|]. by case_match. Qed.

Lemma has_identity_value identity_key r : has_identity identity_key r = true ->
  exists v, dget identity_key (facts r) = Some v /\ v <> VNone /\ v <> VStr "" /\ v <> VDict [].
Proof.
  unfold has_identity. destruct (dget identity_key (facts r)) as [v|]; [|done]. intros H. exists v.
  split; [done|]. repeat split; by intros ->.
Qed.

(** The clean-up of an inspection removes exactly the task's results that do not
    name a system: those without the identity fact, or with [null] or an empty
    value.  Then every fact dict of the task has it, the results of other tasks
    and all groups stay, cleaning up again changes nothing, and for a task that is
    not an inspection nothing happens. *)
Theorem cleanup_facts_spec identity_key task st : wf_store st ->
  let st' := cleanup_facts identity_key task INSPECT st in
  groups st' = groups st /\
  task_results task st' = List.filter (fun kr => has_identity identity_key kr.2) (task_results task st) /\
  (forall kr, kr ∈ results st' <-> kr ∈ results st /\
     (has_identity identity_key kr.2 = true \/ kr ∉ task_results task st)) /\
  (forall d, d ∈ get_facts task INSPECT st' -> exists v, dget identity_key d = Some v /\
     v <> VNone /\ v <> VStr "" /\ v <> VDict []) /\
  cleanup_facts identity_key task INSPECT st' = st' /\
  wf_store st' /\
  cleanup_facts identity_key task FINGERPRINT st = st.
Proof.
  intros W. cbn zeta. pose proof (cleanup_task_results identity_key task st W) as Htask.
  pose proof (cleanup_wf identity_key task INSPECT st W) as W'.
  split; [apply cleanup_groups|]. split; [done|]. split; [|split; [|split; [|done]]].
  - intros kr. rewrite cleanup_results by done. cbn. unfold task_results, of_task. rewrite !elem_of_List_filter.
    assert (forall b c, negb (b && negb c) = true <-> c = true \/ ~ b = true) as -> by (intros [] []; cbn; intuition congruence).
    tauto.
  - intros d. unfold get_facts. rewrite decide_True by done. rewrite Htask.
    intros (kr & -> & [_ Hid]%elem_of_List_filter)%list_elem_of_fmap. by apply has_identity_value.
  - rewrite (cleanup_results _ _ _ W'), (cleanup_results _ _ _ W). cbn. f_equal. rewrite filter_filter.
    apply filter_ext_in. intros kr _. unfold of_task. cbn. apply Bool.andb_diag.
Qed.

(** ** Concrete runs *)

Definition demo_group (name : string) (reports : list Z) : inspect_group :=
  mkgroup (VStr "network") (VStr name) (VStr "id") (VStr "1.0") None [7] reports.
Definition demo_store : store :=
  mkstore [(1, demo_group "a" [5]); (2, demo_group "b" [5; 6])]
          [(3, mkresult "h" SUCCESS 1 [("connection_host", VStr "h")]);
           (4, mkresult "i" FAILED 1 [("connection_host", VStr "")])] 9.

Lemma demo_store_wf : wf_store demo_store.
Proof.
  split.
  - repeat constructor.
  - repeat constructor; cbn; lia.
  - cbn. apply NoDup_ListNoDup. repeat constructor; cbn; lia.
  - cbn. apply NoDup_ListNoDup. repeat constructor; cbn; lia.
Defined.

Definition demo_upload : list pydict :=
  [[("server_id", VStr "s"); ("report_version", VStr "1.0.0+x"); ("source_name", VStr "up"); ("source_type", VStr "network");
    ("facts", VList [VDict [("uname", VStr "x")]; VDict []])]].

(** The host without facts is lost. *)
Lemma ingest_roundtrip_witness : wf_store demo_store /\ Forall valid_source demo_upload /\
  (exists st', ingest_sources 8 demo_upload demo_store = Ok st' /\
    report_sources 8 st' = uploaded <$> demo_upload /\
    (forall r, r <> 8 -> report_sources r st' = report_sources r demo_store) /\ wf_store st') /\
  (dget "facts" <$> (uploaded <$> demo_upload)) = [Some (VList [VDict [("uname", VStr "x")]])].
Proof.
  assert (Forall valid_source demo_upload) as V.
  { apply Forall_singleton. split.
    - intros k. rewrite !elem_of_cons, elem_of_nil. intros [->|[->|[->|[->|[]]]]]; by_compute.
    - by exists [[("uname", VStr "x")]; []]. }
  split; [exact demo_store_wf|]. split; [exact V|]. split; [|reflexivity].
  exact (ingest_roundtrip 8 demo_upload demo_store demo_store_wf V).
Defined.

(** The group of source [b] has no results. *)
Lemma empty_source_fails_witness : (2, demo_group "b" [5; 6]) ∈ groups demo_store /\
  exists e, _process_sources (fun _ => "u") (report_sources 5 demo_store) = Err e.
Proof.
  assert ((2, demo_group "b" [5; 6]) ∈ groups demo_store) as Hin by (right; left).
  split; [exact Hin|].
  exact (empty_source_fails (fun _ => "u") 5 demo_store 2 (demo_group "b" [5; 6]) Hin eq_refl (Forall_nil_2 _)).
Defined.

Lemma cleanup_facts_spec_witness : wf_store demo_store /\
  let st' := cleanup_facts "connection_host" 7 INSPECT demo_store in
  (results st').*1 = [3] /\ groups st' = groups demo_store.
Proof.
  split; [exact demo_store_wf|]. split; [reflexivity|].
  exact (proj1 (cleanup_facts_spec "connection_host" 7 demo_store demo_store_wf)).
Defined.

(** The group that both reports have is taken once. *)
Example merged_report :
  let '(_, st', r) := async_merge_reports {[5; 6]} 8 (VDict [("reports", VList [VInt 5; VInt 6])]) demo_store in
  (dget "source_name" <$> report_sources 8 st', r) = ([Some (VStr "a"); Some (VStr "b")], Ok 8).
Proof. vm_compute. reflexivity. Qed.
