(* ===== verification/NetworkInspect.v ===== *)
(** Network inspection: [InspectTaskRunner] of [scanner/network/inspect.py].

    [execute_task] connects ([NetworkConnect]), then [inspect] runs Ansible on the
    hosts that answered, group by group ([NetworkUtils.construct_inventory]), turns
    the events into results ([InspectCallback]), processes the facts
    ([Processing]) and stores them ([RawFacts]), counting each result in the task
    ([ScanModel.Task]).

    A run of Ansible is external, as in [NetworkConnect]: [ansible] gives its
    events and final status for an inventory, extra variables, a time limit and a
    command line.  The groups, results and raw facts are the tables of [RawFacts];
    jobs and tasks are those of [ScanModel].  The temporary key files
    ([keyfile], by credential), log lines and Ansible's output files are not
    modelled. *)
From stdpp Require Import base gmap sets list strings.
From Stdlib Require Import Ascii ZArith Lia.
From S2P Require Import Prelude PyStr PyNum PyVal NetworkUtils InspectCallback Processing Processors.
From S2P Require Import RawFacts Scans ScanModel ScanFlow TaskStats NetworkConnect.

Open Scope string_scope.
Open Scope Z_scope.

Definition DEFAULT_SCAN_DIRS : list string := ["/"; "/opt"; "/app"; "/home"; "/usr"].
Definition NETWORK_SCAN_IDENTITY_KEY : string := "connection_host".

(** What the runner reads of its source. *)
Record scan_source := mkscansource {
  src_id : Z;
  src_type : string;
  src_name : string;
  port : pyval;
  use_paramiko : pyval }.

(** Django settings and the identity of the server. *)
Record environment := mkenvironment {
  NETWORK_INSPECT_JOB_TIMEOUT : Z;
  SSH_INSPECT_TIMEOUT : pyval;
  ENCRYPTION_SECRET_KEY_PATH : string;
  EXCLUDE_INTERNAL_FACTS : bool;
  REPORT_SKIPPED_TASKS : bool;
  env_fact_names : list string;
  get_server_id : string;
  env_server_version : string }.

(** The task object, the tables, the cached property [_inspect_group] and the file
    of skipped tasks. *)
Record state := mkstate {
  i_task : task;
  i_db : db;
  tables : RawFacts.store;
  group_cache : option Z;
  skipped_file : option string }.

Definition set_tables (f : RawFacts.store -> RawFacts.store) (st : state) : state :=
  mkstate (i_task st) (i_db st) (f (tables st)) (group_cache st) (skipped_file st).
Definition set_task (t : task) (d : db) (st : state) : state :=
  mkstate t d (tables st) (group_cache st) (skipped_file st).

Definition raw_type (ty : scan_type) : task_type :=
  match ty with ScanModel.INSPECT => RawFacts.INSPECT | ScanModel.FINGERPRINT => RawFacts.FINGERPRINT end.

Definition status_row (s : host_status) : result_status :=
  match s with
  | InspectCallback.SUCCESS => RawFacts.SUCCESS
  | InspectCallback.UNREACHABLE => RawFacts.UNREACHABLE
  | InspectCallback.FAILED => RawFacts.FAILED
  end.

Section runner.
Context (decrypt : pyval -> Res pyval) (keyfile : Z -> Res pyval) (str_exn : exn -> string).
Context (credential_of : Z -> option credential).
Context (ansible : pydict -> pydict -> Z -> string -> NetworkConnect.run).
Context (env : environment) (src : scan_source) (scan_of_job : option Scans.scan).

(** ** Storing results *)

(** [_inspect_group], a cached property: the group is made at the first use. *)
Definition _inspect_group (st : state) : Z * state :=
  match group_cache st with
  | Some g => (g, st)
  | None =>
      let '(g, tb) := add_group (RawFacts.mkgroup (VStr (src_type src)) (VStr (src_name src)) (VStr (get_server_id env))
                        (VStr (env_server_version env)) (Some (src_id src)) [t_id (i_task st)] []) (tables st) in
      (g, mkstate (i_task st) (i_db st) tb (Some g) (skipped_file st))
  end.

(** [_get_scan_task_increment_kwargs]: scanned, failed, unreachable. *)
Definition _get_scan_task_increment_kwargs (result : InspectCallback.host_status) : bool * bool * bool :=
  match result with
  | InspectCallback.SUCCESS => (true, false, false)
  | InspectCallback.FAILED => (false, true, false)
  | InspectCallback.UNREACHABLE => (false, false, true)
  end.

(** [_persist_results], one transaction: an exception undoes its writes, but not the
    cached property. *)
Definition _persist_results (ansible_results : AnsibleResults) (st : state) : state * Res unit :=
  let facts := Processing._post_process_facts PROCESSORS (env_fact_names env) (EXCLUDE_INTERNAL_FACTS env)
                 (ar_facts ansible_results) in
  let '(g, st1) := _inspect_group st in
  let st1 := set_tables (add_result (RawFacts.mkresult (ar_host ansible_results)
               (status_row (ar_status ansible_results)) g facts)) st1 in
  let '(scanned, failed, unreachable) := _get_scan_task_increment_kwargs (ar_status ansible_results) in
  match Task.increment_stats false scanned failed unreachable (i_task st1) (i_db st1) with
  | Ok (self, d) => (set_task self d st1, Ok tt)
  | Err e => (mkstate (i_task st) (i_db st) (tables st) (group_cache st1) (skipped_file st), Err e)
  end.

Fixpoint persist_all (rs : list AnsibleResults) (st : state) : state * Res unit :=
  match rs with
  | [] => (st, Ok tt)
  | r :: rs => match _persist_results r st with
               | (st, Ok _) => persist_all rs st
               | e => e
               end
  end.

(** [set.intersection] needs at least one set; the file is written anew each time. *)
Definition _persist_skipped_tasks (call : callback) (st : state) : state * Res unit :=
  if negb (REPORT_SKIPPED_TASKS env) then (st, Ok tt) else
  match (skipped_facts call).*2 with
  | [] => (st, Err TypeError)
  | s :: ss =>
      let skipped_everywhere := List.filter (fun x => forallb (fun l => bool_decide (x ∈ l)) ss) s in
      (mkstate (i_task st) (i_db st) (tables st) (group_cache st) (Some (str_join newline (str_sorted skipped_everywhere))), Ok tt)
  end.

(** ** Running Ansible *)

(** [scan_job.options.get(Scan.MAX_CONCURRENCY)], an integer column. *)
Definition scan_forks : Res Z :=
  match scan_of_job with
  | Some s => o ← Scans.options s;
              match dget_none Scans.MAX_CONCURRENCY o with VInt n => Ok n | _ => Err Unsupported end
  | None => Ok Scans.DEFAULT_MAX_CONCURRENCY
  end.

Definition scan_extra_vars : Res pydict :=
  match scan_of_job with Some s => Scans.get_extra_vars s | None => Ok Scans.get_default_extra_vars end.

Definition complete_vars (extra_vars : pydict) : pydict :=
  let extra_vars := if is_none (dget_none Scans.EXT_PRODUCT_SEARCH_DIRS extra_vars)
                    then dset Scans.EXT_PRODUCT_SEARCH_DIRS (VStr (str_join " " DEFAULT_SCAN_DIRS)) extra_vars
                    else extra_vars in
  dset "ansible_ssh_timeout" (SSH_INSPECT_TIMEOUT env) extra_vars.

Definition all_commands (forks : Z) : string :=
  str_join " " (["--vault-password-file=" +:+ ENCRYPTION_SECRET_KEY_PATH env; "--forks=" +:+ int_repr forks]
                ++ if truthy (use_paramiko src) then ["--connection=paramiko"] else [])%list.

(** [inventory.get("all").get("children").get(group_name).get("hosts").keys()] *)
Definition number_of_hosts (inventory : pydict) (group_name : string) : Res Z :=
  all ← vget (VDict inventory) "all"; children ← vget all "children"; group ← vget children group_name;
  hosts ← vget group "hosts"; d ← as_dict "keys" hosts; Ok (Z.of_nat (length d)).

(** A run of Ansible: the callback and the final status; an exception of the handler
    ends the run as one of Ansible does. *)
Definition run_playbook (r : NetworkConnect.run) : option (callback * string) :=
  match handle_all (REPORT_SKIPPED_TASKS env) (run_events r), run_status r with
  | Ok call, Some final_status => Some (call, final_status)
  | _, _ => None
  end.

Definition abnormal (final_status : string) : bool :=
  bool_decide (final_status ∉ ["successful"; "unreachable"; "failed"]).

Definition group_outcome (final_status : string) (acc : outcome) : outcome :=
  if abnormal final_status
  then (Some (if bool_decide (final_status = "timeout") then NETWORK_TIMEOUT_ERR else NETWORK_UNKNOWN_ERR), ScanModel.FAILED)
  else acc.

(** The loop over the groups.  A group whose run raised is skipped. *)
Fixpoint inspect_groups (forks : Z) (extra_vars inventory : pydict) (group_names : list string) (acc : outcome)
    (st : state) : state * Res outcome :=
  match group_names with
  | [] => (st, Ok acc)
  | group_name :: group_names =>
      match number_of_hosts inventory group_name with
      | Err e => (st, Err e)
      | Ok n =>
          match run_playbook (ansible inventory (dset "variable_host" (VStr group_name) extra_vars)
                  (NETWORK_INSPECT_JOB_TIMEOUT env * n) (all_commands forks)) with
          | None => inspect_groups forks extra_vars inventory group_names acc st
          | Some (call, final_status) =>
              match persist_all (iter_results call) st with
              | (st, Err e) => (st, Err e)
              | (st, Ok _) =>
                  match _persist_skipped_tasks call st with
                  | (st, Err e) => (st, Err e)
                  | (st, Ok _) =>
                      inspect_groups forks extra_vars inventory group_names (group_outcome final_status acc) st
                  end
              end
          end
      end
  end.

Definition _inspect_scan (connected : list host_entry) (st : state) : state * Res outcome :=
  match (forks ← scan_forks; extra_vars ← scan_extra_vars;
         inv ← construct_inventory decrypt connected (port src) forks None None;
         Ok (forks, complete_vars extra_vars, inv)) with
  | Err e => (st, Err e)
  | Ok (forks, extra_vars, (group_names, inventory)) =>
      inspect_groups forks extra_vars inventory group_names (None, COMPLETED) st
  end.

(** ** [inspect] *)

Definition names_with (s : result_status) (rs : list inspect_result) : list string :=
  result_name <$> List.filter (fun r => bool_decide (result_status_of r = s)) rs.

(** [_obtain_discovery_data], of the connection results: connected, completed,
    failed, unreachable. *)
Definition connected_of (systems : list conn_result) : list (string * option Z) :=
  (fun r => (r_name r, r_credential r)) <$> filter (fun r => r_status r = NetworkConnect.SUCCESS) systems.

Definition _obtain_discovery_data (systems : list conn_result) (st : state) :
    list (string * option Z) * list string * list string * list string :=
  let rs := (task_results (t_id (i_task st)) (tables st)).*2 in
  (connected_of systems, names_with RawFacts.SUCCESS rs, names_with RawFacts.FAILED rs, names_with RawFacts.UNREACHABLE rs).

Definition format_host (hc : string * option Z) : Res host_entry :=
  match hc.2 ≫= credential_of with
  | None => Err (AttributeError "_meta")
  | Some c => path ← keyfile (cred_id c); Ok (HostCredential hc.1 (dset "generated_ssh_keyfile" path (cred_data c)))
  end.

Definition add_unreachable (host : string) (st : state) : state :=
  let '(g, st) := _inspect_group st in
  set_tables (add_result (RawFacts.mkresult host RawFacts.UNREACHABLE g [])) st.

(** [_add_unreachable_hosts]: the order of the set is that of the hosts here. *)
Definition _add_unreachable_hosts (systems : list conn_result) (systems_list : list pydict) (st : state) : state * Res unit :=
  let connected_hosts := dedup (connected_of systems).*1 in
  let scanned := dget_none NETWORK_SCAN_IDENTITY_KEY <$> systems_list in
  if negb (forallb hashable scanned) then (st, Err TypeError) else
  let unreachable_hosts := List.filter (fun h => negb (py_in (VStr h) scanned)) connected_hosts in
  (foldl (fun st h => add_unreachable h st) st unreachable_hosts, Ok tt).

Definition no_hosts : exn :=
  ScanFailureError "Scan task encountered error: Scan task failed.  Error: Inventory provided no reachable hosts.".
Definition no_facts : exn :=
  ScanFailureError "SystemFacts set is empty. No results will be reported to fact endpoint.".

Definition caught (e : exn) : bool :=
  is_runner_exception e || match e with AssertionError _ => true | _ => false end.

(** The body of the [try]; [ScannerError] is turned into [ScanFailureError] at once. *)
Definition inspect_body (systems : list conn_result) (st : state) : state * Res outcome :=
  let '(connected, completed, failed, unreachable) := _obtain_discovery_data systems st in
  let processed_hosts := (failed ++ completed)%list in
  if (length connected + length processed_hosts =? 0)%nat then (st, Err no_hosts) else
  match Task.update_stats (Some (Z.of_nat (length connected))) (Some (Z.of_nat (length completed)))
          (Some (Z.of_nat (length failed))) (Some (Z.of_nat (length unreachable))) (i_task st) (i_db st) with
  | Err e => (st, Err e)
  | Ok (self, d) =>
      let st := set_task self d st in
      let remaining := filter (fun hc => hc.1 ∉ processed_hosts) connected in
      match mapM format_host remaining with
      | Err e => (st, Err e)
      | Ok formatted_hosts =>
          match _inspect_scan formatted_hosts st with
          | (st, Err e) => (st, Err e)
          | (st, Ok scan) =>
              let ty := raw_type (t_scan_type (i_task st)) in
              let st := set_tables (cleanup_facts NETWORK_SCAN_IDENTITY_KEY (t_id (i_task st)) ty) st in
              let temp_facts := get_facts (t_id (i_task st)) ty (tables st) in
              match _add_unreachable_hosts systems temp_facts st with
              | (st, Err e) => (st, Err e)
              | (st, Ok _) => (st, match temp_facts with [] => Err no_facts | _ => Ok scan end)
              end
          end
      end
  end.

Definition systems_failed_message (n : Z) : string := int_repr n +:+ " systems could not be scanned.".

Definition inspect (systems : list conn_result) (st : state) : state * Res outcome :=
  match inspect_body systems st with
  | (st, Err e) => (st, Err (if caught e then ScanFailureError ("Scan task encountered error: " +:+ str_exn e) else e))
  | (st, Ok scan) =>
      let failed := systems_failed (t_stats (i_task st)) in
      (st, Ok (if 0 <? failed then (Some (systems_failed_message failed), COMPLETED) else scan))
  end.

(** ** [execute_task] *)

Section execute.
(** The hosts and credentials of the source, as [ConnectResultStore] and
    [check_connection] read them. *)
Context (expand : string -> list string) (hosts exclude_hosts : list string) (credentials : list credential).
Context (connect_runs : nat -> NetworkConnect.run) (error_text : string).

Definition check_connection (self : task) (d : db) : Res (NetworkConnect.store * Res outcome) :=
  result_store ← new_store expand hosts exclude_hosts self d;
  forks ← scan_forks;
  Ok (run_with_result_store decrypt connect_runs error_text credentials (port src) forks 0 result_store).

Definition execute_task (tb : RawFacts.store) (self : task) (d : db) : state * Res outcome :=
  let st := mkstate self d tb None None in
  match check_connection self d with
  | Err e => (st, Err e)
  | Ok (conn, Err e) => (set_task (NetworkConnect.scan_task conn) (database conn) st, Err e)
  | Ok (conn, Ok (message, status)) =>
      let st := set_task (NetworkConnect.scan_task conn) (database conn) st in
      if bool_decide (status <> COMPLETED) then (st, Ok (message, status))
      else inspect (systems conn) st
  end.

(** As a runner of [ScanFlow]; [None] and the empty message are treated alike by
    its caller. *)
Definition network_executor (tb : RawFacts.store) : executor := fun t _ d =>
  let '(st, r) := execute_task tb t d in
  (i_task st, i_db st, (fun o : outcome => (default "" o.1, St o.2)) <$> r).
End execute.
End runner.

(** ** Lemmas: only the statistics of the task change *)

(** The connection phase changes its store only by recording results. *)
Section connection.
Context (P : NetworkConnect.store -> Prop).
Context (HP : forall name cred status st, P st -> P (record_result name cred status st).1).

Lemma keeps_act {A} (r : Res A) f st : P st -> (forall a, P (f a st).1) -> P (act r f st).1.
Proof. intros H Hf. unfold act. by destruct r. Qed.

Lemma keeps_event cred ev st : P st -> P (event_callback cred ev st).1.
Proof.
  intros H. assert (P (_event_callback cred ev st).1) as HE.
  { unfold _event_callback, NetworkConnect.task_on_ok, NetworkConnect.task_on_unreachable, NetworkConnect.task_on_failed.
    repeat first [apply keeps_act; [done | intros ?] | by apply HP | done | case_goal; subst]. }
  unfold event_callback. destruct (_event_callback _ _ _) as [st' [a|e]]; done.
Qed.

Lemma keeps_events cred evs st : P st -> P (handle_events cred evs st).1.
Proof.
  revert st. induction evs as [|ev evs IH]; intros st H; [done|]. cbn. pose proof (keeps_event cred ev st H) as HE.
  destruct (event_callback cred ev st) as [st' [a|e]]; [by apply IH | done].
Qed.

Lemma keeps_group cred r st : P st -> P (run_group cred r st).1.
Proof.
  intros H. unfold run_group. pose proof (keeps_events cred (run_events r) st H) as HE.
  by destruct (handle_events _ _ _) as [st' [a|e]].
Qed.

Lemma keeps_groups runs cred groups any n st : P st -> P (connect_groups runs cred groups any n st).1.2.
Proof.
  revert any n st. induction groups as [|g groups IH]; intros any n st H; [done|]. cbn [connect_groups].
  pose proof (keeps_group cred (runs n) st H) as HG. destruct (run_group cred (runs n) st) as [st1 [fs|e]]; [|done].
  repeat case_match; try done. by apply IH.
Qed.

Lemma keeps_fail hosts st : P st -> P (fail_remaining hosts st).1.
Proof.
  revert st. induction hosts as [|h hosts IH]; intros st H; [done|]. cbn [fail_remaining].
  pose proof (HP h None CONN_FAILED st H) as HE. destruct (record_result _ _ _ _) as [st' [a|e]]; [by apply IH | done].
Qed.

Lemma keeps_connect decrypt runs error_text credentials port forks n st :
  P st -> P (run_with_result_store decrypt runs error_text credentials port forks n st).1.
Proof.
  assert (forall st, P st -> P (finish_run st).1) as Hfinish.
  { intros st1 H. unfold finish_run. pose proof (keeps_fail (NetworkConnect.remaining st1) st1 H) as HE.
    by destruct (fail_remaining _ _) as [st' [a|e]]. }
  revert n st. induction credentials as [|c credentials IH]; intros n st H; [by apply Hfinish|]. cbn [run_with_result_store].
  destruct (NetworkConnect.remaining st) as [|h hosts]; [by apply Hfinish|].
  assert (P (_connect decrypt runs (h :: hosts) c port forks n st).1.2) as HC.
  { unfold _connect. destruct (construct_inventory _ _ _ _ _ _) as [[names inv]|e]; [by apply keeps_groups | done]. }
  destruct (_connect _ _ _ _ _ _ _ _) as [[n' st'] [[message result]|e]]; cbn in HC; [|by destruct (is_runner_exception e)].
  case_bool_decide; [by apply IH | done].
Qed.
End connection.

(** ** Lemmas: results are only added, to a group of the task's own *)

Definition results_of_task (tid : Z) (st : state) : list inspect_result := (task_results tid (tables st)).*2.

(** The tables are well formed and the group made for the task is the task's. *)
Record own_group (tid : Z) (st : state) : Prop := {
  og_wf : wf_store (tables st);
  og_task : t_id (i_task st) = tid;
  og_group : forall g, group_cache st = Some g ->
    exists gr, (g, gr) ∈ RawFacts.groups (tables st) /\ group_tasks gr = [tid] }.

(** [st'] is [st] with more results of the task, given as functions of its group. *)
Record extends (tid : Z) (st st' : state) (fs : list (Z -> inspect_result)) : Prop := {
  ex_results : results_of_task tid st' = (results_of_task tid st ++ ((fun f => f (default 0 (group_cache st'))) <$> fs))%list;
  ex_cache : forall g, group_cache st = Some g -> group_cache st' = Some g;
  ex_made : fs <> [] -> is_Some (group_cache st');
  ex_others : forall o, o <> tid -> results_of_task o st' = results_of_task o st }.

Lemma extends_refl tid st st' : tables st' = tables st -> group_cache st' = group_cache st -> extends tid st st' [].
Proof. intros Ht Hg. unfold results_of_task. split; unfold results_of_task; rewrite ?Ht, ?Hg; cbn; rewrite ?app_nil_r; done. Qed.

Lemma extends_trans tid st1 st2 st3 fs gs :
  extends tid st1 st2 fs -> extends tid st2 st3 gs -> extends tid st1 st3 (fs ++ gs).
Proof.
  intros [R1 C1 M1 O1] [R2 C2 M2 O2]. split.
  - rewrite R2, R1, fmap_app, <-app_assoc. do 2 f_equal. destruct fs as [|f fs]; [done|].
    destruct M1 as [g Hg]; [done|]. by rewrite (C2 g Hg), Hg.
  - auto.
  - destruct fs as [|f fs]; [auto|]. intros _. destruct M1 as [g Hg]; [done|]. exists g. auto.
  - intros o Ho. rewrite O2, O1; auto.
Qed.

Section results.
Context (decrypt : pyval -> Res pyval) (keyfile : Z -> Res pyval) (str_exn : exn -> string).
Context (credential_of : Z -> option credential).
Context (ansible : pydict -> pydict -> Z -> string -> NetworkConnect.run).
Context (env : environment) (src : scan_source) (scan_of_job : option Scans.scan).

(** The group of the task, made or not. *)
Lemma inspect_group_own tid st : own_group tid st ->
  let '(g, st') := _inspect_group env src st in
  own_group tid st' /\ extends tid st st' [] /\ group_cache st' = Some g /\
  i_task st' = i_task st /\ i_db st' = i_db st /\ skipped_file st' = skipped_file st.
Proof.
  intros [W Ht Hg]. unfold _inspect_group. destruct (group_cache st) as [g|] eqn:Ec.
  { split; [by split; rewrite ?Ec|]. split; [by apply extends_refl | done]. }
  cbn [add_group]. set (gr := RawFacts.mkgroup _ _ _ _ _ _ _).
  pose proof (add_group_wf gr (tables st) W) as W'.
  split; [|split; [|done]].
  - split; cbn; [exact W' | done |]. intros g [= <-]. exists gr. split; [|by rewrite <-Ht].
    apply elem_of_app. right. by left.
  - split; cbn; rewrite ?app_nil_r; [| by rewrite Ec | done |];
      intros; unfold results_of_task; cbn; f_equal; by apply (task_results_group _ gr).
Qed.

(** A result stored in the group of the task. *)
Lemma store_row_own tid st (f : Z -> inspect_result) : own_group tid st -> (forall g, result_group (f g) = g) ->
  let '(g, st1) := _inspect_group env src st in
  let st' := set_tables (add_result (f g)) st1 in
  own_group tid st' /\ extends tid st st' [f].
Proof.
  intros O Hf. pose proof (inspect_group_own tid st O) as H. destruct (_inspect_group env src st) as [g st1].
  destruct H as (O1 & E1 & Hc & _). destruct O1 as [W Ht Hg]. destruct (Hg g Hc) as (gr & Hin & Htk). cbn zeta.
  pose proof (proj1 (Forall_forall _ _) (wf_groups _ W) _ Hin) as Hlt. cbn in Hlt.
  split.
  - split; cbn; [by apply add_result_wf; [rewrite Hf|] | done | done].
  - change [f] with ([] ++ [f])%list. eapply extends_trans; [exact E1|].
    split; cbn [group_cache set_tables]; [| done | by rewrite Hc |];
      intros; unfold results_of_task; cbn [tables set_tables]; rewrite task_results_add, Hf.
    + rewrite bool_decide_eq_true_2 by (by eapply (in_groups_own tid)). by rewrite Hc.
    + rewrite bool_decide_eq_false_2, app_nil_r; [done|]. intros E. by eapply (in_groups_own tid) in E.
Qed.

(** ** Lemmas: every result is counted *)

Definition count_results (s : result_status) (rs : list inspect_result) : Z :=
  Z.of_nat (length (names_with s rs)).

(** The counters of the task, in memory and in its row, are those of its results. *)
Record counted (tid n : Z) (st : state) : Prop := {
  co_own : own_group tid st;
  co_row : tasks (i_db st) !! tid = Some (i_task st);
  co_stats : t_stats (i_task st) =
    let rs := results_of_task tid st in
    mkstats n (count_results RawFacts.SUCCESS rs) (count_results RawFacts.FAILED rs) (count_results RawFacts.UNREACHABLE rs) }.

Lemma count_results_snoc s rs r :
  count_results s (rs ++ [r])%list = Task.bump (bool_decide (result_status_of r = s)) (count_results s rs).
Proof.
  unfold count_results, names_with. rewrite List.filter_app, fmap_app, length_app. cbn.
  destruct (bool_decide _); cbn; lia.
Qed.

(** What is stored of the results of a run. *)
Definition row_of (r : AnsibleResults) (g : Z) : inspect_result :=
  RawFacts.mkresult (ar_host r) (status_row (ar_status r)) g
    (Processing._post_process_facts PROCESSORS (env_fact_names env) (EXCLUDE_INTERNAL_FACTS env) (ar_facts r)).

Lemma persist_counted tid n r st : counted tid n st -> exists st',
  _persist_results env src r st = (st', Ok tt) /\ counted tid n st' /\ extends tid st st' [row_of r] /\
  skipped_file st' = skipped_file st.
Proof.
  intros [O R S]. unfold _persist_results.
  pose proof (store_row_own tid st (row_of r) O ltac:(done)) as Hs.
  pose proof (inspect_group_own tid st O) as Hg.
  destruct (_inspect_group env src st) as [g st1]. destruct Hg as (_ & _ & _ & Ei & Ed & Ek).
  cbn zeta in Hs. destruct Hs as [O2 E2]. change (RawFacts.mkresult (ar_host r) _ _ _) with (row_of r g).
  set (st2 := set_tables (add_result (row_of r g)) st1) in *.
  assert (i_task st2 = i_task st) as Ei2 by done. assert (i_db st2 = i_db st) as Ed2 by done.
  assert (t_id (i_task st) = tid) as Ht by (by apply O).
  destruct (_get_scan_task_increment_kwargs (ar_status r)) as [[scanned failed] unreachable] eqn:Ek2.
  unfold Task.increment_stats.
  assert (false || scanned || failed || unreachable = true) as -> by (destruct (ar_status r); by injection Ek2 as <- <- <-).
  unfold get_task. cbn. rewrite ?Ei2, ?Ed2, ?Ei, ?Ed, Ht, lookup_alter_eq, R. cbn.
  eexists. split; [done|]. split; [|split; [|done]].
  - destruct O2 as [W2 T2 G2]. split; [by split | cbn; by rewrite lookup_alter_eq, R |].
    match goal with |- context [results_of_task tid ?s] =>
      replace (results_of_task tid s) with (results_of_task tid st2) by done end.
    rewrite (ex_results _ _ _ _ E2). cbn zeta. cbn [fmap list_fmap]. rewrite !count_results_snoc, S. cbn.
    unfold row_of. cbn. destruct (ar_status r); injection Ek2 as <- <- <-; done.
  - destruct E2 as [R2 C2 M2 O3]. by split.
Qed.

Lemma persist_all_counted tid n rs st : counted tid n st -> exists st',
  persist_all env src rs st = (st', Ok tt) /\ counted tid n st' /\ extends tid st st' (row_of <$> rs).
Proof.
  revert st. induction rs as [|r rs IH]; intros st C; [exists st; split; [done|]; split; [done|]; by apply extends_refl|].
  cbn [persist_all]. destruct (persist_counted tid n r st C) as (st1 & -> & C1 & E1 & _).
  destruct (IH st1 C1) as (st2 & -> & C2 & E2). exists st2. split; [done|]. split; [done|].
  exact (extends_trans _ _ _ _ _ _ E1 E2).
Qed.

Lemma skipped_tables call st : let st' := (_persist_skipped_tasks env call st).1 in
  i_task st' = i_task st /\ i_db st' = i_db st /\ tables st' = tables st /\ group_cache st' = group_cache st.
Proof. unfold _persist_skipped_tasks. destruct (negb _); [done|]. by destruct (skipped_facts call).*2. Qed.

Lemma skipped_counted tid n call st : counted tid n st ->
  counted tid n (_persist_skipped_tasks env call st).1 /\ extends tid st (_persist_skipped_tasks env call st).1 [].
Proof.
  intros [[W T G] R S]. destruct (skipped_tables call st) as (Hi & Hd & Ht & Hc).
  split; [|by apply extends_refl]. split; unfold results_of_task; rewrite ?Hi, ?Hd, ?Ht; try done.
  split; by rewrite ?Hi, ?Hd, ?Ht, ?Hc.
Qed.

(** The run of a group, when it ended. *)
Definition group_run (forks : Z) (extra_vars inventory : pydict) (group_name : string) : option (callback * string) :=
  match number_of_hosts inventory group_name with
  | Ok n => run_playbook env (ansible inventory (dset "variable_host" (VStr group_name) extra_vars)
                                (NETWORK_INSPECT_JOB_TIMEOUT env * n) (all_commands env src forks))
  | Err _ => None
  end.

Definition outcome_of (runs : list (callback * string)) (acc : outcome) : outcome :=
  foldl (fun acc cs => group_outcome cs.2 acc) acc runs.

Lemma inspect_groups_counted tid n forks vars inventory names acc st st' r :
  counted tid n st -> inspect_groups ansible env src forks vars inventory names acc st = (st', r) ->
  counted tid n st' /\ exists fs, extends tid st st' fs /\
    forall o, r = Ok o -> let runs := omap (group_run forks vars inventory) names in
      fs = row_of <$> (runs ≫= fun cs => iter_results cs.1) /\ o = outcome_of runs acc.
Proof.
  revert acc st. induction names as [|name names IH]; intros acc st C; cbn [inspect_groups].
  { intros [= <- <-]. split; [done|]. exists []. split; [by apply extends_refl | by intros o [= <-]]. }
  cbn [omap list_omap]. destruct (group_run forks vars inventory name) as [p|] eqn:Eg; unfold group_run in Eg;
    (destruct (number_of_hosts inventory name) as [k|e];
      [|first [done | intros [= <- <-]; split; [done|]; exists []; split; [by apply extends_refl | done]]]);
    [|rewrite Eg; intros H; exact (IH _ _ C H)].
  rewrite Eg. destruct p as [call fs].
  destruct (persist_all_counted tid n (iter_results call) st C) as (st1 & -> & C1 & E1).
  destruct (skipped_counted tid n call st1 C1) as [C2 E2].
  pose proof (extends_trans _ _ _ _ _ _ E1 E2) as E. rewrite app_nil_r in E.
  destruct (_persist_skipped_tasks env call st1) as [st2 [a|e]]; cbn [fst] in *.
  2:{ intros [= <- <-]. split; [done|]. eexists. split; [exact E | done]. }
  intros H. destruct (IH _ _ C2 H) as (C3 & gs & E3 & Ho). split; [done|].
  eexists. split; [exact (extends_trans _ _ _ _ _ _ E E3)|]. intros o Hr. destruct (Ho o Hr) as [-> ->].
  cbn. by rewrite fmap_app.
Qed.

Definition marker (host : string) (g : Z) : inspect_result := RawFacts.mkresult host RawFacts.UNREACHABLE g [].

Lemma add_unreachable_own tid h st : own_group tid st ->
  let st' := add_unreachable env src h st in
  own_group tid st' /\ extends tid st st' [marker h] /\ i_task st' = i_task st /\ i_db st' = i_db st.
Proof.
  intros O. unfold add_unreachable. pose proof (store_row_own tid st (marker h) O ltac:(done)) as Hs.
  pose proof (inspect_group_own tid st O) as Hg. destruct (_inspect_group env src st) as [g st1].
  destruct Hg as (_ & _ & _ & Ei & Ed & _). by destruct Hs as [O1 E1].
Qed.

Lemma markers_own tid hosts st : own_group tid st ->
  let st' := foldl (fun st h => add_unreachable env src h st) st hosts in
  own_group tid st' /\ extends tid st st' (marker <$> hosts) /\ i_task st' = i_task st /\ i_db st' = i_db st.
Proof.
  revert st. induction hosts as [|h hosts IH]; intros st O; cbn zeta.
  { split; [done|]. split; [by apply extends_refl | done]. }
  cbn [foldl]. destruct (add_unreachable_own tid h st O) as (O1 & E1 & Ei & Ed). cbn zeta in *.
  destruct (IH _ O1) as (O2 & E2 & Ei2 & Ed2). split; [done|].
  split; [exact (extends_trans _ _ _ _ _ _ E1 E2)|]. by rewrite Ei2, Ed2.
Qed.

(** Setting the four counters. *)
Lemma update_stats_all a b c e self d : tasks d !! t_id self = Some self ->
  exists self' d', Task.update_stats (Some a) (Some b) (Some c) (Some e) self d = Ok (self', d') /\
    t_stats self' = mkstats a b c e /\ tasks d' !! t_id self = Some self' /\
    t_id self' = t_id self /\ t_scan_type self' = t_scan_type self.
Proof.
  intros H. unfold Task.update_stats, get_task. rewrite H. cbn. destruct (_ || _) eqn:E.
  - do 2 eexists. split; [done|]. split; [done|]. split; [cbn; apply lookup_insert_eq | done].
  - do 2 eexists. split; [done|]. rewrite !orb_false_iff, !negb_false_iff, !Z.eqb_eq in E.
    destruct E as [[[-> ->] ->] ->]. split; [by destruct (t_stats self) | done].
Qed.

(** The task as the inspection finds it. *)
Record inspectable (tid : Z) (st : state) : Prop := {
  in_own : own_group tid st;
  in_row : tasks (i_db st) !! tid = Some (i_task st);
  in_type : t_scan_type (i_task st) = ScanModel.INSPECT }.

Lemma start_counted tid n st rs : inspectable tid st -> rs = results_of_task tid st -> exists self d,
  Task.update_stats (Some n) (Some (Z.of_nat (length (names_with RawFacts.SUCCESS rs))))
    (Some (Z.of_nat (length (names_with RawFacts.FAILED rs)))) (Some (Z.of_nat (length (names_with RawFacts.UNREACHABLE rs))))
    (i_task st) (i_db st) = Ok (self, d) /\ counted tid n (set_task self d st) /\ t_scan_type self = ScanModel.INSPECT.
Proof.
  intros [[W T G] R Ty] ->. rewrite <-T in R.
  destruct (update_stats_all n (count_results RawFacts.SUCCESS (results_of_task tid st))
    (count_results RawFacts.FAILED (results_of_task tid st)) (count_results RawFacts.UNREACHABLE (results_of_task tid st)) _ _ R)
    as (self & d & E & S & R' & I & Ty').
  exists self, d. split; [exact E|]. split; [|by rewrite Ty'].
  split; [split; cbn; [done | by rewrite I | done] | cbn; by rewrite <-T | exact S].
Qed.

(** A successful inspection of the groups. *)
Lemma inspect_scan_counted tid n connected st st' r : counted tid n st ->
  _inspect_scan decrypt ansible env src scan_of_job connected st = (st', r) ->
  counted tid n st' /\ exists fs, extends tid st st' fs /\
    forall o, r = Ok o -> exists forks vars names inventory,
      scan_forks scan_of_job = Ok forks /\ scan_extra_vars scan_of_job = Ok vars /\
      construct_inventory decrypt connected (port src) forks None None = Ok (names, inventory) /\
      let runs := omap (group_run forks (complete_vars env vars) inventory) names in
      fs = row_of <$> (runs ≫= fun cs => iter_results cs.1) /\ o = outcome_of runs (None, COMPLETED).
Proof.
  intros C. unfold _inspect_scan.
  destruct (forks ← scan_forks scan_of_job; _) as [[[forks vars] [names inv]]|e] eqn:E.
  - apply bind_Ok in E as (forks' & Ef & E). apply bind_Ok in E as (vars' & Ev & E).
    apply bind_Ok in E as (inv' & Ei & E). injection E as <- <- ->. intros H.
    destruct (inspect_groups_counted _ _ _ _ _ _ _ _ _ _ C H) as (C' & fs & Ex & Ho). split; [done|].
    exists fs. split; [done|]. intros o Hr. exists forks', vars', names, inv. auto.
  - intros [= <- <-]. split; [done|]. exists []. split; [by apply extends_refl | done].
Qed.

(** The object keeps its identity and type. *)
Lemma scan_keeps t0 d0 connected st : stats_only t0 d0 (i_task st) (i_db st) ->
  let st' := (_inspect_scan decrypt ansible env src scan_of_job connected st).1 in stats_only t0 d0 (i_task st') (i_db st').
Proof.
  intros H. unfold _inspect_scan. destruct (forks ← _; _) as [[[forks vars] [names inv]]|e]; [|done].
  generalize (None : option string, COMPLETED) as acc. revert st H.
  induction names as [|name names IH]; intros st H acc; [done|]. cbn [inspect_groups].
  destruct (number_of_hosts inv name) as [k|e]; [|done]. destruct (run_playbook _ _) as [[call fs]|]; [|by apply IH].
  assert (forall rs st, stats_only t0 d0 (i_task st) (i_db st) ->
    let st' := (persist_all env src rs st).1 in stats_only t0 d0 (i_task st') (i_db st')) as HP.
  { clear. induction rs as [|r rs IH]; intros st H; [done|]. cbn [persist_all].
    enough (let st' := (_persist_results env src r st).1 in stats_only t0 d0 (i_task st') (i_db st')) as HE.
    { destruct (_persist_results env src r st) as [st' [a|e]]; [by apply IH | done]. }
    unfold _persist_results.
    assert (let st1 := (_inspect_group env src st).2 in i_task st1 = i_task st /\ i_db st1 = i_db st) as [Hi Hd]
      by (unfold _inspect_group; by destruct (group_cache st)).
    destruct (_inspect_group env src st) as [g st1]. cbn in Hi, Hd.
    destruct (_get_scan_task_increment_kwargs _) as [[a b] c]. cbn [i_task i_db set_tables]. rewrite Hi, Hd.
    by destruct (stats_only_increment t0 d0 false a b c _ _ H) as (self' & d' & -> & H'). }
  specialize (HP (iter_results call) st H). destruct (persist_all _ _ _ st) as [st1 [a|e]]; [|done].
  destruct (skipped_tables call st1) as (Hi & Hd & _). cbn in HP.
  destruct (_persist_skipped_tasks env call st1) as [st2 [b|e]]; cbn in Hi, Hd |- *; rewrite <-Hi, <-Hd in HP; [|done].
  by apply IH.
Qed.

Lemma markers_task hosts st :
  let st' := foldl (fun st h => add_unreachable env src h st) st hosts in i_task st' = i_task st /\ i_db st' = i_db st.
Proof.
  revert st. induction hosts as [|h hosts IH]; intros st; [done|]. cbn [foldl].
  destruct (IH (add_unreachable env src h st)) as [-> ->].
  unfold add_unreachable, _inspect_group. by destruct (group_cache st).
Qed.

Lemma inspect_keeps t0 d0 systems st : stats_only t0 d0 (i_task st) (i_db st) ->
  let st' := (inspect decrypt keyfile str_exn credential_of ansible env src scan_of_job systems st).1 in
  stats_only t0 d0 (i_task st') (i_db st').
Proof.
  intros H. unfold inspect.
  enough (let st' := (inspect_body decrypt keyfile credential_of ansible env src scan_of_job systems st).1 in
          stats_only t0 d0 (i_task st') (i_db st')) as HE.
  { by destruct (inspect_body _ _ _ _ _ _ _ _ st) as [st' [scan|e]]. }
  unfold inspect_body. destruct (_obtain_discovery_data systems st) as [[[connected completed] failed] unreachable].
  case_match; [done|]. destruct (Task.update_stats _ _ _ _ _ _) as [[self d]|e] eqn:E; [|done].
  apply (stats_only_update t0 d0) in E; [|done]. destruct (mapM _ _) as [formatted|e]; [|done].
  pose proof (scan_keeps t0 d0 formatted (set_task self d st) E) as HS. cbn zeta in HS.
  destruct (_inspect_scan _ _ _ _ _ _ _) as [st1 [scan|e]]; [|done]. cbn zeta.
  unfold _add_unreachable_hosts. destruct (negb _); [done|].
  match goal with |- context [foldl _ ?s ?l] => destruct (markers_task l s) as [Hi Hd] end.
  cbn [fst]. rewrite Hi, Hd. exact HS.
Qed.
End results.

(** ** Properties *)

(** [C4] Network inspection keeps the contract that the flow of a scan relies on
    ([ScanFlow.TaskRunner]), and more: whatever Ansible, the vault and the
    credentials do, connecting to and inspecting the hosts of a source changes no
    job, no other task, and of its own task only the statistics, also when it fails
    or raises.  With it the theorems on the flow, among them that every started
    scan ends, hold for network scans. *)
Theorem network_runner_contract decrypt keyfile str_exn credential_of ansible env src scan_of_job
    expand hosts exclude_hosts credentials connect_runs error_text tb :
  let e := network_executor decrypt keyfile str_exn credential_of ansible env src scan_of_job
             expand hosts exclude_hosts credentials connect_runs error_text tb in
  TaskRunner e /\ keeps_stats e.
Proof.
  enough (forall t d, tasks d !! t_id t = Some t ->
    let st := (execute_task decrypt keyfile str_exn credential_of ansible env src scan_of_job
                expand hosts exclude_hosts credentials connect_runs error_text tb t d).1 in
    stats_only t d (i_task st) (i_db st)) as H.
  { intros e. enough (keeps_stats e) as He by (split; [by apply stats_only_runner | done]).
    intros t j d t' d' r Ht E. specialize (H t d Ht). unfold e, network_executor in E.
    destruct (execute_task _ _ _ _ _ _ _ _ _ _ _ _ _ _ _ t d) as [st r']. by injection E as <- <- _. }
  intros t d Ht. pose proof (stats_only_start t d Ht) as H0. unfold execute_task.
  destruct (check_connection _ _ _ _ _ _ _ _ _ t d) as [[conn r]|e] eqn:E; [|done].
  assert (stats_only t d (NetworkConnect.scan_task conn) (database conn)) as HC.
  { unfold check_connection in E. apply bind_Ok in E as (rs & Hrs & E). apply bind_Ok in E as (forks & _ & [= E]).
    unfold new_store in Hrs. apply bind_Ok in Hrs as ([self d'] & Hu & [= <-]).
    apply (stats_only_update t d) in Hu; [|done].
    pose proof (keeps_connect (fun st => stats_only t d (NetworkConnect.scan_task st) (database st))) as K.
    lapply K; [clear K; intros K|].
    - match type of E with run_with_result_store _ _ _ _ _ _ _ ?rs = _ =>
        specialize (K decrypt connect_runs error_text credentials (port src) forks 0%nat rs Hu) end.
      by rewrite E in K.
    - clear. intros name cred status st H. unfold record_result.
      destruct (stats_only_increment t d false (is_status status NetworkConnect.SUCCESS) (is_status status CONN_FAILED)
        (is_status status NetworkConnect.UNREACHABLE) _ _ H) as (self' & d' & -> & H').
      case_decide; [done|]. cbn. split; [apply H' | apply H]. }
  destruct r as [[message status]|e]; [|done]. case_bool_decide; [done|]. by apply inspect_keeps.
Qed.

Lemma outcome_of_FAILED runs acc : (acc.2 = COMPLETED \/ acc.2 = ScanModel.FAILED) ->
  ((outcome_of runs acc).2 = COMPLETED \/ (outcome_of runs acc).2 = ScanModel.FAILED) /\
  ((outcome_of runs acc).2 = ScanModel.FAILED <->
     acc.2 = ScanModel.FAILED \/ exists cs, cs ∈ runs /\ abnormal cs.2 = true).
Proof.
  unfold outcome_of. revert acc. induction runs as [|cs runs IH]; intros acc Ha.
  - split; [done|]. cbn. split; [by left|]. intros [H|(cs & H%elem_of_nil & _)]; done.
  - cbn [foldl]. destruct (IH (group_outcome cs.2 acc)) as [H1 H2].
    { unfold group_outcome. destruct (abnormal cs.2); [by right | done]. }
    split; [done|]. rewrite H2. setoid_rewrite elem_of_cons. unfold group_outcome. destruct (abnormal cs.2) eqn:E; cbn.
    + split; [|by left]. intros _. right. exists cs. split; [by left | done].
    + split; [intros [H|(x & H & Hx)] | intros [H|(x & [->|H] & Hx)]]; [by left | | by left | congruence |];
        right; exists x; auto.
Qed.

(** Inspecting the hosts that answered.  The results stored are, in order, those
    of the groups whose run of Ansible ended, each with its processed facts, in one
    group of the task's own; whatever happens, also when the inspection raises
    half-way, the counters of the task are those of its results and no other task's
    results change.  The scan failed exactly when some run ended with an unexpected
    status: not, as a comment in the code has it, when the last one did.  A group
    whose run raised is left out without a trace. *)
Theorem inspect_scan_spec decrypt ansible env src scan_of_job tid n connected st st' r :
  counted tid n st -> _inspect_scan decrypt ansible env src scan_of_job connected st = (st', r) ->
  counted tid n st' /\
  (exists rs, results_of_task tid st' = (results_of_task tid st ++ rs)%list) /\
  (forall o, o <> tid -> results_of_task o st' = results_of_task o st) /\
  forall message status, r = Ok (message, status) -> exists forks vars names inventory g,
    scan_forks scan_of_job = Ok forks /\ scan_extra_vars scan_of_job = Ok vars /\
    construct_inventory decrypt connected (port src) forks None None = Ok (names, inventory) /\
    let runs := omap (group_run ansible env src forks (complete_vars env vars) inventory) names in
    results_of_task tid st' =
      (results_of_task tid st ++ ((fun x => row_of env x g) <$> (runs ≫= fun cs => iter_results cs.1)))%list /\
    (status = COMPLETED \/ status = ScanModel.FAILED) /\
    (status = ScanModel.FAILED <-> exists cs, cs ∈ runs /\ abnormal cs.2 = true).
Proof.
  intros C H. destruct (inspect_scan_counted _ _ _ _ _ _ _ _ _ _ _ C H) as (C' & fs & [R _ _ O] & Ho).
  split; [done|]. split; [by eexists|]. split; [done|]. intros message status Hr.
  destruct (Ho _ Hr) as (forks & vars & names & inventory & Hf & Hv & Hi & Hfs & Hout).
  exists forks, vars, names, inventory, (default 0 (group_cache st')).
  split; [done|]. split; [done|]. split; [done|]. cbn zeta in *. split.
  - rewrite R, Hfs. by rewrite <-list_fmap_compose.
  - destruct (outcome_of_FAILED (omap (group_run ansible env src forks (complete_vars env vars) inventory) names)
      (None, COMPLETED)) as [H1 H2]; [by left|].
    rewrite <-Hout in H1, H2. split; [done|]. rewrite H2. cbn. naive_solver.
Qed.

Lemma scanned_fact h (facts : list pydict) :
  py_in (VStr h) (dget_none NETWORK_SCAN_IDENTITY_KEY <$> facts) = true ->
  exists d, d ∈ facts /\ dget NETWORK_SCAN_IDENTITY_KEY d = Some (VStr h).
Proof.
  unfold py_in. rewrite existsb_exists. intros (v & Hv%list_elem_of_In & He).
  apply list_elem_of_fmap in Hv as (d & -> & Hd). exists d. split; [done|].
  unfold dget_none in He. destruct (dget _ d) as [v|]; [|done].
  change (default VNone (Some v)) with v in He. destruct v; try done. rewrite py_eq_str in He. by apply bool_decide_eq_true in He as ->.
Qed.

(** The results after the body: those that name a system, then the markers. *)
Lemma inspect_body_spec decrypt keyfile credential_of ansible env src scan_of_job tid systems st st' scan :
  inspectable tid st ->
  inspect_body decrypt keyfile credential_of ansible env src scan_of_job systems st = (st', Ok scan) ->
  exists kept hosts, results_of_task tid st' = (kept ++ ((fun h => marker h (default 0 (group_cache st'))) <$> hosts))%list /\
    (forall r, r ∈ kept -> has_identity NETWORK_SCAN_IDENTITY_KEY r = true) /\ kept <> [] /\
    (forall h, h ∈ (connected_of systems).*1 ->
       (exists r, r ∈ kept /\ dget NETWORK_SCAN_IDENTITY_KEY (facts r) = Some (VStr h)) \/ h ∈ hosts) /\
    (forall h, h ∈ hosts -> h ∈ (connected_of systems).*1) /\
    (scan.2 = COMPLETED \/ scan.2 = ScanModel.FAILED).
Proof.
  intros I. unfold inspect_body, _obtain_discovery_data. case_match; [done|].
  set (n := Z.of_nat (length (connected_of systems))).
  destruct (start_counted tid n st _ I eq_refl) as (self & d & Hu & C & Ty).
  unfold results_of_task in Hu. rewrite <-(og_task _ _ (in_own _ _ I)) in Hu. rewrite Hu.
  destruct (mapM _ _) as [formatted|e]; [|done].
  destruct (_inspect_scan _ _ _ _ _ _ _) as [st1 [scan1|e]] eqn:E; [|done].
  destruct (inspect_scan_counted _ _ _ _ _ _ _ _ _ _ _ C E) as (C1 & fs & Ex & Ho).
  assert (scan1.2 = COMPLETED \/ scan1.2 = ScanModel.FAILED) as Hs.
  { destruct (Ho scan1 eq_refl) as (? & ? & ? & ? & _ & _ & _ & _ & ->). apply outcome_of_FAILED. by left. }
  destruct C1 as [[W T G] R _]. assert (t_scan_type (i_task st1) = ScanModel.INSPECT) as Ty1.
  { pose proof (scan_keeps decrypt ansible env src scan_of_job self d formatted (set_task self d st)) as HK.
    rewrite E in HK. cbn zeta in HK. cbn [fst] in HK. destruct HK as [[x ->] _]; [|exact Ty].
    apply stats_only_start. destruct C as [[_ Tc _] Rc _]. cbn in Tc, Rc |- *. by rewrite Tc. }
  cbn zeta. change (i_task (set_tables _ st1)) with (i_task st1). rewrite T, Ty1. cbn [raw_type].
  set (st2 := set_tables _ st1).
  assert (results_of_task tid st2 = List.filter (has_identity NETWORK_SCAN_IDENTITY_KEY) (results_of_task tid st1)) as Hrs.
  { unfold results_of_task. cbn [tables set_tables st2]. rewrite cleanup_task_results by done. by rewrite filter_fmap. }
  assert (own_group tid st2) as O2.
  { split; [by apply cleanup_wf | done |]. cbn. by setoid_rewrite cleanup_groups. }
  assert (get_facts tid RawFacts.INSPECT (tables st2) = facts <$> results_of_task tid st2) as Hfacts
    by (unfold get_facts, results_of_task; rewrite decide_True, <-list_fmap_compose by done; done).
  rewrite Hfacts. unfold _add_unreachable_hosts. destruct (negb _); [done|].
  set (hosts := List.filter _ _).
  assert (forall h, h ∈ hosts <-> h ∈ (connected_of systems).*1 /\
    py_in (VStr h) (dget_none NETWORK_SCAN_IDENTITY_KEY <$> (facts <$> results_of_task tid st2)) = false) as Hhosts.
  { intros h. unfold hosts. by rewrite elem_of_List_filter, elem_of_dedup, negb_true_iff. }
  clearbody hosts. destruct (markers_own env src tid hosts st2 O2) as (_ & [R3 _ _ _] & _).
  cbn zeta in R3. set (st3 := foldl _ st2 hosts) in *.
  destruct (facts <$> results_of_task tid st2) as [|f0 fs0] eqn:Ef; [done|]. intros [= <- <-]. rewrite <-Ef in *.
  exists (results_of_task tid st2), hosts. split; [by rewrite R3, <-list_fmap_compose|].
  split; [intros r; rewrite Hrs; by intros [_ ?]%elem_of_List_filter|].
  split; [by intros E0; rewrite E0 in Ef|]. split; [|split; [|done]].
  - intros h Hh. destruct (py_in (VStr h) (dget_none NETWORK_SCAN_IDENTITY_KEY <$> (facts <$> results_of_task tid st2))) eqn:Ep.
    + left. apply scanned_fact in Ep as (f & Hf & Hd). apply list_elem_of_fmap in Hf as (r & -> & Hr). by exists r.
    + right. by apply Hhosts.
  - intros h Hh. by apply Hhosts in Hh as [Hh _].
Qed.

(** [C7] No connected host is lost.  When the inspection returns, each host that
    answered in the connection phase either has a result whose facts name it or a
    result that marks it unreachable; nothing else is kept: every result names a
    system or is such a marker, and at least one names a system.  The status
    returned is completed or failed, and completed whenever the task counts failed
    systems. *)
Theorem inspect_covers_hosts decrypt keyfile str_exn credential_of ansible env src scan_of_job tid systems st st' message status :
  inspectable tid st ->
  inspect decrypt keyfile str_exn credential_of ansible env src scan_of_job systems st = (st', Ok (message, status)) ->
  let rs := results_of_task tid st' in
  let connected := (connected_of systems).*1 in
  (forall h, h ∈ connected -> exists r, r ∈ rs /\
     (dget NETWORK_SCAN_IDENTITY_KEY (facts r) = Some (VStr h) \/ exists g, r = marker h g)) /\
  (forall r, r ∈ rs -> has_identity NETWORK_SCAN_IDENTITY_KEY r = true \/ exists h g, h ∈ connected /\ r = marker h g) /\
  (exists r, r ∈ rs /\ has_identity NETWORK_SCAN_IDENTITY_KEY r = true) /\
  (status = COMPLETED \/ status = ScanModel.FAILED) /\
  (0 < systems_failed (t_stats (i_task st')) -> status = COMPLETED).
Proof.
  intros I. unfold inspect.
  destruct (inspect_body _ _ _ _ _ _ _ _ st) as [st1 [scan|e]] eqn:E; [|done]. intros [= -> Hms].
  destruct (inspect_body_spec _ _ _ _ _ _ _ _ _ _ _ _ I E) as (kept & hosts & Hrs & Hkept & Hne & Hcov & Hhosts & Hstatus).
  cbn zeta. rewrite Hrs. setoid_rewrite elem_of_app. split; [|split; [|split; [|]]].
  - intros h Hh. destruct (Hcov h Hh) as [(r & Hr & Hd)|Hm].
    + exists r. split; [by left | by left].
    + eexists. split; [right; apply list_elem_of_fmap; by exists h | right; by eexists].
  - intros r [Hr|Hr]; [left; by apply Hkept|]. right. apply list_elem_of_fmap in Hr as (h & -> & Hh).
    exists h, (default 0 (group_cache st')). split; [by apply Hhosts | done].
  - destruct kept as [|r kept]; [done|]. exists r. split; [left; by left | apply Hkept; by left].
  - destruct (Z.ltb_spec 0 (systems_failed (t_stats (i_task st')))).
    + injection Hms as <- <-. by split; [left|].
    + subst scan. split; [done | lia].
Qed.

(** ** Concrete runs *)

Definition demo_env : environment := mkenvironment 120 (VInt 60) "/secret" false false ["connection_host"] "srv" "1.0".
Definition demo_source : scan_source := mkscansource 10 "network" "net" (VInt 22) VNone.
Definition inspect_task0 : task :=
  mktask 7 ScanModel.INSPECT RUNNING ST_RUNNING 1 (mkstats 0 0 0 0) 0 None None (Some 10) None.
Definition inspect_db : db := mkdb ∅ {[7 := inspect_task0]} ∅ ∅ ∅ ∅ ∅ ∅ ∅ ∅ ∅ ∅ 100.
Definition inspect_start : state := mkstate inspect_task0 inspect_db (RawFacts.mkstore [] [] 1) None None.
Definition found : list conn_result :=
  [mkresult "a" (Some 1) NetworkConnect.SUCCESS; mkresult "b" (Some 1) NetworkConnect.SUCCESS;
   mkresult "c" None CONN_FAILED].
(** Host [a] is scanned; nothing is heard of [b]. *)
Definition heard_of_a (status : string) (done_fact : bool) : NetworkConnect.run :=
  mkrun [ok_event "a" [("connection_host", VStr "a"); (HOST_DONE, VBool done_fact)]] (Some status).

Definition demo_inspect (r : NetworkConnect.run) : state * Res outcome :=
  inspect Ok (fun _ => Ok VNone) (fun _ => "") (fun i => Some (mkcred i "cred" [])) (fun _ _ _ _ => r)
    demo_env demo_source None found inspect_start.

Lemma demo_inspectable : inspectable 7 inspect_start.
Proof.
  split; [|reflexivity|reflexivity]. split; [|reflexivity | discriminate].
  split; cbn; by constructor.
Defined.

(** [b] is marked unreachable, but the counter of unreachable systems stays 0. *)
Lemma inspect_covers_hosts_witness :
  exists st', demo_inspect (heard_of_a "successful" true) = (st', Ok (None, COMPLETED)) /\
    (exists r, r ∈ results_of_task 7 st' /\
      (dget NETWORK_SCAN_IDENTITY_KEY (facts r) = Some (VStr "b") \/ exists g, r = marker "b" g)) /\
    t_stats (i_task st') = mkstats 2 1 0 0.
Proof.
  destruct (demo_inspect (heard_of_a "successful" true)) as [st' r] eqn:E.
  assert (r = Ok (None, COMPLETED)) as -> by (change r with (st', r).2; rewrite <-E; vm_compute; reflexivity).
  exists st'. split; [reflexivity|]. split.
  - apply (proj1 (inspect_covers_hosts Ok (fun _ => Ok VNone) (fun _ => "") (fun i => Some (mkcred i "cred" []))
      (fun _ _ _ _ => heard_of_a "successful" true) demo_env demo_source None 7 found inspect_start st' None COMPLETED
      demo_inspectable E)). right. left.
  - transitivity (t_stats (i_task (demo_inspect (heard_of_a "successful" true)).1)); [by rewrite E | vm_compute; reflexivity].
Defined.

(** A time-out fails the scan, unless a host failed too: then it counts as
    completed. *)
Example timeout_fails :
  (demo_inspect (heard_of_a "timeout" true)).2 = Ok (Some NETWORK_TIMEOUT_ERR, ScanModel.FAILED).
Proof. vm_compute. reflexivity. Qed.

Example failed_host_hides_timeout :
  (demo_inspect (heard_of_a "timeout" false)).2 = Ok (Some "1 systems could not be scanned.", COMPLETED).
Proof. vm_compute. reflexivity. Qed.

(** With the feature on, a run without skipped tasks raises. *)
Example no_skipped_tasks :
  (_persist_skipped_tasks (mkenvironment 120 (VInt 60) "/secret" false true [] "srv" "1.0") empty_callback inspect_start).2
  = Err TypeError.
Proof. reflexivity. Qed.

Lemma inspect_scan_spec_witness :
  counted 7 2 (set_task (Task.set_stats (mkstats 2 0 0 0) inspect_task0)
                 (with_tasks (fun _ => {[7 := Task.set_stats (mkstats 2 0 0 0) inspect_task0]}) inspect_db) inspect_start) /\
  exists st' r, _inspect_scan Ok (fun _ _ _ _ => heard_of_a "timeout" true) demo_env demo_source None
      [HostName "a"; HostName "b"]
      (set_task (Task.set_stats (mkstats 2 0 0 0) inspect_task0)
         (with_tasks (fun _ => {[7 := Task.set_stats (mkstats 2 0 0 0) inspect_task0]}) inspect_db) inspect_start) = (st', r) /\
    counted 7 2 st' /\ t_stats (i_task st') = mkstats 2 1 0 0.
Proof.
  set (st := set_task _ _ _).
  assert (counted 7 2 st) as C.
  { split; [|reflexivity|reflexivity]. split; [|reflexivity | discriminate]. split; cbn; by constructor. }
  split; [exact C|].
  destruct (_inspect_scan Ok (fun _ _ _ _ => heard_of_a "timeout" true) demo_env demo_source None
      [HostName "a"; HostName "b"] st) as [st' r] eqn:E.
  exists st', r. split; [reflexivity|]. split.
  - exact (proj1 (inspect_scan_spec Ok (fun _ _ _ _ => heard_of_a "timeout" true) demo_env demo_source None 7 2
      [HostName "a"; HostName "b"] st st' r C E)).
  - change st' with (st', r).1. rewrite <-E. vm_compute. reflexivity.
Defined.
