(* ===== verification/RemoteTask.v ===== *)
(** What the inspections of vcenter, satellite, openshift, ansible and rhacs share:
    the state their runners change and the operations on it, which the code repeats
    in each [InspectTaskRunner] under [scanner/].

    A method is a value of [M]: it changes the state, even when it raises.  [ask]
    sends a request to the server; the answer, external, may differ with each
    request.  Rules for [wp] (weakest precondition) and [keeps] (an invariant that
    survives exceptions) reason about the methods. *)
From stdpp Require Import base gmap sets list strings.
From Stdlib Require Import ZArith Lia.
From S2P Require Import Prelude PyStr PyNum PyVal Sources RawFacts ScanModel ScanFlow TaskStats.

Open Scope string_scope.
Open Scope Z_scope.

(** A row of [SystemConnectionResult] of the task's connection result. *)
Record conn_row := mkconn { conn_name : string; conn_status_of : result_status; conn_credential : option Z }.

(** The task object, the tables, the cached property [_inspect_group] and the number
    of requests sent. *)
Record rstate := mkrstate {
  r_task : task;
  r_db : db;
  r_tables : RawFacts.store;
  r_group : option Z;
  r_conns : list conn_row;
  r_sent : nat }.

(** ** The monad *)

Definition M (A : Type) : Type := rstate -> rstate * Res A.

#[export] Instance M_ret : MRet M := fun A a st => (st, Ok a).
#[export] Instance M_bind : MBind M := fun A B f m st =>
  match m st with (st, Ok a) => f a st | (st, Err e) => (st, Err e) end.

Definition lift {A} (r : Res A) : M A := fun st => (st, r).
Definition raise {A} (e : exn) : M A := lift (Err e).
Definition gets {A} (f : rstate -> A) : M A := fun st => (st, Ok (f st)).
Definition modify (f : rstate -> rstate) : M unit := fun st => (f st, Ok tt).

(** [try: m except <caught>: h] *)
Definition try_M {A} (m : M A) (caught : exn -> bool) (h : exn -> M A) : M A := fun st =>
  match m st with
  | (st, Err e) => if caught e then h e st else (st, Err e)
  | ok => ok
  end.

(** [for x in l: f(x)] *)
Fixpoint each {A} (f : A -> M unit) (l : list A) : M unit :=
  match l with
  | [] => mret tt
  | x :: l => _ ← f x; each f l
  end.

(** [for x in l: a = f(a, x)] with effects. *)
Fixpoint fold_M {A B} (f : A -> B -> M A) (a : A) (l : list B) : M A :=
  match l with
  | [] => mret a
  | x :: l => a ← f a x; fold_M f a l
  end.

(** [transaction.atomic]: an exception undoes what was written to the tables, not the
    objects in memory. *)
Definition atomic {A} (m : M A) : M A := fun st =>
  match m st with
  | (st', Err e) => (mkrstate (r_task st') (r_db st) (r_tables st) (r_group st') (r_conns st) (r_sent st'), Err e)
  | ok => ok
  end.

Definition ask {Req Resp} (server : nat -> Req -> Res Resp) (q : Req) : M Resp := fun st =>
  (mkrstate (r_task st) (r_db st) (r_tables st) (r_group st) (r_conns st) (S (r_sent st)), server (r_sent st) q).

(** ** The task *)

Definition on_task (f : task -> db -> Res (task * db)) : M unit := fun st =>
  match f (r_task st) (r_db st) with
  | Ok (t, d) => (mkrstate t d (r_tables st) (r_group st) (r_conns st) (r_sent st), Ok tt)
  | Err e => (st, Err e)
  end.

Definition update_stats (count scanned failed unreachable : option Z) : M unit :=
  on_task (Task.update_stats count scanned failed unreachable).

(** [increment_stats] with the arguments that [_get_increment_kwargs] chooses. *)
Definition increment_for (s : result_status) : M unit :=
  match s with
  | RawFacts.SUCCESS => on_task (Task.increment_stats false true false false)
  | RawFacts.FAILED => on_task (Task.increment_stats false false true false)
  | RawFacts.UNREACHABLE => on_task (Task.increment_stats false false false true)
  | NO_STATUS => raise (KeyError "")
  end.

(** The statistics a task has when its connection is checked: one system, nothing
    scanned. *)
Definition _init_connection_stats : M unit := update_stats (Some 1) (Some 0) (Some 0) (Some 0).

(** ** Sources and credentials *)

Section source.
(** The source of the task, its key, and the columns of the credentials. *)
Context (source_key : Z) (src : Sources.source) (credential_row : Z -> pydict).
(** [get_server_id()] and [server_version()]. *)
Context (get_server_id server_version : string).

Definition MultipleObjectsReturned : exn := OtherException "MultipleObjectsReturned".
Definition IntegrityError : exn := OtherException "IntegrityError".

(** [self.scan_task.source.get_hosts()[0]] *)
Definition system_name : Res pyval := getitem_int (get "hosts" src) 0.

(** [source.single_credential], that is [credentials.get()]. *)
Definition single_credential : Res (Z * pydict) :=
  match credentials src with
  | [c] => Ok (c_id c, credential_row (c_id c))
  | [] => Err DoesNotExist
  | _ => Err MultipleObjectsReturned
  end.

(** [source.credentials.all().first()], of which the code reads attributes. *)
Definition first_credential : Res (Z * pydict) :=
  match credentials src with
  | c :: _ => Ok (c_id c, credential_row (c_id c))
  | [] => Err (AttributeError "username")
  end.

(** ** Results *)

(** The value of a column of text: [null] is refused. *)
Definition text_column (v : pyval) : Res string :=
  match v with
  | VNone => Err IntegrityError
  | VStr s => Ok s
  | v => Ok (py_str v)
  end.

Definition create_group : M Z := fun st =>
  let '(g, tb) := add_group (RawFacts.mkgroup (get "source_type" src) (get "name" src) (VStr get_server_id)
                    (VStr server_version) (Some source_key) [t_id (r_task st)] []) (r_tables st) in
  (mkrstate (r_task st) (r_db st) tb (r_group st) (r_conns st) (r_sent st), Ok g).

(** [_inspect_group], a cached property. *)
Definition _inspect_group : M Z :=
  cached ← gets r_group;
  match cached with
  | Some g => mret g
  | None =>
      g ← create_group;
      _ ← modify (fun st => mkrstate (r_task st) (r_db st) (r_tables st) (Some g) (r_conns st) (r_sent st));
      mret g
  end.

Definition create_result (name : pyval) (s : result_status) (g : Z) (facts : pydict) : M unit :=
  name ← lift (text_column name);
  modify (fun st => mkrstate (r_task st) (r_db st) (add_result (RawFacts.mkresult name s g facts) (r_tables st))
                      (r_group st) (r_conns st) (r_sent st)).

Definition create_conn (name : pyval) (s : result_status) (credential : Z) : M unit :=
  name ← lift (text_column name);
  modify (fun st => mkrstate (r_task st) (r_db st) (r_tables st) (r_group st)
                      (r_conns st ++ [mkconn name s (Some credential)])%list (r_sent st)).

(** The facts that are not [None]. *)
Definition present (facts : pydict) : pydict := List.filter (fun kv => negb (is_none kv.2)) facts.

(** [_save_results] of openshift and rhacs, [_save_initial_connection_results] of
    ansible: the one connection result of the task. *)
Definition save_conn_result (s : result_status) : M unit := atomic (
  credential ← lift single_credential;
  name ← lift system_name;
  _ ← create_conn name s credential.1;
  increment_for s).

(** [save_results] of ansible and rhacs: the one result of the task, in a group made
    for it. *)
Definition save_results (s : result_status) (facts : pydict) : M unit := atomic (
  g ← create_group;
  name ← lift system_name;
  _ ← create_result name s g facts;
  increment_for s).

(** A method as a runner of [ScanFlow]. *)
Definition outcome : Type := option string * status.

Definition start_state (t : task) (d : db) (tb : RawFacts.store) : rstate := mkrstate t d tb None [] 0.

Definition executor_of (m : M outcome) (tb : RawFacts.store) : executor := fun t _ d =>
  let '(st, r) := m (start_state t d tb) in
  (r_task st, r_db st, (fun o : outcome => (default "" o.1, St o.2)) <$> r).
End source.

(** ** Reasoning about methods *)

(** The state and the result after [m] satisfy [Q]. *)
Definition wp {A} (m : M A) (Q : Res A -> rstate -> Prop) (st : rstate) : Prop := Q (m st).2 (m st).1.

(** [m] preserves [P], also when it raises. *)
Definition keeps {A} (P : rstate -> Prop) (m : M A) : Prop := forall st, P st -> P (m st).1.

Section wp.
Context {A B : Type}.
Implicit Types (m : M A) (f : A -> M B) (st : rstate).

Lemma wp_ret a (Q : Res A -> rstate -> Prop) st : Q (Ok a) st -> wp (mret a) Q st.
Proof. done. Qed.

Lemma wp_lift (r : Res A) (Q : Res A -> rstate -> Prop) st : Q r st -> wp (lift r) Q st.
Proof. done. Qed.

Lemma wp_bind m f (Q : Res B -> rstate -> Prop) st :
  wp m (fun r st => match r with Ok a => wp (f a) Q st | Err e => Q (Err e) st end) st -> wp (m ≫= f) Q st.
Proof. unfold wp, mbind, M_bind. by destruct (m st) as [st' [a|e]]. Qed.

Lemma wp_mono m (Q Q' : Res A -> rstate -> Prop) st :
  (forall r st, Q r st -> Q' r st) -> wp m Q st -> wp m Q' st.
Proof. intros H. apply H. Qed.

Lemma wp_try m (c : exn -> bool) (h : exn -> M A) (Q : Res A -> rstate -> Prop) st :
  wp m (fun r st => match r with
                    | Ok a => Q (Ok a) st
                    | Err e => if c e then wp (h e) Q st else Q (Err e) st
                    end) st -> wp (try_M m c h) Q st.
Proof. unfold wp, try_M. destruct (m st) as [st' [a|e]]; [done|]. cbn. by destruct (c e). Qed.

Lemma wp_keeps (P : rstate -> Prop) m st : keeps P m -> P st -> wp m (fun (_ : Res A) st => P st) st.
Proof. intros H HP. by apply H. Qed.
End wp.

(** The equations of a sequence whose first part is known. *)
Lemma bind_ok {A B} (m : M A) (f : A -> M B) st st' a : m st = (st', Ok a) -> (m ≫= f) st = f a st'.
Proof. unfold mbind, M_bind. by intros ->. Qed.

Lemma bind_err {A B} (m : M A) (f : A -> M B) st st' e : m st = (st', Err e) -> (m ≫= f) st = (st', Err e).
Proof. unfold mbind, M_bind. by intros ->. Qed.

Lemma bind_lift {A B} (r : Res A) (f : A -> M B) st a : r = Ok a -> (lift r ≫= f) st = f a st.
Proof. by intros ->. Qed.

Lemma run_bind {A B} (m : M A) (f : A -> M B) st st' b : (m ≫= f) st = (st', Ok b) ->
  exists a st1, m st = (st1, Ok a) /\ f a st1 = (st', Ok b).
Proof. unfold mbind, M_bind. destruct (m st) as [st1 [a|e]]; [eauto | done]. Qed.

Lemma bind_assoc_M {A B C} (m : M A) (f : A -> M B) (g : B -> M C) st :
  ((m ≫= f) ≫= g) st = (m ≫= (fun a => f a ≫= g)) st.
Proof. unfold mbind, M_bind. by destruct (m st) as [st' [a|e]]. Qed.

Section keeps.
Context (P : rstate -> Prop).

Lemma keeps_ret {A} (a : A) : keeps P (mret a).
Proof. by intros st H. Qed.
Lemma keeps_lift {A} (r : Res A) : keeps P (lift r).
Proof. by intros st H. Qed.
Lemma keeps_raise {A} e : keeps P (@raise A e).
Proof. by intros st H. Qed.
Lemma keeps_gets {A} (f : rstate -> A) : keeps P (gets f).
Proof. by intros st H. Qed.

Lemma keeps_bind {A B} (m : M A) (f : A -> M B) : keeps P m -> (forall a, keeps P (f a)) -> keeps P (m ≫= f).
Proof.
  intros Hm Hf st H. specialize (Hm st H). unfold mbind, M_bind.
  destruct (m st) as [st' [a|e]]; [by apply Hf | done].
Qed.

Lemma keeps_try {A} (m : M A) (c : exn -> bool) h : keeps P m -> (forall e, keeps P (h e)) -> keeps P (try_M m c h).
Proof.
  intros Hm Hh st H. specialize (Hm st H). unfold try_M.
  destruct (m st) as [st' [a|e]]; [done|]. destruct (c e); [by apply Hh | done].
Qed.

Lemma keeps_each {A} (f : A -> M unit) l : (forall x, x ∈ l -> keeps P (f x)) -> keeps P (each f l).
Proof.
  induction l as [|x l IH]; intros H; [apply keeps_ret|]. cbn. apply keeps_bind; [apply H; by left|].
  intros _. apply IH. intros y Hy. apply H. by right.
Qed.

Lemma keeps_mapM {A B} (f : A -> M B) l : (forall x, x ∈ l -> keeps P (f x)) -> keeps P (mapM f l).
Proof.
  induction l as [|x l IH]; intros H; [apply keeps_ret|]. cbn. apply keeps_bind; [apply H; by left|].
  intros b. apply keeps_bind; [|intros; apply keeps_ret]. apply IH. intros y Hy. apply H. by right.
Qed.
End keeps.

Create HintDb keeps.
#[export] Hint Resolve keeps_ret keeps_lift keeps_raise keeps_gets keeps_bind keeps_try keeps_each keeps_mapM : keeps.

(** *** The statistics *)

Definition only_stats (t : task) (d : db) (st : rstate) : Prop := stats_only t d (r_task st) (r_db st).

Lemma keeps_modify t d f : (forall st, r_task (f st) = r_task st /\ r_db (f st) = r_db st) ->
  keeps (only_stats t d) (modify f).
Proof. intros H st. unfold only_stats. cbn. by destruct (H st) as [-> ->]. Qed.

Lemma keeps_ask t d {Req Resp} (server : nat -> Req -> Res Resp) q : keeps (only_stats t d) (ask server q).
Proof. by intros st H. Qed.

Lemma keeps_update t d a b c e : keeps (only_stats t d) (update_stats a b c e).
Proof.
  intros st H. unfold update_stats, on_task. destruct (Task.update_stats _ _ _ _ _ _) as [[t' d']|err] eqn:E; [|done].
  by eapply stats_only_update.
Qed.

Lemma keeps_increment t d s : keeps (only_stats t d) (increment_for s).
Proof.
  intros st H. unfold increment_for, on_task.
  destruct s; [| | |done]; (edestruct (stats_only_increment t d) as (t' & d' & -> & H'); [exact H | exact H']).
Qed.

Lemma keeps_atomic t d {A} (m : M A) : keeps (only_stats t d) m -> keeps (only_stats t d) (atomic m).
Proof.
  intros Hm st H. specialize (Hm st H). unfold atomic. destruct (m st) as [st' [a|e]]; [done|].
  destruct H as [_ H], Hm as [Hm _]. by split.
Qed.
#[export] Hint Resolve keeps_ask keeps_update keeps_increment keeps_atomic : keeps.

(** Closes [keeps] goals about methods made of the operations above. *)
Ltac keeps_step :=
  first [ solve [auto with keeps]
        | apply keeps_bind; [|intros ?]
        | apply keeps_try; [|intros ?]
        | apply keeps_atomic
        | apply keeps_each; intros ? _
        | apply keeps_mapM; intros ? _
        | apply keeps_modify; done
        | case_goal ].
Ltac keeps := repeat (intros; keeps_step).

Section keep_operations.
Context (source_key : Z) (src : Sources.source) (credential_row : Z -> pydict) (server_id server_version : string).
Context (t : task) (d : db).

Lemma keeps_create_group : keeps (only_stats t d) (create_group source_key src server_id server_version).
Proof. by intros st H. Qed.

Lemma keeps_inspect_group : keeps (only_stats t d) (_inspect_group source_key src server_id server_version).
Proof. unfold _inspect_group. pose proof keeps_create_group. keeps. Qed.

Lemma keeps_create_result name s g facts : keeps (only_stats t d) (create_result name s g facts).
Proof. unfold create_result. keeps. Qed.

Lemma keeps_create_conn name s c : keeps (only_stats t d) (create_conn name s c).
Proof. unfold create_conn. keeps. Qed.

Lemma keeps_save_conn s : keeps (only_stats t d) (save_conn_result src credential_row s).
Proof. unfold save_conn_result. pose proof keeps_create_conn. keeps. Qed.

Lemma keeps_save_results s facts : keeps (only_stats t d) (save_results source_key src server_id server_version s facts).
Proof. unfold save_results. pose proof keeps_create_group. pose proof keeps_create_result. keeps. Qed.
End keep_operations.
#[export] Hint Resolve keeps_inspect_group keeps_create_group keeps_create_result keeps_create_conn
  keeps_save_conn keeps_save_results : keeps.

(** A method that keeps the statistics' invariant is a runner of the flow. *)
Lemma executor_keeps m tb : (forall t d, keeps (only_stats t d) m) -> keeps_stats (executor_of m tb).
Proof.
  intros H t j d t' d' r Ht E. unfold executor_of in E.
  pose proof (H t d (start_state t d tb) (stats_only_start t d Ht)) as K.
  destruct (m (start_state t d tb)) as [st r']. by injection E as <- <- _.
Qed.

(** *** What a method stores *)

Definition row : Type := string * result_status * pydict.
Definition row_of (r : inspect_result) : row := (result_name r, result_status_of r, facts r).

(** The results of a task: names, statuses and facts, in order. *)
Definition rows (tid : Z) (st : rstate) : list row := row_of <$> (task_results tid (r_tables st)).*2.

(** A group made for the task alone. *)
Definition own_group (tid : Z) (tb : RawFacts.store) (g : Z) : Prop :=
  exists gr, (g, gr) ∈ RawFacts.groups tb /\ group_tasks gr = [tid].

(** The tables are well formed, the object of the task is its row, and a cached group
    is the task's. *)
Record ready (tid : Z) (st : rstate) : Prop := {
  rd_wf : wf_store (r_tables st);
  rd_id : t_id (r_task st) = tid;
  rd_row : tasks (r_db st) !! tid = Some (r_task st);
  rd_group : forall g, r_group st = Some g -> own_group tid (r_tables st) g }.

(** [st'] is [st] with more results and connection results of the task. *)
Record effect (tid : Z) (st st' : rstate) (rs : list row) (cs : list conn_row) : Prop := {
  ef_ready : ready tid st';
  ef_rows : rows tid st' = (rows tid st ++ rs)%list;
  ef_others : forall o, o <> tid -> rows o st' = rows o st;
  ef_conns : r_conns st' = (r_conns st ++ cs)%list }.

Lemma effect_refl tid st : ready tid st -> effect tid st st [] [].
Proof. intros H. split; by rewrite ?app_nil_r. Qed.

Lemma effect_trans tid st1 st2 st3 rs1 rs2 cs1 cs2 :
  effect tid st1 st2 rs1 cs1 -> effect tid st2 st3 rs2 cs2 -> effect tid st1 st3 (rs1 ++ rs2) (cs1 ++ cs2).
Proof.
  intros [R1 E1 O1 C1] [R2 E2 O2 C2]. split; [done | by rewrite E2, E1, app_assoc | |by rewrite C2, C1, app_assoc].
  intros o Ho. by rewrite O2, O1.
Qed.

(** [k] more requests. *)
Definition bump_sent (k : nat) (st : rstate) : rstate :=
  mkrstate (r_task st) (r_db st) (r_tables st) (r_group st) (r_conns st) (k + r_sent st).

Lemma ready_sent tid k st : ready tid st -> ready tid (bump_sent k st).
Proof. intros [? ? ? ?]. by split. Qed.

Lemma effect_sent tid k st st' rs cs : effect tid st st' rs cs -> effect tid st (bump_sent k st') rs cs.
Proof. intros [R ? ? ?]. split; [by apply ready_sent | done | done | done]. Qed.

Definition count_status (s : result_status) (x : stats) : stats :=
  mkstats (systems_count x) (Task.bump (bool_decide (s = RawFacts.SUCCESS)) (systems_scanned x))
    (Task.bump (bool_decide (s = RawFacts.FAILED)) (systems_failed x))
    (Task.bump (bool_decide (s = RawFacts.UNREACHABLE)) (systems_unreachable x)).

Definition set_count (count scanned failed unreachable : option Z) (x : stats) : stats :=
  mkstats (default (systems_count x) count) (default (systems_scanned x) scanned)
    (default (systems_failed x) failed) (default (systems_unreachable x) unreachable).

(** Only the task changed. *)
Lemma task_effect tid st t d : ready tid st -> t_id t = tid -> tasks d !! tid = Some t ->
  effect tid st (mkrstate t d (r_tables st) (r_group st) (r_conns st) (r_sent st)) [] [].
Proof. intros [W _ _ G] Ht Hd. split; [by split | by rewrite app_nil_r | done | by rewrite app_nil_r]. Qed.

Lemma update_spec tid a b c e st : ready tid st -> exists st', update_stats a b c e st = (st', Ok tt) /\
  effect tid st st' [] [] /\ t_stats (r_task st') = set_count a b c e (t_stats (r_task st)) /\ r_sent st' = r_sent st.
Proof.
  intros R. pose proof R as [_ Hi Hr _]. unfold update_stats, on_task, Task.update_stats, get_task. rewrite Hi, Hr.
  cbn [from_option mbind res_bind].
  set (changed := _ || _ || _ || _). set (x := mkstats _ _ _ _).
  assert (x = set_count a b c e (t_stats (r_task st))) as Hx by (unfold x; by destruct a, b, c, e).
  destruct changed eqn:Ec.
  - eexists. split; [done|]. split; [|by split]. apply task_effect; [done | done |]. cbn. rewrite Hi. by rewrite lookup_insert_eq.
  - eexists. split; [done|]. split; [by apply task_effect|]. split; [|done]. cbn. unfold set_count.
    unfold changed in Ec. rewrite !orb_false_iff in Ec. destruct Ec as [[[E1 E2] E3] E4].
    destruct a, b, c, e; cbn; try apply negb_false_iff, Z.eqb_eq in E1; try apply negb_false_iff, Z.eqb_eq in E2;
      try apply negb_false_iff, Z.eqb_eq in E3; try apply negb_false_iff, Z.eqb_eq in E4;
      destruct (t_stats (r_task st)); cbn in *; congruence.
Qed.

Lemma increment_spec tid s st : ready tid st -> s <> NO_STATUS -> exists st', increment_for s st = (st', Ok tt) /\
  effect tid st st' [] [] /\ t_stats (r_task st') = count_status s (t_stats (r_task st)) /\ r_sent st' = r_sent st.
Proof.
  intros R Hs. pose proof R as [_ Hi Hr _]. unfold increment_for, on_task, Task.increment_stats, get_task.
  destruct s; [| | |done]; cbn; rewrite Hi, lookup_alter_eq, Hr; cbn;
    (eexists; split; [done|]; split; [|done]); (apply task_effect; [done | done |]; cbn; by rewrite lookup_alter_eq, Hr).
Qed.

Lemma atomic_ok {A} (m : M A) st st' a : m st = (st', Ok a) -> atomic m st = (st', Ok a).
Proof. unfold atomic. by intros ->. Qed.

(** *** Methods that only ask the server *)

Definition reads {A} (m : M A) : Prop := forall st, exists k, (m st).1 = bump_sent k st.

Lemma bump_sent_0 st : bump_sent 0 st = st.
Proof. by destruct st. Qed.

Lemma bump_bump j k st : bump_sent j (bump_sent k st) = bump_sent (j + k) st.
Proof. unfold bump_sent. cbn. f_equal. lia. Qed.

Lemma reads_ret {A} (a : A) : reads (mret a).
Proof. intros st. exists 0%nat. by rewrite bump_sent_0. Qed.
Lemma reads_lift {A} (r : Res A) : reads (lift r).
Proof. intros st. exists 0%nat. by rewrite bump_sent_0. Qed.
Lemma reads_raise {A} e : reads (@raise A e).
Proof. apply reads_lift. Qed.
Lemma reads_ask {Req Resp} (server : nat -> Req -> Res Resp) q : reads (ask server q).
Proof. intros st. by exists 1%nat. Qed.

Lemma reads_bind {A B} (m : M A) (f : A -> M B) : reads m -> (forall a, reads (f a)) -> reads (m ≫= f).
Proof.
  intros Hm Hf st. destruct (Hm st) as [k Hk]. unfold mbind, M_bind.
  destruct (m st) as [st' [a|e]]; cbn in *; subst st'; [|by exists k].
  destruct (Hf a (bump_sent k st)) as [j ->]. exists (j + k)%nat. by rewrite bump_bump.
Qed.

Lemma reads_try {A} (m : M A) (c : exn -> bool) h : reads m -> (forall e, reads (h e)) -> reads (try_M m c h).
Proof.
  intros Hm Hh st. destruct (Hm st) as [k Hk]. unfold try_M.
  destruct (m st) as [st' [a|e]]; cbn in *; subst st'; [by exists k|].
  destruct (c e); [|by exists k]. destruct (Hh e (bump_sent k st)) as [j ->]. exists (j + k)%nat. by rewrite bump_bump.
Qed.

Lemma reads_mapM {A B} (f : A -> M B) l : (forall x, reads (f x)) -> reads (mapM f l).
Proof.
  intros H. induction l as [|x l IH]; [apply reads_ret|]. cbn. apply reads_bind; [done|]. intros b.
  apply reads_bind; [done|]. intros bs. apply reads_ret.
Qed.

Lemma reads_fold {A B} (f : A -> B -> M A) l : (forall a x, reads (f a x)) -> forall a, reads (fold_M f a l).
Proof. intros H. induction l as [|x l IH]; intros a; cbn [fold_M]; [apply reads_ret|]. by apply reads_bind. Qed.

Lemma keeps_reads t d {A} (m : M A) : reads m -> keeps (only_stats t d) m.
Proof. intros H st Hst. by destruct (H st) as [k ->]. Qed.

Lemma reads_effect tid {A} (m : M A) st st' r : reads m -> ready tid st -> m st = (st', r) ->
  effect tid st st' [] [] /\ r_task st' = r_task st.
Proof.
  intros H R E. destruct (H st) as [k Hk]. rewrite E in Hk. cbn in Hk. subst st'.
  split; [|done]. by apply effect_sent, effect_refl.
Qed.

(** A method that only asks the server and, from any state, gives the same result. *)
Definition answers {A} (m : M A) (r : Res A) : Prop := forall st, exists k, m st = (bump_sent k st, r).

Lemma answers_lift {A} (r : Res A) : answers (lift r) r.
Proof. intros st. exists 0%nat. by rewrite bump_sent_0. Qed.
Lemma answers_ask {Req Resp} (server : nat -> Req -> Res Resp) q r : (forall n, server n q = r) -> answers (ask server q) r.
Proof. intros H st. exists 1%nat. unfold ask. by rewrite H. Qed.
Lemma answers_ok {A B} (m : M A) (f : A -> M B) a r : answers m (Ok a) -> answers (f a) r -> answers (m ≫= f) r.
Proof.
  intros Hm Hf st. destruct (Hm st) as [k E]. destruct (Hf (bump_sent k st)) as [j Ej]. exists (j + k)%nat.
  by rewrite (bind_ok _ _ _ _ _ E), Ej, bump_bump.
Qed.
Lemma answers_err {A B} (m : M A) (f : A -> M B) e : answers m (Err e) -> answers (m ≫= f) (Err e).
Proof. intros Hm st. destruct (Hm st) as [k E]. exists k. by rewrite (bind_err _ _ _ _ _ E). Qed.
Lemma answers_try {A} (m : M A) (c : exn -> bool) h a : answers m (Ok a) -> answers (try_M m c h) (Ok a).
Proof. intros Hm st. destruct (Hm st) as [k E]. exists k. unfold try_M. by rewrite E. Qed.
Lemma answers_caught {A} (m : M A) (c : exn -> bool) h e r : answers m (Err e) -> c e = true -> answers (h e) r ->
  answers (try_M m c h) r.
Proof.
  intros Hm Hc Hh st. destruct (Hm st) as [k E]. destruct (Hh (bump_sent k st)) as [j Ej]. exists (j + k)%nat.
  unfold try_M. by rewrite E, Hc, Ej, bump_bump.
Qed.

Lemma answers_run tid {A} (m : M A) st r : answers m r -> ready tid st -> exists st',
  m st = (st', r) /\ effect tid st st' [] [] /\ r_task st' = r_task st /\ ready tid st'.
Proof.
  intros Hm R. destruct (Hm st) as [k E]. exists (bump_sent k st).
  split; [done|]. split; [by apply effect_sent, effect_refl|]. split; [done | by apply ready_sent].
Qed.

Create HintDb reads.
#[export] Hint Resolve reads_ret reads_lift reads_raise reads_ask reads_bind reads_try reads_mapM : reads.

(** Closes [reads] goals. *)
Ltac reads_step :=
  first [ solve [auto with reads]
        | apply reads_bind; [|intros ?]
        | apply reads_try; [|intros ?]
        | apply reads_mapM; intros ?
        | case_goal ].
Ltac reads := repeat (intros; reads_step).

Section specs.
Context (source_key : Z) (src : Sources.source) (credential_row : Z -> pydict) (server_id server_version : string).

Definition new_group (tid : Z) : inspect_group :=
  RawFacts.mkgroup (get "source_type" src) (get "name" src) (VStr server_id) (VStr server_version) (Some source_key) [tid] [].

Lemma new_group_effect tid st cache : ready tid st ->
  let '(g, tb) := add_group (new_group tid) (r_tables st) in
  let st' := mkrstate (r_task st) (r_db st) tb (if (cache : bool) then Some g else r_group st) (r_conns st) (r_sent st) in
  effect tid st st' [] [] /\ own_group tid tb g.
Proof.
  intros [W Hi Hr G]. cbn [add_group].
  assert (own_group tid (RawFacts.mkstore (RawFacts.groups (r_tables st) ++ [(RawFacts.next_id (r_tables st), new_group tid)])
    (RawFacts.results (r_tables st)) (RawFacts.next_id (r_tables st) + 1)) (RawFacts.next_id (r_tables st))) as Ho.
  { exists (new_group tid). split; [|done]. apply elem_of_app. right. by left. }
  split; [|done]. split; [split | | |by rewrite app_nil_r]; cbn; try done.
  - by apply (add_group_wf (new_group tid)).
  - intros g Hg. destruct cache; [injection Hg as <-; exact Ho|]. destruct (G g Hg) as (gr & Hin & Ht).
    exists gr. split; [|done]. apply elem_of_app. by left.
  - unfold rows. cbn. rewrite app_nil_r. f_equal. f_equal. by apply (task_results_group _ (new_group tid)).
  - intros o _. unfold rows. cbn. f_equal. f_equal. by apply (task_results_group _ (new_group tid)).
Qed.

Lemma create_group_spec tid st : ready tid st -> exists st' g,
  create_group source_key src server_id server_version st = (st', Ok g) /\ effect tid st st' [] [] /\
  own_group tid (r_tables st') g /\ r_task st' = r_task st /\ r_sent st' = r_sent st.
Proof.
  intros R. pose proof (new_group_effect tid st false R) as H. unfold create_group. rewrite (rd_id _ _ R).
  fold (new_group tid). destruct (add_group (new_group tid) (r_tables st)) as [g tb]. destruct H as [E Ho].
  eauto 10.
Qed.

Lemma inspect_group_spec tid st : ready tid st -> exists st' g,
  _inspect_group source_key src server_id server_version st = (st', Ok g) /\ effect tid st st' [] [] /\
  own_group tid (r_tables st') g /\ r_task st' = r_task st /\ r_sent st' = r_sent st.
Proof.
  intros R. unfold _inspect_group, mbind, M_bind. cbn [gets]. destruct (r_group st) as [g|] eqn:Eg.
  - exists st, g. split; [done|]. split; [by apply effect_refl|]. split; [by apply R | done].
  - pose proof (new_group_effect tid st true R) as H. unfold create_group. rewrite (rd_id _ _ R).
    fold (new_group tid). destruct (add_group (new_group tid) (r_tables st)) as [g tb]. destruct H as [E Ho].
    eexists _, g. split; [done|]. eauto.
Qed.

Lemma create_result_spec tid name s g facts st : ready tid st -> own_group tid (r_tables st) g ->
  exists st', create_result (VStr name) s g facts st = (st', Ok tt) /\
    effect tid st st' [(name, s, facts)] [] /\ r_task st' = r_task st /\ r_sent st' = r_sent st.
Proof.
  intros [W Hi Hr G] (gr & Hin & Htk).
  exists (mkrstate (r_task st) (r_db st) (add_result (RawFacts.mkresult name s g facts) (r_tables st)) (r_group st)
            (r_conns st) (r_sent st)).
  split; [done|]. split; [|done].
  pose proof (proj1 (Forall_forall _ _) (wf_groups _ W) _ Hin) as Hlt. cbn in Hlt.
  split; [split; cbn; try done | | |by rewrite app_nil_r].
  - by apply add_result_wf.
  - unfold rows. cbn [r_tables]. rewrite task_results_add, fmap_app. f_equal.
    rewrite bool_decide_eq_true_2; [done|]. cbn. by eapply (in_groups_own tid).
  - intros o Ho. unfold rows. cbn [r_tables]. rewrite task_results_add, fmap_app.
    rewrite bool_decide_eq_false_2; [by rewrite app_nil_r|]. cbn. intros E. by eapply (in_groups_own tid) in E.
Qed.

Lemma create_conn_spec tid name s c st : ready tid st -> exists st', create_conn (VStr name) s c st = (st', Ok tt) /\
    effect tid st st' [] [mkconn name s (Some c)] /\ r_task st' = r_task st /\ r_sent st' = r_sent st.
Proof.
  intros [W Hi Hr G]. eexists. split; [done|]. split; [|done].
  split; [by split | by rewrite app_nil_r | done | done].
Qed.

(** A host and a credential: what sources of these types have ([Sources.wf_source]). *)
Definition single (host : string) (c : credential) : Prop :=
  system_name src = Ok (VStr host) /\ credentials src = [c].

Lemma save_conn_spec tid host c s st : single host c -> ready tid st -> s <> NO_STATUS -> exists st',
  save_conn_result src credential_row s st = (st', Ok tt) /\ effect tid st st' [] [mkconn host s (Some (c_id c))] /\
  t_stats (r_task st') = count_status s (t_stats (r_task st)) /\ r_sent st' = r_sent st.
Proof.
  intros [Hn Hc] R Hs. destruct (create_conn_spec tid host s (c_id c) st R) as (st1 & E1 & F1 & T1 & N1).
  destruct (increment_spec tid s st1 (ef_ready _ _ _ _ _ F1) Hs) as (st2 & E2 & F2 & T2 & N2).
  exists st2. split; [|split; [|split]].
  - apply atomic_ok. unfold single_credential. rewrite Hn, Hc. cbn [lift mbind M_bind mret]. unfold mbind, M_bind.
    cbn [lift fst]. by rewrite E1.
  - exact (effect_trans _ _ _ _ _ _ _ _ F1 F2).
  - by rewrite T2, T1.
  - by rewrite N2.
Qed.

Lemma save_results_spec tid host c s facts st : single host c -> ready tid st -> s <> NO_STATUS -> exists st',
  save_results source_key src server_id server_version s facts st = (st', Ok tt) /\ effect tid st st' [(host, s, facts)] [] /\
  t_stats (r_task st') = count_status s (t_stats (r_task st)) /\ r_sent st' = r_sent st.
Proof.
  intros [Hn Hc] R Hs. destruct (create_group_spec tid st R) as (st1 & g & E1 & F1 & O1 & T1 & N1).
  destruct (create_result_spec tid host s g facts st1 (ef_ready _ _ _ _ _ F1) O1) as (st2 & E2 & F2 & T2 & N2).
  destruct (increment_spec tid s st2 (ef_ready _ _ _ _ _ F2) Hs) as (st3 & E3 & F3 & T3 & N3).
  exists st3. split; [|split; [|split]].
  - apply atomic_ok. unfold mbind, M_bind. rewrite E1, Hn. cbn [lift]. by rewrite E2.
  - exact (effect_trans _ _ _ _ _ _ _ _ F1 (effect_trans _ _ _ _ _ _ _ _ F2 F3)).
  - by rewrite T3, T2, T1.
  - by rewrite N3, N2.
Qed.
End specs.

(** A task whose row was just saved, and well-formed tables, are a ready start. *)
Lemma start_ready t d tb : wf_store tb -> tasks d !! t_id t = Some t -> ready (t_id t) (start_state t d tb).
Proof. intros W Ht. by split. Qed.

(** Well-formed sources of these types have one host and one credential. *)
Lemma wf_single FQDN_is_valid src : Sources.wf_source FQDN_is_valid src -> type_in (get "source_type" src) HTTP_SOURCE_TYPES = true ->
  exists host c, single src host c.
Proof.
  intros W H. destruct (wf_http W H) as ((h & Hh & _) & Hl & _).
  destruct (credentials src) as [|c [|]] eqn:Ec; try done. exists h, c. split; [|done].
  unfold system_name. by rewrite Hh.
Qed.

(** ** A task to run on *)

Definition sample_task : task :=
  mktask 7 ScanModel.INSPECT RUNNING ST_RUNNING 1 (mkstats 0 0 0 0) 1 (Some 50) None (Some 10) None.
Definition sample_db : db := mkdb ∅ {[7 := sample_task]} ∅ ∅ ∅ ∅ ∅ ∅ ∅ ∅ ∅ ∅ 100.
Definition sample_store : RawFacts.store := RawFacts.mkstore [] [] 1.
Definition sample_source (source_type : string) : Sources.source :=
  Sources.mksource [("name", VStr "src"); ("source_type", VStr source_type); ("port", VInt 443);
                    ("hosts", VList [VStr "10.0.0.1"])] [Sources.mkcred 5 source_type].

Lemma sample_store_wf : wf_store sample_store.
Proof. split; cbn; constructor. Qed.

Lemma sample_single source_type : single (sample_source source_type) "10.0.0.1" (Sources.mkcred 5 source_type).
Proof. done. Qed.
