(* ===== verification/HttpSession.v ===== *)
(** The HTTP sessions of the controllers: [compat/requests.py], with
    [scanner/ansible/api.py], [scanner/rhacs/api.py] and [scanner/utils.py].

    The library [requests] is external: [server] gives the response to a request, or
    the exception it raised; [errors] tells the classes of its exceptions apart.  The
    retries and adapters that a session configures are inside [server]. *)
From stdpp Require Import base gmap sets list strings.
From Stdlib Require Import ZArith Lia.
From S2P Require Import Prelude PyStr PyNum PyVal NetworkUtils Sources RawFacts ScanModel RemoteTask.

Open Scope string_scope.
Open Scope Z_scope.

(** The classes of exceptions of [requests] and [urllib3]. *)
Record error_classes := mkerrors {
  RequestException : exn -> bool;
  RequestConnError : exn -> bool;
  Timeout : exn -> bool;
  RetryError : exn -> bool }.

Record response := mkresponse { status_code : Z; json : Res pyval }.

(** [Response.raise_for_status] *)
Definition raise_for_status (r : response) : Res response :=
  if (400 <=? status_code r) && (status_code r <? 600) then Err (HTTPError (status_code r)) else Ok r.

(** A [GET]: the path or URL, resolved against the session's base, and the
    parameters. *)
Record http_get := mkget { get_url : string; get_params : pydict }.

(** [format_host_for_url] *)
Definition format_host_for_url (host : string) : string :=
  if is_valid_ipv6_address host then "[" +:+ host +:+ "]" else host.

(** The base URL of a session. *)
Definition base_uri (protocol host : string) (port : pyval) : string :=
  protocol +:+ "://" +:+ format_host_for_url host +:+ ":" +:+ py_str port.

Section session.
Context (server : nat -> http_get -> Res response).

(** [Session.request] *)
Definition session_get (url : string) (params : pydict) (check : bool) : M response :=
  r ← ask server (mkget url params);
  if check then lift (raise_for_status r) else mret r.

(** The same, and the body. *)
Definition get_json (url : string) (params : pydict) : M pyval :=
  r ← session_get url params true;
  lift (json r).

Lemma reads_session_get url params check : reads (session_get url params check).
Proof. unfold session_get. reads. Qed.

Lemma reads_get_json url params : reads (get_json url params).
Proof. unfold get_json. pose proof reads_session_get. reads. Qed.

Lemma keeps_session_get t d url params check : keeps (only_stats t d) (session_get url params check).
Proof. apply keeps_reads, reads_session_get. Qed.

Lemma keeps_get_json t d url params : keeps (only_stats t d) (get_json url params).
Proof. apply keeps_reads, reads_get_json. Qed.
End session.

#[export] Hint Resolve keeps_session_get keeps_get_json : keeps.
#[export] Hint Resolve reads_session_get reads_get_json : reads.
