(* ===== verification/Rhacs.v ===== *)
(** Inspection of RHACS: [scanner/rhacs/runner.py], [scanner/rhacs/inspect.py].

    A RHACS server is one system with two facts.  [execute_task] checks the
    connection, then collects the facts and stores them with the status of the
    inspection. *)
From stdpp Require Import base gmap sets list strings.
From Stdlib Require Import ZArith Lia.
From S2P Require Import Prelude PyStr PyNum PyVal Sources RawFacts ScanModel ScanFlow TaskStats RemoteTask HttpSession.

Open Scope string_scope.
Open Scope Z_scope.

Module Rhacs.

(** [success_message], [failure_message] *)
Definition success_message : string := "Task 'InspectTaskRunner' completed!".
Definition failure_message : string := "Task 'InspectTaskRunner' failed!".

Section runner.
Context (server : nat -> http_get -> Res response) (errors : error_classes).
Context (decrypt : pyval -> Res pyval).
Context (source_key : Z) (src : Sources.source) (credential_row : Z -> pydict) (server_id server_version : string).

Definition _get_connection_info : Res pydict :=
  host ← system_name src;
  credential ← single_credential src credential_row;
  auth_token ← decrypt (dget_none "auth_token" credential.2);
  let '(ssl_enabled, ssl_verify) := get_ssl_options src in
  Ok [("host", host); ("auth_token", auth_token); ("port", get "port" src);
      ("protocol", VStr (if ssl_enabled then "https" else "http")); ("ssl_verify", ssl_verify);
      ("proxy_url", get "proxy_url" src)].

(** The exceptions of [check_connection] that mean an unreachable server; urllib3's
    [MaxRetryError] is among the [RetryError]s. *)
Definition unreachable (e : exn) : bool := RetryError errors e || RequestConnError errors e.

Definition connection_result : M result_status :=
  try_M (try_M (response ← session_get server "/v1/auth/status" [] true;
                mret (if status_code response =? 200 then RawFacts.SUCCESS else RawFacts.FAILED))
           unreachable (fun _ => mret RawFacts.UNREACHABLE))
    (RequestException errors) (fun _ => mret RawFacts.FAILED).

Definition check_connection : M outcome :=
  _ ← _init_connection_stats;
  conn_result ← connection_result;
  _ ← save_conn_result src credential_row conn_result;
  mret (if bool_decide (conn_result = RawFacts.SUCCESS) then (Some success_message, COMPLETED)
        else (Some failure_message, ScanModel.FAILED)).

(** [client.get(endpoint)], then [raise_for_status] and the body. *)
Definition _fetch_rhacs_metric (endpoint : string) : M pyval :=
  response ← session_get server endpoint [] false;
  response ← lift (raise_for_status response);
  lift (json response).

(** [get_secured_units_current], [get_secured_units_max] by the fact's name. *)
Definition collectable_facts : list (string * string) :=
  [("secured_units_current", "/v1/administration/usage/secured-units/current");
   ("secured_units_max", "/v1/administration/usage/secured-units/max")].

(** The loop over [collectable_facts]. *)
Fixpoint collect (facts : list (string * string)) (inspection_status : result_status) (results : pydict) :
    M (result_status * pydict) :=
  match facts with
  | [] => mret (inspection_status, results)
  | (fact, endpoint) :: facts =>
      acc ← try_M (v ← _fetch_rhacs_metric endpoint; mret (inspection_status, dset fact v results))
              (RequestException errors) (fun _ => mret (RawFacts.FAILED, results));
      collect facts acc.1 acc.2
  end.

Definition inspect : M outcome :=
  acc ← collect collectable_facts RawFacts.SUCCESS [];
  _ ← save_results source_key src server_id server_version acc.1 acc.2;
  scanned ← gets (fun st => systems_scanned (t_stats (r_task st)));
  mret (if negb (scanned =? 0) then (Some success_message, COMPLETED) else (Some failure_message, ScanModel.FAILED)).

Definition execute_task : M outcome :=
  r ← check_connection;
  if bool_decide (r.2 <> COMPLETED) then mret r else inspect.

(** ** Lemmas *)

Lemma keeps_rhacs t d : keeps (only_stats t d) execute_task.
Proof.
  assert (forall l s r, keeps (only_stats t d) (collect l s r)) as Hc.
  { induction l as [|[f e] l IH]; intros s r; cbn [collect]; [apply keeps_ret|]. unfold _fetch_rhacs_metric. keeps. }
  unfold execute_task, check_connection, connection_result, inspect, _init_connection_stats. keeps.
Qed.

(** What a request gives: the exceptions of [requests] are caught, others are not. *)
Definition fetched (n : nat) (endpoint : string) : Res pyval :=
  r ← server n (mkget endpoint []); r ← raise_for_status r; json r.

Definition connected (n : nat) : Res result_status :=
  match r ← server n (mkget "/v1/auth/status" []); raise_for_status r with
  | Ok r => Ok (if status_code r =? 200 then RawFacts.SUCCESS else RawFacts.FAILED)
  | Err e => if unreachable e then Ok RawFacts.UNREACHABLE
             else if RequestException errors e then Ok RawFacts.FAILED else Err e
  end.

(** The facts that answer, in order, and the status that tells whether all did; an
    exception that is not one of [requests] ends the collection. *)
Fixpoint collected (answers : list (string * Res pyval)) (s : result_status) (facts : pydict) : Res (result_status * pydict) :=
  match answers with
  | [] => Ok (s, facts)
  | (fact, Ok v) :: l => collected l s (dset fact v facts)
  | (fact, Err e) :: l => if RequestException errors e then collected l RawFacts.FAILED facts else Err e
  end.

Lemma connection_eq st : connection_result st = (bump_sent 1 st, connected (r_sent st)).
Proof.
  unfold connection_result, connected, session_get, ask, try_M, mbind, M_bind, res_bind, lift, mret, M_ret.
  destruct (server _ _) as [r|e]; cbn.
  - unfold raise_for_status. destruct (_ && _); [|done]. destruct (unreachable _); cbn; [done|].
    by destruct (RequestException _ _).
  - destruct (unreachable e); cbn; [done|]. by destruct (RequestException errors e).
Qed.

Lemma collect_spec l : forall s facts st,
  let answers := imap (fun i fe => (fe.1, fetched (i + r_sent st) fe.2)) l in
  match collected answers s facts with
  | Ok sf => collect l s facts st = (bump_sent (length l) st, Ok sf)
  | Err e => exists k, collect l s facts st = (bump_sent k st, Err e)
  end.
Proof.
  induction l as [|[f ep] l IH]; intros s facts st answers; [by destruct st|].
  assert (collect ((f, ep) :: l) s facts st =
    match fetched (r_sent st) ep with
    | Ok v => collect l s (dset f v facts) (bump_sent 1 st)
    | Err e => if RequestException errors e then collect l RawFacts.FAILED facts (bump_sent 1 st)
               else (bump_sent 1 st, Err e)
    end) as ->.
  { assert (_fetch_rhacs_metric ep st = (bump_sent 1 st, fetched (r_sent st) ep)) as E.
    { unfold _fetch_rhacs_metric, fetched, session_get, ask, mbind, M_bind, res_bind, lift, mret, M_ret. cbn.
      destruct (server _ _) as [r|e]; [|done]. by destruct (raise_for_status r). }
    cbn [collect]. unfold mbind at 1, M_bind at 1, try_M, mbind at 1, M_bind at 1. rewrite E.
    destruct (fetched (r_sent st) ep) as [v|e]; cbn; [done|]. by destruct (RequestException errors e). }
  assert (answers = (f, fetched (r_sent st) ep) ::
            imap (fun i fe => (fe.1, fetched (i + r_sent (bump_sent 1 st)) fe.2)) l) as ->.
  { unfold answers. cbn. f_equal. apply imap_ext. intros i x _. cbn. do 2 f_equal. lia. }
  assert (forall k, bump_sent k (bump_sent 1 st) = bump_sent (S k) st) as Hk.
  { intros k. unfold bump_sent. cbn. f_equal. lia. }
  cbn [collected]. destruct (fetched (r_sent st) ep) as [v|e];
    [specialize (IH s (dset f v facts) (bump_sent 1 st))
    |destruct (RequestException errors e); [specialize (IH RawFacts.FAILED facts (bump_sent 1 st)) | by exists 1%nat]];
    cbn zeta in IH; (destruct (collected _ _ _) as [sf|e']; [by rewrite IH, Hk | destruct IH as [k ->]; exists (S k); by rewrite Hk]).
Qed.

Lemma connected_status n s : connected n = Ok s -> s <> NO_STATUS.
Proof.
  unfold connected. destruct (_ ≫= _) as [r|e]; [intros [= <-]; by destruct (_ =? _)|].
  destruct (unreachable e); [by intros [= <-]|]. by destruct (RequestException errors e); [intros [= <-]|].
Qed.

Lemma collected_status l s facts s' facts' : collected l s facts = Ok (s', facts') ->
  s' = if forallb (fun fr => is_ok fr.2) l then s else RawFacts.FAILED.
Proof.
  revert s facts. induction l as [|[f [v|e]] l IH]; intros s facts; cbn; [by intros [= <- <-] | apply IH|].
  destruct (RequestException errors e); [|done]. intros H. apply IH in H. rewrite H. by destruct (forallb _ l).
Qed.

Section specs.
Context (tid : Z) (host : string) (c : Sources.credential) (Hsingle : single src host c).

Lemma rhacs_connection_spec st : ready tid st ->
  match connected (r_sent st) with
  | Err e => (check_connection st).2 = Err e
  | Ok s => exists st',
      check_connection st = (st', Ok (if bool_decide (s = RawFacts.SUCCESS) then (Some success_message, COMPLETED)
                                      else (Some failure_message, ScanModel.FAILED))) /\
      effect tid st st' [] [mkconn host s (Some (c_id c))] /\
      t_stats (r_task st') = count_status s (mkstats 1 0 0 0) /\ r_sent st' = S (r_sent st)
  end.
Proof.
  intros R. destruct (update_spec tid (Some 1) (Some 0) (Some 0) (Some 0) st R) as (st1 & E1 & F1 & T1 & N1).
  unfold check_connection, _init_connection_stats. rewrite (bind_ok _ _ _ _ _ E1).
  pose proof (connection_eq st1) as Hc. rewrite N1 in Hc. destruct (connected (r_sent st)) as [s|e] eqn:Es.
  2:{ by rewrite (bind_err _ _ _ _ _ Hc). }
  rewrite (bind_ok _ _ _ _ _ Hc).
  destruct (save_conn_spec src credential_row tid host c s (bump_sent 1 st1) Hsingle) as (st2 & E2 & F2 & T2 & N2);
    [by apply ready_sent, F1 | by eapply connected_status|].
  exists st2. rewrite (bind_ok _ _ _ _ _ E2). split; [done|]. split; [|split].
  - exact (effect_trans _ _ _ _ _ _ _ _ (effect_sent _ 1 _ _ _ _ F1) F2).
  - rewrite T2. cbn. by rewrite T1.
  - rewrite N2. cbn. by rewrite N1.
Qed.

Lemma inspect_spec st : ready tid st ->
  let answers := imap (fun i fe => (fe.1, fetched (i + r_sent st) fe.2)) collectable_facts in
  match collected answers RawFacts.SUCCESS [] with
  | Err e => exists k, inspect st = (bump_sent k st, Err e)
  | Ok (s, facts) => exists st',
      inspect st = (st', Ok (if negb (systems_scanned (t_stats (r_task st')) =? 0) then (Some success_message, COMPLETED)
                             else (Some failure_message, ScanModel.FAILED))) /\
      effect tid st st' [(host, s, facts)] [] /\ t_stats (r_task st') = count_status s (t_stats (r_task st))
  end.
Proof.
  intros R answers. pose proof (collect_spec collectable_facts RawFacts.SUCCESS [] st) as H. cbn zeta in H.
  fold answers in H. unfold inspect.
  destruct (collected answers RawFacts.SUCCESS []) as [[s facts]|e] eqn:Ec.
  2:{ destruct H as [k H]. exists k. by rewrite (bind_err _ _ _ _ _ H). }
  rewrite (bind_ok _ _ _ _ _ H).
  destruct (save_results_spec source_key src server_id server_version tid host c s facts
    (bump_sent (length collectable_facts) st) Hsingle) as (st2 & E2 & F2 & T2 & N2).
  { by apply ready_sent. }
  { rewrite (collected_status _ _ _ _ _ Ec). by destruct (forallb _ _). }
  exists st2. rewrite (bind_ok _ _ _ _ _ E2). split; [done|]. split; [|done].
  pose proof (effect_trans _ _ _ _ _ _ _ _ (effect_sent _ (length collectable_facts) _ _ _ _ (effect_refl _ _ R)) F2) as F.
  exact F.
Qed.
End specs.

(** ** Properties *)

Definition answers : list (string * Res pyval) :=
  imap (fun i fe => (fe.1, fetched (i + 1) fe.2)) collectable_facts.

(** The whole inspection of a RHACS server.  The connection result tells how the
    status request ended.  Unless it succeeded the task fails with no result.  If it
    did, there is one result with the facts that could be fetched, failed when one
    could not; but the task is always completed, also when no fact was fetched, since
    the connection already counted the system as scanned: a failed inspection is
    reported as a success, and a good one counts two systems of one. *)
Theorem rhacs_inspection_spec t d tb host c :
  single src host c -> wf_store tb -> tasks d !! t_id t = Some t ->
  let st := start_state t d tb in
  match execute_task st, connected 0 with
  | (st', r), Err e => r = Err e
  | (st', r), Ok RawFacts.SUCCESS =>
      match collected answers RawFacts.SUCCESS [] with
      | Err e => r = Err e /\ effect (t_id t) st st' [] [mkconn host RawFacts.SUCCESS (Some (c_id c))]
      | Ok (s, facts) =>
          r = Ok (Some success_message, COMPLETED) /\
          effect (t_id t) st st' [(host, s, facts)] [mkconn host RawFacts.SUCCESS (Some (c_id c))] /\
          s = (if forallb (fun fr => is_ok fr.2) answers then RawFacts.SUCCESS else RawFacts.FAILED) /\
          t_stats (r_task st') = count_status s (mkstats 1 1 0 0)
      end
  | (st', r), Ok s =>
      r = Ok (Some failure_message, ScanModel.FAILED) /\
      effect (t_id t) st st' [] [mkconn host s (Some (c_id c))] /\
      t_stats (r_task st') = count_status s (mkstats 1 0 0 0)
  end.
Proof.
  intros Hs W Ht st. pose proof (start_ready t d tb W Ht) as R.
  pose proof (rhacs_connection_spec (t_id t) host c Hs st R) as Hc. change (r_sent st) with 0%nat in Hc.
  unfold execute_task. destruct (connected 0) as [s|e] eqn:E0.
  2:{ destruct (check_connection st) as [st1 r] eqn:E1. cbn in Hc. subst r. by rewrite (bind_err _ _ _ _ _ E1). }
  destruct Hc as (st1 & E1 & F1 & T1 & N1). rewrite (bind_ok _ _ _ _ _ E1).
  destruct (decide (s = RawFacts.SUCCESS)) as [->|Hne].
  - pose proof (inspect_spec (t_id t) host c Hs st1 (ef_ready _ _ _ _ _ F1)) as Hi. cbn zeta in Hi.
    rewrite N1 in Hi. fold answers in Hi. rewrite (bool_decide_eq_true_2 (_ = _)) by done. cbn [snd].
    rewrite (bool_decide_eq_false_2 (COMPLETED <> COMPLETED)) by (intros H; by apply H).
    destruct (collected answers RawFacts.SUCCESS []) as [[s facts]|e] eqn:Ec.
    + destruct Hi as (st2 & -> & F2 & T2). split; [|split; [|split]].
      * rewrite T2, T1. by destruct s.
      * exact (effect_trans _ _ _ _ _ _ _ _ F1 F2).
      * exact (collected_status _ _ _ _ _ Ec).
      * by rewrite T2, T1.
    + destruct Hi as [k ->]. split; [done|]. by apply effect_sent.
  - rewrite (bool_decide_eq_false_2 (s = _)) by done. cbn. by destruct s.
Qed.
End runner.

(** RHACS is a runner of the flow. *)
#[export] Instance rhacs_runner server errors source_key src row server_id version tb :
  TaskRunner (executor_of (execute_task server errors source_key src row server_id version) tb).
Proof. apply stats_only_runner, executor_keeps. intros t d. apply keeps_rhacs. Qed.

(** A server that answers the status request and nothing else. *)
Definition sample_errors : error_classes := mkerrors (fun e => match e with HTTPError _ => true | _ => false end)
  (fun _ => false) (fun _ => false) (fun _ => false).
Definition broken_server (n : nat) (q : http_get) : Res response :=
  Ok (match n with 0%nat => mkresponse 200 (Ok (VDict [])) | _ => mkresponse 500 (Ok VNone) end).

Lemma rhacs_inspection_spec_witness : exists st',
  execute_task broken_server sample_errors 10 (sample_source "rhacs") (fun _ => []) "id" "1"
    (start_state sample_task sample_db sample_store) = (st', Ok (Some success_message, COMPLETED)) /\
  rows 7 st' = [("10.0.0.1", RawFacts.FAILED, [])] /\ t_stats (r_task st') = mkstats 1 1 1 0.
Proof.
  pose proof (rhacs_inspection_spec broken_server sample_errors 10 (sample_source "rhacs") (fun _ => []) "id" "1"
    sample_task sample_db sample_store "10.0.0.1" _ (sample_single "rhacs") sample_store_wf eq_refl) as H.
  cbn zeta in H. destruct (execute_task _ _ _ _ _ _ _ _) as [st' r]. hnf in H.
  destruct H as (-> & Hf & _ & Hs). exists st'. split; [reflexivity|]. split; [exact (ef_rows _ _ _ _ _ Hf) | exact Hs].
Defined.

End Rhacs.
