(* ===== verification/AnsibleController.v ===== *)
(** Inspection of Ansible Automation Platform: [scanner/ansible/runner.py],
    [scanner/ansible/inspect.py] and the pagination of [scanner/ansible/api.py].

    The controller is one system.  Its facts are the details of the instance, the
    hosts of its inventory, the hosts that jobs ran on (from the host metrics, or
    from the events of all jobs) and how the two compare.

    The pages after the first are fetched by threads; [completion] is the order in
    which they complete.  A set is a list without repetition. *)
From stdpp Require Import base gmap sets list strings sorting.
From Stdlib Require Import ZArith Lia.
From S2P Require Import HashicorpVault.
From S2P Require Import Prelude PyStr PyNum PyVal Sources RawFacts ScanModel ScanFlow TaskStats RemoteTask HttpSession.

Open Scope string_scope.
Open Scope Z_scope.

Module Ansible.

Definition success_message : string := "Task 'InspectTaskRunner' completed!".
Definition failure_message : string := "Task 'InspectTaskRunner' failed!".

Definition HOST_METRICS_FALLBACK_HTTP_STATUSES : list Z := [401; 403; 404].
Definition HOST_FIELDS : list string := ["name"; "id"; "created"; "modified"; "last_job"].

Record AAP_ENDPOINTS := mkendpoints {
  me : pyval;
  ping : pyval;
  hosts : pyval;
  jobs : pyval;
  host_metrics : pyval }.

Definition AnsibleApiDetectionError : exn := OtherException "AnsibleApiDetectionError".
Definition is_detection_error (e : exn) : bool :=
  match e with OtherException n => bool_decide (n = "AnsibleApiDetectionError") | _ => false end.
Definition is_key_error (e : exn) : bool := match e with KeyError _ => true | _ => false end.
(** The [HTTPError]s that mean that the host metrics cannot be used. *)
Definition falls_back (e : exn) : bool :=
  match e with HTTPError status => bool_decide (status ∈ HOST_METRICS_FALLBACK_HTTP_STATUSES) | _ => false end.

(** A URL given to the session, which joins it to its base. *)
Definition url_of (v : pyval) : Res string :=
  match v with
  | VStr s => Ok s
  | v => if truthy v then Err TypeError else Ok ""
  end.

Definition set_union (s1 s2 : list pyval) : list pyval :=
  (s1 ++ List.filter (fun x => negb (py_in x s1)) s2)%list.

(** [unique_hosts -= {"", None}] *)
Definition drop_garbage (s : list pyval) : list pyval :=
  List.filter (fun x => negb (py_in x [VStr ""; VNone])) s.

Section runner.
Context (server : nat -> http_get -> Res response) (errors : error_classes).
Context (completion : list Z -> list Z).
(** [settings.QUIPUCORDS_AAP_USE_HOST_METRICS] *)
Context (AAP_USE_HOST_METRICS : bool).
Context (source_key : Z) (src : Sources.source) (credential_row : Z -> pydict) (server_id server_version : string).

(** [decrypt_data_as_unicode] and [read_vault_secret], external. *)
Definition _get_connection_info (decrypt read_vault_secret : pyval -> Res pyval) : Res pydict :=
  host ← system_name src;
  let '(ssl_enabled, ssl_verify) := get_ssl_options src in
  credential ← single_credential src credential_row;
  let conn := [("host", host); ("port", get "port" src); ("protocol", VStr (if ssl_enabled then "https" else "http"));
               ("ssl_verify", ssl_verify); ("proxy_url", get "proxy_url" src)] in
  if truthy (dget_none "vault_secret_path" credential.2) then
    token ← read_vault_secret (VDict credential.2); Ok (dset "auth_token" token conn)
  else
    password ← decrypt (dget_none "password" credential.2);
    Ok (dset "password" password (dset "username" (dget_none "username" credential.2) conn)).

(** ** Pagination *)

Definition as_number (v : pyval) : Res Z :=
  match v with VInt z => Ok z | VBool b => Ok (b2z b) | _ => Err TypeError end.

Definition page_size_of (first_page : pyval) : Res Z :=
  results ← getitem first_page "results"; items ← py_iter results; Ok (Z.of_nat (length items)).

(** [_get_page_params]: the numbers of the other pages.  The float quotient of the
    code is exact up to 2^53 results. *)
Definition _get_page_params (first_page : pyval) : Res (list Z) :=
  page_size ← page_size_of first_page;
  count ← vget_default first_page "count" (VInt 0);
  total_count ← as_number count;
  if 0 <? total_count then
    if page_size =? 0 then Err ZeroDivisionError
    else let total_pages := - ((- total_count) / page_size) in Ok (seqZ 2 (total_pages - 1))
  else Ok [].

Definition page_params (page_size page : Z) : pydict := [("page_size", VInt page_size); ("page", VInt page)].

(** [get_paginated_results], a generator: [f] is the body of the loop that consumes
    it, [a] what the loop computes. *)
Definition get_paginated_results {A} (url : string) (f : A -> pyval -> M A) (a : A) : M A :=
  first_page ← get_json server url [];
  items ← lift (results ← getitem first_page "results"; py_iter results);
  a ← fold_M f a items;
  next ← lift (getitem first_page "next");
  if truthy next then
    pages ← lift (_get_page_params first_page);
    page_size ← lift (page_size_of first_page);
    fold_M (fun a page =>
      body ← get_json server url (page_params page_size page);
      items ← lift (results ← vget_default body "results" (VList []); py_iter results);
      fold_M f a items) a (completion pages)
  else mret a.

(** ** The connection *)

(** The requests inside the [try] of [_detect_ansible_endpoints]. *)
Definition find_endpoints : M AAP_ENDPOINTS :=
  ctrl_ep ← get_json server "/api/" [];
  ctrl_apis ← lift (vget ctrl_ep "apis");
  ctrl_ep ← (if truthy ctrl_apis
             then url ← lift (u ← getitem ctrl_apis "controller"; url_of u); get_json server url []
             else mret ctrl_ep);
  v2_ctrl_url ← lift (vs ← getitem ctrl_ep "available_versions"; u ← getitem vs "v2"; url_of u);
  v2_ctrl_ep ← get_json server v2_ctrl_url [];
  lift (
    me ← getitem v2_ctrl_ep "me";
    ping ← getitem v2_ctrl_ep "ping";
    hosts ← getitem v2_ctrl_ep "hosts";
    jobs ← getitem v2_ctrl_ep "jobs";
    host_metrics ← vget v2_ctrl_ep "host_metrics";
    Ok (mkendpoints me ping hosts jobs host_metrics)).

Definition _detect_ansible_endpoints : M AAP_ENDPOINTS :=
  try_M find_endpoints is_key_error (fun _ => raise AnsibleApiDetectionError).

(** The endpoints and the connection result; without success the endpoints are not
    used. *)
Definition connection_result : M (option AAP_ENDPOINTS * result_status) :=
  try_M (
    endpoints ← _detect_ansible_endpoints;
    url ← lift (url_of (me endpoints));
    _ ← session_get server url [] true;
    mret (Some endpoints, RawFacts.SUCCESS))
    (fun e => RequestException errors e || is_detection_error e)
    (fun e => mret (None, if RequestException errors e && RequestConnError errors e
                          then RawFacts.UNREACHABLE else RawFacts.FAILED)).

Definition check_connection : M (option AAP_ENDPOINTS * outcome) :=
  _ ← _init_connection_stats;
  conn ← connection_result;
  _ ← save_conn_result src credential_row conn.2;
  mret (conn.1, if bool_decide (conn.2 = RawFacts.SUCCESS) then (Some success_message, COMPLETED)
                else (Some failure_message, ScanModel.FAILED)).

(** ** The facts *)

Section inspect.
Context (endpoints : AAP_ENDPOINTS).

Definition parse_host (host : pyval) : Res pyval :=
  parsed ← mapM (fun field => v ← vget host field; Ok (field, v)) HOST_FIELDS;
  Ok (VDict (dset "host_id" (dget_none "id" parsed) (dpop "id" parsed))).

Definition get_hosts : M (list pyval) :=
  url ← lift (url_of (hosts endpoints));
  get_paginated_results url (fun hosts host => h ← lift (parse_host host); mret (hosts ++ [h])%list) [].

Definition get_instance_details : M pyval :=
  url ← lift (url_of (ping endpoints));
  data ← get_json server url [];
  lift (
    active_node ← vget data "active_node";
    name ← (if truthy active_node then Ok active_node else system_name src);
    match data with VDict d => Ok (VDict (dset "system_name" name d)) | _ => Err TypeError end).

(** [urljoin] of a directory and a relative reference that begins with an id. *)
Definition jobs_url (jobs_ep : string) (job_id : pyval) : string :=
  (if str_endswith "/" jobs_ep then jobs_ep else jobs_ep +:+ "/") +:+ py_str job_id +:+
  "/job_events/?event=runner_on_start".

Definition get_hosts_from_job_events (job_id : pyval) : M (list pyval) :=
  jobs_ep ← lift (as_str "endswith" (jobs endpoints));
  unique_hosts ← get_paginated_results (jobs_url jobs_ep job_id)
    (fun s event => lift (h ← getitem event "host_name"; vset_add h s)) [];
  mret (drop_garbage unique_hosts).

(** [get_jobs]: the ids and the unique hosts. *)
Definition get_jobs : M (list pyval * list pyval) :=
  url ← lift (url_of (jobs endpoints));
  get_paginated_results url (fun acc job =>
    job_id ← lift (getitem job "id");
    found ← get_hosts_from_job_events job_id;
    mret ((acc.1 ++ [job_id])%list, set_union acc.2 found)) ([], []).

Definition get_unique_hosts_from_metrics : M (list pyval) :=
  url ← lift (url_of (host_metrics endpoints));
  unique_hosts ← get_paginated_results url (fun s metric =>
    lift (hostname ← vget metric "hostname"; if truthy hostname then vset_add hostname s else Ok s)) [];
  mret (drop_garbage unique_hosts).

Definition jobs_fact (job_ids unique_hosts : list pyval) : Res pyval :=
  sorted ← py_sorted unique_hosts;
  Ok (VDict [("job_ids", VList job_ids); ("unique_hosts", VList sorted)]).

Definition from_jobs : M pyval :=
  jobs_data ← get_jobs;
  lift (jobs_fact jobs_data.1 jobs_data.2).

Definition get_jobs_fact : M pyval :=
  if AAP_USE_HOST_METRICS && truthy (host_metrics endpoints) then
    try_M (unique_hosts ← get_unique_hosts_from_metrics; lift (jobs_fact [] unique_hosts))
      falls_back (fun _ => from_jobs)
  else from_jobs.

(** [compare_hosts]; a set of names, sorted as [RawFactEncoder] stores it. *)
Definition names_of (hosts : list pyval) : Res (list pyval) :=
  foldM (fun s host => name ← getitem host "name"; vset_add name s) [] hosts.

Definition compare_hosts (data : pydict) : Res pyval :=
  hosts ← dget_exn "hosts" data;
  inventory ← py_iter hosts;
  hosts_in_inventory ← names_of inventory;
  jobs ← dget_exn "jobs" data;
  unique_hosts ← getitem jobs "unique_hosts";
  unique_hosts ← py_iter unique_hosts;
  hosts_in_jobs ← foldM (fun s h => vset_add h s) [] unique_hosts;
  let hosts_not_in_inventory := List.filter (fun h => negb (py_in h hosts_in_inventory)) hosts_in_jobs in
  in_inventory ← py_sorted hosts_in_inventory;
  only_in_jobs ← py_sorted hosts_not_in_inventory;
  Ok (VDict [("hosts_in_inventory", VList in_inventory);
             ("hosts_only_in_jobs", VList only_in_jobs);
             ("number_of_hosts_in_inventory", VInt (Z.of_nat (length hosts_in_inventory)));
             ("number_of_hosts_only_in_jobs", VInt (Z.of_nat (length hosts_not_in_inventory)))]).

(** One fact: collected, or the inspection has failed. *)
Definition collect (fact : string) (method : M pyval) (acc : result_status * pydict) : M (result_status * pydict) :=
  try_M (v ← method; mret (acc.1, dset fact v acc.2)) (RequestException errors)
    (fun _ => mret (RawFacts.FAILED, acc.2)).

Definition collect_all : M (result_status * pydict) :=
  acc ← collect "instance_details" get_instance_details (RawFacts.SUCCESS, []);
  acc ← collect "hosts" (l ← get_hosts; mret (VList l)) acc;
  acc ← collect "jobs" get_jobs_fact acc;
  if bool_decide (acc.1 = RawFacts.SUCCESS)
  then comparison ← lift (compare_hosts acc.2); mret (acc.1, dset "comparison" comparison acc.2)
  else mret acc.

Definition inspect : M outcome :=
  acc ← collect_all;
  _ ← save_results source_key src server_id server_version acc.1 acc.2;
  scanned ← gets (fun st => systems_scanned (t_stats (r_task st)));
  mret (if negb (scanned =? 0) then (Some success_message, COMPLETED) else (Some failure_message, ScanModel.FAILED)).
End inspect.

Definition execute_task : M outcome :=
  r ← check_connection;
  if bool_decide (r.2.2 <> COMPLETED) then mret r.2
  else match r.1 with
       | Some endpoints => inspect endpoints
       | None => raise (AttributeError "ping")
       end.

(** ** Lemmas *)

Lemma reads_paginated {A} url (f : A -> pyval -> M A) a : (forall a x, reads (f a x)) ->
  reads (get_paginated_results url f a).
Proof. intros H. pose proof @reads_fold. unfold get_paginated_results. reads; by repeat apply reads_fold; intros; reads. Qed.

Lemma reads_connection : reads connection_result.
Proof. unfold connection_result, _detect_ansible_endpoints, find_endpoints. reads. Qed.

Lemma reads_collect fact m acc : reads m -> reads (collect fact m acc).
Proof. intros H. unfold collect. reads. Qed.

Lemma reads_jobs ep : reads (get_jobs_fact ep).
Proof.
  assert (reads (from_jobs ep)) as Hj.
  { unfold from_jobs, get_jobs. apply reads_bind; [|reads]. apply reads_bind; [reads|]. intros url. apply reads_paginated.
    intros a x. unfold get_hosts_from_job_events. apply reads_bind; [reads|]. intros id. apply reads_bind; [|reads].
    apply reads_bind; [reads|]. intros jobs_ep. apply reads_bind; [|reads]. apply reads_paginated. reads. }
  unfold get_jobs_fact, get_unique_hosts_from_metrics. case_match; [|done]. apply reads_try; [|done].
  apply reads_bind; [|reads]. apply reads_bind; [reads|]. intros url. apply reads_bind; [|reads]. apply reads_paginated. reads.
Qed.

Lemma reads_collect_all ep : reads (collect_all ep).
Proof.
  unfold collect_all. pose proof reads_jobs ep. apply reads_bind.
  { apply reads_collect. unfold get_instance_details. reads. }
  intros a1. apply reads_bind.
  { apply reads_collect. apply reads_bind; [|reads]. unfold get_hosts. apply reads_bind; [reads|]. intros url.
    apply reads_paginated. reads. }
  intros a2. apply reads_bind; [by apply reads_collect|]. reads.
Qed.

Lemma keeps_ansible t d : keeps (only_stats t d) execute_task.
Proof.
  pose proof (keeps_reads t d _ reads_connection). pose proof (fun ep => keeps_reads t d _ (reads_collect_all ep)).
  unfold execute_task, check_connection, inspect, _init_connection_stats. keeps.
Qed.

(** *** Sets of names *)

Lemma py_in_str h l : py_in (VStr h) l = true <-> VStr h ∈ l.
Proof.
  unfold py_in. rewrite existsb_exists. split.
  - intros (x & Hin & Hx). apply list_elem_of_In in Hin. destruct x; try done.
    rewrite py_eq_str in Hx. by apply bool_decide_eq_true in Hx as ->.
  - intros H. exists (VStr h). split; [by apply list_elem_of_In|]. rewrite py_eq_str. by apply bool_decide_eq_true_2.
Qed.

Lemma vset_add_spec x s s' h : vset_add x s = Ok s' -> VStr h ∈ s' <-> VStr h ∈ s \/ x = VStr h.
Proof.
  unfold vset_add. destruct (negb _); [done|]. intros [= <-]. destruct (py_in x s) eqn:E.
  - split; [by left|]. intros [H| ->]; [done|]. by apply py_in_str.
  - rewrite elem_of_app, list_elem_of_singleton. naive_solver.
Qed.

Lemma set_fold l : forall s s' h, foldM (fun s x => vset_add x s) s l = Ok s' -> VStr h ∈ s' <-> VStr h ∈ s \/ VStr h ∈ l.
Proof.
  induction l as [|x l IH]; intros s s' h; cbn; [intros [= <-]; rewrite elem_of_nil; tauto|].
  intros (s1 & H1 & H2)%bind_Ok. rewrite (IH _ _ _ H2), (vset_add_spec _ _ _ _ H1), elem_of_cons. naive_solver.
Qed.

Definition named (h : string) (inventory : list pyval) : Prop :=
  exists host, host ∈ inventory /\ getitem host "name" = Ok (VStr h).

Lemma names_spec l : forall s s' h, foldM (fun s host => name ← getitem host "name"; vset_add name s) s l = Ok s' ->
  VStr h ∈ s' <-> VStr h ∈ s \/ named h l.
Proof.
  induction l as [|x l IH]; intros s s' h; cbn; unfold named in *.
  { intros [= <-]. setoid_rewrite elem_of_nil. naive_solver. }
  intros (s1 & (n & Hn & H1)%bind_Ok & H2)%bind_Ok. rewrite (IH _ _ _ H2), (vset_add_spec _ _ _ _ H1).
  setoid_rewrite elem_of_cons. split; [intros [[?| ->]|?]; naive_solver|]. intros [?|(y & [->|Hy] & E)]; [tauto | | eauto].
  left. right. congruence.
Qed.

Lemma py_sorted_perm l l' : py_sorted l = Ok l' -> l' ≡ₚ l.
Proof.
  unfold py_sorted. destruct l as [|a [|b l]]; [by intros [= <-] | by intros [= <-]|].
  destruct (texts (a :: b :: l)) as [ss|] eqn:E.
  - intros [= <-]. unfold texts in E. apply mapM_Some in E. rewrite sorted_perm.
    assert (forall l ss, Forall2 (fun v s => match v with VStr s => Some s | _ => None end = Some s) l ss -> VStr <$> ss = l) as H.
    { intros l0 ss0. induction 1 as [|x y ? ? Hxy _ IH]; [done|]. cbn. rewrite IH. by destruct x; try done; injection Hxy as ->. }
    by rewrite (H _ _ E).
  - destruct (forallb _ _); [|done]. intros [= <-]. apply merge_sort_Permutation.
Qed.

(** *** Pages *)

(** The elements of a page, pages counted from one. *)
Definition slice (l : list pyval) (page_size page : Z) : list pyval :=
  take (Z.to_nat page_size) (drop (Z.to_nat ((page - 1) * page_size)) l).

Definition int_param (k : string) (dflt : Z) (q : http_get) : Z :=
  match dget k (get_params q) with Some (VInt z) => z | _ => dflt end.

(** The page of [l] that is asked for, of [dflt] elements when no size is given. *)
Definition page_body (l : list pyval) (dflt : Z) (q : http_get) : pyval :=
  let page_size := int_param "page_size" dflt q in
  let page := int_param "page" 1 q in
  VDict [("count", VInt (Z.of_nat (length l)));
         ("next", if page * page_size <? Z.of_nat (length l) then VStr "next" else VNone);
         ("results", VList (slice l page_size page))].

Definition serves (url : string) (l : list pyval) (dflt : Z) : Prop :=
  forall n q, get_url q = url -> server n q = Ok (mkresponse 200 (Ok (page_body l dflt q))).

Lemma get_json_served url l dflt params st : serves url l dflt ->
  get_json server url params st = (bump_sent 1 st, Ok (page_body l dflt (mkget url params))).
Proof.
  intros H. unfold get_json, session_get. unfold mbind, M_bind, ask. rewrite H by done. done.
Qed.

Definition append (a : list pyval) (x : pyval) : M (list pyval) := mret (a ++ [x])%list.

Lemma fold_append l : forall a st, fold_M append a l st = (st, Ok (a ++ l)%list).
Proof.
  induction l as [|x l IH]; intros a st; cbn [fold_M]; [by rewrite app_nil_r|].
  rewrite (bind_ok _ _ _ st (a ++ [x])%list) by done. by rewrite IH, <-app_assoc.
Qed.

(** The body of the loop over the pages. *)
Definition take_page (url : string) (page_size : Z) (a : list pyval) (page : Z) : M (list pyval) :=
  body ← get_json server url (page_params page_size page);
  items ← lift (results ← vget_default body "results" (VList []); py_iter results);
  fold_M append a items.

Lemma take_page_served url l dflt p a st : serves url l dflt ->
  take_page url dflt a p st = (bump_sent 1 st, Ok (a ++ slice l dflt p)%list).
Proof.
  intros H. unfold take_page. rewrite (bind_ok _ _ _ _ _ (get_json_served url l dflt (page_params dflt p) st H)).
  rewrite (bind_ok _ _ _ (bump_sent 1 st) (slice l dflt p)) by done. apply fold_append.
Qed.

Lemma fold_pages url l dflt pages : serves url l dflt -> forall a st,
  fold_M (take_page url dflt) a pages st
  = (bump_sent (length pages) st, Ok (a ++ concat (slice l dflt <$> pages))%list).
Proof.
  intros H. induction pages as [|p pages IH]; intros a st; cbn [fold_M].
  { by rewrite app_nil_r, bump_sent_0. }
  rewrite (bind_ok _ _ _ _ _ (take_page_served url l dflt p a st H)), IH, bump_bump. cbn [length fmap list_fmap concat].
  by rewrite <-app_assoc, Nat.add_1_r.
Qed.

Lemma concat_slices l dflt n : 0 <= dflt -> forall p, 1 <= p ->
  concat (slice l dflt <$> seqZ p (Z.of_nat n)) = take (n * Z.to_nat dflt) (drop (Z.to_nat ((p - 1) * dflt)) l).
Proof.
  intros Hd. induction n as [|n IH]; intros p Hp; [done|].
  rewrite seqZ_cons by lia. cbn [fmap list_fmap concat]. replace (Z.pred (Z.of_nat (S n))) with (Z.of_nat n) by lia.
  rewrite IH by lia. unfold slice.
  replace (Z.to_nat ((Z.succ p - 1) * dflt)) with (Z.to_nat ((p - 1) * dflt) + Z.to_nat dflt)%nat by nia.
  rewrite <-drop_drop. replace (S n * Z.to_nat dflt)%nat with (Z.to_nat dflt + n * Z.to_nat dflt)%nat by lia.
  set (l' := drop _ l). by rewrite <-(take_take_drop l').
Qed.

Lemma concat_fmap_perm {A B} (f : A -> list B) l1 l2 : l1 ≡ₚ l2 -> concat (f <$> l1) ≡ₚ concat (f <$> l2).
Proof.
  induction 1 as [|x l1 l2 _ IH|x y l|l1 l2 l3 _ IH1 _ IH2]; cbn; [done | by apply Permutation_app_head | |].
  - rewrite !app_assoc. apply Permutation_app_tail, Permutation_app_comm.
  - by etransitivity.
Qed.

Lemma first_page l dflt : 0 < dflt -> slice l dflt 1 = take (Z.to_nat dflt) l.
Proof. intros H. unfold slice. by rewrite Z.sub_diag, Z.mul_0_l. Qed.

Lemma pages_of_served url l dflt : 0 < dflt -> dflt < Z.of_nat (length l) ->
  _get_page_params (page_body l dflt (mkget url [])) = Ok (seqZ 2 (- ((- Z.of_nat (length l)) / dflt) - 1)) /\
  page_size_of (page_body l dflt (mkget url [])) = Ok dflt.
Proof.
  intros H1 H2.
  assert (page_size_of (page_body l dflt (mkget url [])) = Ok dflt) as E.
  { change (page_size_of _) with (Ok (Z.of_nat (length (slice l dflt 1)))).
    rewrite first_page, length_take by done. f_equal. lia. }
  split; [|done]. unfold _get_page_params. rewrite E.
  change (vget_default _ "count" _) with (Ok (VInt (Z.of_nat (length l)))). cbn [mbind res_bind as_number].
  destruct (0 <? Z.of_nat (length l)) eqn:E1; [|apply Z.ltb_ge in E1; lia].
  destruct (dflt =? 0) eqn:E2; [apply Z.eqb_eq in E2; lia | done].
Qed.

(** The other pages hold the rest. *)
Lemma rest_of_pages l dflt : 0 < dflt -> dflt < Z.of_nat (length l) ->
  concat (slice l dflt <$> seqZ 2 (- ((- Z.of_nat (length l)) / dflt) - 1)) = drop (Z.to_nat dflt) l.
Proof.
  intros H1 H2. set (n := length l) in *.
  pose proof (Z.div_mod (- Z.of_nat n) dflt ltac:(lia)) as Hd. pose proof (Z.mod_pos_bound (- Z.of_nat n) dflt H1) as Hm.
  set (q := (- Z.of_nat n) / dflt) in *. assert (0 <= - q - 1) as Hq by nia.
  replace (- q - 1) with (Z.of_nat (Z.to_nat (- q - 1))) by lia. rewrite concat_slices by lia.
  replace ((2 - 1) * dflt) with dflt by lia. apply take_ge. rewrite length_drop. fold n. nia.
Qed.

(** *** The inspection *)

(** What the connection should come to: the endpoints, a connection result, or an
    exception that is not caught. *)
Definition refused (e : exn) : Res (AAP_ENDPOINTS + result_status) :=
  if RequestException errors e then Ok (inr (if RequestConnError errors e then RawFacts.UNREACHABLE else RawFacts.FAILED))
  else if is_detection_error e then Ok (inr RawFacts.FAILED) else Err e.

Definition connection_answer (st : rstate) : Res (AAP_ENDPOINTS + result_status) :=
  match find_endpoints st with
  | (_, Err (KeyError _)) => Ok (inr RawFacts.FAILED)
  | (_, Err e) => refused e
  | (st, Ok endpoints) =>
      match (url ← lift (url_of (me endpoints)); session_get server url [] true) st with
      | (_, Ok _) => Ok (inl endpoints)
      | (_, Err e) => refused e
      end
  end.

Lemma connection_result_spec st : RequestException errors AnsibleApiDetectionError = false ->
  (connection_result st).2 = (answer ← connection_answer st;
    Ok match answer with inl endpoints => (Some endpoints, RawFacts.SUCCESS) | inr s => (None, s) end).
Proof.
  intros Hd. assert (forall e : exn, is_key_error e = true -> exists k, e = KeyError k) as Hk
    by (intros []; try done; by eexists).
  unfold connection_result, connection_answer, _detect_ansible_endpoints, try_M, raise, lift, mret, M_ret, mbind, M_bind.
  destruct (find_endpoints st) as [st1 [ep|e]] eqn:E.
  - unfold refused. destruct (url_of (me ep)) as [url|e];
      [destruct (session_get server url [] true st1) as [st2 [r|e]]; [done|]|];
      by destruct (RequestException errors e), (is_detection_error e), (RequestConnError errors e).
  - destruct (is_key_error e) eqn:Ek; [destruct (Hk e Ek) as [k ->]; by rewrite Hd|].
    transitivity (refused e ≫= fun answer : AAP_ENDPOINTS + result_status =>
      Ok match answer with inl endpoints => (Some endpoints, RawFacts.SUCCESS) | inr s => (None, s) end);
      [|by destruct e].
    unfold refused. by destruct (RequestException errors e), (is_detection_error e), (RequestConnError errors e).
Qed.

(** What the three methods give, one after the other. *)
Definition fact_answers (endpoints : AAP_ENDPOINTS) (st : rstate) : Res pyval * Res (list pyval) * Res pyval :=
  let '(st, instance_details) := get_instance_details endpoints st in
  let '(st, hosts) := get_hosts endpoints st in
  (instance_details, hosts, (get_jobs_fact endpoints st).2).

(** The exception of a method that is not caught. *)
Definition escapes {A} (r : Res A) : option exn :=
  match r with Err e => if RequestException errors e then None else Some e | Ok _ => None end.

Definition got (fact : string) (r : Res pyval) : pydict := match r with Ok v => [(fact, v)] | Err _ => [] end.

(** What should be stored: the first exception that is not caught; all facts with the
    comparison when all are there; else those there are, and a failed result. *)
Definition collection (answers : Res pyval * Res (list pyval) * Res pyval) : Res (result_status * pydict) :=
  let '(instance_details, hosts, jobs) := answers in
  match escapes instance_details, escapes hosts, escapes jobs with
  | Some e, _, _ | None, Some e, _ | None, None, Some e => Err e
  | None, None, None =>
      match instance_details, hosts, jobs with
      | Ok details, Ok l, Ok j =>
          let facts := [("instance_details", details); ("hosts", VList l); ("jobs", j)] in
          comparison ← compare_hosts facts; Ok (RawFacts.SUCCESS, (facts ++ [("comparison", comparison)])%list)
      | _, _, _ =>
          Ok (RawFacts.FAILED,
              (got "instance_details" instance_details ++ got "hosts" (VList <$> hosts) ++ got "jobs" jobs)%list)
      end
  end.

Lemma collect_all_spec ep st : (collect_all ep st).2 = collection (fact_answers ep st).
Proof.
  unfold collect_all, collect, fact_answers, collection, escapes, try_M. unfold mbind, M_bind.
  destruct (get_instance_details ep st) as [st1 [v1|e1]]; destruct (get_hosts ep (st1 : rstate)) as [st2 [v2|e2]] eqn:E2;
    destruct (get_jobs_fact ep (st2 : rstate)) as [st3 [v3|e3]] eqn:E3;
    repeat (cbn -[compare_hosts]; rewrite ?E2, ?E3;
      try match goal with
      | H : RequestException errors ?e = _ |- context [RequestException errors ?e] => rewrite H
      | |- context [RequestException errors ?e] => destruct (RequestException errors e) eqn:?
      end);
    try done; generalize compare_hosts; intros compare; clear -compare; lazy; try done; by destruct (compare _).
Qed.

(** What the comparison says of an inventory and the hosts of jobs. *)
Definition compared (inventory unique_hosts : list pyval) (cmp : pyval) : Prop := exists inv only,
  cmp = VDict [("hosts_in_inventory", VList inv); ("hosts_only_in_jobs", VList only);
               ("number_of_hosts_in_inventory", VInt (Z.of_nat (length inv)));
               ("number_of_hosts_only_in_jobs", VInt (Z.of_nat (length only)))] /\
  (forall h, VStr h ∈ inv <-> named h inventory) /\
  (forall h, VStr h ∈ only <-> VStr h ∈ unique_hosts /\ ~ named h inventory).

Lemma compare_spec inst l jobs cmp :
  compare_hosts [("instance_details", inst); ("hosts", VList l); ("jobs", jobs)] = Ok cmp ->
  exists u unique_hosts, getitem jobs "unique_hosts" = Ok u /\ py_iter u = Ok unique_hosts /\ compared l unique_hosts cmp.
Proof.
  unfold compare_hosts. intros H.
  apply bind_Ok in H as (hs & Hh & H). injection Hh as <-. apply bind_Ok in H as (l' & Hl & H). injection Hl as <-.
  apply bind_Ok in H as (inv & Hinv & H). apply bind_Ok in H as (jobs' & Hjobs & H). injection Hjobs as <-.
  apply bind_Ok in H as (u & Hu & H). apply bind_Ok in H as (us & Hus & H). apply bind_Ok in H as (js & Hjs & H).
  apply bind_Ok in H as (inv' & Hi & H). apply bind_Ok in H as (only & Ho & H). injection H as <-.
  exists u, us. split; [done|]. split; [done|].
  pose proof (py_sorted_perm _ _ Hi) as Pi. pose proof (py_sorted_perm _ _ Ho) as Po.
  assert (forall h, VStr h ∈ inv <-> named h l) as Hn.
  { intros h. rewrite (names_spec _ _ _ _ Hinv), elem_of_nil. tauto. }
  exists inv', only. split; [by rewrite (Permutation_length Pi), (Permutation_length Po)|]. split; [intros h; by rewrite Pi|].
  intros h. rewrite Po, elem_of_List_filter, (set_fold _ _ _ _ Hjs), elem_of_nil, negb_true_iff, <-not_true_iff_false,
    py_in_str, Hn. tauto.
Qed.

(** [C18] Pagination loses and doubles nothing: of a server that pages a list, in pages
    of whatever size it prefers, the generator yields all elements, each as often as
    the list has it, in whatever order the threads complete; and in the list's own
    order when they complete in theirs. *)
Theorem paginated_complete url l dflt st :
  0 < dflt -> (forall ps, completion ps ≡ₚ ps) -> serves url l dflt ->
  exists st' l', get_paginated_results url append [] st = (st', Ok l') /\ l' ≡ₚ l /\
    ((forall ps, completion ps = ps) -> l' = l).
Proof.
  intros Hd Hc H. unfold get_paginated_results.
  rewrite (bind_ok _ _ _ _ _ (get_json_served url l dflt [] st H)).
  rewrite (bind_ok _ _ _ (bump_sent 1 st) (slice l dflt 1)) by done.
  rewrite (bind_ok _ _ _ _ _ (fold_append (slice l dflt 1) [] (bump_sent 1 st))). cbn [app].
  set (more := 1 * dflt <? Z.of_nat (length l)).
  rewrite (bind_ok _ _ _ (bump_sent 1 st) (if more then VStr "next" else VNone)) by done.
  rewrite first_page by done. destruct more eqn:Em; unfold more in Em; cbn [truthy negb].
  - apply Z.ltb_lt in Em. rewrite Z.mul_1_l in Em. destruct (pages_of_served url l dflt Hd Em) as [Ep Es].
    rewrite bool_decide_eq_false_2 by done. cbn [negb].
    rewrite (bind_ok _ _ _ (bump_sent 1 st) _) by (unfold lift; by rewrite Ep).
    rewrite (bind_ok _ _ _ (bump_sent 1 st) _) by (unfold lift; by rewrite Es).
    change (fold_M _ ?a ?ps) with (fold_M (take_page url dflt) a ps). rewrite (fold_pages url l dflt _ H).
    eexists _, _. split; [done|].
    assert (take (Z.to_nat dflt) l ++ concat (slice l dflt <$> seqZ 2 (- ((- Z.of_nat (length l)) / dflt) - 1)) = l)%list as E.
    { by rewrite rest_of_pages, take_drop. }
    split; [|intros Hi; by rewrite Hi]. transitivity (take (Z.to_nat dflt) l ++ concat (slice l dflt <$> seqZ 2 (- ((- Z.of_nat (length l)) / dflt) - 1)))%list;
      [|by rewrite E].
    apply Permutation_app_head. by apply concat_fmap_perm.
  - apply Z.ltb_ge in Em. rewrite Z.mul_1_l in Em. eexists _, _. split; [done|]. rewrite take_ge by lia. done.
Qed.

Lemma collection_spec answers s facts : collection answers = Ok (s, facts) ->
  (s = RawFacts.SUCCESS /\ exists inst inventory jobs u unique_hosts cmp,
     facts = [("instance_details", inst); ("hosts", VList inventory); ("jobs", jobs); ("comparison", cmp)] /\
     getitem jobs "unique_hosts" = Ok u /\ py_iter u = Ok unique_hosts /\ compared inventory unique_hosts cmp) \/
  s = RawFacts.FAILED.
Proof.
  destruct answers as [[r1 r2] r3]. unfold collection. do 3 (destruct (escapes _); [done|]).
  destruct r1 as [inst|], r2 as [l|], r3 as [j|]; try (intros [= <- _]; by right).
  intros (cmp & Hc & [= <- <-])%bind_Ok. apply compare_spec in Hc as (u & us & Hu & Hus & Hc).
  left. split; [done|]. by exists inst, l, j, u, us, cmp.
Qed.

Lemma connection_answer_status st s : connection_answer st = Ok (inr s) -> s = RawFacts.UNREACHABLE \/ s = RawFacts.FAILED.
Proof.
  assert (forall e, refused e = Ok (inr s) -> s = RawFacts.UNREACHABLE \/ s = RawFacts.FAILED) as H.
  { intros e. unfold refused. by destruct (RequestException errors e), (RequestConnError errors e), (is_detection_error e); intros [= <-]; auto. }
  unfold connection_answer. destruct (find_endpoints st) as [st1 [ep|e]].
  - case_match. by case_match; [|apply H].
  - destruct e; try apply H. intros [= <-]. by right.
Qed.

Definition connection_of (answer : AAP_ENDPOINTS + result_status) : option AAP_ENDPOINTS * result_status :=
  match answer with inl endpoints => (Some endpoints, RawFacts.SUCCESS) | inr s => (None, s) end.

(** The first phase: what was answered decides what is stored. *)
Lemma check_connection_spec tid host c st :
  single src host c -> ready tid st -> RequestException errors AnsibleApiDetectionError = false ->
  match connection_answer (_init_connection_stats st).1 with
  | Err e => exists st', check_connection st = (st', Err e) /\ effect tid st st' [] []
  | Ok answer => let conn := connection_of answer in
      exists st', check_connection st = (st', Ok (conn.1, if bool_decide (conn.2 = RawFacts.SUCCESS)
          then (Some success_message, COMPLETED) else (Some failure_message, ScanModel.FAILED))) /\
        effect tid st st' [] [mkconn host conn.2 (Some (c_id c))] /\
        t_stats (r_task st') = count_status conn.2 (mkstats 1 0 0 0)
  end.
Proof.
  intros Hs R He. destruct (update_spec tid (Some 1) (Some 0) (Some 0) (Some 0) st R) as (st1 & E1 & F1 & T1 & N1).
  assert ((_init_connection_stats st).1 = st1) as -> by (unfold _init_connection_stats; by rewrite E1).
  pose proof (connection_result_spec st1 He) as Hc. destruct (connection_result st1) as [st2 rc] eqn:Ec.
  cbn [snd] in Hc. subst rc. destruct (reads_effect tid _ _ _ _ reads_connection (ef_ready _ _ _ _ _ F1) Ec) as [F2 T2].
  pose proof (effect_trans _ _ _ _ _ _ _ _ F1 F2) as F12. cbn [app] in F12.
  pose proof (connection_answer_status st1) as Hst. unfold check_connection, _init_connection_stats.
  destruct (connection_answer st1) as [answer|e]; cbn [mbind res_bind] in Ec.
  2:{ exists st2. by rewrite (bind_ok _ _ _ _ _ E1), (bind_err _ _ _ _ _ Ec). }
  change (match answer with inl _ => _ | inr _ => _ end) with (connection_of answer) in Ec.
  assert ((connection_of answer).2 <> NO_STATUS) as Hn
    by (destruct answer as [ep|s]; [done | destruct (Hst s eq_refl) as [->| ->]; done]).
  destruct (save_conn_spec src credential_row tid host c (connection_of answer).2 st2 Hs (ef_ready _ _ _ _ _ F2) Hn)
    as (st3 & E3 & F3 & T3 & N3).
  exists st3. rewrite (bind_ok _ _ _ _ _ E1), (bind_ok _ _ _ _ _ Ec), (bind_ok _ _ _ _ _ E3).
  split; [done|]. split; [exact (effect_trans _ _ _ _ _ _ _ _ F12 F3)|]. by rewrite T3, T2, T1.
Qed.

(** [C12] The whole inspection of a controller.  When the endpoints cannot be found or
    do not answer, the connection result is unreachable for a connection error and
    failed for every other exception of [requests] or a missing endpoint, and the task
    fails.  When they answer, each of the three facts is collected or, if the request
    raises, left out: one result is stored, successful when all were collected, and
    then the comparison lists and counts exactly the hosts of the inventory and those
    that only jobs know; else failed.  The task is completed either way, since the
    connection already counted the system as scanned.  Only an exception that is not
    one of [requests], or one of the comparison, escapes, with no result stored.  The
    hypothesis on [errors] says that the class declared for a missing endpoint is not
    one of [requests]. *)
Theorem ansible_inspection_spec t d tb host c :
  single src host c -> wf_store tb -> tasks d !! t_id t = Some t ->
  RequestException errors AnsibleApiDetectionError = false ->
  let st := start_state t d tb in
  let asked := (_init_connection_stats st).1 in
  let connected := (check_connection st).1 in
  let connection s := mkconn host s (Some (c_id c)) in
  let '(st', r) := execute_task st in
  match connection_answer asked with
  | Err e => r = Err e /\ effect (t_id t) st st' [] []
  | Ok (inr s) => r = Ok (Some failure_message, ScanModel.FAILED) /\ effect (t_id t) st st' [] [connection s] /\
      t_stats (r_task st') = count_status s (mkstats 1 0 0 0)
  | Ok (inl endpoints) =>
      match collection (fact_answers endpoints connected) with
      | Err e => r = Err e /\ effect (t_id t) st st' [] [connection RawFacts.SUCCESS]
      | Ok (s, facts) =>
          r = Ok (Some success_message, COMPLETED) /\
          effect (t_id t) st st' [(host, s, facts)] [connection RawFacts.SUCCESS] /\
          t_stats (r_task st') = count_status s (mkstats 1 1 0 0) /\
          (s = RawFacts.SUCCESS -> exists inst inventory jobs u unique_hosts cmp,
             facts = [("instance_details", inst); ("hosts", VList inventory); ("jobs", jobs); ("comparison", cmp)] /\
             getitem jobs "unique_hosts" = Ok u /\ py_iter u = Ok unique_hosts /\ compared inventory unique_hosts cmp)
      end
  end.
Proof.
  intros Hs W Ht He st asked connected connection. pose proof (start_ready t d tb W Ht) as R. set (tid := t_id t) in *.
  pose proof (check_connection_spec tid host c st Hs R He) as H. pose proof (connection_answer_status asked) as Hst.
  fold asked in H. destruct (execute_task st) as [st' r] eqn:E. unfold execute_task in E.
  destruct (connection_answer asked) as [answer|e].
  2:{ destruct H as (st1 & Ek & F). rewrite (bind_err _ _ _ _ _ Ek) in E. by injection E as <- <-. }
  destruct H as (st3 & Ek & F & T3). assert (connected = st3) as -> by (unfold connected; by rewrite Ek).
  rewrite (bind_ok _ _ _ _ _ Ek) in E. destruct answer as [ep|s]; cbn [connection_of fst snd] in *.
  2:{ rewrite (bool_decide_eq_false_2 (s = _)) in E by (destruct (Hst s eq_refl) as [->| ->]; done).
      by injection E as <- <-. }
  rewrite (bool_decide_eq_true_2 (RawFacts.SUCCESS = _)) in E by done. cbn [snd] in E.
  rewrite (bool_decide_eq_false_2 (COMPLETED <> COMPLETED)) in E by (intros H; by apply H). unfold inspect in E.
  pose proof (collect_all_spec ep st3) as Ha. pose proof (collection_spec (fact_answers ep st3)) as Hf.
  destruct (collect_all ep st3) as [st4 ra] eqn:Ea. cbn [snd] in Ha. subst ra.
  destruct (reads_effect tid _ _ _ _ (reads_collect_all ep) (ef_ready _ _ _ _ _ F) Ea) as [F4 T4].
  pose proof (effect_trans _ _ _ _ _ _ _ _ F F4) as F'. cbn [app] in F'.
  destruct (collection (fact_answers ep st3)) as [[s facts]|e].
  2:{ rewrite (bind_err _ _ _ _ _ Ea) in E. by injection E as <- <-. }
  specialize (Hf s facts eq_refl). rewrite (bind_ok _ _ _ _ _ Ea) in E.
  destruct (save_results_spec source_key src server_id server_version tid host c s facts st4 Hs (ef_ready _ _ _ _ _ F4))
    as (st5 & E5 & F5 & T5 & N5); [by destruct Hf as [[-> _]| ->]|].
  cbn [fst snd] in E. rewrite (bind_ok _ _ _ _ _ E5) in E.
  assert (t_stats (r_task st5) = count_status s (mkstats 1 1 0 0)) as Hstats by (by rewrite T5, T4, T3).
  rewrite (bind_ok _ _ _ st5 (systems_scanned (t_stats (r_task st5)))) in E by done.
  assert (negb (systems_scanned (count_status s (mkstats 1 1 0 0)) =? 0) = true) as Hz by (by destruct s).
  rewrite Hstats, Hz in E. injection E as <- <-. split; [done|]. split; [exact (effect_trans _ _ _ _ _ _ _ _ F' F5)|].
  split; [done|]. destruct Hf as [[_ Hf]| ->]; [done | by intros H].
Qed.
End runner.

(** The controller's inspection is a runner of the flow. *)
#[export] Instance ansible_runner server errors completion metrics source_key src row server_id version tb :
  TaskRunner (executor_of (execute_task server errors completion metrics source_key src row server_id version) tb).
Proof. apply stats_only_runner, executor_keeps. intros t d. apply keeps_ansible. Qed.

(** A controller with the hosts a and b whose one job ran on a and c. *)
Definition sample_pages (q : http_get) : pyval :=
  let named n := VDict [("name", VStr n)] in
  let ran n := VDict [("host_name", VStr n)] in
  match get_url q with
  | "/api/" => VDict [("available_versions", VDict [("v2", VStr "/api/v2/")])]
  | "/api/v2/" => VDict [("me", VStr "/me/"); ("ping", VStr "/ping/"); ("hosts", VStr "/hosts/"); ("jobs", VStr "/jobs/")]
  | "/ping/" => VDict [("active_node", VStr "node")]
  | "/hosts/" => page_body [named "a"; named "b"] 1 q
  | "/jobs/" => page_body [VDict [("id", VInt 3)]] 5 q
  | "/jobs/3/job_events/?event=runner_on_start" => page_body [ran "a"; ran ""; ran "c"; ran "a"] 2 q
  | _ => VNone
  end.
Definition sample_server (_ : nat) (q : http_get) : Res response := Ok (mkresponse 200 (Ok (sample_pages q))).
Definition sample_errors : error_classes := mkerrors (fun e => match e with HTTPError _ => true | _ => false end)
  (fun _ => false) (fun _ => false) (fun _ => false).
Definition sample_run : rstate * Res outcome :=
  execute_task sample_server sample_errors id true 10 (sample_source "ansible") (fun _ => []) "id" "1"
    (start_state sample_task sample_db sample_store).

Lemma ansible_inspection_spec_witness : exists facts cmp,
  sample_run.2 = Ok (Some success_message, COMPLETED) /\
  rows 7 sample_run.1 = [("10.0.0.1", RawFacts.SUCCESS, facts)] /\ dget "comparison" facts = Some cmp /\
  getitem cmp "hosts_only_in_jobs" = Ok (VList [VStr "c"]).
Proof.
  pose proof (ansible_inspection_spec sample_server sample_errors id true 10 (sample_source "ansible") (fun _ => [])
    "id" "1" sample_task sample_db sample_store "10.0.0.1" _ (sample_single "ansible") sample_store_wf eq_refl eq_refl) as H.
  assert (sample_run.2 = Ok (Some success_message, COMPLETED)) as Hr by (vm_compute; reflexivity).
  assert (exists facts cmp, rows 7 sample_run.1 = [("10.0.0.1", RawFacts.SUCCESS, facts)] /\
    dget "comparison" facts = Some cmp /\ getitem cmp "hosts_only_in_jobs" = Ok (VList [VStr "c"])) as (facts & cmp & Hrows & Hd & Hc).
  { eexists _, _. split; [vm_compute; reflexivity|]. split; vm_compute; reflexivity. }
  cbn zeta in H. fold sample_run in H. destruct sample_run as [st' r]. cbn [fst snd] in *. subst r.
  destruct (connection_answer _ _ _) as [[ep|s]|e]; [|discriminate (proj1 H) | discriminate (proj1 H)].
  destruct (collection _ _) as [[s facts']|e]; [|discriminate (proj1 H)].
  exists facts, cmp. split; [exact (proj1 H)|]. split; [exact Hrows|]. split; [exact Hd | exact Hc].
Defined.

Lemma paginated_complete_witness :
  let l := [VInt 1; VInt 2; VInt 3] in
  let server (_ : nat) (q : http_get) := Ok (mkresponse 200 (Ok (page_body l 2 q))) in
  exists l', (get_paginated_results server id "/hosts/" append [] (start_state sample_task sample_db sample_store)).2 = Ok l' /\
    l' = l.
Proof.
  intros l server.
  destruct (paginated_complete server id "/hosts/" l 2 (start_state sample_task sample_db sample_store))
    as (st' & l' & H & _ & Hl); [reflexivity | intros ps; reflexivity | intros n q _; reflexivity|].
  exists l'. rewrite H. split; [reflexivity | apply Hl; reflexivity].
Defined.
(** With the vault of [HashicorpVault.v], a credential that names a secret gives the
    connection that secret, never empty, as its token, or reading it fails and nothing
    is sent. *)
Lemma vault_connection src credential_row decrypt excess port login auth read VE CE HE str st h opts c :
  system_name src = Ok h -> get_ssl_options src = opts -> single_credential src credential_row = Ok c ->
  truthy (dget_none "vault_secret_path" c.2) = true ->
  let read_secret := HashicorpVault.read_vault_secret excess port login auth read VE CE HE str st in
  match _get_connection_info src credential_row decrypt read_secret with
  | Ok conn => exists token, read_secret (VDict c.2) = Ok token /\ dget "auth_token" conn = Some token /\
      truthy token = true
  | Err e => read_secret (VDict c.2) = Err e
  end.
Proof.
  intros Hh _ Hc Hp read_secret. unfold _get_connection_info. rewrite Hh. cbn [mbind res_bind].
  destruct (get_ssl_options src) as [enabled verify]. rewrite Hc. cbn [mbind res_bind]. rewrite Hp.
  destruct (read_secret _) as [v|e] eqn:Hv; cbn [mbind res_bind]; [|done].
  exists v. split; [done|]. split; [apply dget_dset_eq | by eapply HashicorpVault.secret_given].
Qed.
End Ansible.
