(* ===== verification/Vcenter.v ===== *)
(** Inspection of vCenter: [scanner/vcenter/inspect.py], [scanner/vcenter/utils.py].

    [execute_task] connects and lists the names of the virtual machines, then
    inspects: it retrieves the objects of the inventory, page by page, collects the
    properties of folders, clusters and hosts, and stores one result for each virtual
    machine, with the facts of its host and cluster.

    pyVmomi and the server are external: [server] answers a request with a page of
    objects, or raises.  An object has the name [str] gives it, its class, and
    properties.  [fuel] bounds the pages and the steps of the climb to a datacenter;
    where it runs out the code does not end, which is [diverges] here. *)
From stdpp Require Import base gmap sets list strings.
From Stdlib Require Import ZArith Lia SpecFloat.
From S2P Require Import Prelude PyStr PyNum PyVal NetworkUtils Sources RawFacts ScanModel ScanFlow TaskStats RemoteTask.

Open Scope string_scope.
Open Scope Z_scope.

Module Vcenter.

Definition diverges : exn := OtherException "diverges".

(** ** What the server gives *)

Record nic := mknic { network : pyval; ipConfig : option (option (list string)); macAddress : pyval }.

(** The value of a property: data, a managed object or the interfaces of a guest. *)
Inductive prop_val :=
| Plain (v : pyval)
| Ref (key : string)
| Nics (l : list nic).

Record prop := mkprop { prop_name : string; val : prop_val }.

(** The classes of [pyVmomi.vim] that the code tells apart. *)
Inductive kind := Datacenter | Folder | ComputeResource | HostSystem | VirtualMachine | OtherKind.

#[export] Instance kind_eq_dec : EqDecision kind.
Proof. solve_decision. Defined.

Record object_content := mkobject { obj_key : string; obj_class : string; obj_kind : kind; propSet : list prop }.

(** Opening a session, the first page of the names or of the inventory, or the page
    of a token. *)
Inductive vrequest := VConnect | RetrieveNames | RetrieveInventory | ContinueRetrieve (token : string).
Definition vresult : Type := option (list object_content * option string).

(** ** Facts *)

Module ClusterRawFacts.
Definition DATACENTER := "cluster.datacenter".
Definition NAME := "cluster.name".
End ClusterRawFacts.

Module HostRawFacts.
Definition CLUSTER := "host.cluster".
Definition CPU_CORES := "host.cpu_cores".
Definition CPU_COUNT := "host.cpu_count".
Definition CPU_THREADS := "host.cpu_threads".
Definition DATACENTER := "host.datacenter".
Definition NAME := "host.name".
Definition UUID := "host.uuid".
End HostRawFacts.

Module VcenterRawFacts.
Definition CLUSTER := "vm.cluster".
Definition CPU_COUNT := "vm.cpu_count".
Definition DATACENTER := "vm.datacenter".
Definition DNS_NAME := "vm.dns_name".
Definition HOST_CPU_CORES := "vm.host.cpu_cores".
Definition HOST_CPU_COUNT := "vm.host.cpu_count".
Definition HOST_CPU_THREADS := "vm.host.cpu_threads".
Definition HOST_NAME := "vm.host.name".
Definition HOST_UUID := "vm.host.uuid".
Definition IP_ADDRESSES := "vm.ip_addresses".
Definition LAST_CHECK_IN := "vm.last_check_in".
Definition MAC_ADDRESSES := "vm.mac_addresses".
Definition MEMORY_SIZE := "vm.memory_size".
Definition NAME := "vm.name".
Definition OS := "vm.os".
Definition STATE := "vm.state".
Definition TEMPLATE := "vm.is_template".
Definition UUID := "vm.uuid".
End VcenterRawFacts.
Import VcenterRawFacts.

Definition raw_facts_template : pydict :=
  (fun k => (k, VNone)) <$>
  [CLUSTER; CPU_COUNT; DATACENTER; DNS_NAME; HOST_CPU_CORES; HOST_CPU_COUNT; HOST_CPU_THREADS; HOST_NAME; HOST_UUID;
   IP_ADDRESSES; LAST_CHECK_IN; MAC_ADDRESSES; MEMORY_SIZE; NAME; OS; STATE; TEMPLATE; UUID].

(** [str(prop.val)] and [prop.val] as data; the API's schema rules the other cases
    out. *)
Definition prop_str (v : prop_val) : Res string :=
  match v with Plain v => Ok (py_str v) | Ref key => Ok key | Nics _ => Err Unsupported end.
Definition prop_data (v : prop_val) : Res pyval :=
  match v with Plain v => Ok v | _ => Err Unsupported end.

(** [get_nics]: the addresses of the interfaces that have a network. *)
Definition nic_step (acc : list pyval * list pyval) (n : nic) : list pyval * list pyval :=
  if truthy (network n) then
    match ipConfig n with
    | Some (Some addresses) =>
        ((acc.1 ++ [macAddress n])%list,
         (acc.2 ++ (VStr <$> List.filter (fun a => is_valid_ipv4_address a || is_valid_ipv6_address a) addresses))%list)
    | _ => acc
    end
  else acc.
Definition get_nics (guest_net : list nic) : list pyval * list pyval := foldl nic_step ([], []) guest_net.

Definition parse_parent_props (o : object_content) : Res pydict :=
  foldM (fun facts p =>
    if bool_decide (prop_name p = "name") then v ← prop_data (val p); Ok (dset "name" v facts)
    else if bool_decide (prop_name p = "parent") then
      match val p with
      | Plain VNone => Ok facts
      | v => s ← prop_str v; Ok (dset "parent" (VStr s) facts)
      end
    else Ok facts) [("type", VStr (obj_class o))] (propSet o).

(** [while parent and parent.get("type") != "vim.Datacenter"]: up to the nearest
    datacenter, if there is one. *)
Fixpoint climb (fuel : nat) (parents_dict : list (string * pydict)) (parent : option pydict) : Res (option pydict) :=
  match parent with
  | None | Some [] => Ok None
  | Some p =>
      if py_eq (dget_none "type" p) (VStr "vim.Datacenter") then Ok (Some p)
      else match fuel with
           | O => Err diverges
           | S fuel => climb fuel parents_dict
                         match dget_none "parent" p with VStr k => dget k parents_dict | _ => None end
           end
  end.

(** A climb without a cycle visits each parent once. *)
Definition parse_cluster_props (props : list prop) (parents_dict : list (string * pydict)) : Res pydict :=
  foldM (fun facts p =>
    if bool_decide (prop_name p = "name") then v ← prop_data (val p); Ok (dset ClusterRawFacts.NAME v facts)
    else if bool_decide (prop_name p = "parent") then
      k ← prop_str (val p);
      parent ← climb (length parents_dict) parents_dict (dget k parents_dict);
      Ok (dset ClusterRawFacts.DATACENTER (match parent with Some p => dget_none "name" p | None => VNone end) facts)
    else Ok facts) [] props.

Definition host_keys : list (string * string) :=
  [("summary.config.name", HostRawFacts.NAME);
   ("hardware.systemInfo.uuid", HostRawFacts.UUID);
   ("summary.hardware.numCpuCores", HostRawFacts.CPU_CORES);
   ("summary.hardware.numCpuPkgs", HostRawFacts.CPU_COUNT);
   ("summary.hardware.numCpuThreads", HostRawFacts.CPU_THREADS)].

Definition parse_host_props (props : list prop) (cluster_dict : list (string * pydict)) : Res pydict :=
  foldM (fun facts p =>
    if bool_decide (prop_name p = "parent") then
      k ← prop_str (val p);
      let cluster_info := default [] (dget k cluster_dict) in
      Ok (dset HostRawFacts.DATACENTER (dget_none ClusterRawFacts.DATACENTER cluster_info)
            (dset HostRawFacts.CLUSTER (dget_none ClusterRawFacts.NAME cluster_info) facts))
    else match dget (prop_name p) host_keys with
         | Some fact => v ← prop_data (val p); Ok (dset fact v facts)
         | None => Ok facts
         end) [] props.

(** [int(prop.val / 1024)] *)
Definition memory_gb (v : pyval) : Res pyval :=
  match v with
  | VInt _ | VBool _ =>
      f ← float_of_Z (match v with VInt z => z | VBool b => b2z b | _ => 0 end);
      z ← int_of_float (float_div f (float_of_int 1024)); Ok (VInt z)
  | VFloat f => z ← int_of_float (float_div f (float_of_int 1024)); Ok (VInt z)
  | _ => Err TypeError
  end.

(** The facts taken as they are. *)
Definition vm_keys : list (string * string) :=
  [("name", NAME); ("summary.guest.hostName", DNS_NAME); ("config.template", TEMPLATE);
   ("summary.config.guestFullName", OS); ("summary.config.numCpu", CPU_COUNT); ("summary.config.uuid", UUID)].

(** The facts of the host that a machine takes over. *)
Definition host_to_vm : list (string * string) :=
  [(HOST_NAME, HostRawFacts.NAME); (HOST_UUID, HostRawFacts.UUID); (HOST_CPU_CORES, HostRawFacts.CPU_CORES);
   (HOST_CPU_COUNT, HostRawFacts.CPU_COUNT); (HOST_CPU_THREADS, HostRawFacts.CPU_THREADS);
   (CLUSTER, HostRawFacts.CLUSTER); (DATACENTER, HostRawFacts.DATACENTER)].

Definition copy_host_facts (host_facts facts : pydict) : pydict :=
  foldl (fun facts kv => dset kv.1 (dget_none kv.2 host_facts) facts) facts host_to_vm.

(** One property of a machine; [now] is the time as text. *)
Definition vm_step (now : string) (host_dict : list (string * pydict)) (facts : pydict) (p : prop) : Res pydict :=
  if bool_decide (prop_name p = "guest.net") then
    match val p with
    | Nics l => let '(macs, ips) := get_nics l in
                Ok (dset IP_ADDRESSES (VList ips) (dset MAC_ADDRESSES (VList macs) facts))
    | _ => Err Unsupported
    end
  else if bool_decide (prop_name p = "summary.runtime.powerState") then
    v ← prop_data (val p);
    let facts := dset STATE v facts in
    Ok (if py_eq v (VStr "poweredOn") then dset LAST_CHECK_IN (VStr now) facts else facts)
  else if bool_decide (prop_name p = "summary.config.memorySizeMB") then
    v ← prop_data (val p); m ← memory_gb v; Ok (dset MEMORY_SIZE m facts)
  else if bool_decide (prop_name p = "runtime.host") then
    k ← prop_str (val p);
    Ok (match dget k host_dict with
        | None | Some [] => facts
        | Some host_facts => copy_host_facts host_facts facts
        end)
  else match dget (prop_name p) vm_keys with
       | Some fact => v ← prop_data (val p); Ok (dset fact v facts)
       | None => Ok facts
       end.

Definition vm_facts (now : string) (host_dict : list (string * pydict)) (props : list prop) : Res pydict :=
  foldM (vm_step now host_dict) raw_facts_template props.

(** ** The runner *)

Section runner.
Context (server : nat -> vrequest -> Res vresult) (fuel : nat).
Context (str_exn : exn -> string) (str_task repr_task : task -> string) (now : string).
Context (source_key : Z) (src : Sources.source) (credential_row : Z -> pydict) (server_id server_version : string).

(** [vim.fault.InvalidLogin] and [socket.gaierror] *)
Definition InvalidLogin : exn := OtherException "InvalidLogin".
Definition gaierror : exn := OtherException "gaierror".
Definition is_invalid_login (e : exn) : bool :=
  match e with OtherException n => bool_decide (n = "InvalidLogin") | _ => false end.
Definition is_gaierror (e : exn) : bool :=
  match e with OtherException n => bool_decide (n = "gaierror") | _ => false end.

(** [RetrievePropertiesEx] and [ContinueRetrievePropertiesEx] until there is no
    token. *)
Fixpoint fetch_pages (fuel : nat) (q : vrequest) (objects : list object_content) : M (list object_content) :=
  result ← ask server q;
  match result with
  | None => mret objects
  | Some (page, token) =>
      let objects := (objects ++ page)%list in
      match token with
      | None => mret objects
      | Some token => match fuel with
                      | O => raise diverges
                      | S fuel => fetch_pages fuel (ContinueRetrieve token) objects
                      end
      end
  end.

Definition get_vm_names : M (list pyval) :=
  objects ← fetch_pages fuel RetrieveNames [];
  lift (mapM (fun o => match propSet o with
                       | p :: _ => prop_data (val p)
                       | [] => Err IndexError
                       end) objects).

Definition connect : M (list pyval) :=
  _ ← ask server VConnect;
  get_vm_names.

(** The first credential, or [None]. *)
Definition credential : option (Z * pydict) :=
  match first_credential src credential_row with Ok c => Some c | Err _ => None end.

Definition credential_name : Res string :=
  match credential with
  | Some c => Ok (py_str (dget_none "name" c.2))
  | None => Err (AttributeError "name")
  end.

Definition store_conn (name : pyval) : M unit :=
  name ← lift (text_column name);
  modify (fun st => mkrstate (r_task st) (r_db st) (r_tables st) (r_group st)
                      (r_conns st ++ [mkconn name RawFacts.SUCCESS (fst <$> credential)])%list (r_sent st)).

Definition _store_connect_data (connected : list pyval) : M unit :=
  each (fun system => _ ← store_conn system; increment_for RawFacts.SUCCESS) connected.

Definition check_connection : M outcome :=
  try_M (
    connected ← connect;
    _ ← _store_connect_data connected;
    mret (None, COMPLETED))
    (fun e => is_invalid_login e || is_gaierror e)
    (fun e =>
      if is_invalid_login e then
        name ← lift credential_name;
        self ← gets r_task;
        mret (Some ("Unable to connect to VCenter source, " +:+ py_str (get "name" src) +:+ ", with supplied credential, " +:+
                    name +:+ "." +:+ newline +:+ "Connect scan failed for " +:+ str_task self +:+ ". " +:+ str_exn e),
              ScanModel.FAILED)
      else
        mret (Some ("Unable to connect to VCenter source " +:+ py_str (get "name" src) +:+ "." +:+ newline +:+
                    "Reason for failure: " +:+ str_exn e), ScanModel.FAILED)).

(** [parse_vm_props], one transaction: the facts, the result, the count. *)
Definition parse_vm_props (props : list prop) (host_dict : list (string * pydict)) : M unit := atomic (
  facts ← lift (vm_facts now host_dict props);
  g ← _inspect_group source_key src server_id server_version;
  _ ← create_result (dget_none NAME facts) RawFacts.SUCCESS g (present facts);
  increment_for RawFacts.SUCCESS).

(** A dict of the parsed objects of some classes, by their keys. *)
Definition parse_objects (kinds : list kind) (parse : object_content -> Res pydict) (objects : list object_content) :
    Res (list (string * pydict)) :=
  foldM (fun dict o =>
    if bool_decide (obj_kind o ∈ kinds) then facts ← parse o; Ok (dset (obj_key o) facts dict) else Ok dict) [] objects.

Definition parse_hosts (objects : list object_content) : Res (list (string * pydict)) :=
  parents_dict ← parse_objects [Datacenter; Folder] parse_parent_props objects;
  cluster_dict ← parse_objects [ComputeResource] (fun o => parse_cluster_props (propSet o) parents_dict) objects;
  parse_objects [HostSystem] (fun o => parse_host_props (propSet o) cluster_dict) objects.

Definition machines (objects : list object_content) : list object_content :=
  List.filter (fun o => bool_decide (obj_kind o = VirtualMachine)) objects.

Definition retrieve_properties : M unit :=
  objects ← fetch_pages fuel RetrieveInventory [];
  host_dict ← lift (parse_hosts objects);
  each (fun o => parse_vm_props (propSet o) host_dict) (machines objects).

Definition _init_stats : M unit :=
  count ← gets (fun st => systems_count (t_stats (r_task st)));
  update_stats (Some count) None None None.

Definition _inspect : M unit :=
  _ ← _init_stats;
  _ ← ask server VConnect;
  retrieve_properties.

Definition inspect : M outcome :=
  try_M (_ ← _inspect; mret (None, COMPLETED)) is_invalid_login
    (fun e =>
      name ← lift credential_name;
      self ← gets r_task;
      mret (Some ("Unable to connect to VCenter source, " +:+ py_str (get "name" src) +:+ ", with supplied credential, " +:+
                  name +:+ "." +:+ newline +:+ "Discovery scan failed for (" +:+ repr_task self +:+ ",). " +:+ str_exn e),
            ScanModel.FAILED)).

Definition execute_task : M outcome :=
  r ← check_connection;
  if bool_decide (r.2 <> COMPLETED) then mret r else inspect.

(** ** Lemmas *)

Lemma reads_fetch k q objects : reads (fetch_pages k q objects).
Proof. revert q objects. induction k as [|k IH]; intros q objects; cbn [fetch_pages]; reads. Qed.

Lemma keeps_vcenter t d : keeps (only_stats t d) execute_task.
Proof.
  pose proof (fun k q o => keeps_reads t d _ (reads_fetch k q o)).
  unfold execute_task, check_connection, inspect, _inspect, _init_stats, retrieve_properties, _store_connect_data, store_conn,
    connect, get_vm_names, parse_vm_props. keeps.
Qed.
(** *** Pages *)

(** The pages that answer a request and the tokens that follow. *)
Inductive chain : vrequest -> list (list object_content) -> Prop :=
| chain_none q : (forall n, server n q = Ok None) -> chain q []
| chain_last q page : (forall n, server n q = Ok (Some (page, None))) -> chain q [page]
| chain_more q page token pages :
    (forall n, server n q = Ok (Some (page, Some token))) -> chain (ContinueRetrieve token) pages ->
    chain q (page :: pages).

Lemma fetch_chain q pages : chain q pages -> forall k objects st, (length pages <= k)%nat ->
  exists j, fetch_pages k q objects st = (bump_sent j st, Ok (objects ++ concat pages)%list).
Proof.
  assert (forall q r st, (forall n, server n q = Ok r) -> ask server q st = (bump_sent 1 st, Ok r)) as Hask.
  { intros q0 r st H. unfold ask, bump_sent. by rewrite H. }
  induction 1 as [q H|q page H|q page token pages H _ IH]; intros k objects st Hk.
  - exists 1%nat. destruct k; cbn [fetch_pages]; rewrite (bind_ok _ _ _ _ _ (Hask _ _ st H)), app_nil_r; done.
  - exists 1%nat. destruct k; cbn [fetch_pages]; rewrite (bind_ok _ _ _ _ _ (Hask _ _ st H)); cbn; by rewrite app_nil_r.
  - destruct k as [|k]; cbn [length] in Hk; [lia|]. cbn [fetch_pages].
    rewrite (bind_ok _ _ _ _ _ (Hask _ _ st H)). destruct (IH k (objects ++ page)%list (bump_sent 1 st)) as [j ->]; [lia|].
    exists (j + 1)%nat. cbn. by rewrite bump_bump, app_assoc.
Qed.

(** *** The result of a machine *)

Definition vm_row (host_dict : list (string * pydict)) (o : object_content) : Res row :=
  facts ← vm_facts now host_dict (propSet o);
  name ← text_column (dget_none NAME facts);
  Ok (name, RawFacts.SUCCESS, present facts).

Definition scanned (k : nat) (x : stats) : stats :=
  mkstats (systems_count x) (systems_scanned x + Z.of_nat k) (systems_failed x) (systems_unreachable x).

Lemma scanned_add j k x : scanned k (scanned j x) = scanned (j + k) x.
Proof. unfold scanned. cbn. f_equal. lia. Qed.

Lemma scanned_0 x : scanned 0 x = x.
Proof. unfold scanned. cbn. rewrite Z.add_0_r. by destruct x. Qed.

Lemma create_result_text name s g facts n st : text_column name = Ok n ->
  create_result name s g facts st = create_result (VStr n) s g facts st.
Proof. intros H. unfold create_result, mbind, M_bind, lift. by rewrite H. Qed.

Lemma parse_vm_spec tid host_dict o r st : ready tid st -> vm_row host_dict o = Ok r ->
  exists st', parse_vm_props (propSet o) host_dict st = (st', Ok tt) /\ effect tid st st' [r] [] /\
    t_stats (r_task st') = scanned 1 (t_stats (r_task st)).
Proof.
  intros R H. unfold vm_row in H. apply bind_Ok in H as (facts & Hf & H). apply bind_Ok in H as (name & Hn & H).
  injection H as <-.
  destruct (inspect_group_spec source_key src server_id server_version tid st R) as (st1 & g & E1 & F1 & O1 & T1 & _).
  destruct (create_result_spec tid name RawFacts.SUCCESS g (present facts) st1 (ef_ready _ _ _ _ _ F1) O1)
    as (st2 & E2 & F2 & T2 & _).
  destruct (increment_spec tid RawFacts.SUCCESS st2 (ef_ready _ _ _ _ _ F2)) as (st3 & E3 & F3 & T3 & _); [done|].
  exists st3. split; [|split].
  - apply atomic_ok. rewrite (bind_ok _ _ st st facts) by (unfold lift; by rewrite Hf).
    rewrite (bind_ok _ _ _ _ _ E1). rewrite <-(create_result_text _ _ _ _ _ _ Hn) in E2.
    by rewrite (bind_ok _ _ _ _ _ E2).
  - exact (effect_trans _ _ _ _ _ _ _ _ F1 (effect_trans _ _ _ _ _ _ _ _ F2 F3)).
  - by rewrite T3, T2, T1.
Qed.

Lemma parse_vms_spec tid host_dict os : forall rs st, ready tid st -> mapM (vm_row host_dict) os = Ok rs ->
  exists st', each (fun o => parse_vm_props (propSet o) host_dict) os st = (st', Ok tt) /\ effect tid st st' rs [] /\
    t_stats (r_task st') = scanned (length rs) (t_stats (r_task st)).
Proof.
  induction os as [|o os IH]; intros rs st R H; cbn in H.
  - injection H as <-. exists st. split; [done|]. split; [by apply effect_refl|].
    by rewrite scanned_0.
  - apply bind_Ok in H as (r & Hr & H). apply bind_Ok in H as (rs' & Hrs & H). injection H as <-.
    destruct (parse_vm_spec tid host_dict o r st R Hr) as (st1 & E1 & F1 & T1).
    destruct (IH rs' st1 (ef_ready _ _ _ _ _ F1) Hrs) as (st2 & E2 & F2 & T2).
    exists st2. cbn [each]. rewrite (bind_ok _ _ _ _ _ E1). split; [done|].
    split; [exact (effect_trans _ _ _ _ _ _ _ _ F1 F2)|]. rewrite T2, T1. apply (scanned_add 1).
Qed.

Definition conn_of (name : string) : conn_row := mkconn name RawFacts.SUCCESS (fst <$> credential).

Lemma store_conns_spec tid names : forall st, ready tid st ->
  exists st', _store_connect_data (VStr <$> names) st = (st', Ok tt) /\ effect tid st st' [] (conn_of <$> names) /\
    t_stats (r_task st') = scanned (length names) (t_stats (r_task st)).
Proof.
  unfold _store_connect_data. induction names as [|n names IH]; intros st R.
  - exists st. split; [done|]. split; [by apply effect_refl|].
    by rewrite scanned_0.
  - set (st1 := mkrstate (r_task st) (r_db st) (r_tables st) (r_group st) (r_conns st ++ [conn_of n])%list (r_sent st)).
    assert (effect tid st st1 [] [conn_of n]) as F1.
    { destruct R as [W Hi Hr G]. split; [by split | by rewrite app_nil_r | done | done]. }
    destruct (increment_spec tid RawFacts.SUCCESS st1 (ef_ready _ _ _ _ _ F1)) as (st2 & E2 & F2 & T2 & _); [done|].
    destruct (IH st2 (ef_ready _ _ _ _ _ F2)) as (st3 & E3 & F3 & T3).
    exists st3. cbn [each fmap list_fmap]. split; [|split].
    + rewrite (bind_ok _ _ st st2 tt); [done|]. rewrite (bind_ok _ _ st st1 tt); done.
    + exact (effect_trans _ _ _ _ _ _ _ _ F1 (effect_trans _ _ _ _ _ _ _ _ F2 F3)).
    + rewrite T3, T2. apply (scanned_add 1).
Qed.

(** Two phases over the same machines count each twice. *)
Lemma and_twice (rs : list row) (names : list string) st t :
  t_stats (r_task st) = scanned (length names + length rs) (t_stats t) ->
  t_stats (r_task st) = scanned (length names + length rs) (t_stats t) /\
  (rs.*1.*1 ≡ₚ names -> t_stats (r_task st) = scanned (2 * length rs) (t_stats t)).
Proof.
  intros H. split; [done|]. intros E. rewrite H, <-E, !length_fmap. f_equal. unfold row in *. lia.
Qed.

(** ** Properties *)

(** [C11] The whole inspection of a vCenter, when all it answers can be used: it ends,
    completed, and every virtual machine of the inventory, over all pages, has one
    result, in order, with the facts of its properties and of its host and cluster;
    the connection results are the names the first phase listed.  The counter of scanned
    systems rises by the names of the first phase and by the results of the second,
    and the number of systems stays: when both list the same machines, the counter
    rises by twice their number. *)
Theorem vcenter_inspection_spec t d tb names host_dict rs name_pages pages :
  wf_store tb -> tasks d !! t_id t = Some t ->
  (forall n, is_ok (server n VConnect) = true) ->
  chain RetrieveNames name_pages -> chain RetrieveInventory pages ->
  (length name_pages <= fuel)%nat -> (length pages <= fuel)%nat ->
  mapM (fun o => match propSet o with p :: _ => prop_data (val p) | [] => Err IndexError end) (concat name_pages)
    = Ok (VStr <$> names) ->
  parse_hosts (concat pages) = Ok host_dict ->
  mapM (vm_row host_dict) (machines (concat pages)) = Ok rs ->
  let st := start_state t d tb in
  exists st', execute_task st = (st', Ok (None, COMPLETED)) /\
    effect (t_id t) st st' rs (conn_of <$> names) /\
    t_stats (r_task st') = scanned (length names + length rs) (t_stats t) /\
    (rs.*1.*1 ≡ₚ names -> t_stats (r_task st') = scanned (2 * length rs) (t_stats t)).
Proof.
  intros W Ht Hc Cn Ci Fn Fi Hn Hh Hrs st. pose proof (start_ready t d tb W Ht) as R.
  assert (forall st, exists x, ask server VConnect st = (bump_sent 1 st, Ok x)) as Hask.
  { intros st0. pose proof (Hc (r_sent st0)) as E. unfold ask. destruct (server (r_sent st0) VConnect) as [x|]; [by exists x | done]. }
  destruct (Hask st) as [x1 E1]. destruct (fetch_chain _ _ Cn fuel [] (bump_sent 1 st) Fn) as [j E2].
  cbn [app] in E2. rewrite bump_bump in E2. set (st1 := bump_sent (j + 1) st) in *.
  assert (effect (t_id t) st st1 [] []) as F1 by (apply effect_sent, effect_refl, R).
  destruct (store_conns_spec (t_id t) names st1 (ef_ready _ _ _ _ _ F1)) as (st2 & E3 & F2 & T2).
  assert (check_connection st = (st2, Ok (None, COMPLETED))) as Ec.
  { unfold check_connection, try_M. rewrite (bind_ok _ _ st st1 (VStr <$> names)).
    - by rewrite (bind_ok _ _ _ _ _ E3).
    - unfold connect, get_vm_names. rewrite (bind_ok _ _ _ _ _ E1), (bind_ok _ _ _ _ _ E2). unfold lift. by rewrite Hn. }
  destruct (update_spec (t_id t) (Some (systems_count (t_stats (r_task st2)))) None None None st2 (ef_ready _ _ _ _ _ F2))
    as (st3 & E4 & F3 & T3 & _).
  destruct (Hask st3) as [x2 E5]. destruct (fetch_chain _ _ Ci fuel [] (bump_sent 1 st3) Fi) as [k E6].
  cbn [app] in E6. rewrite bump_bump in E6. set (st4 := bump_sent (k + 1) st3) in *.
  assert (ready (t_id t) st4) as R4 by (by apply ready_sent, F3).
  destruct (parse_vms_spec (t_id t) host_dict (machines (concat pages)) rs st4 R4 Hrs) as (st5 & E7 & F5 & T5).
  exists st5. split; [|split; [|apply and_twice]].
  - unfold execute_task. rewrite (bind_ok _ _ _ _ _ Ec). rewrite bool_decide_eq_false_2 by (intros H; by apply H).
    unfold inspect, try_M. rewrite (bind_ok _ _ st2 st5 tt); [done|]. unfold _inspect, _init_stats.
    rewrite (bind_ok _ _ st2 st3 tt); [|by rewrite (bind_ok _ _ st2 st2 (systems_count (t_stats (r_task st2))))].
    rewrite (bind_ok _ _ _ _ _ E5). unfold retrieve_properties. rewrite (bind_ok _ _ _ _ _ E6).
    rewrite (bind_ok _ _ st4 st4 host_dict) by (unfold lift; by rewrite Hh). exact E7.
  - pose proof (effect_trans _ _ _ _ _ _ _ _ F1 (effect_trans _ _ _ _ _ _ _ _ F2
      (effect_trans _ _ _ _ _ _ _ _ (effect_sent _ (k + 1) _ _ _ _ F3) F5))) as F.
    cbn [app] in F. by rewrite !app_nil_r in F.
  - rewrite T5. change (r_task st4) with (r_task st3). rewrite T3.
    assert (set_count (Some (systems_count (t_stats (r_task st2)))) None None None (t_stats (r_task st2)) =
            t_stats (r_task st2)) as -> by (by destruct (t_stats (r_task st2))).
    rewrite T2. apply scanned_add.
Qed.
End runner.

(** vCenter is a runner of the flow. *)
#[export] Instance vcenter_runner server fuel str_exn str_task repr_task now source_key src row server_id version tb :
  TaskRunner (executor_of (execute_task server fuel str_exn str_task repr_task now source_key src row server_id version) tb).
Proof. apply stats_only_runner, executor_keeps. intros t d. apply keeps_vcenter. Qed.

(** *** The datacenter of a cluster *)

Definition is_datacenter (p : pydict) : bool := py_eq (dget_none "type" p) (VStr "vim.Datacenter").

Definition up (parents : list (string * pydict)) (p : pydict) : option pydict :=
  match dget_none "parent" p with VStr k => dget k parents | _ => None end.

(** The nearest datacenter at or above a parent. *)
Inductive nearest (parents : list (string * pydict)) : option pydict -> option pydict -> Prop :=
| nearest_none : nearest parents None None
| nearest_empty : nearest parents (Some []) None
| nearest_found p : p <> [] -> is_datacenter p = true -> nearest parents (Some p) (Some p)
| nearest_up p r : p <> [] -> is_datacenter p = false -> nearest parents (up parents p) r -> nearest parents (Some p) r.

(** Parents are ranked: no one is above itself. *)
Definition acyclic (parents : list (string * pydict)) : Prop := exists rank : string -> nat,
  forall k p k', dget k parents = Some p -> dget_none "parent" p = VStr k' -> (rank k' < rank k)%nat.

Lemma climb_nearest parents fuel : forall p r, climb fuel parents p = Ok r -> nearest parents p r.
Proof.
  induction fuel as [|fuel IH]; intros [[|kv p]|] r; cbn [climb]; try (intros [= <-]; constructor).
  - destruct (py_eq _ _) eqn:E; [|done]. intros [= <-]. by apply nearest_found.
  - destruct (py_eq _ _) eqn:E; [intros [= <-]; by apply nearest_found|]. intros H. apply nearest_up; [done | done|]. by apply IH.
Qed.

Lemma climb_ends parents rank : (forall k p k', dget k parents = Some p -> dget_none "parent" p = VStr k' -> (rank k' < rank k)%nat) ->
  forall fuel visited k p, dget k parents = Some p -> NoDup (k :: visited) -> (forall x, x ∈ k :: visited -> x ∈ dkeys parents) ->
    Forall (fun v => rank k < rank v)%nat visited -> (length parents <= fuel + length visited)%nat ->
    exists r, climb fuel parents (Some p) = Ok r.
Proof.
  intros Hrank. induction fuel as [|fuel IH]; intros visited k p Hk HN Hin Hv Hl.
  - exfalso. assert (length (k :: visited) <= length (dkeys parents))%nat as HL.
    { apply NoDup_incl_length; [by apply NoDup_ListNoDup|]. intros x Hx. by apply list_elem_of_In, Hin, list_elem_of_In. }
    unfold dkeys in HL. rewrite length_fmap in HL. cbn in HL, Hl. lia.
  - destruct p as [|kv p]; [by exists None|]. cbn [climb]. destruct (py_eq _ _); [by eexists|].
    destruct (dget_none "parent" (kv :: p)) as [| | | |k'| | | | |] eqn:Ep; try (exists None; by destruct fuel).
    destruct (dget k' parents) as [p'|] eqn:Ek'; [|exists None; by destruct fuel].
    pose proof (Hrank k _ k' Hk Ep) as Hlt.
    assert (Forall (fun v => rank k' < rank v)%nat (k :: visited)) as Hv'.
    { constructor; [done|]. eapply Forall_impl; [exact Hv|]. cbn. lia. }
    apply (IH (k :: visited) k' p' Ek').
    + constructor; [|done]. intros H. rewrite Forall_forall in Hv'. specialize (Hv' k' H). cbn in Hv'. lia.
    + intros x [->|Hx]%elem_of_cons; [|by apply Hin]. apply dmem_true. unfold dmem. by rewrite Ek'.
    + done.
    + cbn. lia.
Qed.

(** The climb from a cluster ends, and with the nearest datacenter above it, or
    none, in every inventory whose folders are not above themselves: as many steps as
    there are folders and datacenters are enough.  So the facts of the cluster are its
    name and that datacenter's. *)
Theorem cluster_datacenter_spec parents name k : acyclic parents ->
  exists parent, nearest parents (dget k parents) parent /\
    parse_cluster_props [mkprop "name" (Plain name); mkprop "parent" (Ref k)] parents =
      Ok [(ClusterRawFacts.NAME, name);
          (ClusterRawFacts.DATACENTER, match parent with Some p => dget_none "name" p | None => VNone end)].
Proof.
  intros [rank Hrank].
  assert (exists r, climb (length parents) parents (dget k parents) = Ok r) as [r Hr].
  { destruct (dget k parents) as [p|] eqn:E; [|exists None; by destruct (length parents)].
    apply (climb_ends parents rank Hrank _ [] k p E); [apply NoDup_singleton | | constructor | cbn; lia].
    intros x ->%list_elem_of_singleton. apply dmem_true. unfold dmem. by rewrite E. }
  exists r. split; [by eapply climb_nearest|]. unfold parse_cluster_props. cbn [foldM prop_name].
  change (bool_decide ("name" = "name")) with true. change (bool_decide ("parent" = "name")) with false.
  change (bool_decide ("parent" = "parent")) with true. cbn [val prop_data prop_str mbind res_bind]. by rewrite Hr.
Qed.

(** A datacenter, a folder in it, a cluster with a host, and two machines. *)
Definition data (name : string) (v : pyval) : prop := mkprop name (Plain v).
Definition sample_objects : list object_content :=
  [mkobject "dc-1" "vim.Datacenter" Datacenter [data "name" (VStr "east")];
   mkobject "f-1" "vim.Folder" Folder [data "name" (VStr "hosts"); mkprop "parent" (Ref "dc-1")];
   mkobject "c-1" "vim.ClusterComputeResource" ComputeResource [data "name" (VStr "blue"); mkprop "parent" (Ref "f-1")];
   mkobject "h-1" "vim.HostSystem" HostSystem [mkprop "parent" (Ref "c-1"); data "summary.config.name" (VStr "esx")];
   mkobject "vm-1" "vim.VirtualMachine" VirtualMachine
     [data "name" (VStr "web"); mkprop "runtime.host" (Ref "h-1"); data "summary.config.memorySizeMB" (VInt 2560)];
   mkobject "vm-2" "vim.VirtualMachine" VirtualMachine
     [data "name" (VStr "db");
      mkprop "guest.net" (Nics [mknic (VStr "net") (Some (Some ["10.0.0.7"; "?"])) (VStr "aa:bb")])]].
Definition sample_vcenter (_ : nat) (q : vrequest) : Res vresult :=
  match q with
  | VConnect => Ok None
  | RetrieveNames => Ok (Some ([mkobject "vm-1" "vim.VirtualMachine" VirtualMachine [data "name" (VStr "web")];
                                mkobject "vm-2" "vim.VirtualMachine" VirtualMachine [data "name" (VStr "db")]], None))
  | RetrieveInventory => Ok (Some (take 3 sample_objects, Some "more"))
  | ContinueRetrieve _ => Ok (Some (drop 3 sample_objects, None))
  end.
Definition sample_inspection : rstate * Res outcome :=
  execute_task sample_vcenter 5 (fun _ => "") (fun _ => "") (fun _ => "") "now" 10 (sample_source "vcenter") (fun _ => [])
    "id" "1" (start_state sample_task sample_db sample_store).

Lemma vcenter_inspection_spec_witness : exists rs,
  rows 7 sample_inspection.1 = rs /\ rs.*1 = [("web", RawFacts.SUCCESS); ("db", RawFacts.SUCCESS)] /\
  (dget DATACENTER <$> rs.*2) = [Some (VStr "east"); None] /\ (dget MEMORY_SIZE <$> rs.*2) = [Some (VInt 2); None] /\
  (dget IP_ADDRESSES <$> rs.*2) = [None; Some (VList [VStr "10.0.0.7"])] /\
  t_stats (r_task sample_inspection.1) = mkstats 0 4 0 0.
Proof.
  destruct (vcenter_inspection_spec sample_vcenter 5 (fun _ => "") (fun _ => "") (fun _ => "") "now" 10
    (sample_source "vcenter") (fun _ => []) "id" "1" sample_task sample_db sample_store ["web"; "db"]
    (match parse_hosts sample_objects with Ok d => d | Err _ => [] end)
    (match mapM (vm_row "now" (match parse_hosts sample_objects with Ok d => d | Err _ => [] end)) (machines sample_objects)
     with Ok rs => rs | Err _ => [] end)
    [match sample_vcenter 0 RetrieveNames with Ok (Some (p, _)) => p | _ => [] end]
    [take 3 sample_objects; drop 3 sample_objects]) as (st' & E & F & _ & T).
  - exact sample_store_wf.
  - reflexivity.
  - reflexivity.
  - apply chain_last. reflexivity.
  - eapply chain_more; [reflexivity|]. apply chain_last. reflexivity.
  - cbn. lia.
  - cbn. lia.
  - vm_compute. reflexivity.
  - vm_compute. reflexivity.
  - vm_compute. reflexivity.
  - fold sample_inspection in E. eexists. split; [rewrite E; exact (ef_rows _ _ _ _ _ F)|].
    split; [vm_compute; reflexivity|]. split; [vm_compute; reflexivity|]. split; [vm_compute; reflexivity|].
    split; [vm_compute; reflexivity|]. rewrite E. apply T. vm_compute. reflexivity.
Defined.

Definition sample_parents : list (string * pydict) :=
  [("dc-1", [("type", VStr "vim.Datacenter"); ("name", VStr "east")]);
   ("f-1", [("type", VStr "vim.Folder"); ("parent", VStr "dc-1")])].

Lemma cluster_datacenter_spec_witness : acyclic sample_parents /\ exists parent,
  nearest sample_parents (dget "f-1" sample_parents) parent /\
  parse_cluster_props [mkprop "name" (Plain (VStr "blue")); mkprop "parent" (Ref "f-1")] sample_parents =
    Ok [(ClusterRawFacts.NAME, VStr "blue");
        (ClusterRawFacts.DATACENTER, match parent with Some p => dget_none "name" p | None => VNone end)].
Proof.
  assert (acyclic sample_parents) as A.
  { exists (fun k => if bool_decide (k = "f-1") then 1%nat else 0%nat). intros k p k' Hk Hp. unfold sample_parents in Hk.
    cbn in Hk. repeat case_bool_decide; simplify_eq; cbn in Hp; simplify_eq; lia. }
  split; [exact A|]. exact (cluster_datacenter_spec sample_parents (VStr "blue") "f-1" A).
Defined.

Example datacenter_above_folder :
  parse_cluster_props [mkprop "parent" (Ref "f-1")] sample_parents = Ok [(ClusterRawFacts.DATACENTER, VStr "east")].
Proof. reflexivity. Qed.

(** A cycle of folders never ends the climb, whatever the fuel. *)
Example cyclic_folders fuel :
  climb fuel [("a", [("type", VStr "vim.Folder"); ("parent", VStr "a")])] (Some [("type", VStr "vim.Folder"); ("parent", VStr "a")])
  = Err diverges.
Proof. induction fuel as [|fuel IH]; [done|]. exact IH. Qed.
End Vcenter.
