(* ===== verification/Satellite.v ===== *)
(** Inspection of Satellite 6: [scanner/satellite/six.py], [utils.py], [api.py],
    [factory.py], [runner.py] and [inspect.py] there.

    The runner asks for the version of the API, counts the hosts, lists them as
    connection results, then asks for the fields and subscriptions of each host and
    stores one result per host.  The details of a host are fetched by a Celery task
    of its own, wrapped by [set_scan_task_failure_on_exception].

    [server] answers requests, as in [HttpSession]; [fuel] bounds the pages of a
    listing, which the code does not.  A host's details come from Celery's group in
    the order of the hosts. *)
From stdpp Require Import base gmap sets list strings.
From Stdlib Require Import ZArith Lia.
From S2P Require Import Prelude PyStr PyNum PyVal Formatters Sources RawFacts ScanModel ScanFlow TaskStats RemoteTask HttpSession.

Open Scope string_scope.
Open Scope Z_scope.

Module Satellite.

Definition PER_PAGE := "per_page".
Definition PAGE := "page".
Definition THIN := "thin".
Definition RESULTS := "results".
Definition ID := "id".
Definition NAME := "name".
Definition OS_NAME := "os_name".
Definition OS_VERSION := "os_version".
Definition OS_RELEASE := "os_release".
Definition SUBSCRIPTION_FACET := "subscription_facet_attributes".
Definition CONTENT_FACET := "content_facet_attributes".
Definition FACTS := "facts".
Definition ERRATA_COUNTS := "errata_counts".
Definition NUM_VIRTUAL_GUESTS := "num_virtual_guests".
Definition VIRTUAL := "virtual".
Definition VIRTUAL_HOST := "virtual_host".
Definition VIRTUAL_GUESTS := "virtual_guests".
Definition HYPERVISOR := "hypervisor".
Definition LOCATION := "location".
Definition LOCATION_NAME := "location_name".

Definition NET_INTER_PERIOD := "net.interface.".
Definition NET_INTER_COLON := "net::interface::".
Definition NET_INTER_LO_PERIOD := "net.interface.lo.".
Definition NET_INTER_LO_COLON := "net::interface::lo::".
Definition IPV4_PERIOD := ".ipv4_address".
Definition IPV4_COLON := "::ipv4_address".
Definition IPV6_PERIOD := ".ipv6_address".
Definition IPV6_COLON := "::ipv6_address".
Definition MAC_PERIOD := ".mac_address".
Definition MAC_COLON := "::mac_address".
Definition IP_ADDRESSES := "ip_addresses".
Definition MAC_ADDRESSES := "mac_addresses".

Definition DERIVED_ENTITLEMENT := "derived_entitlement".
Definition ENTITLEMENT_DERIVED_LIST : list string := ["ENTITLEMENT_DERIVED"; "STACK_DERIVED"].
Definition ENTITLEMENTS := "entitlements".

(** ** URLs *)

(** A piece of a URL template. *)
Inductive piece := Lit (s : string) | SatHost | Port | OrgId | HostId.

Definition server_url (path : list piece) : list piece := [Lit "https://"; SatHost; Lit ":"; Port] ++ path.
Definition ORGS_V1_URL := server_url [Lit "/katello/api/v2/organizations"].
Definition HOSTS_V1_URL := server_url [Lit "/katello/api/v2/organizations/"; OrgId; Lit "/systems"].
Definition HOSTS_FIELDS_V1_URL := server_url [Lit "/katello/api/v2/organizations/"; OrgId; Lit "/systems/"; HostId].
Definition HOSTS_SUBS_V1_URL :=
  server_url [Lit "/katello/api/v2/organizations/"; OrgId; Lit "/systems/"; HostId; Lit "/subscriptions"].
Definition HOSTS_V2_URL := server_url [Lit "/api/v2/hosts"].
Definition HOSTS_FIELDS_V2_URL := server_url [Lit "/api/v2/hosts/"; HostId].
Definition HOSTS_SUBS_V2_URL := server_url [Lit "/api/v2/hosts/"; HostId; Lit "/subscriptions"].
Definition STATUS_URL := server_url [Lit "/api/status"].

(** [url.format(...)] *)
Definition construct_url (url : list piece) (sat_host : string) (port org_id host_id : pyval) : string :=
  String.concat "" ((fun p => match p with
                              | Lit s => s
                              | SatHost => format_host_for_url sat_host
                              | Port => py_str port
                              | OrgId => py_str org_id
                              | HostId => py_str host_id
                              end) <$> url).

Definition QUERY_PARAMS_FIELDS : pydict := [("fields", VStr "full")].

(** ** Facts of a host *)

Definition FIELDS_MAPPING : list (string * string) :=
  [("uuid", "uuid"); ("hostname", "name"); ("registered_by", "registered_by"); ("registration_time", "created");
   ("last_checkin_time", "checkin_time"); ("katello_agent_installed", "katello_agent_installed");
   ("os_release", "operatingsystem_name"); ("organization", "organization_name")].
Definition SUBS_FACET_MAPPING : list (string * string) :=
  [("uuid", "uuid"); ("registered_by", "registered_by"); ("registration_time", "registered_at");
   ("last_checkin_time", "last_checkin")].
Definition CONTENT_FACET_MAPPING : list (string * string) := [("katello_agent_installed", "katello_agent_installed")].
Definition FACTS_MAPPING : list (string * string) :=
  [("virt_type", "virt.host_type"); ("kernel_version", "uname.release"); ("architecture", "uname.machine");
   ("is_virtualized", "virt.is_guest"); ("cores", "cpu.cpu(s)"); ("num_sockets", "cpu.cpu_socket(s)")].
Definition FACTS_V2_MAPPING : list (string * string) :=
  [("virt_type", "virt::host_type"); ("kernel_version", "uname::release"); ("architecture", "uname::machine");
   ("is_virtualized", "virt::is_guest"); ("cores", "cpu::cpu(s)"); ("num_sockets", "cpu::cpu_socket(s)")].
Definition VIRTUAL_HOST_MAPPING : list (string * string) :=
  [("virtual_host_uuid", "uuid"); ("virtual_host_name", "name")].
Definition ERRATA_MAPPING : list (string * string) :=
  [("errata_out_of_date", "total"); ("packages_out_of_date", "total")].

Definition raw_facts_template : pydict :=
  (fun k => (k, VNone)) <$>
  ["architecture"; "cores"; "errata_out_of_date"; "hostname"; "ip_addresses"; "is_virtualized"; "katello_agent_installed";
   "kernel_version"; "last_checkin_time"; "location"; "mac_addresses"; "num_sockets"; "os_name"; "os_release"; "os_version";
   "packages_out_of_date"; "registration_time"; "uuid"; "virt_type"].

Definition data_map (mapping : list (string * string)) (data : pyval) : Res pydict :=
  if truthy data then mapM (fun km => v ← vget data km.2; Ok (km.1, v)) mapping else Ok [].

(** [host_info.update(data_map(mapping, data))] *)
Definition update_map (mapping : list (string * string)) (data : pyval) (host_info : pydict) : Res pydict :=
  mapped ← data_map mapping data; Ok (dupdate host_info mapped).

(** [[x[NAME] for x in guests]] and their number. *)
Definition add_guests (guests : pyval) (host_info : pydict) : Res pydict :=
  if truthy guests then
    l ← py_iter guests;
    names ← mapM (fun x => getitem x NAME) l;
    Ok (dset NUM_VIRTUAL_GUESTS (VInt (Z.of_nat (length l))) (dset VIRTUAL_GUESTS (VList names) host_info))
  else Ok host_info.

Record addresses := mkaddresses { ipv4s : list string; ipv6s : list string; macs : list string }.

Definition net_interface (key : string) : bool :=
  (str_startswith NET_INTER_PERIOD key || str_startswith NET_INTER_COLON key) &&
  negb (str_startswith NET_INTER_LO_PERIOD key || str_startswith NET_INTER_LO_COLON key).
Definition ipv4_addr (key : string) : bool := str_endswith IPV4_PERIOD key || str_endswith IPV4_COLON key.
Definition ipv6_addr (key : string) : bool := str_endswith IPV6_PERIOD key || str_endswith IPV6_COLON key.
Definition mac_addr (key : string) : bool := str_endswith MAC_PERIOD key || str_endswith MAC_COLON key.

(** [l.append(v.lower())] when the key has the kind asked for and a value. *)
Definition append_if (c : bool) (v : pyval) (l : list string) : Res (list string) :=
  if c && truthy v then s ← as_str "lower" v; Ok (l ++ [str_lower s])%list else Ok l.

Definition address_step (acc : addresses) (kv : string * pyval) : Res addresses :=
  if net_interface kv.1 then
    v4 ← append_if (ipv4_addr kv.1) kv.2 (ipv4s acc);
    v6 ← append_if (ipv6_addr kv.1) kv.2 (ipv6s acc);
    m ← append_if (mac_addr kv.1) kv.2 (macs acc);
    Ok (mkaddresses v4 v6 m)
  else Ok acc.

Definition os_facts (host_info : pydict) : Res pydict :=
  let os_release := dget_none OS_RELEASE host_info in
  if truthy os_release then
    release ← as_str "split" os_release;
    let words := str_split " " release in
    let os_name :=
      if str_startswith "red hat enterprise linux" (str_lower release) then "Red Hat Enterprise Linux"
      else if str_startswith "red hat" (str_lower release) then "Red Hat"
      else default "" (head words) in
    Ok (dset OS_VERSION (VStr (default "" (last words))) (dset OS_NAME (VStr os_name) host_info))
  else Ok host_info.

(** The sets of addresses become lists in some order. *)
Definition host_fields (api_version : Z) (response : pyval) : Res pydict :=
  sub_facet_attributes ← vget response SUBSCRIPTION_FACET;
  content_facet_attributes ← vget response CONTENT_FACET;
  new_facts ← vget_default response FACTS (VDict []);
  new_facts ← (match new_facts with VDict d => Ok d | VList [] => Ok [] | _ => Err TypeError end);
  let facts := dupdate raw_facts_template new_facts in
  virtual_host ← vget_default response VIRTUAL_HOST (VDict []);
  virtual_guests ← vget response VIRTUAL_GUESTS;
  errata_counts ← vget_default response ERRATA_COUNTS (VDict []);
  sub ← (if truthy sub_facet_attributes
         then h ← vget sub_facet_attributes VIRTUAL_HOST; g ← vget sub_facet_attributes VIRTUAL_GUESTS; Ok (h, g)
         else Ok (VNone, VNone));
  cf_errata_counts ← (if truthy content_facet_attributes then vget content_facet_attributes ERRATA_COUNTS else Ok VNone);
  host_info ← update_map FIELDS_MAPPING response [];
  host_info ← update_map SUBS_FACET_MAPPING sub_facet_attributes host_info;
  host_info ← update_map VIRTUAL_HOST_MAPPING sub.1 host_info;
  host_info ← update_map CONTENT_FACET_MAPPING content_facet_attributes host_info;
  host_info ← update_map ERRATA_MAPPING cf_errata_counts host_info;
  host_info ← update_map (if api_version =? 1 then FACTS_MAPPING else FACTS_V2_MAPPING) (VDict facts) host_info;
  host_info ← update_map VIRTUAL_HOST_MAPPING virtual_host host_info;
  host_info ← update_map ERRATA_MAPPING errata_counts host_info;
  host_info ← add_guests sub.2 host_info;
  host_info ← add_guests virtual_guests host_info;
  let host_info := if truthy (dget_none VIRTUAL_GUESTS host_info) then dset VIRTUAL (VStr HYPERVISOR) host_info else host_info in
  location ← vget response LOCATION_NAME;
  let host_info := dset LOCATION location host_info in
  found ← foldM address_step (mkaddresses [] [] []) facts;
  let host_info := dset IP_ADDRESSES (VList (VStr <$> dedup (ipv4s found ++ ipv6s found))) host_info in
  let host_info := dset MAC_ADDRESSES (VList (VStr <$> dedup (macs found))) host_info in
  host_info ← os_facts host_info;
  Ok (dpop VIRTUAL_GUESTS host_info).

Definition subscription (entitlement : pyval) : Res pyval :=
  name ← vget entitlement "product_name";
  account_number ← vget entitlement "account_number";
  contract_number ← vget entitlement "contract_number";
  start_date ← vget entitlement "start_date";
  end_date ← vget entitlement "end_date";
  quantity ← vget entitlement "quantity_consumed";
  amount ← (if is_none quantity then vget entitlement "amount" else Ok quantity);
  entitlement_type ← vget entitlement "type";
  let derived := truthy entitlement_type && py_in entitlement_type (VStr <$> ENTITLEMENT_DERIVED_LIST) in
  Ok (VDict [(DERIVED_ENTITLEMENT, VBool derived); (NAME, name); ("account_number", account_number);
             ("contract_number", contract_number); ("start_date", start_date); ("end_date", end_date); ("amount", amount)]).

Definition host_subscriptions (response : pyval) : Res pydict :=
  entitlements ← vget_default response RESULTS (VList []);
  l ← py_iter entitlements;
  subscriptions ← mapM subscription l;
  Ok [(ENTITLEMENTS, VList subscriptions)].

(** ** Requests *)

Definition SatelliteError : exn := OtherException "SatelliteError".
Definition SatelliteAuthError : exn := OtherException "SatelliteAuthError".
Definition is_exn (name : string) (e : exn) : bool :=
  match e with OtherException n => bool_decide (n = name) | _ => false end.

Record sat_request := mkrequest {
  sr_url : string;
  sr_params : pydict;
  sr_auth : pyval * pyval;
  sr_verify : pyval;
  sr_proxies : pydict }.

(** [content_type]: the header of the response. *)
Record sat_response := mkresponse { sat_status : Z; content_type : pyval; sat_json : Res pyval }.

Section runner.
Context (server : nat -> sat_request -> Res sat_response) (errors : error_classes) (fuel : nat).
Context (decrypt : pyval -> Res pyval) (str_type : exn -> string) (str_source : string) (now : Z).
Context (source_key : Z) (src : Sources.source) (credential_row : Z -> pydict) (server_id server_version : string).

(** [get_connect_data]: host, port, user, password and proxy. *)
Record connect_data := mkconnect { cd_host : pyval; cd_port : pyval; cd_user : pyval; cd_password : pyval; cd_proxy : pyval }.

Definition get_connect_data : Res connect_data :=
  credential ← first_credential src credential_row;
  password ← decrypt (dget_none "password" credential.2);
  host ← system_name src;
  Ok (mkconnect host (get "port" src) (dget_none "username" credential.2) password (get "proxy_url" src)).

Definition ssl_verify : pyval :=
  if is_none (get "ssl_cert_verify" src) then VBool true else get "ssl_cert_verify" src.

(** [execute_request]; the options that [prepare_hosts] passes on are the data it
    reads itself without options. *)
Definition request_of (data : connect_data) (url : list piece) (org_id host_id : pyval) (query_params : pydict) : Res sat_request :=
  host ← as_str "format" (cd_host data);
  let url := construct_url url host (cd_port data) org_id host_id in
  let proxies := if truthy (cd_proxy data)
                 then [(if str_startswith "https" url then "https" else "http", cd_proxy data)] else [] in
  Ok (mkrequest url query_params (cd_user data, cd_password data) ssl_verify proxies).

Definition execute_with (data : connect_data) (url : list piece) (org_id host_id : pyval) (query_params : pydict) : M sat_response :=
  q ← lift (request_of data url org_id host_id query_params);
  ask server q.

Definition execute_request (url : list piece) (org_id host_id : pyval) (query_params : pydict) : M sat_response :=
  data ← lift get_connect_data;
  execute_with data url org_id host_id query_params.

(** [if response.status_code != requests.codes.ok: raise SatelliteError(...)] *)
Definition check_ok (r : sat_response) : Res unit := if sat_status r =? 200 then Ok tt else Err SatelliteError.

Definition page_query (page per_page : Z) : pydict := [(PAGE, VInt page); (PER_PAGE, VInt per_page); (THIN, VInt 1)].

(** [request_results], a generator: [f] is the body of the loop over it, [a] what the
    loop computes. *)
Fixpoint results_from {A} (fuel : nat) (page : Z) (url : list piece) (org_id : pyval) (f : A -> pyval -> M A) (a : A) : M A :=
  response ← execute_request url org_id VNone (page_query page 100);
  _ ← lift (check_ok response);
  response_body ← lift (sat_json response);
  results ← lift (r ← vget_default response_body RESULTS (VList []); py_iter r);
  a ← fold_M f a results;
  per_page ← lift (p ← vget_default response_body PER_PAGE (VInt 0); py_int p);
  if (0 <? Z.of_nat (length results)) && (Z.of_nat (length results) =? per_page) then
    match fuel with
    | O => raise (OtherException "diverges")
    | S fuel => results_from fuel (page + 1) url org_id f a
    end
  else mret a.
Definition request_results {A} (url : list piece) (org_id : pyval) (f : A -> pyval -> M A) (a : A) : M A :=
  results_from fuel 1 url org_id f a.

(** ** The details of a host *)

(** What the Celery task of a host returns: its details, or, from the decorator, the
    sign that it crashed. *)
Inductive host_result :=
| HostDetails (unique_name : string) (status : result_status) (host_fields_response host_subscriptions_response : pyval)
| Crashed.

Definition unique_name (host_name host_id : pyval) : string := py_str host_name +:+ "_" +:+ py_str host_id.

(** [if content_type and APP_JSON in content_type]: then the message quotes the
    body. *)
Definition warn_subscriptions (r : sat_response) : Res unit :=
  b ← (if truthy (content_type r) then str_in "application/json" (content_type r) else Ok false);
  if (b : bool) then _ ← sat_json r; Ok tt else Ok tt.

Definition _request_host_details (data : connect_data) (host_name host_id : pyval) (fields_url subs_url : list piece) :
    M host_result :=
  let name := unique_name host_name host_id in
  try_M (
    host_fields_response ← execute_with data fields_url VNone host_id QUERY_PARAMS_FIELDS;
    _ ← lift (check_ok host_fields_response);
    host_subscriptions_response ← execute_with data subs_url VNone host_id [];
    _ ← lift (if bool_decide (sat_status host_subscriptions_response ∈ [400; 404])
              then warn_subscriptions host_subscriptions_response
              else check_ok host_subscriptions_response);
    host_fields_json ← lift (sat_json host_fields_response);
    host_subscriptions_json ← lift (sat_json host_subscriptions_response);
    mret (HostDetails name RawFacts.SUCCESS host_fields_json host_subscriptions_json))
    (fun e => is_exn "SatelliteError" e || Timeout errors e)
    (fun _ => mret (HostDetails name RawFacts.FAILED (VDict []) (VDict []))).

(** [set_scan_task_failure_on_exception]: an exception fails the row of the task, and
    the object the runner holds does not learn of it. *)
Definition fail_row : M unit := modify (fun st =>
  let d := match get_task (t_id (r_task st)) (r_db st) with
           | Ok t => (Task.status_fail now "Unexpected failure in request_host_details. Check logs for details." t (r_db st)).2
           | Err _ => r_db st
           end in
  mkrstate (r_task st) d (r_tables st) (r_group st) (r_conns st) (r_sent st)).

Definition request_host_details (data : connect_data) (host_name host_id : pyval) (fields_url subs_url : list piece) :
    M host_result :=
  try_M (_request_host_details data host_name host_id fields_url subs_url) (fun _ => true)
    (fun _ => _ ← fail_row; mret Crashed).

(** ** Storing results *)

Definition record_inspect_result (name : string) (facts : pydict) (s : result_status) : M unit := atomic (
  g ← _inspect_group source_key src server_id server_version;
  _ ← create_result (VStr name) s g (if bool_decide (s = RawFacts.SUCCESS) then present facts else []);
  increment_for s).

(** The facts of a host's result. *)
Definition details_of (api_version : Z) (s : result_status) (fields subs : pyval) : Res pydict :=
  if bool_decide (s = RawFacts.SUCCESS) then
    details ← host_fields api_version fields;
    subscriptions ← host_subscriptions subs;
    Ok (dupdate details subscriptions)
  else Ok [(ENTITLEMENTS, VList [])].

Definition process_result (api_version : Z) (r : host_result) : M unit :=
  match r with
  | HostDetails name s fields subs =>
      details ← lift (details_of api_version s fields subs);
      record_inspect_result name details s
  | Crashed => raise TypeError
  end.

Definition process_results (api_version : Z) (results : list host_result) : M unit :=
  each (process_result api_version) results.

(** ** The two versions of the API *)

Record sat_api := mksat {
  HOSTS_FIELDS_URL : list piece;
  HOSTS_SUBS_URL : list piece;
  HOSTS_URL : list piece;
  SATELLITE_API_VERSION : Z }.
Definition SatelliteSixV1 : sat_api := mksat HOSTS_FIELDS_V1_URL HOSTS_SUBS_V1_URL HOSTS_V1_URL 1.
Definition SatelliteSixV2 : sat_api := mksat HOSTS_FIELDS_V2_URL HOSTS_SUBS_V2_URL HOSTS_V2_URL 2.

(** [get_orgs] with the attribute [orgs]. *)
Definition get_orgs (orgs : list pyval) : M (list pyval) :=
  match orgs with
  | [] => request_results ORGS_V1_URL VNone
            (fun l result => i ← lift (vget result ID); mret (if is_none i then l else (l ++ [i])%list)) []
  | _ => mret orgs
  end.

Definition add_total (response : sat_response) (systems_count : Z) : Res Z :=
  _ ← check_ok response;
  body ← sat_json response;
  total ← vget_default body "total" (VInt 0);
  match total with VInt z => Ok (systems_count + z) | VBool b => Ok (systems_count + b2z b) | _ => Err TypeError end.

(** [host_count] of V1 returns inside its loop: the first organization alone is
    counted. *)
Definition host_count_v1 : M (list pyval) :=
  orgs ← get_orgs [];
  match orgs with
  | [] => mret []
  | org_id :: _ =>
      response ← execute_request HOSTS_V1_URL org_id VNone (page_query 1 100);
      systems_count ← lift (add_total response 0);
      _ ← update_stats (Some systems_count) None None None;
      mret orgs
  end.

Definition host_count_v2 : M unit :=
  response ← execute_request HOSTS_V2_URL VNone VNone (page_query 1 10);
  systems_count ← lift (add_total response 0);
  update_stats (Some systems_count) None None None.

(** [record_conn_result], one transaction. *)
Definition record_conn_result (name : string) : M unit :=
  let credential := match credentials src with c :: _ => Some (c_id c) | [] => None end in
  modify (fun st => mkrstate (r_task st) (r_db st) (r_tables st) (r_group st)
                      (r_conns st ++ [mkconn name RawFacts.SUCCESS credential])%list (r_sent st)).

Definition record_host (result : pyval) : M unit :=
  host_name ← lift (vget result NAME);
  host_id ← lift (vget result ID);
  if negb (is_none host_name) && negb (is_none host_id) then record_conn_result (unique_name host_name host_id) else mret tt.

Definition _request_and_record_hosts (api : sat_api) (org_id : pyval) : M unit :=
  request_results (HOSTS_URL api) org_id (fun _ result => record_host result) tt.

(** [unique_everseen] over the hosts of all organizations. *)
Definition unique_step (seen : list pyval) (host : pyval) : M (list pyval) :=
  mret (if py_in host seen then seen else (seen ++ [host])%list).

Definition hosts_v1 (orgs : list pyval) : M (list pyval) :=
  orgs ← get_orgs orgs;
  _ ← each (_request_and_record_hosts SatelliteSixV1) orgs;
  mret orgs.

Definition _requests_hosts_unique_v1 (orgs : list pyval) : M (list pyval) :=
  orgs ← get_orgs orgs;
  fold_M (fun seen org_id => request_results HOSTS_V1_URL org_id unique_step seen) [] orgs.

Definition _requests_hosts_unique_v2 : M (list pyval) := request_results HOSTS_V2_URL VNone unique_step [].

(** [prepare_hosts]: name, id and connection data of each host. *)
Definition prepare_hosts (hosts : list pyval) : Res (list (pyval * pyval * connect_data)) :=
  mapM (fun host => host_id ← vget host ID; host_name ← vget host NAME;
                    data ← get_connect_data; Ok (host_name, host_id, data)) hosts.

Definition validate_task_stats : M unit :=
  s ← gets (fun st => t_stats (r_task st));
  let totals := systems_scanned s + systems_failed s + systems_unreachable s in
  if totals =? systems_count s then mret tt else update_stats (Some totals) None None None.

(** [hosts_facts] on the hosts listed. *)
Definition hosts_facts (api : sat_api) (hosts : list pyval) : M unit :=
  all_prepared_hosts ← lift (prepare_hosts hosts);
  results ← mapM (fun h : pyval * pyval * connect_data =>
    request_host_details h.2 h.1.1 h.1.2 (HOSTS_FIELDS_URL api) (HOSTS_SUBS_URL api)) all_prepared_hosts;
  _ ← process_results (SATELLITE_API_VERSION api) results;
  validate_task_stats.

(** [handle_api_calls] *)
Definition handle_v1 : M unit :=
  orgs ← host_count_v1;
  orgs ← hosts_v1 orgs;
  hosts ← _requests_hosts_unique_v1 orgs;
  hosts_facts SatelliteSixV1 hosts.
Definition handle_v2 : M unit :=
  _ ← host_count_v2;
  _ ← _request_and_record_hosts SatelliteSixV2 VNone;
  hosts ← _requests_hosts_unique_v2;
  hosts_facts SatelliteSixV2 hosts.

(** ** The runner *)

(** [_status6]: the version of the API. *)
Definition _status6 : M pyval :=
  response ← execute_request STATUS_URL VNone VNone [];
  if sat_status response =? 200 then status_data ← lift (sat_json response); lift (vget status_data "api_version")
  else if sat_status response =? 401 then raise SatelliteAuthError
  else raise SatelliteError.

Definition _format_error_message (message : string) : string :=
  let error_message := "Scan failed for source " +:+ str_source +:+ "." in
  if bool_decide (message = "") then error_message else message +:+ ". " +:+ error_message +:+ ".".

(** [utils.status], [create] and [_initialize_api_object]: which version to use. *)
Definition _initialize_api_object : M bool :=
  api_version ← try_M (v ← _status6; mret (Some v)) (is_exn "SatelliteError") (fun _ => mret None);
  match api_version with
  | None => raise (ScanFailureError (_format_error_message "Unknown satellite version is not supported"))
  | Some v =>
      if py_eq v (VInt 1) then mret true
      else if py_eq v (VInt 2) then mret false
      else raise (ScanFailureError (_format_error_message
             ("Satellite version 6 with api version " +:+ py_str v +:+ " is not supported")))
  end.

Definition expected (e : exn) : bool :=
  is_exn "SatelliteAuthError" e || is_exn "SatelliteError" e || RequestConnError errors e || is_exn "TimeoutError" e.

Definition execute_task : M outcome :=
  try_M (
    is_v1 ← _initialize_api_object;
    _ ← (if (is_v1 : bool) then handle_v1 else handle_v2);
    mret (None, COMPLETED))
    expected
    (fun e => mret (Some (_format_error_message ("Satellite error (" +:+ str_type e +:+ ") found")), ScanModel.FAILED)).

(** ** A server that answers the same request the same way *)

Section stable.
Context (answer : sat_request -> Res sat_response) (Hstable : forall n q, server n q = answer q).

Definition reply_with (data : connect_data) (url : list piece) (org_id host_id : pyval) (query_params : pydict) : Res sat_response :=
  q ← request_of data url org_id host_id query_params; answer q.
Definition reply (url : list piece) (org_id host_id : pyval) (query_params : pydict) : Res sat_response :=
  data ← get_connect_data; reply_with data url org_id host_id query_params.

Lemma execute_with_eq data url org_id host_id query_params st :
  exists k, execute_with data url org_id host_id query_params st = (bump_sent k st, reply_with data url org_id host_id query_params).
Proof.
  unfold execute_with, reply_with, mbind, M_bind, lift, res_bind. destruct (request_of _ _ _ _ _) as [q|e].
  - exists 1%nat. unfold ask. by rewrite Hstable.
  - exists 0%nat. by rewrite bump_sent_0.
Qed.

Lemma execute_eq url org_id host_id query_params st :
  exists k, execute_request url org_id host_id query_params st = (bump_sent k st, reply url org_id host_id query_params).
Proof.
  unfold execute_request, reply. destruct get_connect_data as [data|e].
  - destruct (execute_with_eq data url org_id host_id query_params st) as [k E]. exists k. exact E.
  - exists 0%nat. by rewrite bump_sent_0.
Qed.

(** *** Listings *)

(** The items of a page and the size the server says pages have. *)
Definition page_of (url : list piece) (org_id : pyval) (page : Z) : Res (list pyval * Z) :=
  response ← reply url org_id VNone (page_query page 100);
  _ ← check_ok response;
  body ← sat_json response;
  results ← (r ← vget_default body RESULTS (VList []); py_iter r);
  per_page ← (p ← vget_default body PER_PAGE (VInt 0); py_int p);
  Ok (results, per_page).

(** The pages of a listing from a number on: full ones, then one that is not. *)
Inductive listing (url : list piece) (org_id : pyval) : Z -> list (list pyval) -> Prop :=
| listing_last page items per_page :
    page_of url org_id page = Ok (items, per_page) -> items = [] \/ Z.of_nat (length items) <> per_page ->
    listing url org_id page [items]
| listing_more page items per_page pages :
    page_of url org_id page = Ok (items, per_page) -> items <> [] -> Z.of_nat (length items) = per_page ->
    listing url org_id (page + 1) pages -> listing url org_id page (items :: pages).

(** The loop over a listing: an invariant of its body, that requests do not touch,
    holds of all items at the end. *)
Section loop.
Context {A : Type} (I : A -> list pyval -> rstate -> Prop) (f : A -> pyval -> M A).
Context (Hsent : forall a past st k, I a past st -> I a past (bump_sent k st)).

Definition body_ok (items : list pyval) : Prop := forall a past x st, x ∈ items -> I a past st ->
  exists a' st', f a x st = (st', Ok a') /\ I a' (past ++ [x]) st'.

Lemma fold_rule items : body_ok items -> forall a past st, I a past st ->
  exists a' st', fold_M f a items st = (st', Ok a') /\ I a' (past ++ items) st'.
Proof.
  induction items as [|x items IH]; intros Hf a past st HI; cbn [fold_M].
  - exists a, st. by rewrite app_nil_r.
  - destruct (Hf a past x st) as (a1 & st1 & E1 & H1); [by left | done|].
    destruct (IH (fun a past y st Hy => Hf a past y st (list_elem_of_further _ _ _ Hy)) a1 _ st1 H1) as (a2 & st2 & E2 & H2).
    exists a2, st2. rewrite (bind_ok _ _ _ _ _ E1). split; [done|]. by rewrite <- app_assoc in H2.
Qed.

Lemma results_rule url org_id : forall pages n page a past st,
  listing url org_id page pages -> (length pages <= S n)%nat -> body_ok (concat pages) -> I a past st ->
  exists a' st', results_from n page url org_id f a st = (st', Ok a') /\ I a' (past ++ concat pages) st'.
Proof.
  assert (forall items per_page page n a past st, page_of url org_id page = Ok (items, per_page) -> body_ok items -> I a past st ->
    exists a' st', I a' (past ++ items) st' /\
      results_from n page url org_id f a st =
        (if (0 <? Z.of_nat (length items)) && (Z.of_nat (length items) =? per_page) then
           match n with O => raise (OtherException "diverges") | S m => results_from m (page + 1) url org_id f a' end
         else mret a') st') as Hpage.
  { intros items per_page page n a past st Hp Hf HI. unfold page_of in Hp.
    apply bind_Ok in Hp as (response & E1 & (u & E2 & (body & E3 & (l & E4 & (p & E5 & E6)%bind_Ok)%bind_Ok)%bind_Ok)%bind_Ok).
    injection E6 as -> ->. destruct (execute_eq url org_id VNone (page_query page 100) st) as [k E]. rewrite E1 in E.
    destruct (fold_rule items Hf a past (bump_sent k st)) as (a' & st' & Ef & HI'); [by apply Hsent|].
    exists a', st'. split; [done|].
    destruct n; cbn [results_from]; rewrite (bind_ok _ _ _ _ _ E);
      rewrite (bind_lift _ _ _ _ E2), (bind_lift _ _ _ _ E3), (bind_lift _ _ _ _ E4), (bind_ok _ _ _ _ _ Ef);
      by rewrite (bind_lift _ _ _ _ E5). }
  induction pages as [|items pages IH]; intros n page a past st HL Hfuel Hf HI; [by inversion HL|].
  inversion HL as [? ? per_page Hp Hend|? ? per_page ? Hp Hne Hfull HL']; subst.
  - cbn [concat] in *. rewrite app_nil_r in *. destruct (Hpage _ _ _ n _ _ _ Hp Hf HI) as (a' & st' & H & ->).
    exists a', st'. split; [|done].
    assert ((0 <? Z.of_nat (length items)) && (Z.of_nat (length items) =? per_page) = false) as ->; [|done].
    destruct Hend as [->|Hend]; [done|]. by rewrite (proj2 (Z.eqb_neq _ _) Hend), andb_false_r.
  - cbn [concat] in *. destruct (Hpage _ _ _ n a past st Hp) as (a1 & st1 & H1 & ->).
    { intros b p x s Hx. apply Hf. apply elem_of_app. by left. }
    { done. }
    assert ((0 <? Z.of_nat (length items)) && (Z.of_nat (length items) =? Z.of_nat (length items)) = true) as ->.
    { rewrite Z.eqb_refl. by destruct items. }
    destruct n as [|n]; [inversion HL'; subst; cbn in Hfuel; lia|].
    rewrite app_assoc. apply IH; [done | cbn in Hfuel; lia | | done].
    intros b p x s Hx. apply Hf. apply elem_of_app. by right.
Qed.
End loop.
End stable.

(** *** The details of the hosts *)

Section details.
Context (answer : sat_request -> Res sat_response) (Hstable : forall n q, server n q = answer q).

Definition caught (e : exn) : bool := is_exn "SatelliteError" e || Timeout errors e.

(** What [_request_host_details] gives, but for the requests it counts. *)
Definition detail_of (data : connect_data) (host_name host_id : pyval) (fields_url subs_url : list piece) : Res host_result :=
  let name := unique_name host_name host_id in
  try_except (
    fields ← reply_with answer data fields_url VNone host_id QUERY_PARAMS_FIELDS;
    _ ← check_ok fields;
    subs ← reply_with answer data subs_url VNone host_id [];
    _ ← (if bool_decide (sat_status subs ∈ [400; 404]) then warn_subscriptions subs else check_ok subs);
    fields_json ← sat_json fields;
    subs_json ← sat_json subs;
    Ok (HostDetails name RawFacts.SUCCESS fields_json subs_json))
    caught (fun _ => Ok (HostDetails name RawFacts.FAILED (VDict []) (VDict []))).

Lemma detail_eq data host_name host_id fields_url subs_url st : exists k,
  _request_host_details data host_name host_id fields_url subs_url st =
    (bump_sent k st, detail_of data host_name host_id fields_url subs_url).
Proof.
  unfold _request_host_details, detail_of. set (name := unique_name _ _). cbn zeta.
  match goal with |- exists k, try_M ?m _ _ st = (_, try_except ?r _ _) =>
    assert (exists k, m st = (bump_sent k st, r)) as [k E] end.
  2:{ exists k. unfold try_M, try_except. rewrite E. match type of E with _ = (_, ?r) => destruct r as [a|e] end; [done|].
      fold (caught e). by destruct (caught e). }
  destruct (execute_with_eq answer Hstable data fields_url VNone host_id QUERY_PARAMS_FIELDS st) as [k1 E1].
  destruct (reply_with answer data fields_url VNone host_id QUERY_PARAMS_FIELDS) as [r1|e1].
  2:{ exists k1. by rewrite (bind_err _ _ _ _ _ E1). }
  rewrite (bind_ok _ _ _ _ _ E1). cbn [mbind res_bind]. destruct (check_ok r1) as [[]|e2] eqn:C1; [|by exists k1].
  rewrite (bind_lift _ _ _ _ eq_refl).
  destruct (execute_with_eq answer Hstable data subs_url VNone host_id [] (bump_sent k1 st)) as [k2 E2].
  rewrite bump_bump in E2. exists (k2 + k1)%nat.
  destruct (reply_with answer data subs_url VNone host_id []) as [r2|e2].
  2:{ by rewrite (bind_err _ _ _ _ _ E2). }
  rewrite (bind_ok _ _ _ _ _ E2). 
  cbn [mbind res_bind].
  match goal with |- (lift ?r ≫= _) _ = _ => destruct r as [[]|e3] end; [|done].
  rewrite (bind_lift _ _ _ _ eq_refl). destruct (sat_json r1) as [j1|e4]; [|done].
  rewrite (bind_lift _ _ _ _ eq_refl). by destruct (sat_json r2).
Qed.

Lemma request_details_eq data host_name host_id fields_url subs_url st r :
  detail_of data host_name host_id fields_url subs_url = Ok r ->
  exists k, request_host_details data host_name host_id fields_url subs_url st = (bump_sent k st, Ok r).
Proof.
  intros H. destruct (detail_eq data host_name host_id fields_url subs_url st) as [k E]. exists k.
  unfold request_host_details, try_M. by rewrite E, H.
Qed.

(** The row stored for the result of a host, and for a host. *)
Definition result_row (api_version : Z) (r : host_result) : Res row :=
  match r with
  | HostDetails name s fields subs =>
      d ← details_of api_version s fields subs;
      Ok (name, s, if bool_decide (s = RawFacts.SUCCESS) then present d else [])
  | Crashed => Err TypeError
  end.

Definition details_for (api : sat_api) (h : pyval * pyval * connect_data) : Res host_result :=
  detail_of h.2 h.1.1 h.1.2 (HOSTS_FIELDS_URL api) (HOSTS_SUBS_URL api).

Definition prepare_host (host : pyval) : Res (pyval * pyval * connect_data) :=
  host_id ← vget host ID; host_name ← vget host NAME; data ← get_connect_data; Ok (host_name, host_id, data).

Definition host_row (api : sat_api) (host : pyval) : Res row :=
  h ← prepare_host host; r ← details_for api h; result_row (SATELLITE_API_VERSION api) r.

Definition counts (rs : list row) (x : stats) : stats := foldl (fun x r => count_status r.1.2 x) x rs.

Lemma detail_status data n i fu su name s f u : detail_of data n i fu su = Ok (HostDetails name s f u) -> s <> NO_STATUS.
Proof.
  unfold detail_of, try_except. destruct (_ ≫= _) as [a|e] eqn:E; [|by destruct (caught e); [intros [= _ <-]|]].
  intros H. injection H as ->. res_inv. congruence.
Qed.

Lemma record_spec tid name facts s st : ready tid st -> s <> NO_STATUS -> exists st',
  record_inspect_result name facts s st = (st', Ok tt) /\
  effect tid st st' [(name, s, if bool_decide (s = RawFacts.SUCCESS) then present facts else [])] [] /\
  t_stats (r_task st') = count_status s (t_stats (r_task st)).
Proof.
  intros R Hs. destruct (inspect_group_spec source_key src server_id server_version tid st R) as (st1 & g & E1 & F1 & O1 & T1 & _).
  destruct (create_result_spec tid name s g (if bool_decide (s = RawFacts.SUCCESS) then present facts else []) st1
    (ef_ready _ _ _ _ _ F1) O1) as (st2 & E2 & F2 & T2 & _).
  destruct (increment_spec tid s st2 (ef_ready _ _ _ _ _ F2) Hs) as (st3 & E3 & F3 & T3 & _).
  exists st3. split; [|split].
  - apply atomic_ok. by rewrite (bind_ok _ _ _ _ _ E1), (bind_ok _ _ _ _ _ E2).
  - exact (effect_trans _ _ _ _ _ _ _ _ F1 (effect_trans _ _ _ _ _ _ _ _ F2 F3)).
  - by rewrite T3, T2, T1.
Qed.

Definition has_status (r : host_result) : Prop := match r with HostDetails _ s _ _ => s <> NO_STATUS | Crashed => True end.

Lemma process_results_spec tid api_version results : forall rs st, ready tid st -> Forall has_status results ->
  mapM (result_row api_version) results = Ok rs -> exists st',
    process_results api_version results st = (st', Ok tt) /\ effect tid st st' rs [] /\
    t_stats (r_task st') = counts rs (t_stats (r_task st)).
Proof.
  unfold process_results. induction results as [|r results IH]; intros rs st R HS H; cbn in H.
  - injection H as <-. exists st. split; [done|]. by split; [apply effect_refl|].
  - apply bind_Ok in H as (x & Hx & (rs' & Hrs & [= <-])%bind_Ok). apply Forall_cons in HS as [Hr HS].
    destruct r as [name s fields subs|]; [|done]. cbn in Hx, Hr. apply bind_Ok in Hx as (d & Hd & [= <-]).
    destruct (record_spec tid name d s st R Hr) as (st1 & E1 & F1 & T1).
    destruct (IH rs' st1 (ef_ready _ _ _ _ _ F1) HS Hrs) as (st2 & E2 & F2 & T2).
    exists st2. cbn [each]. split; [|split].
    + rewrite (bind_ok _ _ st st1 tt); [done|]. unfold process_result. by rewrite (bind_lift _ _ _ _ Hd).
    + exact (effect_trans _ _ _ _ _ _ _ _ F1 F2).
    + rewrite T2, T1. done.
Qed.

Lemma requests_spec api prepared : forall results st, mapM (details_for api) prepared = Ok results -> exists k,
  mapM (fun h : pyval * pyval * connect_data =>
    request_host_details h.2 h.1.1 h.1.2 (HOSTS_FIELDS_URL api) (HOSTS_SUBS_URL api)) prepared st = (bump_sent k st, Ok results).
Proof.
  induction prepared as [|h prepared IH]; intros results st H; cbn in H.
  - injection H as <-. exists 0%nat. by rewrite bump_sent_0.
  - apply bind_Ok in H as (r & Hr & (l & Hl & [= <-])%bind_Ok).
    destruct (request_details_eq _ _ _ _ _ st r Hr) as [j E1]. destruct (IH l (bump_sent j st) Hl) as [k E2].
    exists (k + j)%nat. rewrite bump_bump in E2. cbn [mapM]. rewrite (bind_ok _ _ _ _ _ E1).
    by rewrite (bind_ok _ _ _ _ _ E2).
Qed.

Lemma mapM_split {A B C} (f : A -> Res B) (g : B -> Res C) l rs : mapM (fun x => y ← f x; g y) l = Ok rs ->
  exists ys, mapM f l = Ok ys /\ mapM g ys = Ok rs.
Proof.
  revert rs. induction l as [|x l IH]; intros rs H; cbn in H; [injection H as <-; by exists []|].
  apply bind_Ok in H as (z & (y & Hy & Hz)%bind_Ok & (zs & Hzs & [= <-])%bind_Ok).
  destruct (IH zs Hzs) as (ys & H1 & H2). exists (y :: ys). cbn. by rewrite Hy, H1, Hz, H2.
Qed.

(** The counter of systems is what was found. *)
Definition settled (x : stats) : stats :=
  set_count (Some (systems_scanned x + systems_failed x + systems_unreachable x)) None None None x.

Lemma validate_stats_spec tid st : ready tid st -> exists st', validate_task_stats st = (st', Ok tt) /\
  effect tid st st' [] [] /\ t_stats (r_task st') = settled (t_stats (r_task st)).
Proof.
  intros R. unfold validate_task_stats. rewrite (bind_ok _ _ st st (t_stats (r_task st))) by done. cbn zeta.
  destruct (_ =? _) eqn:E.
  - apply Z.eqb_eq in E. exists st. split; [done|]. split; [by apply effect_refl|]. unfold settled, set_count. rewrite E.
    by destruct (t_stats (r_task st)).
  - destruct (update_spec tid (Some (systems_scanned (t_stats (r_task st)) + systems_failed (t_stats (r_task st)) +
      systems_unreachable (t_stats (r_task st)))) None None None st R) as (st' & E1 & F & T & _). by exists st'.
Qed.

Lemma hosts_facts_spec tid api hosts rs st : ready tid st -> mapM (host_row api) hosts = Ok rs -> exists st',
  hosts_facts api hosts st = (st', Ok tt) /\ effect tid st st' rs [] /\
  t_stats (r_task st') = settled (counts rs (t_stats (r_task st))).
Proof.
  intros R H. apply mapM_split in H as (prepared & Hp & (results & Hr & Hrs)%mapM_split).
  destruct (requests_spec api prepared results st Hr) as [k E1].
  assert (Forall has_status results) as HS.
  { apply mapM_Ok in Hr. clear - Hr. induction Hr as [|h r ? ? H ? IH]; constructor; [|done].
    destruct r; [by eapply detail_status | done]. }
  destruct (process_results_spec tid _ results rs (bump_sent k st) (ready_sent _ _ _ R) HS Hrs) as (st2 & E2 & F2 & T2).
  destruct (validate_stats_spec tid st2 (ef_ready _ _ _ _ _ F2)) as (st3 & E3 & F3 & T3).
  exists st3. split; [|split].
  - unfold hosts_facts. rewrite (bind_lift _ _ _ prepared) by exact Hp. rewrite (bind_ok _ _ _ _ _ E1).
    by rewrite (bind_ok _ _ _ _ _ E2).
  - pose proof (effect_trans _ _ _ _ _ _ _ _ (effect_sent _ k _ _ _ _ (effect_refl _ _ R))
      (effect_trans _ _ _ _ _ _ _ _ F2 F3)) as F. by rewrite !app_nil_r in F.
  - by rewrite T3, T2.
Qed.
End details.

(** *** The whole inspection, version 2 of the API *)

(** [more_itertools.unique_everseen] *)
Definition unique_everseen (l : list pyval) : list pyval :=
  foldl (fun seen host => if py_in host seen then seen else (seen ++ [host])%list) [] l.

Definition host_name (host : pyval) : string :=
  match host with VDict h => unique_name (dget_none NAME h) (dget_none ID h) | _ => "" end.
Definition source_credential : option Z := match credentials src with c :: _ => Some (c_id c) | [] => None end.
(** The connection result of a host that has a name and an id. *)
Definition host_conns (host : pyval) : list conn_row :=
  match host with
  | VDict h => if negb (is_none (dget_none NAME h)) && negb (is_none (dget_none ID h))
               then [mkconn (host_name host) RawFacts.SUCCESS source_credential] else []
  | _ => []
  end.

Lemma add_conn_effect tid name st : ready tid st -> exists st', record_conn_result name st = (st', Ok tt) /\
  effect tid st st' [] [mkconn name RawFacts.SUCCESS source_credential] /\ r_task st' = r_task st.
Proof.
  intros [W Hi Hr G]. eexists. split; [done|]. split; [|done]. split; [by split | by rewrite app_nil_r | done | done].
Qed.

Lemma host_row_name answer api host r : host_row answer api host = Ok r -> r.1.1 = host_name host.
Proof.
  unfold host_row, prepare_host. destruct host as [| | | | | |h| | |]; try done. rewrite !vget_VDict. cbn [mbind res_bind].
  intros (p & (data & _ & [= <-])%bind_Ok & (x & Hx & Hr)%bind_Ok)%bind_Ok.
  assert (forall n s f u, x = HostDetails n s f u -> n = host_name (VDict h)) as Hn.
  { intros n s f u ->. unfold details_for, detail_of, try_except in Hx. destruct (_ ≫= _) as [a|e] eqn:E in Hx.
    - injection Hx as ->. by res_inv.
    - destruct (caught e); [|done]. by injection Hx as <-. }
  destruct x as [n s f u|]; [|done]. cbn in Hr. apply bind_Ok in Hr as (? & _ & [= <-]). by eapply Hn.
Qed.

Section inspection.
Context (answer : sat_request -> Res sat_response) (Hstable : forall n q, server n q = answer q).

Definition api_version : Res pyval :=
  r ← reply answer STATUS_URL VNone VNone []; _ ← check_ok r; body ← sat_json r; vget body "api_version".
Definition total_v2 : Res Z := r ← reply answer HOSTS_V2_URL VNone VNone (page_query 1 10); add_total r 0.

Lemma initialize_spec st : api_version = Ok (VInt 2) -> exists k, _initialize_api_object st = (bump_sent k st, Ok false).
Proof.
  intros H. unfold api_version in H. apply bind_Ok in H as (r & E1 & (u & E2 & (body & E3 & E4)%bind_Ok)%bind_Ok).
  destruct (execute_eq answer Hstable STATUS_URL VNone VNone [] st) as [k E]. rewrite E1 in E. exists k.
  assert (_status6 st = (bump_sent k st, Ok (VInt 2))) as Es.
  { unfold _status6. rewrite (bind_ok _ _ _ _ _ E). unfold check_ok in E2. destruct (sat_status r =? 200); [|done].
    by rewrite (bind_lift _ _ _ _ E3), E4. }
  unfold _initialize_api_object. rewrite (bind_ok _ _ st (bump_sent k st) (Some (VInt 2))); [done|].
  unfold try_M. by rewrite (bind_ok _ _ _ _ _ Es).
Qed.

Lemma host_count_spec tid total st : ready tid st -> total_v2 = Ok total -> exists st', host_count_v2 st = (st', Ok tt) /\
  effect tid st st' [] [] /\ t_stats (r_task st') = set_count (Some total) None None None (t_stats (r_task st)).
Proof.
  intros R H. unfold total_v2 in H. apply bind_Ok in H as (r & E1 & E2).
  destruct (execute_eq answer Hstable HOSTS_V2_URL VNone VNone (page_query 1 10) st) as [k E]. rewrite E1 in E.
  destruct (update_spec tid (Some total) None None None (bump_sent k st) (ready_sent _ _ _ R)) as (st' & E3 & F & T & _).
  exists st'. split; [|split; [|exact T]].
  - unfold host_count_v2. by rewrite (bind_ok _ _ _ _ _ E), (bind_lift _ _ _ _ E2).
  - exact (effect_trans _ _ _ _ _ _ _ _ (effect_sent _ k _ _ _ _ (effect_refl _ _ R)) F).
Qed.

Definition is_dict (v : pyval) : Prop := match v with VDict _ => True | _ => False end.

Lemma record_hosts_spec tid api org_id pages st : ready tid st -> listing answer (HOSTS_URL api) org_id 1 pages ->
  (length pages <= S fuel)%nat -> Forall is_dict (concat pages) -> exists st',
    _request_and_record_hosts api org_id st = (st', Ok tt) /\
    effect tid st st' [] (concat (host_conns <$> concat pages)) /\ r_task st' = r_task st.
Proof.
  intros R HL Hfuel HD.
  destruct (results_rule answer Hstable (fun (_ : unit) past st' =>
    effect tid st st' [] (concat (host_conns <$> past)) /\ r_task st' = r_task st) (fun _ => record_host)
    ltac:(intros ? ? ? k [? ?]; split; [by apply effect_sent | done]) (HOSTS_URL api) org_id pages fuel 1 tt [] st HL Hfuel)
    as (a & st' & E & F & T).
  - intros [] past x st1 Hx [F T]. rewrite Forall_forall in HD. specialize (HD x Hx).
    destruct x as [| | | | | |h| | |]; try done. unfold record_host. rewrite !vget_VDict.
    rewrite (bind_lift _ _ _ _ eq_refl), (bind_lift _ _ _ _ eq_refl).
    rewrite fmap_app, concat_app. cbn [fmap list_fmap concat host_conns]. rewrite app_nil_r.
    destruct (_ && _).
    + destruct (add_conn_effect tid (host_name (VDict h)) st1 (ef_ready _ _ _ _ _ F)) as (st2 & E2 & F2 & T2).
      exists tt, st2. split; [exact E2|]. split; [|by rewrite T2]. exact (effect_trans _ _ _ _ _ _ _ _ F F2).
    + exists tt, st1. by rewrite app_nil_r.
  - split; [by apply effect_refl | done].
  - destruct a. exists st'. by split.
Qed.

Lemma unique_hosts_spec pages st : listing answer HOSTS_V2_URL VNone 1 pages -> (length pages <= S fuel)%nat ->
  exists k, _requests_hosts_unique_v2 st = (bump_sent k st, Ok (unique_everseen (concat pages))).
Proof.
  intros HL Hfuel.
  destruct (results_rule answer Hstable (fun seen past st' => seen = unique_everseen past /\ exists k, st' = bump_sent k st)
    unique_step ltac:(intros ? ? ? k [? [j ->]]; split; [done|]; exists (k + j)%nat; by rewrite bump_bump)
    HOSTS_V2_URL VNone pages fuel 1 [] [] st HL Hfuel) as (a & st' & E & -> & k & ->).
  - intros a past x st1 _ [-> Hk]. eexists _, st1. split; [done|]. split; [|done].
    unfold unique_everseen. by rewrite foldl_app.
  - split; [done|]. exists 0%nat. by rewrite bump_sent_0.
  - by exists k.
Qed.

(** [C9] The whole inspection of a Satellite, version 2 of its API, when its answers
    can be used: it ends, completed; every host of the inventory, over all pages and
    counted once, has one result, named after its name and id, with the facts of its
    fields and subscriptions, or failed with none when the server refused them; and
    whatever number of hosts the server announced, the number of systems ends as the
    number of those results. *)
Theorem satellite_inspection_spec t d tb total pages rs :
  wf_store tb -> tasks d !! t_id t = Some t ->
  api_version = Ok (VInt 2) -> total_v2 = Ok total ->
  listing answer HOSTS_V2_URL VNone 1 pages -> (length pages <= S fuel)%nat -> Forall is_dict (concat pages) ->
  let hosts := unique_everseen (concat pages) in
  mapM (host_row answer SatelliteSixV2) hosts = Ok rs ->
  let st := start_state t d tb in
  exists st', execute_task st = (st', Ok (None, COMPLETED)) /\
    effect (t_id t) st st' rs (concat (host_conns <$> concat pages)) /\
    rs.*1.*1 = host_name <$> hosts /\
    t_stats (r_task st') = settled (counts rs (set_count (Some total) None None None (t_stats t))).
Proof.
  intros W Ht Hv Hc HL Hfuel HD hosts Hrs st. pose proof (start_ready t d tb W Ht) as R.
  destruct (initialize_spec st Hv) as [k E1].
  destruct (host_count_spec (t_id t) total (bump_sent k st) (ready_sent _ _ _ R) Hc) as (st2 & E2 & F2 & T2).
  destruct (record_hosts_spec (t_id t) SatelliteSixV2 VNone pages st2 (ef_ready _ _ _ _ _ F2) HL Hfuel HD) as (st3 & E3 & F3 & T3).
  destruct (unique_hosts_spec pages st3 HL Hfuel) as [j E4].
  destruct (hosts_facts_spec answer Hstable (t_id t) SatelliteSixV2 hosts rs (bump_sent j st3)
    (ready_sent _ _ _ (ef_ready _ _ _ _ _ F3)) Hrs) as (st4 & E5 & F5 & T5).
  exists st4. split; [|split; [|split]].
  - unfold execute_task, try_M. rewrite (bind_ok _ _ _ _ _ E1). rewrite (bind_ok _ _ (bump_sent k st) st4 tt); [done|].
    unfold handle_v2. by rewrite (bind_ok _ _ _ _ _ E2), (bind_ok _ _ _ _ _ E3), (bind_ok _ _ _ _ _ E4).
  - pose proof (effect_trans _ _ _ _ _ _ _ _ (effect_sent _ k _ _ _ _ (effect_refl _ _ R)) (effect_trans _ _ _ _ _ _ _ _ F2
      (effect_trans _ _ _ _ _ _ _ _ (effect_sent _ j _ _ _ _ F3) F5))) as F. cbn [app] in F. by rewrite app_nil_r in F.
  - apply mapM_Ok in Hrs. clear - Hrs. induction Hrs as [|h r ? ? H ? IH]; [done|]. cbn. by rewrite IH, (host_row_name _ _ _ _ H).
  - rewrite T5. change (r_task (bump_sent j st3)) with (r_task st3). by rewrite T3, T2.
Qed.
End inspection.

(** *** A crash in the details of a host *)

Section row_in.
Context (t0 : task) (d0 : db) (S : status -> Prop).

Definition same_task (t : task) : Prop :=
  t_id t = t_id t0 /\ t_job t = t_job t0 /\ t_scan_type t = t_scan_type t0 /\ t_source t = t_source t0.

(** Only the row of the task changed, up to its status, which is in [S]. *)
Definition row_in (st : rstate) : Prop :=
  same_task (r_task st) /\ exists x, r_db st = with_tasks <[t_id t0 := x]> d0 /\ same_task x /\ S (t_status x).

Lemma insert_row x x' : t_id x' = t_id t0 ->
  save_task x' (with_tasks <[t_id t0 := x]> d0) = with_tasks <[t_id t0 := x']> d0.
Proof. intros H. unfold save_task, with_tasks. cbn. by rewrite H, insert_insert_eq. Qed.

Lemma row_in_modify f : (forall st, r_task (f st) = r_task st /\ r_db (f st) = r_db st) -> keeps row_in (modify f).
Proof. intros H st. unfold row_in. cbn. by destruct (H st) as [-> ->]. Qed.

Lemma row_in_reads {A} (m : M A) : reads m -> keeps row_in m.
Proof. intros H st Hst. by destruct (H st) as [k ->]. Qed.

Lemma row_in_update a b c e : keeps row_in (update_stats a b c e).
Proof.
  intros st (H & x & Hd & Hx & Hs). pose proof H as [Hi _]. pose proof Hx as [Hxi _].
  unfold update_stats, on_task, Task.update_stats, get_task.
  rewrite Hi, Hd. cbn [tasks with_tasks]. rewrite lookup_insert_eq. cbn [from_option mbind res_bind].
  destruct (_ || _); (split; [done|]); [eexists; split; [by apply insert_row|by split] | by exists x].
Qed.

Lemma row_in_increment s : keeps row_in (increment_for s).
Proof.
  intros st (H & x & Hd & Hx & Hs). pose proof H as [Hi _]. unfold increment_for, on_task, Task.increment_stats, get_task.
  destruct s; cbn; rewrite ?Hi, ?Hd; cbn; rewrite ?lookup_alter_eq, ?lookup_insert_eq; cbn; [| | |by split; eauto];
    (split; [done|]; eexists; split; [unfold with_tasks; cbn; by rewrite alter_insert_eq | by split]).
Qed.

Lemma row_in_atomic {A} (m : M A) : keeps row_in m -> keeps row_in (atomic m).
Proof.
  intros Hm st H. specialize (Hm st H). unfold atomic. destruct (m st) as [st' [a|e]]; [done|].
  destruct H as [_ H], Hm as [Hm _]. by split.
Qed.

Lemma row_in_group : keeps row_in (_inspect_group source_key src server_id server_version).
Proof.
  unfold _inspect_group. apply keeps_bind; [by intros st H|]. intros [g|]; [by intros st H|].
  apply keeps_bind; [by intros st H|]. intros g. apply keeps_bind; [|intros; apply keeps_ret]. by apply row_in_modify.
Qed.

Lemma row_in_process v results : keeps row_in (process_results v results).
Proof.
  apply keeps_each. intros [name s fields subs|] _; [|apply keeps_raise].
  apply keeps_bind; [apply keeps_lift|]. intros d. apply row_in_atomic. apply keeps_bind; [apply row_in_group|].
  intros g. apply keeps_bind; [|intros; apply row_in_increment]. apply keeps_bind; [apply keeps_lift|].
  intros n. by apply row_in_modify.
Qed.

Lemma reads_host_details data n i fu su : reads (_request_host_details data n i fu su).
Proof. unfold _request_host_details, execute_with. reads. Qed.

Lemma fail_row_in st : S FAILED -> row_in st -> row_in (fail_row st).1.
Proof.
  intros HS (H & x & Hd & Hx & Hs). pose proof H as [Hi _]. pose proof Hx as [Hxi _]. unfold fail_row, get_task. cbn. rewrite Hi, Hd. cbn.
  rewrite lookup_insert_eq. cbn. split; [done|]. eexists. split; [by apply insert_row | by split].
Qed.
End row_in.

Definition in_failed (s : status) : Prop := s = ScanModel.FAILED.

Lemma row_in_failed t0 d0 S st : row_in t0 d0 S st -> row_in t0 d0 in_failed (fail_row st).1.
Proof.
  intros (H & x & Hd & Hx & Hs). pose proof H as [Hi _]. pose proof Hx as [Hxi _]. unfold fail_row, get_task. cbn. rewrite Hi, Hd. cbn.
  rewrite lookup_insert_eq. cbn. split; [done|]. eexists. split; [by apply insert_row | by split].
Qed.

(** The details of a host only ask the server, or end crashed with the row failed. *)
Lemma request_details_cases data n i fu su st : exists k,
  request_host_details data n i fu su st =
    match (_request_host_details data n i fu su st).2 with
    | Ok r => (bump_sent k st, Ok r)
    | Err _ => ((fail_row (bump_sent k st)).1, Ok Crashed)
    end.
Proof.
  destruct (reads_host_details data n i fu su st) as [k Hk]. exists k. unfold request_host_details, try_M.
  destruct (_request_host_details _ _ _ _ _ st) as [st' [r|e]]; cbn in Hk; subst st'; done.
Qed.

Lemma details_not_crashed data n i fu su st : (_request_host_details data n i fu su st).2 <> Ok Crashed.
Proof.
  unfold _request_host_details, try_M. set (name := unique_name _ _).
  match goal with |- context [match ?m st with _ => _ end] => destruct (m st) as [st' [r|e]] eqn:E end.
  - apply run_bind in E as (r1 & s1 & _ & E). apply run_bind in E as (u & s2 & _ & E). apply run_bind in E as (r2 & s3 & _ & E).
    apply run_bind in E as (u' & s4 & _ & E). apply run_bind in E as (j1 & s5 & _ & E). apply run_bind in E as (j2 & s6 & _ & E).
    by injection E as _ <-.
  - by destruct (_ || _).
Qed.

Definition request_of_host (api : sat_api) (h : pyval * pyval * connect_data) : M host_result :=
  request_host_details h.2 h.1.1 h.1.2 (HOSTS_FIELDS_URL api) (HOSTS_SUBS_URL api).

(** All details: results, one of them crashed exactly when the row is failed. *)
Lemma requests_cases t0 d0 (S : status -> Prop) api prepared : S ScanModel.FAILED -> forall st, row_in t0 d0 S st ->
  exists st' results, mapM (request_of_host api) prepared st = (st', Ok results) /\
    row_in t0 d0 S st' /\ (row_in t0 d0 in_failed st -> row_in t0 d0 in_failed st') /\
    ((exists k, st' = bump_sent k st) /\ Crashed ∉ results \/ (Crashed ∈ results /\ row_in t0 d0 in_failed st')).
Proof.
  intros HS. induction prepared as [|h l IH]; intros st H.
  - exists st, []. split; [done|]. split; [done|]. split; [done|]. left. split; [|apply not_elem_of_nil].
    exists 0%nat. by rewrite bump_sent_0.
  - destruct (request_details_cases h.2 h.1.1 h.1.2 (HOSTS_FIELDS_URL api) (HOSTS_SUBS_URL api) st) as [k E].
    pose proof (details_not_crashed h.2 h.1.1 h.1.2 (HOSTS_FIELDS_URL api) (HOSTS_SUBS_URL api) st) as Hnc.
    destruct (_request_host_details _ _ _ _ _ st).2 as [r|e].
    + destruct (IH (bump_sent k st) H) as (st2 & results & E2 & H2 & HF & Hc).
      exists st2, (r :: results). split; [cbn [mapM]; unfold request_of_host at 1; by rewrite (bind_ok _ _ _ _ _ E), (bind_ok _ _ _ _ _ E2)|].
      split; [done|]. split; [exact HF|]. destruct Hc as [[[j ->] Hn]|[Hin HF']].
      * left. split; [exists (j + k)%nat; by rewrite bump_bump|]. apply not_elem_of_cons. split; [|done].
        intros <-. by apply Hnc.
      * right. split; [by right | done].
    + pose proof (fail_row_in t0 d0 S (bump_sent k st) HS H) as H1. pose proof (row_in_failed t0 d0 S (bump_sent k st) H) as F1.
      destruct (IH _ H1) as (st2 & results & E2 & H2 & HF & Hc).
      exists st2, (Crashed :: results). split; [cbn [mapM]; unfold request_of_host at 1; by rewrite (bind_ok _ _ _ _ _ E), (bind_ok _ _ _ _ _ E2)|].
      split; [done|]. split; [intros _; by apply HF|]. right. split; [by left | by apply HF].
Qed.

Lemma process_crashed v results st : Crashed ∈ results -> is_ok (process_results v results st).2 = false.
Proof.
  unfold process_results. revert st. induction results as [|r results IH]; intros st; [by intros ?%elem_of_nil|].
  intros [<-|H]%elem_of_cons; cbn [each]; [done|]. unfold mbind, M_bind. destruct (process_result v r st) as [st1 [u|e]]; [by apply IH | done].
Qed.

(** The value of a header: text, or none. *)
Definition header (v : pyval) : Prop := v = VNone \/ exists s, v = VStr s.

(** The warning reads the body only when the header says that it is JSON. *)
Lemma warn_unreadable subs e : header (content_type subs) -> sat_json subs = Err e ->
  warn_subscriptions subs = Ok tt \/ warn_subscriptions subs = Err e.
Proof.
  unfold warn_subscriptions. intros [->|[s ->]] ->; [by left|]. destruct (truthy (VStr s)); cbn; [|by left].
  destruct (str_contains _ s); auto.
Qed.

(** [C19] A host whose subscriptions the server refuses with a body that is not JSON,
    whatever its content type says, is only warned about, then read as JSON all the
    same: the exception fails the row of the task and the inspection raises, whatever
    the other hosts answer. *)
Theorem unreadable_subscriptions_fail (answer : sat_request -> Res sat_response) (api : sat_api) hosts prepared h fields subs body e st :
  (forall n q, server n q = answer q) ->
  tasks (r_db st) !! t_id (r_task st) = Some (r_task st) ->
  prepare_hosts hosts = Ok prepared -> h ∈ prepared ->
  reply_with answer h.2 (HOSTS_FIELDS_URL api) VNone h.1.2 QUERY_PARAMS_FIELDS = Ok fields -> sat_status fields = 200 ->
  sat_json fields = Ok body ->
  reply_with answer h.2 (HOSTS_SUBS_URL api) VNone h.1.2 [] = Ok subs -> sat_status subs ∈ [400; 404] ->
  header (content_type subs) -> sat_json subs = Err e -> caught e = false ->
  let '(st', r) := hosts_facts api hosts st in
  is_ok r = false /\ exists x, tasks (r_db st') !! t_id (r_task st) = Some x /\ t_status x = ScanModel.FAILED.
Proof.
  intros Hst Ht Hp Hin E1 C1 J1 E2 C2 T2 J2 Hc.
  assert (row_in (r_task st) (r_db st) (fun _ => True) st) as R.
  { split; [done|]. exists (r_task st). split; [|done]. destruct st as [t d ? ? ? ?]. cbn in *.
    destruct d. unfold with_tasks. cbn in *. by rewrite insert_id. }
  destruct (requests_cases _ _ _ api prepared I st R) as (st1 & results & E & R1 & _ & Hor).
  assert (mapM (request_of_host api) prepared st = (st1, Ok results) -> Crashed ∈ results) as Hcr.
  { clear Hor R1 E R Hp Ht. revert st st1 results. induction prepared as [|x l IH]; intros st st1 results E; [by apply elem_of_nil in Hin|].
    cbn [mapM] in E. apply run_bind in E as (r & s1 & Ex & (rs & s2 & El & [= _ <-])%run_bind).
    apply elem_of_cons in Hin as [->|Hin]; [|right; by eapply IH]. assert (r = Crashed) as ->; [|by left].
    destruct (request_details_cases x.2 x.1.1 x.1.2 (HOSTS_FIELDS_URL api) (HOSTS_SUBS_URL api) st) as [k Ek].
    destruct (detail_eq answer Hst x.2 x.1.1 x.1.2 (HOSTS_FIELDS_URL api) (HOSTS_SUBS_URL api) st) as [j Ej].
    unfold request_of_host in Ex. rewrite Ek, Ej in Ex. cbn [snd] in Ex. unfold detail_of, check_ok in Ex.
    rewrite E1 in Ex. cbn [mbind res_bind] in Ex. rewrite C1, Z.eqb_refl, E2 in Ex. cbn [mbind res_bind] in Ex.
    rewrite bool_decide_eq_true_2 in Ex by done. fold (warn_subscriptions subs) in Ex.
    destruct (warn_unreadable subs e T2 J2) as [Ew|Ew]; rewrite Ew in Ex; cbn [mbind res_bind] in Ex;
      rewrite ?J1, ?J2 in Ex; cbn [mbind res_bind try_except] in Ex; rewrite Hc in Ex; by injection Ex. }
  specialize (Hcr E). destruct Hor as [[_ Hn]|[_ F1]]; [done|].
  destruct (process_results (SATELLITE_API_VERSION api) results st1) as [st2 r] eqn:E3.
  pose proof (process_crashed (SATELLITE_API_VERSION api) results st1 Hcr) as Hf.
  pose proof (row_in_process _ _ in_failed (SATELLITE_API_VERSION api) results st1 F1) as (_ & x & Hd & [Hx _] & Hs).
  rewrite E3 in Hf, Hd. cbn [fst snd] in Hf, Hd. destruct r as [|er]; [done|].
  unfold hosts_facts. rewrite (bind_lift _ _ _ _ Hp), (bind_ok _ _ _ _ _ E), (bind_err _ _ _ _ _ E3). split; [done|].
  exists x. rewrite Hd. cbn. by rewrite lookup_insert_eq.
Qed.

(** *** A runner of the flow *)

(** An exception that is no class of a library. *)
Definition builtin (e : exn) : Prop := match e with OtherException _ => False | _ => True end.
Definition builtin_errors {A} (r : Res A) : Prop := match r with Ok _ => True | Err e => builtin e end.

Lemma builtin_bind {A B} (r : Res A) (f : A -> Res B) :
  builtin_errors r -> (forall a, builtin_errors (f a)) -> builtin_errors (r ≫= f).
Proof. destruct r; cbn; auto. Qed.
Lemma builtin_mapM {A B} (f : A -> Res B) l : (forall x, builtin_errors (f x)) -> builtin_errors (mapM f l).
Proof. intros H. induction l; [done|]. cbn. apply builtin_bind; [done|]. intros b. by apply builtin_bind. Qed.
Lemma builtin_foldM {A B} (f : A -> B -> Res A) l : (forall a x, builtin_errors (f a x)) -> forall a, builtin_errors (foldM f a l).
Proof. intros H. induction l; intros a0; [done|]. cbn. by apply builtin_bind. Qed.
Lemma builtin_vget_default v k d : builtin_errors (vget_default v k d).
Proof. by destruct v. Qed.
Lemma builtin_vget v k : builtin_errors (vget v k).
Proof. apply builtin_vget_default. Qed.
Lemma builtin_getitem v k : builtin_errors (getitem v k).
Proof. destruct v as [| | | | | |d| | |]; try done. cbn. unfold dget_exn. by destruct (dget k d). Qed.
Lemma builtin_iter v : builtin_errors (py_iter v).
Proof. by destruct v. Qed.
Lemma builtin_as_str m v : builtin_errors (as_str m v).
Proof. by destruct v. Qed.

Create HintDb builtin.
#[local] Hint Resolve builtin_vget builtin_vget_default builtin_getitem builtin_iter builtin_as_str : builtin.
Ltac builtin := repeat (intros; first
  [ solve [cbn; auto with builtin] | apply builtin_bind | apply builtin_mapM | apply builtin_foldM | case_goal ]).

Lemma builtin_update m v h : builtin_errors (update_map m v h).
Proof. unfold update_map, data_map. builtin. Qed.
Lemma builtin_guests v h : builtin_errors (add_guests v h).
Proof. unfold add_guests. builtin. Qed.
Lemma builtin_step acc kv : builtin_errors (address_step acc kv).
Proof. unfold address_step, append_if. builtin. Qed.
Lemma builtin_os h : builtin_errors (os_facts h).
Proof. unfold os_facts. builtin. Qed.
#[local] Hint Resolve builtin_update builtin_guests builtin_step builtin_os : builtin.

Lemma builtin_details v s f u : builtin_errors (details_of v s f u).
Proof. unfold details_of, host_fields, host_subscriptions, subscription. builtin. Qed.

(** Storing results raises no exception of a library. *)
Lemma builtin_task f (Hf : forall t d, builtin_errors (f t d)) st : builtin_errors (on_task f st).2.
Proof. unfold on_task. pose proof (Hf (r_task st) (r_db st)) as H. by destruct (f _ _) as [[t d]|e]. Qed.

Lemma builtin_get_task i d : builtin_errors (get_task i d).
Proof. unfold get_task. by destruct (tasks d !! i). Qed.
#[local] Hint Resolve builtin_get_task : builtin.

Lemma builtin_increment s st : builtin_errors (increment_for s st).2.
Proof. destruct s; [| | |done]; (apply builtin_task; intros t d; unfold Task.increment_stats; builtin). Qed.

Lemma builtin_validate st : builtin_errors (validate_task_stats st).2.
Proof.
  unfold validate_task_stats. rewrite (bind_ok _ _ st st (t_stats (r_task st))) by done. cbn zeta.
  destruct (_ =? _); [done|]. apply builtin_task. intros t d. unfold Task.update_stats. builtin.
Qed.

Lemma builtin_record name facts s st : builtin_errors (record_inspect_result name facts s st).2.
Proof.
  unfold record_inspect_result, atomic.
  assert (forall st, exists st' g, _inspect_group source_key src server_id server_version st = (st', Ok g)) as Hg.
  { intros st0. unfold _inspect_group, create_group. unfold mbind, M_bind. cbn [gets]. destruct (r_group st0) as [g|]; [by exists st0, g|].
    destruct (add_group _ _) as [g tb] eqn:E. by eexists _, g. }
  destruct (Hg st) as (st' & g & E). rewrite (bind_ok _ _ _ _ _ E).
  match goal with |- context [match ?m st' with _ => _ end] => assert (builtin_errors (m st').2) as H end.
  { rewrite (bind_ok _ _ st' _ tt) by reflexivity. apply builtin_increment. }
  match goal with |- context [match ?m st' with _ => _ end] => by destruct (m st') as [st2 [a|e]] end.
Qed.

Lemma builtin_process v results : forall st, builtin_errors (process_results v results st).2.
Proof.
  unfold process_results. induction results as [|r results IH]; intros st; [done|]. cbn [each].
  assert (builtin_errors (process_result v r st).2) as H.
  { destruct r as [name s f u|]; [|done]. cbn [process_result]. pose proof (builtin_details v s f u) as Hd.
    destruct (details_of v s f u) as [d|e] eqn:Ed; [|exact Hd]. rewrite (bind_lift _ _ _ _ eq_refl). apply builtin_record. }
  unfold mbind, M_bind. destruct (process_result v r st) as [st1 [u|e]]; [apply IH | exact H].
Qed.

(** Until it raises a method changes statistics only; when it raises the row of the
    task may be failed, if the exception is none of a library. *)
Definition unless_failed (t0 : task) (d0 : db) {A} (m : M A) : Prop := forall st, only_stats t0 d0 st ->
  only_stats t0 d0 (m st).1 \/
  (exists e, (m st).2 = Err e /\ builtin e) /\ row_in t0 d0 (fun s => s = t_status t0 \/ s = ScanModel.FAILED) (m st).1.

Section unless_failed.
Context (t0 : task) (d0 : db).

Lemma unless_keeps {A} (m : M A) : keeps (only_stats t0 d0) m -> unless_failed t0 d0 m.
Proof. intros H st Hst. left. by apply H. Qed.

Lemma unless_bind {A B} (m : M A) (f : A -> M B) :
  unless_failed t0 d0 m -> (forall a, unless_failed t0 d0 (f a)) -> unless_failed t0 d0 (m ≫= f).
Proof.
  intros Hm Hf st Hst. specialize (Hm st Hst). unfold mbind, M_bind.
  destruct (m st) as [st' [a|e]]; cbn in *; [|destruct Hm as [Hm|[(e' & [= <-] & He) Hm]]; [by left | right; split; [by exists e | done]]].
  destruct Hm as [Hm|[(e & He & _) _]]; [by apply Hf | done].
Qed.

Lemma unless_try {A} (m : M A) (c : exn -> bool) h : (forall e, builtin e -> c e = false) ->
  unless_failed t0 d0 m -> (forall e, unless_failed t0 d0 (h e)) -> unless_failed t0 d0 (try_M m c h).
Proof.
  intros Hc Hm Hh st Hst. specialize (Hm st Hst). unfold try_M.
  destruct (m st) as [st' [a|e]]; cbn in *; [done|]. destruct Hm as [Hm|[(e' & [= <-] & He) Hm]].
  - destruct (c e); [by apply Hh | by left].
  - rewrite (Hc e He). right. split; [by exists e | done].
Qed.

Lemma only_stats_row (S : status -> Prop) st : S (t_status t0) -> only_stats t0 d0 st -> row_in t0 d0 S st.
Proof. intros HS [[s Hs] [s' Hd]]. unfold row_in. rewrite Hs, Hd. split; [done|]. by eexists. Qed.

Lemma keeps_process v results : keeps (only_stats t0 d0) (process_results v results).
Proof.
  apply keeps_each. intros [name s f u|] _; cbn; [|apply keeps_raise]. unfold record_inspect_result, record_conn_result. keeps.
Qed.

Lemma unless_hosts_facts api hosts : unless_failed t0 d0 (hosts_facts api hosts).
Proof.
  unfold hosts_facts. apply unless_bind; [apply unless_keeps, keeps_lift|]. intros prepared st Hst.
  set (S := fun s => s = t_status t0 \/ s = ScanModel.FAILED).
  destruct (requests_cases t0 d0 S api prepared (or_intror eq_refl) st (only_stats_row S st (or_introl eq_refl) Hst))
    as (st1 & results & E & R1 & _ & Hor).
  rewrite (bind_ok _ _ _ _ _ E). destruct Hor as [[[k ->] _]|[Hin _]].
  - apply unless_bind; [apply unless_keeps, keeps_process | | exact Hst].
    intros u. apply unless_keeps. unfold validate_task_stats. keeps.
  - right. pose proof (process_crashed (SATELLITE_API_VERSION api) results st1 Hin) as Hf.
    pose proof (builtin_process (SATELLITE_API_VERSION api) results st1) as Hb.
    pose proof (row_in_process t0 d0 S (SATELLITE_API_VERSION api) results st1 R1) as HR.
    destruct (process_results _ results st1) as [st2 [u|e]] eqn:Ep; [done|]. rewrite (bind_err _ _ _ _ _ Ep).
    split; [by exists e | exact HR].
Qed.

Lemma keeps_request url org_id host_id q : keeps (only_stats t0 d0) (execute_request url org_id host_id q).
Proof. apply keeps_reads. unfold execute_request, execute_with. reads. Qed.
#[local] Hint Resolve keeps_request : keeps.

Lemma keeps_results {A} url org_id (f : A -> pyval -> M A) : (forall a x, keeps (only_stats t0 d0) (f a x)) ->
  forall n page a, keeps (only_stats t0 d0) (results_from n page url org_id f a).
Proof.
  intros Hf.
  assert (forall l a, keeps (only_stats t0 d0) (fold_M f a l)) as Hfold.
  { induction l as [|x l IH]; intros a; cbn [fold_M]; keeps. }
  induction n as [|n IH]; intros page a; cbn [results_from]; keeps.
Qed.

Lemma keeps_record_host result : keeps (only_stats t0 d0) (record_host result).
Proof. unfold record_host, record_conn_result. keeps. Qed.

Lemma keeps_orgs orgs : keeps (only_stats t0 d0) (get_orgs orgs).
Proof. unfold get_orgs, request_results. destruct orgs; [|keeps]. apply keeps_results. intros l x. keeps. Qed.

Lemma unless_handle (is_v1 : bool) : unless_failed t0 d0 (if is_v1 then handle_v1 else handle_v2).
Proof.
  pose proof keeps_orgs as Ho. pose proof keeps_record_host as Hr.
  assert (forall api org, keeps (only_stats t0 d0) (_request_and_record_hosts api org)) as Hrec by (intros; by apply keeps_results).
  assert (forall url org s, keeps (only_stats t0 d0) (request_results url org unique_step s)) as Hu.
  { intros. apply keeps_results. intros. apply keeps_ret. }
  assert (forall l s, keeps (only_stats t0 d0) (fold_M (fun seen org_id => request_results HOSTS_V1_URL org_id unique_step seen) s l)) as Hfu.
  { induction l as [|x l IH]; intros s; cbn [fold_M]; keeps. }
  destruct is_v1; unfold handle_v1, handle_v2.
  - apply unless_bind; [apply unless_keeps; unfold host_count_v1; keeps|]. intros orgs.
    apply unless_bind; [apply unless_keeps; unfold hosts_v1; keeps|]. intros orgs'.
    apply unless_bind; [apply unless_keeps; unfold _requests_hosts_unique_v1; keeps|]. intros hosts. apply unless_hosts_facts.
  - apply unless_bind; [apply unless_keeps; unfold host_count_v2; keeps|]. intros u.
    apply unless_bind; [apply unless_keeps, Hrec|]. intros u'.
    apply unless_bind; [apply unless_keeps, Hu|]. intros hosts. apply unless_hosts_facts.
Qed.

Lemma unless_execute : (forall e, builtin e -> RequestConnError errors e = false) -> unless_failed t0 d0 execute_task.
Proof.
  intros He. apply unless_try.
  - intros e Hb. unfold expected. rewrite (He e Hb). by destruct e.
  - apply unless_bind; [apply unless_keeps; unfold _initialize_api_object, _status6; keeps|]. intros is_v1.
    apply unless_bind; [apply unless_handle|]. intros u. apply unless_keeps. keeps.
  - intros e. apply unless_keeps. keeps.
Qed.
End unless_failed.
End runner.

(** What a Satellite runner does to the flow: it may have failed the row of its task
    when it raises.  The exceptions of [requests] are classes of that library. *)
#[export] Instance satellite_runner server errors fuel decrypt str_type str_source now source_key src row server_id version tb :
  (forall e, builtin e -> RequestConnError errors e = false) ->
  TaskRunner (executor_of (execute_task server errors fuel decrypt str_type str_source now source_key src row server_id version) tb).
Proof.
  intros He. split; intros t j d t' d' r Ht E; unfold executor_of in E;
    pose proof (unless_execute server errors fuel decrypt str_type str_source now source_key src row server_id version
      t d He (start_state t d tb) (stats_only_start t d Ht)) as H;
    destruct (execute_task _ _ _ _ _ _ _ _ _ _ _ _ (start_state t d tb)) as [st r'];
    injection E as <- <- <-; cbn [fst snd] in H.
  - destruct H as [H|[(e & -> & _) [_ (x & -> & Hx & Hs)]]].
    + by eapply (stats_only_flow t d).
    + destruct Hx as (Hi & Hj & Hy & _). split; [done | cbn; lia | |]; cbn; intros k t1 Hk.
      * destruct (decide (k = t_id t)) as [->|Hne].
        -- rewrite lookup_insert_eq. rewrite Ht in Hk. injection Hk as <-. exists x. repeat (split; [done|]).
           destruct Hs as [Hs|Hs]; [by left | by right].
        -- rewrite lookup_insert_ne by done. exists t1. repeat split; [done | by left].
      * destruct (decide (k = t_id t)) as [->|Hne]; [by eexists|]. rewrite lookup_insert_ne in Hk by done. by eexists.
  - destruct H as [H|[_ [(Hi & Hj & Hy & Hs) _]]]; [|done].
    by apply (stats_only_flow t d false 0 _ _ Ht H).
Qed.

(** *** The addresses of a host *)

(** [a] is the value, in lower case, of a fact of an interface, not the loopback, whose
    name [kind] accepts. *)
Definition reported (kind : string -> bool) (facts : pydict) (a : string) : Prop := exists key s,
  (key, VStr s) ∈ facts /\ net_interface key = true /\ kind key = true /\ s <> "" /\ a = str_lower s.

Lemma append_spec c v l l' a : append_if c v l = Ok l' ->
  a ∈ l' <-> a ∈ l \/ c = true /\ exists s, v = VStr s /\ s <> "" /\ a = str_lower s.
Proof.
  unfold append_if. destruct c; cbn [andb]; [|intros [= <-]; naive_solver].
  destruct (truthy v) eqn:E; cbn [andb].
  - intros (s0 & Hs & [= <-])%bind_Ok. destruct v as [| | | |s'| | | | |]; try done. injection Hs as <-.
    rewrite elem_of_app, list_elem_of_singleton. cbn in E. apply negb_true_iff, bool_decide_eq_false in E. naive_solver.
  - intros [= <-]. split; [by left|]. intros [H|(_ & s & -> & Hs & _)]; [done|]. cbn in E.
    by apply negb_false_iff, bool_decide_eq_true in E.
Qed.

Lemma reported_cons kind kv facts a : reported kind (kv :: facts) a <->
  (net_interface kv.1 = true /\ kind kv.1 = true /\ exists s, kv.2 = VStr s /\ s <> "" /\ a = str_lower s) \/ reported kind facts a.
Proof.
  unfold reported. setoid_rewrite elem_of_cons. destruct kv as [k v]. cbn. split.
  - intros (key & s & [Heq|Hin] & Hr); [left; injection Heq as <- <- | right]; naive_solver.
  - intros [(H1 & H2 & s & -> & H)|(key & s & H)]; [exists k, s | exists key, s]; naive_solver.
Qed.

Lemma addresses_spec facts : forall acc found, foldM address_step acc facts = Ok found -> forall a,
  (a ∈ ipv4s found <-> a ∈ ipv4s acc \/ reported ipv4_addr facts a) /\
  (a ∈ ipv6s found <-> a ∈ ipv6s acc \/ reported ipv6_addr facts a) /\
  (a ∈ macs found <-> a ∈ macs acc \/ reported mac_addr facts a).
Proof.
  induction facts as [|kv facts IH]; intros acc found H a; cbn in H.
  - injection H as <-. unfold reported. setoid_rewrite elem_of_nil. naive_solver.
  - apply bind_Ok in H as (acc' & Hs & Hf). destruct (IH _ _ Hf a) as (-> & -> & ->). rewrite !reported_cons.
    unfold address_step in Hs. destruct (net_interface kv.1).
    + apply bind_Ok in Hs as (v4 & H4 & (v6 & H6 & (m & Hm & [= <-])%bind_Ok)%bind_Ok). cbn.
      rewrite (append_spec _ _ _ _ a H4), (append_spec _ _ _ _ a H6), (append_spec _ _ _ _ a Hm). naive_solver.
    + injection Hs as <-. naive_solver.
Qed.

Lemma keys_dupdate d2 : forall d1 : pydict, NoDup (dkeys d1) -> NoDup (dkeys (dupdate d1 d2)).
Proof.
  unfold dupdate. induction d2 as [|[k v] d2 IH]; intros d1 H; [done|]. cbn. by apply IH, NoDup_dkeys_dset.
Qed.

(** What the template adds to the facts is about no interface. *)
Lemma reported_template kind facts a : NoDup (dkeys facts) ->
  reported kind (dupdate raw_facts_template facts) a <-> reported kind facts a.
Proof.
  intros HN. unfold reported.
  assert (NoDup (dkeys raw_facts_template)) as Ht by (by_compute).
  pose proof (keys_dupdate facts raw_facts_template Ht) as HU.
  assert (forall key s, net_interface key = true ->
    (key, VStr s) ∈ dupdate raw_facts_template facts <-> (key, VStr s) ∈ facts) as H; [|naive_solver].
  intros key s Hk.
  assert (dget key raw_facts_template = None) as Hnone.
  { apply eq_None_not_Some. rewrite dget_keys. intros Hin. revert Hk. clear - Hin. cbn in Hin.
    repeat (apply elem_of_cons in Hin as [->|Hin]; [by_compute|]). by apply elem_of_nil in Hin. }
  assert (dget key (dupdate raw_facts_template facts) = dget key facts) as E.
  { rewrite dget_dupdate by done. rewrite Hnone. by destruct (dget key facts). }
  split; intros Hin; apply dget_elem; (apply dget_NoDup in Hin; [congruence | done]).
Qed.

(** The facts of the interfaces other than the loopback, of either spelling. *)
Definition interface (key : string) : Prop :=
  (exists rest, key = "net.interface." +:+ rest /\ forall t, rest <> "lo." +:+ t) \/
  (exists rest, key = "net::interface::" +:+ rest /\ forall t, rest <> "lo::" +:+ t).
Definition named (fact key : string) : Prop := exists t, key = t +:+ "." +:+ fact \/ key = t +:+ "::" +:+ fact.

(** [a] is the value of such a fact, in lower case. *)
Definition given (fact : string) (facts : pydict) (a : string) : Prop := exists key s,
  (key, VStr s) ∈ facts /\ interface key /\ named fact key /\ s <> "" /\ a = str_lower s.

Lemma loopback p lo key : (forall t, key <> p +:+ lo +:+ t) <-> String.prefix (p +:+ lo) key = false.
Proof.
  rewrite <- not_true_iff_false, prefix_app. split.
  - intros H (t & ->). apply (H t). by rewrite append_assoc.
  - intros H t ->. apply H. exists t. by rewrite append_assoc.
Qed.

Lemma interface_spec key : net_interface key = true <-> interface key.
Proof.
  unfold net_interface, interface, str_startswith. split.
  - rewrite andb_true_iff, negb_true_iff, orb_true_iff, orb_false_iff, !prefix_app.
    intros [[(t & ->)|(t & ->)] [H1 H2]]; [left|right]; exists t; (split; [done|]); intros u ->.
    + apply (proj2 (loopback NET_INTER_PERIOD "lo." _) H1 u). done.
    + apply (proj2 (loopback NET_INTER_COLON "lo::" _) H2 u). done.
  - intros [(t & -> & H)|(t & -> & H)]; cbn -[String.prefix NET_INTER_LO_PERIOD NET_INTER_LO_COLON];
      rewrite andb_true_iff, negb_true_iff, orb_true_iff, orb_false_iff; (split; [|split]).
    + left. apply prefix_app. by exists t.
    + apply (loopback NET_INTER_PERIOD "lo." _). intros u E. apply (H u). by injection E.
    + done.
    + right. apply prefix_app. by exists t.
    + done.
    + apply (loopback NET_INTER_COLON "lo::" _). intros u E. apply (H u). by injection E.
Qed.

Lemma named_spec fact key : str_endswith ("." +:+ fact) key || str_endswith ("::" +:+ fact) key = true <-> named fact key.
Proof. rewrite orb_true_iff, !endswith_app. unfold named. naive_solver. Qed.

Lemma reported_given fact kind facts a : (forall key, kind key = true <-> named fact key) ->
  reported kind facts a <-> given fact facts a.
Proof. intros H. unfold reported, given. setoid_rewrite interface_spec. setoid_rewrite H. done. Qed.

Lemma os_facts_keeps k h h' : k <> OS_NAME -> k <> OS_VERSION -> os_facts h = Ok h' -> dget k h' = dget k h.
Proof.
  intros H1 H2. unfold os_facts. destruct (truthy _); [|by intros [= <-]].
  intros (s & _ & [= <-])%bind_Ok. by rewrite !dget_dset_ne.
Qed.

(** The addresses of a host, whatever else its fields hold: the network facts of
    its interfaces other than the loopback, of both spellings, that have a value, in
    lower case and without repetition; the address families together, the hardware
    addresses apart. *)
Theorem host_addresses_spec api_version response facts info :
  vget_default response FACTS (VDict []) = Ok (VDict facts) -> NoDup (dkeys facts) ->
  host_fields api_version response = Ok info ->
  exists ips macs,
    dget IP_ADDRESSES info = Some (VList (VStr <$> ips)) /\ NoDup ips /\
    (forall a, a ∈ ips <-> given "ipv4_address" facts a \/ given "ipv6_address" facts a) /\
    dget MAC_ADDRESSES info = Some (VList (VStr <$> macs)) /\ NoDup macs /\
    (forall a, a ∈ macs <-> given "mac_address" facts a).
Proof.
  intros Hf HN H. unfold host_fields in H. rewrite Hf in H.
  apply bind_Ok in H as (sf & _ & H). apply bind_Ok in H as (cf & _ & H). cbn [mbind res_bind] in H.
  repeat match type of H with
         | (foldM _ _ _ ≫= _) = _ => fail 1
         | (_ ≫= _) = Ok _ => apply bind_Ok in H as (? & _ & H)
         end.
  apply bind_Ok in H as (found & Ha & (info' & Ho & [= <-])%bind_Ok).
  exists (dedup (ipv4s found ++ ipv6s found)), (dedup (macs found)).
  assert (forall k, k <> VIRTUAL_GUESTS -> k <> OS_NAME -> k <> OS_VERSION -> forall h, os_facts h = Ok info' ->
    dget k (dpop VIRTUAL_GUESTS info') = dget k h) as Hd.
  { intros k Hg H1 H2 h Hh. rewrite dget_dpop, decide_False by done. by apply os_facts_keeps. }
  rewrite !(fun k H1 H2 H3 => Hd k H1 H2 H3 _ Ho) by done. rewrite dget_dset_eq, dget_dset_ne, dget_dset_eq by done.
  split; [done|]. split; [apply NoDup_dedup|]. split; [|split; [done|]; split; [apply NoDup_dedup|]];
    intros a; destruct (addresses_spec _ _ _ Ha a) as (H4 & H6 & Hm); rewrite elem_of_dedup.
  - rewrite <- (reported_given _ ipv4_addr), <- (reported_given _ ipv6_addr) by (intros; apply named_spec).
    rewrite elem_of_app, H4, H6, !reported_template by done. cbn. rewrite !elem_of_nil. tauto.
  - rewrite <- (reported_given _ mac_addr) by (intros; apply named_spec).
    rewrite Hm, reported_template by done. cbn. rewrite elem_of_nil. tauto.
Qed.

(** *** A Satellite *)

Definition sample_row (_ : Z) : pydict := [("username", VStr "admin"); ("password", VStr "vault")].
Definition no_errors : error_classes := mkerrors (fun _ => false) (fun _ => false) (fun _ => false) (fun _ => false).
Definition reveal (v : pyval) : Res pyval := Ok v.

Definition host_entry (i : Z) : pyval := VDict [("id", VInt i); ("name", VStr "host")].
Definition hosts_page (items : list pyval) : pyval :=
  VDict [("total", VInt 9); ("per_page", VInt 2); ("results", VList items)].
Definition fields_of_1 : pyval :=
  VDict [("name", VStr "host");
         ("facts", VDict [("net::interface::eth0::ipv4_address", VStr "10.0.0.7");
                          ("net::interface::lo::ipv4_address", VStr "127.0.0.1");
                          ("net::interface::eth0::mac_address", VStr "AA:BB")])].

(** Two hosts, listed over two pages with one repeated; the second gives no details.
    [subscriptions] is the answer for those of the first. *)
Definition sample_answer (subscriptions : sat_response) (q : sat_request) : Res sat_response :=
  let url := sr_url q in
  let base := "https://10.0.0.1:443/api" in
  Ok (if bool_decide (url = base +:+ "/status") then mkresponse 200 VNone (Ok (VDict [("api_version", VInt 2)]))
      else if bool_decide (url = base +:+ "/v2/hosts") then
        mkresponse 200 VNone (Ok (hosts_page (if py_eq (dget_none PAGE (sr_params q)) (VInt 1)
                                              then [host_entry 1; host_entry 2] else [host_entry 1])))
      else if bool_decide (url = base +:+ "/v2/hosts/1") then mkresponse 200 VNone (Ok fields_of_1)
      else if bool_decide (url = base +:+ "/v2/hosts/1/subscriptions") then subscriptions
      else mkresponse 500 VNone (Err ValueError)).
Definition sample_satellite (_ : nat) : sat_request -> Res sat_response :=
  sample_answer (mkresponse 200 VNone (Ok (VDict [("results", VList [])]))).
Definition sample_pages : list (list pyval) := [[host_entry 1; host_entry 2]; [host_entry 1]].

Lemma satellite_inspection_spec_witness : exists st',
  execute_task sample_satellite no_errors 5 reveal (fun _ => "") "sat" 9 10 (sample_source "satellite") sample_row "id" "1"
    (start_state sample_task sample_db sample_store) = (st', Ok (None, COMPLETED)) /\
  (rows 7 st').*1 = [("host_1", RawFacts.SUCCESS); ("host_2", RawFacts.FAILED)] /\
  conn_name <$> r_conns st' = ["host_1"; "host_2"; "host_1"] /\ t_stats (r_task st') = mkstats 2 1 1 0.
Proof.
  destruct (satellite_inspection_spec sample_satellite no_errors 5 reveal (fun _ => "") "sat" 9 10 (sample_source "satellite")
    sample_row "id" "1" (sample_satellite 0) (fun _ _ => eq_refl) sample_task sample_db sample_store 9 sample_pages
    (match mapM (host_row no_errors reveal (sample_source "satellite") sample_row (sample_satellite 0) SatelliteSixV2)
       [host_entry 1; host_entry 2] with Ok rs => rs | Err _ => [] end)) as (st' & E & F & _ & T).
  - exact sample_store_wf.
  - reflexivity.
  - vm_compute. reflexivity.
  - vm_compute. reflexivity.
  - eapply listing_more; [vm_compute; reflexivity | discriminate | reflexivity|].
    eapply listing_last; [vm_compute; reflexivity | right; discriminate].
  - cbn. lia.
  - repeat constructor.
  - vm_compute. reflexivity.
  - exists st'. split; [exact E|]. change (t_id sample_task) with 7 in F.
    split; [rewrite (ef_rows _ _ _ _ _ F); vm_compute; reflexivity|].
    split; [rewrite (ef_conns _ _ _ _ _ F); vm_compute; reflexivity|]. rewrite T. vm_compute. reflexivity.
Defined.

(** The same hosts when the subscriptions of the first are not found and the answer
    is a page of text. *)
Definition without_subscriptions : sat_request -> Res sat_response := sample_answer (mkresponse 404 (VStr "text/html") (Err ValueError)).
Definition connection_data : connect_data := mkconnect (VStr "10.0.0.1") (VInt 443) (VStr "admin") (VStr "vault") VNone.

Lemma unreadable_subscriptions_fail_witness :
  let '(st', r) := hosts_facts (fun _ => without_subscriptions) no_errors reveal 9 10 (sample_source "satellite") sample_row "id" "1"
    SatelliteSixV2 [host_entry 2; host_entry 1] (start_state sample_task sample_db sample_store) in
  is_ok r = false /\ exists x, tasks (r_db st') !! 7 = Some x /\ t_status x = ScanModel.FAILED.
Proof.
  apply (unreadable_subscriptions_fail (fun _ => without_subscriptions) no_errors reveal 9 10 (sample_source "satellite") sample_row
    "id" "1" without_subscriptions SatelliteSixV2 [host_entry 2; host_entry 1]
    [(VStr "host", VInt 2, connection_data); (VStr "host", VInt 1, connection_data)] (VStr "host", VInt 1, connection_data)
    (mkresponse 200 VNone (Ok fields_of_1)) (mkresponse 404 (VStr "text/html") (Err ValueError)) fields_of_1 ValueError
    (start_state sample_task sample_db sample_store)); try reflexivity.
  - right. left.
  - right. left.
  - right. eexists. reflexivity.
Defined.

Lemma host_addresses_spec_witness : exists info ips macs, host_fields 2 fields_of_1 = Ok info /\
  dget IP_ADDRESSES info = Some (VList (VStr <$> ips)) /\ dget MAC_ADDRESSES info = Some (VList (VStr <$> macs)) /\
  "10.0.0.7" ∈ ips /\ "aa:bb" ∈ macs.
Proof.
  destruct (host_addresses_spec 2 fields_of_1 (match vget fields_of_1 FACTS with Ok (VDict d) => d | _ => [] end)
    (match host_fields 2 fields_of_1 with Ok info => info | Err _ => [] end)) as (ips & macs & Hi & _ & Ha & Hm & _ & Hb).
  - reflexivity.
  - vm_compute. repeat (apply NoDup_cons_2; [intros H; repeat (apply elem_of_cons in H as [H|H]; [discriminate H|]); by apply elem_of_nil in H|]).
    apply NoDup_nil_2.
  - vm_compute. reflexivity.
  - eexists _, ips, macs. split; [vm_compute; reflexivity|]. split; [exact Hi|]. split; [exact Hm|]. split.
    + apply Ha. left. eexists "net::interface::eth0::ipv4_address", "10.0.0.7". split; [vm_compute; left|]. split_and!; [right; exists "eth0::ipv4_address" | exists "net::interface::eth0"; by right | discriminate | reflexivity].
      split; [reflexivity | discriminate].
    + apply Hb. eexists "net::interface::eth0::mac_address", "AA:BB". split; [vm_compute; right; right; left|]. split_and!; [right; exists "eth0::mac_address" | exists "net::interface::eth0"; by right | discriminate | reflexivity].
      split; [reflexivity | discriminate].
Defined.

(** Version 1 asks for the details of a host without its organization. *)
Example v1_details_without_organization : construct_url HOSTS_FIELDS_V1_URL "sat.example.com" (VInt 443) VNone (VInt 12) =
  "https://sat.example.com:443/katello/api/v2/organizations/None/systems/12".
Proof. vm_compute. reflexivity. Qed.

(** Version 1 counts the hosts of its first organization alone. *)
Definition organizations (q : sat_request) : Res sat_response :=
  Ok (mkresponse 200 VNone (Ok (if bool_decide (sr_url q = "https://10.0.0.1:443/katello/api/v2/organizations")
    then VDict [("results", VList [VDict [("id", VInt 1)]; VDict [("id", VInt 2)]])]
    else VDict [("total", VInt (if bool_decide (sr_url q = "https://10.0.0.1:443/katello/api/v2/organizations/1/systems")
                                then 3 else 40))]))).
Example v1_counts_first_organization :
  let '(st', r) := host_count_v1 (fun _ => organizations) 5 reveal (sample_source "satellite") sample_row
    (start_state sample_task sample_db sample_store) in
  r = Ok [VInt 1; VInt 2] /\ systems_count (t_stats (r_task st')) = 3.
Proof. vm_compute. split; reflexivity. Qed.
End Satellite.
