(* ===== verification/OpenShift.v ===== *)
(** Inspection of OpenShift: [scanner/openshift/entities.py], [api.py], [metrics.py],
    [runner.py] and [inspect.py] there.

    The runner checks the connection, lists the nodes and the cluster, then collects
    facts about the whole cluster; what of these fails is an error of the cluster.
    Every node and the cluster is a system.

    The Kubernetes clients are external: [client] answers a request or raises, and
    [ApiException] and [MaxRetryError] tell the exceptions of theirs apart; [attr] and
    [get] read a field of one of their objects.  The models are pydantic's: [validate]
    converts the fields of an entity, by its kind, and refuses bad ones. *)
From stdpp Require Import base gmap sets list strings.
From Stdlib Require Import Ascii ZArith Lia SpecFloat.
From S2P Require Import Prelude PyStr PyNum PyVal Json Sources RawFacts ScanModel ScanFlow TaskStats RemoteTask HttpSession.

Open Scope string_scope.
Open Scope Z_scope.

Module OpenShift.

(** ** The resources of a node *)

(** [$] also matches before a final line break. *)
Definition drop_final_newline (s : string) : string := str_removesuffix newline s.

(** [^(\d+)([mkKMGTPE])(i?)$] *)
Definition resources_regex (value : string) : option (string * string * bool) :=
  let '(digits, rest) := digit_run value in
  if bool_decide (digits = "") then None else
  match rest with
  | String c tail =>
      if char_in c "mkKMGTPE" then
        if bool_decide (drop_final_newline tail = "") then Some (digits, String c "", false)
        else if bool_decide (drop_final_newline tail = "i") then Some (digits, String c "", true)
        else None
      else None
  | "" => None
  end.

Definition _parse_resource_string (value : string) : Res (Z * string * bool) :=
  match resources_regex value with
  | None => Err ValueError
  | Some (digits, power_name, ends_with_i) =>
      digits ← from_option ValueError (int_of_str digits);
      if ends_with_i && bool_decide (power_name ∈ ["m"; "k"]) then Err ValueError
      else Ok (digits, power_name, ends_with_i)
  end.

Definition powers : list (string * Z) :=
  [("k", 1); ("m", -1); ("K", 1); ("M", 2); ("G", 3); ("T", 4); ("P", 5); ("E", 6)].

(** [round(f)] *)
Definition round_float (f : spec_float) : Res Z :=
  match f with
  | S754_zero _ => Ok 0
  | S754_finite neg m e =>
      Ok (signed neg (if 0 <=? e then Z.pos m * 2 ^ e else round_half_even (Z.pos m) (2 ^ (- e))))
  | S754_infinity _ => Err OverflowError
  | S754_nan => Err ValueError
  end.

(** [round(digits * base ** power)]: a negative power is a float. *)
Definition scaled (digits base power : Z) : Res Z :=
  if 0 <=? power then Ok (digits * base ^ power)
  else
    f ← float_of_Z digits;
    round_float (float_mul f (float_of_decimal false 1 (-3))).

Definition _convert_memory_bytes (value : pyval) : Res pyval :=
  match value with
  | VStr s =>
      '(digits, power_name, ends_with_i) ← _parse_resource_string s;
      power ← dget_exn power_name powers;
      z ← scaled digits (if ends_with_i : bool then 1024 else 1000) power;
      Ok (VInt z)
  | v => Ok v
  end.

(** [^\d+m$] *)
Definition millicore_suffix (s : string) : bool :=
  let '(digits, rest) := digit_run s in
  negb (bool_decide (digits = "")) && bool_decide (drop_final_newline rest = "m").

Definition _convert_cpu_value (value : pyval) : Res pyval :=
  match value with
  | VStr s =>
      if millicore_suffix s then
        f ← from_option ValueError (float_of_str (str_replace "m" "" s));
        Ok (VFloat (float_div f (float_of_int 1000)))
      else Ok value
  | v => Ok v
  end.

(** ** Requests *)

Inductive k8s_request :=
| GetToken
| GetApiResources
| ListResources (api_version kind : string) (options : pydict)
| MetricsQuery (host query : pyval).

(** An [ApiException]: its status, its reason and its body. *)
Record api_error := mkapi { e_status : option Z; e_reason : option string; e_body : option string }.

Definition is_ocp_error (e : exn) : bool := match e with OCPError _ _ _ => true | _ => false end.
Definition is_key_error (e : exn) : bool := match e with KeyError _ => true | _ => false end.

Section runner.
Context (client : nat -> k8s_request -> Res pyval).
Context (ApiException : exn -> option api_error) (MaxRetryError : exn -> option (string * string)).
Context (ResourceNotFoundError : exn -> bool).
Context (attr : pyval -> string -> Res pyval) (get : pyval -> string -> pyval -> Res pyval).
Context (validate : string -> pydict -> Res pydict).
(** The text pydantic makes of a value that is no string, and [error.json()]. *)
Context (as_text : pyval -> Res string) (error_json : exn -> pyval).
(** [is_feature_active("OCP_WORKLOADS")] *)
Context (OCP_WORKLOADS : bool).
Context (decrypt read_vault_secret : pyval -> Res pyval).
Context (source_key : Z) (src : Sources.source) (credential_row : Z -> pydict) (server_id server_version : string).

(** ** Errors *)

Definition _parse_error_message (error : option string) : Res (option string) :=
  match error with
  | None => Err TypeError
  | Some text =>
      message ← try_except (d ← json_loads text; m ← getitem d "message"; Ok (Some m))
                  (fun e => is_json_error e || is_key_error e) (fun _ => Ok None);
      match message with
      | None => Ok (Some text)
      | Some VNone => Ok None
      | Some (VStr s) => Ok (Some s)
      | Some v => s ← as_text v; Ok (Some s)
      end
  end.

(** [OCPError.from_api_exception], and the same for a [MaxRetryError]. *)
Definition ocp_error (e : exn) : Res exn :=
  match ApiException e, MaxRetryError e with
  | Some a, _ => message ← _parse_error_message (e_body a); Ok (OCPError (e_status a) (e_reason a) message)
  | None, Some (reason, message) => Ok (OCPError (Some (-1)) (Some reason) (Some message))
  | None, None => Ok e
  end.

Definition is_k8s_exception (e : exn) : bool :=
  match ApiException e, MaxRetryError e with None, None => false | _, _ => true end.

Definition catch_k8s_exception {A} (m : M A) : M A :=
  try_M m is_k8s_exception (fun e => error ← lift (ocp_error e); raise error).

Definition optional_openshift_resource (m : M (list pyval)) : M (list pyval) :=
  try_M m ResourceNotFoundError (fun _ => mret []).

(** ** Entities *)

(** A model made of the fields that are not [None]; the kind is forced. *)
Definition entity (kind : string) (fields : pydict) : Res pydict :=
  d ← validate kind (present fields); Ok (dset "kind" (VStr kind) d).

Definition item (v : pyval) (path : list string) : Res pyval := foldM attr v path.

Definition node_resources (r : pyval) : Res pyval :=
  cpu ← attr r "cpu";
  memory ← attr r "memory";
  pods ← attr r "pods";
  cpu ← _convert_cpu_value cpu;
  memory_in_bytes ← _convert_memory_bytes memory;
  d ← entity "node-resources" [("cpu", cpu); ("memory_in_bytes", memory_in_bytes); ("pods", pods)];
  Ok (VDict d).

Definition _init_ocp_nodes (node : pyval) : Res pydict :=
  unschedulable ← item node ["spec"; "unschedulable"];
  let unschedulable := if truthy unschedulable then unschedulable else VBool false in
  name ← item node ["metadata"; "name"];
  creation_timestamp ← item node ["metadata"; "creationTimestamp"];
  labels ← item node ["metadata"; "labels"];
  addresses ← item node ["status"; "addresses"];
  allocatable ← (r ← item node ["status"; "allocatable"]; node_resources r);
  capacity ← (r ← item node ["status"; "capacity"]; node_resources r);
  architecture ← item node ["status"; "nodeInfo"; "architecture"];
  kernel_version ← item node ["status"; "nodeInfo"; "kernelVersion"];
  machine_id ← item node ["status"; "nodeInfo"; "machineID"];
  operating_system ← item node ["status"; "nodeInfo"; "operatingSystem"];
  taints ← item node ["spec"; "taints"];
  entity "node"
    [("name", name); ("creation_timestamp", creation_timestamp); ("labels", labels); ("addresses", addresses);
     ("allocatable", allocatable); ("capacity", capacity); ("architecture", architecture);
     ("kernel_version", kernel_version); ("machine_id", machine_id); ("operating_system", operating_system);
     ("taints", taints); ("unschedulable", unschedulable)].

Definition _init_cluster (cluster : pyval) : Res pydict :=
  uuid ← item cluster ["spec"; "clusterID"];
  version ← item cluster ["status"; "desired"; "version"];
  entity "cluster" [("uuid", uuid); ("version", version)].

Definition any_available (conditions : list pyval) : Res bool :=
  anyM (fun c => r ← get c "reason" VNone; Ok (py_eq r (VStr "ManagedClusterAvailable"))) conditions.

Definition _init_managed_cluster (cluster : pyval) : Res pyval :=
  labels ← item cluster ["metadata"; "labels"];
  labelled ← mapM (fun '(metric, key) => v ← attr labels key; Ok (metric, v))
    [("vendor", "vendor"); ("cloud", "cloud"); ("version", "openshiftVersion"); ("managed_cluster_id", "clusterID")];
  conditions ← item cluster ["status"; "conditions"];
  conditions ← py_iter conditions;
  available ← any_available conditions;
  status ← attr cluster "status";
  capacity ← get status "capacity" (VDict []);
  core_worker ← get capacity "core_worker" VNone;
  socket_worker ← get capacity "socket_worker" VNone;
  created_via ← item cluster ["metadata"; "annotations"; "open-cluster-management/created-via"];
  Ok (VDict (labelled ++ [("available", VBool available); ("core_worker", core_worker);
                          ("socket_worker", socket_worker); ("created_via", created_via)])).

(** The set of the images becomes a list in some order. *)
Definition _get_container_images (container_list : pyval) : Res pyval :=
  if truthy container_list then
    l ← py_iter container_list;
    images ← foldM (fun images c =>
      i ← get c "image" VNone; if truthy i then v ← attr c "image"; vset_add v images else Ok images) [] l;
    Ok (VList images)
  else Ok (VList []).

Definition from_api_object (api_object : pyval) : Res pydict :=
  name ← item api_object ["metadata"; "name"];
  namespace ← item api_object ["metadata"; "namespace"];
  labels ← item api_object ["metadata"; "labels"];
  container_images ← (c ← item api_object ["spec"; "containers"]; _get_container_images c);
  init_container_images ← (c ← item api_object ["spec"; "initContainers"]; _get_container_images c);
  entity "pod" [("name", name); ("namespace", namespace); ("labels", labels);
                ("container_images", container_images); ("init_container_images", init_container_images)].

(** [self.labels.get("app") or self.name.rsplit("-", 1)[0]] *)
Definition app_name (pod : pydict) : Res pyval :=
  app ← vget (dget_none "labels" pod) "app";
  if truthy app then Ok app
  else name ← as_str "rsplit" (dget_none "name" pod);
       Ok (VStr (match split_last "-" name with Some (a, _) => a | None => name end)).

(** The loop of [retrieve_workloads]: the ids seen and the workloads. *)
Definition workload_step (acc : list (pyval * pyval) * list pydict) (pod : pydict) : Res (list (pyval * pyval) * list pydict) :=
  app ← app_name pod;
  let namespace := dget_none "namespace" pod in
  if negb (hashable app && hashable namespace) then Err TypeError
  else if existsb (fun id => py_eq id.1 namespace && py_eq id.2 app) acc.1 then Ok acc
  else w ← entity "workload" (dset "name" app pod);
       Ok ((acc.1 ++ [(namespace, app)])%list, (acc.2 ++ [w])%list).

Definition workloads_of (pods : list pydict) : Res (list pydict) :=
  acc ← foldM workload_step ([], []) pods; Ok acc.2.

(** [_get_version] *)
Fixpoint version_of (versions : list pyval) : Res pyval :=
  match versions with
  | [] => Ok VNone
  | v :: versions => name ← attr v "name"; if py_eq name (VStr "operator") then attr v "version" else version_of versions
  end.

Definition operator_version (raw_object : pyval) : Res pyval :=
  versions ← item raw_object ["status"; "versions"]; l ← py_iter versions; version_of l.

Definition cluster_operator (raw_object : pyval) : Res pydict :=
  name ← item raw_object ["metadata"; "name"];
  created_at ← item raw_object ["metadata"; "creationTimestamp"];
  conditions ← item raw_object ["status"; "conditions"];
  condition ← getitem_int conditions 0;
  updated_at ← attr condition "lastTransitionTime";
  version ← operator_version raw_object;
  entity "cluster-operator" [("name", name); ("created_at", created_at); ("updated_at", updated_at); ("version", version)].

(** [installed_version.split(".", 1)] in two. *)
Definition split_version (installed_version : pyval) : pyval * pyval :=
  match installed_version with
  | VStr s => match split_once "." s with Some (a, b) => (VStr a, VStr b) | None => (VNone, VNone) end
  | _ => (VNone, VNone)
  end.

Definition lifecycle_operator (raw_object : pyval) : Res pydict :=
  installed_version ← item raw_object ["status"; "currentCSV"];
  let '(package, version) := split_version installed_version in
  name ← item raw_object ["metadata"; "name"];
  created_at ← item raw_object ["metadata"; "creationTimestamp"];
  updated_at ← item raw_object ["status"; "lastUpdated"];
  namespace ← item raw_object ["metadata"; "namespace"];
  source ← item raw_object ["spec"; "source"];
  channel ← item raw_object ["spec"; "channel"];
  entity "olm-operator" [("name", name); ("created_at", created_at); ("updated_at", updated_at); ("namespace", namespace);
                         ("source", source); ("channel", channel); ("package", package); ("version", version)].

Definition cluster_service_version (operator : pydict) : pyval :=
  if truthy (dget_none "package" operator)
  then VStr (py_str (dget_none "package" operator) +:+ "." +:+ py_str (dget_none "version" operator)) else VNone.

(** [csv_map[key]], the last of that name. *)
Definition csv_lookup (csvs : list (pyval * pyval)) (key : pyval) : option pyval :=
  snd <$> List.find (fun kv => py_eq kv.1 key) (rev csvs).

Definition with_display_name (csvs : list (pyval * pyval)) (operator : pydict) : Res pydict :=
  match csv_lookup csvs (cluster_service_version operator) with
  | None => Ok operator
  | Some csv => try_except (v ← item csv ["spec"; "displayName"]; Ok (dset "display_name" v operator))
                  is_key_error (fun _ => Ok operator)
  end.

(** ** The client *)

(** [self._x_api.get(...).items] *)
Definition list_items (api_version kind : string) (options : pydict) : M (list pyval) :=
  items ← ask client (ListResources api_version kind options); lift (py_iter items).

Definition _list_nodes : M (list pyval) := catch_k8s_exception (list_items "v1" "Node" []).
Definition _list_clusters : M (list pyval) := catch_k8s_exception (list_items "config.openshift.io/v1" "ClusterVersion" []).
Definition _list_pods : M (list pyval) := catch_k8s_exception (list_items "v1" "Pod" []).
Definition _list_cluster_operators : M (list pyval) :=
  catch_k8s_exception (list_items "config.openshift.io/v1" "ClusterOperator" []).
Definition _list_subscriptions : M (list pyval) :=
  catch_k8s_exception (list_items "operators.coreos.com/v1alpha1" "Subscription" []).
Definition _list_cluster_service_versions : M (list pyval) :=
  catch_k8s_exception (list_items "operators.coreos.com/v1alpha1" "ClusterServiceVersion" []).
Definition _list_managed_clusters : M (list pyval) :=
  catch_k8s_exception (optional_openshift_resource (list_items "cluster.open-cluster-management.io/v1" "ManagedCluster" [])).
Definition _list_routes : M (list pyval) :=
  catch_k8s_exception (list_items "route.openshift.io/v1" "Route"
    [("namespace", VStr "openshift-monitoring"); ("field_selector", VStr "metadata.name=prometheus-k8s")]).

(** [can_connect(raise_exception=True)] *)
Definition can_connect : M unit := catch_k8s_exception (_ ← ask client GetApiResources; mret tt).

Definition retrieve_nodes : M (list pydict) := nodes ← _list_nodes; lift (mapM _init_ocp_nodes nodes).

Definition retrieve_cluster : M pydict :=
  clusters ← _list_clusters;
  match clusters with
  | [] => raise IndexError
  | [cluster] => lift (_init_cluster cluster)
  | _ => raise ValueError
  end.

Definition entities (l : list pydict) : pyval := VList (VDict <$> l).

Definition retrieve_rhacm_metrics : M pyval :=
  clusters ← _list_managed_clusters;
  lift (l ← mapM _init_managed_cluster clusters; Ok (VList l)).

Definition retrieve_workloads : M pyval :=
  pods_raw ← _list_pods;
  lift (pods ← mapM from_api_object pods_raw; l ← workloads_of pods; Ok (entities l)).

Definition retrieve_operators : M pyval :=
  cluster_operators ← (l ← _list_cluster_operators; lift (mapM cluster_operator l));
  olm_operators ← (l ← _list_subscriptions; lift (mapM lifecycle_operator l));
  csvs ← _list_cluster_service_versions;
  lift (
    csv_map ← mapM (fun csv => name ← item csv ["metadata"; "name"]; Ok (name, csv)) csvs;
    olm_operators ← mapM (with_display_name csv_map) olm_operators;
    Ok (entities (cluster_operators ++ olm_operators))).

(** ** Metrics *)

Record metric := mkmetric { attributes : list string; query : string }.
Definition OCP_PROMETHEUS_METRICS : list (string * metric) :=
  [("node_metrics", mkmetric ["instance"; "label_node_hyperthread_enabled"; "package"]
     "
            group by(
                instance,
                label_node_hyperthread_enabled,
                package
            )  (cluster:cpu_core_node_labels)
            ")].

Definition _metrics_host : M pyval := catch_k8s_exception (
  route_list ← _list_routes;
  match route_list with [route] => lift (item route ["spec"; "host"]) | _ => mret VNone end).

Definition metrics_query (query : string) : M (list pyval) := catch_k8s_exception (
  metrics_host ← _metrics_host;
  if negb (truthy metrics_host) then mret [] else
  response ← ask client (MetricsQuery metrics_host (VStr query));
  lift (
    data ← as_str "loads" response;
    json_response ← json_loads data;
    data ← getitem json_response "data";
    result ← getitem data "result";
    l ← py_iter result;
    mapM (fun r => getitem r "metric") l)).

Definition retrieve_cluster_metrics (m : metric) : M pyval :=
  items ← metrics_query (query m);
  lift (l ← mapM (fun x => d ← mapM (fun a => v ← vget x a; Ok (a, v)) (attributes m); Ok (VDict d)) items;
        Ok (VList l)).

(** ** The runner *)

Definition _get_connection_info : Res pydict :=
  host ← system_name src;
  let '(ssl_enabled, ssl_verify) := get_ssl_options src in
  credential ← single_credential src credential_row;
  let conn_info := [("host", host); ("port", Sources.get "port" src); ("protocol", VStr (if ssl_enabled then "https" else "http"));
                    ("ssl_verify", ssl_verify); ("proxy_url", Sources.get "proxy_url" src)] in
  if truthy (dget_none "vault_secret_path" credential.2) then
    token ← read_vault_secret (VDict credential.2); Ok (dset "auth_token" token conn_info)
  else if truthy (dget_none "auth_token" credential.2) then
    token ← decrypt (dget_none "auth_token" credential.2); Ok (dset "auth_token" token conn_info)
  else
    password ← decrypt (dget_none "password" credential.2);
    Ok (dset "password" password (dset "username" (dget_none "username" credential.2) conn_info)).

(** [get_ocp_client]: without a token one is asked for, outside [catch_k8s_exception]. *)
Definition get_ocp_client : M unit :=
  conn_info ← lift _get_connection_info;
  if truthy (dget_none "auth_token" conn_info) then mret tt
  else _ ← ask client GetToken; mret tt.

Definition FAILURE_TO_CONNECT_MESSAGE := "Unable to connect to OpenShift host.".
Definition SUCCESS_MESSAGE := "Inspected OpenShift host successfully.".
Definition PARTIAL_SUCCESS_MESSAGE := "Inspected some data from OpenShift host. Check details report for errors.".
Definition FAILURE_MESSAGE := "Unable to inspect OpenShift host.".

Definition _handle_ocp_error (error : exn) : result_status :=
  match error with OCPError (Some 401) _ _ => RawFacts.FAILED | _ => RawFacts.UNREACHABLE end.

Definition check_connection : M outcome :=
  _ ← _init_connection_stats;
  _ ← get_ocp_client;
  conn_result ← try_M (_ ← can_connect; mret RawFacts.SUCCESS) is_ocp_error (fun e => mret (_handle_ocp_error e));
  _ ← save_conn_result src credential_row conn_result;
  mret (if bool_decide (conn_result = RawFacts.SUCCESS) then (Some SUCCESS_MESSAGE, COMPLETED)
        else (Some FAILURE_TO_CONNECT_MESSAGE, ScanModel.FAILED)).

(** A fact, or an error of the cluster. *)
Definition collect (fact : string) (method : M pyval) (acc : pydict * pydict) : M (pydict * pydict) :=
  try_M (v ← method; mret (dset fact v acc.1, acc.2)) is_ocp_error
    (fun e => mret (acc.1, dset fact (error_json e) acc.2)).

(** [_extra_cluster_facts]: the facts and the errors. *)
Definition _extra_cluster_facts (errors : pydict) : M (pydict * pydict) :=
  acc ← (if OCP_WORKLOADS then collect "workloads" retrieve_workloads ([], errors) else mret ([], errors));
  acc ← collect "operators" retrieve_operators acc;
  acc ← collect "rhacm_metrics" retrieve_rhacm_metrics acc;
  fold_M (fun acc fm => collect fm.1 (retrieve_cluster_metrics fm.2) acc) acc OCP_PROMETHEUS_METRICS.

Definition _infer_inspection_status (entity : pydict) : result_status :=
  if truthy (dget_none "errors" entity) then RawFacts.FAILED else RawFacts.SUCCESS.

(** [_save_node] and [_save_cluster]: a result, its facts, and the statistics. *)
Definition save_entity (kind : string) (name : pyval) (e other_facts : pydict) : M unit := atomic (
  let status := _infer_inspection_status e in
  g ← _inspect_group source_key src server_id server_version;
  _ ← create_result name status g ((kind, VDict e) :: other_facts);
  increment_for status).

Definition _save_node (node : pydict) : M unit := save_entity "node" (dget_none "name" node) node [].
Definition cluster_name (cluster : pydict) : pyval := VStr ("cluster:" +:+ py_str (dget_none "uuid" cluster)).
Definition _save_cluster (cluster cluster_facts : pydict) : M unit :=
  save_entity "cluster" (cluster_name cluster) cluster cluster_facts.

Definition dict_of (v : pyval) : pydict := match v with VDict d => d | _ => [] end.

Definition _init_stats (number_of_systems : Z) : M unit :=
  update_stats (Some number_of_systems) (Some 0) (Some 0) (Some 0).

Definition inspect : M outcome :=
  _ ← get_ocp_client;
  cluster ← retrieve_cluster;
  nodes_list ← retrieve_nodes;
  _ ← _init_stats (Z.of_nat (length nodes_list) + 1);
  _ ← each (fun node => _save_node (dset "cluster_uuid" (dget_none "uuid" cluster) node)) nodes_list;
  extra ← _extra_cluster_facts (dict_of (dget_none "errors" cluster));
  _ ← _save_cluster (dset "errors" (VDict extra.2) cluster) extra.1;
  s ← gets (fun st => t_stats (r_task st));
  mret (if negb (systems_scanned s =? 0) && negb (systems_failed s =? 0) then (Some PARTIAL_SUCCESS_MESSAGE, COMPLETED)
        else if negb (systems_scanned s =? 0) then (Some SUCCESS_MESSAGE, COMPLETED)
        else (Some FAILURE_MESSAGE, ScanModel.FAILED)).

Definition execute_task : M outcome :=
  r ← check_connection;
  if bool_decide (r.2 <> COMPLETED) then mret r else inspect.

(** ** Lemmas *)

Lemma keeps_catch {A} P (m : M A) : keeps P m -> keeps P (catch_k8s_exception m).
Proof. intros H. unfold catch_k8s_exception. apply keeps_try; [done|]. intros e. apply keeps_bind; [apply keeps_lift|]. intros. apply keeps_raise. Qed.

Lemma reads_catch {A} (m : M A) : reads m -> reads (catch_k8s_exception m).
Proof. intros H. unfold catch_k8s_exception. reads. Qed.

Lemma reads_list_items v kind o : reads (list_items v kind o).
Proof. unfold list_items. reads. Qed.
#[local] Hint Resolve reads_catch reads_list_items : reads.

Lemma reads_client : reads get_ocp_client.
Proof. unfold get_ocp_client. reads. Qed.
Lemma reads_cluster : reads retrieve_cluster.
Proof. unfold retrieve_cluster, _list_clusters. reads. Qed.
Lemma reads_nodes : reads retrieve_nodes.
Proof. unfold retrieve_nodes, _list_nodes. reads. Qed.

Lemma reads_extra errors : reads (_extra_cluster_facts errors).
Proof.
  assert (forall fact m acc, reads m -> reads (collect fact m acc)) as Hc by (intros; unfold collect; reads).
  assert (reads _list_managed_clusters) as Hm by (apply reads_catch; unfold optional_openshift_resource; reads).
  assert (forall q, reads (metrics_query q)) as Hq.
  { intros q. apply reads_catch. assert (reads _metrics_host) by (apply reads_catch; unfold _list_routes; reads). reads. }
  unfold _extra_cluster_facts. apply reads_bind.
  { destruct OCP_WORKLOADS; [|reads]. apply Hc. unfold retrieve_workloads, _list_pods. reads. }
  intros a1. apply reads_bind.
  { apply Hc. unfold retrieve_operators, _list_cluster_operators, _list_subscriptions, _list_cluster_service_versions. reads. }
  intros a2. apply reads_bind; [apply Hc; unfold retrieve_rhacm_metrics; reads|].
  intros a3. apply reads_fold. intros acc fm. apply Hc. unfold retrieve_cluster_metrics. reads.
Qed.

Lemma keeps_openshift t d : keeps (only_stats t d) execute_task.
Proof.
  pose proof (keeps_reads t d _ reads_client). pose proof (keeps_reads t d _ reads_cluster).
  pose proof (keeps_reads t d _ reads_nodes). pose proof (fun e => keeps_reads t d _ (reads_extra e)).
  assert (forall k n e o, keeps (only_stats t d) (save_entity k n e o)) by (intros; unfold save_entity; keeps).
  assert (keeps (only_stats t d) can_connect) by (apply keeps_catch; keeps).
  unfold execute_task, check_connection, inspect, _init_connection_stats, _init_stats, _save_node, _save_cluster. keeps.
Qed.

(** *** Saving entities *)

Definition entity_row (kind name : string) (e other_facts : pydict) : row :=
  (name, _infer_inspection_status e, (kind, VDict e) :: other_facts).

Lemma save_entity_spec tid kind name e o st : ready tid st -> exists st',
  save_entity kind (VStr name) e o st = (st', Ok tt) /\ effect tid st st' [entity_row kind name e o] [] /\
  t_stats (r_task st') = count_status (_infer_inspection_status e) (t_stats (r_task st)).
Proof.
  intros R. destruct (inspect_group_spec source_key src server_id server_version tid st R) as (st1 & g & E1 & F1 & O1 & T1 & _).
  destruct (create_result_spec tid name (_infer_inspection_status e) g ((kind, VDict e) :: o) st1
    (ef_ready _ _ _ _ _ F1) O1) as (st2 & E2 & F2 & T2 & _).
  destruct (increment_spec tid (_infer_inspection_status e) st2 (ef_ready _ _ _ _ _ F2)) as (st3 & E3 & F3 & T3 & _).
  { unfold _infer_inspection_status. by destruct (truthy _). }
  exists st3. split; [|split].
  - apply atomic_ok. cbn zeta. by rewrite (bind_ok _ _ _ _ _ E1), (bind_ok _ _ _ _ _ E2).
  - exact (effect_trans _ _ _ _ _ _ _ _ F1 (effect_trans _ _ _ _ _ _ _ _ F2 F3)).
  - by rewrite T3, T2, T1.
Qed.

(** A node as pydantic gives it: it has a name, and no errors. *)
Definition plain_node (node : pydict) : Prop :=
  (exists name, dget_none "name" node = VStr name) /\ truthy (dget_none "errors" node) = false.

Definition text_of (v : pyval) : string := match v with VStr s => s | _ => "" end.
Definition node_row (uuid : pyval) (node : pydict) : row :=
  (text_of (dget_none "name" node), RawFacts.SUCCESS, [("node", VDict (dset "cluster_uuid" uuid node))]).

Definition with_scanned (n : nat) (x : stats) : stats :=
  mkstats (systems_count x) (systems_scanned x + Z.of_nat n) (systems_failed x) (systems_unreachable x).

Lemma save_nodes_spec tid uuid nodes : Forall plain_node nodes -> forall st, ready tid st -> exists st',
  each (fun node => _save_node (dset "cluster_uuid" uuid node)) nodes st = (st', Ok tt) /\
  effect tid st st' (node_row uuid <$> nodes) [] /\
  t_stats (r_task st') = with_scanned (length nodes) (t_stats (r_task st)).
Proof.
  induction 1 as [|node nodes [[name Hn] He] _ IH]; intros st R.
  - exists st. split; [done|]. split; [by apply effect_refl|]. unfold with_scanned. cbn. rewrite Z.add_0_r. by destruct (t_stats _).
  - set (node' := dset "cluster_uuid" uuid node).
    assert (dget_none "name" node' = VStr name) as Hn' by (unfold node'; by rewrite dget_none_dset, decide_False).
    assert (_infer_inspection_status node' = RawFacts.SUCCESS) as He'.
    { unfold _infer_inspection_status, node'. by rewrite dget_none_dset, decide_False, He. }
    destruct (save_entity_spec tid "node" name node' [] st R) as (st1 & E1 & F1 & T1).
    destruct (IH st1 (ef_ready _ _ _ _ _ F1)) as (st2 & E2 & F2 & T2).
    exists st2. cbn [each]. split; [|split].
    + rewrite (bind_ok _ _ st st1 tt); [done|]. unfold _save_node. fold node'. by rewrite Hn'.
    + unfold entity_row in F1. rewrite He' in F1. cbn [fmap list_fmap]. unfold node_row at 1. rewrite Hn. cbn [text_of].
      exact (effect_trans _ _ _ _ _ _ _ _ F1 F2).
    + rewrite T2, T1, He'. unfold with_scanned. cbn [length]. rewrite Nat2Z.inj_succ. cbn -[Z.of_nat Z.add Z.succ]. f_equal. unfold Task.bump. rewrite bool_decide_eq_true_2 by done. lia.
Qed.

(** ** Properties *)

Section inspection.
Context (t : task) (d : db) (tb : RawFacts.store) (host : string) (c : Sources.credential).
Context (Hsingle : single src host c) (Hwf : wf_store tb) (Htask : tasks d !! t_id t = Some t).

Lemma openshift_connection_spec (connected : Res unit) : answers get_ocp_client (Ok tt) -> answers can_connect connected ->
  match connected with Ok _ => True | Err e => is_ocp_error e = true end ->
  let s := match connected with Ok _ => RawFacts.SUCCESS | Err e => _handle_ocp_error e end in
  let st := start_state t d tb in
  exists st', check_connection st =
      (st', Ok (if bool_decide (s = RawFacts.SUCCESS) then (Some SUCCESS_MESSAGE, COMPLETED)
                else (Some FAILURE_TO_CONNECT_MESSAGE, ScanModel.FAILED))) /\
    effect (t_id t) st st' [] [mkconn host s (Some (c_id c))] /\ t_stats (r_task st') = count_status s (mkstats 1 0 0 0).
Proof.
  intros Hcl Hcon Hocp s st. pose proof (start_ready t d tb Hwf Htask) as R.
  destruct (update_spec (t_id t) (Some 1) (Some 0) (Some 0) (Some 0) st R) as (st1 & E1 & F1 & T1 & _).
  destruct (answers_run (t_id t) _ st1 _ Hcl (ef_ready _ _ _ _ _ F1)) as (st2 & E2 & F2 & T2 & R2).
  assert (answers (try_M (_ ← can_connect; mret RawFacts.SUCCESS) is_ocp_error (fun e => mret (_handle_ocp_error e))) (Ok s)) as Ha.
  { destruct connected as [[]|e].
    - apply answers_try. by apply (answers_ok _ _ tt); [|apply answers_lift].
    - apply (answers_caught _ _ _ e); [by apply answers_err | done | apply answers_lift]. }
  destruct (answers_run (t_id t) _ st2 _ Ha R2) as (st3 & E3 & F3 & T3 & R3).
  assert (s <> NO_STATUS) as Hs.
  { unfold s. destruct connected as [|e]; [done|]. unfold _handle_ocp_error. by repeat case_match. }
  destruct (save_conn_spec src credential_row (t_id t) host c s st3 Hsingle R3 Hs) as (st4 & E4 & F4 & T4 & _).
  exists st4. split; [|split].
  - unfold check_connection, _init_connection_stats.
    by rewrite (bind_ok _ _ _ _ _ E1), (bind_ok _ _ _ _ _ E2), (bind_ok _ _ _ _ _ E3), (bind_ok _ _ _ _ _ E4).
  - exact (effect_trans _ _ _ _ _ _ _ _ F1 (effect_trans _ _ _ _ _ _ _ _ F2 (effect_trans _ _ _ _ _ _ _ _ F3 F4))).
  - by rewrite T4, T3, T2, T1.
Qed.

(** The statistics and the outcome of an inspection: the nodes and the cluster. *)
Definition final_stats (nodes : list pydict) (errors : pydict) : stats :=
  count_status (if bool_decide (errors = []) then RawFacts.SUCCESS else RawFacts.FAILED)
    (mkstats (Z.of_nat (length nodes) + 1) (Z.of_nat (length nodes)) 0 0).
Definition final_outcome (nodes : list pydict) (errors : pydict) : outcome :=
  match errors, nodes with
  | [], _ => (Some SUCCESS_MESSAGE, COMPLETED)
  | _, [] => (Some FAILURE_MESSAGE, ScanModel.FAILED)
  | _, _ => (Some PARTIAL_SUCCESS_MESSAGE, COMPLETED)
  end.

(** [C10] The whole inspection of an OpenShift cluster that answers about its nodes and
    itself: every node has one result, with the node as its fact and the identifier
    of the cluster in it, and the cluster one, with the facts that could be collected;
    the result of the cluster is failed exactly when some of them could not, and then
    the task is completed with a partial success, or failed when there is no node.
    The systems counted are the nodes and the cluster.  If the connection fails there
    is no result, and the connection result tells a refusal from an unreachable
    host. *)
Theorem openshift_inspection_spec (connected : Res unit) cluster uuid nodes facts errors :
  answers get_ocp_client (Ok tt) -> answers can_connect connected ->
  match connected with Ok _ => True | Err e => is_ocp_error e = true end ->
  answers retrieve_cluster (Ok cluster) -> dget_none "uuid" cluster = VStr uuid ->
  answers retrieve_nodes (Ok nodes) -> Forall plain_node nodes ->
  answers (_extra_cluster_facts (dict_of (dget_none "errors" cluster))) (Ok (facts, errors)) ->
  let st := start_state t d tb in
  exists st', match connected with
  | Ok _ =>
      execute_task st = (st', Ok (final_outcome nodes errors)) /\
      effect (t_id t) st st'
        ((node_row (VStr uuid) <$> nodes) ++
         [("cluster:" +:+ uuid, if bool_decide (errors = []) then RawFacts.SUCCESS else RawFacts.FAILED,
           ("cluster", VDict (dset "errors" (VDict errors) cluster)) :: facts)])
        [mkconn host RawFacts.SUCCESS (Some (c_id c))] /\
      t_stats (r_task st') = final_stats nodes errors
  | Err e =>
      let s := match e with OCPError (Some 401) _ _ => RawFacts.FAILED | _ => RawFacts.UNREACHABLE end in
      execute_task st = (st', Ok (Some FAILURE_TO_CONNECT_MESSAGE, ScanModel.FAILED)) /\
      effect (t_id t) st st' [] [mkconn host s (Some (c_id c))] /\ t_stats (r_task st') = count_status s (mkstats 1 0 0 0)
  end.
Proof.
  intros Hcl Hcon Hocp Hcluster Huuid Hnodes Hplain Hextra st.
  destruct (openshift_connection_spec connected Hcl Hcon Hocp) as (st1 & E1 & F1 & T1). fold st in E1, F1.
  destruct connected as [[]|e].
  2:{ exists st1. cbn zeta in *. unfold execute_task. rewrite (bind_ok _ _ _ _ _ E1). unfold _handle_ocp_error in *.
      split; [|by split]. by repeat case_match. }
  cbv beta iota zeta in E1, F1, T1.
  destruct (answers_run (t_id t) _ st1 _ Hcl (ef_ready _ _ _ _ _ F1)) as (st2 & E2 & F2 & T2 & R2).
  destruct (answers_run (t_id t) _ st2 _ Hcluster R2) as (st3 & E3 & F3 & T3 & R3).
  destruct (answers_run (t_id t) _ st3 _ Hnodes R3) as (st4 & E4 & F4 & T4 & R4).
  destruct (update_spec (t_id t) (Some (Z.of_nat (length nodes) + 1)) (Some 0) (Some 0) (Some 0) st4 R4) as (st5 & E5 & F5 & T5 & _).
  destruct (save_nodes_spec (t_id t) (VStr uuid) nodes Hplain st5 (ef_ready _ _ _ _ _ F5)) as (st6 & E6 & F6 & T6).
  destruct (answers_run (t_id t) _ st6 _ Hextra (ef_ready _ _ _ _ _ F6)) as (st7 & E7 & F7 & T7 & R7).
  set (cluster' := dset "errors" (VDict errors) cluster).
  destruct (save_entity_spec (t_id t) "cluster" ("cluster:" +:+ uuid) cluster' facts st7 R7) as (st8 & E8 & F8 & T8).
  assert (_infer_inspection_status cluster' = if bool_decide (errors = []) then RawFacts.SUCCESS else RawFacts.FAILED) as Hs.
  { unfold _infer_inspection_status, cluster'. rewrite dget_none_dset, decide_True by done. by destruct errors. }
  unfold entity_row in F8. rewrite Hs in F8, T8.
  assert (t_stats (r_task st8) = final_stats nodes errors) as TS.
  { rewrite T8, T7, T6, T5. unfold final_stats, set_count, with_scanned. cbn. by rewrite ?Z.add_0_l. }
  exists st8. split; [|split; [|exact TS]].
  - unfold execute_task. rewrite (bind_ok _ _ _ _ _ E1). cbn [snd fst].
    rewrite (bool_decide_eq_false_2 (COMPLETED <> COMPLETED)) by (intros H; by apply H).
    unfold inspect, _init_stats. rewrite (bind_ok _ _ _ _ _ E2), (bind_ok _ _ _ _ _ E3), (bind_ok _ _ _ _ _ E4), (bind_ok _ _ _ _ _ E5).
    rewrite Huuid. rewrite (bind_ok _ _ _ _ _ E6), (bind_ok _ _ _ _ _ E7). cbn [fst snd]. fold cluster'.
    unfold _save_cluster, cluster_name. unfold cluster' at 1. rewrite dget_none_dset, decide_False, Huuid by done. cbn [py_str].
    rewrite (bind_ok _ _ _ _ _ E8). rewrite (bind_ok _ _ st8 st8 (t_stats (r_task st8))) by done. rewrite TS.
    unfold final_stats, final_outcome. destruct errors as [|er errors], nodes as [|n nodes]; cbn; try done.
  - pose proof (effect_trans _ _ _ _ _ _ _ _ F1 (effect_trans _ _ _ _ _ _ _ _ F2 (effect_trans _ _ _ _ _ _ _ _ F3
      (effect_trans _ _ _ _ _ _ _ _ F4 (effect_trans _ _ _ _ _ _ _ _ F5 (effect_trans _ _ _ _ _ _ _ _ F6
      (effect_trans _ _ _ _ _ _ _ _ F7 F8))))))) as F. cbn [app] in F. exact F.
Qed.
End inspection.
End runner.

(** *** Workloads *)

Section workloads.
(** Pods with a namespace and an application. *)
Context (validate : string -> pydict -> Res pydict) (pod_id : pydict -> string * string).
Definition identified (pod : pydict) : Prop :=
  dget_none "namespace" pod = VStr (pod_id pod).1 /\ app_name pod = Ok (VStr (pod_id pod).2).

(** The first pod of each application, in order. *)
Definition first_pods (pods : list pydict) : list pydict :=
  foldr (fun p l => p :: filter (fun q => pod_id q <> pod_id p) l) [] pods.

Definition workload (pod : pydict) : Res pydict := entity validate "workload" (dset "name" (VStr (pod_id pod).2) pod).

Lemma filter_first_pods (seen : list (string * string)) pods :
  filter (fun q => pod_id q ∉ seen) (first_pods pods) = first_pods (filter (fun q => pod_id q ∉ seen) pods).
Proof.
  induction pods as [|p pods IH]; [done|]. cbn [first_pods foldr]. rewrite !filter_cons. case_decide as Hp.
  - cbn [first_pods foldr]. f_equal. fold (first_pods pods). fold (first_pods (filter (fun q => pod_id q ∉ seen) pods)).
    rewrite <- IH, !list_filter_filter. apply list_filter_iff. intros x. tauto.
  - fold (first_pods pods). rewrite <- IH, list_filter_filter. apply list_filter_iff. intros x.
    assert (pod_id x ∉ seen -> pod_id x <> pod_id p) by (intros H E; apply H; by rewrite E). tauto.
Qed.

Lemma seen_id seen pod : identified pod ->
  existsb (fun id : pyval * pyval => py_eq id.1 (dget_none "namespace" pod) && py_eq id.2 (VStr (pod_id pod).2))
    ((fun i : string * string => (VStr i.1, VStr i.2)) <$> seen) = bool_decide (pod_id pod ∈ seen).
Proof.
  intros [Hn _]. rewrite Hn. induction seen as [|[a b] seen IH]; [done|]. cbn [fmap list_fmap existsb]. rewrite IH.
  cbn [fst snd]. rewrite !py_eq_str. destruct (pod_id pod) as [a' b']. cbn [fst snd].
  rewrite <- bool_decide_and, <- bool_decide_or. apply bool_decide_ext. rewrite elem_of_cons. naive_solver.
Qed.

Definition ids (l : list (string * string)) : list (pyval * pyval) := (fun i => (VStr i.1, VStr i.2)) <$> l.

Lemma workload_step_eq seen ws p : identified p -> workload_step validate (ids seen, ws) p =
  if bool_decide (pod_id p ∈ seen) then Ok (ids seen, ws)
  else w ← workload p; Ok (ids (seen ++ [pod_id p]), ws ++ [w])%list.
Proof.
  intros Hp. pose proof Hp as [Hn Ha]. unfold workload_step. rewrite Ha. cbn [mbind res_bind fst snd].
  unfold ids. rewrite (seen_id seen p Hp), fmap_app. by rewrite Hn.
Qed.

Lemma workload_fold pods : Forall identified pods -> forall seen ws,
  let new := first_pods (filter (fun q => pod_id q ∉ seen) pods) in
  foldM (workload_step validate) (ids seen, ws) pods = (l ← mapM workload new; Ok (ids (seen ++ (pod_id <$> new)), ws ++ l)%list).
Proof.
  induction 1 as [|p pods Hp _ IH]; intros seen ws new.
  - cbn. by rewrite !app_nil_r.
  - change (foldM (workload_step validate) (ids seen, ws) (p :: pods)) with
      (acc ← workload_step validate (ids seen, ws) p; foldM (workload_step validate) acc pods).
    rewrite (workload_step_eq _ _ _ Hp). unfold new. clear new. rewrite filter_cons. case_bool_decide as Hin.
    + rewrite decide_False by tauto. cbn [mbind res_bind]. apply IH.
    + rewrite decide_True by done. cbn [first_pods foldr]. fold (first_pods (filter (fun q => pod_id q ∉ seen) pods)).
      assert (filter (fun q => pod_id q <> pod_id p) (first_pods (filter (fun q => pod_id q ∉ seen) pods)) =
              first_pods (filter (fun q => pod_id q ∉ (seen ++ [pod_id p])%list) pods)) as ->.
      { rewrite <- !filter_first_pods, list_filter_filter. apply list_filter_iff. intros x.
        rewrite not_elem_of_app, list_elem_of_singleton. tauto. }
      cbn [mapM fmap list_fmap]. destruct (workload p) as [w|e]; [|done]. cbn [mbind res_bind]. rewrite IH. cbn zeta.
      destruct (mapM workload _) as [l|e]; [|done]. cbn [mbind res_bind mret res_ret]. by rewrite <- !app_assoc.
Qed.

(** The workloads of a cluster are made of the first pod of each application of
    each namespace, in the order of the pods: one for each, and every pod's
    application has one. *)
Theorem workloads_first_pods pods : Forall identified pods ->
  workloads_of validate pods = mapM workload (first_pods pods) /\
  NoDup (pod_id <$> first_pods pods) /\
  forall pod, pod ∈ pods -> pod_id pod ∈ pod_id <$> first_pods pods.
Proof.
  intros H. split; [|split].
  - unfold workloads_of. change ([], []) with (ids [], @nil pydict). rewrite (workload_fold pods H). cbn zeta.
    assert (filter (fun q => pod_id q ∉ []) pods = pods) as ->.
    { clear. induction pods as [|p pods IH]; [done|]. rewrite filter_cons, decide_True by set_solver. by rewrite IH. }
    by destruct (mapM workload (first_pods pods)).
  - clear H. induction pods as [|p pods IH]; [constructor|]. cbn. apply NoDup_cons. fold (first_pods pods). split.
    + intros (q & E & [Hq _]%list_elem_of_filter)%list_elem_of_fmap. by rewrite E in Hq.
    + eapply sublist_NoDup; [exact IH|]. apply fmap_sublist, sublist_filter.
  - clear H. intros pod. induction pods as [|p pods IH]; [by intros ?%elem_of_nil|]. cbn. fold (first_pods pods).
    intros [->|H]%elem_of_cons; [by left|]. destruct (decide (pod_id pod = pod_id p)) as [->|Hne]; [by left|]. right.
    specialize (IH H). apply list_elem_of_fmap in IH as (q & E & Hq). apply list_elem_of_fmap. exists q. split; [done|].
    apply list_elem_of_filter. split; [by rewrite <- E | done].
Qed.
End workloads.

(** OpenShift is a runner of the flow. *)
#[export] Instance openshift_runner client api retry missing attr get validate as_text error_json workloads decrypt vault
    source_key src row server_id version tb :
  TaskRunner (executor_of (execute_task client api retry missing attr get validate as_text error_json workloads decrypt vault
    source_key src row server_id version) tb).
Proof. apply stats_only_runner, executor_keeps. intros t d. apply keeps_openshift. Qed.

(** *** Quantities of memory *)

(** The units the code knows and what they stand for. *)
Definition memory_units : list (string * Z) :=
  [("k", 1000); ("K", 1000); ("M", 1000^2); ("G", 1000^3); ("T", 1000^4); ("P", 1000^5); ("E", 1000^6);
   ("Ki", 1024); ("Mi", 1024^2); ("Gi", 1024^3); ("Ti", 1024^4); ("Pi", 1024^5); ("Ei", 1024^6)].

Definition digits (s : string) : Prop := s <> "" /\ str_forall is_digit s = true /\ str_len s <= int_max_str_digits.

Lemma digit_run_app s c t : str_forall is_digit s = true -> is_digit c = false ->
  digit_run (s +:+ String c t) = (s, String c t).
Proof.
  intros Hs Hc. induction s as [|d s IH]; cbn; [by rewrite Hc|]. cbn in Hs. apply andb_true_iff in Hs as [-> Hs].
  by rewrite (IH Hs).
Qed.

Lemma digit_run_all s : str_forall is_digit s = true -> digit_run s = (s, "").
Proof. induction s as [|d s IH]; cbn; [done|]. intros [-> Hs]%andb_true_iff. by rewrite (IH Hs). Qed.

Lemma unit_parsed s c tail : digits s -> is_digit c = false ->
  _parse_resource_string (s +:+ String c tail) =
    if char_in c "mkKMGTPE" then
      if bool_decide (drop_final_newline tail = "") then Ok (digits_value s 0, String c "", false)
      else if bool_decide (drop_final_newline tail = "i") then
        if bool_decide (String c "" ∈ ["m"; "k"]) then Err ValueError else Ok (digits_value s 0, String c "", true)
      else Err ValueError
    else Err ValueError.
Proof.
  intros (Hne & Hd & Hl) Hc. unfold _parse_resource_string, resources_regex. rewrite (digit_run_app s c tail Hd Hc).
  rewrite bool_decide_eq_false_2 by done.
  destruct (char_in c _); [|done]. destruct (bool_decide (drop_final_newline tail = "")).
  - by rewrite (int_of_digits s Hne Hd Hl).
  - destruct (bool_decide (drop_final_newline tail = "i")); [|done]. rewrite (int_of_digits s Hne Hd Hl). cbn [from_option mbind res_bind andb].
    done.
Qed.

(** [C20] A quantity of memory, digits and a unit, is its number of bytes exactly; the
    binary units end with an i, which thousandths and [k] cannot; and a number of
    bytes without a unit, which Kubernetes allows, is refused. *)
Theorem memory_quantities s : digits s ->
  (forall unit factor, (unit, factor) ∈ memory_units ->
     _convert_memory_bytes (VStr (s +:+ unit)) = Ok (VInt (digits_value s 0 * factor))) /\
  _convert_memory_bytes (VStr (s +:+ "mi")) = Err ValueError /\ _convert_memory_bytes (VStr (s +:+ "ki")) = Err ValueError /\
  _convert_memory_bytes (VStr s) = Err ValueError.
Proof.
  intros Hs. split; [|split; [|split]].
  - intros unit factor H. unfold memory_units in H.
    repeat (apply elem_of_cons in H as [[= -> ->]|H];
      [unfold _convert_memory_bytes; rewrite unit_parsed by done; reflexivity|]).
    by apply elem_of_nil in H.
  - unfold _convert_memory_bytes. by rewrite unit_parsed.
  - unfold _convert_memory_bytes. by rewrite unit_parsed.
  - destruct Hs as (Hne & Hd & Hl). unfold _convert_memory_bytes, _parse_resource_string, resources_regex.
    rewrite (digit_run_all s Hd). by rewrite bool_decide_eq_false_2.
Qed.

Lemma memory_quantities_witness :
  _convert_memory_bytes (VStr "16Gi") = Ok (VInt (digits_value "16" 0 * 1024^3)) /\
  _convert_memory_bytes (VStr "16") = Err ValueError.
Proof.
  destruct (memory_quantities "16") as (H & _ & _ & Hn); [by split|]. split; [|exact Hn].
  apply (H "Gi"). unfold memory_units. do 9 right. left.
Defined.

(** Thousandths are rounded, ties to even; thousandths of a processor are a float. *)
Example thousandths : _convert_memory_bytes (VStr "2500m") = Ok (VInt 2) /\ _convert_memory_bytes (VStr "2501m") = Ok (VInt 3).
Proof. split; vm_compute; reflexivity. Qed.
Example millicores : (v ← _convert_cpu_value (VStr "3500m"); Ok (py_str v)) = Ok "3.5".
Proof. vm_compute. reflexivity. Qed.

(** *** A cluster *)

Definition sample_attr (v : pyval) (k : string) : Res pyval :=
  match v with VDict d => Ok (dget_none k d) | _ => Err TypeError end.
Definition sample_get (v : pyval) (k : string) (dflt : pyval) : Res pyval := vget_default v k dflt.
Definition sample_validate (kind : string) (fields : pydict) : Res pydict := Ok (fields ++ [("errors", VDict [])])%list.

Definition sample_resources : pyval := VDict [("cpu", VStr "3500m"); ("memory", VStr "16Gi"); ("pods", VStr "250")].
Definition sample_node : pyval :=
  VDict [("metadata", VDict [("name", VStr "worker-0")]); ("spec", VDict []);
         ("status", VDict [("allocatable", sample_resources); ("capacity", sample_resources); ("nodeInfo", VDict [])])].
Definition sample_cluster : pyval :=
  VDict [("spec", VDict [("clusterID", VStr "c-1")]);
         ("status", VDict [("desired", VDict [("version", VStr "4.10")])])].

(** A cluster that has nodes, forbids its operators and has no managed clusters. *)
Definition sample_client (_ : nat) (q : k8s_request) : Res pyval :=
  match q with
  | ListResources _ "Node" _ => Ok (VList [sample_node])
  | ListResources _ "ClusterVersion" _ => Ok (VList [sample_cluster])
  | ListResources _ "ClusterOperator" _ => Err (HTTPError 403)
  | ListResources _ "ManagedCluster" _ => Err DoesNotExist
  | ListResources _ _ _ => Ok (VList [])
  | _ => Ok VNone
  end.
Definition sample_api (e : exn) : option api_error :=
  match e with HTTPError s => Some (mkapi (Some s) (Some "Forbidden") (Some "{}")) | _ => None end.
Definition sample_retry (_ : exn) : option (string * string) := None.
Definition not_found (e : exn) : bool := match e with DoesNotExist => true | _ => false end.
Definition sample_text (_ : pyval) : Res string := Err ValueError.
Definition sample_json (e : exn) : pyval := match e with OCPError (Some s) _ _ => VInt s | _ => VNone end.
Definition plain_secret (v : pyval) : Res pyval := Ok v.

Definition value_of {A} (r : Res A) (dflt : A) : A := match r with Ok a => a | Err _ => dflt end.
Definition sample_nodes : list pydict :=
  value_of (mapM (_init_ocp_nodes sample_attr sample_validate) [sample_node]) [].
Definition cluster_entity : pydict := value_of (_init_cluster sample_attr sample_validate sample_cluster) [].

Definition sample_inspection : rstate * Res outcome :=
  execute_task sample_client sample_api sample_retry not_found sample_attr sample_get sample_validate sample_text sample_json true
    plain_secret plain_secret 10 (sample_source "openshift") (fun _ => []) "id" "1" (start_state sample_task sample_db sample_store).

Lemma openshift_inspection_spec_witness :
  sample_inspection.2 = Ok (Some PARTIAL_SUCCESS_MESSAGE, COMPLETED) /\
  (rows 7 sample_inspection.1).*1 = [("worker-0", RawFacts.SUCCESS); ("cluster:c-1", RawFacts.FAILED)] /\
  (r ← last (rows 7 sample_inspection.1); c ← dget "cluster" r.2; d ← dget "errors" (dict_of c); Some d) =
    Some (VDict [("operators", VInt 403)]) /\
  t_stats (r_task sample_inspection.1) = mkstats 2 1 1 0.
Proof.
  destruct (openshift_inspection_spec sample_client sample_api sample_retry not_found sample_attr sample_get sample_validate sample_text
    sample_json true plain_secret plain_secret 10 (sample_source "openshift") (fun _ => []) "id" "1" sample_task sample_db sample_store
    "10.0.0.1" _ (sample_single "openshift") sample_store_wf eq_refl (Ok tt) cluster_entity "c-1" sample_nodes
    [("workloads", VList []); ("rhacm_metrics", VList []); ("node_metrics", VList [])] [("operators", VInt 403)])
    as (st' & E & F & T).
  - intros st. exists 1%nat. reflexivity.
  - intros st. exists 1%nat. reflexivity.
  - exact I.
  - intros st. exists 1%nat. reflexivity.
  - reflexivity.
  - intros st. exists 1%nat. reflexivity.
  - constructor; [|constructor]. split; [by exists "worker-0" | reflexivity].
  - intros st. exists 4%nat. reflexivity.
  - change (t_id sample_task) with 7 in F. fold sample_inspection in E. rewrite E. cbn [fst snd]. split; [reflexivity|].
    rewrite (ef_rows _ _ _ _ _ F). split; [vm_compute; reflexivity|]. split; [vm_compute; reflexivity|]. exact T.
Defined.

(** *** Pods *)

Definition pod (name namespace app : string) : pydict :=
  [("name", VStr name); ("namespace", VStr namespace);
   ("labels", VDict (if bool_decide (app = "") then [] else [("app", VStr app)]))].
Definition sample_pods : list pydict := [pod "web-1" "a" "web"; pod "db-0" "a" ""; pod "web-2" "a" "web"; pod "web-3" "b" "web"].
Definition sample_pod_id (p : pydict) : string * string :=
  (text_of (dget_none "namespace" p), text_of (value_of (app_name p) VNone)).

Lemma workloads_first_pods_witness : exists ws, workloads_of sample_validate sample_pods = Ok ws /\
  (dget "name" <$> ws) = [Some (VStr "web"); Some (VStr "db"); Some (VStr "web")] /\
  map sample_pod_id (first_pods sample_pod_id sample_pods) = [("a", "web"); ("a", "db"); ("b", "web")].
Proof.
  destruct (workloads_first_pods sample_validate sample_pod_id sample_pods) as (H & _ & _); [repeat (constructor; [by split|]); constructor|].
  eexists. rewrite H. split; [vm_compute; reflexivity|]. split; vm_compute; reflexivity.
Defined.

(** An error without a body is no error of the client: [json.loads] raises. *)
Example error_without_body : ocp_error (fun _ => Some (mkapi (Some 0) (Some "SSLError") None)) (fun _ => None) sample_text ValueError
  = Err TypeError.
Proof. reflexivity. Qed.
End OpenShift.
