(* ===== verification/ScanDeletion.v ===== *)
(** Deleting scans and cancelling jobs: [_destroy_scan] and [scan_bulk_delete] of
    [api/scan/view.py], the signal handlers of [api/signal/scanjob_signal.py] and
    [CeleryScanManager.kill] of [scanner/manager.py] with its revocation.

    The tables are those of [ScanModel].  [cache] is Redis, from jobs to the ids of
    their Celery tasks; [revoked] collects the ids handed to [revoke].  Deleting a row
    follows the [on_delete] of the columns that point to it. *)
From stdpp Require Import base gmap sets list strings sorting.
From Stdlib Require Import ZArith Lia.
From S2P Require Import Prelude PyStr PyVal ApiCommon ScanModel ScanFlow.

Open Scope string_scope.
Open Scope Z_scope.

Record world := mkworld { database : db; cache : gmap Z string; revoked : gset string }.

(** [CeleryScanManager.kill]: the job is cancelled and its Celery task revoked. *)
Definition kill (now : Z) (j : job) (w : world) : bool * world :=
  let '(killed, _, d) := ScanFlow.kill (cache w) now j (database w) in
  (killed, mkworld d (cache w)
     (match cache w !! j_id j with Some cid => {[cid]} ∪ revoked w | None => revoked w end)).

Inductive action := PAUSE | CANCEL | RESTART.

(** [scan_action] *)
Definition scan_action (now : Z) (j : job) (a : action) (w : world) : world :=
  match a with PAUSE | CANCEL => (kill now j w).2 | RESTART => w end.
Definition scan_cancel (now : Z) (j : job) (w : world) : world := scan_action now j CANCEL w.

(** [scan.jobs] *)
Definition id_le (a b : job) : Prop := j_id a <= j_id b.
#[export] Instance id_le_dec : RelDecision id_le.
Proof. intros a b. unfold id_le. apply _. Defined.
Definition scan_jobs (i : Z) (d : db) : list job :=
  merge_sort id_le (filter (fun j => j_scan j = Some i) (map_to_list (jobs d)).*2).

Definition cancel_job (now : Z) (w : world) (j : job) : world :=
  let '(_, j, d) := Job.status_cancel now j (database w) in
  scan_cancel now j (mkworld d (cache w) (revoked w)).

(** [job.delete()]: its tasks go with it; scans and sources that name it as their most
    recent job are left without. *)
Definition delete_job (j : job) (d : db) : db :=
  let d := Job.delete_tasks j d in
  let d := with_jobs (delete (j_id j)) d in
  let d := with_job_sources (delete (j_id j)) d in
  let d := with_scans (fmap (fun s => if bool_decide (s_most_recent s = Some (j_id j))
                                      then mkscan (s_scan_type s) (s_sources s) None else s)) d in
  with_sources (fmap (fun s => if bool_decide (src_most_recent s = Some (j_id j))
                               then mksource (src_type s) None else s)) d.

Definition destroy_job (d : db) (j : job) : db :=
  let d := Job.delete_inspect_results j None d in
  let d := Job.delete_tasks j d in
  let d := match j_conn j with Some jc => Job.delete_task_conns jc d | None => d end in
  delete_job j d.

(** [scan.delete()]: jobs that still point to it are left without scan. *)
Definition delete_scan (i : Z) (d : db) : db :=
  let d := with_jobs (fmap (fun j => if bool_decide (j_scan j = Some i)
    then mkjob (j_id j) (j_scan_type j) (j_status j) (j_message j) (j_start j) (j_end j) None (j_conn j) (j_report j)
    else j)) d in
  with_scans (delete i) d.

Definition finished (j : job) : Prop := j_status j ∈ [FAILED; CANCELED; COMPLETED].

Definition _destroy_scan (now : Z) (w : world) (i : Z) : world :=
  let jobs_to_cancel := filter (fun j => ~ finished j) (scan_jobs i (database w)) in
  let w := foldl (cancel_job now) w jobs_to_cancel in
  let d := foldl destroy_job (database w) (scan_jobs i (database w)) in
  mkworld (delete_scan i d) (cache w) (revoked w).

(** [scan_bulk_delete]: the deleted and the missing ids. *)
Definition scan_bulk_delete (now : Z) (ids : option (gset Z)) (w : world) : world * (gset Z * gset Z) :=
  let all := dom (scans (database w)) in
  let scan_ids_requested := default ∅ ids in
  let scan_ids_found := match ids with None => all | Some ids => all ∩ ids end in
  (foldl (_destroy_scan now) w (elements scan_ids_found), (scan_ids_found, scan_ids_requested ∖ scan_ids_found)).

(** ** Lemmas *)

(** A result that deleting scan [i] must not touch: its group was filled by no task of
    the scan's jobs, or is in the report of another scan's job. *)
Definition of_scan (i : Z) (d : db) (k : Z) : Prop := exists j, jobs d !! k = Some j /\ j_scan j = Some i.

Definition protected (i : Z) (d : db) (g : group) : Prop :=
  (forall t row, t ∈ g_tasks g -> tasks d !! t = Some row -> ~ of_scan i d (t_job row)) \/
  (exists r k j, r ∈ g_reports g /\ jobs d !! k = Some j /\ j_scan j <> Some i /\ j_report j = Some r).

(** What the steps of a deletion leave as it is. *)
Record keeps (i : Z) (d d' : db) : Prop := {
  ke_wf : wf_db d -> wf_db d';
  ke_jobs : forall k j, jobs d !! k = Some j -> j_scan j <> Some i -> jobs d' !! k = Some j;
  ke_back : forall k j', jobs d' !! k = Some j' -> exists j, jobs d !! k = Some j /\ j_scan j = j_scan j';
  ke_tasks : wf_db d -> forall t row, tasks d !! t = Some row -> ~ of_scan i d (t_job row) ->
    exists row', tasks d' !! t = Some row' /\ t_job row' = t_job row /\ t_status row' = t_status row;
  ke_tasks_back : forall t row', tasks d' !! t = Some row' -> exists row, tasks d !! t = Some row /\ t_job row' = t_job row;
  ke_scans : forall k, k <> i -> is_Some (scans d !! k) <-> is_Some (scans d' !! k);
  ke_results : wf_db d -> forall r g gr, results d !! r = Some g -> groups d !! g = Some gr -> protected i d gr ->
    results d' !! r = Some g /\ exists gr', groups d' !! g = Some gr' /\ protected i d' gr' }.

Lemma of_scan_back i d d' k : (forall k j', jobs d' !! k = Some j' -> exists j, jobs d !! k = Some j /\ j_scan j = j_scan j') ->
  of_scan i d' k -> of_scan i d k.
Proof. intros H (j' & Hj' & Hs). destruct (H k j' Hj') as (j & Hj & E). exists j. by rewrite E. Qed.

Lemma keeps_refl i d : keeps i d d.
Proof. split; eauto; done. Qed.

Lemma keeps_trans i d1 d2 d3 : keeps i d1 d2 -> keeps i d2 d3 -> keeps i d1 d3.
Proof.
  intros [W1 J1 B1 T1 TB1 S1 R1] [W2 J2 B2 T2 TB2 S2 R2]. split.
  - auto.
  - auto.
  - intros k j' H. destruct (B2 k j' H) as (j2 & H2 & E2). destruct (B1 k j2 H2) as (j1 & H1 & E1). exists j1. by rewrite E1.
  - intros W t row Ht Hn. destruct (T1 W t row Ht Hn) as (row2 & Ht2 & E2 & Es2).
    destruct (T2 (W1 W) t row2 Ht2) as (row3 & Ht3 & E3 & Es3).
    { rewrite E2. intros Ho. by apply Hn, (of_scan_back _ d1 d2). }
    exists row3. rewrite E3, Es3. done.
  - intros t row' H. destruct (TB2 t row' H) as (row2 & H2 & E2). destruct (TB1 t row2 H2) as (row1 & H1 & E1).
    exists row1. by rewrite E2.
  - intros k Hk. rewrite S1 by done. by apply S2.
  - intros W r g gr Hr Hg Hp. destruct (R1 W r g gr Hr Hg Hp) as (Hr1 & gr1 & Hg1 & Hp1).
    exact (R2 (W1 W) r g gr1 Hr1 Hg1 Hp1).
Qed.

(** Protection survives when the group loses tasks and keeps its reports. *)
Lemma protected_next i d d' gr gr' :
  (forall k j, jobs d !! k = Some j -> j_scan j <> Some i -> jobs d' !! k = Some j) ->
  (forall k j', jobs d' !! k = Some j' -> exists j, jobs d !! k = Some j /\ j_scan j = j_scan j') ->
  (forall t row', tasks d' !! t = Some row' -> exists row, tasks d !! t = Some row /\ t_job row' = t_job row) ->
  (forall t, t ∈ g_tasks gr' -> t ∈ g_tasks gr) -> g_reports gr' = g_reports gr ->
  protected i d gr -> protected i d' gr'.
Proof.
  intros HJ HB HT Hsub Hrep [Hp|(r & k & j & Hr & Hk & Hs & Hj)].
  - left. intros t row' Ht Hrow. destruct (HT t row' Hrow) as (row & Hrow0 & ->). intros Ho.
    eapply Hp; [by apply Hsub | exact Hrow0 | by eapply of_scan_back].
  - right. exists r, k, j. rewrite Hrep. auto.
Qed.

(** Steps that leave results, groups and scans alone. *)
Lemma keeps_frame i d d' :
  results d' = results d -> groups d' = groups d -> scans d' = scans d ->
  (wf_db d -> wf_db d') ->
  (forall k j, jobs d !! k = Some j -> j_scan j <> Some i -> jobs d' !! k = Some j) ->
  (forall k j', jobs d' !! k = Some j' -> exists j, jobs d !! k = Some j /\ j_scan j = j_scan j') ->
  (wf_db d -> forall t row, tasks d !! t = Some row -> ~ of_scan i d (t_job row) ->
    exists row', tasks d' !! t = Some row' /\ t_job row' = t_job row /\ t_status row' = t_status row) ->
  (forall t row', tasks d' !! t = Some row' -> exists row, tasks d !! t = Some row /\ t_job row' = t_job row) ->
  keeps i d d'.
Proof.
  intros Er Eg Es W J B T TB. split; [done..| |].
  - intros k _. by rewrite Es.
  - intros _ r g gr Hr Hg Hp. rewrite Er, Eg. split; [done|]. exists gr. split; [done|]. by eapply (protected_next i d d').
Qed.

Section deletion.
Context (i : Z).

(** Cancelling a job of the scan that is not completed or failed. *)
Lemma keeps_cancel now j d : wf_db d -> jobs d !! j_id j = Some j -> j_scan j = Some i ->
  j_status j <> COMPLETED -> j_status j <> FAILED ->
  exists j' d', Job.status_cancel now j d = (true, j', d') /\ keeps i d d' /\
    (forall k, k <> j_id j -> jobs d' !! k = jobs d !! k) /\ jobs d' !! j_id j = Some j' /\
    j_id j' = j_id j /\ j_scan j' = Some i /\ j_status j' = CANCELED.
Proof.
  intros W Hj Hs Hc Hf. unfold Job.status_cancel, Job.change.
  assert (Job.validate_status_change CANCELED [CREATED; PENDING; RUNNING; PAUSED] (Job.set_end (Some now) j) = false) as ->
    by (unfold Job.validate_status_change; cbn; destruct (j_status j); done).
  do 2 eexists. split; [done|]. cbn [j_id Job.set_end].
  pose proof (each_job_task _ _ (j_id j) Job.unfinished d (row_cancel now) W) as HT.
  pose proof (each_task_ok _ _ (j_id j) Job.unfinished d (row_cancel now) W) as HO.
  assert (NoDup (t_id <$> filter Job.unfinished (job_tasks (j_id j) d))) as Hn.
  { eapply sublist_NoDup; [apply (job_tasks_nodup (j_id j) d W)|]. apply fmap_sublist, sublist_filter. }
  destruct (each_task_spec _ _ _ d (row_cancel now) Hn) as (m & Em & _ & Hout).
  rewrite Em in HT, HO |- *. set (j' := Job.set_status CANCELED SJ_CANCELED _).
  split; [|split; [by intros k Hk; cbn; rewrite lookup_insert_ne|]; split; [by cbn; rewrite lookup_insert_eq | done]].
  apply keeps_frame; try done.
  - intros _. apply save_job_wf. by eapply wf_jobs.
  - intros k x Hx Hns. cbn. destruct (decide (k = j_id j)) as [->|Hk]; [congruence|]. by rewrite lookup_insert_ne.
  - intros k x. cbn. destruct (decide (k = j_id j)) as [->|Hk].
    + rewrite lookup_insert_eq. intros [= <-]. by exists j.
    + rewrite lookup_insert_ne by done. by exists x.
  - intros _ t row Ht Hno. exists row. cbn. pose proof (HT t row Ht) as HT'. cbn in HT'.
    rewrite HT', decide_False; [done|].
    intros [E _]. apply Hno. rewrite E. by exists j.
  - intros t row'. cbn. intros Ht. destruct (tasks d !! t) as [row|] eqn:E.
    + exists row. split; [done|]. pose proof (HT t row E) as HT'. cbn in HT'. rewrite Ht in HT'. injection HT' as ->.
      by case_decide.
    + rewrite Hout in Ht; [congruence|]. intros (t0 & Et & Hin)%list_elem_of_fmap.
      apply list_elem_of_filter in Hin as [_ Hin]. apply elem_of_job_tasks in Hin as [Hin _]; [|done]. congruence.
Qed.

Lemma keeps_delete_results j d : jobs d !! j_id j = Some j -> j_scan j = Some i ->
  keeps i d (Job.delete_inspect_results j None d).
Proof.
  intros Hj Hs. split; cbn; try done.
  - intros [WT WJ]. by split.
  - eauto.
  - eauto.
  - eauto.
  - intros W r g gr Hr Hg Hp.
    assert (Job.exclusive_groupb (j_id j) None d gr = false) as Hx.
    { apply not_true_is_false. rewrite exclusive_groupb_spec. intros [(t & Ht & (row & Hrow & Ejob) & _) Hno].
      destruct Hp as [Hp|(r' & k & j' & Hr' & Hk & Hs' & Ej)].
      - eapply Hp; [done | exact Hrow |]. exists j. by rewrite Ejob.
      - apply Hno. exists r'. split; [done|]. exists k, j'. split; [done|]. split; [|done]. intros ->. congruence. }
    assert (results (Job.delete_inspect_results j None d) !! r = Some g) as Hr'.
    { rewrite (delete_results_spec j None d r g gr Hr Hg). rewrite decide_False; [done|]. by rewrite Hx. }
    split; [exact Hr'|]. exists gr. split; [|by eapply (protected_next i d d); eauto].
    apply map_lookup_filter_Some. split; [done|]. cbn. apply list_elem_of_fmap. exists (r, g). split; [done|].
    by apply elem_of_map_to_list.
Qed.

Lemma keeps_delete_tasks j d : jobs d !! j_id j = Some j -> j_scan j = Some i ->
  keeps i d (Job.delete_tasks j d) /\
  (wf_db d -> forall t row, tasks (Job.delete_tasks j d) !! t = Some row -> t_job row <> j_id j).
Proof.
  intros Hj Hs. split; [split; cbn; try done|].
  - intros [WT WJ]. split; [|done]. cbn. intros k t [Ht _]%map_lookup_filter_Some. by apply WT.
  - eauto.
  - intros W t row Ht Hno. exists row. split; [|done]. apply map_lookup_filter_Some. split; [done|]. cbn.
    intros (x & -> & Hx)%list_elem_of_fmap. apply elem_of_job_tasks in Hx as [Hx Ej]; [|done].
    rewrite Ht in Hx. injection Hx as ->. apply Hno. rewrite Ej. by exists j.
  - intros t row [Ht _]%map_lookup_filter_Some. by exists row.
  - intros W r g gr Hr Hg Hp. split; [done|]. eexists. split; [by rewrite lookup_fmap, Hg|].
    eapply (protected_next i d _ gr); [| | | | |exact Hp]; cbn; [done | eauto | | |done].
    + intros t row [Ht _]%map_lookup_filter_Some. by exists row.
    + intros t Ht. by apply elem_of_filter in Ht as [_ Ht].
  - intros W t row [Ht Hno]%map_lookup_filter_Some Ej. apply Hno. cbn. apply list_elem_of_fmap. exists row.
    destruct (wd_tasks _ W t row Ht) as [<- _]. split; [done|]. by apply elem_of_job_tasks.
Qed.

Lemma keeps_delete_conns jc d : keeps i d (Job.delete_task_conns jc d) /\
  (forall t row', tasks (Job.delete_task_conns jc d) !! t = Some row' -> exists row, tasks d !! t = Some row /\ t_job row' = t_job row).
Proof.
  unfold Job.delete_task_conns. set (f := fun t : task => _).
  assert (forall t, t_id (f t) = t_id t /\ t_job (f t) = t_job t /\ t_status (f t) = t_status t) as Hf
    by (intros t; unfold f; by repeat case_match).
  assert (forall t row', (f <$> tasks d) !! t = Some row' -> exists row, tasks d !! t = Some row /\ t_job row' = t_job row) as HB.
  { intros t row'. rewrite lookup_fmap. destruct (tasks d !! t) as [row|]; cbn; [|done]. intros [= <-].
    exists row. split; [done | apply Hf]. }
  split; [|exact HB]. apply keeps_frame; try done.
  - intros [WT WJ]. split; [|done]. cbn. intros k t. rewrite lookup_fmap. destruct (tasks d !! k) as [row|] eqn:E; cbn; [|done].
    intros [= <-]. destruct (Hf row) as [-> _]. by apply WT.
  - eauto.
  - intros _ t row Ht _. exists (f row). cbn. rewrite lookup_fmap, Ht. split; [done|]. split; apply Hf.
Qed.

Lemma keeps_delete_job j d : jobs d !! j_id j = Some j -> j_scan j = Some i ->
  keeps i d (delete_job j d) /\ jobs (delete_job j d) = delete (j_id j) (jobs d).
Proof.
  intros Hj Hs. split; [|done]. destruct (keeps_delete_tasks j d Hj Hs) as [K _].
  eapply keeps_trans; [exact K|]. unfold delete_job. set (d1 := Job.delete_tasks j d).
  assert (forall k x, delete (j_id j) (jobs d1) !! k = Some x -> jobs d1 !! k = Some x) as Hdel.
  { intros k x. rewrite lookup_delete_Some. tauto. }
  split; cbn.
  - intros [WT WJ]. split; [exact WT|]. cbn. intros k x Hx%Hdel. by apply WJ.
  - intros k x Hx Hn. apply lookup_delete_Some. split; [|done]. change (jobs d !! k = Some x) in Hx. intros <-. congruence.
  - intros k x Hx%Hdel. by exists x.
  - eauto.
  - eauto.
  - intros k _. by rewrite lookup_fmap, fmap_is_Some.
  - intros W r g gr Hr Hg Hp. split; [done|]. exists gr. split; [done|].
    eapply (protected_next i d1); [| | | | |exact Hp]; cbn; [| |eauto|done|done].
    + intros k x Hx Hn. apply lookup_delete_Some. split; [|done]. change (jobs d !! k = Some x) in Hx. intros <-. congruence.
    + intros k x Hx%Hdel. by exists x.
Qed.

(** Destroying a job: it and its tasks are gone, the other jobs are as they were. *)
Lemma keeps_destroy_job j d : wf_db d -> jobs d !! j_id j = Some j -> j_scan j = Some i ->
  keeps i d (destroy_job d j) /\ jobs (destroy_job d j) = delete (j_id j) (jobs d) /\
  (forall t row, tasks (destroy_job d j) !! t = Some row -> t_job row <> j_id j).
Proof.
  intros W Hj Hs. unfold destroy_job. set (d1 := Job.delete_inspect_results j None d).
  pose proof (keeps_delete_results j d Hj Hs) as K1. fold d1 in K1.
  assert (wf_db d1) as W1 by (by apply K1). assert (jobs d1 !! j_id j = Some j) as Hj1 by done.
  destruct (keeps_delete_tasks j d1 Hj1 Hs) as [K2 T2]. specialize (T2 W1). set (d2 := Job.delete_tasks j d1) in *.
  set (d3 := match j_conn j with Some jc => _ | None => d2 end).
  assert (keeps i d2 d3 /\ jobs d3 = jobs d2 /\
    (forall t row', tasks d3 !! t = Some row' -> exists row, tasks d2 !! t = Some row /\ t_job row' = t_job row)) as (K3 & J3 & T3).
  { unfold d3. destruct (j_conn j) as [jc|]; [|split; [apply keeps_refl | split; [done | eauto]]].
    destruct (keeps_delete_conns jc d2) as [K T]. by split. }
  assert (jobs d3 !! j_id j = Some j) as Hj3 by (by rewrite J3).
  destruct (keeps_delete_job j d3 Hj3 Hs) as [K4 J4]. split; [|split].
  - eapply keeps_trans; [exact K1|]. eapply keeps_trans; [exact K2|]. by eapply keeps_trans.
  - by rewrite J4, J3.
  - intros t row Ht. destruct (ke_tasks_back _ _ _ K4 t row Ht) as (row3 & Ht3 & ->).
    destruct (T3 t row3 Ht3) as (row2 & Ht2 & ->). by eapply T2.
Qed.

(** The jobs of a list, each still as it was read. *)
Definition current (d : db) (l : list job) : Prop :=
  NoDup (j_id <$> l) /\ Forall (fun j => jobs d !! j_id j = Some j /\ j_scan j = Some i) l.

Lemma current_next d d' j l : current d (j :: l) ->
  (forall k, k <> j_id j -> jobs d' !! k = jobs d !! k) -> current d' l.
Proof.
  intros [Hn Hl] H. apply NoDup_cons in Hn as [Hj Hn]. apply Forall_cons in Hl as [_ Hl]. split; [done|].
  apply Forall_forall. intros x Hx. pose proof (proj1 (Forall_forall _ _) Hl x Hx) as [Hx1 Hx2].
  split; [|done]. rewrite H; [done|]. intros E. apply Hj. rewrite <-E. apply list_elem_of_fmap. by exists x.
Qed.

Lemma destroy_jobs_spec l d : wf_db d -> current d l ->
  let d' := foldl destroy_job d l in
  keeps i d d' /\ (forall k, jobs d' !! k = if decide (k ∈ (j_id <$> l)) then None else jobs d !! k) /\
  (forall t row, tasks d' !! t = Some row -> t_job row ∉ (j_id <$> l)).
Proof.
  revert d. induction l as [|j l IH]; intros d W C; cbn zeta.
  { split; [apply keeps_refl|]. split; [done|]. by intros t row _ ?%elem_of_nil. }
  pose proof (proj1 (Forall_cons _ _ _) (proj2 C)) as [[Hj Hs] _]. cbn [foldl].
  destruct (keeps_destroy_job j d W Hj Hs) as (K1 & J1 & T1).
  destruct (IH (destroy_job d j)) as (K2 & J2 & T2); [by apply K1| |].
  { eapply current_next; [exact C|]. intros k Hk. rewrite J1. by rewrite lookup_delete_ne. }
  cbn zeta in *. split; [by eapply keeps_trans|]. split.
  - intros k. rewrite J2, J1. cbn [fmap list_fmap]. destruct (decide (k = j_id j)) as [->|Hk].
    + rewrite lookup_delete_eq. rewrite (decide_True (P := j_id j ∈ j_id j :: _)) by left. by case_decide.
    + rewrite lookup_delete_ne by done. repeat case_decide; try done; exfalso; set_solver.
  - intros t row Ht. cbn [fmap list_fmap]. rewrite not_elem_of_cons. split; [|by eapply T2].
    destruct (ke_tasks_back _ _ _ K2 t row Ht) as (row1 & Ht1 & ->). by eapply T1.
Qed.

(** Cancelling a list of unfinished jobs, twice each, as view and handler do. *)
Lemma cancel_job_spec now j w : wf_db (database w) -> jobs (database w) !! j_id j = Some j -> j_scan j = Some i ->
  ~ finished j ->
  let w' := cancel_job now w j in
  keeps i (database w) (database w') /\ (forall k, k <> j_id j -> jobs (database w') !! k = jobs (database w) !! k) /\
  (forall k, is_Some (jobs (database w') !! k) <-> is_Some (jobs (database w) !! k)) /\
  cache w' = cache w /\ revoked w ⊆ revoked w' /\ (forall cid, cache w !! j_id j = Some cid -> cid ∈ revoked w').
Proof.
  intros W Hj Hs Hf. unfold finished in Hf. rewrite !elem_of_cons in Hf. unfold cancel_job.
  destruct (keeps_cancel now j (database w) W Hj Hs) as (j1 & d1 & -> & K1 & O1 & J1 & I1 & S1 & St1); [tauto..|].
  rewrite <-I1 in J1. unfold scan_cancel, scan_action, kill, ScanFlow.kill. cbn [database cache revoked].
  destruct (keeps_cancel now j1 d1) as (j2 & d2 & -> & K2 & O2 & J2 & I2 & S2 & St2);
    [by apply K1 | done | done | by rewrite St1 | by rewrite St1 |].
  cbn [database cache revoked snd]. split; [by eapply keeps_trans|]. rewrite I1 in *.
  split; [intros k Hk; by rewrite O2, O1|]. split.
  - intros k. destruct (decide (k = j_id j)) as [->|Hk]; [|by rewrite O2, O1]. rewrite J2, Hj. done.
  - split; [done|]. destruct (cache w !! j_id j); [|done]. split; [set_solver|]. intros cid [= <-]. set_solver.
Qed.

Lemma cancel_jobs_spec now l w : wf_db (database w) -> current (database w) l -> Forall (fun j => ~ finished j) l ->
  let w' := foldl (cancel_job now) w l in
  keeps i (database w) (database w') /\ (forall k, is_Some (jobs (database w') !! k) <-> is_Some (jobs (database w) !! k)) /\
  revoked w ⊆ revoked w' /\
  (forall j cid, j ∈ l -> cache w !! j_id j = Some cid -> cid ∈ revoked w').
Proof.
  revert w. induction l as [|j l IH]; intros w W C F; cbn zeta.
  { split; [apply keeps_refl|]. split; [done|]. split; [done|]. by intros j cid ?%elem_of_nil. }
  apply Forall_cons in F as [Fj F]. pose proof (proj1 (Forall_cons _ _ _) (proj2 C)) as [[Hj Hs] _]. cbn [foldl].
  destruct (cancel_job_spec now j w W Hj Hs Fj) as (K1 & O1 & D1 & C1 & R1 & V1). cbn zeta in *.
  destruct (IH (cancel_job now w j)) as (K2 & D2 & R2 & V2); [by apply K1 | by eapply current_next | done |]. cbn zeta in *.
  split; [by eapply keeps_trans|]. split; [intros k; by rewrite D2, D1|]. split; [set_solver|].
  intros x cid [->|Hx]%elem_of_cons Hc; [by apply R2, V1|]. apply (V2 x cid Hx). by rewrite C1.
Qed.
End deletion.

Lemma elem_of_scan_jobs i d j : wf_db d -> j ∈ scan_jobs i d <-> jobs d !! j_id j = Some j /\ j_scan j = Some i.
Proof.
  intros W. unfold scan_jobs. rewrite merge_sort_Permutation, list_elem_of_filter. split.
  - intros [Hs ([k x] & -> & Hin)%list_elem_of_fmap]. apply elem_of_map_to_list in Hin. cbn in *.
    by rewrite (wd_jobs _ W k x Hin).
  - intros [Hj Hs]. split; [done|]. apply list_elem_of_fmap. exists (j_id j, j). split; [done|]. by apply elem_of_map_to_list.
Qed.

Lemma scan_jobs_current i d : wf_db d -> current i d (scan_jobs i d).
Proof.
  intros W. split; [|apply Forall_forall; intros j Hj; by apply elem_of_scan_jobs].
  unfold scan_jobs. rewrite merge_sort_Permutation. eapply sublist_NoDup; [|apply fmap_sublist, sublist_filter].
  assert (j_id <$> (map_to_list (jobs d)).*2 = (map_to_list (jobs d)).*1) as ->; [|apply NoDup_fst_map_to_list].
  rewrite <-list_fmap_compose. apply list_fmap_ext. intros n [k x] Hin. apply list_elem_of_lookup_2, elem_of_map_to_list in Hin.
  cbn. by apply (wd_jobs _ W).
Qed.

Lemma scan_job_ids i d k : wf_db d -> k ∈ (j_id <$> scan_jobs i d) <-> of_scan i d k.
Proof.
  intros W. rewrite list_elem_of_fmap. split.
  - intros (j & -> & [? ?]%elem_of_scan_jobs); [by exists j | done].
  - intros (j & Hj & Hs). pose proof (wd_jobs _ W k j Hj) as E. exists j. split; [done|].
    apply elem_of_scan_jobs; [done|]. by rewrite E.
Qed.

Lemma current_filter i d l p `{forall j, Decision (p j)} : current i d l -> current i d (filter p l).
Proof.
  intros [Hn Hl]. split; [eapply sublist_NoDup; [exact Hn|]; apply fmap_sublist, sublist_filter|].
  apply Forall_forall. intros j [_ Hj]%list_elem_of_filter. by apply (proj1 (Forall_forall _ _) Hl).
Qed.

(** ** Properties *)

(** [C31] Deleting a scan.  The scan, its jobs and all their tasks are gone, and every
    job of it that was not finished has its Celery task revoked; other scans, their
    jobs and the tasks of other jobs stay as they are; and a result is kept when its
    group was filled by none of the deleted tasks or is in the report of another
    scan's job. *)
Theorem destroy_scan_spec now w i : wf_db (database w) ->
  let d := database w in let w' := _destroy_scan now w i in let d' := database w' in
  scans d' !! i = None /\ (forall k, k <> i -> is_Some (scans d' !! k) <-> is_Some (scans d !! k)) /\
  (forall k, jobs d' !! k = match jobs d !! k with
                            | Some j => if decide (j_scan j = Some i) then None else Some j
                            | None => None
                            end) /\
  (forall t row, tasks d' !! t = Some row -> ~ of_scan i d (t_job row)) /\
  (forall t row, tasks d !! t = Some row -> ~ of_scan i d (t_job row) ->
     exists row', tasks d' !! t = Some row' /\ t_job row' = t_job row /\ t_status row' = t_status row) /\
  (forall j cid, jobs d !! j_id j = Some j -> j_scan j = Some i -> ~ finished j ->
     cache w !! j_id j = Some cid -> cid ∈ revoked w') /\
  (forall r g gr, results d !! r = Some g -> groups d !! g = Some gr -> protected i d gr -> results d' !! r = Some g).
Proof.
  intros W. cbn zeta. unfold _destroy_scan. set (d := database w) in *.
  pose proof (current_filter i d _ (fun j => ~ finished j) (scan_jobs_current i d W)) as C1.
  set (l := filter _ (scan_jobs i d)) in *.
  destruct (cancel_jobs_spec i now l w W C1) as (K1 & D1 & _ & V1).
  { apply Forall_forall. by intros j [Hf _]%list_elem_of_filter. }
  set (w1 := foldl (cancel_job now) w l) in *. assert (wf_db (database w1)) as W1 by (by apply K1). cbn zeta in *.
  destruct (destroy_jobs_spec i (scan_jobs i (database w1)) (database w1) W1 (scan_jobs_current i _ W1)) as (K2 & J2 & T2).
  cbn zeta in *. set (d2 := foldl destroy_job _ _) in *. pose proof (keeps_trans _ _ _ _ K1 K2) as K.
  pose proof (fun k => scan_job_ids i (database w1) k W1) as Hids.
  cbn [database revoked]. split; [cbn; by rewrite lookup_delete_eq|]. split; [|split; [|split; [|split; [|split]]]].
  - intros k Hk. cbn. rewrite lookup_delete_ne by done. symmetry. by apply K.
  - intros k. cbn. rewrite lookup_fmap. destruct (jobs d !! k) as [j|] eqn:Ej; cbn.
    + destruct (decide (j_scan j = Some i)) as [Hs|Hs].
      * assert (jobs d2 !! k = None) as ->; [|done].
        rewrite J2. apply decide_True. apply Hids. destruct (proj2 (D1 k)) as [j' Hj']; [by eexists|].
        exists j'. split; [done|]. destruct (ke_back _ _ _ K1 k j' Hj') as (j0 & Hj0 & <-). pose proof (eq_trans (eq_sym Ej) Hj0) as [= <-]; exact Hs.
      * rewrite (ke_jobs _ _ _ K k j Ej Hs). cbn. by rewrite bool_decide_eq_false_2.
    + destruct (jobs d2 !! k) as [j|] eqn:E2; [|done]. destruct (ke_back _ _ _ K k j E2) as (j0 & Hj0 & _).
      pose proof (eq_trans (eq_sym Ej) Hj0) as [=].
  - intros t row Ht Ho. cbn in Ht. apply (T2 t row Ht). apply Hids.
    destruct Ho as (j & Hj & Hs). destruct (proj2 (D1 (t_job row))) as [j' Hj']; [by eexists|].
    exists j'. split; [done|]. destruct (ke_back _ _ _ K1 _ j' Hj') as (j0 & Hj0 & <-). pose proof (eq_trans (eq_sym Hj) Hj0) as [= <-]; exact Hs.
  - intros t row Ht Ho. exact (ke_tasks _ _ _ K W t row Ht Ho).
  - intros j cid Hj Hs Hf Hc. apply (V1 j cid); [|done]. apply list_elem_of_filter. split; [done|].
    by apply elem_of_scan_jobs.
  - intros r g gr Hr Hg Hp. exact (proj1 (ke_results _ _ _ K W r g gr Hr Hg Hp)).
Qed.

(** A scan with a running job, whose result is also in the report of another scan's
    job. *)
Definition doomed_db : db :=
  mkdb {[ 1 := Job.set_status RUNNING SJ_RUNNING (mkjob 1 INSPECT RUNNING "" None None (Some 70) None None);
          2 := mkjob 2 INSPECT COMPLETED "" None None (Some 71) None (Some 50) ]}
    {[ 20 := inspect_task 1 20 0 10 19 ]} ∅ ∅
    {[ 70 := mkscan INSPECT [] (Some 1); 71 := mkscan INSPECT [] (Some 2) ]} ∅ ∅ ∅
    {[ 30 := mkgroup {[ 20 ]} {[ 50 ]}; 31 := mkgroup {[ 20 ]} ∅ ]} {[ 40 := 30; 41 := 31 ]} {[ 50 := None ]} ∅ 100.
Definition doomed_world : world := mkworld doomed_db {[ 1 := "celery-1" ]} ∅.

Lemma doomed_db_wf : wf_db doomed_db.
Proof.
  split; cbn.
  - intros i t. rewrite lookup_singleton_Some. intros [<- <-]. done.
  - intros i j. rewrite !lookup_insert_Some, lookup_singleton_Some. naive_solver.
Defined.

Lemma destroy_scan_spec_witness :
  let w' := _destroy_scan 9 doomed_world 70 in
  wf_db doomed_db /\ scans (database w') !! 70 = None /\ "celery-1" ∈ revoked w' /\
  map_to_list (results (database w')) = [(40, 30)].
Proof.
  cbn zeta. destruct (destroy_scan_spec 9 doomed_world 70 doomed_db_wf) as (H1 & _ & _ & _ & _ & H6 & _).
  split; [exact doomed_db_wf|]. split; [exact H1|]. split; [|vm_compute; reflexivity].
  apply (H6 (Job.set_status RUNNING SJ_RUNNING (mkjob 1 INSPECT RUNNING "" None None (Some 70) None None)) "celery-1");
    [reflexivity | reflexivity | by_compute | reflexivity].
Defined.
