(* ===== verification/JobApi.v ===== *)
(** Scan jobs through the REST API: what [api/scanjob/view_v1.py] and
    [api/scanjob/serializer_v1.py] do with a job, and the counts of
    [api/scanjob/queryset.py].

    Jobs, tasks and the revocation are those of [ScanModel] and [ScanDeletion].  A row
    of [SystemConnectionResult] names its [TaskConnectionResult]; in what order the
    database sorts rows, and pages, are external. *)
From stdpp Require Import base gmap sets list strings.
From Stdlib Require Import ZArith Lia.
From S2P Require Import Prelude PyStr PyNum PyVal ApiCommon NetworkConnect ScanModel ScanFlow ScanDeletion.

Open Scope string_scope.
Open Scope Z_scope.

Definition Http404 : exn := OtherException "Http404".
Definition FieldError : exn := OtherException "FieldError".
Definition COMMON_ID_INV : string := "The id must be an integer.".
Definition NO_CANCEL : string := "Scan cannot be canceled. The scan has already finished or been canceled.".
Definition QUERY_PARAM_INVALID (param valid : string) : string :=
  "Invalid value for for query parameter " +:+ param +:+ ". Valid inputs are " +:+ valid +:+ ".".

(** ** Counts *)

(** [ScanJobQuerySet.with_counts]: each sum over the tasks of the job's own type. *)
Definition sum_column (column : stats -> Z) (self : job) (d : ScanModel.db) : Z :=
  foldr (fun t n => if bool_decide (t_scan_type t = j_scan_type self) then column (t_stats t) + n else n) 0
    (job_tasks (j_id self) d).

Definition with_counts (self : job) (d : ScanModel.db) : stats :=
  mkstats (sum_column systems_count self d) (sum_column systems_scanned self d) (sum_column systems_failed self d)
    (sum_column systems_unreachable self d).

Definition opt_int (z : option Z) : pyval := match z with Some i => VInt i | None => VNone end.

(** The counts that [expand_scanjob] puts into the JSON of a job with tasks. *)
Definition expand_counts (self : job) (d : ScanModel.db) (json_scan : pydict) : Res pydict :=
  if negb (truthy (dget_none "tasks" json_scan)) then Ok json_scan
  else
    counts ← Job.calculate_counts self d;
    let value (f : stats * Z -> Z) := opt_int (f <$> counts) in
    let json_scan := dset "systems_count" (value (fun c => systems_count c.1)) json_scan in
    let json_scan := dset "systems_scanned" (value (fun c => systems_scanned c.1)) json_scan in
    let json_scan := dset "systems_failed" (value (fun c => systems_failed c.1)) json_scan in
    let json_scan := dset "systems_unreachable" (value (fun c => systems_unreachable c.1)) json_scan in
    let fingerprints := value snd in
    let json_scan := dset "system_fingerprint_count" fingerprints json_scan in
    tasks ← py_iter (dget_none "tasks" json_scan);
    tasks ← mapM (fun task_json =>
      t ← as_dict "__getitem__" task_json; type ← dget_exn "scan_type" t;
      Ok (VDict (if py_eq type (VStr "fingerprint") then dset "system_fingerprint_count" fingerprints t else t))) tasks;
    Ok (dset "tasks" (VList tasks) json_scan).

(** ** Cancelling *)

(** [get_object_or_404(self.queryset, pk=pk)] *)
Definition get_object_or_404 (pk : pyval) (w : world) : Res job :=
  match convert_to_int pk with
  | None => Err ValueError
  | Some i => from_option Http404 (jobs (database w) !! i)
  end.

(** The job is killed before its state is changed; both change it. *)
Definition cancel (now : Z) (pk : pyval) (w : world) : world * Res Z :=
  if negb (truthy pk) || negb (is_int pk) then (w, Err (ValidationError [("id", [COMMON_ID_INV])]))
  else match get_object_or_404 pk w with
  | Err e => (w, Err e)
  | Ok scan =>
      if bool_decide (j_status scan ∈ [COMPLETED; FAILED; CANCELED]) then (w, Ok 400)
      else
        let '(_, w') := ScanDeletion.kill now scan w in
        let scan := (ScanFlow.kill (cache w) now scan (database w)).1.2 in
        let '(_, _, d) := Job.status_cancel now scan (database w') in
        (mkworld d (cache w') (revoked w'), Ok 200)
  end.

(** ** Results *)

Record query := mkquery { q_ordering : option string; q_status : option string; q_source_id : option string }.

Definition given (v : option string) : bool := match v with None | Some "" => false | Some _ => true end.
Definition among (valid : list string) (v : option string) : bool :=
  match v with Some s => bool_decide (s ∈ valid) | None => false end.

Definition valid_ordering_filters : list string := ["name"; "status"; "-name"; "-status"].
Definition valid_status_filters : list string := ["success"; "failed"; "unreachable"].

Definition param_error (param : string) (valid : string) : exn :=
  invalid_field "detail" (QUERY_PARAM_INVALID param valid).

Definition handle_result_filters (q : query) : Res (string * option string * option string) :=
  let ordering_filter := default "status" (q_ordering q) in
  if negb (bool_decide (ordering_filter = "")) && negb (bool_decide (ordering_filter ∈ valid_ordering_filters))
  then Err (param_error "ordering" (str_join ", " valid_ordering_filters))
  else if given (q_status q) && negb (among valid_status_filters (q_status q))
  then Err (param_error "status" (str_join ", " valid_status_filters))
  else if given (q_source_id q) && negb (is_int (VStr (default "" (q_source_id q))))
  then Err (param_error "source_id" "source identifiers")
  else Ok (ordering_filter, q_status q, q_source_id q).

Record system_row := mksystem { sy_task_result : Z; sy_source : option Z; sy_result : conn_result }.

Definition status_name (s : conn_status) : string :=
  match s with SUCCESS => "success" | CONN_FAILED => "failed" | UNREACHABLE => "unreachable" end.

Section results.
(** [order_by]; the rows of [Source] (name and type) and [Credential] (name). *)
Context (order_by : string -> list system_row -> list system_row).
Context (sources : gmap Z (string * string)) (credentials : gmap Z string).
(** The page of the request. *)
Context (page : list system_row -> option (list system_row)).

Definition matches (status_filter source_id_filter : option string) (r : system_row) : bool :=
  (if given status_filter then bool_decide (status_filter = Some (status_name (r_status (sy_result r)))) else true) &&
  (if given source_id_filter
   then bool_decide (sy_source r = (source_id_filter ≫= fun s => convert_to_int (VStr s))) else true).

(** The results of the job that the filters let through. *)
Definition connection_results (q : query) (scan_job : job) (d : ScanModel.db) (systems : list system_row) :
    Res (list system_row) :=
  '(ordering_filter, status_filter, source_id_filter) ← handle_result_filters q;
  match j_conn scan_job with
  | None => Err (AttributeError "task_results")
  | Some c =>
      let all_tasks := dom (filter (fun p : Z * Z => p.2 = c) (task_conns d)) in
      if bool_decide (all_tasks = ∅) then Err (AttributeError "order_by")
      else if bool_decide (ordering_filter = "") then Err FieldError
      else Ok (List.filter (matches status_filter source_id_filter)
                 (order_by ordering_filter (List.filter (fun r => bool_decide (sy_task_result r ∈ all_tasks)) systems)))
  end.

(** [expand_source] and [expand_system_connection] of a serialized row; the serializer
    keeps an empty source and leaves out an empty credential. *)
Definition expand_source (system : pydict) : pydict :=
  match dget "source" system with
  | None => system
  | Some VNone => dset "source" (VStr "deleted") system
  | Some v =>
      dset "source" (match convert_to_int v ≫= fun i => (fun s => (i, s)) <$> sources !! i with
                     | Some (i, (name, type)) => VDict [("id", VInt i); ("name", VStr name); ("source_type", VStr type)]
                     | None => VNone
                     end) system
  end.

Definition expand_system_connection (system : pydict) : pydict :=
  let system := expand_source system in
  match dget "credential" system with
  | None => system
  | Some v =>
      dset "credential" (match convert_to_int v ≫= fun i => (fun s => (i, s)) <$> credentials !! i with
                         | Some (i, name) => VDict [("id", VInt i); ("name", VStr name)]
                         | None => VNone
                         end) system
  end.

Definition SystemConnectionResultSerializer (r : system_row) : pydict :=
  not_empty ["value"; "source"]
    [("name", VStr (r_name (sy_result r))); ("status", VStr (status_name (r_status (sy_result r))));
     ("source", opt_int (sy_source r)); ("credential", opt_int (r_credential (sy_result r)))].

(** The answer: a status and the systems of the page. *)
Definition connection (q : query) (pk : pyval) (w : world) (systems : list system_row) : Res (Z * list pydict) :=
  _ ← handle_result_filters q;
  match get_object_or_404 pk w with
  | Err ValueError => Ok (400, [])
  | Err e => Err e
  | Ok scan_job =>
      rows ← connection_results q scan_job (database w) systems;
      Ok (match page rows with
          | Some rows => (200, (fun r => expand_system_connection (SystemConnectionResultSerializer r)) <$> rows)
          | None => (404, [])
          end)
  end.
End results.

(** ** Lemmas *)

(** Both versions of the API count the same systems. *)
Lemma with_counts_agree self d : with_counts self d = Job._calculate_counts self d.
Proof.
  unfold with_counts, sum_column, Job._calculate_counts. induction (job_tasks (j_id self) d) as [|t l IH]; [done|].
  cbn [foldr]. rewrite filter_cons. case_bool_decide as E.
  - rewrite decide_True, fmap_cons by done. unfold Job.sum_stats in *. cbn [foldr]. rewrite <-IH. done.
  - rewrite decide_False by done. done.
Qed.

(** What becomes of the tasks of a job that is cancelled. *)
Definition tasks_cancelled (i : Z) (d d' : ScanModel.db) : Prop := forall k t, tasks d !! k = Some t ->
  exists t', tasks d' !! k = Some t' /\ t_job t' = t_job t /\
    (t_job t = i -> terminal (t_status t) = false -> t_status t' = CANCELED) /\
    (t_job t <> i \/ terminal (t_status t) = true -> t' = t).

Lemma tasks_cancelled_trans i d1 d2 d3 : tasks_cancelled i d1 d2 -> tasks_cancelled i d2 d3 -> tasks_cancelled i d1 d3.
Proof.
  intros H1 H2 k t Ht. destruct (H1 k t Ht) as (t1 & Ht1 & E1 & F1 & K1).
  destruct (H2 k t1 Ht1) as (t2 & Ht2 & E2 & F2 & K2). exists t2. split; [done|]. split; [congruence|].
  split.
  { intros E Hu. specialize (F1 E Hu). rewrite K2; [done|]. right. by rewrite F1. }
  intros [Hn|Hf].
  - rewrite K2, K1; auto. left. rewrite E1. done.
  - pose proof (K1 (or_intror Hf)) as ->. apply K2. by right.
Qed.

Lemma cancel_step now i j d : wf_db d -> jobs d !! i = Some j -> j_status j ∈ [CREATED; PENDING; RUNNING; PAUSED; CANCELED] ->
  exists j' d', Job.status_cancel now j d = (true, j', d') /\ wf_db d' /\ j_id j' = i /\ j_status j' = CANCELED /\
    jobs d' = <[i := j']> (jobs d) /\ tasks_cancelled i d d'.
Proof.
  intros W Hj Hs. pose proof (wd_jobs _ W _ _ Hj) as Hid.
  assert (Hv : Job.validate_status_change CANCELED [CREATED; PENDING; RUNNING; PAUSED] (Job.set_end (Some now) j) = false)
    by (unfold Job.validate_status_change; cbn; revert Hs; destruct (j_status j); intros Hs; try done;
        exfalso; revert Hs; by_compute).
  unfold Job.status_cancel, Job.change. rewrite Hv. do 2 eexists. split; [done|].
  cbn [j_id Job.set_end]. rewrite Hid.
  pose proof (each_job_task _ _ i Job.unfinished d (row_cancel now) W) as HT.
  pose proof (each_task_ok _ _ i Job.unfinished d (row_cancel now) W) as HO.
  assert (HJ : jobs (Job.each_task (Task.status_cancel now) (filter Job.unfinished (job_tasks i d)) d) = jobs d)
    by by apply each_task_jobs.
  split; [by apply save_job_wf, (wf_jobs d)|]. split; [done|]. split; [done|]. split.
  { cbn. by rewrite HJ, Hid. }
  intros k t Ht. pose proof (HT k t Ht) as HT'. eexists. split; [cbn; exact HT'|].
  pose proof (unfinished_terminal t) as Hu. case_decide as E.
  - cbn. split; [done|]. split; [done|]. destruct E as [E1 E2]. apply Hu in E2. intros [?|?]; [done | congruence].
  - split; [done|]. split; [|done]. intros Hi Et. destruct E. split; [done|]. by apply Hu.
Qed.

(** [C33] The cancel request of the V1 API: a job that has ended is refused and nothing
    changes; any other job becomes cancelled, each of its unfinished tasks with it, the
    finished ones and those of other jobs stay as they are, other jobs stay, and its Celery task, if it has
    one, is revoked. *)
Theorem cancel_spec now pk i j w : wf_db (database w) -> truthy pk = true -> is_int pk = true -> convert_to_int pk = Some i ->
  jobs (database w) !! i = Some j ->
  let '(w', r) := cancel now pk w in
  (j_status j ∈ [COMPLETED; FAILED; CANCELED] -> w' = w /\ r = Ok 400) /\
  (j_status j ∉ [COMPLETED; FAILED; CANCELED] ->
     r = Ok 200 /\ wf_db (database w') /\
     (exists j', jobs (database w') !! i = Some j' /\ j_status j' = CANCELED) /\
     (forall k, k <> i -> jobs (database w') !! k = jobs (database w) !! k) /\
     tasks_cancelled i (database w) (database w') /\
     cache w' = cache w /\ forall cid, cache w !! i = Some cid -> cid ∈ revoked w').
Proof.
  intros W Ht Hi Hc Hj. unfold cancel, get_object_or_404. rewrite Ht, Hi, Hc, Hj. cbn [negb orb from_option].
  pose proof (wd_jobs _ W _ _ Hj) as Hid. case_bool_decide as Hf.
  { split; [done|]. intros Hn. by exfalso; apply Hn. }
  assert (Hs : j_status j ∈ [CREATED; PENDING; RUNNING; PAUSED; CANCELED])
    by (revert Hf; destruct (j_status j); intros Hf; try by_compute; exfalso; apply Hf; by_compute).
  destruct (cancel_step now i j _ W Hj Hs) as (j1 & d1 & E1 & W1 & I1 & S1 & J1 & T1).
  unfold ScanDeletion.kill, ScanFlow.kill. rewrite E1. cbn [fst snd database cache revoked].
  destruct (cancel_step now i j1 d1 W1) as (j2 & d2 & E2 & W2 & I2 & S2 & J2 & T2);
    [by rewrite J1, lookup_insert_eq | rewrite S1; by_compute |].
  rewrite E2. cbn [database cache revoked]. split; [done|]. intros _. split; [done|]. split; [done|].
  split; [exists j2; by rewrite J2, lookup_insert_eq|]. split.
  { intros k Hk. by rewrite J2, J1, !lookup_insert_ne. }
  split; [by eapply tasks_cancelled_trans|]. split; [done|]. rewrite Hid. intros cid ->. set_solver.
Qed.

Lemma filter_list_perm {A} (p : A -> bool) l l' : l ≡ₚ l' -> List.filter p l ≡ₚ List.filter p l'.
Proof.
  induction 1 as [|x l l' _ IH|x y l|l1 l2 l3 _ IH1 _ IH2]; cbn; [done| | |by etrans].
  - destruct (p x); by rewrite IH.
  - destruct (p x), (p y); try done. apply perm_swap.
Qed.

Lemma filter_list_filter {A} (p q : A -> bool) l :
  List.filter p (List.filter q l) = List.filter (fun x => p x && q x) l.
Proof.
  induction l as [|x l IH]; [done|]. cbn. destruct (q x) eqn:Eq; cbn; rewrite ?Eq, IH; destruct (p x); done.
Qed.

Section listing.
Context (order_by : string -> list system_row -> list system_row) (Horder : forall k l, order_by k l ≡ₚ l).

(** The connection results of a job with at least one task result: each of its systems
    that the filters let through, once. *)
Lemma connection_results_spec q job d systems rows : connection_results order_by q job d systems = Ok rows ->
  exists c, j_conn job = Some c /\
    rows ≡ₚ List.filter (fun r => matches (q_status q) (q_source_id q) r &&
              bool_decide (task_conns d !! sy_task_result r = Some c)) systems.
Proof.
  unfold connection_results. intros ([[ord st] src] & Hq & H)%bind_Ok.
  assert (E : st = q_status q /\ src = q_source_id q).
  { unfold handle_result_filters in Hq. repeat (case_match; try done). injection Hq as <- <- <-. done. }
  destruct E as [-> ->]. destruct (j_conn job) as [c|]; [|done]. exists c. split; [done|].
  do 2 (case_bool_decide; [done|]). injection H as <-.
  rewrite (filter_list_perm _ _ _ (Horder ord _)), filter_list_filter.
  rewrite (filter_ext _ (fun r => matches (q_status q) (q_source_id q) r &&
    bool_decide (task_conns d !! sy_task_result r = Some c))); [done|].
  intros r. f_equal. apply bool_decide_ext. rewrite elem_of_dom. unfold is_Some.
  setoid_rewrite map_lookup_filter_Some. cbn. naive_solver.
Qed.
End listing.

(** ** Examples *)

Module Samples.
Definition running_job : job := Job.set_status RUNNING SJ_RUNNING sample_job.
Definition running_db : ScanModel.db := save_job running_job queued_db.
Definition running : world := mkworld running_db {[1 := "celery"]} ∅.

Lemma running_wf : wf_db running_db.
Proof. apply save_job_wf, queued_db_wf. Qed.

Lemma cancel_spec_witness :
  let '(w', r) := cancel 7 (VStr "1") running in
  r = Ok 200 /\ "celery" ∈ revoked w' /\ exists j', jobs (database w') !! 1 = Some j' /\ j_status j' = CANCELED.
Proof.
  pose proof (cancel_spec 7 (VStr "1") 1 running_job running running_wf eq_refl eq_refl eq_refl
    ltac:(apply lookup_insert_eq)) as H.
  destruct (cancel 7 (VStr "1") running) as [w' r]. destruct H as [_ H].
  destruct H as (Hr & _ & Hj & _ & _ & _ & Hrev); [by_compute|].
  split; [exact Hr|]. split; [apply Hrev, lookup_singleton_eq | exact Hj].
Defined.

(** Cancelling twice. *)
Example cancel_twice : (cancel 8 (VInt 1) (cancel 7 (VInt 1) running).1).2 = Ok 400.
Proof. by vm_compute. Qed.

Definition no_query : query := mkquery None None None.
Definition by_id (k : string) (l : list system_row) : list system_row := l.

(** A job without connection results, as one that was only created, and one whose
    tasks have none, as that of an upload: the request for them is a server error.  So
    is an empty ordering. *)
Example no_connection_results :
  connection by_id ∅ ∅ Some no_query (VInt 1) (mkworld sample_db ∅ ∅) [] = Err (AttributeError "task_results").
Proof. by vm_compute. Qed.
Definition upload_db : ScanModel.db :=
  save_job (mkjob 1 FINGERPRINT COMPLETED "" None None None (Some 5) (Some 6)) sample_db.
Example no_task_results :
  connection by_id ∅ ∅ Some no_query (VInt 1) (mkworld upload_db ∅ ∅) [] = Err (AttributeError "order_by").
Proof. by vm_compute. Qed.
Definition results_db : ScanModel.db := with_task_conns (fun _ => {[9 := 5]}) upload_db.
Example empty_ordering :
  connection by_id ∅ ∅ Some (mkquery (Some "") None None) (VInt 1) (mkworld results_db ∅ ∅) [] = Err FieldError.
Proof. by vm_compute. Qed.
Example listed :
  connection by_id {[3 := ("lab", "network")]} {[4 := "root"]} Some (mkquery None (Some "failed") None) (VInt 1)
    (mkworld results_db ∅ ∅)
    [mksystem 9 (Some 3) (mkresult "a" (Some 4) CONN_FAILED); mksystem 9 None (mkresult "b" None CONN_FAILED);
     mksystem 9 (Some 3) (mkresult "c" (Some 4) SUCCESS); mksystem 8 (Some 3) (mkresult "d" None CONN_FAILED)]
  = Ok (200, [[("name", VStr "a"); ("status", VStr "failed");
               ("source", VDict [("id", VInt 3); ("name", VStr "lab"); ("source_type", VStr "network")]);
               ("credential", VDict [("id", VInt 4); ("name", VStr "root")])];
              [("name", VStr "b"); ("status", VStr "failed"); ("source", VStr "deleted")]]).
Proof. by vm_compute. Qed.
End Samples.
