(* ===== verification/Csv.v ===== *)
(** Python's [csv.writer] in its default dialect, and a reader for it.

    The reports are written with [csv.writer(buffer, delimiter=",")]: fields are
    separated by commas, a row ends with CR LF, a field is quoted when it holds a
    comma, a quote or a line end, and quotes inside are doubled.  The reader is
    the state machine of [csv.reader] for the same dialect; it is the
    specification of the writer: reading back gives the rows written. *)
From stdpp Require Import base sets list strings.
From Stdlib Require Import Ascii ZArith Lia.
From S2P Require Import Prelude PyStr PyNum PyVal.

Open Scope string_scope.
#[global] Arguments String.append !s1 s2 / : simpl nomatch.

Definition comma : ascii := ",".
Definition quote : ascii := ascii_of_N 34.
Definition cr : ascii := ascii_of_N 13.
Definition lf : ascii := ascii_of_N 10.
Definition crlf : string := String cr (String lf "").

(** ** The writer *)

Definition needs_quote (c : ascii) : bool := bool_decide (c ∈ [comma; quote; cr; lf]).
Definition plain (s : string) : bool := str_forall (fun c => negb (needs_quote c)) s.

Fixpoint double_quotes (s : string) : string :=
  match s with
  | "" => ""
  | String c s =>
      if bool_decide (c = quote) then String quote (String quote (double_quotes s))
      else String c (double_quotes s)
  end.

Definition quoted (s : string) : string := String quote (double_quotes s +:+ String quote "").
Definition csv_field (s : string) : string := if plain s then s else quoted s.

(** The text of a cell: nothing for [None], [str(v)] otherwise. *)
Definition csv_cell (v : pyval) : string :=
  match v with VNone => "" | _ => py_str v end.

(** A row that would be written as nothing, but has a field, is written as an
    empty quoted field. *)
Definition csv_line (cells : list string) : string :=
  match cells with
  | [""] => quoted ""
  | _ => str_join (String comma "") (csv_field <$> cells)
  end +:+ crlf.

Definition writerow (buffer : string) (row : list pyval) : string :=
  buffer +:+ csv_line (csv_cell <$> row).

(** The texts of the cells of some rows. *)
Definition csv_cells (rows : list (list pyval)) : list (list string) :=
  (fun row : list pyval => csv_cell <$> row) <$> rows.

Definition writerows (buffer : string) (rows : list (list pyval)) : string :=
  foldl writerow buffer rows.

(** ** The reader *)

Inductive csv_mode : Type :=
| StartRecord | StartField | InField | InQuoted | QuoteInQuoted | EatNewline.

Record csv_state := mkcsv {
  mode : csv_mode;
  field : string;
  fields : list string;
  records : list (list string) }.

Definition csv_init : csv_state := mkcsv StartRecord "" [] [].

Definition set_mode (m : csv_mode) (st : csv_state) : csv_state :=
  mkcsv m (field st) (fields st) (records st).
Definition add_char (m : csv_mode) (c : ascii) (st : csv_state) : csv_state :=
  mkcsv m (field st +:+ String c "") (fields st) (records st).
Definition save_field (st : csv_state) : csv_state :=
  mkcsv StartField "" (fields st ++ [field st]) (records st).
Definition end_record (st : csv_state) : csv_state :=
  mkcsv EatNewline "" [] (records st ++ [fields st]).

Definition is_newline (c : ascii) : bool := bool_decide (c = cr) || bool_decide (c = lf).

(** What a character does at the start of a field. *)
Definition start_field (c : ascii) (st : csv_state) : csv_state :=
  if is_newline c then end_record (save_field st)
  else if bool_decide (c = quote) then set_mode InQuoted st
  else if bool_decide (c = comma) then save_field st
  else add_char InField c st.

Definition csv_step (st : csv_state) (c : ascii) : option csv_state :=
  match mode st with
  | StartRecord => Some (if is_newline c then end_record st else start_field c st)
  | StartField => Some (start_field c st)
  | InField =>
      Some (if is_newline c then end_record (save_field st)
            else if bool_decide (c = comma) then save_field st
            else add_char InField c st)
  | InQuoted =>
      Some (if bool_decide (c = quote) then set_mode QuoteInQuoted st else add_char InQuoted c st)
  | QuoteInQuoted =>
      Some (if bool_decide (c = quote) then add_char InQuoted c st
            else if bool_decide (c = comma) then save_field st
            else if is_newline c then end_record (save_field st)
            else add_char InField c st)
  | EatNewline =>
      if bool_decide (c = lf) then Some (set_mode StartRecord st)
      else if bool_decide (c = cr) then Some st else None
  end.

Fixpoint csv_run (st : csv_state) (s : string) : option csv_state :=
  match s with
  | "" => Some st
  | String c s => st' ← csv_step st c; csv_run st' s
  end.

(** At the end of the text an open record is completed; [None] is the reader's
    error on a character after a bare carriage return. *)
Definition csv_read (s : string) : option (list (list string)) :=
  st ← csv_run csv_init s;
  Some match mode st with
       | StartRecord | EatNewline => records st
       | _ => records (end_record (save_field st))
       end.

(** ** The round trip *)

Lemma csv_run_app st s t : csv_run st (s +:+ t) = (st' ← csv_run st s; csv_run st' t).
Proof.
  revert st. induction s as [|c s IH]; intros st; cbn; [done|].
  destruct (csv_step st c); cbn; [apply IH | done].
Qed.

Ltac csv_unfold :=
  cbn; unfold csv_step; cbn; unfold start_field, add_char, set_mode, save_field, end_record; cbn.

Lemma append_snoc s c t : (s +:+ String c "") +:+ t = s +:+ String c t.
Proof. by rewrite append_assoc. Qed.

Lemma run_in_field f fs rs s :
  plain s = true -> csv_run (mkcsv InField f fs rs) s = Some (mkcsv InField (f +:+ s) fs rs).
Proof.
  revert f. induction s as [|c s IH]; intros f; cbn; [by rewrite append_nil_r|].
  intros [Hc Hs]%andb_true_iff. csv_unfold. unfold is_newline, needs_quote in Hc |- *.
  apply negb_true_iff, bool_decide_eq_false in Hc.
  rewrite !bool_decide_false by set_solver. cbn.
  rewrite IH by done. by rewrite append_snoc.
Qed.

Lemma run_quoted f fs rs s :
  csv_run (mkcsv InQuoted f fs rs) (double_quotes s) = Some (mkcsv InQuoted (f +:+ s) fs rs).
Proof.
  revert f. induction s as [|c s IH]; intros f; cbn; [by rewrite append_nil_r|].
  destruct (decide (c = quote)) as [->|Hc].
  - change (csv_run (mkcsv InQuoted (f +:+ String quote "") fs rs) (double_quotes s)
            = Some (mkcsv InQuoted (f +:+ String quote s) fs rs)).
    rewrite IH. by rewrite append_snoc.
  - rewrite bool_decide_false by done. csv_unfold.
    rewrite bool_decide_false by done. cbn. rewrite IH. by rewrite append_snoc.
Qed.

(** The state after the text of a field: the field is complete, the next
    character decides what becomes of it. *)
Inductive field_read (s : string) (fs : list string) (rs : list (list string)) : csv_state -> Prop :=
| read_empty : s = "" -> field_read s fs rs (mkcsv StartField "" fs rs)
| read_plain : field_read s fs rs (mkcsv InField s fs rs)
| read_quoted : field_read s fs rs (mkcsv QuoteInQuoted s fs rs).

Lemma field_read_next s fs rs st :
  field_read s fs rs st ->
  csv_step st comma = Some (mkcsv StartField "" (fs ++ [s]) rs) /\
  csv_step st cr = Some (mkcsv EatNewline "" [] (rs ++ [fs ++ [s]]))%list.
Proof. by destruct 1; subst. Qed.

Lemma run_quoted_field fs rs s :
  csv_run (mkcsv StartField "" fs rs) (quoted s) = Some (mkcsv QuoteInQuoted s fs rs) /\
  csv_run (mkcsv StartRecord "" fs rs) (quoted s) = Some (mkcsv QuoteInQuoted s fs rs).
Proof.
  assert (csv_run (mkcsv InQuoted "" fs rs) (double_quotes s +:+ String quote "")
          = Some (mkcsv QuoteInQuoted s fs rs)) as H by by rewrite csv_run_app, run_quoted.
  split; exact H.
Qed.

Lemma run_field fs rs s :
  exists st, csv_run (mkcsv StartField "" fs rs) (csv_field s) = Some st /\ field_read s fs rs st.
Proof.
  unfold csv_field. destruct (plain s) eqn:Hp.
  - destruct s as [|c s]; [eexists; split; [done | by constructor]|].
    cbn in Hp. apply andb_true_iff in Hp as [Hc Hs]. csv_unfold.
    unfold is_newline, needs_quote in Hc |- *.
    apply negb_true_iff, bool_decide_eq_false in Hc.
    rewrite !bool_decide_false by set_solver. cbn.
    rewrite run_in_field by done. eexists. split; [done | constructor].
  - rewrite (proj1 (run_quoted_field fs rs s)). eexists. split; [done | constructor].
Qed.

(** A start of a record reads a field that writes something like any other start. *)
Lemma start_record_field fs rs c s :
  is_newline c = false ->
  csv_run (mkcsv StartRecord "" fs rs) (String c s) = csv_run (mkcsv StartField "" fs rs) (String c s).
Proof. intros H. cbn. unfold csv_step. cbn [mode]. by rewrite H. Qed.

Lemma run_fields fs rs l :
  l <> [] ->
  csv_run (mkcsv StartField "" fs rs) (str_join (String comma "") (csv_field <$> l) +:+ crlf)
  = Some (mkcsv StartRecord "" [] (rs ++ [fs ++ l]))%list.
Proof.
  revert fs. induction l as [|x l IH]; intros fs Hl; [done|]. clear Hl.
  destruct (run_field fs rs x) as (st & Hst & Hr).
  destruct (field_read_next _ _ _ _ Hr) as [Hcomma Hcr].
  destruct l as [|y l].
  - cbn [fmap list_fmap str_join]. rewrite csv_run_app, Hst. cbn [mbind option_bind crlf csv_run].
    rewrite Hcr. reflexivity.
  - rewrite fmap_cons, join_cons by done. rewrite append_assoc, csv_run_app, Hst.
    cbn [mbind option_bind]. rewrite append_assoc. cbn [String.append csv_run].
    rewrite Hcomma. cbn [mbind option_bind].
    rewrite (IH (fs ++ [x])%list) by done. by rewrite <- app_assoc.
Qed.

(** The first character of a written row is not a line end. *)
Lemma field_start s :
  s = "" \/ exists c t, csv_field s = String c t /\ is_newline c = false.
Proof.
  destruct s as [|c s]; [by left|]. right. unfold csv_field.
  destruct (plain (String c s)) eqn:Hp; [|by eexists _, _].
  cbn in Hp. apply andb_true_iff in Hp as [Hc _]. exists c, s. split; [done|].
  unfold is_newline, needs_quote in *. apply negb_true_iff, bool_decide_eq_false in Hc.
  by rewrite !bool_decide_false by set_solver.
Qed.

Lemma line_start x l :
  x :: l <> [""] ->
  exists c s, str_join (String comma "") (csv_field <$> x :: l) = String c s /\ is_newline c = false.
Proof.
  intros Hne. rewrite fmap_cons.
  destruct (field_start x) as [->|(c & t & Hx & Hc)]; destruct l as [|y l]; try done.
  - rewrite fmap_cons, join_cons by done. by eexists _, _.
  - rewrite Hx. by eexists _, _.
  - rewrite fmap_cons, join_cons, Hx by done. by eexists _, _.
Qed.

Lemma run_line rs cells :
  csv_run (mkcsv StartRecord "" [] rs) (csv_line cells)
  = Some (mkcsv StartRecord "" [] (rs ++ [cells]))%list.
Proof.
  destruct cells as [|x l]; [done|]. destruct (decide (x :: l = [""])) as [[= -> ->]|Hne].
  - unfold csv_line. rewrite csv_run_app, (proj2 (run_quoted_field [] rs "")). reflexivity.
  - replace (csv_line (x :: l))
      with (str_join (String comma "") (csv_field <$> x :: l) +:+ crlf)
      by (by unfold csv_line; destruct x, l).
    destruct (line_start x l Hne) as (c & s & Hs & Hc).
    pose proof (run_fields [] rs (x :: l) ltac:(done)) as Hrun.
    rewrite Hs in *. cbn [String.append] in *. by rewrite start_record_field.
Qed.

Lemma run_writerows rows : forall buffer rs,
  csv_run csv_init buffer = Some (mkcsv StartRecord "" [] rs) ->
  csv_run csv_init (writerows buffer rows)
  = Some (mkcsv StartRecord "" [] (rs ++ csv_cells rows))%list.
Proof.
  induction rows as [|r rows IH]; intros buffer rs Hb; cbn.
  - by rewrite app_nil_r.
  - erewrite IH.
    2:{ unfold writerow. rewrite csv_run_app, Hb. apply run_line. }
    by rewrite <- app_assoc.
Qed.

(** Reading what was written gives the text of the cells, whatever they hold. *)
Lemma csv_read_writerows rows : csv_read (writerows "" rows) = Some (csv_cells rows).
Proof. unfold csv_read. by rewrite (run_writerows rows "" []). Qed.

Lemma writerows_app buffer r1 r2 : writerows buffer (r1 ++ r2) = writerows (writerows buffer r1) r2.
Proof. apply foldl_app. Qed.
