(* ===== verification/Reports.v ===== *)
(** Details reports: validation of the raw facts of a report, and its CSV form.

    Models [api/details_report/util.py] and the CSV helpers of
    [api/common/common_report.py].  A report row is what [create_details_csv]
    reads and writes of the table of [api/report/model.py]. *)
From stdpp Require Import base gmap sets list strings sorting.
From Stdlib Require Import Ascii ZArith Lia.
From S2P Require Import Prelude PyStr PyNum PyVal Formatters Merge Csv.

Open Scope string_scope.
Open Scope Z_scope.
#[global] Arguments String.append !s1 s2 / : simpl nomatch.

(** ** Validation *)

Definition FC_REQUIRED_ATTRIBUTE : string := "Required. May not be null or empty.".
Definition FC_SOURCE_NAME_NOT_STR : string := "Source name must be type string.".
Definition FC_MUST_BE_ONE_OF (choices : string) : string :=
  "Must be one of the following: " +:+ choices.

(** [value in DataSources]; a value that cannot be hashed is not a member. *)
Definition in_DataSources (v : pyval) : bool :=
  existsb (fun t => py_eq v (VStr t)) DataSources.

(** Adds an error to the dict of errors when the condition holds. *)
Definition complain (key msg : string) (cond : bool) (errors : pydict) : pydict :=
  if cond then dset key (VStr msg) errors else errors.

(** [_validate_source_json]: [has_error] is true exactly when the dict of
    errors is not empty, so it is read off the dict. *)
Definition _validate_source_json (source_json : pyval) : Res (bool * pyval) :=
  d ← as_dict "get" source_json;
  let blank k := negb (truthy (dget_none k d)) in
  let errors := complain "report_version" FC_REQUIRED_ATTRIBUTE (blank "report_version") [] in
  let errors := complain "server_id" FC_REQUIRED_ATTRIBUTE (blank "server_id") errors in
  let source_type := dget_none "source_type" d in
  let source_name := dget_none "source_name" d in
  let errors := complain "source_name" FC_REQUIRED_ATTRIBUTE (negb (truthy source_name)) errors in
  let errors := complain "source_type" FC_REQUIRED_ATTRIBUTE (negb (truthy source_type)) errors in
  let has_error := truthy (VDict errors) in
  let errors := complain "source_name" FC_SOURCE_NAME_NOT_STR
                  (negb has_error && negb (is_str source_name)) errors in
  let has_error := truthy (VDict errors) in
  let errors := complain "source_type" (FC_MUST_BE_ONE_OF (str_join ", " DataSources))
                  (negb has_error && negb (in_DataSources source_type)) errors in
  let errors := complain "facts" FC_REQUIRED_ATTRIBUTE (blank "facts") errors in
  if truthy (VDict errors)
  then Ok (true, VDict [("source", source_json); ("errors", VDict errors)])
  else Ok (false, VNone).

Definition validate_step (acc : list pyval * list pyval * bool) (source_json : pyval)
  : Res (list pyval * list pyval * bool) :=
  let '(valid_sources, invalid_sources, has_errors) := acc in
  r ← _validate_source_json source_json;
  let '(source_error, result) := r : bool * pyval in
  if source_error then Ok (valid_sources, invalid_sources ++ [result], true)%list
  else Ok (valid_sources ++ [source_json], invalid_sources, has_errors)%list.

Definition _validate_sources_json (sources_json : pyval) : Res (bool * pyval) :=
  l ← py_iter sources_json;
  r ← foldM validate_step ([], [], false) l;
  let '(valid_sources, invalid_sources, has_errors) := r in
  Ok (has_errors, VDict [("valid_sources", VList valid_sources);
                         ("invalid_sources", VList invalid_sources)]).

Definition validate_details_report_json (details_report_json : pyval) (external_json : bool)
  : Res (bool * pyval) :=
  d ← as_dict "get" details_report_json;
  let blank k := negb (truthy (dget_none k d)) in
  let required k := Ok (true, VDict [(k, VStr FC_REQUIRED_ATTRIBUTE)]) in
  if negb external_json && blank "report_version" then required "report_version"
  else if blank "report_type" then required "report_type"
  else if blank "sources" then required "sources"
  else _validate_sources_json (dget_none "sources" d).

(** ** [sanitize_row], [create_filename] *)

Definition sanitize_char (old : string) (fact : pyval) : pyval :=
  match fact with VStr s => VStr (str_replace old ";" s) | _ => fact end.

Definition sanitize_row (row : list pyval) : list pyval :=
  let new_row := sanitize_char "," <$> row in
  let new_row := sanitize_char (String cr "") <$> new_row in
  sanitize_char (String lf "") <$> new_row.

Definition create_filename (file_name : string) (file_ext : option string) (report_id : string)
    (detailed_filename : bool) : string :=
  let file_name := "report_id_" +:+ report_id +:+ "/" +:+ file_name in
  let file_name := if detailed_filename then file_name +:+ "-" +:+ report_id else file_name in
  match file_ext with
  | None | Some "" => file_name
  | Some ext => file_name +:+ "." +:+ ext
  end.

(** ** [CSVHelper] *)

Definition ANSIBLE_ERROR_MESSAGE : string := "Error. See logs.".

(** [s[:-1]] *)
Definition chop (s : string) : string := str_take (String.length s - 1) s.

(** [serialize_list] and [serialize_dict] call each other on the items of
    their values; other items are formatted with [%s]. *)
Fixpoint serialize_item (v : pyval) : string :=
  match v with
  | VList l =>
      match l with
      | [] => ""
      | _ => chop ("[" +:+ str_join "" ((fun x => serialize_item x +:+ ";") <$> l)) +:+ "]"
      end
  | VDict d =>
      match d with
      | [] => ""
      | _ =>
          if negb (is_none (dget_none "rc" d)) then ANSIBLE_ERROR_MESSAGE
          else chop ("{" +:+ str_join "" ((fun '(k, x) => k +:+ ":" +:+ serialize_item x +:+ ";") <$> d))
               +:+ "}"
      end
  | _ => py_str v
  end.

Definition serialize_list (l : list pyval) : string := serialize_item (VList l).
Definition serialize_dict (d : pydict) : string := serialize_item (VDict d).

Definition serialize_value (fact_value : pyval) : pyval :=
  match fact_value with
  | VDict d => VStr (serialize_dict d)
  | VList l => VStr (serialize_list l)
  | _ => fact_value
  end.

Definition header_product (acc : list string * pydict) (prod : pyval) : Res (list string * pydict) :=
  let '(headers, fact_addon) := acc in
  prod_name ← vget prod "name";
  if truthy prod_name then
    s ← as_str "lower" prod_name;
    presence ← vget_default prod "presence" (VStr "unknown");
    Ok (headers ++ [str_lower s], dset (str_lower s) presence fact_addon)%list
  else Ok acc.

Definition header_key (fact : pydict) (acc : list string * pydict) (fact_key : string)
  : Res (list string * pydict) :=
  let '(headers, fact_addon) := acc in
  if bool_decide (fact_key = "products") then
    let prods := default (VList []) (dget fact_key fact) in
    if truthy prods then
      l ← py_iter prods;
      foldM header_product acc l
    else Ok acc
  else Ok (headers ++ [fact_key], fact_addon)%list.

(** The facts are updated in place with the presence of their products: the
    updated facts are returned with the headers. *)
Definition header_fact (acc : list string * list pydict) (fact : pyval)
  : Res (list string * list pydict) :=
  let '(headers, facts) := acc in
  d ← as_dict "keys" fact;
  r ← foldM (header_key d) (headers, []) (dkeys d);
  let '(headers, fact_addon) := r in
  Ok (headers, facts ++ [dupdate d fact_addon])%list.

Definition generate_headers (fact_list : pyval) (exclude : list string)
  : Res (list string * list pydict) :=
  l ← py_iter fact_list;
  r ← foldM header_fact ([], []) l;
  let '(headers, facts) := r in
  Ok (str_sorted (filter (fun h => h ∉ exclude) (dedup headers)), facts).

(** ** [create_details_csv] *)

Record report_row := mkreport {
  report_version : string;
  report_platform_id : string;
  cached_csv : option string }.

Definition REPORT_TYPE_DETAILS : string := "details".

(** [Report.objects.get(id=report_id)] *)
Definition get_report (reports : gmap Z report_row) (report_id : pyval) : Res (option (Z * report_row)) :=
  id ← py_int report_id;
  Ok (row ← reports !! id; Some (id, row)).

(** [len(v)] *)
Definition py_len (v : pyval) : Res Z :=
  match v with
  | VList l => Ok (Z.of_nat (length l))
  | VDict d => Ok (Z.of_nat (length d))
  | VStr s => Ok (str_len s)
  | _ => Err TypeError
  end.

Definition fact_row (headers : list string) (fact : pydict) : list pyval :=
  sanitize_row ((fun header => serialize_value (dget_none header fact)) <$> headers).

Definition strs (l : list string) : list pyval := VStr <$> l.

(** The rows written for a source. *)
Definition source_rows (source : pyval) : Res (list (list pyval)) :=
  server_id ← vget source "server_id";
  source_name ← vget source "source_name";
  source_type ← vget source "source_type";
  fact_list ← vget source "facts";
  let head := [strs ["Source"]; strs ["Server Identifier"; "Source Name"; "Source Type"];
               [server_id; source_name; source_type]; strs ["Facts"]] in
  if negb (truthy fact_list) then Ok (head ++ [[]])%list
  else
    r ← generate_headers fact_list [];
    let '(headers, facts) := r : list string * list pydict in
    Ok (head ++ [strs headers] ++ (fact_row headers <$> facts) ++ [[]; []])%list.

Definition details_header : list pyval :=
  strs ["Report ID"; "Report Type"; "Report Version"; "Report Platform ID"; "Number Sources"].

Definition details_ident (report_id : pyval) (report : report_row) (n : Z) : list pyval :=
  [report_id; VStr REPORT_TYPE_DETAILS; VStr (report_version report);
   VStr (report_platform_id report); VInt n].

(** All rows of the report with sources. *)
Definition details_rows (report_id : pyval) (report : report_row) (sources : pyval)
  : Res (list (list pyval)) :=
  n ← py_len sources;
  l ← py_iter sources;
  blocks ← mapM source_rows l;
  Ok ([details_header; details_ident report_id report n; []; []] ++ concat blocks)%list.

Definition set_cached_csv (text : string) (report : report_row) : report_row :=
  mkreport (report_version report) (report_platform_id report) (Some text).

Definition create_details_csv (reports : gmap Z report_row) (details_report_dict : pydict)
  : Res (pyval * gmap Z report_row) :=
  let report_id := dget_none "report_id" details_report_dict in
  if is_none report_id then Ok (VNone, reports)
  else
    found ← get_report reports report_id;
    match found with
    | None => Ok (VNone, reports)
    | Some (id, report) =>
        let make :=
          let sources := dget_none "sources" details_report_dict in
          if is_none sources then
            Ok (VStr (writerows "" [details_header; details_ident report_id report 0]), reports)
          else
            rows ← details_rows report_id report sources;
            let text := writerows "" rows in
            Ok (VStr text, <[id := set_cached_csv text report]> reports) in
        match cached_csv report with
        | None | Some "" => make
        | Some text => Ok (VStr text, reports)
        end
    end.

(** ** Lemmas: sanitized rows *)

Definition no_char (c : ascii) (s : string) : bool := str_forall (fun x => negb (bool_decide (x = c))) s.

(** The cell holds nothing that would break a line or a column. *)
Definition clean (v : pyval) : Prop :=
  forall s, v = VStr s -> no_char comma s = true /\ no_char cr s = true /\ no_char lf s = true.

Lemma sanitize_str (s : string) :
  sanitize_row [VStr s]
  = [VStr (str_map (subst_char lf ";") (str_map (subst_char cr ";") (str_map (subst_char comma ";") s)))].
Proof. unfold sanitize_row, sanitize_char. cbn. by rewrite !replace_char. Qed.

Lemma subst_clean c : c ∈ [comma; cr; lf] ->
  forall x, negb (bool_decide (subst_char lf ";" (subst_char cr ";" (subst_char comma ";" x)) = c)) = true.
Proof.
  intros Hc x. apply negb_true_iff, bool_decide_eq_false. unfold subst_char.
  repeat case_bool_decide; subst; intros Heq; subst;
    repeat (apply elem_of_cons in Hc as [Hc|Hc]; [discriminate Hc || congruence|]); by apply elem_of_nil in Hc.
Qed.

Lemma sanitize_row_cons v row : sanitize_row (v :: row) = (sanitize_row [v] ++ sanitize_row row)%list.
Proof. done. Qed.

Lemma sanitize_row_clean row : Forall clean (sanitize_row row).
Proof.
  induction row as [|v row IH]; [constructor|]. rewrite sanitize_row_cons. apply Forall_app. split; [|done].
  destruct v as [| | | |s| | | | |]; try (apply Forall_singleton; done).
  rewrite sanitize_str. apply Forall_singleton. intros t [= <-]. unfold no_char. rewrite !str_forall_map.
  repeat split; apply str_forall_true; apply subst_clean; set_solver.
Qed.

Lemma sanitize_row_length row : length (sanitize_row row) = length row.
Proof. unfold sanitize_row. by rewrite !length_fmap. Qed.

(** ** Lemmas: validation *)

Definition source_ok (d : pydict) : bool :=
  truthy (dget_none "report_version" d) && truthy (dget_none "server_id" d)
  && truthy (dget_none "source_name" d) && is_str (dget_none "source_name" d)
  && in_DataSources (dget_none "source_type" d) && truthy (dget_none "facts" d).

Lemma in_DataSources_truthy v : in_DataSources v = true -> truthy v = true.
Proof.
  unfold in_DataSources, DataSources. intros (t & Ht & Hv)%existsb_exists.
  destruct v; try done. rewrite py_eq_str in Hv. apply bool_decide_eq_true in Hv as ->.
  cbn in Ht. by repeat destruct Ht as [<-|Ht].
Qed.

Lemma truthy_complain k msg c errors :
  truthy (VDict (complain k msg c errors)) = c || truthy (VDict errors).
Proof. destruct c; [|done]. cbn. destruct errors as [|[k' v'] errors]; [done|]. cbn. by case_bool_decide. Qed.

Lemma validate_source_spec d :
  if source_ok d then _validate_source_json (VDict d) = Ok (false, VNone)
  else exists errors, errors <> [] /\
    _validate_source_json (VDict d)
    = Ok (true, VDict [("source", VDict d); ("errors", VDict errors)]).
Proof.
  unfold _validate_source_json. cbn [as_dict mbind res_bind].
  match goal with |- context [if truthy (VDict ?e) then _ else _] => set (errors := e) end.
  assert (truthy (VDict errors) = negb (source_ok d)) as He.
  { unfold errors, source_ok. rewrite !truthy_complain.
    pose proof (in_DataSources_truthy (dget_none "source_type" d)) as Hty.
    destruct (in_DataSources _); [rewrite Hty by done|]; clear Hty; cbn [truthy negb andb orb];
      destruct (truthy (dget_none "report_version" d)), (truthy (dget_none "server_id" d)),
        (truthy (dget_none "source_name" d)), (truthy (dget_none "facts" d)),
        (is_str (dget_none "source_name" d)); try reflexivity;
      by destruct (truthy (dget_none "source_type" d)). }
  rewrite He. destruct (source_ok d); [done|]. exists errors. split; [|done].
  intros E. by rewrite E in He.
Qed.

Definition dict_of (v : pyval) : pydict := match v with VDict d => d | _ => [] end.

Lemma validate_loop l : Forall (fun v => is_dict v = true) l ->
  forall valid invalid has, exists errs,
  foldM validate_step (valid, invalid, has) l
  = Ok (valid ++ List.filter (fun v => source_ok (dict_of v)) l, invalid ++ errs,
        has || negb (forallb (fun v => source_ok (dict_of v)) l))%list /\
  Forall2 (fun v e => exists errors, errors <> [] /\ e = VDict [("source", v); ("errors", VDict errors)])
    (List.filter (fun v => negb (source_ok (dict_of v))) l) errs.
Proof.
  induction 1 as [|v l Hv Hl IH]; intros valid invalid has.
  - exists []. cbn. rewrite !app_nil_r, orb_false_r. done.
  - destruct v as [| | | | | |d| | |]; try done. cbn [foldM validate_step List.filter forallb dict_of].
    pose proof (validate_source_spec d) as Hs. destruct (source_ok d); cbn [negb].
    + rewrite Hs. cbn [mbind res_bind].
      destruct (IH (valid ++ [VDict d])%list invalid has) as (errs & -> & Hf).
      exists errs. by rewrite <- app_assoc.
    + destruct Hs as (errors & Hne & ->). cbn [mbind res_bind].
      destruct (IH valid (invalid ++ [VDict [("source", VDict d); ("errors", VDict errors)]])%list true)
        as (errs & -> & Hf).
      eexists (_ :: errs). rewrite <- app_assoc. cbn. rewrite orb_true_r. split; [done|].
      constructor; [eauto | done].
Qed.

(** ** Lemmas: headers *)

(** The names of the products a fact lists, when it lists them properly. *)
Definition product_ok (p : pyval) : bool :=
  match p with
  | VDict d => match dget_none "name" d with VStr _ => true | v => negb (truthy v) end
  | _ => false
  end.

Definition product_names (products : list pyval) : list string :=
  omap (fun p => match dget_none "name" (dict_of p) with
                 | VStr s => if truthy (VStr s) then Some (str_lower s) else None
                 | _ => None end) products.

Definition fact_ok (fact : pyval) : bool :=
  match fact with
  | VDict d => match default (VList []) (dget "products" d) with
               | VList l => forallb product_ok l
               | v => negb (truthy v)
               end
  | _ => false
  end.

Definition fact_products (d : pydict) : list string :=
  match default (VList []) (dget "products" d) with VList l => product_names l | _ => [] end.

(** The columns a fact asks for. *)
Definition fact_columns (fact : pyval) : list string :=
  concat ((fun k => if bool_decide (k = "products") then fact_products (dict_of fact) else [k])
          <$> dkeys (dict_of fact)).

(** The second dict agrees with the first outside some keys. *)
Definition agree_but (ks : list string) (d1 d2 : pydict) : Prop :=
  forall h, h ∉ ks -> dget h d2 = dget h d1.

Lemma agree_but_app ks1 ks2 d1 d2 d3 :
  agree_but ks1 d1 d2 -> agree_but ks2 d2 d3 -> agree_but (ks1 ++ ks2) d1 d3.
Proof. intros H1 H2 h Hh. rewrite H2, H1 by set_solver. done. Qed.

Lemma header_products_spec l : forallb product_ok l = true ->
  forall hs addon, exists addon' : pydict,
    foldM header_product (hs, addon) l = Ok (hs ++ product_names l, addon')%list /\
    agree_but (product_names l) addon addon'.
Proof.
  induction l as [|p l IH]; intros Hl hs addon.
  { exists addon. cbn. by rewrite app_nil_r. }
  cbn in Hl. apply andb_true_iff in Hl as [Hp Hl]. destruct p as [| | | | | |d| | |]; try done.
  cbn [product_ok] in Hp. cbn [foldM header_product]. unfold vget, vget_default. cbn [as_dict mbind res_bind].
  change (default VNone (dget "name" d)) with (dget_none "name" d).
  unfold product_names. cbn [omap list_omap dict_of].
  destruct (dget_none "name" d) as [| | | |s| | | | |];
    try (rewrite (proj1 (negb_true_iff _) Hp); by apply IH).
  destruct (truthy (VStr s)); cbn [as_str mbind res_bind]; [|by apply IH].
  destruct (IH Hl (hs ++ [str_lower s])%list
    (dset (str_lower s) (default (VStr "unknown") (dget "presence" d)) addon)) as (addon' & -> & Ha).
  exists addon'. rewrite <- app_assoc. split; [done|]. intros h Hh.
  rewrite Ha, dget_dset_ne by set_solver. done.
Qed.

Lemma header_keys_spec d ks : fact_ok (VDict d) = true ->
  forall hs addon, exists addon' : pydict,
    foldM (header_key d) (hs, addon) ks
    = Ok (hs ++ concat ((fun k => if bool_decide (k = "products") then fact_products d else [k]) <$> ks),
          addon')%list /\
    agree_but (fact_products d) addon addon'.
Proof.
  intros Hd. induction ks as [|k ks IH]; intros hs addon.
  { exists addon. cbn. by rewrite app_nil_r. }
  cbn [foldM header_key fmap list_fmap concat]. case_bool_decide as Hk; [subst k|].
  - unfold fact_products in IH |- *. cbn [fact_ok] in Hd.
    destruct (default (VList []) (dget "products" d)) as [| | | | |l| | | |];
      try (rewrite (proj1 (negb_true_iff _) Hd); cbn [mbind res_bind app]; apply IH).
    destruct l as [|p l]; [cbn [truthy mbind res_bind app product_names omap list_omap]; apply IH|].
    cbn [truthy py_iter mbind res_bind].
    destruct (header_products_spec (p :: l) Hd hs addon) as (addon' & -> & Ha). cbn [mbind res_bind].
    destruct (IH (hs ++ product_names (p :: l))%list addon') as (addon'' & -> & Ha').
    exists addon''. rewrite <- app_assoc. split; [done|]. intros h Hh. by rewrite Ha', Ha.
  - cbn [mbind res_bind]. destruct (IH (hs ++ [k])%list addon) as (addon' & -> & Ha).
    exists addon'. by rewrite <- app_assoc.
Qed.

Lemma dget_dupdate_other h (d1 d2 : pydict) : dget h d2 = None -> dget h (dupdate d1 d2) = dget h d1.
Proof.
  unfold dupdate. revert d1. induction d2 as [|[k v] d2 IH]; intros d1; cbn; [done|].
  case_bool_decide; [done|]. intros Hh. by rewrite IH, dget_dset_ne.
Qed.

Lemma header_facts_spec l : forallb fact_ok l = true ->
  forall hs fs, exists facts : list pydict,
    foldM header_fact (hs, fs) l = Ok (hs ++ concat (fact_columns <$> l), fs ++ facts)%list /\
    Forall2 (fun f fact => agree_but (fact_products (dict_of f)) (dict_of f) fact) l facts.
Proof.
  induction l as [|f l IH]; intros Hl hs fs.
  { exists []. cbn. by rewrite !app_nil_r. }
  cbn in Hl. apply andb_true_iff in Hl as [Hf Hl]. destruct f as [| | | | | |d| | |]; try done.
  cbn [foldM header_fact as_dict mbind res_bind fmap list_fmap concat].
  destruct (header_keys_spec d (dkeys d) Hf hs []) as (addon & -> & Ha). cbn [mbind res_bind].
  destruct (IH Hl (hs ++ fact_columns (VDict d))%list (fs ++ [dupdate d addon])%list)
    as (facts & Heq & Hall).
  exists (dupdate d addon :: facts). unfold fact_columns at 1 in Heq. cbn [dict_of] in Heq.
  rewrite Heq, <- !app_assoc. split; [done|]. constructor; [|done].
  intros h Hh. apply dget_dupdate_other, Ha, Hh.
Qed.

Lemma elem_of_concat {A} (x : A) (ls : list (list A)) : x ∈ concat ls <-> exists l, l ∈ ls /\ x ∈ l.
Proof.
  rewrite list_elem_of_In, in_concat. setoid_rewrite list_elem_of_In. naive_solver.
Qed.

(** The headers are the columns asked for less the excluded ones, sorted and
    without repetition; the facts keep their values outside their products. *)
Lemma generate_headers_spec l exclude : forallb fact_ok l = true ->
  exists headers facts, generate_headers (VList l) exclude = Ok (headers, facts) /\
    StronglySorted str_le headers /\ NoDup headers /\
    (forall h, h ∈ headers <-> (h ∉ exclude) /\ (exists f, f ∈ l /\ h ∈ fact_columns f)) /\
    Forall2 (fun f fact => agree_but (fact_products (dict_of f)) (dict_of f) fact) l facts.
Proof.
  intros Hl. unfold generate_headers. cbn [py_iter mbind res_bind].
  destruct (header_facts_spec l Hl [] []) as (facts & -> & Hall). cbn [mbind res_bind app].
  eexists _, facts. split; [done|]. split; [apply sorted_StronglySorted|].
  split; [rewrite sorted_perm; apply NoDup_filter, NoDup_dedup|]. split; [|done].
  intros h. rewrite sorted_perm, list_elem_of_filter, elem_of_dedup, elem_of_concat.
  setoid_rewrite list_elem_of_fmap. naive_solver.
Qed.

(** ** Lemmas: the rows of a source *)

Definition source_wf (source : pyval) : bool :=
  match source with
  | VDict d => match dget_none "facts" d with
               | VList l => forallb fact_ok l
               | v => negb (truthy v)
               end
  | _ => false
  end.

(** The table of the facts [l]: a row of clean cells for each fact, holding in
    each column the serialized value of the fact. *)
Record fact_table (l : list pyval) (headers : list string) (rows : list (list pyval)) : Prop := {
  ft_sorted : StronglySorted str_le headers;
  ft_distinct : NoDup headers;
  ft_headers h : h ∈ headers <-> (exists f, f ∈ l /\ h ∈ fact_columns f);
  ft_clean : Forall (Forall clean) rows;
  ft_cells : Forall2 (fun f row => exists cells, row = sanitize_row cells /\
    Forall2 (fun h cell => h ∉ fact_products (dict_of f) ->
               cell = serialize_value (dget_none h (dict_of f))) headers cells) l rows }.

Definition source_block (source : pyval) (block : list (list pyval)) : Prop :=
  let d := dict_of source in
  let head := [strs ["Source"]; strs ["Server Identifier"; "Source Name"; "Source Type"];
               [dget_none "server_id" d; dget_none "source_name" d; dget_none "source_type" d];
               strs ["Facts"]] in
  match dget_none "facts" d with
  | VList ((_ :: _) as l) => exists headers rows, fact_table l headers rows /\
      block = (head ++ [strs headers] ++ rows ++ [[]; []])%list
  | _ => block = (head ++ [[]])%list
  end.

Lemma fact_table_rows l headers facts :
  StronglySorted str_le headers -> NoDup headers ->
  (forall h, h ∈ headers <-> (h ∉ []) /\ (exists f, f ∈ l /\ h ∈ fact_columns f)) ->
  Forall2 (fun f fact => agree_but (fact_products (dict_of f)) (dict_of f) fact) l facts ->
  fact_table l headers (fact_row headers <$> facts).
Proof.
  intros Hs Hd Hh Hf. split; try done.
  - intros h. rewrite Hh. set_solver.
  - apply Forall_fmap, Forall_true. intros fact. apply sanitize_row_clean.
  - apply Forall2_fmap_r. eapply Forall2_impl; [exact Hf|]. intros f fact Ha. cbn.
    eexists. split; [done|]. clear -Ha. induction headers as [|h hs IH]; constructor; [|done].
    intros Hn. unfold dget_none. by rewrite (Ha h Hn).
Qed.

Lemma source_rows_spec source : source_wf source = true ->
  exists block, source_rows source = Ok block /\ source_block source block.
Proof.
  destruct source as [| | | | | |d| | |]; try done. cbn [source_wf]. intros Hwf.
  unfold source_rows, source_block, vget, vget_default. cbn [as_dict mbind res_bind dict_of].
  change (default VNone (dget "facts" d)) with (dget_none "facts" d).
  destruct (dget_none "facts" d) as [| | | | |l| | | |];
    try done; try (rewrite Hwf; by eexists).
  destruct l as [|f l]; [by eexists|]. cbn [truthy negb].
  destruct (generate_headers_spec (f :: l) [] Hwf) as (hs & facts & -> & Hs & Hd & Hh & Hf).
  cbn [mbind res_bind]. eexists. split; [done|].
  exists hs, (fact_row hs <$> facts). split; [by apply fact_table_rows | done].
Qed.

(** ** Properties *)

(** [C23] The CSV of a details report can be read back: on a report whose facts
    are dicts and list their products properly the CSV is made, reading it with
    the rules of CSV gives exactly the cells written, and they are the header
    and a block for each source whose table has one column for each fact name
    and product, sorted and distinct, and one row for each fact with the
    serialized values and nothing in them that breaks lines or columns.  The
    text is cached: making it again gives the same text. *)
Theorem details_csv_roundtrip reports d id report sources :
  dget_none "report_id" d = VInt id -> reports !! id = Some report -> cached_csv report = None ->
  dget_none "sources" d = VList sources -> forallb source_wf sources = true ->
  exists blocks text,
    let rows := ([details_header; details_ident (VInt id) report (Z.of_nat (length sources)); []; []]
                 ++ concat blocks)%list in
    let reports' := <[id := set_cached_csv text report]> reports in
    Forall2 source_block sources blocks /\
    csv_read text = Some (csv_cells rows) /\
    create_details_csv reports d = Ok (VStr text, reports') /\
    create_details_csv reports' d = Ok (VStr text, reports').
Proof.
  intros Hid Hrow Hcache Hsources Hwf.
  assert (exists blocks, mapM source_rows sources = Ok blocks /\ Forall2 source_block sources blocks)
    as (blocks & Hblocks & Hspec).
  { clear -Hwf. induction sources as [|s l IH]; [by exists []|].
    cbn in Hwf. apply andb_true_iff in Hwf as [Hs Hl].
    destruct (source_rows_spec s Hs) as (b & Hb & Hsb), (IH Hl) as (bs & Hbs & Hf).
    exists (b :: bs). cbn. rewrite Hb. cbn. rewrite Hbs. split; [done | by constructor]. }
  set (rows := ([details_header; details_ident (VInt id) report (Z.of_nat (length sources)); []; []]
                ++ concat blocks)%list).
  exists blocks, (writerows "" rows). cbn zeta. split; [done|]. split; [apply csv_read_writerows|].
  unfold create_details_csv. rewrite Hid, Hsources. cbn [is_none get_report py_int mbind res_bind].
  unfold get_report. cbn [py_int mbind res_bind]. rewrite Hrow, lookup_insert_eq.
  cbn [mbind option_bind cached_csv set_cached_csv]. rewrite Hcache.
  unfold details_rows. cbn [py_len py_iter mbind res_bind]. rewrite Hblocks. cbn [mbind res_bind].
  fold rows. split; [done|].
  destruct (writerows "" rows) as [|c s] eqn:E; [|done]. exfalso. clear -E.
  pose proof (csv_read_writerows rows) as H. rewrite E in H.
  change (Some [] = Some (csv_cells rows)) in H. discriminate H.
Qed.

Definition sample_fact : pyval :=
  VDict [("name", VStr "a,b"); ("mem", VInt 4);
         ("products", VList [VDict [("name", VStr "JBoss EAP"); ("presence", VStr "present")]])].
Definition sample_source : pyval :=
  VDict [("server_id", VStr "s"); ("source_name", VStr "net"); ("source_type", VStr "network");
         ("report_version", VStr "1"); ("facts", VList [sample_fact])].
Definition sample_report : report_row := mkreport "1.0" "uuid" None.
Definition sample_details : pydict := [("report_id", VInt 7); ("sources", VList [sample_source])].

Lemma details_csv_roundtrip_witness :
  exists blocks text,
    let rows := ([details_header; details_ident (VInt 7) sample_report 1; []; []] ++ concat blocks)%list in
    let reports' := <[7 := set_cached_csv text sample_report]> {[7 := sample_report]} in
    Forall2 source_block [sample_source] blocks /\
    csv_read text = Some (csv_cells rows) /\
    create_details_csv {[7 := sample_report]} sample_details = Ok (VStr text, reports') /\
    create_details_csv reports' sample_details = Ok (VStr text, reports').
Proof.
  apply (details_csv_roundtrip {[7 := sample_report]} sample_details 7 sample_report [sample_source]);
    first [reflexivity | apply lookup_singleton_eq | vm_compute; reflexivity].
Defined.

(** The columns and the cells of the sample. *)
Example sample_table :
  (b ← source_rows sample_source; Ok (drop 4 b))
  = Ok [strs ["jboss eap"; "mem"; "name"]; [VStr "present"; VInt 4; VStr "a;b"]; []; []].
Proof. vm_compute. reflexivity. Qed.

(** Validation sorts the sources of a report: on dicts it never raises, the
    valid sources are exactly those with a version, a server, a name that is a
    string, a known type and facts, in order and unchanged, each of the others
    is reported with at least one error, and errors are signalled exactly when
    there is an invalid source. *)
Theorem validation_sorts_sources sources :
  Forall (fun v => is_dict v = true) sources ->
  exists invalid,
    _validate_sources_json (VList sources)
    = Ok (negb (forallb (fun v => source_ok (dict_of v)) sources),
          VDict [("valid_sources", VList (List.filter (fun v => source_ok (dict_of v)) sources));
                 ("invalid_sources", VList invalid)]) /\
    Forall2 (fun v e => exists errors, errors <> [] /\
               e = VDict [("source", v); ("errors", VDict errors)])
      (List.filter (fun v => negb (source_ok (dict_of v))) sources) invalid.
Proof.
  intros H. destruct (validate_loop sources H [] [] false) as (errs & Hl & Hf).
  exists errs. split; [|done]. unfold _validate_sources_json. cbn [py_iter mbind res_bind].
  rewrite Hl. reflexivity.
Qed.

Lemma validation_sorts_sources_witness :
  exists invalid,
    _validate_sources_json (VList [sample_source; VDict [("source_name", VStr "x")]])
    = Ok (true, VDict [("valid_sources", VList [sample_source]); ("invalid_sources", VList invalid)]) /\
    length invalid = 1%nat.
Proof.
  destruct (validation_sorts_sources [sample_source; VDict [("source_name", VStr "x")]])
    as (invalid & H & Hf); [by repeat constructor|].
  exists invalid. split; [exact H|]. apply Forall2_length in Hf. symmetry. exact Hf.
Defined.
