(* ===== verification/Deployments.v ===== *)
(** Deployments reports: their CSV form and its cache on disk.

    Models [api/deployments_report/util.py] and the cached CSV of
    [api/deployments_report/model.py] ([cached_csv] and its setter).  The
    fingerprints come as the dicts of the JSON report; [create_deployments_csv]
    works on a deep copy, so that what it mutates is private to the call. *)
From stdpp Require Import base gmap sets list strings sorting.
From Stdlib Require Import Ascii ZArith Lia.
From S2P Require Import Prelude PyStr PyNum PyVal Formatters Merge Csv Reports.

Open Scope string_scope.
Open Scope Z_scope.
#[global] Arguments String.append !s1 s2 / : simpl nomatch.

(** ** Sources *)

Definition detection_key (data_source : string) : string := "detection-" +:+ data_source.
Definition _get_detection_keys : list string := detection_key <$> DataSources.

Definition source_info_step (acc : pydict * list pyval) (source : pyval) : Res (pydict * list pyval) :=
  let '(result, names) := acc in
  source_type ← vget source "source_type";
  let result := match source_type with
                | VStr t => if in_DataSources source_type
                            then dset (detection_key t) (VBool true) result else result
                | _ => result
                end in
  source_name ← vget source "source_name";
  Ok (result, names ++ [source_name])%list.

Definition compute_source_info (sources : pyval) : Res pydict :=
  l ← py_iter sources;
  r ← foldM source_info_step ((fun k => (k, VBool false)) <$> _get_detection_keys, []) l;
  let '(result, names) := r : pydict * list pyval in
  Ok (("sources", VList names) :: result).

Definition source_headers : list string := "sources" :: _get_detection_keys.

(** ** The cached file *)

(** A path as its parent directory and file name. *)
Record path := mkpath { parent : string; fname : string }.

#[export] Instance path_eq_dec : EqDecision path.
Proof. solve_decision. Defined.
#[export] Instance path_countable : Countable path.
Proof.
  refine (inj_countable' (fun p => (parent p, fname p)) (fun p => mkpath p.1 p.2) _).
  by intros [].
Defined.

Record deployment_row := mkdeployment {
  dr_id : Z;
  dr_report_type : string;
  dr_report_version : string;
  dr_report_platform_id : string;
  dr_cached_csv_file_path : option path }.

(** The rows by the id of their report, the files and the Celery tasks
    requested with [delay]. *)
Record store := mkstore {
  deployments : gmap Z deployment_row;
  files : gmap path string;
  delayed : list (string * Z) }.

Definition PermissionError : exn := OtherException "PermissionError".
Definition FileNotFoundError : exn := OtherException "FileNotFoundError".

Section with_environment.
(** The directory of the cached files and the time, as text. *)
Context (cached_files_path unixtime : string).

(** The property [DeploymentsReport.cached_csv]. *)
Definition cached_csv_of (st : store) (report : deployment_row) : store * Res pyval :=
  match dr_cached_csv_file_path report with
  | None => (st, Ok VNone)
  | Some p =>
      if negb (bool_decide (parent p = cached_files_path)) then (st, Err PermissionError)
      else match files st !! p with
           | Some text => (st, Ok (VStr text))
           | None =>
               (mkstore (deployments st) (files st)
                  (delayed st ++ [("generate_and_save_cached_csv", dr_id report)]),
                Err FileNotFoundError)
           end
  end.

Definition csv_file (report : deployment_row) : path :=
  mkpath cached_files_path
    ("deployments-report-" +:+ int_repr (dr_id report) +:+ "-" +:+ unixtime +:+ ".csv").

Definition set_csv_path (p : option path) (report : deployment_row) : deployment_row :=
  mkdeployment (dr_id report) (dr_report_type report) (dr_report_version report)
    (dr_report_platform_id report) p.

(** The setter, followed by [deployment_report.save()]. *)
Definition save_cached_csv (st : store) (report_id : Z) (report : deployment_row) (data : string) : store :=
  let p := csv_file report in
  mkstore (<[report_id := set_csv_path (Some p) report]> (deployments st)) (<[p := data]> (files st))
    (delayed st).

(** ** The rows *)

(** [SystemFingerprint._meta.get_fields()] less the two time stamps. *)
Definition valid_fact_attributes : list string :=
  ["id"; "deployment_report"; "name"; "os_name"; "os_release"; "os_version"; "infrastructure_type";
   "cloud_provider"; "mac_addresses"; "ip_addresses"; "cpu_count"; "architecture";
   "system_memory_bytes"; "bios_uuid"; "subscription_manager_id"; "cpu_socket_count";
   "cpu_core_count"; "cpu_core_per_socket"; "cpu_hyperthreading"; "installed_products";
   "system_creation_date"; "system_last_checkin_date"; "system_purpose"; "system_role";
   "system_addons"; "system_service_level_agreement"; "system_usage_type"; "insights_client_id";
   "virtualized_type"; "virtual_host_name"; "virtual_host_uuid"; "system_user_count"; "vm_state";
   "vm_uuid"; "vm_dns_name"; "vm_host_socket_count"; "vm_host_core_count"; "vm_cluster";
   "vm_datacenter"; "is_redhat"; "redhat_certs"; "redhat_package_count"; "metadata"; "sources";
   "etc_machine_id"; "products"; "entitlements"].

Definition excluded_headers : list string :=
  ["id"; "report_id"; "metadata"; "deployment_report"; "cpu_core_per_socket"; "system_purpose"].

(** The fields added to the first fingerprint. *)
Definition add_fields (system : pydict) : pydict :=
  foldl (fun system attr => if truthy (dget_none attr system) then system else dset attr VNone system)
    system valid_fact_attributes.

(** [entitlement.pop("metadata")] *)
Definition pop_metadata (entitlement : pyval) : Res pyval :=
  match entitlement with
  | VDict d => _ ← dget_exn "metadata" d; Ok (VDict (dpop "metadata" d))
  | VList _ => Err TypeError
  | _ => Err (AttributeError "pop")
  end.

Definition system_cell (system : pydict) (sources_info : option pydict) (header : string) : Res pyval :=
  if bool_decide (header ∈ source_headers) then
    Ok (serialize_value (match sources_info with Some i => dget_none header i | None => VNone end))
  else if bool_decide (header = "entitlements") then
    let fact_value := dget_none header system in
    if truthy fact_value then
      l ← py_iter fact_value;
      l' ← mapM pop_metadata l;
      Ok (serialize_value (VList l'))
    else Ok (serialize_value fact_value)
  else Ok (serialize_value (dget_none header system)).

Definition system_row (headers : list string) (system : pydict) : Res (list pyval) :=
  let system_sources := dget_none "sources" system in
  sources_info ← (if is_none system_sources then Ok None
                  else i ← compute_source_info system_sources; Ok (Some i));
  row ← mapM (system_cell system sources_info) headers;
  Ok (sanitize_row row).

Definition system_headers (headers : list string) : list string :=
  if bool_decide ("sources" ∈ headers)
  then str_sorted (dedup (headers ++ source_headers)) else headers.

Definition deployments_head (report_id : pyval) (report : deployment_row) : list (list pyval) :=
  [strs ["Report ID"; "Report Type"; "Report Version"; "Report Platform ID"];
   [report_id; VStr (dr_report_type report); VStr (dr_report_version report);
    VStr (dr_report_platform_id report)]; []; []; strs ["System Fingerprints:"]].

(** The rows of the report once the fields are added. *)
Definition systems_rows (report_id : pyval) (report : deployment_row) (systems : list pyval)
  : Res (list (list pyval)) :=
  r ← generate_headers (VList systems) excluded_headers;
  let '(headers, systems) := r : list string * list pydict in
  let headers := system_headers headers in
  rows ← mapM (system_row headers) systems;
  Ok (deployments_head report_id report ++ [strs headers] ++ rows ++ [[]])%list.

(** The rows of the report of a non-empty list of fingerprints. *)
Definition deployments_rows (report_id : pyval) (report : deployment_row) (systems_list : pyval)
  : Res (list (list pyval)) :=
  first ← getitem_int systems_list 0;
  system ← as_dict "get" first;
  l ← py_iter systems_list;
  systems_rows report_id report (VDict (add_fields system) :: drop 1 l).

Definition create_deployments_csv (st : store) (deployments_report_dict : pydict) : store * Res pyval :=
  let report_id := dget_none "report_id" deployments_report_dict in
  if is_none report_id then (st, Ok VNone)
  else match py_int report_id with
  | Err e => (st, Err e)
  | Ok id =>
  match deployments st !! id with
  | None => (st, Ok VNone)
  | Some report =>
  match cached_csv_of st report with
  | (st, Err e) => (st, Err e)
  | (st, Ok cached) =>
  if truthy cached then (st, Ok cached)
  else
    let systems_list := dget_none "system_fingerprints" deployments_report_dict in
    if negb (truthy systems_list) then (st, Ok VNone)
    else match deployments_rows report_id report systems_list with
         | Err e => (st, Err e)
         | Ok rows =>
             let text := writerows "" rows in
             (save_cached_csv st id report text, Ok (VStr text))
         end
  end end end.
End with_environment.

(** ** Lemmas *)

(** The fields added to the first fingerprint: a value of the model that is
    false is replaced with [None], everything else is kept. *)
Lemma dget_fields attrs h s :
  dget_none h (foldl (fun system attr =>
      if truthy (dget_none attr system) then system else dset attr VNone system) s attrs)
  = if bool_decide (h ∈ attrs) && negb (truthy (dget_none h s)) then VNone else dget_none h s.
Proof.
  revert s. induction attrs as [|a attrs IH]; intros s; [done|]. cbn [foldl]. rewrite IH.
  destruct (decide (h = a)) as [->|Hne].
  - rewrite (bool_decide_true (a ∈ a :: attrs)) by left. destruct (truthy (dget_none a s)) eqn:Ht.
    + rewrite Ht. cbn. by rewrite andb_false_r.
    + assert (dget_none a (dset a VNone s) = VNone) as -> by (unfold dget_none; by rewrite dget_dset_eq).
      by destruct (bool_decide _).
  - replace (bool_decide (h ∈ a :: attrs)) with (bool_decide (h ∈ attrs))
      by (apply bool_decide_ext; set_solver).
    destruct (truthy (dget_none a s)); [done|].
    assert (dget_none h (dset a VNone s) = dget_none h s) as ->
      by (unfold dget_none; by rewrite dget_dset_ne). done.
Qed.

Lemma dget_add_fields h s :
  dget_none h (add_fields s)
  = if bool_decide (h ∈ valid_fact_attributes) && negb (truthy (dget_none h s))
    then VNone else dget_none h s.
Proof. apply dget_fields. Qed.

Lemma keys_fields attrs s :
  (forall h, h ∈ dkeys s -> h ∈ dkeys (foldl (fun system attr =>
      if truthy (dget_none attr system) then system else dset attr VNone system) s attrs)) /\
  (forall h, h ∈ attrs -> h ∈ dkeys (foldl (fun system attr =>
      if truthy (dget_none attr system) then system else dset attr VNone system) s attrs)).
Proof.
  revert s. induction attrs as [|a attrs IH]; intros s; cbn [foldl]; [split; [done | set_solver]|].
  set (s' := if truthy (dget_none a s) then s else dset a VNone s).
  destruct (IH s') as [IH1 IH2].
  assert (forall h, h ∈ dkeys s -> h ∈ dkeys s') as Hs.
  { intros h Hh. unfold s'. destruct (truthy _); [done|]. apply elem_of_dkeys_dset. by right. }
  assert (a ∈ dkeys s') as Ha.
  { unfold s'. destruct (truthy (dget_none a s)) eqn:Ht; [|apply elem_of_dkeys_dset; by left].
    apply dget_keys. unfold dget_none in Ht. destruct (dget a s); [by eexists | done]. }
  split; [auto|]. intros h [->|Hh]%elem_of_cons; auto.
Qed.

Definition entitlement_ok (v : pyval) : bool :=
  match v with VDict d => dmem "metadata" d | _ => false end.

Definition list_or_falsy (p : pyval -> bool) (v : pyval) : bool :=
  match v with VList l => forallb p l | _ => negb (truthy v) end.

(** A fingerprint of the report: its products, sources and entitlements are
    lists of the right dicts, and no product is named like one of these keys. *)
Definition system_wf (v : pyval) : bool :=
  fact_ok v && (let d := dict_of v in
    list_or_falsy is_dict (dget_none "sources" d)
    && (is_none (dget_none "sources" d) || is_list (dget_none "sources" d))
    && list_or_falsy entitlement_ok (dget_none "entitlements" d)
    && negb (bool_decide ("sources" ∈ fact_products d))
    && negb (bool_decide ("entitlements" ∈ fact_products d))).

Lemma source_info_total l : forallb is_dict l = true ->
  forall acc, is_Ok (foldM source_info_step acc l).
Proof.
  induction l as [|v l IH]; intros Hl acc; [by eexists|].
  cbn in Hl. apply andb_true_iff in Hl as [Hv Hl]. destruct v as [| | | | | |d| | |]; try done.
  destruct acc as [result names]. cbn. by apply IH.
Qed.

Lemma compute_source_info_total l : forallb is_dict l = true -> is_Ok (compute_source_info (VList l)).
Proof.
  intros Hl. unfold compute_source_info. cbn [py_iter mbind res_bind].
  destruct (source_info_total l Hl ((fun k => (k, VBool false)) <$> _get_detection_keys, [])) as [[r n] ->].
  by eexists.
Qed.

Lemma pop_metadata_total l : forallb entitlement_ok l = true -> is_Ok (mapM pop_metadata l).
Proof.
  induction l as [|v l IH]; intros Hl; [by eexists|].
  cbn in Hl. apply andb_true_iff in Hl as [Hv Hl]. destruct v as [| | | | | |d| | |]; try done.
  cbn. cbn in Hv. unfold dmem in Hv. unfold dget_exn. destruct (dget "metadata" d); [|done].
  cbn. destruct (IH Hl) as [l' ->]. by eexists.
Qed.

Definition plain_header (h : string) : Prop := (h ∉ source_headers) /\ h <> "entitlements".

Lemma system_cell_spec system info h :
  list_or_falsy entitlement_ok (dget_none "entitlements" system) = true ->
  exists c, system_cell system info h = Ok c /\
    (plain_header h -> c = serialize_value (dget_none h system)).
Proof.
  intros He. unfold system_cell, plain_header. case_bool_decide; [eexists; split; [done | tauto]|].
  case_bool_decide as Hh; [subst h | by eexists].
  destruct (dget_none "entitlements" system) as [| | | | |l| | | |];
    try done; try (cbn [list_or_falsy] in He; rewrite (proj1 (negb_true_iff _) He); by eexists).
  destruct (truthy (VList l)); [|by eexists]. cbn [py_iter mbind res_bind].
  destruct (pop_metadata_total l He) as [l' ->]. eexists. split; [done|]. tauto.
Qed.

(** The row of a fingerprint: the serialized values in the plain columns. *)
Definition row_of (headers : list string) (system : pydict) (row : list pyval) : Prop :=
  exists cells, row = sanitize_row cells /\
    Forall2 (fun h c => plain_header h -> c = serialize_value (dget_none h system)) headers cells.

Lemma system_row_spec headers system :
  list_or_falsy is_dict (dget_none "sources" system) = true ->
  is_none (dget_none "sources" system) || is_list (dget_none "sources" system) = true ->
  list_or_falsy entitlement_ok (dget_none "entitlements" system) = true ->
  exists row, system_row headers system = Ok row /\ row_of headers system row.
Proof.
  intros Hs Hl He. unfold system_row.
  assert (exists info, (if is_none (dget_none "sources" system) then Ok None
           else i ← compute_source_info (dget_none "sources" system); Ok (Some i)) = Ok info)
    as [info ->].
  { destruct (dget_none "sources" system) as [| | | | |l| | | |]; try done; [by eexists|].
    cbn [is_none]. destruct (compute_source_info_total l Hs) as [i ->]. by eexists. }
  cbn [mbind res_bind].
  assert (exists cells, mapM (system_cell system info) headers = Ok cells /\
    Forall2 (fun h c => plain_header h -> c = serialize_value (dget_none h system)) headers cells)
    as (cells & -> & Hc).
  { induction headers as [|h hs IH]; [exists []; by split; [|constructor]|].
    destruct (system_cell_spec system info h He) as (c & Hc & Hv), IH as (cs & Hcs & Hf).
    exists (c :: cs). cbn. rewrite Hc. cbn. rewrite Hcs. split; [done | by constructor]. }
  eexists. split; [done|]. by exists cells.
Qed.

(** What the fields added and the product columns leave of a fingerprint. *)
Lemma system_kept system fact :
  system_wf (VDict system) = true -> agree_but (fact_products system) system fact ->
  list_or_falsy is_dict (dget_none "sources" fact) = true /\
  is_none (dget_none "sources" fact) || is_list (dget_none "sources" fact) = true /\
  list_or_falsy entitlement_ok (dget_none "entitlements" fact) = true.
Proof.
  unfold system_wf. cbn [dict_of]. intros Hwf Ha.
  repeat (apply andb_true_iff in Hwf as [? Hwf] || (apply andb_true_iff in H as [? ?])).
  repeat match goal with H : _ && _ = true |- _ => apply andb_true_iff in H as [? ?] end.
  repeat match goal with H : negb (bool_decide _) = true |- _ =>
    apply negb_true_iff, bool_decide_eq_false in H end.
  assert (forall h, h ∉ fact_products system -> dget_none h fact = dget_none h system) as E
    by (intros h Hh; unfold dget_none; by rewrite (Ha h Hh)).
  rewrite !E by done. done.
Qed.

Lemma add_fields_keys s h : h ∈ valid_fact_attributes -> h ∈ dkeys (add_fields s).
Proof. exact (proj2 (keys_fields valid_fact_attributes s) h). Qed.

#[local] Arguments add_fields : simpl never.
#[local] Arguments valid_fact_attributes : simpl never.
#[local] Opaque add_fields.

Lemma dget_field h s : h ∈ valid_fact_attributes ->
  dget h (add_fields s) = Some (if truthy (dget_none h s) then dget_none h s else VNone).
Proof.
  intros Hh. destruct (proj2 (dget_keys h (add_fields s)) (add_fields_keys s h Hh)) as [v Hv].
  pose proof (dget_add_fields h s) as H.
  rewrite bool_decide_true in H by done. unfold dget_none at 1 in H. rewrite Hv in H |- *. cbn in H.
  rewrite H. by destruct (truthy (dget_none h s)).
Qed.

Lemma add_fields_products s : fact_products (add_fields s) = fact_products s.
Proof.
  unfold fact_products. rewrite dget_field by by_compute. unfold dget_none.
  destruct (dget "products" s) as [v|]; [|done]. cbn [default].
  destruct v as [|[]|z|f|t|[]|[]| | |]; try done;
    by match goal with |- context [if ?b then _ else _] => destruct b end.
Qed.

Lemma add_fields_wf s : system_wf (VDict s) = true -> system_wf (VDict (add_fields s)) = true.
Proof.
  unfold system_wf. cbn [dict_of]. rewrite add_fields_products.
  intros [Hf Hr]%andb_true_iff. apply andb_true_iff. split.
  - cbn [fact_ok] in *. rewrite dget_field by by_compute. unfold dget_none.
    destruct (dget "products" s) as [v|]; [|done]. cbn in *. by destruct (truthy v) eqn:Ht.
  - rewrite !dget_add_fields.
    repeat (apply andb_true_iff in Hr as [Hr ?]). rewrite !bool_decide_true by by_compute. cbn [andb].
    repeat (apply andb_true_iff; split); try done;
      by match goal with |- context [negb (truthy ?v)] => destruct (truthy v) end.
Qed.

Definition systems_of (s : pydict) (l : list pyval) : list pyval := VDict (add_fields s) :: l.

Lemma system_rows_spec headers l facts :
  forallb system_wf l = true ->
  Forall2 (fun f fact => agree_but (fact_products (dict_of f)) (dict_of f) fact) l facts ->
  exists rows, mapM (system_row headers) facts = Ok rows /\ Forall2 (row_of headers) facts rows.
Proof.
  intros Hl Hf. induction Hf as [|f fact l facts Ha Hf IH]; [exists []; by split; [|constructor]|].
  cbn in Hl. apply andb_true_iff in Hl as [Hw Hl]. destruct f as [| | | | | |d| | |]; try done.
  destruct (system_kept d fact Hw Ha) as (H1 & H2 & H3).
  destruct (system_row_spec headers fact H1 H2 H3) as (r & Hr & Hrow), (IH Hl) as (rs & Hrs & Hrows).
  exists (r :: rs). cbn. rewrite Hr. cbn. rewrite Hrs. split; [done | by constructor].
Qed.

Lemma system_wf_fact_ok l : forallb system_wf l = true -> forallb fact_ok l = true.
Proof.
  rewrite !forallb_forall. intros H x Hx. specialize (H x Hx). by apply andb_true_iff in H as [H _].
Qed.
Lemma list_index_head (v : pyval) l : list_index (v :: l) 0 = Ok v.
Proof. done. Qed.

Lemma deployments_rows_eq report_id report s l :
  deployments_rows report_id report (VList (VDict s :: l)) = systems_rows report_id report (systems_of s l).
Proof. reflexivity. Qed.

Lemma sources_column s l : exists f, f ∈ systems_of s l /\ "sources" ∈ fact_columns f.
Proof.
  assert ("sources" ∈ valid_fact_attributes) as Hv by by_compute.
  pose proof (add_fields_keys s "sources" Hv) as Hk.
  exists (VDict (add_fields s)). split; [left|]. unfold fact_columns. cbn [dict_of].
  apply elem_of_concat. exists ["sources"]. split; [|by left].
  apply list_elem_of_fmap. exists "sources". split; [by rewrite bool_decide_false | exact Hk].
Qed.

Lemma systems_of_wf s l :
  forallb system_wf (VDict s :: l) = true -> forallb system_wf (systems_of s l) = true.
Proof.
  unfold systems_of. cbn [forallb]. intros [Hs Hl]%andb_true_iff. rewrite Hl.
  rewrite (add_fields_wf s Hs). reflexivity.
Qed.

Lemma deployments_rows_spec report_id report s l :
  forallb system_wf (VDict s :: l) = true ->
  exists headers facts rows,
    deployments_rows report_id report (VList (VDict s :: l))
    = Ok (deployments_head report_id report ++ [strs headers] ++ rows ++ [[]])%list /\
    StronglySorted str_le headers /\ NoDup headers /\
    (forall h, h ∈ headers <-> h ∈ source_headers \/
       (h ∉ excluded_headers) /\ (exists f, f ∈ systems_of s l /\ h ∈ fact_columns f)) /\
    Forall2 (fun f fact => agree_but (fact_products (dict_of f)) (dict_of f) fact) (systems_of s l) facts /\
    Forall2 (row_of headers) facts rows.
Proof.
  intros Hwf. pose proof (systems_of_wf s l Hwf) as Hwf'.
  destruct (generate_headers_spec _ excluded_headers (system_wf_fact_ok _ Hwf'))
    as (hs & facts & Hg & _ & _ & Hh & Hf).
  destruct (system_rows_spec (system_headers hs) _ facts Hwf' Hf) as (rows & Hr & Hrows).
  exists (system_headers hs), facts, rows. split.
  { rewrite deployments_rows_eq. unfold systems_rows. rewrite Hg. cbn [mbind res_bind]. by rewrite Hr. }
  assert ("sources" ∈ hs) as Hsrc by (apply Hh; split; [by_compute | apply sources_column]).
  assert (system_headers hs = str_sorted (dedup (hs ++ source_headers))) as E
    by (unfold system_headers; by rewrite bool_decide_true).
  split; [rewrite E; apply sorted_StronglySorted|].
  split; [rewrite E, sorted_perm; apply NoDup_dedup|].
  split; [|done]. intros h. rewrite E, sorted_perm, elem_of_dedup, elem_of_app, Hh. tauto.
Qed.

Lemma field_column s h :
  h ∈ valid_fact_attributes -> h <> "products" -> h ∈ fact_columns (VDict (add_fields s)).
Proof.
  intros Hv Hp. pose proof (add_fields_keys s h Hv) as Hk. unfold fact_columns. cbn [dict_of].
  apply elem_of_concat. exists [h]. split; [|by left].
  apply list_elem_of_fmap. exists h. split; [by rewrite bool_decide_false | exact Hk].
Qed.

Definition sanitize_cell (v : pyval) : pyval :=
  sanitize_char (String lf "") (sanitize_char (String cr "") (sanitize_char "," v)).

Lemma sanitize_row_cells row : sanitize_row row = sanitize_cell <$> row.
Proof. unfold sanitize_row. by rewrite <- !list_fmap_compose. Qed.

(** The cells of the row of a fingerprint whose values are kept outside its products. *)
Lemma row_cells headers d fact row : agree_but (fact_products d) d fact -> row_of headers fact row ->
  Forall2 (fun h cell => plain_header h -> h ∉ fact_products d ->
             cell = sanitize_cell (serialize_value (dget_none h d))) headers row.
Proof.
  intros Ha (cells & -> & Hc). rewrite sanitize_row_cells. apply Forall2_fmap_r.
  eapply Forall2_impl; [exact Hc|]. cbn. intros h c Hh Hp Hn. rewrite (Hh Hp).
  unfold dget_none. by rewrite (Ha h Hn).
Qed.

Lemma rows_cells headers l facts rows :
  Forall2 (fun f fact => agree_but (fact_products (dict_of f)) (dict_of f) fact) l facts ->
  Forall2 (row_of headers) facts rows ->
  Forall2 (fun f row => Forall2 (fun h cell => plain_header h -> h ∉ fact_products (dict_of f) ->
             cell = sanitize_cell (serialize_value (dget_none h (dict_of f)))) headers row) l rows.
Proof.
  intros Hf. revert rows. induction Hf as [|f fact l facts Ha Hf IH]; intros rows Hr.
  - apply Forall2_nil_inv_l in Hr as ->. constructor.
  - apply Forall2_cons_inv_l in Hr as (row & rows' & Hrow & Hr & ->). constructor; [|by apply IH].
    by eapply row_cells.
Qed.

(** ** Properties *)

(** [C34] The CSV of a deployments report: on well-formed fingerprints it is made,
    reads back as the cells written, has a column for every field of the model
    that is not excluded and for every source type, sorted and distinct, and a
    row for each fingerprint; it is kept in a file, from which a second call
    takes the same text.  But the first fingerprint loses the values that are
    false: its cells for [False], [0] and empty values are blank, while the
    other fingerprints show them. *)
Theorem deployments_csv_spec dir now st d id report s l :
  dget_none "report_id" d = VInt id -> deployments st !! id = Some report ->
  dr_cached_csv_file_path report = None ->
  dget_none "system_fingerprints" d = VList (VDict s :: l) ->
  forallb system_wf (VDict s :: l) = true ->
  exists headers first rest text,
    let st' := save_cached_csv dir now st id report text in
    StronglySorted str_le headers /\ NoDup headers /\
    (forall h, h ∈ source_headers \/ (h ∈ valid_fact_attributes /\ (h ∉ excluded_headers) /\ h <> "products") ->
               h ∈ headers) /\
    csv_read text = Some (csv_cells
      (deployments_head (VInt id) report ++ [strs headers] ++ (first :: rest) ++ [[]])%list) /\
    Forall2 (fun h cell => plain_header h -> h ∈ valid_fact_attributes -> h ∉ fact_products s ->
      cell = if truthy (dget_none h s) then sanitize_cell (serialize_value (dget_none h s)) else VNone)
      headers first /\
    Forall2 (fun f row => Forall2 (fun h cell => plain_header h -> h ∉ fact_products (dict_of f) ->
      cell = sanitize_cell (serialize_value (dget_none h (dict_of f)))) headers row) l rest /\
    create_deployments_csv dir now st d = (st', Ok (VStr text)) /\
    create_deployments_csv dir now st' d = (st', Ok (VStr text)).
Proof.
  intros Hid Hrow Hpath Hsys Hwf.
  destruct (deployments_rows_spec (VInt id) report s l Hwf)
    as (headers & facts & rows & Hrows & Hsort & Hdup & Hh & Hf & Hr).
  pose proof (rows_cells _ _ _ _ Hf Hr) as Hcells.
  apply Forall2_cons_inv_l in Hcells as (first & rest & Hfirst & Hrest & ->).
  set (cells := (deployments_head (VInt id) report ++ [strs headers] ++ (first :: rest) ++ [[]])%list) in *.
  exists headers, first, rest, (writerows "" cells). cbn zeta.
  split; [done|]. split; [done|]. split.
  { intros h [Hs|(Hv & He & Hp)]; apply Hh; [by left|]. right. split; [done|].
    eexists. split; [left | by apply field_column]. }
  split; [apply csv_read_writerows|]. split.
  { eapply Forall2_impl; [exact Hfirst|]. cbn [dict_of]. rewrite add_fields_products.
    intros h c Hc Hp Hv Hn. rewrite (Hc Hp Hn), dget_add_fields, bool_decide_true by done.
    by destruct (truthy (dget_none h s)). }
  split; [done|].
  unfold create_deployments_csv. rewrite Hid, Hsys. cbn [is_none py_int]. rewrite Hrow.
  unfold cached_csv_of at 1. rewrite Hpath. cbn [truthy negb]. rewrite Hrows. split; [done|].
  unfold save_cached_csv at 1. cbn [deployments]. rewrite lookup_insert_eq.
  unfold cached_csv_of. cbn [dr_cached_csv_file_path set_csv_path parent csv_file].
  rewrite bool_decide_true by done. cbn [negb]. cbn [files save_cached_csv]. rewrite lookup_insert_eq.
  cbn [truthy]. rewrite bool_decide_false; [done|]. intros E.
  pose proof (csv_read_writerows cells) as H. rewrite E in H. discriminate H.
Qed.

#[local] Transparent add_fields.

Definition sample_system : pydict :=
  [("name", VStr "a"); ("is_redhat", VBool false);
   ("products", VList [VDict [("name", VStr "JBoss EAP")]]);
   ("entitlements", VList [VDict [("name", VStr "e"); ("metadata", VDict [])]]);
   ("sources", VList [VDict [("source_type", VStr "network"); ("source_name", VStr "net")]])].
Definition sample_deployment : deployment_row := mkdeployment 3 "deployments" "1.0" "uuid" None.
Definition sample_store : store := mkstore {[7 := sample_deployment]} ∅ [].
Definition sample_deployments : pydict :=
  [("report_id", VInt 7); ("system_fingerprints", VList [VDict sample_system; VDict sample_system])].

Lemma deployments_csv_spec_witness :
  exists text, let st' := save_cached_csv "/var" "0" sample_store 7 sample_deployment text in
    create_deployments_csv "/var" "0" sample_store sample_deployments = (st', Ok (VStr text)) /\
    create_deployments_csv "/var" "0" st' sample_deployments = (st', Ok (VStr text)).
Proof.
  destruct (deployments_csv_spec "/var" "0" sample_store sample_deployments 7 sample_deployment
    sample_system [VDict sample_system]) as (headers & first & rest & text & _ & _ & _ & _ & _ & _ & H);
    [reflexivity | apply lookup_singleton_eq | reflexivity | reflexivity | vm_compute; reflexivity |].
  exists text. exact H.
Defined.

(** Two equal fingerprints, two different rows. *)
Example first_row_loses_false :
  (r ← deployments_rows (VInt 7) sample_deployment (VList [VDict sample_system; VDict sample_system]);
   Ok (match drop 5 r with
       | [headers; first; second; _] =>
           filter (fun p : pyval * (pyval * pyval) => py_eq p.1 (VStr "is_redhat") = true)
             (zip headers (zip first second))
       | _ => [] end))
  = Ok [(VStr "is_redhat", (VNone, VBool false))].
Proof. vm_compute. reflexivity. Qed.
