(* ===== verification/Aggregate.v ===== *)
(** The aggregate report: totals over the fingerprints, the inspection results
    and the raw facts of a report.

    Models [api/aggregate_report/model.py] and [utils/datetime.py].  The report
    object is the dict of its attributes; the objects read are records of the
    columns that are read. *)
From stdpp Require Import base gmap sets list strings.
From Stdlib Require Import Ascii ZArith Lia SpecFloat.
From S2P Require Import Prelude PyStr PyNum PyVal DateParse ProductEap ProductFuse Merge.

Open Scope string_scope.
Open Scope Z_scope.

(** ** Dates: [date.toordinal] and its inverse *)

Definition days_before_year (y : Z) : Z := (y - 1) * 365 + (y - 1) / 4 - (y - 1) / 100 + (y - 1) / 400.

Fixpoint days_before_month (y : Z) (m : nat) : Z :=
  match m with
  | O => 0
  | S O => 0
  | S m => days_before_month y m + days_in_month y (Z.of_nat m)
  end.

Definition toordinal (d : date) : Z :=
  days_before_year (year d) + days_before_month (year d) (Z.to_nat (month d)) + day d.

(** The month of the day of the year [n], counted from 0. *)
Fixpoint find_month (y : Z) (m : nat) (fuel : nat) (n : Z) : Z * Z :=
  match fuel with
  | O => (Z.of_nat m, n + 1)
  | S fuel =>
      let k := days_in_month y (Z.of_nat m) in
      if n <? k then (Z.of_nat m, n + 1) else find_month y (S m) fuel (n - k)
  end.

(** [date.fromordinal]: cycles of 400, 100, 4 and 1 years. *)
Definition fromordinal (n : Z) : date :=
  let n := n - 1 in
  let n400 := n / 146097 in let n := n mod 146097 in
  let n100 := n / 36524 in let n := n mod 36524 in
  let n4 := n / 1461 in let n := n mod 1461 in
  let n1 := n / 365 in let n := n mod 365 in
  let y := n400 * 400 + n100 * 100 + n4 * 4 + n1 + 1 in
  if (n1 =? 4) || (n100 =? 4) then mkdate (y - 1) 12 31
  else let '(m, d) := find_month y 1 11 n in mkdate y m d.

(** ** [average_date]

    The average of the distances to the oldest date is a float whose whole days
    are added to it; they are the quotient below as long as there are fewer
    dates than microseconds in a day. *)
Definition average_date (dates : list date) : option date :=
  match toordinal <$> dates with
  | [] => None
  | n :: ns =>
      let oldest := foldl Z.min n ns in
      let sum_delta_since_oldest := foldl Z.add 0 ((fun k => k - oldest) <$> (n :: ns)) in
      Some (fromordinal (oldest + sum_delta_since_oldest / Z.of_nat (length (n :: ns))))
  end.

(** ** The objects read *)

Record SystemFingerprint := mkfp {
  fp_name : option string;
  fp_os_name : option string;
  fp_os_version : option string;
  fp_infrastructure_type : string;
  fp_is_redhat : option bool;
  fp_cpu_count : option Z;
  fp_cpu_core_count : option spec_float;
  fp_cpu_socket_count : option Z;
  fp_system_creation_date : option date;
  fp_system_purpose : option string;
  fp_redhat_certs : option string;
  fp_vm_cluster : option string;
  fp_virtual_host_uuid : option string;
  fp_sources : list pydict;
  fp_products : list (string * string) }.

Definition UNKNOWN : string := "unknown".

(** [x or dflt] on a nullable text, and [not x]. *)
Definition or_default (x : option string) (dflt : string) : string :=
  match x with None | Some "" => dflt | Some s => s end.
Definition blank (x : option string) : bool := bool_decide (or_default x "" = "").
Definition zero (x : option Z) : bool := match x with None | Some 0 => true | _ => false end.
Definition no_cores (x : option spec_float) : bool :=
  match x with None => true | Some f => negb (float_truthy f) end.

(** ** The report *)

Definition get_int (k : string) (d : pydict) : Z :=
  match dget k d with Some (VInt z) => z | _ => 0 end.
Definition get_float (k : string) (d : pydict) : spec_float :=
  match dget k d with Some (VFloat f) => f | _ => S754_zero false end.

(** [d.k += n] *)
Definition incr (k : string) (n : Z) (d : pydict) : pydict := dset k (VInt (get_int k d + n)) d.
Definition incr_if (c : bool) (k : string) (d : pydict) : pydict := if c then incr k 1 d else d.
Definition float_incr (k : string) (f : spec_float) (d : pydict) : pydict :=
  dset k (VFloat (SFadd prec64 emax64 (get_float k d) f)) d.

Definition int_fields : list string :=
  ["ansible_hosts_all"; "ansible_hosts_in_database"; "ansible_hosts_in_jobs";
   "inspect_result_status_failed"; "inspect_result_status_success"; "inspect_result_status_unknown";
   "inspect_result_status_unreachable"; "instances_hypervisor"; "instances_not_redhat";
   "instances_physical"; "instances_unknown"; "instances_virtual"; "jboss_eap_instances";
   "jboss_ws_instances"; "missing_cpu_core_count"; "missing_cpu_socket_count"; "missing_name";
   "missing_pem_files"; "missing_system_creation_date"; "missing_system_purpose"; "openshift_cores";
   "socket_pairs"; "vmware_hosts"; "vmware_vms"; "openshift_cluster_instances";
   "openshift_node_instances"].
Definition float_fields : list string :=
  ["jboss_eap_cores_physical"; "jboss_eap_cores_virtual"; "jboss_ws_cores_physical";
   "jboss_ws_cores_virtual"; "vmware_vm_to_host_ratio"].

(** [AggregateReport.objects.create]: the defaults of the columns. *)
Definition new_report : pydict :=
  (((fun k => (k, VInt 0)) <$> int_fields) ++ ((fun k => (k, VFloat (S754_zero false))) <$> float_fields)
   ++ [("openshift_operators_by_name", VDict []); ("openshift_operators_by_kind", VDict []);
       ("os_by_name_and_version", VDict []); ("system_creation_date_average", VNone)])%list.

(** ** [_aggregate_from_system_fingerprints] *)

Definition has_source (t : string) (fp : SystemFingerprint) : bool :=
  existsb (fun source => py_eq (dget_none "source_type" source) (VStr t)) (fp_sources fp).

(** The last product of a name decides. *)
Definition product_present (name : string) (fp : SystemFingerprint) : bool :=
  match list_find (fun p : string * string => p.1 = name) (rev (fp_products fp)) with
  | Some (_, (_, presence)) => bool_decide (presence = "present")
  | None => false
  end.

(** [ceil(n / 2)]: exact, the column holds 32 bits. *)
Definition socket_pairs (n : Z) : Z := - ((- n) / 2).

Record agg_state := mkagg {
  agg : pydict;
  os_versions : list (string * list (string * Z));
  creation_dates : list date;
  vms_by_host : list (string * list string) }.

Definition count_os (name version : string) (m : list (string * list (string * Z)))
  : list (string * list (string * Z)) :=
  let versions := default [] (dget name m) in
  dset name (dset version (default 0 (dget version versions) + 1) versions) m.

Definition counted (fp : SystemFingerprint) : bool :=
  default false (fp_is_redhat fp) || has_source "openshift" fp || has_source "satellite" fp.

Definition count_infrastructure (fp : SystemFingerprint) (eap ws : spec_float) (d : pydict) : pydict :=
  let t := fp_infrastructure_type fp in
  if bool_decide (t = "virtualized") then
    float_incr "jboss_ws_cores_virtual" ws (float_incr "jboss_eap_cores_virtual" eap
      (incr "instances_virtual" 1 d))
  else if bool_decide (t = "bare_metal") then
    float_incr "jboss_ws_cores_physical" ws (float_incr "jboss_eap_cores_physical" eap
      (incr "instances_physical" 1 d))
  else if bool_decide (t = "hypervisor") then incr "instances_hypervisor" 1 d
  else incr "instances_unknown" 1 d.

(** The updates of the report for a fingerprint that is counted. *)
Definition count_fingerprint (fp : SystemFingerprint) (d : pydict) : pydict :=
  let network := has_source "network" fp in
  let d := incr_if (no_cores (fp_cpu_core_count fp) && (network || has_source "satellite" fp))
             "missing_cpu_core_count" d in
  let d := incr_if (zero (fp_cpu_socket_count fp)) "missing_cpu_socket_count" d in
  let d := incr_if (blank (fp_name fp)) "missing_name" d in
  let d := incr_if (bool_decide (fp_system_creation_date fp = None)) "missing_system_creation_date" d in
  let cores := if no_cores (fp_cpu_core_count fp) then S754_zero false
               else default (S754_zero false) (fp_cpu_core_count fp) in
  let eap_present := product_present Eap.PRODUCT fp in
  let ws_present := product_present Jws.PRODUCT fp in
  let d := count_infrastructure fp (if eap_present then cores else S754_zero false)
             (if ws_present then cores else S754_zero false) d in
  let d := incr_if eap_present "jboss_eap_instances" d in
  let d := incr_if ws_present "jboss_ws_instances" d in
  let d := if zero (fp_cpu_socket_count fp) then d
           else incr "socket_pairs" (socket_pairs (default 0 (fp_cpu_socket_count fp))) d in
  let d := incr_if (network && blank (fp_system_purpose fp)) "missing_system_purpose" d in
  let d := incr_if (network && blank (fp_redhat_certs fp)) "missing_pem_files" d in
  if has_source "openshift" fp && negb (zero (fp_cpu_count fp))
  then incr "openshift_cores" (default 0 (fp_cpu_count fp)) d else d.

Definition count_vm (fp : SystemFingerprint) (m : list (string * list string)) : list (string * list string) :=
  if has_source "vcenter" fp && negb (blank (fp_vm_cluster fp)) && negb (blank (fp_virtual_host_uuid fp))
  then let cluster := or_default (fp_vm_cluster fp) "" in
       dset cluster (default [] (dget cluster m) ++ [or_default (fp_virtual_host_uuid fp) ""])%list m
  else m.

Definition fingerprint_step (st : agg_state) (fp : SystemFingerprint) : agg_state :=
  let os := count_os (or_default (fp_os_name fp) UNKNOWN) (or_default (fp_os_version fp) UNKNOWN)
              (os_versions st) in
  if negb (counted fp)
  then mkagg (incr "instances_not_redhat" 1 (agg st)) os (creation_dates st) (vms_by_host st)
  else mkagg (count_fingerprint fp (agg st)) os
         (creation_dates st ++ option_list (fp_system_creation_date fp))%list
         (count_vm fp (vms_by_host st)).

Definition vmware_totals (m : list (string * list string)) (d : pydict) : pydict :=
  if bool_decide (m = []) then d
  else
    let vms := foldl Z.add 0 ((fun '(_, items) => Z.of_nat (length (dedup items))) <$> m) in
    let hosts := Z.of_nat (length m) in
    dset "vmware_hosts" (VInt hosts)
      (dset "vmware_vm_to_host_ratio" (VFloat (float_div (float_of_int vms) (float_of_int hosts)))
         (dset "vmware_vms" (VInt vms) d)).

Definition _aggregate_from_system_fingerprints (aggregated : pydict) (fingerprints : list SystemFingerprint)
  : pydict :=
  let st := foldl fingerprint_step (mkagg aggregated [] [] []) fingerprints in
  let d := dset "os_by_name_and_version"
             (VDict ((fun '(name, versions) => (name, VDict ((fun '(v, n) => (v, VInt n)) <$> versions)))
                     <$> os_versions st)) (agg st) in
  let d := dset "system_creation_date_average"
             (match average_date (creation_dates st) with Some a => VDate a | None => VNone end) d in
  vmware_totals (vms_by_host st) d.

(** ** [_aggregate_from_inspect_results] *)

Definition count_status (d : pydict) (status : string) : pydict :=
  if bool_decide (status = "success") then incr "inspect_result_status_success" 1 d
  else if bool_decide (status = "failed") then incr "inspect_result_status_failed" 1 d
  else if bool_decide (status = "unreachable") then incr "inspect_result_status_unreachable" 1 d
  else incr "inspect_result_status_unknown" 1 d.

Definition _aggregate_from_inspect_results (aggregated : pydict) (statuses : list string) : pydict :=
  foldl count_status aggregated statuses.

(** ** [_aggregate_from_raw_facts] *)

(** A set of values built from a list: its elements must be hashable. *)
Fixpoint vdedup (l : list pyval) : list pyval :=
  match l with
  | [] => []
  | x :: l => x :: List.filter (fun y => negb (py_eq x y)) (vdedup l)
  end.

Definition py_set (l : list pyval) : Res (list pyval) :=
  if forallb hashable l then Ok (vdedup l) else Err TypeError.

(** A [defaultdict(int)] whose keys are any hashable values: [d[k] += 1]. *)
Fixpoint tally (k : pyval) (d : list (pyval * Z)) : list (pyval * Z) :=
  match d with
  | [] => [(k, 1)]
  | (k', n) :: d => if py_eq k k' then (k', n + 1) :: d else (k', n) :: tally k d
  end.
Definition py_tally (k : pyval) (d : list (pyval * Z)) : Res (list (pyval * Z)) :=
  if hashable k then Ok (tally k d) else Err TypeError.

Record raw_state := mkraw {
  raw_agg : pydict;
  hosts_in_database : list pyval;
  hosts_in_jobs : list pyval;
  operators_by_name : list (pyval * Z);
  operators_by_kind : list (pyval * Z) }.

(** [[host.get("name") for host in hosts if host.get("name")]] *)
Definition host_names (hosts : pyval) : Res (list pyval) :=
  l ← py_iter hosts;
  names ← mapM (fun host => vget host "name") l;
  Ok (List.filter truthy names).

Definition count_operator (acc : list (pyval * Z) * list (pyval * Z)) (operator : pyval)
  : Res (list (pyval * Z) * list (pyval * Z)) :=
  let '(by_name, by_kind) := acc in
  kind ← vget_default operator "kind" (VStr UNKNOWN);
  by_kind ← py_tally kind by_kind;
  name ← vget_default operator "name" (VStr UNKNOWN);
  by_name ← py_tally name by_name;
  Ok (by_name, by_kind).

Definition kind_is (raw_fact : pyval) (key : string) : Res bool :=
  v ← vget_default raw_fact key (VDict []);
  kind ← vget v "kind";
  Ok (py_eq kind (VStr key)).

Definition raw_fact_step (source_type : pyval) (st : raw_state) (raw_fact : pyval) : Res raw_state :=
  if py_eq source_type (VStr "ansible") then
    hosts ← vget_default raw_fact "hosts" (VList []);
    names ← host_names hosts;
    jobs ← vget_default raw_fact "jobs" (VDict []);
    unique_hosts ← vget_default jobs "unique_hosts" (VList []);
    l ← py_iter unique_hosts;
    Ok (mkraw (raw_agg st) (hosts_in_database st ++ names) (hosts_in_jobs st ++ l)
          (operators_by_name st) (operators_by_kind st))%list
  else if py_eq source_type (VStr "openshift") then
    is_cluster ← kind_is raw_fact "cluster";
    d ← (if (is_cluster : bool) then Ok (incr "openshift_cluster_instances" 1 (raw_agg st))
         else is_node ← kind_is raw_fact "node";
              Ok (incr_if is_node "openshift_node_instances" (raw_agg st)));
    operators ← vget_default raw_fact "operators" (VList []);
    l ← py_iter operators;
    r ← foldM count_operator (operators_by_name st, operators_by_kind st) l;
    let '(by_name, by_kind) := r : list (pyval * Z) * list (pyval * Z) in
    Ok (mkraw d (hosts_in_database st) (hosts_in_jobs st) by_name by_kind)
  else Ok st.

Definition source_facts_step (st : raw_state) (group : pyval * pyval) : Res raw_state :=
  let '(source_type, raw_facts) := group in
  l ← py_iter raw_facts;
  foldM (raw_fact_step source_type) st l.

(** The text of a key in the JSON column. *)
Definition json_key (k : pyval) : string :=
  match k with VNone => "null" | VBool b => if b then "true" else "false" | _ => py_str k end.

Definition tally_dict (d : list (pyval * Z)) : pyval :=
  VDict ((fun '(k, n) => (json_key k, VInt n)) <$> d).

Definition _aggregate_from_raw_facts (aggregated : pydict) (grouped_facts : list (pyval * pyval))
  : Res pydict :=
  st ← foldM source_facts_step (mkraw aggregated [] [] [] []) grouped_facts;
  in_database ← py_set (hosts_in_database st);
  in_jobs ← py_set (hosts_in_jobs st);
  let all := vdedup (in_database ++ in_jobs) in
  let count (l : list pyval) := VInt (Z.of_nat (length l)) in
  let d := dset "ansible_hosts_all" (count all) (raw_agg st) in
  let d := dset "ansible_hosts_in_database" (count in_database) d in
  let d := dset "ansible_hosts_in_jobs" (count in_jobs) d in
  let d := dset "openshift_operators_by_kind" (tally_dict (operators_by_kind st)) d in
  Ok (dset "openshift_operators_by_name" (tally_dict (operators_by_name st)) d).

(** ** [build_aggregate_report] *)

(** A report as the aggregation reads it: the fingerprints are those of its
    deployments report, when it has one. *)
Record report_data := mkdata {
  rp_updated_at : Z;
  rp_fingerprints : option (list SystemFingerprint);
  rp_statuses : list string;
  rp_sources : list (pyval * pyval) }.

(** The rows of aggregate reports, by the id of their report. *)
Record aggregate_row := mkrow { ag_updated_at : Z; ag_values : pydict }.

Definition aggregate (data : report_data) : Res pydict :=
  match rp_fingerprints data with
  | None => Err (AttributeError "system_fingerprints")
  | Some fps =>
      let d := _aggregate_from_system_fingerprints new_report fps in
      let d := _aggregate_from_inspect_results d (rp_statuses data) in
      _aggregate_from_raw_facts d (rp_sources data)
  end.

(** The new row is created, hence stored, before the totals are computed: an
    exception leaves it as it is. *)
Definition build_aggregate_report (reports : gmap Z report_data) (rows : gmap Z aggregate_row)
    (now : Z) (report_id : Z) (force_build : bool) : gmap Z aggregate_row * Res aggregate_row :=
  match reports !! report_id with
  | None => (rows, Err DoesNotExist)
  | Some report =>
      let build :=
        let rows := <[report_id := mkrow now new_report]> (delete report_id rows) in
        match aggregate report with
        | Ok d => let row := mkrow now d in (<[report_id := row]> rows, Ok row)
        | Err e => (rows, Err e)
        end in
      match rows !! report_id with
      | Some aggregated =>
          if (rp_updated_at report <=? ag_updated_at aggregated) && negb force_build
          then (rows, Ok aggregated) else build
      | None => build
      end
  end.

Definition is_does_not_exist (e : exn) : bool := match e with DoesNotExist => true | _ => false end.

Definition get_aggregate_report_by_report_id (reports : gmap Z report_data) (rows : gmap Z aggregate_row)
    (now : Z) (report_id : Z) : gmap Z aggregate_row * Res (option aggregate_row) :=
  match reports !! report_id with
  | None => (rows, Ok None)
  | Some _ =>
      let '(rows, r) := build_aggregate_report reports rows now report_id false in
      (rows, match r with
             | Ok row => Ok (Some row)
             | Err e => if is_does_not_exist e then Ok None else Err e
             end)
  end.

(** ** Lemmas: ordinals *)

Lemma days_before_next y m : (1 <= m)%nat ->
  days_before_month y (S m) = days_before_month y m + days_in_month y (Z.of_nat m).
Proof. destruct m; [lia | done]. Qed.

Lemma find_month_spec y fuel : forall m n, (1 <= m)%nat ->
  days_before_month y (Z.to_nat (find_month y m fuel n).1) + (find_month y m fuel n).2
  = days_before_month y m + n + 1.
Proof.
  induction fuel as [|fuel IH]; intros m n Hm; cbn [find_month].
  - cbn [fst snd]. rewrite Nat2Z.id. lia.
  - destruct (n <? days_in_month y (Z.of_nat m)); [cbn [fst snd]; rewrite Nat2Z.id; lia|].
    rewrite IH, days_before_next by lia. lia.
Qed.

Lemma days_before_december y :
  days_before_month y 12 = if is_leap y then 335 else 334.
Proof. unfold days_before_month, days_in_month. cbn [Z.of_nat Pos.of_succ_nat Pos.succ]. by destruct (is_leap y). Qed.

(** The decomposition of a day number into cycles. *)
Lemma cycles n : 0 <= n -> exists n400 n100 n4 n1 r,
  n = n400 * 146097 + n100 * 36524 + n4 * 1461 + n1 * 365 + r /\
  n400 = n / 146097 /\ n100 = n mod 146097 / 36524 /\ n4 = n mod 146097 mod 36524 / 1461 /\
  n1 = n mod 146097 mod 36524 mod 1461 / 365 /\ r = n mod 146097 mod 36524 mod 1461 mod 365 /\
  0 <= n400 /\ 0 <= n100 <= 4 /\ 0 <= n4 <= 24 /\ 0 <= n1 <= 4 /\ 0 <= r < 365 /\
  (n100 = 4 -> n4 = 0 /\ n1 = 0 /\ r = 0) /\ (n1 = 4 -> r = 0 /\ (n4 = 24 -> False)).
Proof.
  intros Hn. eexists _, _, _, _, _. repeat split; try reflexivity.
  all: Z.div_mod_to_equations; lia.
Qed.

Lemma years_before a b c e :
  0 <= b <= 3 -> 0 <= c <= 24 -> 0 <= e <= 3 ->
  days_before_year (a * 400 + b * 100 + c * 4 + e + 1) = a * 146097 + b * 36524 + c * 1461 + e * 365.
Proof.
  intros Hb Hc He. unfold days_before_year.
  replace ((a * 400 + b * 100 + c * 4 + e + 1 - 1) / 4) with (a * 100 + b * 25 + c)
    by (Z.div_mod_to_equations; lia).
  replace ((a * 400 + b * 100 + c * 4 + e + 1 - 1) / 100) with (a * 4 + b)
    by (Z.div_mod_to_equations; lia).
  replace ((a * 400 + b * 100 + c * 4 + e + 1 - 1) / 400) with a by (Z.div_mod_to_equations; lia).
  lia.
Qed.

Lemma last_day_ordinal y : is_leap y = true -> toordinal (mkdate y 12 31) = days_before_year y + 366.
Proof.
  intros Hl. unfold toordinal. cbn [year month day]. change (Z.to_nat 12) with 12%nat.
  rewrite days_before_december, Hl. lia.
Qed.

(** [date.fromordinal] and [date.toordinal] are inverse. *)
Lemma toordinal_fromordinal n : 1 <= n -> toordinal (fromordinal n) = n.
Proof.
  intros Hn. unfold fromordinal.
  destruct (cycles (n - 1) ltac:(lia))
    as (a & b & c & e & r & Heq & <- & <- & <- & <- & <- & Ha & Hb & Hc & He & Hr & Hb4 & He4).
  destruct ((e =? 4) || (b =? 4)) eqn:Hlast.
  - assert (b = 4 /\ c = 0 /\ e = 0 /\ r = 0 \/ e = 4 /\ r = 0 /\ b <= 3 /\ c <= 23) as Hcase by lia.
    rewrite last_day_ordinal.
    + destruct Hcase as [(-> & -> & -> & ->)|(-> & -> & Hb3 & Hc3)].
      * replace (a * 400 + 4 * 100 + 0 * 4 + 0 + 1 - 1) with (a * 400 + 3 * 100 + 24 * 4 + 3 + 1) by lia.
        rewrite years_before by lia. lia.
      * replace (a * 400 + b * 100 + c * 4 + 4 + 1 - 1) with (a * 400 + b * 100 + c * 4 + 3 + 1) by lia.
        rewrite years_before by lia. lia.
    + unfold is_leap.
      destruct Hcase as [(-> & -> & -> & ->)|(-> & -> & Hb3 & Hc3)];
        apply andb_true_iff; split; rewrite ?orb_true_iff, ?negb_true_iff, ?Z.eqb_neq, ?Z.eqb_eq;
        Z.div_mod_to_equations; lia.
  - apply orb_false_iff in Hlast as [He'%Z.eqb_neq Hb'%Z.eqb_neq].
    set (y := a * 400 + b * 100 + c * 4 + e + 1).
    pose proof (find_month_spec y 11 1 r ltac:(lia)) as Hm.
    destruct (find_month y 1 11 r) as [m d]. cbn [fst snd] in Hm. unfold toordinal. cbn [year month day].
    unfold y at 1. rewrite years_before by lia. cbn [days_before_month] in Hm. lia.
Qed.

(** ** Lemmas: sums *)

Definition zsum (l : list Z) : Z := foldr Z.add 0 l.

Lemma foldl_add l : forall a, foldl Z.add a l = a + zsum l.
Proof. induction l as [|n l IH]; intros a; cbn; [lia|]. rewrite IH. unfold zsum. lia. Qed.

Lemma zsum_shift o l : zsum ((fun k => k - o) <$> l) = zsum l - Z.of_nat (length l) * o.
Proof. induction l as [|n l IH]; [done|]. cbn [fmap list_fmap zsum foldr length] in *. unfold zsum in IH. lia. Qed.

Lemma zsum_bounds lo hi l : Forall (fun n => lo <= n <= hi) l ->
  Z.of_nat (length l) * lo <= zsum l <= Z.of_nat (length l) * hi.
Proof. induction 1; cbn [zsum foldr length] in *; unfold zsum in *; lia. Qed.

Lemma zsum_perm l1 l2 : l1 ≡ₚ l2 -> zsum l1 = zsum l2.
Proof. unfold zsum. induction 1; cbn; lia. Qed.

(** ** Lemmas: counters *)

Lemma get_int_dset k k' v d :
  get_int k (dset k' v d) = if decide (k = k') then match v with VInt z => z | _ => 0 end else get_int k d.
Proof. unfold get_int. rewrite dget_dset. by case_decide. Qed.

Lemma get_int_incr_eq k n d : get_int k (incr k n d) = get_int k d + n.
Proof. unfold incr. rewrite get_int_dset. by case_decide. Qed.
Lemma get_int_incr_ne k k' n d : k <> k' -> get_int k (incr k' n d) = get_int k d.
Proof. intros H. unfold incr. rewrite get_int_dset. by case_decide. Qed.
Lemma get_int_incr_if_eq k c d : get_int k (incr_if c k d) = get_int k d + b2z c.
Proof. unfold incr_if. destruct c; [apply get_int_incr_eq | cbn; lia]. Qed.
Lemma get_int_incr_if_ne k k' c d : k <> k' -> get_int k (incr_if c k' d) = get_int k d.
Proof. intros H. unfold incr_if. destruct c; [by apply get_int_incr_ne | done]. Qed.
Lemma get_int_float k k' f d : k <> k' -> get_int k (float_incr k' f d) = get_int k d.
Proof. intros H. unfold float_incr. rewrite get_int_dset. by case_decide. Qed.

Lemma get_int_when_eq k n (c : bool) d :
  get_int k (if c then incr k n d else d) = get_int k d + (if c then n else 0).
Proof. destruct c; [apply get_int_incr_eq | lia]. Qed.
Lemma get_int_when_ne k k' n (c : bool) d : k <> k' -> get_int k (if c then incr k' n d else d) = get_int k d.
Proof. intros H. destruct c; [by apply get_int_incr_ne | done]. Qed.
Lemma get_int_unless_eq k n (c : bool) d :
  get_int k (if c then d else incr k n d) = get_int k d + (if c then 0 else n).
Proof. destruct c; [lia | apply get_int_incr_eq]. Qed.
Lemma get_int_unless_ne k k' n (c : bool) d : k <> k' -> get_int k (if c then d else incr k' n d) = get_int k d.
Proof. intros H. destruct c; [done | by apply get_int_incr_ne]. Qed.

Ltac counters :=
  repeat first
    [ rewrite get_int_when_ne by discriminate | rewrite get_int_unless_ne by discriminate
    | rewrite get_int_when_eq | rewrite get_int_unless_eq
    | rewrite get_int_incr_eq | rewrite get_int_incr_if_eq
    | rewrite get_int_incr_ne by discriminate | rewrite get_int_incr_if_ne by discriminate
    | rewrite get_int_float by discriminate ].

(** The counters over the fingerprints, each with what a fingerprint adds to it:
    the sums a one-counter-at-a-time definition would take. *)
Definition infrastructure (t : string) (fp : SystemFingerprint) : bool :=
  counted fp && bool_decide (fp_infrastructure_type fp = t).

Definition counters : list (string * (SystemFingerprint -> Z)) :=
  [ ("instances_not_redhat", fun fp => b2z (negb (counted fp)));
    ("instances_virtual", fun fp => b2z (infrastructure "virtualized" fp));
    ("instances_physical", fun fp => b2z (infrastructure "bare_metal" fp));
    ("instances_hypervisor", fun fp => b2z (infrastructure "hypervisor" fp));
    ("instances_unknown", fun fp => b2z (counted fp && bool_decide
        (fp_infrastructure_type fp ∉ ["virtualized"; "bare_metal"; "hypervisor"])));
    ("missing_cpu_core_count", fun fp => b2z (counted fp && no_cores (fp_cpu_core_count fp)
        && (has_source "network" fp || has_source "satellite" fp)));
    ("missing_cpu_socket_count", fun fp => b2z (counted fp && zero (fp_cpu_socket_count fp)));
    ("missing_name", fun fp => b2z (counted fp && blank (fp_name fp)));
    ("missing_system_creation_date", fun fp => b2z (counted fp && bool_decide (fp_system_creation_date fp = None)));
    ("jboss_eap_instances", fun fp => b2z (counted fp && product_present "JBoss EAP" fp));
    ("jboss_ws_instances", fun fp => b2z (counted fp && product_present "JBoss Web Server" fp));
    ("socket_pairs", fun fp => if counted fp then socket_pairs (default 0 (fp_cpu_socket_count fp)) else 0);
    ("missing_system_purpose", fun fp => b2z (counted fp && has_source "network" fp && blank (fp_system_purpose fp)));
    ("missing_pem_files", fun fp => b2z (counted fp && has_source "network" fp && blank (fp_redhat_certs fp)));
    ("openshift_cores", fun fp => if counted fp && has_source "openshift" fp then default 0 (fp_cpu_count fp) else 0) ].

Lemma zero_default x : zero x = true -> default 0 x = 0.
Proof. destruct x as [[]|]; done. Qed.

Definition counts (k : string) (f : SystemFingerprint -> Z) : Prop :=
  forall st fp, get_int k (agg (fingerprint_step st fp)) = get_int k (agg st) + f fp.

Lemma infrastructure_counts k fp eap ws d :
  k ∈ ["instances_virtual"; "instances_physical"; "instances_hypervisor"; "instances_unknown"] ->
  get_int k (count_infrastructure fp eap ws d)
  = get_int k d + b2z (bool_decide (k =
      if bool_decide (fp_infrastructure_type fp = "virtualized") then "instances_virtual"
      else if bool_decide (fp_infrastructure_type fp = "bare_metal") then "instances_physical"
      else if bool_decide (fp_infrastructure_type fp = "hypervisor") then "instances_hypervisor"
      else "instances_unknown")).
Proof.
  unfold count_infrastructure. intros Hk.
  repeat (apply elem_of_cons in Hk as [->|Hk]; [repeat case_bool_decide; try done; counters; cbn; lia|]).
  by apply elem_of_nil in Hk.
Qed.

Lemma infrastructure_other k fp eap ws d :
  k ∉ ["instances_virtual"; "instances_physical"; "instances_hypervisor"; "instances_unknown";
       "jboss_eap_cores_virtual"; "jboss_eap_cores_physical"; "jboss_ws_cores_virtual"; "jboss_ws_cores_physical"] ->
  get_int k (count_infrastructure fp eap ws d) = get_int k d.
Proof.
  unfold count_infrastructure. intros Hk. repeat case_bool_decide;
    repeat first [rewrite get_int_incr_ne by set_solver | rewrite get_int_float by set_solver]; done.
Qed.

Ltac count_step :=
  intros st fp; unfold fingerprint_step, infrastructure; destruct (counted fp); cbn [negb andb agg];
  [unfold count_fingerprint, Eap.PRODUCT, Jws.PRODUCT | counters; cbn [b2z]; lia];
  counters;
  first [rewrite infrastructure_other by by_compute | rewrite infrastructure_counts by by_compute];
  counters.

Ltac infrastructure_cases :=
  match goal with |- context [fp_infrastructure_type ?fp] =>
    generalize (fp_infrastructure_type fp); intros t;
    destruct (decide (t = "virtualized")) as [->|?]; [reflexivity|];
    destruct (decide (t = "bare_metal")) as [->|?]; [reflexivity|];
    destruct (decide (t = "hypervisor")) as [->|?]; [reflexivity|];
    rewrite !(bool_decide_false (t = _)) by done;
    rewrite ?(bool_decide_true (t ∉ _)) by set_solver; reflexivity
  end.

Lemma pairs_default x : (if zero x then 0 else socket_pairs (default 0 x)) = socket_pairs (default 0 x).
Proof. by destruct x as [[]|]. Qed.

Lemma cores_default (b : bool) x :
  (if b && negb (zero x) then default 0 x else 0) = if b then default 0 x else 0.
Proof. destruct b; [by destruct x as [[]|] | done]. Qed.

Lemma counters_step : Forall (fun c => counts c.1 c.2) counters.
Proof.
  unfold counters. repeat constructor; cbn [fst snd]; count_step;
    rewrite ?pairs_default, ?cores_default;
    first [reflexivity | infrastructure_cases | cbn [b2z]; lia].
Qed.

(** The loop adds up what each fingerprint contributes. *)
Lemma counters_loop k f fps : counts k f ->
  forall st, get_int k (agg (foldl fingerprint_step st fps)) = get_int k (agg st) + zsum (f <$> fps).
Proof.
  intros Hc. induction fps as [|fp fps IH]; intros st; cbn; [lia|]. rewrite IH, (Hc st fp).
  unfold zsum. lia.
Qed.

(** What the attributes set after the loop leave unchanged. *)
Definition final_keys : list string :=
  ["os_by_name_and_version"; "system_creation_date_average"; "vmware_hosts"; "vmware_vms";
   "vmware_vm_to_host_ratio"].

Lemma final_keeps k d fps : k ∉ final_keys ->
  get_int k (_aggregate_from_system_fingerprints d fps)
  = get_int k (agg (foldl fingerprint_step (mkagg d [] [] []) fps)).
Proof.
  intros Hk. unfold _aggregate_from_system_fingerprints, vmware_totals, final_keys in *.
  case_bool_decide; rewrite !get_int_dset; repeat case_decide; subst; try done; set_solver.
Qed.

Lemma counters_total k f fps : (k, f) ∈ counters ->
  get_int k (_aggregate_from_system_fingerprints new_report fps) = zsum (f <$> fps).
Proof.
  intros Hin. pose proof (proj1 (Forall_forall _ _) counters_step _ Hin) as Hc. cbn [fst snd] in Hc.
  assert (Forall (fun c : string * (SystemFingerprint -> Z) =>
            (c.1 ∉ final_keys) /\ get_int c.1 new_report = 0) counters) as Hk.
  { unfold counters. repeat constructor; by_compute. }
  destruct (proj1 (Forall_forall _ _) Hk _ Hin) as [Hf Hz]. cbn [fst snd] in Hf, Hz.
  rewrite final_keeps, (counters_loop k f fps Hc) by done. cbn [agg]. by rewrite Hz.
Qed.

Lemma zsum_fmap_add {A} (f g : A -> Z) l : zsum (f <$> l) + zsum (g <$> l) = zsum ((fun x => f x + g x) <$> l).
Proof. induction l as [|x l IH]; [done|]. unfold zsum in *. cbn. lia. Qed.

Lemma zsum_fmap_ext {A} (f g : A -> Z) l : (forall x, f x = g x) -> zsum (f <$> l) = zsum (g <$> l).
Proof. intros H. induction l as [|x l IH]; [done|]. unfold zsum in *. cbn. by rewrite H, IH. Qed.

Lemma zsum_one {A} (l : list A) : zsum ((fun _ => 1) <$> l) = Z.of_nat (length l).
Proof. induction l as [|x l IH]; [done|]. unfold zsum in *. cbn. lia. Qed.

(** A fingerprint counts for exactly one of the five kinds of instances. *)
Lemma one_kind fp :
  b2z (infrastructure "virtualized" fp)
  + (b2z (infrastructure "bare_metal" fp)
  + (b2z (infrastructure "hypervisor" fp)
  + (b2z (counted fp && bool_decide
       (fp_infrastructure_type fp ∉ ["virtualized"; "bare_metal"; "hypervisor"]))
  + b2z (negb (counted fp))))) = 1.
Proof.
  unfold infrastructure. destruct (counted fp); cbn [andb negb]; [|done].
  infrastructure_cases.
Qed.

Lemma average_date_cons d dates :
  average_date (d :: dates)
  = Some (fromordinal (zsum (toordinal <$> d :: dates) / Z.of_nat (length (d :: dates)))).
Proof.
  assert (forall o ns k, 0 < k -> Z.of_nat (length ns) = k ->
    o + foldl Z.add 0 ((fun k => k - o) <$> ns) / k = zsum ns / k) as H.
  { intros o ns k Hk Hl. rewrite foldl_add, zsum_shift, Hl, Z.add_0_l.
    replace (zsum ns - k * o) with (zsum ns + (- o) * k) by lia. rewrite Z.div_add by lia. lia. }
  unfold average_date. rewrite fmap_cons. cbv beta iota. rewrite H.
  - by rewrite <- fmap_cons, length_fmap.
  - cbn. lia.
  - done.
Qed.

(** ** Properties *)

(** [C32] One pass over the fingerprints gives the totals that separate sums would
    give: every counter of the report is the sum of what each fingerprint
    contributes to it on its own, whatever their order.  The five kinds of
    instances partition the fingerprints. *)
Theorem aggregate_counts fps :
  let report := _aggregate_from_system_fingerprints new_report fps in
  Forall (fun '(k, f) => get_int k report = zsum (f <$> fps)) counters /\
  (forall fps', fps' ≡ₚ fps -> Forall (fun '(k, _) =>
     get_int k (_aggregate_from_system_fingerprints new_report fps') = get_int k report) counters) /\
  get_int "instances_virtual" report + (get_int "instances_physical" report
  + (get_int "instances_hypervisor" report + (get_int "instances_unknown" report
  + get_int "instances_not_redhat" report))) = Z.of_nat (length fps).
Proof.
  cbn zeta. split; [|split].
  - apply Forall_forall. intros [k f] Hin. by apply counters_total.
  - intros fps' Hp. apply Forall_forall. intros [k f] Hin. rewrite !(counters_total k f) by done.
    apply zsum_perm. by rewrite Hp.
  - erewrite (counters_total "instances_virtual") by (do 1 right; left).
    erewrite (counters_total "instances_physical") by (do 2 right; left).
    erewrite (counters_total "instances_hypervisor") by (do 3 right; left).
    erewrite (counters_total "instances_unknown") by (do 4 right; left).
    erewrite (counters_total "instances_not_redhat") by left.
    rewrite !zsum_fmap_add, <- zsum_one. apply zsum_fmap_ext. apply one_kind.
Qed.

(** The average creation date is the date whose ordinal is the mean of the
    ordinals rounded down, hence lies between the oldest and the newest and does
    not depend on the order; without dates there is none. *)
Theorem average_date_mean dates :
  Forall (fun d => 1 <= toordinal d) dates ->
  match average_date dates with
  | None => dates = []
  | Some a =>
      toordinal a = zsum (toordinal <$> dates) / Z.of_nat (length dates) /\
      forall lo hi, Forall (fun d => lo <= toordinal d <= hi) dates -> lo <= toordinal a <= hi
  end.
Proof.
  intros Hpos. destruct dates as [|d dates]; [done|].
  rewrite average_date_cons. set (n := Z.of_nat (length (d :: dates))). set (l := d :: dates) in *.
  assert (0 < n) as Hn by (unfold n, l; cbn; lia).
  assert (forall lo hi, Forall (fun d => lo <= toordinal d <= hi) l ->
          lo <= zsum (toordinal <$> l) / n <= hi) as Hb.
  { intros lo hi H. pose proof (zsum_bounds lo hi (toordinal <$> l)) as Hs.
    rewrite length_fmap in Hs. fold n in Hs. specialize (Hs ltac:(by apply Forall_fmap)).
    split; [apply Z.div_le_lower_bound; lia | apply Z.div_le_upper_bound; lia]. }
  assert (1 <= zsum (toordinal <$> l) / n) as H1.
  { apply Z.div_le_lower_bound; [done|]. unfold n. clear -Hpos.
    induction Hpos as [|x l Hx Hl IH]; [done|]. cbn [fmap list_fmap length zsum foldr].
    unfold zsum in IH. cbn in IH |- *. lia. }
  rewrite toordinal_fromordinal by done. split; [done | exact Hb].
Qed.

Definition sample_fingerprint : SystemFingerprint :=
  mkfp (Some "h") (Some "RHEL") (Some "9.1") "virtualized" (Some true) None (Some (float_of_int 2))
    (Some 3) (Some (mkdate 2024 3 31)) None None None None
    [[("source_type", VStr "network")]] [("JBoss EAP", "present")].

Lemma average_date_mean_witness :
  exists a, average_date [mkdate 2024 3 31; mkdate 2024 4 2] = Some a /\
    toordinal a = zsum (toordinal <$> [mkdate 2024 3 31; mkdate 2024 4 2]) / 2.
Proof.
  pose proof (average_date_mean [mkdate 2024 3 31; mkdate 2024 4 2] ltac:(by repeat constructor)) as H.
  exists (mkdate 2024 4 1).
  assert (average_date [mkdate 2024 3 31; mkdate 2024 4 2] = Some (mkdate 2024 4 1)) as E
    by (vm_compute; reflexivity).
  rewrite E in H. split; [exact E | exact (proj1 H)].
Defined.

(** The aggregate report of a report is the stored one as long as it is not
    older than the report; otherwise it is computed, stored and given.  But a
    computation that fails leaves a row behind: the first request raises, and
    every later one gives a report of zeros, as if it were right. *)
Theorem aggregate_report_stored reports rows now id data :
  reports !! id = Some data ->
  (forall row, rows !! id = Some row -> ag_updated_at row < rp_updated_at data) ->
  rp_updated_at data <= now ->
  match aggregate data with
  | Ok d =>
      let rows' := <[id := mkrow now d]> rows in
      get_aggregate_report_by_report_id reports rows now id = (rows', Ok (Some (mkrow now d))) /\
      forall later, get_aggregate_report_by_report_id reports rows' later id
                    = (rows', Ok (Some (mkrow now d)))
  | Err e =>
      let rows' := <[id := mkrow now new_report]> rows in
      (get_aggregate_report_by_report_id reports rows now id).1 = rows' /\
      (e <> DoesNotExist -> (get_aggregate_report_by_report_id reports rows now id).2 = Err e) /\
      forall later, get_aggregate_report_by_report_id reports rows' later id
                    = (rows', Ok (Some (mkrow now new_report)))
  end.
Proof.
  intros Hr Hstale Hnow.
  assert (forall d rows' later, rows' !! id = Some (mkrow now d) ->
    get_aggregate_report_by_report_id reports rows' later id = (rows', Ok (Some (mkrow now d)))) as Hagain.
  { intros d rows' later Hd. unfold get_aggregate_report_by_report_id, build_aggregate_report.
    rewrite Hr, Hd. cbn [ag_updated_at negb andb]. by rewrite (proj2 (Z.leb_le _ _) Hnow). }
  assert (get_aggregate_report_by_report_id reports rows now id =
    match aggregate data with
    | Ok d => (<[id := mkrow now d]> rows, Ok (Some (mkrow now d)))
    | Err e => (<[id := mkrow now new_report]> rows, if is_does_not_exist e then Ok None else Err e)
    end) as Hfirst.
  { unfold get_aggregate_report_by_report_id, build_aggregate_report. rewrite Hr. cbv zeta.
    destruct (rows !! id) as [row|]; [rewrite (proj2 (Z.leb_gt _ _) (Hstale row eq_refl)); cbn [andb]|];
      destruct (aggregate data); by rewrite insert_delete_eq, ?insert_insert_eq. }
  rewrite Hfirst. destruct (aggregate data) as [d|e]; cbn zeta; cbn [fst snd].
  - split; [done|]. intros later. apply Hagain, lookup_insert_eq.
  - split; [done|]. split; [by destruct e|]. intros later. apply Hagain, lookup_insert_eq.
Qed.

Lemma aggregate_report_stored_witness :
  let data := mkdata 5 None [] [] in
  (get_aggregate_report_by_report_id {[1 := data]} ∅ 6 1).2 = Err (AttributeError "system_fingerprints") /\
  (get_aggregate_report_by_report_id {[1 := data]} {[1 := mkrow 6 new_report]} 7 1).2
  = Ok (Some (mkrow 6 new_report)).
Proof.
  destruct (aggregate_report_stored {[1 := mkdata 5 None [] []]} ∅ 6 1 (mkdata 5 None [] [])
    (lookup_singleton_eq _ _) ltac:(intros row H; by rewrite lookup_empty in H) ltac:(discriminate))
    as (_ & H1 & H2).
  split; [exact (H1 ltac:(discriminate)) | exact (f_equal snd (H2 7))].
Defined.

(** A fingerprint of a virtual machine with JBoss EAP. *)
Example sample_totals :
  let d := _aggregate_from_system_fingerprints new_report [sample_fingerprint; sample_fingerprint] in
  get_int "instances_virtual" d = 2 /\ get_int "socket_pairs" d = 4 /\
  get_int "missing_pem_files" d = 2 /\ dget "jboss_eap_cores_virtual" d = Some (VFloat (float_of_int 4)).
Proof. vm_compute. auto. Qed.
