(* ===== verification/FingerprintTask.v ===== *)
(** The fingerprint task: [FingerprintTaskRunner.execute_task],
    [_process_details_report] and [_create_aggregate_report] of
    [fingerprinter/runner.py], the fields and [create] of
    [SystemFingerprintSerializer] in [api/deployments_report/serializer.py], and the
    cached fingerprints of [DeploymentsReport] in [api/deployments_report/model.py].

    It reads the sources of the report ([RawFacts]), makes and merges the
    fingerprints ([Merge._process_sources]), stores those that are valid, caches
    them in a file and builds the aggregate report ([Aggregate]).

    The validation of one value by a field of Django REST framework is the argument
    [field_value], and what the database accepts is [db_accepts].  Log lines are not
    modelled. *)
From stdpp Require Import base gmap sets list strings.
From Stdlib Require Import Ascii ZArith Lia SpecFloat.
From S2P Require Import Prelude PyStr PyNum PyVal Fingerprints Merge ScanModel RawFacts Deployments Aggregate.

Open Scope string_scope.
Open Scope Z_scope.

(** ** The serializer *)

Inductive field_kind :=
| CharField (max_length : option Z)
| IntegerField
| FloatField
| BooleanField
| DateField
| JSONField
| ChoiceField (choices : list string)
| PrimaryKeyField.

Record field := mkfield { f_name : string; f_kind : field_kind; f_required : bool; f_allow_null : bool }.

(** [default_args]: not required, may be null. *)
Definition optional (kind : field_kind) (name : string) : field := mkfield name kind false true.

Definition INFRASTRUCTURE_TYPE : list string := ["bare_metal"; "virtualized"; "hypervisor"; "unknown"].
Definition PRESENCE_TYPE : list string := ["present"; "absent"; "potential"; "unknown"].

Definition product_fields : list field :=
  [mkfield "name" (CharField (Some 256)) true false; mkfield "version" JSONField false false;
   mkfield "presence" (ChoiceField PRESENCE_TYPE) true false; mkfield "metadata" JSONField true false].

Definition entitlement_fields : list field :=
  [optional (CharField (Some 256)) "name"; optional (CharField (Some 256)) "entitlement_id";
   mkfield "metadata" JSONField true false].

Definition fingerprint_fields : list field :=
  ([optional (CharField (Some 256)) "name"; optional (CharField (Some 64)) "os_name";
    optional (CharField (Some 128)) "os_release"; optional (CharField (Some 64)) "os_version";
    mkfield "infrastructure_type" (ChoiceField INFRASTRUCTURE_TYPE) false false;
    optional (CharField (Some 16)) "cloud_provider"]
   ++ (optional JSONField <$> ["mac_addresses"; "ip_addresses"])
   ++ [optional IntegerField "cpu_count"; optional (CharField (Some 64)) "architecture";
       optional (CharField (Some 36)) "bios_uuid"; optional (CharField (Some 36)) "subscription_manager_id";
       optional IntegerField "cpu_socket_count"; optional FloatField "cpu_core_count";
       optional IntegerField "cpu_core_per_socket"; optional BooleanField "cpu_hyperthreading";
       optional JSONField "installed_products"]
   ++ (optional DateField <$> ["system_creation_date"; "system_last_checkin_date"])
   ++ [optional JSONField "system_purpose"; optional (CharField (Some 128)) "system_role";
       optional JSONField "system_addons"; optional (CharField (Some 128)) "system_service_level_agreement";
       optional (CharField (Some 128)) "system_usage_type"; optional (CharField (Some 128)) "insights_client_id";
       optional (CharField (Some 64)) "virtualized_type"; optional IntegerField "system_user_count";
       optional (CharField (Some 24)) "vm_state"; optional (CharField (Some 36)) "vm_uuid";
       optional (CharField (Some 256)) "vm_dns_name"; optional (CharField (Some 128)) "virtual_host_name";
       optional (CharField (Some 36)) "virtual_host_uuid"; optional IntegerField "vm_host_socket_count";
       optional IntegerField "vm_host_core_count"; optional (CharField (Some 128)) "vm_cluster";
       optional (CharField (Some 128)) "vm_datacenter"; optional BooleanField "is_redhat";
       optional (CharField None) "redhat_certs"; optional IntegerField "redhat_package_count";
       mkfield "metadata" JSONField true false; mkfield "sources" JSONField true false;
       optional (CharField (Some 48)) "etc_machine_id"; optional IntegerField "system_memory_bytes";
       mkfield "deployment_report" PrimaryKeyField true false])%list.

Section serializer.
(** The validated value, or none for an error. *)
Context (field_value : field_kind -> pyval -> option pyval).

(** One field: [Some None] when the value is left out. *)
Definition validate_field (f : field) (data : pydict) : option (option pyval) :=
  match dget (f_name f) data with
  | None => if f_required f then None else Some None
  | Some VNone => if f_allow_null f then Some (Some VNone) else None
  | Some v => Some <$> field_value (f_kind f) v
  end.

Definition validate_fields (fs : list field) (data : pydict) : option pydict :=
  l ← (mapM (fun f => (fun o : option pyval => (fun v => (f_name f, v)) <$> o) <$> validate_field f data) fs
       : option (list (option (string * pyval))));
  Some (omap (M := list) id l).

(** A nested list: [many=True, required=False, allow_null=True]. *)
Definition validate_many (fs : list field) (name : string) (data : pydict) : option pydict :=
  match dget name data with
  | None => Some []
  | Some VNone => Some [(name, VNone)]
  | Some (VList l) =>
      l ← mapM (fun v => match v with VDict d => VDict <$> validate_fields fs d | _ => None end) l;
      Some [(name, VList l)]
  | Some _ => None
  end.

(** [is_valid] and [validated_data] of [SystemFingerprintSerializer]. *)
Definition validated_data (data : pydict) : option pydict :=
  vd ← validate_fields fingerprint_fields data;
  products ← validate_many product_fields "products" data;
  entitlements ← validate_many entitlement_fields "entitlements" data;
  Some (vd ++ products ++ entitlements)%list.
End serializer.

(** ** The tables *)

Record deployments_report := mkdr {
  dr_version : string;
  dr_status : string;
  dr_fingerprints_path : option string;
  dr_csv_path : option string }.

Definition STATUS_PENDING : string := "pending".
Definition STATUS_FAILED : string := "failed".
Definition STATUS_COMPLETE : string := "completed".

(** [report_dr]: the deployments report of each report; [fp_rows]: fingerprints with
    their deployments report; [parts]: products and entitlements with their
    fingerprint; [json_files]: the cached files, each the list that was dumped. *)
Record fstate := mkfstate {
  raw : RawFacts.store;
  report_dr : gmap Z (option Z);
  drs : gmap Z deployments_report;
  fp_rows : list (Z * (Z * pydict));
  parts : list (string * Z * pydict);
  json_files : gmap string (list pydict);
  aggregates : gmap Z aggregate_row;
  new_id : Z }.

Definition save_dr (id : Z) (dr : deployments_report) (st : fstate) : fstate :=
  mkfstate (raw st) (report_dr st) (<[id := dr]> (drs st)) (fp_rows st) (parts st) (json_files st) (aggregates st) (new_id st).
Definition save_report_dr (report : Z) (id : Z) (st : fstate) : fstate :=
  mkfstate (raw st) (<[report := Some id]> (report_dr st)) (drs st) (fp_rows st) (parts st) (json_files st) (aggregates st) (new_id st).
Definition add_fp (id dr : Z) (row : pydict) (st : fstate) : fstate :=
  mkfstate (raw st) (report_dr st) (drs st) (fp_rows st ++ [(id, (dr, row))])%list (parts st) (json_files st) (aggregates st)
    (new_id st + 1).
Definition add_part (table : string) (fp : Z) (row : pydict) (st : fstate) : fstate :=
  mkfstate (raw st) (report_dr st) (drs st) (fp_rows st) (parts st ++ [(table, fp, row)])%list (json_files st) (aggregates st)
    (new_id st).
Definition write_file (path : string) (data : list pydict) (st : fstate) : fstate :=
  mkfstate (raw st) (report_dr st) (drs st) (fp_rows st) (parts st) (<[path := data]> (json_files st)) (aggregates st) (new_id st).
Definition set_aggregates (rows : gmap Z aggregate_row) (st : fstate) : fstate :=
  mkfstate (raw st) (report_dr st) (drs st) (fp_rows st) (parts st) (json_files st) rows (new_id st).

Definition set_dr_status (s : string) (dr : deployments_report) : deployments_report :=
  mkdr (dr_version dr) s (dr_fingerprints_path dr) (dr_csv_path dr).

Definition DataError : exn := OtherException "DataError".
Definition is_data_error (e : exn) : bool :=
  match e with OtherException n => bool_decide (n = "DataError") | _ => false end.

(** What [json.dump] writes. *)
Fixpoint json_ok (v : pyval) : bool :=
  match v with
  | VList l => forallb json_ok l
  | VDict d => forallb (fun kv => json_ok kv.2) d
  | VDate _ | VDateTime _ _ | VResult _ _ _ => false
  | _ => true
  end.

(** ** Rows as the aggregation reads them *)

Definition text_col (v : pyval) : option string :=
  match v with VNone => None | VStr s => Some s | v => Some (py_str v) end.
Definition bool_col (v : pyval) : option bool := match v with VBool b => Some b | _ => None end.
Definition int_col (v : pyval) : option Z := match v with VInt z => Some z | VBool b => Some (b2z b) | _ => None end.
Definition float_col (v : pyval) : option spec_float :=
  match v with VFloat f => Some f | VInt z => Some (float_of_int z) | _ => None end.
Definition date_col (v : pyval) : option date := match v with VDate d => Some d | _ => None end.
Definition dict_list (v : pyval) : list pydict :=
  match v with VList l => omap (fun x => match x with VDict d => Some d | _ => None end) l | _ => [] end.

(** [fingerprint.products]: name and presence. *)
Definition products_of (fp : Z) (st : fstate) : list (string * string) :=
  (fun p : string * Z * pydict => (default "" (text_col (dget_none "name" p.2)), default "" (text_col (dget_none "presence" p.2))))
  <$> List.filter (fun p => bool_decide (p.1 = ("product", fp))) (parts st).

Definition fp_object (st : fstate) (id : Z) (row : pydict) : SystemFingerprint :=
  let text k := text_col (dget_none k row) in
  let int k := int_col (dget_none k row) in
  mkfp (text "name") (text "os_name") (text "os_version") (default "" (text "infrastructure_type"))
    (bool_col (dget_none "is_redhat" row)) (int "cpu_count") (float_col (dget_none "cpu_core_count" row))
    (int "cpu_socket_count") (date_col (dget_none "system_creation_date" row)) (text "system_purpose")
    (text "redhat_certs") (text "vm_cluster") (text "virtual_host_uuid") (dict_list (dget_none "sources" row))
    (products_of id st).

Definition status_text (s : result_status) : string :=
  match s with
  | RawFacts.SUCCESS => "success" | RawFacts.FAILED => "failed" | RawFacts.UNREACHABLE => "unreachable" | NO_STATUS => ""
  end.

(** The report as [build_aggregate_report] reads it. *)
Definition report_data_of (updated_at report : Z) (st : fstate) : report_data :=
  mkdata updated_at
    (match report_dr st !! report with
     | Some (Some dr) =>
         Some ((fun r : Z * (Z * pydict) => fp_object st r.1 r.2.2) <$> List.filter (fun r => r.2.1 =? dr) (fp_rows st))
     | _ => None
     end)
    (kg ← List.filter (in_report report) (RawFacts.groups (raw st));
     (fun r => status_text (result_status_of r)) <$> results_of kg.1 (raw st))
    ((fun s : pydict => (dget_none "source_type" s, dget_none "facts" s)) <$> report_sources report (raw st)).

(** ** The runner *)

Section runner.
Context (uuid : nat -> string) (server_version : string) (now : Z) (bypass_cache : bool).
Context (field_value : field_kind -> pyval -> option pyval) (db_accepts : string -> pydict -> option exn).
(** The path of a new file of cached fingerprints, by the id of its report, and the
    cached CSV files that are usable. *)
Context (cache_path : Z -> string) (csv_exists : string -> bool).

Fixpoint create_parts (table : string) (fp : Z) (rows : list pyval) (st : fstate) : fstate * Res unit :=
  match rows with
  | [] => (st, Ok tt)
  | VDict row :: rows =>
      match db_accepts table row with
      | Some e => (st, Err e)
      | None => create_parts table fp rows (add_part table fp row st)
      end
  | _ :: _ => (st, Err TypeError)
  end.

(** [for row in rows]: [None] cannot be iterated. *)
Definition create_list (table : string) (fp : Z) (rows : pyval) (st : fstate) : fstate * Res unit :=
  match py_iter rows with Err e => (st, Err e) | Ok l => create_parts table fp l st end.

(** The columns of the row of a fingerprint. *)
Definition columns (vd : pydict) : pydict :=
  List.filter (fun kv => negb (bool_decide (kv.1 ∈ ["products"; "entitlements"]))) vd.

(** [SystemFingerprintSerializer.create], each row in a transaction of its own. *)
Definition create (dr : Z) (vd : pydict) (st : fstate) : fstate * Res Z :=
  let products_data := default (VList []) (dget "products" vd) in
  let entitlements_data := default (VList []) (dget "entitlements" vd) in
  let row := columns vd in
  match db_accepts "fingerprint" row with
  | Some e => (st, Err e)
  | None =>
      let id := new_id st in
      match create_list "product" id products_data (add_fp id dr row st) with
      | (st, Err e) => (st, Err e)
      | (st, Ok _) =>
          match create_list "entitlement" id entitlements_data st with
          | (st, Err e) => (st, Err e)
          | (st, Ok _) => (st, Ok id)
          end
      end
  end.

Definition DATE_FIELDS : list string := ["system_last_checkin_date"; "system_creation_date"].

(** [DateField.to_representation] *)
Definition date_to_representation (v : pyval) : Res pyval :=
  match v with
  | VStr s => Ok (VStr s)
  | VDate d => Ok (VStr (date_iso d))
  | VDateTime _ _ => Err (AssertionError "Expected a `date`, but got a `datetime`.")
  | _ => Err (AttributeError "isoformat")
  end.

Definition serialize_date (fp : pydict) (key : string) : Res pydict :=
  if truthy (dget_none key fp) then v ← date_to_representation (dget_none key fp); Ok (dset key v fp) else Ok fp.

(** What is validated and saved of a fingerprint. *)
Definition prepare (dr : Z) (fingerprint_dict : pydict) : pydict :=
  dset "deployment_report" (VInt dr)
    (List.filter (fun kv => bool_decide (kv.1 ∈ valid_fact_attributes)) fingerprint_dict).

Fixpoint persist (dr : Z) (fps : list pydict) (final : list pydict) (st : fstate) : fstate * Res (list pydict) :=
  match fps with
  | [] => (st, Ok final)
  | fp :: fps =>
      let fp := prepare dr fp in
      match validated_data field_value fp with
      | None => persist dr fps final st
      | Some vd =>
          match create dr vd st with
          | (st, Err e) => if is_data_error e then persist dr fps final st else (st, Err e)
          | (st, Ok id) =>
              if bypass_cache then persist dr fps final st else
              match foldM serialize_date (dset "id" (VInt id) fp) DATE_FIELDS with
              | Err e => (st, Err e)
              | Ok fp => persist dr fps (final ++ [fp])%list st
              end
          end
      end
  end.

(** The setter [cached_fingerprints]; a file that cannot be written completely is
    left out. *)
Definition set_cached_fingerprints (id : Z) (data : list pydict) (dr : deployments_report) (st : fstate) :
    fstate * Res deployments_report :=
  if forallb (fun d => json_ok (VDict d)) data then
    (write_file (cache_path id) data st,
     Ok (mkdr (dr_version dr) (dr_status dr) (Some (cache_path id)) (dr_csv_path dr)))
  else (st, Err TypeError).

Definition no_valid_fingerprints (report : Z) : string :=
  "FAILED to create report id=" +:+ int_repr report +:+ " - produced no valid fingerprints".

(** [_process_details_report]: the object [deployment_report] and the answer. *)
Definition _process_details_report (report dr_id : Z) (dr : deployments_report) (st : fstate) :
    fstate * deployments_report * Res (string * status) :=
  match _process_sources uuid (report_sources report (raw st)) with
  | Err e => (st, dr, Err e)
  | Ok fingerprints_list =>
      match persist dr_id fingerprints_list [] st with
      | (st, Err e) => (st, dr, Err e)
      | (st, Ok final_fingerprint_list) =>
          let ok := negb (bool_decide (final_fingerprint_list = [])) || bypass_cache in
          let dr := set_dr_status (if ok then STATUS_COMPLETE else STATUS_FAILED) dr in
          match set_cached_fingerprints dr_id final_fingerprint_list dr st with
          | (st, Err e) => (st, dr, Err e)
          | (st, Ok dr) =>
              (save_dr dr_id dr st, dr,
               Ok (if ok then ("success", COMPLETED) else (no_valid_fingerprints report, ScanModel.FAILED)))
          end
      end
  end.

Definition _create_aggregate_report (report : Z) (st : fstate) : fstate * Res unit :=
  let '(rows, r) := build_aggregate_report {[report := report_data_of now report st]} (aggregates st) now report true in
  (set_aggregates rows st, match r with Ok _ => Ok tt | Err e => Err e end).

(** [cached_fingerprints_file_exists] and [cached_csv_file_exists]. *)
Definition keep_json (p : option string) (st : fstate) : option string :=
  p ≫= fun p => if bool_decide (is_Some (json_files st !! p)) then Some p else None.
Definition keep_csv (p : option string) : option string := p ≫= fun p => if csv_exists p then Some p else None.

(** The deployments report to use: its key and the object, with invalid paths
    cleared. *)
Definition deployment_report_of (report : option Z) (st : fstate) : Z * deployments_report * fstate :=
  let new := (new_id st, mkdr "" STATUS_PENDING None None,
              mkfstate (raw st) (report_dr st) (drs st) (fp_rows st) (parts st) (json_files st) (aggregates st) (new_id st + 1)) in
  match report ≫= fun r => mjoin (report_dr st !! r) with
  | Some id =>
      match drs st !! id with
      | Some dr =>
          (id, mkdr (dr_version dr) (dr_status dr) (keep_json (dr_fingerprints_path dr) st) (keep_csv (dr_csv_path dr)), st)
      | None => new
      end
  | None => new
  end.

Definition execute_task (report : option Z) (st : fstate) : fstate * Res (string * status) :=
  let '(id, dr, st) := deployment_report_of report st in
  let dr := mkdr server_version (dr_status dr) (dr_fingerprints_path dr) (dr_csv_path dr) in
  let st := save_dr id dr st in
  match report with
  | None => (st, Err (AttributeError "deployment_report"))
  | Some report =>
      let st := save_report_dr report id st in
      match _process_details_report report id dr st with
      | (st, dr, Err e) => (save_dr id (set_dr_status STATUS_FAILED dr) st, Err e)
      | (st, dr, Ok (message, status)) =>
          let dr := set_dr_status (if bool_decide (status = COMPLETED) then STATUS_COMPLETE else STATUS_FAILED) dr in
          let st := save_dr id dr st in
          if bool_decide (status = COMPLETED) then
            match _create_aggregate_report report st with
            | (st, Ok _) => (st, Ok (message, status))
            | (st, Err e) => (save_dr id (set_dr_status STATUS_FAILED dr) st, Err e)
            end
          else (st, Ok (message, status))
      end
  end.

(** ** Lemmas *)

(** What storing fingerprints leaves alone. *)
Record grows (st st' : fstate) : Prop := {
  gr_raw : raw st' = raw st;
  gr_reports : report_dr st' = report_dr st;
  gr_drs : drs st' = drs st;
  gr_files : json_files st' = json_files st;
  gr_aggregates : aggregates st' = aggregates st;
  gr_rows : forall r, r ∈ fp_rows st -> r ∈ fp_rows st';
  gr_parts : forall p, p ∈ parts st -> p ∈ parts st';
  gr_ids : new_id st <= new_id st' }.

Lemma grows_refl st : grows st st.
Proof. split; try done. Qed.

Lemma fgrows_trans st1 st2 st3 : grows st1 st2 -> grows st2 st3 -> grows st1 st3.
Proof. intros [] []. split; try congruence; [auto | auto | lia]. Qed.

Lemma create_parts_grows table fp rows st :
  grows st (create_parts table fp rows st).1 /\ fp_rows (create_parts table fp rows st).1 = fp_rows st /\
  new_id (create_parts table fp rows st).1 = new_id st.
Proof.
  revert st. induction rows as [|v rows IH]; intros st; [split; [apply grows_refl | done]|].
  cbn [create_parts]. destruct v as [| | | | | |row| | |]; try (split; [apply grows_refl | done]).
  destruct (db_accepts table row); [split; [apply grows_refl | done]|].
  destruct (IH (add_part table fp row st)) as (G & -> & ->). split; [|done].
  eapply fgrows_trans; [|exact G]. split; try done. intros p Hp. apply elem_of_app. by left.
Qed.

Lemma create_list_grows table fp rows st :
  grows st (create_list table fp rows st).1 /\ fp_rows (create_list table fp rows st).1 = fp_rows st /\
  new_id (create_list table fp rows st).1 = new_id st.
Proof.
  unfold create_list. destruct (py_iter rows); [apply create_parts_grows | split; [apply grows_refl | done]].
Qed.

Lemma create_grows dr vd st : let '(st', r) := create dr vd st in
  grows st st' /\ forall k, r = Ok k -> k = new_id st /\ new_id st' = k + 1 /\ exists row, (k, (dr, row)) ∈ fp_rows st'.
Proof.
  unfold create. set (row := columns vd). destruct (db_accepts "fingerprint" row); [by split; [apply grows_refl|]|].
  set (st1 := add_fp (new_id st) dr row st).
  assert (grows st st1) as G1.
  { split; try done; cbn; [|lia]. intros r Hr. apply elem_of_app. by left. }
  destruct (create_list_grows "product" (new_id st) (default (VList []) (dget "products" vd)) st1) as (G2 & R2 & N2).
  destruct (create_list "product" _ _ st1) as [st2 [u|e]]; cbn [fst] in *; [|by split; [eapply fgrows_trans|]].
  destruct (create_list_grows "entitlement" (new_id st) (default (VList []) (dget "entitlements" vd)) st2) as (G3 & R3 & N3).
  destruct (create_list "entitlement" _ _ st2) as [st3 [u'|e]]; cbn [fst] in *;
    (split; [eapply fgrows_trans; [exact G1 | by eapply fgrows_trans]|]); [|done].
  intros k [= <-]. split; [done|]. rewrite N3, N2. split; [done|]. exists row. rewrite R3, R2. cbn.
  apply elem_of_app. right. by left.
Qed.

(** *** What becomes of each fingerprint *)

Fixpoint refused_rows (table : string) (rows : list pyval) : Res unit :=
  match rows with
  | [] => Ok tt
  | VDict row :: rows => match db_accepts table row with Some e => Err e | None => refused_rows table rows end
  | _ :: _ => Err TypeError
  end.

Definition products_data (vd : pydict) : pyval := default (VList []) (dget "products" vd).
Definition entitlements_data (vd : pydict) : pyval := default (VList []) (dget "entitlements" vd).

(** Why a valid fingerprint is refused: by the row itself, a product or an entitlement. *)
Definition refused (vd : pydict) : Res unit :=
  match db_accepts "fingerprint" (columns vd) with
  | Some e => Err e
  | None =>
      _ ← (l ← py_iter (products_data vd); refused_rows "product" l);
      l ← py_iter (entitlements_data vd); refused_rows "entitlement" l
  end.

(** The rows of the products and entitlements of a fingerprint. *)
Definition parts_of (fp : Z) (vd : pydict) : list (string * Z * pydict) :=
  (((fun row => ("product", fp, row)) <$> dict_list (products_data vd)) ++
   ((fun row => ("entitlement", fp, row)) <$> dict_list (entitlements_data vd)))%list.

Lemma create_parts_spec table fp rows : forall st,
  (create_parts table fp rows st).2 = refused_rows table rows /\
  ((create_parts table fp rows st).2 = Ok tt ->
   forall row, row ∈ dict_list (VList rows) -> (table, fp, row) ∈ parts (create_parts table fp rows st).1).
Proof.
  induction rows as [|v rows IH]; intros st; [split; [done | by intros _ row ?%elem_of_nil]|].
  cbn [create_parts refused_rows]. destruct v as [| | | | | |d| | |]; try done. destruct (db_accepts table d); [done|].
  destruct (IH (add_part table fp d st)) as [E H]. split; [exact E|]. intros Hok row Hrow. cbn in Hrow.
  apply elem_of_cons in Hrow as [->|Hrow]; [|by apply H].
  apply create_parts_grows. cbn. apply elem_of_app. right. by left.
Qed.

Lemma create_list_spec table fp v st :
  (create_list table fp v st).2 = (l ← py_iter v; refused_rows table l) /\
  ((create_list table fp v st).2 = Ok tt ->
   forall row, row ∈ dict_list v -> (table, fp, row) ∈ parts (create_list table fp v st).1).
Proof.
  unfold create_list. destruct (py_iter v) as [l|e] eqn:E; [|done]. cbn [mbind res_bind].
  destruct (create_parts_spec table fp l st) as [El H]. split; [exact El|]. intros Hok row Hrow.
  apply H; [done|]. destruct v; try by apply elem_of_nil in Hrow. by injection E as <-.
Qed.

Lemma fingerprint_created dr vd st : let '(st', r) := create dr vd st in
  r = (_ ← refused vd; Ok (new_id st)) /\
  fp_rows st' = (fp_rows st ++ match db_accepts "fingerprint" (columns vd) with
                               | Some _ => [] | None => [(new_id st, (dr, columns vd))] end)%list /\
  (r = Ok (new_id st) -> forall p, p ∈ parts_of (new_id st) vd -> p ∈ parts st').
Proof.
  unfold create, refused, parts_of, products_data, entitlements_data.
  destruct (db_accepts "fingerprint" (columns vd)) as [e|]; [by rewrite app_nil_r|].
  set (id := new_id st). set (st1 := add_fp id dr (columns vd) st). set (ps := default _ (dget "products" vd)).
  set (es := default _ (dget "entitlements" vd)).
  destruct (create_list_spec "product" id ps st1) as [R1 P1]. destruct (create_list_grows "product" id ps st1) as (_ & F1 & _).
  destruct (create_list "product" id ps st1) as [st2 [u|e]]; cbn [fst snd] in *; rewrite <-R1; cbn [mbind res_bind]; [|done].
  destruct (create_list_spec "entitlement" id es st2) as [R2 P2].
  destruct (create_list_grows "entitlement" id es st2) as (G2 & F2 & _).
  destruct (create_list "entitlement" id es st2) as [st3 [u'|e]]; cbn [fst snd] in *; rewrite <-R2; cbn [mbind res_bind];
    (split; [done|]); (split; [by rewrite F2, F1|]); [|done].
  destruct u, u'. intros _ p [(row & -> & Hrow)%list_elem_of_fmap|(row & -> & Hrow)%list_elem_of_fmap]%elem_of_app; auto.
  apply G2. auto.
Qed.

(** The columns that are stored of a fingerprint, if any; whether it counts as valid;
    how a valid one is stored and cached; and the exceptions that end the task. *)
Definition inserted (dr : Z) (fp : pydict) : option pydict :=
  vd ← validated_data field_value (prepare dr fp);
  match db_accepts "fingerprint" (columns vd) with Some _ => None | None => Some (columns vd) end.

Definition accepted (dr : Z) (fp : pydict) : bool :=
  match validated_data field_value (prepare dr fp) with Some vd => is_ok (refused vd) | None => false end.

Definition dated (dr k : Z) (fp : pydict) : Res pydict := foldM serialize_date (dset "id" (VInt k) (prepare dr fp)) DATE_FIELDS.

Definition stored_as (dr : Z) (st : fstate) (fp cached : pydict) : Prop := exists k vd,
  validated_data field_value (prepare dr fp) = Some vd /\ (k, (dr, columns vd)) ∈ fp_rows st /\
  (forall p, p ∈ parts_of k vd -> p ∈ parts st) /\ dated dr k fp = Ok cached.

Definition raises (dr : Z) (fp : pydict) (e : exn) : Prop := exists vd,
  validated_data field_value (prepare dr fp) = Some vd /\
  (refused vd = Err e /\ is_data_error e = false \/
   refused vd = Ok tt /\ bypass_cache = false /\ exists k, dated dr k fp = Err e).

Lemma stored_as_grows dr st st' fp cached : grows st st' -> stored_as dr st fp cached -> stored_as dr st' fp cached.
Proof.
  intros [_ _ _ _ _ Hr Hp _] (k & vd & H1 & H2 & H3 & H4). exists k, vd. split; [done|]. split; [auto|]. split; [|done].
  intros p Hp'. auto.
Qed.

(** The outcome of storing a list of fingerprints. *)
Definition persisted (dr : Z) (fps final : list pydict) (st st' : fstate) (r : Res (list pydict)) : Prop :=
  match r with
  | Err e => exists fp, fp ∈ fps /\ raises dr fp e
  | Ok final' => (exists new, fp_rows st' = (fp_rows st ++ new)%list /\ new.*2 = pair dr <$> omap (inserted dr) fps) /\
      exists cached, final' = (final ++ cached)%list /\
        if bypass_cache then cached = [] else Forall2 (stored_as dr st') (List.filter (accepted dr) fps) cached
  end.

Lemma persisted_cons dr fp fps final final1 st st1 st' r k :
  fp_rows st1 = (fp_rows st ++ match inserted dr fp with Some row => [(k, (dr, row))] | None => [] end)%list ->
  (exists c, final1 = (final ++ c)%list /\
     if bypass_cache then c = [] else Forall2 (stored_as dr st1) (if accepted dr fp then [fp] else []) c) ->
  grows st1 st' -> persisted dr fps final1 st1 st' r -> persisted dr (fp :: fps) final st st' r.
Proof.
  intros Hf (c & -> & Hc) G. destruct r as [final'|e]; cbn [persisted].
  2:{ intros (x & Hx & H). exists x. split; [by right | done]. }
  intros [(new & Hn & Hnew) (cached & -> & H)]. split.
  - eexists. split; [by rewrite Hn, Hf, <-app_assoc|]. rewrite fmap_app, Hnew. cbn [omap list_omap].
    by destruct (inserted dr fp).
  - exists (c ++ cached)%list. split; [by rewrite app_assoc|]. destruct bypass_cache; [by subst|]. cbn [List.filter].
    assert (Forall2 (stored_as dr st') (if accepted dr fp then [fp] else []) c) as Hc'
      by (eapply Forall2_impl; [exact Hc | intros x y; by apply stored_as_grows]).
    destruct (accepted dr fp); [exact (Forall2_app Hc' H)|].
    by apply Forall2_nil_inv_l in Hc' as ->.
Qed.

Lemma persist_spec dr fps final st : let '(st', r) := persist dr fps final st in
  grows st st' /\ persisted dr fps final st st' r.
Proof.
  revert final st. induction fps as [|fp fps IH]; intros final st; cbn [persist].
  { split; [apply grows_refl|]. split; [exists []; by rewrite app_nil_r|]. exists []. rewrite app_nil_r. by destruct bypass_cache. }
  destruct (validated_data field_value (prepare dr fp)) as [vd|] eqn:Ev.
  2:{ pose proof (IH final st) as H. destruct (persist dr fps final st) as [st' r]. destruct H as [G H]. split; [done|].
      apply (persisted_cons dr fp fps final final st st st' r 0); [| |done|done].
      - unfold inserted. rewrite Ev. cbn. by rewrite app_nil_r.
      - exists []. rewrite app_nil_r. unfold accepted. rewrite Ev. split; [done|]. by destruct bypass_cache. }
  pose proof (create_grows dr vd st) as HG. pose proof (fingerprint_created dr vd st) as HC.
  destruct (create dr vd st) as [st1 r1]. destruct HG as [G _], HC as (R & F & P).
  assert (fp_rows st1 = (fp_rows st ++ match inserted dr fp with Some row => [(new_id st, (dr, row))] | None => [] end)%list) as F'.
  { rewrite F. unfold inserted. rewrite Ev. cbn. by destruct (db_accepts _ _). }
  assert (forall final1, (exists c, final1 = (final ++ c)%list /\
     if bypass_cache then c = [] else Forall2 (stored_as dr st1) (if accepted dr fp then [fp] else []) c) ->
     let '(st', r) := persist dr fps final1 st1 in grows st st' /\ persisted dr (fp :: fps) final st st' r) as Hrest.
  { intros final1 Hc. pose proof (IH final1 st1) as H. destruct (persist dr fps final1 st1) as [st' r].
    destruct H as [G' H]. split; [by eapply fgrows_trans | by eapply persisted_cons]. }
  unfold accepted in Hrest. rewrite Ev in Hrest.
  destruct (refused vd) as [u|e] eqn:Er; cbn [mbind res_bind] in R; subst r1.
  2:{ destruct (is_data_error e) eqn:Ee.
      - apply Hrest. exists []. rewrite app_nil_r. split; [done|]. by destruct bypass_cache.
      - split; [done|]. exists fp. split; [by left|]. exists vd. auto. }
  destruct bypass_cache eqn:Eb; [apply Hrest; exists []; by rewrite app_nil_r|].
  change (foldM serialize_date _ DATE_FIELDS) with (dated dr (new_id st) fp).
  destruct (dated dr (new_id st) fp) as [d|e] eqn:Ed.
  - apply Hrest. exists [d]. split; [done|]. cbn [is_ok]. apply Forall2_cons. split; [|by constructor].
    exists (new_id st), vd. split; [done|]. split; [|split; [by apply P | done]]. rewrite F', elem_of_app. right.
    unfold inserted. rewrite Ev. cbn. unfold refused in Er. destruct (db_accepts _ _); [done | by left].
  - split; [done|]. exists fp. split; [by left|]. exists vd. split; [done|]. right. destruct u. split; [done|]. split; [done|]. by exists (new_id st).
Qed.

(** The cached fingerprints have the keys of their rows. *)
Record cached_ok (dr : Z) (st : fstate) (final : list pydict) : Prop := {
  ca_rows : forall d, d ∈ final -> exists k row, dget "id" d = Some (VInt k) /\ k < new_id st /\ (k, (dr, row)) ∈ fp_rows st;
  ca_ids : NoDup (dget "id" <$> final) }.

Lemma cached_ok_grows dr st st' final : grows st st' -> cached_ok dr st final -> cached_ok dr st' final.
Proof.
  intros [_ _ _ _ _ Hr _ Hi] [R N]. split; [|done]. intros d Hd. destruct (R d Hd) as (k & row & ? & ? & ?).
  exists k, row. split; [done|]. split; [lia | auto].
Qed.

Lemma serialize_dates_id fp fp' : foldM serialize_date fp DATE_FIELDS = Ok fp' -> dget "id" fp' = dget "id" fp.
Proof.
  assert (forall fp fp' k, k <> "id" -> serialize_date fp k = Ok fp' -> dget "id" fp' = dget "id" fp) as H.
  { clear. intros fp fp' k Hk. unfold serialize_date. destruct (truthy _); [|by intros [= <-]].
    intros (v & _ & [= <-])%bind_Ok. rewrite dget_dset. by rewrite decide_False. }
  unfold DATE_FIELDS. cbn [foldM]. intros (fp1 & H1 & (fp2 & H2 & [= <-])%bind_Ok)%bind_Ok.
  apply H in H1; [|done]. apply H in H2; [|done]. congruence.
Qed.

Lemma persist_grows dr fps final st : cached_ok dr st final -> let '(st', r) := persist dr fps final st in
  grows st st' /\ forall final', r = Ok final' -> cached_ok dr st' final'.
Proof.
  revert final st. induction fps as [|fp fps IH]; intros final st C; cbn [persist].
  { split; [apply grows_refl | by intros f [= <-]]. }
  destruct (validated_data field_value (prepare dr fp)) as [vd|]; [|by apply IH].
  pose proof (create_grows dr vd st) as HC. destruct (create dr vd st) as [st1 [k|e]]; destruct HC as [G HC].
  2:{ destruct (is_data_error e); [|done]. pose proof (IH final st1 (cached_ok_grows _ _ _ _ G C)) as HI.
      destruct (persist dr fps final st1) as [st' r]. destruct HI as [G' HI]. split; [by eapply fgrows_trans | done]. }
  destruct (HC k eq_refl) as (-> & Hn & row & Hrow).
  assert (forall f st2, cached_ok dr st1 f -> st2 = persist dr fps f st1 -> let '(st', r) := st2 in
    grows st st' /\ forall final', r = Ok final' -> cached_ok dr st' final') as Hrest.
  { intros f st2 Cf ->. pose proof (IH f st1 Cf) as HI. destruct (persist dr fps f st1) as [st' r].
    destruct HI as [G' HI]. split; [by eapply fgrows_trans | done]. }
  destruct bypass_cache; [by eapply Hrest; [eapply cached_ok_grows|]|].
  destruct (foldM serialize_date _ DATE_FIELDS) as [d|e] eqn:Ed; [|done].
  apply serialize_dates_id in Ed. rewrite dget_dset_eq in Ed.
  eapply Hrest; [|done]. pose proof (cached_ok_grows _ _ _ _ G C) as [R N]. destruct C as [R0 _]. split.
  - intros x [Hx|Hx%list_elem_of_singleton]%elem_of_app; [by apply R|]. subst x. exists (new_id st), row.
    split; [done|]. split; [lia | done].
  - rewrite fmap_app. apply NoDup_app. split; [done|]. split; [|apply NoDup_singleton].
    intros o Ho%list_elem_of_fmap Ho'. apply list_elem_of_singleton in Ho'. destruct Ho as (x & -> & Hx).
    destruct (R0 x Hx) as (k & ? & Hk & ? & _). rewrite Hk, Ed in Ho'. injection Ho' as ->. lia.
Qed.
End runner.

(** ** Properties *)

Section outcome.
Context (uuid : nat -> string) (server_version : string) (now : Z) (bypass_cache : bool).
Context (field_value : field_kind -> pyval -> option pyval) (db_accepts : string -> pydict -> option exn).
Context (cache_path : Z -> string) (csv_exists : string -> bool).

(** The exceptions that end the processing: of the merge, of a fingerprint, or of
    writing the file. *)
Definition task_raises (report id : Z) (st : fstate) (e : exn) : Prop :=
  match _process_sources uuid (report_sources report (raw st)) with
  | Err e' => e = e'
  | Ok fps =>
      (exists fp, fp ∈ fps /\ raises bypass_cache field_value db_accepts id fp e) \/
      (e = TypeError /\ exists fp k d, fp ∈ fps /\ dated id k fp = Ok d /\ json_ok (VDict d) = false)
  end.

(** What is stored and cached of the fingerprints of a report. *)
Definition fingerprints_kept (report id : Z) (st0 st : fstate) (final : list pydict) : Prop :=
  exists fps, _process_sources uuid (report_sources report (raw st0)) = Ok fps /\
    (exists new, fp_rows st = (fp_rows st0 ++ new)%list /\ new.*2 = pair id <$> omap (inserted field_value db_accepts id) fps) /\
    (if bypass_cache then final = []
     else Forall2 (stored_as field_value id st) (List.filter (accepted field_value db_accepts id) fps) final) /\
    NoDup (dget "id" <$> final).

(** The deployments report after the details report was processed. *)
Definition processed (report id : Z) (st0 st : fstate) (dr : deployments_report) (r : Res (string * status)) : Prop :=
  report_dr st = report_dr st0 /\ aggregates st = aggregates st0 /\
  match r with
  | Err e => task_raises report id st0 e
  | Ok (_, s) => exists final, dr_fingerprints_path dr = Some (cache_path id) /\
      json_files st !! cache_path id = Some final /\ fingerprints_kept report id st0 st final /\
      s = if negb (bool_decide (final = [])) || bypass_cache then COMPLETED else ScanModel.FAILED
  end.

Lemma not_json id st fps final :
  (if bypass_cache then final = []
   else Forall2 (stored_as field_value id st) (List.filter (accepted field_value db_accepts id) fps) final) ->
  forallb (fun d => json_ok (VDict d)) final = false ->
  exists fp k d, fp ∈ fps /\ dated id k fp = Ok d /\ json_ok (VDict d) = false.
Proof.
  destruct bypass_cache; [by intros ->|]. intros H Hj.
  assert (exists d, d ∈ final /\ json_ok (VDict d) = false) as (d & Hd & Hn).
  { clear H. induction final as [|d final IH]; [done|]. cbn in Hj. destruct (json_ok (VDict d)) eqn:E; cbn in Hj.
    - unfold json_ok in E, Hj. rewrite E in Hj. destruct (IH Hj) as (x & Hx & ?). exists x. split; [by right | done].
    - exists d. split; [by left | done]. }
  apply list_elem_of_lookup in Hd as [n Hd]. destruct (Forall2_lookup_r _ _ _ _ _ H Hd) as (fp & Hfp & k & vd & _ & _ & _ & Hk).
  apply list_elem_of_lookup_2, elem_of_List_filter in Hfp as [Hfp _]. by exists fp, k, d.
Qed.

Lemma process_spec report id dr st : let '(st', dr', r) :=
    _process_details_report uuid bypass_cache field_value db_accepts cache_path report id dr st in
  processed report id st st' dr' r /\ dr_version dr' = dr_version dr.
Proof.
  unfold _process_details_report, processed, task_raises, fingerprints_kept.
  destruct (_process_sources uuid _) as [fps|e]; [|done].
  assert (cached_ok id st []) as C0 by (split; [by intros d ?%elem_of_nil | constructor]).
  pose proof (persist_grows bypass_cache field_value db_accepts id fps [] st C0) as HP.
  pose proof (persist_spec bypass_cache field_value db_accepts id fps [] st) as HS.
  destruct (persist _ _ _ _ fps [] st) as [st1 [final|e]]; destruct HP as [G HC], HS as [_ HS];
    [|split; [split; [apply G | split; [apply G | by left]] | done]].
  destruct HS as [Hrows (cached & -> & Hcached)]. cbn [app] in *.
  set (ok := _ || bypass_cache). set (dr1 := set_dr_status _ dr).
  unfold set_cached_fingerprints. destruct (forallb _ cached) eqn:Ej.
  - split; [|done]. split; [apply G|]. split; [apply G|].
    destruct ok eqn:Eo; exists cached; (split; [done|]); (split; [cbn; by rewrite lookup_insert_eq|]);
      (split; [|fold ok; by rewrite Eo]); exists fps; (split; [done|]); (split; [exact Hrows|]);
      (split; [exact Hcached | apply (HC cached eq_refl)]).
  - split; [|done]. split; [apply G|]. split; [apply G|]. right. split; [done|].
    exact (not_json id st1 fps cached Hcached Ej).
Qed.

(** The aggregate report is built anew. *)
Lemma forced_build reports rows time id data : reports !! id = Some data ->
  build_aggregate_report reports rows time id true =
  let rows := <[id := mkrow time new_report]> (delete id rows) in
  match aggregate data with
  | Ok d => (<[id := mkrow time d]> rows, Ok (mkrow time d))
  | Err e => (rows, Err e)
  end.
Proof.
  intros H. unfold build_aggregate_report. rewrite H. cbn [negb]. destruct (rows !! id); [|done]. by rewrite andb_false_r.
Qed.

(** [C21] What the fingerprint task leaves behind.  It always ends with the report
    attached to a deployments report of this version whose status tells the outcome.
    When it returns, the rows that were added are those of the merged fingerprints
    that are valid and that the database accepts, in order; the cached file holds, in
    order, exactly the fingerprints that were stored with all their products and
    entitlements, each as it was merged, less what is no field, with the key of its row and
    its dates as text (nothing when caching is switched off); no key is there twice;
    the task completed exactly when the file is not empty or caching is off; and then
    the aggregate report is the aggregation of what is now stored, else it is not
    touched.  When it raises, the report is failed, and the exception is that of the
    merge, of the database or of the dates of one fingerprint, of writing the file or
    of the aggregation. *)
Theorem fingerprint_task_spec report st st' r :
  execute_task uuid server_version now bypass_cache field_value db_accepts cache_path csv_exists (Some report) st = (st', r) ->
  exists id dr, report_dr st' !! report = Some (Some id) /\ drs st' !! id = Some dr /\ dr_version dr = server_version /\
  match r with
  | Err e => dr_status dr = STATUS_FAILED /\
      (task_raises report id st e \/ aggregate (report_data_of now report st') = Err e)
  | Ok (_, s) =>
      exists final, dr_fingerprints_path dr = Some (cache_path id) /\ json_files st' !! cache_path id = Some final /\
        fingerprints_kept report id st st' final /\
        (s = COMPLETED <-> bypass_cache = true \/ final <> []) /\
        ((s = COMPLETED /\ dr_status dr = STATUS_COMPLETE /\ exists values,
            aggregates st' !! report = Some (mkrow now values) /\ aggregate (report_data_of now report st') = Ok values)
         \/ (s = ScanModel.FAILED /\ dr_status dr = STATUS_FAILED /\ aggregates st' = aggregates st))
  end.
Proof.
  unfold execute_task. destruct (deployment_report_of csv_exists (Some report) st) as [[id dr] st0] eqn:E0.
  assert (aggregates st0 = aggregates st /\ raw st0 = raw st /\ fp_rows st0 = fp_rows st) as (Ha0 & Hw0 & Hf0).
  { unfold deployment_report_of in E0. cbn in E0. destruct (mjoin _) as [i|]; [destruct (drs st !! i)|]; by injection E0 as _ _ <-. }
  clear E0. set (dr1 := mkdr server_version _ _ _). set (st1 := save_report_dr report id (save_dr id dr1 st0)).
  assert (report_dr st1 !! report = Some (Some id)) as Hrep by (cbn; apply lookup_insert_eq).
  assert (task_raises report id st1 = task_raises report id st) as Hpr
    by (unfold task_raises; cbn; by rewrite Hw0).
  assert (fingerprints_kept report id st1 = fingerprints_kept report id st) as Hfk
    by (unfold fingerprints_kept; cbn; by rewrite Hw0, Hf0).
  pose proof (process_spec report id dr1 st1) as HP.
  destruct (_process_details_report _ _ _ _ _ report id dr1 st1) as [[st2 dr2] [[message s]|e]];
    destruct HP as [(Hr & Ha & HP) Hv].
  2:{ rewrite Hpr in HP. intros [= <- <-]. exists id. eexists. cbn. rewrite Hr, lookup_insert_eq. do 3 (split; [done|]). split; [done | by left]. }
  destruct HP as (final & Hpath & Hfile & Hk & ->). rewrite Hfk in Hk.
  assert (negb (bool_decide (final = [])) || bypass_cache = true <-> bypass_cache = true \/ final <> []) as Hc.
  { case_bool_decide; destruct bypass_cache; cbn; naive_solver. }
  destruct (negb _ || bypass_cache).
  - rewrite bool_decide_eq_true_2 by done. set (dr3 := set_dr_status STATUS_COMPLETE dr2). set (st3 := save_dr id dr3 st2).
    unfold _create_aggregate_report. set (data := report_data_of now report st3).
    rewrite (forced_build _ _ _ _ data) by apply lookup_singleton_eq.
    destruct (aggregate data) as [values|e] eqn:Eagg; intros [= <- <-].
    + exists id, dr3. cbn [report_dr set_aggregates st3 save_dr drs]. rewrite Hr, lookup_insert_eq.
      split; [done|]. split; [done|]. split; [done|]. exists final. cbn. split; [done|]. split; [done|]. split; [done|].
      split; [tauto|]. left. split; [done|]. split; [done|]. exists values. by rewrite lookup_insert_eq.
    + exists id. eexists. cbn. rewrite Hr, lookup_insert_eq. do 3 (split; [done|]). split; [done | by right].
  - rewrite bool_decide_eq_false_2 by done. intros [= <- <-]. exists id. eexists. cbn [save_dr report_dr drs].
    rewrite Hr, lookup_insert_eq. split; [done|]. split; [done|]. split; [done|]. exists final. cbn.
    split; [done|]. split; [done|]. split; [done|]. split; [split; [done | intros H; by apply Hc in H]|]. right.
    split; [done|]. split; [done|]. by rewrite Ha.
Qed.
End outcome.

(** ** A concrete run *)

Definition fp_start : fstate :=
  mkfstate (RawFacts.mkstore
      [(1, RawFacts.mkgroup (VStr "network") (VStr "net") (VStr "srv") (VStr "1.0") None [] [5])]
      [(2, RawFacts.mkresult "a" RawFacts.SUCCESS 1
             [("connection_host", VStr "a"); ("uname_hostname", VStr "a.example.com"); ("cpu_count", VInt 4)])] 9)
    {[5 := None]} ∅ [] [] ∅ ∅ 20.

Definition fp_run (accepts : string -> pydict -> option exn) : fstate * Res (string * status) :=
  execute_task (fun _ => "u") "1.0" 7 false (fun _ v => Some v) accepts (fun i => "f" +:+ int_repr i) (fun _ => false)
    (Some 5) fp_start.

Lemma fingerprint_task_spec_witness :
  exists st', fp_run (fun _ _ => None) = (st', Ok ("success", COMPLETED)) /\
    exists id dr, report_dr st' !! 5 = Some (Some id) /\ drs st' !! id = Some dr /\ dr_version dr = "1.0".
Proof.
  destruct (fp_run (fun _ _ => None)) as [st' r] eqn:E.
  assert (r = Ok ("success", COMPLETED)) as -> by (change r with (st', r).2; rewrite <-E; vm_compute; reflexivity).
  exists st'. split; [reflexivity|].
  destruct (fingerprint_task_spec (fun _ => "u") "1.0" 7 false (fun _ v => Some v) (fun _ _ => None)
    (fun i => "f" +:+ int_repr i) (fun _ => false) 5 fp_start st' _ E) as (id & dr & H1 & H2 & H3 & _).
  exists id, dr. split; [exact H1|]. split; [exact H2 | exact H3].
Defined.

(** When the database refuses the product of a fingerprint, the fingerprint stays
    stored but is neither cached nor counted as valid. *)
Example refused_product :
  let '(st, r) := fp_run (fun table _ => if bool_decide (table = "product") then Some DataError else None) in
  (is_ok r, length (fp_rows st), json_files st !! "f20") = (true, 1%nat, Some []).
Proof. vm_compute. reflexivity. Qed.
