(* ===== verification/ReportFiles.v ===== *)
(** The cached files of the deployments reports: how they are read, written again and
    removed.

    Models the rest of [api/deployments_report/model.py], the Celery tasks of
    [api/deployments_report/tasks.py], the view of [api/deployments_report/view.py] and
    the command [api/management/commands/regenerate_missing_report_cache_files.py].  The
    rows keyed by report, the CSV files and the tasks requested are the store of
    [Deployments]; a JSON file is the value that was dumped into it, or text that is not
    JSON.  What is written can be written; the standard output of the command is not
    modelled. *)
From stdpp Require Import base gmap sets list strings sorting pretty.
From Stdlib Require Import Ascii ZArith Lia.
From S2P Require Import Prelude PyStr PyNum PyVal Formatters Csv Deployments FingerprintTask.

Open Scope string_scope.
Open Scope Z_scope.

Definition Http404 : exn := OtherException "Http404".
Definition JSONDecodeError : exn := ValueError.
Definition CommandError (message : string) : exn := OtherException ("CommandError: " +:+ message).

(** ** The state *)

(** The columns of [DeploymentsReport] that [Deployments.deployment_row] leaves out, and
    the report it belongs to ([Report.deployment_report] is one to one). *)
Record report_columns := mkcolumns {
  rc_report : Z;
  rc_status : string;
  rc_cached_fingerprints_file_path : option path }.

Inductive json_file := Dumped (v : pyval) | Broken (text : string).

Record fstore := mkfstore {
  base : store;
  columns : gmap Z report_columns;
  json_files : gmap path json_file }.

Definition set_base (b : store) (st : fstore) : fstore := mkfstore b (columns st) (json_files st).
Definition delay (task : string) (id : Z) (st : fstore) : fstore :=
  set_base (mkstore (deployments (base st)) (files (base st)) (delayed (base st) ++ [(task, id)])) st.

Definition deployments_report : Type := report_columns * deployment_row.

(** [DeploymentsReport.objects.get(id=id)]; [None] when it does not exist. *)
Definition get (id : Z) (st : fstore) : option deployments_report :=
  c ← columns st !! id; row ← deployments (base st) !! rc_report c; Some (c, row).

(** [DeploymentsReport.objects.get(report__id=report)] *)
Definition get_of_report (report : Z) (st : fstore) : option deployments_report :=
  row ← deployments (base st) !! report; c ← columns st !! dr_id row; Some (c, row).

(** [deployments_report.save()] *)
Definition save (id : Z) (d : deployments_report) (st : fstore) : fstore :=
  mkfstore (mkstore (<[rc_report d.1 := d.2]> (deployments (base st))) (files (base st)) (delayed (base st)))
    (<[id := d.1]> (columns st)) (json_files st).

Section files.
(** The directory of the cached files; which files can be read and written. *)
Context (cached_files_path : string) (accessible : path -> bool).

(** ** [is_valid_cache_file] of [utils/misc.py] *)

(** [path.exists() and path.is_file() and path.stat().st_size > 0]: a value is never
    dumped as the empty text. *)
Definition has_content (p : path) (st : fstore) : bool :=
  match json_files st !! p with
  | Some (Dumped _) => true
  | Some (Broken text) => negb (bool_decide (text = ""))
  | None => false
  end || match files (base st) !! p with Some text => negb (bool_decide (text = "")) | None => false end.

Definition is_valid_cache_file (file_path : option path) (st : fstore) : bool :=
  match file_path with None => false | Some p => has_content p st && accessible p end.

(** ** The property [cached_fingerprints] and its setter *)

Definition cached_fingerprints (d : deployments_report) (st : fstore) : fstore * Res pyval :=
  match rc_cached_fingerprints_file_path d.1 with
  | None => (st, Ok VNone)
  | Some p =>
      if negb (bool_decide (parent p = cached_files_path)) then (st, Err PermissionError)
      else match json_files st !! p with
           | None => (delay "generate_cached_fingerprints" (dr_id d.2) st, Err FileNotFoundError)
           | Some f =>
               if negb (accessible p) then (st, Err PermissionError)
               else match f with
                    | Dumped v => (st, Ok v)
                    | Broken _ => (st, Err JSONDecodeError)
                    end
           end
  end.

Definition fingerprints_file (id : Z) (unixtime : string) : path :=
  mkpath cached_files_path ("deployments-report-" +:+ int_repr id +:+ "-" +:+ unixtime +:+ ".json").

Definition set_cached_fingerprints (unixtime : string) (data : pyval) (d : deployments_report) (st : fstore) :
    fstore * deployments_report :=
  let p := fingerprints_file (dr_id d.2) unixtime in
  (mkfstore (base st) (columns st) (<[p := Dumped data]> (json_files st)),
   (mkcolumns (rc_report d.1) (rc_status d.1) (Some p), d.2)).

Definition without_csv (d : deployments_report) : deployments_report := (d.1, set_csv_path None d.2).

(** ** The view *)

Definition REPORT_DEPLOYMENTS_NOT_CREATED (report_id : Z) : string :=
  "Deployment report " +:+ int_repr report_id +:+ " could not be created. See server logs.".

Definition build_cached_json_report (d : deployments_report) (st : fstore) : fstore * Res pydict :=
  let '(st, r) := cached_fingerprints d st in
  (st, system_fingerprints ← r;
       Ok [("report_id", VInt (rc_report d.1)); ("status", VStr (rc_status d.1));
           ("report_type", VStr (dr_report_type d.2)); ("report_version", VStr (dr_report_version d.2));
           ("report_platform_id", VStr (dr_report_platform_id d.2));
           ("system_fingerprints", system_fingerprints)]).

Definition file_not_found (e : exn) : bool :=
  match e with OtherException name => bool_decide (name = "FileNotFoundError") | _ => false end.

Definition deployments_report_and_status (report_id : Z) (st : fstore) : fstore * Res (pydict * Z) :=
  match get_of_report report_id st with
  | None => (st, Err Http404)
  | Some d =>
      let not_created := Ok ([("detail", VStr (REPORT_DEPLOYMENTS_NOT_CREATED (rc_report d.1)))], 424) in
      if negb (bool_decide (rc_status d.1 = STATUS_COMPLETE)) then (st, not_created)
      else
        let '(st, r) := build_cached_json_report d st in
        (st, try_except (deployments_json ← r; Ok (deployments_json, 200)) file_not_found (fun _ => not_created))
  end.

Definition COMMON_ID_INV : string := "The id must be an integer.".

Definition deployments_view (report_id : pyval) (st : fstore) : fstore * Res (pydict * Z) :=
  if negb (is_int report_id) then (st, Err (ValidationError [("report_id", [COMMON_ID_INV])]))
  else match convert_to_int report_id with
       | Some id => deployments_report_and_status id st
       | None => (st, Err ValueError)
       end.

(** ** The tasks *)

(** [SystemFingerprintSerializer(objects, many=True).data], the fingerprints of a
    deployments report as the framework represents their rows. *)
Context (fingerprints_data : Z -> pyval).

(** The [except] is inside the transaction: what was saved before stays. *)
Definition generate_cached_fingerprints (unixtime : string) (id : Z) (st : fstore) : fstore * bool :=
  match get id st with
  | None => (st, false)
  | Some d =>
      let '(st, d) := set_cached_fingerprints unixtime (fingerprints_data id) (without_csv d) st in
      (save id d st, true)
  end.

Definition generate_and_save_cached_csv (unixtime : string) (id : Z) (st : fstore) : fstore * bool :=
  match get id st with
  | None => (st, false)
  | Some d =>
      let d := without_csv d in
      let st := save id d st in
      match build_cached_json_report d st with
      | (st, Err _) => (st, false)
      | (st, Ok deployments_json) =>
          let '(b, r) := create_deployments_csv cached_files_path unixtime (base st) deployments_json in
          (set_base b st, is_ok r)
      end
  end.

(** ** The command *)

Definition completed (st : fstore) : gmap Z report_columns :=
  filter (fun p : Z * report_columns => rc_status p.2 = STATUS_COMPLETE) (columns st).

Definition missing (file_path : option path) (st : fstore) : bool :=
  match file_path with None => false | Some _ => negb (is_valid_cache_file file_path st) end.

Definition csv_path_of (c : report_columns) (st : fstore) : option path :=
  row ← deployments (base st) !! rc_report c; dr_cached_csv_file_path row.

Definition find_reports_with_missing_cached_data (st : fstore) : gset Z * gset Z :=
  (dom (filter (fun p : Z * report_columns =>
          missing (rc_cached_fingerprints_file_path p.2) st = true) (completed st)),
   dom (filter (fun p : Z * report_columns => missing (csv_path_of p.2 st) st = true) (completed st))).

(** [generate_fingerprints] and [generate_csvs] differ by the task. *)
Definition generate_step (task : Z -> fstore -> fstore * bool) (acc : fstore * (list Z * list Z)) (id : Z) :
    fstore * (list Z * list Z) :=
  let '(st, (success_ids, failure_ids)) := acc in
  let '(st, success) := task id st in
  (st, if success then (success_ids ++ [id], failure_ids)%list else (success_ids, failure_ids ++ [id])%list).

Definition generate_all (task : Z -> fstore -> fstore * bool) (ids : gset Z) (st : fstore) :
    fstore * (list Z * list Z) :=
  foldl (generate_step task) (st, ([], [])) (merge_sort Z.le (elements ids)).

(** The time of each task, by the id of its report. *)
Context (fingerprints_time csv_time : Z -> string).

Definition generate_fingerprints : gset Z -> fstore -> fstore * (list Z * list Z) :=
  generate_all (fun id => generate_cached_fingerprints (fingerprints_time id) id).
Definition generate_csvs : gset Z -> fstore -> fstore * (list Z * list Z) :=
  generate_all (fun id => generate_and_save_cached_csv (csv_time id) id).

Definition failed_message (fingerprints csvs : list Z) : string :=
  "Failed to generate " +:+ int_repr (Z.of_nat (length fingerprints)) +:+ " fingerprint files. Failed to generate " +:+
  int_repr (Z.of_nat (length csvs)) +:+ " CSV files. ".

Definition handle (st : fstore) : fstore * Res unit :=
  let '(missing_fingerprints_ids, missing_csv_ids) := find_reports_with_missing_cached_data st in
  let '(st, (_, fingerprint_failures)) := generate_fingerprints missing_fingerprints_ids st in
  let '(st, (_, csv_failures)) := generate_csvs missing_csv_ids st in
  (st, match fingerprint_failures, csv_failures with
       | [], [] => Ok tt
       | _, _ => Err (CommandError (failed_message fingerprint_failures csv_failures))
       end).

(** ** Deletion *)

Definition unlink (file_path : option path) (st : fstore) : fstore :=
  match file_path with
  | None => st
  | Some p => mkfstore (mkstore (deployments (base st)) (delete p (files (base st))) (delayed (base st)))
                (columns st) (delete p (json_files st))
  end.

Definition deployments_report_post_delete_callback (instance : deployments_report) (st : fstore) : fstore :=
  let st := unlink (dr_cached_csv_file_path instance.2) st in
  unlink (rc_cached_fingerprints_file_path instance.1) st.

(** [deployments_report.delete()], its signal included. *)
Definition delete_report (id : Z) (st : fstore) : fstore :=
  match get id st with
  | None => st
  | Some d =>
      deployments_report_post_delete_callback d
        (mkfstore (mkstore (delete (rc_report d.1) (deployments (base st))) (files (base st)) (delayed (base st)))
           (delete id (columns st)) (json_files st))
  end.
End files.

(** ** Lemmas *)

Lemma int_repr_digits z : 0 <= z ->
  str_forall (fun d => negb (bool_decide (d = "-"%char))) (int_repr z) = true.
Proof.
  assert (Hgo : forall n s, str_forall (fun d => negb (bool_decide (d = "-"%char))) s = true ->
    str_forall (fun d => negb (bool_decide (d = "-"%char))) (pretty_N_go n s) = true).
  { intros n. induction (N.lt_wf_0 n) as [n _ IH]. intros s Hs.
    destruct (decide (n = 0)%N) as [->|Hn]; [by rewrite pretty_N_go_0|].
    rewrite pretty_N_go_step by lia. apply IH; [apply N.div_lt; lia|]. cbn [str_forall]. rewrite Hs, andb_true_r.
    unfold pretty_N_char. by repeat case_match. }
  intros Hz. destruct z as [|p|p]; [done| |lia].
  change (int_repr (Z.pos p)) with (pretty (N.pos p)). unfold pretty, pretty_N.
  by rewrite decide_False by done; apply Hgo.
Qed.

Definition report_file (id : Z) (unixtime ext : string) : string :=
  "deployments-report-" +:+ int_repr id +:+ "-" +:+ unixtime +:+ ext.

(** Files of different reports have different names, whenever they are written. *)
Lemma report_file_inj a b t u ext : 0 <= a -> 0 <= b -> report_file a t ext = report_file b u ext -> a = b.
Proof.
  unfold report_file. intros Ha Hb H%(inj (String.append _)).
  apply (f_equal (fun s => head (str_split (String "-" "") s))) in H.
  change ("-" +:+ t +:+ ext) with (String "-" (t +:+ ext)) in H.
  change ("-" +:+ u +:+ ext) with (String "-" (u +:+ ext)) in H.
  rewrite !split_no_char in H by by apply int_repr_digits.
  injection H as H. by apply (inj pretty) in H.
Qed.

Lemma writerows_nonempty row rows : writerows "" (row :: rows) <> "".
Proof. intros E. pose proof (csv_read_writerows (row :: rows)) as R. rewrite E in R. discriminate R. Qed.

Lemma deployments_rows_nonempty report_id row systems rows :
  deployments_rows report_id row systems = Ok rows -> writerows "" rows <> "".
Proof.
  unfold deployments_rows, systems_rows. intros H.
  apply bind_Ok in H as (? & _ & (? & _ & (? & _ & ([hs sys] & _ & (x & _ & [= <-])%bind_Ok)%bind_Ok)%bind_Ok)%bind_Ok).
  apply writerows_nonempty.
Qed.

(** What making the CSV of a report without a CSV file does to the store. *)
Lemma create_csv_cases dir now b d report row :
  dget_none "report_id" d = VInt report -> deployments b !! report = Some row ->
  dr_cached_csv_file_path row = None ->
  (exists r, create_deployments_csv dir now b d = (b, r) /\ (r = Ok VNone \/ exists e, r = Err e)) \/
  (exists text, text <> "" /\
     create_deployments_csv dir now b d = (save_cached_csv dir now b report row text, Ok (VStr text))).
Proof.
  intros Hid Hrow Hpath. unfold create_deployments_csv. rewrite Hid. cbn [is_none py_int].
  rewrite Hrow. unfold cached_csv_of. rewrite Hpath. cbn [truthy].
  destruct (truthy (dget_none "system_fingerprints" d)); cbn [negb]; [|left; eauto].
  destruct (deployments_rows _ row _) as [rows|e] eqn:E; [right|left; eauto].
  exists (writerows "" rows). split; [by eapply deployments_rows_nonempty | done].
Qed.

(** Every row has its report, and no report two rows. *)
Definition wf (st : fstore) : Prop :=
  forall id c, columns st !! id = Some c ->
    0 <= id /\ exists row, deployments (base st) !! rc_report c = Some row /\ dr_id row = id.

Lemma wf_get st id c : wf st -> columns st !! id = Some c ->
  exists row, get id st = Some (c, row) /\ deployments (base st) !! rc_report c = Some row /\ dr_id row = id.
Proof.
  intros Hwf Hc. destruct (Hwf id c Hc) as (_ & row & Hrow & Hid). exists row. unfold get.
  by rewrite Hc; cbn; rewrite Hrow.
Qed.

Lemma get_Some id st d : get id st = Some d <->
  columns st !! id = Some d.1 /\ deployments (base st) !! rc_report d.1 = Some d.2.
Proof.
  unfold get. destruct d as [c row]. cbn. split.
  - destruct (columns st !! id) as [c'|]; [|done]. cbn. destruct (_ !! rc_report c') eqn:E; [|done].
    by intros [= <- <-].
  - intros [-> H]. cbn. by rewrite H.
Qed.

Lemma wf_report st id1 id2 c1 c2 : wf st -> columns st !! id1 = Some c1 -> columns st !! id2 = Some c2 ->
  rc_report c1 = rc_report c2 -> id1 = id2.
Proof.
  intros Hwf H1 H2 E. destruct (Hwf _ _ H1) as (_ & r1 & Hr1 & <-), (Hwf _ _ H2) as (_ & r2 & Hr2 & <-).
  congruence.
Qed.

(** A row saved with its own report and id. *)
Lemma wf_saved id d d' st : wf st -> get id st = Some d ->
  rc_report d'.1 = rc_report d.1 -> dr_id d'.2 = dr_id d.2 -> wf (save id d' st).
Proof.
  intros Hwf [Hc Hr]%get_Some Er Ei i c Hi. cbn in *.
  destruct (Hwf id _ Hc) as (H0 & row & Hrow & Hid).
  destruct (decide (i = id)) as [->|Hn].
  - rewrite lookup_insert_eq in Hi. injection Hi as <-. split; [done|].
    exists d'.2. rewrite lookup_insert_eq. split; [done|]. congruence.
  - rewrite lookup_insert_ne in Hi by done. destruct (Hwf i c Hi) as (Hp & r & Hr' & Hri). split; [done|].
    exists r. rewrite lookup_insert_ne; [done|]. rewrite Er. intros E. apply Hn.
    symmetry. by eapply wf_report.
Qed.

Lemma get_save_eq id d st : get id (save id d st) = Some d.
Proof. apply get_Some. cbn. by rewrite !lookup_insert_eq. Qed.

Lemma get_save_ne i id d d' st : wf st -> get id st = Some d -> rc_report d'.1 = rc_report d.1 -> i <> id ->
  get i (save id d' st) = get i st.
Proof.
  intros Hwf [Hc Hr]%get_Some Er Hn. unfold get. cbn. rewrite lookup_insert_ne by done.
  destruct (columns st !! i) as [c|] eqn:Hi; [|done]. cbn.
  rewrite lookup_insert_ne; [done|]. rewrite Er. intros E. apply Hn. symmetry. by eapply wf_report.
Qed.

Section facts.
Context (cached_files_path : string) (accessible : path -> bool) (fingerprints_data : Z -> pyval).

Abbreviation valid := (is_valid_cache_file accessible).
Abbreviation fp_task := (generate_cached_fingerprints cached_files_path fingerprints_data).
Abbreviation csv_task := (generate_and_save_cached_csv cached_files_path accessible).

(** Files stay usable. *)
Definition kept (st st' : fstore) : Prop := forall p, has_content p st = true -> has_content p st' = true.

#[local] Instance kept_preorder : PreOrder kept.
Proof. split; [by intros st p | intros a b c H1 H2 p Hp; auto]. Qed.


Lemma kept_same st st' : files (base st') = files (base st) -> json_files st' = json_files st -> kept st st'.
Proof. intros Hf Hj p. unfold has_content. by rewrite Hf, Hj. Qed.

Definition new_fingerprints (t : string) (id : Z) (d : deployments_report) : deployments_report :=
  (mkcolumns (rc_report d.1) (rc_status d.1) (Some (fingerprints_file cached_files_path id t)), set_csv_path None d.2).

Lemma fp_task_spec t id d st : wf st -> get id st = Some d ->
  let st' := (fp_task t id st).1 in
  (fp_task t id st).2 = true /\ wf st' /\ kept st st' /\
  get id st' = Some (new_fingerprints t id d) /\
  (forall i, i <> id -> get i st' = get i st) /\
  json_files st' = <[fingerprints_file cached_files_path id t := Dumped (fingerprints_data id)]> (json_files st).
Proof.
  intros Hwf Hg st'. pose proof Hg as [Hc Hr]%get_Some.
  destruct (Hwf id _ Hc) as (H0 & row & Hrow & Hid). rewrite Hr in Hrow. injection Hrow as <-.
  subst st'. unfold generate_cached_fingerprints. rewrite Hg.
  set (st1 := mkfstore (base st) (columns st)
    (<[fingerprints_file cached_files_path id t := Dumped (fingerprints_data id)]> (json_files st))).
  assert (E : set_cached_fingerprints cached_files_path t (fingerprints_data id) (without_csv d) st
              = (st1, new_fingerprints t id d)) by (unfold set_cached_fingerprints; cbn; by rewrite Hid).
  rewrite E. cbn [fst snd]. assert (Hwf1 : wf st1) by done. assert (Hg1 : get id st1 = Some d) by done.
  split; [done|]. split; [by eapply wf_saved|]. split.
  { intros p. unfold has_content. cbn. destruct (decide (p = fingerprints_file cached_files_path id t)) as [->|Hn].
    - by rewrite lookup_insert_eq.
    - by rewrite lookup_insert_ne. }
  split; [apply get_save_eq|]. split; [|done]. intros i Hi. by rewrite (get_save_ne i id d).
Qed.

(** The CSV file that the task leaves: none, or one with a text. *)
Definition csv_done (p : option path) (st : fstore) : Prop :=
  p = None \/ exists q, p = Some q /\ parent q = cached_files_path /\ has_content q st = true.

Lemma cached_fingerprints_base d st :
  deployments (base (cached_fingerprints cached_files_path accessible d st).1) = deployments (base st) /\
  files (base (cached_fingerprints cached_files_path accessible d st).1) = files (base st) /\
  columns (cached_fingerprints cached_files_path accessible d st).1 = columns st /\
  json_files (cached_fingerprints cached_files_path accessible d st).1 = json_files st.
Proof. unfold cached_fingerprints. by repeat case_match. Qed.

Lemma build_report_base d st :
  deployments (base (build_cached_json_report cached_files_path accessible d st).1) = deployments (base st) /\
  files (base (build_cached_json_report cached_files_path accessible d st).1) = files (base st) /\
  columns (build_cached_json_report cached_files_path accessible d st).1 = columns st /\
  json_files (build_cached_json_report cached_files_path accessible d st).1 = json_files st.
Proof.
  unfold build_cached_json_report. pose proof (cached_fingerprints_base d st) as H.
  by destruct (cached_fingerprints _ _ d st).
Qed.

Lemma build_report_id d st st' json :
  build_cached_json_report cached_files_path accessible d st = (st', Ok json) ->
  dget_none "report_id" json = VInt (rc_report d.1).
Proof.
  unfold build_cached_json_report. destruct (cached_fingerprints _ _ d st) as [st1 r].
  by intros [= -> (v & _ & [= <-])%bind_Ok].
Qed.

Lemma get_ext st st' i : columns st' = columns st -> deployments (base st') = deployments (base st) ->
  get i st' = get i st.
Proof. intros E1 E2. unfold get. by rewrite E1, E2. Qed.
Lemma wf_ext st st' : columns st' = columns st -> deployments (base st') = deployments (base st) ->
  wf st -> wf st'.
Proof. intros E1 E2. unfold wf. by rewrite E1, E2. Qed.

Lemma save_columns id d st : columns st !! id = Some d.1 -> columns (save id d st) = columns st.
Proof. intros H. cbn. by apply insert_id. Qed.

(** What the task leaves, whether it makes a file or not. *)
Definition csv_made (id : Z) (d : deployments_report) (st st' : fstore) (success : bool) : Prop :=
  wf st' /\ kept st st' /\ columns st' = columns st /\ json_files st' = json_files st /\
  (exists p, get id st' = Some (d.1, set_csv_path p d.2) /\ csv_done p st' /\ (success = false -> p = None)) /\
  (forall i, i <> id -> get i st' = get i st).

(** The row is saved without its CSV file, and nothing more is stored. *)
Lemma csv_not_made id d st st' success : wf st -> get id st = Some d ->
  columns st' = columns st -> json_files st' = json_files st -> files (base st') = files (base st) ->
  deployments (base st') = <[rc_report d.1 := set_csv_path None d.2]> (deployments (base st)) ->
  csv_made id d st st' success.
Proof.
  intros Hwf Hg Ec Ej Ef Ed. pose proof Hg as [Hc Hr]%get_Some.
  assert (Es : columns (save id (without_csv d) st) = columns st) by by apply save_columns.
  assert (Hgx : forall i, get i st' = get i (save id (without_csv d) st))
    by (intros i; apply get_ext; [by rewrite Es | done]).
  split; [|split; [by apply kept_same|split; [done|split; [done|split]]]].
  - apply (wf_ext (save id (without_csv d) st)); [by rewrite Es | done |]. by apply (wf_saved id d).
  - exists None. split; [|split; [by left | done]]. rewrite Hgx. apply get_save_eq.
  - intros i Hi. rewrite Hgx. by apply (get_save_ne i id d).
Qed.

Lemma csv_task_spec t id d st : wf st -> get id st = Some d ->
  csv_made id d st (csv_task t id st).1 (csv_task t id st).2.
Proof.
  intros Hwf Hg. pose proof Hg as [Hc Hr]%get_Some. unfold generate_and_save_cached_csv. rewrite Hg.
  set (st1 := save id (without_csv d) st).
  pose proof (build_report_base (without_csv d) st1) as (Bd & Bf & Bc & Bj).
  assert (Es : columns st1 = columns st) by by apply save_columns.
  destruct (build_cached_json_report _ _ (without_csv d) st1) as [st2 [json|e]] eqn:Hb;
    cbn [fst snd] in *; [|by apply csv_not_made; rewrite ?Bc, ?Bd, ?Bf, ?Bj].
  pose proof (build_report_id _ _ _ _ Hb) as Hid.
  assert (Hrow : deployments (base st2) !! rc_report d.1 = Some (set_csv_path None d.2))
    by (rewrite Bd; apply lookup_insert_eq).
  destruct (create_csv_cases cached_files_path t (base st2) json (rc_report d.1) _ Hid Hrow eq_refl)
    as [(r & -> & _)|(text & Ht & ->)]; cbn [fst snd is_ok].
  { apply csv_not_made; cbn; by rewrite ?Bc, ?Bd, ?Bf, ?Bj. }
  set (p := csv_file cached_files_path t (set_csv_path None d.2)).
  set (st3 := set_base _ st2).
  assert (E3 : forall i, get i st3 = get i (save id (d.1, set_csv_path (Some p) d.2) st1)).
  { intros i. apply get_ext; cbn; [rewrite Bc; symmetry; by apply insert_id; rewrite Es | by rewrite Bd]. }
  assert (Hwf1 : wf st1) by by apply (wf_saved id d).
  assert (Hg1 : get id st1 = Some (without_csv d)) by apply get_save_eq.
  split; [|split; [|split; [|split; [done|split]]]].
  - apply (wf_ext (save id (d.1, set_csv_path (Some p) d.2) st1)); cbn;
      [rewrite Bc; symmetry; by apply insert_id; rewrite Es | by rewrite Bd |].
    by apply (wf_saved id (without_csv d)).
  - intros q. unfold has_content. cbn. rewrite Bj, Bf. destruct (decide (q = p)) as [->|Hn].
    + rewrite lookup_insert_eq, (bool_decide_eq_false_2 (text = "")) by done. by rewrite orb_true_r.
    + by rewrite lookup_insert_ne.
  - cbn. by rewrite Bc.
  - exists (Some p). split; [rewrite E3; apply get_save_eq|]. split; [|done]. right. exists p.
    split; [done|]. split; [done|]. unfold has_content. cbn.
    by rewrite lookup_insert_eq, (bool_decide_eq_false_2 (text = "")), orb_true_r by done.
  - intros i Hi. rewrite E3, (get_save_ne i id (without_csv d)) by done. by apply (get_save_ne i id d).
Qed.

Section commands.
Context (fingerprints_time csv_time : Z -> string).

(** A file from which a value can be loaded. *)
Definition dumped (p : path) (st : fstore) : Prop := exists v, json_files st !! p = Some (Dumped v).

Lemma generate_fingerprints_spec l st : NoDup l -> wf st -> (forall i, i ∈ l -> is_Some (get i st)) ->
  let '(st', (_, failures)) :=
    foldl (generate_step (fun id => fp_task (fingerprints_time id) id)) (st, ([], [])) l in
  failures = [] /\ wf st' /\ kept st st' /\ (forall p, dumped p st -> dumped p st') /\
  (forall i, i ∉ l -> get i st' = get i st) /\
  (forall i, i ∈ l -> exists d, get i st = Some d /\
     get i st' = Some (new_fingerprints (fingerprints_time i) i d) /\
     json_files st' !! fingerprints_file cached_files_path i (fingerprints_time i) =
       Some (Dumped (fingerprints_data i))).
Proof.
  intros HN Hwf Hl. induction l as [|id l IH] using rev_ind.
  { cbn. do 5 (split; [done|]). by intros i ?%elem_of_nil. }
  apply NoDup_app in HN as (HN & Hd & _). rewrite foldl_app.
  assert (Hid : id ∉ l) by (intros H; apply (Hd id H); by left).
  specialize (IH HN). destruct (foldl _ (st, ([], [])) l) as [st1 [s f]].
  destruct IH as (-> & Hwf1 & Hk & HD & Ho & Hi); [intros i H; apply Hl; set_solver|].
  destruct (Hl id) as [d Hg]; [set_solver|]. rewrite <-(Ho id Hid) in Hg.
  destruct (fp_task_spec (fingerprints_time id) id d st1 Hwf1 Hg) as (E & Hwf2 & Hk2 & Hg2 & Ho2 & Hj2).
  cbn [foldl generate_step]. destruct (fp_task (fingerprints_time id) id st1) as [st2 ok].
  cbn [fst snd] in *. subst ok. split; [done|]. split; [done|]. split; [by etrans|]. split.
  { intros p H. destruct (HD p H) as [v Hv]. unfold dumped. rewrite Hj2.
    destruct (decide (p = fingerprints_file cached_files_path id (fingerprints_time id))) as [->|Hn].
    - rewrite lookup_insert_eq. by eexists.
    - rewrite lookup_insert_ne by done. by eexists. }
  split.
  { intros i H. rewrite Ho2 by set_solver. apply Ho. set_solver. }
  intros i [H|H]%elem_of_app; [|apply list_elem_of_singleton in H as ->].
  - destruct (Hi i H) as (di & Hgi & Hgi1 & Hji). assert (Hne : i <> id) by (by intros ->).
    exists di. split; [done|]. split; [by rewrite Ho2|]. rewrite Hj2, lookup_insert_ne; [done|].
    intros E. apply Hne. apply (f_equal fname) in E. symmetry. apply get_Some in Hg as [Hc _], Hgi as [Hci _].
    apply (report_file_inj _ _ _ _ _ (proj1 (Hwf1 _ _ Hc)) (proj1 (Hwf _ _ Hci)) E).
  - exists d. rewrite Ho in Hg by done. split; [done|]. split; [done|]. by rewrite Hj2, lookup_insert_eq.
Qed.

Lemma csv_done_kept p st st' : kept st st' -> csv_done p st -> csv_done p st'.
Proof. intros Hk [->|(q & -> & Hp & Hc)]; [by left|]. right. exists q. auto. Qed.

Lemma generate_csvs_spec l st : NoDup l -> wf st -> (forall i, i ∈ l -> is_Some (get i st)) ->
  let '(st', (_, failures)) := foldl (generate_step (fun id => csv_task (csv_time id) id)) (st, ([], [])) l in
  wf st' /\ kept st st' /\ columns st' = columns st /\ json_files st' = json_files st /\
  (forall i, i ∉ l -> get i st' = get i st) /\ failures ⊆ l /\
  (forall i, i ∈ l -> exists d p, get i st = Some d /\ get i st' = Some (d.1, set_csv_path p d.2) /\
     csv_done p st' /\ (i ∈ failures -> p = None)).
Proof.
  intros HN Hwf Hl. induction l as [|id l IH] using rev_ind.
  { cbn. do 6 (split; [done|]). by intros i ?%elem_of_nil. }
  apply NoDup_app in HN as (HN & Hd & _). rewrite foldl_app.
  assert (Hid : id ∉ l) by (intros H; apply (Hd id H); by left).
  specialize (IH HN). destruct (foldl _ (st, ([], [])) l) as [st1 [s f]].
  destruct IH as (Hwf1 & Hk & Hc & Hj & Ho & Hf & Hi); [intros i H; apply Hl; set_solver|].
  destruct (Hl id) as [d Hg]; [set_solver|]. rewrite <-(Ho id Hid) in Hg.
  destruct (csv_task_spec (csv_time id) id d st1 Hwf1 Hg) as (Hwf2 & Hk2 & Hc2 & Hj2 & (p & Hp & Hdp & Hfp) & Ho2).
  cbn [foldl generate_step]. destruct (csv_task (csv_time id) id st1) as [st2 ok]. cbn [fst snd] in *.
  assert (Hall : wf st2 /\ kept st st2 /\ columns st2 = columns st /\ json_files st2 = json_files st /\
    (forall i, i ∉ (l ++ [id])%list -> get i st2 = get i st)).
  { split; [done|]. split; [by etrans|]. split; [congruence|]. split; [congruence|].
    intros i H. rewrite Ho2 by set_solver. apply Ho. set_solver. }
  destruct Hall as (A1 & A2 & A3 & A4 & A5).
  enough (HB : forall g, g ⊆ (f ++ [id])%list -> (id ∈ g -> ok = false) ->
    g ⊆ (l ++ [id])%list /\ forall i, i ∈ (l ++ [id])%list -> exists d p, get i st = Some d /\
      get i st2 = Some (d.1, set_csv_path p d.2) /\ csv_done p st2 /\ (i ∈ g -> p = None)).
  { destruct ok; split; try done; do 4 (split; [done|]); apply HB; set_solver. }
  intros g Hgf Hok. split; [set_solver|]. intros i [H|H]%elem_of_app; [|apply list_elem_of_singleton in H as ->].
  - destruct (Hi i H) as (di & q & Hgi & Hgi1 & Hdq & Hq). assert (Hne : i <> id) by (by intros ->).
    exists di, q. split; [done|]. split; [by rewrite Ho2|]. split; [by apply (csv_done_kept _ _ _ Hk2)|].
    intros Hg'. apply Hq. set_solver.
  - exists d, p. rewrite Ho in Hg by done. auto 6.
Qed.

Lemma sorted_elements (X : gset Z) : NoDup (merge_sort Z.le (elements X)) /\
  forall i, i ∈ merge_sort Z.le (elements X) <-> i ∈ X.
Proof.
  pose proof (merge_sort_Permutation Z.le (elements X)) as HP. split.
  - rewrite HP. apply NoDup_elements.
  - intros i. by rewrite HP, elem_of_elements.
Qed.

Abbreviation find_missing := (find_reports_with_missing_cached_data accessible).

Lemma missing_fingerprints st i : i ∈ (find_missing st).1 <->
  exists c, columns st !! i = Some c /\ rc_status c = STATUS_COMPLETE /\
    missing accessible (rc_cached_fingerprints_file_path c) st = true.
Proof.
  cbn. rewrite elem_of_dom. unfold is_Some, completed. setoid_rewrite map_lookup_filter_Some.
  setoid_rewrite map_lookup_filter_Some. cbn. naive_solver.
Qed.
Lemma missing_csv st i : i ∈ (find_missing st).2 <->
  exists c, columns st !! i = Some c /\ rc_status c = STATUS_COMPLETE /\
    missing accessible (csv_path_of c st) st = true.
Proof.
  cbn. rewrite elem_of_dom. unfold is_Some, completed. setoid_rewrite map_lookup_filter_Some.
  setoid_rewrite map_lookup_filter_Some. cbn. naive_solver.
Qed.

Lemma csv_path_get i st d : get i st = Some d -> csv_path_of d.1 st = dr_cached_csv_file_path d.2.
Proof. intros [_ H]%get_Some. unfold csv_path_of. by rewrite H. Qed.


(** The two phases of the command: what has become of each report. *)
Definition regenerated (st st' : fstore) (mf mc : gset Z) (failures : list Z) : Prop :=
  wf st' /\ kept st st' /\ (forall p, dumped p st -> dumped p st') /\
  (forall i, i ∈ failures -> i ∈ mc) /\
  (forall i, get i st = None -> get i st' = None) /\
  (forall i d, get i st = Some d -> exists d1 d2,
     (d1 = if decide (i ∈ mf) then new_fingerprints (fingerprints_time i) i d else d) /\
     (if decide (i ∈ mc)
      then exists p, d2 = (d1.1, set_csv_path p d1.2) /\ csv_done p st' /\ (i ∈ failures -> p = None)
      else d2 = d1) /\
     get i st' = Some d2 /\
     (i ∈ mf -> json_files st' !! fingerprints_file cached_files_path i (fingerprints_time i) =
                Some (Dumped (fingerprints_data i)))).

Lemma find_get st i : wf st -> i ∈ (find_missing st).1 \/ i ∈ (find_missing st).2 -> is_Some (get i st).
Proof.
  intros Hwf [H|H]; [apply missing_fingerprints in H | apply missing_csv in H]; destruct H as (c & Hc & _);
    destruct (wf_get st i c Hwf Hc) as (row & -> & _); by eexists.
Qed.

Lemma handle_phases st : wf st -> exists failures,
  regenerated st (handle cached_files_path accessible fingerprints_data fingerprints_time csv_time st).1
    (find_missing st).1 (find_missing st).2 failures /\
  (handle cached_files_path accessible fingerprints_data fingerprints_time csv_time st).2 =
    match failures with [] => Ok tt | _ => Err (CommandError (failed_message [] failures)) end.
Proof.
  intros Hwf. pose proof (find_get st) as Hget. unfold handle.
  destruct (find_missing st) as [mf mc]. cbn [fst snd] in *.
  destruct (sorted_elements mf) as [N1 S1], (sorted_elements mc) as [N2 S2].
  pose proof (generate_fingerprints_spec _ st N1 Hwf) as H1.
  unfold generate_fingerprints, generate_all.
  destruct (foldl _ (st, ([], [])) (merge_sort Z.le (elements mf))) as [st1 [s1 f1]].
  destruct H1 as (-> & Hwf1 & Hk1 & HD1 & Ho1 & Hi1); [intros i Hi; apply Hget, or_introl, S1, Hi; done|].
  pose proof (generate_csvs_spec _ st1 N2 Hwf1) as H2.
  unfold generate_csvs, generate_all.
  destruct (foldl _ (st1, ([], [])) (merge_sort Z.le (elements mc))) as [st2 [s2 f2]].
  destruct H2 as (Hwf2 & Hk2 & Hc2 & Hj2 & Ho2 & Hf2 & Hi2).
  { intros i Hi. destruct (Hget i Hwf) as [d Hd]; [right; by apply S2|].
    destruct (decide (i ∈ mf)) as [Hm|Hm].
    - destruct (Hi1 i) as (d' & _ & Hd' & _); [by apply S1 | by eexists].
    - exists d. rewrite Ho1; [done|]. by rewrite S1. }
  exists f2. cbn [fst snd]. split; [|by destruct f2]. split; [done|]. split; [by etrans|].
  split; [intros p; unfold dumped; rewrite Hj2; apply HD1|].
  split; [intros i Hi; by apply S2, Hf2|]. split.
  { intros i Hi. assert (Hn : forall b, ~ (i ∈ (if b : bool then mf else mc))).
    { intros b H. destruct (Hget i Hwf) as [d Hd]; [destruct b; auto | congruence]. }
    rewrite Ho2, Ho1; [done | rewrite S1; exact (Hn true) | rewrite S2; exact (Hn false)]. }
  intros i d Hd.
  set (d1 := if decide (i ∈ mf) then new_fingerprints (fingerprints_time i) i d else d).
  assert (Hd1 : get i st1 = Some d1 /\ (i ∈ mf ->
    json_files st1 !! fingerprints_file cached_files_path i (fingerprints_time i) = Some (Dumped (fingerprints_data i)))).
  { subst d1. destruct (decide (i ∈ mf)) as [Hm|Hm].
    - destruct (Hi1 i) as (d' & E & Hd' & Hj); [by apply S1|]. split; [congruence | done].
    - split; [|done]. rewrite Ho1; [done|]. by rewrite S1. }
  destruct Hd1 as [Hd1 Hj1]. exists d1. destruct (decide (i ∈ mc)) as [Hm|Hm].
  - destruct (Hi2 i) as (d' & p & E & Hd' & Hp & Hpf); [by apply S2|]. assert (d' = d1) as -> by congruence.
    eexists. split; [done|]. split; [by exists p|]. split; [done|]. by rewrite Hj2.
  - exists d1. split; [done|]. split; [done|]. rewrite Hj2, Ho2; [done|]. by rewrite S2.
Qed.

Abbreviation command := (handle cached_files_path accessible fingerprints_data fingerprints_time csv_time).
Context (Hacc : forall p, parent p = cached_files_path -> accessible p = true).



Lemma not_in_missing st i d : get i st = Some d -> rc_status d.1 = STATUS_COMPLETE ->
  (i ∉ (find_missing st).1 -> missing accessible (rc_cached_fingerprints_file_path d.1) st = false) /\
  (i ∉ (find_missing st).2 -> missing accessible (dr_cached_csv_file_path d.2) st = false).
Proof.
  intros Hg Hs. rewrite missing_fingerprints, missing_csv. pose proof Hg as [Hc _]%get_Some.
  split; intros Hn; apply not_true_is_false; intros H; apply Hn; exists d.1; split; try done.
  split; [done|]. by rewrite (csv_path_get i).
Qed.




(** The paths are those of the cache, and a file that is not empty was dumped whole. *)
Definition paths_ok (st : fstore) : Prop := forall i c p, columns st !! i = Some c ->
  rc_cached_fingerprints_file_path c = Some p ->
  parent p = cached_files_path /\ (has_content p st = true -> dumped p st).

(** After the command every completed report is served: no file is found missing and no
    task is requested. *)
Theorem completed_reports_served st i c : wf st -> paths_ok st -> columns st !! i = Some c ->
  rc_status c = STATUS_COMPLETE ->
  exists json, deployments_report_and_status cached_files_path accessible (rc_report c) (command st).1 =
               ((command st).1, Ok (json, 200)).
Proof.
  intros Hwf Hp Hc Hs. destruct (handle_phases st Hwf) as (f & (Hwf' & _ & HD & _ & _ & Hall) & _).
  set (st' := (command st).1) in *. destruct (wf_get st i c Hwf Hc) as (row & Hd & _).
  destruct (Hall i _ Hd) as (d1 & d2 & E1 & E2 & Hg & Hj).
  assert (Ec : d2.1 = d1.1) by (destruct (decide (i ∈ (find_missing st).2)); [by destruct E2 as (p & -> & _) | by rewrite E2]).
  assert (Hrep : rc_report d2.1 = rc_report c /\ rc_status d2.1 = rc_status c)
    by (rewrite Ec, E1; by destruct (decide (i ∈ (find_missing st).1))).
  destruct Hrep as [Er Es].
  assert (Hof : get_of_report (rc_report c) st' = Some d2).
  { pose proof Hg as [Hc' Hr']%get_Some. destruct (Hwf' i _ Hc') as (_ & row' & Hrow & Hid). unfold get_of_report.
    rewrite <-Er, Hr'. cbn. rewrite Hr' in Hrow. injection Hrow as <-. rewrite Hid, Hc'. cbn. by destruct d2 as [??]. }
  assert (Hv : exists v, cached_fingerprints cached_files_path accessible d2 st' = (st', Ok v)).
  { unfold cached_fingerprints. rewrite Ec. destruct (decide (i ∈ (find_missing st).1)) as [Hm|Hm]; subst d1; cbn.
    - rewrite bool_decide_true by done. cbn [negb]. rewrite Hj, Hacc by done. by eexists.
    - destruct (rc_cached_fingerprints_file_path c) as [p|] eqn:Ep; [|by eexists].
      destruct (Hp i c p Hc Ep) as [Hpar Hdump]. rewrite bool_decide_true by done. cbn [negb].
      destruct (not_in_missing st i _ Hd Hs) as [Hmiss _]. specialize (Hmiss Hm). cbn in Hmiss. rewrite Ep in Hmiss.
      apply negb_false_iff in Hmiss. cbn in Hmiss. apply andb_true_iff in Hmiss as [Hmiss Ha].
      destruct (HD p (Hdump Hmiss)) as [v Hv]. rewrite Hv, Ha. by eexists. }
  destruct Hv as [v Hv]. eexists. unfold deployments_report_and_status. rewrite Hof, Es, bool_decide_true by done.
  cbn [negb]. unfold build_cached_json_report. rewrite Hv. reflexivity.
Qed.
End commands.
End facts.

Lemma has_content_unlink p q st :
  has_content p (unlink q st) = if decide (q = Some p) then false else has_content p st.
Proof.
  destruct q as [q|]; [|done]. unfold has_content. cbn. case_decide as H.
  - injection H as ->. by rewrite !lookup_delete_eq.
  - by rewrite !lookup_delete_ne by congruence.
Qed.

Lemma unlink_columns q st : columns (unlink q st) = columns st.
Proof. by destruct q. Qed.

(** A report deleted leaves neither row nor file behind, of those it names. *)
Lemma report_deleted id d st : get id st = Some d ->
  get id (delete_report id st) = None /\
  forall p, has_content p (delete_report id st) =
    if decide (dr_cached_csv_file_path d.2 = Some p \/ rc_cached_fingerprints_file_path d.1 = Some p)
    then false else has_content p st.
Proof.
  intros Hg. unfold delete_report. rewrite Hg. unfold deployments_report_post_delete_callback. split.
  - unfold get. rewrite !unlink_columns. cbn. by rewrite lookup_delete_eq.
  - intros p. rewrite !has_content_unlink. repeat case_decide; tauto.
Qed.

(** ** Examples *)

Module Samples.
Definition dir : string := "/cache".
Definition data (id : Z) : pyval := VList [VDict sample_system].
Definition in_dir (p : path) : bool := bool_decide (parent p = dir).
Definition t1 (id : Z) : string := "1".
Definition t2 (id : Z) : string := "2".

Definition csv0 : path := csv_file dir "0" sample_deployment.
Definition row0 : Deployments.deployment_row := set_csv_path (Some csv0) sample_deployment.

(** A completed report with its CSV file, whose fingerprints are lost. *)
Definition st0 : fstore :=
  mkfstore (mkstore {[7 := row0]} {[csv0 := "text"]} [])
    {[3 := mkcolumns 7 STATUS_COMPLETE (Some (fingerprints_file dir 3 "0"))]} ∅.

Definition run (st : fstore) : fstore * Res unit := handle dir in_dir data t1 t2 st.




(** Before, the view asks for the file and answers 424; after, 200. *)
Example served_again :
  (let '(st, r) := deployments_view dir in_dir (VStr "7") st0 in (delayed (base st), snd <$> r)) =
    ([("generate_cached_fingerprints", 3)], Ok 424) /\
  snd <$> (deployments_view dir in_dir (VStr "7") (run st0).1).2 = Ok 200.
Proof. by vm_compute. Qed.

(** The CSV file that goes with the lost fingerprints is forgotten, not removed: it is
    still there when the report is deleted. *)
Example forgotten_csv :
  dr_cached_csv_file_path <$> deployments (base (run st0).1) !! 7 = Some None /\
  has_content csv0 (delete_report 3 (run st0).1) = true.
Proof. by vm_compute. Qed.

(** A report without cached fingerprints: its CSV file is reported as made, and is not. *)
Definition st1 : fstore :=
  mkfstore (mkstore {[7 := row0]} ∅ []) {[3 := mkcolumns 7 STATUS_COMPLETE None]} ∅.
Example made_nothing :
  (run st1).2 = Ok tt /\ find_reports_with_missing_cached_data in_dir st1 = (∅, {[3]}) /\
  files (base (run st1).1) = ∅ /\ dr_cached_csv_file_path <$> deployments (base (run st1).1) !! 7 = Some None.
Proof. by vm_compute. Qed.

(** A CSV file that could not be made: the command fails once, and the next run finds
    nothing to do. *)
Definition st2 : fstore :=
  mkfstore (mkstore {[7 := row0]} ∅ [])
    {[3 := mkcolumns 7 STATUS_COMPLETE (Some (fingerprints_file dir 3 "0"))]}
    {[fingerprints_file dir 3 "0" := Broken "{"]}.
Example not_tried_again :
  (run st2).2 = Err (CommandError "Failed to generate 0 fingerprint files. Failed to generate 1 CSV files. ") /\
  (run (run st2).1).2 = Ok tt /\ files (base (run (run st2).1).1) = ∅.
Proof. by vm_compute. Qed.
End Samples.
