(* ===== verification/Insights.v ===== *)
(** Insights reports: the hosts of a deployments report as Yupana expects them,
    cut into slices.

    Models [api/common/entities.py], the mixin of [api/common/serializer.py],
    [deep_sort] of [utils/misc.py] and the host and payload serializers of
    [api/insights_report/serializers.py].  A fingerprint is the dict of the
    attributes of its row. *)
From stdpp Require Import base gmap sets list strings sorting pretty.
From Stdlib Require Import Ascii ZArith Lia SpecFloat.
From S2P Require Import Prelude PyStr PyNum PyVal ApiCommon Formatters Merge NetworkUtils Reports Deployments.

Open Scope string_scope.
Open Scope Z_scope.
#[global] Arguments String.append !s1 s2 / : simpl nomatch.

(** ** [deep_sort] *)

Fixpoint deep_sort (fuel : nat) (value : pyval) : Res pyval :=
  match fuel with
  | O => Err Unsupported
  | S fuel =>
      match value with
      | VList l => l' ← py_sorted l; r ← mapM (deep_sort fuel) l'; Ok (VList r)
      | VDict d =>
          r ← mapM (fun k => v ← deep_sort fuel (dget_none k d); Ok (k, v)) (str_sorted (dkeys d));
          Ok (VDict r)
      | _ => Ok value
      end
  end.

Fixpoint depth (v : pyval) : nat :=
  match v with
  | VList l => S (foldr (fun x n => Nat.max (depth x) n) 0%nat l)
  | VDict d => S (foldr (fun p n => Nat.max (depth p.2) n) 0%nat d)
  | _ => 1%nat
  end.

(** ** Hosts *)

Definition attr (k : string) (fp : pydict) : pyval := dget_none k fp.

(** The attributes hashed into a provider id. *)
Definition FINGERPRINT_FACT_NAMES_TO_SYNTHESIZE_PROVIDER_ID : list string :=
  ["name"; "os_name"; "infrastructure_type"; "cloud_provider"; "mac_addresses"; "ip_addresses";
   "cpu_count"; "architecture"; "system_memory_bytes"; "bios_uuid"; "subscription_manager_id";
   "cpu_socket_count"; "cpu_core_count"; "cpu_core_per_socket"; "cpu_hyperthreading";
   "system_creation_date"; "insights_client_id"; "virtualized_type"; "virtual_host_name";
   "virtual_host_uuid"; "vm_uuid"; "vm_dns_name"; "vm_host_socket_count"; "vm_host_core_count";
   "vm_cluster"; "vm_datacenter"; "is_redhat"; "etc_machine_id"].

Section with_digest.
(** SHA-512 of the JSON text of a value. *)
Context (digest : pyval -> string).

Definition date_as_str (v : pyval) : pyval :=
  match v with VDate _ | VDateTime _ _ => VStr (py_str v) | _ => v end.

Definition hash_system_fingerprint (fingerprint : pydict) (fields : list string) : Res string :=
  let d := (fun k => (k, date_as_str (attr k fingerprint))) <$> fields in
  v ← deep_sort (depth (VDict d)) (VDict d);
  Ok (digest v).

Definition provider_id (fp : pydict) : Res string :=
  let machine_id := attr "etc_machine_id" fp in
  match machine_id with
  | VStr s => if truthy machine_id then Ok s
              else hash_system_fingerprint fp FINGERPRINT_FACT_NAMES_TO_SYNTHESIZE_PROVIDER_ID
  | _ => hash_system_fingerprint fp FINGERPRINT_FACT_NAMES_TO_SYNTHESIZE_PROVIDER_ID
  end.
End with_digest.

(** [x / y] on nullable integers; the exceptions that are suppressed give [None]. *)
Definition _host_cores_per_socket (fp : pydict) : pyval :=
  match attr "vm_host_core_count" fp, attr "vm_host_socket_count" fp with
  | VInt c, VInt n => if n =? 0 then VNone else VFloat (float_div (float_of_int c) (float_of_int n))
  | _, _ => VNone
  end.

Definition cores_per_socket (fp : pydict) : pyval :=
  py_or (attr "cpu_core_per_socket" fp) (_host_cores_per_socket fp).
Definition number_of_sockets (fp : pydict) : pyval :=
  py_or (attr "cpu_socket_count" fp) (attr "vm_host_socket_count" fp).

Definition infrastructure_type (fp : pydict) : pyval :=
  match attr "infrastructure_type" fp with
  | VStr "bare_metal" => VStr "physical"
  | VStr "virtualized" => VStr "virtual"
  | t => t
  end.

(** [ipaddress.ip_address(v).version], [None] for its [ValueError]. *)
Definition ip_version (v : pyval) : option Z :=
  let of_int z := if (0 <=? z) && (z <? 2 ^ 32) then Some 4
                  else if (0 <=? z) && (z <? 2 ^ 128) then Some 6 else None in
  match v with
  | VStr s => if is_valid_ipv4_address s then Some 4
              else if is_valid_ipv6_address s then Some 6 else None
  | VInt z => of_int z
  | VBool b => of_int (b2z b)
  | _ => None
  end.

Definition addresses_of (version : Z) (fp : pydict) : Res (list pyval) :=
  let ip_addresses := attr "ip_addresses" fp in
  if truthy ip_addresses then
    l ← py_iter ip_addresses;
    Ok (List.filter (fun a => bool_decide (ip_version a = Some version)) l)
  else Ok [].
Definition ipv4_addresses : pydict -> Res (list pyval) := addresses_of 4.
Definition ipv6_addresses : pydict -> Res (list pyval) := addresses_of 6.

Definition SystemPurposeRole : list string :=
  ["Red Hat Enterprise Linux Workstation"; "Red Hat Enterprise Linux Server";
   "Red Hat Enterprise Linux Compute Node"].
Definition SystemPurposeSla : list string := ["Premium"; "Self-Support"; "Standard"].
Definition SystemPurposeUsage : list string := ["Development/Test"; "Production"; "Disaster Recovery"].

Definition system_purpose (fp : pydict) : pydict :=
  omap (fun '(name, v, enum) => if py_in v (VStr <$> enum) then Some (name, v) else None)
    [("role", attr "system_role" fp, SystemPurposeRole);
     ("usage", attr "system_usage_type" fp, SystemPurposeUsage);
     ("sla", attr "system_service_level_agreement" fp, SystemPurposeSla)].

(** [installed_products or []] *)
Definition installed_products (fp : pydict) : pyval := py_or (attr "installed_products" fp) (VList []).

(** The set of the names of the query's annotation. *)
Definition products (fp : pydict) : Res (list string) :=
  match dget "product_names" fp with
  | Some (VStr names) => Ok (dedup (filter (fun n => n <> "") (str_split "," names)))
  | _ => Err NotImplementedError
  end.

(** ** [ReportEntity] and its slices *)

(** [sources__icontains=t]: the JSON text of the sources contains [t], which is
    made of letters, if one of the texts in it does. *)
Fixpoint mentions (t : string) (v : pyval) : bool :=
  match v with
  | VStr s => str_contains t (str_lower s)
  | VList l => existsb (mentions t) l
  | VDict d => existsb (fun p => str_contains t (str_lower p.1) || mentions t p.2) d
  | _ => false
  end.

Definition insights_fingerprints (fingerprints : list pydict) : list pydict :=
  List.filter (fun fp => negb (existsb (fun t => mentions t (attr "sources" fp))
                                 ["openshift"; "ansible"; "rhacs"])) fingerprints.

Record ReportSlice := mkslice { slice_id : string; slice_start : Z; slice_end : Z }.

Record ReportEntity := mkentity {
  report_id : Z; report_uuid : string; entity_version : string;
  hosts : list pydict; slice_size_limit : Z }.

(** [SystemFingerprint.DoesNotExist] when no host is left. *)
Definition from_report_id (report_id : Z) (report : deployment_row) (fingerprints : list pydict)
    (limit : Z) : Res ReportEntity :=
  let hosts := insights_fingerprints fingerprints in
  if bool_decide (hosts = []) then Err DoesNotExist
  else Ok (mkentity report_id (dr_report_platform_id report) (dr_report_version report) hosts limit).

(** [l[a:b]] for [0 <= a <= b]. *)
Definition sublist {A} (a b : Z) (l : list A) : list A := take (Z.to_nat (b - a)) (drop (Z.to_nat a) l).

Definition slice_hosts (e : ReportEntity) (s : ReportSlice) : list pydict :=
  sublist (slice_start s) (slice_end s) (hosts e).
Definition number_of_hosts (s : ReportSlice) : Z := slice_end s - slice_start s.

Definition _calc_slice_end (limit number_hosts slice_start : Z) : Z :=
  let slice_end := slice_start + limit in
  if number_hosts <? slice_end then number_hosts else slice_end.

(** [range(0, n, step)]; [n] elements are always enough. *)
Fixpoint range_go (fuel : nat) (i n step : Z) : list Z :=
  match fuel with
  | O => []
  | S fuel => if i <? n then i :: range_go fuel (i + step) n step else []
  end.
Definition py_range (n step : Z) : Res (list Z) :=
  if step =? 0 then Err ValueError
  else Ok (if step <? 0 then [] else range_go (Z.to_nat n) 0 n step).

(** The slices, [uuid n] being the [n]th identifier that [uuid4] gives. *)
Definition _initialize_report_slices (uuid : nat -> string) (e : ReportEntity)
  : Res (list (string * ReportSlice)) :=
  let number_hosts := Z.of_nat (length (hosts e)) in
  starts ← py_range number_hosts (slice_size_limit e);
  Ok (foldl (fun d '(i, start) =>
        dset (uuid i) (mkslice (uuid i) start (_calc_slice_end (slice_size_limit e) number_hosts start)) d)
      [] (zip (seq 0 (length starts)) starts)).

(** ** The fields of the serializers

    The value of a field; [None] stays [None].  Fields that name no attribute
    and are not required are left out. *)

Definition char_field (v : pyval) : pyval := if is_none v then VNone else VStr (py_str v).
Definition integer_field (v : pyval) : Res pyval :=
  if is_none v then Ok VNone else z ← py_int v; Ok (VInt z).
Definition char_list_field (v : pyval) : Res pyval :=
  if is_none v then Ok VNone else l ← py_iter v; Ok (VList (char_field <$> l)).
Definition dict_list_field (v : pyval) : Res pyval :=
  l ← py_iter v;
  _ ← mapM (as_dict "items") (List.filter (fun x => negb (is_none x)) l);
  Ok (VList l).

Record environment := mkenv {
  server_version : string; server_id : string; hostname : string; ipaddress : string;
  data_collector : string; last_discovered : pyval }.

Section with_env.
Context (digest : pyval -> string) (env : environment).

Definition facts_of : pyval :=
  VList [VDict [("namespace", VStr "qpc");
                ("facts", VDict [("last_discovered", last_discovered env);
                                 ("qpc_server_version", VStr (server_version env));
                                 ("qpc_server_id", VStr (server_id env))])]].

Definition get_tags : pyval :=
  VList ((fun '(key, value) => VDict [("namespace", VStr "qpc"); ("key", VStr key); ("value", value)])
    <$> [("data-collector", VStr (data_collector env)); ("last-discovered", last_discovered env);
         ("scanner-hostname", VStr (hostname env)); ("scanner-id", VStr (server_id env));
         ("scanner-ip-address", VStr (ipaddress env)); ("scanner-version", VStr (server_version env))]).

Definition network_interface (fp : pydict) : Res pydict :=
  v4 ← ipv4_addresses fp;
  v6 ← ipv6_addresses fp;
  Ok (not_empty ["ipv6_addresses"]
    [("ipv4_addresses", VList (char_field <$> v4)); ("ipv6_addresses", VList (char_field <$> v6));
     ("name", VStr "unknown")]).

Definition system_profile (fp : pydict) : Res pydict :=
  number_of_cpus ← integer_field (attr "cpu_count" fp);
  sockets ← integer_field (number_of_sockets fp);
  cores ← integer_field (cores_per_socket fp);
  memory ← integer_field (attr "system_memory_bytes" fp);
  installed ← dict_list_field (installed_products fp);
  interface ← network_interface fp;
  Ok (not_empty []
    [("number_of_cpus", number_of_cpus); ("number_of_sockets", sockets); ("cores_per_socket", cores);
     ("system_memory_bytes", memory); ("infrastructure_type", char_field (infrastructure_type fp));
     ("installed_products", installed); ("os_release", char_field (attr "os_release" fp));
     ("arch", char_field (attr "architecture" fp)); ("cloud_provider", char_field (attr "cloud_provider" fp));
     ("system_purpose", VDict (not_empty [] (system_purpose fp)));
     ("network_interfaces", VList [VDict interface])]).

(** Both provider fields or none. *)
Definition _validate_provider (attrs : pydict) : pydict :=
  match dmem "provider_id" attrs, dmem "provider_type" attrs with
  | true, false => dpop "provider_id" attrs
  | false, true => dpop "provider_type" attrs
  | _, _ => attrs
  end.

Definition host_representation (fp : pydict) : Res pydict :=
  ip_addresses ← char_list_field (attr "ip_addresses" fp);
  mac_addresses ← char_list_field (attr "mac_addresses" fp);
  provider ← provider_id digest fp;
  profile ← system_profile fp;
  Ok (_validate_provider (not_empty []
    [("display_name", char_field (attr "name" fp)); ("bios_uuid", char_field (attr "bios_uuid" fp));
     ("fqdn", char_field (attr "name" fp)); ("insights_id", char_field (attr "insights_client_id" fp));
     ("ip_addresses", ip_addresses); ("mac_addresses", mac_addresses); ("provider_id", VStr provider);
     ("provider_type", VStr "discovery");
     ("subscription_manager_id", char_field (attr "subscription_manager_id" fp));
     ("etc_machine_id", char_field (attr "etc_machine_id" fp)); ("vm_uuid", char_field (attr "vm_uuid" fp));
     ("facts", facts_of); ("system_profile", VDict profile); ("tags", get_tags)])).

Definition slice_representation (e : ReportEntity) (s : ReportSlice) : Res pydict :=
  l ← mapM host_representation (slice_hosts e s);
  Ok [("report_slice_id", VStr (slice_id s)); ("hosts", VList (VDict <$> l))].

Definition metadata_representation (e : ReportEntity) (slices : list (string * ReportSlice)) : pydict :=
  [("report_id", VStr (report_uuid e)); ("host_inventory_api_version", VStr "1.0");
   ("source", VStr "discovery");
   ("source_metadata", VDict [("report_platform_id", VStr (report_uuid e)); ("report_type", VStr "insights");
      ("report_version", VStr (entity_version e)); ("qpc_server_report_id", VInt (report_id e));
      ("qpc_server_version", VStr (server_version env)); ("qpc_server_id", VStr (server_id env))]);
   ("report_slices", VDict ((fun '(id, s) => (id, VDict [("number_hosts", VInt (number_of_hosts s))])) <$> slices))].

(** [YupanaPayloadSerializer.to_representation]: the files of the tarball. *)
Definition payload (uuid : nat -> string) (e : ReportEntity) : Res pydict :=
  slices ← _initialize_report_slices uuid e;
  reps ← mapM (fun p : string * ReportSlice => r ← slice_representation e p.2; Ok (p.1, r)) slices;
  let fname name := create_filename name (Some "json") (int_repr (report_id e)) false in
  Ok (dset (fname "metadata") (VDict (metadata_representation e slices))
        (foldl (fun d '(id, r) => dset (fname id) (VDict r) d) [] reps)).
End with_env.

(** ** Lemmas: slices *)

Lemma sublist_all {A} (a : Z) (l : list A) :
  0 <= a -> sublist a (Z.of_nat (length l)) l = drop (Z.to_nat a) l.
Proof. intros Ha. unfold sublist. apply take_ge. rewrite length_drop. lia. Qed.

Lemma sublist_drop {A} (a b : Z) (l : list A) : 0 <= a <= b ->
  (sublist a b l ++ drop (Z.to_nat b) l)%list = drop (Z.to_nat a) l.
Proof.
  intros H. unfold sublist. replace (drop (Z.to_nat b) l) with (drop (Z.to_nat (b - a)) (drop (Z.to_nat a) l))
    by (rewrite drop_drop; f_equal; lia). apply take_drop.
Qed.

Lemma sublist_length {A} (a b : Z) (l : list A) : 0 <= a <= b -> b <= Z.of_nat (length l) ->
  Z.of_nat (length (sublist a b l)) = b - a.
Proof. intros H Hb. unfold sublist. rewrite length_take, length_drop. lia. Qed.

Lemma calc_end_spec limit n start : 0 < limit -> start < n ->
  let e := _calc_slice_end limit n start in
  start < e <= n /\ e - start <= limit /\ (e < n -> e = start + limit).
Proof. intros Hl Hs. unfold _calc_slice_end. destruct (Z.ltb_spec n (start + limit)); lia. Qed.

(** The starts cover the whole range, one slice after the other. *)
Lemma range_covers {A} (l : list A) limit fuel : 0 < limit -> forall i,
  0 <= i -> (Z.of_nat (length l) - i <= Z.of_nat fuel) ->
  concat ((fun s => sublist s (_calc_slice_end limit (Z.of_nat (length l)) s) l)
            <$> range_go fuel i (Z.of_nat (length l)) limit)
  = drop (Z.to_nat i) l.
Proof.
  intros Hl. induction fuel as [|fuel IH]; intros i Hi Hf; cbn [range_go].
  - cbn. rewrite drop_ge by lia. done.
  - destruct (Z.ltb_spec i (Z.of_nat (length l))) as [Hlt|Hge]; [|cbn; by rewrite drop_ge by lia].
    cbn [fmap list_fmap concat]. rewrite IH by lia.
    destruct (calc_end_spec limit (Z.of_nat (length l)) i Hl Hlt) as (H1 & H2 & H3).
    rewrite <- (sublist_drop i (_calc_slice_end limit (Z.of_nat (length l)) i)) by lia. f_equal.
    destruct (Z.eq_dec (_calc_slice_end limit (Z.of_nat (length l)) i) (Z.of_nat (length l))) as [E|E].
    + rewrite E, !drop_ge by lia. done.
    + f_equal. lia.
Qed.

Lemma range_bounds limit n fuel : 0 < limit -> forall i, 0 <= i ->
  Forall (fun s => 0 <= s < n) (range_go fuel i n limit).
Proof.
  intros Hl. induction fuel as [|fuel IH]; intros i Hi; cbn; [constructor|].
  destruct (Z.ltb_spec i n); constructor; [lia | apply IH; lia].
Qed.

Lemma range_length limit n fuel : 0 < limit -> forall i, 0 <= i -> n - i <= Z.of_nat fuel ->
  Z.of_nat (length (range_go fuel i n limit)) = if i <? n then (n - i + limit - 1) / limit else 0.
Proof.
  intros Hl. induction fuel as [|fuel IH]; intros i Hi Hf; cbn [range_go].
  - destruct (Z.ltb_spec i n); [lia | done].
  - destruct (Z.ltb_spec i n); [|done]. cbn [length]. rewrite Nat2Z.inj_succ, IH by lia.
    destruct (Z.ltb_spec (i + limit) n).
    + replace (n - i + limit - 1) with ((n - (i + limit) + limit - 1) + 1 * limit) by lia.
      rewrite Z.div_add by lia. lia.
    + apply Z.div_unique with (n - i - 1); lia.
Qed.

Lemma dset_new {A} k (v : A) (d : list (string * A)) : k ∉ dkeys d -> dset k v d = (d ++ [(k, v)])%list.
Proof.
  unfold dkeys. induction d as [|[k' v'] d IH]; [done|]. cbn. intros Hk.
  rewrite bool_decide_false by set_solver. f_equal. apply IH. set_solver.
Qed.

(** Setting keys that are new and distinct appends them. *)
Lemma foldl_dset_fresh {A B} (key : B -> string) (val : B -> A) l : forall d,
  NoDup (dkeys d ++ (key <$> l))%list ->
  foldl (fun d x => dset (key x) (val x) d) d l = (d ++ ((fun x => (key x, val x)) <$> l))%list.
Proof.
  induction l as [|x l IH]; intros d Hd; cbn; [by rewrite app_nil_r|].
  assert (dset (key x) (val x) d = d ++ [(key x, val x)])%list as E.
  { apply dset_new. cbn in Hd. apply NoDup_app in Hd as (_ & Hd & _). intros Hin. apply (Hd _ Hin). left. }
  rewrite E, IH.
  - rewrite <- app_assoc. done.
  - unfold dkeys in *. rewrite fmap_app, <- app_assoc. exact Hd.
Qed.

Definition make_slice (uuid : nat -> string) (e : ReportEntity) (p : nat * Z) : ReportSlice :=
  mkslice (uuid p.1) p.2 (_calc_slice_end (slice_size_limit e) (Z.of_nat (length (hosts e))) p.2).

Lemma elem_of_zip_fst {A B} (l : list A) (k : list B) x : x ∈ (zip l k).*1 -> x ∈ l.
Proof. rewrite list_elem_of_fmap. intros ([a b] & -> & H). by eapply elem_of_zip_l. Qed.

Lemma NoDup_zip_fst {A B} (l : list A) (k : list B) : NoDup l -> NoDup (zip l k).*1.
Proof.
  intros H. revert k. induction H as [|x l Hx Hl IH]; intros k; [constructor|].
  destruct k as [|y k]; [constructor|]. cbn. apply NoDup_cons. split; [|apply IH].
  intros Hin. by apply Hx, (elem_of_zip_fst l k).
Qed.

Lemma slices_shape uuid e : 0 < slice_size_limit e -> Inj (=) (=) uuid ->
  exists starts, py_range (Z.of_nat (length (hosts e))) (slice_size_limit e) = Ok starts /\
    _initialize_report_slices uuid e
    = Ok ((fun p => (uuid p.1, make_slice uuid e p)) <$> zip (seq 0 (length starts)) starts).
Proof.
  intros Hl Hinj. unfold _initialize_report_slices, py_range.
  rewrite (proj2 (Z.eqb_neq _ _)), (proj2 (Z.ltb_ge _ _)) by lia. eexists. split; [done|].
  cbn [mbind res_bind]. f_equal.
  rewrite (foldl_pointwise _ (fun d p => dset (uuid p.1) (make_slice uuid e p) d)) by (by intros ? []).
  rewrite (foldl_dset_fresh (fun p => uuid p.1) (make_slice uuid e)); [done|]. cbn [dkeys fmap list_fmap app].
  assert (forall l : list (nat * Z), (fun p => uuid p.1) <$> l = uuid <$> l.*1) as ->
    by (intros l; by rewrite <- list_fmap_compose).
  apply NoDup_fmap_2; [done|]. apply NoDup_zip_fst, NoDup_seq.
Qed.

Lemma slices_partition uuid e : 0 < slice_size_limit e -> Inj (=) (=) uuid ->
  exists slices, _initialize_report_slices uuid e = Ok slices /\
    concat ((fun p => slice_hosts e p.2) <$> slices) = hosts e /\
    Forall (fun p => slice_id p.2 = p.1 /\ 1 <= number_of_hosts p.2 <= slice_size_limit e /\
              Z.of_nat (length (slice_hosts e p.2)) = number_of_hosts p.2 /\
              (slice_end p.2 < Z.of_nat (length (hosts e)) -> number_of_hosts p.2 = slice_size_limit e))
      slices /\
    NoDup slices.*1 /\
    length slices = length (range_go (length (hosts e)) 0 (Z.of_nat (length (hosts e))) (slice_size_limit e)).
Proof.
  intros Hl Hinj. destruct (slices_shape uuid e Hl Hinj) as (starts & Hr & Hs).
  set (n := Z.of_nat (length (hosts e))) in *.
  assert (starts = range_go (Z.to_nat n) 0 n (slice_size_limit e)) as Hst.
  { unfold py_range in Hr. rewrite (proj2 (Z.eqb_neq _ _)), (proj2 (Z.ltb_ge _ _)) in Hr by lia.
    by injection Hr. }
  eexists. split; [exact Hs|].
  set (pairs := zip (seq 0 (length starts)) starts).
  assert (pairs.*2 = starts) as Hp2 by (unfold pairs; apply snd_zip; rewrite length_seq; lia).
  assert (Forall (fun s => 0 <= s < n) starts) as Hb by (rewrite Hst; apply range_bounds; lia).
  split; [|split; [|split]].
  - rewrite <- list_fmap_compose.
    assert ((fun p => slice_hosts e p.2) ∘ (fun p : nat * Z => (uuid p.1, make_slice uuid e p)) <$> pairs
            = (fun s => sublist s (_calc_slice_end (slice_size_limit e) n s) (hosts e)) <$> pairs.*2) as ->
      by (rewrite <- list_fmap_compose; done).
    rewrite Hp2, Hst. unfold n. rewrite range_covers by lia. done.
  - apply Forall_fmap, Forall_forall. intros [i s] Hin. cbn.
    assert (s ∈ starts) as Hin' by (rewrite <- Hp2; apply list_elem_of_fmap; by exists (i, s)).
    pose proof (proj1 (Forall_forall _ _) Hb s Hin') as Hs'. cbn in Hs'.
    destruct (calc_end_spec (slice_size_limit e) n s Hl ltac:(lia)) as (H1 & H2 & H3).
    unfold number_of_hosts, slice_hosts, make_slice. fold n. cbn.
    split; [done|]. split; [lia|]. split; [apply sublist_length; lia | lia].
  - rewrite <- list_fmap_compose.
    assert (forall l : list (nat * Z), (fst ∘ (fun p => (uuid p.1, make_slice uuid e p))) <$> l = uuid <$> l.*1)
      as -> by (intros l; by rewrite <- list_fmap_compose).
    apply NoDup_fmap_2; [done|]. apply NoDup_zip_fst, NoDup_seq.
  - rewrite length_fmap. unfold pairs. rewrite length_zip_with, length_seq, Nat.min_id, Hst.
    unfold n. by rewrite Nat2Z.id.
Qed.

(** [C37] The slices of an Insights report cover its hosts exactly once and in
    order: each has at least one host and at most the limit of the settings,
    only the last may have fewer, they have distinct identifiers, and there are
    as many as the number of hosts divided by the limit, rounded up. *)
Theorem slices_cover_hosts uuid e : 0 < slice_size_limit e -> Inj (=) (=) uuid ->
  exists slices, _initialize_report_slices uuid e = Ok slices /\
    concat ((fun p => slice_hosts e p.2) <$> slices) = hosts e /\
    Forall (fun p => slice_id p.2 = p.1 /\ 1 <= number_of_hosts p.2 <= slice_size_limit e /\
              Z.of_nat (length (slice_hosts e p.2)) = number_of_hosts p.2 /\
              (slice_end p.2 < Z.of_nat (length (hosts e)) -> number_of_hosts p.2 = slice_size_limit e))
      slices /\
    NoDup slices.*1 /\
    Z.of_nat (length slices)
    = (Z.of_nat (length (hosts e)) + slice_size_limit e - 1) / slice_size_limit e.
Proof.
  intros Hl Hinj. destruct (slices_partition uuid e Hl Hinj) as (slices & Hs & Hcat & Hall & Hdup & Hlen).
  exists slices. repeat (split; [done|]). rewrite Hlen.
  set (n := Z.of_nat (length (hosts e))). replace (length (hosts e)) with (Z.to_nat n) by (unfold n; lia).
  rewrite range_length by lia. destruct (Z.ltb_spec 0 n) as [|Hn]; [f_equal; lia|].
  assert (n = 0) as -> by lia. symmetry. apply Z.div_small. lia.
Qed.

(** ** Lemmas: provider identifiers *)

Lemma dget_none_fields fields k (f : string -> pyval) : k ∈ fields ->
  dget_none k ((fun k => (k, f k)) <$> fields) = f k.
Proof.
  unfold dget_none. induction fields as [|k' fields IH]; [by intros ?%elem_of_nil|].
  intros Hk. cbn. case_bool_decide as E; [by subst|]. apply IH. set_solver.
Qed.

(** Two values that [deep_sort] does not tell apart: equal, or lists of the same
    texts in another order. *)
Definition same_sorted (v w : pyval) : Prop :=
  v = w \/ exists l1 l2, v = VList (VStr <$> l1) /\ w = VList (VStr <$> l2) /\ l1 ≡ₚ l2.

Lemma deep_sort_texts fuel ss : (1 <= fuel)%nat ->
  mapM (deep_sort fuel) (VStr <$> ss) = Ok (VStr <$> ss).
Proof. intros H. destruct fuel; [lia|]. induction ss as [|s ss IH]; [done|]. cbn in *. by rewrite IH. Qed.

Lemma deep_sort_same fuel v w : same_sorted v w -> deep_sort (S (S fuel)) v = deep_sort (S (S fuel)) w.
Proof.
  intros [->|(l1 & l2 & -> & -> & Hp)]; [done|].
  change (deep_sort (S (S fuel)) (VList (VStr <$> l1)))
    with (l' ← py_sorted (VStr <$> l1); r ← mapM (deep_sort (S fuel)) l'; Ok (VList r)).
  change (deep_sort (S (S fuel)) (VList (VStr <$> l2)))
    with (l' ← py_sorted (VStr <$> l2); r ← mapM (deep_sort (S fuel)) l'; Ok (VList r)).
  rewrite !py_sorted_texts. cbn [mbind res_bind]. by rewrite (str_sorted_perm l1 l2).
Qed.

Lemma depth_texts l : depth (VList (VStr <$> l)) = match l with [] => 1%nat | _ => 2%nat end.
Proof.
  destruct l as [|a l]; [done|]. cbn. f_equal. induction l as [|b l IH]; [done|]. cbn. lia.
Qed.

Lemma same_sorted_depth v w : same_sorted v w -> depth v = depth w.
Proof.
  intros [->|(l1 & l2 & -> & -> & Hp)]; [done|]. rewrite !depth_texts.
  pose proof (Permutation_length Hp). by destruct l1, l2.
Qed.

Lemma deep_sort_fuel fuel v w : same_sorted v w -> (depth v <= fuel)%nat ->
  deep_sort fuel v = deep_sort fuel w.
Proof.
  intros H Hd. destruct H as [->|(l1 & l2 & -> & -> & Hp)]; [done|]. rewrite depth_texts in Hd.
  destruct l1 as [|a l1]; [by apply Permutation_nil in Hp as ->|].
  destruct fuel as [|[|fuel]]; [lia..|]. apply deep_sort_same. by right; eauto.
Qed.

Lemma hash_same digest fp1 fp2 fields :
  (forall k, k ∈ fields -> same_sorted (attr k fp1) (attr k fp2)) ->
  hash_system_fingerprint digest fp1 fields = hash_system_fingerprint digest fp2 fields.
Proof.
  intros Hs. assert (forall k, k ∈ fields ->
    same_sorted (date_as_str (attr k fp1)) (date_as_str (attr k fp2))) as Hs'.
  { intros k Hk. destruct (Hs k Hk) as [->|(l1 & l2 & -> & -> & Hp)]; [by left | right; eauto]. }
  unfold hash_system_fingerprint.
  set (d1 := (fun k => (k, date_as_str (attr k fp1))) <$> fields).
  set (d2 := (fun k => (k, date_as_str (attr k fp2))) <$> fields).
  assert (foldr (fun p n => Nat.max (depth p.2) n) 0%nat d1 = foldr (fun p n => Nat.max (depth p.2) n) 0%nat d2)
    as Hdepth.
  { unfold d1, d2. clear Hs d1 d2. induction fields as [|k fields IH]; [done|]. cbn.
    rewrite (same_sorted_depth _ _ (Hs' k ltac:(left))), IH; [done | intros; apply Hs'; by right]. }
  cbn [depth deep_sort]. rewrite <- Hdepth.
  set (m := foldr (fun p n => Nat.max (depth p.2) n) 0%nat d1).
  assert (dkeys d1 = fields /\ dkeys d2 = fields) as [-> ->].
  { unfold dkeys, d1, d2. rewrite <- !list_fmap_compose. split; apply list_fmap_id. }
  assert (forall k, k ∈ fields -> deep_sort m (dget_none k d1) = deep_sort m (dget_none k d2)) as Hk.
  { intros k Hk. unfold d1, d2. rewrite !dget_none_fields by done. apply deep_sort_fuel; [by apply Hs'|].
    unfold m, d1. clear -Hk. induction fields as [|k' fields IH]; [by apply elem_of_nil in Hk|]. cbn.
    apply elem_of_cons in Hk as [->|Hk]; [lia|]. specialize (IH Hk). lia. }
  assert (forall ks, (forall k, k ∈ ks -> k ∈ fields) ->
    mapM (fun k => v ← deep_sort m (dget_none k d1); Ok (k, v)) ks
    = mapM (fun k => v ← deep_sort m (dget_none k d2); Ok (k, v)) ks) as E.
  { induction ks as [|k ks IH]; intros Hks; [done|]. cbn.
    rewrite (Hk k) by (apply Hks; left). rewrite IH by (intros; apply Hks; by right). done. }
  rewrite E; [done|]. intros k. by rewrite sorted_perm.
Qed.

(** The provider id that Insights tells hosts apart by is stable: whatever
    the digest, two fingerprints with the same machine id have it as their
    provider id, and two without one whose hashed facts are equal, up to the
    order of lists of texts such as addresses, have the same id. *)
Theorem provider_id_stable digest fp1 fp2 :
  attr "etc_machine_id" fp1 = attr "etc_machine_id" fp2 ->
  (forall k, k ∈ FINGERPRINT_FACT_NAMES_TO_SYNTHESIZE_PROVIDER_ID ->
             truthy (attr "etc_machine_id" fp1) = false -> same_sorted (attr k fp1) (attr k fp2)) ->
  is_str (attr "etc_machine_id" fp1) || is_none (attr "etc_machine_id" fp1) = true ->
  provider_id digest fp1 = provider_id digest fp2 /\
  (truthy (attr "etc_machine_id" fp1) = true ->
   provider_id digest fp1 = Ok (py_str (attr "etc_machine_id" fp1))).
Proof.
  intros Hm Hs Ht. unfold provider_id. rewrite <- Hm.
  destruct (attr "etc_machine_id" fp1) as [| | | |s| | | | |] eqn:E; try done.
  - split; [|done]. apply hash_same. intros k Hk. by apply Hs.
  - destruct (truthy (VStr s)) eqn:Ts; [done|]. split; [|done]. apply hash_same. intros k Hk. by apply Hs.
Qed.

(** ** Lemmas: the payload *)

Lemma string_length_app s t : String.length (s +:+ t) = (String.length s + String.length t)%nat.
Proof. induction s as [|c s IH]; cbn; [done | by rewrite IH]. Qed.

Lemma append_inj_r s t u : s +:+ u = t +:+ u -> s = t.
Proof.
  revert t. induction s as [|c s IH]; intros [|c' t] H; [done| | |].
  - apply (f_equal String.length) in H. rewrite string_length_app in H. cbn in H.
    rewrite string_length_app in H. lia.
  - apply (f_equal String.length) in H. cbn in H. rewrite string_length_app in H. lia.
  - cbn in H. injection H as -> H. f_equal. by apply IH.
Qed.

#[local] Instance create_filename_inj id : Inj (=) (=) (fun name => create_filename name (Some "json") id false).
Proof.
  intros a b H. unfold create_filename in H.
  apply append_inj_r in H. by repeat apply (inj (String.append _)) in H.
Qed.

Lemma mapM_app_Ok {A B} (f : A -> Res B) l1 l2 r : mapM f (l1 ++ l2) = Ok r ->
  exists r1 r2, mapM f l1 = Ok r1 /\ mapM f l2 = Ok r2 /\ r = (r1 ++ r2)%list.
Proof.
  rewrite mapM_Ok. intros H. apply Forall2_app_inv_l in H as (r1 & r2 & H1 & H2 & ->).
  exists r1, r2. by rewrite !mapM_Ok.
Qed.

Lemma mapM_concat {A B} (f : A -> Res B) ls : forall r, mapM f (concat ls) = Ok r ->
  exists gs, Forall2 (fun l g => mapM f l = Ok g) ls gs /\ concat gs = r.
Proof.
  induction ls as [|l ls IH]; intros r H; [injection H as <-; exists []; by split; [constructor|]|].
  apply mapM_app_Ok in H as (r1 & r2 & H1 & H2 & ->). destruct (IH r2 H2) as (gs & Hgs & <-).
  exists (r1 :: gs). by split; [constructor|].
Qed.

Lemma slice_reps digest env e slices groups :
  Forall2 (fun p g => mapM (host_representation digest env) (slice_hosts e p.2) = Ok g) slices groups ->
  mapM (fun p : string * ReportSlice => r ← slice_representation digest env e p.2; Ok (p.1, r)) slices
  = Ok (zip_with (fun p g => (p.1, [("report_slice_id", VStr (slice_id p.2)); ("hosts", VList (VDict <$> g))]))
          slices groups).
Proof.
  induction 1 as [|p g slices groups Hp _ IH]; [done|]. cbn [mapM].
  assert (slice_representation digest env e p.2
          = Ok [("report_slice_id", VStr (slice_id p.2)); ("hosts", VList (VDict <$> g))]) as ->
    by (unfold slice_representation; by rewrite Hp).
  cbn [mbind res_bind]. rewrite IH. done.
Qed.

Lemma zip_with_fst {A B C} (f : A -> C) (g : A -> B -> C) l k :
  length l = length k -> (forall a b, g a b = f a) -> zip_with g l k = f <$> l.
Proof.
  intros Hl Hf. revert k Hl. induction l as [|a l IH]; intros [|b k] Hl; try done.
  cbn. rewrite Hf, IH by (cbn in Hl; lia). done.
Qed.

Definition file_name (e : ReportEntity) (name : string) : string :=
  create_filename name (Some "json") (int_repr (report_id e)) false.

(** The Insights tarball is complete: when every host can be represented,
    the payload has one file for each slice and one for the metadata, under
    distinct names; the host lists of the slice files, one after the other, are
    the representations of all hosts in order; and the metadata announces for
    each slice the number of hosts that its file has. *)
Theorem payload_files digest env uuid e reps :
  0 < slice_size_limit e -> Inj (=) (=) uuid -> (forall n, uuid n <> "metadata") ->
  mapM (host_representation digest env) (hosts e) = Ok reps ->
  exists slices groups metadata,
    _initialize_report_slices uuid e = Ok slices /\
    payload digest env uuid e
    = Ok (zip_with (fun p g => (file_name e p.1,
            VDict [("report_slice_id", VStr p.1); ("hosts", VList (VDict <$> g))])) slices groups
          ++ [(file_name e "metadata", VDict metadata)])%list /\
    concat groups = reps /\ NoDup (file_name e "metadata" :: (file_name e <$> slices.*1)) /\
    dget "report_slices" metadata
    = Some (VDict (zip_with (fun p g => (p.1, VDict [("number_hosts", VInt (Z.of_nat (length g)))]))
              slices groups)).
Proof.
  intros Hl Hinj Hmeta Hreps.
  destruct (slices_shape uuid e Hl Hinj) as (starts & _ & Hshape).
  destruct (slices_partition uuid e Hl Hinj) as (slices & Hs & Hcat & Hall & Hdup & _).
  rewrite <- Hcat in Hreps. destruct (mapM_concat _ _ _ Hreps) as (groups & Hg & Hcg).
  apply Forall2_fmap_l in Hg. pose proof (slice_reps digest env e slices groups Hg) as Hr.
  exists slices, groups, (metadata_representation env e slices).
  assert (forall name, name ∈ slices.*1 -> name <> "metadata") as Hnames.
  { intros name Hin. rewrite Hshape in Hs. injection Hs as <-.
    apply list_elem_of_fmap in Hin as (p & -> & Hin). apply list_elem_of_fmap in Hin as (q & -> & _).
    apply Hmeta. }
  assert (NoDup (file_name e "metadata" :: (file_name e <$> slices.*1))) as Hfiles.
  { apply NoDup_cons. split; [|apply NoDup_fmap_2; [apply create_filename_inj | done]].
    intros Hin. apply list_elem_of_fmap in Hin as (name & Heq & Hin).
    apply (inj (fun name => create_filename name (Some "json") (int_repr (report_id e)) false)) in Heq.
    by apply (Hnames name Hin). }
  split; [done|]. split; [|split; [done|split; [done|]]].
  - unfold payload. rewrite Hs. cbn [mbind res_bind]. rewrite Hr. cbn [mbind res_bind].
    change (fun name => create_filename name (Some "json") (int_repr (report_id e)) false)
      with (file_name e). f_equal.
    assert (length slices = length groups) as Hlen by (by apply Forall2_length in Hg).
    match goal with |- context [foldl _ [] ?r] => set (R := r) end.
    assert (R.*1 = slices.*1) as HR.
    { unfold R. clear -Hlen. revert groups Hlen. induction slices as [|p l IH]; intros [|g gs] H; try done.
      cbn in *. f_equal. apply IH. lia. }
    rewrite (foldl_pointwise _ (fun d x => dset (file_name e x.1) (VDict x.2) d)) by (by intros ? []).
    rewrite (foldl_dset_fresh (fun x => file_name e x.1) (fun x => VDict x.2) R []).
    2:{ apply NoDup_cons in Hfiles as [_ Hfiles]. rewrite <- HR in Hfiles. cbn.
        by rewrite <- list_fmap_compose in Hfiles. }
    rewrite dset_new.
    + cbn [app]. f_equal. unfold R. clear -Hlen Hall. revert groups Hlen.
      induction Hall as [|p l (Hid & _) Hall IH]; intros [|g gs] H; try done.
      cbn in *. rewrite Hid. f_equal. apply IH. lia.
    + cbn [app]. apply NoDup_cons in Hfiles as [Hfiles _]. rewrite <- HR in Hfiles.
      unfold dkeys. rewrite <- list_fmap_compose. by rewrite <- list_fmap_compose in Hfiles.
  - unfold metadata_representation. cbn. f_equal. f_equal.
    clear -Hg Hall. induction Hg as [|p g l gs Hp Hg IH]; [done|].
    apply Forall_cons in Hall as [(_ & _ & Hn & _) Hall]. cbn. rewrite IH by done. f_equal.
    destruct p as [id sl]. cbn in *. apply mapM_Ok, Forall2_length in Hp. rewrite <- Hn, Hp. done.
Qed.

(** ** Lemmas: the representation of a host *)

(** A scalar column, or a list of texts. *)
Definition flat (v : pyval) : Prop :=
  match v with
  | VList _ => exists l, v = VList (VStr <$> l)
  | VDict _ | VResult _ _ _ => False
  | _ => True
  end.

Definition int_or_null (v : pyval) : Prop := v = VNone \/ exists z, v = VInt z.
Definition texts_or_null (v : pyval) : Prop := v = VNone \/ exists l, v = VList (VStr <$> l).

(** The columns of a fingerprint hold what their types allow. *)
Record typed (fp : pydict) : Prop := {
  typed_ints k : k ∈ ["cpu_count"; "cpu_socket_count"; "vm_host_socket_count"; "vm_host_core_count";
                      "cpu_core_per_socket"; "system_memory_bytes"] -> int_or_null (attr k fp);
  typed_texts k : k ∈ ["ip_addresses"; "mac_addresses"] -> texts_or_null (attr k fp);
  typed_flat k : k ∈ FINGERPRINT_FACT_NAMES_TO_SYNTHESIZE_PROVIDER_ID -> flat (attr k fp);
  typed_ratio : is_Ok (integer_field (cores_per_socket fp));
  typed_products : exists l, installed_products fp = VList (VDict <$> l) }.

Lemma deep_sort_flat fuel v : flat v -> (depth v <= fuel)%nat -> is_Ok (deep_sort fuel v).
Proof.
  intros Hf Hd. destruct fuel as [|fuel]; [destruct v; cbn in Hd; lia|].
  destruct v as [| | | | |l| | | |]; try done; try (by eexists).
  destruct Hf as [ss [= ->]]. rewrite depth_texts in Hd. cbn [deep_sort]. rewrite py_sorted_texts.
  cbn [mbind res_bind]. destruct ss as [|s ss]; [by eexists|].
  rewrite deep_sort_texts by lia. by eexists.
Qed.

Lemma hash_total digest fp fields : (forall k, k ∈ fields -> flat (attr k fp)) ->
  is_Ok (hash_system_fingerprint digest fp fields).
Proof.
  intros Hf. unfold hash_system_fingerprint.
  set (d := (fun k => (k, date_as_str (attr k fp))) <$> fields). cbn [depth deep_sort].
  set (m := foldr (fun p n => Nat.max (depth p.2) n) 0%nat d).
  assert (forall k, k ∈ fields -> is_Ok (deep_sort m (dget_none k d))) as Hk.
  { intros k Hk. unfold d. rewrite dget_none_fields by done. apply deep_sort_flat.
    - specialize (Hf k Hk). unfold date_as_str. by destruct (attr k fp).
    - unfold m, d. clear -Hk. induction fields as [|k' fields IH]; [by apply elem_of_nil in Hk|]. cbn.
      apply elem_of_cons in Hk as [->|Hk]; [lia|]. specialize (IH Hk). lia. }
  assert (forall ks, (forall k, k ∈ ks -> k ∈ fields) ->
    is_Ok (mapM (fun k => v ← deep_sort m (dget_none k d); Ok (k, v)) ks)) as E.
  { induction ks as [|k ks IH]; intros Hks; [by eexists|]. cbn.
    destruct (Hk k ltac:(apply Hks; left)) as [v ->]. cbn.
    destruct IH as [r ->]; [intros; apply Hks; by right|]. by eexists. }
  destruct (E (str_sorted (dkeys d))) as [r ->]; [|by eexists].
  intros k. rewrite sorted_perm. unfold dkeys, d. rewrite <- list_fmap_compose, list_fmap_id. done.
Qed.

Lemma provider_id_total digest fp : typed fp -> is_Ok (provider_id digest fp).
Proof.
  intros H. unfold provider_id. pose proof (hash_total digest fp _ (typed_flat fp H)) as Hh.
  destruct (attr "etc_machine_id" fp) as [| | | |s| | | | |]; try done.
  destruct (truthy (VStr s)); [by eexists | done].
Qed.

Lemma integer_field_total v : int_or_null v -> is_Ok (integer_field v).
Proof. intros [->|[z ->]]; by eexists. Qed.

Lemma int_or_null_or v w : int_or_null v -> int_or_null w -> int_or_null (py_or v w).
Proof. unfold py_or. by destruct (truthy v). Qed.

Lemma char_list_total v : texts_or_null v -> is_Ok (char_list_field v).
Proof. intros [->|[l ->]]; by eexists. Qed.

Lemma addresses_total version fp : texts_or_null (attr "ip_addresses" fp) -> is_Ok (addresses_of version fp).
Proof. unfold addresses_of. intros [->|[l ->]]; [by eexists|]. destruct (truthy _); by eexists. Qed.

Lemma dict_list_total l : is_Ok (dict_list_field (VList (VDict <$> l))).
Proof.
  unfold dict_list_field. cbn [py_iter mbind res_bind].
  assert (forall l' : list pyval, Forall (fun x => is_dict x = true) l' -> is_Ok (mapM (as_dict "items") l')) as H.
  { induction 1 as [|x l' Hx _ [r IH]]; [by eexists|]. destruct x; try done. cbn. rewrite IH. by eexists. }
  destruct (H (List.filter (fun x => negb (is_none x)) (VDict <$> l))) as [r ->]; [|by eexists].
  apply Forall_forall. intros x Hx. apply elem_of_List_filter in Hx as [Hx _].
  by apply list_elem_of_fmap in Hx as (d & -> & _).
Qed.

Lemma system_profile_total fp : typed fp -> is_Ok (system_profile fp).
Proof.
  intros H. unfold system_profile, network_interface, ipv4_addresses, ipv6_addresses.
  assert (forall k, k ∈ ["cpu_count"; "cpu_socket_count"; "vm_host_socket_count"; "vm_host_core_count";
    "cpu_core_per_socket"; "system_memory_bytes"] -> int_or_null (attr k fp)) as Hi by apply H.
  destruct (integer_field_total _ (Hi "cpu_count" ltac:(by_compute))) as [? ->].
  destruct (integer_field_total (number_of_sockets fp)) as [? ->].
  { apply int_or_null_or; apply Hi; by_compute. }
  destruct (typed_ratio fp H) as [? ->].
  destruct (integer_field_total _ (Hi "system_memory_bytes" ltac:(by_compute))) as [? ->].
  destruct (typed_products fp H) as [l ->]. destruct (dict_list_total l) as [? ->].
  pose proof (typed_texts fp H "ip_addresses" ltac:(by_compute)) as Ht.
  destruct (addresses_total 4 fp Ht) as [? ->], (addresses_total 6 fp Ht) as [? ->]. by eexists.
Qed.

#[local] Arguments not_empty : simpl never.

Lemma Ok_inj {A} (a b : A) : Ok a = Ok b -> a = b.
Proof. by intros [= ->]. Qed.

Definition present (v : pyval) : bool := is_int_inst v || truthy v.

Lemma not_empty_present d k v : (k, v) ∈ not_empty [] d -> present v = true.
Proof.
  unfold not_empty. intros [_ H]%elem_of_List_filter. cbn in H.
  rewrite bool_decide_false in H by set_solver. exact H.
Qed.

Lemma dpop_elem {A} k (d : list (string * A)) p : p ∈ dpop k d -> p ∈ d /\ p.1 <> k.
Proof.
  induction d as [|[k' v'] d IH]; cbn; [by intros ?%elem_of_nil|].
  case_bool_decide as E; [intros [H ?]%IH; split; [by right | done]|].
  intros [->|H]%elem_of_cons; [split; [left | cbn; congruence] | destruct (IH H); split; [by right | done]].
Qed.

Lemma validate_provider_elem d p : p ∈ _validate_provider d -> p ∈ d.
Proof.
  unfold _validate_provider. destruct (dmem _ d), (dmem _ d); try done; intros H; by apply dpop_elem in H as [? _].
Qed.

Lemma validate_provider_pair d :
  dmem "provider_id" (_validate_provider d) = dmem "provider_type" (_validate_provider d).
Proof.
  unfold _validate_provider. destruct (dmem "provider_id" d) eqn:E1, (dmem "provider_type" d) eqn:E2;
    rewrite ?E1, ?E2; try done; unfold dmem in *; by rewrite !dget_dpop; repeat case_decide.
Qed.

Lemma system_profile_present fp profile k v :
  system_profile fp = Ok profile -> (k, v) ∈ profile -> present v = true.
Proof.
  unfold system_profile. intros H. repeat apply bind_Ok in H as (? & _ & H).
  apply Ok_inj in H as <-. apply not_empty_present.
Qed.

(** The representation of a host: it exists for every fingerprint whose
    columns have their types, holds no null, empty text or empty list at its
    top level and in its profile, and names either both the provider id and the
    provider type or none of them, as the inventory requires. *)
Theorem host_representation_spec digest env fp :
  typed fp ->
  exists d, host_representation digest env fp = Ok d /\
    (forall k v, (k, v) ∈ d -> present v = true) /\
    dmem "provider_id" d = dmem "provider_type" d /\
    forall profile, dget "system_profile" d = Some (VDict profile) ->
      forall k v, (k, v) ∈ profile -> present v = true.
Proof.
  intros H. unfold host_representation.
  destruct (char_list_total _ (typed_texts fp H "ip_addresses" ltac:(by_compute))) as [ips ->].
  destruct (char_list_total _ (typed_texts fp H "mac_addresses" ltac:(by_compute))) as [macs ->].
  destruct (provider_id_total digest fp H) as [pid ->], (system_profile_total fp H) as [profile Hp].
  rewrite Hp. cbn [mbind res_bind]. eexists. split; [done|]. split; [|split].
  - intros k v Hin. by eapply not_empty_present, validate_provider_elem.
  - apply validate_provider_pair.
  - intros profile' Hd%dget_elem%validate_provider_elem. unfold not_empty in Hd.
    apply elem_of_List_filter in Hd as [Hd _].
    assert (profile' = profile) as ->.
    { repeat (apply elem_of_cons in Hd as [Hd|Hd]; [by simplify_eq|]). by apply elem_of_nil in Hd. }
    intros k v. by apply (system_profile_present fp).
Qed.

(** ** Witnesses *)

Definition sample_uuid (n : nat) : string := "slice-" +:+ pretty (N.of_nat n).
#[local] Instance sample_uuid_inj : Inj (=) (=) sample_uuid.
Proof. intros n m H%(inj (String.append _))%(inj pretty). lia. Qed.

Definition sample_host (name : string) : pydict :=
  [("name", VStr name); ("ip_addresses", VList [VStr "1.2.3.4"; VStr "::1"]);
   ("mac_addresses", VList [VStr "a"; VStr "b"]); ("cpu_count", VInt 2);
   ("infrastructure_type", VStr "virtualized"); ("installed_products", VNone);
   ("sources", VList [VDict [("source_type", VStr "network"); ("source_name", VStr "lab")]])].
Definition sample_entity : ReportEntity :=
  mkentity 5 "uuid" "1.0" [sample_host "a"; sample_host "b"; sample_host "c"] 2.
Definition sample_env : environment := mkenv "1.0" "srv" "scanner" "10.0.0.1" "qpc" VNone.
Definition sample_digest (v : pyval) : string := py_repr v.

Lemma sample_host_typed name : typed (sample_host name).
Proof.
  split.
  - intros k Hk. repeat (apply elem_of_cons in Hk as [->|Hk]; [first [by left | right; by eexists]|]).
    by apply elem_of_nil in Hk.
  - intros k Hk. repeat (apply elem_of_cons in Hk as [->|Hk]; [right|]).
    + by exists ["1.2.3.4"; "::1"].
    + by exists ["a"; "b"].
    + by apply elem_of_nil in Hk.
  - intros k Hk. unfold FINGERPRINT_FACT_NAMES_TO_SYNTHESIZE_PROVIDER_ID in Hk.
    repeat (apply elem_of_cons in Hk as [->|Hk];
      [first [done | by exists ["1.2.3.4"; "::1"] | by exists ["a"; "b"]]|]).
    by apply elem_of_nil in Hk.
  - by eexists.
  - by exists [].
Qed.

Lemma host_representation_spec_witness :
  exists d, host_representation sample_digest sample_env (sample_host "a") = Ok d /\
    dmem "provider_id" d = dmem "provider_type" d.
Proof.
  destruct (host_representation_spec sample_digest sample_env (sample_host "a") (sample_host_typed "a"))
    as (d & H & _ & Hp & _).
  exists d. split; [exact H | exact Hp].
Defined.

Lemma slices_cover_hosts_witness :
  exists slices, _initialize_report_slices sample_uuid sample_entity = Ok slices /\ length slices = 2%nat.
Proof.
  destruct (slices_cover_hosts sample_uuid sample_entity ltac:(reflexivity) _)
    as (slices & H & _ & _ & _ & Hlen).
  exists slices. split; [exact H | apply Nat2Z.inj; exact Hlen].
Defined.

Lemma payload_files_witness :
  exists slices groups metadata,
    _initialize_report_slices sample_uuid sample_entity = Ok slices /\
    payload sample_digest sample_env sample_uuid sample_entity
    = Ok (zip_with (fun p g => (file_name sample_entity p.1,
            VDict [("report_slice_id", VStr p.1); ("hosts", VList (VDict <$> g))])) slices groups
          ++ [(file_name sample_entity "metadata", VDict metadata)])%list.
Proof.
  destruct (mapM (host_representation sample_digest sample_env) (hosts sample_entity)) as [reps|e] eqn:E.
  - destruct (payload_files sample_digest sample_env sample_uuid sample_entity reps ltac:(reflexivity) _
      ltac:(intros n H; unfold sample_uuid in H; discriminate H) E) as (s & g & m & Hs & Hp & _).
    exists s, g, m. split; [exact Hs | exact Hp].
  - exfalso. vm_compute in E. discriminate E.
Defined.

Lemma provider_id_stable_witness :
  let fp1 := [("mac_addresses", VList (VStr <$> ["a"; "b"]))] in
  let fp2 := [("mac_addresses", VList (VStr <$> ["b"; "a"]))] in
  provider_id sample_digest fp1 = provider_id sample_digest fp2.
Proof.
  refine (proj1 (provider_id_stable sample_digest [("mac_addresses", VList (VStr <$> ["a"; "b"]))]
    [("mac_addresses", VList (VStr <$> ["b"; "a"]))] eq_refl _ eq_refl)).
  intros k Hk _. unfold same_sorted, attr, dget_none. cbn.
  destruct (bool_decide (k = "mac_addresses")); [right | left; reflexivity].
  exists ["a"; "b"], ["b"; "a"]. repeat split. apply perm_swap.
Defined.

(** A network host is hidden from the Insights report when the name of its
    source mentions one of the types that are left out. *)
Example hidden_by_source_name :
  insights_fingerprints
    [[("name", VStr "h"); ("sources", VList [VDict [("source_type", VStr "network");
                                                     ("source_name", VStr "Ansible lab")]])]] = [].
Proof. reflexivity. Qed.
