(* ===== verification/Publish.v ===== *)
(** Publishing a report to consoledot: [api/publish/], [api/common/lightspeed.py] and
    [api/insights_report/payload.py].

    A request of the user creates a row and leaves a Celery task behind, which
    uploads the report and stores the outcome in the row.  The tokens are those of
    [Lightspeed.v], the payload that of [Insights.v]; [requests] and the making of the
    tar file are external. *)
From stdpp Require Import base gmap sets list strings sorting.
From Stdlib Require Import Ascii ZArith Lia.
From S2P Require Import Prelude PyStr PyNum PyVal ApiCommon SecureTokens Lightspeed Deployments FingerprintTask Insights.

Open Scope string_scope.
Open Scope Z_scope.

(** ** The tables *)

Inductive Status := PENDING | SENT | FAILED.

#[export] Instance Status_eq_dec : EqDecision Status.
Proof. solve_decision. Defined.

Definition status_text (s : Status) : string :=
  match s with PENDING => "pending" | SENT => "sent" | FAILED => "failed" end.

Definition EXPIRED_TOKEN : string := "expired_token".
Definition NETWORK_UNREACHABLE : string := "network_unreachable".
Definition INVALID_REPORT : string := "invalid_report".
Definition SERVER_ERROR : string := "server_error".

Record publish_request := mkpublish {
  p_report : Z; p_user : option Z; p_status : Status; p_error_code : string; p_error_message : string;
  p_created_at : Z; p_updated_at : Z }.

(** The rows, the sequence of their keys, and the tasks left with [delay]. *)
Record table := mktable { requests : gmap Z publish_request; next_request : Z; delayed : list Z }.

Definition set_requests (r : gmap Z publish_request) (tb : table) : table :=
  mktable r (next_request tb) (delayed tb).

(** A report with its deployments report, if any: status, row and fingerprints. *)
Definition report_state : Type := option (string * deployment_row * list pydict).

(** ** The Insights payload *)

Definition Http404 : exn := OtherException "Http404".
Definition NotFound : exn := OtherException "NotFound".
Definition FailedDependencyError : exn := OtherException "FailedDependencyError".

Definition validate_deployment_report_status (status : string) : Res unit :=
  if bool_decide (status <> STATUS_COMPLETE) then Err FailedDependencyError else Ok tt.

Definition does_not_exist (e : exn) : bool := match e with DoesNotExist => true | _ => false end.

Section payload.
Context (digest : pyval -> string) (env : environment) (uuid : nat -> string) (slice_limit : Z).
(** Encoding the files of the payload and packing them. *)
Context (create_tar_buffer : pydict -> Res string).

Definition get_report (report_id : Z) (dr : deployment_row) (fingerprints : list pydict) : Res ReportEntity :=
  try_except (from_report_id report_id dr fingerprints slice_limit) does_not_exist (fun _ => Err NotFound).

Definition generate_insights_payload (report_id : Z) (reports : gmap Z report_state) : Res pydict :=
  match mjoin (reports !! report_id) with
  | None => Err Http404
  | Some (status, dr, fingerprints) =>
      _ ← validate_deployment_report_status status;
      report_entity ← get_report report_id dr fingerprints;
      payload digest env uuid report_entity
  end.

Definition generate_insights_tarball (report_id : Z) (reports : gmap Z report_state) : Res string :=
  payload ← generate_insights_payload report_id reports; create_tar_buffer payload.
End payload.

(** ** [api/common/lightspeed.py] *)

Inductive LightspeedCannotPublishReason :=
| NO_CONNECTION | AUTH_PENDING | AUTH_FAILED | AUTH_EXPIRED | AUTH_MISSING | NOT_COMPLETE | NO_HOSTS.

Definition reason_value (r : LightspeedCannotPublishReason) : string :=
  match r with
  | NO_CONNECTION => "no_connection" | AUTH_PENDING => "auth_pending" | AUTH_FAILED => "auth_failed"
  | AUTH_EXPIRED => "auth_expired" | AUTH_MISSING => "auth_missing" | NOT_COMPLETE => "not_complete"
  | NO_HOSTS => "no_hosts"
  end.

(** [AuthStatus(value)], [None] for its [ValueError]. *)
Definition auth_status (v : pyval) : option AuthStatus :=
  head (List.filter (fun s => py_eq v (VStr (status_value s)))
    [Lightspeed.PENDING; Lightspeed.VALID; Lightspeed.FAILED; Lightspeed.EXPIRED; Lightspeed.MISSING]).

Definition AUTH_CANNOT_PUBLISH_REASON_MAP (s : option AuthStatus) : option LightspeedCannotPublishReason :=
  match s with
  | Some Lightspeed.VALID => None
  | Some Lightspeed.PENDING => Some AUTH_PENDING
  | Some Lightspeed.FAILED => Some AUTH_FAILED
  | Some Lightspeed.EXPIRED => Some AUTH_EXPIRED
  | Some Lightspeed.MISSING | None => Some AUTH_MISSING
  end.

(** No token or no metadata is an [AttributeError], which stands for a missing
    token, like an unknown status. *)
Definition lightspeed_auth_status_of (user : option Z) (tokens : SecureTokens.store) : option AuthStatus :=
  o ← get_lightspeed_secure_token user tokens;
  metadata ← st_metadata (row o);
  auth_status (dget_none "status" metadata).

Definition get_cannot_publish_reason (report_id : Z) (report : report_state) (user : option Z) (slice_limit : Z)
    (tokens : SecureTokens.store) : option LightspeedCannotPublishReason :=
  match AUTH_CANNOT_PUBLISH_REASON_MAP (lightspeed_auth_status_of user tokens) with
  | Some auth_issue => Some auth_issue
  | None =>
      match report with
      | None => Some NOT_COMPLETE
      | Some (status, dr, fingerprints) =>
          match validate_deployment_report_status status with
          | Err _ => Some NOT_COMPLETE
          | Ok _ => match from_report_id report_id dr fingerprints slice_limit with
                    | Err _ => Some NO_HOSTS
                    | Ok _ => None
                    end
          end
      end
  end.

Definition get_can_publish (report_id : Z) (report : report_state) (user : option Z) (slice_limit : Z)
    (tokens : SecureTokens.store) : bool :=
  match get_cannot_publish_reason report_id report user slice_limit tokens with None => true | Some _ => false end.

(** ** Messages *)

Definition PUBLISH_NO_AUTH_TOKEN : string := "No authentication token found. Please log in first.".
Definition PUBLISH_TOKEN_EXPIRED : string := "Authentication token has expired. Please log in again.".
Definition PUBLISH_PAYLOAD_FAILED (err : string) : string := "Failed to generate report payload: " +:+ err.
Definition PUBLISH_CONNECTION_ERROR (err : string) : string :=
  "Connection error: " +:+ err +:+ ". Please try again later.".
Definition PUBLISH_AUTH_REJECTED (text : string) : string :=
  "Authentication rejected by server: " +:+ text +:+ ". Please log in again.".
Definition PUBLISH_CLIENT_ERROR (status : Z) (text : string) : string :=
  "Request rejected by ingress (" +:+ int_repr status +:+ "): " +:+ text +:+ ". This might be a bug in Discovery.".
Definition PUBLISH_SERVER_ERROR (status : Z) (text : string) : string :=
  "Ingress server error (" +:+ int_repr status +:+ "): " +:+ text +:+ ". Please try again later.".
Definition PUBLISH_UNEXPECTED_RESPONSE (status : Z) (text : string) : string :=
  "Unexpected response (" +:+ int_repr status +:+ "): " +:+ text.
Definition PUBLISH_NOT_PUBLISHABLE (reason : string) : string := "Report cannot be published: " +:+ reason.
Definition PUBLISH_ALREADY_PENDING : string := "A publish is already in progress for this report.".

(** ** The task *)

Section task.
Context (ConnectionError BaseHTTPError : exn -> bool) (str_exn : exn -> string).
Context (USE_HTTP : bool) (HOST PORT : string).

Definition INGRESS_UPLOAD_PATH : string := "/api/ingress/v1/upload".

Definition _get_ingress_url : string :=
  let protocol := if USE_HTTP then "http" else "https" in
  protocol +:+ "://" +:+ HOST +:+ ":" +:+ PORT +:+ INGRESS_UPLOAD_PATH.

Definition _get_auth_token (now : Z) (user : option Z) (tokens : SecureTokens.store) : Res string :=
  let no_token := Err (PublishError PUBLISH_NO_AUTH_TOKEN EXPIRED_TOKEN) in
  match get_lightspeed_secure_token user tokens with
  | None => no_token
  | Some o =>
      match st_token (row o) with
      | None | Some "" => no_token
      | Some token =>
          if is_expired now (row o) then Err (PublishError PUBLISH_TOKEN_EXPIRED EXPIRED_TOKEN) else Ok token
      end
  end.

(** An upload: the address, the name and content of the file, and the header
    [Authorization]. *)
Record upload := mkupload { up_url : string; up_name : string; up_file : string; up_authorization : string }.

(** [Response.ok] *)
Definition ok (r : http_response) : bool := negb ((400 <=? status_code r) && (status_code r <? 600)).

Definition _post_to_ingress (server : upload -> Res http_response) (report_id : Z) (tarball auth_token : string) : Res unit :=
  response ← try_except
    (server (mkupload _get_ingress_url ("report_" +:+ int_repr report_id) tarball ("Bearer " +:+ auth_token)))
    (fun e => ConnectionError e || BaseHTTPError e)
    (fun e => Err (PublishError (PUBLISH_CONNECTION_ERROR (str_exn e)) NETWORK_UNREACHABLE));
  let status := status_code response in
  if ok response then Ok tt
  else if status =? 401 then Err (PublishError (PUBLISH_AUTH_REJECTED (text response)) EXPIRED_TOKEN)
  else if (400 <=? status) && (status <? 500) then
    Err (PublishError (PUBLISH_CLIENT_ERROR status (text response)) SERVER_ERROR)
  else if 500 <=? status then Err (PublishError (PUBLISH_SERVER_ERROR status (text response)) SERVER_ERROR)
  else Err (PublishError (PUBLISH_UNEXPECTED_RESPONSE status (text response)) SERVER_ERROR).

(** [refresh_from_db] and the update of a row that is still pending. *)
Definition _save_result (now id : Z) (status : Status) (error_message error_code : string) (tb : table) : Res table :=
  match requests tb !! id with
  | None => Err DoesNotExist
  | Some r =>
      if bool_decide (p_status r <> PENDING) then Ok tb
      else Ok (set_requests (<[id := mkpublish (p_report r) (p_user r) status error_code error_message
                                       (p_created_at r) now]> (requests tb)) tb)
  end.

(** What the task stores for the outcome of its work. *)
Definition verdict (r : Res unit) : Status * string * string :=
  match r with
  | Ok _ => (SENT, "", "")
  | Err (PublishError message error_code) => (FAILED, message, error_code)
  | Err e => (FAILED, PUBLISH_PAYLOAD_FAILED (str_exn e), SERVER_ERROR)
  end.

Section work.
Context (digest : pyval -> string) (env : environment) (uuid : nat -> string) (slice_limit : Z).
Context (create_tar_buffer : pydict -> Res string).
Context (server : upload -> Res http_response) (reports : gmap Z report_state).

Definition attempt (now : Z) (tokens : SecureTokens.store) (report_id : Z) (user : option Z) : Res unit :=
  auth_token ← _get_auth_token now user tokens;
  tarball ← generate_insights_tarball digest env uuid slice_limit create_tar_buffer report_id reports;
  _post_to_ingress server report_id tarball auth_token.

(** [meanwhile] is what happens to the table while the report is sent. *)
Definition publish_to_ingress (now : Z) (tokens : SecureTokens.store) (meanwhile : table -> table)
    (publish_request_id : Z) (tb : table) : Res table :=
  match requests tb !! publish_request_id with
  | None => Ok tb
  | Some r =>
      let '(status, message, code) := verdict (attempt now tokens (p_report r) (p_user r)) in
      _save_result now publish_request_id status message code (meanwhile tb)
  end.
End work.
End task.

(** ** The requests of the user *)

Definition request_publish (now report : Z) (user : option Z) (tb : table) : table * publish_request :=
  let r := mkpublish report user PENDING "" "" now now in
  (mktable (<[next_request tb := r]> (requests tb)) (next_request tb + 1) (delayed tb ++ [next_request tb]), r).

(** [order_by("-created_at").first()] *)
Definition later (a b : option publish_request) : option publish_request :=
  match a, b with
  | Some x, Some y => if p_created_at x <? p_created_at y then b else a
  | None, _ => b
  | _, None => a
  end.

Definition of_report (report : Z) (tb : table) : list publish_request :=
  List.filter (fun r => bool_decide (p_report r = report))
    (omap (fun i => requests tb !! i) (sorted_ids (dom (requests tb)))).

Definition _get_latest_publish_request (report : Z) (tb : table) : option publish_request :=
  foldl (fun best r => later best (Some r)) None (of_report report tb).

Section view.
Context (isoformat : Z -> string) (slice_limit : Z).

Definition PublishRequestSerializer (r : publish_request) : pydict :=
  [("report_id", VInt (p_report r)); ("status", VStr (status_text (p_status r)));
   ("error_code", VStr (p_error_code r)); ("error_message", VStr (p_error_message r));
   ("created_at", VStr (isoformat (p_created_at r))); ("updated_at", VStr (isoformat (p_updated_at r)))].

Definition _get_publish_status (report : Z) (tb : table) : Z * pydict :=
  match _get_latest_publish_request report tb with
  | None => (404, [("detail", VStr "No publish request found for this report.")])
  | Some r => (200, PublishRequestSerializer r)
  end.

(** The checks of [_create_publish]: the response that refuses the request. *)
Definition refusal (report_id : Z) (report : report_state) (user : Z) (tokens : SecureTokens.store) (tb : table) :
    option (Z * pydict) :=
  match get_cannot_publish_reason report_id report (Some user) slice_limit tokens with
  | Some reason =>
      Some (400, [("code", VStr INVALID_REPORT); ("message", VStr (PUBLISH_NOT_PUBLISHABLE (reason_value reason)))])
  | None =>
      match _get_latest_publish_request report_id tb with
      | Some existing =>
          if bool_decide (p_status existing = PENDING) then
            Some (409, [("code", VStr "already_pending"); ("message", VStr PUBLISH_ALREADY_PENDING)])
          else None
      | None => None
      end
  end.

Definition _create_publish (now report_id : Z) (report : report_state) (user : Z) (tokens : SecureTokens.store)
    (tb : table) : table * (Z * pydict) :=
  match refusal report_id report user tokens tb with
  | Some response => (tb, response)
  | None => let '(tb, r) := request_publish now report_id (Some user) tb in (tb, (201, PublishRequestSerializer r))
  end.

Definition publish_report (get : bool) (now report_id user : Z) (reports : gmap Z report_state)
    (tokens : SecureTokens.store) (tb : table) : table * Res (Z * pydict) :=
  match reports !! report_id with
  | None => (tb, Err Http404)
  | Some report =>
      if get then (tb, Ok (_get_publish_status report_id tb))
      else let '(tb, response) := _create_publish now report_id report user tokens tb in (tb, Ok response)
  end.
End view.

(** [on_delete]: with its report a request goes, without its user it stays. *)
Definition delete_report (report : Z) (tb : table) : table :=
  set_requests (filter (fun p => p_report p.2 <> report) (requests tb)) tb.
Definition forget_user (user : Z) (tb : table) : table :=
  set_requests ((fun r => if bool_decide (p_user r = Some user)
                          then mkpublish (p_report r) None (p_status r) (p_error_code r) (p_error_message r)
                                 (p_created_at r) (p_updated_at r)
                          else r) <$> requests tb) tb.

(** ** The life of requests

    Requests of users one after the other, and their tasks in any order; a worker
    may lose a task when [lossy]. *)

Record state := mkstate { st_table : table; st_running : list Z; st_clock : Z }.

Section life.
Context (isoformat : Z -> string) (slice_limit : Z) (str_exn : exn -> string) (lossy : bool).

Inductive step : state -> state -> Prop :=
| step_post report_id report user tokens now tb running clock :
    clock < now ->
    step (mkstate tb running clock)
      (mkstate (_create_publish isoformat slice_limit now report_id report user tokens tb).1 running now)
| step_start tb q1 id q2 running clock :
    delayed tb = (q1 ++ id :: q2)%list ->
    step (mkstate tb running clock)
      (mkstate (mktable (requests tb) (next_request tb) (q1 ++ q2)) (id :: running) clock)
| step_finish (outcome : Res unit) tb r1 id r2 clock now tb' status message code :
    verdict str_exn outcome = (status, message, code) ->
    _save_result now id status message code tb = Ok tb' ->
    step (mkstate tb (r1 ++ id :: r2) clock) (mkstate tb' (r1 ++ r2) clock)
| step_gone tb r1 id r2 clock :
    requests tb !! id = None ->
    step (mkstate tb (r1 ++ id :: r2) clock) (mkstate tb (r1 ++ r2) clock)
| step_lose tb r1 id r2 clock :
    lossy = true ->
    step (mkstate tb (r1 ++ id :: r2) clock) (mkstate tb (r1 ++ r2) clock)
| step_delete_report report tb running clock :
    step (mkstate tb running clock) (mkstate (delete_report report tb) running clock)
| step_delete_user user tb running clock :
    step (mkstate tb running clock) (mkstate (forget_user user tb) running clock).

Definition empty_state (s : state) : Prop := requests (st_table s) = ∅.

(** Pending rows have a task, and within a report only the newest is pending. *)
Record publish_ok (s : state) : Prop := {
  ok_ids : forall i r, requests (st_table s) !! i = Some r -> i < next_request (st_table s) /\ p_created_at r <= st_clock s;
  ok_created : forall i j r q, requests (st_table s) !! i = Some r -> requests (st_table s) !! j = Some q ->
    p_created_at r = p_created_at q -> i = j;
  ok_newest : forall i j r q, requests (st_table s) !! i = Some r -> requests (st_table s) !! j = Some q ->
    p_report r = p_report q -> p_created_at r < p_created_at q -> p_status r <> PENDING;
  ok_tasks : lossy = false -> forall i r, requests (st_table s) !! i = Some r -> p_status r = PENDING ->
    i ∈ (delayed (st_table s) ++ st_running s)%list }.

(** *** The latest request *)

Lemma of_report_elem report tb r : r ∈ of_report report tb <-> p_report r = report /\ exists i, requests tb !! i = Some r.
Proof.
  unfold of_report. rewrite list_elem_of_In, filter_In, <- list_elem_of_In, list_elem_of_omap, bool_decide_eq_true.
  split; [intros [(i & _ & H) Hr]; eauto|]. intros [Hr [i H]]. split; [|done]. exists i. split; [|done].
  unfold sorted_ids. rewrite merge_sort_Permutation, elem_of_elements, elem_of_dom. eauto.
Qed.

Definition best_of (l : list publish_request) (best : option publish_request) : Prop :=
  match best with
  | None => l = []
  | Some b => b ∈ l /\ forall r, r ∈ l -> p_created_at r <= p_created_at b
  end.

Lemma foldl_later l : forall seen best, best_of seen best ->
  best_of (seen ++ l) (foldl (fun best r => later best (Some r)) best l).
Proof.
  induction l as [|r l IH]; intros seen best Hb; [by rewrite app_nil_r|]. cbn.
  replace (seen ++ r :: l)%list with ((seen ++ [r]) ++ l)%list by (by rewrite <- app_assoc).
  apply IH. destruct best as [b|]; cbn in *; [|subst; cbn; split; [by left|]; intros x ->%list_elem_of_singleton; lia].
  destruct Hb as [Hin Hmax]. destruct (p_created_at b <? p_created_at r) eqn:E; cbn.
  - apply Z.ltb_lt in E. split; [set_solver|]. intros x [Hx|Hx]%elem_of_app; [specialize (Hmax x Hx); lia|].
    apply list_elem_of_singleton in Hx as ->. lia.
  - apply Z.ltb_ge in E. split; [set_solver|]. intros x [Hx|Hx]%elem_of_app; [by apply Hmax|].
    apply list_elem_of_singleton in Hx as ->. lia.
Qed.

Lemma latest_spec report tb : best_of (of_report report tb) (_get_latest_publish_request report tb).
Proof. apply (foldl_later (of_report report tb) [] None). done. Qed.

(** *** Preservation *)

(** Rows that keep their report, creation time and status, or leave [PENDING]. *)
Lemma ok_map s tb' (running' : list Z) :
  publish_ok s -> next_request tb' = next_request (st_table s) ->
  (forall i r, requests tb' !! i = Some r -> exists q, requests (st_table s) !! i = Some q /\
     p_report r = p_report q /\ p_created_at r = p_created_at q /\
     (p_status r = PENDING -> p_status q = PENDING /\
        (lossy = false -> i ∈ (delayed (st_table s) ++ st_running s)%list -> i ∈ (delayed tb' ++ running')%list))) ->
  publish_ok (mkstate tb' running' (st_clock s)).
Proof.
  intros [Hid Hc Hn Ht] Hnext H. split; cbn.
  - intros i r (q & Hq & _ & Hcr & _)%H. rewrite Hnext, Hcr. eauto.
  - intros i j r q (r1 & Hr1 & _ & Hcr & _)%H (q1 & Hq1 & _ & Hcq & _)%H E. eapply Hc; [done..|congruence].
  - intros i j r q (r1 & Hr1 & Hpr & Hcr & Hsr)%H (q1 & Hq1 & Hpq & Hcq & _)%H Ep Et Hs.
    apply (Hn i j r1 q1); [done..|congruence|congruence|]. by apply Hsr.
  - intros Hl i r (q & Hq & _ & _ & Hs)%H Hp. destruct (Hs Hp) as [Hpq Hin]. eapply Hin, Ht; done.
Qed.

Lemma publish_ok_post now report_id report user tokens tb running clock :
  publish_ok (mkstate tb running clock) -> clock < now ->
  publish_ok (mkstate (_create_publish isoformat slice_limit now report_id report user tokens tb).1 running now).
Proof.
  intros K Hnow. unfold _create_publish.
  assert (publish_ok (mkstate tb running now)) as K'.
  { destruct K as [Hid Hc Hn Ht]. split; [|done..]. cbn in *. intros i r Hr. apply Hid in Hr. lia. }
  destruct (refusal _ _ _ _ _ _) eqn:Href; [done|]. cbn.
  assert (forall i r, requests tb !! i = Some r -> p_report r = report_id -> p_status r <> PENDING) as Hfinal.
  { unfold refusal in Href. destruct (get_cannot_publish_reason _ _ _ _ _); [done|].
    pose proof (latest_spec report_id tb) as Hb. intros i r Hr Hrep.
    assert (r ∈ of_report report_id tb) as Hin by (apply of_report_elem; eauto).
    destruct (_get_latest_publish_request report_id tb) as [b|]; cbn in Hb; [|by rewrite Hb in Hin; apply elem_of_nil in Hin].
    case_bool_decide as Hpend; [done|]. destruct Hb as [Hbin Hmax]. specialize (Hmax r Hin).
    apply of_report_elem in Hbin as [Hbr [j Hj]].
    destruct (decide (p_created_at r = p_created_at b)) as [He|He].
    - assert (i = j) as -> by (by eapply (ok_created _ K)). cbn in *. congruence.
    - apply (ok_newest _ K i j r b); [done..|congruence|lia]. }
  assert (requests tb !! next_request tb = None) as Hnone.
  { destruct (requests tb !! next_request tb) eqn:E; [|done]. apply (ok_ids _ K) in E. cbn in E. lia. }
  destruct K as [Hid Hc Hn Ht]. cbn in *. split; cbn.
  - intros i r [[<- <-]|[_ Hr]]%lookup_insert_Some; cbn; [lia|]. apply Hid in Hr. lia.
  - intros i j r q [[<- <-]|[Hi Hr]]%lookup_insert_Some [[<- <-]|[Hj Hq]]%lookup_insert_Some; cbn; eauto.
    + apply Hid in Hq. lia.
    + apply Hid in Hr. lia.
  - intros i j r q [[<- <-]|[Hi Hr]]%lookup_insert_Some [[<- <-]|[Hj Hq]]%lookup_insert_Some Hp Ht'; cbn in *; [lia| | |by eapply Hn].
    + apply Hid in Hq. lia.
    + by eapply Hfinal.
  - intros Hl i r [[<- <-]|[_ Hr]]%lookup_insert_Some Hp; [set_solver|]. specialize (Ht Hl i r Hr Hp). set_solver.
Qed.

Lemma save_result_spec now id status message code tb tb' : _save_result now id status message code tb = Ok tb' ->
  exists r, requests tb !! id = Some r /\
    (p_status r <> PENDING /\ tb' = tb \/
     p_status r = PENDING /\
     tb' = set_requests (<[id := mkpublish (p_report r) (p_user r) status code message (p_created_at r) now]> (requests tb)) tb).
Proof.
  unfold _save_result. destruct (requests tb !! id) as [r|]; [|done]. by case_bool_decide; intros [= <-]; exists r; auto.
Qed.

Lemma verdict_final r status message code : verdict str_exn r = (status, message, code) -> status <> PENDING.
Proof. destruct r as [u|e]; [|destruct e]; by intros [= <- _ _]. Qed.

(** A task that leaves the running ones without its row being pending. *)
Lemma tasks_shrink (q r1 r2 : list Z) id i : i <> id -> i ∈ (q ++ r1 ++ id :: r2)%list -> i ∈ (q ++ r1 ++ r2)%list.
Proof. set_solver. Qed.

Lemma publish_step_ok s s' : step s s' -> publish_ok s -> publish_ok s'.
Proof.
  intros H K. destruct H as [report_id report user tokens now tb running clock Hnow|tb q1 id q2 running clock Hq
    |outcome tb r1 id r2 clock now tb' status message code Hv Hs|tb r1 id r2 clock Hn|tb r1 id r2 clock Hl
    |report tb running clock|user tb running clock].
  - by apply (publish_ok_post now report_id report user tokens tb running clock).
  - refine (ok_map _ _ _ K _ _); [done|]. cbn. intros i r Hr. exists r. split_and!; [done..|]. intros Hp. split; [done|].
    intros _. rewrite Hq. set_solver.
  - apply save_result_spec in Hs as (r & Hr & [[Hp ->]|[Hp ->]]); (refine (ok_map _ _ _ K _ _); [done|]); cbn.
    + intros i x Hx. exists x. split_and!; [done..|]. intros Hpx. split; [done|]. intros _.
      apply tasks_shrink. intros ->. congruence.
    + intros i x [[<- <-]|[Hi Hx]]%lookup_insert_Some.
      * exists r. split_and!; [done..|]. intros Hpx. by apply verdict_final in Hv.
      * exists x. split_and!; [done..|]. intros Hpx. split; [done|]. intros _. by apply tasks_shrink.
  - refine (ok_map _ _ _ K _ _); [done|]. cbn. intros i r Hr. exists r. split_and!; [done..|]. intros Hp. split; [done|].
    intros _. apply tasks_shrink. intros ->. congruence.
  - refine (ok_map _ _ _ K _ _); [done|]. cbn. intros i r Hr. exists r. split_and!; [done..|]. intros Hp. split; [done|].
    by rewrite Hl.
  - refine (ok_map _ _ _ K _ _); [done|]. cbn. intros i r [Hr _]%map_lookup_filter_Some. by exists r.
  - refine (ok_map _ _ _ K _ _); [done|]. cbn. intros i r Hr. rewrite lookup_fmap in Hr.
    apply fmap_Some in Hr as (x & Hx & ->). exists x. by case_bool_decide.
Qed.

Lemma empty_ok s : empty_state s -> publish_ok s.
Proof.
  intros H. split; [intros i r|intros i j r q|intros i j r q|intros Hl i r]; rewrite H; by rewrite lookup_empty.
Qed.

Lemma publish_reachable_ok s0 s : empty_state s0 -> rtc step s0 s -> publish_ok s.
Proof. intros Hi H. apply empty_ok in Hi. induction H as [|s1 s2 s3 H _ IH]; [done|]. apply IH. by eapply publish_step_ok. Qed.

(** What a step may do to a row. *)
Definition row_step (r : publish_request) (o : option publish_request) : Prop :=
  match o with
  | None => True
  | Some r' => p_report r' = p_report r /\ p_created_at r' = p_created_at r /\
      (p_status r <> PENDING -> p_status r' = p_status r /\ p_error_code r' = p_error_code r /\
                               p_error_message r' = p_error_message r)
  end.

Lemma step_rows s s' i r : publish_ok s -> step s s' -> requests (st_table s) !! i = Some r ->
  row_step r (requests (st_table s') !! i).
Proof.
  intros K H Hr. destruct H as [report_id report user tokens now tb running clock Hnow|tb q1 id q2 running clock Hq
    |outcome tb r1 id r2 clock now tb' status message code Hv Hs|tb r1 id r2 clock Hn|tb r1 id r2 clock Hl
    |report tb running clock|user tb running clock]; cbn in *; try by rewrite Hr.
  - unfold _create_publish. destruct (refusal _ _ _ _ _ _); cbn; [by rewrite Hr|].
    rewrite lookup_insert_ne, Hr; [done|]. apply (ok_ids _ K) in Hr. cbn in Hr. lia.
  - apply save_result_spec in Hs as (x & Hx & [[Hp ->]|[Hp ->]]); [by rewrite Hr|]. cbn.
    destruct (decide (i = id)) as [->|Hi]; [|by rewrite lookup_insert_ne, Hr].
    rewrite lookup_insert_eq. assert (x = r) as -> by congruence. done.
  - destruct (filter _ _ !! i) as [x|] eqn:E; [|done]. apply map_lookup_filter_Some in E as [E _].
    assert (x = r) as -> by congruence. done.
  - rewrite lookup_fmap, Hr. cbn. by case_bool_decide.
Qed.

(** [C14] The life of publish requests, whatever requests and tasks come in whatever
    order: a report never has two pending requests, a pending request has its task
    as long as no worker loses one, and a request that was sent or has failed stays
    as it is until it is deleted. *)
Theorem publish_lifecycle s0 s : empty_state s0 -> rtc step s0 s ->
  (forall i j r q, requests (st_table s) !! i = Some r -> requests (st_table s) !! j = Some q ->
     p_report r = p_report q -> p_status r = PENDING -> p_status q = PENDING -> i = j) /\
  (lossy = false -> forall i r, requests (st_table s) !! i = Some r -> p_status r = PENDING ->
     i ∈ delayed (st_table s) \/ i ∈ st_running s) /\
  (forall s' i r r', step s s' -> requests (st_table s) !! i = Some r -> requests (st_table s') !! i = Some r' ->
     p_status r <> PENDING ->
     p_status r' = p_status r /\ p_error_code r' = p_error_code r /\ p_error_message r' = p_error_message r).
Proof.
  intros Hi H. pose proof (publish_reachable_ok s0 s Hi H) as K. split_and!.
  - intros i j r q Hr Hq Hrep Hp Hp'. destruct (Z.lt_trichotomy (p_created_at r) (p_created_at q)) as [Ht|[Ht|Ht]].
    + by destruct (ok_newest _ K i j r q Hr Hq Hrep Ht).
    + by eapply (ok_created _ K).
    + by destruct (ok_newest _ K j i q r Hq Hr (eq_sym Hrep) Ht).
  - intros Hl i r Hr Hp. apply elem_of_app. by eapply (ok_tasks _ K).
  - intros s' i r r' Hs Hr Hr' Hp. pose proof (step_rows s s' i r K Hs Hr) as Hrow. rewrite Hr' in Hrow.
    by apply Hrow.
Qed.
End life.

(** ** What a task stores *)

Section outcome.
Context (ConnectionError BaseHTTPError : exn -> bool) (str_exn : exn -> string).
Context (USE_HTTP : bool) (HOST PORT : string).
Context (digest : pyval -> string) (env : environment) (uuid : nat -> string) (slice_limit : Z).
Context (create_tar_buffer : pydict -> Res string).
Context (server : upload -> Res http_response) (reports : gmap Z report_state).

#[local] Abbreviation tarball := (generate_insights_tarball digest env uuid slice_limit create_tar_buffer).
#[local] Abbreviation run := (publish_to_ingress ConnectionError BaseHTTPError str_exn USE_HTTP HOST PORT
  digest env uuid slice_limit create_tar_buffer server reports).

(** A token that can be sent: there, not empty and not expired. *)
Definition usable_token (now : Z) (user : option Z) (tokens : SecureTokens.store) : option string :=
  o ← get_lightspeed_secure_token user tokens;
  token ← st_token (row o);
  if bool_decide (token <> "") && negb (is_expired now (row o)) then Some token else None.

(** The outcome as the documentation of the error codes has it, [None] for a report
    that was sent. *)
Definition error_code (now : Z) (tokens : SecureTokens.store) (report_id : Z) (user : option Z) : option string :=
  match usable_token now user tokens with
  | None => Some EXPIRED_TOKEN
  | Some token =>
      match tarball report_id reports with
      | Err _ => Some SERVER_ERROR
      | Ok file =>
          match server (mkupload (_get_ingress_url USE_HTTP HOST PORT) ("report_" +:+ int_repr report_id) file
                          ("Bearer " +:+ token)) with
          | Err e => Some (if ConnectionError e || BaseHTTPError e then NETWORK_UNREACHABLE else SERVER_ERROR)
          | Ok response =>
              if status_code response =? 401 then Some EXPIRED_TOKEN
              else if (400 <=? status_code response) && (status_code response <? 600) then Some SERVER_ERROR
              else None
          end
      end
  end.

Definition of_code (code : option string) : Status * string :=
  match code with None => (SENT, "") | Some c => (FAILED, c) end.

Definition publish_error (e : exn) : bool := match e with PublishError _ _ => true | _ => false end.

Lemma verdict_other e : publish_error e = false ->
  verdict str_exn (Err e) = (FAILED, PUBLISH_PAYLOAD_FAILED (str_exn e), SERVER_ERROR).
Proof. by destruct e. Qed.

Ltac step_binds := cbn [mbind res_bind option_bind try_except negb andb].

Lemma attempt_code now tokens report_id user :
  (forall e, tarball report_id reports = Err e -> publish_error e = false) ->
  (forall u e, server u = Err e -> publish_error e = false) ->
  let '(status, _, code) := verdict str_exn (attempt ConnectionError BaseHTTPError str_exn USE_HTTP HOST PORT
      digest env uuid slice_limit create_tar_buffer server reports now tokens report_id user) in
  (status, code) = of_code (error_code now tokens report_id user).
Proof.
  intros Htar Hserver. unfold attempt, error_code, usable_token, _get_auth_token.
  destruct (get_lightspeed_secure_token user tokens) as [o|]; [|done]. step_binds.
  destruct (st_token (row o)) as [token|]; [|done]. step_binds.
  destruct token as [|c token]; [done|]. destruct (is_expired now (row o)); [done|].
  rewrite bool_decide_true by done. step_binds.
  destruct (tarball report_id reports) as [file|e] eqn:Ht; [|by step_binds; rewrite verdict_other by eauto].
  unfold _post_to_ingress. step_binds. destruct (server _) as [response|e] eqn:Hs; step_binds.
  - unfold ok. destruct (Z.eqb_spec (status_code response) 401) as [->|Hne]; [done|].
    destruct ((400 <=? status_code response) && (status_code response <? 600)) eqn:Hr; [|done].
    apply andb_prop in Hr as [H1 H2%Z.ltb_lt]. rewrite H1. cbn [negb andb].
    destruct (Z.ltb_spec (status_code response) 500); [done|]. by rewrite (proj2 (Z.leb_le 500 _)).
  - destruct (ConnectionError e || BaseHTTPError e); step_binds; [done|]. by rewrite verdict_other by eauto.
Qed.

(** [C15] What a publish task leaves in its row, when the row is still pending in the
    end: the report is sent exactly when the user has a token that has not expired,
    the payload can be made and the server accepts the upload; every failure is
    stored with the error code of its cause: the token missing, expired or rejected
    with 401, the network, or anything else.  No failure escapes the task, and a row
    that is no longer pending stays as it is. *)
Theorem publish_outcome now tokens meanwhile id tb r r1 :
  (forall e, tarball (p_report r) reports = Err e -> publish_error e = false) ->
  (forall u e, server u = Err e -> publish_error e = false) ->
  requests tb !! id = Some r -> requests (meanwhile tb) !! id = Some r1 ->
  exists tb', run now tokens meanwhile id tb = Ok tb' /\
    (p_status r1 <> PENDING /\ tb' = meanwhile tb \/
     p_status r1 = PENDING /\ exists r', requests tb' = <[id := r']> (requests (meanwhile tb)) /\
       (p_status r', p_error_code r') = of_code (error_code now tokens (p_report r) (p_user r)) /\
       p_report r' = p_report r1 /\ p_user r' = p_user r1 /\ p_updated_at r' = now).
Proof.
  intros Htar Hserver Hr Hr1. unfold publish_to_ingress. rewrite Hr.
  pose proof (attempt_code now tokens (p_report r) (p_user r) Htar Hserver) as Hc.
  destruct (verdict _ _) as [[status message] code]. unfold _save_result. rewrite Hr1.
  case_bool_decide as Hp; eexists; (split; [done|]); [by left|]. right.
  split; [done|]. eexists. by split_and!.
Qed.
End outcome.

(** ** When a report can be published *)

Lemma auth_status_value v s : auth_status v = Some s <-> v = VStr (status_value s).
Proof.
  unfold auth_status. split.
  - intros H%head_Some_elem_of%list_elem_of_In. apply filter_In in H as [_ H].
    destruct v; try done. cbn in H. by apply bool_decide_eq_true in H as ->.
  - intros ->. by destruct s.
Qed.

(** A report can be published exactly when the user's token is marked as valid,
    the deployments report is complete and has a host that Insights takes.  The
    expiry of the token plays no role here. *)
Theorem can_publish_iff report_id report user slice_limit tokens :
  get_can_publish report_id report user slice_limit tokens = true <->
  (exists o, get_lightspeed_secure_token user tokens = Some o /\ token_status (row o) = VStr "valid") /\
  (exists dr fingerprints, report = Some (STATUS_COMPLETE, dr, fingerprints) /\ insights_fingerprints fingerprints <> []).
Proof.
  unfold get_can_publish, get_cannot_publish_reason, lightspeed_auth_status_of.
  assert (forall s, AUTH_CANNOT_PUBLISH_REASON_MAP s = None <-> s = Some Lightspeed.VALID) as Hmap.
  { intros s. split; [by destruct s as [[]|] | by intros ->]. }
  assert ((o ← get_lightspeed_secure_token user tokens; metadata ← st_metadata (row o);
           auth_status (dget_none "status" metadata)) = Some Lightspeed.VALID <->
          exists o, get_lightspeed_secure_token user tokens = Some o /\ token_status (row o) = VStr "valid") as Hauth.
  { destruct (get_lightspeed_secure_token user tokens) as [o|]; cbn; [|split; [done | by intros (? & ? & _)]].
    unfold token_status, metadata_of. destruct (st_metadata (row o)) as [m|] eqn:Em; cbn.
    - rewrite auth_status_value. split; [intros H; exists o; by rewrite Em | intros (? & [= <-] & H); by rewrite Em in H].
    - split; [done | intros (? & [= <-] & H); by rewrite Em in H]. }
  rewrite <- Hauth. destruct (AUTH_CANNOT_PUBLISH_REASON_MAP _) as [issue|] eqn:Hm.
  { split; [done|]. intros [H _]. apply Hmap in H. congruence. }
  apply Hmap in Hm. destruct report as [[[status dr] fps]|]; [|split; [done | by intros (_ & ? & ? & ? & _)]].
  unfold validate_deployment_report_status, from_report_id. case_bool_decide as Hs.
  { split; [done|]. by intros (_ & ? & ? & [= -> -> ->] & _). }
  case_bool_decide as Hf.
  { split; [done|]. by intros (_ & ? & ? & [= -> -> ->] & Hne). }
  split; [|done]. intros _. split; [done|]. exists dr, fps.
  destruct (decide (status = STATUS_COMPLETE)) as [->|]; [done | by destruct Hs].
Qed.

(** ** Examples and witnesses *)

Module Samples.
Definition str_exn (e : exn) : string := "error".
Definition iso (t : Z) : string := int_repr t.

(** A user whose token expires at 2000, and a complete report with one host. *)
Definition token_row : secure_token :=
  mktoken LIGHTSPEED_NAME LIGHTSPEED_TYPE (Some 7) (Some "jwt") (Some [("status", VStr "valid"); ("status_reason", VStr "")])
    (Some 2000).
Definition tokens : SecureTokens.store := SecureTokens.mkstore {[ 1 := token_row ]} 2 {[7]}.
Definition complete : report_state := Some (STATUS_COMPLETE, sample_deployment, [sample_host "a"]).
Definition all_reports : gmap Z report_state := {[ 5 := complete ]}.
Definition no_requests : table := mktable ∅ 1 [].

Definition tar (d : pydict) : Res string := Ok "tar".
Definition accepting (u : upload) : Res http_response := Ok (mkhttp 202 (Ok VNone) "Accepted" "").

Definition post (now : Z) (tb : table) : table * (Z * pydict) :=
  _create_publish iso 100 now 5 complete 7 tokens tb.
Definition run (now : Z) (tb : table) : Res table :=
  publish_to_ingress Lightspeed.Samples.is_connection_error Lightspeed.Samples.no_error str_exn false "host" "443" sample_digest sample_env sample_uuid 100 tar
    accepting all_reports now tokens (fun tb => tb) 1 tb.
Definition summary (tb : table) : list (string * string) :=
  (fun p => (status_text (p_status p.2), p_error_code p.2)) <$> map_to_list (requests tb).

Example posted : (post 10 no_requests).2.1 = 201 /\ summary (post 10 no_requests).1 = [("pending", "")].
Proof. by vm_compute. Qed.

Example refused_while_pending : (post 11 (post 10 no_requests).1).2.1 = 409.
Proof. by vm_compute. Qed.

Example sent : (tb ← run 12 (post 10 no_requests).1; Ok (summary tb)) = Ok [("sent", "")].
Proof. by vm_compute. Qed.

(** The view takes a token whose time is over, the task refuses it. *)
Example expired_token_accepted :
  (post 3000 no_requests).2.1 = 201 /\
  (tb ← run 3001 (post 3000 no_requests).1; Ok (summary tb)) = Ok [("failed", "expired_token")].
Proof. by vm_compute. Qed.

(** Two requests that both check before either creates its row are both accepted. *)
Example concurrent_requests :
  refusal 100 5 complete 7 tokens no_requests = None /\
  summary (request_publish 11 5 (Some 7) (request_publish 10 5 (Some 7) no_requests).1).1
  = [("pending", ""); ("pending", "")].
Proof. by vm_compute. Qed.
End Samples.

Import Samples.

Definition running_state : state := mkstate (mktable (requests (post 10 no_requests).1) 2 []) [1] 10.
Definition sent_state : state :=
  mkstate (mktable {[ 1 := mkpublish 5 (Some 7) SENT "" "" 10 12 ]} 2 []) [] 10.

Lemma publish_lifecycle_witness :
  (1 ∈ delayed (st_table running_state) \/ 1 ∈ st_running running_state) /\
  (forall r, requests (forget_user 7 (st_table sent_state)) !! 1 = Some r -> p_status r = SENT).
Proof.
  set (step := step iso 100 str_exn false).
  assert (rtc step (mkstate no_requests [] 0) running_state) as Hrun.
  { eapply rtc_l; [exact (step_post iso 100 str_exn false 5 complete 7 tokens 10 no_requests [] 0 ltac:(lia))|].
    eapply rtc_l; [|apply rtc_refl].
    exact (step_start iso 100 str_exn false (post 10 no_requests).1 [] 1 [] [] 10 ltac:(by vm_compute)). }
  assert (step running_state sent_state) as Hfinish.
  { refine (step_finish iso 100 str_exn false (Ok tt) (st_table running_state) [] 1 [] 10 12 (st_table sent_state) SENT "" "" _ _);
      by vm_compute. }
  split.
  - refine (proj1 (proj2 (publish_lifecycle iso 100 str_exn false (mkstate no_requests [] 0) running_state _ Hrun)) _ 1
      (mkpublish 5 (Some 7) PENDING "" "" 10 10) _ _); by vm_compute.
  - intros r Hr.
    refine (proj1 (proj2 (proj2 (publish_lifecycle iso 100 str_exn false (mkstate no_requests [] 0) sent_state _
      (rtc_r _ _ _ Hrun Hfinish))) _ 1 (mkpublish 5 (Some 7) SENT "" "" 10 12) r
      (step_delete_user iso 100 str_exn false 7 (st_table sent_state) [] 10) _ Hr _)); by vm_compute.
Defined.

Lemma publish_outcome_witness :
  exists tb', run 12 (post 10 no_requests).1 = Ok tb' /\
    exists r', requests tb' !! 1 = Some r' /\ (p_status r', p_error_code r') = (SENT, "").
Proof.
  destruct (publish_outcome Lightspeed.Samples.is_connection_error Lightspeed.Samples.no_error str_exn false "host" "443" sample_digest sample_env sample_uuid 100
    tar accepting all_reports 12 tokens (fun tb => tb) 1 (post 10 no_requests).1
    (mkpublish 5 (Some 7) PENDING "" "" 10 10) (mkpublish 5 (Some 7) PENDING "" "" 10 10))
    as (tb' & Hrun & [[Hp _]|(_ & r' & Hreq & Hcode & _)]).
  - intros e He. by vm_compute in He.
  - done.
  - by vm_compute.
  - by vm_compute.
  - by destruct Hp.
  - exists tb'. split; [exact Hrun|]. exists r'. split; [rewrite Hreq; apply lookup_insert_eq|].
    rewrite Hcode. by vm_compute.
Defined.
