(* ===== verification/ReportViews.v ===== *)
(** The views that give reports away, and the archive of a report.

    Models [api/report/view.py], [api/report/view_v1.py], [api/aggregate_report/view.py]
    with its serializer, [api/details_report/view.py], [api/insights_report/view.py] and
    [api/report/reports_gzip_renderer.py].  What they call is modelled in [Reports],
    [Deployments], [ReportFiles], [Aggregate], [Insights] and [Publish]; rendering JSON,
    digests, packing and the log files are parameters. *)
From stdpp Require Import base gmap sets list strings.
From Stdlib Require Import Ascii ZArith Lia.
From S2P Require Import Prelude PyStr PyNum PyVal ApiCommon Formatters Csv Reports Deployments Aggregate FingerprintTask.
From S2P Require Import Insights ReportFiles Publish.

Open Scope string_scope.
Open Scope Z_scope.

(** ** The state *)

(** The tables the views read, by the id of a report: its row, its sources, its job, the
    data and rows of aggregates, the fingerprints of its deployments report. *)
Record world := mkworld {
  w_reports : gmap Z report_row;
  w_sources : gmap Z pyval;
  w_jobs : gmap Z Z;
  w_files : fstore;
  w_data : gmap Z report_data;
  w_aggregates : gmap Z aggregate_row;
  w_fingerprints : gmap Z (list pydict) }.

Definition set_files (f : fstore) (w : world) : world :=
  mkworld (w_reports w) (w_sources w) (w_jobs w) f (w_data w) (w_aggregates w) (w_fingerprints w).
Definition set_aggregates (a : gmap Z aggregate_row) (w : world) : world :=
  mkworld (w_reports w) (w_sources w) (w_jobs w) (w_files w) (w_data w) a (w_fingerprints w).
Definition set_reports (r : gmap Z report_row) (w : world) : world :=
  mkworld r (w_sources w) (w_jobs w) (w_files w) (w_data w) (w_aggregates w) (w_fingerprints w).

(** ** Serializers *)

(** [DetailsReportSerializer(report).data] *)
Definition details_data (id : Z) (report : report_row) (w : world) : pydict :=
  not_empty []
    [("report_type", VStr REPORT_TYPE_DETAILS); ("report_version", VStr (report_version report));
     ("sources", default (VList []) (w_sources w !! id)); ("report_id", VInt id);
     ("report_platform_id", VStr (report_platform_id report));
     ("cached_csv", match cached_csv report with Some s => VStr s | None => VNone end)].

Definition results_fields : list string :=
  ["ansible_hosts_all"; "ansible_hosts_in_database"; "ansible_hosts_in_jobs"; "instances_hypervisor";
   "instances_not_redhat"; "instances_physical"; "instances_unknown"; "instances_virtual"; "jboss_eap_cores_physical";
   "jboss_eap_cores_virtual"; "jboss_eap_instances"; "jboss_ws_cores_physical"; "jboss_ws_cores_virtual";
   "jboss_ws_instances"; "openshift_cores"; "openshift_operators_by_name"; "openshift_operators_by_kind";
   "os_by_name_and_version"; "socket_pairs"; "system_creation_date_average"; "vmware_hosts"; "vmware_vm_to_host_ratio";
   "vmware_vms"; "openshift_cluster_instances"; "openshift_node_instances"].
Definition diagnostics_fields : list string :=
  ["inspect_result_status_failed"; "inspect_result_status_success"; "inspect_result_status_unknown";
   "inspect_result_status_unreachable"; "missing_cpu_core_count"; "missing_cpu_socket_count"; "missing_name";
   "missing_pem_files"; "missing_system_creation_date"; "missing_system_purpose"].

(** [AggregateReportSerializer(aggregate).data] *)
Definition aggregate_data (aggregate : aggregate_row) : pydict :=
  let fields l := VDict ((fun k => (k, dget_none k (ag_values aggregate))) <$> l) in
  [("results", fields results_fields); ("diagnostics", fields diagnostics_fields)].

(** ** Views *)

Record response := mkresponse { rs_status : Z; rs_data : pydict; rs_gzip : bool }.
Definition json_response (status : Z) (data : pydict) : response := mkresponse status data false.

Definition REPORT_AGGREGATE_NOT_AVAILABLE (report_id : Z) : string :=
  "Aggregate report for Report " +:+ int_repr report_id +:+ " is not available.".
Definition REPORT_UNSUPPORTED_REPORT_TYPE (report_type : string) : string :=
  "Unsupported report_type " +:+ report_type +:+ " specified.".

Section views.
Context (cached_files_path : string) (accessible : path -> bool) (now : Z).
Context (digest : pyval -> string) (env : environment) (uuid : nat -> string) (slice_limit : Z).

Definition get_serialized_aggregate_report (report_id : Z) (w : world) : world * Res (option pydict) :=
  let '(rows, r) := get_aggregate_report_by_report_id (w_data w) (w_aggregates w) now report_id in
  (set_aggregates rows w, match r with Ok row => Ok (aggregate_data <$> row) | Err e => Err e end).

(** [aggregate_report] *)
Definition aggregate_report (report_id : Z) (w : world) : world * Res pydict :=
  let '(w, r) := get_serialized_aggregate_report report_id w in
  (w, aggregate ← r; from_option NotFound aggregate).

(** The reports as the payload of Insights needs them. *)
Definition insights_reports (w : world) : gmap Z report_state :=
  map_imap (fun id (_ : report_row) =>
    Some (d ← get_of_report id (w_files w);
          Some (rc_status d.1, d.2, default [] (w_fingerprints w !! id)))) (w_reports w).

Definition insights (report_id : Z) (w : world) : Res pydict :=
  generate_insights_payload digest env uuid slice_limit report_id (insights_reports w).

(** [details]; [accept] is the header of the request. *)
Definition details (report_id : pyval) (accept : option string) (w : world) : Res pydict :=
  if negb (is_none report_id) && negb (is_int report_id)
  then Err (ValidationError [("report_id", ["The id must be an integer."])])
  else match (i ← convert_to_int report_id; r ← w_reports w !! i; Some (i, r)) with
       | None => Err Publish.Http404
       | Some (id, report) =>
           let json_details := details_data id report w in
           Ok match accept with
              | Some http_accept =>
                  if negb (bool_decide (http_accept = "")) && negb (str_contains "text/csv" http_accept)
                  then dpop "cached_csv" json_details else json_details
              | None => json_details
              end
       end.

Definition skipped (e : exn) : bool :=
  match e with
  | OtherException name => bool_decide (name = "NotFound") || bool_decide (name = "FailedDependencyError")
  | _ => false
  end.

(** [reports_report_and_status] *)
Definition reports_report_and_status (report_id : Z) (w : world) : world * Res (pydict * Z) :=
  match w_reports w !! report_id with
  | None => (w, Err Publish.Http404)
  | Some report =>
  match w_jobs w !! report_id with
  | None => (w, Err DoesNotExist)
  | Some scanjob =>
  match get_of_report report_id (w_files w) with
  | None => (w, Err Publish.Http404)
  | Some d =>
      if negb (bool_decide (rc_status d.1 = STATUS_COMPLETE)) then
        (w, Ok ([("detail", VStr (REPORT_DEPLOYMENTS_NOT_CREATED report_id))], 424))
      else
        let json_details := dpop "cached_csv" (details_data report_id report w) in
        let '(files, r) := build_cached_json_report cached_files_path accessible d (w_files w) in
        let w := set_files files w in
        match r with
        | Err e => (w, Err e)
        | Ok deployments_json =>
            match get_serialized_aggregate_report report_id w with
            | (w, Err e) => (w, Err e)
            | (w, Ok aggregate_json) =>
                let reports_dict :=
                  [("report_id", VInt report_id); ("scan_job_id", VInt scanjob); ("details_json", VDict json_details);
                   ("deployments_json", VDict deployments_json);
                   ("aggregate_json", match aggregate_json with Some a => VDict a | None => VNone end)] in
                match insights report_id w with
                | Ok lightspeed_report =>
                    (w, Ok (reports_dict ++ [("lightspeed_report", VDict lightspeed_report)], 200)%list)
                | Err e => if skipped e then (w, Ok (reports_dict, 200)) else (w, Err e)
                end
            end
        end
  end end end.

(** [download_report] *)
Definition download_report (report_type : option string) (accept : option string) (report_id : Z) (w : world) :
    world * Res response :=
  let report_type := default "default" report_type in
  if bool_decide (report_type = "default") then
    let '(w, r) := reports_report_and_status report_id w in
    (w, '(data, status) ← r;
        Ok (mkresponse status data (bool_decide (status = 200) && str_contains "*/*" (default "*/*" accept))))
  else if bool_decide (report_type = "aggregate") then
    let '(w, r) := get_serialized_aggregate_report report_id w in
    (w, aggregate ← r;
        Ok match aggregate with
           | Some data => json_response 200 data
           | None => json_response 422 [("detail", VStr (REPORT_AGGREGATE_NOT_AVAILABLE report_id))]
           end)
  else if bool_decide (report_type = "deployments") then
    let '(files, r) := deployments_report_and_status cached_files_path accessible report_id (w_files w) in
    (set_files files w, '(data, status) ← r; Ok (json_response status data))
  else if bool_decide (report_type = "details") then
    (w, match w_reports w !! report_id with
        | None => Err Publish.Http404
        | Some report => Ok (json_response 200 (dpop "cached_csv" (details_data report_id report w)))
        end)
  else if bool_decide (report_type = "insights") then (w, data ← insights report_id w; Ok (json_response 200 data))
  else (w, Ok (json_response 400 [("detail", VStr (REPORT_UNSUPPORTED_REPORT_TYPE report_type))])).
End views.

(** ** The archive *)

Section archive.
Context (cached_files_path unixtime : string).
Context (render_json : pyval -> string) (render_lightspeed : pyval -> string) (sha256 : string -> string).
(** The log files of a scan job, name and text. *)
Context (log_files : pyval -> list (string * string)).

Definition files : Type := list (string * string).

(** [files_data[name] = content] *)
Definition add_file (acc : files) (file : string * string) : files := dset file.1 file.2 acc.

Definition log_file (report_id : string) (log : string * string) : string * string :=
  let '(basename, extension) := split_filename log.1 in (create_filename basename extension report_id true, log.2).

(** [file_name = full_file_name.rsplit("/", 1)[1]] *)
Definition sha_line (file : string * string) : Res string :=
  '(_, file_name) ← from_option IndexError (split_last "/" file.1);
  Ok (sha256 file.2 +:+ "  " +:+ file_name +:+ String lf "").

Definition sha256sum (acc : files) : Res string := lines ← mapM sha_line acc; Ok (str_join "" lines).

Definition report_files (report_id : string) (aggregate_json details_json deployments_json : pyval)
    (details_csv deployments_csv : string) : files :=
  [(create_filename "aggregate" (Some "json") report_id true, render_json aggregate_json);
   (create_filename "details" (Some "json") report_id true, render_json details_json);
   (create_filename "deployments" (Some "json") report_id true, render_json deployments_json);
   (create_filename "details" (Some "csv") report_id true, details_csv);
   (create_filename "deployments" (Some "csv") report_id true, deployments_csv)].

(** All files but the sums. *)
Definition collect (report_id : string) (reports_dict : pydict) (first : files) : files :=
  let acc := foldl add_file [] first in
  let acc := foldl add_file acc (log_file report_id <$> log_files (dget_none "scan_job_id" reports_dict)) in
  let lightspeed_data := dget_none "lightspeed_report" reports_dict in
  if truthy lightspeed_data
  then add_file acc (create_filename "lightspeed" (Some "tar.gz") report_id true, render_lightspeed lightspeed_data)
  else acc.

(** [ReportsGzipRenderer.render]: the files that are packed. *)
Definition render (reports_dict : pydict) (w : world) : world * Res (option files) :=
  let get k := dget_none k reports_dict in
  if existsb is_none [get "report_id"; get "aggregate_json"; get "details_json"; get "deployments_json"]
  then (w, Ok None)
  else match get "details_json", get "deployments_json" with
  | VDict details_json, VDict deployments_json =>
      match create_details_csv (w_reports w) details_json with
      | Err e => (w, Err e)
      | Ok (details_csv, rows) =>
          let w := set_reports rows w in
          let '(b, r) := create_deployments_csv cached_files_path unixtime (base (w_files w)) deployments_json in
          let w := set_files (set_base b (w_files w)) w in
          (w, deployments_csv ← r;
              match details_csv, deployments_csv with
              | VStr details_csv, VStr deployments_csv =>
                  let report_id := py_str (get "report_id") in
                  let acc := collect report_id reports_dict
                    (report_files report_id (get "aggregate_json") (get "details_json") (get "deployments_json")
                       details_csv deployments_csv) in
                  sums ← sha256sum acc;
                  Ok (Some (add_file acc (create_filename "SHA256SUM" None report_id false, sums)))
              | _, _ => Ok None
              end)
      end
  | _, _ => (w, Err (AttributeError "get"))
  end.
End archive.

(** ** Lemmas *)

(** Every column of an aggregate report is shown once. *)
Lemma aggregate_fields : (results_fields ++ diagnostics_fields)%list ≡ₚ dkeys new_report.
Proof.
  apply NoDup_Permutation; [by_compute | by_compute|].
  assert (H1 : Forall (fun k => k ∈ dkeys new_report) (results_fields ++ diagnostics_fields)%list) by by_compute.
  assert (H2 : Forall (fun k => k ∈ (results_fields ++ diagnostics_fields)%list) (dkeys new_report)) by by_compute.
  rewrite Forall_forall in H1, H2. split; auto.
Qed.




Section archive_lemmas.
Context (render_json : pyval -> string) (render_lightspeed : pyval -> string) (sha256 : string -> string).
Context (log_files : pyval -> list (string * string)).





End archive_lemmas.


(** ** Examples *)

Module Samples.
Definition json (v : pyval) : string := py_repr v.
Definition sum (s : string) : string := "sha of " +:+ s.
Definition logs (job : pyval) : list (string * string) :=
  match job with VInt 2 => [("scan-job-2-inspect.txt", "log")] | _ => [] end.


Definition report7 : report_row := mkreport "1.0" "platform" None.
Definition world0 : world :=
  mkworld {[7 := report7]} {[7 := VList []]} {[7 := 2]} ReportFiles.Samples.st0 ∅ ∅ ∅.
Definition dict0 : pydict :=
  [("report_id", VInt 7); ("scan_job_id", VInt 2); ("details_json", VDict (details_data 7 report7 world0));
   ("deployments_json", VDict [("report_id", VInt 7)]); ("aggregate_json", VDict [])].
Definition made : world * Res (option files) :=
  render ReportFiles.Samples.dir "0" json json sum logs dict0 world0.
Definition archive0 : files := match made.2 with Ok (Some archive) => archive | _ => [] end.


Example archived_files : dkeys archive0 =
  ["report_id_7/aggregate-7.json"; "report_id_7/details-7.json"; "report_id_7/deployments-7.json";
   "report_id_7/details-7.csv"; "report_id_7/deployments-7.csv"; "report_id_7/scan-job-2-inspect-7.txt";
   "report_id_7/SHA256SUM"].
Proof. by vm_compute. Qed.

(** The cached fingerprints of a complete report are lost: the deployments view answers
    that the report is not there and has them made again, the archive is a server error. *)
Example lost_fingerprints :
  let download type :=
    (download_report ReportFiles.Samples.dir ReportFiles.Samples.in_dir 5 json sample_env (fun _ => "id") 10
       type None 7 world0).2 in
  rs_status <$> download (Some "deployments") = Ok 424 /\
  download None = Err (OtherException "FileNotFoundError").
Proof. by vm_compute. Qed.

End Samples.
