(* ===== verification/Normalizer.v ===== *)
(** The normalizers: raw facts into typed facts, one mapper for each fact.

    Models [scanner/normalizer.py] (Module [Framework]) and
    [scanner/network/normalizer.py] (Module [Network]).  A normalizer class is
    the ordered list of its fields; an instance is the state that [normalize]
    leaves behind. *)
From stdpp Require Import base sets list strings.
From Stdlib Require Import Ascii ZArith Lia Sorted.
From S2P Require Import Prelude PyStr PyNum PyVal Formatters Fingerprints NetworkUtils.

Open Scope string_scope.
Open Scope Z_scope.

Module Framework.

(** What a normalizer function gives: a value, or a value wrapped with the raw
    facts it was made of. *)
Record NormalizedResult := mkresult {
  value : pyval; raw_fact_keys : option (list string); has_error : bool }.

Inductive norm_output := Plain (v : pyval) | Wrapped (r : NormalizedResult).

(** A function takes the raw value when there is exactly one raw fact, and the
    other raw facts and the dependencies by keyword. *)
Record FactMapper := mkmapper {
  mapper_keys : list string;
  normalizer_func : option pyval -> pydict -> Res norm_output;
  dependencies : list string;
  validators : list (pyval -> Res bool) }.

(** ** Classes *)

Definition fields := list (string * FactMapper).

(** [FactMapper.__set_name__] *)
Definition set_name (fs : fields) (name : string) (m : FactMapper) : Res fields :=
  if forallb (fun dep => dmem dep fs) (dependencies m) then Ok (dset name m fs) else Err ValueError.

(** The fields of a class: those of its parent, then its own in the order of the
    class body. *)
Definition make_class (parent : fields) (body : list (string * FactMapper)) : Res fields :=
  foldM (fun fs '(name, m) => set_name fs name m) parent body.

(** ** Instances *)

Section instance.
Context (cls : fields) (source_type : string) (raw_facts : pydict) (server_id : pyval).

Definition _get_raw_fact_keys (fact_name : string) : Res (list string) :=
  field ← dget_exn fact_name cls;
  keys ← foldM (fun keys dep => m ← dget_exn dep cls; Ok (keys ++ mapper_keys m)%list)
           (mapper_keys field) (dependencies field);
  Ok (str_sorted (dedup keys)).

Definition _check_raw_fact_keys_for_fact (fact_name : string) (keys : option (list string)) : Res unit :=
  match keys with
  | None | Some [] => Ok tt
  | Some ks =>
      allowed_keys ← _get_raw_fact_keys fact_name;
      if forallb (fun k => bool_decide (k ∈ allowed_keys)) ks then Ok tt
      else Err (AssertionError "Unexpected raw facts used for fact")
  end.

Definition error_result : NormalizedResult := mkresult VNone None true.

(** The first validator that raises or refuses makes the fact an error. *)
Fixpoint validate (vs : list (pyval -> Res bool)) (r : NormalizedResult) : NormalizedResult :=
  match vs with
  | [] => r
  | v :: vs => match v (value r) with
               | Ok true => validate vs r
               | _ => error_result
               end
  end.

(** The arguments of the normalizer function. *)
Definition arguments (field : FactMapper) (deps : pydict) : option pyval * pydict :=
  match mapper_keys field with
  | [k] => (Some (dget_none k raw_facts), deps)
  | ks => (None, dupdate deps ((fun raw => (raw, dget_none raw raw_facts)) <$> ks))
  end.

Definition _normalize_fact (normalized : pydict) (fact_name : string) : Res NormalizedResult :=
  field ← dget_exn fact_name cls;
  deps ← mapM (fun dep => v ← dget_exn dep normalized; Ok (dep, v)) (dependencies field);
  let '(args, kwargs) := arguments field deps in
  match normalizer_func field args kwargs with
  | Err _ => Ok error_result
  | Ok out =>
      norm_result ← match out with
                    | Plain v => ks ← _get_raw_fact_keys fact_name; Ok (mkresult v (Some ks) false)
                    | Wrapped r => _ ← _check_raw_fact_keys_for_fact fact_name (raw_fact_keys r); Ok r
                    end;
      Ok (validate (validators field) norm_result)
  end.

(** An instance: the normalized facts, absent before the first call of
    [normalize], and the metadata. *)
Record instance := mkinstance { normalized : option pydict; metadata : pydict }.
Definition new_instance : instance := mkinstance None [].

Definition fact_metadata (r : NormalizedResult) : pyval :=
  VDict [("raw_fact_keys", match raw_fact_keys r with Some ks => VList (VStr <$> ks) | None => VNone end);
         ("source_type", VStr source_type); ("server_id", server_id); ("has_error", VBool (has_error r))].

(** One round of the loop of [normalize]; an exception keeps what is done. *)
Fixpoint normalize_facts (names : list string) (facts meta : pydict) : instance * Res pydict :=
  match names with
  | [] => (mkinstance (Some facts) meta, Ok facts)
  | name :: names =>
      match _normalize_fact facts name with
      | Err e => (mkinstance (Some facts) meta, Err e)
      | Ok r => normalize_facts names (dset name (value r) facts) (dset name (fact_metadata r) meta)
      end
  end.

Definition normalize (self : instance) : instance * Res pydict :=
  match normalized self with
  | Some facts => (self, Ok facts)
  | None => normalize_facts (dkeys cls) [] (metadata self)
  end.

Definition facts (self : instance) : Res pydict :=
  from_option (AssertionError "You must call '.normalize()' before acessing `.facts`.") (normalized self).
End instance.

(** ** Lemmas: classes *)

#[local] Open Scope list_scope.

(** The dependencies of every field come before it. *)
Inductive ordered : fields -> Prop :=
| ordered_nil : ordered []
| ordered_snoc fs name m :
    ordered fs -> name ∉ dkeys fs -> (forall dep, dep ∈ dependencies m -> dep ∈ dkeys fs) ->
    ordered (fs ++ [(name, m)]).

Lemma dset_append {A} k (v : A) (d : list (string * A)) : k ∉ dkeys d -> dset k v d = (d ++ [(k, v)])%list.
Proof.
  unfold dkeys. induction d as [|[k' v'] d IH]; [done|]. cbn. intros Hk.
  rewrite bool_decide_false by set_solver. f_equal. apply IH. set_solver.
Qed.

Lemma set_name_ordered fs name m fs' :
  ordered fs -> name ∉ dkeys fs -> set_name fs name m = Ok fs' ->
  ordered fs' /\ fs' = (fs ++ [(name, m)])%list.
Proof.
  unfold set_name. intros Ho Hn H. destruct (forallb _ _) eqn:Hd; [|done]. injection H as <-.
  rewrite dset_append by done. split; [|done]. constructor; [done | done |]. intros dep Hin.
  rewrite forallb_forall in Hd. apply dmem_true, Hd, list_elem_of_In, Hin.
Qed.

(** A class with new names for its facts has its dependencies in order. *)
Lemma make_class_ordered body : forall parent cls,
  ordered parent -> NoDup (dkeys parent ++ body.*1)%list -> make_class parent body = Ok cls ->
  ordered cls /\ cls = (parent ++ body)%list.
Proof.
  induction body as [|[name m] body IH]; intros parent cls Ho Hd H.
  - injection H as <-. by rewrite app_nil_r.
  - cbn in H. destruct (set_name parent name m) as [fs|] eqn:E; [|done]. cbn in H. cbn in Hd.
    destruct (set_name_ordered parent name m fs Ho) as [Ho' ->]; [|done|].
    { apply NoDup_app in Hd as (_ & Hd & _). intros Hin. apply (Hd _ Hin). left. }
    destruct (IH (parent ++ [(name, m)])%list cls Ho') as [Hc ->]; [|done|].
    { unfold dkeys in *. by rewrite fmap_app, <- app_assoc. }
    split; [done|]. by rewrite <- app_assoc.
Qed.

(** The names of a class body are new and its dependencies already there. *)
Fixpoint body_ok (seen : list string) (body : list (string * FactMapper)) : bool :=
  match body with
  | [] => true
  | (name, m) :: body =>
      bool_decide (name ∉ seen) && forallb (fun dep => bool_decide (dep ∈ seen)) (dependencies m)
      && body_ok (seen ++ [name]) body
  end.

Lemma make_class_ok body : forall parent, ordered parent -> body_ok (dkeys parent) body = true ->
  make_class parent body = Ok (parent ++ body)%list /\ ordered (parent ++ body).
Proof.
  induction body as [|[name m] body IH]; intros parent Ho H; [by rewrite app_nil_r|].
  cbn [body_ok] in H. apply andb_true_iff in H as [H Hb]. apply andb_true_iff in H as [Hn Hd].
  apply bool_decide_eq_true in Hn. cbn [make_class foldM].
  assert (forallb (fun dep => dmem dep parent) (dependencies m) = true) as Hd'.
  { rewrite forallb_forall in Hd |- *. intros dep Hin. apply dmem_true.
    by apply (bool_decide_eq_true_1 _ (Hd dep Hin)). }
  assert (set_name parent name m = Ok (parent ++ [(name, m)])) as E
    by (unfold set_name; rewrite Hd'; by rewrite dset_append).
  rewrite E. cbn [mbind res_bind]. destruct (set_name_ordered parent name m _ Ho Hn E) as [Ho' _].
  destruct (IH (parent ++ [(name, m)]) Ho') as [H1 H2]; [unfold dkeys in *; by rewrite fmap_app|].
  rewrite <- app_assoc in H1, H2. done.
Qed.

Lemma dget_app {A} k (d1 d2 : list (string * A)) :
  dget k (d1 ++ d2) = match dget k d1 with Some v => Some v | None => dget k d2 end.
Proof. induction d1 as [|[k' v'] d1 IH]; cbn; [done|]. by case_bool_decide. Qed.

(** Many texts given the value that a function has for them. *)
Lemma dget_dupdate_map {A} (f : string -> A) ks : forall (d : list (string * A)) k,
  dget k (dupdate d ((fun x => (x, f x)) <$> ks)) = if decide (k ∈ ks) then Some (f k) else dget k d.
Proof.
  unfold dupdate. induction ks as [|x ks IH]; intros d k; cbn.
  - by rewrite decide_False by set_solver.
  - etransitivity; [exact (IH (dset x (f x) d) k)|]. rewrite dget_dset. by repeat case_decide; set_solver.
Qed.

Lemma ordered_deps fs name m dep : ordered fs -> dget name fs = Some m -> dep ∈ dependencies m -> dep ∈ dkeys fs.
Proof.
  unfold dkeys. intros Ho. induction Ho as [|fs n m' Ho IH Hn Hd]; [done|].
  rewrite dget_app, fmap_app. destruct (dget name fs) as [m0|] eqn:E.
  - intros [= ->] Hdep. set_solver.
  - cbn. case_bool_decide; [|done]. intros [= ->] Hdep. apply Hd in Hdep. unfold dkeys in Hdep. set_solver.
Qed.

Lemma ordered_NoDup cls : ordered cls -> NoDup (dkeys cls).
Proof.
  unfold dkeys. induction 1 as [|fs name m Ho IH Hn Hd]; [constructor|]. rewrite fmap_app.
  apply NoDup_app. split; [done|]. split; [|apply NoDup_singleton]. cbn. unfold dkeys in Hn. set_solver.
Qed.

(** ** Lemmas: facts *)

Section facts.
Context (cls : fields) (source_type : string) (raw_facts : pydict) (server_id : pyval).

(** The functions only claim raw facts that the mapper or its dependencies read. *)
Definition honest : Prop :=
  forall name field args kwargs r,
    dget name cls = Some field -> normalizer_func field args kwargs = Ok (Wrapped r) ->
    _check_raw_fact_keys_for_fact cls name (raw_fact_keys r) = Ok tt.

Lemma raw_fact_keys_total name field :
  dget name cls = Some field -> (forall dep, dep ∈ dependencies field -> dep ∈ dkeys cls) ->
  is_Ok (_get_raw_fact_keys cls name).
Proof.
  intros Hf Hd. unfold _get_raw_fact_keys. rewrite (proj2 (dget_exn_Ok name cls field) Hf).
  cbn [mbind res_bind]. destruct (foldM_total (fun _ => True)
    (fun keys dep => m ← dget_exn dep cls; Ok (keys ++ mapper_keys m)%list) (dependencies field))
    with (a := mapper_keys field) as (keys & -> & _); [|done|by eexists].
  intros ks dep Hdep _. apply Hd, dget_keys in Hdep as [m Hm].
  rewrite (proj2 (dget_exn_Ok dep cls m) Hm). by eexists.
Qed.

(** Only the dependencies are read of the facts normalized so far. *)
Lemma normalize_fact_deps n1 n2 name field : dget name cls = Some field ->
  (forall dep, dep ∈ dependencies field -> dget dep n1 = dget dep n2) ->
  _normalize_fact cls raw_facts n1 name = _normalize_fact cls raw_facts n2 name.
Proof.
  intros Hf Hd. unfold _normalize_fact. rewrite (proj2 (dget_exn_Ok name cls field) Hf). cbn [mbind res_bind].
  assert (mapM (fun dep => v ← dget_exn dep n1; Ok (dep, v)) (dependencies field)
          = mapM (fun dep => v ← dget_exn dep n2; Ok (dep, v)) (dependencies field)) as ->; [|done].
  revert Hd. generalize (dependencies field) as deps. induction deps as [|dep deps IH]; intros Hd; [done|].
  cbn. assert (dget_exn dep n1 = dget_exn dep n2) as -> by (unfold dget_exn; by rewrite (Hd dep) by left).
  rewrite IH by (intros; apply Hd; by right). done.
Qed.

Lemma normalize_fact_total n name field : honest -> dget name cls = Some field ->
  (forall dep, dep ∈ dependencies field -> dep ∈ dkeys cls) ->
  (forall dep, dep ∈ dependencies field -> dep ∈ dkeys n) ->
  is_Ok (_normalize_fact cls raw_facts n name).
Proof.
  intros Hh Hf Hc Hn. unfold _normalize_fact. rewrite (proj2 (dget_exn_Ok name cls field) Hf).
  cbn [mbind res_bind].
  assert (is_Ok (mapM (fun dep => v ← dget_exn dep n; Ok (dep, v)) (dependencies field))) as [deps ->].
  { revert Hn. generalize (dependencies field) as deps. induction deps as [|dep deps IH]; intros Hn; [by eexists|].
    cbn. destruct (proj2 (dget_keys dep n) (Hn dep ltac:(left))) as [v Hv].
    rewrite (proj2 (dget_exn_Ok dep n v) Hv). cbn.
    destruct IH as [r ->]; [intros; apply Hn; by right|]. by eexists. }
  cbn [mbind res_bind]. destruct (arguments raw_facts field deps) as [args kwargs].
  destruct (normalizer_func field args kwargs) as [[v|r]|e] eqn:E; [| |by eexists].
  - destruct (raw_fact_keys_total name field Hf Hc) as [ks ->]. by eexists.
  - rewrite (Hh name field args kwargs r Hf E). by eexists.
Qed.

Lemma normalize_fact_wrapped n name field r : honest -> dget name cls = Some field ->
  dependencies field = [] -> validators field = [] ->
  normalizer_func field (arguments raw_facts field []).1 (arguments raw_facts field []).2 = Ok (Wrapped r) ->
  _normalize_fact cls raw_facts n name = Ok r.
Proof.
  intros Hh Hf Hd Hv Hr. unfold _normalize_fact. rewrite (proj2 (dget_exn_Ok name cls field) Hf).
  cbn [mbind res_bind]. rewrite Hd, Hv. cbn [mapM mret res_ret mbind res_bind].
  destruct (arguments raw_facts field []) as [args kwargs]. cbn [fst snd] in Hr. rewrite Hr.
  by rewrite (Hh name field args kwargs r Hf Hr).
Qed.

(** What [normalize] computes for the fields [fs], given the facts before them. *)
Definition settled (fs : fields) (fcts meta : pydict) : Prop :=
  dkeys fcts = dkeys fs /\ dkeys meta = dkeys fs /\
  forall name, name ∈ dkeys fs -> exists r,
    _normalize_fact cls raw_facts fcts name = Ok r /\ dget name fcts = Some (value r) /\
    dget name meta = Some (fact_metadata source_type server_id r).

Lemma normalize_settled fs rest : honest -> cls = (fs ++ rest)%list -> ordered cls -> ordered fs ->
  exists fcts meta, settled fs fcts meta /\
    forall k, normalize_facts cls source_type raw_facts server_id (dkeys fs ++ k) [] []
              = normalize_facts cls source_type raw_facts server_id k fcts meta.
Proof.
  intros Hh Hcls Ho Hfs. revert rest Hcls.
  induction Hfs as [|fs name m Hfs IH Hn Hd]; intros rest Hcls.
  { exists [], []. split; [|done]. split; [done|]. split; [done|]. by intros ? ?%elem_of_nil. }
  destruct (IH ((name, m) :: rest)) as (fcts & meta & (Hk & Hm & Hr) & Hrun); [by rewrite Hcls, <- app_assoc|].
  assert (dget name cls = Some m) as Hget.
  { rewrite Hcls, !dget_app. destruct (dget name fs) eqn:E.
    - destruct Hn. apply dget_keys. by eexists.
    - cbn. by rewrite bool_decide_true. }
  assert (forall dep, dep ∈ dependencies m -> dep ∈ dkeys cls) as Hdc.
  { intros dep Hdep. apply Hd in Hdep. rewrite Hcls. unfold dkeys in *. rewrite !fmap_app. set_solver. }
  destruct (normalize_fact_total fcts name m Hh Hget Hdc) as [r Hnr]; [by rewrite Hk|].
  exists (dset name (value r) fcts), (dset name (fact_metadata source_type server_id r) meta).
  split.
  - split; [|split].
    + rewrite dkeys_dset_notin by (by rewrite Hk). rewrite Hk. unfold dkeys. by rewrite fmap_app.
    + rewrite dkeys_dset_notin by (by rewrite Hm). rewrite Hm. unfold dkeys. by rewrite fmap_app.
    + intros name' Hin. destruct (decide (name' = name)) as [->|Hne].
      * exists r. rewrite !dget_dset_eq. split; [|done]. rewrite <- Hnr.
        apply (normalize_fact_deps _ _ name m Hget). intros dep Hdep. rewrite dget_dset_ne; [done|].
        intros ->. by apply Hn, Hd.
      * assert (name' ∈ dkeys fs) as Hin' by (unfold dkeys in *; rewrite fmap_app in Hin; set_solver).
        destruct (Hr name' Hin') as (r' & H1 & H2 & H3). exists r'.
        rewrite !dget_dset_ne by done. split; [|done]. rewrite <- H1.
        destruct (proj2 (dget_keys name' fs) Hin') as [m' Hm'].
        apply (normalize_fact_deps _ _ name' m'); [by rewrite Hcls, !dget_app, Hm'|].
        intros dep Hdep. rewrite dget_dset_ne; [done|]. intros ->.
        apply Hn. by apply (ordered_deps fs name' m').
  - intros k. unfold dkeys. rewrite fmap_app, <- app_assoc. rewrite Hrun. cbn. by rewrite Hnr.
Qed.

(** ** What a fact is, without the code *)

(** The raw facts that a fact may claim: those of its mapper and of the mappers
    of its dependencies. *)
Definition allowed (m : FactMapper) (k : string) : Prop :=
  k ∈ mapper_keys m \/
  exists dep m', dep ∈ dependencies m /\ dget dep cls = Some m' /\ k ∈ mapper_keys m'.
Definition claims (r : NormalizedResult) (k : string) : Prop :=
  exists ks, raw_fact_keys r = Some ks /\ k ∈ ks.
Definition valid (m : FactMapper) (v : pyval) : Prop := Forall (fun f => f v = Ok true) (validators m).

(** What a mapper makes of the answer of its function. *)
Inductive outcome (m : FactMapper) : Res norm_output -> Res NormalizedResult -> Prop :=
| out_raises e : outcome m (Err e) (Ok (mkresult VNone None true))
| out_plain v ks :
    StronglySorted str_le ks -> NoDup ks -> (forall k, k ∈ ks <-> allowed m k) -> valid m v ->
    outcome m (Ok (Plain v)) (Ok (mkresult v (Some ks) false))
| out_wrapped r : (forall k, claims r k -> allowed m k) -> valid m (value r) -> outcome m (Ok (Wrapped r)) (Ok r)
| out_invalid v : ~ valid m v -> outcome m (Ok (Plain v)) (Ok (mkresult VNone None true))
| out_invalid_wrapped r :
    (forall k, claims r k -> allowed m k) -> ~ valid m (value r) ->
    outcome m (Ok (Wrapped r)) (Ok (mkresult VNone None true))
| out_claims r k :
    claims r k -> ~ allowed m k ->
    outcome m (Ok (Wrapped r)) (Err (AssertionError "Unexpected raw facts used for fact")).

(** The function is given a single raw fact by position; several of them, and
    the dependencies, by name. *)
Definition named (m : FactMapper) : list string := match mapper_keys m with [_] => [] | ks => ks end.
Definition takes (m : FactMapper) (fcts : pydict) (args : option pyval) (kwargs : pydict) : Prop :=
  args = match mapper_keys m with [k] => Some (dget_none k raw_facts) | _ => None end /\
  forall k, dget k kwargs =
    if decide (k ∈ named m) then Some (dget_none k raw_facts)
    else if decide (k ∈ dependencies m) then dget k fcts else None.

Definition fact_of (m : FactMapper) (fcts : pydict) (res : Res NormalizedResult) : Prop :=
  exists args kwargs, takes m fcts args kwargs /\ outcome m (normalizer_func m args kwargs) res.

Definition described (r : NormalizedResult) (entry : pydict) : Prop :=
  dget "has_error" entry = Some (VBool (has_error r)) /\
  dget "raw_fact_keys" entry = Some (match raw_fact_keys r with Some ks => VList (VStr <$> ks) | None => VNone end) /\
  dget "source_type" entry = Some (VStr source_type) /\ dget "server_id" entry = Some server_id.

(** The facts and the metadata of the fields [fs], in their order. *)
Definition recorded (fs : fields) (fcts meta : pydict) : Prop :=
  dkeys fcts = dkeys fs /\ dkeys meta = dkeys fs /\
  forall name m, dget name fs = Some m -> exists r entry,
    fact_of m fcts (Ok r) /\ dget name fcts = Some (value r) /\
    dget name meta = Some (VDict entry) /\ described r entry.

(** ** Lemmas: the outcome of a fact *)

Lemma dep_keys_spec deps : forall keys out,
  foldM (fun keys dep => m ← dget_exn dep cls; Ok (keys ++ mapper_keys m)%list) keys deps = Ok out ->
  forall k, k ∈ out <-> k ∈ keys \/ exists dep m', dep ∈ deps /\ dget dep cls = Some m' /\ k ∈ mapper_keys m'.
Proof.
  induction deps as [|dep deps IH]; intros keys out H k.
  - injection H as <-. split; [by left|]. intros [?|(? & ? & Hd & _)]; [done|by apply elem_of_nil in Hd].
  - cbn in H. apply bind_Ok in H as (ks & (m & Hm & [= <-])%bind_Ok & H). apply dget_exn_Ok in Hm.
    rewrite (IH _ _ H k), elem_of_app. split.
    + intros [[?|?]|(d & m' & Hd & ? & ?)]; [by left | right; exists dep, m; repeat split; [left|..]; done |].
      right. exists d, m'. repeat split; [by right|..]; done.
    + intros [?|(d & m' & [->|Hd]%elem_of_cons & Hm' & ?)]; [by left; left | |].
      * left; right. by simplify_eq.
      * right. by exists d, m'.
Qed.

Lemma raw_fact_keys_spec name m : dget name cls = Some m ->
  (forall dep, dep ∈ dependencies m -> dep ∈ dkeys cls) ->
  exists ks, _get_raw_fact_keys cls name = Ok ks /\ StronglySorted str_le ks /\ NoDup ks /\
    forall k, k ∈ ks <-> allowed m k.
Proof.
  intros Hf Hd. destruct (raw_fact_keys_total name m Hf Hd) as [ks Hks]. exists ks. split; [done|].
  unfold _get_raw_fact_keys in Hks. rewrite (proj2 (dget_exn_Ok name cls m) Hf) in Hks. cbn [mbind res_bind] in Hks.
  apply bind_Ok in Hks as (out & Hout & [= <-]). split; [apply sorted_StronglySorted|].
  split; [rewrite sorted_perm; apply NoDup_dedup|]. intros k.
  rewrite sorted_perm, elem_of_dedup. apply (dep_keys_spec _ _ _ Hout).
Qed.

Lemma check_keys_spec name m r : dget name cls = Some m ->
  (forall dep, dep ∈ dependencies m -> dep ∈ dkeys cls) ->
  (_check_raw_fact_keys_for_fact cls name (raw_fact_keys r) = Ok tt /\ forall k, claims r k -> allowed m k) \/
  (_check_raw_fact_keys_for_fact cls name (raw_fact_keys r)
     = Err (AssertionError "Unexpected raw facts used for fact") /\ exists k, claims r k /\ ~ allowed m k).
Proof.
  intros Hf Hd. destruct (raw_fact_keys_spec name m Hf Hd) as (ok & Hok & _ & _ & Hin).
  unfold _check_raw_fact_keys_for_fact, claims. destruct (raw_fact_keys r) as [[|k0 ks0]|].
  - left. split; [done|]. by intros k (? & [= <-] & ?%elem_of_nil).
  - rewrite Hok. cbn [mbind res_bind]. generalize (k0 :: ks0) as ks. intros ks.
    destruct (forallb (fun k => bool_decide (k ∈ ok)) ks) eqn:E; [left|right]; (split; [done|]).
    + intros k (? & [= <-] & Hk). apply Hin. rewrite forallb_forall in E.
      by apply (bool_decide_eq_true_1 _ (E k (proj1 (list_elem_of_In _ _) Hk))).
    + destruct (Exists_dec (fun k => k ∉ ok) ks) as [Hx|Hx].
      * apply Exists_exists in Hx as (k & Hk & Hn). exists k. split; [by exists ks|]. by rewrite <- Hin.
      * exfalso. apply not_true_iff_false in E. apply E, forallb_forall. intros k Hk.
        apply bool_decide_eq_true. destruct (decide (k ∈ ok)); [done|]. destruct Hx.
        apply Exists_exists. exists k. by rewrite list_elem_of_In.
  - left. split; [done|]. by intros k (? & ? & ?).
Qed.

Lemma validated_spec vs r :
  (Forall (fun f => f (value r) = Ok true) vs /\ validate vs r = r) \/
  (~ Forall (fun f => f (value r) = Ok true) vs /\ validate vs r = mkresult VNone None true).
Proof.
  induction vs as [|f vs IH]; [by left|]. cbn. rewrite Forall_cons.
  destruct (f (value r)) as [[]|] eqn:E; [naive_solver | right | right]; (split; [by intros [? _] | done]).
Qed.

Lemma arguments_spec m fcts : (forall dep, dep ∈ dependencies m -> dep ∈ dkeys fcts) ->
  exists deps, mapM (fun dep => v ← dget_exn dep fcts; Ok (dep, v)) (dependencies m) = Ok deps /\
    takes m fcts (arguments raw_facts m deps).1 (arguments raw_facts m deps).2.
Proof.
  intros Hd.
  assert (exists deps, mapM (fun dep => v ← dget_exn dep fcts; Ok (dep, v)) (dependencies m) = Ok deps /\
            forall k, dget k deps = if decide (k ∈ dependencies m) then dget k fcts else None) as (deps & -> & Hdeps).
  { revert Hd. generalize (dependencies m) as l. induction l as [|dep l IH]; intros Hd.
    { exists []. split; [done|]. intros k. by rewrite decide_False by set_solver. }
    destruct IH as (deps & E & Hdeps); [set_solver|]. destruct (proj2 (dget_keys dep fcts)) as [v Hv]; [set_solver|].
    exists ((dep, v) :: deps). cbn. rewrite (proj2 (dget_exn_Ok dep fcts v) Hv). cbn. rewrite E. split; [done|].
    intros k. case_bool_decide; [subst; by rewrite decide_True by set_solver|]. rewrite Hdeps.
    by repeat case_decide; set_solver. }
  exists deps. split; [done|]. unfold takes, arguments, named.
  destruct (mapper_keys m) as [|k1 [|k2 ks]]; (split; [done|]); intros k; cbn [fst snd].
  - by rewrite decide_False by set_solver.
  - by rewrite decide_False by set_solver.
  - rewrite (dget_dupdate_map _ (k1 :: k2 :: ks)). by case_decide.
Qed.

(** ** Lemmas: the run of [normalize] *)

Lemma normalize_fact_spec name m fcts : dget name cls = Some m ->
  (forall dep, dep ∈ dependencies m -> dep ∈ dkeys cls) ->
  (forall dep, dep ∈ dependencies m -> dep ∈ dkeys fcts) ->
  fact_of m fcts (_normalize_fact cls raw_facts fcts name).
Proof.
  intros Hf Hc Hd. destruct (arguments_spec m fcts Hd) as (deps & E & Ht).
  unfold fact_of, _normalize_fact. rewrite (proj2 (dget_exn_Ok name cls m) Hf). cbn [mbind res_bind]. rewrite E.
  cbn [mbind res_bind]. destruct (arguments raw_facts m deps) as [args kwargs]. exists args, kwargs. split; [exact Ht|].
  destruct (normalizer_func m args kwargs) as [[v|r]|e]; [| |constructor].
  - destruct (raw_fact_keys_spec name m Hf Hc) as (ks & -> & ? & ? & ?). cbn [mbind res_bind].
    destruct (validated_spec (validators m) (mkresult v (Some ks) false)) as [[? ->]|[? ->]]; by constructor.
  - destruct (check_keys_spec name m r Hf Hc) as [[-> ?]|[-> (k & ? & ?)]]; cbn [mbind res_bind].
    + destruct (validated_spec (validators m) r) as [[? ->]|[? ->]]; by constructor.
    + by apply (out_claims m r k).
Qed.

Lemma fact_of_fresh m fcts name v res :
  name ∉ dependencies m -> fact_of m fcts res -> fact_of m (dset name v fcts) res.
Proof.
  intros Hn (args & kwargs & [Ha Hk] & Ho). exists args, kwargs. split; [|done]. split; [done|].
  intros k. rewrite Hk. case_decide; [done|]. case_decide; [|done]. rewrite dget_dset_ne; [done|]. by intros ->.
Qed.

Lemma ordered_prefix rest : forall fs, ordered (fs ++ rest) -> ordered fs.
Proof.
  induction rest as [|x rest IH] using rev_ind; intros fs H; [by rewrite app_nil_r in H|].
  rewrite app_assoc in H. apply IH. inversion H as [E|fs' name m Ho _ _ E].
  - by apply eq_sym, app_nil in E as [_ ?].
  - by apply app_inj_tail in E as [<- _].
Qed.

Lemma ordered_next fs name m rest : ordered (fs ++ (name, m) :: rest) ->
  (name ∉ dkeys fs) /\ (forall dep, dep ∈ dependencies m -> dep ∈ dkeys fs).
Proof.
  intros H. rewrite cons_middle, app_assoc in H. apply ordered_prefix in H. inversion H as [E|fs' n m' Ho Hn Hd E].
  - by apply eq_sym, app_nil in E as [_ ?].
  - apply app_inj_tail in E as [-> [= -> ->]]. by split.
Qed.

Lemma recorded_next fs name m rest fcts meta r :
  cls = fs ++ (name, m) :: rest -> ordered cls -> recorded fs fcts meta -> fact_of m fcts (Ok r) ->
  recorded (fs ++ [(name, m)]) (dset name (value r) fcts)
    (dset name (fact_metadata source_type server_id r) meta).
Proof.
  intros Hcls Ho (Hk & Hm & Hr) Hf. rewrite Hcls in Ho. destruct (ordered_next _ _ _ _ Ho) as [Hn Hd].
  split; [|split].
  - rewrite dkeys_dset_notin by (by rewrite Hk). rewrite Hk. unfold dkeys. by rewrite fmap_app.
  - rewrite dkeys_dset_notin by (by rewrite Hm). rewrite Hm. unfold dkeys. by rewrite fmap_app.
  - intros name' m'. rewrite dget_app. destruct (dget name' fs) as [m0|] eqn:E.
    + intros [= ->]. assert (name' <> name) as Hne by (intros ->; apply Hn, dget_keys; by eexists).
      destruct (Hr name' m' E) as (r' & entry & H1 & H2 & H3 & H4). exists r', entry.
      rewrite !dget_dset_ne by done. split; [|done]. apply fact_of_fresh; [|done].
      intros Hdep. apply Hn. exact (ordered_deps fs name' m' name (ordered_prefix _ _ Ho) E Hdep).
    + cbn. case_bool_decide; [|done]. subst name'. intros [= <-]. exists r. eexists. rewrite !dget_dset_eq.
      split; [|split; [done|split; [reflexivity|done]]].
      apply fact_of_fresh; [|done]. intros Hdep. by apply Hn, Hd.
Qed.

(** From the facts of the fields [fs] on, [normalize] computes those of the others
    until one claims a raw fact that it may not. *)
Lemma normalize_run rest : forall fs fcts meta,
  cls = fs ++ rest -> ordered cls -> recorded fs fcts meta ->
  exists fs' rest' fcts' meta' result,
    cls = fs' ++ rest' /\ recorded fs' fcts' meta' /\
    normalize_facts cls source_type raw_facts server_id (dkeys rest) fcts meta
    = (mkinstance (Some fcts') meta', result) /\
    match rest' with
    | [] => result = Ok fcts'
    | (_, m) :: _ => exists e, fact_of m fcts' (Err e) /\ result = Err e
    end.
Proof.
  induction rest as [|[name m] rest IH]; intros fs fcts meta Hcls Ho Hr.
  - by exists fs, [], fcts, meta, (Ok fcts).
  - pose proof Ho as Ho'. rewrite Hcls in Ho'. destruct (ordered_next _ _ _ _ Ho') as [Hn Hd].
    assert (forall dep, dep ∈ dependencies m -> dep ∈ dkeys cls) as Hdc.
    { intros dep Hdep%Hd. rewrite Hcls. unfold dkeys in *. rewrite fmap_app. set_solver. }
    assert (dget name cls = Some m) as Hget.
    { rewrite Hcls, dget_app. destruct (dget name fs) eqn:E; [destruct Hn; apply dget_keys; by eexists|].
      cbn. by rewrite bool_decide_true. }
    assert (fact_of m fcts (_normalize_fact cls raw_facts fcts name)) as Hf.
    { apply normalize_fact_spec; [done..|]. destruct Hr as (-> & _ & _). done. }
    cbn. destruct (_normalize_fact cls raw_facts fcts name) as [r|e].
    + apply (IH (fs ++ [(name, m)])); [by rewrite Hcls, <- app_assoc | done |].
      by apply (recorded_next fs name m rest).
    + exists fs, ((name, m) :: rest), fcts, meta, (Err e). repeat split; try done; try apply Hr. by exists e.
Qed.
End facts.
End Framework.

Module Network.
Import Framework.

(** ** [str(ipaddress.ip_address(text))] *)

Definition hex_val (c : ascii) : Z :=
  let n := Z.of_N (code c) in if n <? 58 then n - 48 else if n <? 71 then n - 55 else n - 87.
Fixpoint hex_value (s : string) (acc : Z) : Z :=
  match s with "" => acc | String c s => hex_value s (acc * 16 + hex_val c) end.

(** [%x] of a number of at most four hexadecimal digits. *)
Definition hex_repr (z : Z) : string :=
  let d k := String (hex_digit (Z.to_N (z / 16 ^ k mod 16))) "" in
  if z <? 16 then d 0 else if z <? 256 then d 1 +:+ d 0
  else if z <? 4096 then d 2 +:+ d 1 +:+ d 0 else d 3 +:+ d 2 +:+ d 1 +:+ d 0.

(** The parts of a valid address, a dotted last part turned into two hextets. *)
Definition full_parts (parts : list string) : list string :=
  match last parts with
  | Some p =>
      if str_contains "." p then
        match (fun o => digits_value o 0) <$> str_split "." p with
        | [a; b; c; d] =>
            (take (length parts - 1) parts ++ [hex_repr (a * 256 + b); hex_repr (c * 256 + d)])%list
        | _ => parts
        end
      else parts
  | None => parts
  end.

(** The eight hextets of a valid address. *)
Definition hextets (parts : list string) : list Z :=
  let n := length parts in
  let value p := hex_value p 0 in
  match inner_empty parts with
  | [skip] =>
      let hi := if bool_decide (head parts = Some "") then (skip - 1)%nat else skip in
      let lo := if bool_decide (last parts = Some "") then (n - skip - 2)%nat else (n - skip - 1)%nat in
      ((value <$> take hi parts) ++ replicate (8 - hi - lo) 0 ++ (value <$> drop (n - lo) parts))%list
  | _ => value <$> parts
  end.

(** One round of the search for the longest run of zeros in
    [_compress_hextets]: the best start and length, and the current ones. *)
Definition zero_run (st : (Z * Z) * (Z * Z)) (ih : nat * Z) : (Z * Z) * (Z * Z) :=
  let '((best_start, best_len), (start, len)) := st in
  let '(index, h) := ih in
  if h =? 0 then
    let len := len + 1 in
    let start := if start =? -1 then Z.of_nat index else start in
    if best_len <? len then ((start, len), (start, len)) else ((best_start, best_len), (start, len))
  else ((best_start, best_len), (-1, 0)).

Definition _compress_hextets (hs : list Z) : string :=
  let '((best_start, best_len), _) :=
    foldl zero_run ((-1, 0), (-1, 0)) (zip (seq 0 (length hs)) hs) in
  let texts := hex_repr <$> hs in
  if 1 <? best_len then
    let before := take (Z.to_nat best_start) texts in
    let after := drop (Z.to_nat (best_start + best_len)) texts in
    let before := match before with [] => [""] | _ => before end in
    let after := match after with [] => [""] | _ => after end in
    str_join ":" (before ++ [""] ++ after)%list
  else str_join ":" texts.

Definition ipv6_text (address : string) : string :=
  let '(addr, sep, scope_id) := str_partition "%" address in
  _compress_hextets (hextets (full_parts (str_split ":" addr))) +:+ sep +:+ scope_id.

Definition ipv4_of_int (z : Z) : string :=
  str_join "." (int_repr <$> [z / 16777216; z / 65536 mod 256; z / 256 mod 256; z mod 256]).
Definition ipv6_of_int (z : Z) : string :=
  _compress_hextets ((fun k => z / 2 ^ (16 * k) mod 65536) <$> [7; 6; 5; 4; 3; 2; 1; 0]).

Definition ip_text (v : pyval) : Res string :=
  let of_int z := if (0 <=? z) && (z <? 2 ^ 32) then Ok (ipv4_of_int z)
                  else if (0 <=? z) && (z <? 2 ^ 128) then Ok (ipv6_of_int z) else Err ValueError in
  match v with
  | VStr s => if is_valid_ipv4_address s then Ok s
              else if is_valid_ipv6_address s then Ok (ipv6_text s) else Err ValueError
  | VInt z => of_int z
  | VBool b => of_int (b2z b)
  | _ => Err ValueError
  end.

(** ** The normalizer functions *)

Definition infrastructure_type_normalizer (virt_what hostnamectl subman_virt_is_guest : pyval)
  : Res NormalizedResult :=
  virt_what ← deepget virt_what "value";
  hostnamectl_chassis ← deepget hostnamectl "value__chassis";
  let result key v := Ok (mkresult (VStr v) (Some [key]) false) in
  if truthy virt_what then result "virt_what" "virtualized"
  else if truthy subman_virt_is_guest then result "subman_virt_is_guest" "virtualized"
  else if py_in hostnamectl_chassis [VStr "vm"; VStr "container"] then result "hostnamectl" "virtualized"
  else if truthy hostnamectl_chassis then result "hostnamectl" "bare_metal"
  else result "virt_what" "unknown".

Definition ip_address_normalizer (ifconfig_ip_addresses : pyval) : Res pyval :=
  if is_none ifconfig_ip_addresses then Ok (VList [])
  else
    l ← py_iter ifconfig_ip_addresses;
    addresses ← mapM ip_text l;
    Ok (VList (VStr <$> addresses)).

(** [get_ipv4_ipv6_addresses] on the texts that the dependency gives. *)
Definition network_interfaces (ip_addresses : pyval) : Res pyval :=
  l ← py_iter ip_addresses;
  texts ← mapM (as_str "split") l;
  let '(ipv4_addresses, ipv6_addresses) := get_ipv4_ipv6_addresses texts in
  Ok (VList [VDict [("name", VStr "unknown"); ("ipv4_addresses", VList (VStr <$> ipv4_addresses));
                    ("ipv6_addresses", VList (VStr <$> ipv6_addresses))]]).

(** [dict(v)]: a copy of a dict, or the pairs of a list. *)
Definition pair_of (v : pyval) : Res (string * pyval) :=
  l ← py_iter v;
  match l with
  | [VStr k; x] => Ok (k, x)
  | [_; _] => Err TypeError
  | _ => Err ValueError
  end.
Definition py_dict (v : pyval) : Res pyval :=
  match v with
  | VDict d => Ok (VDict d)
  | _ => l ← py_iter v; ps ← mapM pair_of l; Ok (VDict (dupdate [] ps))
  end.

(** A function of one positional argument, and no keyword. *)
Definition unary (f : pyval -> Res pyval) (args : option pyval) (kwargs : pydict) : Res norm_output :=
  match args, kwargs with
  | Some v, [] => r ← f v; Ok (Plain r)
  | _, _ => Err TypeError
  end.

Definition one (key : string) (f : pyval -> Res pyval) : FactMapper := mkmapper [key] (unary f) [] [].

(** A function of keyword arguments: exactly the expected ones. *)
Definition keywords (names : list string) (f : pydict -> Res norm_output) (args : option pyval)
    (kwargs : pydict) : Res norm_output :=
  match args with
  | Some _ => Err TypeError
  | None => if forallb (fun k => bool_decide (k ∈ names)) (dkeys kwargs) then f kwargs else Err TypeError
  end.

Definition infrastructure_keys : list string := ["virt_what"; "subman_virt_is_guest"; "hostnamectl"].

Definition Normalizer : list (string * FactMapper) :=
  let text v := Ok (str_or_none v) in
  let int v := z ← py_int v; Ok (VInt z) in
  [ ("mac_addresses", one "ifconfig_mac_addresses" format_mac_addresses);
    ("ip_addresses", one "ifconfig_ip_addresses" ip_address_normalizer);
    ("bios_uuid", one "dmi_system_uuid" text);
    ("insights_id", one "insights_client_id" text);
    ("subscription_manager_id", one "subscription_manager_id" text);
    ("number_of_cpus", one "cpu_core_count" int);
    ("number_of_sockets", one "cpu_socket_count" int);
    ("cores_per_socket", one "cpu_core_per_socket" int);
    ("system_memory_bytes", one "system_memory_bytes" int);
    ("infrastructure_type", mkmapper infrastructure_keys
       (keywords infrastructure_keys (fun kw =>
          r ← infrastructure_type_normalizer (dget_none "virt_what" kw) (dget_none "hostnamectl" kw)
                (dget_none "subman_virt_is_guest" kw);
          Ok (Wrapped r))) [] []);
    ("infrastructure_vendor", one "virt_type" text);
    ("os_release", one "etc_release_release" text);
    ("arch", one "uname_processor" text);
    ("cloud_provider", one "cloud_provider" text);
    ("system_purpose", one "system_purpose_json" py_dict);
    ("network_interfaces", mkmapper []
       (keywords ["ip_addresses"] (fun kw =>
          r ← network_interfaces (dget_none "ip_addresses" kw); Ok (Plain r))) ["ip_addresses"] []);
    ("etc_machine_id", one "etc_machine_id" text) ].

(** The fields of the class; [network_class] shows that the class body gives them. *)
Definition cls : fields := Normalizer.
End Network.

Example ipv6_examples :
  Network.ip_text (VStr "2001:DB8::0:1") = Ok "2001:db8::1" /\
  Network.ip_text (VStr "::ffff:1.2.3.4") = Ok "::ffff:102:304" /\
  Network.ip_text (VStr "fe80:0:0:0:0:0:0:1%eth0") = Ok "fe80::1%eth0" /\
  Network.ip_text (VStr "0:1::") = Ok "0:1::" /\ Network.ip_text (VInt 1) = Ok "0.0.0.1".
Proof. vm_compute. repeat split. Qed.

(** ** Lemmas: the network normalizer *)

Import Framework.

Lemma network_class : make_class [] Network.Normalizer = Ok Network.cls /\ ordered Network.cls.
Proof. apply (make_class_ok Network.Normalizer []); [constructor | reflexivity]. Qed.

Lemma infrastructure_honest virt_what hostnamectl guest r :
  Network.infrastructure_type_normalizer virt_what hostnamectl guest = Ok r ->
  exists key, key ∈ Network.infrastructure_keys /\ raw_fact_keys r = Some [key].
Proof.
  unfold Network.infrastructure_type_normalizer. intros (w & _ & H)%bind_Ok.
  apply bind_Ok in H as (c & _ & H). unfold Network.infrastructure_keys.
  repeat case_match; injection H as <-; eexists; (split; [|reflexivity]); set_solver.
Qed.

Lemma unary_plain f args kwargs r : Network.unary f args kwargs <> Ok (Wrapped r).
Proof.
  unfold Network.unary. destruct args as [v|], kwargs as [|p kwargs]; try done.
  intros (w & _ & H)%bind_Ok. discriminate H.
Qed.

Lemma keywords_inv names f args kwargs out :
  Network.keywords names f args kwargs = Ok out -> f kwargs = Ok out.
Proof. unfold Network.keywords. destruct args; [done|]. by case_match. Qed.

Lemma network_honest : honest Network.cls.
Proof.
  intros name field args kwargs r Hf Hr. apply dget_elem in Hf.
  unfold Network.cls, Network.Normalizer in Hf.
  repeat (apply elem_of_cons in Hf as [[= -> ->]|Hf];
    [first [by apply unary_plain in Hr | apply keywords_inv in Hr; apply bind_Ok in Hr as (r' & Hr' & Hr)]|]);
    [| |by apply elem_of_nil in Hf].
  - injection Hr as ->. destruct (infrastructure_honest _ _ _ _ Hr') as (key & Hk & ->).
    unfold Network.infrastructure_keys in Hk.
    repeat (apply elem_of_cons in Hk as [->|Hk]; [vm_compute; reflexivity|]). by apply elem_of_nil in Hk.
  - discriminate Hr.
Qed.

(** A path into a value that is not a container gives nothing. *)
Lemma get_item_plain v k : has_getitem v = false -> int_of_str k = None -> _get_item v k = Ok VNone.
Proof. intros Hv Hk. unfold _get_item. destruct v; try done; cbn; by rewrite Hk. Qed.

Lemma deepget_step (fact : pydict) k rest : rest <> [] ->
  (forall r, hd_error rest = Some r -> int_of_str r = None) ->
  _get_nested_item (VDict fact) (k :: rest) = _get_nested_item (dget_none k fact) rest.
Proof.
  intros Hr Hi. rewrite deepget_nested_cons by done. rewrite get_item_dict. cbn [mbind res_bind].
  destruct (has_getitem (dget_none k fact)) eqn:E; [done|].
  destruct rest as [|r rest]; [done|]. specialize (Hi r eq_refl).
  destruct rest as [|r2 rest]; [by rewrite <- (get_item_plain _ r E Hi)|].
  rewrite deepget_nested_cons by done. by rewrite (get_item_plain _ r E Hi).
Qed.

Lemma infrastructure_fact raw_facts facts r :
  Network.infrastructure_type_normalizer (dget_none "virt_what" raw_facts)
    (dget_none "hostnamectl" raw_facts) (dget_none "subman_virt_is_guest" raw_facts) = Ok r ->
  _normalize_fact Network.cls raw_facts facts "infrastructure_type" = Ok r.
Proof.
  intros Hr. eapply normalize_fact_wrapped; [apply network_honest | reflexivity | reflexivity | reflexivity |].
  change ((r ← Network.infrastructure_type_normalizer (dget_none "virt_what" raw_facts)
              (dget_none "hostnamectl" raw_facts) (dget_none "subman_virt_is_guest" raw_facts);
            Ok (Wrapped r)) = Ok (Wrapped r)). by rewrite Hr.
Qed.

Lemma normalize_total cls source_type raw_facts server_id :
  ordered cls -> honest cls ->
  exists facts meta,
    normalize cls source_type raw_facts server_id new_instance = (mkinstance (Some facts) meta, Ok facts) /\
    settled cls source_type raw_facts server_id cls facts meta.
Proof.
  intros Ho Hh.
  destruct (normalize_settled cls source_type raw_facts server_id cls [] Hh
    ltac:(by rewrite app_nil_r) Ho Ho) as (facts & meta & Hs & Hrun).
  exists facts, meta. split; [|done]. unfold normalize. cbn [normalized new_instance metadata].
  specialize (Hrun []). by rewrite app_nil_r in Hrun.
Qed.

(** ** Properties *)

(** [C30] Normalization is the fixed point its mappers describe: for a class whose
    dependencies come before the facts that need them, [normalize] computes the
    facts in order, each from the raw facts and the final values of its
    dependencies.  A function that raises, and a validator that raises or
    refuses, give [None] marked as an error for that fact alone; a plain value
    is described by all the raw facts of the mapper and of its dependencies,
    sorted, a wrapped one by those it claims.  Only a function that claims a raw
    fact it may not read makes [normalize] raise: the facts before it are
    kept.  A second call gives the facts of the first. *)
Theorem normalize_spec cls source_type raw_facts server_id :
  ordered cls ->
  exists (fs rest : fields) facts meta result, let self := mkinstance (Some facts) meta in
    cls = (fs ++ rest)%list /\ recorded cls source_type raw_facts server_id fs facts meta /\
    normalize cls source_type raw_facts server_id new_instance = (self, result) /\
    match rest with
    | [] => result = Ok facts
    | (_, m) :: _ => exists e, fact_of cls raw_facts m facts (Err e) /\ result = Err e
    end /\
    normalize cls source_type raw_facts server_id self = (self, Ok facts).
Proof.
  intros Ho.
  destruct (normalize_run cls source_type raw_facts server_id cls [] [] [])
    as (fs & rest & facts & meta & result & ? & ? & ? & ?); [done | done | |by exists fs, rest, facts, meta, result].
  split; [done|]. split; [done|]. by intros ? ?.
Qed.

Lemma normalize_spec_witness :
  let raw := [("cpu_core_count", VStr "4"); ("cpu_socket_count", VStr "x")] in
  exists facts meta,
    normalize Network.cls "network" raw VNone new_instance = (mkinstance (Some facts) meta, Ok facts) /\
    recorded Network.cls "network" raw VNone Network.cls facts meta.
Proof.
  intros raw. destruct (normalize_spec Network.cls "network" raw VNone (proj2 network_class))
    as (fs & rest & facts & meta & result & Hcls & Hr & Hn & Hres & _).
  destruct (normalize_total Network.cls "network" raw VNone (proj2 network_class) network_honest)
    as (facts' & meta' & Hn' & _). rewrite Hn in Hn'. injection Hn' as -> -> ->.
  destruct rest as [|[name m] rest]; [|by destruct Hres as (e & _ & ?)].
  rewrite app_nil_r in Hcls. subst fs. by exists facts', meta'.
Defined.

(** The network normalizer takes any raw facts: it never raises and gives its
    17 facts; and its infrastructure type, with the raw fact it rests on, is the
    one that the fingerprinter's own function finds in the same raw facts. *)
Theorem network_normalizer_agrees raw_facts server_id :
  exists facts meta,
    normalize Network.cls "network" raw_facts server_id new_instance = (mkinstance (Some facts) meta, Ok facts) /\
    dkeys facts = Network.Normalizer.*1 /\
    (r ← Network.infrastructure_type_normalizer (dget_none "virt_what" raw_facts)
           (dget_none "hostnamectl" raw_facts) (dget_none "subman_virt_is_guest" raw_facts);
     Ok (raw_fact_keys r, value r))
    = (p ← fingerprint_network_infrastructure_type raw_facts; Ok (Some [p.1], p.2)) /\
    forall key v, fingerprint_network_infrastructure_type raw_facts = Ok (key, v) ->
      dget "infrastructure_type" facts = Some v.
Proof.
  destruct (normalize_total Network.cls "network" raw_facts server_id (proj2 network_class) network_honest)
    as (facts & meta & Hn & Hk & _ & Hs).
  assert ((r ← Network.infrastructure_type_normalizer (dget_none "virt_what" raw_facts)
           (dget_none "hostnamectl" raw_facts) (dget_none "subman_virt_is_guest" raw_facts);
     Ok (raw_fact_keys r, value r))
    = (p ← fingerprint_network_infrastructure_type raw_facts; Ok (Some [p.1], p.2))) as Hagree.
  { unfold Network.infrastructure_type_normalizer, fingerprint_network_infrastructure_type, deepget.
    change (str_split "__" "virt_what__value") with ["virt_what"; "value"].
    change (str_split "__" "hostnamectl__value__chassis") with ["hostnamectl"; "value"; "chassis"].
    change (str_split "__" "value") with ["value"].
    change (str_split "__" "value__chassis") with ["value"; "chassis"].
    rewrite !deepget_step by (try done; by intros r [= <-]).
    destruct (_get_nested_item (dget_none "virt_what" raw_facts) ["value"]) as [w|]; [|done].
    destruct (_get_nested_item (dget_none "hostnamectl" raw_facts) ["value"; "chassis"]) as [c|]; [|done].
    cbn [mbind res_bind].
    assert (truthy (default (VBool false) (dget "subman_virt_is_guest" raw_facts))
            = truthy (dget_none "subman_virt_is_guest" raw_facts)) as ->
      by (unfold dget_none; by destruct (dget "subman_virt_is_guest" raw_facts)).
    by repeat case_match. }
  exists facts, meta. split; [done|]. split; [done|]. split; [done|].
  intros key v Hfp. rewrite Hfp in Hagree. cbn [mbind res_bind fst snd] in Hagree.
  apply bind_Ok in Hagree as (r & Hr & [= Hkey Hv]).
  destruct (Hs "infrastructure_type") as (r' & Hr' & Hf & _).
  { by_compute. }
  rewrite Hf. rewrite (infrastructure_fact _ _ _ Hr) in Hr'. injection Hr' as <-. by rewrite Hv.
Qed.

(** Claiming a raw fact that is not read stops [normalize] midway; the object
    keeps what was done, and a second call gives the partial facts as complete. *)
Example failure_then_partial :
  let liar := mkmapper ["a"] (fun _ _ => Ok (Wrapped (mkresult VNone (Some ["b"]) false))) [] [] in
  let cls := [("x", Network.one "a" Ok); ("y", liar)] in
  let raw := [("a", VInt 1)] in
  let '(self, first) := normalize cls "s" raw VNone new_instance in
  is_ok first = false /\ (normalize cls "s" raw VNone self).2 = Ok [("x", VInt 1)].
Proof. vm_compute. split; reflexivity. Qed.

(** A child class that redefines a fact keeps its place in the order: a
    dependency on a later fact is accepted, and [normalize] then raises. *)
Example redefinition_breaks_order :
  exists cls, make_class [("x", Network.one "a" Ok); ("y", Network.one "b" Ok)]
      [("x", mkmapper ["a"] (fun _ _ => Ok (Plain VNone)) ["y"] [])] = Ok cls /\
    (normalize cls "s" [] VNone new_instance).2 = Err (KeyError "y").
Proof. eexists. split; [reflexivity | vm_compute; reflexivity]. Qed.
